(* ===== verification/_CoqProject ===== *)
-Q . S2P
Prelude.v
GoStd.v
Decimal.v
Encodings.v
GoExt.v
Sha256.v
Checkpoints.v
ArchiveState.v
ArchivePaths.v
Concurrent.v
Mirror.v
MirrorSpec.v
Price.v
Toid.v
Strkey.v
Asset.v
Amount.v
Pools.v
Edges.v
Graph.v
Tables.v
GraphInv.v
GraphSpec.v
Verify.v
VerifySpec.v
Search.v
SearchInv.v
SearchBest.v
Consume.v
PathsSpec.v
PathsBest.v
LedgerEntries.v
Compactor.v
CompactorSpec.v
Schema.v
LedgerFiles.v
Heap.v
LedgerBuffer.v
LedgerBufferSpec.v
Backend.v
BackendSpec.v
BucketReader.v
BucketReading.v
CloseMeta.v
LedgerChanges.v
TransactionReader.v
ChangeReader.v
ChangeReaderSpec.v
XdrStream.v
ArchiveVerify.v
ArchiveScan.v
ScanSpec.v
Repair.v
BucketRecords.v
Accounts.v
Envelopes.v
Transactions.v
TokenEvents.v
TokenDeltas.v
TokenTransfer.v
TokenContract.v
TokenLedger.v
TokenSamples.v
TokenSpec.v
TokenVerify.v
TokenTypes.v
Keypair.v
TxnXdr.v
TxnAssets.v
TxnOperations.v
TxnTransaction.v
TxnSpec.v
Challenge.v
ChallengeSpec.v
XdrCodec.v
XdrTypes.v
XdrTransactions.v
XdrLedger.v
XdrMessages.v
XdrSpec.v
