(* ===== verification/Prelude.v ===== *)
(** * go-stellar-sdk: a verification library

    Models of the Go code under src/ and the theorems that make them correct. A
    definition has the name of the Go function, type or field it translates, and
    stands in the file of its component; its comment says where it departs.

    ** The parts and how they meet

    Text and numbers. [Price] (src/price/main.go, src/xdr/price.go), [Amount]
    (src/amount/main.go), [Toid] (src/toid, and the cursors made of its identifiers,
    src/protocols/rpc/cursor.go) and [Strkey] (src/strkey), with its checksum in [Encodings]. What they
    use of the Go standard library is in [GoStd], [Decimal] and [Encodings]; interfaces
    of packages outside the repository are classes with laws in [GoExt].

    The order book, src/exp/orderbook. [Asset] is its data;
    [Pools] (pools.go) are constant-product exchanges; [Edges] (edges.go) is the
    set of venues of one asset; [Graph] (graph.go, batch.go) the state, its batches
    and queries, one Definition per method; [Verify] its self-check (graph.go);
    [Search] (search.go) consumes offers and searches paths, and (graph.go, from
    FindPaths on) runs the two queries. [Price.MulFractionRoundDown] is used
    by [Search], assets by every file.

    Ledger ingestion. [LedgerEntries] (src/xdr/ledger_entry.go, ledger_key.go) gives
    entries and keys; [CloseMeta] (src/xdr/ledger_close_meta.go) the meta of a ledger;
    [LedgerChanges] (src/ingest/change.go) makes changes of it, [TransactionReader]
    (ledger_transaction_reader.go, ledger_transaction.go) those of each transaction,
    and [ChangeReader] (ledger_change_reader.go) all in order; [Compactor]
    (change_compactor.go) squashes them by key, called by the compacting reader of
    [ChangeReader], whose keys [LedgerEntries] (src/xdr/main.go, ledger_key.go)
    compresses; [BucketReader] (src/ingest/checkpoint_change_reader.go) streams
    the bucket list of a checkpoint, using them, each bucket being the list of what
    [BucketRecords] (the same file, readBucketRecord) reads from it with retries, over
    [XdrStream] (src/xdr/xdrstream.go, main.go); [BucketReading], at its end, makes a
    reader and verifies the bucket lists of its archive state (again the same file).

    Token transfers, src/processors/token_transfer. [Accounts] and
    [Envelopes] (src/xdr: muxed_account.go, scval.go, asset.go, transaction_envelope.go,
    transaction_result.go and others) are addresses, hashed identifiers, envelopes,
    operations and results; [Transactions] (src/ingest/ledger_transaction.go) makes the
    opaque types of the readers concrete and gives the fees, events and fields of a
    transaction. [TokenEvents] (token_transfer_event.go, muxed_info.go) are the events,
    [TokenDeltas] (verify_events.go) what they and ledger entry changes move,
    [TokenTransfer] (helpers.go, token_transfer_processor.go) the handlers of
    operations, [TokenContract] (contract_events.go) the events of contracts and
    [TokenLedger] the events of a transaction and a ledger and their verification.
    [TokenSamples] is a ledger to evaluate them on.

    Transactions, src/txnbuild. [Keypair] (src/keypair, decorated_signature.go) signs
    and verifies; [TxnXdr] (src/xdr: the generated types, signer_key.go,
    transaction_envelope.go, asset conversions; src/network) has operations with all
    their fields, preconditions and signed envelopes, which [Envelopes] has with what
    ingestion reads. [TxnAssets] (asset.go, change_trust_asset.go, helpers.go and
    others) are assets and the validation of fields; [TxnOperations] (operation.go and
    a file per operation) builds, parses and validates each operation;
    [TxnTransaction] (memo.go, preconditions.go, transaction.go and others)
    transactions and fee bumps; [Challenge] (transaction.go, from BuildChallengeTx on)
    the challenges of web authentication.

    Encodings, src/xdr/xdr_generated.go. [XdrCodec] has the patterns its methods
    EncodeTo and DecodeFrom follow, over a class of the coder of go-xdr, and the calls
    of src/xdr/main.go. All types are in four files, a definition per method and a
    lemma per type: [XdrTypes] (keys, assets, contract values), [XdrTransactions],
    [XdrLedger] (all that a ledger's meta is made of) and [XdrMessages] (the others).
    They share the types that [TxnXdr], [LedgerEntries] and [Accounts] already have, and
    give content to those that are opaque there ([XdrTypes.xdr_entries],
    [XdrTransactions.xdr_soroban]). [XdrSpec] makes of them the codec of [TxnXdr] and
    the decoder of [XdrStream].

    History archives, src/historyarchive. [Checkpoints] (range.go) says which ledgers
    are checkpoints; [ArchiveState] (hash.go, history_archive_state.go) what an archive
    claims at one, hashed with [Sha256]; [ArchivePaths] (dirprefix.go, util.go,
    archive.go) where its files are; [Mirror] (mirror.go, util.go, archive.go) copies a
    range of them, with the worker pools of [Concurrent]; [ArchiveVerify] (verify.go)
    checks the hashes that files of ledgers, transactions and results claim;
    [ArchiveScan] (scan.go) notes with such pools what is there and verifies it, and
    [Repair] (repair.go) copies what a scan finds missing.

    Ledgers from a data store. [Schema] (src/support/datastore/schema.go) cuts
    ledgers into files and names them; [LedgerFiles] (ledger_iter.go,
    ledger_range.go) finds them; [Heap] (src/support/collections/heap) orders
    downloads; [LedgerBuffer] (src/ingest/ledgerbackend/ledger_buffer.go) downloads
    them concurrently; [Backend] (buffered_storage_backend.go, range.go,
    ledger_stream.go) serves ledgers from the buffer and streams them.

    ** How Go is modelled

    A method is a function from the state to the state; a function that can panic
    returns an option, None being the panic; one with an error a [Prelude.result].
    Integers are in Z, wrapped with [u8] to [i64] of [Prelude] where Go wraps. Maps
    are finite maps, iterated in any order ([map_to_list] up to permutation). Memory
    is explicit where aliasing matters: the nodes of a path, the TTL entries the
    compactor writes through. Goroutines are step relations, a step being a channel
    operation, a critical section or a download: [LedgerBuffer.step],
    [BucketReader.reader_step], [Concurrent.pool_step]; a theorem about them is about
    every interleaving.

    ** What is proved

    - Order book: [GraphInv] is the invariant, a graph represents offers and pools
      up to the numbering of assets. [GraphSpec]: all calls, batches and errors
      refine two maps and a queue. [VerifySpec]: the self-check
      accepts what the operations build, and what it accepts agrees with itself.
      [Tables] is shared between them.
    - Path search: [SearchInv] and [PathsSpec]: no panic, it returns, and every path
      reported is simple and realised hop by hop. [SearchBest] and [PathsBest]: a
      quote is never worse than any payment of at most two hops (it can be worse
      than longer ones). [Consume]: consumption equals a reference fill.
    - Compactor ([CompactorSpec]): a legal sequence of changes is accepted and its
      compaction has the same effect, in any order; a contradicting change is
      refused exactly when its entry has a squashed change, as entries have that were
      changed and were there before the ledger or are there now.
    - Change readers. [TransactionReader]: results meet their own envelopes. [ChangeReaderSpec]: a
      ledger is read in order and to its end, and, composed with the compactor through
      the class [ChangeSource], the compacting reader gives its net effect.
    - Token transfers. [TokenDeltas]: both maps of deltas are sums of signed movements.
      [TokenSpec]: a movement becomes a mint, burn or transfer with its net effect at
      every holder but the issuer, path payments add up, and before protocol 8 the
      source's native balance is reconciled. [TokenVerify]: only its own contract gives
      an event an asset. [TokenVerify]: the events of a ledger come in the order of its
      protocol, and verify exactly when they move what the changes do. [TokenTypes]: each
      event is well formed, of strkeys of holders, an integer and the place it is from.
    - Transactions. [TxnSpec]: every operation that the types of the package hold
      is parsed, and built again to the same form; fees are exact or refused,
      a fee bump offers no less a rate than its transaction, and one over an old envelope
      keeps its hash, so its signatures. [ChallengeSpec]: a verified challenge has one
      signature of the server and one of each signer found, and no other.
      A challenge that is built and signed verifies, when none of its signatures
      verifies with another of the keys at hand that has the same hint ([only_own]).
      The curve is a class ([Keypair.Ed25519Laws]), as is the encoding of an
      envelope, for which [XdrSpec] has the generated one.
    - Encodings. Every type is read back from what it is encoded to, when its values
      are within their widths and sizes ([_valid]), whatever follows; so different
      values have different encodings. [XdrSpec]: envelopes are read back from bytes and
      base 64, the hash that is signed determines every field that it should, and
      ledgers written in frames are read back in order by [XdrStream].
    - Checkpoint reader ([BucketReading]): one pass from the
      newest bucket on yields the live state of the oldest-first algorithm; end of
      file means that every bucket was read and had its hash; results through the
      channel are in order and errors sticky. [XdrStream] and [BucketRecords]: framed records are
      read back; a bucket that validates was read right over whatever connections, and
      is read whole if one in three connections is good.
    - History archives. [BucketReading]: a reader whose bucket list hash was verified
      streams what a trusted state would. [MirrorSpec], by rely and guarantee: a mirror
      without an error copied all it should, and without failures every interleaving of
      the workers ends, with no panic and no error.
      [ScanSpec]: a scan without an error finds just what is missing; [Repair]: after a
      repair without one nothing is, and nothing was lost.
      [ArchiveVerify]: two verified histories that agree on one hash agree on the range
      before it, in the headers that were noted last of each ledger. Collisions of SHA-256 among the messages at hand are excluded by
      hypothesis, for the concrete function.
    - Data store: object keys parse and sort, listings are read to their end, the
      binary search ends on an oldest ledger. Buffer
      ([LedgerBufferSpec]): files reach the consumer in order under every
      interleaving, and the next one can always arrive. Backend ([BackendSpec]):
      a ledger returned is the one asked for, reading in sequence does not fail, and
      a stream yields its range in order.
    - Text and numbers: decoders accept exactly what encoders write, orders of texts
      and values agree, arithmetic is exact or reports overflow.

    ** Fuel

    Where recursion follows no data, fuel bounds it and a theorem says that enough
    of it gives the result: digits and base-32 groups take one unit each and are
    given their length; [Price.continuedFraction_loop] and [Search.node_chain] are
    given a bound that their theorems show to be enough; [Heap] sifts along indices;
    [ChangeReader.Read_loop] counts the states and transactions it can pass and
    [TokenLedger.read_fuel] those of a ledger ([TokenVerify] shows it enough); loops over
    a channel or a range ([Checkpoints], [Backend.stream_loop], compaction) take the
    fuel as an argument, and with enough for their range return without using it up.
    A decoder is given the depth that values may still nest, as in the code; a type has
    a depth that is enough for it, in the lemma that it is read back. Values of recursive
    types nest at most [XdrCodec.nesting] deep, an envelope takes [5 * nesting + 21] and
    the meta of a ledger [5 * nesting + 29]; the theorems ask that the default depth of
    the library is no less.

    ** What is not modelled, and why

    Of the generated XDR code: the views, which read an encoding in place, the second
    set of types in src/gxdr, the texts of enumerations and the constructors and
    accessors of unions that no modelled code calls. Before [XdrCodec], encoders are
    classes with laws (except for the few types [Accounts] hashes), since what uses them
    relies on no more. The protobuf encoding of events. Locks, since
    the methods under them are single steps. Contexts other than their cancellation.
    Buffer pools, metrics, progress counts, JSON forms. HTTP clients, Horizon's record
    types, the stellar-core process, gzip, storage back ends and caches, databases,
    command-line tools: input and output with little logic of their own. Of transaction
    building: contract calls (their values are opaque, [TxnXdr.SorobanTypes]), random
    keys, and the text and binary forms of key pairs. *)
From Stdlib Require Import ZArith Lia.
From stdpp Require Import base list gmap strings vector option sorting.
#[local] Open Scope Z_scope.

(** ** Go run-time outcomes

    A Go function that can hit a run-time panic (an index out of range, a
    failed [Must...], an explicit [panic]) is modelled in [option]: [None] is
    the panic.  A Go function that returns [(value, error)] returns a
    [result].  *)
Inductive result (E A : Type) : Type :=
| Ok (a : A)
| Err (e : E).
Arguments Ok {E A} a.
Arguments Err {E A} e.

#[export] Instance result_eq_dec {E A} `{EqDecision E, EqDecision A} :
  EqDecision (result E A).
Proof. solve_decision. Defined.

Definition result_bind {E A B} (r : result E A) (k : A -> result E B) : result E B :=
  match r with Ok a => k a | Err e => Err e end.

Definition is_Ok {E A} (r : result E A) : bool :=
  match r with Ok _ => true | Err _ => false end.

Declare Scope go_scope.
Delimit Scope go_scope with go.
Notation "'let!' x := e 'in' k" :=
  (match e with Some x => k | None => None end)
  (at level 10, x pattern, e at level 100, k at level 200) : go_scope.
Notation "'let?' x := e 'in' k" :=
  (result_bind e (fun x => k))
  (at level 10, x pattern, e at level 100, k at level 200) : go_scope.
(** [check! b in k] panics unless [b]. *)
Notation "'check!' b 'in' k" :=
  (if b then k else None)
  (at level 10, b at level 100, k at level 200) : go_scope.
Create HintDb go.
Create HintDb ints.
#[export] Hint Unfold result_bind : go.

(** ** Machine integers

    A [w]-bit Go integer is a [Z]; a conversion or an operation that can wrap
    is written out with one of these. *)
Definition u8 (z : Z) : Z := z mod 256.
Definition u16 (z : Z) : Z := z mod 65536.
Definition u32 (z : Z) : Z := z mod 4294967296.
Definition u64 (z : Z) : Z := z mod 18446744073709551616.
Definition i32 (z : Z) : Z := (z + 2147483648) mod 4294967296 - 2147483648.
Definition i64 (z : Z) : Z :=
  (z + 9223372036854775808) mod 18446744073709551616 - 9223372036854775808.

Abbreviation MaxInt32 := 2147483647.
Abbreviation MinInt32 := (-2147483648).
Abbreviation MaxUint32 := 4294967295.
Abbreviation MaxInt64 := 9223372036854775807.
Abbreviation MinInt64 := (-9223372036854775808).
Abbreviation MaxUint64 := 18446744073709551615.

Definition is_i32 (z : Z) : Prop := MinInt32 <= z <= MaxInt32.
Definition is_u32 (z : Z) : Prop := 0 <= z <= MaxUint32.
Definition is_i64 (z : Z) : Prop := MinInt64 <= z <= MaxInt64.
Definition is_u64 (z : Z) : Prop := 0 <= z <= MaxUint64.
#[export] Hint Unfold is_i32 is_u32 is_i64 is_u64 : ints.

Lemma u8_id z : 0 <= z < 256 -> u8 z = z.
Proof. unfold u8; intros; now apply Z.mod_small. Qed.
Lemma u16_id z : 0 <= z < 65536 -> u16 z = z.
Proof. unfold u16; intros; now apply Z.mod_small. Qed.
Lemma u32_id z : is_u32 z -> u32 z = z.
Proof. unfold u32, is_u32; intros; apply Z.mod_small; lia. Qed.
Lemma u64_id z : is_u64 z -> u64 z = z.
Proof. unfold u64, is_u64; intros; apply Z.mod_small; lia. Qed.
Lemma i32_id z : is_i32 z -> i32 z = z.
Proof. unfold i32, is_i32; intros; rewrite Z.mod_small; lia. Qed.
Lemma i64_id z : is_i64 z -> i64 z = z.
Proof. unfold i64, is_i64; intros; rewrite Z.mod_small; lia. Qed.
Lemma u32_range z : is_u32 (u32 z).
Proof. unfold u32, is_u32; pose proof (Z.mod_pos_bound z 4294967296); lia. Qed.
Lemma u64_range z : is_u64 (u64 z).
Proof. unfold u64, is_u64; pose proof (Z.mod_pos_bound z 18446744073709551616); lia. Qed.
Lemma i32_range z : is_i32 (i32 z).
Proof.
  unfold i32, is_i32; pose proof (Z.mod_pos_bound (z + 2147483648) 4294967296); lia.
Qed.
Lemma i64_range z : is_i64 (i64 z).
Proof.
  unfold i64, is_i64.
  pose proof (Z.mod_pos_bound (z + 9223372036854775808) 18446744073709551616); lia.
Qed.
#[export] Hint Resolve u32_range u64_range i32_range i64_range : ints.

(** Removes the wrap-arounds that the hypotheses make no-ops. *)
Ltac unwrap_ints :=
  repeat match goal with
  | |- context [u8 ?z] => rewrite (u8_id z) by lia
  | |- context [u16 ?z] => rewrite (u16_id z) by lia
  | |- context [u32 ?z] => rewrite (u32_id z) by (unfold is_u32; lia)
  | |- context [u64 ?z] => rewrite (u64_id z) by (unfold is_u64; lia)
  | |- context [i32 ?z] => rewrite (i32_id z) by (unfold is_i32; lia)
  | |- context [i64 ?z] => rewrite (i64_id z) by (unfold is_i64; lia)
  end.

(** Turns boolean tests on integers in the context into propositions. *)
Ltac bool_to_prop :=
  repeat match goal with
  | H : _ && _ = true |- _ => apply andb_true_iff in H as [? ?]
  | H : _ || _ = false |- _ => apply orb_false_iff in H as [? ?]
  | H : negb _ = true |- _ => apply negb_true_iff in H
  | H : negb _ = false |- _ => apply negb_false_iff in H
  | H : (_ <? _) = true |- _ => apply Z.ltb_lt in H
  | H : (_ <? _) = false |- _ => apply Z.ltb_ge in H
  | H : (_ <=? _) = true |- _ => apply Z.leb_le in H
  | H : (_ <=? _) = false |- _ => apply Z.leb_gt in H
  | H : (_ =? _) = true |- _ => apply Z.eqb_eq in H
  | H : (_ =? _) = false |- _ => apply Z.eqb_neq in H
  | H : (_ >? _) = _ |- _ => rewrite Z.gtb_ltb in H
  | H : (_ >=? _) = _ |- _ => rewrite Z.geb_leb in H
  end.

(** Splits on the integer test of the leading [if] of the goal. *)
Ltac case_bool :=
  match goal with
  | |- context [if ?b then _ else _] =>
      lazymatch b with context [if _ then _ else _] => fail | _ => idtac end;
      let E := fresh "E" in destruct b eqn:E; bool_to_prop
  end.

(** Disjoint bit fields add up. *)
Lemma lor_disjoint a b k m :
  0 <= k -> m = 2 ^ k -> 0 <= b < m -> Z.lor (a * m) b = a * m + b.
Proof.
  intros Hk -> Hb. rewrite <- Z.add_lor_land.
  assert (Z.land (a * 2 ^ k) b = 0) as ->; [|lia].
  apply Z.bits_inj'; intros i Hi. rewrite Z.land_spec, Z.bits_0, Z.mul_pow2_bits by done.
  destruct (Z.lt_ge_cases i k).
  - by rewrite Z.testbit_neg_r by lia.
  - rewrite <- (Z.mod_small b (2 ^ k)) by done. rewrite Z.mod_pow2_bits_high by lia.
    apply andb_false_r.
Qed.

(** ** Slices indexed by Go integers *)
Definition go_len {A} (l : list A) : Z := Z.of_nat (length l).

(** [l[i]]: panics out of range. *)
Definition go_index {A} (l : list A) (i : Z) : option A :=
  if 0 <=? i then l !! Z.to_nat i else None.

(** [l[i] = x]: panics out of range. *)
Definition go_set {A} (l : list A) (i : Z) (x : A) : option (list A) :=
  if (0 <=? i) && (i <? go_len l) then Some (<[Z.to_nat i := x]> l) else None.

Lemma go_index_Some {A} (l : list A) i x :
  go_index l i = Some x <-> 0 <= i /\ l !! Z.to_nat i = Some x.
Proof. unfold go_index. destruct (Z.leb_spec 0 i); [tauto|]. split; [done|lia]. Qed.

Lemma go_index_lt {A} (l : list A) i :
  0 <= i < go_len l -> exists x, go_index l i = Some x.
Proof.
  intros H. destruct (lookup_lt_is_Some_2 l (Z.to_nat i)) as [x Hx].
  { unfold go_len in H; lia. }
  exists x; apply go_index_Some; split; [lia | done].
Qed.

Lemma go_index_range {A} (l : list A) i x :
  go_index l i = Some x -> 0 <= i < go_len l.
Proof.
  intros [H0 H]%go_index_Some. apply lookup_lt_Some in H. unfold go_len; lia.
Qed.

Lemma go_set_lt {A} (l : list A) i x :
  0 <= i < go_len l -> go_set l i x = Some (<[Z.to_nat i := x]> l).
Proof. intros H. unfold go_set. case_bool; [done |]. lia. Qed.

Lemma go_len_insert {A} (l : list A) i x : go_len (<[i := x]> l) = go_len l.
Proof. unfold go_len. by rewrite length_insert. Qed.

(** ** [sort.Search]: the standard library's binary search *)
Fixpoint sort_Search_loop (fuel : nat) (f : nat -> bool) (i j : nat) : nat :=
  match fuel with
  | O => i
  | S fuel =>
      if (i <? j)%nat then
        let h := ((i + j) / 2)%nat in
        if f h then sort_Search_loop fuel f i h else sort_Search_loop fuel f (h + 1) j
      else i
  end.

Definition sort_Search (n : nat) (f : nat -> bool) : nat := sort_Search_loop n f 0 n.

Lemma half_lt (i j : nat) : (i < j)%nat -> (i <= (i + j) / 2 < j)%nat.
Proof.
  intros H; split.
  - apply Nat.div_le_lower_bound; lia.
  - apply Nat.Div0.div_lt_upper_bound; lia.
Qed.

Lemma sort_Search_loop_spec fuel f n i j :
  (j - i <= fuel)%nat -> (i <= j <= n)%nat ->
  (forall a b, (a <= b < n)%nat -> f a = true -> f b = true) ->
  (forall k, (k < i)%nat -> f k = false) ->
  (forall k, (j <= k < n)%nat -> f k = true) ->
  let r := sort_Search_loop fuel f i j in
  (r <= n)%nat /\ (forall k, (k < r)%nat -> f k = false) /\
  (forall k, (r <= k < n)%nat -> f k = true).
Proof.
  revert i j; induction fuel as [|fuel IH]; intros i j Hf Hij Hmono Hlo Hhi; cbn [sort_Search_loop].
  - replace j with i in * by lia. repeat split; [lia | done | done].
  - destruct (Nat.ltb_spec i j) as [Hlt|Hge].
    + pose proof (half_lt i j Hlt) as Hh. destruct (f _) eqn:E.
      * apply IH; [lia | lia | done | done | ].
        intros k Hk. apply Hmono with ((i + j) / 2)%nat; [lia | done].
      * apply IH; [lia | lia | done | | done].
        intros k Hk. destruct (f k) eqn:Ek; [|done].
        rewrite <- E. symmetry. apply Hmono with k; [lia | done].
    + replace j with i in * by lia. repeat split; [lia | done | done].
Qed.

(** On a monotone predicate [sort.Search] returns the least index at which it
    holds ([n] when there is none). *)
Lemma sort_Search_spec n f :
  (forall a b, (a <= b < n)%nat -> f a = true -> f b = true) ->
  let r := sort_Search n f in
  (r <= n)%nat /\ (forall k, (k < r)%nat -> f k = false) /\
  (forall k, (r <= k < n)%nat -> f k = true).
Proof.
  intros Hmono. apply sort_Search_loop_spec; [lia | lia | done | lia | lia].
Qed.

Lemma sort_Search_le n f : (sort_Search n f <= n)%nat.
Proof.
  unfold sort_Search. cut (forall fuel i j, (i <= j)%nat -> (sort_Search_loop fuel f i j <= j)%nat).
  { intros H; apply H; lia. }
  induction fuel as [|fuel IH]; intros i j Hij; cbn [sort_Search_loop]; [done|].
  destruct (Nat.ltb_spec i j) as [Hlt|]; [|done].
  pose proof (half_lt i j Hlt). destruct (f _).
  - transitivity ((i + j) / 2)%nat; [apply IH|]; lia.
  - apply IH; lia.
Qed.
