(* ===== verification/GoStd.v ===== *)
(** * The Go standard library functions the program uses

    Byte strings, [encoding/binary], decimal formatting and parsing
    ([fmt], [strconv]) and the part of [math/big] and [math/bits] that the
    price and amount packages call.  A Go [string] and a [[]byte] are both
    [list byte]. *)
From Stdlib Require Strings.Byte Strings.String.
From Stdlib Require Import ZArith Lia QArith Qreduction.
From stdpp Require Import base list gmap vector option.
From S2P Require Import Prelude.
Export String.StringSyntax.
#[local] Open Scope Z_scope.

Abbreviation byte := Corelib.Init.Byte.byte.
Abbreviation bytes := (list Corelib.Init.Byte.byte).
(** A string literal. *)
Definition str (s : String.string) : bytes := String.list_byte_of_string s.
Arguments str s%_string_scope.

#[export] Instance byte_eq_dec : EqDecision byte := Byte.byte_eq_dec.
#[export] Program Instance byte_countable : Countable byte :=
  inj_countable Byte.to_N Byte.of_N _.
Next Obligation. intros b. apply Byte.of_to_N. Qed.

(** ** Bytes and integers *)
Definition Z_of_byte (b : byte) : Z := Z.of_N (Byte.to_N b).
Definition zero_byte : byte := Corelib.Init.Byte.x00.
(** [byte(z)]. *)
Definition byte_of_Z (z : Z) : byte :=
  default Corelib.Init.Byte.x00 (Byte.of_N (Z.to_N (u8 z))).

Lemma Z_of_byte_range b : 0 <= Z_of_byte b < 256.
Proof. unfold Z_of_byte. pose proof (Byte.to_N_bounded b). lia. Qed.
#[export] Hint Resolve Z_of_byte_range : ints.

Lemma byte_of_Z_of_byte b : byte_of_Z (Z_of_byte b) = b.
Proof.
  unfold byte_of_Z. rewrite u8_id by apply Z_of_byte_range.
  unfold Z_of_byte. by rewrite N2Z.id, Byte.of_to_N.
Qed.

Lemma Z_of_byte_of_Z z : Z_of_byte (byte_of_Z z) = u8 z.
Proof.
  unfold byte_of_Z, Z_of_byte. pose proof (Z.mod_pos_bound z 256 ltac:(lia)) as H.
  destruct (Byte.of_N (Z.to_N (u8 z))) as [b|] eqn:E; simpl.
  - apply Byte.to_of_N in E. rewrite E. unfold u8 in *. lia.
  - apply Byte.of_N_None_iff in E. unfold u8 in *. lia.
Qed.

Lemma Z_of_byte_inj a b : Z_of_byte a = Z_of_byte b -> a = b.
Proof. intros H. by rewrite <- (byte_of_Z_of_byte a), H, byte_of_Z_of_byte. Qed.
#[export] Instance Z_of_byte_Inj : Inj (=) (=) Z_of_byte := Z_of_byte_inj.

(** ** String order: Go compares strings bytewise *)
Fixpoint bytes_ltb (a b : bytes) : bool :=
  match a, b with
  | _, [] => false
  | [], _ :: _ => true
  | x :: a, y :: b =>
      (Z_of_byte x <? Z_of_byte y) ||
      ((Z_of_byte x =? Z_of_byte y) && bytes_ltb a b)
  end.

Lemma bytes_ltb_irrefl a : bytes_ltb a a = false.
Proof. induction a as [|x a IH]; [done|]. simpl. rewrite Z.ltb_irrefl, Z.eqb_refl. done. Qed.

Lemma bytes_ltb_trans a b c : bytes_ltb a b = true -> bytes_ltb b c = true -> bytes_ltb a c = true.
Proof.
  revert b c; induction a as [|x a IH]; intros [|y b] [|z c]; simpl; try done.
  rewrite !orb_true_iff, !andb_true_iff, !Z.ltb_lt, !Z.eqb_eq.
  intros [H1|[H1 H1']] [H2|[H2 H2']]; [left; lia | left; lia | left; lia |].
  right; split; [lia|]. by eapply IH.
Qed.

Lemma bytes_ltb_total a b : bytes_ltb a b = true \/ a = b \/ bytes_ltb b a = true.
Proof.
  revert b; induction a as [|x a IH]; intros [|y b]; simpl; auto.
  rewrite !orb_true_iff, !andb_true_iff, !Z.ltb_lt, !Z.eqb_eq.
  destruct (Z.lt_trichotomy (Z_of_byte x) (Z_of_byte y)) as [?|[Hx%Z_of_byte_inj|?]]; auto.
  subst y. destruct (IH b) as [?|[->|?]]; auto 10.
Qed.

Lemma bytes_ltb_app_same p a b : bytes_ltb (p ++ a) (p ++ b) = bytes_ltb a b.
Proof. induction p as [|x p IH]; [done|]. simpl. by rewrite Z.ltb_irrefl, Z.eqb_refl. Qed.

(** ** Big- and little-endian integers ([encoding/binary]) *)
Fixpoint be_put (n : nat) (v : Z) : bytes :=
  match n with
  | O => []
  | S n => be_put n (v / 256) ++ [byte_of_Z v]
  end.
Definition be_get (l : bytes) : Z := fold_left (fun a b => a * 256 + Z_of_byte b) l 0.
Definition BigEndian_PutUint64 (v : Z) : bytes := be_put 8 v.
Definition BigEndian_Uint (l : bytes) : Z := be_get l.
Definition LittleEndian_PutUint16 (v : Z) : bytes := rev (be_put 2 v).
Definition LittleEndian_Uint16 (l : bytes) : Z := be_get (rev l).

Lemma length_be_put n v : length (be_put n v) = n.
Proof. revert v; induction n as [|n IH]; intros v; simpl; [done|]. rewrite length_app, IH; simpl; lia. Qed.

Lemma be_get_snoc l b : be_get (l ++ [b]) = be_get l * 256 + Z_of_byte b.
Proof. unfold be_get. by rewrite fold_left_app. Qed.

Lemma be_get_put n v : 0 <= v < 256 ^ Z.of_nat n -> be_get (be_put n v) = v.
Proof.
  revert v; induction n as [|n IH]; intros v Hv.
  - simpl in *. unfold be_get; simpl. lia.
  - cbn [be_put]. rewrite be_get_snoc, Z_of_byte_of_Z, IH.
    + unfold u8. pose proof (Z.div_mod v 256). lia.
    + rewrite Nat2Z.inj_succ, Z.pow_succ_r in Hv by lia.
      split; [apply Z.div_pos; lia | apply Z.div_lt_upper_bound; lia].
Qed.

Lemma be_get_range l : 0 <= be_get l < 256 ^ Z.of_nat (length l).
Proof.
  induction l as [|b l IH] using rev_ind; [unfold be_get; simpl; lia|].
  rewrite be_get_snoc, length_app, Nat2Z.inj_add; simpl (Z.of_nat (length [b])).
  rewrite Z.pow_add_r by lia. pose proof (Z_of_byte_range b). lia.
Qed.

Lemma be_put_get l : be_put (length l) (be_get l) = l.
Proof.
  induction l as [|b l IH] using rev_ind; [done|].
  rewrite length_app, be_get_snoc. simpl length. rewrite Nat.add_1_r. cbn [be_put].
  pose proof (Z_of_byte_range b).
  rewrite Z.div_add_l, (Z.div_small (Z_of_byte b)), Z.add_0_r, IH by lia.
  f_equal. f_equal. apply Z_of_byte_inj. rewrite Z_of_byte_of_Z.
  unfold u8. rewrite Z.add_comm, Z.mod_add, Z.mod_small; lia.
Qed.

Lemma be_get_inj a b : length a = length b -> be_get a = be_get b -> a = b.
Proof. intros H E. by rewrite <- (be_put_get a), <- (be_put_get b), H, E. Qed.

(** ** Decimal integers ([strconv], [fmt]) *)
Definition digit_byte (d : Z) : byte := byte_of_Z (48 + d).
(** The value of an ASCII decimal digit. *)
Definition digit_val (b : byte) : option Z :=
  let v := Z_of_byte b in
  if (48 <=? v) && (v <=? 57) then Some (v - 48) else None.
Definition is_digit (b : byte) : bool :=
  match digit_val b with Some _ => true | None => false end.

Fixpoint dec_loop (fuel : nat) (n : Z) (acc : bytes) : bytes :=
  match fuel with
  | O => acc
  | S fuel =>
      if n <? 10 then digit_byte n :: acc
      else dec_loop fuel (n / 10) (digit_byte (n mod 10) :: acc)
  end.
(** [strconv.FormatUint(n, 10)], which is also [fmt]'s [%d]. *)
Definition FormatUint (n : Z) : bytes := dec_loop (S (Z.to_nat (Z.log2 n))) n [].
Definition minus_sign : byte := byte_of_Z 45.
Definition plus_sign : byte := byte_of_Z 43.
Definition dot : byte := byte_of_Z 46.
Definition zero_digit : byte := byte_of_Z 48.
Definition FormatInt (z : Z) : bytes :=
  if z <? 0 then minus_sign :: FormatUint (- z) else FormatUint z.
(** [fmt]'s [%0<w>d] of a non-negative number. *)
Definition pad_zeros (w : nat) (s : bytes) : bytes := replicate (w - length s) zero_digit ++ s.

Inductive num_error : Type := ErrSyntax | ErrRange.

Fixpoint ParseUint_loop (maxVal n : Z) (l : bytes) : result num_error Z :=
  match l with
  | [] => Ok n
  | c :: l =>
      match digit_val c with
      | None => Err ErrSyntax
      | Some d =>
          if 1844674407370955162 <=? n then Err ErrRange
          else
            let n10 := u64 (n * 10) in
            let n1 := u64 (n10 + d) in
            if (n1 <? n10) || (maxVal <? n1) then Err ErrRange
            else ParseUint_loop maxVal n1 l
      end
  end.
(** [strconv.ParseUint(s, 10, bits)]. *)
Definition ParseUint (s : bytes) (bits : Z) : result num_error Z :=
  match s with
  | [] => Err ErrSyntax
  | _ => ParseUint_loop (2 ^ bits - 1) 0 s
  end.
(** [strconv.ParseInt(s, 10, bits)]. *)
Definition ParseInt (s : bytes) (bits : Z) : result num_error Z :=
  let finish (neg : bool) (s : bytes) :=
    match ParseUint s bits with
    | Err e => Err e
    | Ok un =>
        if negb neg && (2 ^ (bits - 1) <=? un) then Err ErrRange
        else if neg && (2 ^ (bits - 1) <? un) then Err ErrRange
        else Ok (if neg then - un else un)
    end in
  match s with
  | [] => Err ErrSyntax
  | c :: s' =>
      if bool_decide (c = plus_sign) then finish false s'
      else if bool_decide (c = minus_sign) then finish true s'
      else finish false s
  end.

(** The number a string of digits denotes, read after a prefix worth [n]. *)
Definition dec_val_from (n : Z) (l : bytes) : Z :=
  fold_left (fun a c => a * 10 + (Z_of_byte c - 48)) l n.
Definition dec_val (l : bytes) : Z := dec_val_from 0 l.

Lemma digit_val_Some b d : digit_val b = Some d <-> 0 <= d <= 9 /\ Z_of_byte b = 48 + d.
Proof.
  unfold digit_val. destruct ((48 <=? Z_of_byte b) && (Z_of_byte b <=? 57)) eqn:E.
  - bool_to_prop. split; [intros [= <-]; lia | intros [? ?]; f_equal; lia].
  - split; [done|]. intros [? ?]. rewrite andb_false_iff, !Z.leb_gt in E. lia.
Qed.

Lemma is_digit_val b : is_digit b = true <-> 48 <= Z_of_byte b <= 57.
Proof.
  unfold is_digit. destruct (digit_val b) as [d|] eqn:E.
  - apply digit_val_Some in E. split; [lia|done].
  - split; [done|]. intros H.
    assert (digit_val b = Some (Z_of_byte b - 48)) by (apply digit_val_Some; lia). congruence.
Qed.

Lemma digit_byte_val d : 0 <= d <= 9 -> Z_of_byte (digit_byte d) = 48 + d.
Proof. intros H. unfold digit_byte. rewrite Z_of_byte_of_Z, u8_id; lia. Qed.

Lemma digit_byte_is_digit d : 0 <= d <= 9 -> is_digit (digit_byte d) = true.
Proof. intros H. apply is_digit_val. rewrite digit_byte_val; lia. Qed.

Lemma dec_val_from_app n a b : dec_val_from n (a ++ b) = dec_val_from (dec_val_from n a) b.
Proof. apply fold_left_app. Qed.

Lemma dec_val_from_ge n l :
  0 <= n -> Forall (fun c => is_digit c = true) l -> n <= dec_val_from n l.
Proof.
  intros Hn Hl; revert n Hn; induction Hl as [|c l Hc _ IH]; intros n Hn; [done|].
  apply is_digit_val in Hc. simpl. specialize (IH (n * 10 + (Z_of_byte c - 48))). lia.
Qed.

Lemma dec_val_from_shift n l :
  dec_val_from n l = n * 10 ^ Z.of_nat (length l) + dec_val l.
Proof.
  unfold dec_val. revert n; induction l as [|c l IH] using rev_ind; intros n.
  { unfold dec_val_from; simpl; lia. }
  rewrite !dec_val_from_app, length_app, Nat2Z.inj_add. simpl (Z.of_nat (length [c])).
  rewrite Z.pow_add_r, IH by lia. unfold dec_val_from at 1 3; simpl. lia.
Qed.

Lemma dec_val_cons c l :
  dec_val (c :: l) = (Z_of_byte c - 48) * 10 ^ Z.of_nat (length l) + dec_val l.
Proof. unfold dec_val at 1. simpl. by rewrite dec_val_from_shift. Qed.

Lemma dec_val_range l :
  Forall (fun c => is_digit c = true) l -> 0 <= dec_val l < 10 ^ Z.of_nat (length l).
Proof.
  induction 1 as [|c l Hc _ IH]; [unfold dec_val; simpl; lia|].
  rewrite dec_val_cons. apply is_digit_val in Hc. simpl length.
  rewrite Nat2Z.inj_succ, Z.pow_succ_r by lia. nia.
Qed.

Lemma dec_loop_spec fuel n acc :
  0 <= n -> (Z.to_nat (Z.log2 n) < fuel)%nat ->
  exists l, dec_loop fuel n acc = l ++ acc /\ l <> [] /\
    Forall (fun c => is_digit c = true) l /\ dec_val l = n /\
    (forall k, 1 <= Z.of_nat k -> n < 10 ^ Z.of_nat k -> (length l <= k)%nat).
Proof.
  revert n acc; induction fuel as [|fuel IH]; intros n acc Hn Hf; [lia|].
  cbn [dec_loop]. destruct (Z.ltb_spec n 10) as [Hlt|Hge].
  - exists [digit_byte n]. repeat split; [done| | |].
    + constructor; [apply digit_byte_is_digit; lia|done].
    + unfold dec_val, dec_val_from; simpl. rewrite digit_byte_val; lia.
    + intros k Hk _. simpl. lia.
  - assert (Hm : 0 <= n mod 10 <= 9) by (pose proof (Z.mod_pos_bound n 10); lia).
    assert (Hlog : Z.log2 (n / 10) < Z.log2 n).
    { apply Z.log2_lt_pow2; [apply Z.div_str_pos; lia|].
      assert (n < 2 ^ Z.succ (Z.log2 n)) by (apply Z.log2_spec; lia).
      rewrite Z.pow_succ_r in * by apply Z.log2_nonneg.
      apply Z.div_lt_upper_bound; lia. }
    destruct (IH (n / 10) (digit_byte (n mod 10) :: acc)) as (l & E & Hne & Hd & Hv & Hk).
    { apply Z.div_pos; lia. }
    { pose proof (Z.log2_nonneg (n / 10)). lia. }
    exists (l ++ [digit_byte (n mod 10)]). rewrite E, <- app_assoc. repeat split.
    + by destruct l.
    + apply Forall_app; split; [done|]. constructor; [by apply digit_byte_is_digit|done].
    + unfold dec_val in *. rewrite dec_val_from_app, Hv.
      unfold dec_val_from; simpl. rewrite digit_byte_val by done.
      pose proof (Z.div_mod n 10). lia.
    + intros k Hk1 Hlt. rewrite length_app; simpl.
      destruct k as [|k]; [lia|]. destruct k as [|k]; [simpl in Hlt; lia|].
      specialize (Hk (S k) ltac:(lia)). rewrite Nat2Z.inj_succ, Z.pow_succ_r in Hlt by lia.
      assert (n / 10 < 10 ^ Z.of_nat (S k)) by (apply Z.div_lt_upper_bound; lia).
      specialize (Hk ltac:(done)). lia.
Qed.

Lemma FormatUint_spec n :
  0 <= n ->
  FormatUint n <> [] /\ Forall (fun c => is_digit c = true) (FormatUint n) /\
  dec_val (FormatUint n) = n /\
  (forall k, 1 <= Z.of_nat k -> n < 10 ^ Z.of_nat k -> (length (FormatUint n) <= k)%nat).
Proof.
  intros Hn. destruct (dec_loop_spec (S (Z.to_nat (Z.log2 n))) n [] Hn) as (l & E & ?); [lia|].
  unfold FormatUint. by rewrite E, app_nil_r.
Qed.

Lemma ParseUint_loop_Ok maxVal n l :
  maxVal <= MaxUint64 -> 0 <= n -> Forall (fun c => is_digit c = true) l ->
  dec_val_from n l <= maxVal -> ParseUint_loop maxVal n l = Ok (dec_val_from n l).
Proof.
  intros Hmax Hn Hl; revert n Hn; induction Hl as [|c l Hc Hl IH]; intros n Hn Hle; [done|].
  simpl in *. apply is_digit_val in Hc.
  pose proof (dec_val_from_ge (n * 10 + (Z_of_byte c - 48)) l ltac:(lia) Hl).
  assert (digit_val c = Some (Z_of_byte c - 48)) as -> by (apply digit_val_Some; lia).
  destruct (Z.leb_spec 1844674407370955162 n); [lia|].
  unwrap_ints. rewrite (proj2 (Z.ltb_ge _ _)), (proj2 (Z.ltb_ge _ _)) by lia. simpl.
  apply IH; lia.
Qed.

Lemma ParseUint_Ok s bits :
  0 <= bits <= 64 -> s <> [] -> Forall (fun c => is_digit c = true) s ->
  dec_val s < 2 ^ bits -> ParseUint s bits = Ok (dec_val s).
Proof.
  intros Hb Hne Hs Hv. unfold ParseUint. destruct s as [|c s]; [done|].
  assert (2 ^ bits <= 2 ^ 64) by (apply Z.pow_le_mono_r; lia).
  apply ParseUint_loop_Ok; [lia|lia|done|]. unfold dec_val in Hv. lia.
Qed.

Lemma ParseUint_FormatUint n bits :
  0 <= bits <= 64 -> 0 <= n < 2 ^ bits -> ParseUint (FormatUint n) bits = Ok n.
Proof.
  intros Hb Hn. destruct (FormatUint_spec n) as (H1 & H2 & H3 & _); [lia|].
  rewrite ParseUint_Ok; rewrite ?H3; done || lia.
Qed.

Lemma digit_not_sign c s :
  is_digit c = true -> ParseInt (c :: s) 64 =
    match ParseUint (c :: s) 64 with
    | Err e => Err e
    | Ok un => if 2 ^ 63 <=? un then Err ErrRange else Ok un
    end.
Proof.
  intros Hc. apply is_digit_val in Hc. unfold ParseInt.
  rewrite !bool_decide_eq_false_2; [|intros ->; destruct Hc as [Hc _]; by apply Hc..].
  change (64 - 1) with 63. destruct (ParseUint (c :: s) 64) as [a|]; [|done].
  cbn [negb andb]. by destruct (2 ^ 63 <=? a).
Qed.

Lemma ParseInt_digits s :
  s <> [] -> Forall (fun c => is_digit c = true) s -> dec_val s <= MaxInt64 ->
  ParseInt s 64 = Ok (dec_val s).
Proof.
  intros Hne Hs Hv. destruct s as [|c s]; [done|].
  assert (Hp : dec_val (c :: s) < 2 ^ 63).
  { change (2 ^ 63) with 9223372036854775808. lia. }
  rewrite digit_not_sign by by inversion Hs.
  rewrite ParseUint_Ok; [|lia|done|done|].
  - by rewrite (proj2 (Z.leb_gt _ _)).
  - transitivity (2 ^ 63); done.
Qed.

Lemma dec_val_zeros k s : dec_val (replicate k zero_digit ++ s) = dec_val s.
Proof.
  induction k as [|k IH]; [done|]. simpl. rewrite dec_val_cons.
  change (Z_of_byte zero_digit) with 48. rewrite IH. lia.
Qed.

Lemma pad_zeros_digits w s :
  Forall (fun c => is_digit c = true) s -> Forall (fun c => is_digit c = true) (pad_zeros w s).
Proof.
  intros H. apply Forall_app; split; [|done]. by apply Forall_replicate.
Qed.

Lemma length_pad_zeros w s : (length s <= w)%nat -> length (pad_zeros w s) = w.
Proof. intros H. unfold pad_zeros. rewrite length_app, length_replicate. lia. Qed.

(** On digit strings of one length the bytewise order is the numeric order. *)
Lemma bytes_ltb_digits a b :
  length a = length b ->
  Forall (fun c => is_digit c = true) a -> Forall (fun c => is_digit c = true) b ->
  bytes_ltb a b = (dec_val a <? dec_val b).
Proof.
  revert b; induction a as [|x a IH]; intros [|y b] Hlen Ha Hb; try done.
  inversion Ha as [|? ? Hx Ha']; inversion Hb as [|? ? Hy Hb']; subst.
  simpl. rewrite !dec_val_cons, IH by (done || naive_solver).
  simpl in Hlen. injection Hlen as Hlen. rewrite Hlen.
  apply is_digit_val in Hx, Hy.
  pose proof (dec_val_range _ Ha') as Ra. pose proof (dec_val_range _ Hb') as Rb.
  rewrite Hlen in Ra. set (p := 10 ^ Z.of_nat (length b)) in *.
  destruct (Z.ltb_spec (Z_of_byte x) (Z_of_byte y)); simpl.
  - symmetry. apply Z.ltb_lt. nia.
  - destruct (Z.eqb_spec (Z_of_byte x) (Z_of_byte y)) as [->|]; simpl.
    + destruct (Z.ltb_spec (dec_val a) (dec_val b)); symmetry; [apply Z.ltb_lt|apply Z.ltb_ge]; lia.
    + symmetry. apply Z.ltb_ge. nia.
Qed.

(** ** Rationals ([math/big.Rat])

    A [*big.Rat] is always in lowest terms with a positive denominator: it is
    a [Q] kept reduced by [Qred]. *)
Definition rat_make (num den : Z) : Q := Qred (num # Z.to_pos den).
Definition rat_Num (r : Q) : Z := Qnum r.
Definition rat_Denom (r : Q) : Z := Zpos (Qden r).
Definition rat_IsInt (r : Q) : bool := rat_Denom r =? 1.
Definition rat_Sub (a b : Q) : Q := Qred (a - b).
Definition rat_Add (a b : Q) : Q := Qred (a + b).
Definition rat_Mul (a b : Q) : Q := Qred (a * b).
(** [Quo] panics on a zero divisor. *)
Definition rat_Quo (a b : Q) : option Q :=
  if rat_Num b =? 0 then None else Some (Qred (a / b)).
Definition rat_Cmp (a b : Q) : comparison := Qcompare a b.

(** The digits and the at most one point of [Rat.SetString]'s mantissa: the
    mantissa, the number of digits read and the number after the point. *)
Fixpoint scan_mantissa (l : bytes) (seen_dot : bool) (m : Z) (count frac : nat) :
    option (Z * nat * nat) :=
  match l with
  | [] => Some (m, count, frac)
  | c :: l =>
      if bool_decide (c = dot) then
        if seen_dot then None else scan_mantissa l true m count frac
      else
        match digit_val c with
        | None => None
        | Some d =>
            scan_mantissa l seen_dot (m * 10 + d) (S count)
              (if seen_dot then S frac else frac)
        end
  end.
(** [(&big.Rat{}).SetString(s)] for a string over the alphabet [[-+.0-9]],
    the only strings the program passes (both callers match a regular
    expression first). *)
Definition rat_SetString (s : bytes) : option Q :=
  let '(neg, body) :=
    match s with
    | c :: s' =>
        if bool_decide (c = minus_sign) then (true, s')
        else if bool_decide (c = plus_sign) then (false, s') else (false, s)
    | [] => (false, s)
    end in
  match scan_mantissa body false 0 0 0 with
  | Some (m, S _, frac) => Some (rat_make (if neg then - m else m) (10 ^ Z.of_nat frac))
  | _ => None
  end.

(** [r.FloatString(prec)]: rounds half away from zero. *)
Definition rat_FloatString (r : Q) (prec : nat) : bytes :=
  let a := rat_Num r in
  let b := rat_Denom r in
  if rat_IsInt r then
    FormatInt a ++ (if (0 <? prec)%nat then dot :: replicate prec zero_digit else [])
  else
    let q := Z.abs a / b in
    let p := 10 ^ Z.of_nat prec in
    let r0 := (Z.abs a mod b) * p in
    let rs := r0 / b in
    let r2 := r0 mod b in
    let '(q, rs) :=
      if b <=? r2 + r2 then
        if p <=? rs + 1 then (q + 1, rs + 1 - p) else (q, rs + 1)
      else (q, rs) in
    (if a <? 0 then [minus_sign] else []) ++ FormatUint q ++
    (if (0 <? prec)%nat then dot :: pad_zeros prec (FormatUint rs) else []).

(** ** 128-bit arithmetic ([math/bits]) *)
Definition Mul64 (x y : Z) : Z * Z := (x * y / 18446744073709551616, u64 (x * y)).
Definition Add64 (x y carry : Z) : Z * Z :=
  (u64 (x + y + carry), (x + y + carry) / 18446744073709551616).
(** Panics on a zero divisor and when the quotient does not fit. *)
Definition Div64 (hi lo y : Z) : option (Z * Z) :=
  if (y =? 0) || (y <=? hi) then None
  else
    let n := hi * 18446744073709551616 + lo in
    Some (n / y, n mod y).

(** The text of a finite decimal: sign, integer digits, and [prec] fraction digits. *)
Lemma scan_mantissa_digits l rest seen m count frac :
  Forall (fun c => is_digit c = true) l ->
  scan_mantissa (l ++ rest) seen m count frac =
  scan_mantissa rest seen (dec_val_from m l) (count + length l)
    (if seen then frac + length l else frac)%nat.
Proof.
  intros Hl; revert m count frac; induction Hl as [|c l Hc Hl IH]; intros m count frac.
  { simpl. rewrite Nat.add_0_r. f_equal. destruct seen; lia. }
  simpl. apply is_digit_val in Hc.
  rewrite bool_decide_eq_false_2.
  2:{ intros ->. destruct Hc as [Hc _]. by apply Hc. }
  assert (digit_val c = Some (Z_of_byte c - 48)) as -> by (apply digit_val_Some; lia).
  rewrite IH. f_equal; [lia|]. destruct seen; lia.
Qed.

Lemma digits_head_not_sign l :
  l <> [] -> Forall (fun c => is_digit c = true) l ->
  exists c l', l = c :: l' /\ c <> minus_sign /\ c <> plus_sign /\ c <> dot.
Proof.
  intros Hne Hl. destruct l as [|c l]; [done|]. inversion Hl as [|? ? Hc _]; subst.
  exists c, l. split; [done|]. apply is_digit_val in Hc.
  repeat split; intros ->; destruct Hc as [Hc _]; by apply Hc.
Qed.

(** [Rat.SetString] reads [ip] "." [fp] as [(ip fp) / 10^len fp]. *)
Lemma rat_SetString_decimal (neg : bool) ip fp :
  ip <> [] -> Forall (fun c => is_digit c = true) ip ->
  Forall (fun c => is_digit c = true) fp ->
  rat_SetString ((if neg then [minus_sign] else []) ++ ip ++ dot :: fp) =
  Some (rat_make ((if neg then -1 else 1) * (dec_val ip * 10 ^ Z.of_nat (length fp) + dec_val fp))
          (10 ^ Z.of_nat (length fp))).
Proof.
  intros Hne Hip Hfp.
  assert (Hscan : scan_mantissa (ip ++ dot :: fp) false 0 0 0 =
    Some (dec_val ip * 10 ^ Z.of_nat (length fp) + dec_val fp, (length ip + length fp)%nat, length fp)).
  { rewrite scan_mantissa_digits by done. simpl.
    rewrite <- (app_nil_r fp) at 1. rewrite scan_mantissa_digits by done. simpl.
    by rewrite dec_val_from_shift. }
  destruct (digits_head_not_sign ip Hne Hip) as (c & l' & -> & Hm & Hp & _).
  unfold rat_SetString. destruct neg; cbn [app].
  - rewrite (bool_decide_eq_true_2 (minus_sign = minus_sign) eq_refl).
    change (c :: l' ++ dot :: fp) with ((c :: l') ++ dot :: fp). rewrite Hscan. simpl length.
    cbn [Nat.add]. f_equal.
  - rewrite !bool_decide_eq_false_2 by done.
    change (c :: l' ++ dot :: fp) with ((c :: l') ++ dot :: fp). rewrite Hscan. simpl length.
    cbn [Nat.add]. f_equal. f_equal. lia.
Qed.
