(* ===== verification/Decimal.v ===== *)
(** * Decimal text

    Lemmas on the decimal strings of [strconv] and [fmt] that the text formats
    share: comparison, uniqueness and splitting of digit strings, and what the
    parsers accept. *)
From Stdlib Require Import ZArith Lia QArith Qreduction.
From stdpp Require Import base list option.
From S2P Require Import Prelude GoStd.
#[local] Open Scope Z_scope.
#[local] Open Scope go_scope.

Lemma bytes_ltb_app_len a b x y :
  length a = length b -> bytes_ltb (a ++ x) (b ++ y) = bytes_ltb a b || (bool_decide (a = b) && bytes_ltb x y).
Proof.
  revert b; induction a as [|c a IH]; intros [|d b] H; try done. injection H as H. simpl.
  rewrite IH by done. destruct (Z.ltb_spec (Z_of_byte c) (Z_of_byte d)); [done|]. cbn [orb].
  destruct (Z.eqb_spec (Z_of_byte c) (Z_of_byte d)) as [E|E]; cbn [andb].
  - apply Z_of_byte_inj in E as ->. f_equal. f_equal. apply bool_decide_ext. naive_solver.
  - rewrite bool_decide_eq_false_2; [done|]. intros [= -> _]. done.
Qed.

Lemma bytes_ltb_cons_same c a b : bytes_ltb (c :: a) (c :: b) = bytes_ltb a b.
Proof. apply (bytes_ltb_app_same [c]). Qed.

Lemma digits_not_minus l : Forall (fun c => is_digit c = true) l -> Forall (fun c => c <> minus_sign) l.
Proof. apply Forall_impl. intros c Hc ->. done. Qed.

Lemma digits_inj a b :
  length a = length b -> Forall (fun c => is_digit c = true) a -> Forall (fun c => is_digit c = true) b ->
  dec_val a = dec_val b -> a = b.
Proof.
  intros Hl Ha Hb Hv. pose proof (bytes_ltb_digits a b Hl Ha Hb) as H1.
  pose proof (bytes_ltb_digits b a (eq_sym Hl) Hb Ha) as H2. rewrite Hv, Z.ltb_irrefl in *.
  destruct (bytes_ltb_total a b) as [H|[H|H]]; congruence.
Qed.

Lemma FormatUint_length n k : 0 <= n -> 1 <= Z.of_nat k -> (length (FormatUint n) <= k)%nat <-> n < 10 ^ Z.of_nat k.
Proof.
  intros Hn Hk. destruct (FormatUint_spec n Hn) as (_ & Hd & Hv & Hlen). split; [|by apply Hlen].
  intros H. pose proof (dec_val_range _ Hd) as R. rewrite Hv in R.
  assert (10 ^ Z.of_nat (length (FormatUint n)) <= 10 ^ Z.of_nat k) by (apply Z.pow_le_mono_r; lia). lia.
Qed.

Lemma dec_val_app a b : dec_val (a ++ b) = dec_val a * 10 ^ Z.of_nat (length b) + dec_val b.
Proof. unfold dec_val at 1. by rewrite dec_val_from_app, dec_val_from_shift. Qed.

Lemma padded_digits w n :
  0 <= n < 10 ^ Z.of_nat w -> 1 <= Z.of_nat w ->
  Forall (fun c => is_digit c = true) (pad_zeros w (FormatUint n)) /\
  dec_val (pad_zeros w (FormatUint n)) = n /\ length (pad_zeros w (FormatUint n)) = w.
Proof.
  intros Hn Hw. destruct (FormatUint_spec n) as (_ & Hd & Hv & Hlen); [lia|].
  split_and!; [by apply pad_zeros_digits|unfold pad_zeros; by rewrite dec_val_zeros|].
  apply length_pad_zeros, Hlen; lia.
Qed.

(** The digits of [n] are those of its quotient by [10^k] and then [k] more. *)
Lemma FormatUint_split n k :
  1 <= Z.of_nat k -> 10 ^ Z.of_nat k <= n ->
  FormatUint n = FormatUint (n / 10 ^ Z.of_nat k) ++ pad_zeros k (FormatUint (n mod 10 ^ Z.of_nat k)).
Proof.
  intros Hk Hn. set (p := 10 ^ Z.of_nat k) in *. assert (0 < p) by (apply Z.pow_pos_nonneg; lia).
  pose proof (Z.mod_pos_bound n p ltac:(lia)) as Hm. assert (1 <= n / p) by (apply Z.div_le_lower_bound; lia).
  destruct (padded_digits k (n mod p)) as (Pd & Pv & Pl); [done|done|].
  destruct (FormatUint_spec n) as (_ & Nd & Nv & _); [lia|].
  destruct (FormatUint_spec (n / p)) as (Qn & Qd & Qv & _); [lia|].
  apply digits_inj; [|done|by apply Forall_app|].
  - rewrite length_app, Pl.
    assert (1 <= length (FormatUint (n / p)))%nat by (destruct (FormatUint (n / p)); simpl; [done|lia]).
    assert (Hle : forall j, 1 <= Z.of_nat j ->
      (length (FormatUint n) <= j + k)%nat <-> (length (FormatUint (n / p)) <= j)%nat).
    { intros j Hj. rewrite !FormatUint_length by lia. rewrite Nat2Z.inj_add, Z.pow_add_r by lia. fold p. split; intros Hlt.
      - apply Z.div_lt_upper_bound; lia.
      - pose proof (Z.div_mod n p ltac:(lia)). nia. }
    assert (k < length (FormatUint n))%nat.
    { destruct (Nat.le_gt_cases (length (FormatUint n)) k) as [Hc|]; [|done].
      apply FormatUint_length in Hc; [|lia|done]. fold p in Hc. lia. }
    pose proof (proj2 (Hle (length (FormatUint (n / p))) ltac:(lia)) (le_n _)).
    pose proof (proj1 (Hle (length (FormatUint n) - k)%nat ltac:(lia)) ltac:(lia)). lia.
  - rewrite dec_val_app, Pl, Nv, Qv, Pv. fold p. pose proof (Z.div_mod n p ltac:(lia)). lia.
Qed.

(** ** What the parsers accept *)

Lemma ParseUint_loop_inv maxVal l : maxVal <= MaxUint64 -> forall n r,
  0 <= n <= maxVal -> ParseUint_loop maxVal n l = Ok r ->
  r = dec_val_from n l /\ 0 <= r <= maxVal /\ Forall (fun c => is_digit c = true) l.
Proof.
  intros Hmax. induction l as [|c l IH]; intros n r Hn; simpl; [by intros [= <-]|].
  destruct (digit_val c) as [d|] eqn:Ed; [|done]. apply digit_val_Some in Ed as [Hd Hc].
  destruct (Z.leb_spec 1844674407370955162 n) as [|Hlt]; [done|].
  destruct ((_ <? _) || (maxVal <? _)) eqn:E; [done|].
  apply orb_false_iff in E as [E1%Z.ltb_ge E2%Z.ltb_ge].
  rewrite (u64_id (n * 10)) in * by (unfold is_u64; lia).
  assert (u64 (n * 10 + d) = n * 10 + d) as Hu.
  { unfold u64 in *. destruct (Z.le_gt_cases (n * 10 + d) MaxUint64); [apply Z.mod_small; lia|].
    rewrite <- (Z.mod_unique (n * 10 + d) 18446744073709551616 1 (n * 10 + d - 18446744073709551616)) in E1; lia. }
  rewrite Hu in *. intros (-> & Hr & Hl)%IH; [|lia]. rewrite Hc. split_and!; [f_equal; lia|lia|lia|].
  constructor; [apply is_digit_val; lia|done].
Qed.

Lemma ParseUint_inv s bits r :
  0 <= bits <= 64 -> ParseUint s bits = Ok r ->
  s <> [] /\ Forall (fun c => is_digit c = true) s /\ r = dec_val s /\ 0 <= r < 2 ^ bits.
Proof.
  intros Hb. unfold ParseUint. destruct s as [|c s]; [done|].
  pose proof (Z.pow_pos_nonneg 2 bits). assert (2 ^ bits <= 2 ^ 64) by (apply Z.pow_le_mono_r; lia).
  change (2 ^ 64) with 18446744073709551616 in *.
  intros (-> & ? & ?)%ParseUint_loop_inv; [|lia|lia]. split_and!; try done; lia.
Qed.

Lemma ParseInt_FormatInt n i : ParseInt (FormatInt n) 64 = Ok i <-> i = n /\ is_i64 n.
Proof.
  unfold FormatInt. destruct (Z.ltb_spec n 0) as [Hn|Hn].
  - destruct (FormatUint_spec (- n)) as (Hne & Hd & Hv & _); [lia|].
    unfold ParseInt. rewrite (bool_decide_eq_true_2 (minus_sign = minus_sign) eq_refl).
    rewrite bool_decide_eq_false_2 by done. change (64 - 1) with 63. cbn [negb andb].
    change (2 ^ 63) with 9223372036854775808. unfold is_i64. split.
    + destruct (ParseUint _ 64) as [u|] eqn:E; [|done]. apply ParseUint_inv in E as (_ & _ & -> & _); [|lia].
      rewrite Hv. destruct (Z.ltb_spec 9223372036854775808 (- n)); [done|]. intros [= <-]. lia.
    + intros [-> Hi]. rewrite ParseUint_Ok, Hv by (done || lia).
      rewrite (proj2 (Z.ltb_ge _ _)) by lia. f_equal. lia.
  - destruct (FormatUint_spec n) as (Hne & Hd & Hv & _); [lia|]. split.
    + destruct (FormatUint n) as [|c s] eqn:Es; [done|]. rewrite digit_not_sign by by inversion Hd.
      destruct (ParseUint _ 64) as [u|] eqn:E; [|done]. apply ParseUint_inv in E as (_ & _ & -> & _); [|lia].
      rewrite Hv. destruct (Z.leb_spec (2 ^ 63) n) as [|H]; [done|].
      change (2 ^ 63) with 9223372036854775808 in H. unfold is_i64. intros [= <-]. lia.
    + intros [-> Hi]. unfold is_i64 in Hi. rewrite ParseInt_digits, Hv by (done || lia). done.
Qed.

(** ** Rationals in lowest terms *)

Lemma Qred_coprime n d : Z.gcd n (Zpos d) = 1 -> Qred (n # d) = n # d.
Proof.
  intros H. unfold Qred. pose proof (Z.ggcd_gcd n (Zpos d)) as Hg.
  pose proof (Z.ggcd_correct_divisors n (Zpos d)) as Hd.
  destruct (Z.ggcd n (Zpos d)) as [g [r1 r2]]; simpl in *. subst g. rewrite H in Hd.
  destruct Hd as [-> Hd]. rewrite Z.mul_1_l in *. by rewrite <- Hd.
Qed.

Lemma Qred_int z : Qred (z # 1) = inject_Z z.
Proof. apply Qred_coprime. apply Z.gcd_1_r. Qed.

Lemma rat_make_reduced n d : Z.gcd (rat_Num (rat_make n d)) (rat_Denom (rat_make n d)) = 1.
Proof.
  unfold rat_make, rat_Num, rat_Denom, Qred.
  pose proof (Z.ggcd_gcd n (Zpos (Z.to_pos d))) as Hg.
  pose proof (Z.ggcd_correct_divisors n (Zpos (Z.to_pos d))) as Hd.
  destruct (Z.ggcd n (Zpos (Z.to_pos d))) as [g [r1 r2]]; simpl in *. subst g.
  set (g := Z.gcd n (Zpos (Z.to_pos d))) in *. destruct Hd as [Hn Hd].
  assert (Hg : 0 < g).
  { assert (g <> 0) by (unfold g; intros [_ ?]%Z.gcd_eq_0; done).
    pose proof (Z.gcd_nonneg n (Zpos (Z.to_pos d))). unfold g in *. lia. }
  assert (0 < r2) by nia. rewrite Z2Pos.id by done.
  assert (E : g * Z.gcd r1 r2 = g * 1).
  { rewrite Z.mul_1_r. transitivity (Z.gcd (g * r1) (g * r2)).
    - rewrite Z.gcd_mul_mono_l, Z.abs_eq; lia.
    - by rewrite <- Hn, <- Hd. }
  apply Z.mul_cancel_l in E; [done|lia].
Qed.
