(* ===== verification/Encodings.v ===== *)
(** * Encodings of bytes in text

    Of the Go standard library, the encodings in base 16, 32 and 64 the program uses;
    and the checksum of src/strkey. First [fmt]'s [%08X] and [%8.8x] of a uint32:
    exactly eight digits. *)
From Stdlib Require Import ZArith Lia.
From stdpp Require Import base list option.
From S2P Require Import Prelude GoStd.
#[local] Open Scope Z_scope.

(** The digits after 9 start at [letter]: 55 for upper case, 87 for lower. *)
Definition hex_digit (letter d : Z) : byte := byte_of_Z (if d <? 10 then 48 + d else letter + d).

(** The last [w] digits of [v]. *)
Fixpoint hex_put (letter : Z) (w : nat) (v : Z) : bytes :=
  match w with
  | O => []
  | S w => hex_put letter w (v / 16) ++ [hex_digit letter (v mod 16)]
  end.

Definition fmt_08X (v : Z) : bytes := hex_put 55 8 v.
Definition fmt_8_8x (v : Z) : bytes := hex_put 87 8 v.

Section Hex.
Context (letter : Z) (Hletter : 48 <= letter <= 200).

Lemma hex_digit_val d : 0 <= d < 16 -> Z_of_byte (hex_digit letter d) = if d <? 10 then 48 + d else letter + d.
Proof. intros Hd. unfold hex_digit. rewrite Z_of_byte_of_Z. apply u8_id. destruct (Z.ltb_spec d 10); lia. Qed.

Lemma length_hex_put w v : length (hex_put letter w v) = w.
Proof. revert v; induction w as [|w IH]; intros v; [done|]. cbn [hex_put]. rewrite length_app, IH. simpl. lia. Qed.

Lemma bytes_ltb_snoc a b x y :
  length a = length b ->
  bytes_ltb (a ++ [x]) (b ++ [y]) = bytes_ltb a b || (bool_decide (a = b) && (Z_of_byte x <? Z_of_byte y)).
Proof.
  revert b; induction a as [|c a IH]; intros [|d b] H; try done; simpl.
  - by rewrite andb_false_r, orb_false_r.
  - injection H as H. rewrite IH by done. destruct (Z.ltb_spec (Z_of_byte c) (Z_of_byte d)); [done|]. cbn [orb].
    destruct (Z.eqb_spec (Z_of_byte c) (Z_of_byte d)) as [E|E]; cbn [andb].
    + apply Z_of_byte_inj in E as ->. f_equal. f_equal. apply bool_decide_ext. naive_solver.
    + rewrite bool_decide_eq_false_2; [done|]. intros [= -> _]. done.
Qed.

(** On values that fit, the bytewise order is the numeric order. *)
Lemma hex_put_order w a b :
  0 <= a < 16 ^ Z.of_nat w -> 0 <= b < 16 ^ Z.of_nat w ->
  bytes_ltb (hex_put letter w a) (hex_put letter w b) = (a <? b) /\ (hex_put letter w a = hex_put letter w b -> a = b).
Proof.
  revert a b; induction w as [|w IH]; intros a b Ha Hb.
  { simpl in *. assert (a = b) as -> by lia. by rewrite Z.ltb_irrefl. }
  rewrite Nat2Z.inj_succ, Z.pow_succ_r in Ha, Hb by lia. cbn [hex_put].
  pose proof (Z.div_mod a 16 ltac:(done)) as Ea. pose proof (Z.div_mod b 16 ltac:(done)) as Eb.
  pose proof (Z.mod_pos_bound a 16 ltac:(done)) as Ma. pose proof (Z.mod_pos_bound b 16 ltac:(done)) as Mb.
  set (qa := a / 16) in *. set (qb := b / 16) in *. set (ra := a mod 16) in *. set (rb := b mod 16) in *.
  destruct (IH qa qb) as [IHo IHi]; [lia|lia|].
  assert (Hd : (Z_of_byte (hex_digit letter ra) <? Z_of_byte (hex_digit letter rb)) = (ra <? rb)).
  { rewrite !hex_digit_val by lia.
    destruct (Z.ltb_spec ra rb), (Z.ltb_spec ra 10), (Z.ltb_spec rb 10); apply Z.ltb_lt || apply Z.ltb_ge; lia. }
  rewrite bytes_ltb_snoc by by rewrite !length_hex_put. rewrite IHo, Hd. split.
  - destruct (bool_decide_reflect (hex_put letter w qa = hex_put letter w qb)) as [E|E].
    + apply IHi in E. destruct (Z.ltb_spec qa qb), (Z.ltb_spec ra rb), (Z.ltb_spec a b); simpl; done || lia.
    + assert (qa <> qb) by (intros Heq; apply E; by rewrite Heq).
      destruct (Z.ltb_spec qa qb), (Z.ltb_spec a b); simpl; done || lia.
  - intros [E [= Edig]]%app_inj_2; [|done]. apply IHi in E.
    assert (ra = rb); [|lia].
    apply (f_equal Z_of_byte) in Edig. rewrite !hex_digit_val in Edig by lia.
    destruct (Z.ltb_spec ra 10), (Z.ltb_spec rb 10); lia.
Qed.
End Hex.

Lemma fmt_08X_order a b :
  is_u32 a -> is_u32 b -> bytes_ltb (fmt_08X a) (fmt_08X b) = (a <? b) /\ (fmt_08X a = fmt_08X b -> a = b).
Proof. unfold is_u32. intros Ha Hb. apply hex_put_order; [lia|change (16 ^ Z.of_nat 8) with 4294967296; lia..]. Qed.

Lemma length_fmt_08X v : length (fmt_08X v) = 8%nat.
Proof. apply length_hex_put. Qed.

(** ** Bytes in text

    encoding/base64 and encoding/hex of the Go standard library: of the first
    [StdEncoding], the text of bytes, and the reading of a text, in which line breaks
    are skipped and the bits a padded group leaves over may be anything. *)
#[local] Open Scope go_scope.

Definition base64_alphabet : bytes := str "ABCDEFGHIJKLMNOPQRSTUVWXYZabcdefghijklmnopqrstuvwxyz0123456789+/".
Definition base64_char (v : Z) : byte := default zero_byte (base64_alphabet !! Z.to_nat (v mod 64)).
Definition base64_quantum (v : Z) : bytes :=
  [base64_char (Z.shiftr v 18); base64_char (Z.shiftr v 12); base64_char (Z.shiftr v 6); base64_char v].
Fixpoint StdEncoding_EncodeToString (s : bytes) : bytes :=
  match s with
  | a :: b :: c :: s => base64_quantum (be_get [a; b; c]) ++ StdEncoding_EncodeToString s
  | [a; b] => take 3 (base64_quantum (be_get [a; b; zero_byte])) ++ str "="
  | [a] => take 2 (base64_quantum (be_get [a; zero_byte; zero_byte])) ++ str "=="
  | [] => []
  end.

Definition base64_pad : byte := byte_of_Z 61.
Definition line_break (c : byte) : bool := (Z_of_byte c =? 10) || (Z_of_byte c =? 13).

(** The value of a character of the alphabet. *)
Definition base64_value (c : byte) : option Z :=
  let! i := list_find (fun x => x = c) base64_alphabet in Some (Z.of_nat (fst i)).

Definition quantum_value (a b c d : Z) : Z := a * 262144 + b * 4096 + c * 64 + d.

(** The groups of four characters; padding ends the text. *)
Fixpoint decode_quanta (s : bytes) : option bytes :=
  match s with
  | [] => Some []
  | a :: b :: c :: d :: s =>
      let! a := base64_value a in
      let! b := base64_value b in
      if bool_decide (c = base64_pad) then
        if bool_decide (d = base64_pad) && bool_decide (s = []) then Some (take 1 (be_put 3 (quantum_value a b 0 0))) else None
      else
        let! c := base64_value c in
        if bool_decide (d = base64_pad) then
          if bool_decide (s = []) then Some (take 2 (be_put 3 (quantum_value a b c 0))) else None
        else
          let! d := base64_value d in
          let! rest := decode_quanta s in
          Some (be_put 3 (quantum_value a b c d) ++ rest)
  | _ => None
  end.

(** [None] is a corrupt input. *)
Definition StdEncoding_DecodeString (s : bytes) : option bytes := decode_quanta (filter (fun c => line_break c = false) s).

(** ** Round trip *)
Lemma base64_digit k : 0 <= k < 64 ->
  base64_value (base64_char k) = Some k /\ line_break (base64_char k) = false /\ base64_char k <> base64_pad.
Proof.
  intros Hk. assert (H : forallb (fun n => let k := Z.of_nat n in
    bool_decide (base64_value (base64_char k) = Some k) && negb (line_break (base64_char k)) &&
    negb (bool_decide (base64_char k = base64_pad))) (seq 0 64) = true) by (vm_compute; reflexivity).
  rewrite forallb_forall in H. specialize (H (Z.to_nat k)). rewrite Z2Nat.id in H by lia.
  specialize (H ltac:(apply in_seq; lia)). apply andb_true_iff in H as [[H1 H2]%andb_true_iff H3].
  split; [by apply bool_decide_eq_true_1 in H1|]. split; [by apply negb_true_iff|].
  intros E. rewrite bool_decide_eq_true_2 in H3 by done. done.
Qed.

Lemma base64_char_mod v : base64_char v = base64_char (v mod 64).
Proof. unfold base64_char. by rewrite Zmod_mod. Qed.

Lemma base64_char_value v : base64_value (base64_char v) = Some (v mod 64) /\
  line_break (base64_char v) = false /\ base64_char v <> base64_pad.
Proof. rewrite base64_char_mod. apply base64_digit. apply Z.mod_pos_bound. lia. Qed.

Lemma quantum_split v : 0 <= v < 16777216 ->
  quantum_value (Z.shiftr v 18 mod 64) (Z.shiftr v 12 mod 64) (Z.shiftr v 6 mod 64) (v mod 64) = v.
Proof.
  intros H. rewrite !Z.shiftr_div_pow2 by lia. change (2 ^ 18) with (64 * (64 * 64)). change (2 ^ 12) with (64 * 64). change (2 ^ 6) with 64.
  rewrite <- !Z.div_div by lia. set (w := v / 64). set (x := w / 64). set (y := x / 64). unfold quantum_value.
  pose proof (Z.div_mod v 64 ltac:(lia)). pose proof (Z.div_mod w 64 ltac:(lia)). pose proof (Z.div_mod x 64 ltac:(lia)).
  fold w in H0. fold x in H1. fold y in H2.
  assert (0 <= y < 64). { unfold y, x, w. rewrite !Z.div_div by lia. split; [apply Z.div_pos; lia|apply Z.div_lt_upper_bound; lia]. }
  rewrite (Z.mod_small y) by lia. lia.
Qed.

Lemma be3 a b c : be_put 3 (be_get [a; b; c]) = [a; b; c].
Proof. apply (be_put_get [a; b; c]). Qed.
Lemma be3_range a b c : 0 <= be_get [a; b; c] < 16777216.
Proof. apply (be_get_range [a; b; c]). Qed.

Lemma be3_zero a b : be_get [a; b; zero_byte] mod 64 = 0 /\ Z.shiftr (be_get [a; zero_byte; zero_byte]) 6 mod 64 = 0.
Proof.
  unfold be_get. cbn [fold_left]. change (Z_of_byte zero_byte) with 0. split.
  - apply Z.mod_divide; [lia|]. exists (((0 * 256 + Z_of_byte a) * 256 + Z_of_byte b) * 4). lia.
  - rewrite Z.shiftr_div_pow2 by lia. change (2 ^ 6) with 64. set (x := Z_of_byte a).
    replace (((0 * 256 + x) * 256 + 0) * 256 + 0) with ((x * 1024) * 64) by lia. rewrite Z.div_mul by lia.
    apply Z.mod_divide; [lia|]. exists (x * 16). lia.
Qed.

(** Texts are read by groups of three bytes. *)
Lemma bytes3_ind (P : bytes -> Prop) : P [] -> (forall a, P [a]) -> (forall a b, P [a; b]) ->
  (forall a b c s, P s -> P (a :: b :: c :: s)) -> forall s, P s.
Proof.
  intros H0 H1 H2 H3. assert (G : forall n s, (length s <= n)%nat -> P s).
  { induction n as [|n IH]; intros [|a [|b [|c s]]]; cbn; intros Hl; try lia; try done. apply H3, IH. lia. }
  intros s. by apply (G (length s)).
Qed.

Lemma quantum_chars v : Forall (fun c => line_break c = false) (base64_quantum v).
Proof. repeat apply Forall_cons_2; try apply base64_char_value. apply Forall_nil_2. Qed.

Lemma EncodeToString_no_breaks s : Forall (fun c => line_break c = false) (StdEncoding_EncodeToString s).
Proof.
  induction s as [|a|a b|a b c s IH] using bytes3_ind; cbn [StdEncoding_EncodeToString].
  - apply Forall_nil_2.
  - apply Forall_app_2; [apply Forall_take, quantum_chars|by repeat constructor].
  - apply Forall_app_2; [apply Forall_take, quantum_chars|by repeat constructor].
  - apply Forall_app_2; [apply quantum_chars|exact IH].
Qed.

Lemma length_EncodeToString s : Z.of_nat (length (StdEncoding_EncodeToString s)) = 4 * ((go_len s + 2) / 3).
Proof.
  unfold go_len. induction s as [|a|a b|a b c s IH] using bytes3_ind; cbn [StdEncoding_EncodeToString]; [done..|].
  rewrite length_app, Nat2Z.inj_add, IH. cbn [length base64_quantum].
  replace (Z.of_nat (S (S (S (length s)))) + 2) with (Z.of_nat (length s) + 2 + 1 * 3) by lia. rewrite Z.div_add by lia. lia.
Qed.

Lemma filter_kept_all {A} (P : A -> Prop) `{!forall x, Decision (P x)} (l : list A) : Forall P l -> filter P l = l.
Proof. induction 1 as [|x l Hx Hl IH]; [done|]. by rewrite filter_cons_True, IH. Qed.

(** Every text that is written is read back. *)
Lemma DecodeString_EncodeToString s : StdEncoding_DecodeString (StdEncoding_EncodeToString s) = Some s.
Proof.
  unfold StdEncoding_DecodeString. rewrite (filter_kept_all _ _ (EncodeToString_no_breaks s)).
  induction s as [|a|a b|a b c s IH] using bytes3_ind; [done| | |]; cbn [StdEncoding_EncodeToString base64_quantum take app decode_quanta];
    change (str "=") with [base64_pad]; change (str "==") with [base64_pad; base64_pad]; cbn [app decode_quanta].
  - rewrite !(proj1 (base64_char_value _)). rewrite !bool_decide_eq_true_2 by done. cbn [andb].
    pose proof (quantum_split _ (be3_range a zero_byte zero_byte)) as Q.
    rewrite (proj2 (be3_zero a zero_byte)), (proj1 (be3_zero a zero_byte)) in Q. by rewrite Q, be3.
  - rewrite !(proj1 (base64_char_value _)). rewrite bool_decide_eq_false_2 by apply base64_char_value.
    rewrite !bool_decide_eq_true_2 by done. pose proof (quantum_split _ (be3_range a b zero_byte)) as Q.
    rewrite (proj1 (be3_zero a b)) in Q. by rewrite Q, be3.
  - rewrite !(proj1 (base64_char_value _)). rewrite !bool_decide_eq_false_2 by apply base64_char_value.
    cbn [app] in IH. rewrite IH, quantum_split by apply be3_range. by rewrite be3.
Qed.

(** ** Hexadecimal *)
Definition hex_value (c : byte) : option Z :=
  let v := Z_of_byte c in
  if (48 <=? v) && (v <=? 57) then Some (v - 48)
  else if (97 <=? v) && (v <=? 102) then Some (v - 87)
  else if (65 <=? v) && (v <=? 70) then Some (v - 55)
  else None.
Fixpoint hex_DecodeString (s : bytes) : option bytes :=
  match s with
  | [] => Some []
  | a :: b :: s =>
      let! x := hex_value a in
      let! y := hex_value b in
      let! rest := hex_DecodeString s in
      Some (byte_of_Z (x * 16 + y) :: rest)
  | [_] => None
  end.
Definition hex_EncodeToString (s : bytes) : bytes := concat (map (fun b => hex_put 87 2 (Z_of_byte b)) s).

Lemma hex_value_digit d : 0 <= d < 16 -> hex_value (hex_digit 87 d) = Some d.
Proof.
  intros Hd. unfold hex_value. rewrite hex_digit_val by lia. destruct (Z.ltb_spec d 10).
  - rewrite (proj2 (Z.leb_le _ _)), (proj2 (Z.leb_le _ _)) by lia. cbn [andb]. f_equal. lia.
  - rewrite (proj2 (Z.leb_le 48 _)), (proj2 (Z.leb_gt _ 57)) by lia. cbn [andb].
    rewrite (proj2 (Z.leb_le 97 _)), (proj2 (Z.leb_le _ 102)) by lia. cbn [andb]. f_equal. lia.
Qed.

Lemma hex_Decode_Encode s : hex_DecodeString (hex_EncodeToString s) = Some s.
Proof.
  induction s as [|b s IH]; [done|].
  change (hex_EncodeToString (b :: s)) with (hex_put 87 2 (Z_of_byte b) ++ hex_EncodeToString s). cbn [hex_put app].
  pose proof (Z_of_byte_range b). cbn [hex_DecodeString].
  rewrite !hex_value_digit by (apply Z.mod_pos_bound; lia). rewrite IH. do 2 f_equal.
  rewrite (Z.mod_small (Z_of_byte b / 16)) by (split; [apply Z.div_pos|apply Z.div_lt_upper_bound]; lia).
  rewrite Z.mul_comm, <- Z.div_mod by done. apply byte_of_Z_of_byte.
Qed.

Lemma length_hex_Encode s : length (hex_EncodeToString s) = (2 * length s)%nat.
Proof. unfold hex_EncodeToString. induction s as [|b s IH]; [done|]. cbn [map concat]. rewrite length_app, length_hex_put, IH. simpl. lia. Qed.

(** ** Unpadded base32 ([encoding/base32])

    The standard encoding without padding, as the strkey package configures
    it: the bits of the bytes, most significant first, cut into groups of five,
    the last group filled with zeros. *)
(** ** Bit strings *)
Fixpoint to_bits (n : nat) (z : Z) : list bool :=
  match n with
  | O => []
  | S n => to_bits n (z / 2) ++ [Z.odd z]
  end.
Definition of_bits (l : list bool) : Z := fold_left (fun a b => 2 * a + Z.b2z b) l 0.

(** Groups of [k] bits, the last one filled with zeros. *)
Fixpoint chunks (fuel k : nat) (l : list bool) : list (list bool) :=
  match fuel, l with
  | O, _ | _, [] => []
  | S fuel, _ => (take k l ++ replicate (k - length l) false) :: chunks fuel k (drop k l)
  end.

Definition alphabet : bytes := str "ABCDEFGHIJKLMNOPQRSTUVWXYZ234567".
Definition alphabet_char (v : Z) : byte :=
  default Corelib.Init.Byte.x00 (alphabet !! Z.to_nat v).

(** [decodingTable]: the value of each base32 character, 0xff elsewhere. *)
Definition notBase32 : Z := 255.
Definition initDecodingTable : list Z :=
  fst (fold_left
    (fun '(table, i) ch => (<[Z.to_nat (Z_of_byte ch) := i]> table, i + 1))
    alphabet (replicate 256 notBase32, 0)).
Definition decodingTable : list Z := Eval vm_compute in initDecodingTable.
Definition table_value (ch : byte) : Z :=
  default notBase32 (decodingTable !! Z.to_nat (Z_of_byte ch)).

Definition base32_Encode (src : bytes) : bytes :=
  let bits := flat_map (fun b => to_bits 8 (Z_of_byte b)) src in
  map (fun c => alphabet_char (of_bits c)) (chunks (length bits) 5 bits).

(** Decoding of a string of base32 characters whose incomplete last byte is
    dropped. *)
Definition base32_Decode (src : bytes) : bytes :=
  let bits := flat_map (fun c => to_bits 5 (table_value c)) src in
  let whole := take (8 * (length bits / 8)) bits in
  map (fun c => byte_of_Z (of_bits c)) (chunks (length whole) 8 whole).

(** ** Lemmas on bits *)
Lemma length_to_bits n z : length (to_bits n z) = n.
Proof. revert z; induction n as [|n IH]; intros z; simpl; [done|]. rewrite length_app, IH. simpl; lia. Qed.

Lemma of_bits_snoc l b : of_bits (l ++ [b]) = 2 * of_bits l + Z.b2z b.
Proof. unfold of_bits. by rewrite fold_left_app. Qed.

Lemma of_bits_range l : 0 <= of_bits l < 2 ^ Z.of_nat (length l).
Proof.
  induction l as [|b l IH] using rev_ind; [done|].
  rewrite of_bits_snoc, length_app, Nat2Z.inj_add; simpl (Z.of_nat (length [b])).
  rewrite Z.pow_add_r by lia. destruct b; simpl (Z.b2z _); lia.
Qed.

Lemma to_of_bits l : to_bits (length l) (of_bits l) = l.
Proof.
  induction l as [|b l IH] using rev_ind; [done|].
  rewrite length_app, of_bits_snoc. simpl length. rewrite Nat.add_1_r. cbn [to_bits].
  rewrite Z.odd_add, Z.odd_mul. cbn [Z.odd andb]. rewrite xorb_false_l.
  assert ((2 * of_bits l + Z.b2z b) / 2 = of_bits l) as ->.
  { symmetry. apply (Z.div_unique _ _ _ (Z.b2z b)); destruct b; simpl; lia. }
  rewrite IH. by destruct b.
Qed.

Lemma of_to_bits n z : 0 <= z < 2 ^ Z.of_nat n -> of_bits (to_bits n z) = z.
Proof.
  revert z; induction n as [|n IH]; intros z Hz; [simpl in *; unfold of_bits; simpl; lia|].
  rewrite Nat2Z.inj_succ, Z.pow_succ_r in Hz by lia.
  cbn [to_bits]. rewrite of_bits_snoc, IH.
  - unfold Z.b2z. rewrite <- Zmod_odd. pose proof (Z.div_mod z 2). lia.
  - split; [apply Z.div_pos; lia | apply Z.div_lt_upper_bound; lia].
Qed.

Lemma of_bits_all_false n : of_bits (replicate n false) = 0.
Proof. induction n as [|n IH]; [done|]. rewrite replicate_S_end, of_bits_snoc, IH. done. Qed.

Lemma of_bits_app a b : of_bits (a ++ b) = of_bits a * 2 ^ Z.of_nat (length b) + of_bits b.
Proof.
  induction b as [|x b IH] using rev_ind; [rewrite app_nil_r; simpl; unfold of_bits at 3; simpl; lia|].
  rewrite app_assoc, !of_bits_snoc, IH, length_app, Nat2Z.inj_add; simpl (Z.of_nat (length [x])).
  rewrite Z.pow_add_r by lia. lia.
Qed.

(** A block of zero bits is what a zero value means. *)
Lemma of_bits_0 l : of_bits l = 0 -> l = replicate (length l) false.
Proof.
  intros H. rewrite <- (to_of_bits l) at 1. rewrite H.
  generalize (length l) as n. induction n as [|n IH]; [done|].
  cbn [to_bits]. change (0 / 2) with 0. rewrite IH. by rewrite replicate_S_end.
Qed.

(** ** Lemmas on chunks *)
Lemma chunks_concat fuel k (l : list bool) :
  (0 < k)%nat -> (length l <= fuel)%nat ->
  exists r, (r < k)%nat /\ concat (chunks fuel k l) = l ++ replicate r false /\
    (k | length l + r)%nat /\ Forall (fun c => length c = k) (chunks fuel k l).
Proof.
  intros Hk; revert l; induction fuel as [|fuel IH]; intros l Hf.
  { destruct l; [|simpl in Hf; lia]. exists O. simpl.
    split; [lia|]. split; [done|]. split; [|by constructor]. apply Nat.divide_0_r. }
  destruct l as [|b l'].
  { exists O. simpl. split; [lia|]. split; [done|]. split; [|by constructor]. apply Nat.divide_0_r. }
  set (l := b :: l') in *. cbn [chunks].
  replace (match l with [] => [] | _ => _ end)
    with ((take k l ++ replicate (k - length l) false) :: chunks fuel k (drop k l)) by done.
  assert (Hlen : (1 <= length l)%nat) by (subst l; simpl; lia). clearbody l.
  destruct (IH (drop k l)) as (r & Hr & Hc & Hd & Hall).
  { rewrite length_drop. lia. }
  assert (Hw : length (take k l ++ replicate (k - length l) false) = k).
  { rewrite length_app, length_take, length_replicate. lia. }
  destruct (Nat.le_gt_cases k (length l)) as [Hle|Hgt].
  - exists r. split; [done|]. simpl. rewrite Hc. replace (k - length l)%nat with O by lia.
    simpl. rewrite app_nil_r, app_assoc, take_drop. split; [done|].
    split; [|by constructor; [rewrite length_take; lia|]].
    replace (length l + r)%nat with (k + (length (drop k l) + r))%nat by (rewrite length_drop; lia).
    apply Nat.divide_add_r; [apply Nat.divide_refl|done].
  - exists (k - length l)%nat. split; [lia|]. simpl. rewrite (drop_ge l) by lia.
    rewrite (take_ge l) by lia. destruct fuel; simpl.
    all: rewrite app_nil_r; split; [done|]; split; [|constructor; [|by constructor]].
    all: try (rewrite length_app, length_replicate; lia).
    all: replace (length l + (k - length l))%nat with k by lia; apply Nat.divide_refl.
Qed.

(** Cutting a list already made of groups of [k] gives the groups back. *)
Lemma chunks_of_concat fuel k (L : list (list bool)) :
  (0 < k)%nat -> Forall (fun c => length c = k) L -> (length (concat L) <= fuel)%nat ->
  chunks fuel k (concat L) = L.
Proof.
  intros Hk HL; revert fuel; induction HL as [|c L Hc HL IH]; intros fuel Hf.
  { by destruct fuel. }
  simpl in *. rewrite length_app in Hf. destruct fuel as [|fuel]; [lia|].
  destruct c as [|b c]; [simpl in Hc; lia|]. set (c' := b :: c) in *.
  cbn [chunks]. replace (match c' ++ concat L with [] => [] | _ => _ end)
    with ((take k (c' ++ concat L) ++ replicate (k - length (c' ++ concat L)) false)
          :: chunks fuel k (drop k (c' ++ concat L))) by done.
  clearbody c'. rewrite take_app_le, drop_app_le by lia.
  rewrite (take_ge c'), (drop_ge c'), length_app by lia.
  replace (k - (length c' + length (concat L)))%nat with O by lia. simpl.
  rewrite app_nil_r, IH by lia. done.
Qed.

(** ** Round trips *)
Lemma byte_ind (P : byte -> bool) :
  forallb (fun n => match Byte.of_N (N.of_nat n) with Some b => P b | None => true end) (seq 0 256) = true ->
  forall b, P b = true.
Proof.
  intros H b. rewrite forallb_forall in H.
  specialize (H (N.to_nat (Byte.to_N b))). rewrite N2Nat.id, Byte.of_to_N in H.
  apply H. apply in_seq. pose proof (Byte.to_N_bounded b). lia.
Qed.

Lemma table_alphabet v : 0 <= v < 32 -> table_value (alphabet_char v) = v.
Proof.
  intros Hv.
  assert (H : forallb (fun n => table_value (alphabet_char (Z.of_nat n)) =? Z.of_nat n) (seq 0 32) = true)
    by (vm_compute; reflexivity).
  rewrite forallb_forall in H. specialize (H (Z.to_nat v)). rewrite Z2Nat.id in H by lia.
  apply Z.eqb_eq, H, in_seq. lia.
Qed.

Lemma alphabet_table c :
  table_value c <> notBase32 -> 0 <= table_value c < 32 /\ alphabet_char (table_value c) = c.
Proof.
  intros Hc.
  assert (H : (table_value c =? notBase32) ||
     ((0 <=? table_value c) && (table_value c <? 32) &&
      bool_decide (alphabet_char (table_value c) = c)) = true).
  { revert c Hc. intros c _. revert c. apply byte_ind. vm_compute. reflexivity. }
  apply orb_true_iff in H as [H|H]; bool_to_prop; [done|].
  split; [lia|]. by apply bool_decide_eq_true in H0.
Qed.

Definition byte_bits (src : bytes) : list bool := flat_map (fun b => to_bits 8 (Z_of_byte b)) src.
Definition char_bits (src : bytes) : list bool := flat_map (fun c => to_bits 5 (table_value c)) src.

Lemma byte_bits_cons b l : byte_bits (b :: l) = to_bits 8 (Z_of_byte b) ++ byte_bits l.
Proof. done. Qed.
Lemma char_bits_cons c l : char_bits (c :: l) = to_bits 5 (table_value c) ++ char_bits l.
Proof. done. Qed.

Lemma length_byte_bits src : length (byte_bits src) = (8 * length src)%nat.
Proof.
  induction src as [|b l IH]; [done|].
  rewrite byte_bits_cons, length_app, IH, length_to_bits. simpl. lia.
Qed.
Lemma length_char_bits src : length (char_bits src) = (5 * length src)%nat.
Proof.
  induction src as [|b l IH]; [done|].
  rewrite char_bits_cons, length_app, IH, length_to_bits. simpl. lia.
Qed.

(** Writing groups of five bits as characters and reading the characters back. *)
Lemma char_bits_of_chunks L :
  Forall (fun c => length c = 5%nat) L ->
  char_bits (map (fun c => alphabet_char (of_bits c)) L) = concat L.
Proof.
  induction 1 as [|c L Hc _ IH]; [done|]. rewrite map_cons, char_bits_cons, IH. cbn [concat]. f_equal.
  pose proof (of_bits_range c) as H. rewrite Hc in H.
  rewrite table_alphabet by done. rewrite <- Hc. apply to_of_bits.
Qed.

Lemma byte_bits_of_chunks L :
  Forall (fun c => length c = 8%nat) L ->
  byte_bits (map (fun c => byte_of_Z (of_bits c)) L) = concat L.
Proof.
  induction 1 as [|c L Hc _ IH]; [done|]. rewrite map_cons, byte_bits_cons, IH. cbn [concat]. f_equal.
  pose proof (of_bits_range c) as H. rewrite Hc in H.
  rewrite Z_of_byte_of_Z, u8_id by done. rewrite <- Hc. apply to_of_bits.
Qed.

Lemma byte_bits_inj a b : byte_bits a = byte_bits b -> a = b.
Proof.
  revert b; induction a as [|x a IH]; intros [|y b] H; try done.
  rewrite !byte_bits_cons in H. apply app_inj_1 in H as [H1 H2]; [|by rewrite !length_to_bits].
  f_equal; [|by apply IH]. apply Z_of_byte_inj.
    rewrite <- (of_to_bits 8 (Z_of_byte x)), <- (of_to_bits 8 (Z_of_byte y)), H1;
      [done|apply Z_of_byte_range..].
Qed.

Lemma char_bits_inj a b :
  Forall (fun c => table_value c <> notBase32) a ->
  Forall (fun c => table_value c <> notBase32) b ->
  char_bits a = char_bits b -> a = b.
Proof.
  intros Ha; revert b; induction Ha as [|x a Hx Ha IH]; intros [|y b] Hb H; try done.
  inversion Hb as [|? ? Hy Hb']; subst.
  rewrite !char_bits_cons in H.
    apply app_inj_1 in H as [H1 H2]; [|by rewrite !length_to_bits].
    f_equal; [|by apply IH].
    apply alphabet_table in Hx as [Rx <-], Hy as [Ry <-]. f_equal.
    rewrite <- (of_to_bits 5 (table_value x)), <- (of_to_bits 5 (table_value y)), H1; done.
Qed.

(** The bits of an encoding: those of the bytes, then fewer than five zeros. *)
Lemma char_bits_Encode src :
  exists r, (r < 5)%nat /\ (5 | 8 * length src + r)%nat /\
    char_bits (base32_Encode src) = byte_bits src ++ replicate r false.
Proof.
  unfold base32_Encode. fold (byte_bits src).
  destruct (chunks_concat (length (byte_bits src)) 5 (byte_bits src))
    as (r & Hr & Hc & Hd & Hall); [lia|lia|].
  rewrite length_byte_bits in Hd. exists r. by rewrite char_bits_of_chunks.
Qed.

Lemma byte_bits_Decode s :
  byte_bits (base32_Decode s) = take (8 * (length (char_bits s) / 8)) (char_bits s).
Proof.
  unfold base32_Decode. fold (char_bits s). set (w := take _ _).
  destruct (chunks_concat (length w) 8 w) as (r & Hr & Hc & Hd & Hall); [lia|lia|].
  rewrite byte_bits_of_chunks, Hc by done.
  assert (r = 0)%nat as ->; [|apply app_nil_r].
  assert (8 | length w)%nat as Hw.
  { unfold w. rewrite length_take, Nat.min_l.
    - apply Nat.divide_factor_l.
    - apply Nat.Div0.mul_div_le. }
  assert (8 | r)%nat as [q Hq] by (by eapply Nat.divide_add_cancel_r; [apply Hw|]). lia.
Qed.

Lemma base32_Decode_Encode src : base32_Decode (base32_Encode src) = src.
Proof.
  apply byte_bits_inj. rewrite byte_bits_Decode.
  destruct (char_bits_Encode src) as (r & Hr & _ & ->).
  rewrite length_app, length_replicate, length_byte_bits.
  replace ((8 * length src + r) / 8)%nat with (length src).
  - rewrite <- length_byte_bits. apply take_app_length.
  - symmetry. rewrite Nat.mul_comm, Nat.div_add_l, (Nat.div_small r); lia.
Qed.

Lemma base32_Encode_chars src :
  Forall (fun c => table_value c <> notBase32) (base32_Encode src).
Proof.
  unfold base32_Encode. fold (byte_bits src).
  destruct (chunks_concat (length (byte_bits src)) 5 (byte_bits src))
    as (r & _ & _ & _ & Hall); [lia|lia|].
  apply Forall_map. eapply Forall_impl; [|exact Hall]. intros c Hc; simpl in *.
  pose proof (of_bits_range c) as H. rewrite Hc in H.
  rewrite table_alphabet by done. unfold notBase32. simpl in H. lia.
Qed.

Lemma base32_Encode_Decode s :
  Forall (fun c => table_value c <> notBase32) s ->
  (length (char_bits s) mod 8 < 5)%nat ->
  drop (8 * (length (char_bits s) / 8)) (char_bits s) = replicate (length (char_bits s) mod 8) false ->
  base32_Encode (base32_Decode s) = s.
Proof.
  intros Hs Hlt Hz. apply char_bits_inj; [apply base32_Encode_chars|done|].
  destruct (char_bits_Encode (base32_Decode s)) as (r & Hr & Hd & ->).
  rewrite byte_bits_Decode. pose proof (byte_bits_Decode s) as Hb.
  apply (f_equal length) in Hb. rewrite length_byte_bits, length_take, Nat.min_l in Hb
    by apply Nat.Div0.mul_div_le.
  rewrite Hb in Hd. pose proof (Nat.div_mod (length (char_bits s)) 8 ltac:(lia)) as Hdm.
  assert (5 | length (char_bits s))%nat as [q Hq].
  { rewrite length_char_bits. apply Nat.divide_factor_l. }
  destruct Hd as [q' Hq']. assert (r = length (char_bits s) mod 8)%nat as -> by lia.
  rewrite <- Hz. apply take_drop.
Qed.

(** ** The CRC-16 checksum

    src/strkey/internal/crc16/main.go: the table-driven XMODEM checksum, its
    bitwise reference and what it detects. *)
Definition crc16tab : list Z :=
  [
   0; 4129; 8258; 12387; 16516; 20645; 24774; 28903;
   33032; 37161; 41290; 45419; 49548; 53677; 57806; 61935;
   4657; 528; 12915; 8786; 21173; 17044; 29431; 25302;
   37689; 33560; 45947; 41818; 54205; 50076; 62463; 58334;
   9314; 13379; 1056; 5121; 25830; 29895; 17572; 21637;
   42346; 46411; 34088; 38153; 58862; 62927; 50604; 54669;
   13907; 9842; 5649; 1584; 30423; 26358; 22165; 18100;
   46939; 42874; 38681; 34616; 63455; 59390; 55197; 51132;
   18628; 22757; 26758; 30887; 2112; 6241; 10242; 14371;
   51660; 55789; 59790; 63919; 35144; 39273; 43274; 47403;
   23285; 19156; 31415; 27286; 6769; 2640; 14899; 10770;
   56317; 52188; 64447; 60318; 39801; 35672; 47931; 43802;
   27814; 31879; 19684; 23749; 11298; 15363; 3168; 7233;
   60846; 64911; 52716; 56781; 44330; 48395; 36200; 40265;
   32407; 28342; 24277; 20212; 15891; 11826; 7761; 3696;
   65439; 61374; 57309; 53244; 48923; 44858; 40793; 36728;
   37256; 33193; 45514; 41451; 53516; 49453; 61774; 57711;
   4224; 161; 12482; 8419; 20484; 16421; 28742; 24679;
   33721; 37784; 41979; 46042; 49981; 54044; 58239; 62302;
   689; 4752; 8947; 13010; 16949; 21012; 25207; 29270;
   46570; 42443; 38312; 34185; 62830; 58703; 54572; 50445;
   13538; 9411; 5280; 1153; 29798; 25671; 21540; 17413;
   42971; 47098; 34713; 38840; 59231; 63358; 50973; 55100;
   9939; 14066; 1681; 5808; 26199; 30326; 17941; 22068;
   55628; 51565; 63758; 59695; 39368; 35305; 47498; 43435;
   22596; 18533; 30726; 26663; 6336; 2273; 14466; 10403;
   52093; 56156; 60223; 64286; 35833; 39896; 43963; 48026;
   19061; 23124; 27191; 31254; 2801; 6864; 10931; 14994;
   64814; 60687; 56684; 52557; 48554; 44427; 40424; 36297;
   31782; 27655; 23652; 19525; 15522; 11395; 7392; 3265;
   61215; 65342; 53085; 57212; 44955; 49082; 36825; 40952;
   28183; 32310; 20053; 24180; 11923; 16050; 3793; 7920].

Definition crc_step (crc : Z) (b : byte) : Z :=
  Z.lxor (Z.land (u16 (Z.shiftl crc 8)) 65535)
    (default 0 (crc16tab !! Z.to_nat (Z.land (Z.lxor (Z.shiftr crc 8) (Z_of_byte b)) 255))).

Definition Checksum (data : bytes) : Z := fold_left crc_step data 0.

(** [Validate]: an error unless the checksum is the expected one. *)
Definition crc_Validate (data : bytes) (expected : Z) : bool := Checksum data =? expected.

(** ** The bitwise reference

    The remainder of the message polynomial by [x^16 + x^12 + x^5 + 1], one
    bit at a time, most significant first. *)
Definition crc_bit (crc : Z) : Z :=
  if Z.testbit crc 15 then Z.lxor (u16 (Z.shiftl crc 1)) 4129 else u16 (Z.shiftl crc 1).
Definition crc_byte (crc : Z) (b : byte) : Z :=
  Nat.iter 8 crc_bit (Z.lxor crc (Z.shiftl (Z_of_byte b) 8)).
Definition crc_reference (data : bytes) : Z := fold_left crc_byte data 0.

(** ** Linearity *)
Lemma u16_land z : u16 z = Z.land z (Z.ones 16).
Proof. symmetry. apply (Z.land_ones z 16). lia. Qed.

Lemma u16_lxor a b : u16 (Z.lxor a b) = Z.lxor (u16 a) (u16 b).
Proof.
  rewrite !u16_land. apply Z.bits_inj'; intros i Hi.
  rewrite Z.lxor_spec, !Z.land_spec, Z.lxor_spec.
  by destruct (Z.testbit (Z.ones 16) i), (Z.testbit a i), (Z.testbit b i).
Qed.

Lemma crc_bit_lxor a b : crc_bit (Z.lxor a b) = Z.lxor (crc_bit a) (crc_bit b).
Proof.
  unfold crc_bit. rewrite Z.lxor_spec, Z.shiftl_lxor, u16_lxor.
  set (x := u16 (Z.shiftl a 1)). set (y := u16 (Z.shiftl b 1)).
  destruct (Z.testbit a 15), (Z.testbit b 15); cbn [xorb].
  - rewrite (Z.lxor_comm y), Z.lxor_assoc, <- (Z.lxor_assoc 4129), Z.lxor_nilpotent.
    by rewrite Z.lxor_0_l.
  - rewrite !Z.lxor_assoc. f_equal. apply Z.lxor_comm.
  - by rewrite Z.lxor_assoc.
  - done.
Qed.

Lemma iter_crc_bit_lxor n a b :
  Nat.iter n crc_bit (Z.lxor a b) = Z.lxor (Nat.iter n crc_bit a) (Nat.iter n crc_bit b).
Proof. induction n as [|n IH]; [done|]. simpl. by rewrite IH, crc_bit_lxor. Qed.

(** ** The table agrees with the polynomial *)
Definition byte_values : list Z := map Z.of_nat (seq 0 256).

Lemma byte_values_spec P v : forallb P byte_values = true -> 0 <= v < 256 -> P v = true.
Proof.
  rewrite forallb_forall. intros H Hv. apply H. unfold byte_values.
  apply in_map_iff. exists (Z.to_nat v). split; [lia|]. apply in_seq. lia.
Qed.

Definition table_entry (v : Z) : Z := default 0 (crc16tab !! Z.to_nat v).

Lemma iter_crc_bit_high v :
  0 <= v < 256 -> Nat.iter 8 crc_bit (Z.shiftl v 8) = table_entry v.
Proof.
  intros Hv. apply Z.eqb_eq.
  apply (byte_values_spec (fun v => Nat.iter 8 crc_bit (Z.shiftl v 8) =? table_entry v)); [|done].
  vm_compute. reflexivity.
Qed.

Lemma iter_crc_bit_low v : 0 <= v < 256 -> Nat.iter 8 crc_bit v = Z.shiftl v 8.
Proof.
  intros Hv. apply Z.eqb_eq.
  apply (byte_values_spec (fun v => Nat.iter 8 crc_bit v =? Z.shiftl v 8)); [|done].
  vm_compute. reflexivity.
Qed.

(** A 16-bit word is the exclusive or of its two halves. *)
Lemma split_halves c :
  0 <= c < 65536 -> c = Z.lxor (Z.shiftl (c / 256) 8) (c mod 256).
Proof.
  intros Hc. pose proof (Z.div_mod c 256 ltac:(lia)). pose proof (Z.mod_pos_bound c 256 ltac:(lia)).
  rewrite Z.shiftl_mul_pow2 by lia. change (2 ^ 8) with 256.
  rewrite <- Z.add_nocarry_lxor; [lia|].
  apply Z.bits_inj'; intros i Hi. rewrite Z.land_spec, Z.bits_0.
  change 256 with (2 ^ 8) at 2. rewrite Z.mul_pow2_bits by lia.
  destruct (Z.lt_ge_cases i 8).
  - by rewrite Z.testbit_neg_r by lia.
  - change 256 with (2 ^ 8) at 2. rewrite Z.mod_pow2_bits_high by lia. apply andb_false_r.
Qed.

Lemma iter_crc_bit_table c :
  0 <= c < 65536 ->
  Nat.iter 8 crc_bit c = Z.lxor (table_entry (c / 256)) (Z.shiftl (c mod 256) 8).
Proof.
  intros Hc. pose proof (Z.mod_pos_bound c 256 ltac:(lia)).
  rewrite (split_halves c) at 1 by done. rewrite iter_crc_bit_lxor.
  rewrite iter_crc_bit_high, iter_crc_bit_low; [done|done|].
  split; [apply Z.div_pos|apply Z.div_lt_upper_bound]; lia.
Qed.

Lemma u16_range z : 0 <= u16 z < 65536.
Proof. unfold u16. by apply Z.mod_pos_bound. Qed.

Lemma lxor_range a b : 0 <= a < 65536 -> 0 <= b < 65536 -> 0 <= Z.lxor a b < 65536.
Proof.
  intros Ha Hb. rewrite <- (u16_id a), <- (u16_id b), <- u16_lxor by done. apply u16_range.
Qed.

Lemma table_entry_range v : 0 <= v < 256 -> 0 <= table_entry v < 65536.
Proof.
  intros Hv. cut ((0 <=? table_entry v) && (table_entry v <? 65536) = true).
  { intros H. bool_to_prop. lia. }
  apply (byte_values_spec (fun v => (0 <=? table_entry v) && (table_entry v <? 65536))); [|done].
  vm_compute. reflexivity.
Qed.

Lemma land_255 z : Z.land z 255 = z mod 256.
Proof. apply (Z.land_ones z 8). lia. Qed.

Lemma mod_lxor a b : (Z.lxor a b) mod 256 = Z.lxor (a mod 256) (b mod 256).
Proof.
  rewrite <- !land_255. apply Z.bits_inj'; intros i Hi.
  rewrite Z.lxor_spec, !Z.land_spec, Z.lxor_spec.
  by destruct (Z.testbit 255 i), (Z.testbit a i), (Z.testbit b i).
Qed.

Lemma crc_step_byte crc b : 0 <= crc < 65536 -> crc_step crc b = crc_byte crc b.
Proof.
  intros Hc. unfold crc_byte, crc_step. pose proof (Z_of_byte_range b) as Hb.
  assert (Hs : 0 <= Z.shiftl (Z_of_byte b) 8 < 65536)
    by (rewrite Z.shiftl_mul_pow2 by lia; change (2 ^ 8) with 256; lia).
  rewrite iter_crc_bit_table by (by apply lxor_range).
  pose proof (Z.mod_pos_bound crc 256 ltac:(lia)).
  assert (E1 : Z.land (u16 (Z.shiftl crc 8)) 65535 = Z.shiftl (crc mod 256) 8).
  { change 65535 with (Z.ones 16). rewrite <- u16_land, (u16_id (u16 _)) by apply u16_range.
    unfold u16. rewrite !Z.shiftl_mul_pow2 by lia. change (2 ^ 8) with 256.
    change 65536 with (256 * 256). by rewrite Z.mul_mod_distr_r by lia. }
  assert (E2 : Z.lxor crc (Z.shiftl (Z_of_byte b) 8) mod 256 = crc mod 256).
  { rewrite mod_lxor, (Z.shiftl_mul_pow2 _ 8) by lia. change (2 ^ 8) with 256.
    by rewrite Z.mod_mul, Z.lxor_0_r by done. }
  assert (E3 : Z.lxor crc (Z.shiftl (Z_of_byte b) 8) / 256 = Z.lxor (Z.shiftr crc 8) (Z_of_byte b)).
  { change 256 with (2 ^ 8). rewrite <- Z.shiftr_div_pow2, Z.shiftr_lxor by lia.
    by rewrite Z.shiftr_shiftl_l, Z.sub_diag, Z.shiftl_0_r by lia. }
  rewrite E1, E2, E3, Z.lxor_comm, land_255, Z.mod_small; [done|].
  rewrite <- E3. pose proof (lxor_range crc _ Hc Hs).
  split; [apply Z.div_pos|apply Z.div_lt_upper_bound]; lia.
Qed.

Lemma crc_step_range crc b : 0 <= crc < 65536 -> 0 <= crc_step crc b < 65536.
Proof.
  intros Hc. unfold crc_step. apply lxor_range.
  - change 65535 with (Z.ones 16). rewrite <- u16_land. apply u16_range.
  - apply table_entry_range. rewrite land_255. by apply Z.mod_pos_bound.
Qed.

Lemma Checksum_range data : 0 <= Checksum data < 65536.
Proof.
  unfold Checksum. induction data as [|b data IH] using rev_ind; [simpl; lia|].
  rewrite fold_left_app. simpl. by apply crc_step_range.
Qed.

(** ** Properties *)

(** On every input the table-driven checksum is the remainder of the
    bitwise polynomial division by [x^16 + x^12 + x^5 + 1]. *)
Theorem Checksum_is_polynomial_remainder data : Checksum data = crc_reference data.
Proof.
  induction data as [|b data IH] using rev_ind; [done|].
  unfold Checksum, crc_reference in *. rewrite !fold_left_app. simpl. rewrite <- IH.
  apply crc_step_byte. apply Checksum_range.
Qed.

Example Checksum_check_value : Checksum (str "123456789") = 12739. (* 0x31C3 *)
Proof. reflexivity. Qed.
