(* ===== verification/GoExt.v ===== *)
(** * Interfaces of the third-party packages

    Code that is not in the repository is a parameter: a class of operations,
    a class of the laws its documentation states, and a concrete instance that
    shows the laws can hold. *)
From Stdlib Require Import ZArith Lia.
From stdpp Require Import base list option sorting.
From S2P Require Import Prelude GoStd.
#[local] Open Scope Z_scope.

(** ** github.com/stellar/go-xdr: RFC 4506 primitives *)
Class GoXdr := {
  xdr_Marshal_uint64 : Z -> bytes;
  xdr_Unmarshal_uint64 : bytes -> option Z;
  xdr_Marshal_opaque : bytes -> bytes
}.

(** Unsigned hypers are eight big-endian bytes; variable-length opaque data is
    its length in four bytes, the data and zeros up to a multiple of four. *)
Class GoXdrLaws (X : GoXdr) : Prop := {
  xdr_Marshal_uint64_be v : is_u64 v -> xdr_Marshal_uint64 v = be_put 8 v;
  xdr_Unmarshal_uint64_be b : length b = 8%nat -> xdr_Unmarshal_uint64 b = Some (be_get b);
  xdr_Marshal_opaque_padded p :
    xdr_Marshal_opaque p =
    be_put 4 (go_len p) ++ p ++ replicate ((4 - length p mod 4) mod 4) zero_byte
}.

(** ** github.com/holiman/uint256: unsigned 256-bit integers *)
Class Uint256 := {
  uint256 : Type;
  u256_val : uint256 -> Z;
  u256_NewInt : Z -> uint256;
  u256_Add : uint256 -> uint256 -> uint256;
  u256_Sub : uint256 -> uint256 -> uint256;
  u256_Mul : uint256 -> uint256 -> uint256;
  u256_Div : uint256 -> uint256 -> uint256;
  u256_Mod : uint256 -> uint256 -> uint256;
  u256_AddUint64 : uint256 -> Z -> uint256;
  u256_Abs : uint256 -> uint256;
  u256_IsZero : uint256 -> bool;
  u256_IsUint64 : uint256 -> bool;
  u256_Uint64 : uint256 -> Z
}.

Definition two256 : Z := 2 ^ 256.

(** Arithmetic wraps modulo 2^256; division and remainder by zero are zero;
    [Abs] reads its argument in two's complement. *)
Class Uint256Laws (U : Uint256) : Prop := {
  u256_range x : 0 <= u256_val x < two256;
  u256_NewInt_val z : is_u64 z -> u256_val (u256_NewInt z) = z;
  u256_Add_val x y : u256_val (u256_Add x y) = (u256_val x + u256_val y) mod two256;
  u256_Sub_val x y : u256_val (u256_Sub x y) = (u256_val x - u256_val y) mod two256;
  u256_Mul_val x y : u256_val (u256_Mul x y) = (u256_val x * u256_val y) mod two256;
  u256_Div_val x y :
    u256_val (u256_Div x y) = if u256_val y =? 0 then 0 else u256_val x / u256_val y;
  u256_Mod_val x y :
    u256_val (u256_Mod x y) = if u256_val y =? 0 then 0 else u256_val x mod u256_val y;
  u256_AddUint64_val x z :
    is_u64 z -> u256_val (u256_AddUint64 x z) = (u256_val x + z) mod two256;
  u256_Abs_val x :
    u256_val (u256_Abs x) =
    if u256_val x <? 2 ^ 255 then u256_val x else two256 - u256_val x;
  u256_IsZero_val x : u256_IsZero x = (u256_val x =? 0);
  u256_IsUint64_val x : u256_IsUint64 x = (u256_val x <=? MaxUint64);
  u256_Uint64_val x : u256_Uint64 x = u64 (u256_val x)
}.

(** ** golang.org/x/exp/slices *)
Class ExpSlices := {
  slices_Insert : forall {A : Type}, list A -> nat -> A -> list A;
  slices_Delete : forall {A : Type}, list A -> nat -> nat -> list A
}.

Class ExpSlicesLaws (S : ExpSlices) : Prop := {
  slices_Insert_spec {A} (l : list A) i x :
    (i <= length l)%nat -> slices_Insert l i x = take i l ++ x :: drop i l;
  slices_Delete_spec {A} (l : list A) i j :
    (i <= j <= length l)%nat -> slices_Delete l i j = take i l ++ drop j l
}.

(** ** [sort.Sort]: sorted by [less], in no particular order among equals *)
Class GoSort := { sort_Sort : forall {A : Type}, (A -> A -> bool) -> list A -> list A }.

(** [less] is a strict weak order: its negation is total and transitive. *)
Record weak_order {A} (less : A -> A -> bool) : Prop := {
  wo_asym x y : less x y = true -> less y x = false;
  wo_trans x y z : less y x = false -> less z y = false -> less z x = false
}.

Class GoSortLaws (S : GoSort) : Prop := {
  sort_Sort_perm {A} (less : A -> A -> bool) l : sort_Sort less l ≡ₚ l;
  sort_Sort_sorted {A} (less : A -> A -> bool) l :
    weak_order less -> StronglySorted (fun x y => less y x = false) (sort_Sort less l)
}.

(** ** Ranging over a function

    The loop body run on the items of an iterator until it stops or after an error:
    its state, and whether it would go on. *)
Section Feed.
Context {E A S : Type} (yield : result E A -> S -> S * bool).

Fixpoint feed (items : list (result E A)) (s : S) : S * bool :=
  match items with
  | [] => (s, true)
  | Err e :: _ => ((yield (Err e) s).1, false)
  | Ok a :: items => let '(s, more) := yield (Ok a) s in if more : bool then feed items s else (s, false)
  end.

Lemma feed_app a b s : feed (a ++ b) s = let r := feed a s in if r.2 then feed b r.1 else r.
Proof.
  revert s; induction a as [|[x|e] a IH]; intros s; cbn [app feed]; [done| |done].
  destruct (yield (Ok x) s) as [s' [|]]; [apply IH|done].
Qed.
End Feed.

(** ** Concrete instances *)
Module Concrete.
#[export] Instance go_xdr : GoXdr := {|
  xdr_Marshal_uint64 v := be_put 8 v;
  xdr_Unmarshal_uint64 b := Some (be_get b);
  xdr_Marshal_opaque p :=
    be_put 4 (go_len p) ++ p ++ replicate ((4 - length p mod 4) mod 4) zero_byte
|}.
#[export] Instance go_xdr_laws : GoXdrLaws go_xdr.
Proof. by split. Qed.

(** 256-bit integers as integers kept reduced. *)
#[export] Instance z_uint256 : Uint256 := {|
  uint256 := Z;
  u256_val x := x mod two256;
  u256_NewInt z := z;
  u256_Add x y := x + y;
  u256_Sub x y := x - y;
  u256_Mul x y := x * y;
  u256_Div x y := if y mod two256 =? 0 then 0 else (x mod two256) / (y mod two256);
  u256_Mod x y := if y mod two256 =? 0 then 0 else (x mod two256) mod (y mod two256);
  u256_AddUint64 x z := x + z;
  u256_Abs x := if x mod two256 <? 2 ^ 255 then x else - x;
  u256_IsZero x := x mod two256 =? 0;
  u256_IsUint64 x := x mod two256 <=? MaxUint64;
  u256_Uint64 x := u64 (x mod two256)
|}.
#[export] Instance z_uint256_laws : Uint256Laws z_uint256.
Proof.
  assert (H2 : two256 = 2 ^ 256) by done.
  assert (H0 : 0 < two256) by done.
  split; simpl; intros; rewrite <- ?Zplus_mod, <- ?Zminus_mod, <- ?Zmult_mod; try done.
  - by apply Z.mod_pos_bound.
  - apply Z.mod_small. unfold is_u64 in *. assert (MaxUint64 < two256) by done. lia.
  - pose proof (Z.mod_pos_bound x two256 H0). pose proof (Z.mod_pos_bound y two256 H0).
    destruct (Z.eqb_spec (y mod two256) 0); [done|]. apply Z.mod_small.
    split; [apply Z.div_pos; lia|]. apply Z.div_lt_upper_bound; nia.
  - pose proof (Z.mod_pos_bound x two256 H0). pose proof (Z.mod_pos_bound y two256 H0).
    destruct (Z.eqb_spec (y mod two256) 0); [done|]. apply Z.mod_small.
    pose proof (Z.mod_pos_bound (x mod two256) (y mod two256) ltac:(lia)). lia.
  - by rewrite Zplus_mod_idemp_l.
  - case_bool; [done|]. apply Z.mod_opp_l_nz; [done|].
    assert (0 < 2 ^ 255) by done. lia.
Qed.

#[export] Instance list_slices : ExpSlices := {|
  slices_Insert A l i x := take i l ++ x :: drop i l;
  slices_Delete A l i j := take i l ++ drop j l
|}.
#[export] Instance list_slices_laws : ExpSlicesLaws list_slices.
Proof. by split. Qed.

(** Merge sort. *)
Definition not_after {A} (less : A -> A -> bool) (x y : A) : Prop := less y x = false.
#[export] Instance not_after_dec {A} (less : A -> A -> bool) : RelDecision (not_after less).
Proof. intros x y. unfold not_after. solve_decision. Defined.

#[export] Instance merge_sort_go : GoSort := {|
  sort_Sort A less l := merge_sort (not_after less) l
|}.
#[export] Instance merge_sort_go_laws : GoSortLaws merge_sort_go.
Proof.
  split; intros A less l; simpl; [apply merge_sort_Permutation|].
  intros [HA HT]. apply StronglySorted_merge_sort.
  - intros x y z H1 H2. by apply (HT x y z).
  - intros x y. destruct (less y x) eqn:E; [right; by apply HA|by left].
Qed.
End Concrete.
