(* ===== verification/Sha256.v ===== *)
(** * SHA-256

    [crypto/sha256.Sum256] and [New], [Write], [Sum]: FIPS 180-4 on 32-bit words in Z. A
    running hash is the bytes it has been given. *)
From Stdlib Require Import ZArith Lia.
From stdpp Require Import base list.
From S2P Require Import Prelude GoStd.
#[local] Open Scope Z_scope.

Definition rotr (n x : Z) : Z := Z.lor (Z.shiftr x n) (u32 (Z.shiftl x (32 - n))).
Definition Ch (x y z : Z) : Z := Z.lxor (Z.land x y) (Z.land (4294967295 - x) z).
Definition Maj (x y z : Z) : Z := Z.lxor (Z.lxor (Z.land x y) (Z.land x z)) (Z.land y z).
Definition Sigma0 (x : Z) : Z := Z.lxor (Z.lxor (rotr 2 x) (rotr 13 x)) (rotr 22 x).
Definition Sigma1 (x : Z) : Z := Z.lxor (Z.lxor (rotr 6 x) (rotr 11 x)) (rotr 25 x).
Definition sigma0 (x : Z) : Z := Z.lxor (Z.lxor (rotr 7 x) (rotr 18 x)) (Z.shiftr x 3).
Definition sigma1 (x : Z) : Z := Z.lxor (Z.lxor (rotr 17 x) (rotr 19 x)) (Z.shiftr x 10).

(** The constants: 32 bits of the fractions of roots of the first primes. *)
Definition prime_numbers : list Z :=
  List.filter (fun p => forallb (fun d => (p <=? d) || negb (p mod d =? 0)) [2; 3; 5; 7; 11; 13; 17])
    (map (fun k => Z.of_nat k + 2) (seq 0 310)).

(** The greatest [r] of [n] more bits than [acc] with [r^3 <= v]. *)
Fixpoint cube_root (n : nat) (acc v : Z) : Z :=
  match n with
  | O => acc
  | S n =>
      let r := acc + 2 ^ Z.of_nat n in
      cube_root n (if r * (r * r) <=? v then r else acc) v
  end.

Definition root_fraction (p : Z) : Z := u32 (cube_root 40 0 (Z.shiftl p 96)).
Definition round_constants : list Z := Eval vm_compute in map root_fraction prime_numbers.

(** The eight working variables. *)
Record sha_state : Type := mkSha { sa : Z; sb : Z; sc : Z; sd : Z; se : Z; sf : Z; sg : Z; sh : Z }.

Definition square_root_fractions : list Z :=
  Eval vm_compute in map (fun p => u32 (Z.sqrt (Z.shiftl p 64))) (take 8 prime_numbers).

Definition initial_state : sha_state :=
  let h i := nth i square_root_fractions 0 in mkSha (h 0%nat) (h 1%nat) (h 2%nat) (h 3%nat) (h 4%nat) (h 5%nat) (h 6%nat) (h 7%nat).

(** The message schedule, with the last sixteen words at hand, newest first. *)
Fixpoint schedule (n : nat) (last : list Z) : list Z :=
  match n with
  | O => []
  | S n =>
      let at_ i := nth i last 0 in
      let w := u32 (sigma1 (at_ 1%nat) + at_ 6%nat + sigma0 (at_ 14%nat) + at_ 15%nat) in
      w :: schedule n (w :: take 15 last)
  end.

Definition sha_round (s : sha_state) (kw : Z * Z) : sha_state :=
  let '(k, w) := kw in
  let t1 := sh s + Sigma1 (se s) + Ch (se s) (sf s) (sg s) + k + w in
  let t2 := Sigma0 (sa s) + Maj (sa s) (sb s) (sc s) in
  mkSha (u32 (t1 + t2)) (sa s) (sb s) (sc s) (u32 (sd s + t1)) (se s) (sf s) (sg s).

Definition sha_block (s : sha_state) (words : list Z) : sha_state :=
  let r := fold_left sha_round (combine round_constants (words ++ schedule 48 (rev words))) s in
  mkSha (u32 (sa s + sa r)) (u32 (sb s + sb r)) (u32 (sc s + sc r)) (u32 (sd s + sd r))
        (u32 (se s + se r)) (u32 (sf s + sf r)) (u32 (sg s + sg r)) (u32 (sh s + sh r)).

(** Padding: a set bit, zeros, and the number of bits. *)
Definition sha_pad (m : bytes) : bytes :=
  let n := length m in
  m ++ Byte.x80 :: replicate ((119 - n mod 64) mod 64) zero_byte ++ be_put 8 (8 * Z.of_nat n).

(** [n] pieces of [k] bytes. *)
Fixpoint chunks (n k : nat) (m : bytes) : list bytes :=
  match n with O => [] | S n => take k m :: chunks n k (drop k m) end.

Definition Sum256 (m : bytes) : bytes :=
  let p := sha_pad m in
  let s := fold_left (fun s b => sha_block s (map be_get (chunks 16 4 b))) (chunks (length p / 64) 64 p) initial_state in
  concat (map (be_put 4) [sa s; sb s; sc s; sd s; se s; sf s; sg s; sh s]).

Lemma length_Sum256 m : length (Sum256 m) = 32%nat.
Proof. unfold Sum256. cbn [map concat]. by rewrite !length_app, !length_be_put. Qed.

Module Vectors.
Lemma constants : length round_constants = 64%nat.
Proof. reflexivity. Qed.
Lemma empty : be_get (Sum256 []) = 0xe3b0c44298fc1c149afbf4c8996fb92427ae41e4649b934ca495991b7852b855.
Proof. vm_compute. reflexivity. Qed.
Lemma abc : be_get (Sum256 (str "abc")) = 0xba7816bf8f01cfea414140de5dae2223b00361a396177a9cb410ff61f20015ad.
Proof. vm_compute. reflexivity. Qed.
Lemma two_blocks : be_get (Sum256 (str "abcdbcdecdefdefgefghfghighijhijkijkljklmklmnlmnomnopnopq")) =
  0x248d6a61d20638b8e5c026930c3e6039a33ce45964ff2167f6ecedd419db06c1.
Proof. vm_compute. reflexivity. Qed.
Lemma four_zeros : be_get (Sum256 (replicate 4 zero_byte)) = 0xdf3f619804a92fdb4057192dc43dd748ea778adc52bc498ce80524c014b81119.
Proof. vm_compute. reflexivity. Qed.
End Vectors.

(** Conversion compares messages, not digests. *)
#[global] Opaque Sum256.
