(* ===== verification/Checkpoints.v ===== *)
(** * Checkpoints of a history archive

    src/historyarchive/range.go: checkpoint ledgers, ranges of them, and their
    text. Ledger numbers are uint32. [None] is a panic: a division by zero, with a
    manager that [NewCheckpointManager] did not make. *)
From Stdlib Require Import ZArith Lia.
From stdpp Require Import base list option sorting.
From S2P Require Import Prelude GoStd Encodings.
#[local] Open Scope Z_scope.
#[local] Open Scope go_scope.

Definition DefaultCheckpointFrequency : Z := 64.

Record Range : Type := mkRange { Low : Z; High : Z }.
Record CheckpointManager : Type := mkManager { checkpointFreq : Z }.

Definition NewCheckpointManager (checkpointFrequency : Z) : CheckpointManager :=
  if checkpointFrequency =? 0 then mkManager DefaultCheckpointFrequency else mkManager checkpointFrequency.

Definition GetCheckpointFrequency (c : CheckpointManager) : Z := checkpointFreq c.

(** Go's [/] and [%] on unsigned integers. *)
Definition udiv (a b : Z) : option Z := if b =? 0 then None else Some (a / b).
Definition umod (a b : Z) : option Z := if b =? 0 then None else Some (a mod b).

Definition IsCheckpoint (c : CheckpointManager) (i : Z) : option bool :=
  let! m := umod (u32 (i + 1)) (checkpointFreq c) in Some (m =? 0).

Definition PrevCheckpoint (c : CheckpointManager) (i : Z) : option Z :=
  let freq := checkpointFreq c in
  if i <? freq then Some (u32 (freq - 1))
  else let! q := udiv (u32 (i + 1)) freq in Some (u32 (u32 (q * freq) - 1)).

Definition NextCheckpoint (c : CheckpointManager) (i : Z) : option Z :=
  if i =? 0 then Some (u32 (checkpointFreq c - 1))
  else
    let freq := checkpointFreq c in
    let! q := udiv (u64 (i + freq)) freq in
    let n := u64 (u64 (q * freq) - 1) in
    Some (u32 (Z.min n MaxUint32)).

Definition GetCheckpoint (c : CheckpointManager) (i : Z) : option Z := NextCheckpoint c i.

Definition GetCheckpointRange (c : CheckpointManager) (i : Z) : option Range :=
  let! checkpoint := GetCheckpoint c i in
  let low := u32 (u32 (checkpoint - checkpointFreq c) + 1) in
  let low := if low =? 0 then u32 (low + 1) else low in
  Some (mkRange low checkpoint).

Definition MakeRange (c : CheckpointManager) (low high : Z) : option Range :=
  let high := Z.max high low in
  let! p := PrevCheckpoint c low in
  let! n := NextCheckpoint c high in
  Some (mkRange p n).

Definition clamp (r other : Range) (cManager : CheckpointManager) : option Range :=
  let low := Z.max (Low r) (Low other) in
  let high := Z.min (High r) (High other) in
  MakeRange cManager low high.

Definition Range_String (r : Range) : bytes :=
  str "[0x" ++ fmt_8_8x (Low r) ++ str ", 0x" ++ fmt_8_8x (High r) ++ str "]".

(** The values sent on the channel before it is closed; [None] when [fuel] of them
    were not enough. The loop counts in uint64. *)
Fixpoint GenerateCheckpoints_loop (fuel : nat) (i high freq : Z) : option (list Z) :=
  if i <=? high then
    match fuel with
    | O => None
    | S fuel => let! rest := GenerateCheckpoints_loop fuel (u64 (i + freq)) high freq in Some (u32 i :: rest)
    end
  else Some [].

Definition GenerateCheckpoints (fuel : nat) (r : Range) (cManager : CheckpointManager) : option (list Z) :=
  GenerateCheckpoints_loop fuel (Low r) (High r) (checkpointFreq cManager).

Definition SizeInCheckPoints (r : Range) (cManager : CheckpointManager) : option Z :=
  let! q := udiv (u32 (High r - Low r)) (checkpointFreq cManager) in Some (1 + q).

Definition collapsedString (r : Range) : bytes :=
  if Low r =? High r then str "0x" ++ fmt_8_8x (Low r)
  else str "[0x" ++ fmt_8_8x (Low r) ++ str "-0x" ++ fmt_8_8x (High r) ++ str "]".

Definition InRange (r : Range) (sequence : Z) : bool := (Low r <=? sequence) && (sequence <=? High r).

Definition Range_Size (r : Range) : Z := u32 (1 + u32 (High r - Low r)).

(** [slices.Sort] of golang.org/x/exp: ascending. *)
Class ExpSort := { slices_Sort : list Z -> list Z }.
Class ExpSortLaws (S : ExpSort) : Prop := {
  slices_Sort_perm l : slices_Sort l ≡ₚ l;
  slices_Sort_sorted l : StronglySorted Z.le (slices_Sort l)
}.

(** The ranges [fmtRangeList] prints; [curr] is the one under construction. *)
Fixpoint collapse (freq : Z) (curr : option Range) (vs : list Z) : list Range :=
  match vs with
  | [] => match curr with Some r => [r] | None => [] end
  | t :: vs =>
      match curr with
      | Some r =>
          if u32 (High r + freq) =? t then collapse freq (Some (mkRange (Low r) t)) vs
          else r :: collapse freq (Some (mkRange t t)) vs
      | None => collapse freq (Some (mkRange t t)) vs
      end
  end.

(** [strings.Join]. *)
Fixpoint Join (l : list bytes) (sep : bytes) : bytes :=
  match l with
  | [] => []
  | [s] => s
  | s :: l => s ++ sep ++ Join l sep
  end.

Definition fmtRangeList {S : ExpSort} (vs : list Z) (cManager : CheckpointManager) : bytes :=
  Join (map collapsedString (collapse (checkpointFreq cManager) None (slices_Sort vs))) (str ", ").

(** ** Checkpoints as arithmetic *)

(** A checkpoint of frequency [f]: the last of a run of [f] ledgers from 0. *)
Definition checkpoint (f m : Z) : Prop := (m + 1) mod f = 0.

#[export] Instance checkpoint_dec f m : Decision (checkpoint f m).
Proof. unfold checkpoint. apply _. Defined.

(** [i], [i + step], ...: [n] of them. *)
Fixpoint progression (i step : Z) (n : nat) : list Z :=
  match n with O => [] | S n => i :: progression (i + step) step n end.

Lemma progression_in i step n m :
  In m (progression i step n) <-> exists k, 0 <= k < Z.of_nat n /\ m = i + k * step.
Proof.
  revert i; induction n as [|n IH]; intros i; cbn [progression In].
  - split; [done|]. intros (k & ? & _). lia.
  - rewrite IH. split.
    + intros [<-|(k & Hk & ->)]; [exists 0; lia|exists (k + 1); lia].
    + intros (k & Hk & ->). destruct (Z.eq_dec k 0) as [->|]; [left; lia|right; exists (k - 1); lia].
Qed.

Lemma progression_sorted i step n : 0 < step -> StronglySorted Z.lt (progression i step n).
Proof.
  intros Hs. revert i; induction n as [|n IH]; intros i; cbn [progression]; constructor; [done|].
  apply List.Forall_forall. intros m (k & Hk & ->)%progression_in. nia.
Qed.

Lemma length_progression i step n : length (progression i step n) = n.
Proof. revert i; induction n as [|n IH]; intros i; cbn; by rewrite ?IH. Qed.

Section Manager.
Context (c : CheckpointManager).
Local Abbreviation f := (checkpointFreq c).
(** Frequencies that divide the uint32 range, such as 64. *)
Context (Hf : 1 <= f <= MaxUint32) (Hdiv : 4294967296 mod f = 0).

Lemma u32_runs : exists K, 4294967296 = f * K.
Proof. exists (4294967296 / f). pose proof (Z.div_mod 4294967296 f). lia. Qed.

Lemma last_of_run i : is_u32 i -> 0 <= i / f * f /\ i / f * f <= i <= i / f * f + f - 1 /\ i / f * f + f - 1 <= MaxUint32.
Proof.
  unfold is_u32. intros Hi. destruct u32_runs as [K HK].
  pose proof (Z.div_mod i f ltac:(lia)). pose proof (Z.mod_pos_bound i f ltac:(lia)).
  assert (0 <= i / f) by (apply Z.div_pos; lia). assert (i / f < K) by (apply Z.div_lt_upper_bound; lia). nia.
Qed.

Lemma checkpoint_iff m : checkpoint f m <-> exists q, m = q * f + f - 1.
Proof.
  unfold checkpoint. split.
  - intros H. exists ((m + 1) / f - 1). pose proof (Z.div_mod (m + 1) f ltac:(lia)). lia.
  - intros [q ->]. replace (q * f + f - 1 + 1) with ((q + 1) * f) by ring. apply Z.mod_mul. lia.
Qed.

Lemma NextCheckpoint_value i : is_u32 i -> NextCheckpoint c i = Some (i / f * f + f - 1).
Proof.
  intros Hi. pose proof (last_of_run i Hi) as (H0 & H1 & H2). unfold is_u32 in Hi. unfold NextCheckpoint.
  destruct (Z.eqb_spec i 0) as [->|_].
  - rewrite Z.div_0_l by lia. rewrite u32_id by (unfold is_u32; lia). f_equal.
  - rewrite (u64_id (i + f)) by (unfold is_u64; lia).
    unfold udiv. rewrite (proj2 (Z.eqb_neq f 0)) by lia. cbn [option_bind].
    replace (i + f) with (i + 1 * f) by lia. rewrite Z.div_add by lia. rewrite Z.mul_add_distr_r, Z.mul_1_l.
    rewrite (u64_id (i / f * f + f)), u64_id by (unfold is_u64; lia).
    rewrite Z.min_l, u32_id by (unfold is_u32; lia). done.
Qed.

Lemma PrevCheckpoint_value i : is_u32 i -> PrevCheckpoint c i = Some (if i <? f then f - 1 else (i + 1) / f * f - 1).
Proof.
  intros Hi. unfold is_u32 in Hi. unfold PrevCheckpoint. destruct (Z.ltb_spec i f) as [Hlt|Hge].
  - by rewrite u32_id by (unfold is_u32; lia).
  - unfold udiv. rewrite (proj2 (Z.eqb_neq f 0)) by lia. cbn [option_bind].
    destruct u32_runs as [K HK]. destruct (Z.eq_dec i MaxUint32) as [->|Hne].
    + change (u32 (MaxUint32 + 1)) with 0. rewrite Z.div_0_l by lia.
      change (u32 (u32 (0 * f) - 1)) with MaxUint32. f_equal. change (MaxUint32 + 1) with 4294967296.
      rewrite HK at 1. replace (f * K) with (K * f) by ring. rewrite Z.div_mul by lia. lia.
    + rewrite (u32_id (i + 1)) by (unfold is_u32; lia).
      pose proof (Z.div_mod (i + 1) f ltac:(lia)). pose proof (Z.mod_pos_bound (i + 1) f ltac:(lia)).
      assert (1 <= (i + 1) / f) by (apply Z.div_le_lower_bound; lia).
      rewrite (u32_id ((i + 1) / f * f)), u32_id by (unfold is_u32; nia). done.
Qed.

Lemma next_run i j : is_u32 i -> is_u32 j ->
  i / f * f + f - 1 = j / f * f + f - 1 <-> i / f * f <= j <= i / f * f + f - 1.
Proof.
  intros Hi Hj. pose proof (last_of_run i Hi). pose proof (last_of_run j Hj). split; [lia|].
  intros H1. assert (j / f = i / f) as ->; [|done].
  symmetry. apply (Z.div_unique _ _ _ (j - i / f * f)); lia.
Qed.

(** ** The loop *)

Lemma GenerateCheckpoints_value high : forall fuel i n,
  0 <= i -> high <= MaxUint32 -> (n <= fuel)%nat ->
  (Z.of_nat n - 1) * f <= high - i < Z.of_nat n * f ->
  GenerateCheckpoints_loop fuel i high f = Some (progression i f n).
Proof.
  induction fuel as [|fuel IH]; intros i n Hi Hh Hn Hr.
  - assert (n = O) as -> by lia. cbn. rewrite (proj2 (Z.leb_gt _ _)) by lia. done.
  - cbn [GenerateCheckpoints_loop]. destruct n as [|n].
    + rewrite (proj2 (Z.leb_gt _ _)) by lia. done.
    + rewrite (proj2 (Z.leb_le _ _)) by nia. rewrite u64_id by (unfold is_u64; nia).
      rewrite (IH _ n) by nia. cbn. rewrite u32_id by (unfold is_u32; nia). done.
Qed.
End Manager.

(** ** Properties *)

(** The checkpoint of a ledger. With a frequency that divides the uint32
    range, no call panics and none wraps around: [NextCheckpoint] is the least
    checkpoint from the ledger on, [PrevCheckpoint] the greatest one up to it, or
    the first one when there is none, [IsCheckpoint] says whether the ledger is
    one, and [GetCheckpointRange] holds exactly the ledgers from 1 on that share
    the ledger's checkpoint. *)
Theorem checkpoint_of_ledger freq i :
  1 <= freq <= MaxUint32 -> 4294967296 mod freq = 0 -> is_u32 i ->
  let c := NewCheckpointManager freq in
  IsCheckpoint c i = Some (bool_decide (checkpoint freq i)) /\
  exists p n r, PrevCheckpoint c i = Some p /\ NextCheckpoint c i = Some n /\ GetCheckpointRange c i = Some r /\
    (i <= n <= MaxUint32 /\ checkpoint freq n /\ forall m, i <= m -> checkpoint freq m -> n <= m) /\
    checkpoint freq p /\ (if i <? freq - 1 then p = freq - 1 else p <= i /\ forall m, m <= i -> checkpoint freq m -> m <= p) /\
    forall j, is_u32 j -> InRange r j = true <-> 1 <= j /\ NextCheckpoint c j = Some n.
Proof.
  intros Hf Hdiv Hi c. assert (checkpointFreq c = freq) as Hc.
  { unfold c, NewCheckpointManager. by rewrite (proj2 (Z.eqb_neq _ _)) by lia. }
  rewrite <- Hc in Hf, Hdiv |- *. clear Hc. clearbody c. set (f := checkpointFreq c) in *.
  pose proof (last_of_run c Hf Hdiv i Hi) as Hrun. fold f in Hrun. split.
  { unfold IsCheckpoint, umod. fold f. rewrite (proj2 (Z.eqb_neq f 0)) by lia. cbn [option_bind]. f_equal.
    unfold checkpoint. destruct (u32_runs c Hf Hdiv) as [K HK]. fold f in HK.
    assert (u32 (i + 1) mod f = (i + 1) mod f) as ->.
    { unfold u32. rewrite (Z.mod_eq (i + 1) 4294967296) by done. rewrite HK at 1.
      replace (i + 1 - f * K * ((i + 1) / 4294967296)) with (i + 1 + - (K * ((i + 1) / 4294967296)) * f) by ring.
      by rewrite Z.mod_add by lia. }
    destruct (Z.eqb_spec ((i + 1) mod f) 0); symmetry; [by apply bool_decide_eq_true|by apply bool_decide_eq_false]. }
  unfold GetCheckpointRange, GetCheckpoint.
  rewrite PrevCheckpoint_value, NextCheckpoint_value by done. fold f. cbn [option_bind].
  set (q := i / f) in *.
  assert (u32 (u32 (q * f + f - 1 - f) + 1) = q * f) as ->.
  { destruct (Z.eq_dec (q * f) 0) as [->|]; [|by rewrite (u32_id (_ - f)), u32_id by (unfold is_u32; lia); lia].
    replace (0 + f - 1 - f) with (-1) by lia. done. }
  eexists _, _, _. split_and!; [done|done|done|lia|lia| | | | |].
  - apply checkpoint_iff; [done|]. by exists q.
  - intros m Hm [k ->]%checkpoint_iff; [|done]. destruct (Z.le_gt_cases q k); nia.
  - destruct (Z.ltb_spec i f); apply checkpoint_iff; try done; [exists 0; lia|exists ((i + 1) / f - 1); lia].
  - destruct (Z.ltb_spec i (f - 1)); [by rewrite (proj2 (Z.ltb_lt i f)) by lia|].
    pose proof (Z.div_mod (i + 1) f ltac:(lia)). pose proof (Z.mod_pos_bound (i + 1) f ltac:(lia)).
    assert ((if i <? f then f - 1 else (i + 1) / f * f - 1) = (i + 1) / f * f - 1) as ->.
    { destruct (Z.ltb_spec i f); [|done]. assert (i + 1 = f) as -> by lia. rewrite Z.div_same by lia. lia. }
    split; [lia|]. intros m Hm [k ->]%checkpoint_iff; [|done].
    assert (k + 1 <= (i + 1) / f) by (apply Z.div_le_lower_bound; lia). nia.
  - intros j Hj. rewrite NextCheckpoint_value by done. fold f. unfold InRange; cbn [Low High].
    pose proof (next_run c Hf Hdiv i j Hi Hj) as Hrun'. fold f q in Hrun'. unfold is_u32 in Hj.
    assert (Some (j / f * f + f - 1) = Some (q * f + f - 1) <-> q * f + f - 1 = j / f * f + f - 1) as ->
      by (split; [intros [= ->]; done|intros ->; done]).
    rewrite Hrun', andb_true_iff, !Z.leb_le. destruct (Z.eqb_spec (q * f) 0) as [E|E]; [|lia].
    rewrite E. change (u32 (0 + 1)) with 1. lia.
Qed.

(** The checkpoints of a range of ledgers. With a frequency that divides the
    uint32 range, [MakeRange] does not panic, and [GenerateCheckpoints] on its
    result closes the channel after sending every checkpoint between the bounds
    once, in ascending order, [SizeInCheckPoints] of them; the checkpoint of every
    ledger of the given interval is among them. *)
Theorem checkpoints_of_range freq low high :
  1 <= freq <= MaxUint32 -> 4294967296 mod freq = 0 -> is_u32 low -> is_u32 high ->
  let c := NewCheckpointManager freq in
  exists r l, MakeRange c low high = Some r /\ SizeInCheckPoints r c = Some (go_len l) /\
    (forall fuel, (length l <= fuel)%nat -> GenerateCheckpoints fuel r c = Some l) /\
    StronglySorted Z.lt l /\ (forall m, In m l <-> checkpoint freq m /\ Low r <= m <= High r) /\
    forall j n, low <= j <= high -> NextCheckpoint c j = Some n -> In n l.
Proof.
  intros Hf Hdiv Hlow Hhigh c. assert (checkpointFreq c = freq) as Hc.
  { unfold c, NewCheckpointManager. by rewrite (proj2 (Z.eqb_neq _ _)) by lia. }
  rewrite <- Hc in Hf, Hdiv |- *. clear Hc. clearbody c. set (f := checkpointFreq c) in *.
  assert (Hmax : is_u32 (Z.max high low)) by (unfold is_u32 in *; lia).
  pose proof (last_of_run c Hf Hdiv _ Hmax) as Hrun. fold f in Hrun.
  unfold MakeRange. rewrite PrevCheckpoint_value, NextCheckpoint_value by done. fold f. cbn [option_bind].
  set (p := if low <? f then f - 1 else (low + 1) / f * f - 1). set (hi := Z.max high low) in *.
  assert (exists k, p = k * f + f - 1 /\ 0 <= k /\ k <= hi / f /\ forall j, low <= j -> k <= j / f) as (k & Hp & Hk0 & Hk & Hkj).
  { subst p. destruct (Z.ltb_spec low f).
    - exists 0. split_and!; [lia|done|apply Z.div_pos; unfold is_u32 in *; lia|]. intros j Hj.
      apply Z.div_pos; unfold is_u32 in *; lia.
    - exists ((low + 1) / f - 1). pose proof (Z.div_mod (low + 1) f ltac:(lia)).
      pose proof (Z.mod_pos_bound (low + 1) f ltac:(lia)).
      assert (1 <= (low + 1) / f) by (apply Z.div_le_lower_bound; lia).
      split_and!; [lia|lia| |]; [|intros j Hj]; apply Z.div_le_lower_bound; subst hi; nia. }
  set (n := Z.to_nat (hi / f - k + 1)).
  exists (mkRange p (hi / f * f + f - 1)), (progression p f n).
  assert (Hn : Z.of_nat n = hi / f - k + 1) by lia.
  assert (Hin : forall q, k <= q <= hi / f -> In (q * f + f - 1) (progression p f n)).
  { intros q Hq. apply progression_in. exists (q - k). rewrite Hp. nia. }
  split_and!; [done| | |by apply progression_sorted; lia| |].
  - unfold SizeInCheckPoints, udiv, go_len. cbn [Low High]. fold f. rewrite (proj2 (Z.eqb_neq f 0)) by lia.
    cbn [option_bind]. rewrite length_progression, Hn. unfold is_u32 in *. rewrite u32_id by (unfold is_u32; nia).
    f_equal. rewrite Hp. replace (hi / f * f + f - 1 - (k * f + f - 1)) with ((hi / f - k) * f) by ring.
    rewrite Z.div_mul by lia. lia.
  - intros fuel Hfuel. rewrite length_progression in Hfuel. unfold GenerateCheckpoints; cbn [Low High].
    unfold is_u32 in *. apply GenerateCheckpoints_value; fold f; try done; rewrite ?Hn, ?Hp; nia.
  - intros m. cbn [Low High]. rewrite progression_in. split.
    + intros (q & Hq & ->). split; [apply (checkpoint_iff c Hf); fold f; exists (k + q); rewrite Hp; lia|].
      rewrite Hp. nia.
    + intros [[q ->]%(checkpoint_iff c Hf) Hm]. fold f in Hm |- *. exists (q - k). rewrite Hp in *. nia.
  - intros j m Hj. unfold is_u32 in *. rewrite NextCheckpoint_value by (done || unfold is_u32; lia).
    intros [= <-]. fold f. apply Hin. split; [apply Hkj; lia|]. apply Z.div_le_mono; subst hi; lia.
Qed.

(** ** Printed lists of checkpoints *)

(** The checkpoints a printed range stands for. *)
Definition expand (f : Z) (r : Range) : list Z :=
  progression (Low r) f (Z.to_nat ((High r - Low r) / f + 1)).

Lemma progression_app i f a b :
  progression i f (a + b) = progression i f a ++ progression (i + Z.of_nat a * f) f b.
Proof.
  revert i; induction a as [|a IH]; intros i; cbn [Nat.add progression app].
  - f_equal. lia.
  - rewrite IH. do 3 f_equal. lia.
Qed.

Lemma collapse_expand f : 1 <= f <= MaxUint32 -> forall l r,
  0 <= Low r -> (exists k, 0 <= k /\ High r = Low r + k * f) -> is_u32 (High r) ->
  Forall is_u32 l -> StronglySorted Z.le (High r :: l) ->
  flat_map (expand f) (collapse f (Some r) l) = expand f r ++ l.
Proof.
  intros Hf. assert (He1 : forall t, expand f (mkRange t t) = [t]).
  { intros t. unfold expand; cbn [Low High]. rewrite Z.sub_diag, Z.div_0_l by lia. done. }
  induction l as [|t l IH]; intros r Hlow (k & Hk & Hhigh) Hr Hl Hs; cbn [collapse]; [done|].
  inversion Hl as [|? ? Ht Hl']; subst. inversion Hs as [|? ? Hs' Hle]; subst.
  inversion Hle as [|? ? Hrt _]; subst. unfold is_u32 in *.
  destruct (Z.eqb_spec (u32 (High r + f)) t) as [E|E].
  - assert (t = High r + f) as ->.
    { destruct (Z.le_gt_cases (High r + f) MaxUint32); [by rewrite u32_id in E by (unfold is_u32; lia)|].
      unfold u32 in E. rewrite <- (Z.mod_unique (High r + f) 4294967296 1 (High r + f - 4294967296)) in E; lia. }
    rewrite IH; cbn [Low High]; [|done|exists (k + 1); lia|unfold is_u32; lia|done|done].
    unfold expand; cbn [Low High]. rewrite Hhigh.
    replace (Low r + k * f + f - Low r) with ((k + 1) * f) by ring.
    replace (Low r + k * f - Low r) with (k * f) by ring. rewrite !Z.div_mul by lia.
    replace (Z.to_nat (k + 1 + 1)) with (Z.to_nat (k + 1) + 1)%nat by lia.
    rewrite progression_app, <- app_assoc. cbn [progression app]. do 2 f_equal. lia.
  - cbn [flat_map]. rewrite IH; cbn [Low High]; [by rewrite He1|lia|exists 0; lia|done|done|done].
Qed.

(** What [fmtRangeList] prints are ranges that stand for the given checkpoints,
    each as often as it is given, in ascending order. *)
Theorem fmtRangeList_faithful {S : ExpSort} {SL : ExpSortLaws S} vs c :
  1 <= checkpointFreq c <= MaxUint32 -> Forall is_u32 vs ->
  exists rs, fmtRangeList vs c = Join (map collapsedString rs) (str ", ") /\
    flat_map (expand (checkpointFreq c)) rs ≡ₚ vs /\ StronglySorted Z.le (flat_map (expand (checkpointFreq c)) rs).
Proof.
  intros Hf Hvs. exists (collapse (checkpointFreq c) None (slices_Sort vs)). split; [done|].
  assert (flat_map (expand (checkpointFreq c)) (collapse (checkpointFreq c) None (slices_Sort vs)) = slices_Sort vs) as ->.
  { assert (Forall is_u32 (slices_Sort vs)) as Hall by by rewrite slices_Sort_perm.
    pose proof (slices_Sort_sorted vs) as Hs. destruct (slices_Sort vs) as [|t l]; [done|]. cbn [collapse].
    inversion Hall as [|? ? Ht Hl]; subst. unfold is_u32 in Ht.
    rewrite collapse_expand; [|done|cbn; lia|exists 0; cbn; lia|done|done|done].
    unfold expand; cbn [Low High]. rewrite Z.sub_diag, Z.div_0_l by lia. done. }
  split; [apply slices_Sort_perm|apply slices_Sort_sorted].
Qed.
