(* ===== verification/ArchiveState.v ===== *)
(** * The state of a history archive

    src/historyarchive/hash.go and history_archive_state.go: a history archive state is
    the file that says which buckets make up the bucket lists at a checkpoint. Its
    strings are as they were decoded from JSON. *)
From Stdlib Require Import ZArith Lia.
From stdpp Require Import base list sets option.
From S2P Require Import Prelude GoStd Sha256 Encodings Checkpoints.
#[local] Open Scope Z_scope.
#[local] Open Scope go_scope.

(** ** Hashes *)
Definition fromHexChar (c : byte) : option Z :=
  let z := Z_of_byte c in
  if (48 <=? z) && (z <=? 57) then Some (z - 48)
  else if (97 <=? z) && (z <=? 102) then Some (z - 97 + 10)
  else if (65 <=? z) && (z <=? 70) then Some (z - 65 + 10)
  else None.

(** [hex.DecodeString]. *)
Fixpoint hex_DecodeString (s : bytes) : option bytes :=
  match s with
  | [] => Some []
  | [_] => None
  | a :: b :: s =>
      let! x := fromHexChar a in
      let! y := fromHexChar b in
      let! rest := hex_DecodeString s in
      Some (byte_of_Z (16 * x + y) :: rest)
  end.

Definition DecodeHash (s : bytes) : option bytes :=
  let! hs := hex_DecodeString s in
  if (length hs =? 32)%nat then Some hs else None.

(** [hex.EncodeToString]. *)
Definition Hash_String (h : bytes) : bytes :=
  flat_map (fun b => [hex_digit 87 (Z_of_byte b / 16); hex_digit 87 (Z_of_byte b mod 16)]) h.

(** [None] is the panic. *)
Definition MustDecodeHash (s : bytes) : option bytes := DecodeHash s.

Definition EmptyXdrArrayHash : option bytes :=
  MustDecodeHash (str "df3f619804a92fdb4057192dc43dd748ea778adc52bc498ce80524c014b81119").

Definition IsZero (h : bytes) : bool := forallb (fun n => Z_of_byte n =? 0) h.

(** ** Bucket lists *)
Definition NumLevels : nat := 11.
Definition HistoryArchiveStateVersionForProtocol23 : Z := 2.

(** A level: the current and the snapshot bucket and the output of the next merge. *)
Record BucketLevel : Type := mkLevel { Curr : bytes; Snap : bytes; Output : bytes }.
Abbreviation BucketList := (list BucketLevel).

Inductive has_error : Type :=
| ErrCurrHex (level : Z)
| ErrSnapHex (level : Z)
| ErrHashString.

(** The hashes of the levels after the [i]-th, one after the other. *)
Fixpoint level_hashes (i : Z) (b : BucketList) : result has_error bytes :=
  match b with
  | [] => Ok []
  | level :: b =>
      match hex_DecodeString (Curr level), hex_DecodeString (Snap level) with
      | None, _ => Err (ErrCurrHex i)
      | Some _, None => Err (ErrSnapHex i)
      | Some curr, Some snap =>
          let? rest := level_hashes (i + 1) b in
          Ok (Sum256 (curr ++ snap) ++ rest)
      end
  end.

Definition BucketList_Hash (b : BucketList) : result has_error bytes :=
  let? total := level_hashes 0 b in Ok (Sum256 total).

Record HistoryArchiveState : Type := mkHAS {
  Version : Z;
  CurrentLedger : Z;
  NetworkPassphrase : bytes;
  CurrentBuckets : BucketList;
  HotArchiveBuckets : BucketList
}.

(** ** Summaries *)

(** Whether one of the strings is of a bucket. *)
Fixpoint level_used (bss : list bytes) : result has_error bool :=
  match bss with
  | [] => Ok false
  | bs :: bss =>
      if bool_decide (bs = []) then level_used bss
      else match DecodeHash bs with
      | None => Err ErrHashString
      | Some h => let? used := level_used bss in Ok (negb (IsZero h) || used)
      end
  end.

Fixpoint summarizeBucketList (buckets : BucketList) : result has_error (bytes * Z) :=
  match buckets with
  | [] => Ok ([], 0)
  | b :: buckets =>
      let? used := level_used [Curr b; Snap b; Output b] in
      let? rest := summarizeBucketList buckets in
      Ok (byte_of_Z (if used : bool then 35 else 95) :: rest.1, (if used : bool then 1 else 0) + rest.2)
  end.

Definition LevelSummary (h : HistoryArchiveState) : result has_error (bytes * Z) :=
  let? current := summarizeBucketList (CurrentBuckets h) in
  if HistoryArchiveStateVersionForProtocol23 <=? Version h then
    let? hot := summarizeBucketList (HotArchiveBuckets h) in
    Ok (current.1 ++ str "|" ++ hot.1, current.2 + hot.2)
  else Ok current.

(** ** All buckets *)
Fixpoint bucket_hashes_of (bss : list bytes) : result has_error (list bytes) :=
  match bss with
  | [] => Ok []
  | bs :: bss =>
      if bool_decide (bs = []) then bucket_hashes_of bss
      else match DecodeHash bs with
      | None => Err ErrHashString
      | Some h => let? rest := bucket_hashes_of bss in Ok (if IsZero h then rest else h :: rest)
      end
  end.

Definition extractBucketHashes (buckets : BucketList) : result has_error (list bytes) :=
  bucket_hashes_of (flat_map (fun b => [Curr b; Snap b; Output b]) buckets).

Definition Buckets (h : HistoryArchiveState) : result has_error (list bytes) :=
  let? current := extractBucketHashes (CurrentBuckets h) in
  if HistoryArchiveStateVersionForProtocol23 <=? Version h then
    let? hot := extractBucketHashes (HotArchiveBuckets h) in Ok (current ++ hot)
  else Ok current.

(** ** The hash of the bucket lists *)
Definition BucketListHash (h : HistoryArchiveState) : result has_error bytes :=
  let? hash := BucketList_Hash (CurrentBuckets h) in
  if Version h <? HistoryArchiveStateVersionForProtocol23 then Ok hash
  else let? archiveListHash := BucketList_Hash (HotArchiveBuckets h) in Ok (Sum256 (hash ++ archiveListHash)).

(** [HistoryArchiveState.Range]. *)
Definition State_Range (h : HistoryArchiveState) : Range := mkRange 63 (CurrentLedger h).

(** ** Facts *)
Lemma EmptyXdrArrayHash_is : EmptyXdrArrayHash = Some (Sum256 (replicate 4 zero_byte)).
Proof. vm_compute. reflexivity. Qed.

(** What is hashed for the levels of a list, the list, and the state. *)
Definition level_contents (b : BucketList) : option (list bytes) :=
  mapM (fun l => let! curr := hex_DecodeString (Curr l) in let! snap := hex_DecodeString (Snap l) in Some (curr ++ snap)) b.
Definition list_messages (b : BucketList) : list bytes :=
  match level_contents b with Some cs => concat (map Sum256 cs) :: cs | None => [] end.
Definition state_messages (h : HistoryArchiveState) : list bytes :=
  list_messages (CurrentBuckets h) ++
  if Version h <? HistoryArchiveStateVersionForProtocol23 then []
  else list_messages (HotArchiveBuckets h) ++
    match BucketList_Hash (CurrentBuckets h), BucketList_Hash (HotArchiveBuckets h) with
    | Ok a, Ok b => [a ++ b]
    | _, _ => []
    end.

(** No two of these messages have the same hash. *)
Definition no_collision (ms : list bytes) : Prop := forall m m', m ∈ ms -> m' ∈ ms -> Sum256 m = Sum256 m' -> m = m'.

Lemma level_hashes_contents b : forall i t, level_hashes i b = Ok t -> exists cs,
  level_contents b = Some cs /\ t = concat (map Sum256 cs).
Proof.
  induction b as [|l b IH]; intros i t; [intros [= <-]; by exists []|]. cbn. unfold level_contents. cbn.
  destruct (hex_DecodeString (Curr l)) as [curr|]; [|done]. destruct (hex_DecodeString (Snap l)) as [snap|]; [|done].
  destruct (level_hashes (i + 1) b) as [rest|] eqn:E; [|done]. intros [= <-].
  destruct (IH _ _ E) as (cs & Ec & ->). unfold level_contents in Ec. rewrite Ec. by exists ((curr ++ snap) :: cs).
Qed.

Lemma BucketList_Hash_contents b h : BucketList_Hash b = Ok h -> exists cs,
  level_contents b = Some cs /\ length cs = length b /\ h = Sum256 (concat (map Sum256 cs)) /\
  list_messages b = concat (map Sum256 cs) :: cs.
Proof.
  unfold BucketList_Hash. destruct (level_hashes 0 b) as [t|] eqn:E; [|done]. intros [= <-].
  destruct (level_hashes_contents _ _ _ E) as (cs & Ec & ->). exists cs. split; [done|].
  split; [symmetry; by eapply length_mapM|]. split; [done|]. unfold list_messages. by rewrite Ec.
Qed.

Lemma length_concat_hashes cs : length (concat (map Sum256 cs)) = (32 * length cs)%nat.
Proof. induction cs as [|c cs IH]; [done|]. cbn [map concat length]. rewrite length_app, length_Sum256, IH. lia. Qed.

(** Lists of hashes are equal only if the messages are. *)
Lemma concat_hashes_inj ms cs : forall cs', no_collision ms -> cs ⊆ ms -> cs' ⊆ ms ->
  concat (map Sum256 cs) = concat (map Sum256 cs') -> cs = cs'.
Proof.
  induction cs as [|c cs IH]; intros [|c' cs'] Hn H H' E; [done| | |].
  - apply (f_equal length) in E. rewrite !length_concat_hashes in E. cbn in E. lia.
  - apply (f_equal length) in E. rewrite !length_concat_hashes in E. cbn in E. lia.
  - cbn [map concat] in E. apply app_inj_1 in E as [E1 E2]; [|by rewrite !length_Sum256].
    apply list_subseteq_cons_iff in H as [Hc H]. apply list_subseteq_cons_iff in H' as [Hc' H'].
    f_equal; [by apply Hn|by apply IH].
Qed.

(** The hash of a list is of its levels. *)
Lemma BucketList_Hash_inj ms a b h : no_collision ms -> list_messages a ⊆ ms -> list_messages b ⊆ ms ->
  BucketList_Hash a = Ok h -> BucketList_Hash b = Ok h -> level_contents a = level_contents b.
Proof.
  intros Hn Ha Hb (cs & Ea & _ & Eh & Em)%BucketList_Hash_contents (cs' & Eb & _ & Eh' & Em')%BucketList_Hash_contents.
  rewrite Em in Ha. rewrite Em' in Hb. apply list_subseteq_cons_iff in Ha as [Ha Ha']. apply list_subseteq_cons_iff in Hb as [Hb Hb'].
  rewrite Ea, Eb. f_equal. apply (concat_hashes_inj ms); [done..|]. apply Hn; [done..|]. by rewrite <- Eh, <- Eh'.
Qed.

Lemma level_contents_length b cs : level_contents b = Some cs -> length cs = length b.
Proof. intros E. symmetry. by eapply length_mapM. Qed.

(** The message that the hash of a state is of. *)
Lemma BucketListHash_message h e : BucketListHash h = Ok e -> exists m hc,
  e = Sum256 m /\ m ∈ state_messages h /\ list_messages (CurrentBuckets h) ⊆ state_messages h /\
  BucketList_Hash (CurrentBuckets h) = Ok hc /\
  if Version h <? HistoryArchiveStateVersionForProtocol23 then
    exists cs, level_contents (CurrentBuckets h) = Some cs /\ m = concat (map Sum256 cs)
  else exists hh, m = hc ++ hh /\ BucketList_Hash (HotArchiveBuckets h) = Ok hh /\
    list_messages (HotArchiveBuckets h) ⊆ state_messages h.
Proof.
  unfold BucketListHash, state_messages. destruct (BucketList_Hash (CurrentBuckets h)) as [hc|] eqn:Ec; [|done]. cbn [result_bind].
  destruct (BucketList_Hash_contents _ _ Ec) as (cs & Ecs & _ & -> & Em).
  destruct (Version h <? HistoryArchiveStateVersionForProtocol23).
  - intros [= <-]. exists (concat (map Sum256 cs)), (Sum256 (concat (map Sum256 cs))). split; [done|]. rewrite app_nil_r.
    split; [rewrite Em; by left|]. split; [done|]. split; [done|]. by exists cs.
  - destruct (BucketList_Hash (HotArchiveBuckets h)) as [hh|] eqn:Eh; [|done]. cbn [result_bind]. intros [= <-].
    eexists _, _. split; [done|]. split; [do 2 (apply elem_of_app; right); by apply list_elem_of_singleton|].
    split; [by apply list_subseteq_app_l|]. split; [done|]. exists hh. split; [done|]. split; [done|].
    apply list_subseteq_app_r. by apply list_subseteq_app_l.
Qed.

(** The bucket list hash of a state tells whether it covers the hot archive, and is of
    the levels of the lists that it covers. *)
Lemma BucketListHash_inj h t e : no_collision (state_messages h ++ state_messages t) ->
  length (CurrentBuckets h) = NumLevels -> length (CurrentBuckets t) = NumLevels ->
  BucketListHash h = Ok e -> BucketListHash t = Ok e ->
  level_contents (CurrentBuckets h) = level_contents (CurrentBuckets t) /\
  (HistoryArchiveStateVersionForProtocol23 <= Version h ->
   HistoryArchiveStateVersionForProtocol23 <= Version t /\
   level_contents (HotArchiveBuckets h) = level_contents (HotArchiveBuckets t)).
Proof.
  intros Hn Hlh Hlt Eh Et. remember (state_messages h ++ state_messages t) as ms eqn:Ems.
  assert (state_messages h ⊆ ms) as Hh by (rewrite Ems; by apply list_subseteq_app_l).
  assert (state_messages t ⊆ ms) as Ht by (rewrite Ems; by apply list_subseteq_app_r).
  destruct (BucketListHash_message _ _ Eh) as (m & hc & Em & Him & Hch & Ehc & Hm).
  destruct (BucketListHash_message _ _ Et) as (m' & hc' & Em' & Him' & Hct & Ehc' & Hm').
  assert (m = m') as <- by (apply Hn; [by apply Hh|by apply Ht|congruence]). clear Em Em'.
  assert (forall cs b x y, level_contents b = Some cs -> length b = NumLevels -> length x = 32%nat -> length y = 32%nat ->
    concat (map Sum256 cs) <> x ++ y) as Hne.
  { intros cs b x y Ecs Hlb Hx Hy E. apply (f_equal length) in E.
    rewrite length_concat_hashes, (level_contents_length _ _ Ecs), Hlb, length_app in E. unfold NumLevels in E. lia. }
  assert (forall b x, BucketList_Hash b = Ok x -> length x = 32%nat) as H32.
  { intros b x (cs & _ & _ & -> & _)%BucketList_Hash_contents. apply length_Sum256. }
  destruct (Z.ltb_spec (Version h) HistoryArchiveStateVersionForProtocol23) as [Hvh|Hvh],
    (Z.ltb_spec (Version t) HistoryArchiveStateVersionForProtocol23) as [Hvt|Hvt].
  - destruct Hm as (cs & Ecs & ->), Hm' as (cs' & Ecs' & E'). split; [|lia]. rewrite Ecs, Ecs'. f_equal.
    apply (concat_hashes_inj ms); [done| | |done].
    + unfold list_messages in Hch. rewrite Ecs in Hch. apply list_subseteq_cons_iff in Hch as [_ Hch]. set_solver.
    + unfold list_messages in Hct. rewrite Ecs' in Hct. apply list_subseteq_cons_iff in Hct as [_ Hct]. set_solver.
  - destruct Hm as (cs & Ecs & ->), Hm' as (hh & E' & Ehh & _). by destruct (Hne _ _ _ _ Ecs Hlh (H32 _ _ Ehc') (H32 _ _ Ehh)).
  - destruct Hm as (hh & -> & Ehh & _), Hm' as (cs & Ecs & E'). by destruct (Hne _ _ _ _ Ecs Hlt (H32 _ _ Ehc) (H32 _ _ Ehh)).
  - destruct Hm as (hh & -> & Ehh & Hhh), Hm' as (hh' & E' & Ehh' & Hhh').
    apply app_inj_1 in E' as [<- <-]; [|by rewrite (H32 _ _ Ehc), (H32 _ _ Ehc')].
    split; [|intros _; split; [done|]]; (eapply (BucketList_Hash_inj ms); [done|set_solver|set_solver|done|done]).
Qed.

(** Lists of hashes with the same levels are the same hashes. *)
Definition all_hashes (b : BucketList) : Prop :=
  Forall (fun l => is_Some (DecodeHash (Curr l)) /\ is_Some (DecodeHash (Snap l))) b.

#[export] Instance all_hashes_dec b : Decision (all_hashes b).
Proof. unfold all_hashes. apply _. Defined.

Definition streamed_hashes (b : BucketList) : list (option bytes) := map DecodeHash (flat_map (fun l => [Curr l; Snap l]) b).

Lemma DecodeHash_hex s h : DecodeHash s = Some h -> hex_DecodeString s = Some h /\ length h = 32%nat.
Proof.
  unfold DecodeHash. destruct (hex_DecodeString s) as [hs|]; [|done]. destruct (Nat.eqb_spec (length hs) 32); [|done]. by intros [= <-].
Qed.

Lemma level_contents_hashes a : forall b, all_hashes a -> all_hashes b -> level_contents a = level_contents b ->
  streamed_hashes a = streamed_hashes b.
Proof.
  assert (forall l a, all_hashes (l :: a) -> exists c s cs, DecodeHash (Curr l) = Some c /\ DecodeHash (Snap l) = Some s /\
    length c = 32%nat /\ all_hashes a /\ level_contents a = Some cs /\ level_contents (l :: a) = Some ((c ++ s) :: cs)) as Hcons.
  { intros l a'. revert l. induction a' as [|l' a' IH]; intros l [[[c Ec] [s Es]] Ha]%Forall_cons_1;
      destruct (DecodeHash_hex _ _ Ec) as [Ec' Hc], (DecodeHash_hex _ _ Es) as [Es' _].
    - exists c, s, []. split_and!; try done. unfold level_contents. cbn. by rewrite Ec', Es'.
    - destruct (IH l' Ha) as (c' & s' & cs & _ & _ & _ & _ & _ & E). exists c, s, ((c' ++ s') :: cs). split_and!; try done.
      unfold level_contents in *. cbn [mapM]. rewrite Ec', Es'. cbn. cbn in E. by rewrite E. }
  induction a as [|l a IH]; intros [|l' b] Ha Hb E; [done| | |].
  - destruct (Hcons _ _ Hb) as (? & ? & ? & _ & _ & _ & _ & _ & E'). rewrite E' in E. done.
  - destruct (Hcons _ _ Ha) as (? & ? & ? & _ & _ & _ & _ & _ & E'). rewrite E' in E. done.
  - destruct (Hcons _ _ Ha) as (c & s & cs & Ec & Es & Hc & Ha' & Ea & Ela).
    destruct (Hcons _ _ Hb) as (c' & s' & cs' & Ec' & Es' & Hc' & Hb' & Eb & Elb).
    rewrite Ela, Elb in E. injection E as E1 <-. apply app_inj_1 in E1 as [<- <-]; [|congruence].
    unfold streamed_hashes in *. cbn. rewrite Ec, Es, Ec', Es'. do 2 f_equal. apply IH; [done..|]. congruence.
Qed.
