(* ===== verification/ArchivePaths.v ===== *)
(** * The files of a history archive

    src/historyarchive/dirprefix.go and the paths of util.go and archive.go: where the
    files of a checkpoint and the buckets are, which directories are listed for a range
    of ledgers, and which checkpoint a listed file is of. *)
From Stdlib Require Import ZArith Lia.
From stdpp Require Import base list sets option.
From S2P Require Import Prelude GoStd Encodings Checkpoints ArchiveState.
#[local] Open Scope Z_scope.
#[local] Open Scope go_scope.

Definition slash : bytes := str "/".

(** [path.Join], of elements that [path.Clean] leaves as they are. *)
Definition path_Join (elems : list bytes) : bytes := Join (filter (fun e => e <> []) elems) slash.

(** [fmt]'s [%02x] of a uint8. *)
Definition fmt_02x (v : Z) : bytes := hex_put 87 2 v.

(** ** Directory prefixes: three uint8s *)
Abbreviation DirPrefix := (list Z).

Definition pathPrefix (d : DirPrefix) (n : nat) : bytes := path_Join (map fmt_02x (take (S n) d)).
Definition DirPrefix_Path (d : DirPrefix) : bytes := pathPrefix d (length d).

Definition CheckpointPrefix (seq : Z) : DirPrefix :=
  [u8 (Z.shiftr seq 24); u8 (Z.shiftr seq 16); u8 (Z.shiftr seq 8)].

Definition HashPrefix (h : bytes) : DirPrefix := map Z_of_byte (take 3 h).

(** The first index at which the prefixes differ, or the last. *)
Fixpoint first_difference (i : nat) (low high : DirPrefix) : nat :=
  match low, high with
  | e :: ((_ :: _) as low), e' :: high => if e' =? e then first_difference (S i) low high else i
  | _, _ => i
  end.

(** The values from [low] to [high]. *)
Fixpoint values_from (n : nat) (low : Z) : list Z :=
  match n with O => [] | S n => low :: values_from n (low + 1) end.

Definition RangePaths (r : Range) : list bytes :=
  let lowpre := CheckpointPrefix (Low r) in
  let highpre := CheckpointPrefix (High r) in
  let diff := first_difference 0 lowpre highpre in
  let lo := nth diff lowpre 0 in
  let hi := nth diff highpre 0 in
  map (fun i => pathPrefix (<[diff := u8 i]> lowpre) diff) (values_from (Z.to_nat (hi - lo + 1)) lo).

(** ** Categories *)
Definition Categories : list bytes := [str "history"; str "ledger"; str "transactions"; str "results"; str "scp"].

Definition categoryExt (n : bytes) : bytes := if bool_decide (n = str "history") then str "json" else str "xdr.gz".

Definition categoryRequired (n : bytes) : bool := negb (bool_decide (n = str "scp")).

(** ** Paths *)
Definition CategoryCheckpointPath (cat : bytes) (chk : Z) : bytes :=
  let ext := categoryExt cat in
  let pre := DirPrefix_Path (CheckpointPrefix chk) in
  path_Join [cat; pre; cat ++ str "-" ++ fmt_8_8x chk ++ str "." ++ ext].

Definition BucketPath (bucket : bytes) : bytes :=
  path_Join [str "bucket"; DirPrefix_Path (HashPrefix bucket); str "bucket-" ++ Hash_String bucket ++ str ".xdr.gz"].

Definition GetBucketPathForHash (hash : bytes) : bytes :=
  str "bucket/" ++ DirPrefix_Path (HashPrefix hash) ++ str "/bucket-" ++ Hash_String hash ++ str ".xdr.gz".

(** ** Reading paths: the regular expressions, which are unanchored at the start *)
Fixpoint strip (p s : bytes) : option bytes :=
  match p, s with
  | [], _ => Some s
  | x :: p, y :: s => if bool_decide (x = y) then strip p s else None
  | _ :: _, [] => None
  end.

(** [[0-9a-f]]. *)
Definition lower_hex (c : byte) : option Z :=
  let z := Z_of_byte c in
  if (48 <=? z) && (z <=? 57) then Some (z - 48) else if (97 <=? z) && (z <=? 102) then Some (z - 97 + 10) else None.

(** [n] digits, their value after [acc], and the rest. *)
Fixpoint take_hex (n : nat) (acc : Z) (s : bytes) : option (Z * bytes) :=
  match n, s with
  | O, _ => Some (acc, s)
  | S n, c :: s => let! d := lower_hex c in take_hex n (16 * acc + d) s
  | S _, [] => None
  end.

(** [hexPrefixPat]. *)
Definition strip_hexPrefix (s : bytes) : option bytes :=
  let! s := strip slash s in let! (_, s) := take_hex 2 0 s in
  let! s := strip slash s in let! (_, s) := take_hex 2 0 s in
  let! s := strip slash s in let! (_, s) := take_hex 2 0 s in
  strip slash s.

(** The match ends at the end of the text, so it is of the last bytes of it. *)
Definition match_checkpoint (cat s : bytes) : option Z :=
  let ext := categoryExt cat in
  let n := (2 * length cat + 20 + length ext)%nat in
  if (length s <? n)%nat then None
  else
    let! s := strip cat (drop (length s - n) s) in
    let! s := strip_hexPrefix s in
    let! s := strip (cat ++ str "-") s in
    let! (i, s) := take_hex 8 0 s in
    let! s := strip (str "." ++ ext) s in
    match s with [] => Some i | _ => None end.

Definition match_bucket (s : bytes) : option bytes :=
  let n := (6 + 10 + 7 + 64 + 7)%nat in
  if (length s <? n)%nat then None
  else
    let! s := strip (str "bucket") (drop (length s - n) s) in
    let! s := strip_hexPrefix s in
    let! s := strip (str "bucket-") s in
    let! _ := take_hex 64 0 s in
    let! rest := strip (str ".xdr.gz") (drop 64 s) in
    match rest with [] => MustDecodeHash (take 64 s) | _ => None end.

Example path_of_checkpoint : CategoryCheckpointPath (str "ledger") 0x12345678 = str "ledger/12/34/56/ledger-12345678.xdr.gz".
Proof. reflexivity. Qed.
Example checkpoint_of_path : match_checkpoint (str "ledger") (str "a/ledger/12/34/56/ledger-12345678.xdr.gz") = Some 0x12345678.
Proof. reflexivity. Qed.
Example paths_of_range : RangePaths (mkRange 0x12345678 0x1236ffff) = [str "12/34"; str "12/35"; str "12/36"].
Proof. reflexivity. Qed.

(** ** Facts: paths *)
Lemma length_fmt_02x v : length (fmt_02x v) = 2%nat.
Proof. apply length_hex_put. Qed.

Lemma path_Join_nonempty elems : Forall (fun e => e <> []) elems -> path_Join elems = Join elems slash.
Proof.
  intros H. unfold path_Join. f_equal. induction H as [|e elems He _ IH]; [done|]. by rewrite filter_cons_True, IH.
Qed.

Lemma fmt_02x_nonempty v : fmt_02x v <> [].
Proof. intros E. pose proof (length_fmt_02x v) as H. by rewrite E in H. Qed.
#[local] Hint Resolve fmt_02x_nonempty : core.

Lemma pathPrefix_eq d n : pathPrefix d n = Join (map fmt_02x (take (S n) d)) slash.
Proof. apply path_Join_nonempty, Forall_map, Forall_true. auto. Qed.

Lemma CheckpointPath_eq seq : DirPrefix_Path (CheckpointPrefix seq) =
  fmt_02x (u8 (Z.shiftr seq 24)) ++ slash ++ fmt_02x (u8 (Z.shiftr seq 16)) ++ slash ++ fmt_02x (u8 (Z.shiftr seq 8)).
Proof. apply pathPrefix_eq. Qed.

(** The name of a checkpoint file in its directory. *)
Definition checkpoint_name (cat : bytes) (chk : Z) : bytes := cat ++ str "-" ++ fmt_8_8x chk ++ str "." ++ categoryExt cat.

Lemma CategoryCheckpointPath_eq cat chk : cat <> [] ->
  CategoryCheckpointPath cat chk = cat ++ slash ++ DirPrefix_Path (CheckpointPrefix chk) ++ slash ++ checkpoint_name cat chk.
Proof.
  intros Hc. unfold CategoryCheckpointPath. rewrite path_Join_nonempty; [done|]. constructor; [done|]. constructor.
  - rewrite CheckpointPath_eq. by intros [?%fmt_02x_nonempty _]%app_nil.
  - constructor; [|done]. by destruct cat.
Qed.

Lemma BucketPath_eq b : length b = 32%nat -> BucketPath b = GetBucketPathForHash b.
Proof.
  intros Hb. unfold BucketPath, GetBucketPathForHash. rewrite path_Join_nonempty; [done|].
  do 3 (destruct b as [|? b]; [done|]). constructor; [done|]. constructor; [|constructor; [done|done]].
  unfold DirPrefix_Path. rewrite pathPrefix_eq. by intros [?%fmt_02x_nonempty _]%app_nil.
Qed.

(** Matching undoes writing. *)
Lemma strip_app p s : strip p (p ++ s) = Some s.
Proof. induction p as [|x p IH]; [done|]. cbn. by rewrite bool_decide_true. Qed.

Lemma strip_all p : strip p p = Some [].
Proof. rewrite <- (app_nil_r p) at 2. apply strip_app. Qed.

Lemma lower_hex_digit d : 0 <= d < 16 -> lower_hex (hex_digit 87 d) = Some d.
Proof.
  intros Hd. unfold lower_hex. rewrite hex_digit_val by lia. destruct (Z.ltb_spec d 10) as [Hl|Hl].
  - replace (48 <=? 48 + d) with true by lia. replace (48 + d <=? 57) with true by lia. cbn. f_equal. lia.
  - replace (87 + d <=? 57) with false by lia. rewrite andb_false_r.
    replace (97 <=? 87 + d) with true by lia. replace (87 + d <=? 102) with true by lia. cbn. f_equal. lia.
Qed.

Lemma take_hex_app n m acc a b : length a = n ->
  take_hex (n + m) acc (a ++ b) = (let! (acc', _) := take_hex n acc a in take_hex m acc' b).
Proof.
  revert acc a; induction n as [|n IH]; intros acc [|x a] Hl; [done..|]. cbn. destruct (lower_hex x) as [d|]; [|done].
  apply IH. by injection Hl.
Qed.

Lemma take_hex_put w v acc s : 0 <= v < 16 ^ Z.of_nat w -> take_hex w acc (hex_put 87 w v ++ s) = Some (acc * 16 ^ Z.of_nat w + v, s).
Proof.
  revert v acc s; induction w as [|w IH]; intros v acc s Hv.
  { simpl in *. do 2 f_equal. lia. }
  rewrite Nat2Z.inj_succ, Z.pow_succ_r in Hv |- * by lia. cbn [hex_put]. rewrite <- app_assoc.
  pose proof (Z.div_mod v 16 ltac:(done)) as Ev. pose proof (Z.mod_pos_bound v 16 ltac:(done)) as Mv.
  replace (S w) with (w + 1)%nat by lia. rewrite take_hex_app by apply length_hex_put.
  assert (0 <= v / 16 < 16 ^ Z.of_nat w) as Hq by (split; [apply Z.div_pos; lia|apply Z.div_lt_upper_bound; lia]).
  pose proof (IH (v / 16) acc [] Hq) as E. rewrite app_nil_r in E. rewrite E. cbn. rewrite lower_hex_digit by done.
  do 2 f_equal. lia.
Qed.

Lemma strip_hexPrefix_path d1 d2 d3 s : 0 <= d1 < 256 -> 0 <= d2 < 256 -> 0 <= d3 < 256 ->
  strip_hexPrefix (slash ++ (fmt_02x d1 ++ slash ++ fmt_02x d2 ++ slash ++ fmt_02x d3) ++ slash ++ s) = Some s.
Proof.
  intros H1 H2 H3. unfold strip_hexPrefix, fmt_02x. rewrite <- !app_assoc.
  rewrite strip_app, take_hex_put by (simpl; lia). cbn [fst snd]. rewrite strip_app, take_hex_put by (simpl; lia).
  rewrite strip_app, take_hex_put by (simpl; lia). by rewrite strip_app.
Qed.

Lemma u8_bounds z : 0 <= u8 z < 256.
Proof. apply Z.mod_pos_bound. done. Qed.
#[local] Hint Resolve u8_bounds : core.

(** A listed checkpoint file is recognised, wherever the listing starts. *)
Lemma match_checkpoint_path cat dir chk : cat <> [] -> is_u32 chk ->
  match_checkpoint cat (dir ++ CategoryCheckpointPath cat chk) = Some chk.
Proof.
  intros Hc Hn. unfold match_checkpoint. set (p := CategoryCheckpointPath cat chk).
  assert (length p = (2 * length cat + 20 + length (categoryExt cat))%nat) as Hl.
  { unfold p. rewrite CategoryCheckpointPath_eq, CheckpointPath_eq by done. unfold checkpoint_name, fmt_8_8x.
    rewrite !length_app, !length_fmt_02x, length_hex_put. cbn. lia. }
  rewrite length_app, <- Hl. replace (length dir + length p <? length p)%nat with false by (symmetry; apply Nat.ltb_ge; lia).
  replace (length dir + length p - length p)%nat with (length dir) by lia. rewrite drop_app_length.
  unfold p. rewrite CategoryCheckpointPath_eq, CheckpointPath_eq, strip_app by done.
  rewrite strip_hexPrefix_path by auto. unfold checkpoint_name. rewrite (app_assoc cat (str "-")), strip_app.
  unfold fmt_8_8x. rewrite take_hex_put by (unfold is_u32 in Hn; change (16 ^ Z.of_nat 8) with 4294967296; lia).
  by rewrite strip_all.
Qed.

Lemma CategoryCheckpointPath_inj cat n m : cat <> [] -> is_u32 n -> is_u32 m ->
  CategoryCheckpointPath cat n = CategoryCheckpointPath cat m -> n = m.
Proof.
  intros Hc Hn Hm E. pose proof (match_checkpoint_path cat [] n Hc Hn) as H. rewrite E, match_checkpoint_path in H by done. congruence.
Qed.

(** Hashes are read back. *)
Lemma fromHexChar_digit d : 0 <= d < 16 -> fromHexChar (hex_digit 87 d) = Some d.
Proof.
  intros Hd. pose proof (lower_hex_digit d Hd) as H. unfold lower_hex in H. unfold fromHexChar.
  destruct ((48 <=? _) && _); [done|]. by destruct ((97 <=? _) && _).
Qed.

Lemma Z_of_byte_digits b : 0 <= Z_of_byte b / 16 < 16 /\ 0 <= Z_of_byte b mod 16 < 16.
Proof.
  pose proof (Z_of_byte_range b). split; [split; [apply Z.div_pos; lia|apply Z.div_lt_upper_bound; lia]|by apply Z.mod_pos_bound].
Qed.

Lemma hex_DecodeString_String h : hex_DecodeString (Hash_String h) = Some h.
Proof.
  induction h as [|b h IH]; [done|]. destruct (Z_of_byte_digits b) as [H1 H2]. cbn.
  rewrite !fromHexChar_digit by done. change (flat_map _ h) with (Hash_String h). rewrite IH. do 2 f_equal.
  rewrite <- Z.div_mod by done. apply byte_of_Z_of_byte.
Qed.

Lemma DecodeHash_String h : length h = 32%nat -> DecodeHash (Hash_String h) = Some h.
Proof. intros Hh. unfold DecodeHash. rewrite hex_DecodeString_String. by rewrite Hh. Qed.

Lemma length_Hash_String h : length (Hash_String h) = (2 * length h)%nat.
Proof. induction h as [|b h IH]; [done|]. change (S (S (length (Hash_String h))) = (2 * S (length h))%nat). lia. Qed.

Lemma take_hex_String h acc s : exists v, take_hex (2 * length h) acc (Hash_String h ++ s) = Some (v, s).
Proof.
  revert acc; induction h as [|b h IH]; intros acc; [by eexists|]. destruct (Z_of_byte_digits b) as [H1 H2].
  replace (2 * length (b :: h))%nat with (S (S (2 * length h))) by (cbn; lia). cbn.
  rewrite !lower_hex_digit by done. apply IH.
Qed.

Lemma match_bucket_path dir b : length b = 32%nat -> match_bucket (dir ++ BucketPath b) = Some b.
Proof.
  intros Hb. unfold match_bucket. rewrite BucketPath_eq by done. set (p := GetBucketPathForHash b).
  assert (exists d1 d2 d3, 0 <= d1 < 256 /\ 0 <= d2 < 256 /\ 0 <= d3 < 256 /\
    p = str "bucket" ++ slash ++ (fmt_02x d1 ++ slash ++ fmt_02x d2 ++ slash ++ fmt_02x d3) ++ slash ++
        (str "bucket-" ++ Hash_String b ++ str ".xdr.gz")) as (d1 & d2 & d3 & H1 & H2 & H3 & Ep).
  { destruct b as [|b1 [|b2 [|b3 b]]]; [done..|]. exists (Z_of_byte b1), (Z_of_byte b2), (Z_of_byte b3).
    do 3 (split; [apply Z_of_byte_range|]). unfold p, GetBucketPathForHash, DirPrefix_Path. rewrite pathPrefix_eq. done. }
  assert (length p = 94%nat) as Hl.
  { rewrite Ep, !length_app, !length_fmt_02x, length_Hash_String, Hb. done. }
  rewrite length_app, Hl. change (6 + 10 + 7 + 64 + 7)%nat with 94%nat.
  replace (length dir + 94 <? 94)%nat with false by (symmetry; apply Nat.ltb_ge; lia).
  replace (length dir + 94 - 94)%nat with (length dir) by lia. rewrite drop_app_length, Ep, strip_app.
  rewrite strip_hexPrefix_path, strip_app by done.
  destruct (take_hex_String b 0 (str ".xdr.gz")) as [v Ev]. rewrite Hb in Ev. change (2 * 32)%nat with 64%nat in Ev. rewrite Ev.
  rewrite drop_app_length' by (by rewrite length_Hash_String, Hb). rewrite strip_all.
  rewrite take_app_length' by (by rewrite length_Hash_String, Hb). by apply DecodeHash_String.
Qed.

(** ** Facts: the directories of a range *)
Lemma checkpoint_digits n : is_u32 n -> exists r, 0 <= r < 256 /\
  n = ((u8 (Z.shiftr n 24) * 256 + u8 (Z.shiftr n 16)) * 256 + u8 (Z.shiftr n 8)) * 256 + r.
Proof.
  intros Hn. exists (n mod 256). split; [by apply Z.mod_pos_bound|]. unfold u8, is_u32 in *. rewrite !Z.shiftr_div_pow2 by lia.
  change (2 ^ 24) with 16777216. change (2 ^ 16) with 65536. change (2 ^ 8) with 256. Z.to_euclidean_division_equations. lia.
Qed.

(** Up to the first difference the prefixes agree, and there they are in order. *)
Lemma prefix_between low high n d : is_u32 low -> is_u32 high -> is_u32 n -> low <= n <= high ->
  first_difference 0 (CheckpointPrefix low) (CheckpointPrefix high) = d ->
  (d < 3)%nat /\ take d (CheckpointPrefix n) = take d (CheckpointPrefix low) /\
  nth d (CheckpointPrefix low) 0 <= nth d (CheckpointPrefix n) 0 <= nth d (CheckpointPrefix high) 0.
Proof.
  intros Hl Hh Hn Hle. destruct (checkpoint_digits low Hl) as (rl & Hrl & El), (checkpoint_digits high Hh) as (rh & Hrh & Eh),
    (checkpoint_digits n Hn) as (rn & Hrn & En). unfold CheckpointPrefix.
  pose proof (u8_bounds (Z.shiftr low 24)). pose proof (u8_bounds (Z.shiftr low 16)). pose proof (u8_bounds (Z.shiftr low 8)).
  pose proof (u8_bounds (Z.shiftr high 24)). pose proof (u8_bounds (Z.shiftr high 16)). pose proof (u8_bounds (Z.shiftr high 8)).
  pose proof (u8_bounds (Z.shiftr n 24)). pose proof (u8_bounds (Z.shiftr n 16)). pose proof (u8_bounds (Z.shiftr n 8)).
  revert El Eh En. generalize dependent (u8 (Z.shiftr low 24)). generalize dependent (u8 (Z.shiftr low 16)).
  generalize dependent (u8 (Z.shiftr low 8)). generalize dependent (u8 (Z.shiftr high 24)). generalize dependent (u8 (Z.shiftr high 16)).
  generalize dependent (u8 (Z.shiftr high 8)). generalize dependent (u8 (Z.shiftr n 24)). generalize dependent (u8 (Z.shiftr n 16)).
  generalize dependent (u8 (Z.shiftr n 8)). intros n3 ? n2 ? n1 ? h3 ? h2 ? h1 ? l3 ? l2 ? l1 ? El Eh En. cbn [first_difference].
  destruct (Z.eqb_spec h1 l1) as [->|]; [destruct (Z.eqb_spec h2 l2) as [->|]|]; intros <-; cbn [take nth]; (split; [lia|]).
  - assert (n1 = l1) as -> by lia. assert (n2 = l2) as -> by lia. split; [done|lia].
  - assert (n1 = l1) as -> by lia. split; [done|lia].
  - split; [done|lia].
Qed.

Lemma values_from_in n low i : i ∈ values_from n low <-> low <= i < low + Z.of_nat n.
Proof.
  revert low; induction n as [|n IH]; intros low; cbn [values_from].
  - split; [by intros ?%elem_of_nil|lia].
  - rewrite elem_of_cons, IH. lia.
Qed.

Lemma values_from_NoDup n low : NoDup (values_from n low).
Proof. revert low; induction n as [|n IH]; intros low; constructor; [rewrite values_from_in; lia|apply IH]. Qed.

Lemma fmt_02x_inj a b : 0 <= a < 256 -> 0 <= b < 256 -> fmt_02x a = fmt_02x b -> a = b.
Proof.
  intros Ha Hb E. pose proof (take_hex_put 2 a 0 [] ltac:(simpl; lia)) as H. unfold fmt_02x in E.
  rewrite E, take_hex_put in H by (simpl; lia). by injection H.
Qed.

Lemma length_pathPrefix d n : length d = 3%nat -> (n < 3)%nat -> length (pathPrefix d n) = (3 * n + 2)%nat.
Proof.
  intros Hd Hn. destruct d as [|d1 [|d2 [|d3 [|]]]]; try done. rewrite pathPrefix_eq.
  destruct n as [|[|[|n]]]; [..|lia]; cbn [take map Join]; rewrite ?length_app, ?length_fmt_02x; cbn; rewrite ?length_app, ?length_fmt_02x; done.
Qed.

Lemma pathPrefix_insert_inj d n i j : length d = 3%nat -> (n < 3)%nat -> 0 <= i < 256 -> 0 <= j < 256 ->
  pathPrefix (<[n := u8 i]> d) n = pathPrefix (<[n := u8 j]> d) n -> i = j.
Proof.
  intros Hd Hn Hi Hj. rewrite !u8_id by lia. destruct d as [|d1 [|d2 [|d3 [|]]]]; try done. rewrite !pathPrefix_eq.
  destruct n as [|[|[|n]]]; [..|lia]; cbn [take map Join insert list_insert]; intros E; apply fmt_02x_inj; try done.
  - by apply app_inv_head, app_inv_head in E.
  - by do 4 apply app_inv_head in E.
Qed.

Definition under (dir path : bytes) : Prop := exists rest, path = dir ++ slash ++ rest.

Lemma under_prefix cat n d : cat <> [] -> (d < 3)%nat ->
  under (path_Join [cat; pathPrefix (CheckpointPrefix n) d]) (CategoryCheckpointPath cat n).
Proof.
  intros Hc Hd. assert (pathPrefix (CheckpointPrefix n) d <> []) as Hne.
  { intros E. apply (f_equal length) in E. rewrite length_pathPrefix in E by done. cbn in E. lia. }
  rewrite path_Join_nonempty by (by repeat constructor). rewrite CategoryCheckpointPath_eq, CheckpointPath_eq, pathPrefix_eq by done.
  cbn [Join]. unfold under, CheckpointPrefix.
  destruct d as [|[|[|d]]]; [..|lia]; cbn [take map Join]; eexists; rewrite <- !app_assoc; reflexivity.
Qed.

Lemma under_same_length cat p q f : cat <> [] -> p <> [] -> q <> [] -> length p = length q ->
  under (path_Join [cat; p]) f -> under (path_Join [cat; q]) f -> p = q.
Proof.
  intros Hc Hp Hq Hl [rest ->] [rest' E]. rewrite !path_Join_nonempty in E by (by repeat constructor).
  cbn [Join] in E. rewrite <- !app_assoc in E. do 2 apply app_inv_head in E. by apply app_inj_1 in E as [E _].
Qed.

Lemma RangePaths_NoDup r : NoDup (RangePaths r).
Proof.
  unfold RangePaths. set (d := first_difference _ _ _).
  assert (d < 3)%nat as Hd by (unfold d, CheckpointPrefix; cbn; repeat case_match; lia).
  assert (forall k m, 0 <= nth k (CheckpointPrefix m) 0 < 256) as Hnth.
  { intros k m. destruct k as [|[|[|[|k]]]]; cbn; auto with lia. }
  pose proof (Hnth d (Low r)) as Hbl. pose proof (Hnth d (High r)) as Hbh.
  apply NoDup_fmap_2_strong; [|apply values_from_NoDup]. intros i j Hi Hj. apply values_from_in in Hi, Hj.
  apply pathPrefix_insert_inj; [done|done|lia|lia].
Qed.

(** The directory of a ledger of a range is listed, at the depth of all of them. *)
Lemma RangePaths_facts r n : is_u32 (Low r) -> is_u32 (High r) -> is_u32 n -> Low r <= n <= High r ->
  let d := first_difference 0 (CheckpointPrefix (Low r)) (CheckpointPrefix (High r)) in
  (d < 3)%nat /\ pathPrefix (CheckpointPrefix n) d ∈ RangePaths r /\
  forall p, p ∈ RangePaths r -> p <> [] /\ length p = length (pathPrefix (CheckpointPrefix n) d).
Proof.
  intros Hl Hh Hn Hle d. unfold RangePaths. destruct (prefix_between _ _ _ d Hl Hh Hn Hle eq_refl) as (Hd & Ht & Hb).
  assert (forall k m, 0 <= nth k (CheckpointPrefix m) 0 < 256) as Hnth.
  { intros k m. destruct k as [|[|[|[|k]]]]; cbn; auto with lia. }
  pose proof (Hnth d (Low r)) as Hbl. pose proof (Hnth d (High r)) as Hbh. pose proof (Hnth d n) as Hbn. fold d. split_and!; [done| |].
  - assert (pathPrefix (CheckpointPrefix n) d = pathPrefix (<[d := u8 (nth d (CheckpointPrefix n) 0)]> (CheckpointPrefix (Low r))) d) as Ep.
    { rewrite !pathPrefix_eq, u8_id by lia. f_equal. f_equal. revert Ht. unfold CheckpointPrefix.
      destruct d as [|[|[|d']]]; [..|lia]; cbn; congruence. }
    rewrite Ep. apply list_elem_of_fmap. eexists. split; [done|]. apply values_from_in. lia.
  - intros p Hp. apply list_elem_of_fmap in Hp as (i & -> & _).
    assert (length (pathPrefix (<[d := u8 i]> (CheckpointPrefix (Low r))) d) = length (pathPrefix (CheckpointPrefix n) d)) as El
      by (by rewrite !length_pathPrefix by (by rewrite ?length_insert)).
    split; [|done]. intros E. rewrite E in El. rewrite length_pathPrefix in El by done. cbn in El. lia.
Qed.

(** Listing the directories of a range finds every checkpoint file of a ledger in
    the range, and finds it once: the directories are different, and the file is in just
    one of them. *)
Theorem range_paths_cover cat r n : cat <> [] -> is_u32 (Low r) -> is_u32 (High r) -> is_u32 n -> Low r <= n <= High r ->
  NoDup (RangePaths r) /\
  exists p, p ∈ RangePaths r /\ under (path_Join [cat; p]) (CategoryCheckpointPath cat n) /\
    forall p', p' ∈ RangePaths r -> under (path_Join [cat; p']) (CategoryCheckpointPath cat n) -> p' = p.
Proof.
  intros Hc Hl Hh Hn Hle. destruct (RangePaths_facts r n Hl Hh Hn Hle) as (Hd & Hin & Hp). split; [apply RangePaths_NoDup|].
  eexists. split; [exact Hin|]. split; [by apply under_prefix|]. intros p' Hp' Hu. destruct (Hp _ Hin) as [Hne _], (Hp _ Hp') as [Hne' Hlen].
  apply (under_same_length cat p' _ (CategoryCheckpointPath cat n)); [done|done|done|done|done|by apply under_prefix].
Qed.

