(* ===== verification/Concurrent.v ===== *)
(** * Pools of goroutines

    Goroutines that take requests from a channel until it is closed and have a body for
    each, with shared memory. A body is a resumption: what is left of it after each
    atomic step, which is a critical section, an atomic addition or one call of a
    storage. A pool runs its workers' steps in any order.

    A body is verified on its own, against an invariant of the shared state, a relation
    that its steps stay within (its guarantee) and one that the steps of the others do
    (its rely); the pool then has the post-conditions of all the requests when it is
    done. *)
From Stdlib Require Import Lia Wellfounded.
From stdpp Require Import base list relations.
From S2P Require Import Prelude.
(** ** Bodies *)
Inductive prog (S : Type) : Type :=
| Ret
| Panic
| Step (update : S -> S) (next : S -> prog S).
Arguments Ret {S}. Arguments Panic {S}. Arguments Step {S}.

Section Progs.
Context {S : Type}.

Fixpoint seq_prog (p q : prog S) : prog S :=
  match p with
  | Ret => q
  | Panic => Panic
  | Step f k => Step f (fun s => seq_prog (k s) q)
  end.

Fixpoint for_each {A} (l : list A) (body : A -> prog S) : prog S :=
  match l with
  | [] => Ret
  | x :: l => seq_prog (body x) (for_each l body)
  end.

(** A body that is run alone. *)
Fixpoint run_prog (p : prog S) (s : S) : option S :=
  match p with
  | Ret => Some s
  | Panic => None
  | Step f k => run_prog (k s) (f s)
  end.
End Progs.

(** ** Pools *)
Section Pool.
Context {S A : Type} (body : A -> prog S).

(** The shared state, the requests that are not taken yet, and the workers: the request
    that each has taken last, and what is left to do for it. *)
Record pool : Type := mkPool { shared : S; requests : list A; workers : list (option A * prog S) }.

Definition panicked (ps : list (option A * prog S)) : Prop := Exists (fun w => w.2 = Panic) ps.

(** A panic stops the process. *)
Inductive pool_step : pool -> pool -> Prop :=
| work s q before r f k after :
    ~ panicked (before ++ (r, Step f k) :: after) ->
    pool_step (mkPool s q (before ++ (r, Step f k) :: after)) (mkPool (f s) q (before ++ (r, k s) :: after))
| receive s x q before r after :
    ~ panicked (before ++ (r, Ret) :: after) ->
    pool_step (mkPool s (x :: q) (before ++ (r, Ret) :: after)) (mkPool s q (before ++ (Some x, body x) :: after)).

Definition start_pool (n : nat) (s : S) (q : list A) : pool := mkPool s q (replicate n (None, Ret)).

(** The channel is closed and every worker has returned. *)
Definition finished (c : pool) : Prop := requests c = [] /\ Forall (fun w => w.2 = Ret) (workers c).

(** ** Rely and guarantee *)
Section Rely.
(** The invariant, and whether a body may panic. *)
Context (I : S -> Prop) (may_panic : Prop).

(** From a state like [s] on, whatever the other workers do, the body keeps the
    invariant and its guarantee and ends with [Q]. *)
Section Body.
Context (R G : S -> S -> Prop) `{!PreOrder R}.

Fixpoint wp (p : prog S) (s : S) (Q : S -> Prop) : Prop :=
  match p with
  | Ret => forall s1, R s s1 -> I s1 -> Q s1
  | Panic => may_panic
  | Step f k => forall s1, R s s1 -> I s1 -> I (f s1) /\ G s1 (f s1) /\ wp (k s1) (f s1) Q
  end.

Lemma wp_later p s s' Q : R s s' -> wp p s Q -> wp p s' Q.
Proof. intros Hs. destruct p; cbn; [| done |]; intros H s1 Hs1; apply H; by etrans. Qed.

Lemma wp_impl p : forall s (Q Q' : S -> Prop), (forall s', I s' -> Q s' -> Q' s') -> wp p s Q -> wp p s Q'.
Proof.
  induction p as [| |f k IH]; intros s Q Q' HQ; cbn; [|done|].
  - intros H s1 Hr Hi. apply HQ; auto.
  - intros H s1 Hr Hi. destruct (H s1 Hr Hi) as (H1 & H2 & H3). split; [done|]. split; [done|]. by apply (IH s1 _ Q).
Qed.

Lemma wp_seq p : forall q s Q, I s -> wp p s (fun s' => wp q s' Q) -> wp (seq_prog p q) s Q.
Proof.
  induction p as [| |f k IH]; intros q s Q HI; cbn; [|done|].
  - intros H. specialize (H s ltac:(reflexivity) HI) as Hs. destruct q as [| |f k]; cbn; [|done|]; intros s1 Hr Hi; by apply (H s1 Hr Hi).
  - intros H s1 Hr Hi. destruct (H s1 Hr Hi) as (H1 & H2 & H3). auto.
Qed.

(** What stays true whatever the others do, and whatever the body does. *)
Definition stable (P : S -> Prop) : Prop := forall s s', R s s' -> I s' -> P s -> P s'.
Definition kept (P : S -> Prop) : Prop := forall s s', G s s' -> I s' -> P s -> P s'.

Lemma wp_keeps p (F : S -> Prop) : stable F -> kept F -> forall s Q, F s -> wp p s Q -> wp p s (fun s' => F s' /\ Q s').
Proof.
  intros Hst Hk. induction p as [| |f k IH]; intros s Q HF; cbn; [|done|].
  - intros H s1 Hr Hi. split; [by eapply Hst|auto].
  - intros H s1 Hr Hi. destruct (H s1 Hr Hi) as (H1 & H2 & H3). split; [done|]. split; [done|].
    apply IH; [|done]. eapply Hk; [done..|]. by eapply Hst.
Qed.

(** A body whose steps are like those of the others ends in a state they could lead to. *)
Lemma wp_trace p : (forall s s', G s s' -> R s s') -> forall s Q, wp p s Q -> wp p s (fun s' => R s s' /\ Q s').
Proof.
  intros HGR. induction p as [| |f k IH]; intros s Q; cbn; [|done|].
  - intros H s1 Hr Hi. split; [done|auto].
  - intros H s1 Hr Hi. destruct (H s1 Hr Hi) as (H1 & H2 & H3). split; [done|]. split; [done|].
    eapply wp_impl; [|by apply IH]. intros s' _ [Hr' HQ]. split; [|done]. etrans; [exact Hr|]. etrans; [|exact Hr']. by apply HGR.
Qed.

(** A loop with an invariant of its own between the rounds, and what each round leaves. *)
Lemma wp_for_each {B} (l : list B) (b : B -> prog S) (L : S -> Prop) (F : B -> S -> Prop) s :
  (forall x, x ∈ l -> stable (F x) /\ kept (F x)) -> stable L ->
  (forall x s', x ∈ l -> I s' -> L s' -> wp (b x) s' (fun s1 => L s1 /\ F x s1)) ->
  I s -> L s -> wp (for_each l b) s (fun s' => L s' /\ forall x, x ∈ l -> F x s').
Proof.
  revert s; induction l as [|x l IH]; intros s Hst HL Hb Hi Hl; cbn [for_each].
  - intros s1 Hr Hi1. split; [by eapply HL|]. by intros x ?%elem_of_nil.
  - apply wp_seq; [done|]. eapply (wp_impl _ _ (fun s1 => L s1 /\ F x s1)); [|by apply Hb; [left|..]]. intros s' Hi' [Hl' Hx].
    destruct (Hst x) as [Hst1 Hst2]; [by left|].
    eapply (wp_impl _ _ (fun s' => F x s' /\ L s' /\ forall y, y ∈ l -> F y s')); cycle 1.
    { apply wp_keeps; [done..|]. apply IH; [intros; apply Hst; by right|done|intros; apply Hb; [by right|done..]|done..]. }
    intros s2 Hi2 (Hx2 & Hl2 & Hall). split; [done|]. intros y [->|Hy]%elem_of_cons; auto.
Qed.
End Body.

Lemma wp_guarantee R (G G' : S -> S -> Prop) p s Q : (forall s s', G s s' -> G' s s') -> wp R G p s Q -> wp R G' p s Q.
Proof.
  intros HG. revert s. induction p as [| |f k IH]; intros s; cbn; [done..|]. intros H s1 Hr Hi.
  destruct (H s1 Hr Hi) as (H1 & H2 & H3). auto.
Qed.

(** What holds of a request before it is taken and after it has been served. *)
Context (R G : A -> S -> S -> Prop) `{!forall x, PreOrder (R x)} (Pre P : A -> S -> Prop).
Context (HGR : forall x y s s', x <> y -> G x s s' -> R y s s').
Context (Hpre : forall x, stable (R x) (Pre x)) (Hstable : forall x, stable (R x) (P x)).

Definition worker_ok (s : S) (w : option A * prog S) : Prop :=
  match w.1 with Some x => wp (R x) (G x) w.2 s (P x) | None => w.2 = Ret end.

(** Every request waits, is being served or has been served. *)
Definition pool_inv (q0 : list A) (c : pool) : Prop :=
  I (shared c) /\ Forall (worker_ok (shared c)) (workers c) /\ Forall (fun x => Pre x (shared c)) (requests c) /\
  exists served, q0 ≡ₚ requests c ++ omap fst (workers c) ++ served /\ Forall (fun x => P x (shared c)) served.

(** A step of the worker with [x] leaves the others and their posts as they were. *)
Lemma others_ok x s s' (ws : list (option A * prog S)) : G x s s' -> I s' -> x ∉ omap fst ws ->
  Forall (worker_ok s) ws -> Forall (worker_ok s') ws.
Proof.
  intros HG HI Hx Hws. induction Hws as [|[r p] ws Hw _ IH]; constructor; cbn in Hx.
  - unfold worker_ok in *. cbn in *. destruct r as [y|]; [|done]. apply not_elem_of_cons in Hx as [Hne _].
    eapply wp_later; [apply _| |exact Hw]. by eapply HGR.
  - apply IH. destruct r; [by apply not_elem_of_cons in Hx as [_ Hx]|done].
Qed.

Lemma unserved_ok (F : A -> S -> Prop) x s s' ys : (forall y, stable (R y) (F y)) -> G x s s' -> I s' -> x ∉ ys ->
  Forall (fun y => F y s) ys -> Forall (fun y => F y s') ys.
Proof.
  intros HF HG HI Hx Hs. induction Hs as [|y ys Hy _ IH]; constructor; apply not_elem_of_cons in Hx as [Hne Hx].
  - eapply HF; [|done|exact Hy]. by eapply HGR.
  - by apply IH.
Qed.

Lemma pool_step_inv q0 c c' : NoDup q0 -> (forall x s, x ∈ q0 -> I s -> Pre x s -> wp (R x) (G x) (body x) s (P x)) ->
  pool_inv q0 c -> pool_step c c' -> pool_inv q0 c'.
Proof.
  intros Hnd Hb (HI & Hws & Hqs & served & Hq & Hs) Hstep.
  destruct Hstep as [s q before r f k after _|s x q before r after _]; cbn [shared requests workers] in *.
  - apply Forall_app in Hws as [Hwb Hwa]. apply Forall_cons_1 in Hwa as [Hw Hwa]. unfold worker_ok in Hw. cbn in Hw.
    destruct r as [x|]; [|done]. destruct (Hw s ltac:(reflexivity) HI) as (HI' & HG & Hw').
    rewrite omap_app in Hq. cbn [omap list_omap fst] in Hq.
    assert (x ∉ q /\ x ∉ omap fst before /\ x ∉ omap fst after /\ x ∉ served) as (Hxq & Hxb & Hxa & Hxs).
    { rewrite Hq in Hnd. apply NoDup_app in Hnd as (_ & Hdq & Hnd). apply NoDup_app in Hnd as (Hnd & Hdis & _).
      split_and!.
      - intros Hin. apply (Hdq x Hin). apply elem_of_app. left. apply elem_of_app. right. by left.
      - intros Hin. apply NoDup_app in Hnd as (_ & Hd & _). apply (Hd x Hin). by left.
      - apply NoDup_app in Hnd as (_ & _ & Hnd). by apply NoDup_cons in Hnd as [? _].
      - apply Hdis. apply elem_of_app. right. by left. }
    split; [done|]. split; cbn [shared requests workers].
    + apply Forall_app. split; [by eapply others_ok|]. constructor; [done|by eapply others_ok].
    + split; [by eapply unserved_ok|]. exists served. rewrite omap_app. split; [done|by eapply unserved_ok].
  - apply Forall_app in Hws as [Hwb Hwa]. apply Forall_cons_1 in Hwa as [Hw Hwa]. unfold worker_ok in Hw. cbn in Hw.
    assert (x ∈ q0) as Hx by (rewrite Hq; by left).
    split; [done|]. split; cbn [shared requests workers].
    + apply Forall_app. split; [done|]. constructor; [|done]. unfold worker_ok. cbn. apply Hb; [done..|].
      by apply Forall_cons_1 in Hqs as [? _].
    + apply Forall_cons_1 in Hqs as [_ Hqs]. split; [done|]. rewrite omap_app in *. cbn [omap list_omap fst] in *. destruct r as [y|].
      * exists (y :: served). split; [|constructor; [by apply Hw|done]]. rewrite Hq. cbn. solve_Permutation.
      * exists served. split; [|done]. rewrite Hq. cbn. solve_Permutation.
Qed.

Lemma pool_runs_inv q0 c c' : NoDup q0 -> (forall x s, x ∈ q0 -> I s -> Pre x s -> wp (R x) (G x) (body x) s (P x)) ->
  rtc pool_step c c' -> pool_inv q0 c -> pool_inv q0 c'.
Proof. intros Hnd Hb. induction 1 as [c|c1 c2 c3 Hs _ IH]; intros Hinv; [done|]. apply IH. by eapply pool_step_inv. Qed.

Lemma start_pool_inv n s q : I s -> (forall x, x ∈ q -> Pre x s) -> pool_inv q (start_pool n s q).
Proof.
  intros HI Hp. split; [done|]. split; [apply Forall_replicate; by cbn|]. split; [by apply Forall_forall|].
  exists []. rewrite app_nil_r. cbn. split; [|done].
  assert (omap fst (replicate n (@None A, @Ret S)) = []) as -> by (clear; induction n as [|n IH]; [done|exact IH]). by rewrite app_nil_r.
Qed.

Lemma pool_no_panic n s q c : ~ may_panic -> NoDup q ->
  (forall x s', x ∈ q -> I s' -> Pre x s' -> wp (R x) (G x) (body x) s' (P x)) -> I s -> (forall x, x ∈ q -> Pre x s) ->
  rtc pool_step (start_pool n s q) c -> ~ panicked (workers c).
Proof.
  intros Hno Hnd Hb HI Hp Hrun [[r p] [Hin E]]%Exists_exists. cbn in E. subst p.
  destruct (pool_runs_inv q _ _ Hnd Hb Hrun (start_pool_inv n s q HI Hp)) as (_ & Hws & _).
  rewrite Forall_forall in Hws. specialize (Hws _ Hin). unfold worker_ok in Hws. by destruct r.
Qed.

(** When the pool is done, the invariant holds and all the requests have been served. *)
Lemma pool_correct n s q c : NoDup q -> (forall x s', x ∈ q -> I s' -> Pre x s' -> wp (R x) (G x) (body x) s' (P x)) -> I s ->
  (forall x, x ∈ q -> Pre x s) -> rtc pool_step (start_pool n s q) c -> finished c -> I (shared c) /\ forall x, x ∈ q -> P x (shared c).
Proof.
  intros Hnd Hb HI Hp0 Hrun [Hq Hf].
  destruct (pool_runs_inv q _ _ Hnd Hb Hrun (start_pool_inv n s q HI Hp0)) as (HI' & Hws & _ & served & Hp & Hs).
  split; [done|]. intros x Hx. rewrite Hp, Hq in Hx. cbn [app] in Hx. apply elem_of_app in Hx as [Hx|Hx]; [|rewrite Forall_forall in Hs; by apply Hs].
  apply list_elem_of_omap in Hx as ([r p] & Hin & Hr). cbn in Hr. subst r.
  rewrite Forall_forall in Hws, Hf. specialize (Hws _ Hin). specialize (Hf _ Hin). cbn in Hf. subst p.
  by apply (Hws (shared c)).
Qed.
End Rely.

(** ** Runs end *)
Definition is_step (p : prog S) : bool := match p with Step _ _ => true | _ => false end.

Definition worker_step (ps ps' : list (option A * prog S)) : Prop :=
  exists before r f k s after, ps = before ++ (r, Step f k) :: after /\ ps' = before ++ (r, k s) :: after.

Lemma worker_steps_end ps : Acc (flip worker_step) ps.
Proof.
  induction ps as [|[r p] ps IH].
  { constructor. intros ps' (before & r & f & k & s & after & E & _). by destruct before. }
  revert r ps IH. induction p as [| |f k IHp]; intros r ps Hps; induction Hps as [ps Hps IHps];
    constructor; intros ps' ([|w before] & r' & f' & k' & s & after & E & ->); cbn in *; simplify_eq.
  - apply IHps. by exists before, r', f', k', s, after.
  - apply IHps. by exists before, r', f', k', s, after.
  - apply IHp. by constructor.
  - apply IHps. by exists before, r', f', k', s, after.
Qed.

(** No run is infinite. *)
Lemma pool_steps_end c : Acc (flip pool_step) c.
Proof.
  destruct c as [s q ps]. revert s ps; induction q as [|x q IHq]; intros s ps; revert s;
    induction (worker_steps_end ps) as [ps _ IHps]; intros s; constructor; intros c' Hc; inversion Hc; subst.
  - apply IHps. by exists before, r, f, k, s, after.
  - apply IHps. by exists before, r, f, k, s, after.
  - apply IHq.
Qed.

(** A pool with a worker goes on until it is done or panics. *)
Lemma pool_goes_on c : workers c <> [] -> ~ panicked (workers c) -> ~ finished c -> exists c', pool_step c c'.
Proof.
  destruct c as [s q ps]. cbn. intros Hne Hp Hf.
  destruct (decide (Exists (fun w => is_step w.2 = true) ps)) as [He|Hno].
  - apply Exists_exists in He as ([r p] & Hin & Hstep). cbn in Hstep. destruct p as [| |f k]; [discriminate..|].
    apply list_elem_of_split in Hin as (before & after & ->). eexists. by apply work.
  - assert (Forall (fun w => w.2 = Ret) ps) as Hret.
    { apply Forall_forall. intros [r p] Hin. destruct p as [| |f k]; [done| |].
      - destruct Hp. apply Exists_exists. by exists (r, Panic).
      - destruct Hno. apply Exists_exists. by exists (r, Step f k). }
    destruct q as [|x q]; [by destruct Hf|]. destruct ps as [|[r p] ps]; [done|]. apply Forall_cons_1 in Hret as [Hr _].
    cbn in Hr. subst p. eexists. by apply (receive s x q [] r ps).
Qed.

(** So it is done, has panicked or goes on. *)
Lemma pool_stops c : workers c <> [] -> finished c \/ panicked (workers c) \/ exists c', pool_step c c'.
Proof.
  intros Hne. assert (forall p : prog S, Decision (p = Panic)) as Hdec by (intros []; first [by left|by right]).
  destruct (decide (panicked (workers c))) as [Hp|Hp]; [by right; left|].
  assert (forall p : prog S, Decision (p = Ret)) as Hdec' by (intros []; first [by left|by right]).
  destruct (decide (requests c = [] /\ Forall (fun w => w.2 = Ret) (workers c))) as [Hf|Hf]; [by left|].
  right; right. by apply pool_goes_on.
Qed.

Lemma pool_finishes c : workers c <> [] -> exists c', rtc pool_step c c' /\ (finished c' \/ panicked (workers c')).
Proof.
  induction (pool_steps_end c) as [c _ IH]. intros Hne.
  destruct (pool_stops c Hne) as [Hf|[Hp|[c1 Hs]]]; [exists c; by split; [|left]|exists c; by split; [|right]|].
  destruct (IH c1 Hs) as (c' & Hrun & Hc'); [|exists c'; split; [by econstructor|done]].
  by destruct Hs; destruct before.
Qed.

(** ** A pool of one worker, run *)
Fixpoint run_one (fuel : nat) (s : S) (q : list A) (r : option A) (p : prog S) : pool :=
  match fuel with
  | O => mkPool s q [(r, p)]
  | Datatypes.S fuel =>
      match p, q with
      | Step f k, _ => run_one fuel (f s) q r (k s)
      | Ret, x :: q => run_one fuel s q (Some x) (body x)
      | _, _ => mkPool s q [(r, p)]
      end
  end.

Lemma run_one_steps fuel : forall s q r p, rtc pool_step (mkPool s q [(r, p)]) (run_one fuel s q r p).
Proof.
  induction fuel as [|fuel IH]; intros s q r p; [done|]. cbn.
  assert (forall p', p' <> Panic -> ~ panicked [(r, p')]) as Hno by (intros p' Hp' H; by inversion H as [? ? E|? ? E]; [|inversion E]).
  destruct p as [| |f k]; [destruct q as [|x q]; [done|]|done|].
  - eapply rtc_l; [apply (receive s x q [] r []); by apply Hno|apply IH].
  - eapply rtc_l; [apply (work s q [] r f k []); by apply Hno|apply IH].
Qed.
End Pool.
