(* ===== verification/Mirror.v ===== *)
(** * Mirroring a history archive

    src/historyarchive/mirror.go with copyPath (util.go) and the archive states that are
    read and written as files (archive.go): a pool of workers copies the files of each
    checkpoint of a range, and the buckets it refers to, from one archive to another.

    The source is a map of files that does not change; the destination is one that does.
    Every call of a storage is an atomic step and can fail, as an oracle says; a failed
    upload may leave anything. An error is counted in the step of the call that returns
    it: nobody looks at the count before all the workers are done. Progress messages
    and request statistics are left out. *)
From Stdlib Require Import ZArith Lia.
From stdpp Require Import base list gmap relations option.
From S2P Require Import Prelude GoStd Encodings Checkpoints ArchiveState ArchivePaths Concurrent.
#[local] Open Scope Z_scope.
#[local] Open Scope go_scope.

Definition rootHASPath : bytes := str ".well-known/stellar-history.json".

Record CommandOptions : Type := mkOptions {
  Concurrency : Z;
  opts_Range : Range;
  DryRun : bool;
  Force : bool;
  Verify : bool;
  Thorough : bool;
  SkipOptional : bool
}.

Inductive archive_file_error : Type :=
| ErrStorage
| ErrNoFile
| ErrHASFormat
| ErrNetworkPassphrase.

(** The zero value that [json] decodes into. *)
Definition zero_level : BucketLevel := mkLevel [] [] [].
Definition zero_state : HistoryArchiveState := mkHAS 0 0 [] (replicate NumLevels zero_level) (replicate NumLevels zero_level).

(** The files of an archive by their paths. *)
Abbreviation files := (gmap bytes bytes).

(** The files of the destination; how many storage calls there have been; the buckets
    that are being fetched, with the checkpoint they are fetched for; the counted errors,
    a uint32, and how often it was added to. *)
Record World : Type := mkWorld {
  dst : files;
  calls : nat;
  bucketFetch : gmap bytes Z;
  errs : Z;
  noted : Z
}.

Section Mirror.
(** [encoding/json] on an archive state: what a text decodes to, as far as it does, and
    whether it does; and the text of a state. *)
Context (json_Decode : bytes -> HistoryArchiveState * bool) (json_Marshal : HistoryArchiveState -> bytes).
Context (src : files) (src_passphrase dst_passphrase : bytes) (checkpointManager : CheckpointManager).
(** Whether the n-th call fails, and what it leaves if it is an upload. *)
Context (fault : nat -> option (option bytes)).
Context (opts : CommandOptions).

Definition fails (w : World) : bool := if fault (calls w) then true else false.
Definition called (w : World) : World := mkWorld (dst w) (S (calls w)) (bucketFetch w) (errs w) (noted w).

(** [atomic.AddUint32(&errs, noteError(err))]. *)
Definition note (err : bool) (w : World) : World :=
  if err then mkWorld (dst w) (calls w) (bucketFetch w) (u32 (errs w + 1)) (noted w + 1) else w.

(** ** Storage calls: what they return *)
Definition Exists_ (w : World) (pth : bytes) : option bool :=
  if fails w then None else Some (if dst w !! pth then true else false).

Definition GetFile (fs : files) (w : World) (pth : bytes) : option bytes := if fails w then None else fs !! pth.

(** The files after an upload. *)
Definition put (w : World) (pth content : bytes) : files :=
  match fault (calls w) with
  | None => <[pth := content]> (dst w)
  | Some None => dst w
  | Some (Some left_) => <[pth := left_]> (dst w)
  end.

Definition PutFile (w : World) (pth content : bytes) : World :=
  mkWorld (put w pth content) (S (calls w)) (bucketFetch w) (errs w) (noted w).

(** ** Archive states *)
Definition ReadHAS (fs : files) (passphrase pth : bytes) : HistoryArchiveState * option archive_file_error :=
  match fs !! pth with
  | None => (zero_state, Some ErrNoFile)
  | Some content =>
      let '(has, ok) := json_Decode content in
      if negb ok then (has, Some ErrHASFormat)
      else if negb (bool_decide (NetworkPassphrase has = [])) && negb (bool_decide (passphrase = [])) &&
              negb (bool_decide (NetworkPassphrase has = passphrase)) then (has, Some ErrNetworkPassphrase)
      else (has, None)
  end.

Definition GetPathHAS (fs : files) (passphrase : bytes) (w : World) (pth : bytes) :
    HistoryArchiveState * option archive_file_error :=
  if fails w then (zero_state, Some ErrStorage) else ReadHAS fs passphrase pth.

Definition GetRootHAS (fs : files) (passphrase : bytes) (w : World) := GetPathHAS fs passphrase w rootHASPath.
Definition GetCheckpointHAS (fs : files) (passphrase : bytes) (w : World) (chk : Z) :=
  GetPathHAS fs passphrase w (CategoryCheckpointPath (str "history") chk).

(** With the state after it, whether it failed. *)
Definition PutPathHAS (pth : bytes) (has : HistoryArchiveState) (force : bool) (w : World) : World * bool :=
  match Exists_ w pth with
  | None => (called w, true)
  | Some present =>
      let w := called w in
      if present && negb force then (w, false) else (PutFile w pth (json_Marshal has), fails w)
  end.

Definition PutRootHAS (has : HistoryArchiveState) (w : World) : World * bool := PutPathHAS rootHASPath has true w.

(** ** One file; [counted] says whether an error counts *)
Definition copyPath (pth : bytes) (counted : bool) : prog World :=
  if DryRun opts then Ret
  else Step (fun w => note (match Exists_ w pth with None => counted | Some _ => false end) (called w)) (fun w =>
    match Exists_ w pth with
    | None => Ret
    | Some present =>
        if present && negb (Force opts) then Ret
        else Step (fun w => note (match GetFile src w pth with None => counted | Some _ => false end) (called w)) (fun w =>
          match GetFile src w pth with
          | None => Ret
          | Some content => Step (fun w => note (fails w && counted) (PutFile w pth content)) (fun _ => Ret)
          end)
    end).

(** ** One checkpoint *)

(** The critical section of [bucketFetchMutex], and the copy of a bucket that nobody is
    fetching yet. *)
Definition fetch_bucket (ix : Z) (bucket : bytes) : prog World :=
  Step (fun w => mkWorld (dst w) (calls w)
                   (if bucketFetch w !! bucket then bucketFetch w else <[bucket := ix]> (bucketFetch w)) (errs w) (noted w))
       (fun w => if bucketFetch w !! bucket then Ret else copyPath (BucketPath bucket) true).

Definition copy_category (ix : Z) (cat : bytes) : prog World :=
  if SkipOptional opts && negb (categoryRequired cat) then Ret
  else copyPath (CategoryCheckpointPath cat ix) (categoryRequired cat).

Definition mirror_checkpoint (ix : Z) : prog World :=
  Step (fun w => note (match GetCheckpointHAS src src_passphrase w ix with (_, Some _) => true | _ => false end) (called w))
       (fun w =>
    match GetCheckpointHAS src src_passphrase w ix with
    | (_, Some _) => Ret
    | (has, None) =>
        match Buckets has with
        | Err _ => Panic
        | Ok buckets => seq_prog (for_each buckets (fetch_bucket ix)) (for_each Categories (copy_category ix))
        end
    end).

(** ** The whole range *)
Inductive mirror_error : Type :=
| ErrRootHAS (e : archive_file_error)
| ErrMirroring (n : Z).

(** After the workers. *)
Definition finish_mirror (rootHAS : HistoryArchiveState) (range : Range) (w : World) : option mirror_error * World :=
  let '(w, err) :=
    if CurrentLedger rootHAS =? High range then PutRootHAS rootHAS w
    else (called w, match GetRootHAS (dst w) dst_passphrase w with (_, Some _) => true | _ => false end) in
  let w := note err w in
  (if errs w =? 0 then None else Some (ErrMirroring (errs w)), w).

(** All the workers have returned: each has seen the channel closed. *)
Definition returned {A} (c : pool (S:=World) (A:=A)) : Prop :=
  Forall (fun w => w.2 = Ret) (workers c) /\ (requests c = [] \/ workers c = []).

(** What a call can return, from the files of the destination. A pool that has panicked
    or has not ended returns nothing and is no case of this relation: [pool_step],
    [panicked] and [returned] speak of such runs. *)
Inductive Mirror (fs : files) : option mirror_error -> World -> Prop :=
| mirror_no_root has e :
    let w := mkWorld fs 0 ∅ 0 0 in
    GetRootHAS src src_passphrase w = (has, Some e) -> Mirror fs (Some (ErrRootHAS e)) (called w)
| mirror_range rootHAS range fuel checkpoints c err w' :
    let w := mkWorld fs 0 ∅ 0 0 in
    GetRootHAS src src_passphrase w = (rootHAS, None) ->
    clamp (opts_Range opts) (State_Range rootHAS) checkpointManager = Some range ->
    GenerateCheckpoints fuel range checkpointManager = Some checkpoints ->
    0 <= Concurrency opts ->
    rtc (pool_step mirror_checkpoint) (start_pool (Z.to_nat (Concurrency opts)) (called w) checkpoints) c -> returned c ->
    finish_mirror rootHAS range (shared c) = (err, w') -> Mirror fs err w'.
End Mirror.
