(* ===== verification/MirrorSpec.v ===== *)
(** * What mirroring a history archive comes to

    A mirror that reports no error has copied every file it should have, in whatever
    order the workers ran; and over storages that do not fail every order ends, without
    a panic and without an error. *)
From Stdlib Require Import ZArith Lia.
From stdpp Require Import base list sets gmap relations option.
From S2P Require Import Prelude GoStd Encodings Checkpoints ArchiveState ArchivePaths Concurrent Mirror.
#[local] Open Scope Z_scope.
#[local] Open Scope go_scope.

(** ** The checkpoints of a range are different *)
Lemma MakeRange_u32 c low high r : MakeRange c low high = Some r -> is_u32 (Low r) /\ is_u32 (High r).
Proof.
  unfold MakeRange, PrevCheckpoint, NextCheckpoint, udiv. repeat case_match; intros; simplify_eq/=; repeat case_match; simplify_eq/=;
    split; apply u32_range.
Qed.

Lemma GenerateCheckpoints_loop_sorted freq high : 1 <= freq <= MaxUint32 -> is_u32 high -> forall fuel i l, is_u64 i ->
  GenerateCheckpoints_loop fuel i high freq = Some l -> NoDup l /\ forall x, x ∈ l -> i <= x <= high.
Proof.
  intros Hf Hh. induction fuel as [|fuel IH]; intros i l Hi; cbn [GenerateCheckpoints_loop]; destruct (Z.leb_spec i high) as [Hle|Hgt].
  - done.
  - intros [= <-]. split; [constructor|]. by intros x ?%elem_of_nil.
  - unfold is_u32, is_u64 in *. rewrite u64_id by (unfold is_u64; lia).
    destruct (GenerateCheckpoints_loop fuel (i + freq) high freq) as [rest|] eqn:E; [|done]. cbn.
    intros [= <-]. rewrite u32_id by (unfold is_u32; lia). destruct (IH (i + freq) rest ltac:(lia) E) as [Hnd Hin]. split.
    + constructor; [|done]. intros H%Hin. lia.
    + intros x [->|Hx]%elem_of_cons; [lia|]. apply Hin in Hx. lia.
  - intros [= <-]. split; [constructor|]. by intros x ?%elem_of_nil.
Qed.

(** ** Paths of required files *)
Definition is_optional (p : bytes) : Prop := exists ix, p = CategoryCheckpointPath (str "scp") ix.

Lemma category_path_not_optional cat ix : cat ∈ Categories -> categoryRequired cat = true -> ~ is_optional (CategoryCheckpointPath cat ix).
Proof.
  intros Hc Hr [ix' E]. rewrite !CategoryCheckpointPath_eq in E by (by unfold Categories in Hc; set_solver).
  unfold Categories in Hc. repeat (apply elem_of_cons in Hc as [->|Hc]; [discriminate|]). by apply elem_of_nil in Hc.
Qed.

Lemma BucketPath_starts b : exists rest, BucketPath b = str "bu" ++ rest.
Proof.
  unfold BucketPath, path_Join. destruct (DirPrefix_Path (HashPrefix b)); eexists; reflexivity.
Qed.

Lemma bucket_path_not_optional b : ~ is_optional (BucketPath b).
Proof.
  intros [ix E]. destruct (BucketPath_starts b) as [rest Er]. rewrite Er, CategoryCheckpointPath_eq in E by done. done.
Qed.

Lemma root_path_other p : (exists b, p = BucketPath b) \/ (exists cat ix, cat ∈ Categories /\ p = CategoryCheckpointPath cat ix) ->
  p <> rootHASPath.
Proof.
  intros [[b ->]|(cat & ix & Hc & ->)] E.
  - destruct (BucketPath_starts b) as [rest Er]. by rewrite Er in E.
  - rewrite CategoryCheckpointPath_eq in E by (by unfold Categories in Hc; set_solver).
    unfold Categories in Hc. repeat (apply elem_of_cons in Hc as [->|Hc]; [discriminate|]). by apply elem_of_nil in Hc.
Qed.

Section MirrorSpec.
Context (json_Decode : bytes -> HistoryArchiveState * bool) (json_Marshal : HistoryArchiveState -> bytes).
Context (src : files) (src_passphrase dst_passphrase : bytes) (checkpointManager : CheckpointManager).
Context (fault : nat -> option (option bytes)) (opts : CommandOptions) (fs : files).

(** A file of the destination that is the source's, or that was there and was to be left. *)
Definition copied (d : files) (p : bytes) : Prop :=
  exists content, d !! p = Some content /\ (src !! p = Some content \/ (Force opts = false /\ fs !! p = Some content)).

(** No error has been counted. *)
Definition clean (w : World) : Prop := noted w <= 0.

#[local] Abbreviation good w p := (copied (dst w) p).

(** What the steps of any worker do: errors stay counted, and without one what has been
    copied stays; and which buckets they may claim. *)
Record goes_on (w w' : World) : Prop := {
  go_noted : noted w <= noted w';
  go_claims b x : bucketFetch w !! b = Some x -> bucketFetch w' !! b = Some x;
  go_good : clean w' -> forall p, ~ is_optional p -> good w p -> good w' p
}.
Definition guarantee (x : Z) (w w' : World) : Prop :=
  goes_on w w' /\ forall b y, bucketFetch w' !! b = Some y -> bucketFetch w !! b = Some y \/ y = x.
Definition rely (x : Z) (w w' : World) : Prop :=
  goes_on w w' /\ forall b, bucketFetch w' !! b = Some x -> bucketFetch w !! b = Some x.

Lemma goes_on_refl w : goes_on w w.
Proof. by split. Qed.

Lemma goes_on_trans w1 w2 w3 : goes_on w1 w2 -> goes_on w2 w3 -> goes_on w1 w3.
Proof.
  intros [H1 H2 H3] [G1 G2 G3]. split; [lia|auto|]. intros Hc p Hp Hg. apply G3; [done..|]. apply H3; [unfold clean in *; lia|done..].
Qed.

#[export] Instance rely_preorder x : PreOrder (rely x).
Proof.
  split; [intros w; split; [apply goes_on_refl|done]|]. intros w1 w2 w3 [H1 H2] [G1 G2]. split; [by eapply goes_on_trans|auto].
Qed.

Lemma guarantee_rely x y w w' : x <> y -> guarantee x w w' -> rely y w w'.
Proof. intros Hne [H1 H2]. split; [done|]. intros b Hb. by destruct (H2 _ _ Hb) as [|<-]. Qed.

(** The invariant, for the checkpoints that are asked for. *)
Section Body.
Context (q : list Z).

Record inv (w : World) : Prop := {
  inv_noted : 0 <= noted w;
  inv_errs : errs w = u32 (noted w);
  inv_files : clean w -> forall p content, ~ is_optional p -> dst w !! p = Some content ->
    src !! p = Some content \/ fs !! p = Some content;
  inv_claims b x : bucketFetch w !! b = Some x -> x ∈ q
}.

(** ** Steps that keep all but the counters *)
Definition same_files (w w' : World) : Prop := dst w' = dst w /\ bucketFetch w' = bucketFetch w.

Lemma note_called_ok e w : inv w -> inv (note e (called w)) /\ goes_on w (note e (called w)) /\
  bucketFetch (note e (called w)) = bucketFetch w /\ (e = true -> ~ clean (note e (called w))).
Proof.
  intros [H1 H2 H3 H4]. destruct e; unfold note, called; cbn; (split; [|split; [|split; [done|]]]).
  - split; cbn; [lia| |unfold clean; cbn; intros; exfalso; lia|done]. rewrite H2. unfold u32. by rewrite Zplus_mod_idemp_l.
  - split; cbn; [lia|done|unfold clean; cbn; intros; exfalso; lia].
  - unfold clean; cbn. lia.
  - by split.
  - by split.
  - done.
Qed.

(** An upload: of the source's file, counted unless optional. *)
Lemma upload_ok w p content counted : inv w -> src !! p = Some content -> (counted = false -> is_optional p) ->
  let w' := note (fails fault w && counted) (PutFile fault w p content) in
  inv w' /\ goes_on w w' /\ bucketFetch w' = bucketFetch w /\ (clean w' -> ~ is_optional p -> good w' p).
Proof.
  intros [H1 H2 H3 H4] Hs Hc w'.
  assert (bucketFetch w' = bucketFetch w) as Eb by (unfold w', note, PutFile; by destruct (fails fault w && counted)).
  assert (noted w <= noted w') as Hn by (unfold w', note, PutFile; destruct (fails fault w && counted); cbn; lia).
  assert (clean w' -> ~ is_optional p -> dst w' = <[p := content]> (dst w)) as Hput.
  { unfold w', note, PutFile, put, fails, clean. intros Hcl Hp. destruct (fault (calls w)) as [l|]; [|done].
    destruct counted; [cbn in Hcl; lia|]. by destruct (Hp (Hc eq_refl)). }
  assert (clean w' -> forall p', p' <> p -> dst w' !! p' = dst w !! p') as Hother.
  { unfold w', note, PutFile, put. intros _ p' Hne. destruct (fails fault w && counted); cbn;
      destruct (fault (calls w)) as [[l|]|]; by rewrite ?lookup_insert_ne by done. }
  split; [|split; [|split; [done|]]].
  - split; [lia| | |by rewrite Eb].
    + unfold w', note, PutFile. destruct (fails fault w && counted); cbn; [|done]. rewrite H2. unfold u32. by rewrite Zplus_mod_idemp_l.
    + intros Hcl p' c Hp' Hd. destruct (decide (p' = p)) as [->|Hne].
      * rewrite Hput, lookup_insert_eq in Hd by done. left. congruence.
      * rewrite Hother in Hd by done. apply H3; [unfold clean in *; lia|done..].
  - split; [done|by rewrite Eb|]. intros Hcl p' Hp' (c & Hd & Hc'). destruct (decide (p' = p)) as [->|Hne].
    + exists content. rewrite Hput, lookup_insert_eq by done. by split; [|left].
    + exists c. by rewrite Hother.
  - intros Hcl Hp. exists content. rewrite Hput, lookup_insert_eq by done. by split; [|left].
Qed.

(** ** One file *)
Definition copy_guarantee (w w' : World) : Prop := goes_on w w' /\ bucketFetch w' = bucketFetch w.

Lemma copy_guarantee_rely x w w' : copy_guarantee w w' -> rely x w w'.
Proof. intros [H E]. split; [done|]. by rewrite E. Qed.
Lemma copy_guarantee_guarantee x w w' : copy_guarantee w w' -> guarantee x w w'.
Proof. intros [H E]. split; [done|]. rewrite E. by left. Qed.

Lemma wp_copy x p counted s : DryRun opts = false -> (counted = false -> is_optional p) ->
  wp inv True (rely x) copy_guarantee (copyPath src fault opts p counted) s (fun w => clean w -> ~ is_optional p -> good w p).
Proof.
  intros Hdry Hc. unfold copyPath. rewrite Hdry. intros s1 _ Hi1.
  destruct (Exists_ fault s1 p) as [present|] eqn:Ee;
    [destruct (note_called_ok false s1 Hi1) as (H1 & H2 & H3 & H4)|destruct (note_called_ok counted s1 Hi1) as (H1 & H2 & H3 & H4)];
    (split; [done|]; split; [done|]).
  - destruct (present && negb (Force opts)) eqn:Eskip.
    + apply andb_true_iff in Eskip as [-> Hforce]. intros s2 [[Hn _ Hg] _] _ Hcl Hp. apply Hg; [done..|].
      unfold Exists_ in Ee. destruct (fails fault s1); [done|]. destruct (dst s1 !! p) as [content|] eqn:Ed; [|done].
      exists content. split; [done|]. destruct (inv_files _ Hi1) with p content as [?|?]; [|done..|by left|right].
      * pose proof (go_noted _ _ H2). unfold clean in *. lia.
      * split; [by destruct (Force opts)|done].
    + intros s2 _ Hi2. destruct (GetFile fault src s2 p) as [content|] eqn:Eg;
        [destruct (note_called_ok false s2 Hi2) as (G1 & G2 & G3 & G4)|destruct (note_called_ok counted s2 Hi2) as (G1 & G2 & G3 & G4)];
        (split; [done|]; split; [done|]).
      * intros s3 _ Hi3. assert (src !! p = Some content) as Hs by (unfold GetFile in Eg; by destruct (fails fault s2)).
        destruct (upload_ok s3 p content counted Hi3 Hs Hc) as (F1 & F2 & F3 & F4). split; [done|]. split; [done|].
        intros s4 [[Hn _ Hg] _] _ Hcl Hp. apply Hg; [done..|]. apply F4; [|done]. unfold clean in *. lia.
      * intros s3 [[Hn _ _] _] _ Hcl Hp. destruct counted; [|by destruct (Hp (Hc eq_refl))]. destruct (G4 eq_refl). unfold clean in *. lia.
  - intros s2 [[Hn _ _] _] _ Hcl Hp. destruct counted; [|by destruct (Hp (Hc eq_refl))]. destruct (H4 eq_refl). unfold clean in *. lia.
Qed.
(** ** One checkpoint *)
Definition unclaimed (x : Z) (w : World) : Prop := forall b, bucketFetch w !! b <> Some x.
Definition claims_copied (x : Z) (w : World) : Prop :=
  forall b, bucketFetch w !! b = Some x -> clean w -> good w (BucketPath b).
Definition category_copied (x : Z) (cat : bytes) (w : World) : Prop :=
  categoryRequired cat = true -> clean w -> good w (CategoryCheckpointPath cat x).
Definition checkpoint_served (x : Z) (w : World) : Prop :=
  clean w -> exists has buckets,
    ReadHAS json_Decode src src_passphrase (CategoryCheckpointPath (str "history") x) = (has, None) /\ Buckets has = Ok buckets /\
    (forall b, b ∈ buckets -> is_Some (bucketFetch w !! b)) /\ forall cat, cat ∈ Categories -> category_copied x cat w.

Lemma goes_on_good w w' p : goes_on w w' -> ~ is_optional p -> (clean w -> good w p) -> clean w' -> good w' p.
Proof. intros [H1 _ H3] Hp Hg Hc. apply H3; [done..|]. apply Hg. unfold clean in *. lia. Qed.

Lemma unclaimed_stable x : stable inv (rely x) (unclaimed x).
Proof. intros w w' [_ H] _ Hu b Hb. by apply (Hu b), H. Qed.

Lemma claims_copied_stable x : stable inv (rely x) (claims_copied x).
Proof. intros w w' [H1 H2] _ Hu b Hb. eapply goes_on_good; [done|apply bucket_path_not_optional|]. by apply Hu, H2. Qed.

Lemma category_copied_stable x cat w w' : cat ∈ Categories -> goes_on w w' -> category_copied x cat w -> category_copied x cat w'.
Proof. intros Hc Hg H Hr. eapply goes_on_good; [done|by apply category_path_not_optional|by apply H]. Qed.

Lemma claimed_stable (b : bytes) w w' : goes_on w w' -> is_Some (bucketFetch w !! b) -> is_Some (bucketFetch w' !! b).
Proof. intros [_ H _] [x Hx]. by eexists; apply H. Qed.

Lemma served_stable x : stable inv (rely x) (checkpoint_served x).
Proof.
  intros w w' [Hg _] _ Hs Hc. destruct Hs as (has & bs & H1 & H2 & H3 & H4); [pose proof (go_noted _ _ Hg); unfold clean in *; lia|].
  exists has, bs. split_and!; [done|done|..].
  - intros b Hb. eapply claimed_stable; [done|auto].
  - intros cat Hcat. eapply category_copied_stable; [done|done|auto].
Qed.

Lemma wp_fetch x b s : DryRun opts = false -> x ∈ q -> inv s -> claims_copied x s ->
  wp inv True (rely x) (guarantee x) (fetch_bucket src fault opts x b) s (fun w => claims_copied x w /\ is_Some (bucketFetch w !! b)).
Proof.
  intros Hdry Hx Hi Hl s1 Hr1 Hi1. pose proof (claims_copied_stable x _ _ Hr1 Hi1 Hl) as Hl1.
  destruct (bucketFetch s1 !! b) as [y|] eqn:Eb.
  - split; [by destruct Hi1; split|]. split; [split; [by split|by left]|]. intros s2 Hr2 Hi2. split.
    + eapply claims_copied_stable; [exact Hr2|done|]. exact Hl1.
    + eapply claimed_stable; [apply Hr2|]. cbn. by eexists.
  - set (s1' := mkWorld _ _ _ _ _). assert (inv s1') as Hi1'.
    { destruct Hi1 as [I1 I2 I3 I4]. split; [done..|]. intros b' y. cbn. intros [[-> <-]|[_ H]]%lookup_insert_Some; [done|by eapply I4]. }
    split; [done|]. split.
    { split.
      - split; cbn; [lia| |done]. intros b' y Hb'. rewrite lookup_insert_ne; [done|]. intros <-. congruence.
      - intros b' y. cbn. intros [[-> <-]|[_ H]]%lookup_insert_Some; [by right|by left]. }
    eapply wp_guarantee; [apply copy_guarantee_guarantee|].
    eapply wp_impl; [|apply (wp_trace inv True (rely x) copy_guarantee); [apply copy_guarantee_rely|by apply (wp_copy x (BucketPath b) true s1')]].
    intros w Hiw [[Hg Hcl] Hcopied]. split.
    + intros b' Hb' Hc. destruct (decide (b' = b)) as [->|Hne]; [by apply Hcopied, bucket_path_not_optional|].
      eapply goes_on_good; [exact Hg|apply bucket_path_not_optional| |done]. apply Hl1.
      apply Hcl in Hb'. cbn in Hb'. by rewrite lookup_insert_ne in Hb' by done.
    + eapply claimed_stable; [exact Hg|]. cbn. rewrite lookup_insert_eq. by eexists.
Qed.

Lemma wp_category x cat s : DryRun opts = false -> cat ∈ Categories -> inv s -> claims_copied x s ->
  wp inv True (rely x) (guarantee x) (copy_category src fault opts x cat) s (fun w => claims_copied x w /\ category_copied x cat w).
Proof.
  intros Hdry Hcat Hi Hl. unfold copy_category. destruct (SkipOptional opts && negb (categoryRequired cat)) eqn:Eskip.
  - intros s1 Hr1 Hi1. split; [by eapply claims_copied_stable|]. intros Hr. by rewrite Hr, andb_false_r in Eskip.
  - eapply wp_guarantee; [apply copy_guarantee_guarantee|].
    eapply wp_impl; [|apply (wp_trace inv True (rely x) copy_guarantee); [apply copy_guarantee_rely|]]; cycle 1.
    { apply (wp_copy x); [done|]. intros Hr. unfold categoryRequired in Hr. exists x.
      destruct (bool_decide_reflect (cat = str "scp")) as [->|]; done. }
    intros w Hiw [Hr Hcopied]. split; [by eapply claims_copied_stable|]. intros Hreq Hc.
    by apply Hcopied; [|apply category_path_not_optional].
Qed.

Lemma wp_checkpoint x s : DryRun opts = false -> x ∈ q -> inv s -> unclaimed x s ->
  wp inv True (rely x) (guarantee x) (mirror_checkpoint json_Decode src src_passphrase fault opts x) s
    (fun w => claims_copied x w /\ checkpoint_served x w).
Proof.
  intros Hdry Hx Hi Hu s1 Hr1 Hi1. pose proof (unclaimed_stable x _ _ Hr1 Hi1 Hu) as Hu1.
  assert (forall e, guarantee x s1 (note e (called s1))) as Hguar.
  { intros e. destruct (note_called_ok e s1 Hi1) as (_ & H2 & H3 & _). split; [done|]. rewrite H3. by left. }
  assert (forall e w, rely x (note e (called s1)) w -> inv w -> unclaimed x w) as Hunc.
  { intros e w Hr Hw. eapply unclaimed_stable; [exact Hr|done|]. intros b Hb. apply (Hu1 b).
    destruct (note_called_ok e s1 Hi1) as (_ & _ & H3 & _). by rewrite H3 in Hb. }
  destruct (GetCheckpointHAS json_Decode fault src src_passphrase s1 x) as [has [e|]] eqn:Eh.
  - destruct (note_called_ok true s1 Hi1) as (H1 & H2 & H3 & H4). split; [done|]. split; [apply Hguar|].
    intros s2 Hr2 Hi2. split; [intros b Hb; by destruct (Hunc true s2 Hr2 Hi2 b)|].
    intros Hc. destruct (H4 eq_refl). pose proof (go_noted _ _ (proj1 Hr2)). unfold clean in *. lia.
  - destruct (note_called_ok false s1 Hi1) as (H1 & H2 & H3 & _). split; [done|]. split; [apply Hguar|].
    destruct (Buckets has) as [buckets|] eqn:Eb; [|done].
    assert (ReadHAS json_Decode src src_passphrase (CategoryCheckpointPath (str "history") x) = (has, None)) as Hread.
    { unfold GetCheckpointHAS, GetPathHAS in Eh. by destruct (fails fault s1). }
    apply (wp_seq inv True (rely x) (guarantee x)); [done|]. eapply wp_impl; [|apply (wp_for_each inv True (rely x) (guarantee x) buckets _ (claims_copied x) (fun b w => is_Some (bucketFetch w !! b)))].
    + intros s2 Hi2 [Hl2 Hb2].
      eapply wp_impl; [|apply (wp_keeps inv True (rely x) (guarantee x) _ (fun w => forall b, b ∈ buckets -> is_Some (bucketFetch w !! b)));
        [| |exact Hb2|apply (wp_for_each inv True (rely x) (guarantee x) Categories _ (claims_copied x) (category_copied x))]].
      * intros w Hw (Hb & Hl & Hcat). split; [done|]. intros Hc. by exists has, buckets.
      * intros w w' [Hg _] _ H b Hb. eapply claimed_stable; [done|auto].
      * intros w w' [Hg _] _ H b Hb. eapply claimed_stable; [done|auto].
      * intros cat Hcat. split; intros w w' [Hg _] _; by apply category_copied_stable.
      * apply claims_copied_stable.
      * intros cat w Hcat Hw Hl. by apply wp_category.
      * done.
      * done.
    + intros b _. split; intros w w' [Hg _] _; by apply claimed_stable.
    + apply claims_copied_stable.
    + intros b w _ Hw Hl. by apply wp_fetch.
    + done.
    + intros b Hb. cbn in Hb. by destruct (Hu1 b).
Qed.
End Body.

(** ** The whole range *)
#[local] Abbreviation mirrors := (Mirror json_Decode json_Marshal src src_passphrase dst_passphrase checkpointManager fault opts fs).
#[local] Abbreviation mirror_pool := (pool_step (mirror_checkpoint json_Decode src src_passphrase fault opts)).
#[local] Abbreviation start_world := (called (mkWorld fs 0 ∅ 0 0)).

Lemma start_inv q : inv q start_world.
Proof. split; cbn; [lia|done|intros _ p content _ Hp; by right|]. intros b x. by rewrite lookup_empty. Qed.

Lemma pool_mirrors n q c : DryRun opts = false -> NoDup q -> rtc mirror_pool (start_pool n start_world q) c -> finished c ->
  inv q (shared c) /\ forall x, x ∈ q -> claims_copied x (shared c) /\ checkpoint_served x (shared c).
Proof.
  intros Hdry Hnd Hrun Hf.
  refine (pool_correct _ (inv q) True rely guarantee unclaimed (fun x w => claims_copied x w /\ checkpoint_served x w)
    guarantee_rely (fun x => unclaimed_stable q x) _ n start_world q c Hnd _ (start_inv q) _ Hrun Hf).
  - intros x w w' Hr Hi [H1 H2]. split; [by eapply claims_copied_stable|by eapply served_stable].
  - intros x w Hx Hi Hu. by apply wp_checkpoint.
  - intros x _ b. cbn. by rewrite lookup_empty.
Qed.

(** Counting: the count of errors is 0 only if there were none, or too many. *)
Lemma errs_clean q w : inv q w -> noted w < 4294967296 -> errs w = 0 -> clean w.
Proof. intros [H1 H2 _ _] Hn He. unfold clean. rewrite H2, u32_id in He by (unfold is_u32; lia). lia. Qed.

Lemma finish_mirror_ok q rootHAS range w w' : inv q w ->
  finish_mirror json_Decode json_Marshal dst_passphrase fault rootHAS range w = (None, w') -> noted w' < 4294967296 ->
  clean w /\ (forall p, p <> rootHASPath -> dst w' !! p = dst w !! p) /\
  (CurrentLedger rootHAS = High range -> dst w' !! rootHASPath = Some (json_Marshal rootHAS)).
Proof.
  intros [H1 H2 _ _] Hf Hn. unfold finish_mirror in Hf.
  assert (forall e (v : World), noted v = noted w -> errs v = errs w ->
    (if errs (note e v) =? 0 then None else Some (ErrMirroring (errs (note e v))), note e v) = (@None mirror_error, w') ->
    clean w /\ e = false /\ w' = v) as Hend.
  { intros e v En Ee E. destruct (Z.eqb_spec (errs (note e v)) 0) as [E0|]; [|done]. injection E as Ew.
    unfold clean. destruct e; cbn in *; rewrite Ee, H2 in E0; subst w'; cbn in *; rewrite En in Hn.
    - unfold u32 in E0. rewrite Zplus_mod_idemp_l, Z.mod_small in E0 by lia. lia.
    - rewrite u32_id in E0 by (unfold is_u32; lia). split; [lia|done]. }
  destruct (Z.eqb_spec (CurrentLedger rootHAS) (High range)) as [Eq|Hne].
  - unfold PutRootHAS, PutPathHAS in Hf. destruct (Exists_ fault w rootHASPath) as [present|].
    + rewrite andb_false_r in Hf. apply Hend in Hf as (Hc & Hput & ->); [|done..]. split; [done|].
      unfold PutFile, put, fails, called in *. cbn in *. destruct (fault (S (calls w))); [done|].
      split; [|intros _; apply lookup_insert_eq]. intros p Hp. by rewrite lookup_insert_ne.
    + apply Hend in Hf as (_ & ? & _); done.
  - apply Hend in Hf as (Hc & _ & ->); [|done..]. by split.
Qed.

(** C34: a mirror that reports no error, of less than 2^32 that there can have been, has
    copied the range it should: for every checkpoint of it the archive state could be
    read, and the destination has its files, optional ones apart, and the buckets that
    the state refers to, each with the content of the source or, when existing files
    are not to be replaced, one it had before; and it points to the source's current
    ledger if the range goes up to it. *)
Theorem mirror_copies_range w' : mirrors None w' -> noted w' < 4294967296 -> DryRun opts = false -> 0 < Concurrency opts ->
  1 <= checkpointFreq checkpointManager <= MaxUint32 ->
  exists rootHAS range fuel checkpoints,
    ReadHAS json_Decode src src_passphrase rootHASPath = (rootHAS, None) /\
    clamp (opts_Range opts) (State_Range rootHAS) checkpointManager = Some range /\
    GenerateCheckpoints fuel range checkpointManager = Some checkpoints /\
    (forall x, x ∈ checkpoints -> exists has buckets,
      ReadHAS json_Decode src src_passphrase (CategoryCheckpointPath (str "history") x) = (has, None) /\ Buckets has = Ok buckets /\
      (forall b, b ∈ buckets -> copied (dst w') (BucketPath b)) /\
      forall cat, cat ∈ Categories -> categoryRequired cat = true -> copied (dst w') (CategoryCheckpointPath cat x)) /\
    (CurrentLedger rootHAS = High range -> dst w' !! rootHASPath = Some (json_Marshal rootHAS)).
Proof.
  intros Hm Hn Hdry Hconc Hfreq. inversion Hm as [|rootHAS range fuel q c err w1 w Hroot Hrange Hgen _ Hrun [Hret Hclosed] Hfin]; subst.
  assert (workers c <> []) as Hw.
  { clear - Hrun Hconc. assert (forall c1 c2, rtc mirror_pool c1 c2 -> workers c1 <> [] -> workers c2 <> []) as H.
    { induction 1 as [|c1 c2 c3 Hs _ IH]; [done|]. intros _. apply IH. by destruct Hs; destruct before. }
    apply (H _ _ Hrun). cbn. destruct (Z.to_nat (Concurrency opts)) eqn:E; [lia|done]. }
  assert (finished c) as Hf by (split; [by destruct Hclosed|done]).
  destruct (MakeRange_u32 _ _ _ _ Hrange) as [Hlow Hhigh].
  assert (NoDup q) as Hnd.
  { eapply GenerateCheckpoints_loop_sorted; [exact Hfreq|exact Hhigh| |exact Hgen]. unfold is_u32, is_u64 in *. lia. }
  destruct (pool_mirrors _ _ _ Hdry Hnd Hrun Hf) as [Hinv Hall].
  destruct (finish_mirror_ok _ _ _ _ _ Hinv Hfin Hn) as (Hc & Hsame & Hptr).
  exists rootHAS, range, fuel, q. split; [unfold GetRootHAS, GetPathHAS in Hroot; by destruct (fails fault _)|].
  split; [done|]. split; [done|]. split; [|done].
  intros x Hx. destruct (Hall x Hx) as [_ Hs]. destruct (Hs Hc) as (has & buckets & H1 & H2 & H3 & H4).
  assert (forall p, (exists b, p = BucketPath b) \/ (exists cat ix, cat ∈ Categories /\ p = CategoryCheckpointPath cat ix) ->
    copied (dst (shared c)) p -> copied (dst w') p) as Hmove.
  { intros p Hp (content & Hd & Hcontent). exists content. by rewrite Hsame by by apply root_path_other. }
  exists has, buckets. split_and!; [done|done|..].
  - intros b Hb. apply Hmove; [left; by eexists|]. destruct (H3 b Hb) as [y Hy].
    by apply (proj1 (Hall y (inv_claims _ _ Hinv _ _ Hy)) b Hy).
  - intros cat Hcat Hreq. apply Hmove; [right; by eexists _, _|]. by apply H4.
Qed.

(** ** Without failures *)
Section Working.
Context (Hfault : forall n, fault n = None) (Hdry : DryRun opts = false).

(** The source has the files of the checkpoints, optional ones apart. *)
Definition source_has (q : list Z) : Prop := forall x, x ∈ q -> exists has buckets,
  ReadHAS json_Decode src src_passphrase (CategoryCheckpointPath (str "history") x) = (has, None) /\ Buckets has = Ok buckets /\
  (forall b, b ∈ buckets -> is_Some (src !! BucketPath b)) /\
  forall cat, cat ∈ Categories -> categoryRequired cat = true -> is_Some (src !! CategoryCheckpointPath cat x).

Record no_errors (w : World) : Prop := { ne_errs : errs w = 0; ne_root : dst w !! rootHASPath = fs !! rootHASPath }.
Definition anything (w w' : World) : Prop := True.
#[local] Instance anything_preorder : PreOrder anything.
Proof. by split. Qed.
#[local] Abbreviation wp0 := (wp no_errors False anything anything).

Lemma not_failing w : fails fault w = false.
Proof. unfold fails. by rewrite Hfault. Qed.

Lemma wp0_copy p counted s : p <> rootHASPath -> (counted = true -> is_Some (src !! p)) ->
  wp0 (copyPath src fault opts p counted) s (fun _ => True).
Proof.
  intros Hp Hs. unfold copyPath. rewrite Hdry. intros s1 _ Hi1. unfold Exists_. rewrite not_failing.
  split; [by destruct Hi1; split|]. split; [done|]. destruct (_ && _); [done|]. intros s2 _ Hi2. unfold GetFile. rewrite not_failing.
  destruct (src !! p) as [content|] eqn:Es.
  - split; [by destruct Hi2; split|]. split; [done|]. intros s3 _ Hi3. rewrite not_failing. split; [|done].
    destruct Hi3 as [H1 H2]. split; [done|]. cbn. unfold put. rewrite Hfault. by rewrite lookup_insert_ne.
  - destruct counted; [by destruct (Hs eq_refl)|]. split; [by destruct Hi2; split|]. by split.
Qed.

Lemma wp0_for_each {B} (l : list B) b s : (forall x s', x ∈ l -> wp0 (b x) s' (fun _ => True)) -> no_errors s ->
  wp0 (for_each l b) s (fun _ => True).
Proof.
  intros Hb Hi. eapply wp_impl; [|apply (wp_for_each no_errors False anything anything l b (fun _ => True) (fun _ _ => True))]; try done.
  intros x s' Hx _ _. eapply wp_impl; [|by apply Hb]. done.
Qed.

Lemma wp0_checkpoint q x s : source_has q -> x ∈ q -> no_errors s ->
  wp0 (mirror_checkpoint json_Decode src src_passphrase fault opts x) s (fun _ => True).
Proof.
  intros Hq Hx _ s1 _ Hi1. destruct (Hq x Hx) as (has & buckets & H1 & H2 & H3 & H4).
  unfold GetCheckpointHAS, GetPathHAS. rewrite not_failing, H1, H2. cbn [note].
  assert (no_errors (called s1)) as Hi by (by destruct Hi1; split). split; [done|]. split; [done|].
  apply (wp_seq no_errors False anything anything); [done|]. eapply wp_impl; [|apply wp0_for_each; [|done]].
  - intros s2 Hi2 _. apply wp0_for_each; [|done]. intros cat s3 Hcat. unfold copy_category.
    destruct (SkipOptional opts && _); [done|]. apply wp0_copy; [apply root_path_other; right; by eexists _, _|]. by apply H4.
  - intros b s2 Hb s3 _ Hi3. split; [by destruct Hi3; split|]. split; [done|].
    destruct (bucketFetch s3 !! b); [done|]. apply wp0_copy; [apply root_path_other; left; by eexists|]. intros _. by apply H3.
Qed.

Lemma GenerateCheckpoints_loop_ends freq high : 1 <= freq <= MaxUint32 -> is_u32 high -> forall n i, is_u64 i ->
  high < i + Z.of_nat n -> is_Some (GenerateCheckpoints_loop n i high freq).
Proof.
  intros Hf Hh. induction n as [|n IH]; intros i Hi Hn; cbn [GenerateCheckpoints_loop]; destruct (Z.leb_spec i high).
  - lia.
  - by eexists.
  - unfold is_u32, is_u64 in *. rewrite u64_id by (unfold is_u64; lia). destruct (IH (i + freq)) as [rest ->]; [lia|lia|by eexists].
  - by eexists.
Qed.

Lemma finish_no_errors rootHAS range w err w' : no_errors w ->
  CurrentLedger rootHAS = High range \/ (exists has, ReadHAS json_Decode fs dst_passphrase rootHASPath = (has, None)) ->
  finish_mirror json_Decode json_Marshal dst_passphrase fault rootHAS range w = (err, w') -> err = None.
Proof.
  intros [H1 H2] Hroot. unfold finish_mirror. destruct (Z.eqb_spec (CurrentLedger rootHAS) (High range)).
  - unfold PutRootHAS, PutPathHAS, Exists_. rewrite not_failing, andb_false_r, not_failing. cbn. rewrite H1. cbn. congruence.
  - destruct Hroot as [|[has Hread]]; [done|]. unfold GetRootHAS, GetPathHAS. rewrite not_failing.
    unfold ReadHAS in *. rewrite H2, Hread. cbn. rewrite H1. cbn. congruence.
Qed.

Lemma returned_stops (c c' : pool (S:=World) (A:=Z)) : returned c -> ~ mirror_pool c c'.
Proof.
  intros [Hr Hq] Hs. destruct Hs as [s q before r f k after _|s x q before r after _]; cbn in *.
  - apply Forall_app in Hr as [_ Hr]. by apply Forall_cons_1 in Hr as [? _].
  - destruct Hq as [|Hw]; [done|]. by destruct before.
Qed.

(** The runs of the workers on checkpoints that the source has: whatever they have done
    so far, none has panicked, the last ones to return leave no error, and until then
    one of them can go on. *)
Lemma run_without_errors rootHAS range q c :
  0 < Concurrency opts -> NoDup q -> source_has q ->
  CurrentLedger rootHAS = High range \/ (exists has, ReadHAS json_Decode fs dst_passphrase rootHASPath = (has, None)) ->
  rtc mirror_pool (start_pool (Z.to_nat (Concurrency opts)) start_world q) c ->
  ~ panicked (workers c) /\
  ((exists c', mirror_pool c c') \/
   returned c /\ exists w', finish_mirror json_Decode json_Marshal dst_passphrase fault rootHAS range (shared c) = (None, w')).
Proof.
  intros Hconc Hnd Hsrc Hdst Hrun. assert (no_errors start_world) as Hstart by done.
  assert (forall x s, x ∈ q -> no_errors s -> True -> wp0 (mirror_checkpoint json_Decode src src_passphrase fault opts x) s (fun _ => True)) as Hwp.
  { intros x s Hx Hi _. by apply (wp0_checkpoint q). }
  assert (~ panicked (workers c)) as Hno.
  { refine (pool_no_panic _ no_errors False (fun _ => anything) (fun _ => anything) (fun _ _ => True) (fun _ _ => True)
      _ _ _ _ start_world q c _ Hnd Hwp Hstart _ Hrun); by repeat intro. }
  split; [done|]. assert (workers c <> []) as Hw.
  { clear - Hrun Hconc. remember (start_pool _ _ _) as c0 eqn:E0. assert (workers c0 <> []) as H0.
    { subst c0. cbn. destruct (Z.to_nat (Concurrency opts)) eqn:E; [lia|done]. }
    clear E0. induction Hrun as [|c1 c2 c3 Hs _ IH]; [done|]. apply IH. by destruct Hs; destruct before. }
  destruct (pool_stops (mirror_checkpoint json_Decode src src_passphrase fault opts) c Hw) as [Hf|[Hp|Hs]]; [right|by destruct Hno|by left]. split.
  { destruct Hf as [Hq Hr]. split; [done|by left]. }
  destruct (finish_mirror json_Decode json_Marshal dst_passphrase fault rootHAS range (shared c)) as [err w'] eqn:Efin.
  exists w'. f_equal. eapply finish_no_errors; [|exact Hdst|exact Efin].
  refine (proj1 (pool_correct _ no_errors False (fun _ => anything) (fun _ => anything) (fun _ _ => True) (fun _ _ => True)
    _ _ _ _ start_world q c Hnd Hwp Hstart _ Hrun Hf)); by repeat intro.
Qed.

(** C35: without failures of the storages, mirroring a range that the source has ends,
    and ends without an error, in whatever order the workers run. The checkpoints of
    the range are listed, and of the runs of the workers on them none is infinite; at
    any point of any run no worker has panicked, and either some worker can go on, or
    all have returned and the call returns no error. So every result is without an
    error, and there is one. The root of the destination can be read, unless it is
    written because the range ends at the source's current ledger. *)
Theorem mirror_succeeds rootHAS range : 0 < Concurrency opts -> 1 <= checkpointFreq checkpointManager <= MaxUint32 ->
  ReadHAS json_Decode src src_passphrase rootHASPath = (rootHAS, None) ->
  clamp (opts_Range opts) (State_Range rootHAS) checkpointManager = Some range ->
  (forall fuel q, GenerateCheckpoints fuel range checkpointManager = Some q -> source_has q) ->
  CurrentLedger rootHAS = High range \/ (exists has, ReadHAS json_Decode fs dst_passphrase rootHASPath = (has, None)) ->
  (exists fuel q, GenerateCheckpoints fuel range checkpointManager = Some q) /\
  (forall fuel q, GenerateCheckpoints fuel range checkpointManager = Some q ->
    let start := start_pool (Z.to_nat (Concurrency opts)) start_world q in
    Acc (flip mirror_pool) start /\
    forall c, rtc mirror_pool start c ->
      ~ panicked (workers c) /\
      ((exists c', mirror_pool c c') \/
       returned c /\ exists w', finish_mirror json_Decode json_Marshal dst_passphrase fault rootHAS range (shared c) = (None, w') /\
         mirrors None w')) /\
  (forall err w', mirrors err w' -> err = None) /\ exists w', mirrors None w'.
Proof.
  intros Hconc Hfreq Hread Hrange Hsrc Hdst.
  assert (GetRootHAS json_Decode fault src src_passphrase (mkWorld fs 0 ∅ 0 0) = (rootHAS, None)) as Hroot.
  { unfold GetRootHAS, GetPathHAS. by rewrite not_failing. }
  destruct (MakeRange_u32 _ _ _ _ Hrange) as [Hlow Hhigh].
  assert (forall fuel q, GenerateCheckpoints fuel range checkpointManager = Some q -> NoDup q) as Hnd.
  { intros fuel q Hgen. eapply GenerateCheckpoints_loop_sorted; [exact Hfreq|exact Hhigh| |exact Hgen]. unfold is_u32, is_u64 in *. lia. }
  assert (exists fuel q, GenerateCheckpoints fuel range checkpointManager = Some q) as Hgens.
  { exists (S (Z.to_nat (High range - Low range))). apply (GenerateCheckpoints_loop_ends (checkpointFreq checkpointManager) (High range) Hfreq Hhigh);
      unfold is_u32, is_u64 in *; lia. }
  assert (forall fuel q c w', GenerateCheckpoints fuel range checkpointManager = Some q ->
    rtc mirror_pool (start_pool (Z.to_nat (Concurrency opts)) start_world q) c -> returned c ->
    finish_mirror json_Decode json_Marshal dst_passphrase fault rootHAS range (shared c) = (None, w') -> mirrors None w') as Hret.
  { intros fuel q c w' Hgen Hrun Hc Hfin. apply (mirror_range _ _ _ _ _ _ _ _ _ rootHAS range fuel q c); try done. lia. }
  assert (forall fuel q c, GenerateCheckpoints fuel range checkpointManager = Some q ->
    rtc mirror_pool (start_pool (Z.to_nat (Concurrency opts)) start_world q) c -> ~ panicked (workers c) /\
      ((exists c', mirror_pool c c') \/ returned c /\ exists w',
        finish_mirror json_Decode json_Marshal dst_passphrase fault rootHAS range (shared c) = (None, w') /\ mirrors None w')) as Hany.
  { intros fuel q c Hgen Hrun. destruct (run_without_errors rootHAS range q c) as [Hp [Hs|[Hc [w' Hfin]]]]; try done; [by eapply Hnd|by eapply Hsrc|by split; [|left]|].
    split; [done|]. right. split; [done|]. exists w'. split; [done|]. by eapply Hret. }
  split; [done|]. split; [|split].
  - intros fuel q Hgen. split; [apply pool_steps_end|]. intros c. by apply (Hany fuel).
  - intros err w' Hm. inversion Hm as [has e w1 Hroot1|rootHAS1 range1 fuel q c err1 w1 w Hroot1 Hrange1 Hgen _ Hrun Hc Hfin]; subst.
    { by pose proof (eq_trans (eq_sym Hroot) Hroot1). }
    pose proof (eq_trans (eq_sym Hroot) Hroot1) as [= <-]. assert (range1 = range) as -> by congruence.
    destruct (Hany fuel q c Hgen Hrun) as [_ [[c' Hs]|[_ [w2 [Hfin2 _]]]]]; [|congruence].
    by destruct (returned_stops c c' Hc Hs).
  - destruct Hgens as (fuel & q & Hgen).
    destruct (pool_finishes (mirror_checkpoint json_Decode src src_passphrase fault opts)
      (start_pool (Z.to_nat (Concurrency opts)) start_world q)) as (c & Hrun & Hf).
    { cbn. destruct (Z.to_nat (Concurrency opts)) eqn:E; [lia|done]. }
    destruct (Hany fuel q c Hgen Hrun) as [Hp [[c' Hs]|[_ [w' [_ Hm]]]]]; [|by exists w'].
    destruct Hf as [[Hq Hr]|]; [|by destruct Hp]. destruct (returned_stops c c'); [split; [done|by left]|done].
Qed.
End Working.
End MirrorSpec.

(** One checkpoint with one bucket, and a destination that is empty. *)
Module SampleMirror.
Definition bucket : bytes := replicate 32 Byte.x01.
Definition state : HistoryArchiveState := mkHAS 1 63 [] [mkLevel (Hash_String bucket) [] []] [].
Definition decode (content : bytes) : HistoryArchiveState * bool := (state, true).
Definition marshal (has : HistoryArchiveState) : bytes := str "state".
Definition src : files := list_to_map
  ((rootHASPath, str "state") :: (BucketPath bucket, str "bucket") ::
   map (fun cat => (CategoryCheckpointPath cat 63, cat)) (filter (fun cat => categoryRequired cat = true) Categories)).
Definition opts : CommandOptions := mkOptions 1 (mkRange 0 63) false false false false false.
Definition manager : CheckpointManager := NewCheckpointManager 64.
Definition works (n : nat) : option (option bytes) := None.
Abbreviation mirrors_sample := (Mirror decode marshal src [] [] manager works opts ∅).

Definition result : pool (A:=Z) :=
  run_one (mirror_checkpoint decode src [] works opts) 40 (called (mkWorld ∅ 0 ∅ 0 0)) [63] None Ret.
Definition outcome := finish_mirror decode marshal [] works state (mkRange 63 63) (shared result).
Definition final : World := outcome.2.

Lemma outcome_eq : outcome = (None, final).
Proof.
  assert (outcome.1 = None) as E by (vm_compute; reflexivity). rewrite (surjective_pairing outcome), E. reflexivity.
Qed.

Lemma sample_mirrors : mirrors_sample None final.
Proof.
  refine (mirror_range decode marshal src [] [] manager works opts ∅ state (mkRange 63 63) 2 [63] result None final _ _ _ _
    (run_one_steps _ 40 _ _ None Ret) _ _).
  - vm_compute. reflexivity.
  - vm_compute. reflexivity.
  - vm_compute. reflexivity.
  - vm_compute. discriminate.
  - split; [|left; vm_compute; reflexivity]. assert (workers result = [(Some 63, Ret)]) as -> by (vm_compute; reflexivity). by repeat constructor.
  - exact outcome_eq.
Qed.

Lemma mirror_copies_range_witness :
  exists w', mirrors_sample None w' /\ noted w' < 4294967296 /\
  exists rootHAS range fuel checkpoints,
    ReadHAS decode src [] rootHASPath = (rootHAS, None) /\
    clamp (opts_Range opts) (State_Range rootHAS) manager = Some range /\
    GenerateCheckpoints fuel range manager = Some checkpoints /\
    (forall x, x ∈ checkpoints -> exists has buckets,
      ReadHAS decode src [] (CategoryCheckpointPath (str "history") x) = (has, None) /\ Buckets has = Ok buckets /\
      (forall b, b ∈ buckets -> copied src opts ∅ (dst w') (BucketPath b)) /\
      forall cat, cat ∈ Categories -> categoryRequired cat = true -> copied src opts ∅ (dst w') (CategoryCheckpointPath cat x)) /\
    (CurrentLedger rootHAS = High range -> dst w' !! rootHASPath = Some (marshal rootHAS)).
Proof.
  exists final. split; [exact sample_mirrors|]. assert (noted final < 4294967296) as Hn by (vm_compute; reflexivity). split; [exact Hn|].
  apply (mirror_copies_range decode marshal src [] [] manager works opts ∅ final sample_mirrors Hn); [reflexivity|reflexivity|].
  split; vm_compute; discriminate.
Defined.

Lemma mirror_succeeds_witness :
  (exists fuel q, GenerateCheckpoints fuel (mkRange 63 63) manager = Some q) /\
  (forall fuel q, GenerateCheckpoints fuel (mkRange 63 63) manager = Some q ->
    let run := pool_step (mirror_checkpoint decode src [] works opts) in
    let start := start_pool 1 (called (mkWorld ∅ 0 ∅ 0 0)) q in
    Acc (flip run) start /\
    forall c, rtc run start c ->
      ~ panicked (workers c) /\
      ((exists c', run c c') \/
       returned c /\ exists w', finish_mirror decode marshal [] works state (mkRange 63 63) (shared c) = (None, w') /\
         mirrors_sample None w')) /\
  (forall err w', mirrors_sample err w' -> err = None) /\ exists w', mirrors_sample None w'.
Proof.
  apply (mirror_succeeds decode marshal src [] [] manager works opts ∅ (fun _ => eq_refl) eq_refl state (mkRange 63 63));
    [reflexivity|split; vm_compute; discriminate|vm_compute; reflexivity|vm_compute; reflexivity| |left; reflexivity].
  intros fuel q Hgen x Hx. assert (x = 63) as ->.
  { eapply (GenerateCheckpoints_loop_sorted 64 63) in Hx; [|split; vm_compute; discriminate|split; vm_compute; discriminate| |exact Hgen];
      [cbn in Hx; lia|split; vm_compute; discriminate]. }
  exists state, [bucket]. split; [vm_compute; reflexivity|]. split; [vm_compute; reflexivity|]. split.
  - intros b ->%list_elem_of_singleton. vm_compute. eexists. reflexivity.
  - intros cat Hcat Hreq. unfold Categories in Hcat.
    repeat (apply elem_of_cons in Hcat as [->|Hcat]; [first [discriminate Hreq|vm_compute; eexists; reflexivity]|]). by apply elem_of_nil in Hcat.
Defined.
End SampleMirror.
