(* ===== verification/Price.v ===== *)
(** * Prices and offer conversions

    [xdr.Price] (src/xdr/price.go) and the price package
    (src/price/main.go): the 128-bit multiply-divide steps, the conversion
    between buying and selling units of an offer, and the continued-fraction
    parser of decimal prices. *)
From Stdlib Require Import ZArith Lia QArith Qreduction Znumtheory.
From stdpp Require Import base list option.
From S2P Require Import Prelude GoStd Decimal.
#[local] Open Scope Z_scope.
#[local] Open Scope go_scope.

(** ** [xdr.Price] *)
Record Price : Type := mkPrice { PriceN : Z; PriceD : Z }.

#[export] Instance Price_eq_dec : EqDecision Price.
Proof. solve_decision. Defined.

Inductive price_validation_error : Type :=
| PriceZero | PriceZeroDenominator | PriceNegative.

Definition Validate (p : Price) : option price_validation_error :=
  if PriceN p =? 0 then Some PriceZero
  else if PriceD p =? 0 then Some PriceZeroDenominator
  else if (PriceN p <? 0) || (PriceD p <? 0) then Some PriceNegative
  else None.

Definition Cheaper (p q : Price) : bool :=
  u64 (u64 (PriceN p) * u64 (PriceD q)) <? u64 (u64 (PriceN q) * u64 (PriceD p)).
Definition Equal (p q : Price) : bool :=
  u64 (u64 (PriceN p) * u64 (PriceD q)) =? u64 (u64 (PriceN q) * u64 (PriceD p)).
Definition TryEqual (p q : Price) : result price_validation_error bool :=
  match Validate p with
  | Some e => Err e
  | None => match Validate q with Some e => Err e | None => Ok (Equal p q) end
  end.
Definition TryCheaper (p q : Price) : result price_validation_error bool :=
  match Validate p with
  | Some e => Err e
  | None => match Validate q with Some e => Err e | None => Ok (Cheaper p q) end
  end.
Definition Invert (p : Price) : Price := mkPrice (PriceD p) (PriceN p).
Definition TryInvert (p : Price) : result price_validation_error Price :=
  match Validate p with Some e => Err e | None => Ok (Invert p) end.
(** [p.N, p.D = r.Num(), r.Denom()] of [big.NewRat(p.N, p.D)]. *)
Definition TryNormalize (p : Price) : result price_validation_error Price :=
  match Validate p with
  | Some e => Err e
  | None =>
      let r := rat_make (PriceN p) (PriceD p) in
      Ok (mkPrice (i32 (rat_Num r)) (i32 (rat_Denom r)))
  end.

(** ** Offer arithmetic *)
Inductive price_error : Type :=
| ErrDivisionByZero | ErrOverflow | ErrNoNegatives
| ErrInvalidFormat | ErrCannotParse | ErrNoApproximation.

#[export] Instance price_error_eq_dec : EqDecision price_error.
Proof. solve_decision. Defined.

Definition MulFractionRoundDown (x n d : Z) : option (result price_error Z) :=
  if d =? 0 then Some (Err ErrDivisionByZero)
  else if (x <? 0) || (n <? 0) || (d <? 0) then Some (Err ErrNoNegatives)
  else
    let '(hi, lo) := Mul64 (u64 x) (u64 n) in
    let denominator := u64 d in
    if denominator <=? hi then Some (Err ErrOverflow)
    else
      let! (q, _) := Div64 hi lo denominator in
      if MaxInt64 <? q then Some (Err ErrOverflow) else Some (Ok (i64 q)).

Definition mulFractionRoundUp (x n d : Z) : option (result price_error Z) :=
  if d =? 0 then Some (Err ErrDivisionByZero)
  else if (x <? 0) || (n <? 0) || (d <? 0) then Some (Err ErrNoNegatives)
  else
    let '(hi, lo) := Mul64 (u64 x) (u64 n) in
    let '(lo, carry) := Add64 lo (u64 (d - 1)) 0 in
    let hi := u64 (hi + carry) in
    let denominator := u64 d in
    if denominator <=? hi then Some (Err ErrOverflow)
    else
      let! (q, _) := Div64 hi lo denominator in
      if MaxInt64 <? q then Some (Err ErrOverflow) else Some (Ok (i64 q)).

(** Returns (buying units, selling units) taken from the offer. *)
Definition ConvertToBuyingUnits (sellingOfferAmount sellingUnitsNeeded pricen priced : Z) :
    option (result price_error (Z * Z)) :=
  let! bound :=
    (if pricen <=? priced then
       let! r := MulFractionRoundDown sellingOfferAmount pricen priced in
       match r with
       | Err e => Some (Err e)
       | Ok result => mulFractionRoundUp result priced pricen
       end
     else Some (Ok sellingOfferAmount)) in
  match bound with
  | Err e => Some (Err e)
  | Ok result =>
      let sellingUnitsExtracted := Z.min result sellingUnitsNeeded in
      let! r := mulFractionRoundUp sellingUnitsExtracted pricen priced in
      match r with
      | Err e => Some (Err e)
      | Ok result => Some (Ok (result, sellingUnitsExtracted))
      end
  end.

(** ** Parsing a decimal price *)
Definition validAmountSimple (v : bytes) : bool :=
  (1 <=? go_len v) && (go_len v <=? 20) &&
  forallb (fun c => is_digit c || bool_decide (c = dot)) v.

Definition floor (n : Q) : Q := inject_Z (rat_Num n / rat_Denom n).

(** The loop of [continuedFraction]: [f2] and [f1] are the last two entries of
    [fractions].  [None] is a division by zero in [Quo] or fuel exhaustion. *)
Fixpoint continuedFraction_loop (fuel : nat) (number : Q) (f2 f1 : Q * Q) : option (Q * Q) :=
  match fuel with
  | O => None
  | S fuel =>
      match rat_Cmp number (inject_Z MaxInt32) with
      | Gt => Some f1
      | _ =>
          let a := floor number in
          let f := rat_Sub number a in
          let h := rat_Add (rat_Mul a (fst f1)) (fst f2) in
          let k := rat_Add (rat_Mul a (snd f1)) (snd f2) in
          match rat_Cmp h (inject_Z MaxInt32), rat_Cmp k (inject_Z MaxInt32) with
          | Gt, _ | _, Gt => Some f1
          | _, _ =>
              match rat_Cmp f (inject_Z 0) with
              | Eq => Some (h, k)
              | _ =>
                  let! number := rat_Quo (inject_Z 1) f in
                  continuedFraction_loop fuel number f1 (h, k)
              end
          end
      end
  end.

(** Two Euclidean steps halve the denominator. *)
Definition continuedFraction_fuel (number : Q) : nat :=
  (2 * Z.to_nat (Z.log2 (rat_Denom number)) + 2)%nat.

Definition continuedFraction (price : bytes) : option (result price_error Price) :=
  if match price with c :: _ => bool_decide (c = minus_sign) | [] => false end
  then Some (Err ErrNoNegatives)
  else if negb (validAmountSimple price) then Some (Err ErrInvalidFormat)
  else
    match rat_SetString price with
    | None => Some (Err ErrCannotParse)
    | Some number =>
        let zero := inject_Z 0 in
        let one := inject_Z 1 in
        let! (n, d) := continuedFraction_loop (continuedFraction_fuel number) number
                         (zero, one) (one, zero) in
        if (match rat_Cmp n zero with Eq => true | _ => false end) ||
           (match rat_Cmp d zero with Eq => true | _ => false end)
        then Some (Err ErrNoApproximation)
        else Some (Ok (mkPrice (i32 (i64 (rat_Num n))) (i32 (i64 (rat_Num d)))))
    end.

Definition Parse (v : bytes) : option (result price_error Price) := continuedFraction v.
(** Panics on an error. *)
Definition MustParse (v : bytes) : option Price :=
  let! r := Parse v in
  match r with Ok p => Some p | Err _ => None end.

(** ** Price comparison *)
Definition valid_price (p : Price) : Prop :=
  0 < PriceN p <= MaxInt32 /\ 0 < PriceD p <= MaxInt32.

Lemma Validate_None p :
  is_i32 (PriceN p) -> is_i32 (PriceD p) -> (Validate p = None <-> valid_price p).
Proof.
  unfold is_i32, Validate, valid_price; intros HN HD.
  repeat case_bool; split; try done; lia.
Qed.

Lemma Cheaper_valid p q :
  valid_price p -> valid_price q ->
  Cheaper p q = (PriceN p * PriceD q <? PriceN q * PriceD p).
Proof.
  unfold valid_price, Cheaper; intros [? ?] [? ?]. unwrap_ints.
  rewrite !u64_id; [done|unfold is_u64; nia..].
Qed.

Lemma Cheaper_irrefl p : Cheaper p p = false.
Proof. apply Z.ltb_irrefl. Qed.

Lemma Cheaper_trans p q r :
  valid_price p -> valid_price q -> valid_price r ->
  Cheaper p q = true -> Cheaper q r = true -> Cheaper p r = true.
Proof.
  intros Hp Hq Hr. rewrite !Cheaper_valid by done. rewrite !Z.ltb_lt.
  destruct Hp, Hq, Hr. nia.
Qed.

(** Not cheaper is transitive too: [Cheaper] is a strict weak order. *)
Lemma not_Cheaper_trans p q r :
  valid_price p -> valid_price q -> valid_price r ->
  Cheaper p q = false -> Cheaper q r = false -> Cheaper p r = false.
Proof.
  intros Hp Hq Hr. rewrite !Cheaper_valid by done. rewrite !Z.ltb_ge.
  destruct Hp, Hq, Hr. nia.
Qed.

(** ** The multiply-divide steps *)

Lemma Mul64_value x y :
  let '(hi, lo) := Mul64 x y in hi * 18446744073709551616 + lo = x * y.
Proof. unfold Mul64, u64. pose proof (Z.div_mod (x * y) 18446744073709551616). lia. Qed.

(** [Div64] of a 128-bit number held in two words, when it does not panic. *)
Lemma Div64_value hi lo n d :
  0 < d -> hi * 18446744073709551616 + lo = n -> 0 <= lo < 18446744073709551616 ->
  (if d <=? hi then n / d >= 18446744073709551616
   else Div64 hi lo d = Some (n / d, n mod d)).
Proof.
  intros Hd <- Hlo. unfold Div64. destruct (Z.leb_spec d hi).
  - apply Z.le_ge, Z.div_le_lower_bound; nia.
  - rewrite (proj2 (Z.eqb_neq d 0)) by lia. done.
Qed.

(** What both steps do once the product is known: the quotient or overflow. *)
Definition div_result (n d : Z) : result price_error Z :=
  if n / d <=? MaxInt64 then Ok (n / d) else Err ErrOverflow.

Lemma div_tail hi lo n d :
  0 < d -> 0 <= n -> hi * 18446744073709551616 + lo = n -> 0 <= lo < 18446744073709551616 ->
  (if d <=? hi then Some (Err ErrOverflow)
   else
     let! (q, _) := Div64 hi lo d in
     if MaxInt64 <? q then Some (Err ErrOverflow) else Some (Ok (i64 q)))
  = Some (div_result n d).
Proof.
  intros Hd Hn Heq Hlo. pose proof (Div64_value hi lo n d Hd Heq Hlo) as H.
  unfold div_result. destruct (d <=? hi).
  - rewrite (proj2 (Z.leb_gt _ _)) by lia. done.
  - rewrite H. pose proof (Z.div_pos n d ltac:(lia) Hd).
    destruct (Z.ltb_spec MaxInt64 (n / d)), (Z.leb_spec (n / d) MaxInt64); try lia; [done|].
    by unwrap_ints.
Qed.

Definition mul_fraction_guard (x n d : Z) (r : result price_error Z) : result price_error Z :=
  if d =? 0 then Err ErrDivisionByZero
  else if (x <? 0) || (n <? 0) || (d <? 0) then Err ErrNoNegatives
  else r.

Lemma MulFractionRoundDown_eq x n d :
  is_i64 x -> is_i64 n -> is_i64 d ->
  MulFractionRoundDown x n d = Some (mul_fraction_guard x n d (div_result (x * n) d)).
Proof.
  unfold is_i64, MulFractionRoundDown, mul_fraction_guard; intros Hx Hn Hd.
  do 2 (case_bool; [done|]). unwrap_ints. apply div_tail; try nia.
  - unfold u64. pose proof (Z.div_mod (x * n) 18446744073709551616). lia.
  - unfold u64. by apply Z.mod_pos_bound.
Qed.

Lemma mulFractionRoundUp_eq x n d :
  is_i64 x -> is_i64 n -> is_i64 d ->
  mulFractionRoundUp x n d = Some (mul_fraction_guard x n d (div_result (x * n + (d - 1)) d)).
Proof.
  unfold is_i64, mulFractionRoundUp, mul_fraction_guard; intros Hx Hn Hd.
  do 2 (case_bool; [done|]). unwrap_ints. cbn [Mul64 Add64].
  pose proof (Z.div_mod (x * n) 18446744073709551616 ltac:(done)) as Hdm.
  pose proof (Z.mod_pos_bound (x * n) 18446744073709551616 ltac:(done)) as Hmb.
  assert (0 <= x * n / 18446744073709551616 < 9223372036854775808) as Hhi.
  { split; [apply Z.div_pos; nia | apply Z.div_lt_upper_bound; nia]. }
  change (u64 (x * n)) with ((x * n) mod 18446744073709551616).
  rewrite Z.add_0_r. set (lo := (x * n) mod 18446744073709551616) in *.
  set (hi := x * n / 18446744073709551616) in *. unfold u64.
  pose proof (Z.div_mod (lo + (d - 1)) 18446744073709551616 ltac:(done)) as Hdm2.
  pose proof (Z.mod_pos_bound (lo + (d - 1)) 18446744073709551616 ltac:(done)) as Hmb2.
  set (lo2 := (lo + (d - 1)) mod 18446744073709551616) in *.
  set (carry := (lo + (d - 1)) / 18446744073709551616) in *.
  rewrite (Z.mod_small (hi + carry)) by lia.
  apply div_tail; lia.
Qed.

(** ** Offer conversion *)
Definition ceil_div (a b : Z) : Z := (a + (b - 1)) / b.

Lemma ceil_div_spec a b : 0 < b -> a <= ceil_div a b * b < a + b.
Proof.
  intros Hb. unfold ceil_div.
  pose proof (Z.div_mod (a + (b - 1)) b ltac:(lia)).
  pose proof (Z.mod_pos_bound (a + (b - 1)) b Hb). nia.
Qed.

Lemma ceil_div_unique a b q : 0 < b -> a <= q * b < a + b -> ceil_div a b = q.
Proof. intros Hb Hq. pose proof (ceil_div_spec a b Hb). nia. Qed.

Lemma ceil_div_le a b q : 0 < b -> a <= q * b -> ceil_div a b <= q.
Proof. intros Hb Hq. pose proof (ceil_div_spec a b Hb). nia. Qed.

Lemma ceil_div_nonneg a b : 0 < b -> 0 <= a -> 0 <= ceil_div a b.
Proof. intros Hb Ha. unfold ceil_div. apply Z.div_pos; lia. Qed.

Lemma floor_div_spec a b : 0 < b -> a / b * b <= a < a / b * b + b.
Proof.
  intros Hb. pose proof (Z.div_mod a b ltac:(lia)). pose proof (Z.mod_pos_bound a b Hb). nia.
Qed.

(** The units on sale that whole buying units pay for. *)
Definition offer_selling_bound (amount n d : Z) : Z :=
  if n <=? d then ceil_div (amount * n / d * d) n else amount.

Lemma offer_selling_bound_le amount n d :
  0 <= amount -> 0 < n -> 0 < d -> 0 <= offer_selling_bound amount n d <= amount.
Proof.
  intros Ha Hn Hd. unfold offer_selling_bound. case_bool; [|lia].
  pose proof (Z.div_pos (amount * n) d ltac:(nia) Hd).
  pose proof (floor_div_spec (amount * n) d Hd).
  split; [apply ceil_div_nonneg; nia | apply ceil_div_le; nia].
Qed.

Lemma mul_fraction_guard_pos x n d r :
  0 <= x -> 0 <= n -> 0 < d -> mul_fraction_guard x n d r = r.
Proof.
  intros. unfold mul_fraction_guard. rewrite (proj2 (Z.eqb_neq d 0)) by lia.
  rewrite !(proj2 (Z.ltb_ge _ 0)) by lia. done.
Qed.

Lemma div_result_Ok n d : n / d <= MaxInt64 -> div_result n d = Ok (n / d).
Proof. intros H. unfold div_result. by rewrite (proj2 (Z.leb_le _ _)). Qed.

Lemma ConvertToBuyingUnits_eq amount needed n d :
  0 <= amount <= MaxInt64 -> 0 <= needed <= MaxInt64 ->
  0 < n <= MaxInt32 -> 0 < d <= MaxInt32 ->
  let sell := Z.min (offer_selling_bound amount n d) needed in
  let buy := ceil_div (sell * n) d in
  ConvertToBuyingUnits amount needed n d =
    Some (if buy <=? MaxInt64 then Ok (buy, sell) else Err ErrOverflow).
Proof.
  intros Ha Hb Hn Hd sell buy.
  pose proof (offer_selling_bound_le amount n d ltac:(lia) ltac:(lia) ltac:(lia)) as Hbound.
  assert (Hstep : forall (e : option (result price_error Z)),
    e = Some (Ok (offer_selling_bound amount n d)) ->
    (let! bound := e in
     match bound with
     | Err e => Some (Err e)
     | Ok result =>
         let sellingUnitsExtracted := Z.min result needed in
         let! r := mulFractionRoundUp sellingUnitsExtracted n d in
         match r with
         | Err e => Some (Err e)
         | Ok result => Some (Ok (result, sellingUnitsExtracted))
         end
     end) = Some (if buy <=? MaxInt64 then Ok (buy, sell) else Err ErrOverflow)).
  { intros e ->. cbv zeta. fold sell.
    assert (0 <= sell <= MaxInt64) by (unfold sell; lia).
    rewrite mulFractionRoundUp_eq by (unfold is_i64; lia).
    rewrite mul_fraction_guard_pos by lia. unfold div_result. fold (ceil_div (sell * n) d).
    fold buy. by destruct (buy <=? MaxInt64). }
  apply Hstep. unfold offer_selling_bound in *. case_bool; [|done].
  rewrite MulFractionRoundDown_eq by (unfold is_i64; lia).
  rewrite mul_fraction_guard_pos by lia.
  pose proof (floor_div_spec (amount * n) d ltac:(lia)).
  pose proof (Z.div_pos (amount * n) d ltac:(nia) ltac:(lia)).
  rewrite div_result_Ok by nia.
  rewrite mulFractionRoundUp_eq by (unfold is_i64; nia).
  rewrite mul_fraction_guard_pos by lia.
  rewrite div_result_Ok; [done|]. unfold ceil_div in Hbound. lia.
Qed.

(** ** The continued-fraction parser, over the integers

    On a number [p/q] in lowest terms the loop is Euclid's algorithm on
    [(p, q)] together with the convergents [h/k]. *)
Fixpoint convergents (fuel : nat) (p q h2 k2 h1 k1 : Z) : option (Z * Z) :=
  match fuel with
  | O => None
  | S fuel =>
      if MaxInt32 * q <? p then Some (h1, k1)
      else
        let h := p / q * h1 + h2 in
        let k := p / q * k1 + k2 in
        if (MaxInt32 <? h) || (MaxInt32 <? k) then Some (h1, k1)
        else if p mod q =? 0 then Some (h, k)
        else convergents fuel q (p mod q) h1 k1 h k
  end.

Lemma rat_Mul_int a b : rat_Mul (inject_Z a) (inject_Z b) = inject_Z (a * b).
Proof. apply Qred_int. Qed.
Lemma rat_Add_int a b : rat_Add (inject_Z a) (inject_Z b) = inject_Z (a + b).
Proof. unfold rat_Add, Qplus; simpl. rewrite !Z.mul_1_r. apply Qred_int. Qed.
Lemma rat_Num_int a : rat_Num (inject_Z a) = a.
Proof. done. Qed.
Lemma rat_Cmp_int a b : rat_Cmp (inject_Z a) (inject_Z b) = (a ?= b).
Proof. unfold rat_Cmp, Qcompare; simpl. by rewrite !Z.mul_1_r. Qed.

Lemma gcd_mod_1 p q : q <> 0 -> Z.gcd p q = 1 -> Z.gcd (p mod q) q = 1.
Proof. intros Hq H. by rewrite Z.gcd_mod, Z.gcd_comm by done. Qed.

Lemma floor_rat p q : floor (p # q) = inject_Z (p / Zpos q).
Proof. done. Qed.

Lemma rat_Sub_floor p q :
  Z.gcd p (Zpos q) = 1 -> rat_Sub (p # q) (inject_Z (p / Zpos q)) = (p mod Zpos q) # q.
Proof.
  intros H. unfold rat_Sub, Qminus, Qplus, Qopp; simpl. rewrite Pos.mul_1_r.
  replace (p * 1 + - (p / Zpos q) * Zpos q) with (p mod Zpos q).
  - by apply Qred_coprime, gcd_mod_1.
  - pose proof (Z.div_mod p (Zpos q)). lia.
Qed.

Lemma rat_Quo_one r q :
  Z.gcd (Zpos r) (Zpos q) = 1 -> rat_Quo (inject_Z 1) (Zpos r # q) = Some (Zpos q # r).
Proof.
  intros H. unfold rat_Quo, rat_Num. simpl Qnum. cbn [Z.eqb].
  f_equal. unfold Qdiv, Qmult, Qinv; simpl.
  apply Qred_coprime. by rewrite Z.gcd_comm.
Qed.

Definition int_pair (x : Z * Z) : Q * Q := (inject_Z (fst x), inject_Z (snd x)).

Lemma int_pair_fst a b : fst (int_pair (a, b)) = inject_Z a.
Proof. done. Qed.
Lemma int_pair_snd a b : snd (int_pair (a, b)) = inject_Z b.
Proof. done. Qed.

Lemma continuedFraction_loop_convergents fuel p q h2 k2 h1 k1 :
  0 <= p -> Z.gcd p (Zpos q) = 1 ->
  continuedFraction_loop fuel (p # q) (int_pair (h2, k2)) (int_pair (h1, k1)) =
  int_pair <$> convergents fuel p (Zpos q) h2 k2 h1 k1.
Proof.
  revert p q h2 k2 h1 k1; induction fuel as [|fuel IH]; intros p q h2 k2 h1 k1 Hp Hg; [done|].
  cbn [continuedFraction_loop convergents]. rewrite !int_pair_fst, !int_pair_snd.
  rewrite floor_rat, rat_Sub_floor, !rat_Mul_int, !rat_Add_int, !rat_Cmp_int by done.
  unfold rat_Cmp at 1, Qcompare. cbn [Qnum Qden inject_Z]. rewrite Z.mul_1_r.
  rewrite (Z.compare_antisym _ p), (Z.compare_antisym _ (_ * h1 + _)),
    (Z.compare_antisym _ (_ * k1 + _)).
  unfold Z.ltb.
  destruct (MaxInt32 * Zpos q ?= p); cbn [CompOpp]; try done;
  destruct (MaxInt32 ?= p / Zpos q * h1 + h2); cbn [CompOpp orb]; try done;
  destruct (MaxInt32 ?= p / Zpos q * k1 + k2); cbn [CompOpp]; try done.
  all: pose proof (Z.mod_pos_bound p (Zpos q) ltac:(done)) as Hr.
  all: assert (Hg' : Z.gcd (p mod Zpos q) (Zpos q) = 1) by (by apply gcd_mod_1).
  all: destruct (p mod Zpos q) as [|r|r] eqn:Er; [done| |lia].
  all: unfold rat_Cmp, Qcompare; cbn [Qnum Qden inject_Z Z.mul Z.compare Z.eqb].
  all: rewrite rat_Quo_one by done; apply (IH (Zpos q) r h1 k1); [lia|by rewrite Z.gcd_comm].
Qed.

(** Enough fuel: the second component halves every two steps. *)
Lemma convergents_total n p q h2 k2 h1 k1 fuel :
  0 < q -> Z.log2 q <= Z.of_nat n -> (2 * n + 2 <= fuel)%nat ->
  exists r, convergents fuel p q h2 k2 h1 k1 = Some r.
Proof.
  revert p q h2 k2 h1 k1 fuel; induction n as [|n IH]; intros p q h2 k2 h1 k1 fuel Hq Hlog Hfuel.
  all: destruct fuel as [|fuel]; [lia|]; cbn [convergents].
  all: destruct (_ <? p); [by eauto|]; destruct (_ || _); [by eauto|].
  all: destruct (Z.eqb_spec (p mod q) 0) as [|Hr0]; [by eauto|].
  all: pose proof (Z.mod_pos_bound p q Hq) as Hr; set (r := p mod q) in *.
  { assert (q < 2 ^ Z.succ (Z.log2 q)) by (by apply Z.log2_spec).
    assert (Z.log2 q = 0) as E by (pose proof (Z.log2_nonneg q); lia). rewrite E in *. simpl in *. lia. }
  destruct fuel as [|fuel]; [lia|]; cbn [convergents].
  destruct (_ <? q); [by eauto|]; destruct (_ || _); [by eauto|].
  destruct (Z.eqb_spec (q mod r) 0) as [|Hs0]; [by eauto|].
  pose proof (Z.mod_pos_bound q r ltac:(lia)) as Hs.
  apply IH; [lia| |lia].
  assert (2 * (q mod r) <= q).
  { pose proof (Z.div_mod q r ltac:(lia)). assert (1 <= q / r) by (apply Z.div_le_lower_bound; lia). nia. }
  assert (Hl : Z.log2 (2 * (q mod r)) <= Z.log2 q) by (apply Z.log2_le_mono; lia).
  rewrite Z.log2_double in Hl by lia. lia.
Qed.

(** The invariant of the loop on [p0/q0]: the convergents rebuild the number,
    consecutive ones have determinant [1] or [-1], and but for the first step
    the remaining number is above one. *)
Record convergent_inv (p0 q0 p q h2 k2 h1 k1 : Z) : Prop := {
  ci_p : 0 <= p;
  ci_q : 0 < q;
  ci_gcd : Z.gcd p q = 1;
  ci_p0 : p0 = p * h1 + q * h2;
  ci_q0 : q0 = p * k1 + q * k2;
  ci_h2 : 0 <= h2;
  ci_k2 : 0 <= k2;
  ci_h1 : 0 <= h1 <= MaxInt32;
  ci_k1 : 0 <= k1 <= MaxInt32;
  ci_det : Z.abs (h1 * k2 - h2 * k1) = 1;
  ci_first : (h2 = 0 /\ k2 = 1 /\ h1 = 1 /\ k1 = 0) \/ (1 <= k1 /\ q < p)
}.

(** What the loop promises about the fraction [n/d] it returns for [p0/q0]. *)
Record approximates (p0 q0 n d : Z) : Prop := {
  ap_n : 0 <= n <= MaxInt32;
  ap_d : 0 <= d <= MaxInt32;
  ap_coprime : Z.gcd n d = 1;
  ap_close : d <> 0 -> Z.abs (p0 * d - q0 * n) * d < q0;
  ap_exact : p0 <= MaxInt32 -> q0 <= MaxInt32 -> n = p0 /\ d = q0;
  ap_small : n = 0 -> p0 * MaxInt32 < q0;
  ap_large : d = 0 -> MaxInt32 * q0 < p0
}.

Lemma gcd_of_det a b c d : Z.abs (a * c - d * b) = 1 -> Z.gcd a b = 1.
Proof.
  intros H. apply Z.divide_1_r_nonneg; [apply Z.gcd_nonneg|]. rewrite <- H.
  apply Z.divide_abs_r, Z.divide_sub_r.
  - apply Z.divide_mul_l, Z.gcd_divide_l.
  - apply Z.divide_mul_r, Z.gcd_divide_r.
Qed.

Lemma convergent_break p0 q0 p q h2 k2 h1 k1 :
  0 < q0 -> convergent_inv p0 q0 p q h2 k2 h1 k1 ->
  MaxInt32 * q < p \/ MaxInt32 < p / q * h1 + h2 \/ MaxInt32 < p / q * k1 + k2 ->
  approximates p0 q0 h1 k1.
Proof.
  intros Hq0 I Hbreak. destruct I as [Hp Hq Hg Hp0 Hq0' Hh2 Hk2 Hh1 Hk1 Hdet Hfirst].
  pose proof (floor_div_spec p q Hq) as Hdiv. set (a := p / q) in *.
  assert (Hpow : MaxInt32 * q < p * h1 + q * h2 \/ MaxInt32 * q < p * k1 + q * k2).
  { destruct Hbreak as [Hb|[Hb|Hb]]; [|left; nia|right; nia].
    destruct Hfirst as [(->&->&->&->)|[Hk _]]; [left; lia|right; nia]. }
  constructor; try done.
  - by apply gcd_of_det with k2 h2.
  - intros Hk. destruct Hfirst as [(->&->&->&->)|[Hk' Hqp]]; [done|].
    assert (E : Z.abs (p0 * k1 - q0 * h1) = q).
    { replace (p0 * k1 - q0 * h1) with (- (q * (h1 * k2 - h2 * k1))) by (subst; ring).
      rewrite Z.abs_opp, Z.abs_mul, Hdet, Z.abs_eq; lia. }
    rewrite E. subst q0. nia.
  - intros. exfalso. subst. nia.
  - intros ->. assert (h2 = 1 /\ k1 = 1) as [-> ->] by nia. subst p0 q0.
    destruct Hbreak as [Hb|[Hb|Hb]]; nia.
  - intros ->. destruct Hfirst as [(->&->&->&_)|[? _]]; [|lia]. nia.
Qed.

Lemma convergents_spec fuel p0 q0 p q h2 k2 h1 k1 n d :
  0 < q0 -> convergent_inv p0 q0 p q h2 k2 h1 k1 ->
  convergents fuel p q h2 k2 h1 k1 = Some (n, d) -> approximates p0 q0 n d.
Proof.
  intros Hq0. revert p q h2 k2 h1 k1.
  induction fuel as [|fuel IH]; intros p q h2 k2 h1 k1 I; [done|]. cbn [convergents].
  pose proof (convergent_break _ _ _ _ _ _ _ _ Hq0 I) as Hbreak.
  destruct (Z.ltb_spec (MaxInt32 * q) p); [intros [= <- <-]; by auto|].
  destruct (Z.ltb_spec MaxInt32 (p / q * h1 + h2)); [intros [= <- <-]; by auto|].
  destruct (Z.ltb_spec MaxInt32 (p / q * k1 + k2)); [intros [= <- <-]; by auto|].
  clear Hbreak. cbn [orb]. destruct I as [Hp Hq Hg Hp0 Hq0' Hh2 Hk2 Hh1 Hk1 Hdet Hfirst].
  pose proof (Z.div_mod p q ltac:(lia)) as Hdm. pose proof (Z.mod_pos_bound p q Hq) as Hr.
  assert (Ha : 0 <= p / q) by (apply Z.div_pos; lia).
  pose proof (gcd_mod_1 p q ltac:(lia) Hg) as Hg'.
  set (a := p / q) in *. set (r := p mod q) in *.
  assert (Hdet' : Z.abs ((a * h1 + h2) * k1 - h1 * (a * k1 + k2)) = 1).
  { rewrite <- Hdet, <- Z.abs_opp. f_equal. ring. }
  destruct (Z.eqb_spec r 0) as [E|E].
  - intros [= <- <-]. rewrite E, Z.gcd_0_l, Z.abs_eq in Hg' by lia.
    assert (p0 = a * h1 + h2 /\ q0 = a * k1 + k2) as [-> ->] by nia.
    constructor; try lia.
    by apply gcd_of_det with k1 h1.
  - apply IH. constructor; try lia; try nia. by rewrite Z.gcd_comm.
Qed.

Lemma scan_mantissa_nonneg l seen m count frac m' count' frac' :
  0 <= m -> scan_mantissa l seen m count frac = Some (m', count', frac') -> 0 <= m'.
Proof.
  revert seen m count frac; induction l as [|c l IH]; intros seen m count frac Hm; simpl.
  { congruence. }
  destruct (bool_decide (c = dot)); [destruct seen; [done|by apply IH]|].
  destruct (digit_val c) as [x|] eqn:E; [|done]. apply digit_val_Some in E.
  apply IH. lia.
Qed.

Lemma Qred_Num_nonneg n d : 0 <= n -> 0 <= rat_Num (rat_make n d).
Proof.
  intros Hn. unfold rat_Num, rat_make, Qred.
  pose proof (Z.ggcd_gcd n (Zpos (Z.to_pos d))) as Hg.
  pose proof (Z.ggcd_correct_divisors n (Zpos (Z.to_pos d))) as Hd.
  destruct (Z.ggcd n (Zpos (Z.to_pos d))) as [g [r1 r2]]; simpl in *. subst g.
  pose proof (Z.gcd_nonneg n (Zpos (Z.to_pos d))) as Hg.
  set (g := Z.gcd n (Zpos (Z.to_pos d))) in *. destruct Hd as [Hd1 Hd2].
  destruct (Z.eq_dec g 0) as [E|E]; [rewrite E in Hd2; lia|]. clearbody g. nia.
Qed.

Lemma validAmountSimple_head c s :
  validAmountSimple (c :: s) = true -> c <> minus_sign /\ c <> plus_sign.
Proof.
  unfold validAmountSimple. intros [_ Hall]%andb_true_iff.
  simpl in Hall. apply andb_true_iff in Hall as [Hc _].
  split; intros ->; vm_compute in Hc; done.
Qed.

(** The value of an unsigned decimal is a reduced non-negative rational. *)
Lemma rat_SetString_unsigned s v :
  validAmountSimple s = true -> rat_SetString s = Some v ->
  0 <= rat_Num v /\ Z.gcd (rat_Num v) (rat_Denom v) = 1.
Proof.
  intros Hv Hs. unfold rat_SetString in Hs. destruct s as [|c s]; [done|].
  apply validAmountSimple_head in Hv as Hc.
  rewrite !bool_decide_eq_false_2 in Hs by apply Hc.
  destruct (scan_mantissa (c :: s) false 0 0 0) as [[[m [|cnt]] fr]|] eqn:E; try done.
  injection Hs as <-. split; [|apply rat_make_reduced].
  apply Qred_Num_nonneg. by eapply scan_mantissa_nonneg in E.
Qed.

(** The loop run on a parsed number. *)
Lemma continuedFraction_loop_approximates v :
  0 <= rat_Num v -> Z.gcd (rat_Num v) (rat_Denom v) = 1 ->
  exists n d,
    continuedFraction_loop (continuedFraction_fuel v) v
      (inject_Z 0, inject_Z 1) (inject_Z 1, inject_Z 0) = Some (inject_Z n, inject_Z d) /\
    approximates (rat_Num v) (rat_Denom v) n d.
Proof.
  destruct v as [p q]. unfold rat_Num, rat_Denom, continuedFraction_fuel; simpl Qnum; simpl Qden.
  intros Hp Hg. change (rat_Denom (p # q)) with (Zpos q).
  pose proof (Z.log2_nonneg (Zpos q)).
  destruct (convergents_total (Z.to_nat (Z.log2 (Zpos q))) p (Zpos q) 0 1 1 0
              (2 * Z.to_nat (Z.log2 (Zpos q)) + 2)) as [[n d] Hc]; [lia|lia|lia|].
  exists n, d. split.
  - pose proof (continuedFraction_loop_convergents (2 * Z.to_nat (Z.log2 (Zpos q)) + 2)
                  p q 0 1 1 0 Hp Hg) as E.
    rewrite Hc in E. exact E.
  - assert (I : convergent_inv p (Zpos q) p (Zpos q) 0 1 1 0).
    { constructor; try lia. }
    exact (convergents_spec _ p (Zpos q) _ _ _ _ _ _ n d eq_refl I Hc).
Qed.

(** ** Properties *)

(** MulFractionRoundDown never panics: on every 64-bit input it returns the
    exact floor of [x * n / d], the overflow error exactly when that floor does
    not fit an int64, the division error on a zero divisor and the sign error
    on a negative argument. *)
Theorem MulFractionRoundDown_correct x n d :
  is_i64 x -> is_i64 n -> is_i64 d ->
  MulFractionRoundDown x n d = Some
    (if d =? 0 then Err ErrDivisionByZero
     else if (x <? 0) || (n <? 0) || (d <? 0) then Err ErrNoNegatives
     else if x * n / d <=? MaxInt64 then Ok (x * n / d) else Err ErrOverflow).
Proof. apply MulFractionRoundDown_eq. Qed.

(** On a well-formed offer ConvertToBuyingUnits never panics.  It takes
    the smaller of what is needed and of the units whole buying units pay for,
    charges the exact ceiling of their price, reports overflow exactly when that
    ceiling is not an int64, never takes more than the offer holds and never
    charges the taker less than the price, nor a whole unit more. *)
Theorem ConvertToBuyingUnits_correct amount needed n d :
  0 <= amount <= MaxInt64 -> 0 <= needed <= MaxInt64 ->
  0 < n <= MaxInt32 -> 0 < d <= MaxInt32 ->
  exists sell buy,
    ConvertToBuyingUnits amount needed n d =
      Some (if buy <=? MaxInt64 then Ok (buy, sell) else Err ErrOverflow) /\
    sell = Z.min (offer_selling_bound amount n d) needed /\
    0 <= sell <= amount /\ sell * n <= buy * d < sell * n + d.
Proof.
  intros Ha Hb Hn Hd. eexists _, _. split; [by apply ConvertToBuyingUnits_eq|].
  pose proof (offer_selling_bound_le amount n d ltac:(lia) ltac:(lia) ltac:(lia)).
  split; [done|]. split; [lia|]. apply ceil_div_spec. lia.
Qed.

(** C39: the price parser always returns on a decimal literal.  A price it
    returns has both parts in [1, MaxInt32], is in lowest terms, differs from
    the literal by less than one over its squared denominator, and is the
    literal itself whenever the literal's own numerator and denominator fit
    (so it inverts printing of such prices).  It fails only below
    [1 / MaxInt32] or above [MaxInt32]. *)
Theorem Parse_best_convergent s v :
  validAmountSimple s = true -> rat_SetString s = Some v ->
  exists r, Parse s = Some r /\
  match r with
  | Ok p =>
      valid_price p /\ Z.gcd (PriceN p) (PriceD p) = 1 /\
      Z.abs (rat_Num v * PriceD p - rat_Denom v * PriceN p) * PriceD p < rat_Denom v /\
      (rat_Num v <= MaxInt32 -> rat_Denom v <= MaxInt32 ->
       PriceN p = rat_Num v /\ PriceD p = rat_Denom v)
  | Err e =>
      e = ErrNoApproximation /\
      (rat_Num v * MaxInt32 < rat_Denom v \/ MaxInt32 * rat_Denom v < rat_Num v)
  end.
Proof.
  intros Hs Hv. destruct (rat_SetString_unsigned s v Hs Hv) as [Hn Hg].
  destruct (continuedFraction_loop_approximates v Hn Hg) as (n & d & Hloop & A).
  assert (Hm : match s with c :: _ => bool_decide (c = minus_sign) | [] => false end = false).
  { destruct s as [|c s]; [done|]. by apply bool_decide_eq_false_2, (validAmountSimple_head c s). }
  unfold Parse, continuedFraction. rewrite Hm, Hs, Hv. simpl. rewrite Hloop, !rat_Cmp_int.
  destruct A as [An Ad Ac Aclose Aex Asm Ala].
  destruct (Z.compare_spec n 0) as [->| |]; [|lia|].
  { eexists; split; [done|]. split; [done|]. left. by apply Asm. }
  destruct (Z.compare_spec d 0) as [->| |]; [|lia|].
  { eexists; split; [done|]. split; [done|]. right. by apply Ala. }
  eexists; split; [done|]. rewrite !rat_Num_int. unwrap_ints.
  unfold valid_price; cbn [PriceN PriceD].
  repeat split; try done; try lia; apply Aclose || apply Aex; done || lia.
Qed.

Lemma Parse_best_convergent_witness :
  exists r, Parse (str "3.14159265") = Some r /\ r = Ok (mkPrice 62831853 20000000).
Proof.
  destruct (Parse_best_convergent (str "3.14159265") (rat_make 314159265 100000000))
    as (r & Hr & H); [vm_compute; reflexivity..|].
  exists r. split; [exact Hr|]. vm_compute in Hr. congruence.
Defined.
