(* ===== verification/Toid.v ===== *)
(** * Total-order ids

    src/toid/main.go (SEP-35 ids: ledger, transaction and operation packed in
    an int64) and src/toid/synt_offer_id.go (synthetic offer ids). *)
From Stdlib Require Import ZArith Lia.
From stdpp Require Import base list option.
From S2P Require Import Prelude GoStd Decimal.
#[local] Open Scope Z_scope.
#[local] Open Scope go_scope.

Record ID : Type := mkID {
  LedgerSequence : Z;
  TransactionOrder : Z;
  OperationOrder : Z
}.

Definition LedgerMask : Z := Z.shiftl 1 32 - 1.
Definition TransactionMask : Z := Z.shiftl 1 20 - 1.
Definition OperationMask : Z := Z.shiftl 1 12 - 1.
Definition LedgerShift : Z := 32.
Definition TransactionShift : Z := 12.
Definition OperationShift : Z := 0.

Definition New (ledger tx op : Z) : ID := mkID ledger tx op.

Definition AfterLedger (seq : Z) : ID := New seq TransactionMask OperationMask.

(** Panics on a negative ledger and on an order that overflows its field. *)
Definition ToInt64 (id : ID) : option Z :=
  if LedgerSequence id <? 0 then None
  else if TransactionMask <? TransactionOrder id then None
  else if OperationMask <? OperationOrder id then None
  else
    let result := 0 in
    let result := Z.lor result
      (i64 (Z.shiftl (Z.land (LedgerSequence id) LedgerMask) LedgerShift)) in
    let result := Z.lor result
      (i64 (Z.shiftl (Z.land (TransactionOrder id) TransactionMask) TransactionShift)) in
    let result := Z.lor result
      (i64 (Z.shiftl (Z.land (OperationOrder id) OperationMask) OperationShift)) in
    Some result.

Definition Parse (id : Z) : ID :=
  mkID (i32 (Z.land (Z.shiftr id LedgerShift) LedgerMask))
       (i32 (Z.land (Z.shiftr id TransactionShift) TransactionMask))
       (i32 (Z.land (Z.shiftr id OperationShift) OperationMask)).

(** [id.String()]. *)
Definition ID_String (id : ID) : option bytes :=
  let! v := ToInt64 id in Some (FormatInt v).

Definition IncOperationOrder (id : ID) : ID :=
  let op := i32 (OperationOrder id + 1) in
  if OperationMask <? op then
    mkID (i32 (LedgerSequence id + 1)) (TransactionOrder id) 0
  else mkID (LedgerSequence id) (TransactionOrder id) op.

Inductive range_error : Type := FromAfterTo | NotPositive.

Definition LedgerRangeInclusive (from to : Z) : option (result range_error (Z * Z)) :=
  if to <? from then Some (Err FromAfterTo)
  else if (from <=? 0) || (to <=? 0) then Some (Err NotPositive)
  else
    let! toidFrom := (if from =? 1 then Some 0 else ToInt64 (New from 0 0)) in
    let! toidTo := ToInt64 (New (i32 (to + 1)) 0 0) in
    Some (Ok (toidFrom, toidTo)).

(** ** Synthetic offer ids *)
Definition CoreOfferIDType : Z := 0.
Definition TOIDType : Z := 1.
Definition mask : Z := 13835058055282163712. (* 0xC000000000000000 *)

Definition EncodeOfferId (id typ : Z) : option Z :=
  if negb (Z.land id mask =? 0) then None
  else Some (i64 (Z.lor id (u64 (Z.shiftl typ 62)))).

Definition DecodeOfferID (encodedId : Z) : option (Z * Z) :=
  if encodedId <? 0 then None
  else Some (Z.shiftr (u64 (i64 (Z.shiftl encodedId 2))) 2, u64 (Z.shiftr encodedId 62)).

(** ** Packing as arithmetic *)

(** An id whose fields fit: what [ToInt64] accepts without masking anything
    away. *)
Definition well_formed (id : ID) : Prop :=
  0 <= LedgerSequence id <= MaxInt32 /\
  0 <= TransactionOrder id <= 1048575 /\
  0 <= OperationOrder id <= 4095.

#[export] Instance well_formed_dec id : Decision (well_formed id).
Proof. unfold well_formed. apply _. Defined.

(** The lexicographic order of ledger, transaction, operation. *)
Definition id_lt (a b : ID) : Prop :=
  LedgerSequence a < LedgerSequence b \/
  (LedgerSequence a = LedgerSequence b /\
   (TransactionOrder a < TransactionOrder b \/
    (TransactionOrder a = TransactionOrder b /\ OperationOrder a < OperationOrder b))).

Definition pack (id : ID) : Z :=
  LedgerSequence id * 4294967296 + TransactionOrder id * 4096 + OperationOrder id.

Lemma LedgerMask_mod z : Z.land z LedgerMask = z mod 4294967296.
Proof. apply (Z.land_ones z 32). lia. Qed.
Lemma TransactionMask_mod z : Z.land z TransactionMask = z mod 1048576.
Proof. apply (Z.land_ones z 20). lia. Qed.
Lemma OperationMask_mod z : Z.land z OperationMask = z mod 4096.
Proof. apply (Z.land_ones z 12). lia. Qed.
Create Rewrite HintDb ints.
#[export] Hint Rewrite LedgerMask_mod TransactionMask_mod OperationMask_mod : ints.

Lemma pack_range id : well_formed id -> 0 <= pack id <= MaxInt64.
Proof. unfold well_formed, pack. lia. Qed.

Lemma ToInt64_pack id : well_formed id -> ToInt64 id = Some (pack id).
Proof.
  destruct id as [l t o]. unfold well_formed, pack; simpl. intros (Hl & Ht & Ho).
  unfold ToInt64; cbn [LedgerSequence TransactionOrder OperationOrder].
  rewrite !(proj2 (Z.ltb_ge _ _)) by (change TransactionMask with 1048575;
    change OperationMask with 4095; lia).
  autorewrite with ints. rewrite !Z.mod_small by lia.
  unfold LedgerShift, TransactionShift, OperationShift. rewrite !Z.shiftl_mul_pow2 by lia.
  change (2 ^ 32) with 4294967296. change (2 ^ 12) with 4096. change (2 ^ 0) with 1.
  unwrap_ints. rewrite Z.lor_0_l, Z.mul_1_r. f_equal.
  rewrite <- Z.lor_assoc, (lor_disjoint t o 12), (lor_disjoint l _ 32) by lia. lia.
Qed.

Lemma Parse_fields v :
  is_i64 v ->
  Parse v = mkID (i32 (v / 4294967296)) (v / 4096 mod 1048576) (v mod 4096).
Proof.
  intros Hv. unfold Parse. autorewrite with ints.
  unfold LedgerShift, TransactionShift, OperationShift. rewrite !Z.shiftr_div_pow2 by lia.
  change (2 ^ 32) with 4294967296. change (2 ^ 12) with 4096. change (2 ^ 0) with 1.
  rewrite Z.div_1_r.
  pose proof (Z.mod_pos_bound (v / 4096) 1048576 ltac:(lia)).
  pose proof (Z.mod_pos_bound v 4096 ltac:(lia)).
  f_equal; [|by rewrite i32_id by (unfold is_i32; lia)..].
  unfold i32. f_equal. by rewrite Zplus_mod_idemp_l.
Qed.

Lemma Parse_pack id : well_formed id -> Parse (pack id) = id.
Proof.
  intros Hwf. pose proof (pack_range id Hwf). rewrite Parse_fields by (unfold is_i64; lia).
  destruct id as [l t o]. unfold well_formed, pack in *; simpl in *. destruct Hwf as (Hl & Ht & Ho).
  assert ((l * 4294967296 + t * 4096 + o) / 4294967296 = l) as ->.
  { symmetry. apply (Z.div_unique _ _ _ (t * 4096 + o)); lia. }
  assert ((l * 4294967296 + t * 4096 + o) / 4096 = l * 1048576 + t) as ->.
  { symmetry. apply (Z.div_unique _ _ _ o); lia. }
  assert ((l * 1048576 + t) mod 1048576 = t) as ->.
  { symmetry. apply (Z.mod_unique _ _ l); lia. }
  assert ((l * 4294967296 + t * 4096 + o) mod 4096 = o) as ->.
  { symmetry. apply (Z.mod_unique _ _ (l * 1048576 + t)); lia. }
  by unwrap_ints.
Qed.

Lemma pack_lt a b : well_formed a -> well_formed b -> (pack a < pack b <-> id_lt a b).
Proof. unfold well_formed, pack, id_lt. lia. Qed.

Lemma Parse_well_formed v : 0 <= v <= MaxInt64 -> well_formed (Parse v) /\ pack (Parse v) = v.
Proof.
  intros Hv. rewrite Parse_fields by (unfold is_i64; lia).
  pose proof (Z.div_mod v 4294967296 ltac:(lia)).
  pose proof (Z.mod_pos_bound v 4294967296 ltac:(lia)).
  pose proof (Z.div_mod v 4096 ltac:(lia)). pose proof (Z.mod_pos_bound v 4096 ltac:(lia)).
  pose proof (Z.div_mod (v / 4096) 1048576 ltac:(lia)) as Hdm.
  pose proof (Z.mod_pos_bound (v / 4096) 1048576 ltac:(lia)).
  rewrite Z.div_div in Hdm by lia. change (4096 * 1048576) with 4294967296 in Hdm.
  unwrap_ints. unfold well_formed, pack;
    cbn [LedgerSequence TransactionOrder OperationOrder]. lia.
Qed.

Lemma EncodeOfferId_value id typ :
  0 <= id < 4611686018427387904 -> 0 <= typ <= 1 ->
  EncodeOfferId id typ = Some (typ * 4611686018427387904 + id).
Proof.
  intros Hid Htyp. unfold EncodeOfferId.
  assert (Z.land id mask = 0) as ->.
  { apply Z.bits_inj'; intros i Hi. rewrite Z.land_spec, Z.bits_0.
    destruct (Z.lt_ge_cases i 62).
    - change mask with (3 * 2 ^ 62). rewrite Z.mul_pow2_bits_low by done. apply andb_false_r.
    - rewrite <- (Z.mod_small id (2 ^ 62)) by done. by rewrite Z.mod_pow2_bits_high by lia. }
  cbn [Z.eqb negb]. rewrite Z.shiftl_mul_pow2, Z.lor_comm by lia.
  change (2 ^ 62) with 4611686018427387904. unwrap_ints.
  rewrite (lor_disjoint typ id 62) by lia. by unwrap_ints.
Qed.

Lemma DecodeOfferID_value v :
  0 <= v <= MaxInt64 ->
  DecodeOfferID v = Some (v mod 4611686018427387904, v / 4611686018427387904).
Proof.
  intros Hv. unfold DecodeOfferID. rewrite (proj2 (Z.ltb_ge _ _)) by lia.
  rewrite Z.shiftl_mul_pow2, !Z.shiftr_div_pow2 by lia.
  change (2 ^ 62) with 4611686018427387904. change (2 ^ 2) with 4.
  assert (u64 (i64 (v * 4)) = (v mod 4611686018427387904) * 4) as ->.
  { unfold u64, i64. rewrite Zminus_mod_idemp_l.
    replace (v * 4 + 9223372036854775808 - 9223372036854775808) with (v * 4) by ring.
    change 18446744073709551616 with (4611686018427387904 * 4).
    apply Z.mul_mod_distr_r; lia. }
  rewrite Z.div_mul by done. f_equal. f_equal. apply u64_id. unfold is_u64.
  split; [apply Z.div_pos; lia | apply Z.div_le_upper_bound; lia].
Qed.

(** ** Properties *)

(** ToInt64 and Parse are inverse order isomorphisms between the ids whose
    fields fit and the non-negative int64 values: no such id panics, packing
    then parsing gives the id back, every non-negative int64 is the packing of
    what it parses to, and the numeric order of packed ids is the lexicographic
    order of ledger, transaction and operation. *)
Theorem ToInt64_Parse_isomorphism a b v :
  well_formed a -> well_formed b -> 0 <= v <= MaxInt64 ->
  exists va vb,
    ToInt64 a = Some va /\ ToInt64 b = Some vb /\ 0 <= va <= MaxInt64 /\
    Parse va = a /\ (va < vb <-> id_lt a b) /\
    well_formed (Parse v) /\ ToInt64 (Parse v) = Some v.
Proof.
  intros Ha Hb Hv. destruct (Parse_well_formed v Hv) as [Hw Hp].
  exists (pack a), (pack b). rewrite !ToInt64_pack, Hp, Parse_pack by done.
  pose proof (pack_range a Ha). pose proof (pack_lt a b Ha Hb). tauto.
Qed.

(** LedgerRangeInclusive on positive ordered ledgers below MaxInt32
    returns a half-open interval that holds exactly the packed ids of the
    ledgers in the range; from ledger 1 it also takes in ledger 0. The last
    ledger number has no successor: a range up to it panics. *)
Theorem LedgerRangeInclusive_exact from to :
  1 <= from <= to -> to <= MaxInt32 ->
  (to < MaxInt32 -> exists lo hi,
    LedgerRangeInclusive from to = Some (Ok (lo, hi)) /\
    forall id v, well_formed id -> ToInt64 id = Some v ->
      (lo <= v < hi <-> (from <= LedgerSequence id \/ from = 1) /\ LedgerSequence id <= to)) /\
  (to = MaxInt32 -> LedgerRangeInclusive from to = None).
Proof.
  intros Hft Hto. unfold LedgerRangeInclusive.
  rewrite (proj2 (Z.ltb_ge _ _)), !(proj2 (Z.leb_gt _ _)) by lia. cbn [orb].
  assert (Hnew : forall l, 0 <= l <= MaxInt32 -> ToInt64 (New l 0 0) = Some (l * 4294967296)).
  { intros l Hl. rewrite ToInt64_pack by (unfold well_formed; simpl; lia).
    unfold pack; simpl. f_equal. lia. }
  split; [|intros ->; destruct (from =? 1); [done|]; by rewrite Hnew by lia].
  intros Hlt. unwrap_ints. rewrite (Hnew (to + 1)) by lia.
  exists (if from =? 1 then 0 else from * 4294967296), ((to + 1) * 4294967296). split.
  - destruct (from =? 1); [done|]. by rewrite Hnew by lia.
  - intros id v Hw. rewrite ToInt64_pack by done. intros [= <-].
    unfold well_formed, pack in *. destruct (Z.eqb_spec from 1); lia.
Qed.

(** EncodeOfferId and DecodeOfferID are inverse on core offer ids and
    operation ids below 2^62: the encoding is a non-negative int64 from which
    both the id and its type are recovered, so ids of the two types never
    collide; ids with one of the two top bits set panic instead. *)
Theorem EncodeOfferId_roundtrip id typ :
  is_u64 id -> typ = CoreOfferIDType \/ typ = TOIDType ->
  match EncodeOfferId id typ with
  | Some v => 0 <= v <= MaxInt64 /\ DecodeOfferID v = Some (id, typ) /\ id < 4611686018427387904
  | None => 4611686018427387904 <= id
  end.
Proof.
  unfold is_u64, CoreOfferIDType, TOIDType. intros Hid Ht.
  destruct (Z.lt_ge_cases id 4611686018427387904) as [Hlt|Hge].
  - rewrite EncodeOfferId_value by lia. split; [lia|]. split; [|done].
    rewrite DecodeOfferID_value by lia.
    rewrite Z.add_comm, Z.mod_add, Z.mod_small, Z.div_add, Z.div_small by lia. done.
  - unfold EncodeOfferId. destruct (Z.eqb_spec (Z.land id mask) 0) as [E|]; [|done].
    exfalso. assert (Hb : forall k, k = 62 \/ k = 63 -> Z.testbit id k = false).
    { intros k Hk. assert (Z.testbit (Z.land id mask) k = false) as H by (by rewrite E, Z.bits_0).
      rewrite Z.land_spec in H. destruct Hk as [-> | ->]; by rewrite andb_true_r in H. }
    assert (Hlow : id mod 2 ^ 62 = id).
    { apply Z.bits_inj'; intros i Hi. destruct (Z.lt_ge_cases i 62).
      - by rewrite Z.mod_pow2_bits_low.
      - rewrite Z.mod_pow2_bits_high by lia.
        destruct (Z.lt_ge_cases i 64); [symmetry; apply Hb; lia|].
        rewrite <- (Z.mod_small id (2 ^ 64)) by (split; [lia|apply Z.le_lt_trans with MaxUint64; [lia|done]]).
        by rewrite Z.mod_pow2_bits_high by lia. }
    pose proof (Z.mod_pos_bound id (2 ^ 62) ltac:(lia)). lia.
Qed.

(** ** Event cursors

    src/protocols/rpc/cursor.go: the position of an event as ledger, transaction,
    operation and event numbers, its text form (the packed id of src/toid/main.go
    and the event number, zero padded) and the comparison. [None] is a panic. *)
Definition numCursorParts : nat := 2.

Record Cursor : Type := mkCursor { Ledger : Z; Tx : Z; Op : Z; Event : Z }.

(** The fields are uint32. *)
Definition is_cursor (c : Cursor) : Prop :=
  0 <= Ledger c <= MaxUint32 /\ 0 <= Tx c <= MaxUint32 /\ 0 <= Op c <= MaxUint32 /\ 0 <= Event c <= MaxUint32.

(** [fmt]'s [%0<w>d]: the sign counts in the width and precedes the zeros. *)
Definition fmt_0d (w : nat) (z : Z) : bytes :=
  if z <? 0 then minus_sign :: pad_zeros (w - 1) (FormatUint (- z)) else pad_zeros w (FormatUint z).

Definition Cursor_String (c : Cursor) : option bytes :=
  let! id := ToInt64 (New (i32 (Ledger c)) (i32 (Tx c)) (i32 (Op c))) in
  Some (fmt_0d 19 id ++ [minus_sign] ++ fmt_0d 10 (Event c)).

(** [strings.SplitN(s, sep, n)] for a one-byte separator and a positive [n]: at
    most [n] parts, the last one unsplit. *)
Fixpoint SplitN (sep : byte) (n : nat) (s : bytes) : list bytes :=
  match s with
  | [] => [[]]
  | c :: s =>
      match n with
      | S (S m) =>
          if bool_decide (c = sep) then [] :: SplitN sep (S m) s
          else match SplitN sep n s with
               | part :: parts => (c :: part) :: parts
               | [] => [[c]]
               end
      | _ => [c :: s]
      end
  end.

Inductive cursor_error : Type :=
| ErrEventId
| ErrEventToid (e : num_error)
| ErrEventOrder (e : num_error).

Definition ParseCursor (input : bytes) : result cursor_error Cursor :=
  match SplitN minus_sign numCursorParts input with
  | [part0; part1] =>
      match ParseInt part0 64 with
      | Err e => Err (ErrEventToid e)
      | Ok idInt =>
          let parsed := Parse idInt in
          match ParseUint part1 32 with
          | Err e => Err (ErrEventOrder e)
          | Ok eventOrder =>
              Ok (mkCursor (u32 (LedgerSequence parsed)) (u32 (TransactionOrder parsed))
                   (u32 (OperationOrder parsed)) (u32 eventOrder))
          end
      end
  | _ => Err ErrEventId
  end.

Definition cmp (a b : Z) : Z := if a <? b then -1 else if b <? a then 1 else 0.

Definition Cmp (c other : Cursor) : Z :=
  if Ledger c =? Ledger other then
    if Tx c =? Tx other then
      if Op c =? Op other then cmp (Event c) (Event other)
      else cmp (Op c) (Op other)
    else cmp (Tx c) (Tx other)
  else cmp (Ledger c) (Ledger other).

Definition MinCursor : Cursor := mkCursor 0 0 0 0.
Definition MaxCursor : Cursor := mkCursor MaxInt32 TransactionMask OperationMask MaxUint32.

(** ** The text form *)

Lemma SplitN_2 (sep : byte) a b : Forall (fun c => c <> sep) a -> SplitN sep 2 (a ++ sep :: b) = [a; b].
Proof.
  induction 1 as [|c a Hc _ IH]; simpl.
  - rewrite bool_decide_eq_true_2 by done. by destruct b.
  - by rewrite bool_decide_eq_false_2, IH by done.
Qed.

Lemma SplitN_2_inv (sep : byte) s a b :
  SplitN sep 2 s = [a; b] -> s = a ++ sep :: b /\ Forall (fun c => c <> sep) a.
Proof.
  revert a; induction s as [|c s IH]; intros a; cbn [SplitN]; [done|].
  destruct (bool_decide_reflect (c = sep)) as [->|Hc].
  - intros [= <- H]. assert (s = b) as ->; [|done].
    destruct s; cbn [SplitN] in H; by injection H.
  - destruct (SplitN sep 2 s) as [|p ps] eqn:E; [done|].
    intros [= <- ->]. destruct (IH p eq_refl) as [-> Hp]. split; [done|by constructor].
Qed.

(** The id a cursor is printed as, and the cursor it stands for. *)
Definition id_of (c : Cursor) : ID := mkID (Ledger c) (Tx c mod 1048576) (Op c mod 4096).

(** The cursors that print: the ledger and the orders, read as int32, do not
    exceed their fields. Orders from 2^31 on are negative and pass. *)
Definition prints (c : Cursor) : bool :=
  (Ledger c <=? MaxInt32) && ((Tx c <? 1048576) || (MaxInt32 <? Tx c)) && ((Op c <? 4096) || (MaxInt32 <? Op c)).

(** The text of an id that fits and an event number. *)
Definition cursor_text (id : ID) (event : Z) : bytes :=
  pad_zeros 19 (FormatUint (pack id)) ++ minus_sign :: pad_zeros 10 (FormatUint event).

Lemma i32_mod z m k : 0 < m -> 4294967296 = k * m -> i32 z mod m = z mod m.
Proof.
  intros Hm Hk. unfold i32. rewrite (Z.mod_eq (z + _) 4294967296) by lia.
  set (q := (z + 2147483648) / 4294967296).
  assert (z + 2147483648 - 4294967296 * q - 2147483648 = z + (- q * k) * m) as ->
    by (rewrite <- Z.mul_assoc, <- Hk; lia).
  rewrite Z.mod_add by lia. done.
Qed.

Lemma i32_high z : MaxInt32 < z <= MaxUint32 -> i32 z = z - 4294967296.
Proof.
  intros Hz. unfold i32. rewrite <- (Z.mod_unique (z + 2147483648) 4294967296 1 (z - 2147483648)); lia.
Qed.

(** [ToInt64] checks the orders from above only and masks what is negative. *)
Lemma ToInt64_masks l t o :
  0 <= l <= MaxInt32 -> t <= 1048575 -> o <= 4095 ->
  ToInt64 (mkID l t o) = Some (pack (mkID l (t mod 1048576) (o mod 4096))).
Proof.
  intros Hl Ht Ho.
  pose proof (Z.mod_pos_bound t 1048576 ltac:(lia)). pose proof (Z.mod_pos_bound o 4096 ltac:(lia)).
  rewrite <- (ToInt64_pack (mkID l (t mod 1048576) (o mod 4096))) by (unfold well_formed; simpl; lia).
  unfold ToInt64; cbn [LedgerSequence TransactionOrder OperationOrder].
  rewrite !(proj2 (Z.ltb_ge _ _)) by (change TransactionMask with 1048575; change OperationMask with 4095; lia).
  autorewrite with ints. by rewrite !Z.mod_mod by lia.
Qed.

Lemma id_of_well_formed c : is_cursor c -> prints c = true -> well_formed (id_of c).
Proof.
  unfold is_cursor, prints, well_formed, id_of. intros Hc Hp. bool_to_prop. simpl.
  pose proof (Z.mod_pos_bound (Tx c) 1048576 ltac:(lia)). pose proof (Z.mod_pos_bound (Op c) 4096 ltac:(lia)). lia.
Qed.

Lemma i32_order z n m : 0 <= z <= MaxUint32 -> 0 < n <= MaxInt32 -> m = n - 1 ->
  (z <? n) || (MaxInt32 <? z) = true -> i32 z <= m.
Proof.
  intros Hz Hn -> [H%Z.ltb_lt|H%Z.ltb_lt]%orb_prop; [rewrite i32_id by (unfold is_i32; lia); lia|].
  rewrite i32_high by lia. lia.
Qed.

Lemma i32_order_over z n m : 0 <= z <= MaxUint32 -> 0 < n <= MaxInt32 -> m = n - 1 ->
  (z <? n) || (MaxInt32 <? z) = false -> m < i32 z.
Proof.
  intros Hz Hn -> [H%Z.ltb_ge H'%Z.ltb_ge]%orb_false_iff. rewrite i32_id by (unfold is_i32; lia). lia.
Qed.

Lemma pack_digits id : well_formed id -> fmt_0d 19 (pack id) = pad_zeros 19 (FormatUint (pack id)).
Proof. intros H%pack_range. unfold fmt_0d. by rewrite (proj2 (Z.ltb_ge _ _)) by lia. Qed.

Lemma Cursor_String_spec c :
  is_cursor c -> Cursor_String c = if prints c then Some (cursor_text (id_of c) (Event c)) else None.
Proof.
  intros Hc. pose proof Hc as (Hl & Ht & Ho & He). unfold Cursor_String, New.
  destruct (prints c) eqn:Hp.
  - pose proof (id_of_well_formed c Hc Hp) as Hw. unfold prints in Hp. bool_to_prop.
    assert (Htx : i32 (Tx c) <= 1048575) by (apply (i32_order _ 1048576); lia || (apply orb_true_iff; lia)).
    assert (Hop : i32 (Op c) <= 4095) by (apply (i32_order _ 4096); lia || (apply orb_true_iff; lia)).
    rewrite (i32_id (Ledger c)), ToInt64_masks by (unfold is_i32; lia).
    rewrite (i32_mod _ 1048576 4096), (i32_mod _ 4096 1048576) by lia.
    cbn [option_bind]. fold (id_of c). rewrite pack_digits by done.
    unfold fmt_0d. rewrite (proj2 (Z.ltb_ge (Event c) 0)) by lia. done.
  - unfold prints in Hp. unfold ToInt64; cbn [LedgerSequence TransactionOrder OperationOrder].
    change TransactionMask with 1048575; change OperationMask with 4095.
    destruct (Z.ltb_spec (i32 (Ledger c)) 0) as [|Hi]; [done|].
    assert (Ledger c <= MaxInt32).
    { destruct (Z.le_gt_cases (Ledger c) MaxInt32); [done|]. rewrite i32_high in Hi by lia. lia. }
    rewrite (proj2 (Z.leb_le _ _)) in Hp by done. cbn [andb] in Hp.
    destruct (Z.ltb_spec 1048575 (i32 (Tx c))) as [|H1]; [done|].
    destruct (Z.ltb_spec 4095 (i32 (Op c))) as [|H2]; [done|].
    apply andb_false_iff in Hp as [Hp|Hp].
    + apply (i32_order_over _ _ 1048575) in Hp; lia.
    + apply (i32_order_over _ _ 4095) in Hp; lia.
Qed.

Lemma id_digits id :
  well_formed id ->
  Forall (fun c => is_digit c = true) (pad_zeros 19 (FormatUint (pack id))) /\
  dec_val (pad_zeros 19 (FormatUint (pack id))) = pack id /\
  length (pad_zeros 19 (FormatUint (pack id))) = 19%nat.
Proof. intros H%pack_range. apply padded_digits; lia. Qed.

Lemma event_digits e :
  0 <= e <= MaxUint32 ->
  Forall (fun c => is_digit c = true) (pad_zeros 10 (FormatUint e)) /\
  dec_val (pad_zeros 10 (FormatUint e)) = e /\ length (pad_zeros 10 (FormatUint e)) = 10%nat.
Proof. intros H. apply padded_digits; lia. Qed.

Lemma ParseCursor_text id e :
  well_formed id -> 0 <= e <= MaxUint32 ->
  ParseCursor (cursor_text id e) =
    Ok (mkCursor (LedgerSequence id) (TransactionOrder id) (OperationOrder id) e).
Proof.
  intros Hw He. destruct (id_digits id Hw) as (Hd & Hv & Hl). destruct (event_digits e He) as (Hd' & Hv' & Hl').
  unfold ParseCursor, cursor_text, numCursorParts. rewrite SplitN_2 by by apply digits_not_minus.
  assert (forall (l : bytes) n, length l = S n -> l <> []) as Hne by (intros [|] ?; done).
  pose proof (pack_range id Hw).
  rewrite ParseInt_digits, Hv by (done || (rewrite ?Hv; lia) || by eapply Hne).
  rewrite Parse_pack by done.
  rewrite ParseUint_Ok, Hv' by (lia || done || (rewrite ?Hv'; change (2 ^ 32) with 4294967296; lia) || by eapply Hne).
  unfold well_formed in Hw. unwrap_ints. done.
Qed.

(** Texts compare bytewise as ids do numerically, then as events do. *)
Lemma cursor_text_order id id' e e' :
  well_formed id -> well_formed id' -> 0 <= e <= MaxUint32 -> 0 <= e' <= MaxUint32 ->
  bytes_ltb (cursor_text id e) (cursor_text id' e') = (pack id <? pack id') || ((pack id =? pack id') && (e <? e')).
Proof.
  intros Hw Hw' He He'. unfold cursor_text.
  destruct (id_digits id Hw) as (Hd & Hv & Hl). destruct (id_digits id' Hw') as (Hd' & Hv' & Hl').
  destruct (event_digits e He) as (Fd & Fv & Fl). destruct (event_digits e' He') as (Fd' & Fv' & Fl').
  rewrite bytes_ltb_app_len by congruence. rewrite (bytes_ltb_digits _ _) by (done || congruence).
  rewrite bytes_ltb_cons_same, bytes_ltb_digits by (done || congruence).
  rewrite Hv, Hv', Fv, Fv'. f_equal. f_equal.
  destruct (Z.eqb_spec (pack id) (pack id')) as [->|Hne].
  - by apply bool_decide_eq_true_2.
  - apply bool_decide_eq_false_2. intros E. apply Hne. by rewrite <- Hv, <- Hv', E.
Qed.

Lemma ParseInt_unsigned_range s v :
  Forall (fun c => c <> minus_sign) s -> ParseInt s 64 = Ok v -> 0 <= v <= MaxInt64.
Proof.
  intros Hs. unfold ParseInt. destruct s as [|c s]; [done|]. inversion Hs as [|? ? Hc _]; subst.
  rewrite (bool_decide_eq_false_2 (c = minus_sign)) by done. change (64 - 1) with 63.
  assert (forall l, match ParseUint l 64 with
    | Err e => Err e
    | Ok un => if negb false && (2 ^ 63 <=? un) then Err ErrRange
               else if false && (2 ^ 63 <? un) then Err ErrRange else Ok un
    end = Ok v -> 0 <= v <= MaxInt64) as Hfin.
  { intros l. destruct (ParseUint l 64) as [un|] eqn:E; [|done]. apply ParseUint_inv in E as (_ & _ & _ & E); [|done].
    cbn [negb andb]. destruct (Z.leb_spec (2 ^ 63) un) as [|H]; [done|]. intros [= <-].
    change (2 ^ 63) with 9223372036854775808 in H. lia. }
  case_match; apply Hfin.
Qed.

(** A cursor between [MinCursor] and [MaxCursor], field by field. *)
Definition fits (c : Cursor) : Prop :=
  0 <= Ledger c <= MaxInt32 /\ 0 <= Tx c <= TransactionMask /\ 0 <= Op c <= OperationMask /\ 0 <= Event c <= MaxUint32.

Lemma fits_prints c : fits c -> is_cursor c /\ prints c = true /\ id_of c = mkID (Ledger c) (Tx c) (Op c).
Proof.
  unfold fits, is_cursor, prints, id_of. change TransactionMask with 1048575. change OperationMask with 4095.
  intros H. rewrite !Z.mod_small, !(proj2 (Z.ltb_lt _ _)), (proj2 (Z.leb_le _ _)) by lia. split_and!; done || lia.
Qed.

Lemma well_formed_fits id e : well_formed id -> 0 <= e <= MaxUint32 ->
  fits (mkCursor (LedgerSequence id) (TransactionOrder id) (OperationOrder id) e).
Proof.
  unfold well_formed, fits. change TransactionMask with 1048575. change OperationMask with 4095. simpl. lia.
Qed.

(** The lexicographic order. *)
Definition cursor_lt (c o : Cursor) : Prop :=
  Ledger c < Ledger o \/ (Ledger c = Ledger o /\ (Tx c < Tx o \/ (Tx c = Tx o /\
    (Op c < Op o \/ (Op c = Op o /\ Event c < Event o))))).

Lemma Cmp_spec c o :
  (Cmp c o = -1 /\ cursor_lt c o) \/ (Cmp c o = 0 /\ c = o) \/ (Cmp c o = 1 /\ cursor_lt o c).
Proof.
  unfold Cmp, cmp, cursor_lt. destruct c as [l t p e], o as [l' t' p' e']; cbn [Ledger Tx Op Event].
  destruct (Z.eqb_spec l l'), (Z.eqb_spec t t'), (Z.eqb_spec p p');
    repeat case_match; bool_to_prop; subst;
    first [left; split; [done|lia] | right; right; split; [done|lia] | right; left; split; [done|f_equal; lia]].
Qed.

Lemma text_lt a b :
  fits a -> fits b ->
  bytes_ltb (cursor_text (id_of a) (Event a)) (cursor_text (id_of b) (Event b)) = true <-> cursor_lt a b.
Proof.
  intros Ha Hb. destruct (fits_prints a Ha) as (Ca & Pa & Ia). destruct (fits_prints b Hb) as (Cb & Pb & Ib).
  pose proof (id_of_well_formed a Ca Pa) as Wa. pose proof (id_of_well_formed b Cb Pb) as Wb.
  rewrite cursor_text_order by (done || apply Ca || apply Cb). rewrite Ia, Ib in *.
  unfold well_formed, pack, cursor_lt in *. cbn [LedgerSequence TransactionOrder OperationOrder] in *.
  rewrite orb_true_iff, andb_true_iff, Z.eqb_eq, !Z.ltb_lt. lia.
Qed.

Lemma ParseCursor_Ok s d :
  ParseCursor s = Ok d ->
  exists id e, well_formed id /\ 0 <= e <= MaxUint32 /\
    d = mkCursor (LedgerSequence id) (TransactionOrder id) (OperationOrder id) e.
Proof.
  unfold ParseCursor, numCursorParts.
  destruct (SplitN minus_sign 2 s) as [|p0 [|p1 [|]]] eqn:E; try done.
  apply SplitN_2_inv in E as [-> Hp0].
  destruct (ParseInt p0 64) as [v|] eqn:Ev; [|done]. destruct (ParseUint p1 32) as [e|] eqn:Ee; [|done].
  apply ParseInt_unsigned_range in Ev as Hv; [|done]. apply ParseUint_inv in Ee as (_ & _ & _ & He); [|done].
  change (2 ^ 32) with 4294967296 in He. destruct (Parse_well_formed v Hv) as [Hw _].
  pose proof Hw as Hw'. unfold well_formed in Hw'. unwrap_ints. intros [= <-].
  exists (Parse v), e. split_and!; [done|lia|lia|done].
Qed.

(** ** Properties *)

(** The text of a cursor and the cursor it parses to. A cursor with uint32
    fields either panics, and then lies outside [MinCursor] to [MaxCursor] in
    some field, or prints to 30 characters that parse back to it with its
    transaction and operation numbers reduced to the 20 and 12 bits they have in
    an id: to the same cursor when its fields fit, to another one for numbers from
    2^31 on. Conversely whatever parses has fields that fit, so that printing and
    parsing it again gives it back. *)
Theorem cursor_text_roundtrip c :
  is_cursor c ->
  match Cursor_String c with
  | Some s => length s = 30%nat /\
      ParseCursor s = Ok (mkCursor (Ledger c) (Tx c mod 1048576) (Op c mod 4096) (Event c)) /\
      (fits c -> ParseCursor s = Ok c)
  | None => ~ fits c
  end /\
  forall s d, ParseCursor s = Ok d ->
    fits d /\ exists s', Cursor_String d = Some s' /\ ParseCursor s' = Ok d.
Proof.
  intros Hc. split.
  - rewrite Cursor_String_spec by done. destruct (prints c) eqn:Hp.
    + pose proof (id_of_well_formed c Hc Hp) as Hw. pose proof Hc as (_ & _ & _ & He).
      rewrite ParseCursor_text by done. split_and!; [|done|].
      * unfold cursor_text. rewrite length_app; cbn [length].
        rewrite (proj2 (proj2 (id_digits _ Hw))), (proj2 (proj2 (event_digits _ He))). done.
      * intros (_ & _ & Hi)%fits_prints. rewrite Hi. by destruct c.
    + intros (_ & H & _)%fits_prints. congruence.
  - intros s d (id & e & Hw & He & ->)%ParseCursor_Ok.
    pose proof (well_formed_fits id e Hw He) as Hf. split; [done|].
    destruct (fits_prints _ Hf) as (Hd & Hp & Hi).
    exists (cursor_text id e). rewrite Cursor_String_spec, Hp, Hi by done. split.
    + by destruct id.
    + by apply ParseCursor_text.
Qed.

(** [Cmp] is a total order on cursors, with [MinCursor] and [MaxCursor] as the
    least and the greatest one whose fields fit, and the text form respects it: of
    two such cursors the one before the other has the bytewise smaller text, and
    only equal cursors have equal texts. *)
Theorem Cmp_text_order a b :
  fits a -> fits b ->
  exists sa sb, Cursor_String a = Some sa /\ Cursor_String b = Some sb /\
    (Cmp a b = -1 <-> bytes_ltb sa sb = true) /\
    (Cmp a b = 0 <-> sa = sb) /\ (Cmp a b = 0 <-> a = b) /\
    (Cmp a b = 1 <-> bytes_ltb sb sa = true) /\
    Cmp b a = - Cmp a b /\ Cmp MinCursor a <= 0 /\ Cmp a MaxCursor <= 0.
Proof.
  intros Ha Hb. destruct (fits_prints a Ha) as (Ca & Pa & Ia). destruct (fits_prints b Hb) as (Cb & Pb & Ib).
  exists (cursor_text (id_of a) (Event a)), (cursor_text (id_of b) (Event b)).
  rewrite !Cursor_String_spec, Pa, Pb by done.
  assert (H01 : Cmp MinCursor a <= 0 /\ Cmp a MaxCursor <= 0).
  { unfold fits in Ha. split.
    - destruct (Cmp_spec MinCursor a) as [[-> _]|[[-> _]|[_ H]]]; try done.
      unfold cursor_lt, MinCursor in H; simpl in H. lia.
    - destruct (Cmp_spec a MaxCursor) as [[-> _]|[[-> _]|[_ H]]]; try done.
      unfold cursor_lt, MaxCursor in H; cbn [Ledger Tx Op Event] in H. lia. }
  assert (Hirr : forall x, ~ cursor_lt x x) by (intros x; unfold cursor_lt; lia).
  assert (Hasym : forall x y, cursor_lt x y -> ~ cursor_lt y x) by (intros x y; unfold cursor_lt; lia).
  assert (Heq : cursor_text (id_of a) (Event a) = cursor_text (id_of b) (Event b) -> a = b).
  { intros E. pose proof (ParseCursor_text (id_of a) (Event a) (id_of_well_formed a Ca Pa) ltac:(apply Ca)) as E1.
    rewrite E, ParseCursor_text, Ia, Ib in E1 by (apply id_of_well_formed || apply Cb; done).
    destruct a, b; cbn in E1. congruence. }
  rewrite !text_lt by done. destruct H01 as [H0 H1]. split_and!; [done|done| | | | | |exact H0|exact H1]; clear H0 H1.
  all: destruct (Cmp_spec a b) as [[E H]|[[E H]|[E H]]], (Cmp_spec b a) as [[E' H']|[[E' H']|[E' H']]];
    rewrite ?E, ?E'; naive_solver lia.
Qed.

