(* ===== verification/Strkey.v ===== *)
(** * Strkeys (SEP-23)

    src/strkey/main.go, muxed_account.go, muxed_contract.go and
    signed_payload.go: version byte, payload and checksum in canonical base32. *)
From Stdlib Require Import ZArith Lia.
From stdpp Require Import base list vector option.
From S2P Require Import Prelude GoStd GoExt Encodings.
#[local] Open Scope Z_scope.
#[local] Open Scope go_scope.

(** ** Version bytes *)
Definition VersionByteAccountID : byte := byte_of_Z (Z.shiftl 6 3).
Definition VersionByteSeed : byte := byte_of_Z (Z.shiftl 18 3).
Definition VersionByteMuxedAccount : byte := byte_of_Z (Z.shiftl 12 3).
Definition VersionByteHashTx : byte := byte_of_Z (Z.shiftl 19 3).
Definition VersionByteHashX : byte := byte_of_Z (Z.shiftl 23 3).
Definition VersionByteSignedPayload : byte := byte_of_Z (Z.shiftl 15 3).
Definition VersionByteContract : byte := byte_of_Z (Z.shiftl 2 3).
Definition VersionByteLiquidityPool : byte := byte_of_Z (Z.shiftl 11 3).
Definition VersionByteClaimableBalance : byte := byte_of_Z (Z.shiftl 1 3).
Definition VersionByteMuxedContract : byte := byte_of_Z (Z.shiftl 22 3).

Definition maxPayloadSize : nat := 100.
Definition maxRawSize : nat := 1 + maxPayloadSize + 2.
Definition maxEncodedSize : nat := (maxRawSize * 8 + 4) / 5.
Definition maxPayloadLen : Z := 64.

Inductive strkey_error : Type :=
| ErrInvalidVersionByte
| ErrInvalidChecksum
| ErrTooLong | ErrTooShort
| ErrCorruptInput (i : nat)
| ErrLeftoverCharacter | ErrUnusedBits
| ErrPayloadLength | ErrPayloadDeclared | ErrPayloadPadding
| ErrPayloadTooLarge
| ErrInvalidInput.

Definition checkValidVersionByte (version : byte) : option strkey_error :=
  if bool_decide (version ∈
    [VersionByteAccountID; VersionByteMuxedAccount; VersionByteSeed; VersionByteHashTx;
     VersionByteHashX; VersionByteSignedPayload; VersionByteContract;
     VersionByteLiquidityPool; VersionByteClaimableBalance; VersionByteMuxedContract])
  then None else Some ErrInvalidVersionByte.

(** ** Payload structure *)
Definition checkSignedPayload (payload : bytes) : option strkey_error :=
  let headerLen := 36 in
  if go_len payload <? headerLen then Some ErrPayloadLength
  else
    let declared := BigEndian_Uint (take 4 (drop 32 payload)) in
    if (declared <? 1) || (maxPayloadLen <? declared) then Some ErrPayloadDeclared
    else
      let padded := (declared + 3) / 4 * 4 in
      if negb (go_len payload =? headerLen + padded) then Some ErrPayloadLength
      else if forallb (fun b => bool_decide (b = zero_byte))
                (drop (Z.to_nat (headerLen + declared)) payload)
      then None else Some ErrPayloadPadding.

Definition checkPayloadLength (version : byte) (payload : bytes) : option strkey_error :=
  let exactly (expected : Z) :=
    if negb (go_len payload =? expected) then Some ErrPayloadLength else None in
  if bool_decide (version ∈
       [VersionByteAccountID; VersionByteSeed; VersionByteHashTx; VersionByteHashX;
        VersionByteContract; VersionByteLiquidityPool]) then exactly 32
  else if bool_decide (version = VersionByteClaimableBalance) then exactly 33
  else if bool_decide (version = VersionByteMuxedAccount) then exactly 40
  else if bool_decide (version = VersionByteMuxedContract) then exactly 40
  else if bool_decide (version = VersionByteSignedPayload) then checkSignedPayload payload
  else Some ErrInvalidVersionByte.

(** ** Decoding *)

(** The index of the first character outside the alphabet. *)
Fixpoint first_corrupt (i : nat) (src : bytes) : option nat :=
  match src with
  | [] => None
  | ch :: src => if table_value ch =? notBase32 then Some i else first_corrupt (S i) src
  end.

Definition decodeString (src : bytes) : result strkey_error bytes :=
  if (maxEncodedSize <? length src)%nat then Err ErrTooLong
  else if (length src <? 5)%nat then Err ErrTooShort
  else
    match first_corrupt 0 src with
    | Some i => Err (ErrCorruptInput i)
    | None =>
        let leftoverBits := ((length src * 5) mod 8)%nat in
        if (5 <=? leftoverBits)%nat then Err ErrLeftoverCharacter
        else if (0 <? leftoverBits)%nat &&
                negb (Z.land (table_value (default zero_byte (list.last src)))
                        (Z.shiftr 15 (4 - Z.of_nat leftoverBits)) =? 0)
        then Err ErrUnusedBits
        else Ok (base32_Decode src)
    end.

(** The body, payload and checksum of a raw strkey. *)
Definition raw_vp (raw : bytes) : bytes := take (length raw - 2) raw.
Definition raw_payload (raw : bytes) : bytes := drop 1 (raw_vp raw).
Definition raw_checksum (raw : bytes) : bytes := drop (length raw - 2) raw.

(** The checks both decoders make after the version byte. *)
Definition check_raw (version : byte) (raw : bytes) : result strkey_error bytes :=
  if negb (crc_Validate (raw_vp raw) (LittleEndian_Uint16 (raw_checksum raw)))
  then Err ErrInvalidChecksum
  else
    match checkPayloadLength version (raw_payload raw) with
    | Some e => Err e
    | None => Ok (raw_payload raw)
    end.

(** Panics on an empty raw string ([raw[0]]). *)
Definition DecodeAny (src : bytes) : option (result strkey_error (byte * bytes)) :=
  match decodeString src with
  | Err e => Some (Err e)
  | Ok raw =>
      let! version := head raw in
      match checkValidVersionByte version with
      | Some e => Some (Err e)
      | None =>
          Some (match check_raw version raw with
                | Err e => Err e
                | Ok payload => Ok (version, payload)
                end)
      end
  end.

Definition Decode (expected : byte) (src : bytes) : result strkey_error bytes :=
  match checkValidVersionByte expected with
  | Some e => Err e
  | None =>
      match decodeString src with
      | Err e => Err e
      | Ok raw =>
          if (length raw <? 3)%nat then Err ErrTooShort
          else if negb (bool_decide (head raw = Some expected)) then Err ErrInvalidVersionByte
          else check_raw expected raw
      end
  end.
Definition MustDecode (expected : byte) (src : bytes) : option bytes :=
  match Decode expected src with Ok d => Some d | Err _ => None end.

Definition Version (src : bytes) : option (result strkey_error byte) :=
  match decodeString src with
  | Err e => Some (Err e)
  | Ok raw => let! v := head raw in Some (Ok v)
  end.

(** ** Encoding *)
Definition Encode (version : byte) (src : bytes) : result strkey_error bytes :=
  match checkValidVersionByte version with
  | Some e => Err e
  | None =>
      if (maxPayloadSize <? length src)%nat then Err ErrPayloadTooLarge
      else
        let body := version :: src in
        let crc := Checksum body in
        Ok (base32_Encode (body ++ LittleEndian_PutUint16 crc))
  end.
Definition MustEncode (version : byte) (src : bytes) : option bytes :=
  match Encode version src with Ok e => Some e | Err _ => None end.

(** ** Validators *)

(** An [interface{}] argument is the string it holds, if it holds one. *)
Definition valid_interface (version : byte) (i : option bytes) : bool :=
  match i with
  | None => false
  | Some enc => is_Ok (Decode version enc)
  end.
Definition IsValidEd25519PublicKey := valid_interface VersionByteAccountID.
Definition IsValidContractAddress := valid_interface VersionByteContract.
Definition IsValidClaimableBalance := valid_interface VersionByteClaimableBalance.
Definition IsValidLiquidityPool := valid_interface VersionByteLiquidityPool.
Definition IsValidEd25519SecretSeed := valid_interface VersionByteSeed.
Definition IsValidMuxedAccountEd25519PublicKey (s : bytes) : bool :=
  is_Ok (Decode VersionByteMuxedAccount s).
Definition IsValidMuxedContractAddress (s : bytes) : bool :=
  is_Ok (Decode VersionByteMuxedContract s).

(** ** Muxed accounts, muxed contracts and signed payloads *)

(** [copy(dst[:], src)] into an array. *)
Fixpoint copy_array {n} (dst : vec byte n) (src : bytes) : vec byte n :=
  match dst with
  | [#] => [#]
  | x ::: dst =>
      match src with
      | [] => x ::: dst
      | y :: src => y ::: copy_array dst src
      end
  end.

Definition zero_array (n : nat) : vec byte n := vreplicate n zero_byte.

Record MuxedAccount : Type := mkMuxedAccount {
  MuxedAccount_id : Z;
  MuxedAccount_ed25519 : vec byte 32
}.

Record MuxedContract : Type := mkMuxedContract {
  MuxedContract_id : Z;
  MuxedContract_contractID : vec byte 32
}.

Record SignedPayload : Type := mkSignedPayload {
  SignedPayload_signer : bytes;
  SignedPayload_payload : bytes
}.

Definition MuxedAccount_SetID (m : MuxedAccount) (id : Z) : MuxedAccount :=
  mkMuxedAccount id (MuxedAccount_ed25519 m).
Definition MuxedAccount_SetAccountID (m : MuxedAccount) (address : bytes) :
    result strkey_error MuxedAccount :=
  match Decode VersionByteAccountID address with
  | Err _ => Err ErrInvalidInput
  | Ok raw => Ok (mkMuxedAccount (MuxedAccount_id m) (copy_array (MuxedAccount_ed25519 m) raw))
  end.
Definition MuxedAccount_AccountID (m : MuxedAccount) : result strkey_error bytes :=
  Encode VersionByteAccountID (vec_to_list (MuxedAccount_ed25519 m)).

Definition MuxedContract_SetID (m : MuxedContract) (id : Z) : MuxedContract :=
  mkMuxedContract id (MuxedContract_contractID m).
Definition MuxedContract_SetContractID (m : MuxedContract) (address : bytes) :
    result strkey_error MuxedContract :=
  match Decode VersionByteContract address with
  | Err _ => Err ErrInvalidInput
  | Ok raw => Ok (mkMuxedContract (MuxedContract_id m) (copy_array (MuxedContract_contractID m) raw))
  end.
Definition MuxedContract_ContractID (m : MuxedContract) : result strkey_error bytes :=
  Encode VersionByteContract (vec_to_list (MuxedContract_contractID m)).
Definition MuxedContract_Address (m : MuxedContract) : result strkey_error bytes :=
  Encode VersionByteMuxedContract
    (vec_to_list (MuxedContract_contractID m) ++ BigEndian_PutUint64 (MuxedContract_id m)).
Definition DecodeMuxedContract (address : bytes) : result strkey_error MuxedContract :=
  match Decode VersionByteMuxedContract address with
  | Err _ => Err ErrInvalidInput
  | Ok raw =>
      Ok (mkMuxedContract (BigEndian_Uint (drop 32 raw)) (copy_array (zero_array 32) (take 32 raw)))
  end.

Definition NewSignedPayload (signerPublicKey payload : bytes) : result strkey_error SignedPayload :=
  if go_len payload =? 0 then Err ErrInvalidInput
  else if maxPayloadLen <? go_len payload then Err ErrInvalidInput
  else Ok (mkSignedPayload signerPublicKey payload).

Section WithXdr.
Context {X : GoXdr}.

Definition MuxedAccount_Address (m : MuxedAccount) : result strkey_error bytes :=
  if bool_decide (MuxedAccount_ed25519 m = zero_array 32) then Err ErrInvalidInput
  else
    Encode VersionByteMuxedAccount
      (vec_to_list (MuxedAccount_ed25519 m) ++ xdr_Marshal_uint64 (MuxedAccount_id m)).
Definition DecodeMuxedAccount (address : bytes) : result strkey_error MuxedAccount :=
  match Decode VersionByteMuxedAccount address with
  | Err _ => Err ErrInvalidInput
  | Ok raw =>
      match xdr_Unmarshal_uint64 (drop 32 raw) with
      | None => Err ErrInvalidInput
      | Some id => Ok (mkMuxedAccount id (copy_array (zero_array 32) (take 32 raw)))
      end
  end.

Definition SignedPayload_Encode (sp : SignedPayload) : result strkey_error bytes :=
  match Decode VersionByteAccountID (SignedPayload_signer sp) with
  | Err e => Err e
  | Ok signerBytes =>
      Encode VersionByteSignedPayload (signerBytes ++ xdr_Marshal_opaque (SignedPayload_payload sp))
  end.
End WithXdr.

Definition DecodeSignedPayload (address : bytes) : result strkey_error SignedPayload :=
  match Decode VersionByteSignedPayload address with
  | Err _ => Err ErrInvalidInput
  | Ok raw =>
      match Encode VersionByteAccountID (take 32 raw) with
      | Err e => Err e
      | Ok signer =>
          let declared := BigEndian_Uint (take 4 (drop 32 raw)) in
          NewSignedPayload signer (take (Z.to_nat declared) (drop 36 raw))
      end
  end.

(** ** Canonical strings *)

(** What [decodeString] demands of its input. *)
Record canonical (src : bytes) : Prop := {
  can_max : (length src <= maxEncodedSize)%nat;
  can_min : (5 <= length src)%nat;
  can_chars : Forall (fun c => table_value c <> notBase32) src;
  can_left : ((length src * 5) mod 8 < 5)%nat;
  can_zero : drop (8 * (length (char_bits src) / 8)) (char_bits src) =
             replicate (length (char_bits src) mod 8) false
}.

Lemma first_corrupt_None i src :
  first_corrupt i src = None <-> Forall (fun c => table_value c <> notBase32) src.
Proof.
  revert i; induction src as [|c src IH]; intros i; simpl; [by split; [constructor|]|].
  destruct (Z.eqb_spec (table_value c) notBase32) as [E|E].
  - split; [done|]. inversion 1; done.
  - rewrite IH. split; [by constructor|]. by inversion 1.
Qed.

(** The bits the mask of [decodeString] selects are the last ones. *)
Lemma low_bits_zero v r :
  (r <= 4)%nat -> 0 <= v < 32 ->
  (Z.land v (Z.shiftr 15 (4 - Z.of_nat r)) = 0 <-> drop (5 - r) (to_bits 5 v) = replicate r false).
Proof.
  intros Hr Hv.
  assert (E : Z.land v (Z.shiftr 15 (4 - Z.of_nat r)) = v mod 2 ^ Z.of_nat r).
  { rewrite <- Z.land_ones by lia. f_equal. rewrite Z.ones_equiv, Z.shiftr_div_pow2 by lia.
    destruct r as [|[|[|[|[|r]]]]]; [reflexivity..|lia]. }
  rewrite E. clear E.
  pose proof (of_bits_app (take (5 - r) (to_bits 5 v)) (drop (5 - r) (to_bits 5 v))) as H.
  rewrite take_drop, of_to_bits in H by exact Hv.
  pose proof (of_bits_range (drop (5 - r) (to_bits 5 v))) as Hb.
  assert (length (drop (5 - r) (to_bits 5 v)) = r) as Hl by (rewrite length_drop, length_to_bits; lia).
  rewrite Hl in *. set (d := drop (5 - r) (to_bits 5 v)) in *.
  assert (v mod 2 ^ Z.of_nat r = of_bits d) as ->.
  { rewrite H, Z.add_comm, Z.mod_add, Z.mod_small by lia. done. }
  split; intros E.
  - pose proof (of_bits_0 _ E) as E0. rewrite Hl in E0. exact E0.
  - rewrite E. apply of_bits_all_false.
Qed.

Lemma char_bits_snoc s c : char_bits (s ++ [c]) = char_bits s ++ to_bits 5 (table_value c).
Proof. unfold char_bits. rewrite flat_map_app. cbn [flat_map]. by rewrite app_nil_r. Qed.

Lemma drop_last_bits s c r :
  ((length (s ++ [c]) * 5) mod 8 = r)%nat -> (r <= 4)%nat ->
  drop (8 * (length (char_bits (s ++ [c])) / 8)) (char_bits (s ++ [c])) =
  drop (5 - r) (to_bits 5 (table_value c)).
Proof.
  intros Hr Hle.
  pose proof (Nat.div_mod_eq (length (char_bits (s ++ [c]))) 8) as Hdm.
  rewrite length_char_bits, (Nat.mul_comm 5), Hr in Hdm.
  rewrite length_char_bits, (Nat.mul_comm 5).
  set (q := (8 * _)%nat) in *. rewrite length_app in Hdm. simpl in Hdm.
  rewrite char_bits_snoc, drop_app_ge by (rewrite length_char_bits; lia).
  f_equal. rewrite length_char_bits. lia.
Qed.

Lemma decodeString_Ok src raw :
  decodeString src = Ok raw <-> canonical src /\ raw = base32_Decode src.
Proof.
  unfold decodeString.
  destruct (Nat.ltb_spec maxEncodedSize (length src)) as [H|H].
  { split; [done|]. intros [C _]. destruct C. lia. }
  destruct (Nat.ltb_spec (length src) 5) as [H1|H1].
  { split; [done|]. intros [C _]. destruct C. lia. }
  destruct (first_corrupt 0 src) eqn:E.
  { split; [done|]. intros [C _]. apply can_chars, (first_corrupt_None 0) in C. congruence. }
  apply first_corrupt_None in E.
  destruct (Nat.leb_spec 5 ((length src * 5) mod 8)) as [H2|H2].
  { split; [done|]. intros [C _]. destruct C. lia. }
  set (r := ((length src * 5) mod 8)%nat) in *.
  assert (Hz : drop (8 * (length (char_bits src) / 8)) (char_bits src) =
               replicate (length (char_bits src) mod 8) false <->
    (0 <? r)%nat && negb (Z.land (table_value (default zero_byte (list.last src)))
                        (Z.shiftr 15 (4 - Z.of_nat r)) =? 0) = false).
  { destruct src as [|c s _] using rev_ind; [simpl in H1; lia|].
    rewrite last_snoc. simpl default. rewrite (drop_last_bits s c r) by lia.
    rewrite length_char_bits, (Nat.mul_comm 5). fold r.
    apply Forall_app in E as [_ Ec]. apply Forall_singleton, alphabet_table in Ec as [Hv _].
    rewrite <- low_bits_zero by lia. destruct (Nat.ltb_spec 0 r); simpl.
    - by rewrite negb_false_iff, Z.eqb_eq.
    - replace r with 0%nat by lia. split; [done|]. intros _.
      change (Z.shiftr 15 (4 - Z.of_nat 0)) with 0. apply Z.land_0_r. }
  destruct (_ && _).
  - split; [done|]. intros [C _]. apply can_zero, Hz in C. done.
  - split; [|by intros [_ ->]]. intros [= <-]. split; [|done]. constructor; try done. by apply Hz.
Qed.

Lemma canonical_Encode_Decode src : canonical src -> base32_Encode (base32_Decode src) = src.
Proof.
  intros C. destruct C. apply base32_Encode_Decode; [done| |done].
  by rewrite length_char_bits, Nat.mul_comm.
Qed.

Lemma length_base32_Encode raw : exists r, (r < 5)%nat /\
  (5 * length (base32_Encode raw) = 8 * length raw + r)%nat.
Proof.
  destruct (char_bits_Encode raw) as (r & Hr & _ & E). exists r. split; [done|].
  apply (f_equal length) in E.
  by rewrite length_char_bits, length_app, length_byte_bits, length_replicate in E.
Qed.

Lemma canonical_Encode raw :
  (3 <= length raw <= maxRawSize)%nat -> canonical (base32_Encode raw).
Proof.
  intros Hlen. destruct (char_bits_Encode raw) as (r & Hr & _ & E).
  assert (Hl : (5 * length (base32_Encode raw) = 8 * length raw + r)%nat).
  { apply (f_equal length) in E.
    by rewrite length_char_bits, length_app, length_byte_bits, length_replicate in E. }
  assert (Hmod : ((8 * length raw + r) mod 8 = r)%nat)
    by (rewrite Nat.add_comm, Nat.mul_comm, Nat.Div0.mod_add, Nat.mod_small; lia).
  assert (Hdiv : ((8 * length raw + r) / 8 = length raw)%nat)
    by (rewrite Nat.mul_comm, Nat.div_add_l, (Nat.div_small r); lia).
  unfold maxRawSize, maxPayloadSize in Hlen. constructor.
  - change maxEncodedSize with 165%nat. lia.
  - lia.
  - apply base32_Encode_chars.
  - rewrite Nat.mul_comm, Hl, Hmod. done.
  - rewrite length_char_bits, Hl, Hdiv, Hmod, E, drop_app_ge, length_byte_bits, Nat.sub_diag
      by (rewrite length_byte_bits; lia). done.
Qed.

(** ** Decoding inverts encoding *)
Lemma length_be_put16 v : length (LittleEndian_PutUint16 v) = 2%nat.
Proof. unfold LittleEndian_PutUint16. by rewrite length_rev, length_be_put. Qed.

Lemma LittleEndian_inverse c x :
  length c = 2%nat -> 0 <= x < 65536 ->
  (x = LittleEndian_Uint16 c <-> c = LittleEndian_PutUint16 x).
Proof.
  unfold LittleEndian_Uint16, LittleEndian_PutUint16. intros Hc Hx. split.
  - intros ->. replace 2%nat with (length (rev c)) by (by rewrite length_rev).
    by rewrite be_put_get, rev_involutive.
  - intros ->. rewrite rev_involutive, be_get_put; done.
Qed.

Lemma checkPayloadLength_max v p :
  checkPayloadLength v p = None -> (1 <= length p <= maxPayloadSize)%nat.
Proof.
  unfold checkPayloadLength, checkSignedPayload, go_len, maxPayloadSize, maxPayloadLen.
  pose proof (Z.div_mod (BigEndian_Uint (take 4 (drop 32 p)) + 3) 4 ltac:(lia)).
  pose proof (Z.mod_pos_bound (BigEndian_Uint (take 4 (drop 32 p)) + 3) 4 ltac:(lia)).
  repeat case_bool; intros; try done; lia.
Qed.

Lemma length_base32_Decode s : (8 * length (base32_Decode s) = 8 * (5 * length s / 8))%nat.
Proof.
  pose proof (byte_bits_Decode s) as H. apply (f_equal length) in H.
  rewrite length_byte_bits, length_take, length_char_bits, Nat.min_l in H; [done|].
  apply Nat.Div0.mul_div_le.
Qed.

(** The shape of a raw strkey: version byte, payload, checksum. *)
Lemma raw_shape raw v :
  (3 <= length raw)%nat -> head raw = Some v ->
  raw_vp raw = v :: raw_payload raw /\ raw = v :: raw_payload raw ++ raw_checksum raw /\
  length (raw_checksum raw) = 2%nat.
Proof.
  intros Hl Hv. unfold raw_payload, raw_vp, raw_checksum.
  destruct raw as [|x raw]; [done|]. injection Hv as ->.
  set (k := (length (v :: raw) - 2)%nat). assert (1 <= k)%nat by (subst k; lia).
  assert (E : take k (v :: raw) = v :: drop 1 (take k (v :: raw))) by (destruct k; [lia|done]).
  split; [done|]. split.
  - rewrite app_comm_cons, <- E. symmetry. apply take_drop.
  - rewrite length_drop. subst k. lia.
Qed.

Lemma raw_parts v p c :
  length c = 2%nat ->
  let raw := v :: p ++ c in
  raw_vp raw = v :: p /\ raw_payload raw = p /\ raw_checksum raw = c.
Proof.
  intros Hc raw. unfold raw_payload, raw_vp, raw_checksum.
  assert (length raw - 2 = length (v :: p))%nat as -> by (subst raw; simpl; rewrite length_app; lia).
  subst raw. rewrite app_comm_cons, take_app_length, drop_app_length. done.
Qed.

Lemma check_raw_Ok v p raw :
  (3 <= length raw)%nat -> head raw = Some v ->
  (check_raw v raw = Ok p <->
   raw = v :: p ++ LittleEndian_PutUint16 (Checksum (v :: p)) /\ checkPayloadLength v p = None).
Proof.
  intros Hl Hv. destruct (raw_shape raw v Hl Hv) as (Hvp & Hraw & Hc).
  unfold check_raw, crc_Validate. rewrite Hvp. split.
  - destruct (Z.eqb_spec (Checksum (v :: raw_payload raw)) (LittleEndian_Uint16 (raw_checksum raw)))
      as [E|]; [|done]. simpl.
    destruct (checkPayloadLength v (raw_payload raw)) eqn:Hp; [done|]. intros [= <-].
    split; [|done]. apply LittleEndian_inverse in E; [|done|apply Checksum_range].
    by rewrite <- E.
  - intros [E Hp]. destruct (raw_parts v p _ (length_be_put16 (Checksum (v :: p)))) as (H1 & H2 & H3).
    rewrite <- E in H1, H2, H3. rewrite H2, H3, Hp.
    rewrite <- (proj2 (LittleEndian_inverse _ _ (length_be_put16 _) (Checksum_range _)) eq_refl).
    by rewrite Z.eqb_refl.
Qed.

Lemma decodeString_length s raw : decodeString s = Ok raw -> (3 <= length raw)%nat.
Proof.
  intros [C ->]%decodeString_Ok. pose proof (length_base32_Decode s) as H. destruct C.
  assert (3 <= 5 * length s / 8)%nat by (apply Nat.div_le_lower_bound; lia). lia.
Qed.

Lemma Decode_Ok v s p :
  Decode v s = Ok p <->
  checkValidVersionByte v = None /\ canonical s /\
  base32_Decode s = v :: p ++ LittleEndian_PutUint16 (Checksum (v :: p)) /\
  checkPayloadLength v p = None.
Proof.
  unfold Decode. destruct (checkValidVersionByte v); [by split; [|intros []]|].
  destruct (decodeString s) as [raw|e] eqn:E.
  - pose proof (decodeString_length s raw E) as Hl. apply decodeString_Ok in E as [C ->].
    rewrite (proj2 (Nat.ltb_ge _ _)) by done. case_bool_decide as Hv; simpl.
    + rewrite check_raw_Ok by done. tauto.
    + split; [done|]. intros (_ & _ & E & _). by rewrite E in Hv.
  - split; [done|]. intros (_ & C & _).
    assert (decodeString s = Ok (base32_Decode s)) by (by apply decodeString_Ok). congruence.
Qed.

Lemma Encode_Decode_iff v s p :
  Decode v s = Ok p <-> Encode v p = Ok s /\ checkPayloadLength v p = None.
Proof.
  rewrite Decode_Ok. unfold Encode.
  destruct (checkValidVersionByte v); [by split; intros []|]. split.
  - intros (_ & C & E & Hp). pose proof (checkPayloadLength_max v p Hp).
    rewrite (proj2 (Nat.ltb_ge _ _)) by lia. cbv zeta.
    rewrite <- app_comm_cons, <- E, canonical_Encode_Decode; done.
  - intros [E Hp]. pose proof (checkPayloadLength_max v p Hp) as Hl.
    rewrite (proj2 (Nat.ltb_ge _ _)) in E by lia. cbv zeta in E. injection E as <-.
    split; [done|]. split; [|by rewrite base32_Decode_Encode].
    apply canonical_Encode. simpl. rewrite length_app, length_be_put16.
    unfold maxRawSize, maxPayloadSize in *. lia.
Qed.

Lemma DecodeAny_Ok s v p : DecodeAny s = Some (Ok (v, p)) <-> Decode v s = Ok p.
Proof.
  unfold DecodeAny, Decode. destruct (decodeString s) as [raw|e] eqn:E.
  - pose proof (decodeString_length s raw E) as Hl.
    rewrite (proj2 (Nat.ltb_ge _ _)) by done.
    destruct raw as [|x raw]; [simpl in Hl; lia|]. cbn [head list.head]. split.
    + destruct (checkValidVersionByte x) eqn:Hx; [done|].
      destruct (check_raw x (x :: raw)) eqn:Hc; [|done]. intros [= -> ->].
      rewrite Hx, bool_decide_eq_true_2 by done. done.
    + destruct (checkValidVersionByte v) eqn:Hv; [done|]. case_bool_decide as Hh; [|done].
      injection Hh as ->. simpl. rewrite Hv. by intros ->.
  - destruct (checkValidVersionByte v); split; done.
Qed.

(** DecodeAny never panics. *)
Lemma DecodeAny_total s : exists r, DecodeAny s = Some r.
Proof.
  unfold DecodeAny. destruct (decodeString s) as [raw|e] eqn:E; [|by eauto].
  pose proof (decodeString_length s raw E). destruct raw as [|x raw]; [simpl in *; lia|].
  cbn. destruct (checkValidVersionByte x); by eauto.
Qed.

(** ** Payload shapes and arrays *)
Lemma vec_to_list_copy {n} (dst : vec byte n) src :
  length src = n -> vec_to_list (copy_array dst src) = src.
Proof.
  revert src; induction dst as [|n x dst IH]; intros [|y src] H; try done.
  simpl. f_equal. apply IH. simpl in H. lia.
Qed.

Lemma copy_array_vec {n} (dst v : vec byte n) : copy_array dst (vec_to_list v) = v.
Proof. apply vec_to_list_inj2, vec_to_list_copy, length_vec_to_list. Qed.

(** The versions whose payload has a fixed length. *)
Definition fixed_length (v : byte) : option nat :=
  if bool_decide (v ∈ [VersionByteAccountID; VersionByteSeed; VersionByteHashTx; VersionByteHashX;
                       VersionByteContract; VersionByteLiquidityPool]) then Some 32%nat
  else if bool_decide (v = VersionByteClaimableBalance) then Some 33%nat
  else if bool_decide (v ∈ [VersionByteMuxedAccount; VersionByteMuxedContract]) then Some 40%nat
  else None.

Lemma checkPayloadLength_fixed v p n :
  fixed_length v = Some n -> (checkPayloadLength v p = None <-> length p = n).
Proof.
  assert (X : forall m, (if negb (go_len p =? Z.of_nat m) then Some ErrPayloadLength else None)
                        = None <-> length p = m).
  { intros m. unfold go_len. destruct (Z.eqb_spec (Z.of_nat (length p)) (Z.of_nat m)); simpl;
      split; try done; lia. }
  unfold fixed_length, checkPayloadLength.
  case_bool_decide; [intros [= <-]; apply (X 32%nat)|].
  case_bool_decide; [intros [= <-]; apply (X 33%nat)|].
  case_bool_decide as H40; [|done]. intros [= <-].
  apply list_elem_of_In in H40 as [<-|[<-|[]]]; apply (X 40%nat).
Qed.

Lemma Encode_ok v p :
  checkValidVersionByte v = None -> (length p <= maxPayloadSize)%nat -> exists s, Encode v p = Ok s.
Proof.
  intros Hv Hp. unfold Encode. rewrite Hv, (proj2 (Nat.ltb_ge _ _)) by done. by eexists.
Qed.

Lemma Encode_fixed_ok v p n :
  checkValidVersionByte v = None -> fixed_length v = Some n -> length p = n ->
  exists s, Encode v p = Ok s /\ Decode v s = Ok p.
Proof.
  intros Hv Hf Hn. pose proof (proj2 (checkPayloadLength_fixed v p n Hf) Hn) as Hc.
  destruct (Encode_ok v p Hv) as [s Hs]; [by apply (checkPayloadLength_max v)|].
  exists s. split; [done|]. by apply Encode_Decode_iff.
Qed.

Lemma Decode_fixed v s p n :
  fixed_length v = Some n -> Decode v s = Ok p -> length p = n /\ Encode v p = Ok s.
Proof.
  intros Hf [HE Hp]%Encode_Decode_iff. split; [|done]. by eapply checkPayloadLength_fixed.
Qed.

Definition padded_length (n : nat) : nat := n + (4 - n mod 4) mod 4.

Lemma padded_length_Z n : Z.of_nat (padded_length n) = (Z.of_nat n + 3) / 4 * 4.
Proof.
  unfold padded_length. rewrite Nat2Z.inj_add.
  assert (E : n = (4 * (n / 4) + n mod 4)%nat) by apply Nat.div_mod_eq.
  pose proof (Nat.mod_upper_bound n 4 ltac:(lia)) as B.
  set (q := (n / 4)%nat) in *. set (m := (n mod 4)%nat) in *. clearbody q m. subst n.
  replace (Z.of_nat (4 * q + m) + 3) with (Z.of_nat m + 3 + Z.of_nat q * 4) by lia.
  rewrite Z.div_add by lia.
  assert (E : (Z.of_nat m + 3) / 4 * 4 = Z.of_nat m + Z.of_nat ((4 - m) mod 4))
    by (destruct m as [|[|[|[|m]]]]; [reflexivity..|lia]).
  lia.
Qed.

Lemma all_zero l :
  forallb (fun b => bool_decide (b = zero_byte)) l = true <-> l = replicate (length l) zero_byte.
Proof.
  induction l as [|b l IH]; simpl; [done|]. rewrite andb_true_iff, bool_decide_eq_true, IH.
  split; [intros [-> <-]; done|]. by intros [= -> <-].
Qed.

Lemma be_put_take4 l : (4 <= length l)%nat -> be_put 4 (be_get (take 4 l)) = take 4 l.
Proof.
  intros H. assert (E : length (take 4 l) = 4%nat) by (rewrite length_take; lia).
  rewrite <- E at 1. apply be_put_get.
Qed.

(** The bytes of a signed payload: key, length of the data, data and padding. *)
Definition signed_bytes (k d : bytes) : bytes :=
  k ++ be_put 4 (go_len d) ++ d ++ replicate ((4 - length d mod 4) mod 4) zero_byte.

Lemma signed_bytes_parts k d :
  length k = 32%nat -> (length d <= 64)%nat ->
  let p := signed_bytes k d in
  take 32 p = k /\ BigEndian_Uint (take 4 (drop 32 p)) = go_len d /\
  take (Z.to_nat (go_len d)) (drop 36 p) = d /\
  drop (Z.to_nat (36 + go_len d)) p = replicate ((4 - length d mod 4) mod 4) zero_byte /\
  length p = (36 + padded_length (length d))%nat.
Proof.
  intros Hk Hd p. subst p. unfold signed_bytes, go_len.
  assert (L : length (be_put 4 (Z.of_nat (length d))) = 4%nat) by apply length_be_put.
  set (z := replicate _ _). set (h := be_put 4 _) in *.
  assert (D1 : drop 32 (k ++ h ++ d ++ z) = h ++ d ++ z) by (by apply drop_app_length').
  assert (D2 : drop 36 (k ++ h ++ d ++ z) = d ++ z).
  { change 36%nat with (32 + 4)%nat. rewrite <- drop_drop, D1. by apply drop_app_length'. }
  assert (D3 : drop (36 + length d) (k ++ h ++ d ++ z) = z)
    by (rewrite <- drop_drop, D2; apply drop_app_length).
  replace (Z.to_nat (36 + Z.of_nat (length d))) with (36 + length d)%nat by lia.
  rewrite Nat2Z.id, D1, D2, D3, take_app_length, !take_app_length' by done.
  split; [done|]. split.
  { unfold BigEndian_Uint, h. apply be_get_put. change (256 ^ Z.of_nat 4) with 4294967296. lia. }
  repeat split. subst z. unfold padded_length.
  rewrite !length_app, length_replicate, Hk, L. lia.
Qed.

Lemma checkSignedPayload_shape p :
  checkSignedPayload p = None <->
  exists k d, length k = 32%nat /\ (1 <= length d <= 64)%nat /\ p = signed_bytes k d.
Proof.
  unfold checkSignedPayload. split.
  - destruct (Z.ltb_spec (go_len p) 36) as [|H36]; [done|].
    set (dec := BigEndian_Uint _).
    destruct (Z.ltb_spec dec 1); [done|]. destruct (Z.ltb_spec maxPayloadLen dec) as [|Hm]; [done|].
    unfold maxPayloadLen in Hm. simpl.
    destruct (Z.eqb_spec (go_len p) (36 + (dec + 3) / 4 * 4)) as [Hl|]; [|done]. simpl.
    destruct (forallb _ _) eqn:Hz; [|done]. intros _. apply all_zero in Hz.
    unfold go_len in *. set (n := Z.to_nat dec) in *.
    assert (Hn : dec = Z.of_nat n) by (subst n; lia).
    rewrite Hn, <- padded_length_Z in Hl. unfold padded_length in Hl.
    set (q := ((4 - n mod 4) mod 4)%nat) in *.
    assert (Hd : length (take n (drop 36 p)) = n) by (rewrite length_take, length_drop; lia).
    assert (Hk : length (take 32 p) = 32%nat) by (rewrite length_take; lia).
    exists (take 32 p), (take n (drop 36 p)). split; [done|]. split; [lia|].
    unfold signed_bytes, go_len. rewrite Hd. fold q. rewrite <- Hn. unfold dec, BigEndian_Uint.
    rewrite be_put_take4 by (rewrite length_drop; lia).
    replace (Z.to_nat (36 + dec)) with (36 + n)%nat in Hz by lia.
    rewrite length_drop in Hz. replace (length p - (36 + n))%nat with q in Hz by lia.
    rewrite <- Hz, <- (drop_drop p n 36), take_drop.
    change 36%nat with (32 + 4)%nat. by rewrite <- (drop_drop p 4 32), !take_drop.
  - intros (k & d & Hk & Hd & ->).
    destruct (signed_bytes_parts k d Hk ltac:(lia)) as (_ & H2 & _ & H4 & H5).
    rewrite H2, H4. unfold go_len. rewrite H5.
    rewrite (proj2 (Z.ltb_ge _ _)) by lia. unfold maxPayloadLen.
    rewrite (proj2 (Z.ltb_ge _ 1)), (proj2 (Z.ltb_ge 64 _)) by lia. cbn [orb].
    rewrite Nat2Z.inj_add, padded_length_Z. change (Z.of_nat 36) with 36. rewrite Z.eqb_refl.
    cbn [negb]. by rewrite (proj2 (all_zero _)) by (by rewrite length_replicate).
Qed.

#[global] Arguments copy_array : simpl never.
#[global] Arguments zero_array : simpl never.

Lemma fixed_muxed_account : fixed_length VersionByteMuxedAccount = Some 40%nat.
Proof. done. Qed.

Lemma fixed_muxed_contract : fixed_length VersionByteMuxedContract = Some 40%nat.
Proof. done. Qed.

Lemma fixed_account : fixed_length VersionByteAccountID = Some 32%nat.
Proof. done. Qed.

Lemma vec_of_take (raw : bytes) :
  length raw = 40%nat ->
  vec_to_list (copy_array (zero_array 32) (take 32 raw)) ++ drop 32 raw = raw /\
  length (drop 32 raw) = 8%nat.
Proof.
  intros H. rewrite vec_to_list_copy by (rewrite length_take; lia).
  rewrite length_drop. split; [apply take_drop|lia].
Qed.

Lemma vec_take_app (v : vec byte 32) t :
  copy_array (zero_array 32) (take 32 (vec_to_list v ++ t)) = v /\
  drop 32 (vec_to_list v ++ t) = t.
Proof.
  rewrite take_app_length', drop_app_length' by (by rewrite length_vec_to_list).
  by rewrite copy_array_vec.
Qed.

Lemma be_put8_get l : length l = 8%nat -> be_put 8 (be_get l) = l /\ is_u64 (be_get l).
Proof.
  intros H. rewrite <- H at 1. split; [apply be_put_get|].
  pose proof (be_get_range l) as R. rewrite H in R.
  change (256 ^ Z.of_nat 8) with (MaxUint64 + 1) in R. unfold is_u64. lia.
Qed.

Lemma be_get_put8 v : is_u64 v -> be_get (be_put 8 v) = v.
Proof.
  intros H. apply be_get_put. change (256 ^ Z.of_nat 8) with (MaxUint64 + 1).
  unfold is_u64 in H. lia.
Qed.

Lemma MuxedContract_decode_iff m s :
  is_u64 (MuxedContract_id m) ->
  (DecodeMuxedContract s = Ok m <-> MuxedContract_Address m = Ok s).
Proof.
  intros Hid. unfold DecodeMuxedContract, MuxedContract_Address. split.
  - destruct (Decode _ s) as [raw|] eqn:D; [|done]. intros [= <-].
    apply (Decode_fixed _ _ _ 40) in D as [Hl HE]; [|done].
    cbn [MuxedContract_contractID MuxedContract_id].
    destruct (vec_of_take raw Hl) as [E H8]. unfold BigEndian_PutUint64, BigEndian_Uint.
    by rewrite (proj1 (be_put8_get _ H8)), E.
  - intros HE.
    destruct (Encode_fixed_ok VersionByteMuxedContract
      (vec_to_list (MuxedContract_contractID m) ++ BigEndian_PutUint64 (MuxedContract_id m)) 40)
      as (s' & HE' & HD); [done|done| |].
    { rewrite length_app, length_vec_to_list. unfold BigEndian_PutUint64. by rewrite length_be_put. }
    rewrite HE in HE'. injection HE' as <-. rewrite HD.
    destruct (vec_take_app (MuxedContract_contractID m) (BigEndian_PutUint64 (MuxedContract_id m)))
      as [-> ->].
    unfold BigEndian_PutUint64, BigEndian_Uint. rewrite be_get_put8 by done. by destruct m.
Qed.

Section RoundTrips.
Context {X : GoXdr} {XL : GoXdrLaws X}.

Lemma MuxedAccount_decode_iff m s :
  is_u64 (MuxedAccount_id m) -> MuxedAccount_ed25519 m <> zero_array 32 ->
  (DecodeMuxedAccount s = Ok m <-> MuxedAccount_Address m = Ok s).
Proof.
  intros Hid Hz. unfold DecodeMuxedAccount, MuxedAccount_Address.
  rewrite bool_decide_eq_false_2, xdr_Marshal_uint64_be by done. split.
  - destruct (Decode _ s) as [raw|] eqn:D; [|done].
    apply (Decode_fixed _ _ _ 40) in D as [Hl HE]; [|done].
    destruct (vec_of_take raw Hl) as [E H8]. rewrite xdr_Unmarshal_uint64_be by done.
    intros [= <-]. cbn [MuxedAccount_ed25519 MuxedAccount_id] in *.
    by rewrite (proj1 (be_put8_get _ H8)), E.
  - intros HE.
    destruct (Encode_fixed_ok VersionByteMuxedAccount
      (vec_to_list (MuxedAccount_ed25519 m) ++ be_put 8 (MuxedAccount_id m)) 40)
      as (s' & HE' & HD); [done|done| |].
    { by rewrite length_app, length_vec_to_list, length_be_put. }
    rewrite HE in HE'. injection HE' as <-. rewrite HD.
    destruct (vec_take_app (MuxedAccount_ed25519 m) (be_put 8 (MuxedAccount_id m))) as [-> ->].
    rewrite xdr_Unmarshal_uint64_be, be_get_put8 by (done || apply length_be_put).
    by destruct m.
Qed.

Lemma SignedPayload_decode_iff sp s :
  DecodeSignedPayload s = Ok sp <->
  NewSignedPayload (SignedPayload_signer sp) (SignedPayload_payload sp) = Ok sp /\
  SignedPayload_Encode sp = Ok s.
Proof.
  unfold DecodeSignedPayload, SignedPayload_Encode, NewSignedPayload, maxPayloadLen. split.
  - destruct (Decode VersionByteSignedPayload s) as [raw|] eqn:D; [|done].
    apply Encode_Decode_iff in D as [HE Hp].
    apply (checkSignedPayload_shape raw) in Hp as (k & d & Hk & Hd & ->).
    destruct (signed_bytes_parts k d Hk ltac:(lia)) as (P1 & P2 & P3 & _ & _).
    rewrite P1, P2, P3.
    destruct (Encode_fixed_ok VersionByteAccountID k 32) as (g & HG & HDg); [done..|].
    rewrite HG. unfold go_len in *.
    rewrite (proj2 (Z.eqb_neq _ 0)), (proj2 (Z.ltb_ge 64 _)) by lia. intros [= <-]. simpl.
    rewrite (proj2 (Z.eqb_neq _ 0)), (proj2 (Z.ltb_ge 64 _)) by lia.
    rewrite HDg, xdr_Marshal_opaque_padded. split; [done|]. exact HE.
  - destruct sp as [g d]; cbn [SignedPayload_signer SignedPayload_payload].
    destruct (Z.eqb_spec (go_len d) 0) as [|H0]; [by intros []|].
    destruct (Z.ltb_spec 64 (go_len d)) as [|H64]; [by intros []|]. intros [_ HE].
    unfold go_len in H0, H64.
    destruct (Decode VersionByteAccountID g) as [k|] eqn:Dg; [|done].
    apply (Decode_fixed _ _ _ 32) in Dg as [Hk HG]; [|done].
    rewrite xdr_Marshal_opaque_padded in HE. fold (signed_bytes k d) in HE.
    rewrite (proj2 (Encode_Decode_iff _ s (signed_bytes k d))); swap 1 2.
    { split; [exact HE|]. apply (proj2 (checkSignedPayload_shape _)). exists k, d.
      split; [done|]. split; [lia|done]. }
    destruct (signed_bytes_parts k d Hk ltac:(lia)) as (P1 & P2 & P3 & _ & _).
    rewrite P1, P2, P3, HG. unfold go_len.
    by rewrite (proj2 (Z.eqb_neq _ 0)), (proj2 (Z.ltb_ge 64 _)) by lia.
Qed.
End RoundTrips.

(** ** Properties *)

(** C40: strkeys are canonical. A string decodes to a payload under a version
    byte exactly when that payload is well formed and encodes to that very
    string, so no two strings decode alike and decoding inverts encoding; and
    [DecodeAny] always returns and agrees with [Decode] at the version it finds. *)
Theorem Decode_inverts_Encode v s p :
  (Decode v s = Ok p <-> Encode v p = Ok s /\ checkPayloadLength v p = None) /\
  (DecodeAny s = Some (Ok (v, p)) <-> Decode v s = Ok p) /\
  DecodeAny s <> None.
Proof.
  split; [apply Encode_Decode_iff|]. split; [apply DecodeAny_Ok|].
  destruct (DecodeAny_total s) as [r ->]. done.
Qed.

(** Multiplexed addresses round trip. An address decodes to a muxed
    contract exactly when the contract encodes to it, and likewise for a muxed
    account whose key is not all zeros, which [Address] refuses; and a signed
    payload decodes from a string exactly when [NewSignedPayload] accepts it and
    it encodes to that string. *)
Theorem multiplexed_addresses_roundtrip {X : GoXdr} {XL : GoXdrLaws X} ma mc sp s :
  is_u64 (MuxedAccount_id ma) -> is_u64 (MuxedContract_id mc) ->
  (MuxedAccount_ed25519 ma <> zero_array 32 ->
   (DecodeMuxedAccount s = Ok ma <-> MuxedAccount_Address ma = Ok s)) /\
  (MuxedAccount_ed25519 ma = zero_array 32 -> MuxedAccount_Address ma = Err ErrInvalidInput) /\
  (DecodeMuxedContract s = Ok mc <-> MuxedContract_Address mc = Ok s) /\
  (DecodeSignedPayload s = Ok sp <->
   NewSignedPayload (SignedPayload_signer sp) (SignedPayload_payload sp) = Ok sp /\
   SignedPayload_Encode sp = Ok s).
Proof.
  intros Ha Hc. split; [by apply MuxedAccount_decode_iff|].
  split; [by intros H; unfold MuxedAccount_Address; rewrite bool_decide_eq_true_2|].
  split; [by apply MuxedContract_decode_iff|]. apply SignedPayload_decode_iff.
Qed.

