(* ===== verification/Asset.v ===== *)
(** * Assets and accounts

    src/xdr/asset.go, account_id.go, trust_line_asset.go (trimRightZeros): the
    tagged union of assets, its printed forms, equality and order. An AccountId
    has one kind of key, so it is the 32 bytes of that key; the union's pointer
    fields are the arguments of its constructors. *)
From Stdlib Require Import ZArith Lia.
From stdpp Require Import base list vector option.
From S2P Require Import Prelude GoStd GoExt Encodings Strkey Price.
#[local] Open Scope Z_scope.
#[local] Open Scope go_scope.

(** ** Accounts *)
Definition AccountId : Type := vec byte 32.

Definition AccountId_GetAddress (aid : AccountId) : result strkey_error bytes :=
  Encode VersionByteAccountID (vec_to_list aid).
Definition AccountId_Address (aid : AccountId) : option bytes :=
  match AccountId_GetAddress aid with Ok a => Some a | Err _ => None end.
Definition AccountId_Equals (aid other : AccountId) : bool := bool_decide (aid = other).
Definition SetAddress (address : bytes) : result strkey_error AccountId :=
  match Decode VersionByteAccountID address with
  | Err e => Err e
  | Ok raw => Ok (copy_array (zero_array 32) raw)
  end.
Definition AddressToAccountId (address : bytes) : result strkey_error AccountId :=
  SetAddress address.
Definition MustAddress (address : bytes) : option AccountId :=
  match SetAddress address with Ok a => Some a | Err _ => None end.

(** ** Assets *)
Inductive AssetType := AssetTypeNative | AssetTypeCreditAlphanum4 | AssetTypeCreditAlphanum12.
#[export] Instance AssetType_eq_dec : EqDecision AssetType.
Proof. solve_decision. Defined.

Inductive Asset : Type :=
| Native
| CreditAlphanum4 (code : vec byte 4) (issuer : AccountId)
| CreditAlphanum12 (code : vec byte 12) (issuer : AccountId).

Definition Asset_Type (a : Asset) : AssetType :=
  match a with
  | Native => AssetTypeNative
  | CreditAlphanum4 _ _ => AssetTypeCreditAlphanum4
  | CreditAlphanum12 _ _ => AssetTypeCreditAlphanum12
  end.
Definition AssetType_int32 (t : AssetType) : Z :=
  match t with
  | AssetTypeNative => 0 | AssetTypeCreditAlphanum4 => 1 | AssetTypeCreditAlphanum12 => 2
  end.

Definition AssetTypeToString (t : AssetType) : bytes :=
  match t with
  | AssetTypeNative => str "native"
  | AssetTypeCreditAlphanum4 => str "credit_alphanum4"
  | AssetTypeCreditAlphanum12 => str "credit_alphanum12"
  end.
Definition StringToAssetType (s : bytes) : option AssetType :=
  if bool_decide (s = str "native") then Some AssetTypeNative
  else if bool_decide (s = str "credit_alphanum4") then Some AssetTypeCreditAlphanum4
  else if bool_decide (s = str "credit_alphanum12") then Some AssetTypeCreditAlphanum12
  else None.

Inductive asset_error : Type :=
| ErrAssetCodeLength
| ErrIssuer (e : strkey_error)
| ErrAssetType
| ErrNoIssuer.

(** ** Construction *)
Definition SetNative : Asset := Native.
Definition SetCredit (code : bytes) (issuer : AccountId) : result asset_error Asset :=
  let length := go_len code in
  if (1 <=? length) && (length <=? 4) then
    Ok (CreditAlphanum4 (copy_array (zero_array 4) code) issuer)
  else if (5 <=? length) && (length <=? 12) then
    Ok (CreditAlphanum12 (copy_array (zero_array 12) code) issuer)
  else Err ErrAssetCodeLength.
Definition NewCreditAsset (code issuer : bytes) : result asset_error Asset :=
  match SetAddress issuer with
  | Err e => Err (ErrIssuer e)
  | Ok accountID => SetCredit code accountID
  end.
Definition MustNewCreditAsset (code issuer : bytes) : option Asset :=
  match NewCreditAsset code issuer with Ok a => Some a | Err _ => None end.
Definition BuildAsset (assetType issuer code : bytes) : result asset_error Asset :=
  match StringToAssetType assetType with
  | None => Err ErrAssetType
  | Some AssetTypeNative => Ok SetNative
  | Some _ => NewCreditAsset code issuer
  end.

(** ** Extraction and printing *)

(** The index [i] of [for ; i > 0; i--], stopped at the first byte that is not zero. *)
Fixpoint trim_loop (i : nat) (b : bytes) : nat :=
  match i with
  | O => O
  | S i' => if bool_decide (b !! i' = Some zero_byte) then trim_loop i' b else i
  end.
Definition trimRightZeros (b : bytes) : bytes :=
  if (length b =? 0)%nat then b else take (trim_loop (length b) b) b.

(** The type, code and issuer [Extract] stores into three string variables
    that start empty. Encoding the issuer panics when it fails. *)
Definition Extract (a : Asset) : option (bytes * bytes * bytes) :=
  let t := AssetTypeToString (Asset_Type a) in
  match a with
  | Native => Some (t, [], [])
  | CreditAlphanum4 code issuer =>
      let! i := MustEncode VersionByteAccountID (vec_to_list issuer) in
      Some (t, trimRightZeros (vec_to_list code), i)
  | CreditAlphanum12 code issuer =>
      let! i := MustEncode VersionByteAccountID (vec_to_list issuer) in
      Some (t, trimRightZeros (vec_to_list code), i)
  end.

Definition Asset_String (a : Asset) : option bytes :=
  let! tci := Extract a in
  let '(t, c, i) := tci in
  if bool_decide (Asset_Type a = AssetTypeNative) then Some t
  else Some (t ++ str "/" ++ c ++ str "/" ++ i).

Definition StringCanonical (a : Asset) : option bytes :=
  let! tci := Extract a in
  let '(t, c, i) := tci in
  if bool_decide (Asset_Type a = AssetTypeNative) then Some t
  else Some (c ++ str ":" ++ i).

Definition Asset_Equals (a other : Asset) : bool :=
  match a, other with
  | Native, Native => true
  | CreditAlphanum4 c i, CreditAlphanum4 c' i' => bool_decide (c = c') && AccountId_Equals i i'
  | CreditAlphanum12 c i, CreditAlphanum12 c' i' => bool_decide (c = c') && AccountId_Equals i i'
  | _, _ => false
  end.

Definition GetCode (a : Asset) : bytes :=
  match a with
  | Native => []
  | CreditAlphanum4 c _ => vec_to_list c
  | CreditAlphanum12 c _ => vec_to_list c
  end.
Definition GetIssuerAccountId (a : Asset) : result asset_error AccountId :=
  match a with
  | Native => Err ErrNoIssuer
  | CreditAlphanum4 _ i => Ok i
  | CreditAlphanum12 _ i => Ok i
  end.
Definition GetIssuer (a : Asset) : bytes :=
  match GetIssuerAccountId a with
  | Err _ => []
  | Ok i => match AccountId_GetAddress i with Ok addr => addr | Err _ => [] end
  end.
Definition IsNative (a : Asset) : bool := bool_decide (Asset_Type a = AssetTypeNative).

(** The key bytes the callers of [GetIssuerAccountId] read; a native asset's
    account has none. *)
Definition issuer_key (a : Asset) : option bytes :=
  match GetIssuerAccountId a with
  | Err _ => None
  | Ok i => Some (vec_to_list i)
  end.

Definition LessThan (a b : Asset) : option bool :=
  if negb (bool_decide (Asset_Type a = Asset_Type b)) then
    Some (AssetType_int32 (Asset_Type a) <? AssetType_int32 (Asset_Type b))
  else if bool_decide (Asset_Type a = AssetTypeNative) then Some false
  else if negb (bool_decide (GetCode a = GetCode b)) then
    Some (bytes_ltb (GetCode a) (GetCode b))
  else
    let! aKey := issuer_key a in
    let! bKey := issuer_key b in
    Some (bytes_ltb aKey bKey).

#[export] Instance Asset_eq_dec : EqDecision Asset.
Proof. solve_decision. Defined.

(** ** Printed names *)
Definition account_address (k : AccountId) : bytes :=
  default [] (MustEncode VersionByteAccountID (vec_to_list k)).

Lemma account_address_Encode (k : AccountId) :
  Encode VersionByteAccountID (vec_to_list k) = Ok (account_address k) /\
  Decode VersionByteAccountID (account_address k) = Ok (vec_to_list k).
Proof.
  destruct (Encode_fixed_ok VersionByteAccountID (vec_to_list k) 32) as (s & HE & HD);
    [done|done|apply length_vec_to_list|].
  unfold account_address, MustEncode. rewrite HE. by split.
Qed.

Lemma MustEncode_account (k : AccountId) :
  MustEncode VersionByteAccountID (vec_to_list k) = Some (account_address k).
Proof. unfold MustEncode. by rewrite (proj1 (account_address_Encode k)). Qed.

#[export] Instance account_address_inj : Inj (=) (=) account_address.
Proof.
  intros k k' E. pose proof (proj2 (account_address_Encode k)) as H. rewrite E in H.
  rewrite (proj2 (account_address_Encode k')) in H. injection H as H.
  by apply vec_to_list_inj2.
Qed.

Lemma length_account_address (k : AccountId) : length (account_address k) = 56%nat.
Proof.
  pose proof (proj1 (account_address_Encode k)) as H. unfold Encode in H.
  change (checkValidVersionByte VersionByteAccountID) with (@None strkey_error) in H.
  rewrite length_vec_to_list in H. cbv zeta in H. injection H as <-.
  destruct (length_base32_Encode (VersionByteAccountID :: vec_to_list k ++
    LittleEndian_PutUint16 (Checksum (VersionByteAccountID :: vec_to_list k)))) as (r & Hr & HL).
  rewrite length_cons, length_app, length_be_put16, length_vec_to_list in HL. lia.
Qed.

(** Trimming the zeros on the right loses nothing at a fixed length. *)
Lemma trimRightZeros_padded b :
  exists n, b = trimRightZeros b ++ replicate n zero_byte.
Proof.
  unfold trimRightZeros. destruct (Nat.eqb_spec (length b) 0) as [E|_].
  { exists O. by rewrite app_nil_r. }
  assert (H : forall i, (i <= length b)%nat ->
    exists n, take i b = take (trim_loop i b) b ++ replicate n zero_byte).
  { induction i as [|i IH]; intros Hi; [by exists O|]. cbn [trim_loop].
    case_bool_decide as Hb; [|exists O; by rewrite app_nil_r].
    destruct IH as [n Hn]; [lia|]. exists (n + 1)%nat.
    rewrite (take_S_r b i zero_byte) by done. rewrite Hn, replicate_add, <- app_assoc. done. }
  destruct (H (length b)) as [n Hn]; [lia|]. exists n. by rewrite firstn_all in Hn.
Qed.

Lemma trimRightZeros_inj a b :
  length a = length b -> trimRightZeros a = trimRightZeros b -> a = b.
Proof.
  intros HL E. destruct (trimRightZeros_padded a) as [n Ha], (trimRightZeros_padded b) as [m Hb].
  rewrite Ha, Hb, E in HL |- *. rewrite !length_app, !length_replicate in HL. f_equal.
  f_equal. lia.
Qed.

(** The string of every asset; [Asset_String] returns it and never panics. *)
Definition asset_name (a : Asset) : bytes :=
  match a with
  | Native => str "native"
  | CreditAlphanum4 c i =>
      str "credit_alphanum4" ++ str "/" ++ trimRightZeros (vec_to_list c) ++ str "/" ++
      account_address i
  | CreditAlphanum12 c i =>
      str "credit_alphanum12" ++ str "/" ++ trimRightZeros (vec_to_list c) ++ str "/" ++
      account_address i
  end.

Lemma Asset_String_name a : Asset_String a = Some (asset_name a).
Proof.
  unfold Asset_String, Extract. destruct a as [|c i|c i]; [done|..].
  - rewrite MustEncode_account. done.
  - rewrite MustEncode_account. done.
Qed.

Lemma app_inj_tail_len {A} (a b c d : list A) :
  length b = length d -> a ++ b = c ++ d -> a = c /\ b = d.
Proof. intros H E. by apply app_inj_2. Qed.

#[export] Instance asset_name_inj : Inj (=) (=) asset_name.
Proof.
  intros [|c i|c i] [|c' i'|c' i'] E; try discriminate E; [done|..].
  all: unfold asset_name in E; apply app_inv_head in E; apply app_inv_head in E;
    rewrite !app_assoc in E; apply app_inj_tail_len in E as [E Ei];
    [|by rewrite !length_account_address]; apply account_address_inj in Ei as <-;
    apply app_inv_tail, trimRightZeros_inj in E; [|by rewrite !length_vec_to_list];
    apply vec_to_list_inj2 in E as <-; done.
Qed.

Lemma asset_name_nonempty a : asset_name a <> [].
Proof. by destruct a. Qed.

Lemma Asset_Equals_spec a b : Asset_Equals a b = bool_decide (a = b).
Proof.
  unfold Asset_Equals, AccountId_Equals. symmetry.
  destruct a as [|c i|c i], b as [|c' i'|c' i']; try done;
    case_bool_decide as E.
  1,3: injection E as <- <-; by rewrite !bool_decide_eq_true_2.
  all: case_bool_decide as E1; case_bool_decide as E2; simpl; congruence.
Qed.

(** ** The XDR order *)

(** The XDR encoding of an asset: its type, its code, the type of its issuer's
    key and the key. *)
Definition asset_xdr (a : Asset) : bytes :=
  be_put 4 (AssetType_int32 (Asset_Type a)) ++
  match a with
  | Native => []
  | CreditAlphanum4 c i => vec_to_list c ++ be_put 4 0 ++ vec_to_list i
  | CreditAlphanum12 c i => vec_to_list c ++ be_put 4 0 ++ vec_to_list i
  end.

Lemma bytes_ltb_app a b c d :
  length a = length b ->
  bytes_ltb (a ++ c) (b ++ d) =
  if negb (bool_decide (a = b)) then bytes_ltb a b else bytes_ltb c d.
Proof.
  revert b; induction a as [|x a IH]; intros [|y b] HL; try done. simpl.
  injection HL as HL. rewrite IH by done.
  destruct (Z.ltb_spec (Z_of_byte x) (Z_of_byte y)) as [H|H]; simpl.
  - rewrite bool_decide_eq_false_2; [done|]. intros [= -> _]. lia.
  - destruct (Z.eqb_spec (Z_of_byte x) (Z_of_byte y)) as [E|E]; simpl.
    + apply Z_of_byte_inj in E as ->.
      by rewrite (bool_decide_ext (y :: a = y :: b) (a = b)) by (split; congruence).
    + rewrite bool_decide_eq_false_2; [done|]. congruence.
Qed.

Lemma LessThan_xdr a b : LessThan a b = Some (bytes_ltb (asset_xdr a) (asset_xdr b)).
Proof.
  unfold LessThan, asset_xdr. rewrite bytes_ltb_app by (by rewrite !length_be_put).
  destruct a as [|c i|c i], b as [|c' i'|c' i']; try reflexivity.
  all: cbn [Asset_Type AssetType_int32 GetCode GetIssuerAccountId issuer_key].
  all: rewrite !bool_decide_eq_true_2 by done; cbn [negb];
    rewrite bool_decide_eq_false_2 by done; cbn [negb];
    rewrite bytes_ltb_app by (by rewrite !length_vec_to_list);
    destruct (negb _); [done|];
    by rewrite bytes_ltb_app_same.
Qed.

#[export] Instance asset_xdr_inj : Inj (=) (=) asset_xdr.
Proof.
  unfold asset_xdr. intros a b E. apply app_inj_1 in E as [E1 E2]; [|by rewrite !length_be_put].
  destruct a as [|c i|c i], b as [|c' i'|c' i']; try discriminate E1; [done|..].
  all: apply app_inj_1 in E2 as [Ec E2]; [|by rewrite !length_vec_to_list];
    apply app_inv_head in E2; apply vec_to_list_inj2 in Ec as <-;
    apply vec_to_list_inj2 in E2 as <-; done.
Qed.

Lemma length_copy_code n (code : bytes) :
  (length code <= n)%nat ->
  vec_to_list (copy_array (zero_array n) code) = code ++ replicate (n - length code) zero_byte.
Proof.
  unfold zero_array. revert code; induction n as [|n IH]; intros [|c code] H; simpl in H;
    [done|lia|..].
  - change (vec_to_list (vreplicate (S n) zero_byte) = replicate (S n) zero_byte).
    apply vec_to_list_replicate.
  - change (c :: vec_to_list (copy_array (vreplicate n zero_byte) code) =
            c :: code ++ replicate (n - length code) zero_byte).
    f_equal. apply IH. lia.
Qed.

Lemma trimRightZeros_app_zeros b n :
  list.last b <> Some zero_byte -> trimRightZeros (b ++ replicate n zero_byte) = b.
Proof.
  intros Hb. destruct (trimRightZeros_padded (b ++ replicate n zero_byte)) as [m Hm].
  unfold trimRightZeros in *. destruct (Nat.eqb_spec (length (b ++ replicate n zero_byte)) 0) as [E|E].
  { apply nil_length_inv in E. rewrite E. by apply app_eq_nil in E as [-> _]. }
  assert (H : forall i, (length b <= i <= length b + n)%nat ->
    trim_loop i (b ++ replicate n zero_byte) = length b).
  { induction i as [|i IH]; intros Hi; simpl; [lia|].
    destruct (decide (i < length b)%nat) as [Hi'|Hi'].
    - rewrite bool_decide_eq_false_2; [lia|]. rewrite lookup_app_l by done.
      rewrite last_lookup in Hb. by replace (pred (length b)) with i in Hb by lia.
    - rewrite bool_decide_eq_true_2; [apply IH; lia|].
      rewrite lookup_app_r, lookup_replicate by lia. split; [done|lia]. }
  rewrite H by (rewrite length_app, length_replicate; lia). apply take_app_length.
Qed.

Lemma SetCredit_Ok code issuer a :
  SetCredit code issuer = Ok a ->
  (1 <= length code <= 4)%nat /\ a = CreditAlphanum4 (copy_array (zero_array 4) code) issuer \/
  (5 <= length code <= 12)%nat /\ a = CreditAlphanum12 (copy_array (zero_array 12) code) issuer.
Proof.
  unfold SetCredit, go_len. repeat case_bool; intros [= <-]; [left|right]; (split; [lia|done]).
Qed.

(** [SetCredit] keeps the code and the issuer it is given. *)
Lemma SetCredit_Extract code issuer a :
  SetCredit code issuer = Ok a -> list.last code <> Some zero_byte ->
  Extract a = Some (AssetTypeToString (Asset_Type a), code, account_address issuer) /\
  Asset_Type a = (if go_len code <=? 4 then AssetTypeCreditAlphanum4 else AssetTypeCreditAlphanum12).
Proof.
  unfold go_len. intros [[H ->]|[H ->]]%SetCredit_Ok Hl.
  all: unfold Extract; rewrite MustEncode_account, length_copy_code by lia;
    rewrite trimRightZeros_app_zeros by done; split; [done|].
  - by rewrite (proj2 (Z.leb_le _ _)) by lia.
  - by rewrite (proj2 (Z.leb_gt _ _)) by lia.
Qed.

(** ** Properties *)

(** An asset's string is a faithful name. [String] never panics, two assets
    have the same string exactly when they are equal, which is what [Equals]
    tests, and the string is never empty. *)
Theorem Asset_String_faithful a b :
  exists s t, Asset_String a = Some s /\ Asset_String b = Some t /\ s <> [] /\
    (s = t <-> a = b) /\ (Asset_Equals a b = true <-> a = b).
Proof.
  exists (asset_name a), (asset_name b). rewrite !Asset_String_name, Asset_Equals_spec.
  split; [done|]. split; [done|]. split; [apply asset_name_nonempty|].
  split; [|apply bool_decide_eq_true]. split; [apply (inj asset_name)|congruence].
Qed.

(** [LessThan] orders assets the way their XDR encodings are ordered: it
    never panics, it holds exactly when the encoding of the first is
    lexicographically smaller, and it is a strict total order on assets. *)
Theorem LessThan_xdr_order a b c :
  LessThan a b = Some (bytes_ltb (asset_xdr a) (asset_xdr b)) /\
  LessThan a a = Some false /\
  (LessThan a b = Some true -> LessThan b c = Some true -> LessThan a c = Some true) /\
  (LessThan a b = Some true \/ a = b \/ LessThan b a = Some true).
Proof.
  rewrite !LessThan_xdr. split; [done|]. split; [by rewrite bytes_ltb_irrefl|]. split.
  - rewrite !(inj_iff Some). intros H1 H2. by apply (bytes_ltb_trans _ (asset_xdr b)).
  - destruct (bytes_ltb_total (asset_xdr a) (asset_xdr b)) as [H|[E|H]]; [rewrite H; auto| |rewrite H; auto].
    right; left. by apply (inj asset_xdr).
Qed.

(** A credit asset keeps its code and issuer. When [NewCreditAsset] accepts
    a code that does not end in a zero byte and an issuer's address, the asset
    it builds extracts to that code and that very address, its type is chosen by
    the code's length, and its canonical form is the code and the address. *)
Theorem NewCreditAsset_Extract code issuer a :
  NewCreditAsset code issuer = Ok a -> list.last code <> Some zero_byte ->
  Extract a = Some (AssetTypeToString (Asset_Type a), code, issuer) /\
  Asset_Type a =
    (if go_len code <=? 4 then AssetTypeCreditAlphanum4 else AssetTypeCreditAlphanum12) /\
  StringCanonical a = Some (code ++ str ":" ++ issuer).
Proof.
  unfold NewCreditAsset, SetAddress. intros H Hl.
  destruct (Decode VersionByteAccountID issuer) as [raw|e] eqn:D; [|done].
  apply (Decode_fixed _ _ _ 32) in D as [HL HE]; [|done].
  destruct (SetCredit_Extract _ _ _ H Hl) as [HX Ht].
  assert (account_address (copy_array (zero_array 32) raw) = issuer) as Ei.
  { unfold account_address, MustEncode. by rewrite vec_to_list_copy, HE. }
  rewrite Ei in HX. split; [done|]. split; [done|]. unfold StringCanonical. rewrite HX, Ht.
  by destruct (go_len code <=? 4).
Qed.

(** ** Ledger entries of the order book

    The structures of src/xdr/xdr_generated.go the order book keeps: offers and
    liquidity pools. A pool body's pointer to its constant-product arm is an
    option, [None] being nil. *)
(** ** Offers *)
Record OfferEntry : Type := mkOfferEntry {
  SellerId : AccountId;
  OfferId : Z;
  Selling : Asset;
  Buying : Asset;
  Amount : Z;
  OfferPrice : Price;
  Flags : Z;
  ExtV : Z
}.
#[export] Instance OfferEntry_eq_dec : EqDecision OfferEntry.
Proof. solve_decision. Defined.

(** ** Liquidity pools *)
Definition PoolId : Type := vec byte 32.

Record PoolParameters : Type := mkPoolParameters { AssetA : Asset; AssetB : Asset; Fee : Z }.

Record ConstantProductPool : Type := mkConstantProductPool {
  Params : PoolParameters;
  ReserveA : Z;
  ReserveB : Z;
  TotalPoolShares : Z;
  PoolSharesTrustLineCount : Z
}.

Record PoolBody : Type := mkPoolBody {
  PoolType : Z;
  ConstantProduct : option ConstantProductPool
}.

Record LiquidityPoolEntry : Type := mkLiquidityPoolEntry {
  LiquidityPoolId : PoolId;
  Body : PoolBody
}.
#[export] Instance PoolParameters_eq_dec : EqDecision PoolParameters.
Proof. solve_decision. Defined.
#[export] Instance ConstantProductPool_eq_dec : EqDecision ConstantProductPool.
Proof. solve_decision. Defined.
#[export] Instance PoolBody_eq_dec : EqDecision PoolBody.
Proof. solve_decision. Defined.
#[export] Instance LiquidityPoolEntry_eq_dec : EqDecision LiquidityPoolEntry.
Proof. solve_decision. Defined.

(** The zero values of the Go types. *)
Definition zero_pool_entry : LiquidityPoolEntry :=
  mkLiquidityPoolEntry (zero_array 32) (mkPoolBody 0 None).

(** The result and its ok flag ([Some None] is a false flag); a nil arm
    under the type that names it is a nil dereference. *)
Definition GetConstantProduct (b : PoolBody) : option (option ConstantProductPool) :=
  if PoolType b =? 0 then
    let! cp := ConstantProduct b in Some (Some cp)
  else Some None.

Definition MustConstantProduct (b : PoolBody) : option ConstantProductPool :=
  let! r := GetConstantProduct b in r.

(** src/exp/orderbook/utils.go *)
Definition getPoolAssets (pool : LiquidityPoolEntry) : option (Asset * Asset) :=
  let! cp := MustConstantProduct (Body pool) in
  Some (AssetA (Params cp), AssetB (Params cp)).

Definition positiveMin (a b : Z) : Z :=
  if b <=? 0 then a
  else if (b <? a) || (a <=? 0) then b
  else a.

(** A pool of a ledger: a constant-product body. *)
Definition pool_of (p : LiquidityPoolEntry) (cp : ConstantProductPool) : Prop :=
  PoolType (Body p) = 0 /\ ConstantProduct (Body p) = Some cp.

Lemma pool_of_MustConstantProduct p cp :
  pool_of p cp <-> MustConstantProduct (Body p) = Some cp.
Proof.
  unfold pool_of, MustConstantProduct, GetConstantProduct.
  destruct (Z.eqb_spec (PoolType (Body p)) 0) as [E|E].
  - destruct (ConstantProduct (Body p)); split; [intros [_ [= ->]]; done|intros [= ->]; done|by intros []|done].
  - split; [by intros []|done].
Qed.

Lemma pool_of_getPoolAssets p cp :
  pool_of p cp -> getPoolAssets p = Some (AssetA (Params cp), AssetB (Params cp)).
Proof. intros H%pool_of_MustConstantProduct. unfold getPoolAssets. by rewrite H. Qed.

Lemma positiveMin_spec a b :
  positiveMin a b =
  if (0 <? a) && (0 <? b) then Z.min a b else if 0 <? b then b else a.
Proof. unfold positiveMin. repeat case_bool; lia. Qed.
