(* ===== verification/Amount.v ===== *)
(** * Amounts

    src/amount/main.go: integers of 10^-7 units to and from decimal text. The
    numbers go through [math/big.Rat]. [None] is a panic. *)
From Stdlib Require Import ZArith Lia QArith Qreduction.
From stdpp Require Import base list option.
From S2P Require Import Prelude GoStd Decimal.
#[local] Open Scope Z_scope.
#[local] Open Scope go_scope.

Definition One : Z := 10000000.
Definition bigOne : Q := rat_make One 1.

Inductive amount_error : Type :=
| ErrInvalidAmountFormat
| ErrCannotParseAmount
| ErrSignificantDigits
| ErrOutsideBounds (e : num_error).

(** Without its leading minus sign. *)
Definition drop_sign (v : bytes) : bytes :=
  match v with
  | c :: v' => if bool_decide (c = minus_sign) then v' else v
  | [] => []
  end.

(** [^-?[.0-9]{1,20}$] *)
Definition validAmountSimple (v : bytes) : bool :=
  let body := drop_sign v in
  (1 <=? go_len body) && (go_len body <=? 20) &&
  forallb (fun c => is_digit c || bool_decide (c = dot)) body.

(** [^-?[0-9]+$] *)
Definition negativePositiveNumberOnly (v : bytes) : bool :=
  let body := drop_sign v in
  (1 <=? go_len body) && forallb is_digit body.

Definition ParseInt64 (v : bytes) : result amount_error Z :=
  if negb (validAmountSimple v) then Err ErrInvalidAmountFormat
  else
    match rat_SetString v with
    | None => Err ErrCannotParseAmount
    | Some r =>
        let r := rat_Mul r bigOne in
        if negb (rat_IsInt r) then Err ErrSignificantDigits
        else
          match ParseInt (rat_FloatString r 0) 64 with
          | Err e => Err (ErrOutsideBounds e)
          | Ok i => Ok i
          end
    end.

Definition Parse (v : bytes) : result amount_error Z :=
  match ParseInt64 v with
  | Err e => Err e
  | Ok i => Ok i
  end.

Definition MustParse (v : bytes) : option Z :=
  match Parse v with
  | Err _ => None
  | Ok ret => Some ret
  end.

Definition MustParseInt64Raw (v : bytes) : option Z :=
  match ParseInt v 64 with
  | Err _ => None
  | Ok i => Some i
  end.

Definition IntStringToAmount (v : bytes) : result amount_error bytes :=
  if negb (negativePositiveNumberOnly v) then Err ErrInvalidAmountFormat
  else
    let negative := match v with c :: _ => bool_decide (c = minus_sign) | [] => false end in
    let v := if negative then drop 1 v else v in
    let l := length v in
    let r := if (l <=? 7)%nat then [zero_digit; dot] ++ replicate (7 - l) zero_digit ++ v
             else take (l - 7) v ++ [dot] ++ drop (l - 7) v in
    Ok (if negative then minus_sign :: r else r).

Definition StringFromInt64 (v : Z) : option bytes :=
  let r := rat_make v 1 in
  let! r := rat_Quo r bigOne in
  Some (rat_FloatString r 7).

Definition String_ (v : Z) : option bytes := StringFromInt64 v.

Record Int128Parts : Type := mkInt128Parts { Hi : Z; Lo : Z }.

(** [val.Lsh(val, 64).Add(val, lo)], signed by the upper half. *)
Definition int128_val (v : Int128Parts) : Z := Z.shiftl (Hi v) 64 + Lo v.

Definition String128 (v : Int128Parts) : option bytes :=
  let val := int128_val v in
  let rat := rat_make val 1 in
  let! rat := rat_Quo rat bigOne in
  Some (rat_FloatString rat 7).

Definition String64Raw (v : Z) : bytes := FormatInt v.
Definition String128Raw (v : Int128Parts) : bytes := FormatInt (int128_val v).

(** ** The numbers *)

Lemma Qred_inject x i : (x == inject_Z i)%Q -> Qred x = inject_Z i.
Proof. intros H. rewrite (Qred_complete _ _ H). apply Qred_int. Qed.

Lemma rat_IsInt_inject x : rat_IsInt x = true <-> x = inject_Z (Qnum x).
Proof.
  unfold rat_IsInt, rat_Denom, inject_Z. destruct x as [n d]; cbn [Qnum Qden]. rewrite Z.eqb_eq.
  split; by intros [= ->].
Qed.

Lemma Qred_IsInt x : rat_IsInt (Qred x) = true <-> exists i, (x == inject_Z i)%Q.
Proof.
  rewrite rat_IsInt_inject. split.
  - intros H. exists (Qnum (Qred x)). rewrite <- H. symmetry. apply Qred_correct.
  - intros [i H]. by rewrite (Qred_inject _ _ H).
Qed.

(** A numerator over [10^f], times ten million. *)
Lemma scaled_eq m f i :
  (rat_make m (10 ^ Z.of_nat f) * bigOne == inject_Z i)%Q <-> i * 10 ^ Z.of_nat f = m * One.
Proof.
  assert (0 < 10 ^ Z.of_nat f) as Hp by (apply Z.pow_pos_nonneg; lia).
  assert (bigOne = inject_Z One) as -> by reflexivity.
  unfold rat_make. rewrite Qred_correct. unfold Qeq, Qmult, inject_Z; cbn [Qnum Qden].
  rewrite Pos.mul_1_r, Z2Pos.id by done. lia.
Qed.

Lemma rat_FloatString_int i : rat_FloatString (inject_Z i) 0 = FormatInt i.
Proof. unfold rat_FloatString. cbn. by rewrite app_nil_r. Qed.

(** [ParseInt64] once the text is read as [m / 10^f]. *)
Lemma ParseInt64_value v m f i :
  validAmountSimple v = true -> rat_SetString v = Some (rat_make m (10 ^ Z.of_nat f)) ->
  ParseInt64 v = Ok i <-> i * 10 ^ Z.of_nat f = m * One /\ is_i64 i.
Proof.
  intros Hv Hr. unfold ParseInt64. rewrite Hv, Hr. cbn [negb]. unfold rat_Mul.
  destruct (rat_IsInt _) eqn:Hi; cbn [negb].
  - apply Qred_IsInt in Hi as [j Hj]. rewrite (Qred_inject _ _ Hj), rat_FloatString_int.
    apply scaled_eq in Hj. pose proof (ParseInt_FormatInt j i) as HP.
    assert (0 < 10 ^ Z.of_nat f) as Hp by (apply Z.pow_pos_nonneg; lia).
    destruct (ParseInt (FormatInt j) 64) as [k|e]; split.
    + intros [= ->]. destruct (proj1 HP eq_refl) as [-> ?]. done.
    + intros [E Hb]. assert (i = j) as -> by nia. by pose proof (proj2 HP (conj eq_refl Hb)) as [= ->].
    + done.
    + intros [E Hb]. assert (i = j) as -> by nia. by pose proof (proj2 HP (conj eq_refl Hb)) as [= ->].
  - split; [done|]. intros [E _]. exfalso. apply scaled_eq in E.
    assert (rat_IsInt (Qred (rat_make m (10 ^ Z.of_nat f) * bigOne)) = true) by (apply Qred_IsInt; by exists i).
    congruence.
Qed.

(** ** What counts as an amount *)

(** A decimal: a sign, digits, and perhaps a point and more digits. *)
Record decimal : Type := mkDecimal { dneg : bool; dint : bytes; dpoint : bool; dfrac : bytes }.

Definition sign_text (neg : bool) : bytes := if neg then [minus_sign] else [].
Definition body_text (d : decimal) : bytes := dint d ++ (if dpoint d then dot :: dfrac d else []).
Definition decimal_text (d : decimal) : bytes := sign_text (dneg d) ++ body_text d.

(** At least one digit, no digits after an absent point, and 1 to 20 bytes. *)
Definition decimal_ok (d : decimal) : Prop :=
  Forall (fun c => is_digit c = true) (dint d ++ dfrac d) /\ dint d ++ dfrac d <> [] /\
  (dpoint d = false -> dfrac d = []) /\ (length (body_text d) <= 20)%nat.

Definition mantissa (d : decimal) : Z := (if dneg d then -1 else 1) * dec_val (dint d ++ dfrac d).

Lemma digit_facts c : is_digit c = true -> c <> minus_sign /\ c <> plus_sign /\ c <> dot.
Proof. intros Hc%is_digit_val. split_and!; intros ->; destruct Hc as [Hc _]; by apply Hc. Qed.

Lemma drop_sign_text neg body :
  (forall c l, body = c :: l -> c <> minus_sign) -> drop_sign (sign_text neg ++ body) = body.
Proof.
  intros Hb. unfold drop_sign, sign_text. destruct neg; simpl; [done|].
  destruct body as [|c l]; [done|]. rewrite bool_decide_eq_false_2; [done|]. by eapply Hb.
Qed.

Lemma body_head d : Forall (fun c => is_digit c = true) (dint d ++ dfrac d) ->
  forall c l, body_text d = c :: l -> c <> minus_sign /\ c <> plus_sign.
Proof.
  unfold body_text. intros Hd c l. destruct (dint d) as [|x xs]; cbn [app].
  - destruct (dpoint d); [|done]. by intros [= <- _].
  - intros [= <- _]. inversion Hd as [|? ? Hx _]; subst. by apply digit_facts in Hx as (? & ? & _).
Qed.

(** The text of a decimal is read as its mantissa over a power of ten. *)
Lemma rat_SetString_text d :
  decimal_ok d -> rat_SetString (decimal_text d) = Some (rat_make (mantissa d) (10 ^ Z.of_nat (length (dfrac d)))).
Proof.
  intros (Hd & Hne & Hp & _).
  assert (Hscan : scan_mantissa (body_text d) false 0 0 0 =
    Some (dec_val (dint d ++ dfrac d), length (dint d ++ dfrac d), length (dfrac d))).
  { pose proof Hd as [Hi Hf]%Forall_app. unfold body_text. rewrite scan_mantissa_digits by done.
    rewrite length_app. unfold dec_val. rewrite dec_val_from_app. destruct (dpoint d) eqn:Ep.
    - simpl. rewrite <- (app_nil_r (dfrac d)) at 1. rewrite scan_mantissa_digits by done. done.
    - rewrite Hp by done. simpl. do 2 f_equal. f_equal. lia. }
  assert (exists k, length (dint d ++ dfrac d) = S k) as [k Hk].
  { destruct (dint d ++ dfrac d) as [|? l]; [done|]. by exists (length l). }
  rewrite Hk in Hscan. pose proof (body_head d Hd) as Hb.
  unfold rat_SetString, decimal_text, sign_text, mantissa.
  destruct (dneg d); cbn [app].
  - rewrite (bool_decide_eq_true_2 (minus_sign = minus_sign) eq_refl). rewrite Hscan. do 2 f_equal.
  - destruct (body_text d) as [|c l] eqn:Eb; [by simpl in Hscan|].
    destruct (Hb c l eq_refl) as [Hm Hpl]. rewrite !bool_decide_eq_false_2 by done.
    rewrite Hscan. do 2 f_equal. lia.
Qed.

Lemma valid_text d : decimal_ok d -> validAmountSimple (decimal_text d) = true.
Proof.
  intros (Hd & Hne & Hp & Hlen). unfold validAmountSimple, decimal_text.
  rewrite drop_sign_text by (intros; by eapply body_head).
  unfold go_len. rewrite !andb_true_iff, !Z.leb_le. split_and!; [|lia|].
  - destruct (body_text d) eqn:E; [|simpl; lia]. exfalso. apply Hne.
    unfold body_text in E. destruct (dint d); [|done]. destruct (dpoint d); [done|]. by rewrite Hp.
  - apply forallb_forall. unfold body_text. apply Forall_app in Hd as [Hi Hf].
    rewrite List.Forall_forall in Hi, Hf. intros c [Hc|Hc]%in_app_or; [by rewrite (Hi c Hc)|].
    destruct (dpoint d); [|done]. destruct Hc as [<-|Hc]; [|by rewrite (Hf c Hc)].
    by rewrite (bool_decide_eq_true_2 (dot = dot) eq_refl), orb_true_r.
Qed.

(** Conversely, what the regular expression and [SetString] both accept is a
    decimal. *)
Lemma scan_mantissa_inv l : forall seen m count frac r,
  scan_mantissa l seen m count frac = Some r ->
  (seen = true /\ Forall (fun c => is_digit c = true) l) \/
  (seen = false /\ exists ip pt fp, l = ip ++ (if (pt : bool) then dot :: fp else []) /\
    (pt = false -> fp = []) /\ Forall (fun c => is_digit c = true) (ip ++ fp)).
Proof.
  induction l as [|c l IH]; intros seen m count frac r H.
  - destruct seen; [left|right; split; [done|exists [], false, []]]; done.
  - cbn [scan_mantissa] in H. destruct (bool_decide_reflect (c = dot)) as [->|Hc].
    + destruct seen; [done|]. apply IH in H as [[_ H]|[? _]]; [|done].
      right. split; [done|]. by exists [], true, l.
    + destruct (digit_val c) as [v|] eqn:Ev; [|done].
      assert (is_digit c = true) as Hd by (unfold is_digit; by rewrite Ev).
      apply IH in H as [[-> H]|(-> & ip & pt & fp & -> & Hp & H)].
      * left. split; [done|by constructor].
      * right. split; [done|]. exists (c :: ip), pt, fp. split_and!; [done|done|by constructor].
Qed.

Lemma amount_decimal v r :
  validAmountSimple v = true -> rat_SetString v = Some r -> exists d, decimal_ok d /\ v = decimal_text d.
Proof.
  intros Hv Hr.
  assert (exists neg body, v = sign_text neg ++ body /\ drop_sign v = body) as (neg & body & -> & Hd).
  { destruct v as [|c v]; [by exists false, []|]. cbn [drop_sign].
    destruct (bool_decide_reflect (c = minus_sign)) as [->|]; [by exists true, v|by exists false, (c :: v)]. }
  unfold validAmountSimple in Hv. rewrite Hd in Hv. apply andb_true_iff in Hv as [[H1 H20]%andb_true_iff Hall].
  unfold go_len in *. bool_to_prop.
  assert (exists x, scan_mantissa body false 0 0 0 = Some x /\ x.1.2 <> O) as ([[m n] f] & Hs & Hn).
  { unfold rat_SetString, sign_text in Hr. destruct neg; cbn [app] in Hr.
    - rewrite (bool_decide_eq_true_2 (minus_sign = minus_sign) eq_refl) in Hr.
      destruct (scan_mantissa body false 0 0 0) as [[[m [|n]] f]|]; try done. by exists (m, S n, f).
    - destruct body as [|c l]; [simpl in H1; lia|].
      rewrite !bool_decide_eq_false_2 in Hr.
      + destruct (scan_mantissa (c :: l) false 0 0 0) as [[[m [|n]] f]|]; try done. by exists (m, S n, f).
      + cbn [forallb] in Hall. intros ->. by vm_compute in Hall.
      + intros ->. cbn [sign_text app drop_sign] in Hd.
        rewrite (bool_decide_eq_true_2 (minus_sign = minus_sign) eq_refl) in Hd.
        apply (f_equal length) in Hd. simpl in Hd. lia. }
  pose proof Hs as [[? _]|(_ & ip & pt & fp & -> & Hp & Hdig)]%scan_mantissa_inv; [done|].
  exists (mkDecimal neg ip pt fp). split; [|done]. split_and!; [done| |done|unfold body_text; simpl; lia].
  cbn [dint dfrac]. intros [-> ->]%app_eq_nil. simpl in Hs. destruct pt; simpl in Hs; injection Hs as <- <- <-; done.
Qed.

(** ** The text of an amount *)

(** Sign, whole units, a point and seven digits. *)
Definition amount_text (n : Z) : bytes :=
  sign_text (n <? 0) ++ FormatUint (Z.abs n / One) ++ dot :: pad_zeros 7 (FormatUint (Z.abs n mod One)).

Lemma FormatInt_abs n : FormatInt n = sign_text (n <? 0) ++ FormatUint (Z.abs n).
Proof. unfold FormatInt. destruct (Z.ltb_spec n 0); cbn [sign_text app]; by rewrite ?Z.abs_neq, ?Z.abs_eq by lia. Qed.

Lemma rat_FloatString_amount n : rat_FloatString (Qred (n # 10000000)) 7 = amount_text n.
Proof.
  pose proof (Qred_correct (n # 10000000)) as Hq.
  assert (Hco : Z.gcd (Qnum (Qred (n # 10000000))) (Z.pos (Qden (Qred (n # 10000000)))) = 1)
    by apply (rat_make_reduced n 10000000).
  set (r := Qred (n # 10000000)) in *.
  unfold Qeq in Hq; cbn [Qnum Qden] in Hq.
  assert (exists k, 10000000 = k * Z.pos (Qden r)) as [k Hk].
  { apply (Z.gauss _ (Qnum r)); [exists n; lia|]. by rewrite Z.gcd_comm. }
  assert (0 < k) by lia.
  assert (Hn : n = Qnum r * k) by (apply (Z.mul_reg_r _ _ (Z.pos (Qden r))); [done|rewrite <- Z.mul_assoc, <- Hk; lia]).
  unfold rat_FloatString, rat_IsInt, rat_Denom, rat_Num, amount_text, One.
  set (a := Qnum r) in *. set (b := Z.pos (Qden r)) in *.
  assert (Hb : 0 < b) by (subst b; lia). clearbody a b. clear Hq Hco r.
  assert (Hs : (a <? 0) = (n <? 0)) by (destruct (Z.ltb_spec a 0), (Z.ltb_spec n 0); nia).
  assert (Habs : Z.abs n = Z.abs a * k) by nia.
  destruct (Z.eqb_spec b 1) as [->|Hb1].
  - replace k with 10000000 in * by lia.
    rewrite FormatInt_abs, Hs, Habs, Z.div_mul, Z.mod_mul, <- app_assoc by done. done.
  - rewrite Hs. change (Z.of_nat 7) with 7. change (10 ^ 7) with 10000000.
    pose proof (Z.mod_pos_bound (Z.abs a) b Hb).
    replace (Z.abs a mod b * 10000000) with (Z.abs a mod b * k * b) by (rewrite Hk; ring).
    rewrite Z.div_mul, Z.mod_mul by lia. change (0 + 0) with 0. rewrite (proj2 (Z.leb_gt _ _)) by lia.
    rewrite Habs, Hk. rewrite (Z.mul_comm k b), Z.div_mul_cancel_r, Z.mul_mod_distr_r by lia. done.
Qed.

Lemma rat_Quo_amount n : rat_Quo (rat_make n 1) bigOne = Some (Qred (n # 10000000)).
Proof.
  unfold rat_Quo. change (rat_Num bigOne =? 0) with false. cbv iota. f_equal. apply Qred_complete.
  change bigOne with (10000000 # 1). unfold rat_make. rewrite Qred_correct.
  unfold Qeq, Qdiv, Qinv, Qmult; cbn. lia.
Qed.

Lemma IntStringToAmount_digits n : 0 <= n ->
  let v := FormatUint n in
  (if (length v <=? 7)%nat then [zero_digit; dot] ++ replicate (7 - length v) zero_digit ++ v
   else take (length v - 7) v ++ [dot] ++ drop (length v - 7) v) =
  FormatUint (n / One) ++ dot :: pad_zeros 7 (FormatUint (n mod One)).
Proof.
  intros Hn v. pose proof (FormatUint_length n 7 Hn ltac:(lia)) as Hlen. change (10 ^ Z.of_nat 7) with One in Hlen.
  destruct (Nat.leb_spec (length v) 7) as [Hle|Hgt].
  - apply Hlen in Hle. rewrite Z.div_small, Z.mod_small by lia. done.
  - assert (One <= n) as Hge.
    { destruct (Z.le_gt_cases One n); [done|]. pose proof (proj2 Hlen ltac:(lia)). subst v. lia. }
    assert (One <> 0) by done.
    destruct (padded_digits 7 (n mod One)) as (_ & _ & Hpl); [apply Z.mod_pos_bound; done|lia|].
    pose proof (FormatUint_split n 7 ltac:(lia) Hge) as Hs. change (10 ^ Z.of_nat 7) with One in Hs.
    subst v. rewrite Hs. rewrite length_app, Hpl, Nat.add_sub.
    by rewrite take_app_length, drop_app_length.
Qed.

Lemma IntStringToAmount_FormatInt n : IntStringToAmount (FormatInt n) = Ok (amount_text n).
Proof.
  destruct (FormatUint_spec (Z.abs n)) as (Hne & Hd & _); [lia|].
  pose proof (IntStringToAmount_digits (Z.abs n) (Z.abs_nonneg n)) as HD. cbv zeta in HD.
  assert (Hhd : forall c l, FormatUint (Z.abs n) = c :: l -> c <> minus_sign).
  { intros c l E. rewrite E in Hd. inversion Hd as [|? ? Hc _]; subst. by apply (digit_facts c). }
  unfold IntStringToAmount, negativePositiveNumberOnly, amount_text. rewrite FormatInt_abs, drop_sign_text by done.
  assert ((1 <=? go_len (FormatUint (Z.abs n))) && forallb is_digit (FormatUint (Z.abs n)) = true) as ->.
  { apply andb_true_iff. split.
    - unfold go_len. apply Z.leb_le. destruct (FormatUint (Z.abs n)); simpl; [done|lia].
    - apply forallb_forall. by apply List.Forall_forall. }
  cbn [negb]. rewrite <- HD. clear HD. destruct (n <? 0); cbn [sign_text app].
  - rewrite (bool_decide_eq_true_2 (minus_sign = minus_sign) eq_refl). done.
  - destruct (FormatUint (Z.abs n)) as [|c l] eqn:E; [done|].
    rewrite (bool_decide_eq_false_2 (c = minus_sign)) by exact (Hhd c l eq_refl). done.
Qed.

(** The text read as a decimal. *)
Lemma amount_text_decimal n :
  is_i64 n -> exists d, decimal_ok d /\ amount_text n = decimal_text d /\ n * 10 ^ Z.of_nat (length (dfrac d)) = mantissa d * One.
Proof.
  intros Hn. unfold is_i64 in Hn. assert (One <> 0) as H0 by done.
  pose proof (Z.mod_pos_bound (Z.abs n) One ltac:(done)) as Hm.
  destruct (FormatUint_spec (Z.abs n / One)) as (Hne & Hd & Hv & Hlen); [apply Z.div_pos; [lia|done]|].
  destruct (padded_digits 7 (Z.abs n mod One)) as (Pd & Pv & Pl); [done|done|].
  exists (mkDecimal (n <? 0) (FormatUint (Z.abs n / One)) true (pad_zeros 7 (FormatUint (Z.abs n mod One)))).
  assert (length (FormatUint (Z.abs n / One)) <= 12)%nat.
  { apply Hlen; [lia|]. apply Z.div_lt_upper_bound; [done|].
    change (10 ^ Z.of_nat 12) with 1000000000000. change One with 10000000. lia. }
  split_and!; [split_and!|done|].
  - by apply Forall_app.
  - cbn [dint dfrac]. by intros [? _]%app_eq_nil.
  - done.
  - unfold body_text. cbn [dint dpoint dfrac]. rewrite length_app. cbn [length]. lia.
  - unfold mantissa. cbn [dneg dint dfrac]. rewrite dec_val_app, Pl, Hv, Pv. change (10 ^ Z.of_nat 7) with One.
    pose proof (Z.div_mod (Z.abs n) One H0). destruct (Z.ltb_spec n 0); nia.
Qed.

Lemma ParseInt64_amount_text n : is_i64 n -> ParseInt64 (amount_text n) = Ok n.
Proof.
  intros Hn. destruct (amount_text_decimal n Hn) as (d & Hd & -> & Hi).
  by apply (ParseInt64_value _ _ _ _ (valid_text d Hd) (rat_SetString_text d Hd)).
Qed.

Lemma StringFromInt64_text n : StringFromInt64 n = Some (amount_text n).
Proof. unfold StringFromInt64. rewrite rat_Quo_amount. cbn [option_bind]. by rewrite rat_FloatString_amount. Qed.

Lemma String128_text v : String128 v = Some (amount_text (int128_val v)).
Proof. unfold String128. rewrite rat_Quo_amount. cbn [option_bind]. by rewrite rat_FloatString_amount. Qed.

Lemma amount_text_inj m n : amount_text m = amount_text n -> m = n.
Proof.
  assert (One <> 0) as H0 by done.
  assert (Hsplit : forall n, exists l, amount_text n = sign_text (n <? 0) ++ l /\ (forall c l', l = c :: l' -> c <> minus_sign) /\
    exists a b, l = a ++ dot :: b /\ length b = 7%nat /\ dec_val a = Z.abs n / One /\ dec_val b = Z.abs n mod One).
  { intros k. pose proof (Z.mod_pos_bound (Z.abs k) One ltac:(done)).
    destruct (FormatUint_spec (Z.abs k / One)) as (Hne & Hd & Hv & _); [apply Z.div_pos; [lia|done]|].
    destruct (padded_digits 7 (Z.abs k mod One)) as (_ & Pv & Pl); [done|done|].
    eexists. split; [done|]. split; [|by do 2 eexists].
    intros c l' E. destruct (FormatUint (Z.abs k / One)); [done|]. injection E as -> _.
    inversion Hd as [|? ? Hc _]; subst. by apply (digit_facts c). }
  destruct (Hsplit m) as (lm & -> & Hm & am & bm & -> & Lm & Am & Bm).
  destruct (Hsplit n) as (ln & -> & Hn & an & bn & -> & Ln & An & Bn).
  intros E. pose proof (f_equal drop_sign E) as E'. rewrite !drop_sign_text in E' by done.
  apply app_inj_2 in E' as [-> [= ->]]; [|simpl; congruence].
  assert (Habs : Z.abs m = Z.abs n).
  { rewrite (Z.div_mod (Z.abs m) One), (Z.div_mod (Z.abs n) One) by done. congruence. }
  apply app_inv_tail in E. destruct (Z.ltb_spec m 0), (Z.ltb_spec n 0); try done; lia.
Qed.

(** ** Properties *)

(** Exactly what parses as an amount. [ParseInt64] accepts a text with result
    [i] if and only if it is a decimal of at most 20 bytes besides its sign, with
    at least one digit and at most one point, that is worth [i] ten-millionths, no
    more and no less, and [i] is an int64; [Parse] returns the same and
    [MustParse] panics on everything else. *)
Theorem ParseInt64_exact v i :
  (ParseInt64 v = Ok i <->
    exists d, decimal_ok d /\ v = decimal_text d /\
      i * 10 ^ Z.of_nat (length (dfrac d)) = mantissa d * One /\ is_i64 i) /\
  (Parse v = Ok i <-> ParseInt64 v = Ok i) /\ (MustParse v = Some i <-> ParseInt64 v = Ok i).
Proof.
  unfold MustParse, Parse. split; [|destruct (ParseInt64 v); naive_solver]. split.
  - intros H. pose proof H as H'. unfold ParseInt64 in H'.
    destruct (validAmountSimple v) eqn:Hv; [|done]. destruct (rat_SetString v) as [r|] eqn:Hr; [|done]. clear H'.
    destruct (amount_decimal v r Hv Hr) as (d & Hd & ->). exists d. split; [done|]. split; [done|].
    by apply (ParseInt64_value _ _ _ _ Hv (rat_SetString_text d Hd)).
  - intros (d & Hd & -> & Hi). by apply (ParseInt64_value _ _ _ _ (valid_text d Hd) (rat_SetString_text d Hd)).
Qed.

(** The text of an int64 amount. [String] and [StringFromInt64] return,
    without a panic, a text with seven decimals that [ParseInt64] and [Parse] read
    back as the same integer; [IntStringToAmount] makes the same text from the
    integer's digits; different integers have different texts. *)
Theorem amount_text_roundtrip v w :
  is_i64 v -> is_i64 w ->
  exists s, String_ v = Some s /\ StringFromInt64 v = Some s /\
    ParseInt64 s = Ok v /\ Parse s = Ok v /\ MustParse s = Some v /\
    IntStringToAmount (String64Raw v) = Ok s /\ MustParseInt64Raw (String64Raw v) = Some v /\
    (StringFromInt64 w = Some s -> v = w).
Proof.
  intros Hv Hw. exists (amount_text v).
  unfold String_, MustParse, Parse, String64Raw, MustParseInt64Raw.
  rewrite !StringFromInt64_text, ParseInt64_amount_text, IntStringToAmount_FormatInt, (proj2 (ParseInt_FormatInt v v) (conj eq_refl Hv)) by done.
  split_and!; try done. intros [= E]. symmetry. by apply amount_text_inj.
Qed.

(** The text of a 128-bit amount. For any halves of a signed 128-bit integer
    [String128] returns, without a panic, the text [IntStringToAmount] makes from
    [String128Raw], and on a value that fits an int64 the text [String] gives the
    int64; integers with different halves have different texts. *)
Theorem String128_exact v w :
  is_i64 (Hi v) -> is_u64 (Lo v) -> is_i64 (Hi w) -> is_u64 (Lo w) ->
  exists s, String128 v = Some s /\ IntStringToAmount (String128Raw v) = Ok s /\
    (is_i64 (int128_val v) -> String_ (int128_val v) = Some s /\ ParseInt64 s = Ok (int128_val v)) /\
    (String128 w = Some s -> v = w) /\ (String128Raw w = String128Raw v -> v = w).
Proof.
  intros Hv Hv' Hw Hw'. exists (amount_text (int128_val v)).
  assert (Hinj : int128_val v = int128_val w -> v = w).
  { unfold int128_val, is_i64, is_u64 in *. rewrite !Z.shiftl_mul_pow2 by done.
    change (2 ^ 64) with 18446744073709551616. destruct v as [hv lv], w as [hw lw]; cbn [Hi Lo] in *.
    intros E. assert (hv = hw) as -> by lia. f_equal. lia. }
  unfold String128Raw. rewrite !String128_text, IntStringToAmount_FormatInt. split_and!; try done.
  - intros Hi. unfold String_. split; [apply StringFromInt64_text|by apply ParseInt64_amount_text].
  - intros [= E]. apply Hinj. symmetry. by apply amount_text_inj.
  - intros E. apply Hinj. apply amount_text_inj. pose proof (IntStringToAmount_FormatInt (int128_val v)) as E1.
    rewrite <- E, IntStringToAmount_FormatInt in E1. congruence.
Qed.

