(* ===== verification/Pools.v ===== *)
(** * Liquidity pool exchanges

    src/exp/orderbook/pools.go: constant-product trades in 256-bit arithmetic,
    over the interface of the uint256 package. *)
From Stdlib Require Import ZArith Lia.
From stdpp Require Import base list vector option.
From S2P Require Import Prelude GoStd GoExt Price Encodings Strkey Asset.
#[local] Open Scope Z_scope.
#[local] Open Scope go_scope.

Definition tradeTypeDeposit : Z := 0.
Definition tradeTypeExpectation : Z := 1.
Definition maxBasisPoints : Z := 10000.

Inductive pool_error : Type := errPoolOverflows | errBadPoolType | errBadTradeType | errBadAmount.

(** A pool and the order book's ids of its two assets. *)
Record liquidityPool : Type := mkLiquidityPool {
  lp_entry : LiquidityPoolEntry;
  assetA : Z;
  assetB : Z
}.
#[export] Instance liquidityPool_eq_dec : EqDecision liquidityPool.
Proof. solve_decision. Defined.

Definition zero_pool : liquidityPool := mkLiquidityPool zero_pool_entry 0 0.

Definition getOtherAsset (asset : Z) (pool : liquidityPool) : Z :=
  if assetA pool =? asset then assetB pool else assetA pool.

Section Exchange.
Context {U : Uint256}.

Definition u256 (z : Z) : uint256 := u256_NewInt (u64 z).

(** The rounding slippage of both calculations and whether it fits. *)
Definition roundingSlippage (numer denom result : uint256) : Z * bool :=
  let maxBips := u256 maxBasisPoints in
  let unrounded := u256_Div (u256_Mul numer maxBips) denom in
  let rounded := u256_Mul result maxBips in
  let S := u256_Sub unrounded rounded in
  let S := u256_Mul (u256_Abs S) maxBips in
  let S := u256_Div S unrounded in
  let S := u256_Div S (u256 100) in
  let roundingSlippageBips := i64 (u256_Uint64 S) in
  (roundingSlippageBips, u256_IsUint64 S && (0 <=? roundingSlippageBips)).

Definition CalculatePoolPayout (reserveA reserveB received feeBips : Z)
    (calculateRoundingSlippage : bool) : Z * Z * bool :=
  if (reserveA <? 0) || (reserveB <? 0) || (received <? 0) then (0, 0, false)
  else if (feeBips <? 0) || (maxBasisPoints <=? feeBips) then (0, 0, false)
  else
    let X := u256 reserveA in
    let Y := u256 reserveB in
    let F := u256 feeBips in
    let x := u256 received in
    if i64 (MaxInt64 - reserveA) <? received then (0, 0, false)
    else
      let maxBips := u256 maxBasisPoints in
      let f := u256_Sub maxBips F in
      let denom := u256_Add (u256_Mul X maxBips) (u256_Mul x f) in
      if u256_IsZero denom then (0, 0, false)
      else
        let numer := u256_Mul (u256_Mul Y x) f in
        let result := u256_Div numer denom in
        let '(slippage, ok) :=
          if calculateRoundingSlippage && negb (u256_IsZero (u256_Mod numer denom))
          then roundingSlippage numer denom result
          else (0, true) in
        let val := i64 (u256_Uint64 result) in
        (val, slippage, ok && u256_IsUint64 result && (0 <? val)).

Definition CalculatePoolExpectation (reserveA reserveB disbursed feeBips : Z)
    (calculateRoundingSlippage : bool) : Z * Z * bool :=
  if (reserveA <? 0) || (reserveB <? 0) || (disbursed <? 0) then (0, 0, false)
  else if (feeBips <? 0) || (maxBasisPoints <=? feeBips) then (0, 0, false)
  else
    let X := u256 reserveA in
    let Y := u256 reserveB in
    let F := u256 feeBips in
    let y := u256 disbursed in
    if reserveB <=? disbursed then (0, 0, false)
    else
      let maxBips := u256 maxBasisPoints in
      let f := u256_Sub maxBips F in
      let denom := u256_Mul (u256_Sub Y y) f in
      if u256_IsZero denom then (0, 0, false)
      else
        let numer := u256_Mul (u256_Mul X y) maxBips in
        let result := u256_Div numer denom in
        let rem := u256_Mod numer denom in
        let '(result, (slippage, ok)) :=
          if negb (u256_IsZero rem) then
            let result := u256_AddUint64 result 1 in
            (result, if calculateRoundingSlippage then roundingSlippage numer denom result
                     else (0, true))
          else (result, (0, true)) in
        let val := i64 (u256_Uint64 result) in
        (val, slippage,
         ok && u256_IsUint64 result && (0 <=? val) && (val <=? i64 (MaxInt64 - reserveA))).

Definition makeTrade (pool : liquidityPool) (asset tradeType amount : Z) :
    option (result pool_error Z) :=
  let! r := GetConstantProduct (Body (lp_entry pool)) in
  match r with
  | None => Some (Err errBadPoolType)
  | Some details =>
      if amount <=? 0 then Some (Err errBadAmount)
      else
        let '(X, Y) :=
          if negb (assetA pool =? asset) then (ReserveB details, ReserveA details)
          else (ReserveA details, ReserveB details) in
        if tradeType =? tradeTypeDeposit then
          let '(result, _, ok) :=
            CalculatePoolPayout X Y amount (Fee (Params details)) false in
          Some (if negb ok then Err errPoolOverflows else Ok result)
        else if tradeType =? tradeTypeExpectation then
          let '(result, _, ok) :=
            CalculatePoolExpectation X Y amount (Fee (Params details)) false in
          Some (if negb ok then Err errPoolOverflows else Ok result)
        else Some (Err errBadTradeType)
  end.
End Exchange.

(** ** Exact values *)

(** floor[(1 - F) Y x / (X + (1 - F) x)] with F in basis points. *)
Definition payout (X Y x fee : Z) : Z :=
  (10000 - fee) * Y * x / (10000 * X + (10000 - fee) * x).

(** ceil[X y / ((Y - y) (1 - F))] *)
Definition expectation (X Y y fee : Z) : Z :=
  - (- (10000 * X * y) / ((Y - y) * (10000 - fee))).

(** The inputs of a trade the calculations accept. *)
Record trade_ok (X Y amount fee : Z) : Prop := {
  tok_X : 0 <= X <= MaxInt64;
  tok_Y : 0 <= Y <= MaxInt64;
  tok_amount : 0 <= amount <= MaxInt64;
  tok_fee : 0 <= fee < 10000
}.

Lemma payout_le X Y x fee : trade_ok X Y x fee -> 0 <= payout X Y x fee <= Y.
Proof.
  intros []. unfold payout.
  destruct (Z.eq_dec (10000 * X + (10000 - fee) * x) 0) as [->|H].
  { rewrite Z.div_0_r. lia. }
  assert (0 < 10000 * X + (10000 - fee) * x) by nia.
  split; [apply Z.div_pos; nia|]. apply Z.div_le_upper_bound; nia.
Qed.

(** A deposit never lowers the product of the reserves. *)
Lemma payout_product X Y x fee :
  trade_ok X Y x fee -> X * Y <= (X + x) * (Y - payout X Y x fee).
Proof.
  intros T. pose proof (payout_le _ _ _ _ T) as Hle. destruct T. unfold payout in *.
  set (D := 10000 * X + (10000 - fee) * x) in *. set (N := (10000 - fee) * Y * x) in *.
  destruct (Z.eq_dec D 0) as [E|H].
  { assert (X = 0) by nia. rewrite E, Z.div_0_r in *. subst X. nia. }
  assert (0 < D) by (subst D; nia).
  pose proof (Z.mul_div_le N D ltac:(lia)) as Hq. set (y := N / D) in *.
  (* y D <= N and y <= Y give y (X + x) <= Y x *)
  assert (10000 * (y * (X + x)) <= 10000 * (Y * x)); [|nia].
  subst D N. nia.
Qed.

Lemma payout_lt X Y x fee : trade_ok X Y x fee -> 0 < X -> 0 < Y -> payout X Y x fee < Y.
Proof.
  intros T HX HY. destruct T. unfold payout.
  apply Z.div_lt_upper_bound; nia.
Qed.

(** [expectation] is the least deposit that pays out at least [y]. *)
Lemma expectation_galois X Y y fee x :
  trade_ok X Y y fee -> 0 < X -> 0 < y < Y -> 0 <= x ->
  (expectation X Y y fee <= x <-> y <= payout X Y x fee).
Proof.
  intros [] HX Hy Hx. unfold expectation, payout.
  assert (0 < (Y - y) * (10000 - fee)) by nia.
  assert (0 < 10000 * X + (10000 - fee) * x) by nia.
  transitivity (10000 * X * y <= (10000 - fee) * x * (Y - y)).
  - set (D := (Y - y) * (10000 - fee)) in *. set (N := 10000 * X * y).
    pose proof (Z.div_mod (- N) D ltac:(lia)). pose proof (Z.mod_pos_bound (- N) D ltac:(lia)).
    replace ((10000 - fee) * x * (Y - y)) with (D * x) by (subst D; ring). split; nia.
  - split; intros H1.
    + apply Z.div_le_lower_bound; nia.
    + pose proof (Z.mul_div_le ((10000 - fee) * Y * x) (10000 * X + (10000 - fee) * x) ltac:(lia)).
      nia.
Qed.

Lemma expectation_nonneg X Y y fee : trade_ok X Y y fee -> y < Y -> 0 <= expectation X Y y fee.
Proof.
  intros [] Hy. unfold expectation. assert (0 < (Y - y) * (10000 - fee)) by nia.
  pose proof (Z.div_le_upper_bound (- (10000 * X * y)) ((Y - y) * (10000 - fee)) 0 ltac:(lia)). nia.
Qed.

Section Arithmetic.
Context {U : Uint256} {UL : Uint256Laws U}.

Lemma u256_val_u256 z : 0 <= z <= MaxInt64 -> u256_val (u256 z) = z.
Proof.
  intros H. unfold u256. rewrite u64_id by (unfold is_u64; lia).
  apply u256_NewInt_val. unfold is_u64. lia.
Qed.

(** Every product the calculations form is below 2^256. *)
Lemma two256_big : 10000 * 9223372036854775808 * 9223372036854775808 * 2 < two256.
Proof. done. Qed.

Lemma mod_two256 z : 0 <= z < 10000 * 9223372036854775808 * 9223372036854775808 * 2 ->
  z mod two256 = z.
Proof. intros H. apply Z.mod_small. pose proof two256_big. lia. Qed.

Lemma val_product3 a b c za zb zc :
  u256_val a = za -> u256_val b = zb -> u256_val c = zc ->
  0 <= za <= MaxInt64 -> 0 <= zb <= MaxInt64 -> 0 <= zc <= 10000 ->
  u256_val (u256_Mul (u256_Mul a b) c) = za * zb * zc.
Proof.
  intros <- <- <- Ha Hb Hc. rewrite !u256_Mul_val.
  assert (0 <= u256_val a * u256_val b <= 9223372036854775807 * 9223372036854775807) by nia.
  rewrite (mod_two256 (u256_val a * u256_val b)) by lia.
  apply mod_two256. nia.
Qed.

Lemma val_fee fee :
  0 <= fee < 10000 -> u256_val (u256_Sub (u256 maxBasisPoints) (u256 fee)) = 10000 - fee.
Proof.
  intros H. rewrite u256_Sub_val, !u256_val_u256 by (unfold maxBasisPoints; lia).
  apply mod_two256. unfold maxBasisPoints. lia.
Qed.

Lemma CalculatePoolPayout_eq X Y x fee :
  is_i64 X -> is_i64 Y -> is_i64 x ->
  CalculatePoolPayout X Y x fee false =
  if (X <? 0) || (Y <? 0) || (x <? 0) || (fee <? 0) || (10000 <=? fee) || (MaxInt64 <? X + x) ||
     ((X =? 0) && (x =? 0))
  then (0, 0, false)
  else (payout X Y x fee, 0, 0 <? payout X Y x fee).
Proof.
  unfold is_i64. intros HX HY Hx. unfold CalculatePoolPayout.
  destruct (Z.ltb_spec X 0); [done|]. destruct (Z.ltb_spec Y 0); [done|].
  destruct (Z.ltb_spec x 0); [done|]. unfold maxBasisPoints at 1.
  destruct (Z.ltb_spec fee 0); [done|]. destruct (Z.leb_spec 10000 fee); [done|].
  cbn [orb]. rewrite i64_id by (unfold is_i64; lia).
  destruct (Z.ltb_spec MaxInt64 (X + x)), (Z.ltb_spec (MaxInt64 - X) x); try lia; [done|].
  cbn [orb].
  assert (Hden : u256_val (u256_Add (u256_Mul (u256 X) (u256 maxBasisPoints))
      (u256_Mul (u256 x) (u256_Sub (u256 maxBasisPoints) (u256 fee)))) =
      10000 * X + (10000 - fee) * x).
  { rewrite u256_Add_val, !u256_Mul_val, val_fee, !u256_val_u256
      by (unfold maxBasisPoints; lia). unfold maxBasisPoints.
    rewrite (mod_two256 (X * 10000)), (mod_two256 (x * (10000 - fee))) by nia.
    rewrite mod_two256 by nia. ring. }
  rewrite u256_IsZero_val, Hden.
  destruct (Z.eqb_spec X 0), (Z.eqb_spec x 0),
    (Z.eqb_spec (10000 * X + (10000 - fee) * x) 0); cbn [andb]; try nia; [done|..].
  all: assert (T : trade_ok X Y x fee) by (split; lia).
  all: pose proof (payout_le X Y x fee T) as Hp.
  all: rewrite u256_IsUint64_val, u256_Uint64_val, u256_Div_val, Hden.
  all: rewrite (val_product3 _ _ _ Y x (10000 - fee))
    by (rewrite ?u256_val_u256, ?val_fee; lia).
  all: rewrite (proj2 (Z.eqb_neq _ _)) by done.
  all: replace (Y * x * (10000 - fee) / (10000 * X + (10000 - fee) * x)) with (payout X Y x fee)
    by (unfold payout; f_equal; ring).
  all: rewrite u64_id, i64_id by (unfold is_u64, is_i64; lia).
  all: by rewrite (proj2 (Z.leb_le _ _)) by lia.
Qed.

Lemma ceil_step N D : 0 < D -> - (- N / D) = if N mod D =? 0 then N / D else N / D + 1.
Proof.
  intros HD. pose proof (Z.div_mod N D ltac:(lia)) as E. pose proof (Z.mod_pos_bound N D HD).
  destruct (Z.eqb_spec (N mod D) 0) as [E0|E0].
  - rewrite Z.div_opp_l_z by lia. lia.
  - rewrite Z.div_opp_l_nz by lia. lia.
Qed.

Lemma CalculatePoolExpectation_eq X Y y fee :
  is_i64 X -> is_i64 Y -> is_i64 y ->
  CalculatePoolExpectation X Y y fee false =
  if (X <? 0) || (Y <? 0) || (y <? 0) || (fee <? 0) || (10000 <=? fee) || (Y <=? y)
  then (0, 0, false)
  else
    let x := expectation X Y y fee in
    (i64 (u64 x), 0, (x <=? MaxInt64 - X)).
Proof.
  unfold is_i64. intros HX HY Hy. unfold CalculatePoolExpectation.
  destruct (Z.ltb_spec X 0); [done|]. destruct (Z.ltb_spec Y 0); [done|].
  destruct (Z.ltb_spec y 0); [done|]. unfold maxBasisPoints at 1.
  destruct (Z.ltb_spec fee 0); [done|]. destruct (Z.leb_spec 10000 fee); [done|].
  cbn [orb]. destruct (Z.leb_spec Y y); [done|]. cbv zeta.
  assert (Hden : u256_val (u256_Mul (u256_Sub (u256 Y) (u256 y))
      (u256_Sub (u256 maxBasisPoints) (u256 fee))) = (Y - y) * (10000 - fee)).
  { rewrite u256_Mul_val, val_fee, u256_Sub_val, !u256_val_u256 by lia.
    rewrite (mod_two256 (Y - y)) by lia. apply mod_two256. nia. }
  assert (HD : 0 < (Y - y) * (10000 - fee)) by nia.
  assert (Hnum : u256_val (u256_Mul (u256_Mul (u256 X) (u256 y)) (u256 maxBasisPoints)) = 10000 * X * y).
  { rewrite (val_product3 _ _ _ X y 10000); rewrite ?u256_val_u256; unfold maxBasisPoints; lia. }
  rewrite u256_IsZero_val, Hden, (proj2 (Z.eqb_neq _ _)) by lia.
  set (D := (Y - y) * (10000 - fee)) in *. set (N := 10000 * X * y) in *.
  assert (HN : 0 <= N / D <= N) by (split; [apply Z.div_pos; nia|apply Z.div_le_upper_bound; nia]).
  assert (HN' : N <= 10000 * 9223372036854775807 * 9223372036854775807) by nia.
  set (res := u256_Div _ _).
  assert (Hres : u256_val res = N / D).
  { unfold res. by rewrite u256_Div_val, Hden, Hnum, (proj2 (Z.eqb_neq _ _)) by lia. }
  rewrite u256_IsZero_val, u256_Mod_val, Hden, Hnum, (proj2 (Z.eqb_neq D 0)) by lia.
  assert (HR : exists r, (if negb (N mod D =? 0) then (u256_AddUint64 res 1, (0, true))
               else (res, (0, true))) = (r, (0, true)) /\ u256_val r = expectation X Y y fee).
  { unfold expectation. fold N D. rewrite ceil_step by lia.
    destruct (N mod D =? 0); simpl; eexists; (split; [done|]); [done|].
    rewrite u256_AddUint64_val, Hres by (unfold is_u64; lia). apply mod_two256. lia. }
  destruct HR as (r & E & Hr).
  replace (if negb (N mod D =? 0) then _ else _) with (r, (0, true)) by (rewrite <- E; by case_match).
  pose proof (expectation_nonneg X Y y fee ltac:(split; lia) ltac:(lia)) as Hnn.
  rewrite u256_IsUint64_val, u256_Uint64_val, Hr. set (x := expectation X Y y fee) in *.
  rewrite (i64_id (MaxInt64 - X)) by (unfold is_i64; lia). f_equal. cbn [andb].
  destruct (Z.leb_spec x (MaxInt64 - X)) as [Hx|Hx].
  - rewrite u64_id, i64_id by (unfold is_u64, is_i64; lia).
    by rewrite !(proj2 (Z.leb_le _ _)) by lia.
  - destruct (Z.leb_spec x MaxUint64) as [Hm|]; [|done]. rewrite u64_id by (unfold is_u64; lia).
    destruct (Z.leb_spec 0 (i64 x)) as [H00|]; [|done]. simpl. apply Z.leb_gt.
    destruct (Z.leb_spec x MaxInt64); [by rewrite i64_id by (unfold is_i64; lia)|].
    revert H00. unfold i64.
    replace (x + 9223372036854775808) with (x - 9223372036854775808 + 1 * 18446744073709551616) by lia.
    rewrite Z.mod_add, Z.mod_small by lia. lia.
Qed.
End Arithmetic.

(** ** The accepted trades *)
Section Accepted.
Context {U : Uint256} {UL : Uint256Laws U}.

Lemma CalculatePoolPayout_ok X Y x fee y s :
  is_i64 X -> is_i64 Y -> is_i64 x ->
  CalculatePoolPayout X Y x fee false = (y, s, true) <->
  trade_ok X Y x fee /\ X + x <= MaxInt64 /\ y = payout X Y x fee /\ 0 < y /\ s = 0.
Proof.
  intros HX HY Hx. rewrite CalculatePoolPayout_eq by done. unfold is_i64 in *. split.
  - repeat (case_bool; simpl); try done. intros [= <- <- Hp].
    apply Z.ltb_lt in Hp. repeat split; lia.
  - intros ([] & ? & -> & Hp & ->).
    repeat (case_bool; simpl); try lia.
    + unfold payout in Hp. assert (x = 0) as -> by lia. rewrite Z.mul_0_r in Hp.
      by rewrite Zdiv_0_l in Hp.
    + by rewrite (proj2 (Z.ltb_lt _ _)).
Qed.

Lemma CalculatePoolExpectation_ok X Y y fee x s :
  is_i64 X -> is_i64 Y -> is_i64 y ->
  CalculatePoolExpectation X Y y fee false = (x, s, true) <->
  trade_ok X Y y fee /\ y < Y /\ x = expectation X Y y fee /\ X + x <= MaxInt64 /\ s = 0.
Proof.
  intros HX HY Hy. rewrite CalculatePoolExpectation_eq by done. unfold is_i64 in *. split.
  - repeat (case_bool; simpl); try done. intros [= <- <- Hp]. apply Z.leb_le in Hp.
    assert (T : trade_ok X Y y fee) by (split; lia).
    pose proof (expectation_nonneg _ _ _ _ T ltac:(lia)).
    rewrite u64_id, i64_id by (unfold is_u64, is_i64; lia). repeat split; lia.
  - intros (T & Hlt & -> & Hm & ->). pose proof (expectation_nonneg _ _ _ _ T Hlt). destruct T.
    repeat (case_bool; simpl); try lia.
    rewrite u64_id, i64_id by (unfold is_u64, is_i64; lia).
    by rewrite (proj2 (Z.leb_le _ _)) by lia.
Qed.
End Accepted.

(** ** Trades against a pool *)

(** The reserves as a trade of [asset] sees them: that asset's, then the other's. *)
Definition trade_reserves (pool : liquidityPool) (cp : ConstantProductPool) (asset : Z) : Z * Z :=
  if assetA pool =? asset then (ReserveA cp, ReserveB cp) else (ReserveB cp, ReserveA cp).

Definition reserves_i64 (cp : ConstantProductPool) : Prop := is_i64 (ReserveA cp) /\ is_i64 (ReserveB cp).

Section Trades.
Context {U : Uint256} {UL : Uint256Laws U}.

(** A trade succeeds when its calculation does. *)
Lemma makeTrade_Ok pool cp asset (deposit : bool) amount r :
  pool_of (lp_entry pool) cp ->
  makeTrade pool asset (if deposit then tradeTypeDeposit else tradeTypeExpectation) amount =
    Some (Ok r) <->
  0 < amount /\ exists s,
    (if deposit then CalculatePoolPayout else CalculatePoolExpectation)
      (trade_reserves pool cp asset).1 (trade_reserves pool cp asset).2 amount (Fee (Params cp)) false
    = (r, s, true).
Proof.
  intros [HT HB]. unfold makeTrade, GetConstantProduct, trade_reserves. rewrite HT, HB. cbn [Z.eqb].
  assert (HR : (if negb (assetA pool =? asset) then (ReserveB cp, ReserveA cp)
    else (ReserveA cp, ReserveB cp)) =
    if assetA pool =? asset then (ReserveA cp, ReserveB cp) else (ReserveB cp, ReserveA cp))
    by (by destruct (assetA pool =? asset)).
  rewrite HR. destruct (if assetA pool =? asset then _ else _) as [X Y]. simpl.
  destruct (Z.leb_spec amount 0) as [H0|H0]; [split; [done|intros []; lia]|].
  destruct deposit; simpl;
    [destruct (CalculatePoolPayout X Y amount (Fee (Params cp)) false) as [[y s] [|]]
    |destruct (CalculatePoolExpectation X Y amount (Fee (Params cp)) false) as [[y s] [|]]];
    simpl; split; (intros [= <-]; eauto) || (intros [_ [? [=]]]; subst; done) || done.
Qed.

Lemma makeTrade_deposit pool cp asset amount r :
  pool_of (lp_entry pool) cp -> reserves_i64 cp -> is_i64 amount ->
  makeTrade pool asset tradeTypeDeposit amount = Some (Ok r) <->
  let X := (trade_reserves pool cp asset).1 in
  let Y := (trade_reserves pool cp asset).2 in
  let fee := Fee (Params cp) in
  0 < amount /\ trade_ok X Y amount fee /\ X + amount <= MaxInt64 /\ r = payout X Y amount fee /\ 0 < r.
Proof.
  intros HP [HA HB] Ham. rewrite (makeTrade_Ok pool cp asset true) by done. cbv zeta.
  assert (is_i64 (trade_reserves pool cp asset).1 /\ is_i64 (trade_reserves pool cp asset).2) as [HX HY]
    by (unfold trade_reserves; by case_match).
  split; [intros (? & s & H); apply CalculatePoolPayout_ok in H; tauto|].
  intros (? & H). split; [done|]. exists 0. apply CalculatePoolPayout_ok; tauto.
Qed.

Lemma makeTrade_expectation pool cp asset amount r :
  pool_of (lp_entry pool) cp -> reserves_i64 cp -> is_i64 amount ->
  makeTrade pool asset tradeTypeExpectation amount = Some (Ok r) <->
  let X := (trade_reserves pool cp asset).1 in
  let Y := (trade_reserves pool cp asset).2 in
  let fee := Fee (Params cp) in
  0 < amount < Y /\ trade_ok X Y amount fee /\ r = expectation X Y amount fee /\ X + r <= MaxInt64.
Proof.
  intros HP [HA HB] Ham. rewrite (makeTrade_Ok pool cp asset false) by done. cbv zeta.
  assert (is_i64 (trade_reserves pool cp asset).1 /\ is_i64 (trade_reserves pool cp asset).2) as [HX HY]
    by (unfold trade_reserves; by case_match).
  split; [intros (? & s & H); apply CalculatePoolExpectation_ok in H; tauto|].
  intros (? & H). split; [tauto|]. exists 0. apply CalculatePoolExpectation_ok; tauto.
Qed.

(** Trading never panics on a pool whose type matches its body. *)
Lemma makeTrade_total pool cp asset tradeType amount :
  pool_of (lp_entry pool) cp -> exists r, makeTrade pool asset tradeType amount = Some r.
Proof.
  intros [HT HB]. unfold makeTrade, GetConstantProduct. rewrite HT, HB. cbn [Z.eqb].
  repeat case_match; by eexists.
Qed.

(** ** Properties *)

(** [CalculatePoolPayout] is exact. Over any 64-bit reserves and amounts it
    succeeds exactly on non-negative inputs with a fee below 10000 basis points
    whose deposit fits the reserve and whose payout is positive, and it then pays
    floor[(1 - F) Y x / (X + (1 - F) x)], computed without 256-bit overflow;
    paying it never lowers the product of the reserves and, on a pool holding
    both assets, never empties it. *)
Theorem CalculatePoolPayout_exact X Y x fee y s :
  is_i64 X -> is_i64 Y -> is_i64 x ->
  (CalculatePoolPayout X Y x fee false = (y, s, true) <->
   trade_ok X Y x fee /\ X + x <= MaxInt64 /\
   y = (10000 - fee) * Y * x / (10000 * X + (10000 - fee) * x) /\ 0 < y /\ s = 0) /\
  (CalculatePoolPayout X Y x fee false = (y, s, true) ->
   X * Y <= (X + x) * (Y - y) /\ 0 < y <= Y /\ (0 < X -> y < Y)).
Proof.
  intros HX HY Hx. split; [by apply CalculatePoolPayout_ok|].
  rewrite CalculatePoolPayout_ok by done. intros (T & _ & -> & Hp & _).
  pose proof (payout_le _ _ _ _ T). split; [by apply payout_product|]. split; [lia|].
  intros H0. apply payout_lt; [done|done|lia].
Qed.

(** [CalculatePoolExpectation] returns the least deposit. It succeeds exactly
    on valid inputs that disburse less than the reserve and whose rounded-up
    deposit fits it; the deposit then pays out at least the disbursed amount, and
    any deposit the pool accepts pays out that much exactly when it is at least
    the deposit returned. *)
Theorem CalculatePoolExpectation_least X Y y fee x s :
  is_i64 X -> is_i64 Y -> is_i64 y ->
  (CalculatePoolExpectation X Y y fee false = (x, s, true) <->
   trade_ok X Y y fee /\ y < Y /\
   x = - (- (10000 * X * y) / ((Y - y) * (10000 - fee))) /\ X + x <= MaxInt64 /\ s = 0) /\
  (CalculatePoolExpectation X Y y fee false = (x, s, true) -> 0 < X -> 0 < y ->
   (exists y', CalculatePoolPayout X Y x fee false = (y', 0, true) /\ y <= y') /\
   forall x' y' s', is_i64 x' -> CalculatePoolPayout X Y x' fee false = (y', s', true) ->
     (y <= y' <-> x <= x')).
Proof.
  intros HX HY Hy. split; [by apply CalculatePoolExpectation_ok|].
  rewrite CalculatePoolExpectation_ok by done. intros (T & Hlt & -> & Hm & _) H0 Hy0.
  pose proof (expectation_nonneg _ _ _ _ T Hlt) as Hnn. split.
  - exists (payout X Y (expectation X Y y fee) fee).
    pose proof (proj1 (expectation_galois X Y y fee _ T H0 ltac:(lia) Hnn) ltac:(lia)).
    split; [|done]. apply CalculatePoolPayout_ok; [done|done|unfold is_i64; lia|].
    destruct T. repeat split; lia.
  - intros x' y' s' Hx' (T' & _ & -> & _)%CalculatePoolPayout_ok; [|done..].
    destruct T'. symmetry. apply expectation_galois; [done|done|lia|lia].
Qed.
End Trades.

(** The rounding slippage of the source's worked example (reserves 200 and 300,
    3 disbursed, fee 0.3%) is a percentage: 48, where its comment says 4778
    basis points. *)
Remark CalculatePoolExpectation_slippage_percent :
  @CalculatePoolExpectation Concrete.z_uint256 200 300 3 30 true = (3, 48, true).
Proof. vm_compute. reflexivity. Qed.
