(* ===== verification/Edges.v ===== *)
(** * Edges of the order book graph

    src/exp/orderbook/edges.go: the venues of one asset. An edge set is a list
    of keyed edges, each with its offers in price order and, when its body is
    set, a liquidity pool. A slice is used only through the one variable that
    owns it, so it is a value here. *)
From Stdlib Require Import ZArith Lia.
From stdpp Require Import base list vector option gmap sorting.
From S2P Require Import Prelude GoStd GoExt Price Encodings Strkey Asset Pools.
#[local] Open Scope Z_scope.
#[local] Open Scope go_scope.

Record Venues : Type := mkVenues { offers : list OfferEntry; pool : liquidityPool }.
Record edge : Type := mkEdge { key : Z; value : Venues; reallocate : bool }.
Abbreviation edgeSet := (list edge).

(** [e.value.pool.Body.ConstantProduct] *)
Definition venue_pool (v : Venues) : option ConstantProductPool :=
  ConstantProduct (Body (lp_entry (pool v))).

Fixpoint find_loop (i : Z) (e : edgeSet) (k : Z) : Z :=
  match e with
  | [] => -1
  | ed :: e => if key ed =? k then i else find_loop (i + 1) e k
  end.
Definition find (e : edgeSet) (k : Z) : Z := find_loop 0 e k.

(** The index of the first offer with the given id. *)
Fixpoint offer_index (l : list OfferEntry) (offerID : Z) : option nat :=
  match l with
  | [] => None
  | offer :: l =>
      if negb (OfferId offer =? offerID) then S <$> offer_index l offerID else Some O
  end.

Section Operations.
Context {SL : ExpSlices}.

Definition edge_addOffer (e : edgeSet) (k : Z) (offer : OfferEntry) : option edgeSet :=
  let i := find e k in
  if i <? 0 then Some (e ++ [mkEdge k (mkVenues [offer] zero_pool) false])
  else
    let! ed := go_index e i in
    let os := offers (value ed) in
    let insertIndex := sort_Search (length os) (fun j =>
      match os !! j with Some o => Cheaper (OfferPrice offer) (OfferPrice o) | None => false end) in
    let os := slices_Insert os insertIndex offer in
    go_set e i (mkEdge (key ed) (mkVenues os (pool (value ed))) (reallocate ed)).

Definition edge_addPool (e : edgeSet) (k : Z) (p : liquidityPool) : option edgeSet :=
  let i := find e k in
  if i <? 0 then Some (e ++ [mkEdge k (mkVenues [] p) false])
  else
    let! ed := go_index e i in
    go_set e i (mkEdge (key ed) (mkVenues (offers (value ed)) p) (reallocate ed)).

Definition edge_removeOffer (e : edgeSet) (k : Z) (offerID : Z) : option (edgeSet * bool) :=
  let i := find e k in
  if i <? 0 then Some (e, false)
  else
    let! ed := go_index e i in
    match offer_index (offers (value ed)) offerID with
    | None => Some (e, false)
    | Some j =>
        let updatedOffers := slices_Delete (offers (value ed)) j (j + 1) in
        if (go_len updatedOffers =? 0) && bool_decide (venue_pool (value ed) = None) then
          Some (slices_Delete e (Z.to_nat i) (Z.to_nat i + 1), true)
        else
          let! e := go_set e i (mkEdge (key ed) (mkVenues updatedOffers (pool (value ed))) true) in
          Some (e, true)
    end.

Definition edge_removePool (e : edgeSet) (k : Z) : option edgeSet :=
  let i := find e k in
  if i <? 0 then Some e
  else
    let! ed := go_index e i in
    if go_len (offers (value ed)) =? 0 then Some (slices_Delete e (Z.to_nat i) (Z.to_nat i + 1))
    else go_set e i (mkEdge (key ed) (mkVenues (offers (value ed)) zero_pool) (reallocate ed)).
End Operations.

(** Copies the offers of every edge marked for it and clears the mark. *)
Definition edge_reallocate (e : edgeSet) : edgeSet :=
  map (fun ed => if reallocate ed then mkEdge (key ed) (value ed) false else ed) e.

(** ** Edge sets as maps *)
Definition edge_map (e : edgeSet) : gmap Z Venues :=
  list_to_map (map (fun ed => (key ed, value ed)) e).
Definition edge_keys (e : edgeSet) : list Z := map key e.

Definition empty_venues : Venues := mkVenues [] zero_pool.

Lemma find_loop_spec i e k :
  0 <= i ->
  (find_loop i e k = -1 /\ k ∉ edge_keys e) \/
  (exists j ed, find_loop i e k = i + Z.of_nat j /\ e !! j = Some ed /\ key ed = k).
Proof.
  revert i; induction e as [|ed e IH]; intros i Hi; cbn [find_loop edge_keys map].
  - left. split; [done|]. apply not_elem_of_nil.
  - destruct (Z.eqb_spec (key ed) k) as [E|E].
    + right. exists O, ed. split; [lia|done].
    + destruct (IH (i + 1)) as [[H1 H2]|(j & ed' & H1 & H2 & H3)]; [lia| |].
      * left. split; [done|]. rewrite not_elem_of_cons. by split.
      * right. exists (S j), ed'. split; [lia|done].
Qed.

Lemma edge_map_lookup e k i ed :
  NoDup (edge_keys e) -> e !! i = Some ed -> key ed = k -> edge_map e !! k = Some (value ed).
Proof.
  intros HN Hi <-. unfold edge_map. apply elem_of_list_to_map_1.
  - unfold edge_keys in HN. by rewrite map_map.
  - apply list_elem_of_lookup. exists i. change (map ?f e) with (f <$> e).
    by rewrite list_lookup_fmap, Hi.
Qed.

Lemma edge_map_None e k : edge_map e !! k = None <-> k ∉ edge_keys e.
Proof.
  unfold edge_map, edge_keys. rewrite <- not_elem_of_list_to_map. 
  change (map ?f e) with (f <$> e). by rewrite <- list_fmap_compose.
Qed.

(** The two outcomes of [find]. *)
Lemma find_spec e k :
  NoDup (edge_keys e) ->
  (find e k = -1 /\ edge_map e !! k = None) \/
  (exists j ed, find e k = Z.of_nat j /\ e !! j = Some ed /\ key ed = k /\
     edge_map e !! k = Some (value ed)).
Proof.
  intros HN. destruct (find_loop_spec 0 e k) as [[H1 H2]|(j & ed & H1 & H2 & H3)]; [lia|left|right].
  - split; [done|]. by apply edge_map_None.
  - exists j, ed. repeat split; [done|done|done|]. by eapply edge_map_lookup.
Qed.

Lemma edge_keys_lookup e i ed : e !! i = Some ed -> edge_keys e !! i = Some (key ed).
Proof.
  intros H. unfold edge_keys. change (map key e) with (key <$> e). by rewrite list_lookup_fmap, H.
Qed.

Lemma edge_map_insert e i ed ed' :
  NoDup (edge_keys e) -> e !! i = Some ed -> key ed' = key ed ->
  edge_map (<[i := ed']> e) = <[key ed := value ed']> (edge_map e) /\
  edge_keys (<[i := ed']> e) = edge_keys e.
Proof.
  intros HN Hi Hk.
  assert (HK : edge_keys (<[i := ed']> e) = edge_keys e).
  { unfold edge_keys. change (map key ?l) with (key <$> l). rewrite list_fmap_insert, Hk.
    apply list_insert_id. by rewrite list_lookup_fmap, Hi. }
  split; [|done]. pose proof (lookup_lt_Some _ _ _ Hi) as Hlt. apply map_eq. intros k.
  destruct (decide (k = key ed)) as [->|Hne].
  - rewrite lookup_insert_eq. apply (edge_map_lookup _ _ i); [by rewrite HK| |done].
    by rewrite list_lookup_insert_eq.
  - rewrite lookup_insert_ne by done.
    destruct (edge_map e !! k) as [v|] eqn:E.
    + unfold edge_map in E. apply elem_of_list_to_map_2, list_elem_of_lookup in E as [j Hj].
      change (map ?f e) with (f <$> e) in Hj. rewrite list_lookup_fmap in Hj.
      destruct (e !! j) as [ed2|] eqn:Ej; [|done]. injection Hj as <- <-.
      apply (edge_map_lookup _ _ j); [by rewrite HK| |done].
      rewrite list_lookup_insert_ne; [done|]. intros ->. congruence.
    + apply edge_map_None. rewrite HK. by apply edge_map_None.
Qed.

Lemma edge_map_snoc e k v b :
  edge_map e !! k = None -> edge_map (e ++ [mkEdge k v b]) = <[k := v]> (edge_map e) /\
  edge_keys (e ++ [mkEdge k v b]) = edge_keys e ++ [k].
Proof.
  intros H. unfold edge_keys, edge_map. rewrite !map_app. split; [|done].
  rewrite list_to_map_app. simpl. rewrite insert_empty, insert_union_singleton_r; done.
Qed.

Lemma edge_map_delete e i ed :
  NoDup (edge_keys e) -> e !! i = Some ed ->
  edge_map (take i e ++ drop (i + 1) e) = delete (key ed) (edge_map e) /\
  NoDup (edge_keys (take i e ++ drop (i + 1) e)).
Proof.
  intros HN Hi. rewrite Nat.add_1_r.
  pose proof (take_drop_middle e i ed Hi) as E.
  set (l1 := take i e) in *. set (l2 := drop (S i) e) in *. clearbody l1 l2. subst e. clear Hi.
  revert HN.
  unfold edge_keys, edge_map. rewrite !map_app, !list_to_map_app. simpl. intros HN.
  split.
  - rewrite delete_union, delete_insert_eq.
    assert ((key ed ∉ map key l1) /\ (key ed ∉ map key l2)) as [H1 H2].
    { apply NoDup_app in HN as (_ & H & HN). apply NoDup_cons in HN as [H2 _].
      split; [|done]. intros Hin. eapply H; [exact Hin|]. by left. }
    f_equal; symmetry; apply delete_id, not_elem_of_list_to_map; by rewrite <- list_fmap_compose.
  - apply NoDup_app in HN as (H1 & H & HN). apply NoDup_cons in HN as [H2 HN].
    apply NoDup_app. split; [done|]. split; [|done].
    intros x Hx Hx'. eapply H; [exact Hx|]. by right.
Qed.

(** ** Offers in price order *)

(** No later offer is cheaper than an earlier one. *)
Definition price_sorted : list OfferEntry -> Prop :=
  StronglySorted (fun a b => Cheaper (OfferPrice b) (OfferPrice a) = false).
Definition priced (o : OfferEntry) : Prop := valid_price (OfferPrice o).

Definition insert_offer (offer : OfferEntry) (os : list OfferEntry) : list OfferEntry :=
  let i := sort_Search (length os) (fun j =>
    match os !! j with Some o => Cheaper (OfferPrice offer) (OfferPrice o) | None => false end) in
  take i os ++ offer :: drop i os.

Lemma insert_offer_perm o os : insert_offer o os ≡ₚ o :: os.
Proof.
  unfold insert_offer. rewrite <- Permutation_middle. by rewrite take_drop.
Qed.

Lemma price_sorted_lookup os i j a b :
  price_sorted os -> os !! i = Some a -> os !! j = Some b -> (i < j)%nat ->
  Cheaper (OfferPrice b) (OfferPrice a) = false.
Proof.
  intros HS Ha Hb Hij.
  rewrite <- (take_drop_middle os i a Ha) in HS, Hb.
  apply StronglySorted_app in HS as (_ & _ & HS). apply StronglySorted_cons in HS as [HF _].
  rewrite Forall_forall in HF. apply HF. apply list_elem_of_lookup.
  pose proof (lookup_lt_Some _ _ _ Ha) as Hl.
  rewrite lookup_app_r in Hb by (rewrite length_take; lia).
  rewrite length_take, Nat.min_l in Hb by lia.
  destruct (j - i)%nat eqn:E; [lia|]. by exists n.
Qed.

(** In a sorted list an offer goes after every offer that is at least as cheap
    and before every dearer one: price, then time. *)
Lemma insert_offer_split o os :
  priced o -> Forall priced os -> price_sorted os ->
  exists l1 l2, os = l1 ++ l2 /\ insert_offer o os = l1 ++ o :: l2 /\
    Forall (fun a => Cheaper (OfferPrice o) (OfferPrice a) = false) l1 /\
    Forall (fun a => Cheaper (OfferPrice o) (OfferPrice a) = true) l2.
Proof.
  intros Ho Hp HS. unfold insert_offer. set (f := fun j : nat => _).
  destruct (sort_Search_spec (length os) f) as (Hle & Hlo & Hhi).
  { intros a b Hab. unfold f.
    destruct (lookup_lt_is_Some_2 os a) as [x Hx]; [lia|].
    destruct (lookup_lt_is_Some_2 os b) as [y Hy]; [lia|]. rewrite Hx, Hy. intros H.
    destruct (decide (a = b)) as [->|Hne]; [congruence|].
    destruct (Cheaper (OfferPrice o) (OfferPrice y)) eqn:E; [done|].
    pose proof (price_sorted_lookup _ _ _ _ _ HS Hx Hy ltac:(lia)) as Hyx.
    rewrite Forall_forall in Hp.
    assert (priced x /\ priced y) as [Px Py] by (split; apply Hp; eapply list_elem_of_lookup_2; done).
    by rewrite (not_Cheaper_trans _ (OfferPrice y) _ Ho Py Px E Hyx) in H. }
  set (i := sort_Search (length os) f) in *. exists (take i os), (drop i os).
  split; [by rewrite take_drop|]. split; [done|]. split; apply Forall_lookup; intros k x Hx.
  - pose proof (lookup_lt_Some _ _ _ Hx) as Hl. rewrite length_take in Hl.
    rewrite lookup_take_lt in Hx by lia. pose proof (Hlo k ltac:(lia)) as H. unfold f in H.
    by rewrite Hx in H.
  - rewrite lookup_drop in Hx. pose proof (lookup_lt_Some _ _ _ Hx) as Hl.
    pose proof (Hhi (i + k)%nat ltac:(lia)) as H. unfold f in H. by rewrite Hx in H.
Qed.

Lemma Cheaper_asym p q :
  valid_price p -> valid_price q -> Cheaper p q = true -> Cheaper q p = false.
Proof. intros Hp Hq. rewrite !Cheaper_valid by done. rewrite Z.ltb_lt, Z.ltb_ge. lia. Qed.

Lemma insert_offer_sorted o os :
  priced o -> Forall priced os -> price_sorted os -> price_sorted (insert_offer o os).
Proof.
  intros Ho Hp HS. destruct (insert_offer_split o os Ho Hp HS) as (l1 & l2 & -> & -> & H1 & H2).
  apply Forall_app in Hp as [Hp1 Hp2]. apply StronglySorted_app in HS as (HX & HS1 & HS2).
  assert (G : Forall (fun b => Cheaper (OfferPrice b) (OfferPrice o) = false) l2).
  { rewrite Forall_forall in H2, Hp2 |- *. intros b Hb. apply Cheaper_asym; [done|by apply Hp2|by apply H2]. }
  apply StronglySorted_app. split; [|split; [done|by apply StronglySorted_cons]].
  intros x y Hx Hy. apply elem_of_cons in Hy as [->|Hy]; [|by apply HX].
  rewrite Forall_forall in H1. by apply H1.
Qed.

Lemma offer_index_Some l id j :
  offer_index l id = Some j ->
  exists o, l !! j = Some o /\ OfferId o = id.
Proof.
  revert j; induction l as [|o l IH]; intros j; simpl; [done|].
  destruct (Z.eqb_spec (OfferId o) id) as [E|E]; simpl; [intros [= <-]; by exists o|].
  destruct (offer_index l id) as [j'|]; simpl; [|done]. intros [= <-]. by apply IH.
Qed.

Lemma offer_index_None l id : offer_index l id = None <-> id ∉ map OfferId l.
Proof.
  induction l as [|o l IH]; simpl; [split; [intros _; apply not_elem_of_nil|done]|].
  rewrite not_elem_of_cons. destruct (Z.eqb_spec (OfferId o) id) as [E|E]; simpl.
  - split; [done|]. intros [H _]. congruence.
  - rewrite fmap_None, IH. split; [intros H; split; congruence|tauto].
Qed.

(** The offers other than the one with the given id. *)
Definition without_offer (id : Z) (os : list OfferEntry) : list OfferEntry :=
  filter (fun o => OfferId o <> id) os.

Lemma without_offer_notin id os : id ∉ map OfferId os -> without_offer id os = os.
Proof.
  intros H. unfold without_offer. induction os as [|o os IH]; [done|].
  simpl in H. apply not_elem_of_cons in H as [H1 H2]. rewrite filter_cons_True by congruence.
  f_equal. by apply IH.
Qed.

Lemma delete_offer_without os id j :
  NoDup (map OfferId os) -> offer_index os id = Some j ->
  take j os ++ drop (j + 1) os = without_offer id os.
Proof.
  unfold without_offer. revert j; induction os as [|o os IH]; intros j HN; simpl; [done|].
  simpl in HN. apply NoDup_cons in HN as [Hni HN].
  destruct (Z.eqb_spec (OfferId o) id) as [E|E]; simpl.
  - intros [= <-]. simpl. rewrite filter_cons_False by tauto. subst id.
    rewrite drop_0. symmetry. by apply without_offer_notin.
  - destruct (offer_index os id) as [j'|] eqn:Ej; simpl; [|done]. intros [= <-].
    simpl. rewrite filter_cons_True by done. f_equal. by apply IH.
Qed.

Lemma without_offer_sorted id os : price_sorted os -> price_sorted (without_offer id os).
Proof.
  unfold without_offer, price_sorted. induction 1 as [|o os HS IH HF]; [constructor|].
  rewrite filter_cons. case_decide; [|done]. constructor; [done|].
  rewrite Forall_forall in HF |- *. intros x [_ Hx]%list_elem_of_filter. by apply HF.
Qed.

(** ** The operations on the map of venues *)
Definition venues_or_empty (m : gmap Z Venues) (k : Z) : Venues := default empty_venues (m !! k).

Section Maps.
Context {SL : ExpSlices} {SLL : ExpSlicesLaws SL}.

(** [find] in a well-formed set, for the operations that change one edge. *)
Lemma edge_update_map e j ed v b :
  NoDup (edge_keys e) -> e !! j = Some ed ->
  exists e', go_set e (Z.of_nat j) (mkEdge (key ed) v b) = Some e' /\
    NoDup (edge_keys e') /\ edge_map e' = <[key ed := v]> (edge_map e).
Proof.
  intros HN Hj. pose proof (lookup_lt_Some _ _ _ Hj) as Hl.
  rewrite go_set_lt by (unfold go_len; lia). rewrite Nat2Z.id.
  destruct (edge_map_insert e j ed (mkEdge (key ed) v b) HN Hj eq_refl) as [H1 H2].
  eexists. split; [done|]. rewrite H2. by split.
Qed.

Lemma edge_append_map e k v b :
  NoDup (edge_keys e) -> edge_map e !! k = None ->
  NoDup (edge_keys (e ++ [mkEdge k v b])) /\
  edge_map (e ++ [mkEdge k v b]) = <[k := v]> (edge_map e).
Proof.
  intros HN H. destruct (edge_map_snoc e k v b H) as [-> ->]. split; [|done].
  apply NoDup_app. split; [done|]. split; [|apply NoDup_singleton].
  intros x Hx ->%list_elem_of_singleton. by apply edge_map_None in H.
Qed.

Lemma edge_addOffer_map e k o :
  NoDup (edge_keys e) ->
  exists e', edge_addOffer e k o = Some e' /\ NoDup (edge_keys e') /\
    let v := venues_or_empty (edge_map e) k in
    edge_map e' = <[k := mkVenues (insert_offer o (offers v)) (pool v)]> (edge_map e).
Proof.
  intros HN. unfold edge_addOffer, venues_or_empty.
  destruct (find_spec e k HN) as [[-> Hm]|(j & ed & -> & Hj & <- & Hm)]; rewrite Hm; cbn [default from_option Datatypes.id].
  - eexists. split; [done|]. by apply edge_append_map.
  - rewrite (proj2 (Z.ltb_ge _ 0)) by lia. unfold go_index.
    rewrite (proj2 (Z.leb_le 0 _)), Nat2Z.id, Hj by lia.
    rewrite slices_Insert_spec by apply sort_Search_le. by apply edge_update_map.
Qed.

Lemma edge_addPool_map e k p :
  NoDup (edge_keys e) ->
  exists e', edge_addPool e k p = Some e' /\ NoDup (edge_keys e') /\
    edge_map e' = <[k := mkVenues (offers (venues_or_empty (edge_map e) k)) p]> (edge_map e).
Proof.
  intros HN. unfold edge_addPool, venues_or_empty.
  destruct (find_spec e k HN) as [[-> Hm]|(j & ed & -> & Hj & <- & Hm)]; rewrite Hm; cbn [default from_option Datatypes.id].
  - eexists. split; [done|]. by apply edge_append_map.
  - rewrite (proj2 (Z.ltb_ge _ 0)) by lia. unfold go_index.
    rewrite (proj2 (Z.leb_le 0 _)), Nat2Z.id, Hj by lia. by apply edge_update_map.
Qed.

(** Stores a venue, or drops it when it has neither offers nor a pool. *)
Definition set_venue (k : Z) (v : Venues) (m : gmap Z Venues) : gmap Z Venues :=
  if bool_decide (offers v = []) && bool_decide (venue_pool v = None) then delete k m
  else <[k := v]> m.

Lemma edge_removeOffer_map e k id :
  NoDup (edge_keys e) ->
  let v := venues_or_empty (edge_map e) k in
  NoDup (map OfferId (offers v)) ->
  exists e', edge_removeOffer e k id = Some (e', bool_decide (id ∈ map OfferId (offers v))) /\
    NoDup (edge_keys e') /\
    edge_map e' =
      (if bool_decide (id ∈ map OfferId (offers v))
       then set_venue k (mkVenues (without_offer id (offers v)) (pool v)) (edge_map e)
       else edge_map e) /\
    (id ∉ map OfferId (offers v) -> e' = e).
Proof.
  intros HN v. subst v. unfold edge_removeOffer, venues_or_empty.
  destruct (find_spec e k HN) as [[-> Hm]|(j & ed & -> & Hj & <- & Hm)]; rewrite Hm; cbn [default from_option Datatypes.id].
  - intros _. exists e. rewrite bool_decide_eq_false_2 by apply not_elem_of_nil. done.
  - intros HO. rewrite (proj2 (Z.ltb_ge _ 0)) by lia. unfold go_index.
    rewrite (proj2 (Z.leb_le 0 _)), Nat2Z.id, Hj by lia.
    destruct (offer_index (offers (value ed)) id) as [i|] eqn:Ei.
    2:{ rewrite bool_decide_eq_false_2 by (by apply offer_index_None). by exists e. }
    pose proof (offer_index_Some _ _ _ Ei) as (o & Ho & Hid).
    pose proof (lookup_lt_Some _ _ _ Ho) as Hl. pose proof (lookup_lt_Some _ _ _ Hj) as Hlj.
    rewrite !slices_Delete_spec by lia. rewrite (delete_offer_without _ id i HO Ei).
    assert (Hin : id ∈ map OfferId (offers (value ed))).
    { subst id. change (map OfferId ?l) with (OfferId <$> l).
        apply list_elem_of_fmap. exists o. split; [done|]. by eapply list_elem_of_lookup_2. }
    rewrite (bool_decide_eq_true_2 _ Hin).
    unfold set_venue, venue_pool. cbn [offers pool].
    assert ((go_len (without_offer id (offers (value ed))) =? 0) =
            bool_decide (without_offer id (offers (value ed)) = [])) as ->.
    { unfold go_len. destruct (without_offer id (offers (value ed))); [done|].
      rewrite bool_decide_eq_false_2 by done. done. }
    destruct (bool_decide _ && bool_decide _).
    + destruct (edge_map_delete e j ed HN Hj). eexists. repeat split; [done|done|]. by intros [].
    + destruct (edge_update_map e j ed (mkVenues (without_offer id (offers (value ed))) (pool (value ed)))
        true HN Hj) as (e' & -> & HN' & He'). exists e'. repeat split; [done|done|]. by intros [].
Qed.

Lemma edge_removePool_map e k :
  NoDup (edge_keys e) ->
  exists e', edge_removePool e k = Some e' /\ NoDup (edge_keys e') /\
    edge_map e' = set_venue k (mkVenues (offers (venues_or_empty (edge_map e) k)) zero_pool) (edge_map e).
Proof.
  intros HN. unfold edge_removePool, venues_or_empty, set_venue.
  destruct (find_spec e k HN) as [[-> Hm]|(j & ed & -> & Hj & <- & Hm)]; rewrite Hm; cbn [default from_option Datatypes.id].
  - exists e. simpl. by rewrite delete_id.
  - rewrite (proj2 (Z.ltb_ge _ 0)) by lia. unfold go_index.
    rewrite (proj2 (Z.leb_le 0 _)), Nat2Z.id, Hj by lia.
    pose proof (lookup_lt_Some _ _ _ Hj) as Hlj. cbn [offers].
    assert ((go_len (offers (value ed)) =? 0) = bool_decide (offers (value ed) = [])) as ->.
    { unfold go_len. destruct (offers (value ed)); [done|]. by rewrite bool_decide_eq_false_2. }
    case_bool_decide as E.
    + rewrite slices_Delete_spec by lia. simpl. destruct (edge_map_delete e j ed HN Hj). eexists. by split.
    + simpl. by apply edge_update_map.
Qed.

Lemma edge_reallocate_map e :
  edge_keys (edge_reallocate e) = edge_keys e /\ edge_map (edge_reallocate e) = edge_map e.
Proof.
  unfold edge_keys, edge_map, edge_reallocate. rewrite !map_map.
  split; [|f_equal]; apply map_ext; intros ed; by destruct (reallocate ed).
Qed.
End Maps.

(** ** Properties *)

(** Offers in price order, with prices a ledger can hold. *)
Definition ordered (v : Venues) : Prop := price_sorted (offers v) /\ Forall priced (offers v).

Lemma ordered_empty : ordered empty_venues.
Proof. split; constructor. Qed.

Lemma ordered_insert v o p :
  priced o -> ordered v -> ordered (mkVenues (insert_offer o (offers v)) p).
Proof.
  intros Ho [HS HP]. split; [by apply insert_offer_sorted|]. simpl.
  rewrite insert_offer_perm. by constructor.
Qed.

Lemma ordered_without v id p :
  ordered v -> ordered (mkVenues (without_offer id (offers v)) p).
Proof.
  intros [HS HP]. split; [by apply without_offer_sorted|]. simpl. unfold without_offer.
  rewrite Forall_forall in HP |- *. intros x [_ Hx]%list_elem_of_filter. by apply HP.
Qed.

Lemma ordered_or_empty m k : map_Forall (fun _ => ordered) m -> ordered (venues_or_empty m k).
Proof.
  intros H. unfold venues_or_empty. destruct (m !! k) eqn:E; [by eapply H|apply ordered_empty].
Qed.

Record wf_edges (e : edgeSet) : Prop := {
  wfe_keys : NoDup (edge_keys e);
  wfe_ordered : map_Forall (fun _ => ordered) (edge_map e)
}.

Section Priority.
Context {SL : ExpSlices} {SLL : ExpSlicesLaws SL}.

(** Price-time priority. Adding an offer to a well-formed edge set never
    panics, leaves the pool and every other venue alone, puts the offer after
    all offers of its venue that are at least as cheap and before all dearer
    ones, and keeps the set well formed. *)
Theorem edge_addOffer_priority e k o :
  wf_edges e -> priced o ->
  exists e' l1 l2, edge_addOffer e k o = Some e' /\ wf_edges e' /\
    offers (venues_or_empty (edge_map e) k) = l1 ++ l2 /\
    edge_map e' !! k = Some (mkVenues (l1 ++ o :: l2) (pool (venues_or_empty (edge_map e) k))) /\
    Forall (fun a => Cheaper (OfferPrice o) (OfferPrice a) = false) l1 /\
    Forall (fun a => Cheaper (OfferPrice o) (OfferPrice a) = true) l2 /\
    (forall k', k' <> k -> edge_map e' !! k' = edge_map e !! k').
Proof.
  intros [HN HO] Hp. destruct (edge_addOffer_map e k o HN) as (e' & HE & HN' & HM). cbv zeta in HM.
  pose proof (ordered_or_empty _ k HO) as [HS HF].
  destruct (insert_offer_split o _ Hp HF HS) as (l1 & l2 & H1 & H2 & HL1 & HL2).
  exists e', l1, l2. split; [done|]. split.
  { split; [done|]. rewrite HM. apply map_Forall_insert_2; [|done]. by apply ordered_insert. }
  split; [done|]. rewrite HM, lookup_insert_eq, H2. split; [done|]. split; [done|].
  split; [done|]. intros k' Hk. by rewrite lookup_insert_ne.
Qed.

(** Removing an offer from a well-formed edge set never panics, reports
    whether the offer was there, removes it and nothing else from its venue,
    drops the edge when neither offers nor a pool remain, leaves the other
    venues alone and keeps the set well formed. *)
Theorem edge_removeOffer_exact e k id :
  wf_edges e -> NoDup (map OfferId (offers (venues_or_empty (edge_map e) k))) ->
  let v := venues_or_empty (edge_map e) k in
  exists e' b, edge_removeOffer e k id = Some (e', b) /\ wf_edges e' /\
    (b = true <-> id ∈ map OfferId (offers v)) /\
    (b = false -> e' = e) /\
    (b = true -> edge_map e' !! k =
       (if bool_decide (without_offer id (offers v) = []) && bool_decide (venue_pool v = None) then None
        else Some (mkVenues (without_offer id (offers v)) (pool v)))) /\
    (forall k', k' <> k -> edge_map e' !! k' = edge_map e !! k').
Proof.
  intros [HN HO] HD v.
  destruct (edge_removeOffer_map e k id HN HD) as (e' & HE & HN' & HM & HI).
  fold v in HE, HM, HI.
  eexists e', _. split; [exact HE|]. rewrite bool_decide_eq_true, bool_decide_eq_false.
  assert (HW : map_Forall (fun _ => ordered) (edge_map e')).
  { rewrite HM. case_bool_decide; [|done]. unfold set_venue.
    destruct (_ && _); [by apply map_Forall_delete|].
    apply map_Forall_insert_2; [|done]. by apply ordered_without, ordered_or_empty. }
  split; [by split|]. split; [done|]. split; [|split].
  - done.
  - intros Hin. rewrite HM, bool_decide_eq_true_2 by done. unfold set_venue, venue_pool.
    cbn [offers pool]. destruct (_ && _); [apply lookup_delete_eq|apply lookup_insert_eq].
  - intros k' Hk. rewrite HM. case_bool_decide; [|done]. unfold set_venue.
    destruct (_ && _); [by rewrite lookup_delete_ne|by rewrite lookup_insert_ne].
Qed.
End Priority.

(** Two offers at the same price: the later one is queued behind the first. *)
Definition sample_offer (id n : Z) : OfferEntry :=
  mkOfferEntry (zero_array 32) id Native Native 10 (mkPrice n 1) 0 0.

Lemma sample_priced id n : 0 < n <= MaxInt32 -> priced (sample_offer id n).
Proof. intros H. unfold priced, valid_price. simpl. lia. Qed.

Lemma wf_edges_singleton k o p b :
  priced o -> wf_edges [mkEdge k (mkVenues [o] p) b].
Proof.
  intros Ho. split; [apply NoDup_singleton|]. unfold edge_map. simpl.
  apply map_Forall_insert_2; [|apply map_Forall_empty].
  split; [repeat constructor|by apply Forall_singleton].
Qed.
