(* ===== verification/Graph.v ===== *)
(** * The order book graph

    src/exp/orderbook/graph.go and batch.go: the graph's state, the operations
    that change it, and batches of operations. Every method runs under the
    graph's lock, so each is one step on the state. A method that can panic
    returns an option; one that returns an error returns the state it leaves
    beside it. *)
From Stdlib Require Import ZArith Lia.
From stdpp Require Import base list vector option gmap sorting.
From S2P Require Import Prelude GoStd GoExt Price Encodings Strkey Asset Pools Edges.
#[local] Open Scope Z_scope.
#[local] Open Scope go_scope.

(** A trading pair: the buying asset's id, then the selling asset's. *)
Abbreviation tradingPair := (Z * Z)%type.
Abbreviation buyingAsset := fst.
Abbreviation sellingAsset := snd.

Inductive orderbook_error : Type :=
| errOfferNotPresent
| errUnexpectedLedger.

(** A queued operation; each constructor is one operation type with the
    fields [orderBookBatchedUpdates] sets for it. *)
Inductive orderBookOperation : Type :=
| AddOfferOperation (offer : OfferEntry)
| RemoveOfferOperation (offerID : Z)
| AddLiquidityPoolOperation (liquidityPool : LiquidityPoolEntry)
| RemoveLiquidityPoolOperation (liquidityPool : LiquidityPoolEntry).

Record orderBookBatchedUpdates : Type := mkBatch {
  operations : list orderBookOperation;
  committed : bool
}.

Record OrderBookGraph : Type := mkGraph {
  idToAssetString : list bytes;
  assetStringToID : gmap bytes Z;
  vacantIDs : list Z;
  venuesForBuyingAsset : list edgeSet;
  venuesForSellingAsset : list edgeSet;
  liquidityPools : gmap tradingPair LiquidityPoolEntry;
  tradingPairForOffer : gmap Z tradingPair;
  batchedUpdates : orderBookBatchedUpdates;
  lastLedger : Z
}.

(** ** Field updates *)
Definition set_ids (g : OrderBookGraph) ids m vacant buying selling : OrderBookGraph :=
  mkGraph ids m vacant buying selling (liquidityPools g) (tradingPairForOffer g)
    (batchedUpdates g) (lastLedger g).
Definition set_tables (g : OrderBookGraph) buying selling : OrderBookGraph :=
  mkGraph (idToAssetString g) (assetStringToID g) (vacantIDs g) buying selling
    (liquidityPools g) (tradingPairForOffer g) (batchedUpdates g) (lastLedger g).
Definition set_pools (g : OrderBookGraph) pools : OrderBookGraph :=
  mkGraph (idToAssetString g) (assetStringToID g) (vacantIDs g) (venuesForBuyingAsset g)
    (venuesForSellingAsset g) pools (tradingPairForOffer g) (batchedUpdates g) (lastLedger g).
Definition set_pairs (g : OrderBookGraph) pairs : OrderBookGraph :=
  mkGraph (idToAssetString g) (assetStringToID g) (vacantIDs g) (venuesForBuyingAsset g)
    (venuesForSellingAsset g) (liquidityPools g) pairs (batchedUpdates g) (lastLedger g).
Definition set_batch (g : OrderBookGraph) b : OrderBookGraph :=
  mkGraph (idToAssetString g) (assetStringToID g) (vacantIDs g) (venuesForBuyingAsset g)
    (venuesForSellingAsset g) (liquidityPools g) (tradingPairForOffer g) b (lastLedger g).
Definition set_ledger (g : OrderBookGraph) l : OrderBookGraph :=
  mkGraph (idToAssetString g) (assetStringToID g) (vacantIDs g) (venuesForBuyingAsset g)
    (venuesForSellingAsset g) (liquidityPools g) (tradingPairForOffer g) (batchedUpdates g) l.

(** ** Construction and batches *)
Definition batch : orderBookBatchedUpdates := mkBatch [] false.

Definition Clear (g : OrderBookGraph) : OrderBookGraph := mkGraph [] ∅ [] [] [] ∅ ∅ batch 0.
Definition NewOrderBookGraph : OrderBookGraph := mkGraph [] ∅ [] [] [] ∅ ∅ batch 0.

Definition enqueue (op : orderBookOperation) (tx : orderBookBatchedUpdates) : orderBookBatchedUpdates :=
  mkBatch (operations tx ++ [op]) (committed tx).
Definition batch_addOffer offer := enqueue (AddOfferOperation offer).
Definition batch_removeOffer offerID := enqueue (RemoveOfferOperation offerID).
Definition batch_addLiquidityPool p := enqueue (AddLiquidityPoolOperation p).
Definition batch_removeLiquidityPool p := enqueue (RemoveLiquidityPoolOperation p).

Definition AddOffers (g : OrderBookGraph) (os : list OfferEntry) : OrderBookGraph :=
  set_batch g (fold_left (fun tx o => batch_addOffer o tx) os (batchedUpdates g)).
Definition AddLiquidityPools (g : OrderBookGraph) (ps : list LiquidityPoolEntry) : OrderBookGraph :=
  set_batch g (fold_left (fun tx p => batch_addLiquidityPool p tx) ps (batchedUpdates g)).
Definition RemoveOffer (g : OrderBookGraph) (offerID : Z) : OrderBookGraph :=
  set_batch g (batch_removeOffer offerID (batchedUpdates g)).
Definition RemoveLiquidityPool (g : OrderBookGraph) (p : LiquidityPoolEntry) : OrderBookGraph :=
  set_batch g (batch_removeLiquidityPool p (batchedUpdates g)).
Definition Discard (g : OrderBookGraph) : OrderBookGraph := set_batch g batch.

(** ** Asset ids *)
Definition getOrCreateAssetID (g : OrderBookGraph) (asset : Asset) : option (OrderBookGraph * Z) :=
  let! assetString := Asset_String asset in
  match assetStringToID g !! assetString with
  | Some id => Some (g, id)
  | None =>
      if 0 <? go_len (vacantIDs g) then
        let! id := go_index (vacantIDs g) (go_len (vacantIDs g) - 1) in
        let vacant := take (length (vacantIDs g) - 1) (vacantIDs g) in
        let! ids := go_set (idToAssetString g) id assetString in
        Some (set_ids g ids (<[assetString := id]> (assetStringToID g)) vacant
                (venuesForBuyingAsset g) (venuesForSellingAsset g), id)
      else
        let id := i32 (go_len (idToAssetString g)) in
        Some (set_ids g (idToAssetString g ++ [assetString])
                (<[assetString := id]> (assetStringToID g)) (vacantIDs g)
                (venuesForBuyingAsset g ++ [[]]) (venuesForSellingAsset g ++ [[]]), id)
  end.

Definition maybeDeleteAsset (g : OrderBookGraph) (asset : Z) : option OrderBookGraph :=
  let! buying := go_index (venuesForBuyingAsset g) asset in
  let! selling := go_index (venuesForSellingAsset g) asset in
  if (go_len buying =? 0) && (go_len selling =? 0) then
    let! name := go_index (idToAssetString g) asset in
    let! ids := go_set (idToAssetString g) asset [] in
    Some (set_ids g ids (delete name (assetStringToID g)) (vacantIDs g ++ [asset])
            (venuesForBuyingAsset g) (venuesForSellingAsset g))
  else Some g.

(** [table[a] = f(table[a])] *)
Definition update_table (table : list edgeSet) (a : Z) (f : edgeSet -> option edgeSet) :
    option (list edgeSet) :=
  let! e := go_index table a in
  let! e' := f e in
  go_set table a e'.

Section Operations.
Context {SL : ExpSlices}.

(** ** Offers *)
Definition graph_removeOffer (g : OrderBookGraph) (offerID : Z) :
    option (OrderBookGraph * option orderbook_error) :=
  match tradingPairForOffer g !! offerID with
  | None => Some (g, Some errOfferNotPresent)
  | Some tp =>
      let g := set_pairs g (delete offerID (tradingPairForOffer g)) in
      let! sell := go_index (venuesForSellingAsset g) (sellingAsset tp) in
      let! (set, ok) := edge_removeOffer sell (buyingAsset tp) offerID in
      if negb ok then Some (g, Some errOfferNotPresent)
      else
        let! selling := go_set (venuesForSellingAsset g) (sellingAsset tp) set in
        let g := set_tables g (venuesForBuyingAsset g) selling in
        let! buy := go_index (venuesForBuyingAsset g) (buyingAsset tp) in
        let! (set, ok) := edge_removeOffer buy (sellingAsset tp) offerID in
        if negb ok then Some (g, Some errOfferNotPresent)
        else
          let! buying := go_set (venuesForBuyingAsset g) (buyingAsset tp) set in
          let g := set_tables g buying (venuesForSellingAsset g) in
          let! g := maybeDeleteAsset g (buyingAsset tp) in
          let! g := maybeDeleteAsset g (sellingAsset tp) in
          Some (g, None)
  end.

Definition graph_addOffer (g : OrderBookGraph) (offer : OfferEntry) :
    option (OrderBookGraph * option orderbook_error) :=
  let! (g, err) :=
    (if bool_decide (is_Some (tradingPairForOffer g !! OfferId offer))
     then graph_removeOffer g (OfferId offer) else Some (g, None)) in
  match err with
  | Some e => Some (g, Some e)
  | None =>
      let! (g, buying) := getOrCreateAssetID g (Buying offer) in
      let! (g, selling) := getOrCreateAssetID g (Selling offer) in
      let g := set_pairs g (<[OfferId offer := (buying, selling)]> (tradingPairForOffer g)) in
      let! sellingTable := update_table (venuesForSellingAsset g) selling
        (fun e => edge_addOffer e buying offer) in
      let! buyingTable := update_table (venuesForBuyingAsset g) buying
        (fun e => edge_addOffer e selling offer) in
      Some (set_tables g buyingTable sellingTable, None)
  end.

(** ** Liquidity pools *)
Definition poolFromEntry (g : OrderBookGraph) (poolXDR : LiquidityPoolEntry) :
    option (OrderBookGraph * liquidityPool) :=
  let! (aXDR, bXDR) := getPoolAssets poolXDR in
  let! (g, a) := getOrCreateAssetID g aXDR in
  let! (g, b) := getOrCreateAssetID g bXDR in
  Some (g, mkLiquidityPool poolXDR a b).

Definition graph_addPool (g : OrderBookGraph) (poolEntry : LiquidityPoolEntry) :
    option OrderBookGraph :=
  let! (g, p) := poolFromEntry g poolEntry in
  let g := set_pools g (<[(assetA p, assetB p) := lp_entry p]> (liquidityPools g)) in
  let in_table (table : list edgeSet) :=
    let! table := update_table table (assetA p) (fun e => edge_addPool e (assetB p) p) in
    update_table table (assetB p) (fun e => edge_addPool e (assetA p) p) in
  let! buying := in_table (venuesForBuyingAsset g) in
  let! selling := in_table (venuesForSellingAsset g) in
  Some (set_tables g buying selling).

Definition graph_removePool (g : OrderBookGraph) (poolXDR : LiquidityPoolEntry) :
    option OrderBookGraph :=
  let! (aXDR, bXDR) := getPoolAssets poolXDR in
  let! (g, a) := getOrCreateAssetID g aXDR in
  let! (g, b) := getOrCreateAssetID g bXDR in
  let for_asset (g : OrderBookGraph) (asset : Z) :=
    let otherAsset := if asset =? b then a else b in
    let! buying := update_table (venuesForBuyingAsset g) asset
      (fun e => edge_removePool e otherAsset) in
    let! selling := update_table (venuesForSellingAsset g) asset
      (fun e => edge_removePool e otherAsset) in
    Some (set_tables g buying selling) in
  let! g := for_asset g a in
  let! g := for_asset g b in
  let g := set_pools g (delete (a, b) (liquidityPools g)) in
  let! g := maybeDeleteAsset g a in
  maybeDeleteAsset g b.

(** ** Applying a batch *)

(** One operation of a batch, with the pairs to reallocate. An error in it is
    a panic. *)
Definition apply_operation (st : OrderBookGraph * gset tradingPair) (op : orderBookOperation) :
    option (OrderBookGraph * gset tradingPair) :=
  let '(g, reallocatePairs) := st in
  match op with
  | AddOfferOperation offer =>
      let! (g, err) := graph_addOffer g offer in
      match err with Some _ => None | None => Some (g, reallocatePairs) end
  | RemoveOfferOperation offerID =>
      match tradingPairForOffer g !! offerID with
      | None => Some (g, reallocatePairs)
      | Some tp =>
          let! (g, err) := graph_removeOffer g offerID in
          match err with Some _ => None | None => Some (g, {[tp]} ∪ reallocatePairs) end
      end
  | AddLiquidityPoolOperation p => let! g := graph_addPool g p in Some (g, reallocatePairs)
  | RemoveLiquidityPoolOperation p => let! g := graph_removePool g p in Some (g, reallocatePairs)
  end.

Fixpoint apply_operations (st : OrderBookGraph * gset tradingPair) (ops : list orderBookOperation) :
    option (OrderBookGraph * gset tradingPair) :=
  match ops with
  | [] => Some st
  | op :: ops => let! st := apply_operation st op in apply_operations st ops
  end.

(** The loop over the pairs of a map, which Go visits in no particular order. *)
Fixpoint reallocate_pairs (g : OrderBookGraph) (pairs : list tradingPair) : option OrderBookGraph :=
  match pairs with
  | [] => Some g
  | tp :: pairs =>
      let! selling := update_table (venuesForSellingAsset g) (sellingAsset tp)
        (fun e => Some (edge_reallocate e)) in
      let! buying := update_table (venuesForBuyingAsset g) (buyingAsset tp)
        (fun e => Some (edge_reallocate e)) in
      reallocate_pairs (set_tables g buying selling) pairs
  end.

(** [apply] of the graph's own batch. *)
Definition batch_apply (g : OrderBookGraph) (ledger : Z) :
    option (OrderBookGraph * option orderbook_error) :=
  let tx := batchedUpdates g in
  if committed tx then None
  else
    let g := set_batch g (mkBatch (operations tx) true) in
    if (0 <? lastLedger g) && (ledger <=? lastLedger g) then Some (g, Some errUnexpectedLedger)
    else
      let! (g, reallocatePairs) := apply_operations (g, ∅) (operations tx) in
      let g := set_ledger g ledger in
      let! g := reallocate_pairs g (elements reallocatePairs) in
      Some (g, None).

Definition Apply (g : OrderBookGraph) (ledger : Z) :
    option (OrderBookGraph * option orderbook_error) :=
  let! (g, err) := batch_apply g ledger in
  match err with
  | Some e => Some (g, Some e)
  | None => Some (set_batch g batch, None)
  end.
End Operations.

(** ** Queries *)
Definition Offers (g : OrderBookGraph) : list OfferEntry :=
  flat_map (fun edges => flat_map (fun ed => offers (value ed)) edges) (venuesForSellingAsset g).
Definition LiquidityPools (g : OrderBookGraph) : list LiquidityPoolEntry :=
  map snd (map_to_list (liquidityPools g)).
Definition IsEmpty (g : OrderBookGraph) : bool :=
  (Z.of_nat (size (liquidityPools g)) =? 0) && (Z.of_nat (size (tradingPairForOffer g)) =? 0).
