(* ===== verification/Tables.v ===== *)
(** * Tables of edge sets

    The two tables of the graph, read as functions from an asset and a
    neighbour to a venue, and what each edge operation does to that function. *)
From Stdlib Require Import ZArith Lia.
From stdpp Require Import base list vector option gmap sorting.
From S2P Require Import Prelude GoStd GoExt Price Encodings Strkey Asset Pools Edges Graph.
#[local] Open Scope Z_scope.
#[local] Open Scope go_scope.

Definition edges_at (t : list edgeSet) (a : Z) : gmap Z Venues :=
  match go_index t a with Some e => edge_map e | None => ∅ end.

(** The venue of [a] towards [k]; empty when there is no edge. *)
Definition venue (t : list edgeSet) (a k : Z) : Venues := venues_or_empty (edges_at t a) k.

(** An edge is kept only while it has offers or a pool; a venue without a pool
    holds the zero pool. *)
Definition live (v : Venues) : Prop := offers v <> [] \/ venue_pool v <> None.
Definition clean (v : Venues) : Prop := venue_pool v = None -> pool v = zero_pool.

Record wf_set (e : edgeSet) : Prop := {
  wfs_keys : NoDup (edge_keys e);
  wfs_venues : map_Forall (fun _ v => live v /\ clean v) (edge_map e)
}.
Definition wf_table (t : list edgeSet) : Prop := Forall wf_set t.

Lemma live_not_empty v : live v -> v <> empty_venues.
Proof. intros [H|H] ->; by apply H. Qed.

Lemma not_live v : ~ live v -> clean v -> v = empty_venues.
Proof.
  intros H C. destruct v as [os p]. unfold live, clean, venue_pool in *. simpl in *.
  destruct os; [|exfalso; apply H; by left].
  destruct (ConstantProduct _) eqn:E; [exfalso; apply H; by right|]. by rewrite C.
Qed.

#[export] Instance live_dec v : Decision (live v).
Proof. unfold live. apply or_dec; apply not_dec; solve_decision. Defined.

Lemma wf_table_lookup t a : wf_table t -> 0 <= a < go_len t ->
  exists e, go_index t a = Some e /\ wf_set e.
Proof.
  intros H Ha. destruct (go_index_lt t a Ha) as [e He]. exists e. split; [done|].
  apply go_index_Some in He as [_ He]. unfold wf_table in H. by eapply Forall_lookup_1.
Qed.

Lemma edges_at_Some t a e : go_index t a = Some e -> edges_at t a = edge_map e.
Proof. intros H. unfold edges_at. by rewrite H. Qed.

Lemma edges_at_wf t a : wf_table t -> map_Forall (fun _ v => live v /\ clean v) (edges_at t a).
Proof.
  intros H. unfold edges_at. destruct (go_index t a) as [e|] eqn:E; [|apply map_Forall_empty].
  apply go_index_Some in E as [_ E]. unfold wf_table in H.
  by apply (Forall_lookup_1 _ _ _ _ H) in E as [].
Qed.

Lemma clean_empty : clean empty_venues.
Proof. done. Qed.

Lemma venue_clean t a k : wf_table t -> clean (venue t a k).
Proof.
  intros H. unfold venue, venues_or_empty. destruct (edges_at t a !! k) eqn:E; [|done].
  by apply (edges_at_wf t a H) in E as [].
Qed.

(** An edge exists exactly where the venue is not empty. *)
Lemma edges_at_lookup t a k :
  wf_table t -> edges_at t a !! k = if decide (live (venue t a k)) then Some (venue t a k) else None.
Proof.
  intros H. unfold venue, venues_or_empty. destruct (edges_at t a !! k) as [v|] eqn:E;
    cbn [default from_option Datatypes.id].
  - apply (edges_at_wf t a H) in E as [Hv _]. by rewrite decide_True.
  - rewrite decide_False; [done|]. by intros [].
Qed.

Lemma edge_set_empty e : wf_set e -> (e = [] <-> edge_map e = ∅).
Proof.
  intros [HN _]. split; [by intros ->|]. destruct e as [|ed e]; [done|]. intros E. exfalso.
  assert (edge_map (ed :: e) !! key ed = None) as Hn by (rewrite E; apply lookup_empty).
  by rewrite (edge_map_lookup _ _ 0 ed HN) in Hn.
Qed.

Lemma table_entry_empty t a e :
  wf_table t -> go_index t a = Some e ->
  ((go_len e =? 0) = true <-> forall k, venue t a k = empty_venues).
Proof.
  intros H He. assert (wf_set e) as Hw.
  { apply go_index_Some in He as [_ He']. unfold wf_table in H. by eapply Forall_lookup_1. }
  transitivity (e = []). { unfold go_len. rewrite Z.eqb_eq. destruct e; simpl; split; (done || lia). }
  rewrite edge_set_empty, <- (edges_at_Some t a e He) by done. split.
  - intros E k. unfold venue. by rewrite E.
  - intros E. apply map_eq. intros k. rewrite edges_at_lookup, E, lookup_empty by done.
    rewrite decide_False; [done|]. by intros [].
Qed.

Lemma table_entry_nonempty t a e :
  wf_table t -> go_index t a = Some e -> (go_len e =? 0) = false ->
  exists k, venue t a k <> empty_venues.
Proof.
  intros H He Hne. assert (wf_set e) as [HN HV].
  { apply go_index_Some in He as [_ He']. unfold wf_table in H. by eapply Forall_lookup_1. }
  destruct e as [|ed e]; [done|]. exists (key ed). unfold venue. rewrite (edges_at_Some t a _ He).
  pose proof (edge_map_lookup (ed :: e) (key ed) 0 ed HN eq_refl eq_refl) as E.
  unfold venues_or_empty. rewrite E. apply live_not_empty. by apply HV in E as [].
Qed.

Lemma venue_out_of_range t a k : ~ (0 <= a < go_len t) -> venue t a k = empty_venues.
Proof.
  intros H. unfold venue, edges_at. destruct (go_index t a) eqn:E; [|done].
  by apply go_index_range in E.
Qed.

(** ** Updating one entry *)
Definition upd (f : Z -> Z -> Venues) (a k : Z) (v : Venues) : Z -> Z -> Venues :=
  fun x y => if bool_decide (x = a /\ y = k) then v else f x y.

Lemma upd_eq f a k v : upd f a k v a k = v.
Proof. unfold upd. by rewrite bool_decide_eq_true_2. Qed.

Lemma upd_ne f a k v x y : (x <> a \/ y <> k) -> upd f a k v x y = f x y.
Proof. intros H. unfold upd. rewrite bool_decide_eq_false_2; [done|]. intros []; tauto. Qed.

Lemma go_index_set_eq {A} (t : list A) a e : 0 <= a < go_len t -> go_index (<[Z.to_nat a := e]> t) a = Some e.
Proof.
  intros H. apply go_index_Some. split; [lia|]. apply list_lookup_insert_eq. unfold go_len in H. lia.
Qed.

Lemma go_index_set_ne {A} (t : list A) a x e :
  0 <= a -> x <> a -> go_index (<[Z.to_nat a := e]> t) x = go_index t x.
Proof.
  intros Ha Hx. unfold go_index. destruct (Z.leb_spec 0 x); [|done].
  apply list_lookup_insert_ne. lia.
Qed.

(** Replaces entry [a] by an edge set whose map differs at [k] only. *)
Lemma set_entry t a e e' k v :
  wf_table t -> go_index t a = Some e -> wf_set e' ->
  (forall k', k' <> k -> edge_map e' !! k' = edge_map e !! k') ->
  venues_or_empty (edge_map e') k = v ->
  exists t', go_set t a e' = Some t' /\ wf_table t' /\ go_len t' = go_len t /\
    forall x y, venue t' x y = upd (venue t) a k v x y.
Proof.
  intros Ht He He' Hne Hv. pose proof (go_index_range _ _ _ He) as Hr.
  rewrite go_set_lt by done. eexists. split; [done|]. split; [by apply Forall_insert|].
  split; [apply go_len_insert|]. intros x y. unfold upd, venue, edges_at.
  destruct (decide (x = a)) as [->|Hx].
  - rewrite go_index_set_eq, He by done. case_bool_decide as Hxy; [by destruct Hxy as [_ ->]|].
    unfold venues_or_empty. rewrite Hne; [done|]. intros ->. tauto.
  - rewrite go_index_set_ne by lia. rewrite bool_decide_eq_false_2; [done|]. tauto.
Qed.

Lemma set_venue_spec k v m :
  map_Forall (fun _ v => live v /\ clean v) m -> clean v ->
  map_Forall (fun _ v => live v /\ clean v) (set_venue k v m) /\
  (forall k', k' <> k -> set_venue k v m !! k' = m !! k') /\
  venues_or_empty (set_venue k v m) k = v.
Proof.
  intros Hm Hc. unfold set_venue, venues_or_empty.
  destruct (bool_decide (offers v = []) && bool_decide (venue_pool v = None)) eqn:E.
  - apply andb_true_iff in E as [E1%bool_decide_eq_true E2%bool_decide_eq_true].
    split; [by apply map_Forall_delete|]. split; [intros; by rewrite lookup_delete_ne|].
    rewrite lookup_delete_eq. simpl. symmetry. apply not_live; [|done]. intros []; tauto.
  - split; [|split; [intros; by rewrite lookup_insert_ne|by rewrite lookup_insert_eq]].
    apply map_Forall_insert_2; [|done]. split; [|done]. unfold live.
    apply andb_false_iff in E as [E%bool_decide_eq_false|E%bool_decide_eq_false]; tauto.
Qed.

Lemma insert_live k v m :
  map_Forall (fun _ v => live v /\ clean v) m -> live v -> clean v ->
  map_Forall (fun _ v => live v /\ clean v) (<[k := v]> m) /\
  (forall k', k' <> k -> <[k := v]> m !! k' = m !! k') /\
  venues_or_empty (<[k := v]> m) k = v.
Proof.
  intros Hm Hl Hc. split; [by apply map_Forall_insert_2|].
  split; [intros; by rewrite lookup_insert_ne|]. unfold venues_or_empty. by rewrite lookup_insert_eq.
Qed.

Section Operations.
Context {SL : ExpSlices} {SLL : ExpSlicesLaws SL}.

(** Each operation on entry [a] changes the venue of [a] towards [k] only. *)
Lemma table_addOffer t a k o :
  wf_table t -> 0 <= a < go_len t ->
  exists t', update_table t a (fun e => edge_addOffer e k o) = Some t' /\
    wf_table t' /\ go_len t' = go_len t /\
    forall x y, venue t' x y =
      upd (venue t) a k (mkVenues (insert_offer o (offers (venue t a k))) (pool (venue t a k))) x y.
Proof.
  intros Ht Ha. destruct (wf_table_lookup t a Ht Ha) as (e & He & HN & Hv).
  unfold update_table. rewrite He. destruct (edge_addOffer_map e k o HN) as (e' & -> & HN' & HM).
  cbv zeta in HM. rewrite <- (edges_at_Some t a e He) in HM. fold (venue t a k) in HM.
  destruct (insert_live k (mkVenues (insert_offer o (offers (venue t a k))) (pool (venue t a k)))
    (edge_map e) Hv) as (H1 & H2 & H3).
  - left. simpl. intros E. pose proof (insert_offer_perm o (offers (venue t a k))) as P.
    rewrite E in P. by apply Permutation_nil_cons in P.
  - intros Hp. exact (venue_clean t a k Ht Hp).
  - rewrite (edges_at_Some t a e He) in HM. eapply set_entry; [done|done|split; [done|by rewrite HM]|by rewrite HM|by rewrite HM].
Qed.

Lemma table_addPool t a k p :
  wf_table t -> 0 <= a < go_len t -> ConstantProduct (Body (lp_entry p)) <> None ->
  exists t', update_table t a (fun e => edge_addPool e k p) = Some t' /\
    wf_table t' /\ go_len t' = go_len t /\
    forall x y, venue t' x y = upd (venue t) a k (mkVenues (offers (venue t a k)) p) x y.
Proof.
  intros Ht Ha Hp. destruct (wf_table_lookup t a Ht Ha) as (e & He & HN & Hv).
  unfold update_table. rewrite He. destruct (edge_addPool_map e k p HN) as (e' & -> & HN' & HM).
  rewrite <- (edges_at_Some t a e He) in HM. fold (venue t a k) in HM.
  destruct (insert_live k (mkVenues (offers (venue t a k)) p) (edge_map e) Hv) as (H1 & H2 & H3).
  - by right.
  - by intros H.
  - rewrite (edges_at_Some t a e He) in HM. eapply set_entry; [done|done|split; [done|by rewrite HM]|by rewrite HM|by rewrite HM].
Qed.

Lemma table_removePool t a k :
  wf_table t -> 0 <= a < go_len t ->
  exists t', update_table t a (fun e => edge_removePool e k) = Some t' /\
    wf_table t' /\ go_len t' = go_len t /\
    forall x y, venue t' x y = upd (venue t) a k (mkVenues (offers (venue t a k)) zero_pool) x y.
Proof.
  intros Ht Ha. destruct (wf_table_lookup t a Ht Ha) as (e & He & HN & Hv).
  unfold update_table. rewrite He. destruct (edge_removePool_map e k HN) as (e' & -> & HN' & HM).
  rewrite <- (edges_at_Some t a e He) in HM. fold (venue t a k) in HM.
  destruct (set_venue_spec k (mkVenues (offers (venue t a k)) zero_pool) (edge_map e) Hv) as (H1 & H2 & H3);
    [done|].
  rewrite (edges_at_Some t a e He) in HM. eapply set_entry; [done|done|split; [done|by rewrite HM]|by rewrite HM|by rewrite HM].
Qed.

(** Removing an offer that is there. *)
Lemma table_removeOffer t a k id :
  wf_table t -> 0 <= a < go_len t ->
  NoDup (map OfferId (offers (venue t a k))) -> id ∈ map OfferId (offers (venue t a k)) ->
  exists e e' t', go_index t a = Some e /\ edge_removeOffer e k id = Some (e', true) /\
    go_set t a e' = Some t' /\ wf_table t' /\ go_len t' = go_len t /\
    forall x y, venue t' x y =
      upd (venue t) a k (mkVenues (without_offer id (offers (venue t a k))) (pool (venue t a k))) x y.
Proof.
  intros Ht Ha HD Hin. destruct (wf_table_lookup t a Ht Ha) as (e & He & HN & Hv).
  assert (Ev : venues_or_empty (edge_map e) k = venue t a k)
    by (unfold venue; by rewrite (edges_at_Some t a e He)).
  pose proof (edge_removeOffer_map e k id HN) as L. cbv zeta in L. rewrite Ev in L.
  destruct (L HD) as (e' & HE & HN' & HM & _).
  rewrite bool_decide_eq_true_2 in HE, HM by done.
  destruct (set_venue_spec k (mkVenues (without_offer id (offers (venue t a k))) (pool (venue t a k)))
    (edge_map e) Hv) as (H1 & H2 & H3).
  { intros Hp. exact (venue_clean t a k Ht Hp). }
  destruct (set_entry t a e e' k (mkVenues (without_offer id (offers (venue t a k))) (pool (venue t a k))))
    as (t' & Hs & Hw & Hl & Hvn).
  - done.
  - done.
  - split; [done|]. by rewrite HM.
  - by rewrite HM.
  - by rewrite HM.
  - by exists e, e', t'.
Qed.

(** Reallocation changes no venue. *)
Lemma table_reallocate t a :
  wf_table t -> 0 <= a < go_len t ->
  exists t', update_table t a (fun e => Some (edge_reallocate e)) = Some t' /\
    wf_table t' /\ go_len t' = go_len t /\ forall x y, venue t' x y = venue t x y.
Proof.
  intros Ht Ha. destruct (wf_table_lookup t a Ht Ha) as (e & He & HN & Hv).
  unfold update_table. rewrite He. destruct (edge_reallocate_map e) as [HK HM].
  destruct (set_entry t a e (edge_reallocate e) 0 (venues_or_empty (edge_map e) 0))
    as (t' & Hs & Hw & Hl & Hvn).
  - done.
  - done.
  - split; [by rewrite HK|by rewrite HM].
  - by rewrite HM.
  - by rewrite HM.
  - exists t'. split; [done|]. split; [done|]. split; [done|]. intros x y. rewrite Hvn. unfold upd.
    case_bool_decide as E; [|done]. destruct E as [-> ->].
    unfold venue. by rewrite (edges_at_Some t a e He).
Qed.

(** A fresh entry at the end of a table. *)
Lemma table_snoc t :
  wf_table t -> wf_table (t ++ [[]]) /\ go_len (t ++ [[]]) = go_len t + 1 /\
  forall x y, venue (t ++ [[]]) x y = venue t x y.
Proof.
  intros Ht. split.
  { apply Forall_app. split; [done|]. apply Forall_singleton. split; [constructor|apply map_Forall_empty]. }
  split; [unfold go_len; rewrite length_app; simpl; lia|]. intros x y. unfold venue, edges_at, go_index.
  destruct (Z.leb_spec 0 x); [|done].
  destruct (decide (Z.to_nat x < length t)%nat) as [H1|H1].
  - by rewrite lookup_app_l.
  - rewrite lookup_app_r, (lookup_ge_None_2 t) by lia.
    destruct (Z.to_nat x - length t)%nat as [|n]; done.
Qed.
End Operations.
