(* ===== verification/GraphInv.v ===== *)
(** * The invariant of the order book graph

    What a graph represents: a set of offers by id and a set of pools by asset
    pair. The tables, ids and pair maps of the graph are determined by these,
    up to the numbering of assets, and every operation of the graph is an update
    of the two sets. *)
From Stdlib Require Import ZArith Lia.
From stdpp Require Import base list vector option gmap sorting.
From S2P Require Import Prelude GoStd GoExt Price Encodings Strkey Asset Pools Edges Graph Tables.
#[local] Open Scope Z_scope.
#[local] Open Scope go_scope.

Abbreviation sell_venue g := (venue (venuesForSellingAsset g)).
Abbreviation buy_venue g := (venue (venuesForBuyingAsset g)).

(** ** Asset ids *)
Definition named (g : OrderBookGraph) (id : Z) (a : Asset) : Prop :=
  go_index (idToAssetString g) id = Some (asset_name a).

Record ids_ok (g : OrderBookGraph) : Prop := {
  ido_buying : go_len (venuesForBuyingAsset g) = go_len (idToAssetString g);
  ido_selling : go_len (venuesForSellingAsset g) = go_len (idToAssetString g);
  ido_map s id : assetStringToID g !! s = Some id <->
    s <> [] /\ go_index (idToAssetString g) id = Some s;
  ido_vacant_nodup : NoDup (vacantIDs g);
  ido_vacant id : id ∈ vacantIDs g <-> go_index (idToAssetString g) id = Some []
}.

Lemma named_asset g id a b : named g id a -> named g id b -> a = b.
Proof. unfold named. intros H1 H2. rewrite H1 in H2. apply (inj asset_name). congruence. Qed.

Lemma named_lookup g id a : ids_ok g -> named g id a <-> assetStringToID g !! asset_name a = Some id.
Proof.
  intros HI. rewrite (ido_map g HI). unfold named.
  split; [intros H; split; [apply asset_name_nonempty|done]|by intros []].
Qed.

Lemma named_id g id id' a : ids_ok g -> named g id a -> named g id' a -> id = id'.
Proof. intros HI. rewrite !named_lookup by done. congruence. Qed.

Lemma named_range g id a : named g id a -> 0 <= id < go_len (idToAssetString g).
Proof. apply go_index_range. Qed.

(** ** The represented offers and pools *)
Record wf_offer (o : OfferEntry) : Prop := {
  wfo_priced : priced o;
  wfo_amount : 0 < Amount o <= MaxInt64;
  wfo_assets : Selling o <> Buying o
}.

(** A constant-product pool of two assets in order. *)
Definition wf_pool (p : LiquidityPoolEntry) (cp : ConstantProductPool) : Prop :=
  pool_of p cp /\ LessThan (AssetA (Params cp)) (AssetB (Params cp)) = Some true.

Definition pool_key (cp : ConstantProductPool) : bytes * bytes :=
  (asset_name (AssetA (Params cp)), asset_name (AssetB (Params cp))).

Abbreviation offer_map := (gmap Z OfferEntry).
Abbreviation pool_map := (gmap (bytes * bytes) LiquidityPoolEntry).

(** The pool between two ids, whichever of them is its first asset. *)
Definition expected_pool (LP : gmap tradingPair LiquidityPoolEntry) (a k : Z) : liquidityPool :=
  match LP !! (a, k) with
  | Some p => mkLiquidityPool p a k
  | None => match LP !! (k, a) with
            | Some p => mkLiquidityPool p k a
            | None => zero_pool
            end
  end.

(** The assets the represented offers and pools mention. *)
Definition mentioned (O : offer_map) (P : pool_map) (x : Asset) : Prop :=
  (exists i o, O !! i = Some o /\ (x = Selling o \/ x = Buying o)) \/
  (exists k p cp, P !! k = Some p /\ pool_of p cp /\ (x = AssetA (Params cp) \/ x = AssetB (Params cp))).

Definition offers_agree (g : OrderBookGraph) (O : offer_map) : Prop :=
  forall s b,
    offers (buy_venue g b s) = offers (sell_venue g s b) /\
    NoDup (map OfferId (offers (sell_venue g s b))) /\
    price_sorted (offers (sell_venue g s b)) /\
    forall o, o ∈ offers (sell_venue g s b) <->
      O !! OfferId o = Some o /\ named g s (Selling o) /\ named g b (Buying o).

Definition pools_agree (g : OrderBookGraph) : Prop :=
  forall a k, pool (sell_venue g a k) = expected_pool (liquidityPools g) a k /\
    pool (buy_venue g a k) = expected_pool (liquidityPools g) a k.

Record repr (g : OrderBookGraph) (O : offer_map) (P : pool_map) : Prop := {
  r_ids : ids_ok g;
  r_sell : wf_table (venuesForSellingAsset g);
  r_buy : wf_table (venuesForBuyingAsset g);
  r_offers : offers_agree g O;
  r_pools : pools_agree g;
  r_lp a k p : liquidityPools g !! (a, k) = Some p <->
    exists cp, pool_of p cp /\ named g a (AssetA (Params cp)) /\ named g k (AssetB (Params cp)) /\
      P !! pool_key cp = Some p;
  r_pairs i b s : tradingPairForOffer g !! i = Some (b, s) <->
    exists o, O !! i = Some o /\ named g b (Buying o) /\ named g s (Selling o);
  r_O : map_Forall (fun i o => OfferId o = i /\ wf_offer o) O;
  r_P : map_Forall (fun k p => exists cp, wf_pool p cp /\ k = pool_key cp) P;
  r_named x : mentioned O P x -> exists id, named g id x
}.

(** Every id with a name outside [X] has a venue. *)
Definition used (g : OrderBookGraph) (X : list Z) : Prop :=
  forall id a, named g id a -> id ∉ X ->
    exists k, sell_venue g id k <> empty_venues \/ buy_venue g id k <> empty_venues.

(** The graph between batches. *)
Definition represents (g : OrderBookGraph) (O : offer_map) (P : pool_map) : Prop :=
  repr g O P /\ used g [].

(** ** Facts about the represented sets *)
Lemma r_offer_named g O P i o :
  repr g O P -> O !! i = Some o -> exists b s, named g b (Buying o) /\ named g s (Selling o).
Proof.
  intros R Ho.
  destruct (r_named _ _ _ R (Buying o)) as [b Hb]; [left; exists i, o; auto|].
  destruct (r_named _ _ _ R (Selling o)) as [s Hs]; [left; exists i, o; auto|].
  by exists b, s.
Qed.

Lemma r_offer_in g O P i o b s :
  repr g O P -> O !! i = Some o -> named g b (Buying o) -> named g s (Selling o) ->
  o ∈ offers (sell_venue g s b) /\ o ∈ offers (buy_venue g b s) /\ OfferId o = i.
Proof.
  intros R Ho Hb Hs. destruct (r_O _ _ _ R i o Ho) as [Hi _].
  destruct (r_offers _ _ _ R s b) as (E & _ & _ & H). rewrite E.
  assert (o ∈ offers (sell_venue g s b)) by (apply H; by rewrite Hi). done.
Qed.

Lemma LessThan_irrefl a : LessThan a a <> Some true.
Proof. rewrite LessThan_xdr, bytes_ltb_irrefl. done. Qed.

Lemma LessThan_asym a b : LessThan a b = Some true -> LessThan b a <> Some true.
Proof.
  rewrite !LessThan_xdr, !(inj_iff Some). intros H1 H2.
  pose proof (bytes_ltb_trans _ _ _ H1 H2) as H. by rewrite bytes_ltb_irrefl in H.
Qed.

Lemma pool_of_fun p cp cp' : pool_of p cp -> pool_of p cp' -> cp = cp'.
Proof. intros [_ H] [_ H']. congruence. Qed.

(** At most one of the two orientations of a pair has a pool. *)
Lemma lp_one_way g O P a k p q :
  repr g O P -> liquidityPools g !! (a, k) = Some p -> liquidityPools g !! (k, a) = Some q -> False.
Proof.
  intros R H1 H2. apply (r_lp _ _ _ R) in H1 as (cp & Hp & Ha & Hk & HP).
  apply (r_lp _ _ _ R) in H2 as (cp' & Hp' & Hk' & Ha' & HP').
  destruct (r_P _ _ _ R _ _ HP) as (cp1 & [Hc1 HL1] & _).
  destruct (r_P _ _ _ R _ _ HP') as (cp2 & [Hc2 HL2] & _).
  rewrite (pool_of_fun _ _ _ Hc1 Hp) in HL1. rewrite (pool_of_fun _ _ _ Hc2 Hp') in HL2.
  rewrite (named_asset _ _ _ _ Ha' Ha), (named_asset _ _ _ _ Hk' Hk) in HL2.
  by apply (LessThan_asym _ _ HL1).
Qed.

Lemma expected_pool_live g O P a k p :
  repr g O P -> liquidityPools g !! (a, k) = Some p ->
  expected_pool (liquidityPools g) a k = mkLiquidityPool p a k /\
  expected_pool (liquidityPools g) k a = mkLiquidityPool p a k /\ ConstantProduct (Body p) <> None.
Proof.
  intros R H. unfold expected_pool. rewrite H. split; [done|]. split.
  - destruct (liquidityPools g !! (k, a)) eqn:E; [|done]. exfalso. by eapply lp_one_way.
  - apply (r_lp _ _ _ R) in H as (cp & [_ ->] & _). done.
Qed.

(** ** Changing the numbering of assets *)
Lemma repr_ids g g' O P :
  repr g O P -> ids_ok g' ->
  wf_table (venuesForSellingAsset g') -> wf_table (venuesForBuyingAsset g') ->
  (forall x y, sell_venue g' x y = sell_venue g x y) ->
  (forall x y, buy_venue g' x y = buy_venue g x y) ->
  liquidityPools g' = liquidityPools g -> tradingPairForOffer g' = tradingPairForOffer g ->
  (forall x id, mentioned O P x -> (named g' id x <-> named g id x)) ->
  repr g' O P.
Proof.
  intros R HI HS HB ES EB EL ET EN.
  assert (NO : forall i o id, O !! i = Some o ->
    (named g' id (Selling o) <-> named g id (Selling o)) /\
    (named g' id (Buying o) <-> named g id (Buying o))).
  { intros i o id Ho. split; apply EN; left; exists i, o; auto. }
  assert (NP : forall k p cp id, P !! k = Some p -> pool_of p cp ->
    (named g' id (AssetA (Params cp)) <-> named g id (AssetA (Params cp))) /\
    (named g' id (AssetB (Params cp)) <-> named g id (AssetB (Params cp)))).
  { intros k p cp id Hp Hc. split; apply EN; right; exists k, p, cp; auto. }
  constructor; try done.
  - intros s b. rewrite ES, EB. destruct (r_offers _ _ _ R s b) as (H1 & H2 & H3 & H4).
    split; [done|]. split; [done|]. split; [done|]. intros o. rewrite H4.
    split; intros (Ho & Hs & Hb); (split; [done|]); split; by apply (NO _ _ _ Ho).
  - intros a k. rewrite ES, EB, EL. apply (r_pools _ _ _ R).
  - intros a k p. rewrite EL, (r_lp _ _ _ R). split; intros (cp & Hc & Ha & Hk & Hp).
    all: exists cp; repeat split; try done; try apply Hc; by apply (NP _ _ cp _ Hp Hc).
  - intros i b s. rewrite ET, (r_pairs _ _ _ R). split; intros (o & Ho & Hb & Hs).
    all: exists o; split; [done|]; split; by apply (NO _ _ _ Ho).
  - apply (r_O _ _ _ R).
  - apply (r_P _ _ _ R).
  - intros x Hx. destruct (r_named _ _ _ R x Hx) as [id Hid]. exists id. by apply EN.
Qed.

Lemma go_index_snoc {A} (l : list A) x i y :
  go_index (l ++ [x]) i = Some y <-> go_index l i = Some y \/ (i = go_len l /\ y = x).
Proof.
  unfold go_index, go_len. destruct (Z.leb_spec 0 i) as [H|H]; [|split; [done|intros [|[]]; [done|lia]]].
  destruct (decide (Z.to_nat i < length l)%nat) as [H1|H1].
  - rewrite lookup_app_l by done. split; [auto|]. intros [|[-> _]]; [done|lia].
  - rewrite lookup_app_r, (lookup_ge_None_2 l) by lia.
    destruct (decide (i = Z.of_nat (length l))) as [->|Hne].
    + rewrite Nat2Z.id, Nat.sub_diag. simpl. split; [intros [= ->]; auto|]. by intros [|[_ ->]].
    + destruct (Z.to_nat i - length l)%nat eqn:E; [lia|]. simpl. split; [done|]. intros [|[]]; done.
Qed.

Lemma go_index_insert {A} (l : list A) i x j y :
  0 <= i < go_len l ->
  go_index (<[Z.to_nat i := x]> l) j = Some y <-> (j = i /\ y = x) \/ (j <> i /\ go_index l j = Some y).
Proof.
  intros H. destruct (decide (j = i)) as [->|Hne].
  - rewrite go_index_set_eq by done. split; [intros [= ->]; auto|]. intros [[_ ->]|[]]; done.
  - rewrite go_index_set_ne by lia. split; [auto|]. by intros [[]|[]].
Qed.

(** A name is looked up, or given a vacant id, or appended. *)
Lemma getOrCreateAssetID_ids g a :
  ids_ok g -> go_len (idToAssetString g) <= MaxInt32 ->
  exists g' id, getOrCreateAssetID g a = Some (g', id) /\ ids_ok g' /\
    ((g' = g /\ named g id a) \/
     ((forall id', ~ named g id' a) /\
      (forall id' x, named g' id' x <-> named g id' x \/ (id' = id /\ x = a)))) /\
    ((venuesForBuyingAsset g' = venuesForBuyingAsset g /\
      venuesForSellingAsset g' = venuesForSellingAsset g) \/
     (venuesForBuyingAsset g' = venuesForBuyingAsset g ++ [[]] /\
      venuesForSellingAsset g' = venuesForSellingAsset g ++ [[]])) /\
    go_len (idToAssetString g) <= go_len (idToAssetString g') <= go_len (idToAssetString g) + 1 /\
    liquidityPools g' = liquidityPools g /\ tradingPairForOffer g' = tradingPairForOffer g /\
    batchedUpdates g' = batchedUpdates g /\ lastLedger g' = lastLedger g.
Proof.
  intros HI Hcap. unfold getOrCreateAssetID. rewrite Asset_String_name.
  destruct (assetStringToID g !! asset_name a) as [id|] eqn:Ea.
  { exists g, id. split; [done|]. split; [done|]. split; [left; by rewrite named_lookup|].
    split; [by left|]. split; [lia|done]. }
  assert (Hnew : forall id', ~ named g id' a) by (intros id'; rewrite named_lookup by done; congruence).
  pose proof (asset_name_nonempty a) as Hne.
  destruct (Z.ltb_spec 0 (go_len (vacantIDs g))) as [Hv|Hv].
  - destruct (go_index_lt (vacantIDs g) (go_len (vacantIDs g) - 1)) as [id Hid]; [lia|].
    rewrite Hid. apply go_index_Some in Hid as [_ Hid].
    assert (Hlast : vacantIDs g = take (length (vacantIDs g) - 1) (vacantIDs g) ++ [id]).
    { rewrite <- (take_drop (length (vacantIDs g) - 1) (vacantIDs g)) at 1. f_equal.
      unfold go_len in *. replace (Z.to_nat _) with (length (vacantIDs g) - 1)%nat in Hid by lia.
      rewrite (drop_S _ _ _ Hid), drop_ge by lia. done. }
    set (vac := take _ _) in *. pose proof (ido_vacant_nodup g HI) as HN. rewrite Hlast in HN.
    apply NoDup_app in HN as (HN & HNi & _).
    assert (Hid0 : go_index (idToAssetString g) id = Some []).
    { apply (ido_vacant g HI). rewrite Hlast. apply elem_of_app. right. by left. }
    pose proof (go_index_range _ _ _ Hid0) as Hr. rewrite go_set_lt by done.
    eexists _, id. split; [done|]. split; [|split; [right; split; [done|]|]].
    + split; cbn; rewrite ?go_len_insert; try apply HI; [|done|].
      * intros s id'. rewrite go_index_insert by done.
        destruct (decide (s = asset_name a)) as [->|Hs].
        -- rewrite lookup_insert_eq. split; [intros [= <-]; auto|].
           intros [_ [[-> _]|[_ H]]]; [done|]. exfalso. by apply (Hnew id').
        -- rewrite lookup_insert_ne, (ido_map g HI) by done. split.
           ++ intros [H1 H2]. split; [done|]. right. split; [|done]. intros ->. congruence.
           ++ intros [H1 [[_ H]|[_ H]]]; [congruence|done].
      * intros id'. rewrite go_index_insert by done. split.
        -- intros H. right. split; [intros ->; apply (HNi id H); by left|].
           apply (ido_vacant g HI). rewrite Hlast. apply elem_of_app. by left.
        -- intros [[_ H]|[H1 H2]]; [congruence|]. apply (ido_vacant g HI) in H2. rewrite Hlast in H2.
           apply elem_of_app in H2 as [H2|H2]; [done|]. by apply list_elem_of_singleton in H2.
    + intros id' x. unfold named. cbn. rewrite go_index_insert by done. split.
      * intros [[-> H]|[_ H]]; [right; split; [done|by apply (inj asset_name)]|by left].
      * intros [H|[-> ->]]; [|by left]. right. split; [|done]. intros ->. rewrite Hid0 in H.
        injection H as H. by destruct (asset_name_nonempty x).
    + split; [left; done|]. cbn. rewrite go_len_insert. split; [lia|done].
  - assert (Hnil : vacantIDs g = []) by (unfold go_len in Hv; destruct (vacantIDs g); [done|simpl in Hv; lia]).
    assert (Hlen : 0 <= go_len (idToAssetString g)) by (unfold go_len; lia).
    rewrite i32_id by (unfold is_i32; lia).
    eexists _, _. split; [done|]. split; [|split; [right; split; [done|]|]].
    + split; cbn.
      * unfold go_len. rewrite !length_app. simpl. pose proof (ido_buying g HI). unfold go_len in *. lia.
      * unfold go_len. rewrite !length_app. simpl. pose proof (ido_selling g HI). unfold go_len in *. lia.
      * intros s id'. rewrite go_index_snoc.
        destruct (decide (s = asset_name a)) as [->|Hs].
        -- rewrite lookup_insert_eq. split; [intros [= <-]; auto|].
           intros [_ [H|[-> _]]]; [|done]. exfalso. by apply (Hnew id').
        -- rewrite lookup_insert_ne, (ido_map g HI) by done. split; [intros []; auto|].
           intros [H1 [H|[_ H]]]; [done|congruence].
      * apply HI.
      * intros id'. rewrite go_index_snoc, (ido_vacant g HI). split; [auto|].
        intros [H|[_ H]]; [done|congruence].
    + intros id' x. unfold named. cbn. rewrite go_index_snoc. split.
      * intros [H|[-> H]]; [by left|right; split; [done|by apply (inj asset_name)]].
      * intros [H|[-> ->]]; auto.
    + split; [right; done|]. cbn. unfold go_len. rewrite length_app. simpl. split; [lia|done].
Qed.

(** What a step leaves alone besides ids: the unapplied batch and the ledger. *)
Definition same_control (g g' : OrderBookGraph) : Prop :=
  batchedUpdates g' = batchedUpdates g /\ lastLedger g' = lastLedger g.

Lemma same_control_refl g : same_control g g.
Proof. done. Qed.

Lemma same_control_trans g1 g2 g3 : same_control g1 g2 -> same_control g2 g3 -> same_control g1 g3.
Proof. intros [] []; split; congruence. Qed.
#[local] Hint Resolve same_control_refl : core.

Lemma getOrCreateAssetID_repr g O P a :
  repr g O P -> go_len (idToAssetString g) <= MaxInt32 ->
  exists g' id, getOrCreateAssetID g a = Some (g', id) /\ repr g' O P /\ named g' id a /\
    (forall id' x, named g id' x -> named g' id' x) /\
    (forall X, used g X -> used g' (id :: X)) /\
    (forall X, used g X -> named g id a -> g' = g) /\
    go_len (idToAssetString g) <= go_len (idToAssetString g') <= go_len (idToAssetString g) + 1 /\
    same_control g g'.
Proof.
  intros R Hcap.
  destruct (getOrCreateAssetID_ids g a (r_ids _ _ _ R) Hcap)
    as (g' & id & HE & HI & HN & HT & HL & HLP & HTP & Hb & Hl).
  exists g', id. split; [done|].
  assert (HV : wf_table (venuesForSellingAsset g') /\ wf_table (venuesForBuyingAsset g') /\
    (forall x y, sell_venue g' x y = sell_venue g x y) /\
    (forall x y, buy_venue g' x y = buy_venue g x y)).
  { destruct R. destruct HT as [[-> ->]|[-> ->]]; [done|].
    destruct (table_snoc _ r_sell0) as (H1 & _ & H2). destruct (table_snoc _ r_buy0) as (H3 & _ & H4). done. }
  destruct HV as (WS & WB & ES & EB).
  assert (HM : forall id' x, named g id' x -> named g' id' x)
    by (intros id' x Hx; destruct HN as [[-> _]|[_ ->]]; auto).
  assert (HNa : named g' id a) by (destruct HN as [[-> ?]|[_ H]]; [done|apply H; auto]).
  split.
  { apply (repr_ids g); try done. intros x id' Hx. split; [|apply HM].
    destruct HN as [[-> _]|[Hno H]]; [done|]. rewrite H. intros [|[-> ->]]; [done|].
    destruct (r_named _ _ _ R a Hx) as [i0 H0]. by apply Hno in H0. }
  split; [done|]. split; [done|]. split; [|split; [|done]].
  - intros X HU id' x Hx Hni. apply not_elem_of_cons in Hni as [Hne Hni].
    destruct (HU id' x) as [k Hk]; [|done|exists k; by rewrite ES, EB].
    destruct HN as [[-> _]|[_ H]]; [done|]. by apply H in Hx as [|[]].
  - intros X _ Hna. destruct HN as [[-> _]|[Hno _]]; [done|]. by apply Hno in Hna.
Qed.

(** An asset that offers or pools mention has a venue. *)
Lemma mentioned_venue g O P x id :
  repr g O P -> mentioned O P x -> named g id x ->
  exists k, sell_venue g id k <> empty_venues \/ buy_venue g id k <> empty_venues.
Proof.
  intros R [(i & o & Ho & Hx)|(k & p & cp & Hp & Hc & Hx)] Hid.
  - destruct (r_offer_named _ _ _ _ _ R Ho) as (b & s & Hb & Hs).
    destruct (r_offer_in _ _ _ _ _ _ _ R Ho Hb Hs) as (H1 & H2 & _).
    destruct Hx as [-> | ->].
    + rewrite (named_id _ _ _ _ (r_ids _ _ _ R) Hid Hs). exists b. left.
      intros E. rewrite E in H1. by apply elem_of_nil in H1.
    + rewrite (named_id _ _ _ _ (r_ids _ _ _ R) Hid Hb). exists s. right.
      intros E. rewrite E in H2. by apply elem_of_nil in H2.
  - assert (HA : exists a b, named g a (AssetA (Params cp)) /\ named g b (AssetB (Params cp))).
    { destruct (r_named _ _ _ R (AssetA (Params cp))) as [a Ha]; [right; exists k, p, cp; auto|].
      destruct (r_named _ _ _ R (AssetB (Params cp))) as [b Hb]; [right; exists k, p, cp; auto|].
      by exists a, b. }
    destruct HA as (a & b & Ha & Hb).
    assert (HL : liquidityPools g !! (a, b) = Some p).
    { apply (r_lp _ _ _ R). exists cp. split; [done|]. split; [done|]. split; [done|].
      destruct (r_P _ _ _ R _ _ Hp) as (cp' & [Hc' _] & ->). by rewrite (pool_of_fun _ _ _ Hc Hc') in *. }
    destruct (expected_pool_live _ _ _ _ _ _ R HL) as (E1 & E2 & Hne).
    assert (NE : forall y z, expected_pool (liquidityPools g) y z = mkLiquidityPool p a b ->
      sell_venue g y z <> empty_venues).
    { intros y z E Hv. pose proof (proj1 (r_pools _ _ _ R y z)) as H. rewrite Hv, E in H.
      injection H as H _ _. by rewrite <- H in Hne. }
    destruct Hx as [-> | ->].
    + rewrite (named_id _ _ _ _ (r_ids _ _ _ R) Hid Ha). exists b. left. by apply NE.
    + rewrite (named_id _ _ _ _ (r_ids _ _ _ R) Hid Hb). exists a. left. by apply NE.
Qed.

(** Freeing the id of an asset nothing mentions. *)
Lemma ids_ok_free g id a ids m vac :
  ids_ok g -> named g id a ->
  ids = <[Z.to_nat id := []]> (idToAssetString g) -> m = delete (asset_name a) (assetStringToID g) ->
  vac = vacantIDs g ++ [id] ->
  let g' := set_ids g ids m vac (venuesForBuyingAsset g) (venuesForSellingAsset g) in
  ids_ok g' /\ forall id' x, named g' id' x <-> id' <> id /\ named g id' x.
Proof.
  intros HI Ha -> -> -> g'. pose proof (named_range _ _ _ Ha) as Hr. split.
  - split; cbn; rewrite ?go_len_insert; try apply HI.
    + intros s id'. rewrite go_index_insert by done.
      destruct (decide (s = asset_name a)) as [->|Hs].
      * rewrite lookup_delete_eq. split; [done|]. intros [H [[_ H']|[Hn H']]]; [done|].
        exfalso. apply Hn. by eapply named_id.
      * rewrite lookup_delete_ne, (ido_map g HI) by done. split.
        -- intros [H1 H2]. split; [done|]. right. split; [|done]. intros ->. unfold named in Ha. congruence.
        -- intros [H1 [[_ H]|[_ H]]]; done.
    + apply NoDup_app. split; [apply HI|]. split; [|apply NoDup_singleton].
      intros x Hx Hx'. apply list_elem_of_singleton in Hx' as ->. apply (ido_vacant g HI) in Hx.
      unfold named in Ha. rewrite Hx in Ha. injection Ha as Ha. by destruct (asset_name_nonempty a).
    + intros id'. rewrite go_index_insert, elem_of_app, list_elem_of_singleton, (ido_vacant g HI) by done.
      destruct (decide (id' = id)); naive_solver.
  - intros id' x. unfold named. cbn. rewrite go_index_insert by done. split.
    + intros [[_ H]|H]; [|done]. symmetry in H. by destruct (asset_name_nonempty x).
    + auto.
Qed.

Lemma maybeDeleteAsset_repr g O P id a :
  repr g O P -> named g id a ->
  exists g', maybeDeleteAsset g id = Some g' /\ repr g' O P /\
    (forall X, used g (id :: X) -> used g' X) /\
    (forall id' x, id' <> id -> named g id' x -> named g' id' x) /\
    go_len (idToAssetString g') = go_len (idToAssetString g) /\ same_control g g'.
Proof.
  intros R Ha. pose proof (r_ids _ _ _ R) as HI. pose proof (named_range _ _ _ Ha) as Hr.
  unfold maybeDeleteAsset.
  destruct (go_index_lt (venuesForBuyingAsset g) id) as [be Hbe]; [by rewrite (ido_buying g HI)|].
  destruct (go_index_lt (venuesForSellingAsset g) id) as [se Hse]; [by rewrite (ido_selling g HI)|].
  rewrite Hbe, Hse.
  pose proof (table_entry_empty _ _ _ (r_buy _ _ _ R) Hbe) as EB.
  pose proof (table_entry_empty _ _ _ (r_sell _ _ _ R) Hse) as ES.
  destruct ((go_len be =? 0) && (go_len se =? 0)) eqn:E.
  - apply andb_true_iff in E as [E1 E2]. rewrite EB in E1. rewrite ES in E2.
    unfold named in Ha. rewrite Ha, go_set_lt by done.
    destruct (ids_ok_free g id a _ _ _ HI Ha eq_refl eq_refl eq_refl) as [HI' HN].
    eexists. split; [done|]. split; [|split; [|split; [|split]]].
    + apply (repr_ids g); try done; try apply R. intros x id' Hx. rewrite HN.
      split; [tauto|]. intros H. split; [|done]. intros ->.
      destruct (mentioned_venue _ _ _ _ _ R Hx H) as [k [Hk|Hk]]; auto.
    + intros X HU id' x Hx Hni. apply HN in Hx as [Hne Hx].
      destruct (HU id' x Hx) as [k Hk]; [by apply not_elem_of_cons|]. by exists k.
    + intros id' x Hne Hx. by apply HN.
    + cbn. apply go_len_insert.
    + done.
  - exists g. split; [done|]. split; [done|]. split; [|done].
    intros X HU id' x Hx Hni. destruct (decide (id' = id)) as [->|Hne].
    2:{ apply (HU id' x); [done|]. by apply not_elem_of_cons. }
    apply andb_false_iff in E.
    destruct E as [E|E].
    + destruct (table_entry_nonempty _ _ _ (r_buy _ _ _ R) Hbe E) as [k Hk]. exists k. by right.
    + destruct (table_entry_nonempty _ _ _ (r_sell _ _ _ R) Hse E) as [k Hk]. exists k. by left.
Qed.

(** ** Adding and removing an offer *)
Lemma ids_ok_tables g buying selling :
  ids_ok g -> go_len buying = go_len (venuesForBuyingAsset g) ->
  go_len selling = go_len (venuesForSellingAsset g) -> ids_ok (set_tables g buying selling).
Proof. intros [] HB HS. split; cbn; try done; congruence. Qed.

Lemma offers_priced g O P s b : repr g O P -> Forall priced (offers (sell_venue g s b)).
Proof.
  intros R. apply Forall_forall. intros o Ho. apply (r_offers _ _ _ R) in Ho as [Ho _].
  by apply (r_O _ _ _ R) in Ho as (_ & [] ).
Qed.

Lemma offer_ids_in g O P s b i :
  repr g O P -> i ∈ map OfferId (offers (sell_venue g s b)) -> is_Some (O !! i).
Proof.
  intros R Hi. apply list_elem_of_fmap in Hi as (o & -> & Ho).
  apply (r_offers _ _ _ R) in Ho as [Ho _]. by exists o.
Qed.

Lemma add_offer_agree g O P o b s tB tS :
  repr g O P -> wf_offer o -> O !! OfferId o = None ->
  named g b (Buying o) -> named g s (Selling o) ->
  (forall x y, venue tS x y = upd (sell_venue g) s b
    (mkVenues (insert_offer o (offers (sell_venue g s b))) (pool (sell_venue g s b))) x y) ->
  (forall x y, venue tB x y = upd (buy_venue g) b s
    (mkVenues (insert_offer o (offers (buy_venue g b s))) (pool (buy_venue g b s))) x y) ->
  offers_agree (set_tables g tB tS) (<[OfferId o := o]> O).
Proof.
  intros R [Hpr _ _] Hno Hb Hs ES EB s' b'. cbn. rewrite ES, EB.
  destruct (r_offers _ _ _ R s' b') as (H1 & H2 & H3 & H4).
  pose proof (r_ids _ _ _ R) as HI.
  assert (HE : forall o', OfferId o' = OfferId o -> o' ∉ offers (sell_venue g s' b')).
  { intros o' Ho' Hin. apply H4 in Hin as [Hin _]. congruence. }
  destruct (decide (s' = s /\ b' = b)) as [[-> ->]|Hne].
  - rewrite !upd_eq. cbn. rewrite H1. split; [done|].
    split; [|split].
    + change (map OfferId ?l) with (OfferId <$> l). rewrite insert_offer_perm. apply NoDup_cons. split; [|done]. intros Hin.
      apply (offer_ids_in _ _ _ _ _ _ R) in Hin as [x Hx]. congruence.
    + apply insert_offer_sorted; [done|by eapply offers_priced|done].
    + intros o'. rewrite insert_offer_perm, elem_of_cons.
      destruct (decide (OfferId o' = OfferId o)) as [E|E].
      * rewrite E, lookup_insert_eq. split.
        -- intros [->|Hin]; [done|by apply HE in Hin].
        -- intros ([= ->] & _). by left.
      * rewrite lookup_insert_ne, <- H4 by done. split; [intros [->|]; done|auto].
  - rewrite !upd_ne by (destruct (decide (s' = s)), (decide (b' = b)); tauto).
    split; [done|]. split; [done|]. split; [done|]. intros o'.
    destruct (decide (OfferId o' = OfferId o)) as [E|E].
    + rewrite E, lookup_insert_eq. split; [by intros ?%HE|].
      intros ([= <-] & Hs' & Hb'). exfalso. apply Hne.
      split; [exact (named_id _ _ _ _ HI Hs' Hs)|exact (named_id _ _ _ _ HI Hb' Hb)].
    + rewrite lookup_insert_ne by done. apply H4.
Qed.

Lemma mentioned_insert_offer O P o x :
  mentioned (<[OfferId o := o]> O) P x -> mentioned O P x \/ x = Selling o \/ x = Buying o.
Proof.
  intros [(i & o' & Ho & Hx)|H]; [|left; by right].
  apply lookup_insert_Some in Ho as [[_ ->]|[_ Ho]]; [by right|]. left. left. by exists i, o'.
Qed.

Lemma add_offer_repr g O P o b s tB tS :
  repr g O P -> wf_offer o -> O !! OfferId o = None ->
  named g b (Buying o) -> named g s (Selling o) ->
  wf_table tS -> go_len tS = go_len (venuesForSellingAsset g) ->
  (forall x y, venue tS x y = upd (sell_venue g) s b
    (mkVenues (insert_offer o (offers (sell_venue g s b))) (pool (sell_venue g s b))) x y) ->
  wf_table tB -> go_len tB = go_len (venuesForBuyingAsset g) ->
  (forall x y, venue tB x y = upd (buy_venue g) b s
    (mkVenues (insert_offer o (offers (buy_venue g b s))) (pool (buy_venue g b s))) x y) ->
  let g' := set_tables (set_pairs g (<[OfferId o := (b, s)]> (tradingPairForOffer g))) tB tS in
  repr g' (<[OfferId o := o]> O) P /\ (forall X, used g (b :: s :: X) -> used g' X).
Proof.
  intros R Hwf Hno Hb Hs WS LS ES WB LB EB g'.
  pose proof (r_ids _ _ _ R) as HI. split.
  - constructor; try done.
    + apply (ids_ok_tables (set_pairs g _)); try done. destruct HI. by split.
    + exact (add_offer_agree g O P o b s tB tS R Hwf Hno Hb Hs ES EB).
    + intros x y. cbn. rewrite ES, EB. unfold upd. destruct (r_pools _ _ _ R x y) as [H1 H2].
      split; case_bool_decide as E; try done; by destruct E as [-> ->].
    + apply (r_lp _ _ _ R).
    + intros i b' s'. cbn. destruct (decide (i = OfferId o)) as [->|Hi].
      * rewrite lookup_insert_eq, lookup_insert_eq. split.
        -- intros [= <- <-]. by exists o.
        -- intros (o' & [= <-] & Hb' & Hs').
           by rewrite (named_id _ _ _ _ HI Hb Hb'), (named_id _ _ _ _ HI Hs Hs').
      * rewrite !lookup_insert_ne by done. apply (r_pairs _ _ _ R).
    + apply map_Forall_insert_2; [done|apply R].
    + apply R.
    + intros x [Hx|[-> | ->]]%mentioned_insert_offer; [by apply (r_named _ _ _ R)|by exists s|by exists b].
  - intros X HU id a Hid Hni. cbn in *. setoid_rewrite ES. setoid_rewrite EB.
    assert (NE : forall l (p : liquidityPool), mkVenues (insert_offer o l) p <> empty_venues).
    { intros l p [= E _]. pose proof (insert_offer_perm o l) as HP. rewrite E in HP.
      by apply Permutation_nil_cons in HP. }
    destruct (decide (id = b)) as [->|Hnb]; [exists s; right; rewrite upd_eq; apply NE|].
    destruct (decide (id = s)) as [->|Hns]; [exists b; left; rewrite upd_eq; apply NE|].
    destruct (HU id a Hid) as [k Hk]; [by rewrite !not_elem_of_cons|].
    exists k. by rewrite !upd_ne by tauto.
Qed.

Lemma remove_offer_agree g O P o b s tB tS :
  repr g O P -> O !! OfferId o = Some o ->
  named g b (Buying o) -> named g s (Selling o) ->
  (forall x y, venue tS x y = upd (sell_venue g) s b
    (mkVenues (without_offer (OfferId o) (offers (sell_venue g s b))) (pool (sell_venue g s b))) x y) ->
  (forall x y, venue tB x y = upd (buy_venue g) b s
    (mkVenues (without_offer (OfferId o) (offers (buy_venue g b s))) (pool (buy_venue g b s))) x y) ->
  offers_agree (set_tables g tB tS) (delete (OfferId o) O).
Proof.
  intros R Ho Hb Hs ES EB s' b'. cbn. rewrite ES, EB.
  destruct (r_offers _ _ _ R s' b') as (H1 & H2 & H3 & H4).
  pose proof (r_ids _ _ _ R) as HI.
  destruct (decide (s' = s /\ b' = b)) as [[-> ->]|Hne].
  - rewrite !upd_eq. cbn. rewrite H1. split; [done|]. split; [|split].
    + unfold without_offer. change (map OfferId ?l) with (OfferId <$> l) in *.
      by apply (sublist_NoDup _ (OfferId <$> offers (sell_venue g s b))), fmap_sublist, sublist_filter.
    + by apply without_offer_sorted.
    + intros o'. unfold without_offer. rewrite list_elem_of_filter, H4, lookup_delete_Some.
      split; intros; naive_solver.
  - rewrite !upd_ne by (destruct (decide (s' = s)), (decide (b' = b)); tauto).
    split; [done|]. split; [done|]. split; [done|]. intros o'. rewrite H4, lookup_delete_Some.
    split; [|tauto]. intros (Ho' & Hs' & Hb'). split; [|done]. split; [|done].
    intros E. rewrite <- E, Ho in Ho'. injection Ho' as <-. apply Hne.
    split; [exact (named_id _ _ _ _ HI Hs' Hs)|exact (named_id _ _ _ _ HI Hb' Hb)].
Qed.

Lemma remove_offer_repr g O P o b s tB tS :
  repr g O P -> O !! OfferId o = Some o ->
  named g b (Buying o) -> named g s (Selling o) ->
  wf_table tS -> go_len tS = go_len (venuesForSellingAsset g) ->
  (forall x y, venue tS x y = upd (sell_venue g) s b
    (mkVenues (without_offer (OfferId o) (offers (sell_venue g s b))) (pool (sell_venue g s b))) x y) ->
  wf_table tB -> go_len tB = go_len (venuesForBuyingAsset g) ->
  (forall x y, venue tB x y = upd (buy_venue g) b s
    (mkVenues (without_offer (OfferId o) (offers (buy_venue g b s))) (pool (buy_venue g b s))) x y) ->
  let g' := set_tables (set_pairs g (delete (OfferId o) (tradingPairForOffer g))) tB tS in
  repr g' (delete (OfferId o) O) P /\ (forall X, used g X -> used g' (b :: s :: X)).
Proof.
  intros R Ho Hb Hs WS LS ES WB LB EB g'.
  pose proof (r_ids _ _ _ R) as HI. split.
  - constructor; try done.
    + apply (ids_ok_tables (set_pairs g _)); try done. destruct HI. by split.
    + exact (remove_offer_agree g O P o b s tB tS R Ho Hb Hs ES EB).
    + intros x y. cbn. rewrite ES, EB. unfold upd. destruct (r_pools _ _ _ R x y) as [H1 H2].
      split; case_bool_decide as E; try done; by destruct E as [-> ->].
    + apply (r_lp _ _ _ R).
    + intros i b' s'. cbn. rewrite lookup_delete_Some, (r_pairs _ _ _ R).
      setoid_rewrite lookup_delete_Some. naive_solver.
    + apply map_Forall_delete, R.
    + apply R.
    + intros x Hx. apply (r_named _ _ _ R). destruct Hx as [(i & o' & Ho' & Hx)|Hx]; [left|by right].
      apply lookup_delete_Some in Ho' as [_ Ho']. by exists i, o'.
  - intros X HU id a Hid Hni. rewrite !not_elem_of_cons in Hni. cbn in *.
    setoid_rewrite ES. setoid_rewrite EB.
    destruct (HU id a Hid) as [k Hk]; [tauto|]. exists k. by rewrite !upd_ne by tauto.
Qed.

(** ** Adding and removing a pool *)

(** The pools of a table after both edges of a pair are set to [q]. *)
Definition pair_set (t t' : list edgeSet) (a b : Z) (q : liquidityPool) : Prop :=
  wf_table t' /\ go_len t' = go_len t /\
  (forall x y, offers (venue t' x y) = offers (venue t x y)) /\
  (forall x y, pool (venue t' x y) =
     if bool_decide ((x = a /\ y = b) \/ (x = b /\ y = a)) then q else pool (venue t x y)).

Lemma upd2_pair t a b q t1 t2 :
  a <> b -> wf_table t2 -> go_len t1 = go_len t -> go_len t2 = go_len t1 ->
  (forall x y, venue t1 x y = upd (venue t) a b (mkVenues (offers (venue t a b)) q) x y) ->
  (forall x y, venue t2 x y = upd (venue t1) b a (mkVenues (offers (venue t1 b a)) q) x y) ->
  pair_set t t2 a b q.
Proof.
  intros Hne W L1 L2 E1 E2. split; [done|]. split; [congruence|].
  assert (E : forall x y, venue t2 x y =
    if bool_decide ((x = a /\ y = b) \/ (x = b /\ y = a)) then mkVenues (offers (venue t x y)) q
    else venue t x y).
  { intros x y. rewrite E2. unfold upd at 1. case_bool_decide as H1.
    - destruct H1 as [-> ->]. rewrite bool_decide_eq_true_2 by auto. rewrite E1, upd_ne by auto. done.
    - rewrite E1. unfold upd. case_bool_decide as H2.
      + destruct H2 as [-> ->]. by rewrite bool_decide_eq_true_2 by auto.
      + rewrite bool_decide_eq_false_2; [done|]. tauto. }
  split; intros x y; rewrite E; by case_bool_decide.
Qed.

Lemma venue_empty_iff v : v = empty_venues <-> offers v = [] /\ pool v = zero_pool.
Proof. destruct v as [os p]. unfold empty_venues. simpl. split; [by intros [= -> ->]|by intros [-> ->]]. Qed.

Lemma pool_lp_reverse g O P cp a b :
  repr g O P -> LessThan (AssetA (Params cp)) (AssetB (Params cp)) = Some true ->
  named g a (AssetA (Params cp)) -> named g b (AssetB (Params cp)) ->
  liquidityPools g !! (b, a) = None /\ a <> b.
Proof.
  intros R HL Ha Hb. split.
  - destruct (liquidityPools g !! (b, a)) as [p|] eqn:E; [|done]. exfalso.
    apply (r_lp _ _ _ R) in E as (cp' & Hp & Hb' & Ha' & HP).
    destruct (r_P _ _ _ R _ _ HP) as (cp2 & [Hc HL2] & _). rewrite (pool_of_fun _ _ _ Hc Hp) in HL2.
    rewrite (named_asset _ _ _ _ Ha' Ha), (named_asset _ _ _ _ Hb' Hb) in HL2.
    by apply (LessThan_asym _ _ HL).
  - intros ->. rewrite (named_asset _ _ _ _ Ha Hb) in HL. by apply (LessThan_irrefl _ HL).
Qed.

Lemma pool_key_inj cp cp' : pool_key cp = pool_key cp' ->
  AssetA (Params cp) = AssetA (Params cp') /\ AssetB (Params cp) = AssetB (Params cp').
Proof. unfold pool_key. intros [= H1 H2]. split; by apply (inj asset_name). Qed.

Lemma pair_offers_agree g O tB tS a b q pools :
  offers_agree g O -> pair_set (venuesForBuyingAsset g) tB a b q ->
  pair_set (venuesForSellingAsset g) tS a b q ->
  offers_agree (set_tables (set_pools g pools) tB tS) O.
Proof.
  intros H (_ & _ & EB & _) (_ & _ & ES & _) s' b'. cbn. rewrite ES, EB. apply H.
Qed.

Lemma add_pool_repr g O P p cp a b tB tS :
  repr g O P -> wf_pool p cp -> named g a (AssetA (Params cp)) -> named g b (AssetB (Params cp)) ->
  pair_set (venuesForBuyingAsset g) tB a b (mkLiquidityPool p a b) ->
  pair_set (venuesForSellingAsset g) tS a b (mkLiquidityPool p a b) ->
  let g' := set_tables (set_pools g (<[(a, b) := p]> (liquidityPools g))) tB tS in
  repr g' O (<[pool_key cp := p]> P) /\ (forall X, used g (a :: b :: X) -> used g' X).
Proof.
  intros R [Hp HL] Ha Hb PB PS g'. pose proof (r_ids _ _ _ R) as HI.
  destruct (pool_lp_reverse _ _ _ _ _ _ R HL Ha Hb) as [Hrev Hne].
  destruct PB as (WB & LB & OB & QB) eqn:EPB. destruct PS as (WS & LS & OS & QS) eqn:EPS. split.
  - constructor; try done.
    + apply (ids_ok_tables (set_pools g _)); try done. destruct HI. by split.
    + exact (pair_offers_agree g O tB tS a b _ _ (r_offers _ _ _ R) PB PS).
    + intros x y. cbn. rewrite QB, QS.
      assert (EX : expected_pool (<[(a, b):=p]> (liquidityPools g)) x y =
        if bool_decide ((x = a /\ y = b) \/ (x = b /\ y = a)) then mkLiquidityPool p a b
        else expected_pool (liquidityPools g) x y).
      { unfold expected_pool. case_bool_decide as E.
        - destruct E as [[-> ->]|[-> ->]]; [by rewrite lookup_insert_eq|].
          by rewrite lookup_insert_ne, Hrev, lookup_insert_eq by congruence.
        - rewrite !lookup_insert_ne by (intros [= -> ->]; tauto). done. }
      rewrite EX. case_bool_decide; [done|apply (r_pools _ _ _ R)].
    + intros x y q. cbn. destruct (decide ((x, y) = (a, b))) as [[= -> ->]|Hxy].
      * rewrite lookup_insert_eq. split.
        -- intros [= <-]. exists cp. by rewrite lookup_insert_eq.
        -- intros (cq & Hq & Hqa & Hqb & HPq).
           assert (pool_key cq = pool_key cp) as E.
           { unfold pool_key. by rewrite (named_asset _ _ _ _ Hqa Ha), (named_asset _ _ _ _ Hqb Hb). }
           by rewrite E, lookup_insert_eq in HPq.
      * rewrite lookup_insert_ne, (r_lp _ _ _ R) by done.
        split; intros (cq & Hq & Hqa & Hqb & HPq); exists cq; repeat split; try done; try apply Hq.
        -- rewrite lookup_insert_ne; [done|]. intros [E1 E2]%pool_key_inj. apply Hxy.
           rewrite <- E1 in Hqa. rewrite <- E2 in Hqb.
           by rewrite (named_id _ _ _ _ HI Hqa Ha), (named_id _ _ _ _ HI Hqb Hb).
        -- apply lookup_insert_Some in HPq as [[E _]|[_ HPq]]; [|done].
           apply pool_key_inj in E as [E1 E2]. exfalso. apply Hxy.
           rewrite <- E1 in Hqa. rewrite <- E2 in Hqb.
           by rewrite (named_id _ _ _ _ HI Hqa Ha), (named_id _ _ _ _ HI Hqb Hb).
    + apply (r_pairs _ _ _ R).
    + apply R.
    + apply map_Forall_insert_2; [|apply R]. exists cp. by split.
    + intros x [Hx|(k & q & cq & Hk & Hq & Hx)]; [apply (r_named _ _ _ R); by left|].
      apply lookup_insert_Some in Hk as [[_ <-]|[_ Hk]].
      * rewrite (pool_of_fun _ _ _ Hq Hp) in Hx. destruct Hx as [-> | ->]; [by exists a|by exists b].
      * apply (r_named _ _ _ R). right. by exists k, q, cq.
  - intros X HU id x Hid Hni. cbn in *.
    assert (NE : forall y z, (y = a /\ z = b) \/ (y = b /\ z = a) -> venue tS y z <> empty_venues).
    { intros y z Hyz [_ E]%venue_empty_iff. rewrite QS, bool_decide_eq_true_2 in E by done.
      destruct Hp as [_ Hp]. injection E as E _ _. by rewrite E in Hp. }
    destruct (decide (id = a)) as [->|Hna]; [exists b; left; apply NE; auto|].
    destruct (decide (id = b)) as [->|Hnb]; [exists a; left; apply NE; auto|].
    destruct (HU id x Hid) as [k Hk]; [by rewrite !not_elem_of_cons|]. exists k.
    rewrite !venue_empty_iff in Hk |- *. rewrite OB, OS, QB, QS.
    by rewrite !bool_decide_eq_false_2 by tauto.
Qed.

Lemma remove_pool_repr g O P cp a b tB tS :
  repr g O P -> LessThan (AssetA (Params cp)) (AssetB (Params cp)) = Some true ->
  named g a (AssetA (Params cp)) -> named g b (AssetB (Params cp)) ->
  pair_set (venuesForBuyingAsset g) tB a b zero_pool ->
  pair_set (venuesForSellingAsset g) tS a b zero_pool ->
  let g' := set_pools (set_tables g tB tS) (delete (a, b) (liquidityPools g)) in
  repr g' O (delete (pool_key cp) P) /\ (forall X, used g (a :: b :: X) -> used g' (a :: b :: X)).
Proof.
  intros R HL Ha Hb PB PS g'. pose proof (r_ids _ _ _ R) as HI.
  destruct (pool_lp_reverse _ _ _ _ _ _ R HL Ha Hb) as [Hrev Hne].
  destruct PB as (WB & LB & OB & QB) eqn:EPB. destruct PS as (WS & LS & OS & QS) eqn:EPS. split.
  - constructor; try done.
    + apply (ids_ok_tables (set_pools g _)); try done. destruct HI. by split.
    + exact (pair_offers_agree g O tB tS a b _ _ (r_offers _ _ _ R) PB PS).
    + intros x y. cbn. rewrite QB, QS.
      assert (EX : expected_pool (delete (a, b) (liquidityPools g)) x y =
        if bool_decide ((x = a /\ y = b) \/ (x = b /\ y = a)) then zero_pool
        else expected_pool (liquidityPools g) x y).
      { unfold expected_pool. case_bool_decide as E.
        - destruct E as [[-> ->]|[-> ->]].
          + by rewrite lookup_delete_eq, lookup_delete_ne, Hrev by congruence.
          + by rewrite lookup_delete_ne, Hrev, lookup_delete_eq by congruence.
        - rewrite !lookup_delete_ne by (intros [= -> ->]; tauto). done. }
      rewrite EX. case_bool_decide; [done|apply (r_pools _ _ _ R)].
    + intros x y q. cbn. rewrite lookup_delete_Some, (r_lp _ _ _ R). setoid_rewrite lookup_delete_Some.
      split.
      * intros (Hxy & cq & Hq & Hqa & Hqb & HPq). exists cq. repeat split; try done; try apply Hq.
        intros [E1 E2]%pool_key_inj. apply Hxy. rewrite <- E1 in Hqa. rewrite <- E2 in Hqb.
        by rewrite (named_id _ _ _ _ HI Hqa Ha), (named_id _ _ _ _ HI Hqb Hb).
      * intros (cq & Hq & Hqa & Hqb & Hk & HPq). split; [|by exists cq].
        intros [= <- <-]. apply Hk. unfold pool_key.
        by rewrite (named_asset _ _ _ _ Hqa Ha), (named_asset _ _ _ _ Hqb Hb).
    + apply (r_pairs _ _ _ R).
    + apply R.
    + apply map_Forall_delete, R.
    + intros x Hx. apply (r_named _ _ _ R). destruct Hx as [Hx|(k & q & cq & Hk & Hx)]; [by left|].
      apply lookup_delete_Some in Hk as [_ Hk]. right. by exists k, q, cq.
  - intros X HU id x Hid Hni. rewrite !not_elem_of_cons in Hni. cbn in *.
    destruct (HU id x Hid) as [k Hk]; [by rewrite !not_elem_of_cons|]. exists k.
    rewrite !venue_empty_iff in Hk |- *. rewrite OB, OS, QB, QS.
    by rewrite !bool_decide_eq_false_2 by tauto.
Qed.
