(* ===== verification/GraphSpec.v ===== *)
(** * The order book refines two maps

    Every operation of the graph, and so every batch, is an update of the
    represented offers and pools: none of the panics and errors the code guards
    against is reachable from well-formed operations. *)
From Stdlib Require Import ZArith Lia.
From stdpp Require Import base list vector option gmap sorting.
From S2P Require Import Prelude GoStd GoExt Price Encodings Strkey Asset Pools Edges Graph Tables GraphInv.
#[local] Open Scope Z_scope.
#[local] Open Scope go_scope.

Lemma used_mono g X Y : used g X -> (forall x, x ∈ X -> x ∈ Y) -> used g Y.
Proof. intros HU HXY id a Hid Hni. apply (HU id a Hid). auto. Qed.

Section Refinement.
Context {SL : ExpSlices} {SLL : ExpSlicesLaws SL}.

Lemma pairs_present g O P i : repr g O P -> is_Some (tradingPairForOffer g !! i) <-> is_Some (O !! i).
Proof.
  intros R. split.
  - intros [[b s] H]. apply (r_pairs _ _ _ R) in H as (o & Ho & _). by exists o.
  - intros [o Ho]. destruct (r_offer_named _ _ _ _ _ R Ho) as (b & s & Hb & Hs).
    exists (b, s). apply (r_pairs _ _ _ R). by exists o.
Qed.

Lemma graph_removeOffer_spec g O P i o :
  represents g O P -> O !! i = Some o ->
  exists g', graph_removeOffer g i = Some (g', None) /\ represents g' (delete i O) P /\
    go_len (idToAssetString g') = go_len (idToAssetString g) /\ same_control g g'.
Proof.
  intros [R HU] Ho. pose proof (r_ids _ _ _ R) as HI.
  destruct (r_offer_named _ _ _ _ _ R Ho) as (b & s & Hb & Hs).
  destruct (r_offer_in _ _ _ _ _ _ _ R Ho Hb Hs) as (Hin & HinB & Hi).
  destruct (r_offers _ _ _ R s b) as (E & HN & _).
  assert (Hid : i ∈ map OfferId (offers (sell_venue g s b))) by (apply list_elem_of_fmap; by exists o).
  destruct (table_removeOffer (venuesForSellingAsset g) s b i (r_sell _ _ _ R))
    as (e1 & e1' & tS & G1 & ER1 & GS1 & W1 & L1 & V1);
    [rewrite (ido_selling g HI); by eapply named_range|done|done|].
  destruct (table_removeOffer (venuesForBuyingAsset g) b s i (r_buy _ _ _ R))
    as (e2 & e2' & tB & G2 & ER2 & GS2 & W2 & L2 & V2);
    [rewrite (ido_buying g HI); by eapply named_range|by rewrite E|by rewrite E|].
  unfold graph_removeOffer. rewrite (proj2 (r_pairs _ _ _ R i b s)) by (by exists o).
  cbn. rewrite G1, ER1. cbn. rewrite GS1. cbn. rewrite G2, ER2. cbn. rewrite GS2.
  subst i. destruct (remove_offer_repr g O P o b s tB tS R Ho Hb Hs W1 L1 V1 W2 L2 V2) as [R1 U1].
  destruct (maybeDeleteAsset_repr _ _ _ b (Buying o) R1 Hb) as (g2 & D2 & R2 & U2 & N2 & LL2 & C2).
  assert (Hsb : s <> b).
  { intros ->. destruct (r_O _ _ _ R _ _ Ho) as [_ [_ _ Hne]]. apply Hne. by eapply named_asset. }
  destruct (maybeDeleteAsset_repr g2 _ _ s (Selling o) R2 (N2 _ _ Hsb Hs))
    as (g3 & D3 & R3 & U3 & N3 & LL3 & C3).
  cbn in D2. unfold set_tables, set_pairs in *. cbn in *. rewrite D2. cbn. rewrite D3.
  exists g3. split; [done|]. split; [|split; [congruence|]].
  - split; [done|]. apply U3, U2, U1, HU.
  - eapply same_control_trans; [|exact C3]. destruct C2 as [C2 C2']. cbn in *. by split.
Qed.

(** The ids of two assets, looked up one after the other. *)
Lemma two_ids g O P a b :
  repr g O P -> go_len (idToAssetString g) + 1 <= MaxInt32 ->
  exists g1 g2 ia ib, getOrCreateAssetID g a = Some (g1, ia) /\
    getOrCreateAssetID g1 b = Some (g2, ib) /\ repr g2 O P /\ named g2 ia a /\ named g2 ib b /\
    (used g [] -> used g2 [ib; ia]) /\
    go_len (idToAssetString g) <= go_len (idToAssetString g2) <= go_len (idToAssetString g) + 2 /\ same_control g g2.
Proof.
  intros R Hc.
  destruct (getOrCreateAssetID_repr g O P a R ltac:(lia)) as (g1 & ia & E1 & R1 & N1 & _ & U1 & _ & L1 & C1).
  destruct (getOrCreateAssetID_repr g1 O P b R1 ltac:(lia)) as (g2 & ib & E2 & R2 & N2 & M2 & U2 & _ & L2 & C2).
  exists g1, g2, ia, ib. split; [done|]. split; [done|]. split; [done|]. split; [by apply M2|].
  split; [done|]. split; [intros HU; by apply U2, U1|]. split; [lia|]. by eapply same_control_trans.
Qed.

Lemma graph_addOffer_new g O P o :
  represents g O P -> wf_offer o -> O !! OfferId o = None ->
  go_len (idToAssetString g) + 1 <= MaxInt32 ->
  exists g', graph_addOffer g o = Some (g', None) /\ represents g' (<[OfferId o := o]> O) P /\
    go_len (idToAssetString g) <= go_len (idToAssetString g') <= go_len (idToAssetString g) + 2 /\ same_control g g'.
Proof.
  intros [R HU] Hwf Hno Hc. unfold graph_addOffer.
  rewrite bool_decide_eq_false_2 by (rewrite (pairs_present _ _ _ _ R), Hno; by intros []).
  destruct (two_ids g O P (Buying o) (Selling o) R Hc)
    as (g1 & g2 & b & s & E1 & E2 & R2 & Hb & Hs & U2 & L2 & C2).
  cbn. rewrite E1. cbn. rewrite E2. cbn. pose proof (r_ids _ _ _ R2) as HI.
  destruct (table_addOffer (venuesForSellingAsset g2) s b o (r_sell _ _ _ R2))
    as (tS & TS & WS & LS & VS); [rewrite (ido_selling g2 HI); by eapply named_range|].
  destruct (table_addOffer (venuesForBuyingAsset g2) b s o (r_buy _ _ _ R2))
    as (tB & TB & WB & LB & VB); [rewrite (ido_buying g2 HI); by eapply named_range|].
  rewrite TS, TB.
  destruct (add_offer_repr g2 O P o b s tB tS R2 Hwf Hno Hb Hs WS LS VS WB LB VB) as [R3 U3].
  eexists. split; [done|]. split; [|done]. split; [exact R3|]. apply U3.
  apply (used_mono _ _ _ (U2 HU)). intros x Hx. rewrite !elem_of_cons in *. tauto.
Qed.

(** Adding an offer replaces any offer with its id. *)
Lemma graph_addOffer_spec g O P o :
  represents g O P -> wf_offer o -> go_len (idToAssetString g) + 1 <= MaxInt32 ->
  exists g', graph_addOffer g o = Some (g', None) /\ represents g' (<[OfferId o := o]> O) P /\
    go_len (idToAssetString g) <= go_len (idToAssetString g') <= go_len (idToAssetString g) + 2 /\ same_control g g'.
Proof.
  intros RU Hwf Hc. destruct (O !! OfferId o) as [o'|] eqn:E; [|by apply graph_addOffer_new].
  destruct (graph_removeOffer_spec g O P (OfferId o) o' RU E) as (g1 & E1 & RU1 & L1 & C1).
  destruct (graph_addOffer_new g1 (delete (OfferId o) O) P o RU1 Hwf) as (g2 & E2 & RU2 & L2 & C2);
    [apply lookup_delete_eq|lia|].
  exists g2. rewrite insert_delete_eq in RU2. split; [|split; [done|split; [lia|]]].
  - rewrite <- E2. unfold graph_addOffer. destruct RU as [R _], RU1 as [R1 _].
    rewrite (bool_decide_eq_true_2 (is_Some (tradingPairForOffer g !! _)))
      by (apply (pairs_present _ _ _ _ R); by exists o').
    rewrite (bool_decide_eq_false_2 (is_Some (tradingPairForOffer g1 !! _)))
      by (rewrite (pairs_present _ _ _ _ R1), lookup_delete_eq; by intros []).
    by rewrite E1.
  - by eapply same_control_trans.
Qed.

Lemma table_addPool_pair t a b p :
  wf_table t -> 0 <= a < go_len t -> 0 <= b < go_len t -> a <> b ->
  ConstantProduct (Body (lp_entry p)) <> None ->
  exists t1 t2, update_table t a (fun e => edge_addPool e b p) = Some t1 /\
    update_table t1 b (fun e => edge_addPool e a p) = Some t2 /\ pair_set t t2 a b p.
Proof.
  intros W Ha Hb Hne Hp. destruct (table_addPool t a b p W Ha Hp) as (t1 & E1 & W1 & L1 & V1).
  destruct (table_addPool t1 b a p W1 ltac:(lia) Hp) as (t2 & E2 & W2 & L2 & V2).
  exists t1, t2. split; [done|]. split; [done|]. by apply (upd2_pair t a b p t1 t2).
Qed.

Lemma table_removePool_pair t a b :
  wf_table t -> 0 <= a < go_len t -> 0 <= b < go_len t -> a <> b ->
  exists t1 t2, update_table t a (fun e => edge_removePool e b) = Some t1 /\
    update_table t1 b (fun e => edge_removePool e a) = Some t2 /\ pair_set t t2 a b zero_pool.
Proof.
  intros W Ha Hb Hne. destruct (table_removePool t a b W Ha) as (t1 & E1 & W1 & L1 & V1).
  destruct (table_removePool t1 b a W1 ltac:(lia)) as (t2 & E2 & W2 & L2 & V2).
  exists t1, t2. split; [done|]. split; [done|]. by apply (upd2_pair t a b zero_pool t1 t2).
Qed.

Lemma graph_addPool_spec g O P p cp :
  represents g O P -> wf_pool p cp -> go_len (idToAssetString g) + 1 <= MaxInt32 ->
  exists g', graph_addPool g p = Some g' /\ represents g' O (<[pool_key cp := p]> P) /\
    go_len (idToAssetString g) <= go_len (idToAssetString g') <= go_len (idToAssetString g) + 2 /\ same_control g g'.
Proof.
  intros [R HU] Hwf Hc. pose proof Hwf as [Hp HL]. unfold graph_addPool, poolFromEntry.
  rewrite (pool_of_getPoolAssets _ _ Hp).
  destruct (two_ids g O P (AssetA (Params cp)) (AssetB (Params cp)) R Hc)
    as (g1 & g2 & a & b & E1 & E2 & R2 & Ha & Hb & U2 & L2 & C2).
  rewrite E1, E2. cbn. pose proof (r_ids _ _ _ R2) as HI.
  destruct (pool_lp_reverse _ _ _ _ _ _ R2 HL Ha Hb) as [_ Hne].
  assert (HC : ConstantProduct (Body p) <> None) by (destruct Hp as [_ ->]; done).
  pose proof (named_range _ _ _ Ha). pose proof (named_range _ _ _ Hb).
  destruct (table_addPool_pair (venuesForBuyingAsset g2) a b (mkLiquidityPool p a b))
    as (tB1 & tB & TB1 & TB & PB); rewrite ?(ido_buying g2 HI); [apply R2|done|done|done|done|].
  destruct (table_addPool_pair (venuesForSellingAsset g2) a b (mkLiquidityPool p a b))
    as (tS1 & tS & TS1 & TS & PS); rewrite ?(ido_selling g2 HI); [apply R2|done|done|done|done|].
  rewrite TB1, TB, TS1, TS.
  destruct (add_pool_repr g2 O P p cp a b tB tS R2 Hwf Ha Hb PB PS) as [R3 U3].
  eexists. split; [done|]. split; [|done]. split; [exact R3|]. apply U3.
  apply (used_mono _ _ _ (U2 HU)). intros x Hx. rewrite !elem_of_cons in *. tauto.
Qed.

Lemma graph_removePool_spec g O P p cp :
  represents g O P -> wf_pool p cp -> go_len (idToAssetString g) + 1 <= MaxInt32 ->
  exists g', graph_removePool g p = Some g' /\ represents g' O (delete (pool_key cp) P) /\
    go_len (idToAssetString g) <= go_len (idToAssetString g') <= go_len (idToAssetString g) + 2 /\ same_control g g'.
Proof.
  intros [R HU] [Hp HL] Hc. unfold graph_removePool. rewrite (pool_of_getPoolAssets _ _ Hp).
  destruct (two_ids g O P (AssetA (Params cp)) (AssetB (Params cp)) R Hc)
    as (g1 & g2 & a & b & E1 & E2 & R2 & Ha & Hb & U2 & L2 & C2).
  rewrite E1, E2. pose proof (r_ids _ _ _ R2) as HI.
  destruct (pool_lp_reverse _ _ _ _ _ _ R2 HL Ha Hb) as [_ Hne].
  pose proof (named_range _ _ _ Ha). pose proof (named_range _ _ _ Hb).
  destruct (table_removePool_pair (venuesForBuyingAsset g2) a b)
    as (tB1 & tB & TB1 & TB & PB); rewrite ?(ido_buying g2 HI); [apply R2|done|done|done|].
  destruct (table_removePool_pair (venuesForSellingAsset g2) a b)
    as (tS1 & tS & TS1 & TS & PS); rewrite ?(ido_selling g2 HI); [apply R2|done|done|done|].
  cbv zeta. rewrite (proj2 (Z.eqb_neq a b)), Z.eqb_refl by done. rewrite TB1, TS1. cbn. rewrite TB, TS.
  destruct (remove_pool_repr g2 O P cp a b tB tS R2 HL Ha Hb PB PS) as [R3 U3].
  destruct (maybeDeleteAsset_repr _ _ _ a _ R3 Ha) as (g4 & D4 & R4 & U4 & N4 & LL4 & C4).
  destruct (maybeDeleteAsset_repr g4 _ _ b _ R4 (N4 _ _ (not_eq_sym Hne) Hb)) as (g5 & D5 & R5 & U5 & N5 & LL5 & C5).
  unfold set_tables, set_pools in *. cbn in *. rewrite D4, D5.
  exists g5. split; [done|]. split; [|split; [lia|]].
  - split; [done|]. apply U5, U4, U3. apply (used_mono _ _ _ (U2 HU)).
    intros x Hx. rewrite !elem_of_cons in *. tauto.
  - eapply same_control_trans; [exact C2|]. destruct C4 as [C4 C4'], C5 as [C5 C5'].
    cbn in *. split; congruence.
Qed.

(** ** The abstract order book *)
Definition entry_key (p : LiquidityPoolEntry) : bytes * bytes :=
  match ConstantProduct (Body p) with Some cp => pool_key cp | None => ([], []) end.

Definition spec_operation (st : offer_map * pool_map) (op : orderBookOperation) : offer_map * pool_map :=
  let '(OM, PM) := st in
  match op with
  | AddOfferOperation o => (<[OfferId o := o]> OM, PM)
  | RemoveOfferOperation id => (delete id OM, PM)
  | AddLiquidityPoolOperation p => (OM, <[entry_key p := p]> PM)
  | RemoveLiquidityPoolOperation p => (OM, delete (entry_key p) PM)
  end.

(** Operations on ledger entries: offers with a price and an amount between distinct assets and
    constant-product pools of two assets in order. *)
Definition wf_operation (op : orderBookOperation) : Prop :=
  match op with
  | AddOfferOperation o => wf_offer o
  | RemoveOfferOperation _ => True
  | AddLiquidityPoolOperation p => exists cp, wf_pool p cp
  | RemoveLiquidityPoolOperation p => exists cp, wf_pool p cp
  end.

Lemma entry_key_pool p cp : pool_of p cp -> entry_key p = pool_key cp.
Proof. intros [_ H]. unfold entry_key. by rewrite H. Qed.

(** The pairs a batch remembers stay within the tables. *)
Definition pairs_in_range (g : OrderBookGraph) (ps : gset tradingPair) : Prop :=
  forall b s, (b, s) ∈ ps ->
    0 <= b < go_len (idToAssetString g) /\ 0 <= s < go_len (idToAssetString g).

Lemma pairs_in_range_mono g g' ps :
  pairs_in_range g ps -> go_len (idToAssetString g) <= go_len (idToAssetString g') ->
  pairs_in_range g' ps.
Proof. intros H Hl b s Hb. apply H in Hb. lia. Qed.

Lemma apply_operation_spec g ps O P op :
  represents g O P -> wf_operation op -> pairs_in_range g ps ->
  go_len (idToAssetString g) + 1 <= MaxInt32 ->
  exists g' ps', apply_operation (g, ps) op = Some (g', ps') /\
    represents g' (spec_operation (O, P) op).1 (spec_operation (O, P) op).2 /\
    pairs_in_range g' ps' /\
    go_len (idToAssetString g) <= go_len (idToAssetString g') <= go_len (idToAssetString g) + 2 /\
    same_control g g'.
Proof.
  intros RU Hwf Hps Hc. destruct op as [o|id|p|p]; cbn [apply_operation spec_operation fst snd].
  - destruct (graph_addOffer_spec g O P o RU Hwf Hc) as (g' & -> & RU' & L & C).
    exists g', ps. split; [done|]. split; [done|]. split; [|done]. eapply pairs_in_range_mono; [done|lia].
  - pose proof RU as [R _]. destruct (tradingPairForOffer g !! id) as [[b s]|] eqn:E.
    + pose proof E as E'. apply (r_pairs _ _ _ R) in E' as (o & Ho & Hb & Hs).
      destruct (graph_removeOffer_spec g O P id o RU Ho) as (g' & -> & RU' & L & C).
      exists g', ({[(b, s)]} ∪ ps). split; [done|]. split; [done|]. split; [|split; [lia|done]].
      intros b' s' [[= -> ->]%elem_of_singleton|Hin]%elem_of_union.
      * rewrite L. split; by eapply named_range.
      * rewrite L. by apply Hps.
    + assert (O !! id = None) as Hn.
      { destruct (O !! id) eqn:Eo; [|done].
        destruct (proj2 (pairs_present _ _ _ id R)) as [x Hx]; [by eexists|]. congruence. }
      exists g, ps. rewrite delete_id by done. split; [done|]. split; [done|]. split; [done|].
      split; [lia|apply same_control_refl].
  - destruct Hwf as [cp Hwf]. pose proof Hwf as [Hp _]. rewrite (entry_key_pool _ _ Hp).
    destruct (graph_addPool_spec g O P p cp RU Hwf Hc) as (g' & -> & RU' & L & C).
    exists g', ps. split; [done|]. split; [done|]. split; [|done]. eapply pairs_in_range_mono; [done|lia].
  - destruct Hwf as [cp Hwf]. pose proof Hwf as [Hp _]. rewrite (entry_key_pool _ _ Hp).
    destruct (graph_removePool_spec g O P p cp RU Hwf Hc) as (g' & -> & RU' & L & C).
    exists g', ps. split; [done|]. split; [done|]. split; [|done]. eapply pairs_in_range_mono; [done|lia].
Qed.

Lemma apply_operations_spec ops g ps O P :
  represents g O P -> Forall wf_operation ops -> pairs_in_range g ps ->
  go_len (idToAssetString g) + 2 * go_len ops <= MaxInt32 + 1 ->
  exists g' ps', apply_operations (g, ps) ops = Some (g', ps') /\
    represents g' (fold_left spec_operation ops (O, P)).1 (fold_left spec_operation ops (O, P)).2 /\
    pairs_in_range g' ps' /\
    go_len (idToAssetString g) <= go_len (idToAssetString g') <= go_len (idToAssetString g) + 2 * go_len ops /\
    same_control g g'.
Proof.
  revert g ps O P; induction ops as [|op ops IH]; intros g ps O P RU Hwf Hps Hc.
  - exists g, ps. split; [done|]. split; [done|]. split; [done|]. split; [unfold go_len; simpl; lia|].
    apply same_control_refl.
  - apply Forall_cons in Hwf as [Hop Hops]. unfold go_len in Hc. simpl length in Hc. fold (go_len ops) in *.
    assert (Hl : 0 <= go_len (idToAssetString g)) by (unfold go_len; lia).
    destruct (apply_operation_spec g ps O P op RU Hop Hps) as (g1 & ps1 & E1 & RU1 & P1 & L1 & C1);
      [unfold go_len in *; lia|].
    cbn [apply_operations fold_left]. rewrite E1.
    destruct (spec_operation (O, P) op) as [O1 P1'] eqn:ES. cbn [fst snd] in RU1.
    destruct (IH g1 ps1 O1 P1' RU1 Hops P1) as (g2 & ps2 & E2 & RU2 & P2 & L2 & C2);
      [unfold go_len in *; lia|].
    exists g2, ps2. split; [done|]. split; [done|]. split; [done|].
    split; [unfold go_len in *; simpl length; lia|]. by eapply same_control_trans.
Qed.

(** Reallocation represents the same sets. *)
Lemma reallocate_pairs_spec ps g O P :
  represents g O P -> pairs_in_range g (list_to_set ps) ->
  exists g', reallocate_pairs g ps = Some g' /\ represents g' O P /\
    idToAssetString g' = idToAssetString g /\ same_control g g'.
Proof.
  revert g; induction ps as [|[b s] ps IH]; intros g [R HU] Hps.
  - exists g. split; [done|]. split; [done|]. split; [done|]. apply same_control_refl.
  - pose proof (r_ids _ _ _ R) as HI. destruct (Hps b s) as [Hb Hs]; [set_solver|].
    destruct (table_reallocate (venuesForSellingAsset g) s (r_sell _ _ _ R)) as (tS & TS & WS & LS & VS);
      [by rewrite (ido_selling g HI)|].
    destruct (table_reallocate (venuesForBuyingAsset g) b (r_buy _ _ _ R)) as (tB & TB & WB & LB & VB);
      [by rewrite (ido_buying g HI)|].
    cbn [reallocate_pairs fst snd]. rewrite TS, TB.
    assert (RU1 : represents (set_tables g tB tS) O P).
    { split.
      - apply (repr_ids g); try done. by apply ids_ok_tables.
      - intros id a Hid Hni. destruct (HU id a Hid Hni) as [k Hk]. exists k. cbn. by rewrite VS, VB. }
    destruct (IH (set_tables g tB tS) RU1) as (g' & E & RU' & EI & C).
    { intros b' s' Hin. apply Hps. set_solver. }
    exists g'. split; [done|]. split; [done|]. split; [done|].
    destruct C as [C C']. by split.
Qed.
End Refinement.

(** ** The graph's queries read the represented sets *)
Lemma represents_New : represents NewOrderBookGraph ∅ ∅.
Proof.
  assert (V : forall x y, venue [] x y = empty_venues).
  { intros x y. apply venue_out_of_range. unfold go_len. simpl. lia. }
  assert (GI : forall A i (x : A), go_index [] i = Some x -> False).
  { intros A i x H. apply go_index_range in H. unfold go_len in H. simpl in H. lia. }
  split; [constructor|]; cbn.
  - split; try done; cbn; [|apply NoDup_nil_2|].
    + intros s id. rewrite lookup_empty. split; [done|]. intros [_ H]. by apply GI in H.
    + intros id. split; [by intros ?%elem_of_nil|]. intros H. by apply GI in H.
  - constructor.
  - constructor.
  - intros s b. cbn. rewrite !V. cbn. split; [done|]. split; [constructor|]. split; [constructor|].
    intros o. rewrite lookup_empty. split; [by intros ?%elem_of_nil|by intros []].
  - intros a k. cbn. rewrite V. done.
  - intros a k p. rewrite lookup_empty. split; [done|]. intros (cp & _ & H & _). by apply GI in H.
  - intros i b s. rewrite lookup_empty. split; [done|]. intros (o & H & _). by rewrite lookup_empty in H.
  - apply map_Forall_empty.
  - apply map_Forall_empty.
  - intros x [(i & o & H & _)|(k & p & cp & H & _)]; by rewrite lookup_empty in H.
  - intros id a H. by apply GI in H.
Qed.

Lemma NoDup_flat_map {A B} (f : A -> list B) (l : list A) :
  (forall x, x ∈ l -> NoDup (f x)) ->
  (forall i j x y b, l !! i = Some x -> l !! j = Some y -> b ∈ f x -> b ∈ f y -> i = j) ->
  NoDup (flat_map f l).
Proof.
  induction l as [|x l IH]; intros HN HD; [constructor|]. simpl. apply NoDup_app. split; [|split].
  - apply HN. by left.
  - intros b Hb Hb'. apply list_elem_of_In, in_flat_map in Hb' as (y & Hy & Hby).
    apply list_elem_of_In, list_elem_of_lookup in Hy as [j Hj].
    pose proof (HD O (S j) x y b eq_refl Hj Hb (proj2 (list_elem_of_In _ _) Hby)). done.
  - apply IH; [intros y Hy; apply HN; by right|].
    intros i j y z b Hi Hj Hb Hb'. pose proof (HD (S i) (S j) y z b Hi Hj Hb Hb'). lia.
Qed.

(** The offers listed from edge [j] of entry [i] are those of one venue. *)
Lemma edge_venue g O P i e j ed :
  repr g O P -> venuesForSellingAsset g !! i = Some e -> e !! j = Some ed ->
  offers (value ed) = offers (sell_venue g (Z.of_nat i) (key ed)) /\ NoDup (edge_keys e).
Proof.
  intros R Hi Hj. pose proof (r_sell _ _ _ R) as W. unfold wf_table in W.
  pose proof (Forall_lookup_1 _ _ _ _ W Hi) as [HN _]. split; [|done].
  unfold venue. rewrite (edges_at_Some _ _ e).
  - unfold venues_or_empty. by rewrite (edge_map_lookup e (key ed) j ed).
  - apply go_index_Some. split; [lia|]. by rewrite Nat2Z.id.
Qed.

Lemma Offers_elem g O P o :
  represents g O P -> (o ∈ Offers g <-> O !! OfferId o = Some o).
Proof.
  intros [R _]. unfold Offers. rewrite list_elem_of_In, in_flat_map. split.
  - intros (e & He & Ho). apply in_flat_map in Ho as (ed & Hed & Ho).
    apply list_elem_of_In, list_elem_of_lookup in He as [i Hi].
    apply list_elem_of_In, list_elem_of_lookup in Hed as [j Hj]. apply list_elem_of_In in Ho.
    rewrite (proj1 (edge_venue _ _ _ _ _ _ _ R Hi Hj)) in Ho.
    by apply (r_offers _ _ _ R) in Ho as (Ho & _).
  - intros Ho. destruct (r_offer_named _ _ _ _ _ R Ho) as (b & s & Hb & Hs).
    destruct (r_offer_in _ _ _ _ _ _ _ R Ho Hb Hs) as (Hin & _ & _).
    unfold venue, edges_at in Hin. destruct (go_index _ s) as [e|] eqn:He; [|by apply elem_of_nil in Hin].
    unfold venues_or_empty in Hin. destruct (edge_map e !! b) as [v|] eqn:Ev; [|by apply elem_of_nil in Hin].
    apply go_index_Some in He as [_ He]. exists e. split; [apply list_elem_of_In; by eapply list_elem_of_lookup_2|].
    unfold edge_map in Ev. apply elem_of_list_to_map_2, list_elem_of_In, in_map_iff in Ev as (ed & [= _ <-] & Hed).
    apply in_flat_map. exists ed. split; [done|]. by apply list_elem_of_In.
Qed.

Lemma Offers_NoDup g O P : represents g O P -> NoDup (Offers g).
Proof.
  intros [R _]. pose proof (r_ids _ _ _ R) as HI. unfold Offers. apply NoDup_flat_map.
  - intros e He. apply list_elem_of_lookup in He as [i Hi]. apply NoDup_flat_map.
    + intros ed Hed. apply list_elem_of_lookup in Hed as [j Hj].
      rewrite (proj1 (edge_venue _ _ _ _ _ _ _ R Hi Hj)).
      destruct (r_offers _ _ _ R (Z.of_nat i) (key ed)) as (_ & HN & _).
      by eapply NoDup_fmap_1.
    + intros j k x y o Hj Hk Hx Hy.
      destruct (edge_venue _ _ _ _ _ _ _ R Hi Hj) as [E1 HN].
      rewrite E1 in Hx. rewrite (proj1 (edge_venue _ _ _ _ _ _ _ R Hi Hk)) in Hy.
      apply (r_offers _ _ _ R) in Hx as (_ & _ & Hx), Hy as (_ & _ & Hy).
      eapply NoDup_lookup; [exact HN|by apply edge_keys_lookup|].
      rewrite (named_id _ _ _ _ HI Hx Hy). by apply edge_keys_lookup.
  - intros i j e e' o Hi Hj Ho Ho'.
    apply list_elem_of_In, in_flat_map in Ho as (x & Hx & Ho), Ho' as (y & Hy & Ho').
    apply list_elem_of_In, list_elem_of_lookup in Hx as [k Hk], Hy as [l Hl].
    apply list_elem_of_In in Ho, Ho'.
    rewrite (proj1 (edge_venue _ _ _ _ _ _ _ R Hi Hk)) in Ho.
    rewrite (proj1 (edge_venue _ _ _ _ _ _ _ R Hj Hl)) in Ho'.
    apply (r_offers _ _ _ R) in Ho as (_ & Hs & _), Ho' as (_ & Hs' & _).
    pose proof (named_id _ _ _ _ HI Hs Hs'). lia.
Qed.

Lemma LiquidityPools_elem g O P p :
  represents g O P -> (p ∈ LiquidityPools g <-> P !! entry_key p = Some p).
Proof.
  intros [R _]. unfold LiquidityPools. rewrite list_elem_of_fmap. split.
  - intros ([[a b] q] & -> & Hq). apply elem_of_map_to_list in Hq. simpl.
    apply (r_lp _ _ _ R) in Hq as (cp & Hp & _ & _ & HP). by rewrite (entry_key_pool _ _ Hp).
  - intros Hp. destruct (r_P _ _ _ R _ _ Hp) as (cp & [Hc _] & E).
    destruct (r_named _ _ _ R (AssetA (Params cp))) as [a Ha]; [right; exists (entry_key p), p, cp; auto|].
    destruct (r_named _ _ _ R (AssetB (Params cp))) as [b Hb]; [right; exists (entry_key p), p, cp; auto|].
    exists ((a, b), p). split; [done|]. apply elem_of_map_to_list, (r_lp _ _ _ R). exists cp.
    by rewrite <- (entry_key_pool _ _ Hc).
Qed.

Lemma LiquidityPools_NoDup g O P : represents g O P -> NoDup (LiquidityPools g).
Proof.
  intros [R _]. pose proof (r_ids _ _ _ R) as HI. unfold LiquidityPools. apply NoDup_fmap_2_strong.
  - intros [[a b] p] [[a' b'] p'] H1%elem_of_map_to_list H2%elem_of_map_to_list. simpl. intros <-.
    apply (r_lp _ _ _ R) in H1 as (cp & Hp & Ha & Hb & _), H2 as (cp' & Hp' & Ha' & Hb' & _).
    rewrite (pool_of_fun _ _ _ Hp' Hp) in Ha', Hb'.
    by rewrite (named_id _ _ _ _ HI Ha Ha'), (named_id _ _ _ _ HI Hb Hb').
  - apply NoDup_map_to_list.
Qed.

Lemma IsEmpty_spec g O P : represents g O P -> (IsEmpty g = true <-> O = ∅ /\ P = ∅).
Proof.
  intros RU. pose proof RU as [R _]. unfold IsEmpty. rewrite andb_true_iff, !Z.eqb_eq.
  assert (H1 : liquidityPools g = ∅ <-> P = ∅).
  { split; intros E; apply map_eq; intros k; rewrite lookup_empty.
    - destruct (P !! k) as [p|] eqn:Hp; [|done]. exfalso.
      destruct (r_P _ _ _ R _ _ Hp) as (cp & [Hc _] & ->). rewrite <- (entry_key_pool _ _ Hc) in Hp.
      apply (LiquidityPools_elem _ _ _ _ RU) in Hp. unfold LiquidityPools in Hp.
      rewrite E, map_to_list_empty in Hp. by apply elem_of_nil in Hp.
    - destruct k as [a b]. destruct (liquidityPools g !! (a, b)) as [p|] eqn:Hp; [|done]. exfalso.
      apply (r_lp _ _ _ R) in Hp as (cp & _ & _ & _ & HP). by rewrite E, lookup_empty in HP. }
  assert (H2 : tradingPairForOffer g = ∅ <-> O = ∅).
  { split; intros E; apply map_eq; intros k; rewrite lookup_empty; apply eq_None_not_Some; intros H;
      apply (pairs_present _ _ _ _ R) in H as [x Hx]; by rewrite E, lookup_empty in Hx. }
  rewrite <- H1, <- H2.
  rewrite <- (map_size_empty_iff (liquidityPools g)), <- (map_size_empty_iff (tradingPairForOffer g)). lia.
Qed.

(** ** The specification of the graph

    The calls of the OBGraph interface that change it, against a state that is
    two maps, a queue of operations and a ledger number. *)
Inductive call : Type :=
| CallAddOffers (os : list OfferEntry)
| CallAddLiquidityPools (ps : list LiquidityPoolEntry)
| CallRemoveOffer (offerID : Z)
| CallRemoveLiquidityPool (p : LiquidityPoolEntry)
| CallDiscard
| CallClear
| CallApply (ledger : Z).

Record spec_state : Type := mkSpec {
  spec_offers : offer_map;
  spec_pools : pool_map;
  spec_queue : list orderBookOperation;
  spec_committed : bool;
  spec_ledger : Z
}.

Definition spec_init : spec_state := mkSpec ∅ ∅ [] false 0.

Definition spec_enqueue (a : spec_state) (ops : list orderBookOperation) : spec_state :=
  mkSpec (spec_offers a) (spec_pools a) (spec_queue a ++ ops) (spec_committed a) (spec_ledger a).

(** The operations a call enqueues. *)
Definition call_operations (c : call) : list orderBookOperation :=
  match c with
  | CallAddOffers os => map AddOfferOperation os
  | CallAddLiquidityPools ps => map AddLiquidityPoolOperation ps
  | CallRemoveOffer id => [RemoveOfferOperation id]
  | CallRemoveLiquidityPool p => [RemoveLiquidityPoolOperation p]
  | _ => []
  end.

(** Applying twice without discarding panics; a ledger that is not newer is an
    error that leaves the maps alone and spends the batch; otherwise the queue
    is played onto the maps. *)
Definition spec_call (a : spec_state) (c : call) : option (spec_state * option orderbook_error) :=
  match c with
  | CallDiscard => Some (mkSpec (spec_offers a) (spec_pools a) [] false (spec_ledger a), None)
  | CallClear => Some (spec_init, None)
  | CallApply ledger =>
      if spec_committed a then None
      else if (0 <? spec_ledger a) && (ledger <=? spec_ledger a) then
        Some (mkSpec (spec_offers a) (spec_pools a) (spec_queue a) true (spec_ledger a),
              Some errUnexpectedLedger)
      else
        let '(OM, PM) := fold_left spec_operation (spec_queue a) (spec_offers a, spec_pools a) in
        Some (mkSpec OM PM [] false ledger, None)
  | _ => Some (spec_enqueue a (call_operations c), None)
  end.

Definition impl_call {SL : ExpSlices} (g : OrderBookGraph) (c : call) :
    option (OrderBookGraph * option orderbook_error) :=
  match c with
  | CallAddOffers os => Some (AddOffers g os, None)
  | CallAddLiquidityPools ps => Some (AddLiquidityPools g ps, None)
  | CallRemoveOffer id => Some (RemoveOffer g id, None)
  | CallRemoveLiquidityPool p => Some (RemoveLiquidityPool g p, None)
  | CallDiscard => Some (Discard g, None)
  | CallClear => Some (Clear g, None)
  | CallApply ledger => Apply g ledger
  end.

(** Runs a sequence of calls and collects the errors they return. *)
Fixpoint run {St} (step : St -> call -> option (St * option orderbook_error)) (st : St)
    (cs : list call) : option (St * list (option orderbook_error)) :=
  match cs with
  | [] => Some (st, [])
  | c :: cs =>
      let! (st, r) := step st c in
      let! (st, rs) := run step st cs in
      Some (st, r :: rs)
  end.

Definition wf_call (c : call) : Prop := Forall wf_operation (call_operations c).

(** How many operations a sequence of calls enqueues. *)
Definition enqueued (cs : list call) : Z := go_len (flat_map call_operations cs).

Record simulates (g : OrderBookGraph) (a : spec_state) : Prop := {
  sim_represents : represents g (spec_offers a) (spec_pools a);
  sim_queue : operations (batchedUpdates g) = spec_queue a;
  sim_committed : committed (batchedUpdates g) = spec_committed a;
  sim_ledger : lastLedger g = spec_ledger a;
  sim_wf : Forall wf_operation (spec_queue a)
}.

(** Ids are only ever allocated for operations that were enqueued. *)
Definition room (g : OrderBookGraph) (a : spec_state) (n : Z) : Prop :=
  go_len (idToAssetString g) + 2 * go_len (spec_queue a) + 2 * n <= MaxInt32 + 1.

Lemma represents_batch g O P b : represents g O P -> represents (set_batch g b) O P.
Proof. intros [R HU]. split; [|exact HU]. apply (repr_ids g); try done; try apply R.
  destruct (r_ids _ _ _ R). by split. Qed.

Lemma represents_ledger g O P l : represents g O P -> represents (set_ledger g l) O P.
Proof. intros [R HU]. split; [|exact HU]. apply (repr_ids g); try done; try apply R.
  destruct (r_ids _ _ _ R). by split. Qed.

Lemma fold_enqueue {A} (f : A -> orderBookOperation) l tx :
  fold_left (fun tx x => enqueue (f x) tx) l tx = mkBatch (operations tx ++ map f l) (committed tx).
Proof.
  revert tx; induction l as [|x l IH]; intros tx; simpl.
  - rewrite app_nil_r. by destruct tx.
  - rewrite IH. simpl. by rewrite <- app_assoc.
Qed.

Section Simulation.
Context {SL : ExpSlices} {SLL : ExpSlicesLaws SL}.

Lemma simulates_enqueue g a ops :
  simulates g a -> Forall wf_operation ops ->
  simulates (set_batch g (mkBatch (operations (batchedUpdates g) ++ ops) (committed (batchedUpdates g))))
    (spec_enqueue a ops).
Proof.
  intros [] Hops. split; cbn; try done; [by apply represents_batch|by rewrite sim_queue0|].
  by apply Forall_app.
Qed.

Lemma simulates_apply g a ledger n :
  simulates g a -> room g a n -> 0 <= n ->
  match spec_call a (CallApply ledger) with
  | None => Apply g ledger = None
  | Some (a', r) => exists g', Apply g ledger = Some (g', r) /\ simulates g' a' /\ room g' a' n
  end.
Proof.
  intros [RU EQ EC EL HW] Hroom Hn. unfold Apply, batch_apply, spec_call. cbn [lastLedger set_batch]. rewrite EC, EL, EQ.
  destruct (spec_committed a); [done|].
  destruct ((0 <? spec_ledger a) && (ledger <=? spec_ledger a)) eqn:Estale.
  - cbn. eexists. split; [done|]. split; [|exact Hroom].
    split; cbn; try done. by apply represents_batch.
  - cbn.
    set (g1 := set_batch g (mkBatch (spec_queue a) true)).
    assert (RU1 : represents g1 (spec_offers a) (spec_pools a)) by (by apply represents_batch).
    destruct (apply_operations_spec (spec_queue a) g1 ∅ _ _ RU1 HW) as (g2 & ps & E2 & RU2 & HP & L2 & C2).
    { intros b s Hin. set_solver. }
    { subst g1. unfold room in Hroom. cbn. lia. }
    cbn in E2. rewrite E2. cbn.
    destruct (fold_left _ _ _) as [OM PM] eqn:EF. cbn [fst snd] in RU2.
    destruct (reallocate_pairs_spec (elements ps) (set_ledger g2 ledger) OM PM) as (g3 & E3 & RU3 & EI & C3).
    { by apply represents_ledger. }
    { rewrite list_to_set_elements_L. exact HP. }
    rewrite E3. eexists. split; [done|]. split.
    + destruct C3 as [C3 C3']. split; cbn; try done. by apply represents_batch.
    + unfold room in *. cbn in *. rewrite EI. cbn. unfold go_len at 2. simpl.
      unfold go_len in *. lia.
Qed.

Lemma simulates_call g a c n :
  simulates g a -> wf_call c -> room g a (go_len (call_operations c) + n) -> 0 <= n ->
  match spec_call a c with
  | None => impl_call g c = None
  | Some (a', r) => exists g', impl_call g c = Some (g', r) /\ simulates g' a' /\ room g' a' n
  end.
Proof.
  intros HS Hc Hroom Hn.
  assert (HE : forall ops, call_operations c = ops ->
    exists g', Some (set_batch g (mkBatch (operations (batchedUpdates g) ++ ops) (committed (batchedUpdates g))), None)
      = Some (g', @None orderbook_error) /\ simulates g' (spec_enqueue a ops) /\ room g' (spec_enqueue a ops) n).
  { intros ops <-. eexists. split; [done|]. split; [by apply simulates_enqueue|].
    unfold room, go_len in *. cbn. rewrite length_app. lia. }
  destruct c as [os|ps|id|p| | |ledger]; cbn [spec_call impl_call].
  - unfold AddOffers, batch_addOffer. rewrite fold_enqueue. by apply HE.
  - unfold AddLiquidityPools, batch_addLiquidityPool. rewrite fold_enqueue. by apply HE.
  - by apply HE.
  - by apply HE.
  - eexists. split; [done|]. destruct HS. split; [split; cbn; try done; by apply represents_batch|].
    unfold room, go_len in *. cbn in *. lia.
  - eexists. split; [done|]. split; [split; cbn; try done; apply represents_New|].
    unfold room, go_len in *. cbn in *. lia.
  - apply simulates_apply; [done| |done]. unfold room, go_len in *. cbn in *. lia.
Qed.

Lemma simulates_run cs g a n :
  simulates g a -> Forall wf_call cs -> room g a (enqueued cs + n) -> 0 <= n ->
  match run spec_call a cs with
  | None => run impl_call g cs = None
  | Some (a', rs) => exists g', run impl_call g cs = Some (g', rs) /\ simulates g' a'
  end.
Proof.
  revert g a n; induction cs as [|c cs IH]; intros g a n HS Hwf Hroom Hn; cbn [run]; [by exists g|].
  apply Forall_cons in Hwf as [Hc Hcs].
  assert (E : enqueued (c :: cs) = go_len (call_operations c) + enqueued cs)
    by (unfold enqueued, go_len; simpl; rewrite length_app; lia).
  assert (0 <= enqueued cs) by (unfold enqueued, go_len; lia).
  pose proof (simulates_call g a c (enqueued cs + n) HS Hc) as L.
  destruct (spec_call a c) as [[a1 r]|].
  - destruct L as (g1 & -> & HS1 & Hroom1); [unfold room in *; lia|lia|].
    specialize (IH g1 a1 n HS1 Hcs Hroom1 Hn).
    destruct (run spec_call a1 cs) as [[a2 rs]|].
    + destruct IH as (g2 & -> & HS2). by exists g2.
    + by rewrite IH.
  - rewrite L; [done|unfold room in *; lia|lia].
Qed.

Lemma simulates_init : simulates NewOrderBookGraph spec_init.
Proof. split; cbn; try done. apply represents_New. Qed.

(** ** Properties *)

(** C1: the order book graph refines its specification. Any sequence of calls
    on a new graph, with fewer than 2^30 well-formed operations enqueued, panics
    exactly when the specification does (a second Apply of a rejected batch),
    returns the same errors, and ends in a graph that represents the
    specification's offers and pools: so no other panic, index error or
    not-present error in the code is ever reached. *)
Theorem OrderBookGraph_refines_spec cs :
  Forall wf_call cs -> 2 * enqueued cs <= MaxInt32 + 1 ->
  match run spec_call spec_init cs with
  | None => run impl_call NewOrderBookGraph cs = None
  | Some (a, rs) => exists g, run impl_call NewOrderBookGraph cs = Some (g, rs) /\ simulates g a
  end.
Proof.
  intros Hwf Hn. apply (simulates_run cs _ _ 0); [apply simulates_init|done| |done].
  unfold room, go_len. cbn. unfold enqueued, go_len in *. lia.
Qed.

(** C2: the queries read the represented sets exactly: [Offers] lists every
    offer once, [LiquidityPools] every pool once, and [IsEmpty] holds exactly
    when there are neither. Each venue's offers are listed cheapest first, the
    same in both tables, and are exactly the offers between its two assets. *)
Theorem represented_queries g O P :
  represents g O P ->
  (NoDup (Offers g) /\ forall o, o ∈ Offers g <-> O !! OfferId o = Some o) /\
  (NoDup (LiquidityPools g) /\ forall p, p ∈ LiquidityPools g <-> P !! entry_key p = Some p) /\
  (IsEmpty g = true <-> O = ∅ /\ P = ∅) /\
  (forall s b, offers (buy_venue g b s) = offers (sell_venue g s b) /\
     price_sorted (offers (sell_venue g s b)) /\
     forall o, o ∈ offers (sell_venue g s b) <->
       O !! OfferId o = Some o /\ named g s (Selling o) /\ named g b (Buying o)).
Proof.
  intros RU. split; [split; [by eapply Offers_NoDup|intros o; by eapply Offers_elem]|].
  split; [split; [by eapply LiquidityPools_NoDup|intros p; by eapply LiquidityPools_elem]|].
  split; [by apply IsEmpty_spec|]. intros s b. destruct RU as [R _].
  destruct (r_offers _ _ _ R s b) as (H1 & _ & H2 & H3). done.
Qed.
End Simulation.

(** A batch rejected for its ledger is spent: applying again panics. *)
Remark Apply_again_panics {SL : ExpSlices} g ledger g' :
  Apply g ledger = Some (g', Some errUnexpectedLedger) -> forall ledger', Apply g' ledger' = None.
Proof.
  unfold Apply, batch_apply. destruct (committed (batchedUpdates g)); [done|].
  destruct (_ && _); cbn [lastLedger set_batch].
  - intros [= <-] ledger'. done.
  - destruct (apply_operations _ _) as [[g2 ps]|]; [|done]. destruct (reallocate_pairs _ _); done.
Qed.

(** An offer between two assets. *)
Definition sample_cross_offer (id n : Z) : OfferEntry :=
  mkOfferEntry (zero_array 32) id Native (CreditAlphanum4 (zero_array 4) (zero_array 32)) 10
    (mkPrice n 1) 0 0.

Lemma wf_sample_cross id n : 0 < n <= MaxInt32 -> wf_offer (sample_cross_offer id n).
Proof. intros H. split; [|simpl; lia|done]. unfold priced, valid_price. simpl. lia. Qed.

(** A book whose one offer sells the native asset at three units for one. *)
Definition sample_graph : OrderBookGraph :=
  match @graph_addOffer Concrete.list_slices NewOrderBookGraph (sample_cross_offer 1 3) with
  | Some (g, _) => g
  | None => NewOrderBookGraph
  end.

Lemma represents_sample_graph :
  represents sample_graph (<[1 := sample_cross_offer 1 3]> ∅) ∅ /\
  go_len (idToAssetString sample_graph) <= MaxInt32.
Proof.
  destruct (@graph_addOffer_spec Concrete.list_slices Concrete.list_slices_laws NewOrderBookGraph ∅ ∅
    (sample_cross_offer 1 3) represents_New) as (g & Hg & RU & Hl & _).
  - apply wf_sample_cross. lia.
  - unfold go_len. simpl. lia.
  - unfold sample_graph. rewrite Hg. split; [done|]. unfold go_len in *. simpl in Hl. lia.
Qed.

Lemma OrderBookGraph_refines_spec_witness :
  exists g, run (@impl_call Concrete.list_slices) NewOrderBookGraph
      [CallAddOffers [sample_cross_offer 1 3; sample_cross_offer 2 2]; CallApply 7; CallApply 7]
    = Some (g, [None; None; Some errUnexpectedLedger]) /\
    Offers g = [sample_cross_offer 2 2; sample_cross_offer 1 3].
Proof.
  pose proof (@OrderBookGraph_refines_spec Concrete.list_slices Concrete.list_slices_laws
    [CallAddOffers [sample_cross_offer 1 3; sample_cross_offer 2 2]; CallApply 7; CallApply 7]) as H.
  destruct H as (g & Hg & _).
  - apply Forall_cons. split; [|by repeat constructor].
    apply Forall_cons. split; [apply wf_sample_cross; lia|]. apply Forall_cons. split; [|constructor].
    apply wf_sample_cross. lia.
  - unfold enqueued, go_len. simpl. lia.
  - exists g. split; [exact Hg|]. revert Hg. vm_compute. intros [= <-]. reflexivity.
Defined.

Lemma represented_queries_witness :
  exists g, sample_cross_offer 1 3 ∈ Offers g /\ IsEmpty g <> true.
Proof.
  destruct (@graph_addOffer_spec Concrete.list_slices Concrete.list_slices_laws NewOrderBookGraph ∅ ∅
    (sample_cross_offer 1 3) represents_New) as (g & _ & RU & _).
  - apply wf_sample_cross. lia.
  - unfold go_len. simpl. lia.
  - exists g. destruct (represented_queries g _ _ RU) as ((_ & H1) & _ & H3 & _). split.
    + apply H1. apply lookup_insert_eq.
    + intros [E _]%H3. apply (insert_non_empty _ _ _ E).
Defined.
