(* ===== verification/Verify.v ===== *)
(** * Verify: the graph's self-check

    [Verify] of src/exp/orderbook/graph.go, with the comparisons of entries it
    uses. Each [fmt.Errorf] is a constructor of [verify_error], without the
    values it prints; [assertPoolsEqual] is called for its panics only, as the
    code drops its error. *)
From Stdlib Require Import ZArith Lia.
From stdpp Require Import base list vector option gmap sorting.
From S2P Require Import Prelude GoStd GoExt Price Encodings Strkey Asset Pools Edges Graph.
#[local] Open Scope Z_scope.
#[local] Open Scope go_scope.

Inductive verify_error : Type :=
| SellingBuyingLengths
| SellingNamesLengths
| VacantIDWithEdges
| AssetNotInMap
| AssetMapsElsewhere
| OfferMoreThanOnce
| PairSellingMismatch
| PairBuyingMismatch
| BuyingAssetMismatch
| SellingAssetMismatch
| PoolAssetBEdge
| PoolAssetAEdge
| PoolAssetsNotHere
| PoolAssetAID
| PoolAssetBID
| OfferCountMismatch
| OfferNotPresent
| OffersDiffer (e : offer_mismatch)
| PoolNotPresent
| OffersNotMatched
| VacantMismatch
with offer_mismatch : Type := PriceDiffers | AmountDiffers | BuyingDiffers | SellingDiffers.

Inductive pool_mismatch : Type :=
| PoolIdDiffers | AssetADiffers | AssetBDiffers | FeeDiffers | ReserveADiffers | ReserveBDiffers.

(** The panic and error monad of the check. *)
Definition verifying (A : Type) : Type := option (result verify_error A).
Definition verified {A} (a : A) : verifying A := Some (Ok a).
Definition verify_bind {A B} (m : verifying A) (k : A -> verifying B) : verifying B :=
  match m with
  | None => None
  | Some (Err e) => Some (Err e)
  | Some (Ok a) => k a
  end.
Notation "'do!' x := m 'in' k" := (verify_bind m (fun x => k))
  (at level 10, x pattern, m at level 100, k at level 200) : go_scope.
Notation "'require!' b 'else' e 'in' k" := (if b : bool then k else Some (Err e))
  (at level 10, b at level 100, e at level 100, k at level 200) : go_scope.

(** ** Comparing entries *)
Definition assertOffersEqual (o offer : OfferEntry) : option offer_mismatch :=
  if negb (bool_decide (OfferPrice o = OfferPrice offer)) then Some PriceDiffers
  else if negb (Amount o =? Amount offer) then Some AmountDiffers
  else if negb (Asset_Equals (Buying o) (Buying offer)) then Some BuyingDiffers
  else if negb (Asset_Equals (Selling o) (Selling offer)) then Some SellingDiffers
  else None.

Definition assertPoolsEqual (p pool : LiquidityPoolEntry) : option (option pool_mismatch) :=
  if negb (bool_decide (LiquidityPoolId p = LiquidityPoolId pool)) then Some (Some PoolIdDiffers)
  else
    let! constantProductPool := MustConstantProduct (Body p) in
    let! other := MustConstantProduct (Body pool) in
    Some (if negb (Asset_Equals (AssetA (Params constantProductPool)) (AssetA (Params other))) then Some AssetADiffers
      else if negb (Asset_Equals (AssetB (Params constantProductPool)) (AssetB (Params other))) then Some AssetBDiffers
      else if negb (Fee (Params constantProductPool) =? Fee (Params other)) then Some FeeDiffers
      else if negb (ReserveA constantProductPool =? ReserveA other) then Some ReserveADiffers
      else if negb (ReserveB constantProductPool =? ReserveB other) then Some ReserveBDiffers
      else None).

(** ** The checks both tables share *)

(** The assets of an offer against the names of its edge, or, after the first
    offer, against the offer before it. *)
Definition check_offer_assets (prev : option OfferEntry) (offer : OfferEntry)
    (buyingAssetString sellingAssetString : bytes) : verifying unit :=
  match prev with
  | None =>
      let! b := Asset_String (Buying offer) in
      require! bool_decide (b = buyingAssetString) else BuyingAssetMismatch in
      let! s := Asset_String (Selling offer) in
      require! bool_decide (s = sellingAssetString) else SellingAssetMismatch in
      verified tt
  | Some o =>
      require! Asset_Equals (Buying offer) (Buying o) else BuyingAssetMismatch in
      require! Asset_Equals (Selling offer) (Selling o) else SellingAssetMismatch in
      verified tt
  end.

(** [m[s]] of the map of names: 0 for an absent name. *)
Definition id_of (g : OrderBookGraph) (s : bytes) : Z := default 0 (assetStringToID g !! s).

(** The pool of the edge from [self] to [k]. *)
Definition check_pool (g : OrderBookGraph) (self k : Z) (p : liquidityPool) (cp : ConstantProductPool) :
    verifying unit :=
  do! _ :=
    (if assetA p =? self then
       require! assetB p =? k else PoolAssetBEdge in verified tt
     else if assetB p =? self then
       require! assetA p =? k else PoolAssetAEdge in verified tt
     else Some (Err PoolAssetsNotHere)) in
  let pair : tradingPair := (assetA p, assetB p) in
  let! _ := assertPoolsEqual (lp_entry p) (default zero_pool_entry (liquidityPools g !! pair)) in
  let! a := Asset_String (AssetA (Params cp)) in
  require! id_of g a =? buyingAsset pair else PoolAssetAID in
  let! b := Asset_String (AssetB (Params cp)) in
  require! id_of g b =? sellingAsset pair else PoolAssetBID in
  verified tt.

(** ** The selling table *)
Record verify_vars : Type := mkVerify {
  v_offers : list OfferEntry;
  v_pools : list LiquidityPoolEntry;
  poolSet : gmap bytes LiquidityPoolEntry;
  offerSet : gmap Z OfferEntry;
  vacantSet : gset Z
}.

Fixpoint sell_offers (g : OrderBookGraph) (self k : Z) (buyingAssetString sellingAssetString : bytes)
    (prev : option OfferEntry) (os : list OfferEntry) (v : verify_vars) : verifying verify_vars :=
  match os with
  | [] => verified v
  | offer :: os =>
      require! bool_decide (offerSet v !! OfferId offer = None) else OfferMoreThanOnce in
      let pair : tradingPair := default (0, 0) (tradingPairForOffer g !! OfferId offer) in
      require! sellingAsset pair =? self else PairSellingMismatch in
      require! buyingAsset pair =? k else PairBuyingMismatch in
      do! _ := check_offer_assets prev offer buyingAssetString sellingAssetString in
      sell_offers g self k buyingAssetString sellingAssetString (Some offer) os
        (mkVerify (v_offers v ++ [offer]) (v_pools v) (poolSet v)
           (<[OfferId offer := offer]> (offerSet v)) (vacantSet v))
  end.

Definition sell_pool (g : OrderBookGraph) (self k : Z) (p : liquidityPool) (v : verify_vars) :
    verifying verify_vars :=
  match ConstantProduct (Body (lp_entry p)) with
  | None => verified v
  | Some cp =>
      do! _ := check_pool g self k p cp in
      let id := vec_to_list (LiquidityPoolId (lp_entry p)) in
      verified (if bool_decide (poolSet v !! id = None) then
        mkVerify (v_offers v) (v_pools v ++ [lp_entry p]) (<[id := lp_entry p]> (poolSet v))
          (offerSet v) (vacantSet v)
        else v)
  end.

Fixpoint sell_edges (g : OrderBookGraph) (self : Z) (sellingAssetString : bytes) (edges : edgeSet)
    (v : verify_vars) : verifying verify_vars :=
  match edges with
  | [] => verified v
  | ed :: edges =>
      let! buyingAssetString := go_index (idToAssetString g) (key ed) in
      do! v := sell_offers g self (key ed) buyingAssetString sellingAssetString None (offers (value ed)) v in
      do! v := sell_pool g self (key ed) (pool (value ed)) v in
      sell_edges g self sellingAssetString edges v
  end.

Fixpoint sell_table (g : OrderBookGraph) (i : Z) (table : list edgeSet) (v : verify_vars) :
    verifying verify_vars :=
  match table with
  | [] => verified v
  | edges :: table =>
      let! sellingAssetString := go_index (idToAssetString g) i in
      if go_len sellingAssetString =? 0 then
        let v := mkVerify (v_offers v) (v_pools v) (poolSet v) (offerSet v) ({[i32 i]} ∪ vacantSet v) in
        if go_len edges =? 0 then sell_table g (i + 1) table v
        else Some (Err VacantIDWithEdges)
      else
        match assetStringToID g !! sellingAssetString with
        | None => Some (Err AssetNotInMap)
        | Some id =>
            require! id =? i32 i else AssetMapsElsewhere in
            do! v := sell_edges g (i32 i) sellingAssetString edges v in
            sell_table g (i + 1) table v
        end
  end.

(** ** The buying table *)
Fixpoint buy_offers (buyingAssetString sellingAssetString : bytes) (prev : option OfferEntry)
    (os : list OfferEntry) (set : gmap Z OfferEntry) : verifying (gmap Z OfferEntry) :=
  match os with
  | [] => verified set
  | offer :: os =>
      match set !! OfferId offer with
      | None => Some (Err OfferNotPresent)
      | Some o =>
          match assertOffersEqual o offer with
          | Some e => Some (Err (OffersDiffer e))
          | None =>
              do! _ := check_offer_assets prev offer buyingAssetString sellingAssetString in
              buy_offers buyingAssetString sellingAssetString (Some offer) os (delete (OfferId offer) set)
          end
      end
  end.

Definition buy_pool (g : OrderBookGraph) (self k : Z) (p : liquidityPool)
    (pools : gmap bytes LiquidityPoolEntry) : verifying unit :=
  match ConstantProduct (Body (lp_entry p)) with
  | None => verified tt
  | Some cp =>
      do! _ := check_pool g self k p cp in
      require! bool_decide (is_Some (pools !! vec_to_list (LiquidityPoolId (lp_entry p))))
        else PoolNotPresent in
      verified tt
  end.

Fixpoint buy_edges (g : OrderBookGraph) (self : Z) (buyingAssetString : bytes)
    (pools : gmap bytes LiquidityPoolEntry) (edges : edgeSet) (set : gmap Z OfferEntry) :
    verifying (gmap Z OfferEntry) :=
  match edges with
  | [] => verified set
  | ed :: edges =>
      let! sellingAssetString := go_index (idToAssetString g) (key ed) in
      do! set := buy_offers buyingAssetString sellingAssetString None (offers (value ed)) set in
      do! _ := buy_pool g self (key ed) (pool (value ed)) pools in
      buy_edges g self buyingAssetString pools edges set
  end.

Fixpoint buy_table (g : OrderBookGraph) (i : Z) (pools : gmap bytes LiquidityPoolEntry)
    (table : list edgeSet) (set : gmap Z OfferEntry) : verifying (gmap Z OfferEntry) :=
  match table with
  | [] => verified set
  | edges :: table =>
      let! buyingAssetString := go_index (idToAssetString g) i in
      if go_len buyingAssetString =? 0 then
        if go_len edges =? 0 then buy_table g (i + 1) pools table set
        else Some (Err VacantIDWithEdges)
      else
        do! set := buy_edges g (i32 i) buyingAssetString pools edges set in
        buy_table g (i + 1) pools table set
  end.

(** ** The whole check *)
Definition Verify (g : OrderBookGraph) : verifying (list OfferEntry * list LiquidityPoolEntry) :=
  require! go_len (venuesForSellingAsset g) =? go_len (venuesForBuyingAsset g) else SellingBuyingLengths in
  require! go_len (venuesForSellingAsset g) =? go_len (idToAssetString g) else SellingNamesLengths in
  do! v := sell_table g 0 (venuesForSellingAsset g) (mkVerify [] [] ∅ ∅ ∅) in
  require! Z.of_nat (size (offerSet v)) =? Z.of_nat (size (tradingPairForOffer g)) else OfferCountMismatch in
  do! rest := buy_table g 0 (poolSet v) (venuesForBuyingAsset g) (offerSet v) in
  require! Z.of_nat (size rest) =? 0 else OffersNotMatched in
  require! go_len (vacantIDs g) =? Z.of_nat (size (vacantSet v)) else VacantMismatch in
  require! forallb (fun vacantID => bool_decide (vacantID ∈ vacantSet v)) (vacantIDs g) else VacantMismatch in
  verified (v_offers v, v_pools v).
