(* ===== verification/VerifySpec.v ===== *)
(** * The self-check accepts what the operations build

    [Verify] returns the offers and pools of every graph that represents an order
    book; and whatever graph it accepts has two tables that hold the same offers,
    each filed under its own assets. *)
From Stdlib Require Import ZArith Lia.
From stdpp Require Import base list vector option gmap sorting.
From S2P Require Import Prelude GoStd GoExt Price Encodings Strkey Asset Pools Edges Graph Tables GraphInv GraphSpec Verify.
#[local] Open Scope Z_scope.
#[local] Open Scope go_scope.

Definition edge_offers (es : edgeSet) : list OfferEntry := flat_map (fun ed => offers (value ed)) es.
Definition table_offers (t : list edgeSet) : list OfferEntry := flat_map edge_offers t.

Lemma check_offer_assets_ok prev o :
  (forall p, prev = Some p -> Buying p = Buying o /\ Selling p = Selling o) ->
  check_offer_assets prev o (asset_name (Buying o)) (asset_name (Selling o)) = verified tt.
Proof.
  intros H. unfold check_offer_assets. destruct prev as [p|].
  - destruct (H p eq_refl) as [-> ->]. by rewrite !Asset_Equals_spec, !bool_decide_eq_true_2.
  - by rewrite !Asset_String_name, !bool_decide_eq_true_2.
Qed.

Lemma assertOffersEqual_refl o : assertOffersEqual o o = None.
Proof.
  unfold assertOffersEqual. rewrite !Asset_Equals_spec, !bool_decide_eq_true_2, Z.eqb_refl by done. done.
Qed.

(** A map from ids that holds exactly the listed offers. *)
Definition holds (S : gmap Z OfferEntry) (l : list OfferEntry) : Prop :=
  forall i o, S !! i = Some o <-> o ∈ l /\ OfferId o = i.

Lemma holds_insert S l o :
  holds S l -> OfferId o ∉ map OfferId l -> holds (<[OfferId o := o]> S) (l ++ [o]).
Proof.
  intros H Hn i o'. rewrite lookup_insert_Some, elem_of_app, list_elem_of_singleton, (H i o'). split.
  - intros [[<- <-]|[Hne [Ho Hi]]]; auto.
  - intros [[Ho| ->] Hi]; [|by left]. right. split; [|done]. intros E. apply Hn.
    apply list_elem_of_fmap. exists o'. split; [congruence|done].
Qed.

Lemma holds_fresh S l i : holds S l -> i ∉ map OfferId l -> S !! i = None.
Proof.
  intros H Hn. destruct (S !! i) as [o|] eqn:E; [|done]. exfalso. apply H in E as [Ho <-].
  apply Hn, list_elem_of_fmap. by exists o.
Qed.

Section Represented.
Context (g : OrderBookGraph) (O : offer_map) (P : pool_map) (R : repr g O P).
Context (Hcap : go_len (idToAssetString g) <= MaxInt32).

(** Both tables, with the asset an entry and an edge of theirs stand for. *)
Record table_ok (t : list edgeSet) (self other : OfferEntry -> Asset) : Prop := {
  to_wf : wf_table t;
  to_len : go_len t = go_len (idToAssetString g);
  to_offers a k o : o ∈ offers (venue t a k) ->
    O !! OfferId o = Some o /\ named g a (self o) /\ named g k (other o);
  to_nodup a k : NoDup (map OfferId (offers (venue t a k)));
  to_all i o : O !! i = Some o -> OfferId o = i /\ exists a k, o ∈ offers (venue t a k);
  to_pool a k : pool (venue t a k) = expected_pool (liquidityPools g) a k
}.

Lemma sell_table_ok : table_ok (venuesForSellingAsset g) Selling Buying.
Proof.
  split.
  - apply (r_sell _ _ _ R).
  - apply (ido_selling g (r_ids _ _ _ R)).
  - intros a k o Ho. by apply (r_offers _ _ _ R) in Ho.
  - intros a k. apply (r_offers _ _ _ R).
  - intros i o Ho. destruct (r_offer_named _ _ _ _ _ R Ho) as (b & s & Hb & Hs).
    destruct (r_offer_in _ _ _ _ _ _ _ R Ho Hb Hs) as (H1 & _ & H3). eauto.
  - intros a k. apply (r_pools _ _ _ R).
Qed.

Lemma buy_table_ok : table_ok (venuesForBuyingAsset g) Buying Selling.
Proof.
  split.
  - apply (r_buy _ _ _ R).
  - apply (ido_buying g (r_ids _ _ _ R)).
  - intros a k o Ho. rewrite (proj1 (r_offers _ _ _ R k a)) in Ho.
    apply (r_offers _ _ _ R) in Ho. tauto.
  - intros a k. rewrite (proj1 (r_offers _ _ _ R k a)). apply (r_offers _ _ _ R).
  - intros i o Ho. destruct (r_offer_named _ _ _ _ _ R Ho) as (b & s & Hb & Hs).
    destruct (r_offer_in _ _ _ _ _ _ _ R Ho Hb Hs) as (_ & H2 & H3). eauto.
  - intros a k. apply (r_pools _ _ _ R).
Qed.

Section Table.
Context (t : list edgeSet) (self other : OfferEntry -> Asset) (T : table_ok t self other).

Lemma entry_venue a e j ed :
  go_index t a = Some e -> e !! j = Some ed -> value ed = venue t a (key ed) /\ NoDup (edge_keys e).
Proof.
  intros Ha Hj. apply go_index_Some in Ha as Ha'. destruct Ha' as [_ Ha'].
  pose proof (Forall_lookup_1 _ _ _ _ (to_wf _ _ _ T) Ha') as [HN _]. split; [|done].
  unfold venue. rewrite (edges_at_Some _ _ e) by done.
  unfold venues_or_empty. by rewrite (edge_map_lookup e (key ed) j ed).
Qed.

Lemma entry_ids a e : go_index t a = Some e -> NoDup (map OfferId (edge_offers e)).
Proof.
  intros Ha. unfold edge_offers. rewrite flat_map_concat_map, concat_map, map_map, <- flat_map_concat_map.
  apply NoDup_flat_map.
  - intros ed Hed. apply list_elem_of_lookup in Hed as [j Hj].
    rewrite (proj1 (entry_venue _ _ _ _ Ha Hj)). apply (to_nodup _ _ _ T).
  - intros j k x y i Hj Hk Hx Hy. destruct (entry_venue _ _ _ _ Ha Hj) as [Ex HN].
    rewrite Ex in Hx. rewrite (proj1 (entry_venue _ _ _ _ Ha Hk)) in Hy.
    apply list_elem_of_fmap in Hx as (o & -> & Hx), Hy as (o' & Ei & Hy).
    apply (to_offers _ _ _ T) in Hx as (Ho & _ & Hx), Hy as (Ho' & _ & Hy).
    assert (o = o') as <- by (rewrite Ei in Ho; congruence).
    eapply NoDup_lookup; [exact HN|by apply edge_keys_lookup|].
    rewrite (named_id _ _ _ _ (r_ids _ _ _ R) Hx Hy). by apply edge_keys_lookup.
Qed.

Lemma entry_offer a e o :
  go_index t a = Some e -> o ∈ edge_offers e -> O !! OfferId o = Some o /\ named g a (self o).
Proof.
  intros Ha Ho. apply list_elem_of_In, in_flat_map in Ho as (ed & Hed & Ho).
  apply list_elem_of_In, list_elem_of_lookup in Hed as [j Hj]. apply list_elem_of_In in Ho.
  rewrite (proj1 (entry_venue _ _ _ _ Ha Hj)) in Ho. by apply (to_offers _ _ _ T) in Ho as (? & ? & _).
Qed.

Lemma table_ids : NoDup (map OfferId (table_offers t)).
Proof.
  unfold table_offers. rewrite flat_map_concat_map, concat_map, map_map, <- flat_map_concat_map.
  assert (HI : forall i e, t !! i = Some e -> go_index t (Z.of_nat i) = Some e).
  { intros i e He. apply go_index_Some. split; [lia|]. by rewrite Nat2Z.id. }
  apply NoDup_flat_map.
  - intros e He. apply list_elem_of_lookup in He as [i Hi]. by eapply entry_ids, HI.
  - intros i j e e' x Hi Hj Hx Hy.
    apply list_elem_of_fmap in Hx as (o & -> & Hx), Hy as (o' & Ei & Hy).
    apply (entry_offer _ _ _ (HI _ _ Hi)) in Hx as [Ho Hs]. apply (entry_offer _ _ _ (HI _ _ Hj)) in Hy as [Ho' Hs'].
    assert (o = o') as <- by (rewrite Ei in Ho; congruence).
    pose proof (named_id _ _ _ _ (r_ids _ _ _ R) Hs Hs'). lia.
Qed.

Lemma table_elem o : o ∈ table_offers t <-> O !! OfferId o = Some o.
Proof.
  unfold table_offers. rewrite list_elem_of_In, in_flat_map. split.
  - intros (e & He & Ho). apply list_elem_of_In, list_elem_of_lookup in He as [i Hi].
    apply list_elem_of_In in Ho. apply (entry_offer (Z.of_nat i) e o); [|done].
    apply go_index_Some. split; [lia|]. by rewrite Nat2Z.id.
  - intros Ho. apply (to_all _ _ _ T) in Ho as (_ & a & k & Hin).
    unfold venue, edges_at in Hin. destruct (go_index t a) as [e|] eqn:He; [|by apply elem_of_nil in Hin].
    unfold venues_or_empty in Hin. destruct (edge_map e !! k) as [v|] eqn:Ev; [|by apply elem_of_nil in Hin].
    apply go_index_Some in He as [_ He]. exists e. split; [apply list_elem_of_In; by eapply list_elem_of_lookup_2|].
    unfold edge_map in Ev. apply elem_of_list_to_map_2, list_elem_of_In, in_map_iff in Ev as (ed & [= _ <-] & Hed).
    apply in_flat_map. exists ed. split; [done|]. by apply list_elem_of_In.
Qed.

(** What an edge of the entry [a] has. *)
Definition good_edge (a : Z) (ed : edge) : Prop :=
  exists s, go_index (idToAssetString g) (key ed) = Some s /\
    (forall o, o ∈ offers (value ed) -> O !! OfferId o = Some o /\ named g a (self o) /\ asset_name (other o) = s) /\
    pool (value ed) = expected_pool (liquidityPools g) a (key ed).

Lemma entry_good a e :
  go_index t a = Some e -> (e <> [] -> exists x, named g a x) /\ forall ed, ed ∈ e -> good_edge a ed.
Proof.
  intros Ha.
  assert (HG : forall j ed, e !! j = Some ed -> good_edge a ed /\ exists x, named g a x).
  { intros j ed Hj. destruct (entry_venue _ _ _ _ Ha Hj) as [Ev HN].
    pose proof (to_pool _ _ _ T a (key ed)) as HP. rewrite <- Ev in HP.
    assert (HO : forall o, o ∈ offers (value ed) -> O !! OfferId o = Some o /\ named g a (self o) /\ named g (key ed) (other o))
      by (intros o; rewrite Ev; apply (to_offers _ _ _ T)).
    assert (HL : live (value ed)).
    { pose proof Ha as Ha'. apply go_index_Some in Ha' as [_ Ha'].
      pose proof (Forall_lookup_1 _ _ _ _ (to_wf _ _ _ T) Ha') as [_ HV].
      by destruct (HV _ _ (edge_map_lookup e (key ed) j ed HN Hj eq_refl)). }
    destruct HL as [HL|HL].
    - destruct (offers (value ed)) as [|o os] eqn:E; [done|].
      destruct (HO o ltac:(by left)) as (_ & H1 & H2). split; [|by exists (self o)].
      exists (asset_name (other o)). split; [exact H2|]. split; [|done]. rewrite E.
      intros o' Ho'. destruct (HO o' Ho') as (H3 & H4 & H5). unfold named in H2, H5. split_and!; [done|done|congruence].
    - unfold venue_pool in HL. rewrite HP in HL.
      assert (HN2 : exists x y, named g a x /\ named g (key ed) y).
      { unfold expected_pool in HL.
        destruct (liquidityPools g !! (a, key ed)) as [p|] eqn:E1; [|destruct (liquidityPools g !! (key ed, a)) as [p|] eqn:E2; [|done]].
        - apply (r_lp _ _ _ R) in E1 as (cp & _ & H1 & H2 & _). eauto.
        - apply (r_lp _ _ _ R) in E2 as (cp & _ & H1 & H2 & _). eauto. }
      destruct HN2 as (x & y & Hx & Hy). split; [|by exists x]. exists (asset_name y). split; [exact Hy|].
      split; [|done]. intros o Ho. destruct (HO o Ho) as (H3 & H4 & H5). unfold named in Hy, H5.
      split_and!; [done|done|congruence]. }
  split.
  - intros Hne. destruct e as [|ed e]; [done|]. by destruct (HG 0%nat ed eq_refl).
  - intros ed Hed. apply list_elem_of_lookup in Hed as [j Hj]. by destruct (HG j ed Hj).
Qed.
End Table.

(** The pools of both tables. *)
Definition pool_id (p : LiquidityPoolEntry) : bytes := vec_to_list (LiquidityPoolId p).

Lemma id_of_named a x : named g a x -> id_of g (asset_name x) = a.
Proof. intros H%(named_lookup g a x (r_ids _ _ _ R)). unfold id_of. by rewrite H. Qed.

Lemma assertPoolsEqual_runs p cp : pool_of p cp -> exists e, assertPoolsEqual p p = Some e.
Proof.
  intros H%pool_of_MustConstantProduct. unfold assertPoolsEqual. rewrite H. case_match; by eexists.
Qed.

Lemma check_pool_ok a k cp :
  ConstantProduct (Body (lp_entry (expected_pool (liquidityPools g) a k))) = Some cp ->
  check_pool g a k (expected_pool (liquidityPools g) a k) cp = verified tt /\
  exists x y, liquidityPools g !! (x, y) = Some (lp_entry (expected_pool (liquidityPools g) a k)) /\
    ((x = a /\ y = k) \/ (x = k /\ y = a)).
Proof.
  unfold expected_pool.
  assert (HC : forall x y p, liquidityPools g !! (x, y) = Some p -> ConstantProduct (Body p) = Some cp ->
    (let! _ := assertPoolsEqual p (default zero_pool_entry (liquidityPools g !! (x, y))) in
     let! sa := Asset_String (AssetA (Params cp)) in
     require! id_of g sa =? x else PoolAssetAID in
     let! sb := Asset_String (AssetB (Params cp)) in
     require! id_of g sb =? y else PoolAssetBID in verified tt) = verified tt).
  { intros x y p E Hcp. rewrite E. apply (r_lp _ _ _ R) in E as (cp' & Hp & Hx & Hy & _).
    assert (cp' = cp) as -> by (destruct Hp as [_ Hp]; congruence).
    simpl default. destruct (assertPoolsEqual_runs p cp Hp) as [e ->].
    by rewrite !Asset_String_name, (id_of_named _ _ Hx), (id_of_named _ _ Hy), !Z.eqb_refl. }
  destruct (liquidityPools g !! (a, k)) as [p|] eqn:E1; [|destruct (liquidityPools g !! (k, a)) as [p|] eqn:E2; [|done]];
    cbn [lp_entry]; intros Hcp.
  - split; [|exists a, k; auto]. unfold check_pool. cbn [assetA assetB lp_entry]. rewrite !Z.eqb_refl.
    cbn [verify_bind verified]. by apply HC.
  - split; [|exists k, a; auto]. unfold check_pool. cbn [assetA assetB lp_entry]. rewrite !Z.eqb_refl.
    destruct (Z.eqb_spec k a) as [->|]; rewrite ?Z.eqb_refl; cbn [verify_bind verified]; by apply HC.
Qed.

(** ** The selling table is accepted *)
Record pools_inv (v : verify_vars) : Prop := {
  pi_listed p : p ∈ v_pools v -> exists x y, liquidityPools g !! (x, y) = Some p;
  pi_set i : is_Some (poolSet v !! i) <-> i ∈ map pool_id (v_pools v);
  pi_ids : NoDup (map pool_id (v_pools v))
}.

(** From [v] to [v']: more offers and pools, the same vacant ids. *)
Record extends (v v' : verify_vars) (os : list OfferEntry) : Prop := {
  ex_offers : v_offers v' = v_offers v ++ os;
  ex_holds : holds (offerSet v') (v_offers v');
  ex_vacant : vacantSet v' = vacantSet v;
  ex_inv : pools_inv v';
  ex_pools i : is_Some (poolSet v !! i) -> is_Some (poolSet v' !! i)
}.

Lemma sell_offers_ok self k bs ss prev os v :
  holds (offerSet v) (v_offers v) -> pools_inv v -> NoDup (map OfferId (v_offers v ++ os)) ->
  (forall o, o ∈ os -> tradingPairForOffer g !! OfferId o = Some (k, self) /\
     bs = asset_name (Buying o) /\ ss = asset_name (Selling o)) ->
  (forall p, prev = Some p -> bs = asset_name (Buying p) /\ ss = asset_name (Selling p)) ->
  exists v', sell_offers g self k bs ss prev os v = verified v' /\ extends v v' os.
Proof.
  revert prev v. induction os as [|o os IH]; intros prev v HH HP HN Hos Hprev; cbn [sell_offers].
  - exists v. split; [done|]. split; try done. by rewrite app_nil_r.
  - rewrite map_app, NoDup_app in HN. destruct HN as (HN1 & HN2 & HN3). cbn [map] in HN2, HN3.
    assert (Hf : OfferId o ∉ map OfferId (v_offers v)) by (intros H; apply (HN2 _ H); by left).
    rewrite (holds_fresh _ _ _ HH Hf), bool_decide_eq_true_2 by done.
    destruct (Hos o ltac:(by left)) as (-> & Hb & Hs). cbn [default from_option Datatypes.id fst snd].
    rewrite !Z.eqb_refl.
    assert (HC : check_offer_assets prev o bs ss = verified tt).
    { rewrite Hb, Hs. apply check_offer_assets_ok. intros p Hp. apply Hprev in Hp as [Hpb Hps].
      split; apply (inj asset_name); congruence. }
    rewrite HC.
    cbn [verify_bind verified].
    set (v1 := mkVerify _ _ _ _ _).
    destruct (IH (Some o) v1) as (v' & -> & X); cbn.
    + by apply holds_insert.
    + destruct HP. by split.
    + rewrite <- app_assoc. cbn. rewrite map_app, NoDup_app. done.
    + intros o' Ho'. apply Hos. by right.
    + by intros p [= <-].
    + exists v'. split; [done|]. destruct X as [X1 X2 X3 X4 X5]. cbn in *. split; try done.
      by rewrite X1, <- app_assoc.
Qed.

Lemma sell_pool_ok self k v :
  holds (offerSet v) (v_offers v) -> pools_inv v ->
  let p := expected_pool (liquidityPools g) self k in
  exists v', sell_pool g self k p v = verified v' /\ extends v v' [] /\
    (ConstantProduct (Body (lp_entry p)) <> None -> is_Some (poolSet v' !! pool_id (lp_entry p))).
Proof.
  intros HH HP p. unfold sell_pool. destruct (ConstantProduct _) as [cp|] eqn:Hcp.
  - subst p. destruct (check_pool_ok _ _ _ Hcp) as [-> (x & y & E & _)]. set (p := expected_pool _ self k) in *.
    cbn [verify_bind verified]. fold (pool_id (lp_entry p)).
    destruct (poolSet v !! pool_id (lp_entry p)) as [q|] eqn:Eq.
    + rewrite bool_decide_eq_false_2 by done. exists v. split; [done|].
      split; [split; try done; by rewrite app_nil_r|]. intros _. by exists q.
    + rewrite bool_decide_eq_true_2 by done. eexists. split; [done|].
      split; [|intros _; cbn; rewrite lookup_insert_eq; by eexists].
      split; cbn; try done; [by rewrite app_nil_r| |].
      * split; cbn.
        -- intros q [Hq|Hq]%elem_of_app; [by apply (pi_listed v HP)|].
           apply list_elem_of_singleton in Hq as ->. by exists x, y.
        -- intros i. rewrite map_app, elem_of_app, <- (pi_set v HP). cbn [map]. rewrite list_elem_of_singleton.
           rewrite lookup_insert_is_Some. destruct (decide (pool_id (lp_entry p) = i)); naive_solver.
        -- rewrite map_app. apply NoDup_app. split; [apply (pi_ids v HP)|].
           split; [|apply NoDup_singleton]. intros i Hi. apply (pi_set v HP) in Hi as [q Hq].
           cbn [map]. rewrite list_elem_of_singleton. intros ->. congruence.
      * intros i [q Hq]. rewrite lookup_insert_is_Some. destruct (decide (pool_id (lp_entry p) = i)); [by left|right].
        split; [done|by exists q].
  - exists v. split; [done|]. split; [split; try done; by rewrite app_nil_r|done].
Qed.

Lemma extends_trans v1 v2 v3 os os' : extends v1 v2 os -> extends v2 v3 os' -> extends v1 v3 (os ++ os').
Proof.
  intros [A1 A2 A3 A4 A5] [B1 B2 B3 B4 B5]. split; try done; [|congruence|auto].
  by rewrite B1, A1, <- app_assoc.
Qed.

Abbreviation listed v p := (is_Some (poolSet v !! pool_id (lp_entry p))).
Abbreviation has_pool ed := (ConstantProduct (Body (lp_entry (pool (value ed)))) <> None).

Lemma sell_edges_ok a ss edges v :
  holds (offerSet v) (v_offers v) -> pools_inv v ->
  NoDup (map OfferId (v_offers v ++ edge_offers edges)) -> go_index (idToAssetString g) a = Some ss ->
  (forall ed, ed ∈ edges -> good_edge Selling Buying a ed) ->
  exists v', sell_edges g a ss edges v = verified v' /\ extends v v' (edge_offers edges) /\
    forall ed, ed ∈ edges -> has_pool ed -> listed v' (pool (value ed)).
Proof.
  intros HH HP HN Ha. revert v HH HP HN. induction edges as [|ed edges IH]; intros v HH HP HN HG; cbn [sell_edges].
  - exists v. split; [done|]. split; [split; try done; by rewrite app_nil_r|]. by intros ed ?%elem_of_nil.
  - destruct (HG ed ltac:(by left)) as (bs & Hk & Ho & Hpool). rewrite Hk.
    cbn [edge_offers flat_map] in HN. fold (edge_offers edges) in HN. rewrite app_assoc in HN.
    destruct (sell_offers_ok a (key ed) bs ss None (offers (value ed)) v HH HP) as (v1 & -> & X1).
    + rewrite map_app, NoDup_app in HN. tauto.
    + intros o Hin. destruct (Ho o Hin) as (H1 & H2 & H3). split; [|unfold named in H2; split; congruence].
      apply (r_pairs _ _ _ R). exists o. split; [done|]. split; [|done]. unfold named. by rewrite Hk, H3.
    + done.
    + cbn [verify_bind verified]. rewrite Hpool.
      destruct (sell_pool_ok a (key ed) v1 (ex_holds _ _ _ X1) (ex_inv _ _ _ X1)) as (v2 & -> & X2 & HL).
      cbn [verify_bind verified]. pose proof (extends_trans _ _ _ _ _ X1 X2) as X12. rewrite app_nil_r in X12.
      destruct (IH v2 (ex_holds _ _ _ X2) (ex_inv _ _ _ X2)) as (v3 & -> & X3 & HL3).
      * by rewrite (ex_offers _ _ _ X12).
      * intros ed' Hed'. apply HG. by right.
      * exists v3. split; [done|]. split; [by apply (extends_trans _ v2)|].
        intros ed' [->|Hed']%elem_of_cons Hp; [|by apply HL3].
        apply (ex_pools _ _ _ X3). rewrite Hpool in Hp |- *. by apply HL.
Qed.

Lemma name_nonempty a s x : go_index (idToAssetString g) a = Some s -> named g a x -> go_len s <> 0.
Proof.
  unfold named. intros Hs Hx. assert (s = asset_name x) as -> by congruence.
  pose proof (asset_name_nonempty x). destruct (asset_name x); [done|]. unfold go_len. simpl. lia.
Qed.

(** The entries of a table from [i] on. *)
Definition suffix_of (t : list edgeSet) (i : Z) (ts : list edgeSet) : Prop :=
  0 <= i /\ go_len t = i + go_len ts /\
  forall j e, ts !! j = Some e -> go_index t (i + Z.of_nat j) = Some e.

Lemma suffix_self t : suffix_of t 0 t.
Proof.
  split; [done|]. split; [done|]. intros j e He. apply go_index_Some.
  split; [lia|]. by rewrite Z.add_0_l, Nat2Z.id.
Qed.

Lemma suffix_cons t i e ts : suffix_of t i (e :: ts) ->
  go_index t i = Some e /\ suffix_of t (i + 1) ts.
Proof.
  intros (Hi & Hl & H). split; [rewrite <- (Z.add_0_r i); by apply (H 0%nat)|].
  split; [lia|]. split; [unfold go_len in *; simpl length in Hl; lia|].
  intros j e' He'. rewrite <- (H (S j) e') by done. f_equal. lia.
Qed.

Lemma sell_table_accepts ts i v :
  suffix_of (venuesForSellingAsset g) i ts -> holds (offerSet v) (v_offers v) -> pools_inv v ->
  NoDup (map OfferId (v_offers v ++ table_offers ts)) ->
  exists v', sell_table g i ts v = verified v' /\ v_offers v' = v_offers v ++ table_offers ts /\
    holds (offerSet v') (v_offers v') /\ pools_inv v' /\
    (forall x, is_Some (poolSet v !! x) -> is_Some (poolSet v' !! x)) /\
    (forall e ed, e ∈ ts -> ed ∈ e -> has_pool ed -> listed v' (pool (value ed))) /\
    forall x, x ∈ vacantSet v' <-> x ∈ vacantSet v \/ (i <= x /\ go_index (idToAssetString g) x = Some []).
Proof.
  revert i v. induction ts as [|e ts IH]; intros i v HS HH HP HN; cbn [sell_table].
  - exists v. split_and!; try done; [by rewrite app_nil_r|by intros e ed ?%elem_of_nil|].
    intros x. split; [auto|]. intros [H|[H1 H2%go_index_range]]; [done|].
    destruct HS as (_ & HS & _). rewrite (to_len _ _ _ sell_table_ok) in HS. unfold go_len in *. simpl in HS. lia.
  - apply suffix_cons in HS as [He HS]. pose proof (go_index_range _ _ _ He) as Hir.
    rewrite (to_len _ _ _ sell_table_ok) in Hir. destruct (go_index_lt (idToAssetString g) i Hir) as [ss Hss].
    rewrite Hss. rewrite (i32_id i) by (unfold is_i32; lia).
    destruct (entry_good _ _ _ sell_table_ok i e He) as [Hne Hgood].
    assert (HV : forall x, i <= x /\ go_index (idToAssetString g) x = Some [] <->
      (x = i /\ ss = []) \/ (i + 1 <= x /\ go_index (idToAssetString g) x = Some [])).
    { intros x. destruct (decide (x = i)) as [->|Hx]; [rewrite Hss|].
      - split; [intros [_ [= ->]]; by left|]. intros [[_ ->]|[Hl _]]; [done|lia].
      - split; [intros [Hl H]; right; split; [lia|done]|].
        intros [[H _]|[Hl H]]; [done|]. split; [lia|done]. }
    destruct (Z.eqb_spec (go_len ss) 0) as [E0|E0].
    + assert (ss = []) as -> by (destruct ss; [done|unfold go_len in E0; simpl in E0; lia]).
      destruct e as [|ed e]; [|exfalso; destruct Hne as [x Hx]; [done|exact (name_nonempty i [] x Hss Hx eq_refl)]]. simpl go_len.
      change (go_len (@nil edge) =? 0) with true. cbv iota.
      destruct (IH (i + 1) (mkVerify (v_offers v) (v_pools v) (poolSet v) (offerSet v) ({[i]} ∪ vacantSet v)))
        as (v' & -> & H1 & H2 & H3 & H4 & H5 & H6); try done; [by destruct HP|].
      exists v'. split_and!; try done.
      * intros e ed [->|He']%elem_of_cons Hed; [by apply elem_of_nil in Hed|by eapply H5].
      * intros x. rewrite H6, HV. cbn [vacantSet]. rewrite elem_of_union, elem_of_singleton. tauto.
    + assert (Hid : assetStringToID g !! ss = Some i)
        by (apply (ido_map g (r_ids _ _ _ R)); split; [by intros ->|done]).
      rewrite Hid, Z.eqb_refl. cbn [table_offers flat_map] in HN |- *. fold (table_offers ts) in HN |- *.
      rewrite app_assoc in HN.
      destruct (sell_edges_ok i ss e v HH HP) as (v1 & -> & X & HL); [|done|done|].
      { rewrite map_app, NoDup_app in HN. tauto. }
      cbn [verify_bind verified].
      destruct (IH (i + 1) v1) as (v' & -> & H1 & H2 & H3 & H4 & H5 & H6);
        [done|apply X|apply X|by rewrite (ex_offers _ _ _ X)|].
      exists v'. split_and!; try done.
      * by rewrite H1, (ex_offers _ _ _ X), <- app_assoc.
      * intros x Hx. by apply H4, (ex_pools _ _ _ X).
      * intros e' ed [->|He']%elem_of_cons Hed Hp; [|by eapply H5]. by apply H4, HL.
      * intros x. rewrite H6, HV, (ex_vacant _ _ _ X). split; [intuition|].
        intros [Hx|[[-> ->]|Hx]]; [by left|done|by right].
Qed.

(** ** The buying table is accepted *)
Lemma buy_offers_ok bs ss prev os S l :
  holds S (os ++ l) -> NoDup (map OfferId (os ++ l)) ->
  (forall o, o ∈ os -> bs = asset_name (Buying o) /\ ss = asset_name (Selling o)) ->
  (forall p, prev = Some p -> bs = asset_name (Buying p) /\ ss = asset_name (Selling p)) ->
  exists S', buy_offers bs ss prev os S = verified S' /\ holds S' l.
Proof.
  revert prev S. induction os as [|o os IH]; intros prev S HH HN Hos Hprev; cbn [buy_offers]; [by exists S|].
  assert (S !! OfferId o = Some o) as -> by (apply HH; split; [by left|done]).
  rewrite assertOffersEqual_refl. destruct (Hos o ltac:(by left)) as [Hb Hs].
  assert (HC : check_offer_assets prev o bs ss = verified tt).
  { rewrite Hb, Hs. apply check_offer_assets_ok. intros p Hp. apply Hprev in Hp as [Hpb Hps].
    split; apply (inj asset_name); congruence. }
  rewrite HC. cbn [verify_bind verified]. cbn [app map] in HN. apply NoDup_cons in HN as [HN1 HN2].
  apply IH; [|done|intros o' Ho'; apply Hos; by right|by intros p [= <-]].
  intros i o'. rewrite lookup_delete_Some, (HH i o'). cbn [app]. rewrite elem_of_cons. split.
  - intros [Hne [[->|Ho] Hi]]; [congruence|done].
  - intros [Ho Hi]. split; [|auto]. intros E. apply HN1. apply list_elem_of_fmap. exists o'. split; [congruence|done].
Qed.

Lemma buy_edges_ok a bs pools edges S l :
  holds S (edge_offers edges ++ l) -> NoDup (map OfferId (edge_offers edges ++ l)) ->
  go_index (idToAssetString g) a = Some bs ->
  (forall ed, ed ∈ edges -> good_edge Buying Selling a ed) ->
  (forall ed, ed ∈ edges -> has_pool ed -> is_Some (pools !! pool_id (lp_entry (pool (value ed))))) ->
  exists S', buy_edges g a bs pools edges S = verified S' /\ holds S' l.
Proof.
  intros HH HN Ha. revert S HH HN. induction edges as [|ed edges IH]; intros S HH HN HG HP; cbn [buy_edges]; [by exists S|].
  destruct (HG ed ltac:(by left)) as (ss & Hk & Ho & Hpool). rewrite Hk.
  cbn [edge_offers flat_map] in HH, HN. fold (edge_offers edges) in HH, HN. rewrite <- app_assoc in HH, HN.
  destruct (buy_offers_ok bs ss None (offers (value ed)) S _ HH HN) as (S1 & -> & H1).
  - intros o Hin. destruct (Ho o Hin) as (_ & H2 & H3). unfold named in H2. split; congruence.
  - done.
  - cbn [verify_bind verified]. unfold buy_pool. specialize (HP ed ltac:(by left)) as HPe.
    rewrite Hpool in HPe |- *.
    assert (HB : match ConstantProduct (Body (lp_entry (expected_pool (liquidityPools g) a (key ed)))) with
      | Some cp => do! _ := check_pool g a (key ed) (expected_pool (liquidityPools g) a (key ed)) cp in
          require! bool_decide (is_Some (pools !! vec_to_list (LiquidityPoolId
            (lp_entry (expected_pool (liquidityPools g) a (key ed)))))) else PoolNotPresent in verified tt
      | None => verified tt end = verified tt).
    { destruct (ConstantProduct _) as [cp|] eqn:Hcp; [|done]. destruct (check_pool_ok _ _ _ Hcp) as [-> _].
      cbn [verify_bind verified]. by rewrite bool_decide_eq_true_2 by (by apply HPe). }
    rewrite HB. cbn [verify_bind verified]. apply IH; [done| | |].
    + rewrite map_app, NoDup_app in HN. tauto.
    + intros ed' Hed'. apply HG. by right.
    + intros ed' Hed'. apply HP. by right.
Qed.

Lemma buy_table_accepts pools ts i S l :
  suffix_of (venuesForBuyingAsset g) i ts -> holds S (table_offers ts ++ l) ->
  NoDup (map OfferId (table_offers ts ++ l)) ->
  (forall e ed, e ∈ ts -> ed ∈ e -> has_pool ed -> is_Some (pools !! pool_id (lp_entry (pool (value ed))))) ->
  exists S', buy_table g i pools ts S = verified S' /\ holds S' l.
Proof.
  revert i S. induction ts as [|e ts IH]; intros i S HS HH HN HP; cbn [buy_table]; [by exists S|].
  apply suffix_cons in HS as [He HS]. pose proof (go_index_range _ _ _ He) as Hir.
  rewrite (to_len _ _ _ buy_table_ok) in Hir. destruct (go_index_lt (idToAssetString g) i Hir) as [bs Hbs].
  rewrite Hbs. rewrite (i32_id i) by (unfold is_i32; lia).
  destruct (entry_good _ _ _ buy_table_ok i e He) as [Hne Hgood].
  cbn [table_offers flat_map] in HH, HN. fold (table_offers ts) in HH, HN. rewrite <- app_assoc in HH, HN.
  assert (HP' : forall e' ed, e' ∈ ts -> ed ∈ e' -> has_pool ed ->
    is_Some (pools !! pool_id (lp_entry (pool (value ed))))) by (intros e' ed He'; apply HP; by right).
  destruct (Z.eqb_spec (go_len bs) 0) as [E0|E0].
  - assert (bs = []) as -> by (destruct bs; [done|unfold go_len in E0; simpl in E0; lia]).
    destruct e as [|ed e]; [|exfalso; destruct Hne as [x Hx]; [done|exact (name_nonempty i [] x Hbs Hx eq_refl)]].
    change (go_len (@nil edge) =? 0) with true. cbv iota. by apply IH.
  - destruct (buy_edges_ok i bs pools e S (table_offers ts ++ l)) as (S1 & -> & H1); try done.
    + intros ed Hed. apply (HP e); [by left|done].
    + cbn [verify_bind verified]. apply IH; try done. rewrite map_app, NoDup_app in HN. tauto.
Qed.

(** ** The final counts *)
Lemma pool_has_edge t self other x y p :
  table_ok t self other -> liquidityPools g !! (x, y) = Some p ->
  exists e ed, e ∈ t /\ ed ∈ e /\ lp_entry (pool (value ed)) = p /\ has_pool ed.
Proof.
  intros T Hp. pose proof (expected_pool_live g O P x y p R Hp) as (E1 & _ & HC).
  pose proof (to_pool _ _ _ T x y) as HP. rewrite E1 in HP.
  pose proof (edges_at_lookup t x y (to_wf _ _ _ T)) as HL.
  rewrite decide_True in HL by (right; unfold venue_pool; by rewrite HP).
  unfold edges_at in HL. destruct (go_index t x) as [e|] eqn:He; [|by rewrite lookup_empty in HL].
  unfold edge_map in HL. apply elem_of_list_to_map_2, list_elem_of_In, in_map_iff in HL as (ed & Eed & Hed).
  injection Eed as _ Ev. exists e, ed. apply go_index_Some in He as [_ He].
  split; [by eapply list_elem_of_lookup_2|]. split; [by apply list_elem_of_In|]. by rewrite Ev, HP.
Qed.

Lemma holds_offers t self other S :
  table_ok t self other -> holds S (table_offers t) -> S = O.
Proof.
  intros T H. apply map_eq. intros i. apply option_eq. intros o.
  rewrite (H i o), (table_elem t self other T o). split; [by intros [Ho <-]|].
  intros Ho. destruct (to_all _ _ _ T i o Ho) as [<- _]. done.
Qed.

Lemma size_pairs : size (tradingPairForOffer g) = size O.
Proof.
  rewrite <- !size_dom. f_equal. apply set_eq. intros i.
  rewrite !elem_of_dom. by apply (pairs_present g O P).
Qed.

Lemma vacant_check (V : gset Z) :
  (forall x, x ∈ V <-> 0 <= x /\ go_index (idToAssetString g) x = Some []) ->
  go_len (vacantIDs g) = Z.of_nat (size V) /\
  forallb (fun vacantID => bool_decide (vacantID ∈ V)) (vacantIDs g) = true.
Proof.
  intros HV.
  assert (HE : forall x, x ∈ V <-> x ∈ vacantIDs g).
  { intros x. rewrite HV, (ido_vacant g (r_ids _ _ _ R)). split; [tauto|].
    intros H. split; [|done]. by apply go_index_range in H as [? _]. }
  split.
  - assert (V = list_to_set (vacantIDs g)) as -> by (apply set_eq; intros x; by rewrite HE, elem_of_list_to_set).
    unfold go_len. by rewrite size_list_to_set by apply (ido_vacant_nodup g (r_ids _ _ _ R)).
  - apply forallb_forall. intros x Hx. apply bool_decide_eq_true, HE. by apply list_elem_of_In.
Qed.

Lemma Verify_represented :
  exists ps, Verify g = verified (Offers g, ps) /\
    (forall p, p ∈ ps -> exists x y, liquidityPools g !! (x, y) = Some p) /\
    NoDup (map pool_id ps) /\
    forall x y p, liquidityPools g !! (x, y) = Some p -> pool_id p ∈ map pool_id ps.
Proof.
  unfold Verify. pose proof sell_table_ok as TS. pose proof buy_table_ok as TB.
  rewrite (to_len _ _ _ TS), (to_len _ _ _ TB), !Z.eqb_refl.
  destruct (sell_table_accepts (venuesForSellingAsset g) 0 (mkVerify [] [] ∅ ∅ ∅) (suffix_self _))
    as (v & -> & H1 & H2 & H3 & _ & H5 & H6).
  { intros i o. cbn. rewrite lookup_empty, elem_of_nil. naive_solver. }
  { split; cbn; [by intros p ?%elem_of_nil| |constructor]. intros i. rewrite lookup_empty, elem_of_nil.
    split; [by intros []|done]. }
  { cbn. by eapply table_ids. }
  cbn [v_offers app] in H1. cbn [verify_bind verified].
  assert (offerSet v = O) as HO by (eapply holds_offers; [exact TS|by rewrite <- H1]).
  rewrite HO, size_pairs, Z.eqb_refl.
  assert (HL : forall x y p, liquidityPools g !! (x, y) = Some p -> is_Some (poolSet v !! pool_id p)).
  { intros x y p Hp. destruct (pool_has_edge _ _ _ x y p TS Hp) as (e & ed & He & Hed & <- & HC).
    by eapply H5. }
  destruct (buy_table_accepts (poolSet v) (venuesForBuyingAsset g) 0 O [] (suffix_self _)) as (S & -> & HS).
  { intros i o. rewrite app_nil_r, (table_elem _ _ _ TB). split; [|by intros [Ho <-]].
    intros Ho. by destruct (to_all _ _ _ TB i o Ho) as [<- _]. }
  { rewrite app_nil_r. by eapply table_ids. }
  { intros e ed He Hed HC. apply list_elem_of_lookup in He as [i Hi].
    assert (Hg : go_index (venuesForBuyingAsset g) (Z.of_nat i) = Some e)
      by (apply go_index_Some; split; [lia|by rewrite Nat2Z.id]).
    destruct (entry_good _ _ _ TB _ _ Hg) as [_ Hgood]. destruct (Hgood ed Hed) as (_ & _ & _ & Hp).
    rewrite Hp in HC |- *. destruct (ConstantProduct _) as [cp|] eqn:Hcp; [|done].
    destruct (check_pool_ok _ _ _ Hcp) as [_ (x & y & E & _)]. by eapply HL. }
  cbn [verify_bind verified].
  assert (S = ∅) as -> by (apply map_empty; intros i; apply eq_None_not_Some; intros [o Ho]; apply HS in Ho as [Ho _]; by apply elem_of_nil in Ho).
  rewrite map_size_empty. destruct (vacant_check (vacantSet v)) as [HV1 HV2].
  { intros x. rewrite H6. cbn [vacantSet]. rewrite elem_of_empty. tauto. }
  rewrite HV1, !Z.eqb_refl, HV2. exists (v_pools v). split; [exact (f_equal (fun l => verified (l, v_pools v)) H1)|].
  split; [apply (pi_listed v H3)|]. split; [apply (pi_ids v H3)|].
  intros x y p Hp. by apply (pi_set v H3), (HL x y).
Qed.
End Represented.

(** ** Properties *)

(** C3: [Verify] accepts every graph that represents an order book: it does not
    panic, reports no error, and returns exactly the graph's offers and, once per
    pool id, represented pools with every represented id. *)
Theorem Verify_accepts_represented g O P :
  represents g O P -> go_len (idToAssetString g) <= MaxInt32 ->
  exists ps, Verify g = Some (Ok (Offers g, ps)) /\
    (forall p, p ∈ ps -> P !! entry_key p = Some p) /\
    NoDup (map LiquidityPoolId ps) /\
    forall k p, P !! k = Some p -> exists q, q ∈ ps /\ LiquidityPoolId q = LiquidityPoolId p.
Proof.
  intros RU Hcap. pose proof RU as [R _].
  destruct (Verify_represented g O P R Hcap) as (ps & E & H1 & H2 & H3).
  exists ps. split; [exact E|]. split.
  { intros p Hp. apply (LiquidityPools_elem g O P p RU). destruct (H1 p Hp) as (x & y & Hxy).
    unfold LiquidityPools. apply list_elem_of_fmap. exists ((x, y), p). split; [done|].
    by apply elem_of_map_to_list. }
  split.
  { apply (NoDup_fmap_1 (fun id : PoolId => vec_to_list id)). change (?f <$> ?l) with (map f l). by rewrite map_map. }
  intros k p Hp. destruct (r_P _ _ _ R k p Hp) as (cp & [Hc _] & ->).
  rewrite <- (entry_key_pool _ _ Hc) in Hp.
  apply (LiquidityPools_elem g O P p RU) in Hp. unfold LiquidityPools in Hp.
  apply list_elem_of_fmap in Hp as ([[x y] q] & -> & Hq). apply elem_of_map_to_list in Hq.
  pose proof (H3 x y q Hq) as Hin. apply list_elem_of_fmap in Hin as (q' & Eq & Hq'). exists q'.
  split; [done|]. apply vec_to_list_inj2. symmetry. exact Eq.
Qed.

Lemma Verify_accepts_represented_witness :
  exists ps, Verify sample_graph = Some (Ok ([sample_cross_offer 1 3], ps)).
Proof.
  destruct represents_sample_graph as [RU Hcap].
  destruct (Verify_accepts_represented sample_graph _ _ RU Hcap) as (ps & E & _).
  exists ps. etransitivity; [exact E|by vm_compute].
Defined.

(** ** What the self-check guarantees

    Whatever state a graph is in, if [Verify] accepts it then its two tables hold
    the same offers on the same terms, each filed under its own assets. *)
Lemma verify_bind_Ok {A B} (m : verifying A) (k : A -> verifying B) b :
  verify_bind m k = verified b -> exists a, m = verified a /\ k a = verified b.
Proof. destruct m as [[a|e]|]; [by exists a|done|done]. Qed.

Lemma require_Ok {A} (b : bool) e (k : verifying A) a :
  (require! b else e in k) = verified a -> b = true /\ k = verified a.
Proof. by destruct b. Qed.

(** The terms the check compares. *)
Definition same_terms (o o' : OfferEntry) : Prop :=
  OfferId o = OfferId o' /\ OfferPrice o = OfferPrice o' /\ Amount o = Amount o' /\
  Buying o = Buying o' /\ Selling o = Selling o'.

Lemma assertOffersEqual_None o o' : assertOffersEqual o o' = None ->
  OfferPrice o = OfferPrice o' /\ Amount o = Amount o' /\ Buying o = Buying o' /\ Selling o = Selling o'.
Proof.
  unfold assertOffersEqual. rewrite !Asset_Equals_spec. repeat case_bool_decide; cbn [negb]; try done.
  all: destruct (Z.eqb_spec (Amount o) (Amount o')); done.
Qed.

(** The names an edge checks its offers against. *)
Definition filed (bs ss : bytes) (o : OfferEntry) : Prop :=
  bs = asset_name (Buying o) /\ ss = asset_name (Selling o).

Lemma check_offer_assets_Ok prev o bs ss :
  check_offer_assets prev o bs ss = verified tt -> (forall p, prev = Some p -> filed bs ss p) -> filed bs ss o.
Proof.
  unfold check_offer_assets. intros H Hp. destruct prev as [p|].
  - specialize (Hp p eq_refl). rewrite !Asset_Equals_spec in H.
    apply require_Ok in H as [Hb H], H as [Hs _]. apply bool_decide_eq_true in Hb, Hs.
    unfold filed in *. by rewrite Hb, Hs.
  - rewrite !Asset_String_name in H. apply require_Ok in H as [Hb H], H as [Hs _].
    apply bool_decide_eq_true in Hb, Hs. done.
Qed.

(** ** The selling table *)
Definition collected (v : verify_vars) : Prop :=
  holds (offerSet v) (v_offers v) /\ NoDup (map OfferId (v_offers v)).

Lemma sell_offers_Ok g self k bs ss prev os v v' :
  sell_offers g self k bs ss prev os v = verified v' -> collected v ->
  (forall p, prev = Some p -> filed bs ss p) ->
  collected v' /\ v_offers v' = v_offers v ++ os /\ Forall (filed bs ss) os.
Proof.
  revert prev v. induction os as [|o os IH]; intros prev v; cbn [sell_offers].
  - intros [= <-] HC _. split_and!; [done|by rewrite app_nil_r|constructor].
  - intros H [HH HN] Hp. apply require_Ok in H as [Hf H], H as [_ H], H as [_ H].
    apply verify_bind_Ok in H as ([] & Hc & H). apply bool_decide_eq_true in Hf.
    pose proof (check_offer_assets_Ok _ _ _ _ Hc Hp) as Ho.
    assert (Hn : OfferId o ∉ map OfferId (v_offers v)).
    { intros (o' & E & Hin)%list_elem_of_fmap.
      assert (offerSet v !! OfferId o = Some o') by (by apply HH). congruence. }
    apply IH in H as (H1 & H2 & H3); cbn in *.
    + split_and!; [done|by rewrite H2, <- app_assoc|by constructor].
    + split; cbn; [by apply holds_insert|]. rewrite map_app. apply NoDup_app.
      split; [done|]. split; [|apply NoDup_singleton]. intros i Hi. cbn. rewrite list_elem_of_singleton. by intros ->.
    + by intros p [= <-].
Qed.

Lemma sell_pool_Ok g self k p v v' :
  sell_pool g self k p v = verified v' -> collected v -> collected v' /\ v_offers v' = v_offers v.
Proof.
  unfold sell_pool. destruct (ConstantProduct _); [|by intros [= <-]].
  intros H HC. apply verify_bind_Ok in H as ([] & _ & [= <-]). by case_match.
Qed.

(** The offers of an edge are filed under its two ids. *)
Definition edge_filed (g : OrderBookGraph) (self other : OfferEntry -> Asset) (a : Z) (ed : edge) : Prop :=
  forall o, o ∈ offers (value ed) -> named g a (self o) /\ named g (key ed) (other o).

Lemma sell_edges_Ok g a self ss edges v v' :
  sell_edges g self ss edges v = verified v' -> collected v -> go_index (idToAssetString g) a = Some ss ->
  collected v' /\ v_offers v' = v_offers v ++ edge_offers edges /\
  forall ed, ed ∈ edges -> edge_filed g Selling Buying a ed.
Proof.
  intros H HC Ha. revert v H HC. induction edges as [|ed edges IH]; intros v; cbn [sell_edges].
  - intros [= <-] HC. split_and!; [done|by rewrite app_nil_r|by intros ed ?%elem_of_nil].
  - destruct (go_index (idToAssetString g) (key ed)) as [bs|] eqn:Hk; [|done]. intros H HC.
    apply verify_bind_Ok in H as (v1 & H1 & H), H as (v2 & H2 & H).
    apply sell_offers_Ok in H1 as (C1 & E1 & F1); [|done|done].
    apply sell_pool_Ok in H2 as (C2 & E2); [|done].
    apply IH in H as (C3 & E3 & F3); [|done]. split_and!; [done| |].
    + rewrite E3, E2, E1, <- app_assoc. done.
    + intros ed' [->|Hed]%elem_of_cons; [|by apply F3]. intros o Ho.
      rewrite Forall_forall in F1. destruct (F1 o Ho) as [-> ->]. done.
Qed.

Lemma sell_table_Ok g ts i v v' :
  sell_table g i ts v = verified v' -> collected v ->
  collected v' /\ v_offers v' = v_offers v ++ table_offers ts /\
  forall j e ed, ts !! j = Some e -> ed ∈ e -> edge_filed g Selling Buying (i + Z.of_nat j) ed.
Proof.
  revert i v. induction ts as [|e ts IH]; intros i v; cbn [sell_table].
  - intros [= <-] HC. by split_and!; [|rewrite app_nil_r|].
  - destruct (go_index (idToAssetString g) i) as [ss|] eqn:Hs; [|done]. intros H HC.
    assert (HF : (forall ed, ed ∈ e -> edge_filed g Selling Buying i ed) ->
      (forall j e' ed, ts !! j = Some e' -> ed ∈ e' -> edge_filed g Selling Buying (i + 1 + Z.of_nat j) ed) ->
      forall j e' ed, (e :: ts) !! j = Some e' -> ed ∈ e' -> edge_filed g Selling Buying (i + Z.of_nat j) ed).
    { intros F0 F1 [|j] e' ed; cbn.
      - intros [= <-] Hed. rewrite Z.add_0_r. by apply F0.
      - intros He Hed. replace (i + Z.of_nat (S j)) with (i + 1 + Z.of_nat j) by lia. by eapply F1. }
    destruct (go_len ss =? 0).
    + destruct e as [|ed e]; [|done]. change (go_len (@nil edge) =? 0) with true in H. cbv iota in H.
      apply IH in H as (C1 & E1 & F1); [|done]. split_and!; [done|done|]. apply HF; [|done].
      by intros ed ?%elem_of_nil.
    + destruct (assetStringToID g !! ss) as [id|]; [|done]. apply require_Ok in H as [_ H].
      apply verify_bind_Ok in H as (v1 & H1 & H).
      apply (sell_edges_Ok g i) in H1 as (C1 & E1 & F1); [|done|done].
      apply IH in H as (C2 & E2 & F2); [|done]. split_and!; [done| |by apply HF].
      rewrite E2, E1, <- app_assoc. done.
Qed.

(** ** The buying table *)

(** The buying side's offers [os] consume their twins from [S]. *)
Record consumed (S S' : gmap Z OfferEntry) (os : list OfferEntry) : Prop := {
  con_ids : NoDup (map OfferId os);
  con_twin o : o ∈ os -> exists o', S !! OfferId o = Some o' /\ (OfferId o' = OfferId o -> same_terms o' o);
  con_rest i : S' !! i = if decide (i ∈ map OfferId os) then None else S !! i
}.

Lemma consumed_nil S : consumed S S [].
Proof. split; [constructor|by intros o ?%elem_of_nil|]. intros i. by rewrite decide_False by apply not_elem_of_nil. Qed.

Lemma consumed_app S1 S2 S3 os os' : consumed S1 S2 os -> consumed S2 S3 os' -> consumed S1 S3 (os ++ os').
Proof.
  intros [A1 A2 A3] [B1 B2 B3]. split.
  - rewrite map_app. apply NoDup_app. split; [done|]. split; [|done]. intros i Hi Hi'.
    apply list_elem_of_fmap in Hi' as (o & -> & Ho). destruct (B2 o Ho) as (o' & Ho' & _).
    by rewrite A3, decide_True in Ho'.
  - intros o [Ho|Ho]%elem_of_app; [by apply A2|]. destruct (B2 o Ho) as (o' & Ho' & HT).
    rewrite A3 in Ho'. case_decide; [done|]. by exists o'.
  - intros i. rewrite B3, A3, map_app. repeat case_decide; rewrite ?elem_of_app in *; tauto.
Qed.

Lemma buy_offers_Ok bs ss prev os S S' :
  buy_offers bs ss prev os S = verified S' -> (forall p, prev = Some p -> filed bs ss p) ->
  consumed S S' os /\ Forall (filed bs ss) os.
Proof.
  revert prev S. induction os as [|o os IH]; intros prev S; cbn [buy_offers].
  - intros [= <-] _. split; [apply consumed_nil|constructor].
  - destruct (S !! OfferId o) as [o'|] eqn:ES; [|done].
    destruct (assertOffersEqual o' o) eqn:EA; [done|]. apply assertOffersEqual_None in EA.
    intros H Hp. apply verify_bind_Ok in H as ([] & Hc & H).
    pose proof (check_offer_assets_Ok _ _ _ _ Hc Hp) as Ho.
    apply IH in H as [HC HF]; [|by intros p [= <-]]. split; [|by constructor].
    change (o :: os) with ([o] ++ os). apply (consumed_app _ (delete (OfferId o) S)); [|done].
    split.
    + apply NoDup_singleton.
    + intros x ->%list_elem_of_singleton. exists o'. split; [done|]. by split.
    + intros i. cbn [map]. rewrite lookup_delete. repeat case_decide; subst; rewrite ?list_elem_of_singleton in *; naive_solver.
Qed.

Lemma buy_edges_Ok g a self bs pools edges S S' :
  buy_edges g self bs pools edges S = verified S' -> go_index (idToAssetString g) a = Some bs ->
  consumed S S' (edge_offers edges) /\ forall ed, ed ∈ edges -> edge_filed g Buying Selling a ed.
Proof.
  intros H Ha. revert S H. induction edges as [|ed edges IH]; intros S; cbn [buy_edges].
  - intros [= <-]. split; [apply consumed_nil|by intros ed ?%elem_of_nil].
  - destruct (go_index (idToAssetString g) (key ed)) as [ss|] eqn:Hk; [|done]. intros H.
    apply verify_bind_Ok in H as (S1 & H1 & H), H as ([] & _ & H).
    apply buy_offers_Ok in H1 as (C1 & F1); [|done]. apply IH in H as (C2 & F2).
    split; [by apply (consumed_app _ S1)|]. intros ed' [->|Hed]%elem_of_cons; [|by apply F2]. intros o Ho.
    rewrite Forall_forall in F1. destruct (F1 o Ho) as [-> ->]. done.
Qed.

Lemma buy_table_Ok g pools ts i S S' :
  buy_table g i pools ts S = verified S' ->
  consumed S S' (table_offers ts) /\
  forall j e ed, ts !! j = Some e -> ed ∈ e -> edge_filed g Buying Selling (i + Z.of_nat j) ed.
Proof.
  revert i S. induction ts as [|e ts IH]; intros i S; cbn [buy_table].
  - intros [= <-]. split; [apply consumed_nil|done].
  - destruct (go_index (idToAssetString g) i) as [bs|] eqn:Hs; [|done]. intros H.
    assert (HF : (forall ed, ed ∈ e -> edge_filed g Buying Selling i ed) ->
      (forall j e' ed, ts !! j = Some e' -> ed ∈ e' -> edge_filed g Buying Selling (i + 1 + Z.of_nat j) ed) ->
      forall j e' ed, (e :: ts) !! j = Some e' -> ed ∈ e' -> edge_filed g Buying Selling (i + Z.of_nat j) ed).
    { intros F0 F1 [|j] e' ed; cbn.
      - intros [= <-] Hed. rewrite Z.add_0_r. by apply F0.
      - intros He Hed. replace (i + Z.of_nat (Datatypes.S j)) with (i + 1 + Z.of_nat j) by lia. by eapply F1. }
    destruct (go_len bs =? 0).
    + destruct e as [|ed e]; [|done]. change (go_len (@nil edge) =? 0) with true in H. cbv iota in H.
      apply IH in H as (C1 & F1). split; [done|]. apply HF; [|done]. by intros ed ?%elem_of_nil.
    + apply verify_bind_Ok in H as (S1 & H1 & H).
      apply (buy_edges_Ok g i) in H1 as (C1 & F1); [|done].
      apply IH in H as (C2 & F2). split; [by apply (consumed_app _ S1)|by apply HF].
Qed.

Lemma table_filed g (t : list edgeSet) self other :
  (forall j e ed, t !! j = Some e -> ed ∈ e -> edge_filed g self other (0 + Z.of_nat j) ed) ->
  forall a e ed o, go_index t a = Some e -> ed ∈ e -> o ∈ offers (value ed) ->
    named g a (self o) /\ named g (key ed) (other o).
Proof.
  intros H a e ed o Ha Hed Ho. apply go_index_Some in Ha as [Hp Ha].
  specialize (H _ _ _ Ha Hed o Ho). by rewrite Z.add_0_l, Z2Nat.id in H.
Qed.

(** C4: a graph [Verify] accepts is consistent, whatever its history: the offers
    returned are those of the selling table and have distinct ids, as many as the
    graph has trading pairs; the buying table has exactly one offer on the same
    terms for each of them; and in both tables every offer is filed under the
    ids named by its own two assets. *)
Theorem Verify_sound g os ps :
  Verify g = Some (Ok (os, ps)) ->
  os = Offers g /\ NoDup (map OfferId os) /\ length os = size (tradingPairForOffer g) /\
  map OfferId (table_offers (venuesForBuyingAsset g)) ≡ₚ map OfferId os /\
  (forall o, o ∈ table_offers (venuesForBuyingAsset g) -> exists o', o' ∈ os /\ same_terms o' o) /\
  (forall s e ed o, go_index (venuesForSellingAsset g) s = Some e -> ed ∈ e -> o ∈ offers (value ed) ->
     named g s (Selling o) /\ named g (key ed) (Buying o)) /\
  (forall b e ed o, go_index (venuesForBuyingAsset g) b = Some e -> ed ∈ e -> o ∈ offers (value ed) ->
     named g b (Buying o) /\ named g (key ed) (Selling o)).
Proof.
  unfold Verify. intros H. apply require_Ok in H as [_ H], H as [_ H].
  apply verify_bind_Ok in H as (v & H1 & H). apply require_Ok in H as [Hn H].
  apply verify_bind_Ok in H as (S & H2 & H). apply require_Ok in H as [Hz H].
  apply require_Ok in H as [_ H], H as [_ H]. injection H as <- <-.
  apply sell_table_Ok in H1 as ([HH HN] & E1 & F1).
  2:{ split; [|constructor]. intros i o. cbn. rewrite lookup_empty, elem_of_nil. by split; [|intros []]. }
  cbn [v_offers app] in E1. apply buy_table_Ok in H2 as ([C1 C2 C3] & F2).
  assert (HD : forall i, i ∈ map OfferId (v_offers v) <-> is_Some (offerSet v !! i)).
  { intros i. split.
    - intros (o & -> & Ho)%list_elem_of_fmap. exists o. by apply HH.
    - intros [o [Ho <-]%HH]. apply list_elem_of_fmap. by exists o. }
  split_and!; [exact E1|done| | | |by apply table_filed|by apply table_filed].
  - apply Z.eqb_eq, Nat2Z.inj in Hn. rewrite <- Hn, <- (length_map OfferId), <- size_dom.
    rewrite <- (size_list_to_set (C := gset Z)) by done. f_equal. apply set_eq. intros i.
    by rewrite elem_of_list_to_set, elem_of_dom, HD.
  - apply NoDup_Permutation; [done|done|]. intros i. rewrite HD.
    apply Z.eqb_eq in Hz. assert (S = ∅) as -> by (apply map_size_empty_inv; lia).
    split; intros Hi.
    + apply list_elem_of_fmap in Hi as (o & -> & Ho). destruct (C2 o Ho) as (o' & Ho' & _). by exists o'.
    + destruct (decide (i ∈ map OfferId (table_offers (venuesForBuyingAsset g)))) as [|Hni]; [done|].
      specialize (C3 i). rewrite decide_False, lookup_empty in C3 by done. rewrite <- C3 in Hi. by destruct Hi.
  - intros o Ho. destruct (C2 o Ho) as (o' & Ho' & HT). apply HH in Ho' as [Ho' Hi]. exists o'.
    split; [done|]. by apply HT.
Qed.

Lemma Verify_sound_witness :
  map OfferId (table_offers (venuesForBuyingAsset sample_graph)) ≡ₚ [1] /\
  length (venuesForSellingAsset sample_graph) = 2%nat.
Proof.
  destruct (Verify_sound sample_graph [sample_cross_offer 1 3] []) as (_ & _ & _ & H & _);
    [by vm_compute|]. split; [exact H|by vm_compute].
Defined.
