(* ===== verification/Search.v ===== *)
(** * Path search

    src/exp/orderbook/search.go: consuming offers and pools, the two search
    states behind one interface, and the search over the graph. Path nodes are
    allocated in a slab and shared through pointers: the store is a list of
    nodes and a pointer an index into it. *)
From Stdlib Require Import ZArith Lia.
From stdpp Require Import base list vector option gmap sorting.
From S2P Require Import Prelude GoStd GoExt Price Encodings Strkey Asset Pools Edges Graph.
#[local] Open Scope Z_scope.
#[local] Open Scope go_scope.

Inductive search_error : Type :=
| errEmptyOffers
| errAssetAmountIsZero
| errSoldTooMuch
| PriceError (e : price_error)
| PoolError (e : pool_error)
| ContextError.

(** ** Consuming offers *)

(** The loop of [consumeOffersForSellingAsset]. *)
Fixpoint consumeSelling_loop (os : list OfferEntry) (ignoreOffersFrom : option AccountId)
    (currentAssetAmount totalConsumed : Z) : option (Z * option search_error) :=
  match os with
  | [] => Some (-1, None)
  | offer :: os =>
      if match ignoreOffersFrom with
         | Some a => AccountId_Equals a (SellerId offer)
         | None => false
         end
      then consumeSelling_loop os ignoreOffersFrom currentAssetAmount totalConsumed
      else
        let! r := ConvertToBuyingUnits (Amount offer) currentAssetAmount
          (PriceN (OfferPrice offer)) (PriceD (OfferPrice offer)) in
        match r with
        | Err ErrOverflow => Some (-1, None)
        | Err e => Some (-1, Some (PriceError e))
        | Ok (buyingUnitsFromOffer, sellingUnitsFromOffer) =>
            let totalConsumed := i64 (totalConsumed + buyingUnitsFromOffer) in
            let currentAssetAmount := i64 (currentAssetAmount - sellingUnitsFromOffer) in
            if currentAssetAmount =? 0 then Some (totalConsumed, None)
            else if currentAssetAmount <? 0 then Some (-1, Some errSoldTooMuch)
            else consumeSelling_loop os ignoreOffersFrom currentAssetAmount totalConsumed
        end
  end.

Definition consumeOffersForSellingAsset (os : list OfferEntry) (ignoreOffersFrom : option AccountId)
    (currentAssetAmount currentBestAmount : Z) : option (Z * option search_error) :=
  if go_len os =? 0 then Some (0, Some errEmptyOffers)
  else if currentAssetAmount =? 0 then Some (0, Some errAssetAmountIsZero)
  else consumeSelling_loop os ignoreOffersFrom currentAssetAmount 0.

(** The loop of [consumeOffersForBuyingAsset]; its tail consumes a whole offer. *)
Fixpoint consumeBuying_loop (os : list OfferEntry) (currentAssetAmount totalConsumed : Z) :
    option (Z * option search_error) :=
  match os with
  | [] => Some (-1, None)
  | offer :: os =>
      let n := PriceN (OfferPrice offer) in
      let d := PriceD (OfferPrice offer) in
      let consume_offer :=
        let! r := ConvertToBuyingUnits (Amount offer) (Amount offer) n d in
        match r with
        | Err ErrOverflow => Some (-1, None)
        | Err e => Some (-1, Some (PriceError e))
        | Ok (buyingUnitsFromOffer, sellingUnitsFromOffer) =>
            let totalConsumed := i64 (totalConsumed + sellingUnitsFromOffer) in
            let currentAssetAmount := i64 (currentAssetAmount - buyingUnitsFromOffer) in
            if currentAssetAmount =? 0 then Some (totalConsumed, None)
            else if currentAssetAmount <? 0 then Some (-1, Some errSoldTooMuch)
            else consumeBuying_loop os currentAssetAmount totalConsumed
        end in
      let! r := MulFractionRoundDown currentAssetAmount d n in
      match r with
      | Ok amountSold =>
          if amountSold =? 0 then Some (-1, None)
          else if amountSold <? 0 then Some (-1, Some errSoldTooMuch)
          else if amountSold <=? Amount offer then Some (i64 (totalConsumed + amountSold), None)
          else consume_offer
      | Err ErrOverflow => consume_offer
      | Err e => Some (-1, Some (PriceError e))
      end
  end.

Definition consumeOffersForBuyingAsset (os : list OfferEntry) (currentAssetAmount : Z) :
    option (Z * option search_error) :=
  if go_len os =? 0 then Some (0, Some errEmptyOffers)
  else if currentAssetAmount =? 0 then Some (0, Some errAssetAmountIsZero)
  else consumeBuying_loop os currentAssetAmount 0.

(** ** The search state interface

    The part of a search state that changes is the list of paths found, so a
    state is a configuration and that list. *)
Record Path : Type := mkPath {
  SourceAsset : bytes;
  SourceAmount : Z;
  DestinationAsset : bytes;
  DestinationAmount : Z;
  InteriorNodes : list bytes
}.

Class searchState (C : Type) := {
  totalAssets : C -> Z;
  considerPools : C -> bool;
  isTerminalNode : C -> Z -> bool;
  includePath : C -> Z -> Z -> bool;
  betterPathAmount : C -> Z -> Z -> bool;
  appendToPaths : C -> list Path -> list Z -> Z -> Z -> option (list Path);
  venues : C -> Z -> option edgeSet;
  consumeOffers : C -> Z -> Z -> list OfferEntry -> option (Z * option search_error);
  consumePool : C -> liquidityPool -> Z -> Z -> option (result pool_error Z)
}.

(** ** Path nodes *)
Record pathNode : Type := mkNode { node_asset : Z; node_prev : option nat }.
Abbreviation node_store := (list pathNode).

(** Follows the [prev] pointers from a node, nearest first. A chain visits no
    node twice, so the number of nodes bounds it. *)
Fixpoint node_chain (fuel : nat) (h : node_store) (p : option nat) : option (list Z) :=
  match p with
  | None => Some []
  | Some i =>
      match fuel with
      | O => None
      | S fuel =>
          let! n := h !! i in
          let! rest := node_chain fuel h (node_prev n) in
          Some (node_asset n :: rest)
      end
  end.
Definition node_assets (h : node_store) (p : option nat) : option (list Z) :=
  node_chain (length h) h p.

Definition contains (h : node_store) (p : option nat) (node : Z) : option bool :=
  let! l := node_assets h p in Some (bool_decide (node ∈ l)).

(** The swaps of [reversePath], from the middle outwards. *)
Fixpoint reverse_loop {A} (n : nat) (path : list A) : option (list A) :=
  match n with
  | O => Some path
  | S i =>
      let opp := (length path - 1 - i)%nat in
      let! x := path !! i in
      let! y := path !! opp in
      reverse_loop i (<[opp := x]> (<[i := y]> path))
  end.
Definition reversePath {A} (path : list A) : option (list A) := reverse_loop (length path / 2) path.

Definition node_path (h : node_store) (p : option nat) : option (list Z) :=
  let! result := node_assets h p in reversePath result.

(** ** The search *)
Section Search.
Context {C : Type} {SS : searchState C}.

Definition processVenues (st : C) (currentAsset currentAssetAmount : Z) (v : Venues) :
    option (Z * option search_error) :=
  if currentAssetAmount =? 0 then Some (0, Some errAssetAmountIsZero)
  else
    let! poolAmount :=
      (if considerPools st && negb (bool_decide (venue_pool v = None)) then
         let! r := consumePool st (pool v) currentAsset currentAssetAmount in
         Some (match r with Ok amount => amount | Err _ => 0 end)
       else Some 0) in
    if (poolAmount =? 0) && (go_len (offers v) =? 0) then Some (-1, None)
    else
      let! (nextAssetAmount, err) := consumeOffers st currentAssetAmount poolAmount (offers v) in
      match err with
      | Some e => if poolAmount =? 0 then Some (0, Some e) else Some (nextAssetAmount, None)
      | None => Some (nextAssetAmount, None)
      end.

Record search_vars : Type := mkVars {
  bestAmount : list Z;
  updateAmount : list Z;
  bestPath : list (option nat);
  updatePath : list (option nat);
  updatedAssets : list Z;
  nodes : node_store;
  ctx_polls : nat;
  paths : list Path
}.

(** Points the update of [nextAsset] at a node over [pathToCurrentAsset]: a new
    node, or the one allocated for it in this round. *)
Definition record_path (s : search_vars) (newEntry : bool) (nextAsset : Z)
    (pathToCurrentAsset : option nat) : option (list Z * node_store * list (option nat)) :=
  if newEntry then
    let! updatePath' := go_set (updatePath s) nextAsset (Some (length (nodes s))) in
    Some (updatedAssets s ++ [nextAsset], nodes s ++ [mkNode nextAsset pathToCurrentAsset], updatePath')
  else
    let! p := go_index (updatePath s) nextAsset in
    let! i := p in
    let! n := nodes s !! i in
    Some (updatedAssets s, <[i := mkNode (node_asset n) pathToCurrentAsset]> (nodes s), updatePath s).

(** The context is cancelled from some poll on, or never. *)
Context (ctx_Err : nat -> bool).

(** One edge of the innermost loop. The outer option is a panic; an error
    ends the search. *)
Definition search_edge (st : C) (last_step : bool) (currentAsset currentAmount : Z)
    (pathToCurrentAsset : option nat) (s : search_vars) (ed : edge) :
    option (result search_error search_vars) :=
  let polled := mkVars (bestAmount s) (updateAmount s) (bestPath s) (updatePath s) (updatedAssets s)
    (nodes s) (S (ctx_polls s)) (paths s) in
  if ctx_Err (ctx_polls s) then Some (Err ContextError)
  else
    let nextAsset := key ed in
    if last_step && negb (isTerminalNode st nextAsset) then Some (Ok polled)
    else
      let! seen := contains (nodes s) pathToCurrentAsset nextAsset in
      if seen : bool then Some (Ok polled)
      else
        let! (nextAssetAmount, err) := processVenues st currentAsset currentAmount (value ed) in
        match err with
        | Some e => Some (Err e)
        | None =>
            if nextAssetAmount <=? 0 then Some (Ok polled)
            else
              let! current := go_index (updateAmount s) nextAsset in
              if negb (betterPathAmount st current nextAssetAmount) then Some (Ok polled)
              else
                let! best := go_index (bestAmount s) nextAsset in
                let newEntry := current =? best in
                let! updateAmount' := go_set (updateAmount s) nextAsset nextAssetAmount in
                let! (updatedAssets', nodes', updatePath') :=
                  record_path s newEntry nextAsset pathToCurrentAsset in
                let! paths' :=
                  (if includePath st nextAsset nextAssetAmount then
                     let! p := go_index (bestPath s) currentAsset in
                     let! prefix := node_path nodes' p in
                     appendToPaths st (paths s) (prefix ++ [nextAsset]) nextAsset nextAssetAmount
                   else Some (paths s)) in
                Some (Ok (mkVars (bestAmount s) updateAmount' (bestPath s) updatePath' updatedAssets'
                  nodes' (S (ctx_polls s)) paths'))
        end.

Fixpoint search_edges (st : C) (last_step : bool) (currentAsset currentAmount : Z)
    (pathToCurrentAsset : option nat) (s : search_vars) (edges : edgeSet) :
    option (result search_error search_vars) :=
  match edges with
  | [] => Some (Ok s)
  | ed :: edges =>
      let! r := search_edge st last_step currentAsset currentAmount pathToCurrentAsset s ed in
      match r with
      | Err e => Some (Err e)
      | Ok s => search_edges st last_step currentAsset currentAmount pathToCurrentAsset s edges
      end
  end.

(** The loop over assets; [n] of them are left. *)
Fixpoint search_assets (st : C) (last_step : bool) (n : nat) (currentAsset : Z) (s : search_vars) :
    option (result search_error search_vars) :=
  match n with
  | O => Some (Ok s)
  | S n =>
      let! currentAmount := go_index (bestAmount s) currentAsset in
      if currentAmount =? 0 then search_assets st last_step n (currentAsset + 1) s
      else
        let! pathToCurrentAsset := go_index (bestPath s) currentAsset in
        let! edges := venues st currentAsset in
        let! r := search_edges st last_step currentAsset currentAmount pathToCurrentAsset s edges in
        match r with
        | Err e => Some (Err e)
        | Ok s => search_assets st last_step n (currentAsset + 1) s
        end
  end.

(** Publishes the updates of a round. *)
Fixpoint publish (s : search_vars) (assets : list Z) : option search_vars :=
  match assets with
  | [] => Some s
  | asset :: assets =>
      let! p := go_index (updatePath s) asset in
      let! bestPath' := go_set (bestPath s) asset p in
      let! a := go_index (updateAmount s) asset in
      let! bestAmount' := go_set (bestAmount s) asset a in
      publish (mkVars bestAmount' (updateAmount s) bestPath' (updatePath s) (updatedAssets s)
        (nodes s) (ctx_polls s) (paths s)) assets
  end.

(** The rounds; [n] of them are left. *)
Fixpoint search_rounds (st : C) (n : nat) (s : search_vars) : option (result search_error search_vars) :=
  match n with
  | O => Some (Ok s)
  | S n =>
      let s := mkVars (bestAmount s) (updateAmount s) (bestPath s) (updatePath s) [] (nodes s)
        (ctx_polls s) (paths s) in
      let! r := search_assets st (n =? 0)%nat (Z.to_nat (totalAssets st)) 0 s in
      match r with
      | Err e => Some (Err e)
      | Ok s =>
          if (0 <? n)%nat then
            let! s := publish s (updatedAssets s) in search_rounds st n s
          else Some (Ok s)
      end
  end.

(** [search] from an empty list of paths: the list it leaves. The callers
    discard the list when there is an error. *)
Definition search (st : C) (maxPathLength sourceAsset sourceAssetAmount : Z) :
    option (result search_error (list Path)) :=
  let n := Z.to_nat (totalAssets st) in
  let! amounts := go_set (replicate n 0) sourceAsset sourceAssetAmount in
  let! bestPath := go_set (replicate n None) sourceAsset (Some O) in
  let! ps :=
    (if includePath st sourceAsset sourceAssetAmount then
       appendToPaths st [] [sourceAsset] sourceAsset sourceAssetAmount
     else Some []) in
  let! r := search_rounds st (Z.to_nat maxPathLength)
    (mkVars amounts amounts bestPath (replicate n None) [] [mkNode sourceAsset None] O ps) in
  Some (match r with Err e => Err e | Ok s => Ok (paths s) end).
End Search.

(** ** The two search states *)
Definition assetIDsToAssetStrings (g : OrderBookGraph) (path : list Z) : option (list bytes) :=
  mapM (fun id => go_index (idToAssetString g) id) path.

Definition graph_totalAssets (g : OrderBookGraph) : Z := i32 (go_len (idToAssetString g)).

(** [path[1 : len(path)-1]] of a path with interior nodes. *)
Definition interior (path : list Z) : list Z :=
  if 2 <? go_len path then take (length path - 2) (drop 1 path) else [].

Record sellingGraphSearchState : Type := mkSellingState {
  selling_graph : OrderBookGraph;
  destinationAssetString : bytes;
  destinationAssetAmount : Z;
  ignoreOffersFrom : option AccountId;
  selling_targetAssets : gmap Z Z;
  validateSourceBalance : bool;
  selling_includePools : bool
}.

Record buyingGraphSearchState : Type := mkBuyingState {
  buying_graph : OrderBookGraph;
  sourceAssetString : bytes;
  sourceAssetAmount : Z;
  buying_targetAssets : gset Z;
  buying_includePools : bool
}.

Section Instances.
Context {U : Uint256}.

#[export] Instance selling_searchState : searchState sellingGraphSearchState := {|
  totalAssets st := graph_totalAssets (selling_graph st);
  considerPools st := selling_includePools st;
  isTerminalNode st currentAsset :=
    bool_decide (is_Some (selling_targetAssets st !! currentAsset));
  includePath st currentAsset currentAssetAmount :=
    match selling_targetAssets st !! currentAsset with
    | Some targetAssetBalance =>
        negb (validateSourceBalance st) || (currentAssetAmount <=? targetAssetBalance)
    | None => false
    end;
  betterPathAmount _ currentAmount alternativeAmount :=
    if currentAmount =? 0 then true
    else if alternativeAmount =? 0 then false
    else alternativeAmount <? currentAmount;
  appendToPaths st ps path currentAsset currentAssetAmount :=
    let! path := reversePath (interior path) in
    let! source := go_index (idToAssetString (selling_graph st)) currentAsset in
    let! nodes := assetIDsToAssetStrings (selling_graph st) path in
    Some (ps ++ [mkPath source currentAssetAmount (destinationAssetString st)
                   (destinationAssetAmount st) nodes]);
  venues st currentAsset := go_index (venuesForSellingAsset (selling_graph st)) currentAsset;
  consumeOffers st currentAssetAmount currentBestAmount os :=
    let! (nextAmount, err) := consumeOffersForSellingAsset os (ignoreOffersFrom st)
      currentAssetAmount currentBestAmount in
    Some (positiveMin currentBestAmount nextAmount, err);
  consumePool st p currentAsset currentAssetAmount :=
    makeTrade p (getOtherAsset currentAsset p) tradeTypeExpectation currentAssetAmount
|}.

#[export] Instance buying_searchState : searchState buyingGraphSearchState := {|
  totalAssets st := graph_totalAssets (buying_graph st);
  considerPools st := buying_includePools st;
  isTerminalNode st currentAsset := bool_decide (currentAsset ∈ buying_targetAssets st);
  includePath st currentAsset _ := bool_decide (currentAsset ∈ buying_targetAssets st);
  betterPathAmount _ currentAmount alternativeAmount := currentAmount <? alternativeAmount;
  appendToPaths st ps path currentAsset currentAssetAmount :=
    let! nodes := assetIDsToAssetStrings (buying_graph st) (interior path) in
    let! destination := go_index (idToAssetString (buying_graph st)) currentAsset in
    Some (ps ++ [mkPath (sourceAssetString st) (sourceAssetAmount st) destination
                   currentAssetAmount nodes]);
  venues st currentAsset := go_index (venuesForBuyingAsset (buying_graph st)) currentAsset;
  consumeOffers st currentAssetAmount currentBestAmount os :=
    let! (nextAmount, err) := consumeOffersForBuyingAsset os currentAssetAmount in
    Some (Z.max nextAmount currentBestAmount, err);
  consumePool st p currentAsset currentAssetAmount :=
    makeTrade p currentAsset tradeTypeDeposit currentAssetAmount
|}.
End Instances.

(** ** Finding payment paths

    src/exp/orderbook/graph.go, from [FindPaths] on: the two path queries, run
    over the search, and the sorting and filtering of their results. *)
Inductive sortByType : Type := sortBySourceAsset | sortByDestinationAsset.

(** ** Sorting and filtering *)
Definition compareSourceAsset (p q : Path) : bool :=
  if bool_decide (SourceAsset p = SourceAsset q) then
    if SourceAmount p =? SourceAmount q then
      go_len (InteriorNodes p) <? go_len (InteriorNodes q)
    else SourceAmount p <? SourceAmount q
  else bytes_ltb (SourceAsset p) (SourceAsset q).

Definition compareDestinationAsset (p q : Path) : bool :=
  if bool_decide (DestinationAsset p = DestinationAsset q) then
    if DestinationAmount p =? DestinationAmount q then
      go_len (InteriorNodes p) <? go_len (InteriorNodes q)
    else DestinationAmount q <? DestinationAmount p
  else bytes_ltb (DestinationAsset p) (DestinationAsset q).

Definition sourceAssetEquals (p otherPath : Path) : bool :=
  bool_decide (SourceAsset p = SourceAsset otherPath).
Definition destinationAssetEquals (p otherPath : Path) : bool :=
  bool_decide (DestinationAsset p = DestinationAsset otherPath).

(** The filtering loop: [filtered] so far and how many of its last paths share
    an asset. *)
Fixpoint filter_loop (assetsEqual : Path -> Path -> bool) (maxPathsPerAsset : Z)
    (allPaths filtered : list Path) (countForAsset : Z) : list Path :=
  match allPaths with
  | [] => filtered
  | entry :: allPaths =>
      if match list.last filtered with
         | None => true
         | Some p => negb (assetsEqual p entry)
         end
      then filter_loop assetsEqual maxPathsPerAsset allPaths (filtered ++ [entry]) 1
      else if countForAsset <? maxPathsPerAsset then
        filter_loop assetsEqual maxPathsPerAsset allPaths (filtered ++ [entry]) (countForAsset + 1)
      else filter_loop assetsEqual maxPathsPerAsset allPaths filtered countForAsset
  end.

Section Queries.
Context {U : Uint256} {GS : GoSort} (ctx_Err : nat -> bool).

Definition sortAndFilterPaths (allPaths : list Path) (maxPathsPerAsset : Z) (sortType : sortByType) :
    list Path :=
  let (comparePaths, assetsEqual) :=
    match sortType with
    | sortBySourceAsset => (compareSourceAsset, sourceAssetEquals)
    | sortByDestinationAsset => (compareDestinationAsset, destinationAssetEquals)
    end in
  filter_loop assetsEqual maxPathsPerAsset (sort_Sort comparePaths allPaths) [] 0.

(** The balances of the source assets the graph knows. *)
Fixpoint source_assets_map (g : OrderBookGraph) (i : Z) (sourceAssets : list Asset)
    (sourceAssetBalances : list Z) (m : gmap Z Z) : option (gmap Z Z) :=
  match sourceAssets with
  | [] => Some m
  | sourceAsset :: sourceAssets =>
      let! s := Asset_String sourceAsset in
      match assetStringToID g !! s with
      | None => source_assets_map g (i + 1) sourceAssets sourceAssetBalances m
      | Some id =>
          let! balance := go_index sourceAssetBalances i in
          source_assets_map g (i + 1) sourceAssets sourceAssetBalances (<[id := balance]> m)
      end
  end.

Definition findPathsWithLock (g : OrderBookGraph) (maxPathLength : Z) (destinationAsset : Asset)
    (destinationAmount : Z) (sourceAccountID : option AccountId) (sourceAssets : list Asset)
    (sourceAssetBalances : list Z) (validateSourceBalance includePools : bool) :
    option (result search_error (list Path) * Z) :=
  let! destinationAssetString := Asset_String destinationAsset in
  let! sourceAssetsMap := source_assets_map g 0 sourceAssets sourceAssetBalances ∅ in
  match assetStringToID g !! destinationAssetString with
  | None => Some (Ok [], lastLedger g)
  | Some destinationAssetID =>
      if Z.of_nat (size sourceAssetsMap) =? 0 then Some (Ok [], lastLedger g)
      else
        let! r := search ctx_Err
          (mkSellingState g destinationAssetString destinationAmount sourceAccountID sourceAssetsMap
             validateSourceBalance includePools)
          maxPathLength destinationAssetID destinationAmount in
        Some (r, lastLedger g)
  end.

Definition FindPaths (g : OrderBookGraph) (maxPathLength : Z) (destinationAsset : Asset)
    (destinationAmount : Z) (sourceAccountID : option AccountId) (sourceAssets : list Asset)
    (sourceAssetBalances : list Z) (validateSourceBalance : bool) (maxAssetsPerPath : Z)
    (includePools : bool) : option (result search_error (list Path) * Z) :=
  let! (r, ledger) := findPathsWithLock g maxPathLength destinationAsset destinationAmount
    sourceAccountID sourceAssets sourceAssetBalances validateSourceBalance includePools in
  match r with
  | Err e => Some (Err e, ledger)
  | Ok ps => Some (Ok (sortAndFilterPaths ps maxAssetsPerPath sortBySourceAsset), ledger)
  end.

(** The ids of the destination assets the graph knows. *)
Fixpoint destination_assets (g : OrderBookGraph) (destinationAssets : list Asset) (m : gset Z) :
    option (gset Z) :=
  match destinationAssets with
  | [] => Some m
  | destinationAsset :: destinationAssets =>
      let! s := Asset_String destinationAsset in
      match assetStringToID g !! s with
      | None => destination_assets g destinationAssets m
      | Some id => destination_assets g destinationAssets ({[id]} ∪ m)
      end
  end.

Definition findFixedPathsWithLock (g : OrderBookGraph) (maxPathLength : Z) (sourceAsset : Asset)
    (amountToSpend : Z) (destinationAssets : list Asset) (includePools : bool) :
    option (result search_error (list Path) * Z) :=
  let! target := destination_assets g destinationAssets ∅ in
  let! sourceAssetString := Asset_String sourceAsset in
  match assetStringToID g !! sourceAssetString with
  | None => Some (Ok [], lastLedger g)
  | Some sourceAssetID =>
      if Z.of_nat (size target) =? 0 then Some (Ok [], lastLedger g)
      else
        let! r := search ctx_Err
          (mkBuyingState g sourceAssetString amountToSpend target includePools)
          maxPathLength sourceAssetID amountToSpend in
        Some (r, lastLedger g)
  end.

Definition FindFixedPaths (g : OrderBookGraph) (maxPathLength : Z) (sourceAsset : Asset)
    (amountToSpend : Z) (destinationAssets : list Asset) (maxAssetsPerPath : Z) (includePools : bool) :
    option (result search_error (list Path) * Z) :=
  let! (r, ledger) := findFixedPathsWithLock g maxPathLength sourceAsset amountToSpend
    destinationAssets includePools in
  match r with
  | Err e => Some (Err e, ledger)
  | Ok ps => Some (Ok (sortAndFilterPaths ps maxAssetsPerPath sortByDestinationAsset), ledger)
  end.
End Queries.
