(* ===== verification/SearchInv.v ===== *)
(** * Soundness of the search

    For any search state whose venues lead to known assets, the search never
    panics, always returns, and every path it appends was realised hop by hop. *)
From Stdlib Require Import ZArith Lia.
From stdpp Require Import base list vector option gmap sorting.
From S2P Require Import Prelude GoStd GoExt Price Encodings Strkey Asset Pools Edges Graph Search.
#[local] Open Scope Z_scope.
#[local] Open Scope go_scope.

(** ** Reversing a slice in place *)
Lemma reverse_loop_spec {A} n (path : list A) :
  (2 * n <= length path)%nat ->
  exists r, reverse_loop n path = Some r /\ length r = length path /\
  forall k, (k < length path)%nat ->
    r !! k = if decide (k < n \/ length path - n <= k)%nat then path !! (length path - 1 - k)%nat
             else path !! k.
Proof.
  revert path; induction n as [|i IH]; intros path Hn; cbn [reverse_loop].
  - exists path. split; [done|]. split; [done|]. intros k Hk. rewrite decide_False; [done|lia].
  - destruct (lookup_lt_is_Some_2 path i) as [x Hx]; [lia|].
    destruct (lookup_lt_is_Some_2 path (length path - 1 - i)) as [y Hy]; [lia|].
    rewrite Hx, Hy. set (L := length path) in *.
    set (q := <[(L - 1 - i)%nat := x]> (<[i := y]> path)).
    assert (Lq : length q = L) by (subst q; by rewrite !length_insert).
    destruct (IH q) as (r & Hr & Lr & Hk); [lia|]. exists r. split; [done|]. split; [lia|].
    rewrite Lq in Hk. intros k HkL. rewrite Hk by done. clear Hk IH Hr Lr r.
    assert (Q : forall j, q !! j = if decide (j = L - 1 - i)%nat then Some x
      else if decide (j = i) then Some y else path !! j).
    { intros j. subst q. destruct (decide (j = L - 1 - i)%nat) as [->|].
      - rewrite list_lookup_insert_eq; [done|]. rewrite length_insert. lia.
      - rewrite list_lookup_insert_ne by lia. destruct (decide (j = i)) as [->|].
        + apply list_lookup_insert_eq. lia.
        + by rewrite list_lookup_insert_ne by lia. }
    rewrite !Q. repeat case_decide; try lia; try done.
    all: first [rewrite <- Hx; f_equal; lia|rewrite <- Hy; f_equal; lia|f_equal; lia].
Qed.

Lemma reversePath_reverse {A} (path : list A) : reversePath path = Some (reverse path).
Proof.
  unfold reversePath. pose proof (Nat.div_mod_eq (length path) 2) as E.
  pose proof (Nat.mod_upper_bound (length path) 2 ltac:(lia)) as B.
  destruct (reverse_loop_spec (length path / 2) path) as (r & -> & Lr & Hr); [lia|].
  f_equal. apply list_eq_same_length with (n := length path); [by rewrite length_reverse|done|].
  intros k x y Hk Hx Hy. rewrite Hr in Hx by done. rewrite reverse_lookup in Hy by done.
  replace (length path - S k)%nat with (length path - 1 - k)%nat in Hy by lia.
  case_decide; [congruence|]. replace k with (length path - 1 - k)%nat in Hx by lia. congruence.
Qed.

(** ** Chains of path nodes *)

(** The assets along the [prev] pointers, each of which points to an older node. *)
Inductive chain (h : node_store) : option nat -> list Z -> Prop :=
| chain_end : chain h None []
| chain_node i a q l :
    h !! i = Some (mkNode a q) -> (forall j, q = Some j -> (j < i)%nat) -> chain h q l ->
    chain h (Some i) (a :: l).

Definition below (b : nat) (p : option nat) : Prop := forall i, p = Some i -> (i < b)%nat.

Lemma node_chain_spec h p l fuel :
  chain h p l -> below fuel p -> node_chain fuel h p = Some l.
Proof.
  intros H. revert fuel. induction H as [|i a q l Hi Hq H IH]; intros fuel Hb; [by destruct fuel|].
  destruct fuel as [|fuel]; [pose proof (Hb i eq_refl); lia|]. cbn [node_chain]. rewrite Hi. simpl.
  rewrite (IH fuel); [done|]. intros j Hj. pose proof (Hq j Hj). pose proof (Hb i eq_refl). lia.
Qed.

Lemma chain_below_length h p l : chain h p l -> below (length h) p.
Proof. intros []; intros j [= <-]. by eapply lookup_lt_Some. Qed.

Lemma node_assets_spec h p l : chain h p l -> node_assets h p = Some l.
Proof. intros H. unfold node_assets. apply node_chain_spec; [done|by eapply chain_below_length]. Qed.

Lemma node_path_spec h p l : chain h p l -> node_path h p = Some (reverse l).
Proof. intros H. unfold node_path. by rewrite (node_assets_spec _ _ _ H), reversePath_reverse. Qed.

Lemma contains_spec h p l x : chain h p l -> contains h p x = Some (bool_decide (x ∈ l)).
Proof. intros H. unfold contains. by rewrite (node_assets_spec _ _ _ H). Qed.

(** A store that agrees on the nodes below a pointer has the same chain. *)
Lemma chain_agree h h' b p l :
  chain h p l -> below b p -> (forall i, (i < b)%nat -> h' !! i = h !! i) -> chain h' p l.
Proof.
  intros H. revert b. induction H as [|i a q l Hi Hq H IH]; intros b Hb Hh; [constructor|].
  pose proof (Hb i eq_refl). econstructor; [rewrite Hh; [exact Hi|done]|done|].
  apply (IH b); [|done]. intros j Hj. pose proof (Hq j Hj). lia.
Qed.

(** ** Realised paths *)
Section Sound.
Context {C : Type} {SS : searchState C} (ctx_Err : nat -> bool) (st : C) (src amt : Z).

(** Trading [x] of [cur] over one of its edges gives [y] of [nxt]. *)
Definition hop (cur x nxt y : Z) : Prop :=
  exists edges ed, venues st cur = Some edges /\ ed ∈ edges /\ key ed = nxt /\
    processVenues st cur x (value ed) = Some (y, None) /\ 0 < y.

(** A path from the source, latest asset first, and the amount it ends with. *)
Inductive realises : list Z -> Z -> Prop :=
| realises_source : realises [src] amt
| realises_hop cur l x nxt y :
    realises (cur :: l) x -> x <> 0 -> hop cur x nxt y -> nxt ∉ cur :: l ->
    realises (nxt :: cur :: l) y.

(** The lists of paths the search can build: each appended path was realised,
    is accepted by [includePath], and has at most [maxlen] assets. *)
Inductive appended (maxlen : nat) : list Path -> Prop :=
| appended_nil : appended maxlen []
| appended_path ps a l y ps' :
    appended maxlen ps -> realises (a :: l) y -> includePath st a y = true ->
    (length (a :: l) <= maxlen)%nat ->
    appendToPaths st ps (reverse (a :: l)) a y = Some ps' -> appended maxlen ps'.

(** What the search needs of a state: known assets and total operations. *)
Context (ok : Z -> Prop).
Abbreviation N := (totalAssets st).
Definition known (a : Z) : Prop := 0 <= a < N.

Class search_laws : Prop := {
  law_venues a : known a -> exists edges, venues st a = Some edges /\ Forall (fun ed => known (key ed)) edges;
  law_process cur x edges ed : known cur -> ok x -> x <> 0 -> venues st cur = Some edges -> ed ∈ edges ->
    exists y e, processVenues st cur x (value ed) = Some (y, e) /\ ok y;
  law_append ps l a y : Forall known l -> known a -> exists ps', appendToPaths st ps l a y = Some ps'
}.

Context {SLW : search_laws} (Hsrc : known src) (Hamt : ok amt) (maxlen : nat).

Lemma realises_ok l x : realises l x -> Forall known l /\ ok x.
Proof.
  induction 1 as [|cur l x nxt y HR [IHk IHx] Hx0 (edges & ed & Hv & Hin & <- & Hp & Hy) Hni].
  - split; [by apply Forall_singleton|done].
  - pose proof IHk as Hk. apply Forall_cons in IHk as [Hcur _].
    destruct (law_venues cur Hcur) as (es & Hes & Hkn). rewrite Hv in Hes. injection Hes as <-.
    destruct (law_process cur x edges ed Hcur IHx Hx0 Hv Hin) as (y' & e & Hp' & Hok).
    rewrite Hp in Hp'. injection Hp' as -> <-.
    split; [|done]. apply Forall_cons. split; [|done]. rewrite Forall_forall in Hkn. by apply Hkn.
Qed.

Lemma realises_simple l x : realises l x -> NoDup l.
Proof. induction 1; [apply NoDup_singleton|by apply NoDup_cons]. Qed.

(** ** The invariant of the search *)
Record search_inv (r base : nat) (s : search_vars) : Prop := {
  si_best_len : go_len (bestAmount s) = N;
  si_update_len : go_len (updateAmount s) = N;
  si_bestPath_len : go_len (bestPath s) = N;
  si_updatePath_len : go_len (updatePath s) = N;
  si_base : (base <= length (nodes s))%nat;
  si_best a x : go_index (bestAmount s) a = Some x -> x <> 0 ->
    exists p l, go_index (bestPath s) a = Some p /\ below base p /\ chain (nodes s) p (a :: l) /\
      realises (a :: l) x /\ (length (a :: l) <= r + 1)%nat;
  si_update a : a ∈ updatedAssets s ->
    exists i q l x, go_index (updatePath s) a = Some (Some i) /\ (base <= i)%nat /\
      nodes s !! i = Some (mkNode a q) /\ below base q /\ chain (nodes s) q l /\
      go_index (updateAmount s) a = Some x /\ realises (a :: l) x /\ (length (a :: l) <= r + 2)%nat;
  si_diff a x y : go_index (bestAmount s) a = Some x -> go_index (updateAmount s) a = Some y ->
    x <> y -> a ∈ updatedAssets s;
  si_paths : appended maxlen (paths s)
}.

Lemma go_set_known {A} (l : list A) a x : go_len l = N -> known a ->
  exists l', go_set l a x = Some l' /\ go_len l' = N /\ go_index l' a = Some x /\
    forall b, b <> a -> go_index l' b = go_index l b.
Proof.
  intros Hl Ha. unfold known in Ha. rewrite go_set_lt by lia. eexists. split; [done|].
  rewrite go_len_insert. split; [done|].
  assert (0 <= a < go_len l) as Hr by lia. split.
  - apply go_index_Some. split; [lia|]. apply list_lookup_insert_eq. unfold go_len in Hr. lia.
  - intros b Hb. unfold go_index. destruct (Z.leb_spec 0 b); [|done].
    apply list_lookup_insert_ne. lia.
Qed.

Lemma go_index_known {A} (l : list A) a : go_len l = N -> known a -> exists x, go_index l a = Some x.
Proof. intros Hl Ha. apply go_index_lt. unfold known in Ha. lia. Qed.

(** Nodes below [base] are not touched within a round. *)
Lemma chain_extend h h' b p l :
  chain h p l -> below b p -> (b <= length h)%nat ->
  (forall i, (i < b)%nat -> h' !! i = h !! i) -> chain h' p l.
Proof. intros H Hb _ Hh. by eapply chain_agree. Qed.

(** Recording a better amount for [nxt], reached over the path [p]. *)
Lemma record_path_spec r base s nxt y p l current best :
  search_inv r base s -> known nxt -> realises (nxt :: l) y -> (length (nxt :: l) <= r + 2)%nat ->
  below base p -> chain (nodes s) p l ->
  go_index (updateAmount s) nxt = Some current -> go_index (bestAmount s) nxt = Some best ->
  exists ua upd nodes' up,
    go_set (updateAmount s) nxt y = Some ua /\
    record_path s (current =? best) nxt p = Some (upd, nodes', up) /\
    (forall i, (i < base)%nat -> nodes' !! i = nodes s !! i) /\ (length (nodes s) <= length nodes')%nat /\
    forall k ps, appended maxlen ps ->
      search_inv r base (mkVars (bestAmount s) ua (bestPath s) up upd nodes' k ps).
Proof.
  intros I Hk HR HL Hb Hc Hcur Hbest. pose proof (si_base _ _ _ I) as HB.
  destruct (go_set_known (updateAmount s) nxt y (si_update_len _ _ _ I) Hk) as (ua & -> & Lua & Eua & Nua).
  unfold record_path. destruct (Z.eqb_spec current best) as [E|E].
  - destruct (go_set_known (updatePath s) nxt (Some (length (nodes s))) (si_updatePath_len _ _ _ I) Hk)
      as (up & -> & Lup & Eup & Nup).
    assert (HA : forall i, (i < length (nodes s))%nat -> (nodes s ++ [mkNode nxt p]) !! i = nodes s !! i)
      by (intros i Hi; by apply lookup_app_l).
    exists ua, (updatedAssets s ++ [nxt]), (nodes s ++ [mkNode nxt p]), up. split; [done|]. split; [done|].
    split; [intros i Hi; apply HA; lia|]. split; [rewrite length_app; lia|]. intros k ps Hps.
    split; cbn; try apply I; try done; [rewrite length_app; lia|..].
    + intros a x Ha Hx. destruct (si_best _ _ _ I a x Ha Hx) as (q & m & H1 & H2 & H3 & H4 & H5).
      exists q, m. repeat split; try done. apply (chain_agree (nodes s) _ base); [done|done|].
      intros i Hi. apply HA. lia.
    + intros a Ha. destruct (decide (a = nxt)) as [->|Hne].
      * exists (length (nodes s)), p, l, y. split; [done|]. split; [done|].
        split; [by rewrite lookup_app_r, Nat.sub_diag by lia|]. split; [done|].
        split; [|done]. apply (chain_agree (nodes s) _ base); [done|done|]. intros i Hi. apply HA. lia.
      * apply elem_of_app in Ha as [Ha|Ha]; [|by apply list_elem_of_singleton in Ha].
        destruct (si_update _ _ _ I a Ha) as (i & q & m & x & H1 & H2 & H3 & H4 & H5 & H6 & H7 & H8).
        exists i, q, m, x. rewrite Nup, Nua by done. repeat split; try done.
        -- rewrite HA; [done|]. by eapply lookup_lt_Some.
        -- apply (chain_agree (nodes s) _ base); [done|done|]. intros j Hj. apply HA. lia.
    + intros a x x' Ha Hx Hne. apply elem_of_app. destruct (decide (a = nxt)) as [->|Hna]; [right; by left|].
      left. rewrite Nua in Hx by done. by apply (si_diff _ _ _ I a x x').
  - assert (Hin : nxt ∈ updatedAssets s) by (by apply (si_diff _ _ _ I nxt best current)).
    destruct (si_update _ _ _ I nxt Hin) as (i & q & m & x & H1 & H2 & H3 & H4 & H5 & H6 & H7 & H8).
    rewrite H1. rewrite H3. cbn [node_asset].
    assert (HA : forall j, (j < base)%nat -> <[i := mkNode nxt p]> (nodes s) !! j = nodes s !! j)
      by (intros j Hj; apply list_lookup_insert_ne; lia).
    exists ua, (updatedAssets s), (<[i := mkNode nxt p]> (nodes s)), (updatePath s).
    split; [done|]. split; [done|]. split; [done|]. split; [by rewrite length_insert|]. intros k ps Hps.
    split; cbn; try apply I; try done; [by rewrite length_insert|..].
    + intros a z Ha Hz. destruct (si_best _ _ _ I a z Ha Hz) as (q' & m' & G1 & G2 & G3 & G4 & G5).
      exists q', m'. repeat split; try done. by apply (chain_agree (nodes s) _ base).
    + intros a Ha. destruct (decide (a = nxt)) as [->|Hne].
      * exists i, p, l, y. repeat split; try done.
        -- apply list_lookup_insert_eq. by eapply lookup_lt_Some.
        -- by apply (chain_agree (nodes s) _ base).
      * destruct (si_update _ _ _ I a Ha) as (i' & q' & m' & x' & G1 & G2 & G3 & G4 & G5 & G6 & G7 & G8).
        exists i', q', m', x'. rewrite Nua by done. repeat split; try done.
        -- rewrite list_lookup_insert_ne; [done|]. intros <-. rewrite H3 in G3. congruence.
        -- by apply (chain_agree (nodes s) _ base).
    + intros a z z' Ha Hz Hne. destruct (decide (a = nxt)) as [->|Hna]; [done|].
      rewrite Nua in Hz by done. by apply (si_diff _ _ _ I a z z').
Qed.

Lemma search_inv_polled r base s k :
  search_inv r base s ->
  search_inv r base (mkVars (bestAmount s) (updateAmount s) (bestPath s) (updatePath s) (updatedAssets s)
    (nodes s) k (paths s)).
Proof. intros []. by split. Qed.

(** One edge keeps the invariant, and the best amounts and paths. *)
Lemma search_edge_inv r base s last_step cur x p edges ed :
  search_inv r base s -> (r + 2 <= maxlen)%nat -> known cur ->
  go_index (bestAmount s) cur = Some x -> x <> 0 -> go_index (bestPath s) cur = Some p ->
  venues st cur = Some edges -> ed ∈ edges ->
  exists res, search_edge ctx_Err st last_step cur x p s ed = Some res /\
    forall s', res = Ok s' -> search_inv r base s' /\ bestAmount s' = bestAmount s /\ bestPath s' = bestPath s.
Proof.
  intros I Hmax Hcur Hx Hx0 Hp Hes Hed. unfold search_edge.
  destruct (ctx_Err (ctx_polls s)); [by eexists|].
  destruct (last_step && negb (isTerminalNode st (key ed))).
  { eexists. split; [done|]. intros s' [= <-]. split; [by apply search_inv_polled|done]. }
  destruct (si_best _ _ _ I cur x Hx Hx0) as (p' & l & Hp' & Hb & Hc & HR & HL).
  rewrite Hp in Hp'. injection Hp' as <-. rewrite (contains_spec _ _ _ _ Hc).
  case_bool_decide as Hseen.
  { eexists. split; [done|]. intros s' [= <-]. split; [by apply search_inv_polled|done]. }
  destruct (realises_ok _ _ HR) as [Hkn Hok].
  destruct (law_process cur x edges ed Hcur Hok Hx0 Hes Hed) as (y & e & Hpv & Hoky). rewrite Hpv.
  destruct e as [e|]; [by eexists|].
  destruct (Z.leb_spec y 0) as [Hy|Hy].
  { eexists. split; [done|]. intros s' [= <-]. split; [by apply search_inv_polled|done]. }
  assert (Hkey : known (key ed)).
  { destruct (law_venues cur Hcur) as (es & Hes' & Hk). rewrite Hes in Hes'. injection Hes' as <-.
    rewrite Forall_forall in Hk. by apply Hk. }
  assert (HR' : realises (key ed :: cur :: l) y)
    by (apply (realises_hop cur l x); [done|done|by exists edges, ed|done]).
  destruct (go_index_known (updateAmount s) (key ed) (si_update_len _ _ _ I) Hkey) as [current Hcu].
  destruct (go_index_known (bestAmount s) (key ed) (si_best_len _ _ _ I) Hkey) as [best Hbe].
  rewrite Hcu. destruct (betterPathAmount st current y); cbn [negb].
  2:{ eexists. split; [done|]. intros s' [= <-]. split; [by apply search_inv_polled|done]. }
  rewrite Hbe.
  destruct (record_path_spec r base s (key ed) y p (cur :: l) current best I Hkey HR'
    ltac:(simpl in *; lia) Hb Hc Hcu Hbe) as (ua & upd & nodes' & up & -> & -> & Hag & Hlen & Hinv).
  destruct (includePath st (key ed) y) eqn:Hinc.
  - rewrite Hp. rewrite (node_path_spec nodes' p (cur :: l)) by (by eapply chain_agree).
    rewrite <- reverse_cons.
    destruct (law_append (paths s) (reverse (key ed :: cur :: l)) (key ed) y) as [ps' Hps']; [|done|].
    { rewrite reverse_Permutation. by apply Forall_cons. }
    rewrite Hps'. eexists. split; [done|]. intros s' [= <-]. split; [|done]. apply Hinv.
    eapply appended_path; [apply I|exact HR'|done| |exact Hps']. simpl in *. lia.
  - eexists. split; [done|]. intros s' [= <-]. split; [|done]. apply Hinv, I.
Qed.

Lemma search_edges_inv r base s last_step cur x p edges es :
  search_inv r base s -> (r + 2 <= maxlen)%nat -> known cur ->
  go_index (bestAmount s) cur = Some x -> x <> 0 -> go_index (bestPath s) cur = Some p ->
  venues st cur = Some edges -> (forall ed, ed ∈ es -> ed ∈ edges) ->
  exists res, search_edges ctx_Err st last_step cur x p s es = Some res /\
    forall s', res = Ok s' -> search_inv r base s' /\ bestAmount s' = bestAmount s /\ bestPath s' = bestPath s.
Proof.
  intros I Hmax Hcur Hx Hx0 Hp Hes. revert s I Hx Hp.
  induction es as [|ed es IH]; intros s I Hx Hp Hsub; cbn [search_edges].
  - eexists. split; [done|]. intros s' [= <-]. done.
  - destruct (search_edge_inv r base s last_step cur x p edges ed) as (res & -> & Hres); try done.
    { apply Hsub. by left. }
    destruct res as [s1|e]; [|by eexists]. destruct (Hres s1 eq_refl) as (I1 & EA & EP).
    destruct (IH s1 I1) as (res2 & E2 & Hres2); [by rewrite EA|by rewrite EP| |].
    { intros ed' Hin. apply Hsub. by right. }
    exists res2. split; [done|]. intros s' Hs'. destruct (Hres2 s' Hs') as (I2 & EA2 & EP2).
    split; [done|]. split; congruence.
Qed.

Lemma search_assets_inv r base last_step n cur s :
  search_inv r base s -> (r + 2 <= maxlen)%nat -> 0 <= cur -> cur + Z.of_nat n <= N ->
  exists res, search_assets ctx_Err st last_step n cur s = Some res /\
    forall s', res = Ok s' -> search_inv r base s'.
Proof.
  intros I Hmax. revert cur s I. induction n as [|n IH]; intros cur s I H0 HN; cbn [search_assets].
  - eexists. split; [done|]. by intros s' [= <-].
  - assert (Hcur : known cur) by (unfold known; lia).
    destruct (go_index_known (bestAmount s) cur (si_best_len _ _ _ I) Hcur) as [x Hx]. rewrite Hx.
    destruct (Z.eqb_spec x 0) as [->|Hx0]; [apply IH; [done|lia|lia]|].
    destruct (si_best _ _ _ I cur x Hx Hx0) as (p & l & Hp & _). rewrite Hp.
    destruct (law_venues cur Hcur) as (edges & Hes & _). rewrite Hes.
    destruct (search_edges_inv r base s last_step cur x p edges edges) as (res & -> & Hres); try done.
    destruct res as [s1|e]; [|by eexists]. destruct (Hres s1 eq_refl) as (I1 & _).
    apply IH; [done|lia|lia].
Qed.

(** Publishing copies the updates of the listed assets. *)
Lemma publish_spec s l :
  go_len (bestAmount s) = N -> go_len (bestPath s) = N -> go_len (updateAmount s) = N ->
  go_len (updatePath s) = N -> Forall known l ->
  exists ba bp, publish s l =
      Some (mkVars ba (updateAmount s) bp (updatePath s) (updatedAssets s) (nodes s) (ctx_polls s) (paths s)) /\
    go_len ba = N /\ go_len bp = N /\
    forall a, go_index ba a = (if bool_decide (a ∈ l) then go_index (updateAmount s) a else go_index (bestAmount s) a) /\
      go_index bp a = (if bool_decide (a ∈ l) then go_index (updatePath s) a else go_index (bestPath s) a).
Proof.
  revert s; induction l as [|b l IH]; intros s L1 L2 L3 L4 Hk; cbn [publish].
  - exists (bestAmount s), (bestPath s). split; [by destruct s|]. split; [done|]. split; [done|].
    intros a. by rewrite !bool_decide_eq_false_2 by apply not_elem_of_nil.
  - apply Forall_cons in Hk as [Hb Hk].
    destruct (go_index_known (updatePath s) b L4 Hb) as [p Hp].
    destruct (go_index_known (updateAmount s) b L3 Hb) as [x Hx]. rewrite Hp, Hx.
    destruct (go_set_known (bestPath s) b p L2 Hb) as (bp & -> & Lbp & Ebp & Nbp).
    destruct (go_set_known (bestAmount s) b x L1 Hb) as (ba & -> & Lba & Eba & Nba).
    destruct (IH (mkVars ba (updateAmount s) bp (updatePath s) (updatedAssets s) (nodes s) (ctx_polls s) (paths s)))
      as (ba' & bp' & E & Lba' & Lbp' & HA); try done.
    exists ba', bp'. split; [exact E|]. split; [done|]. split; [done|]. intros a.
    destruct (HA a) as [H1 H2]. cbn in H1, H2. rewrite H1, H2.
    destruct (decide (a = b)) as [->|Hne].
    + rewrite (bool_decide_eq_true_2 (b ∈ b :: l)) by (by left).
      case_bool_decide; [done|]. by rewrite Eba, Ebp, Hp, Hx.
    + rewrite Nba, Nbp by done.
      by rewrite (bool_decide_ext (a ∈ b :: l) (a ∈ l)) by (rewrite elem_of_cons; tauto).
Qed.

Lemma known_index {A} (l : list A) a x : go_len l = N -> go_index l a = Some x -> known a.
Proof. intros H Hx. apply go_index_range in Hx. unfold known. lia. Qed.

(** A round ends with every update published. *)
Lemma publish_inv r base s :
  search_inv r base s ->
  exists s', publish s (updatedAssets s) = Some s' /\
    search_inv (r + 1) (length (nodes s)) (mkVars (bestAmount s') (updateAmount s') (bestPath s')
      (updatePath s') [] (nodes s') (ctx_polls s') (paths s')).
Proof.
  intros I.
  assert (Hk : Forall known (updatedAssets s)).
  { apply Forall_forall. intros a Ha.
    destruct (si_update _ _ _ I a Ha) as (i & q & l & x & _ & _ & _ & _ & _ & Hx & _).
    eapply known_index; [apply (si_update_len _ _ _ I)|exact Hx]. }
  destruct (publish_spec s (updatedAssets s)) as (ba & bp & -> & Lba & Lbp & HA); try apply I; [done|].
  eexists. split; [done|]. split; cbn; try done; try apply I.
  - intros a x. destruct (HA a) as [-> ->]. case_bool_decide as Ha.
    + destruct (si_update _ _ _ I a Ha) as (i & q & l & x' & H1 & H2 & H3 & H4 & H5 & H6 & H7 & H8).
      intros Hx _. rewrite H6 in Hx. injection Hx as <-. exists (Some i), l.
      split; [done|]. split; [intros j [= <-]; by eapply lookup_lt_Some|].
      split; [|split; [done|simpl in *; lia]]. econstructor; [done| |done]. intros j Hj. pose proof (H4 j Hj). lia.
    + intros Hx Hx0. destruct (si_best _ _ _ I a x Hx Hx0) as (p & l & H1 & H2 & H3 & H4 & H5).
      exists p, l. split; [done|]. split; [|split; [done|split; [done|simpl in *; lia]]].
      intros j Hj. pose proof (H2 j Hj). pose proof (si_base _ _ _ I). lia.
  - by intros a ?%elem_of_nil.
  - intros a x y. destruct (HA a) as [-> _]. case_bool_decide as Ha; [congruence|].
    intros Hx Hy Hne. exfalso. apply Ha. by apply (si_diff _ _ _ I a x y).
Qed.

Lemma search_rounds_inv n r base s :
  search_inv r base s -> (r + n + 1 <= maxlen)%nat -> updatedAssets s = [] -> 0 <= N ->
  exists res, search_rounds ctx_Err st n s = Some res /\ forall s', res = Ok s' -> appended maxlen (paths s').
Proof.
  revert r base s. induction n as [|n IH]; intros r base s I Hmax Hu HN; cbn [search_rounds].
  - eexists. split; [done|]. intros s' [= <-]. apply I.
  - rewrite <- Hu.
    assert (E : mkVars (bestAmount s) (updateAmount s) (bestPath s) (updatePath s) (updatedAssets s)
      (nodes s) (ctx_polls s) (paths s) = s) by (by destruct s). rewrite E.
    destruct (search_assets_inv r base (n =? 0)%nat (Z.to_nat N) 0 s I) as (res & -> & Hres); [lia|lia|lia|].
    destruct res as [s1|e]; [|by eexists]. pose proof (Hres s1 eq_refl) as I1.
    destruct (Nat.ltb_spec 0 n) as [Hn|Hn].
    + destruct (publish_inv r base s1 I1) as (s2 & -> & I2).
      destruct n as [|n]; [lia|].
      destruct (IH (r + 1)%nat (length (nodes s1)) _ I2) as (res & E2 & Hres2); [lia|done|done|].
      cbn [search_rounds] in E2 |- *. cbn in E2. by exists res.
    + eexists. split; [done|]. intros s' [= <-]. apply I1.
Qed.

(** The state the rounds start from. *)
Record search_start (s : search_vars) : Prop := {
  start_inv : search_inv 0 1 s;
  start_updated : updatedAssets s = [];
  start_amounts : bestAmount s = updateAmount s;
  start_source : go_index (bestAmount s) src = Some amt;
  start_rest a x : a <> src -> go_index (bestAmount s) a = Some x -> x = 0;
  start_path : includePath st src amt = true -> appendToPaths st [] [src] src amt = Some (paths s)
}.

Lemma search_starts :
  (1 <= maxlen)%nat ->
  exists s, search_start s /\ forall maxPathLength,
    search ctx_Err st maxPathLength src amt =
      let! r := search_rounds ctx_Err st (Z.to_nat maxPathLength) s in
      Some (match r with Err e => Err e | Ok s => Ok (paths s) end).
Proof.
  intros Hmax. unfold search. set (n := Z.to_nat N).
  assert (HL : forall A (x : A), go_len (replicate n x) = N).
  { intros A x. unfold go_len. rewrite length_replicate. unfold known in Hsrc. lia. }
  destruct (go_set_known (replicate n 0) src amt (HL _ _) Hsrc) as (ba & -> & Lba & Eba & Nba).
  destruct (go_set_known (replicate n (@None nat)) src (Some O) (HL _ _) Hsrc) as (bp & -> & Lbp & Ebp & Nbp).
  assert (HS : exists ps, (if includePath st src amt then appendToPaths st [] [src] src amt else Some []) = Some ps
    /\ appended maxlen ps /\ (includePath st src amt = true -> appendToPaths st [] [src] src amt = Some ps)).
  { destruct (includePath st src amt) eqn:Ei; [|by eexists; split_and!; [|constructor|]].
    destruct (law_append [] [src] src amt) as [ps Hps]; [by apply Forall_singleton|done|].
    exists ps. split_and!; [done| |done].
    eapply (appended_path _ [] src []); [constructor|constructor|done|simpl; lia|done]. }
  destruct HS as (ps & -> & Hps & Happ).
  assert (HZ : forall a x, a <> src -> go_index ba a = Some x -> x = 0).
  { intros a x Hne Ha. rewrite Nba in Ha by done. apply go_index_Some in Ha as [_ Ha].
    by apply lookup_replicate in Ha as [-> _]. }
  exists (mkVars ba ba bp (replicate n None) [] [mkNode src None] O ps). split; [|done].
  split; try done. split; cbn; try done.
  - intros a x Ha Hx. destruct (decide (a = src)) as [->|Hne]; [|by apply HZ in Ha].
    rewrite Eba in Ha. injection Ha as <-. exists (Some O), []. split; [done|].
    split; [intros i [= <-]; lia|]. split; [|split; [constructor|simpl; lia]].
    econstructor; [done|done|constructor].
  - by intros a ?%elem_of_nil.
  - intros a x y Hx Hy Hne. congruence.
Qed.

(** The search returns; it returns an error or a list of realised paths. *)
Lemma search_sound maxPathLength :
  (Z.to_nat maxPathLength + 1 <= maxlen)%nat ->
  exists res, search ctx_Err st maxPathLength src amt = Some res /\
    forall ps, res = Ok ps -> appended maxlen ps.
Proof.
  intros Hmax. destruct search_starts as (s & Hs & ->); [lia|].
  destruct (search_rounds_inv (Z.to_nat maxPathLength) 0 1 s (start_inv s Hs)) as (res & -> & Hres);
    [lia|by apply Hs|unfold known in Hsrc; lia|].
  eexists. split; [done|]. intros ps' E. destruct res as [s'|e]; [|done]. injection E as <-. by apply Hres.
Qed.
End Sound.
