(* ===== verification/SearchBest.v ===== *)
(** * Short paths are never missed

    The search keeps one best amount per asset, so it may miss a longer path.
    It never misses a payment of at most two hops: for any search state whose
    amounts are ordered and whose venues do not fail, the paths it appends have,
    for each such payment it may include, one at least as good. *)
From Stdlib Require Import ZArith Lia.
From stdpp Require Import base list vector option gmap sorting.
From S2P Require Import Prelude GoStd GoExt Price Encodings Strkey Asset Pools Edges Graph Search SearchInv.
#[local] Open Scope Z_scope.
#[local] Open Scope go_scope.

Section Best.
Context {C : Type} {SS : searchState C} (ctx_Err : nat -> bool) (st : C) (src amt : Z).
Context (ok : Z -> Prop) {SLW : search_laws st ok}.

(** [quotes a y p]: the path [p] reports the amount [y] of the asset [a]. *)
Context (quotes : Z -> Z -> Path -> Prop).

Definition no_worse (x y : Z) : Prop := betterPathAmount st x y = false.
Abbreviation known := (known st).
Abbreviation N := (totalAssets st).

(** What the completeness of the search needs on top of [search_laws]. *)
Class search_order : Prop := {
  order_refl y : 0 < y -> no_worse y y;
  order_trans x y z : 0 < x -> 0 < y -> 0 < z -> no_worse x y -> no_worse y z -> no_worse x z;
  order_better x y : 0 < x -> 0 < y -> betterPathAmount st x y = true -> no_worse y x;
  order_zero y : 0 < y -> betterPathAmount st 0 y = true;
  order_include a x y : 0 < x -> 0 < y -> no_worse x y -> includePath st a y = true -> includePath st a x = true;
  order_terminal a y : includePath st a y = true -> isTerminalNode st a = true;
  order_keys a edges ed ed' :
    venues st a = Some edges -> ed ∈ edges -> ed' ∈ edges -> key ed = key ed' -> ed = ed';
  order_process cur x edges ed : known cur -> ok x -> 0 < x -> venues st cur = Some edges -> ed ∈ edges ->
    exists y, processVenues st cur x (value ed) = Some (y, None);
  order_append ps l a y ps' : appendToPaths st ps l a y = Some ps' ->
    (exists p, p ∈ ps' /\ quotes a y p) /\ forall p, p ∈ ps -> p ∈ ps'
}.
Context {SOW : search_order}.
Context (Hsrc : known src) (Hamt : ok amt) (Hpos : 0 < amt) (maxlen : nat).
Context (Hctx : forall k, ctx_Err k = false).
Abbreviation search_inv := (search_inv st src amt maxlen).
Abbreviation realises := (realises st src amt).

Lemma realises_pos l x : realises l x -> 0 < x.
Proof. induction 1 as [|cur l x nxt y _ _ _ (edges & ed & _ & _ & _ & _ & Hy)]; done. Qed.

Lemma hop_functional cur x nxt y y' : hop st cur x nxt y -> hop st cur x nxt y' -> y = y'.
Proof.
  intros (es & ed & Hv & Hin & Hk & Hp & _) (es' & ed' & Hv' & Hin' & Hk' & Hp' & _).
  rewrite Hv in Hv'. injection Hv' as <-.
  assert (ed = ed') as <- by (eapply order_keys; [exact Hv|done|done|congruence]). congruence.
Qed.

(** Each amount recorded so far is positive and quoted if it may be. *)
Definition quoted (s : search_vars) : Prop :=
  forall a u, go_index (updateAmount s) a = Some u -> u <> 0 ->
    0 < u /\ (includePath st a u = true -> exists p, p ∈ paths s /\ quotes a u p).

(** The amount recorded for [a] is at least as good as [y]. *)
Definition reaches (s : search_vars) (a y : Z) : Prop :=
  exists u, go_index (updateAmount s) a = Some u /\ 0 < u /\ no_worse u y.

(** Later amounts are at least as good. *)
Definition improves (s s' : search_vars) : Prop :=
  forall a u, go_index (updateAmount s) a = Some u -> 0 < u -> reaches s' a u.

Lemma improves_same s s' : updateAmount s' = updateAmount s -> improves s s'.
Proof. intros E a u Hu Hp. exists u. rewrite E. by split_and!; [|..|apply order_refl]. Qed.

Lemma improves_reaches s s' a y : improves s s' -> 0 < y -> reaches s a y -> reaches s' a y.
Proof.
  intros H Hy (u & Hu & Hp & Hw). destruct (H a u Hu Hp) as (v & Hv & Hpv & Hwv).
  exists v. split_and!; [done|done|]. by apply (order_trans v u y).
Qed.

Lemma improves_trans s1 s2 s3 : improves s1 s2 -> improves s2 s3 -> improves s1 s3.
Proof. intros H1 H2 a u Hu Hp. by apply (improves_reaches s2), H1. Qed.

(** ** One edge *)
Lemma search_edge_best r base s last_step cur x p l edges ed :
  search_inv r base s -> quoted s -> (r + 2 <= maxlen)%nat -> known cur ->
  go_index (bestAmount s) cur = Some x -> x <> 0 -> go_index (bestPath s) cur = Some p ->
  chain (nodes s) p (cur :: l) -> realises (cur :: l) x ->
  venues st cur = Some edges -> ed ∈ edges ->
  exists s', search_edge ctx_Err st last_step cur x p s ed = Some (Ok s') /\ quoted s' /\ improves s s' /\
    forall y, processVenues st cur x (value ed) = Some (y, None) -> 0 < y -> key ed ∉ cur :: l ->
      (last_step = true -> isTerminalNode st (key ed) = true) -> reaches s' (key ed) y.
Proof.
  intros I Q Hmax Hcur Hx Hx0 Hp Hc HR Hes Hed. unfold search_edge. rewrite Hctx.
  destruct (last_step && negb (isTerminalNode st (key ed))) eqn:Hlast.
  { eexists. split_and!; [done|done|by apply improves_same|]. intros y _ _ _ Ht.
    destruct last_step; [|done]. by rewrite Ht in Hlast. }
  rewrite (contains_spec _ _ _ _ Hc). case_bool_decide as Hseen.
  { eexists. split_and!; [done|done|by apply improves_same|]. by intros y _ _ Hn. }
  destruct (realises_ok st src amt ok Hsrc Hamt _ _ HR) as [Hkn Hok].
  destruct (order_process cur x edges ed Hcur Hok (realises_pos _ _ HR) Hes Hed) as [y Hpv].
  rewrite Hpv. destruct (Z.leb_spec y 0) as [Hy|Hy].
  { eexists. split_and!; [done|done|by apply improves_same|]. intros y' [= <-] Hy'. lia. }
  assert (Hkey : known (key ed)).
  { destruct (law_venues st ok cur Hcur) as (es & Hes' & Hk). rewrite Hes in Hes'. injection Hes' as <-.
    rewrite Forall_forall in Hk. by apply Hk. }
  destruct (go_index_known st (updateAmount s) (key ed) (si_update_len _ _ _ _ _ _ _ I) Hkey) as [u Hu].
  destruct (go_index_known st (bestAmount s) (key ed) (si_best_len _ _ _ _ _ _ _ I) Hkey) as [best Hbe].
  rewrite Hu. destruct (betterPathAmount st u y) eqn:Hbet; cbn [negb].
  2:{ assert (Hu0 : u <> 0) by (intros ->; rewrite order_zero in Hbet; done).
      eexists. split_and!; [done|done|by apply improves_same|]. intros y' [= <-] _ _ _.
      exists u. split_and!; [done|by eapply Q|done]. }
  rewrite Hbe.
  destruct (go_set_known st (updateAmount s) (key ed) y (si_update_len _ _ _ _ _ _ _ I) Hkey)
    as (ua & Hua & Lua & Eua & Nua).
  assert (HR' : realises (key ed :: cur :: l) y)
    by (apply (realises_hop st src amt cur l x); [done|done|by exists edges, ed|done]).
  destruct (si_best _ _ _ _ _ _ _ I cur x Hx Hx0) as (p' & l' & Hp' & Hb & Hc' & _ & HL).
  rewrite Hp in Hp'. injection Hp' as <-.
  assert (El : cur :: l = cur :: l')
    by (apply node_assets_spec in Hc, Hc'; congruence).
  destruct (record_path_spec st src amt maxlen r base s (key ed) y p (cur :: l) u best I Hkey HR'
    ltac:(rewrite El; simpl in *; lia) Hb Hc Hu Hbe) as (ua' & upd & nodes' & up & Hua' & -> & Hag & Hlen & _).
  rewrite Hua in Hua' |- *. injection Hua' as <-.
  assert (HI : forall ps k, improves s (mkVars (bestAmount s) ua (bestPath s) up upd nodes' k ps)).
  { intros ps k a v Hv Hpv'. unfold reaches. cbn [updateAmount]. destruct (decide (a = key ed)) as [->|Hne].
    - exists y. split_and!; [done|done|]. rewrite Hu in Hv. injection Hv as ->. by apply order_better.
    - exists v. rewrite Nua by done. by split_and!; [|..|apply order_refl]. }
  assert (HQ : forall ps k, (forall p, p ∈ paths s -> p ∈ ps) ->
    (includePath st (key ed) y = true -> exists p, p ∈ ps /\ quotes (key ed) y p) ->
    quoted (mkVars (bestAmount s) ua (bestPath s) up upd nodes' k ps)).
  { intros ps k Hsub Hquo a v Hv Hv0. cbn [updateAmount paths] in *.
    destruct (decide (a = key ed)) as [->|Hne]; [rewrite Eua in Hv; injection Hv as <-; auto|].
    rewrite Nua in Hv by done. destruct (Q a v Hv Hv0) as [H1 H2]. split; [done|].
    intros (q & Hq & Hqq)%H2. exists q. auto. }
  assert (HC : forall ps k y', Some (y, @None search_error) = Some (y', None) -> reaches
    (mkVars (bestAmount s) ua (bestPath s) up upd nodes' k ps) (key ed) y').
  { intros ps k y' [= <-]. exists y. by split_and!; [|..|apply order_refl]. }
  destruct (includePath st (key ed) y) eqn:Hinc.
  - rewrite Hp. rewrite (node_path_spec nodes' p (cur :: l)) by (by eapply chain_agree).
    destruct (law_append st ok (paths s) (reverse (cur :: l) ++ [key ed]) (key ed) y) as [ps' Hps']; [|done|].
    { rewrite <- reverse_cons, reverse_Permutation. by apply Forall_cons. }
    rewrite Hps'. destruct (order_append _ _ _ _ _ Hps') as [Hq Hsub].
    eexists. split_and!; [done|by apply HQ|apply HI|]. intros y' Hy' _ _ _. by apply HC.
  - eexists. split_and!; [done|by apply HQ|apply HI|]. intros y' Hy' _ _ _. by apply HC.
Qed.

(** No path of the round that brings [x] to [cur] visits [t]. *)
Definition free (r : nat) (cur x t : Z) : Prop :=
  forall l, realises (cur :: l) x -> (length (cur :: l) <= r + 1)%nat -> t ∉ cur :: l.

(** ** One asset, all assets *)
Lemma search_edges_best r base s last_step cur x p edges es :
  search_inv r base s -> quoted s -> (r + 2 <= maxlen)%nat -> known cur ->
  go_index (bestAmount s) cur = Some x -> x <> 0 -> go_index (bestPath s) cur = Some p ->
  venues st cur = Some edges -> (forall ed, ed ∈ es -> ed ∈ edges) ->
  exists s', search_edges ctx_Err st last_step cur x p s es = Some (Ok s') /\ quoted s' /\ improves s s' /\
    forall ed y, ed ∈ es -> processVenues st cur x (value ed) = Some (y, None) -> 0 < y ->
      free r cur x (key ed) -> (last_step = true -> isTerminalNode st (key ed) = true) ->
      reaches s' (key ed) y.
Proof.
  intros I Q Hmax Hcur Hx Hx0 Hp Hes. revert s I Q Hx Hp.
  induction es as [|ed es IH]; intros s I Q Hx Hp Hsub; cbn [search_edges].
  - exists s. split_and!; [done|done|by apply improves_same|]. by intros ed y ?%elem_of_nil.
  - destruct (si_best _ _ _ _ _ _ _ I cur x Hx Hx0) as (p' & l & Hp' & _ & Hc & HR & HL).
    rewrite Hp in Hp'. injection Hp' as <-.
    assert (Hed : ed ∈ edges) by (apply Hsub; by left).
    destruct (search_edge_best r base s last_step cur x p l edges ed) as (s1 & E1 & Q1 & M1 & C1); try done.
    destruct (search_edge_inv ctx_Err st src amt ok Hsrc Hamt maxlen r base s last_step cur x p edges ed)
      as (res & Hres & HI); try done.
    rewrite E1 in Hres |- *. injection Hres as <-. destruct (HI s1 eq_refl) as (I1 & EA & EP).
    destruct (IH s1 I1 Q1) as (s2 & -> & Q2 & M2 & C2); [by rewrite EA|by rewrite EP| |].
    { intros ed' Hin. apply Hsub. by right. }
    exists s2. split_and!; [done|done|by apply (improves_trans s s1)|].
    intros ed' y [->|Hin]%elem_of_cons Hpv Hy Hf Ht; [|by apply C2].
    apply (improves_reaches s1); [done|done|]. by apply C1; [..|apply Hf|].
Qed.

(** What one round reaches from the best amounts it starts with. *)
Definition covers (r : nat) (last_step : bool) (s s' : search_vars) (lo hi : Z) : Prop :=
  forall cur x nxt y, lo <= cur < hi -> go_index (bestAmount s) cur = Some x -> x <> 0 ->
    hop st cur x nxt y -> free r cur x nxt -> (last_step = true -> isTerminalNode st nxt = true) ->
    reaches s' nxt y.

Lemma search_assets_best r base last_step n cur s :
  search_inv r base s -> quoted s -> (r + 2 <= maxlen)%nat -> 0 <= cur -> cur + Z.of_nat n <= N ->
  exists s', search_assets ctx_Err st last_step n cur s = Some (Ok s') /\ search_inv r base s' /\
    quoted s' /\ improves s s' /\ bestAmount s' = bestAmount s /\
    covers r last_step s s' cur (cur + Z.of_nat n).
Proof.
  intros I Q Hmax. revert cur s I Q. induction n as [|n IH]; intros cur s I Q H0 HN; cbn [search_assets].
  - exists s. split_and!; [done|done|done|by apply improves_same|done|]. intros c x nxt y Hc. lia.
  - assert (Hcur : known cur) by (unfold SearchInv.known; lia).
    destruct (go_index_known st (bestAmount s) cur (si_best_len _ _ _ _ _ _ _ I) Hcur) as [x Hx]. rewrite Hx.
    destruct (Z.eqb_spec x 0) as [->|Hx0].
    + destruct (IH (cur + 1) s I Q) as (s' & E' & I' & Q' & M' & EA & C'); [lia|lia|].
      exists s'. split_and!; try done. intros c z nxt y Hc Hz Hz0. apply (C' c); [|done|done].
      destruct (decide (c = cur)) as [->|]; [congruence|lia].
    + destruct (si_best _ _ _ _ _ _ _ I cur x Hx Hx0) as (p & l & Hp & _). rewrite Hp.
      destruct (law_venues st ok cur Hcur) as (edges & Hes & _). rewrite Hes.
      destruct (search_edges_best r base s last_step cur x p edges edges) as (s1 & E1 & Q1 & M1 & C1); try done.
      destruct (search_edges_inv ctx_Err st src amt ok Hsrc Hamt maxlen r base s last_step cur x p edges edges)
        as (res & Hres & HI); try done.
      rewrite E1 in Hres |- *. injection Hres as <-. destruct (HI s1 eq_refl) as (I1 & EA1 & _).
      destruct (IH (cur + 1) s1 I1 Q1) as (s' & E' & I' & Q' & M' & EA & C'); [lia|lia|].
      exists s'. split_and!; [done|done|done|by apply (improves_trans s s1)|congruence|].
      intros c z nxt y Hc Hz Hz0 Hh Hf Ht. destruct (decide (c = cur)) as [->|Hne].
      * rewrite Hx in Hz. injection Hz as <-. destruct Hh as (es & ed & Hv & Hin & <- & Hpv & Hy).
        rewrite Hes in Hv. injection Hv as <-. apply (improves_reaches s1); [done|done|]. by apply C1.
      * apply (C' c z); [lia|by rewrite EA1|done..].
Qed.

(** ** The rounds *)
Lemma search_round_best r base last_step s :
  search_inv r base s -> quoted s -> (r + 2 <= maxlen)%nat ->
  exists s', search_assets ctx_Err st last_step (Z.to_nat N) 0 s = Some (Ok s') /\ search_inv r base s' /\
    quoted s' /\ improves s s' /\ covers r last_step s s' 0 N.
Proof.
  intros I Q Hmax. assert (HN : 0 <= N) by (unfold SearchInv.known in Hsrc; lia).
  destruct (search_assets_best r base last_step (Z.to_nat N) 0 s I Q) as (s' & E & I' & Q' & M & _ & HC);
    [lia|lia|lia|].
  rewrite Z2Nat.id in HC by done. by exists s'.
Qed.

(** Publishing keeps the recorded amounts and makes them the best ones. *)
Lemma publish_best r base s :
  search_inv r base s -> quoted s ->
  exists s', publish s (updatedAssets s) = Some s' /\
    let s0 := mkVars (bestAmount s') (updateAmount s') (bestPath s') (updatePath s') [] (nodes s')
      (ctx_polls s') (paths s') in
    search_inv (r + 1) (length (nodes s)) s0 /\ quoted s0 /\ improves s s0 /\
    forall a u, go_index (updateAmount s) a = Some u -> go_index (bestAmount s0) a = Some u.
Proof.
  intros I Q. destruct (publish_inv ctx_Err st src amt maxlen r base s I) as (s' & E & I').
  assert (HU : updateAmount s' = updateAmount s /\ paths s' = paths s).
  { clear I'. revert E. generalize (updatedAssets s) as l. intros l. clear I Q. revert s.
    induction l as [|a l IH]; intros s; cbn [publish]; [by intros [= <-]|].
    destruct (go_index (updatePath s) a); [|done]. destruct (go_set (bestPath s) _ _); [|done].
    destruct (go_index (updateAmount s) a); [|done]. destruct (go_set (bestAmount s) _ _); [|done].
    intros H. by apply IH in H. }
  destruct HU as [HU HP]. exists s'. split; [done|]. cbv zeta. split_and!; [done|..].
  - intros a u. cbn. rewrite HU, HP. apply Q.
  - by apply improves_same.
  - intros a u Hu. cbn. rewrite <- HU in Hu.
    assert (Ha : known a) by (eapply known_index; [apply (si_update_len _ _ _ _ _ _ _ I')|exact Hu]).
    destruct (go_index_known st (bestAmount s') a (si_best_len _ _ _ _ _ _ _ I') Ha) as [b Hb].
    destruct (decide (b = u)) as [->|Hne]; [done|].
    by pose proof (si_diff _ _ _ _ _ _ _ I' a b u Hb Hu Hne) as []%elem_of_nil.
Qed.

Lemma search_rounds_best n r base s :
  search_inv r base s -> quoted s -> (r + n + 1 <= maxlen)%nat -> updatedAssets s = [] ->
  exists s', search_rounds ctx_Err st n s = Some (Ok s') /\ quoted s' /\ improves s s'.
Proof.
  revert r base s. induction n as [|n IH]; intros r base s I Q Hmax Hu; cbn [search_rounds].
  - exists s. split_and!; [done|done|by apply improves_same].
  - rewrite <- Hu.
    assert (E : mkVars (bestAmount s) (updateAmount s) (bestPath s) (updatePath s) (updatedAssets s)
      (nodes s) (ctx_polls s) (paths s) = s) by (by destruct s). rewrite E.
    destruct (search_round_best r base (n =? 0)%nat s I Q) as (s1 & -> & I1 & Q1 & M1 & _); [lia|].
    destruct (Nat.ltb_spec 0 n) as [Hn|Hn]; [|by exists s1].
    destruct (publish_best r base s1 I1 Q1) as (s2 & -> & I2 & Q2 & M2 & _).
    destruct n as [|n]; [lia|].
    destruct (IH _ _ _ I2 Q2) as (s3 & E3 & Q3 & M3); [lia|done|].
    cbn [search_rounds] in E3 |- *. cbn in E3. exists s3. split_and!; [done|done|].
    apply (improves_trans s s1); [done|]. by eapply improves_trans.
Qed.

(** One round of several, and what is left after it. *)
Lemma search_rounds_step n r base s :
  search_inv r base s -> quoted s -> (r + n + 2 <= maxlen)%nat -> updatedAssets s = [] ->
  exists s1 s', search_rounds ctx_Err st (S n) s = Some (Ok s') /\ covers r (n =? 0)%nat s s1 0 N /\
    improves s1 s' /\ ((0 < n)%nat -> exists s2 base',
      search_rounds ctx_Err st (S n) s = search_rounds ctx_Err st n s2 /\ search_inv (r + 1) base' s2 /\
      quoted s2 /\ updatedAssets s2 = [] /\
      forall a u, go_index (updateAmount s1) a = Some u -> go_index (bestAmount s2) a = Some u).
Proof.
  intros I Q Hmax Hu. cbn [search_rounds]. rewrite <- Hu.
  assert (E : mkVars (bestAmount s) (updateAmount s) (bestPath s) (updatePath s) (updatedAssets s)
    (nodes s) (ctx_polls s) (paths s) = s) by (by destruct s). rewrite E.
  destruct (search_round_best r base (n =? 0)%nat s I Q) as (s1 & -> & I1 & Q1 & M1 & HC); [lia|].
  destruct (Nat.ltb_spec 0 n) as [Hn|Hn].
  2:{ exists s1, s1. split_and!; [done|done|by apply improves_same|lia]. }
  destruct (publish_best r base s1 I1 Q1) as (s2 & -> & I2 & Q2 & M2 & HB). cbv zeta in HB.
  destruct (search_rounds_best n _ _ _ I2 Q2) as (s3 & E3 & Q3 & M3); [lia|done|].
  assert (ES : search_rounds ctx_Err st n s2 = search_rounds ctx_Err st n (mkVars (bestAmount s2)
    (updateAmount s2) (bestPath s2) (updatePath s2) [] (nodes s2) (ctx_polls s2) (paths s2)))
    by (by destruct n; [lia|]).
  exists s1, s3. split_and!; [by rewrite ES|done|by eapply improves_trans|].
  intros _. eexists _, _. split_and!; [exact ES|exact I2|done|done|exact HB].
Qed.

(** ** Payments of at most two hops *)
Lemma search_reaches n s s' a l y :
  search_start st src amt maxlen s -> quoted s -> (n + 1 <= maxlen)%nat ->
  search_rounds ctx_Err st n s = Some (Ok s') -> improves s s' ->
  realises (a :: l) y -> (length l <= 2)%nat -> (length l <= n)%nat -> isTerminalNode st a = true ->
  reaches s' a y.
Proof.
  intros HS Q Hmax E M HR Hl2 Hln Ht. pose proof (start_inv _ _ _ _ _ HS) as I.
  pose proof (start_source _ _ _ _ _ HS) as Hs0.
  assert (F0 : forall t, t <> src -> free 0 src amt t).
  { intros t Hne l' _ Hlen. simpl in Hlen. destruct l'; [|simpl in Hlen; lia].
    by rewrite list_elem_of_singleton. }
  inversion HR as [|cur l' x nxt y' HR1 Hx0 Hh1 Hni1]; subst.
  { apply M; [by rewrite <- (start_amounts _ _ _ _ _ HS)|done]. }
  destruct n as [|n]; [simpl in Hln; lia|].
  destruct (search_rounds_step n 0 1 s I Q) as (s1 & s'' & E1 & C1 & M1 & Hnext); [lia|by apply HS|].
  rewrite E in E1. injection E1 as <-.
  assert (Hy : 0 < y) by (by eapply realises_pos).
  inversion HR1 as [|b l'' x' nxt' y'' HR2 Hx0' Hh2 Hni2]; subst.
  - apply (improves_reaches s1); [done|done|]. apply (C1 src amt a y); try done.
    apply F0. intros ->. apply Hni1. by left.
  - simpl in Hl2, Hln. destruct l''; [|simpl in Hl2; lia].
    inversion HR2; subst.
    destruct Hnext as (s2 & base' & ES & I2 & Q2 & Hu2 & HB); [lia|].
    assert (Hcs : cur <> src) by (intros ->; apply Hni2; by left).
    destruct (C1 src amt cur x) as (u & Hu & Hpu & Hwu); try done; [by apply F0| |].
    { intros ->%Nat.eqb_eq. lia. }
    apply HB in Hu.
    assert (HU : forall m, realises (cur :: m) u -> (length (cur :: m) <= 2)%nat -> m = [src] /\ hop st src amt cur u).
    { intros m Hm Hlen. inversion Hm as [|c m' z c' z' HRm Hz Hhm Hnim]; subst; [done|].
      destruct m'; [|simpl in Hlen; lia]. by inversion HRm; subst. }
    destruct (si_best _ _ _ _ _ _ _ I2 cur u Hu ltac:(lia)) as (p & m & _ & _ & _ & HRm & HLm).
    destruct (HU m HRm HLm) as [-> Hhu].
    assert (u = x) as -> by (by eapply hop_functional).
    destruct n as [|n]; [lia|].
    destruct (search_rounds_step n 1 base' s2 I2 Q2) as (s3 & s4 & E3 & C3 & M3 & _); [lia|done|].
    rewrite ES, E3 in E. injection E as ->.
    apply (improves_reaches s3); [done|done|]. apply (C3 cur x a y); try done.
    + eapply (known_index st); [apply (si_best_len _ _ _ _ _ _ _ I2)|exact Hu].
    + intros m Hm Hlen. destruct (HU m Hm Hlen) as [-> _]. done.
Qed.

(** The search returns its list of paths, and misses no payment of at most two
    hops. *)
Lemma search_best maxPathLength :
  (Z.to_nat maxPathLength + 1 <= maxlen)%nat ->
  exists ps, search ctx_Err st maxPathLength src amt = Some (Ok ps) /\
    forall a l y, realises (a :: l) y -> (length l <= 2)%nat ->
      (length l <= Z.to_nat maxPathLength)%nat -> includePath st a y = true ->
      exists p x, p ∈ ps /\ quotes a x p /\ 0 < x /\ no_worse x y.
Proof.
  intros Hmax. destruct (search_starts ctx_Err st src amt ok Hsrc maxlen) as (s & HS & ->); [lia|].
  assert (Q : quoted s).
  { intros a u Hu Hu0. rewrite <- (start_amounts _ _ _ _ _ HS) in Hu.
    destruct (decide (a = src)) as [->|Hne]; [|by apply (start_rest _ _ _ _ _ HS) in Hu].
    rewrite (start_source _ _ _ _ _ HS) in Hu. injection Hu as <-. split; [done|].
    intros Hi. apply (start_path _ _ _ _ _ HS) in Hi. by apply order_append in Hi as [Hq _]. }
  destruct (search_rounds_best (Z.to_nat maxPathLength) 0 1 s (start_inv _ _ _ _ _ HS) Q) as (s' & E & Q' & M);
    [lia|by apply HS|].
  rewrite E. eexists. split; [done|]. intros a l y HR Hl2 Hln Hi.
  destruct (search_reaches (Z.to_nat maxPathLength) s s' a l y) as (u & Hu & Hpu & Hw); try done;
    [by eapply order_terminal|].
  destruct (Q' a u Hu) as [_ HQ]; [lia|]. destruct HQ as (p & Hp & Hq).
  { apply (order_include a u y); [done| |done|done]. by eapply realises_pos. }
  by exists p, u.
Qed.
End Best.
