(* ===== verification/Consume.v ===== *)
(** * Consuming offers, exactly

    What [consumeOffersForSellingAsset] and [consumeOffersForBuyingAsset] of
    src/exp/orderbook/search.go return on the offers of a ledger, against two
    greedy reference fills without machine arithmetic. *)
From Stdlib Require Import ZArith Lia.
From stdpp Require Import base list vector option gmap sorting.
From S2P Require Import Prelude GoStd GoExt Price Encodings Strkey Asset Pools Edges Graph Search.
#[local] Open Scope Z_scope.
#[local] Open Scope go_scope.

(** An offer as a ledger holds it. *)
Definition fair_offer (o : OfferEntry) : Prop :=
  0 < Amount o <= MaxInt64 /\ valid_price (OfferPrice o).

Definition offer_n (o : OfferEntry) : Z := PriceN (OfferPrice o).
Definition offer_d (o : OfferEntry) : Z := PriceD (OfferPrice o).

(** What the taker pays for [sold] units of an offer, and how many units whole
    paying units can take from it. *)
Definition cost (o : OfferEntry) (sold : Z) : Z := ceil_div (sold * offer_n o) (offer_d o).
Definition capacity (o : OfferEntry) : Z := offer_selling_bound (Amount o) (offer_n o) (offer_d o).

(** A trade: what the taker pays and what the offer sells. *)
Abbreviation trade := (Z * Z)%type.
Definition total_paid (ts : list trade) : Z := foldr Z.add 0 (map fst ts).
Definition total_sold (ts : list trade) : Z := foldr Z.add 0 (map snd ts).

Lemma capacity_range o : fair_offer o -> 0 <= capacity o <= Amount o.
Proof. intros [Ha [Hn Hd]]. apply offer_selling_bound_le; unfold offer_n, offer_d; lia. Qed.

Lemma cost_spec o s : fair_offer o -> s * offer_n o <= cost o s * offer_d o < s * offer_n o + offer_d o.
Proof. intros [Ha [Hn Hd]]. apply ceil_div_spec. unfold offer_d. lia. Qed.

Lemma cost_nonneg o s : fair_offer o -> 0 <= s -> 0 <= cost o s.
Proof. intros [Ha [Hn Hd]] Hs. apply ceil_div_nonneg; unfold offer_d, offer_n; nia. Qed.

Lemma ConvertToBuyingUnits_fair o need :
  fair_offer o -> 0 <= need <= MaxInt64 ->
  let sold := Z.min (capacity o) need in
  ConvertToBuyingUnits (Amount o) need (PriceN (OfferPrice o)) (PriceD (OfferPrice o)) =
    Some (if cost o sold <=? MaxInt64 then Ok (cost o sold, sold) else Err ErrOverflow).
Proof. intros [Ha [Hn Hd]] Hneed. apply ConvertToBuyingUnits_eq; lia. Qed.

(** ** Paying for an amount *)

(** Takes [need] from the offers in order: the trades, and what is left. *)
Fixpoint fill (os : list OfferEntry) (need : Z) : list trade * Z :=
  match os with
  | [] => ([], need)
  | o :: os =>
      let sold := Z.min (capacity o) need in
      if need - sold =? 0 then ([(cost o sold, sold)], 0)
      else let (ts, rest) := fill os (need - sold) in ((cost o sold, sold) :: ts, rest)
  end.

Definition considered (ignoreOffersFrom : option AccountId) (o : OfferEntry) : bool :=
  match ignoreOffersFrom with Some a => negb (AccountId_Equals a (SellerId o)) | None => true end.

(** Some trade costs more than an int64 holds. *)
Definition overflows (ts : list trade) : bool := existsb (fun t => MaxInt64 <? t.1) ts.

(** Each trade respects its offer, and together with the rest they sell [need]. *)
Lemma fill_spec os need :
  Forall fair_offer os -> 0 <= need ->
  let (ts, rest) := fill os need in
  0 <= rest /\ total_sold ts + rest = need /\
  Forall2 (fun t o => 0 <= t.2 <= Amount o /\ t.2 * offer_n o <= t.1 * offer_d o < t.2 * offer_n o + offer_d o)
    ts (take (length ts) os).
Proof.
  intros H. revert need. induction H as [|o os Ho _ IH]; intros need Hneed; cbn [fill].
  - split_and!; [done|done|constructor].
  - pose proof (capacity_range o Ho) as Hc. set (s := Z.min (capacity o) need).
    assert (HT : 0 <= s <= Amount o /\ s * offer_n o <= cost o s * offer_d o < s * offer_n o + offer_d o)
      by (split; [lia|by apply cost_spec]).
    destruct (Z.eqb_spec (need - s) 0) as [E|E].
    + split_and!; [done|cbn; lia|]. simpl. rewrite take_0. constructor; [exact HT|constructor].
    + specialize (IH (need - s) ltac:(lia)). destruct (fill os (need - s)) as [ts rest].
      destruct IH as (H1 & H2 & H3). split_and!; [done|unfold total_sold in *; simpl in *; lia|].
      simpl. by constructor.
Qed.

Lemma i64_add_i64 x y : i64 (i64 x + y) = i64 (x + y).
Proof.
  unfold i64. set (H := 9223372036854775808). set (W := 18446744073709551616).
  pose proof (Z.div_mod (x + H) W ltac:(done)) as E. f_equal.
  replace ((x + H) mod W - H + y + H) with (x + y + H + - ((x + H) / W) * W) by lia.
  apply Z_mod_plus_full.
Qed.

Lemma consumeSelling_fill os ign need total :
  Forall fair_offer os -> 0 < need <= MaxInt64 ->
  let (ts, rest) := fill (filter (fun o => considered ign o = true) os) need in
  consumeSelling_loop os ign need total =
    Some (if overflows ts || negb (rest =? 0) then -1 else i64 (total + total_paid ts), None).
Proof.
  intros H. revert need total. induction H as [|o os Ho _ IH]; intros need total Hneed; cbn [consumeSelling_loop].
  - simpl. by rewrite (proj2 (Z.eqb_neq need 0)) by lia.
  - rewrite filter_cons.
    replace (match ign with Some a => AccountId_Equals a (SellerId o) | None => false end)
      with (negb (considered ign o)) by (destruct ign; [apply negb_involutive|done]).
    destruct (considered ign o); cbn [negb]; [|by apply IH].
    rewrite decide_True by done. cbn [fill]. rewrite ConvertToBuyingUnits_fair by (done || lia). cbv zeta.
    pose proof (capacity_range o Ho) as Hc. set (s := Z.min (capacity o) need).
    assert (Hs : 0 <= need - s <= MaxInt64) by lia.
    destruct (Z.leb_spec (cost o s) MaxInt64) as [Hb|Hb].
    + rewrite (i64_id (need - s)) by (unfold is_i64; lia).
      assert (HO : (MaxInt64 <? cost o s) = false) by lia.
      destruct (Z.eqb_spec (need - s) 0) as [E|E].
      * unfold overflows, total_paid. simpl. rewrite HO. simpl. by rewrite Z.add_0_r.
      * rewrite (proj2 (Z.ltb_ge _ 0)) by lia. specialize (IH (need - s) (i64 (total + cost o s)) ltac:(lia)).
        destruct (fill _ (need - s)) as [ts rest]. rewrite IH. unfold overflows, total_paid. simpl.
        rewrite HO. simpl. by rewrite i64_add_i64, Z.add_assoc.
    + assert (HO : (MaxInt64 <? cost o s) = true) by lia.
      destruct (need - s =? 0); [|destruct (fill _ _)]; unfold overflows; simpl; by rewrite HO.
Qed.

(** ** Spending an amount *)

(** Spends all of [need] on the offers in order, if that buys something. *)
Fixpoint spend (os : list OfferEntry) (need : Z) : option (list trade) :=
  match os with
  | [] => None
  | o :: os =>
      let sold := need * offer_d o / offer_n o in
      if sold =? 0 then None
      else if sold <=? Amount o then Some [(need, sold)]
      else
        let paid := cost o (capacity o) in
        if need - paid =? 0 then Some [(paid, capacity o)]
        else let! ts := spend os (need - paid) in Some ((paid, capacity o) :: ts)
  end.

(** An offer that cannot absorb all of [need] costs at most [need]. *)
Lemma whole_offer_cost o need :
  fair_offer o -> 0 <= need -> Amount o < need * offer_d o / offer_n o -> cost o (capacity o) <= need.
Proof.
  intros Ho Hneed Hq. pose proof (capacity_range o Ho) as Hc. destruct Ho as [Ha [Hn Hd]].
  apply ceil_div_le; [unfold offer_d; lia|]. unfold offer_d, offer_n in *.
  pose proof (floor_div_spec (need * PriceD (OfferPrice o)) (PriceN (OfferPrice o)) ltac:(lia)). nia.
Qed.

Lemma spend_spec os need ts :
  Forall fair_offer os -> 0 < need -> spend os need = Some ts ->
  total_paid ts = need /\ 0 < total_sold ts /\
  Forall2 (fun t o => 0 <= t.2 <= Amount o /\ 0 <= t.1 /\ t.2 * offer_n o <= t.1 * offer_d o)
    ts (take (length ts) os).
Proof.
  intros H. revert need ts. induction H as [|o os Ho _ IH]; intros need ts Hneed; cbn [spend]; [done|].
  pose proof (capacity_range o Ho) as Hc. pose proof (cost_spec o (capacity o) Ho) as Hp.
  pose proof (cost_nonneg o (capacity o) Ho ltac:(lia)) as Hp0.
  assert (Hn : 0 < offer_n o) by (destruct Ho as [_ [Hn _]]; unfold offer_n; lia).
  assert (Hd : 0 < offer_d o) by (destruct Ho as [_ [_ Hd]]; unfold offer_d; lia).
  set (q := need * offer_d o / offer_n o).
  pose proof (floor_div_spec (need * offer_d o) (offer_n o) Hn) as Hq. fold q in Hq.
  assert (0 <= q) by (apply Z.div_pos; nia). destruct (Z.eqb_spec q 0) as [|Hq0]; [done|].
  destruct (Z.leb_spec q (Amount o)) as [Hle|Hgt].
  { intros [= <-]. unfold total_paid, total_sold. simpl. rewrite take_0. split_and!; [lia|lia|].
    constructor; [simpl; lia|constructor]. }
  pose proof (whole_offer_cost o need Ho ltac:(lia) Hgt) as Hle.
  assert (HT : 0 <= capacity o <= Amount o /\ 0 <= cost o (capacity o) /\
    capacity o * offer_n o <= cost o (capacity o) * offer_d o) by lia.
  destruct (Z.eqb_spec (need - cost o (capacity o)) 0) as [E|E].
  - intros [= <-]. unfold total_paid, total_sold. simpl. rewrite take_0. split_and!; [lia| |].
    + assert (0 < cost o (capacity o)) by lia. nia.
    + constructor; [exact HT|constructor].
  - destruct (spend os (need - cost o (capacity o))) as [ts'|] eqn:Es; [|done]. intros [= <-].
    apply IH in Es as (H1 & H2 & H3); [|lia]. unfold total_paid, total_sold in *. simpl.
    split_and!; [lia|lia|]. by constructor.
Qed.

Lemma consumeBuying_spend os need total :
  Forall fair_offer os -> 0 < need <= MaxInt64 ->
  consumeBuying_loop os need total =
    Some (match spend os need with Some ts => i64 (total + total_sold ts) | None => -1 end, None).
Proof.
  intros H. revert need total. induction H as [|o os Ho _ IH]; intros need total Hneed;
    cbn [consumeBuying_loop spend]; [done|].
  pose proof (capacity_range o Ho) as Hc. pose proof Ho as [Ha [Hn Hd]].
  rewrite ConvertToBuyingUnits_fair by (done || lia). rewrite Z.min_l by lia.
  rewrite MulFractionRoundDown_eq by (unfold is_i64; lia). rewrite mul_fraction_guard_pos by lia.
  unfold div_result. fold (offer_d o) (offer_n o). set (q := need * offer_d o / offer_n o).
  assert (0 <= q) by (apply Z.div_pos; unfold offer_n, offer_d; nia).
  set (whole := match (if cost o (capacity o) <=? MaxInt64 then _ else _) with Ok _ => _ | Err _ => _ end).
  assert (HW : Amount o < q -> whole =
    Some (match (if need - cost o (capacity o) =? 0 then Some [(cost o (capacity o), capacity o)]
      else let! ts := spend os (need - cost o (capacity o)) in Some ((cost o (capacity o), capacity o) :: ts))
      with Some ts => i64 (total + total_sold ts) | None => -1 end, None)).
  { intros Hq. subst whole. pose proof (whole_offer_cost o need Ho ltac:(lia) Hq) as Hle.
    pose proof (cost_nonneg o (capacity o) Ho ltac:(lia)).
    rewrite (proj2 (Z.leb_le _ _)) by lia. rewrite (i64_id (need - _)) by (unfold is_i64; lia).
    destruct (Z.eqb_spec (need - cost o (capacity o)) 0) as [E|E].
    - unfold total_sold. simpl. by rewrite Z.add_0_r.
    - rewrite (proj2 (Z.ltb_ge _ 0)) by lia. rewrite IH by lia.
      destruct (spend os _) as [ts|]; [|done]. unfold total_sold. simpl. by rewrite i64_add_i64, Z.add_assoc. }
  destruct (Z.leb_spec q MaxInt64) as [Hq|Hq].
  - destruct (Z.eqb_spec q 0) as [|Hq0]; [done|]. rewrite (proj2 (Z.ltb_ge q 0)) by lia.
    destruct (Z.leb_spec q (Amount o)) as [Hle|Hgt]; [|by apply HW].
    unfold total_sold. simpl. by rewrite Z.add_0_r.
  - rewrite (proj2 (Z.eqb_neq q 0)), (proj2 (Z.leb_gt q (Amount o))) by lia. apply HW. lia.
Qed.

(** ** Properties *)

(** C38: consuming offers to obtain an amount never fails on the offers of a
    ledger. It answers -1 exactly when the offers, those of the ignored account
    left out, cannot supply the amount or one of them costs more than an int64
    holds; otherwise it answers the sum of the costs of a greedy fill, as an
    int64, whose trades sell exactly the amount, none more than its offer holds,
    each at its offer's price rounded up to the next unit. *)
Theorem consumeOffersForSellingAsset_exact os ign need best :
  Forall fair_offer os -> os <> [] -> 0 < need <= MaxInt64 ->
  let others := filter (fun o => considered ign o = true) os in
  let (ts, rest) := fill others need in
  consumeOffersForSellingAsset os ign need best =
    Some (if overflows ts || negb (rest =? 0) then -1 else i64 (total_paid ts), None) /\
  total_sold ts + rest = need /\ 0 <= rest /\
  Forall2 (fun t o => 0 <= t.2 <= Amount o /\ t.2 * offer_n o <= t.1 * offer_d o < t.2 * offer_n o + offer_d o)
    ts (take (length ts) others).
Proof.
  intros H Hne Hneed others. unfold consumeOffersForSellingAsset.
  pose proof (consumeSelling_fill os ign need 0 H Hneed) as E. fold others in E.
  assert (Ho : Forall fair_offer others) by (apply Forall_forall; intros o [_ Hin]%list_elem_of_filter; revert o Hin; by apply Forall_forall).
  pose proof (fill_spec others need Ho ltac:(lia)) as HS. destruct (fill others need) as [ts rest].
  destruct os as [|o os]; [done|]. rewrite (proj2 (Z.eqb_neq (go_len _) 0)) by (unfold go_len; simpl; lia).
  rewrite (proj2 (Z.eqb_neq need 0)) by lia. rewrite E. tauto.
Qed.

(** Consuming offers by spending an amount never fails on the offers of a
    ledger. It answers -1 exactly when no greedy fill spends the whole amount;
    otherwise it answers the units that fill buys, as an int64: it spends exactly
    the amount, takes no more than an offer holds, and never gets a unit below its
    offer's price. *)
Theorem consumeOffersForBuyingAsset_exact os need :
  Forall fair_offer os -> os <> [] -> 0 < need <= MaxInt64 ->
  consumeOffersForBuyingAsset os need =
    Some (match spend os need with Some ts => i64 (total_sold ts) | None => -1 end, None) /\
  forall ts, spend os need = Some ts ->
    total_paid ts = need /\ 0 < total_sold ts /\
    Forall2 (fun t o => 0 <= t.2 <= Amount o /\ 0 <= t.1 /\ t.2 * offer_n o <= t.1 * offer_d o)
      ts (take (length ts) os).
Proof.
  intros H Hne Hneed. split; [|intros ts; apply spend_spec; [done|lia]].
  unfold consumeOffersForBuyingAsset. destruct os as [|o os]; [done|].
  rewrite (proj2 (Z.eqb_neq (go_len _) 0)) by (unfold go_len; simpl; lia).
  rewrite (proj2 (Z.eqb_neq need 0)) by lia. by apply consumeBuying_spend.
Qed.

(** ** Samples *)
Definition sample_sale (id amount n d : Z) : OfferEntry :=
  mkOfferEntry (zero_array 32) id Native (CreditAlphanum4 (zero_array 4) (zero_array 32)) amount
    (mkPrice n d) 0 0.

Lemma sample_sale_fair id amount n d :
  0 < amount <= MaxInt64 -> 0 < n <= MaxInt32 -> 0 < d <= MaxInt32 -> fair_offer (sample_sale id amount n d).
Proof. done. Qed.

(** Three dear offers whose costs add up past an int64: the sum wraps. *)
Lemma consumeOffersForSellingAsset_exact_witness :
  let os := [sample_sale 1 4294967296 2147483647 1; sample_sale 2 4294967296 2147483647 1;
             sample_sale 3 4294967296 2147483647 1] in
  consumeOffersForSellingAsset os None (3 * 4294967296) 0 = Some (9223372023969873920, None) /\
  total_paid (fill os (3 * 4294967296)).1 = 9223372032559808512 * 3.
Proof.
  intros os.
  pose proof (consumeOffersForSellingAsset_exact os None (3 * 4294967296) 0) as H.
  destruct H as [H _].
  - repeat constructor; done.
  - done.
  - done.
  - split; [etransitivity; [exact H|by vm_compute]|by vm_compute].
Defined.

