(* ===== verification/PathsSpec.v ===== *)
(** * The path queries are sound

    Over a graph that represents an order book, both queries return without a
    panic, every path they report was realised by the venues of the book, and
    what sorting and filtering keeps is the best of each asset. *)
From Stdlib Require Import ZArith Lia.
From stdpp Require Import base list vector option gmap sorting.
From S2P Require Import Prelude GoStd GoExt Price Encodings Strkey Asset Pools Edges Graph Tables GraphInv GraphSpec Search SearchInv Consume.
#[local] Open Scope Z_scope.
#[local] Open Scope go_scope.

(** ** Sorting and filtering *)
Definition path_asset (t : sortByType) (p : Path) : bytes :=
  match t with sortBySourceAsset => SourceAsset p | sortByDestinationAsset => DestinationAsset p end.
Definition comparePaths (t : sortByType) : Path -> Path -> bool :=
  match t with sortBySourceAsset => compareSourceAsset | sortByDestinationAsset => compareDestinationAsset end.

(** The amount a query prefers to be small. *)
Definition path_cost (t : sortByType) (p : Path) : Z :=
  match t with sortBySourceAsset => SourceAmount p | sortByDestinationAsset => - DestinationAmount p end.

Lemma comparePaths_spec t p q :
  comparePaths t p q =
  if bool_decide (path_asset t p = path_asset t q) then
    (path_cost t p <? path_cost t q) ||
    ((path_cost t p =? path_cost t q) && (go_len (InteriorNodes p) <? go_len (InteriorNodes q)))
  else bytes_ltb (path_asset t p) (path_asset t q).
Proof.
  destruct t; simpl; unfold compareSourceAsset, compareDestinationAsset; case_bool_decide; try done.
  - destruct (Z.eqb_spec (SourceAmount p) (SourceAmount q)) as [->|]; [by rewrite Z.ltb_irrefl|].
    by rewrite orb_false_r.
  - destruct (Z.eqb_spec (DestinationAmount p) (DestinationAmount q)) as [->|].
    + by rewrite Z.ltb_irrefl, Z.eqb_refl.
    + rewrite (proj2 (Z.eqb_neq _ _)) by lia. rewrite orb_false_r.
      destruct (Z.ltb_spec (DestinationAmount q) (DestinationAmount p)),
        (Z.ltb_spec (- DestinationAmount p) (- DestinationAmount q)); done || lia.
Qed.

Lemma bytes_ltb_asym a b : bytes_ltb a b = true -> bytes_ltb b a = false.
Proof.
  intros H. destruct (bytes_ltb b a) eqn:E; [|done].
  pose proof (bytes_ltb_trans _ _ _ H E) as H1. by rewrite bytes_ltb_irrefl in H1.
Qed.

(** [comparePaths t q p = false]: [p] may come before [q]. *)
Lemma not_compare t p q :
  comparePaths t q p = false <->
  bytes_ltb (path_asset t p) (path_asset t q) = true \/
  (path_asset t p = path_asset t q /\
   (path_cost t p < path_cost t q \/
    (path_cost t p = path_cost t q /\ go_len (InteriorNodes p) <= go_len (InteriorNodes q)))).
Proof.
  rewrite comparePaths_spec. case_bool_decide as E.
  - rewrite E, bytes_ltb_irrefl, orb_false_iff, andb_false_iff, !Z.ltb_ge, Z.eqb_neq.
    split; [intros [H1 H2]; right; split; [done|lia]|].
    intros [|[_ H]]; [done|]. lia.
  - destruct (bytes_ltb_total (path_asset t p) (path_asset t q)) as [H|[H|H]].
    + rewrite (bytes_ltb_asym _ _ H), H. tauto.
    + congruence.
    + rewrite H, (bytes_ltb_asym _ _ H). split; [done|]. intros [|[H' _]]; congruence.
Qed.

Lemma comparePaths_weak t : weak_order (comparePaths t).
Proof.
  split.
  - intros p q H. apply not_compare. rewrite comparePaths_spec in H. case_bool_decide as E; [|by left].
    right. split; [done|]. apply orb_true_iff in H as [H|H]; bool_to_prop; lia.
  - intros p q r. rewrite !not_compare. intros [H1|[E1 H1]] [H2|[E2 H2]].
    + left. by eapply bytes_ltb_trans.
    + left. by rewrite <- E2.
    + left. by rewrite E1.
    + right. split; [congruence|]. lia.
Qed.

Definition with_asset (t : sortByType) (k : bytes) (ps : list Path) : list Path :=
  filter (fun p => path_asset t p = k) ps.

Definition assets_eq (t : sortByType) : Path -> Path -> bool :=
  match t with sortBySourceAsset => sourceAssetEquals | sortByDestinationAsset => destinationAssetEquals end.

Lemma assets_eq_spec t p q : assets_eq t p q = bool_decide (path_asset t p = path_asset t q).
Proof. by destruct t. Qed.

(** Sorted by asset: no later path has a smaller asset. *)
Definition asset_sorted (t : sortByType) : list Path -> Prop :=
  StronglySorted (fun p q => bytes_ltb (path_asset t q) (path_asset t p) = false).

Lemma with_asset_none t k ps :
  Forall (fun p => bytes_ltb k (path_asset t p) = true) ps -> with_asset t k ps = [].
Proof.
  induction 1 as [|p ps Hp _ IH]; [done|]. unfold with_asset in *. rewrite filter_cons_False; [done|].
  intros E. by rewrite E, bytes_ltb_irrefl in Hp.
Qed.

(** The loop after some path: [c] paths of the last asset are kept. *)
Lemma filter_loop_spec t m ps acc last c :
  list.last acc = Some last -> 1 <= c -> asset_sorted t (last :: ps) ->
  exists r, filter_loop (assets_eq t) m ps acc c = acc ++ r /\ sublist r ps /\
    forall k, with_asset t k r =
      if bool_decide (k = path_asset t last) then take (Z.to_nat (m - c)) (with_asset t k ps)
      else take (Z.to_nat (Z.max 1 m)) (with_asset t k ps).
Proof.
  revert acc last c. induction ps as [|p ps IH]; intros acc last c Hl Hc HS; cbn [filter_loop].
  - exists []. split; [by rewrite app_nil_r|]. split; [constructor|]. intros k.
    unfold with_asset. rewrite filter_nil. by rewrite !take_nil; case_bool_decide.
  - apply StronglySorted_cons in HS as [HF HS]. rewrite Hl, assets_eq_spec.
    apply Forall_cons in HF as [Hp HF].
    case_bool_decide as E; cbn [negb].
    + destruct (Z.ltb_spec c m) as [Hm|Hm].
      * destruct (IH (acc ++ [p]) p (c + 1)) as (r & -> & Hsub & Hr); [apply last_snoc|lia|done|].
        exists (p :: r). split; [by rewrite <- app_assoc|]. split; [by constructor|]. intros k.
        unfold with_asset in *. rewrite !filter_cons, Hr, <- E.
        case_bool_decide as Ek.
        -- subst k. rewrite !decide_True by done. replace (Z.to_nat (m - c)) with (S (Z.to_nat (m - (c + 1)))) by lia.
           done.
        -- by rewrite !decide_False by congruence.
      * destruct (IH acc last c Hl Hc) as (r & -> & Hsub & Hr).
        { apply StronglySorted_cons. split; [done|]. by apply StronglySorted_cons in HS as [_ HS]. }
        exists r. split; [done|]. split; [by constructor|]. intros k. rewrite Hr.
        unfold with_asset. rewrite filter_cons. case_bool_decide as Ek.
        -- replace (Z.to_nat (m - c)) with 0%nat by lia. by rewrite !take_0.
        -- by rewrite decide_False by congruence.
    + destruct (IH (acc ++ [p]) p 1) as (r & -> & Hsub & Hr); [apply last_snoc|lia|done|].
      exists (p :: r). split; [by rewrite <- app_assoc|]. split; [by constructor|]. intros k.
      assert (Hlt : bytes_ltb (path_asset t last) (path_asset t p) = true).
      { destruct (bytes_ltb_total (path_asset t last) (path_asset t p)) as [?|[?|?]]; congruence. }
      assert (Hlast : with_asset t (path_asset t last) ps = []).
      { apply with_asset_none. apply StronglySorted_cons in HS as [HF' _].
        rewrite Forall_forall in HF' |- *. intros q Hq. specialize (HF' q Hq).
        destruct (bytes_ltb_total (path_asset t p) (path_asset t q)) as [H|[H|H]].
        - by eapply bytes_ltb_trans.
        - by rewrite <- H.
        - congruence. }
      destruct (decide (k = path_asset t last)) as [->|Hkl].
      * rewrite bool_decide_eq_true_2 by done. unfold with_asset in *.
        rewrite !filter_cons_False, Hr, Hlast by congruence.
        rewrite bool_decide_eq_false_2, !take_nil by done. done.
      * rewrite (bool_decide_eq_false_2 (k = path_asset t last)) by done. unfold with_asset in *.
        destruct (decide (k = path_asset t p)) as [->|Hkp].
        -- rewrite !filter_cons_True, Hr, bool_decide_eq_true_2 by done.
           replace (Z.to_nat (Z.max 1 m)) with (S (Z.to_nat (m - 1))) by lia. done.
        -- rewrite !filter_cons_False, Hr, bool_decide_eq_false_2 by congruence. done.
Qed.

Section Queries.
Context {U : Uint256} {GS : GoSort} {GSL : GoSortLaws GS}.

Lemma sortAndFilterPaths_loop ps m t :
  sortAndFilterPaths ps m t = filter_loop (assets_eq t) m (sort_Sort (comparePaths t) ps) [] 0.
Proof. by destruct t. Qed.

Lemma sorted_by_asset t l :
  StronglySorted (fun p q => comparePaths t q p = false) l -> asset_sorted t l.
Proof.
  induction 1 as [|p l HS IH HF]; [constructor|]. constructor; [done|].
  rewrite Forall_forall in HF |- *. intros q Hq. specialize (HF q Hq).
  apply not_compare in HF as [H|[-> _]]; [by apply bytes_ltb_asym|apply bytes_ltb_irrefl].
Qed.

Lemma sublist_sorted {A} (R : A -> A -> Prop) l k :
  sublist l k -> StronglySorted R k -> StronglySorted R l.
Proof.
  induction 1 as [|x l k Hs IH|x l k Hs IH]; intros HS; [done|..];
    apply StronglySorted_cons in HS as [HF HS].
  - constructor; [by apply IH|]. rewrite Forall_forall in HF |- *. intros y Hy. apply HF.
    by eapply elem_of_submseteq; [|apply sublist_submseteq].
  - by apply IH.
Qed.

Lemma sortAndFilterPaths_spec ps m t :
  let sorted := sort_Sort (comparePaths t) ps in
  sublist (sortAndFilterPaths ps m t) sorted /\
  forall k, with_asset t k (sortAndFilterPaths ps m t) = take (Z.to_nat (Z.max 1 m)) (with_asset t k sorted).
Proof.
  intros sorted. rewrite sortAndFilterPaths_loop. fold sorted.
  pose proof (sort_Sort_sorted (comparePaths t) ps (comparePaths_weak t)) as HS. fold sorted in HS.
  apply sorted_by_asset in HS. destruct sorted as [|p l].
  - split; [constructor|]. intros k. unfold with_asset. by rewrite filter_nil, take_nil.
  - change (filter_loop (assets_eq t) m (p :: l) [] 0) with (filter_loop (assets_eq t) m l [p] 1).
    destruct (filter_loop_spec t m l [p] p 1 eq_refl ltac:(lia) HS) as (r & -> & Hsub & Hr).
    split; [by constructor|]. intros k. unfold with_asset in *. simpl app. rewrite !filter_cons, Hr.
    case_bool_decide as E.
    + subst k. rewrite !decide_True by done.
      by replace (Z.to_nat (Z.max 1 m)) with (S (Z.to_nat (m - 1))) by lia.
    + by rewrite !decide_False by congruence.
Qed.

Lemma sortAndFilterPaths_elem ps m t p : p ∈ sortAndFilterPaths ps m t -> p ∈ ps.
Proof.
  intros Hp. destruct (sortAndFilterPaths_spec ps m t) as [Hs _].
  rewrite <- (sort_Sort_perm (comparePaths t) ps).
  by eapply elem_of_submseteq; [|apply sublist_submseteq].
Qed.
End Queries.

(** ** The venues' arithmetic never panics *)
Lemma guard_i64 x n d q :
  is_i64 x -> is_i64 n -> is_i64 d ->
  mul_fraction_guard x n d (div_result (x * n) d) = Ok q \/
  mul_fraction_guard x n d (div_result (x * n + (d - 1)) d) = Ok q -> is_i64 q.
Proof.
  unfold mul_fraction_guard, div_result, is_i64. intros Hx Hn Hd.
  destruct (Z.eqb_spec d 0); [by intros [|]|].
  destruct (Z.ltb_spec x 0); [by intros [|]|]. destruct (Z.ltb_spec n 0); [by intros [|]|].
  destruct (Z.ltb_spec d 0); [by intros [|]|]. cbn [orb].
  intros [Hq|Hq]; revert Hq; case_bool; [|done| |done]; intros [= <-];
    (split; [|done]); (transitivity 0; [done|]); apply Z.div_pos; nia.
Qed.

Lemma MulFractionRoundDown_total x n d :
  is_i64 x -> is_i64 n -> is_i64 d ->
  exists r, MulFractionRoundDown x n d = Some r /\ forall q, r = Ok q -> is_i64 q.
Proof.
  intros Hx Hn Hd. rewrite MulFractionRoundDown_eq by done. eexists. split; [done|].
  intros q Hq. apply (guard_i64 x n d); auto.
Qed.

Lemma mulFractionRoundUp_total x n d :
  is_i64 x -> is_i64 n -> is_i64 d ->
  exists r, mulFractionRoundUp x n d = Some r /\ forall q, r = Ok q -> is_i64 q.
Proof.
  intros Hx Hn Hd. rewrite mulFractionRoundUp_eq by done. eexists. split; [done|].
  intros q Hq. apply (guard_i64 x n d); auto.
Qed.

Lemma ConvertToBuyingUnits_total a need n d :
  is_i64 a -> is_i64 need -> is_i64 n -> is_i64 d ->
  exists r, ConvertToBuyingUnits a need n d = Some r /\ forall b s, r = Ok (b, s) -> is_i64 b /\ is_i64 s.
Proof.
  intros Ha Hneed Hn Hd. unfold ConvertToBuyingUnits.
  assert (HB : exists bound, (if n <=? d then
      let! r := MulFractionRoundDown a n d in
      match r with Err e => Some (Err e) | Ok result => mulFractionRoundUp result d n end
    else Some (Ok a)) = Some bound /\ forall q, bound = Ok q -> is_i64 q).
  { destruct (n <=? d).
    - destruct (MulFractionRoundDown_total a n d Ha Hn Hd) as (r & -> & Hr).
      destruct r as [q|e]; [|by eexists]. apply mulFractionRoundUp_total; auto.
    - eexists. split; [done|]. by intros q [= <-]. }
  destruct HB as (bound & -> & Hb). destruct bound as [q|e]; [|by eexists].
  assert (Hs : is_i64 (Z.min q need)) by (specialize (Hb q eq_refl); unfold is_i64 in *; lia).
  destruct (mulFractionRoundUp_total (Z.min q need) n d Hs Hn Hd) as (r & -> & Hr).
  destruct r as [v|e]; [|by eexists]. eexists. split; [done|]. intros b s [= <- <-]. auto.
Qed.

(** Offers whose amount and price are machine integers. *)
Definition machine_offer (o : OfferEntry) : Prop :=
  is_i64 (Amount o) /\ is_i64 (PriceN (OfferPrice o)) /\ is_i64 (PriceD (OfferPrice o)).

Lemma is_i64_m1 : is_i64 (-1).
Proof. unfold is_i64. lia. Qed.

Lemma is_i64_0 : is_i64 0.
Proof. unfold is_i64. lia. Qed.
#[local] Hint Resolve is_i64_m1 is_i64_0 i64_range : core.

Lemma consumeSelling_total os ign need total :
  Forall machine_offer os -> is_i64 need -> is_i64 total ->
  exists y e, consumeSelling_loop os ign need total = Some (y, e) /\ is_i64 y.
Proof.
  intros H. revert need total. induction H as [|o os (Ha & Hn & Hd) _ IH]; intros need total Hneed Htotal;
    cbn [consumeSelling_loop]; [by eexists _, _|].
  destruct (match ign with Some a => _ | None => _ end); [by apply IH|].
  destruct (ConvertToBuyingUnits_total _ need _ _ Ha Hneed Hn Hd) as (r & -> & Hr).
  destruct r as [[b s]|[]]; try by eexists _, _.
  destruct (_ =? 0); [by eexists _, _|]. destruct (_ <? 0); [by eexists _, _|]. by apply IH.
Qed.

Lemma consumeBuying_total os need total :
  Forall machine_offer os -> is_i64 need -> is_i64 total ->
  exists y e, consumeBuying_loop os need total = Some (y, e) /\ is_i64 y.
Proof.
  intros H. revert need total. induction H as [|o os (Ha & Hn & Hd) _ IH]; intros need total Hneed Htotal;
    cbn [consumeBuying_loop]; [by eexists _, _|].
  destruct (ConvertToBuyingUnits_total _ _ _ _ Ha Ha Hn Hd) as (c & -> & Hc).
  destruct (MulFractionRoundDown_total need _ _ Hneed Hd Hn) as (r & -> & Hr).
  assert (HC : exists y e, match c with
    | Ok (buy, sold) =>
        if i64 (need - buy) =? 0 then Some (i64 (total + sold), None)
        else if i64 (need - buy) <? 0 then Some (-1, Some errSoldTooMuch)
        else consumeBuying_loop os (i64 (need - buy)) (i64 (total + sold))
    | Err ErrOverflow => Some (-1, None)
    | Err e => Some (-1, Some (PriceError e))
    end = Some (y, e) /\ is_i64 y).
  { destruct c as [[b s]|[]]; try by eexists _, _.
    destruct (_ =? 0); [by eexists _, _|]. destruct (_ <? 0); [by eexists _, _|]. by apply IH. }
  destruct r as [q|[]]; try (by eexists _, _); try exact HC.
  destruct (q =? 0); [by eexists _, _|]. destruct (q <? 0); [by eexists _, _|].
  destruct (q <=? Amount o); [by eexists _, _|]. exact HC.
Qed.

Section Trading.
Context {U : Uint256}.

Lemma CalculatePoolPayout_i64 X Y x fee b : is_i64 (CalculatePoolPayout X Y x fee b).1.1.
Proof.
  unfold CalculatePoolPayout. do 4 (case_match; [apply is_i64_0|]).
  cbv zeta. repeat case_match; simpl; auto.
Qed.

Lemma CalculatePoolExpectation_i64 X Y y fee b : is_i64 (CalculatePoolExpectation X Y y fee b).1.1.
Proof.
  unfold CalculatePoolExpectation. do 4 (case_match; [apply is_i64_0|]).
  cbv zeta. repeat case_match; simpl; auto.
Qed.

Lemma makeTrade_i64 p cp asset t amount :
  pool_of (lp_entry p) cp ->
  exists r, makeTrade p asset t amount = Some r /\ forall q, r = Ok q -> is_i64 q.
Proof.
  intros [HT HB]. unfold makeTrade, GetConstantProduct. rewrite HT, HB. cbn [Z.eqb].
  destruct (amount <=? 0); [by eexists|]. destruct (if negb _ then _ else _) as [X Y].
  destruct (t =? tradeTypeDeposit).
  - pose proof (CalculatePoolPayout_i64 X Y amount (Fee (Params cp)) false) as Hv.
    destruct (CalculatePoolPayout X Y amount _ false) as [[v s] [|]]; (eexists; split; [done|]);
      [by intros q [= <-]|done].
  - destruct (t =? tradeTypeExpectation); [|by eexists].
    pose proof (CalculatePoolExpectation_i64 X Y amount (Fee (Params cp)) false) as Hv.
    destruct (CalculatePoolExpectation X Y amount _ false) as [[v s] [|]]; (eexists; split; [done|]);
      [by intros q [= <-]|done].
Qed.
End Trading.

(** ** The graph gives the search what it needs *)
Section Laws.
Context {U : Uint256} (g : OrderBookGraph) (O : offer_map) (P : pool_map).
Context (R : repr g O P) (Hcap : go_len (idToAssetString g) <= MaxInt32).

Lemma graph_totalAssets_eq : graph_totalAssets g = go_len (idToAssetString g).
Proof. unfold graph_totalAssets. apply i32_id. unfold is_i32, go_len in *. lia. Qed.

(** A venue of the graph: its offers and pool are ledger entries and its
    neighbour is a known asset. *)
Definition graph_venue (k : Z) (v : Venues) : Prop :=
  0 <= k < go_len (idToAssetString g) /\ Forall fair_offer (offers v) /\
  (venue_pool v <> None -> exists cp, pool_of (lp_entry (pool v)) cp).

Lemma fair_offer_of i o : O !! i = Some o -> fair_offer o.
Proof. intros Ho. by destruct (r_O _ _ _ R i o Ho) as [_ [Hp Ha _]]. Qed.

Lemma fair_machine os : Forall fair_offer os -> Forall machine_offer os.
Proof.
  intros H. eapply Forall_impl; [exact H|]. intros o [Ha [Hn Hd]]. unfold machine_offer, is_i64. lia.
Qed.

Lemma expected_pool_ok a k :
  ConstantProduct (Body (lp_entry (expected_pool (liquidityPools g) a k))) <> None ->
  (exists cp, pool_of (lp_entry (expected_pool (liquidityPools g) a k)) cp) /\
  0 <= k < go_len (idToAssetString g).
Proof.
  unfold expected_pool. destruct (liquidityPools g !! (a, k)) as [p|] eqn:E1; [|destruct (liquidityPools g !! (k, a)) as [p|] eqn:E2; [|done]].
  - apply (r_lp _ _ _ R) in E1 as (cp & Hc & _ & Hk & _). intros _.
    split; [by exists cp|by eapply named_range].
  - apply (r_lp _ _ _ R) in E2 as (cp & Hc & Hk & _). intros _.
    split; [by exists cp|by eapply named_range].
Qed.

Lemma table_venue (t : list edgeSet) a e ed :
  wf_table t -> go_index t a = Some e -> ed ∈ e ->
  (forall k o, o ∈ offers (venue t a k) -> fair_offer o /\ 0 <= k < go_len (idToAssetString g)) ->
  (forall k, pool (venue t a k) = expected_pool (liquidityPools g) a k) ->
  graph_venue (key ed) (value ed).
Proof.
  intros W He Hed HO HP. apply list_elem_of_lookup in Hed as [j Hj].
  assert (wf_set e) as [HN HV].
  { apply go_index_Some in He as [_ He']. unfold wf_table in W. by eapply Forall_lookup_1. }
  pose proof (edge_map_lookup e (key ed) j ed HN Hj eq_refl) as HM.
  assert (E : venue t a (key ed) = value ed).
  { unfold venue, venues_or_empty. by rewrite (edges_at_Some t a e He), HM. }
  specialize (HO (key ed)). specialize (HP (key ed)). rewrite E in HO, HP.
  destruct (HV _ _ HM) as [HL _]. unfold graph_venue, venue_pool. rewrite HP. split; [|split].
  - destruct HL as [HL|HL].
    + destruct (offers (value ed)) as [|o os]; [done|]. apply (HO o). by left.
    + unfold venue_pool in HL. rewrite HP in HL. by apply expected_pool_ok in HL as [_ HL].
  - apply Forall_forall. intros o Ho. by apply HO.
  - intros H. by apply expected_pool_ok in H as [H _].
Qed.

Lemma sell_table_venue a e ed :
  go_index (venuesForSellingAsset g) a = Some e -> ed ∈ e -> graph_venue (key ed) (value ed).
Proof.
  intros He Hed. apply (table_venue _ a e ed (r_sell _ _ _ R) He Hed).
  - intros k o Ho. apply (r_offers _ _ _ R) in Ho as (Ho & _ & Hk).
    split; [by eapply fair_offer_of|by eapply named_range].
  - intros k. apply (r_pools _ _ _ R).
Qed.

Lemma buy_table_venue a e ed :
  go_index (venuesForBuyingAsset g) a = Some e -> ed ∈ e -> graph_venue (key ed) (value ed).
Proof.
  intros He Hed. apply (table_venue _ a e ed (r_buy _ _ _ R) He Hed).
  - intros k o Ho. rewrite (proj1 (r_offers _ _ _ R k a)) in Ho.
    apply (r_offers _ _ _ R) in Ho as (Ho & Hk & _).
    split; [by eapply fair_offer_of|by eapply named_range].
  - intros k. apply (r_pools _ _ _ R).
Qed.

Lemma processVenues_total {C} {SS : searchState C} (st : C) cur x k v :
  graph_venue k v -> x <> 0 ->
  (forall cp, pool_of (lp_entry (pool v)) cp ->
     exists r, consumePool st (pool v) cur x = Some r /\ forall q, r = Ok q -> is_i64 q) ->
  (forall best, is_i64 best -> exists y e, consumeOffers st x best (offers v) = Some (y, e) /\ is_i64 y) ->
  exists y e, processVenues st cur x v = Some (y, e) /\ is_i64 y.
Proof.
  intros (_ & _ & HP) Hx HC HO. unfold processVenues. rewrite (proj2 (Z.eqb_neq x 0)) by done.
  assert (HA : exists pa, (if considerPools st && negb (bool_decide (venue_pool v = None)) then
      let! r := consumePool st (pool v) cur x in
      Some (match r with Ok amount => amount | Err _ => 0 end) else Some 0) = Some pa /\ is_i64 pa).
  { destruct (considerPools st); [|by eexists]. case_bool_decide as E; [by eexists|]. simpl.
    destruct (HP E) as [cp Hc]. destruct (HC cp Hc) as (r & -> & Hr).
    destruct r; eexists; (split; [done|]); auto. }
  destruct HA as (pa & -> & Hpa). destruct (_ && _); [by eexists _, _|].
  destruct (HO pa Hpa) as (y & e & -> & Hy). destruct e; [|by eexists _, _].
  destruct (pa =? 0); by eexists _, _.
Qed.

Lemma named_strings l :
  Forall (fun a => 0 <= a < go_len (idToAssetString g)) l ->
  exists s, assetIDsToAssetStrings g l = Some s.
Proof.
  intros H. unfold assetIDsToAssetStrings.
  destruct (mapM (fun id => go_index (idToAssetString g) id) l) eqn:E; [by eexists|].
  apply mapM_None, Exists_exists in E as (x & Hx & E). rewrite Forall_forall in H.
  destruct (go_index_lt (idToAssetString g) x) as [s Hs]; [by apply H|]. congruence.
Qed.

Lemma interior_known (Q : Z -> Prop) l : Forall Q l -> Forall Q (interior l).
Proof.
  intros H. unfold interior. destruct (2 <? go_len l); [|constructor].
  by apply Forall_take, Forall_drop.
Qed.

Lemma reverse_known (Q : Z -> Prop) l : Forall Q l -> Forall Q (reverse l).
Proof. intros H. by rewrite reverse_Permutation. Qed.

#[local] Instance selling_laws (st : sellingGraphSearchState) (E : selling_graph st = g) :
  search_laws st is_i64.
Proof.
  split; unfold known; cbn [totalAssets selling_searchState]; rewrite ?E, ?graph_totalAssets_eq.
  - intros a Ha. cbn. rewrite E. destruct (go_index_lt (venuesForSellingAsset g) a) as [e He].
    { by rewrite (ido_selling g (r_ids _ _ _ R)). }
    exists e. split; [done|]. apply Forall_forall. intros ed Hed.
    by destruct (sell_table_venue a e ed He Hed).
  - intros cur x edges ed Hcur Hx Hx0 Hv Hed. cbn in Hv. rewrite E in Hv.
    apply (processVenues_total st cur x (key ed)); [by eapply sell_table_venue|done|..].
    + intros cp Hc. by apply (makeTrade_i64 _ cp).
    + intros best Hb. cbn. unfold consumeOffersForSellingAsset.
      destruct (sell_table_venue cur edges ed Hv Hed) as (_ & HO%fair_machine & _).
      assert (HPM : forall y, is_i64 y -> is_i64 (positiveMin best y))
        by (intros y Hy; unfold positiveMin; repeat case_match; done).
      destruct (go_len _ =? 0); [eexists _, _; split; [done|auto]|].
      destruct (x =? 0); [eexists _, _; split; [done|auto]|].
      destruct (consumeSelling_total (offers (value ed)) (ignoreOffersFrom st) x 0 HO Hx is_i64_0)
        as (y & e & -> & Hy). eexists _, _. split; [done|auto].
  - intros ps l a y Hl Ha. cbn [appendToPaths selling_searchState]. rewrite reversePath_reverse, E.
    destruct (go_index_lt (idToAssetString g) a) as [s ->]; [done|].
    destruct (named_strings (reverse (interior l))) as [ns ->]; [|by eexists].
    apply reverse_known, interior_known, Hl.
Qed.

#[local] Instance buying_laws (st : buyingGraphSearchState) (E : buying_graph st = g) :
  search_laws st is_i64.
Proof.
  split; unfold known; cbn [totalAssets buying_searchState]; rewrite ?E, ?graph_totalAssets_eq.
  - intros a Ha. cbn. rewrite E. destruct (go_index_lt (venuesForBuyingAsset g) a) as [e He].
    { by rewrite (ido_buying g (r_ids _ _ _ R)). }
    exists e. split; [done|]. apply Forall_forall. intros ed Hed.
    by destruct (buy_table_venue a e ed He Hed).
  - intros cur x edges ed Hcur Hx Hx0 Hv Hed. cbn in Hv. rewrite E in Hv.
    apply (processVenues_total st cur x (key ed)); [by eapply buy_table_venue|done|..].
    + intros cp Hc. by apply (makeTrade_i64 _ cp).
    + intros best Hb. cbn. unfold consumeOffersForBuyingAsset.
      destruct (buy_table_venue cur edges ed Hv Hed) as (_ & HO%fair_machine & _).
      assert (HPM : forall y, is_i64 y -> is_i64 (Z.max y best))
        by (intros y Hy; unfold is_i64 in *; lia).
      destruct (go_len _ =? 0); [eexists _, _; split; [done|auto]|].
      destruct (x =? 0); [eexists _, _; split; [done|auto]|].
      destruct (consumeBuying_total (offers (value ed)) x 0 HO Hx is_i64_0)
        as (y & e & -> & Hy). eexists _, _. split; [done|auto].
  - intros ps l a y Hl Ha. cbn [appendToPaths buying_searchState]. rewrite E.
    destruct (named_strings (interior l)) as [ns ->]; [apply interior_known, Hl|].
    destruct (go_index_lt (idToAssetString g) a) as [s ->]; [done|]. by eexists.
Qed.

(** The nodes between the two ends of a path. *)
Lemma interior_reverse (a : Z) l : interior (reverse (a :: l)) = reverse (take (length l - 1) l).
Proof.
  unfold interior, go_len. rewrite length_reverse. simpl length.
  destruct l as [|z m _] using rev_ind; [done|]. rewrite length_app. simpl length.
  replace (length m + 1 - 1)%nat with (length m) by lia. rewrite take_app_length.
  destruct m as [|b m]; [done|]. rewrite (proj2 (Z.ltb_lt _ _)) by (simpl; lia).
  assert (E : reverse (a :: (b :: m) ++ [z]) = z :: reverse (b :: m) ++ [a])
    by (by rewrite reverse_cons, reverse_app).
  rewrite E. cbn [drop]. apply take_app_length'. rewrite length_reverse. simpl. lia.
Qed.

(** How a path found by a search reads its ids. *)
Definition strings_of (l : list Z) (ns : list bytes) : Prop :=
  Forall2 (fun id s => go_index (idToAssetString g) id = Some s) l ns.

Lemma assetIDsToAssetStrings_Some l ns : assetIDsToAssetStrings g l = Some ns <-> strings_of l ns.
Proof. unfold assetIDsToAssetStrings, strings_of. apply mapM_Some. Qed.

Lemma selling_appended (st : sellingGraphSearchState) src amt maxlen ps p :
  selling_graph st = g -> appended st src amt maxlen ps -> p ∈ ps ->
  exists a l y, realises st src amt (a :: l) y /\ includePath st a y = true /\
    (length (a :: l) <= maxlen)%nat /\
    go_index (idToAssetString g) a = Some (SourceAsset p) /\ SourceAmount p = y /\
    strings_of (take (length l - 1) l) (InteriorNodes p) /\
    DestinationAsset p = destinationAssetString st /\ DestinationAmount p = destinationAssetAmount st.
Proof.
  intros E. induction 1 as [|ps a l y ps' H IH HR Hi HL Happ]; [by intros ?%elem_of_nil|].
  cbn [appendToPaths selling_searchState] in Happ.
  rewrite reversePath_reverse, interior_reverse, reverse_involutive, E in Happ.
  destruct (go_index (idToAssetString g) a) as [s|] eqn:Ea; [|done].
  destruct (assetIDsToAssetStrings g (take (length l - 1) l)) as [ns|] eqn:En; [|done].
  injection Happ as <-. intros [Hp|Hp]%elem_of_app; [by apply IH|].
  apply list_elem_of_singleton in Hp as ->. exists a, l, y. cbn.
  apply assetIDsToAssetStrings_Some in En. done.
Qed.

Lemma buying_appended (st : buyingGraphSearchState) src amt maxlen ps p :
  buying_graph st = g -> appended st src amt maxlen ps -> p ∈ ps ->
  exists a l y, realises st src amt (a :: l) y /\ includePath st a y = true /\
    (length (a :: l) <= maxlen)%nat /\
    go_index (idToAssetString g) a = Some (DestinationAsset p) /\ DestinationAmount p = y /\
    strings_of (reverse (take (length l - 1) l)) (InteriorNodes p) /\
    SourceAsset p = sourceAssetString st /\ SourceAmount p = sourceAssetAmount st.
Proof.
  intros E. induction 1 as [|ps a l y ps' H IH HR Hi HL Happ]; [by intros ?%elem_of_nil|].
  cbn [appendToPaths buying_searchState] in Happ. rewrite interior_reverse, E in Happ.
  destruct (assetIDsToAssetStrings g (reverse (take (length l - 1) l))) as [ns|] eqn:En; [|done].
  destruct (go_index (idToAssetString g) a) as [s|] eqn:Ea; [|done].
  injection Happ as <-. intros [Hp|Hp]%elem_of_app; [by apply IH|].
  apply list_elem_of_singleton in Hp as ->. exists a, l, y. cbn.
  apply assetIDsToAssetStrings_Some in En. done.
Qed.

Lemma source_assets_map_spec i sas balances m :
  (length sas + Z.to_nat i <= length balances)%nat -> 0 <= i ->
  exists m', source_assets_map g i sas balances m = Some m' /\
    forall id b, m' !! id = Some b -> m !! id = Some b \/
      exists j A, sas !! j = Some A /\ balances !! (Z.to_nat i + j)%nat = Some b /\ named g id A.
Proof.
  revert i m. induction sas as [|A sas IH]; intros i m Hl Hi; cbn [source_assets_map].
  - exists m. auto.
  - rewrite Asset_String_name. simpl in Hl. destruct (assetStringToID g !! asset_name A) as [id|] eqn:E.
    + destruct (go_index_lt balances i) as [b Hb]; [unfold go_len; lia|]. rewrite Hb.
      destruct (IH (i + 1) (<[id := b]> m)) as (m' & -> & Hm'); [lia|lia|].
      exists m'. split; [done|]. intros id' b' [H|(j & A' & H1 & H2 & H3)]%Hm'.
      * apply lookup_insert_Some in H as [[<- <-]|[_ H]]; [|by left]. right. exists 0%nat, A.
        apply go_index_Some in Hb as [_ Hb]. rewrite Nat.add_0_r.
        split; [done|]. split; [done|]. by apply named_lookup; [apply R|].
      * right. exists (S j), A'. split; [done|]. split; [|done].
        by replace (Z.to_nat i + S j)%nat with (Z.to_nat (i + 1) + j)%nat by lia.
    + destruct (IH (i + 1) m) as (m' & -> & Hm'); [lia|lia|].
      exists m'. split; [done|]. intros id' b' [H|(j & A' & H1 & H2 & H3)]%Hm'; [by left|].
      right. exists (S j), A'. split; [done|]. split; [|done].
      by replace (Z.to_nat i + S j)%nat with (Z.to_nat (i + 1) + j)%nat by lia.
Qed.

Lemma destination_assets_spec das m :
  exists m', destination_assets g das m = Some m' /\
    forall id, id ∈ m' -> id ∈ m \/ exists A, A ∈ das /\ named g id A.
Proof.
  revert m. induction das as [|A das IH]; intros m; cbn [destination_assets].
  - exists m. auto.
  - rewrite Asset_String_name. destruct (assetStringToID g !! asset_name A) as [id|] eqn:E.
    + destruct (IH ({[id]} ∪ m)) as (m' & -> & Hm'). exists m'. split; [done|].
      intros id' [[->%elem_of_singleton|H]%elem_of_union|(A' & H1 & H2)]%Hm'; [|by left|].
      * right. exists A. split; [by left|]. by apply named_lookup; [apply R|].
      * right. exists A'. split; [by right|done].
    + destruct (IH m) as (m' & -> & Hm'). exists m'. split; [done|].
      intros id' [H|(A' & H1 & H2)]%Hm'; [by left|]. right. exists A'. split; [by right|done].
Qed.
End Laws.

(** ** Properties *)
Lemma realises_last {C} {SS : searchState C} (st : C) src amt l y :
  realises st src amt l y -> list.last l = Some src.
Proof. induction 1 as [|cur l x nxt y HR IH Hx Hh Hni]; [done|]. by rewrite last_cons, IH. Qed.

Section Properties.
Context {U : Uint256} {GS : GoSort} {GSL : GoSortLaws GS}.

(** C36: [FindPaths] is sound. On a graph that represents an order book it
    returns without a panic, and each path it reports ends in the requested
    asset and amount, starts from one of the source assets within its balance
    when balances are validated, visits no asset twice, has at most
    [maxPathLength] hops named in order by its interior nodes, and its source
    amount is what the venues between them, hop by hop from the destination,
    require. *)
Theorem FindPaths_sound ctx_Err g O P maxPathLength dst dstAmount ign sas balances validate maxPer pools :
  represents g O P -> go_len (idToAssetString g) <= MaxInt32 -> is_i64 dstAmount ->
  (length sas <= length balances)%nat ->
  exists r, FindPaths ctx_Err g maxPathLength dst dstAmount ign sas balances validate maxPer pools
      = Some (r, lastLedger g) /\
    forall ps p, r = Ok ps -> p ∈ ps ->
      DestinationAsset p = asset_name dst /\ DestinationAmount p = dstAmount /\
      exists m d a l j A b,
        let st := mkSellingState g (asset_name dst) dstAmount ign m validate pools in
        named g d dst /\ list.last (a :: l) = Some d /\
        realises st d dstAmount (a :: l) (SourceAmount p) /\ NoDup (a :: l) /\
        (length l <= Z.to_nat maxPathLength)%nat /\
        sas !! j = Some A /\ balances !! j = Some b /\ named g a A /\ SourceAsset p = asset_name A /\
        (validate = true -> SourceAmount p <= b) /\
        strings_of g (take (length l - 1) l) (InteriorNodes p).
Proof.
  intros [R _] Hcap Hamt Hbal. unfold FindPaths, findPathsWithLock. rewrite Asset_String_name.
  destruct (source_assets_map_spec g O P R 0 sas balances ∅) as (m & -> & Hm); [simpl; lia|lia|].
  destruct (assetStringToID g !! asset_name dst) as [d|] eqn:Ed.
  2:{ eexists. split; [done|]. intros ps p [= <-] Hp. apply sortAndFilterPaths_elem, elem_of_nil in Hp as []. }
  destruct (_ =? 0).
  { eexists. split; [done|]. intros ps p [= <-] Hp. apply sortAndFilterPaths_elem, elem_of_nil in Hp as []. }
  apply (named_lookup g d dst (r_ids _ _ _ R)) in Ed.
  set (st := mkSellingState g (asset_name dst) dstAmount ign m validate pools).
  pose proof (selling_laws g O P R Hcap st eq_refl) as L.
  destruct (search_sound ctx_Err st d dstAmount is_i64) with (maxlen := (Z.to_nat maxPathLength + 1)%nat)
    (maxPathLength := maxPathLength) as (r & -> & Hr); [|done|lia|].
  { unfold known. cbn. rewrite (graph_totalAssets_eq g Hcap). by eapply named_range. }
  destruct r as [ps|e]; (eexists; split; [done|]); [|done].
  intros ps' p [= <-] Hp%sortAndFilterPaths_elem.
  destruct (selling_appended g st d dstAmount _ ps p eq_refl (Hr ps eq_refl) Hp)
    as (a & l & y & HR & Hi & HL & Ha & Hy & Hns & -> & ->).
  split; [done|]. split; [done|]. cbn in Hi.
  destruct (m !! a) as [b|] eqn:Eb; [|done].
  apply Hm in Eb as [Eb|(j & A & Hj & Hb & HA)]; [by rewrite lookup_empty in Eb|].
  exists m, d, a, l, j, A, b. fold st. rewrite Hy. split; [done|]. split; [exact (realises_last st _ _ _ _ HR)|].
  split; [done|]. split; [exact (realises_simple st _ _ _ _ HR)|]. split; [simpl in HL; lia|].
  split; [done|]. split; [done|]. split; [done|]. split; [unfold named in HA; congruence|]. split; [|done].
  intros ->. simpl in Hi. by apply Z.leb_le in Hi.
Qed.

(** [FindFixedPaths] is sound. On a graph that represents an order book it
    returns without a panic, and each path it reports spends exactly the given
    amount of the source asset, ends in one of the destination assets, visits no
    asset twice, has at most [maxPathLength] hops named in order by its interior
    nodes, and its destination amount is what the venues between them, hop by
    hop from the source, pay out. *)
Theorem FindFixedPaths_sound ctx_Err g O P maxPathLength source amount das maxPer pools :
  represents g O P -> go_len (idToAssetString g) <= MaxInt32 -> is_i64 amount ->
  exists r, FindFixedPaths ctx_Err g maxPathLength source amount das maxPer pools
      = Some (r, lastLedger g) /\
    forall ps p, r = Ok ps -> p ∈ ps ->
      SourceAsset p = asset_name source /\ SourceAmount p = amount /\
      exists m s a l A,
        let st := mkBuyingState g (asset_name source) amount m pools in
        named g s source /\ list.last (a :: l) = Some s /\
        realises st s amount (a :: l) (DestinationAmount p) /\ NoDup (a :: l) /\
        (length l <= Z.to_nat maxPathLength)%nat /\
        A ∈ das /\ named g a A /\ DestinationAsset p = asset_name A /\
        strings_of g (reverse (take (length l - 1) l)) (InteriorNodes p).
Proof.
  intros [R _] Hcap Hamt. unfold FindFixedPaths, findFixedPathsWithLock. rewrite Asset_String_name.
  destruct (destination_assets_spec g O P R das ∅) as (m & -> & Hm).
  destruct (assetStringToID g !! asset_name source) as [s|] eqn:Es.
  2:{ eexists. split; [done|]. intros ps p [= <-] Hp. apply sortAndFilterPaths_elem, elem_of_nil in Hp as []. }
  destruct (_ =? 0).
  { eexists. split; [done|]. intros ps p [= <-] Hp. apply sortAndFilterPaths_elem, elem_of_nil in Hp as []. }
  apply (named_lookup g s source (r_ids _ _ _ R)) in Es.
  set (st := mkBuyingState g (asset_name source) amount m pools).
  pose proof (buying_laws g O P R Hcap st eq_refl) as L.
  destruct (search_sound ctx_Err st s amount is_i64) with (maxlen := (Z.to_nat maxPathLength + 1)%nat)
    (maxPathLength := maxPathLength) as (r & -> & Hr); [|done|lia|].
  { unfold known. cbn. rewrite (graph_totalAssets_eq g Hcap). by eapply named_range. }
  destruct r as [ps|e]; (eexists; split; [done|]); [|done].
  intros ps' p [= <-] Hp%sortAndFilterPaths_elem.
  destruct (buying_appended g st s amount _ ps p eq_refl (Hr ps eq_refl) Hp)
    as (a & l & y & HR & Hi & HL & Ha & Hy & Hns & -> & ->).
  split; [done|]. split; [done|]. cbn in Hi. apply bool_decide_eq_true in Hi.
  apply Hm in Hi as [Hi|(A & Hin & HA)]; [set_solver|].
  exists m, s, a, l, A. fold st. rewrite Hy. split; [done|]. split; [exact (realises_last st _ _ _ _ HR)|].
  split; [done|]. split; [exact (realises_simple st _ _ _ _ HR)|]. split; [simpl in HL; lia|].
  split; [done|]. split; [done|]. split; [unfold named in HA; congruence|]. done.
Qed.

(** Sorting and filtering keeps the best paths of each asset: the result is
    sorted by asset, then by amount, then by length; of each asset it has the
    first [max 1 maxPathsPerAsset] paths of a sorted permutation of the input; so
    no dropped path is better than a kept one of its asset. *)
Theorem sortAndFilterPaths_best ps m t :
  let out := sortAndFilterPaths ps m t in
  exists sorted, sorted ≡ₚ ps /\
    StronglySorted (fun p q => comparePaths t q p = false) sorted /\
    StronglySorted (fun p q => comparePaths t q p = false) out /\
    (forall k, with_asset t k out = take (Z.to_nat (Z.max 1 m)) (with_asset t k sorted)) /\
    (forall p q, p ∈ out -> q ∈ ps -> q ∉ out -> path_asset t p = path_asset t q ->
       comparePaths t q p = false).
Proof.
  intros out. pose proof (sort_Sort_sorted (comparePaths t) ps (comparePaths_weak t)) as HS.
  pose proof (sort_Sort_perm (comparePaths t) ps) as HP.
  destruct (sortAndFilterPaths_spec ps m t) as [Hsub Hk]. fold out in Hsub, Hk.
  set (sorted := sort_Sort (comparePaths t) ps) in *. exists sorted.
  split; [done|]. split; [done|]. split; [by eapply sublist_sorted|]. split; [done|].
  intros p q Hp Hq Hnq E. set (k := path_asset t q).
  assert (HSk : StronglySorted (fun p q => comparePaths t q p = false) (with_asset t k sorted))
    by (eapply sublist_sorted; [apply sublist_filter|done]).
  specialize (Hk k). set (n := Z.to_nat (Z.max 1 m)) in *.
  rewrite <- (take_drop n (with_asset t k sorted)) in HSk.
  apply StronglySorted_app in HSk as (HX & _ & _). apply HX.
  - rewrite <- Hk. by apply list_elem_of_filter.
  - assert (Hq' : q ∈ with_asset t k sorted)
      by (apply list_elem_of_filter; split; [done|]; by rewrite HP).
    rewrite <- (take_drop n (with_asset t k sorted)) in Hq'. apply elem_of_app in Hq' as [Hq'|Hq']; [|done].
    rewrite <- Hk in Hq'. apply list_elem_of_filter in Hq' as [_ Hq']. done.
Qed.
End Properties.

(** ** Sample queries *)
Definition sample_credit : Asset := CreditAlphanum4 (zero_array 4) (zero_array 32).

Definition sample_FindPaths : option (result search_error (list Path) * Z) :=
  @FindPaths Concrete.z_uint256 Concrete.merge_sort_go (fun _ => false) sample_graph 5 Native 7 None
    [sample_credit; Native] [100; 100] true 3 true.

Lemma FindPaths_sound_witness :
  exists ps p, sample_FindPaths = Some (Ok ps, 0) /\ length ps = 2%nat /\ p ∈ ps /\
    DestinationAmount p = 7 /\ SourceAmount p = 21.
Proof.
  destruct represents_sample_graph as [RU Hcap].
  destruct (@FindPaths_sound Concrete.z_uint256 Concrete.merge_sort_go Concrete.merge_sort_go_laws
    (fun _ => false) sample_graph _ _ 5 Native 7 None [sample_credit; Native] [100; 100] true 3 true
    RU Hcap) as (r & Hr & H); [done|simpl; lia|].
  destruct r as [ps|e]; [|exfalso; revert Hr; by vm_compute].
  assert (E : ps !! 0%nat ≫= (fun p => Some (SourceAmount p)) = Some 21 /\ length ps = 2%nat)
    by (revert Hr; vm_compute; by intros [= <-]).
  destruct E as [E El]. destruct (ps !! 0%nat) as [p|] eqn:Hp; [|done].
  exists ps, p. split; [exact Hr|]. split; [exact El|].
  apply list_elem_of_lookup_2 in Hp. split; [exact Hp|].
  destruct (H ps p eq_refl Hp) as (_ & HA & _). split; [exact HA|]. simpl in E. congruence.
Defined.

Definition sample_FindFixedPaths : option (result search_error (list Path) * Z) :=
  @FindFixedPaths Concrete.z_uint256 Concrete.merge_sort_go (fun _ => false) sample_graph 5
    sample_credit 7 [Native] 3 true.

