(* ===== verification/PathsBest.v ===== *)
(** * Quotes are never worse than a short payment

    On a graph that represents an order book both path queries answer, and for
    every payment of at most two hops they could include, what they report in
    that asset is at least as good. *)
From Stdlib Require Import ZArith Lia.
From stdpp Require Import base list vector option gmap sorting.
From S2P Require Import Prelude GoStd GoExt Price Encodings Strkey Asset Pools Edges Graph Tables GraphInv GraphSpec Search SearchInv SearchBest.
From S2P Require Import Consume PathsSpec.
#[local] Open Scope Z_scope.
#[local] Open Scope go_scope.

Lemma processVenues_no_error {C} {SS : searchState C} (st : C) cur x v :
  (venue_pool v <> None -> exists r, consumePool st (pool v) cur x = Some r) -> x <> 0 ->
  (forall best, exists y e, consumeOffers st x best (offers v) = Some (y, e) /\ (offers v <> [] -> e = None)) ->
  exists y, processVenues st cur x v = Some (y, None).
Proof.
  intros HC Hx HO. unfold processVenues. rewrite (proj2 (Z.eqb_neq x 0)) by done.
  assert (HA : exists pa, (if considerPools st && negb (bool_decide (venue_pool v = None)) then
      let! r := consumePool st (pool v) cur x in
      Some (match r with Ok amount => amount | Err _ => 0 end) else Some 0) = Some pa).
  { destruct (considerPools st); [|by eexists]. case_bool_decide as E; [by eexists|]. simpl.
    destruct (HC E) as (r & ->). by eexists. }
  destruct HA as (pa & ->). destruct (HO pa) as (y & e & Hy & He).
  destruct (Z.eqb_spec pa 0) as [->|Hpa]; cbn [andb].
  - destruct (Z.eqb_spec (go_len (offers v)) 0) as [E|E]; [by eexists|]. rewrite Hy.
    rewrite He by (intros H; apply E; by rewrite H). by eexists.
  - rewrite Hy. destruct e; by eexists.
Qed.

Lemma consume_any {A} (os : list A) need (r : option (Z * option search_error)) (f : Z -> Z) :
  need <> 0 -> (os <> [] -> exists y, r = Some (y, None)) ->
  exists y e, (let! (n, err) := if go_len os =? 0 then Some (0, Some errEmptyOffers)
      else if need =? 0 then Some (0, Some errAssetAmountIsZero) else r in Some (f n, err)) = Some (y, e) /\
    (os <> [] -> e = None).
Proof.
  intros Hn H. destruct os as [|o os]; [by eexists _, _|].
  rewrite (proj2 (Z.eqb_neq (go_len _) 0)) by (unfold go_len; simpl; lia).
  rewrite (proj2 (Z.eqb_neq need 0)) by done. destruct H as [y ->]; [done|]. by eexists _, _.
Qed.

(** The head of what filtering keeps of an asset is its best path. *)
Lemma sortAndFilterPaths_keeps {GS : GoSort} {GSL : GoSortLaws GS} ps m t q :
  q ∈ ps -> exists p, p ∈ sortAndFilterPaths ps m t /\ path_asset t p = path_asset t q /\
    path_cost t p <= path_cost t q.
Proof.
  intros Hq. pose proof (sort_Sort_sorted (comparePaths t) ps (comparePaths_weak t)) as HS.
  pose proof (sort_Sort_perm (comparePaths t) ps) as HP.
  destruct (sortAndFilterPaths_spec ps m t) as [Hsub Hk].
  set (sorted := sort_Sort (comparePaths t) ps) in *. specialize (Hk (path_asset t q)).
  assert (Hqk : q ∈ with_asset t (path_asset t q) sorted)
    by (apply list_elem_of_filter; split; [done|by rewrite HP]).
  assert (HSk : StronglySorted (fun p q => comparePaths t q p = false) (with_asset t (path_asset t q) sorted))
    by (eapply sublist_sorted; [apply sublist_filter|done]).
  destruct (with_asset t (path_asset t q) sorted) as [|p l]; [by apply elem_of_nil in Hqk|].
  replace (Z.to_nat (Z.max 1 m)) with (S (Z.to_nat (Z.max 1 m - 1))) in Hk by lia. simpl in Hk.
  assert (Hp : p ∈ with_asset t (path_asset t q) (sortAndFilterPaths ps m t)) by (rewrite Hk; by left).
  apply list_elem_of_filter in Hp as [Ep Hp]. exists p. split_and!; [done|done|].
  apply elem_of_cons in Hqk as [->|Hql]; [lia|].
  apply StronglySorted_cons in HSk as [HF _]. rewrite Forall_forall in HF. specialize (HF q Hql).
  apply not_compare in HF as [H|[_ H]]; [|lia].
  rewrite Ep, bytes_ltb_irrefl in H. done.
Qed.

Section Laws.
Context {U : Uint256} (g : OrderBookGraph) (O : offer_map) (P : pool_map).
Context (R : repr g O P) (Hcap : go_len (idToAssetString g) <= MaxInt32).

Lemma table_keys (t : list edgeSet) a e ed ed' :
  wf_table t -> go_index t a = Some e -> ed ∈ e -> ed' ∈ e -> key ed = key ed' -> ed = ed'.
Proof.
  intros W He Hed Hed' Hk. apply go_index_Some in He as [_ He].
  destruct (Forall_lookup_1 _ _ _ _ W He) as [HN _].
  apply list_elem_of_lookup in Hed as [i Hi], Hed' as [j Hj].
  pose proof (edge_keys_lookup e i ed Hi) as Ki. pose proof (edge_keys_lookup e j ed' Hj) as Kj.
  rewrite Hk in Ki. assert (i = j) as -> by (by eapply NoDup_lookup). congruence.
Qed.

(** A path reports an amount of an asset, at its source or at its destination. *)
Definition source_quote (a y : Z) (p : Path) : Prop :=
  go_index (idToAssetString g) a = Some (SourceAsset p) /\ SourceAmount p = y.
Definition destination_quote (a y : Z) (p : Path) : Prop :=
  go_index (idToAssetString g) a = Some (DestinationAsset p) /\ DestinationAmount p = y.

#[local] Instance selling_order (st : sellingGraphSearchState) (E : selling_graph st = g) :
  search_order st is_i64 source_quote.
Proof.
  split; unfold no_worse; cbn [betterPathAmount selling_searchState isTerminalNode includePath].
  - intros y Hy. rewrite !(proj2 (Z.eqb_neq _ 0)) by lia. lia.
  - intros x y z Hx Hy Hz. rewrite !(proj2 (Z.eqb_neq _ 0)) by lia. lia.
  - intros x y Hx Hy. rewrite !(proj2 (Z.eqb_neq _ 0)) by lia. lia.
  - done.
  - intros a x y Hx Hy. rewrite !(proj2 (Z.eqb_neq _ 0)) by lia.
    destruct (selling_targetAssets st !! a) as [b|]; [|done].
    intros Hw [H|H]%orb_true_iff; apply orb_true_iff; [by left|right; lia].
  - intros a y. destruct (selling_targetAssets st !! a); [|done]. intros _. by apply bool_decide_eq_true_2.
  - intros a edges ed ed'. cbn. rewrite E. apply table_keys, (r_sell _ _ _ R).
  - intros cur x edges ed Hcur Hx Hx0 Hv Hed. cbn in Hv. rewrite E in Hv.
    destruct (sell_table_venue g O P R cur edges ed Hv Hed) as (_ & HO & HP).
    apply processVenues_no_error; [|lia|].
    + intros [cp Hc]%HP. destruct (makeTrade_i64 (pool (value ed)) cp
        (getOtherAsset cur (pool (value ed))) tradeTypeExpectation x Hc) as (r & Hr & _). by exists r.
    + intros best. cbn. apply consume_any; [lia|]. intros _.
      unfold is_i64 in Hx. pose proof (consumeSelling_fill (offers (value ed)) (ignoreOffersFrom st) x 0 HO ltac:(lia)) as H.
      destruct (fill _ x) as [ts rest]. rewrite H. by eexists.
  - intros ps l a y ps'. cbn [appendToPaths selling_searchState]. rewrite E.
    destruct (reversePath (interior l)); [|done]. destruct (go_index _ a) as [s|] eqn:Ea; [|done].
    destruct (assetIDsToAssetStrings g _) as [ns|]; [|done]. intros [= <-]. split.
    + eexists. split; [apply elem_of_app; right; by left|]. done.
    + intros p Hp. apply elem_of_app. by left.
Qed.

#[local] Instance buying_order (st : buyingGraphSearchState) (E : buying_graph st = g) :
  search_order st is_i64 destination_quote.
Proof.
  split; unfold no_worse; cbn [betterPathAmount buying_searchState isTerminalNode includePath].
  - intros y Hy. lia.
  - intros x y z. lia.
  - intros x y. lia.
  - intros y Hy. lia.
  - done.
  - done.
  - intros a edges ed ed'. cbn. rewrite E. apply table_keys, (r_buy _ _ _ R).
  - intros cur x edges ed Hcur Hx Hx0 Hv Hed. cbn in Hv. rewrite E in Hv.
    destruct (buy_table_venue g O P R cur edges ed Hv Hed) as (_ & HO & HP).
    apply processVenues_no_error; [|lia|].
    + intros [cp Hc]%HP. destruct (makeTrade_i64 (pool (value ed)) cp cur tradeTypeDeposit x Hc)
        as (r & Hr & _). by exists r.
    + intros best. cbn. apply (consume_any (offers (value ed)) x _ (fun n => Z.max n best)); [lia|]. intros _.
      unfold is_i64 in Hx. rewrite consumeBuying_spend by (done || lia). by eexists.
  - intros ps l a y ps'. cbn [appendToPaths buying_searchState]. rewrite E.
    destruct (assetIDsToAssetStrings g _) as [ns|]; [|done].
    destruct (go_index _ a) as [s|] eqn:Ea; [|done]. intros [= <-]. split.
    + eexists. split; [apply elem_of_app; right; by left|]. done.
    + intros p Hp. apply elem_of_app. by left.
Qed.
End Laws.

(** ** Properties *)
Section Properties.
Context {U : Uint256} {GS : GoSort} {GSL : GoSortLaws GS}.

(** C37: [FindPaths] misses no short payment. On a graph that represents an order
    book, for a positive amount and a context that is not cancelled, it answers
    without an error; and for every payment of at most two hops (and no more than
    [maxPathLength]) that the venues realise and the source balance allows, the
    answer has a path from the same source asset that costs no more. *)
Theorem FindPaths_complete ctx_Err g O P maxPathLength dst dstAmount ign sas balances validate maxPer pools :
  represents g O P -> go_len (idToAssetString g) <= MaxInt32 -> 0 < dstAmount <= MaxInt64 ->
  (length sas <= length balances)%nat -> (forall k, ctx_Err k = false) ->
  exists ps, FindPaths ctx_Err g maxPathLength dst dstAmount ign sas balances validate maxPer pools
      = Some (Ok ps, lastLedger g) /\
    forall m d a l y A, source_assets_map g 0 sas balances ∅ = Some m -> named g d dst -> named g a A ->
      let st := mkSellingState g (asset_name dst) dstAmount ign m validate pools in
      realises st d dstAmount (a :: l) y -> (length l <= 2)%nat -> (length l <= Z.to_nat maxPathLength)%nat ->
      includePath st a y = true ->
      exists p, p ∈ ps /\ SourceAsset p = asset_name A /\ SourceAmount p <= y.
Proof.
  intros [R _] Hcap Hamt Hbal Hctx. unfold FindPaths, findPathsWithLock. rewrite Asset_String_name.
  destruct (source_assets_map_spec g O P R 0 sas balances ∅) as (m & Em & _); [simpl; lia|lia|].
  rewrite Em. destruct (assetStringToID g !! asset_name dst) as [d|] eqn:Ed.
  2:{ eexists. split; [done|]. intros m' d a l y A _ Hd.
      apply (named_lookup g d dst (r_ids _ _ _ R)) in Hd. congruence. }
  destruct (Z.eqb_spec (Z.of_nat (size m)) 0) as [E0|_].
  { eexists. split; [done|]. intros m' d' a l y A Em' _ _ _ _ _ Hi. exfalso.
    injection Em' as <-.
    assert (m = ∅) as -> by (apply map_size_empty_inv; lia).
    cbn in Hi. by rewrite lookup_empty in Hi. }
  apply (named_lookup g d dst (r_ids _ _ _ R)) in Ed.
  set (st := mkSellingState g (asset_name dst) dstAmount ign m validate pools) in *.
  pose proof (selling_laws g O P R Hcap st eq_refl) as L.
  pose proof (selling_order g O P R st eq_refl) as L'.
  destruct (search_best ctx_Err st d dstAmount is_i64 (source_quote g)) with
    (maxlen := (Z.to_nat maxPathLength + 1)%nat) (maxPathLength := maxPathLength) as (ps & -> & Hps);
    [|unfold is_i64; lia|lia|done|lia|].
  { unfold known. cbn. rewrite (graph_totalAssets_eq g Hcap). by eapply named_range. }
  eexists. split; [done|]. intros m' d' a l y A Em' Hd' Ha HR Hl2 Hl Hi.
  injection Em' as <-.
  assert (d' = d) as -> by (apply (named_lookup g _ _ (r_ids _ _ _ R)) in Hd', Ed; congruence).
  destruct (Hps a l y HR Hl2 Hl Hi) as (q & x & Hq & [Hqa Hqx] & Hx & Hw).
  destruct (sortAndFilterPaths_keeps ps maxPer sortBySourceAsset q Hq) as (p & Hp & Ep & Hc).
  exists p. split; [done|]. cbn in Ep, Hc. unfold named in Ha. split; [congruence|].
  pose proof (realises_pos _ _ _ (proj1 Hamt) _ _ HR).
  unfold no_worse in Hw. cbn in Hw. rewrite !(proj2 (Z.eqb_neq _ 0)) in Hw by lia. lia.
Qed.

(** [FindFixedPaths] misses no short payment. On a graph that represents an
    order book, for a positive amount and a context that is not cancelled, it
    answers without an error; and for every payment of at most two hops (and no
    more than [maxPathLength]) that the venues realise to one of the destination
    assets, the answer has a path to the same asset that delivers no less. *)
Theorem FindFixedPaths_complete ctx_Err g O P maxPathLength source amount das maxPer pools :
  represents g O P -> go_len (idToAssetString g) <= MaxInt32 -> 0 < amount <= MaxInt64 ->
  (forall k, ctx_Err k = false) ->
  exists ps, FindFixedPaths ctx_Err g maxPathLength source amount das maxPer pools
      = Some (Ok ps, lastLedger g) /\
    forall m s a l y A, destination_assets g das ∅ = Some m -> named g s source -> named g a A ->
      let st := mkBuyingState g (asset_name source) amount m pools in
      realises st s amount (a :: l) y -> (length l <= 2)%nat -> (length l <= Z.to_nat maxPathLength)%nat ->
      includePath st a y = true ->
      exists p, p ∈ ps /\ DestinationAsset p = asset_name A /\ y <= DestinationAmount p.
Proof.
  intros [R _] Hcap Hamt Hctx. unfold FindFixedPaths, findFixedPathsWithLock. rewrite Asset_String_name.
  destruct (destination_assets_spec g O P R das ∅) as (m & Em & _).
  rewrite Em. destruct (assetStringToID g !! asset_name source) as [s|] eqn:Es.
  2:{ eexists. split; [done|]. intros m' s a l y A _ Hs.
      apply (named_lookup g s source (r_ids _ _ _ R)) in Hs. congruence. }
  destruct (Z.eqb_spec (Z.of_nat (size m)) 0) as [E0|_].
  { eexists. split; [done|]. intros m' s' a l y A Em' _ _ _ _ _ Hi. exfalso.
    injection Em' as <-.
    cbn in Hi. apply bool_decide_eq_true in Hi.
    assert (m ≡ ∅) as Hm by (apply size_empty_inv; lia). set_solver. }
  apply (named_lookup g s source (r_ids _ _ _ R)) in Es.
  set (st := mkBuyingState g (asset_name source) amount m pools).
  pose proof (buying_laws g O P R Hcap st eq_refl) as L.
  pose proof (buying_order g O P R st eq_refl) as L'.
  destruct (search_best ctx_Err st s amount is_i64 (destination_quote g)) with
    (maxlen := (Z.to_nat maxPathLength + 1)%nat) (maxPathLength := maxPathLength) as (ps & -> & Hps);
    [|unfold is_i64; lia|lia|done|lia|].
  { unfold known. cbn. rewrite (graph_totalAssets_eq g Hcap). by eapply named_range. }
  eexists. split; [done|]. intros m' s' a l y A Em' Hs' Ha HR Hl2 Hl Hi.
  injection Em' as <-.
  assert (s' = s) as -> by (apply (named_lookup g _ _ (r_ids _ _ _ R)) in Hs', Es; congruence).
  destruct (Hps a l y HR Hl2 Hl Hi) as (q & x & Hq & [Hqa Hqx] & Hx & Hw).
  destruct (sortAndFilterPaths_keeps ps maxPer sortByDestinationAsset q Hq) as (p & Hp & Ep & Hc).
  exists p. split; [done|]. cbn in Ep, Hc. unfold named in Ha. split; [congruence|].
  unfold no_worse in Hw. cbn in Hw. lia.
Qed.
End Properties.

(** The sample book's one trade: 7 of the native asset cost 21 of the other. *)
Lemma FindPaths_complete_witness :
  exists ps p, sample_FindPaths = Some (Ok ps, 0) /\ p ∈ ps /\
    SourceAsset p = asset_name sample_credit /\ SourceAmount p <= 21.
Proof.
  destruct represents_sample_graph as [RU Hcap].
  destruct (@FindPaths_complete Concrete.z_uint256 Concrete.merge_sort_go Concrete.merge_sort_go_laws
    (fun _ => false) sample_graph _ _ 5 Native 7 None [sample_credit; Native] [100; 100] true 3 true
    RU Hcap) as (ps & Hps & H); [done|simpl; lia|done|].
  destruct (H (<[1 := 100]> (<[0 := 100]> ∅)) 1 0 [1] 21 sample_credit) as (p & Hp & Ha & Hy);
    [by vm_compute..| |simpl; lia|simpl; lia|by vm_compute|].
  - apply (realises_hop _ _ _ 1 [] 7); [constructor|done| |by rewrite list_elem_of_singleton].
    unfold hop. eexists _, _. split; [by vm_compute|]. split; [by left|].
    split; [done|]. split; [by vm_compute|done].
  - exists ps, p. exact (conj Hps (conj Hp (conj Ha Hy))).
Defined.

