(* ===== verification/LedgerEntries.v ===== *)
(** * Ledger entries and their keys

    The ten kinds of ledger entry of src/xdr/xdr_generated.go, reduced to what
    identifies an entry: an arm keeps the fields its key is made of and, as one
    opaque value, the fields nothing here reads. A TTL entry is reached through a
    pointer because the change compactor writes through it: [Ttl] is a location of
    a store. The key of an entry follows src/xdr/ledger_entry.go. *)
From Stdlib Require Import ZArith Lia.
From stdpp Require Import base list vector option gmap sorting.
From S2P Require Import Prelude GoStd GoExt Price Encodings Strkey Asset.
#[local] Open Scope Z_scope.
#[local] Open Scope go_scope.

(** Contract addresses and values, and the fields left opaque. *)
Class EntryTypes := {
  ScAddress : Type;
  ScVal : Type;
  Fields : Type
}.

Inductive LedgerEntryType : Type :=
| LedgerEntryTypeAccount | LedgerEntryTypeTrustline | LedgerEntryTypeOffer | LedgerEntryTypeData
| LedgerEntryTypeClaimableBalance | LedgerEntryTypeLiquidityPool | LedgerEntryTypeContractData
| LedgerEntryTypeContractCode | LedgerEntryTypeConfigSetting | LedgerEntryTypeTtl.
#[export] Instance LedgerEntryType_eq_dec : EqDecision LedgerEntryType.
Proof. solve_decision. Defined.

Abbreviation Hash := (vec byte 32).

Inductive TrustLineAsset : Type :=
| TrustLineNative
| TrustLineAlphanum4 (code : vec byte 4) (issuer : AccountId)
| TrustLineAlphanum12 (code : vec byte 12) (issuer : AccountId)
| TrustLinePoolShare (poolID : PoolId).

Record TtlEntry : Type := mkTtlEntry { KeyHash : Hash; LiveUntilLedgerSeq : Z }.

(** The store of TTL entries, by pointer. *)
Abbreviation ttl_pointer := nat.
Abbreviation ttl_store := (gmap ttl_pointer TtlEntry).

Section Types.
Context {ET : EntryTypes}.

Inductive LedgerEntryData : Type :=
| DataAccount (accountID : AccountId) (fields : Fields)
| DataTrustLine (accountID : AccountId) (asset : TrustLineAsset) (fields : Fields)
| DataOffer (offer : OfferEntry)
| DataData (accountID : AccountId) (dataName : bytes) (fields : Fields)
| DataClaimableBalance (balanceID : Hash) (fields : Fields)
| DataLiquidityPool (pool : LiquidityPoolEntry)
| DataContractData (contract : ScAddress) (key : ScVal) (durability : Z) (fields : Fields)
| DataContractCode (hash : Hash) (fields : Fields)
| DataConfigSetting (configSettingID : Z) (fields : Fields)
| DataTtl (ttl : ttl_pointer).

Record LedgerEntry : Type := mkLedgerEntry {
  LastModifiedLedgerSeq : Z;
  Data : LedgerEntryData;
  EntryExt : Fields
}.

Inductive LedgerKey : Type :=
| LedgerKeyAccount (accountID : AccountId)
| LedgerKeyTrustLine (accountID : AccountId) (asset : TrustLineAsset)
| LedgerKeyOffer (sellerID : AccountId) (offerID : Z)
| LedgerKeyData (accountID : AccountId) (dataName : bytes)
| LedgerKeyClaimableBalance (balanceID : Hash)
| LedgerKeyLiquidityPool (liquidityPoolID : PoolId)
| LedgerKeyContractData (contract : ScAddress) (key : ScVal) (durability : Z)
| LedgerKeyContractCode (hash : Hash)
| LedgerKeyConfigSetting (configSettingID : Z)
| LedgerKeyTtl (keyHash : Hash).

Definition Data_Type (d : LedgerEntryData) : LedgerEntryType :=
  match d with
  | DataAccount _ _ => LedgerEntryTypeAccount
  | DataTrustLine _ _ _ => LedgerEntryTypeTrustline
  | DataOffer _ => LedgerEntryTypeOffer
  | DataData _ _ _ => LedgerEntryTypeData
  | DataClaimableBalance _ _ => LedgerEntryTypeClaimableBalance
  | DataLiquidityPool _ => LedgerEntryTypeLiquidityPool
  | DataContractData _ _ _ _ => LedgerEntryTypeContractData
  | DataContractCode _ _ => LedgerEntryTypeContractCode
  | DataConfigSetting _ _ => LedgerEntryTypeConfigSetting
  | DataTtl _ => LedgerEntryTypeTtl
  end.

(** ** Setting a key *)
Definition SetAccount (account : AccountId) : LedgerKey := LedgerKeyAccount account.
Definition SetTrustline (account : AccountId) (line : TrustLineAsset) : LedgerKey :=
  LedgerKeyTrustLine account line.
Definition SetOffer (account : AccountId) (id : Z) : LedgerKey := LedgerKeyOffer account (i64 id).
Definition SetData (account : AccountId) (name : bytes) : LedgerKey := LedgerKeyData account name.
Definition SetClaimableBalance (balanceID : Hash) : LedgerKey := LedgerKeyClaimableBalance balanceID.
Definition SetLiquidityPool (poolID : PoolId) : LedgerKey := LedgerKeyLiquidityPool poolID.
Definition SetContractData (contract : ScAddress) (keyVal : ScVal) (keyDurability : Z) : LedgerKey :=
  LedgerKeyContractData contract keyVal keyDurability.
Definition SetContractCode (contractID : Hash) : LedgerKey := LedgerKeyContractCode contractID.
Definition SetConfigSetting (configSettingID : Z) : LedgerKey := LedgerKeyConfigSetting configSettingID.
Definition SetTtl (keyHash : Hash) : LedgerKey := LedgerKeyTtl keyHash.

(** The key of an entry; a dangling TTL pointer is a nil dereference. Each arm
    has the type its setter expects, so no setter fails. *)
Definition Data_LedgerKey (h : ttl_store) (data : LedgerEntryData) : option LedgerKey :=
  match data with
  | DataAccount accountID _ => Some (SetAccount accountID)
  | DataTrustLine accountID asset _ => Some (SetTrustline accountID asset)
  | DataContractData contract key durability _ => Some (SetContractData contract key durability)
  | DataContractCode hash _ => Some (SetContractCode hash)
  | DataData accountID name _ => Some (SetData accountID name)
  | DataOffer offer => Some (SetOffer (SellerId offer) (u64 (OfferId offer)))
  | DataLiquidityPool pool => Some (SetLiquidityPool (LiquidityPoolId pool))
  | DataClaimableBalance balanceID _ => Some (SetClaimableBalance balanceID)
  | DataConfigSetting configSettingID _ => Some (SetConfigSetting configSettingID)
  | DataTtl p => let! ttl := h !! p in Some (SetTtl (KeyHash ttl))
  end.

Definition Entry_LedgerKey (h : ttl_store) (entry : LedgerEntry) : option LedgerKey :=
  Data_LedgerKey h (Data entry).

(** [Data.Ttl]: the pointer of the TTL arm, nil in the others. *)
Definition Data_Ttl (data : LedgerEntryData) : option ttl_pointer :=
  match data with DataTtl p => Some p | _ => None end.

(** The generated XDR encoding of a key, which can fail. *)
Class KeyEncoding := { UnsafeMarshalBinary : LedgerKey -> option bytes }.

Class KeyEncodingLaws (KE : KeyEncoding) : Prop := {
  marshal_key_inj k k' b : UnsafeMarshalBinary k = Some b -> UnsafeMarshalBinary k' = Some b -> k = k'
}.
End Types.

(** ** A concrete encoding

    Contract addresses, values and opaque fields as bytes, and a prefix-free
    encoding of keys. *)
Module ConcreteKeys.
#[export] Instance byte_types : EntryTypes := {| ScAddress := bytes; ScVal := bytes; Fields := bytes |}.

Fixpoint pos_bytes (p : positive) : bytes :=
  match p with
  | xH => []
  | xO p => Byte.x00 :: pos_bytes p
  | xI p => Byte.x01 :: pos_bytes p
  end.
Definition Z_bytes (z : Z) : bytes := pos_bytes (encode z).

Lemma pos_bytes_inj p q : pos_bytes p = pos_bytes q -> p = q.
Proof. revert q. induction p as [p IH|p IH|]; intros [q|q|]; simpl; try done; intros [= H]; f_equal; auto. Qed.

Lemma Z_bytes_inj x y : Z_bytes x = Z_bytes y -> x = y.
Proof. intros H%pos_bytes_inj. by apply (inj encode). Qed.

(** Each byte after a 1, and a final 0. *)
Definition frame (b : bytes) : bytes := flat_map (fun c => [Byte.x01; c]) b ++ [Byte.x00].

Lemma frame_inj b b' r r' : frame b ++ r = frame b' ++ r' -> b = b' /\ r = r'.
Proof.
  unfold frame. revert b'. induction b as [|c b IH]; intros [|c' b']; simpl; try done; intros H.
  - by injection H as ->.
  - injection H as -> H. destruct (IH b' H) as [-> ->]. done.
Qed.

Lemma frames_inj l l' : flat_map frame l = flat_map frame l' -> l = l'.
Proof.
  revert l'. induction l as [|b l IH]; intros [|b' l']; [done| | |];
    cbn [flat_map]; intros H.
  - by destruct b'.
  - by destruct b.
  - apply frame_inj in H as [-> H]. f_equal. by apply IH.
Qed.

Definition asset_parts (a : TrustLineAsset) : list bytes :=
  match a with
  | TrustLineNative => []
  | TrustLineAlphanum4 code issuer => [[]; vec_to_list code; vec_to_list issuer]
  | TrustLineAlphanum12 code issuer => [[Byte.x01]; vec_to_list code; vec_to_list issuer]
  | TrustLinePoolShare poolID => [vec_to_list poolID]
  end.

Definition key_parts (k : LedgerKey) : list bytes :=
  match k with
  | LedgerKeyAccount a => [Z_bytes 0; vec_to_list a]
  | LedgerKeyTrustLine a asset => Z_bytes 1 :: vec_to_list a :: asset_parts asset
  | LedgerKeyOffer a id => [Z_bytes 2; vec_to_list a; Z_bytes id]
  | LedgerKeyData a name => [Z_bytes 3; vec_to_list a; name]
  | LedgerKeyClaimableBalance id => [Z_bytes 4; vec_to_list id]
  | LedgerKeyLiquidityPool id => [Z_bytes 5; vec_to_list id]
  | LedgerKeyContractData contract key durability => [Z_bytes 6; contract; key; Z_bytes durability]
  | LedgerKeyContractCode hash => [Z_bytes 7; vec_to_list hash]
  | LedgerKeyConfigSetting id => [Z_bytes 8; Z_bytes id]
  | LedgerKeyTtl hash => [Z_bytes 9; vec_to_list hash]
  end.

Lemma asset_parts_inj a a' : asset_parts a = asset_parts a' -> a = a'.
Proof.
  destruct a, a'; try done; cbn [asset_parts]; intros H; injection H as H1; try done;
    repeat match goal with H : vec_to_list _ = vec_to_list _ |- _ => apply vec_to_list_inj2 in H end; congruence.
Qed.

Lemma key_parts_inj k k' : key_parts k = key_parts k' -> k = k'.
Proof.
  destruct k, k'; try done; cbn [key_parts]; intros H; injection H; intros;
    repeat match goal with
    | H : vec_to_list _ = vec_to_list _ |- _ => apply vec_to_list_inj2 in H
    | H : Z_bytes _ = Z_bytes _ |- _ => apply Z_bytes_inj in H
    | H : asset_parts _ = asset_parts _ |- _ => apply asset_parts_inj in H
    end; congruence.
Qed.

#[export] Instance framed_keys : KeyEncoding := {| UnsafeMarshalBinary k := Some (flat_map frame (key_parts k)) |}.
#[export] Instance framed_keys_laws : KeyEncodingLaws framed_keys.
Proof. split. intros k k' b [= H] [= H']. apply key_parts_inj, frames_inj. congruence. Qed.
End ConcreteKeys.

(** ** Compressed ledger keys

    [LedgerKeyUnsafeMarshalBinaryCompress] of src/xdr/main.go with the encoders of
    ledger_key.go, account_id.go, trust_line_asset.go and claimable_balance_id.go:
    the strings by which the checkpoint reader remembers the keys it has visited. *)
(** The generated XDR encodings of contract addresses and values: they can fail, and
    like every XDR encoding they tell their own end. *)
Class ContractEncoding {ET : EntryTypes} := {
  ScAddress_MarshalBinary : ScAddress -> option bytes;
  ScVal_EncodeTo : ScVal -> option bytes
}.

Class ContractEncodingLaws {ET : EntryTypes} (CE : ContractEncoding) : Prop := {
  address_self_delimiting a a' b b' r r' :
    ScAddress_MarshalBinary a = Some b -> ScAddress_MarshalBinary a' = Some b' -> b ++ r = b' ++ r' -> a = a' /\ r = r';
  value_self_delimiting v v' b b' r r' :
    ScVal_EncodeTo v = Some b -> ScVal_EncodeTo v' = Some b' -> b ++ r = b' ++ r' -> v = v' /\ r = r'
}.

(** ** The encoders *)
Section Encoders.
Context {ET : EntryTypes} {CE : ContractEncoding}.

Definition LedgerEntryType_int32 (t : LedgerEntryType) : Z :=
  match t with
  | LedgerEntryTypeAccount => 0 | LedgerEntryTypeTrustline => 1 | LedgerEntryTypeOffer => 2 | LedgerEntryTypeData => 3
  | LedgerEntryTypeClaimableBalance => 4 | LedgerEntryTypeLiquidityPool => 5 | LedgerEntryTypeContractData => 6
  | LedgerEntryTypeContractCode => 7 | LedgerEntryTypeConfigSetting => 8 | LedgerEntryTypeTtl => 9
  end.

Definition Key_Type (k : LedgerKey) : LedgerEntryType :=
  match k with
  | LedgerKeyAccount _ => LedgerEntryTypeAccount
  | LedgerKeyTrustLine _ _ => LedgerEntryTypeTrustline
  | LedgerKeyOffer _ _ => LedgerEntryTypeOffer
  | LedgerKeyData _ _ => LedgerEntryTypeData
  | LedgerKeyClaimableBalance _ => LedgerEntryTypeClaimableBalance
  | LedgerKeyLiquidityPool _ => LedgerEntryTypeLiquidityPool
  | LedgerKeyContractData _ _ _ => LedgerEntryTypeContractData
  | LedgerKeyContractCode _ => LedgerEntryTypeContractCode
  | LedgerKeyConfigSetting _ => LedgerEntryTypeConfigSetting
  | LedgerKeyTtl _ => LedgerEntryTypeTtl
  end.

(** An account id and a claimable balance id have one type each, 0. *)
Definition accountIdCompress (aid : AccountId) : bytes := byte_of_Z 0 :: vec_to_list aid.
Definition claimableBalanceCompress (cb : Hash) : bytes := byte_of_Z 0 :: vec_to_list cb.

Definition assetTrustlineCompress (a : TrustLineAsset) : bytes :=
  match a with
  | TrustLineNative => [byte_of_Z 0]
  | TrustLineAlphanum4 code issuer => byte_of_Z 1 :: trimRightZeros (vec_to_list code) ++ accountIdCompress issuer
  | TrustLineAlphanum12 code issuer => byte_of_Z 2 :: trimRightZeros (vec_to_list code) ++ accountIdCompress issuer
  | TrustLinePoolShare poolID => byte_of_Z 3 :: vec_to_list poolID
  end.

(** The fields after the type; [None] is an error of a generated encoder. *)
Definition ledgerKeyCompress_fields (key : LedgerKey) : option bytes :=
  match key with
  | LedgerKeyAccount a => Some (accountIdCompress a)
  | LedgerKeyTrustLine a asset => Some (accountIdCompress a ++ assetTrustlineCompress asset)
  | LedgerKeyOffer _ id => Some (be_put 8 id)
  | LedgerKeyData a name => Some (accountIdCompress a ++ trimRightZeros name)
  | LedgerKeyClaimableBalance id => Some (claimableBalanceCompress id)
  | LedgerKeyLiquidityPool id => Some (vec_to_list id)
  | LedgerKeyContractData contract key durability =>
      let! contractBytes := ScAddress_MarshalBinary contract in
      let! keyBytes := ScVal_EncodeTo key in
      Some (contractBytes ++ keyBytes ++ [byte_of_Z durability])
  | LedgerKeyContractCode hash => Some (vec_to_list hash)
  | LedgerKeyConfigSetting id => Some (be_put 4 id)
  | LedgerKeyTtl hash => Some (vec_to_list hash)
  end.

Definition ledgerKeyCompress (key : LedgerKey) : option bytes :=
  let! fields := ledgerKeyCompress_fields key in
  Some (byte_of_Z (LedgerEntryType_int32 (Key_Type key)) :: fields).

Definition LedgerKeyUnsafeMarshalBinaryCompress (key : LedgerKey) : option bytes := ledgerKeyCompress key.

Inductive compressed_error : Type := EmptyCompressedKey | IncorrectKeyType (t : Z).

(** The ten names of the type map are the numbers up to 9. *)
Definition GetBinaryCompressedLedgerKeyType (compressedKey : bytes) : result compressed_error Z :=
  match compressedKey with
  | [] => Err EmptyCompressedKey
  | c :: _ =>
      let result := Z_of_byte c in
      if 10 - 1 <? result then Err (IncorrectKeyType result) else Ok result
  end.

(** ** What a compressed key identifies *)

(** The fields have their types; a data name does not end in a zero byte, as the
    network requires of it. *)
Definition key_typed (k : LedgerKey) : Prop :=
  match k with
  | LedgerKeyOffer _ id => is_i64 id
  | LedgerKeyData _ name => list.last name <> Some zero_byte
  | LedgerKeyContractData _ _ durability => 0 <= durability < 256
  | LedgerKeyConfigSetting id => is_i32 id
  | _ => True
  end.

(** The same entry: offers are told apart by their id. *)
Definition same_entry (k k' : LedgerKey) : Prop :=
  match k, k' with
  | LedgerKeyOffer _ id, LedgerKeyOffer _ id' => id = id'
  | _, _ => k = k'
  end.

Lemma byte_of_Z_inj x y : 0 <= x < 256 -> 0 <= y < 256 -> byte_of_Z x = byte_of_Z y -> x = y.
Proof.
  intros Hx Hy E. apply (f_equal Z_of_byte) in E. rewrite !Z_of_byte_of_Z in E. unfold u8 in E.
  by rewrite !Z.mod_small in E.
Qed.

Lemma Key_Type_byte k k' : byte_of_Z (LedgerEntryType_int32 (Key_Type k)) = byte_of_Z (LedgerEntryType_int32 (Key_Type k')) ->
  Key_Type k = Key_Type k'.
Proof. intros E%byte_of_Z_inj; destruct (Key_Type k), (Key_Type k'); cbn in *; try done; lia. Qed.

Lemma accountIdCompress_app a a' r r' : accountIdCompress a ++ r = accountIdCompress a' ++ r' -> a = a' /\ r = r'.
Proof.
  unfold accountIdCompress. cbn [app]. intros [= E]. apply app_inj_1 in E as [E ->]; [|by rewrite !length_vec_to_list].
  split; [|done]. by apply vec_to_list_inj2 in E.
Qed.

(** A code before an account id of fixed length. *)
Lemma code_issuer_inj {n} (c c' : vec byte n) (i i' : AccountId) :
  trimRightZeros (vec_to_list c) ++ accountIdCompress i = trimRightZeros (vec_to_list c') ++ accountIdCompress i' ->
  c = c' /\ i = i'.
Proof.
  intros E. apply app_inj_2 in E as [E1 E2]; [|unfold accountIdCompress; cbn [length]; by rewrite !length_vec_to_list].
  apply trimRightZeros_inj in E1; [|by rewrite !length_vec_to_list]. apply vec_to_list_inj2 in E1.
  split; [done|]. unfold accountIdCompress in E2. injection E2 as E2. by apply vec_to_list_inj2 in E2.
Qed.

Lemma assetTrustlineCompress_inj a a' : assetTrustlineCompress a = assetTrustlineCompress a' -> a = a'.
Proof.
  destruct a, a'; cbn [assetTrustlineCompress]; try done; intros [= E].
  - by apply code_issuer_inj in E as [-> ->].
  - by apply code_issuer_inj in E as [-> ->].
  - by apply vec_to_list_inj2 in E as ->.
Qed.

Lemma be_get_put_mod n v : be_get (be_put n v) = v mod 256 ^ Z.of_nat n.
Proof.
  revert v. induction n as [|n IH]; intros v; [by rewrite Z.mod_1_r|].
  cbn [be_put]. rewrite be_get_snoc, Z_of_byte_of_Z, IH. unfold u8.
  rewrite Nat2Z.inj_succ, Z.pow_succ_r by lia. rewrite Z.rem_mul_r by lia. lia.
Qed.

(** Two signed integers of the width of the encoding. *)
Lemma be_put_signed_inj n x y : let h := 256 ^ Z.of_nat n / 2 in
  - h <= x < h -> - h <= y < h -> be_put n x = be_put n y -> x = y.
Proof.
  intros h Hx Hy E. apply (f_equal be_get) in E. rewrite !be_get_put_mod in E.
  assert (0 < 256 ^ Z.of_nat n) as HM by lia. pose proof (Z.div_mod (256 ^ Z.of_nat n) 2 ltac:(lia)) as H2.
  pose proof (Z.mod_pos_bound (256 ^ Z.of_nat n) 2 ltac:(lia)) as H3. fold h in H2.
  pose proof (Z.div_mod x (256 ^ Z.of_nat n) ltac:(lia)) as Dx. pose proof (Z.div_mod y (256 ^ Z.of_nat n) ltac:(lia)) as Dy.
  rewrite E in Dx. assert (x / 256 ^ Z.of_nat n = y / 256 ^ Z.of_nat n) by nia. congruence.
Qed.

(** A data name with no trailing zero is not trimmed. *)
Lemma trimRightZeros_id b : list.last b <> Some zero_byte -> trimRightZeros b = b.
Proof. intros H. pose proof (trimRightZeros_app_zeros b 0 H) as E. cbn [replicate] in E. by rewrite app_nil_r in E. Qed.

Context {CEL : ContractEncodingLaws CE}.

Lemma fields_inj k k' b : Key_Type k = Key_Type k' -> key_typed k -> key_typed k' ->
  ledgerKeyCompress_fields k = Some b -> ledgerKeyCompress_fields k' = Some b -> same_entry k k'.
Proof.
  intros Ht Hk Hk'. destruct k, k'; try done; cbn [ledgerKeyCompress_fields key_typed same_entry] in *.
  - intros <-%(inj Some) E%(inj Some). unfold accountIdCompress in E. injection E as E. by apply vec_to_list_inj2 in E as ->.
  - intros <-%(inj Some) E%(inj Some). apply accountIdCompress_app in E as [-> E]. by apply assetTrustlineCompress_inj in E as ->.
  - intros <-%(inj Some) E%(inj Some). symmetry. apply (be_put_signed_inj 8); [| |done];
      change (256 ^ Z.of_nat 8 / 2) with 9223372036854775808; unfold is_i64 in *; lia.
  - intros <-%(inj Some) E%(inj Some). apply accountIdCompress_app in E as [-> E]. rewrite !trimRightZeros_id in E by done. by subst.
  - intros <-%(inj Some) E%(inj Some). unfold claimableBalanceCompress in E. injection E as E. by apply vec_to_list_inj2 in E as ->.
  - intros <-%(inj Some) E%(inj Some). by apply vec_to_list_inj2 in E as ->.
  - destruct (ScAddress_MarshalBinary contract) as [ab|] eqn:Ea; [|done].
    destruct (ScVal_EncodeTo key) as [vb|] eqn:Ev; [|done]. intros <-%(inj Some).
    destruct (ScAddress_MarshalBinary contract0) as [ab'|] eqn:Ea'; [|done].
    destruct (ScVal_EncodeTo key0) as [vb'|] eqn:Ev'; [|done]. intros E%(inj Some).
    apply (address_self_delimiting _ _ _ _ _ _ Ea' Ea) in E as [-> E].
    apply (value_self_delimiting _ _ _ _ _ _ Ev' Ev) in E as [-> E].
    injection E as E%byte_of_Z_inj; [by subst|done|done].
  - intros <-%(inj Some) E%(inj Some). by apply vec_to_list_inj2 in E as ->.
  - intros <-%(inj Some) E%(inj Some). symmetry. f_equal. apply (be_put_signed_inj 4); [| |done];
      change (256 ^ Z.of_nat 4 / 2) with 2147483648; unfold is_i32 in *; lia.
  - intros <-%(inj Some) E%(inj Some). by apply vec_to_list_inj2 in E as ->.
Qed.

(** The type byte comes first, and keys of one entry have one string. *)
Lemma ledgerKeyCompress_same k k' : same_entry k k' -> ledgerKeyCompress k = ledgerKeyCompress k'.
Proof. destruct k, k'; cbn [same_entry]; intros E; try done; by rewrite ?E. Qed.

(** A compressed key identifies its entry. Keys with the same compressed string
    are keys of the same entry, and conversely, where an offer is told apart by its
    id alone and a data name does not end in a zero byte; and the type is read back
    from the string. *)
Theorem compressed_key_identifies k k' b :
  key_typed k -> key_typed k' -> LedgerKeyUnsafeMarshalBinaryCompress k = Some b ->
  (LedgerKeyUnsafeMarshalBinaryCompress k' = Some b <-> same_entry k k') /\
  GetBinaryCompressedLedgerKeyType b = Ok (LedgerEntryType_int32 (Key_Type k)).
Proof.
  intros Hk Hk' Hb. unfold LedgerKeyUnsafeMarshalBinaryCompress in *. split.
  - split; [|intros E; by rewrite <- (ledgerKeyCompress_same k k' E)]. intros Hb'. unfold ledgerKeyCompress in *.
    destruct (ledgerKeyCompress_fields k) as [f|] eqn:Ef; [|done].
    destruct (ledgerKeyCompress_fields k') as [f'|] eqn:Ef'; [|done].
    apply (inj Some) in Hb, Hb'. subst b. apply (inj2 cons) in Hb' as [Et ->]. apply Key_Type_byte in Et.
    by apply (fields_inj k k' f).
  - unfold ledgerKeyCompress in Hb. destruct (ledgerKeyCompress_fields k) as [f|]; [|done]. injection Hb as <-.
    unfold GetBinaryCompressedLedgerKeyType. rewrite Z_of_byte_of_Z. by destruct (Key_Type k).
Qed.
End Encoders.

(** ** Concrete encodings of contract addresses and values *)
Module ConcreteContracts.
Import ConcreteKeys.
#[export] Instance framed_contracts : ContractEncoding := {|
  ScAddress_MarshalBinary a := Some (frame a);
  ScVal_EncodeTo v := Some (frame v)
|}.
#[export] Instance framed_contracts_laws : ContractEncodingLaws framed_contracts.
Proof. split; intros * [= <-] [= <-]; apply frame_inj. Qed.

End ConcreteContracts.
