(* ===== verification/Compactor.v ===== *)
(** * The change compactor

    src/ingest/change_compactor.go: squashing the changes of a ledger to one per
    entry. The compactor keeps the caller's entries by pointer and writes through
    the TTL pointer of an updated entry, so a step works on the cache and the
    store of TTL entries. [None] is a panic. *)
From Stdlib Require Import ZArith Lia.
From stdpp Require Import base list vector option gmap sorting.
From S2P Require Import Prelude GoStd GoExt Price Encodings Strkey Asset LedgerEntries.
#[local] Open Scope Z_scope.
#[local] Open Scope go_scope.

Inductive LedgerEntryChangeType : Type :=
| LedgerEntryCreated | LedgerEntryUpdated | LedgerEntryRemoved | LedgerEntryState | LedgerEntryRestored.
#[export] Instance LedgerEntryChangeType_eq_dec : EqDecision LedgerEntryChangeType.
Proof. solve_decision. Defined.

Inductive compactor_error : Type :=
| StateErrorCreateExists
| StateErrorUpdateRemoved
| StateErrorRemoveRemoved
| StateErrorRestoreActive
| ErrMarshalKey
| ErrUnknownChangeType
| ErrUnknownExistingType.

Record ChangeCompactorConfig : Type := mkConfig { SuppressRemoveAfterRestoreChange : bool }.

Section Compactor.
Context {ET : EntryTypes} {KE : KeyEncoding}.

(** A change; the pointers to the transaction, the ledger and the upgrade behind
    it are kept as they are. *)
Record Change : Type := mkChange {
  Type_ : LedgerEntryType;
  ChangeType : LedgerEntryChangeType;
  Pre : option LedgerEntry;
  Post : option LedgerEntry;
  Reason : Z;
  OperationIndex : Z;
  Transaction : option nat;
  Ledger : option nat;
  LedgerUpgrade : option nat
}.

(** A [Change] literal with only the first four fields. *)
Definition new_change (t : LedgerEntryType) (pre post : option LedgerEntry) (ct : LedgerEntryChangeType) :
    Change := mkChange t ct pre post 0 0 None None None.

Record ChangeCompactor : Type := mkCompactor {
  cache : gmap bytes Change;
  config : ChangeCompactorConfig
}.

Definition NewChangeCompactor (config : ChangeCompactorConfig) : ChangeCompactor := mkCompactor ∅ config.

Definition set_cache (c : ChangeCompactor) (m : gmap bytes Change) : ChangeCompactor := mkCompactor m (config c).

(** The encoded key of an entry, which must not be nil. *)
Definition getLedgerKey (h : ttl_store) (ledgerEntry : option LedgerEntry) :
    option (result compactor_error bytes) :=
  let! e := ledgerEntry in
  let! key := Entry_LedgerKey h e in
  Some (match UnsafeMarshalBinary key with Some b => Ok b | None => Err ErrMarshalKey end).

Definition maxTTL (a b : TtlEntry) : TtlEntry :=
  if LiveUntilLedgerSeq b <? LiveUntilLedgerSeq a then a else b.

(** The outcome of a step: a panic, an error that leaves everything as it was,
    or the new compactor and store. *)
Abbreviation outcome := (option (result compactor_error (ChangeCompactor * ttl_store))).

Definition addCreatedChange (c : ChangeCompactor) (h : ttl_store) (change : Change) : outcome :=
  let! r := getLedgerKey h (Post change) in
  match r with
  | Err e => Some (Err e)
  | Ok ledgerKey =>
      match cache c !! ledgerKey with
      | None => Some (Ok (set_cache c (<[ledgerKey := change]> (cache c)), h))
      | Some existingChange =>
          match ChangeType existingChange with
          | LedgerEntryCreated | LedgerEntryUpdated | LedgerEntryRestored => Some (Err StateErrorCreateExists)
          | LedgerEntryRemoved =>
              Some (Ok (set_cache c (<[ledgerKey := new_change (Type_ change) (Pre existingChange)
                (Post change) LedgerEntryUpdated]> (cache c)), h))
          | LedgerEntryState => Some (Err ErrUnknownExistingType)
          end
      end
  end.

(** The pointer [e.Data.Ttl] of an entry behind a pointer, neither nil. *)
Definition deref_ttl (e : option LedgerEntry) : option ttl_pointer :=
  let! e := e in Data_Ttl (Data e).

(** Writes the [maxTTL] of the two entries' TTLs through the pointer of [post]. *)
Definition merge_ttl (h : ttl_store) (existing post : option LedgerEntry) : option ttl_store :=
  let! p := deref_ttl post in
  let! q := deref_ttl existing in
  let! a := h !! q in
  let! b := h !! p in
  Some (<[p := maxTTL a b]> h).

Definition addUpdatedChange (c : ChangeCompactor) (h : ttl_store) (change : Change) : outcome :=
  let! r := getLedgerKey h (Post change) in
  match r with
  | Err e => Some (Err e)
  | Ok ledgerKey =>
      match cache c !! ledgerKey with
      | None => Some (Ok (set_cache c (<[ledgerKey := change]> (cache c)), h))
      | Some existingChange =>
          match ChangeType existingChange with
          | LedgerEntryCreated | LedgerEntryUpdated | LedgerEntryRestored =>
              let! h := (if bool_decide (Type_ change = LedgerEntryTypeTtl)
                         then merge_ttl h (Post existingChange) (Post change) else Some h) in
              Some (Ok (set_cache c (<[ledgerKey := new_change (Type_ change) (Pre existingChange)
                (Post change) (ChangeType existingChange)]> (cache c)), h))
          | LedgerEntryRemoved => Some (Err StateErrorUpdateRemoved)
          | LedgerEntryState => Some (Err ErrUnknownExistingType)
          end
      end
  end.

Definition addRemovedChange (c : ChangeCompactor) (h : ttl_store) (change : Change) : outcome :=
  let! r := getLedgerKey h (Pre change) in
  match r with
  | Err e => Some (Err e)
  | Ok ledgerKey =>
      match cache c !! ledgerKey with
      | None => Some (Ok (set_cache c (<[ledgerKey := change]> (cache c)), h))
      | Some existingChange =>
          match ChangeType existingChange with
          | LedgerEntryCreated => Some (Ok (set_cache c (delete ledgerKey (cache c)), h))
          | LedgerEntryUpdated =>
              Some (Ok (set_cache c (<[ledgerKey := new_change (Type_ change) (Pre existingChange) None
                (ChangeType change)]> (cache c)), h))
          | LedgerEntryRemoved => Some (Err StateErrorRemoveRemoved)
          | LedgerEntryRestored =>
              if SuppressRemoveAfterRestoreChange (config c)
              then Some (Ok (set_cache c (delete ledgerKey (cache c)), h))
              else Some (Ok (set_cache c (<[ledgerKey := new_change (Type_ change) (Pre change) None
                (ChangeType change)]> (cache c)), h))
          | LedgerEntryState => Some (Err ErrUnknownExistingType)
          end
      end
  end.

Definition addRestoredChange (c : ChangeCompactor) (h : ttl_store) (change : Change) : outcome :=
  let! r := getLedgerKey h (Post change) in
  match r with
  | Err e => Some (Err e)
  | Ok ledgerKey =>
      match cache c !! ledgerKey with
      | Some _ => Some (Err StateErrorRestoreActive)
      | None => Some (Ok (set_cache c (<[ledgerKey := change]> (cache c)), h))
      end
  end.

Definition AddChange (c : ChangeCompactor) (h : ttl_store) (change : Change) : outcome :=
  match ChangeType change with
  | LedgerEntryCreated => addCreatedChange c h change
  | LedgerEntryUpdated => addUpdatedChange c h change
  | LedgerEntryRemoved => addRemovedChange c h change
  | LedgerEntryRestored => addRestoredChange c h change
  | LedgerEntryState => Some (Err ErrUnknownChangeType)
  end.

(** The changes of the cache; Go lists a map in no particular order. *)
Definition GetChanges (c : ChangeCompactor) : list Change := map snd (map_to_list (cache c)).
Definition Size (c : ChangeCompactor) : Z := Z.of_nat (size (cache c)).
End Compactor.
