(* ===== verification/CompactorSpec.v ===== *)
(** * Compaction preserves the net effect of a ledger

    A ledger's changes, as steps on the live entries, against the compactor: every
    sequence of legal changes is accepted, and applying the squashed changes to the
    entries before the ledger, in any order, gives the entries after it; and which
    changes that contradict the entries are refused. *)
From Stdlib Require Import ZArith Lia.
From stdpp Require Import base list vector option gmap sorting.
From S2P Require Import Prelude GoStd GoExt Price Encodings Strkey Asset LedgerEntries Compactor.
#[local] Open Scope Z_scope.
#[local] Open Scope go_scope.

Section Spec.
Context {ET : EntryTypes} {KE : KeyEncoding} {KEL : KeyEncodingLaws KE}.

(** ** Values *)

(** What an entry says, its TTL read through the pointer. *)
Record entry_value : Type := mkValue {
  v_seq : Z;
  v_body : LedgerEntryData + TtlEntry;
  v_ext : Fields
}.

Definition value_of (h : ttl_store) (e : LedgerEntry) : option entry_value :=
  match Data e with
  | DataTtl p => let! t := h !! p in Some (mkValue (LastModifiedLedgerSeq e) (inr t) (EntryExt e))
  | d => Some (mkValue (LastModifiedLedgerSeq e) (inl d) (EntryExt e))
  end.

Definition key_bytes (h : ttl_store) (e : LedgerEntry) : option bytes :=
  let! k := Entry_LedgerKey h e in UnsafeMarshalBinary k.

Definition entry_cells (e : option LedgerEntry) : list ttl_pointer :=
  match deref_ttl e with Some p => [p] | None => [] end.
Definition cells (c : Change) : list ttl_pointer := entry_cells (Pre c) ++ entry_cells (Post c).

(** The cell the compactor may write when it adds a change; and the changes of a
    ledger written through cells that no other change reads or writes. *)
Definition writes (c : Change) : list ttl_pointer :=
  match ChangeType c with LedgerEntryUpdated => entry_cells (Post c) | _ => [] end.
Fixpoint separate (read written : list ttl_pointer) (cs : list Change) : Prop :=
  match cs with
  | [] => True
  | c :: cs =>
      (forall p, p ∈ read -> p ∉ writes c) /\ (forall p, p ∈ written -> p ∉ cells c) /\
      separate (read ++ cells c) (written ++ writes c) cs
  end.

(** The type of a change is that of its entries. *)
Definition well_typed (c : Change) : Prop :=
  forall e, Pre c = Some e \/ Post c = Some e -> Type_ c = Data_Type (Data e).

(** ** A ledger, change by change *)

(** The live entries, the keys whose entry was written in this ledger, and the
    keys changed in it. *)
Record ledger : Type := mkLedger {
  live : gmap bytes entry_value;
  written : gset bytes;
  touched : gset bytes
}.

(** Among the updates of one ledger a TTL keeps its highest value (CAP-63). *)
Definition merge_values (old new : entry_value) : entry_value :=
  match v_body old, v_body new with
  | inr a, inr b => mkValue (v_seq new) (inr (maxTTL a b)) (v_ext new)
  | _, _ => new
  end.

Inductive ledger_step (h : ttl_store) (L : ledger) (c : Change) : ledger -> Prop :=
| step_created e k v :
    ChangeType c = LedgerEntryCreated -> Post c = Some e -> key_bytes h e = Some k -> value_of h e = Some v ->
    live L !! k = None ->
    ledger_step h L c (mkLedger (<[k := v]> (live L)) ({[k]} ∪ written L) ({[k]} ∪ touched L))
| step_restored e k v :
    ChangeType c = LedgerEntryRestored -> Post c = Some e -> key_bytes h e = Some k -> value_of h e = Some v ->
    live L !! k = None -> k ∉ touched L ->
    ledger_step h L c (mkLedger (<[k := v]> (live L)) ({[k]} ∪ written L) ({[k]} ∪ touched L))
| step_updated pre e k v old :
    ChangeType c = LedgerEntryUpdated -> Post c = Some e -> key_bytes h e = Some k -> value_of h e = Some v ->
    live L !! k = Some old -> Pre c = Some pre -> key_bytes h pre = Some k ->
    (k ∉ touched L -> value_of h pre = Some old) ->
    ledger_step h L c (mkLedger (<[k := if bool_decide (k ∈ written L) then merge_values old v else v]> (live L))
      ({[k]} ∪ written L) ({[k]} ∪ touched L))
| step_removed pre k old :
    ChangeType c = LedgerEntryRemoved -> Pre c = Some pre -> key_bytes h pre = Some k ->
    live L !! k = Some old -> (k ∉ touched L -> value_of h pre = Some old) -> Post c = None ->
    ledger_step h L c (mkLedger (delete k (live L)) (written L ∖ {[k]}) ({[k]} ∪ touched L)).

Inductive ledger_run (h : ttl_store) : ledger -> list Change -> ledger -> Prop :=
| run_nil L : ledger_run h L [] L
| run_cons L c L' cs L'' : ledger_step h L c L' -> ledger_run h L' cs L'' -> ledger_run h L (c :: cs) L''.

(** The compactor fed with all the changes. *)
Fixpoint add_all (c : ChangeCompactor) (h : ttl_store) (cs : list Change) :
    option (result compactor_error (ChangeCompactor * ttl_store)) :=
  match cs with
  | [] => Some (Ok (c, h))
  | ch :: cs =>
      let! r := AddChange c h ch in
      match r with
      | Err e => Some (Err e)
      | Ok (c, h) => add_all c h cs
      end
  end.

(** Writing a change to a database: the key it concerns and what is there after. *)
Definition effect (h : ttl_store) (ch : Change) : option (bytes * option entry_value) :=
  match ChangeType ch with
  | LedgerEntryRemoved => let! e := Pre ch in let! k := key_bytes h e in Some (k, None)
  | _ => let! e := Post ch in let! k := key_bytes h e in let! v := value_of h e in Some (k, Some v)
  end.

Fixpoint apply_changes (h : ttl_store) (D : gmap bytes entry_value) (l : list Change) :
    option (gmap bytes entry_value) :=
  match l with
  | [] => Some D
  | ch :: l => let! (k, r) := effect h ch in apply_changes h (partial_alter (fun _ => r) k D) l
  end.

Lemma apply_changes_spec h ps D :
  NoDup (map fst ps) -> (forall k ch, (k, ch) ∈ ps -> exists r, effect h ch = Some (k, r)) ->
  exists D', apply_changes h D (map snd ps) = Some D' /\
    (forall k ch r, (k, ch) ∈ ps -> effect h ch = Some (k, r) -> D' !! k = r) /\
    (forall k, k ∉ map fst ps -> D' !! k = D !! k).
Proof.
  revert D. induction ps as [|[k ch] ps IH]; intros D HN HE; cbn [map fst snd apply_changes].
  - exists D. split_and!; [done|by intros k ch r ?%elem_of_nil|done].
  - cbn [map fst] in HN. apply NoDup_cons in HN as [Hk HN].
    destruct (HE k ch ltac:(by left)) as [r Hr]. rewrite Hr.
    destruct (IH (partial_alter (fun _ => r) k D) HN) as (D' & -> & H1 & H2).
    { intros k' ch' Hin. apply HE. by right. }
    exists D'. split_and!; [done| |].
    + intros k' ch' r' [[= -> ->]|Hin]%elem_of_cons Hr'; [|by eapply H1].
      rewrite Hr in Hr'. injection Hr' as <-. rewrite H2 by done. by rewrite lookup_partial_alter_eq.
    + intros k' [Hne Hni]%not_elem_of_cons. rewrite H2 by done. by rewrite lookup_partial_alter_ne.
Qed.

(** ** Reading through the store *)
Lemma value_of_store h h' e :
  (forall p, p ∈ entry_cells (Some e) -> h' !! p = h !! p) ->
  value_of h' e = value_of h e /\ key_bytes h' e = key_bytes h e.
Proof.
  unfold entry_cells, value_of, key_bytes, Entry_LedgerKey, deref_ttl. cbn.
  destruct (Data e) eqn:E; cbn; intros H; try done. rewrite H by (by left). done.
Qed.

Lemma getLedgerKey_bytes h e k : key_bytes h e = Some k -> getLedgerKey h (Some e) = Some (Ok k).
Proof.
  unfold key_bytes, getLedgerKey. destruct (Entry_LedgerKey h e) as [key|]; [|done]. by intros ->.
Qed.

(** Two entries with the same key bytes, one a TTL, are TTLs of the same hash. *)
Lemma same_key_ttl h e e' k p :
  key_bytes h e = Some k -> key_bytes h e' = Some k -> Data e = DataTtl p ->
  exists q a b, Data e' = DataTtl q /\ h !! p = Some b /\ h !! q = Some a /\ KeyHash a = KeyHash b.
Proof.
  unfold key_bytes, Entry_LedgerKey. intros H H' E. rewrite E in H. cbn in H.
  destruct (h !! p) as [b|] eqn:Eb; [|done]. destruct (Data_LedgerKey h (Data e')) as [key|] eqn:E'; [|done].
  pose proof (marshal_key_inj _ _ _ H' H) as ->. destruct (Data e') as [| | | | | | | | |q] eqn:E''; try done.
  cbn in E'. destruct (h !! q) as [a|] eqn:Ea; [|done]. injection E' as E'. by exists q, a, b.
Qed.

(** Stores with the same keys: a TTL is extended, but stays that of its entry. *)
Definition same_keys (h h' : ttl_store) : Prop := forall p, KeyHash <$> h' !! p = KeyHash <$> h !! p.

Lemma same_keys_insert h p a b : h !! p = Some b -> KeyHash a = KeyHash b -> same_keys h (<[p := a]> h).
Proof.
  intros Hb E p'. destruct (decide (p' = p)) as [->|Hne]; [|by rewrite lookup_insert_ne].
  rewrite lookup_insert_eq, Hb. cbn. by rewrite E.
Qed.

(** ** The invariant between the compactor and the ledger *)
Definition holds_live (h : ttl_store) (k : bytes) (ch : Change) (L : ledger) : Prop :=
  k ∈ written L /\ exists e v, Post ch = Some e /\ key_bytes h e = Some k /\ value_of h e = Some v /\
    live L !! k = Some v.

Definition pre_key (h : ttl_store) (k : bytes) (ch : Change) : Prop :=
  exists e, Pre ch = Some e /\ key_bytes h e = Some k.

Definition cached_ok (h : ttl_store) (k : bytes) (ch : Change) (L : ledger) : Prop :=
  match ChangeType ch with
  | LedgerEntryCreated | LedgerEntryRestored => holds_live h k ch L
  | LedgerEntryUpdated => holds_live h k ch L /\ pre_key h k ch
  | LedgerEntryRemoved => (k ∉ written L) /\ live L !! k = None /\ pre_key h k ch
  | LedgerEntryState => False
  end.

(** Of an entry that was live before the ledger, a change keeps that state. *)
Definition keeps_pre (h : ttl_store) (D0 : gmap bytes entry_value) (k : bytes) (ch : Change) : Prop :=
  forall v, D0 !! k = Some v ->
    (ChangeType ch = LedgerEntryUpdated \/ ChangeType ch = LedgerEntryRemoved) /\
    exists pre, Pre ch = Some pre /\ value_of h pre = Some v.

Record squashed (h0 : ttl_store) (D0 : gmap bytes entry_value) (done_cells written_cells : list ttl_pointer)
    (m : gmap bytes Change) (h : ttl_store) (L : ledger) : Prop := {
  sq_none k : m !! k = None ->
    live L !! k = D0 !! k /\ (k ∉ written L) /\ (k ∈ touched L -> D0 !! k = None);
  sq_some k ch : m !! k = Some ch ->
    k ∈ touched L /\ (forall p, p ∈ cells ch -> p ∈ done_cells) /\ cached_ok h k ch L /\ keeps_pre h D0 k ch;
  sq_store p : p ∉ written_cells -> h !! p = h0 !! p
}.

Lemma cell_pre c pre p : Pre c = Some pre -> p ∈ entry_cells (Some pre) -> p ∈ cells c.
Proof. intros E Hp. unfold cells. rewrite E. apply elem_of_app. by left. Qed.
Lemma cell_post c e p : Post c = Some e -> p ∈ entry_cells (Some e) -> p ∈ cells c.
Proof. intros E Hp. unfold cells. rewrite E. apply elem_of_app. by right. Qed.

Lemma holds_live_frame h h' k ch L L' :
  (forall p, p ∈ cells ch -> h' !! p = h !! p) ->
  live L' !! k = live L !! k -> (k ∈ written L' <-> k ∈ written L) ->
  holds_live h k ch L -> holds_live h' k ch L'.
Proof.
  intros Hh Hl Hw (H1 & e & v & He & Hk & Hv & Hlv). split; [by apply Hw|]. exists e, v.
  destruct (value_of_store h h' e) as [-> ->]; [intros p Hp; apply Hh; by eapply cell_post|].
  by rewrite Hl.
Qed.

Lemma pre_key_frame h h' k ch :
  (forall p, p ∈ entry_cells (Pre ch) -> h' !! p = h !! p) -> pre_key h k ch -> pre_key h' k ch.
Proof.
  intros Hh (e & He & Hk). exists e. split; [done|]. rewrite He in Hh.
  by destruct (value_of_store h h' e Hh) as [_ ->].
Qed.

(** A cached change of another key does not notice a step. *)
Lemma cached_ok_frame h h' k ch L L' :
  (forall p, p ∈ cells ch -> h' !! p = h !! p) ->
  live L' !! k = live L !! k -> (k ∈ written L' <-> k ∈ written L) ->
  cached_ok h k ch L -> cached_ok h' k ch L'.
Proof.
  intros Hh Hl Hw. assert (Hp : forall p, p ∈ entry_cells (Pre ch) -> h' !! p = h !! p)
    by (intros p Hin; apply Hh; unfold cells; apply elem_of_app; by left).
  unfold cached_ok. destruct (ChangeType ch); try done.
  - by apply holds_live_frame.
  - intros [H1 H2]. split; [by apply (holds_live_frame h h' k ch L L')|by apply (pre_key_frame h h')].
  - intros (H1 & H2 & H3). split_and!; [by rewrite Hw|by rewrite Hl|by apply (pre_key_frame h h')].
  - by apply holds_live_frame.
Qed.

Lemma keeps_pre_frame h h' D0 k ch :
  (forall p, p ∈ entry_cells (Pre ch) -> h' !! p = h !! p) -> keeps_pre h D0 k ch -> keeps_pre h' D0 k ch.
Proof.
  intros Hh H v Hv. destruct (H v Hv) as [Ht (pre & Hp & Hval)]. split; [done|]. exists pre. split; [done|].
  rewrite Hp in Hh. by rewrite (proj1 (value_of_store h h' pre Hh)).
Qed.

(** One key changes: the shape every step of the compactor has. *)
Lemma squashed_update h0 D0 cs0 ws0 cs1 ws1 m h L m' h' L' k :
  squashed h0 D0 cs0 ws0 m h L ->
  (forall k', k' <> k -> m' !! k' = m !! k') ->
  (forall k', k' <> k -> live L' !! k' = live L !! k' /\ (k' ∈ written L' <-> k' ∈ written L)) ->
  touched L' = {[k]} ∪ touched L ->
  (forall p, p ∉ ws1 -> h' !! p = h !! p) -> (forall p, p ∈ cs0 -> p ∉ ws1) ->
  (m' !! k = None -> live L' !! k = D0 !! k /\ (k ∉ written L') /\ D0 !! k = None) ->
  (forall ch, m' !! k = Some ch ->
     (forall p, p ∈ cells ch -> p ∈ cs0 ++ cs1) /\ cached_ok h' k ch L' /\ keeps_pre h' D0 k ch) ->
  squashed h0 D0 (cs0 ++ cs1) (ws0 ++ ws1) m' h' L'.
Proof.
  intros [N S H] Hm HL HT Hh Hdisj HN HS. split.
  - intros k' Hk'. destruct (decide (k' = k)) as [->|Hne].
    + by destruct (HN Hk') as (H1 & H2 & H3).
    + rewrite Hm in Hk' by done. destruct (N k' Hk') as (H1 & H2 & H3). destruct (HL k' Hne) as [-> HW].
      split_and!; [done|by rewrite HW|]. rewrite HT. intros [?%elem_of_singleton|?]%elem_of_union; [done|auto].
  - intros k' ch Hk'. destruct (decide (k' = k)) as [->|Hne].
    + split; [rewrite HT; apply elem_of_union; left; by apply elem_of_singleton|]. by apply HS.
    + rewrite Hm in Hk' by done. destruct (S k' ch Hk') as (H1 & H2 & H3 & H4). destruct (HL k' Hne) as [El HW].
      assert (Hc : forall p, p ∈ cells ch -> h' !! p = h !! p) by (intros p Hp; apply Hh, Hdisj, H2, Hp).
      split_and!; [rewrite HT; apply elem_of_union; by right|intros p Hp; apply elem_of_app; left; by apply H2|..].
      * by apply (cached_ok_frame h h' k' ch L L').
      * apply (keeps_pre_frame h); [|done]. intros p Hp. apply Hc. unfold cells. apply elem_of_app. by left.
  - intros p [Hp0 Hp1]%not_elem_of_app. rewrite Hh by done. by apply H.
Qed.

(** ** One change *)
Section Step.
Context (h0 : ttl_store) (D0 : gmap bytes entry_value) (cs0 ws0 : list ttl_pointer).
Context (c : ChangeCompactor) (h : ttl_store) (L : ledger) (ch : Change).
Context (Q : squashed h0 D0 cs0 ws0 (cache c) h L) (HT : well_typed ch).
Context (Hread : forall p, p ∈ cs0 -> p ∉ writes ch) (Hwritten : forall p, p ∈ ws0 -> p ∉ cells ch).

Definition advances (L' : ledger) : Prop :=
  exists c' h', AddChange c h ch = Some (Ok (c', h')) /\ same_keys h h' /\
    squashed h0 D0 (cs0 ++ cells ch) (ws0 ++ writes ch) (cache c') h' L'.

(** The entries of the change are as they were before the ledger. *)
Lemma read_entry e : Pre ch = Some e \/ Post ch = Some e ->
  value_of h e = value_of h0 e /\ key_bytes h e = key_bytes h0 e.
Proof.
  intros He. apply value_of_store. intros p Hp. apply (sq_store _ _ _ _ _ _ _ Q).
  intros Hin. apply (Hwritten p Hin). destruct He as [He|He]; [by eapply cell_pre|by eapply cell_post].
Qed.

Lemma cached_cells k ex (h' : ttl_store) :
  cache c !! k = Some ex -> (forall p, p ∉ writes ch -> h' !! p = h !! p) ->
  forall p, p ∈ cells ex -> h' !! p = h !! p.
Proof.
  intros E Hh p Hp. apply Hh, Hread. by apply (sq_some _ _ _ _ _ _ _ Q k ex E).
Qed.

(** A step that puts [x] in the cache, or drops the key. *)
Lemma advances_insert k x h' L' :
  AddChange c h ch = Some (Ok (set_cache c (<[k := x]> (cache c)), h')) ->
  (forall k', k' <> k -> live L' !! k' = live L !! k' /\ (k' ∈ written L' <-> k' ∈ written L)) ->
  touched L' = {[k]} ∪ touched L -> same_keys h h' -> (forall p, p ∉ writes ch -> h' !! p = h !! p) ->
  (forall p, p ∈ cells x -> p ∈ cs0 ++ cells ch) -> cached_ok h' k x L' -> keeps_pre h' D0 k x -> advances L'.
Proof.
  intros E HL Ht Hsk Hh Hc Hok Hpre. exists (set_cache c (<[k := x]> (cache c))), h'. split_and!; [done|done|].
  apply (squashed_update h0 D0 cs0 ws0 (cells ch) (writes ch) (cache c) h L _ h' L' k Q); try done; cbn.
  - intros k' Hne. by apply lookup_insert_ne.
  - by rewrite lookup_insert_eq.
  - intros ch' Hin. rewrite lookup_insert_eq in Hin. by injection Hin as <-.
Qed.

Lemma advances_delete k L' :
  AddChange c h ch = Some (Ok (set_cache c (delete k (cache c)), h)) ->
  (forall k', k' <> k -> live L' !! k' = live L !! k' /\ (k' ∈ written L' <-> k' ∈ written L)) ->
  touched L' = {[k]} ∪ touched L -> live L' !! k = None -> k ∉ written L' -> D0 !! k = None -> advances L'.
Proof.
  intros E HL Ht Hl Hw HD. exists (set_cache c (delete k (cache c))), h. split_and!; [done|done|].
  apply (squashed_update h0 D0 cs0 ws0 (cells ch) (writes ch) (cache c) h L _ h L' k Q); try done; cbn.
  - intros k' Hne. by apply lookup_delete_ne.
  - intros _. by rewrite HD.
  - intros ch' Hin. by rewrite lookup_delete_eq in Hin.
Qed.

(** Where a change of the cache put together from two goes. *)
Lemma mixed_cells k ex t pre post ct :
  cache c !! k = Some ex -> pre = Pre ex \/ pre = Pre ch -> post = Post ch \/ post = None ->
  forall p, p ∈ cells (new_change t pre post ct) -> p ∈ cs0 ++ cells ch.
Proof.
  intros E Hpre Hpost p. unfold cells at 1. cbn. rewrite !elem_of_app. intros [Hp|Hp].
  - destruct Hpre as [->| ->].
    + left. apply (sq_some _ _ _ _ _ _ _ Q k ex E). unfold cells. apply elem_of_app. by left.
    + right. apply elem_of_app. by left.
  - destruct Hpost as [->| ->]; [|by apply elem_of_nil in Hp]. right. apply elem_of_app. by right.
Qed.

Lemma put_frame k v k' :
  k' <> k -> (<[k := v]> (live L) : gmap bytes entry_value) !! k' = live L !! k' /\ (k' ∈ {[k]} ∪ written L <-> k' ∈ written L).
Proof. intros Hne. split; [by apply lookup_insert_ne|set_solver]. Qed.

Lemma put_live h' k v e x W T :
  Post x = Some e -> key_bytes h' e = Some k -> value_of h' e = Some v ->
  holds_live h' k x (mkLedger (<[k := v]> (live L)) ({[k]} ∪ W) T).
Proof.
  intros He Hk Hv. split; [cbn; set_solver|]. exists e, v. cbn. by rewrite lookup_insert_eq.
Qed.

(** Creating or restoring an entry the compactor has not seen. *)
Lemma add_fresh k v e :
  cache c !! k = None -> live L !! k = None ->
  ChangeType ch = LedgerEntryCreated \/ ChangeType ch = LedgerEntryRestored ->
  Post ch = Some e -> key_bytes h e = Some k -> value_of h e = Some v ->
  advances (mkLedger (<[k := v]> (live L)) ({[k]} ∪ written L) ({[k]} ∪ touched L)).
Proof.
  intros Hm Hl Ht He Hk Hv. apply (advances_insert k ch h); try done.
  - unfold AddChange, addCreatedChange, addRestoredChange. rewrite He, (getLedgerKey_bytes h e k Hk), Hm.
    by destruct Ht as [-> | ->].
  - intros k' Hne. by apply put_frame.
  - intros p Hp. apply elem_of_app. by right.
  - unfold cached_ok. pose proof (put_live h k v e ch (written L) ({[k]} ∪ touched L) He Hk Hv).
    by destruct Ht as [-> | ->].
  - intros v' Hv'. destruct (sq_none _ _ _ _ _ _ _ Q k Hm) as (H1 & _). congruence.
Qed.

Lemma add_created k v e :
  ChangeType ch = LedgerEntryCreated -> Post ch = Some e -> key_bytes h e = Some k -> value_of h e = Some v ->
  live L !! k = None -> advances (mkLedger (<[k := v]> (live L)) ({[k]} ∪ written L) ({[k]} ∪ touched L)).
Proof.
  intros Ht He Hk Hv Hl. destruct (cache c !! k) as [ex|] eqn:E; [|by apply (add_fresh k v e); auto].
  destruct (sq_some _ _ _ _ _ _ _ Q k ex E) as (_ & _ & Hok & Hpre).
  assert (Hrem : ChangeType ex = LedgerEntryRemoved).
  { unfold cached_ok, holds_live in Hok. destruct (ChangeType ex); try done; exfalso;
      (destruct Hok as [(_ & ? & ? & _ & _ & _ & Hn) _] || destruct Hok as (_ & ? & ? & _ & _ & _ & Hn)); congruence. }
  unfold cached_ok in Hok. rewrite Hrem in Hok. destruct Hok as (_ & _ & pre & Hp & Hpk).
  apply (advances_insert k (new_change (Type_ ch) (Pre ex) (Post ch) LedgerEntryUpdated) h); try done.
  - unfold AddChange, addCreatedChange. by rewrite Ht, He, (getLedgerKey_bytes h e k Hk), E, Hrem.
  - intros k' Hne. by apply put_frame.
  - apply (mixed_cells k ex _ _ _ _ E); auto.
  - unfold cached_ok. cbn. split; [by apply (put_live h k v e)|by exists pre].
  - intros v' Hv'. destruct (Hpre v' Hv') as [_ H]. split; [by left|done].
Qed.

(** The TTL rule, on an entry already written in this ledger. *)
Lemma merge_step k ex e v old :
  cache c !! k = Some ex -> holds_live h k ex L -> Post ch = Some e ->
  key_bytes h e = Some k -> value_of h e = Some v -> live L !! k = Some old ->
  exists h', (if bool_decide (Type_ ch = LedgerEntryTypeTtl) then merge_ttl h (Post ex) (Post ch) else Some h) = Some h' /\
    same_keys h h' /\ (forall p, p ∉ entry_cells (Post ch) -> h' !! p = h !! p) /\
    key_bytes h' e = Some k /\ value_of h' e = Some (merge_values old v).
Proof.
  intros E (_ & e0 & v0 & He0 & Hk0 & Hv0 & Hl0) He Hk Hv Hl. rewrite Hl in Hl0. injection Hl0 as <-.
  rewrite (HT e (or_intror He)), He, He0. destruct (Data e) as [| | | | | | | | |p] eqn:Ed; cbn [Data_Type].
  1-9: exists h; split; [done|]; split; [done|]; split; [done|]; split; [done|]; rewrite Hv; f_equal;
    unfold value_of in Hv; rewrite Ed in Hv; injection Hv as <-; unfold merge_values; by destruct (v_body old).
  destruct (same_key_ttl h e e0 k p Hk Hk0 Ed) as (q & a & b & Ed0 & Hb & Ha & EK).
  exists (<[p := maxTTL a b]> h). unfold merge_ttl, deref_ttl. rewrite Ed, Ed0. cbn [Data_Ttl].
  rewrite Ha, Hb. split; [done|].
  assert (HK : KeyHash (maxTTL a b) = KeyHash b) by (unfold maxTTL; by case_match).
  unfold value_of in Hv, Hv0 |- *. rewrite Ed in Hv |- *. rewrite Ed0 in Hv0. rewrite Hb in Hv. rewrite Ha in Hv0.
  injection Hv as <-. injection Hv0 as <-. rewrite lookup_insert_eq. split_and!.
  - by apply (same_keys_insert h p _ b).
  - intros p' Hp'. apply lookup_insert_ne. intros <-. apply Hp'. unfold entry_cells, deref_ttl. rewrite Ed. by left.
  - unfold key_bytes, Entry_LedgerKey in *. rewrite Ed in Hk |- *. cbn in *. rewrite Hb in Hk.
    by rewrite lookup_insert_eq, HK.
  - done.
Qed.

Lemma add_updated pre k v e old :
  ChangeType ch = LedgerEntryUpdated -> Post ch = Some e -> key_bytes h e = Some k ->
  value_of h e = Some v -> live L !! k = Some old -> Pre ch = Some pre -> key_bytes h pre = Some k ->
  (k ∉ touched L -> value_of h pre = Some old) ->
  advances (mkLedger (<[k := if bool_decide (k ∈ written L) then merge_values old v else v]> (live L))
    ({[k]} ∪ written L) ({[k]} ∪ touched L)).
Proof.
  intros Ht He Hk Hv Hl Hp Hpk Hpv. destruct (cache c !! k) as [ex|] eqn:E.
  - destruct (sq_some _ _ _ _ _ _ _ Q k ex E) as (_ & _ & Hok & Hpre).
    assert (HL : holds_live h k ex L /\ (ChangeType ex = LedgerEntryUpdated -> pre_key h k ex) /\
      match ChangeType ex with LedgerEntryCreated | LedgerEntryUpdated | LedgerEntryRestored => True | _ => False end).
    { unfold cached_ok in Hok. destruct (ChangeType ex); try done; [tauto|].
      destruct Hok as (_ & Hn & _). congruence. }
    destruct HL as (HL & HU & Hty).
    destruct (merge_step k ex e v old E HL He Hk Hv Hl) as (h' & Em & Hsk & Hh & Hk' & Hv').
    assert (Hc : forall p, p ∉ writes ch -> h' !! p = h !! p) by (unfold writes; by rewrite Ht).
    rewrite bool_decide_eq_true_2 by apply HL.
    apply (advances_insert k (new_change (Type_ ch) (Pre ex) (Post ch) (ChangeType ex)) h'); try done.
    + unfold AddChange, addUpdatedChange. rewrite Ht, He, (getLedgerKey_bytes h e k Hk), E. rewrite He in Em.
      rewrite Em. by destruct (ChangeType ex).
    + intros k' Hne. by apply put_frame.
    + apply (mixed_cells k ex _ _ _ _ E); auto.
    + pose proof (put_live h' k (merge_values old v) e (new_change (Type_ ch) (Pre ex) (Post ch) (ChangeType ex))
        (written L) ({[k]} ∪ touched L) He Hk' Hv') as HP.
      unfold cached_ok. cbn [ChangeType new_change]. destruct (ChangeType ex) eqn:Ex; try done. split; [done|].
      apply (pre_key_frame h); [|by apply HU]. intros p Hin. apply (cached_cells k ex h' E Hc).
      unfold cells. apply elem_of_app. by left.
    + intros v' Hv0. destruct (Hpre v' Hv0) as [Hty' (q & Hq & Hqv)]. split; [done|]. exists q. split; [done|].
      rewrite <- Hqv. apply value_of_store. intros p Hin. apply (cached_cells k ex h' E Hc). by eapply cell_pre.
  - destruct (sq_none _ _ _ _ _ _ _ Q k E) as (H1 & H2 & H3). rewrite bool_decide_eq_false_2 by done.
    assert (Hnt : k ∉ touched L) by (intros Hin; apply H3 in Hin; congruence).
    apply (advances_insert k ch h); try done.
    + unfold AddChange, addUpdatedChange. by rewrite Ht, He, (getLedgerKey_bytes h e k Hk), E.
    + intros k' Hne. by apply put_frame.
    + intros p Hin. apply elem_of_app. by right.
    + unfold cached_ok. rewrite Ht. split; [by apply (put_live h k v e)|by exists pre].
    + intros v' Hv'. split; [by left|]. exists pre. split; [done|]. rewrite (Hpv Hnt). congruence.
Qed.

Lemma drop_frame k k' :
  k' <> k -> (delete k (live L) : gmap bytes entry_value) !! k' = live L !! k' /\
    (k' ∈ written L ∖ {[k]} <-> k' ∈ written L).
Proof. intros Hne. split; [by apply lookup_delete_ne|set_solver]. Qed.

Lemma add_removed pre k old :
  ChangeType ch = LedgerEntryRemoved -> Pre ch = Some pre -> key_bytes h pre = Some k ->
  live L !! k = Some old -> (k ∉ touched L -> value_of h pre = Some old) ->
  advances (mkLedger (delete k (live L)) (written L ∖ {[k]}) ({[k]} ∪ touched L)).
Proof.
  intros Ht Hp Hpk Hl Hpv.
  assert (HO : forall x, ChangeType x = LedgerEntryRemoved -> pre_key h k x ->
    cached_ok h k x (mkLedger (delete k (live L)) (written L ∖ {[k]}) ({[k]} ∪ touched L))).
  { intros x Hx Hpx. unfold cached_ok. rewrite Hx. cbn. split_and!; [set_solver|by rewrite lookup_delete_eq|done]. }
  destruct (cache c !! k) as [ex|] eqn:E.
  - destruct (sq_some _ _ _ _ _ _ _ Q k ex E) as (_ & _ & Hok & Hpre).
    assert (HD : ChangeType ex <> LedgerEntryUpdated -> ChangeType ex <> LedgerEntryRemoved -> D0 !! k = None).
    { intros H1 H2. destruct (D0 !! k) as [v|] eqn:ED; [|done]. by destruct (Hpre v ED) as [[?|?] _]. }
    assert (HA : AddChange c h ch = addRemovedChange c h ch) by (unfold AddChange; by rewrite Ht).
    unfold addRemovedChange in HA. rewrite Hp, (getLedgerKey_bytes h pre k Hpk), E in HA.
    destruct (ChangeType ex) eqn:Ex.
    + apply (advances_delete k); cbn; try done; [by apply drop_frame|by rewrite lookup_delete_eq|set_solver|by apply HD].
    + unfold cached_ok in Hok. rewrite Ex in Hok. destruct Hok as [_ Hpk'].
      apply (advances_insert k _ h _ HA); try done; [by apply drop_frame| | |].
      * apply (mixed_cells k ex _ _ _ _ E); auto.
      * by apply HO.
      * intros v Hv. destruct (Hpre v Hv) as [_ H]. split; [by right|done].
    + unfold cached_ok in Hok. rewrite Ex in Hok. destruct Hok as (_ & Hn & _). congruence.
    + unfold cached_ok in Hok. by rewrite Ex in Hok.
    + destruct (SuppressRemoveAfterRestoreChange (config c)).
      * apply (advances_delete k); cbn; try done; [by apply drop_frame|by rewrite lookup_delete_eq|set_solver|by apply HD].
      * rewrite <- Hp in HA. apply (advances_insert k _ h _ HA); try done; [by apply drop_frame| | |].
        -- apply (mixed_cells k ex _ _ _ _ E); auto.
        -- apply HO; [done|]. by exists pre.
        -- intros v Hv. rewrite HD in Hv by done. done.
  - destruct (sq_none _ _ _ _ _ _ _ Q k E) as (H1 & H2 & H3).
    assert (Hnt : k ∉ touched L) by (intros Hin; apply H3 in Hin; congruence).
    apply (advances_insert k ch h); try done; [|by apply drop_frame| | |].
    + unfold AddChange, addRemovedChange. by rewrite Ht, Hp, (getLedgerKey_bytes h pre k Hpk), E.
    + intros p Hin. apply elem_of_app. by right.
    + apply HO; [done|by exists pre].
    + intros v' Hv'. split; [by right|]. exists pre. split; [done|]. rewrite (Hpv Hnt). congruence.
Qed.

Lemma AddChange_advances L' : ledger_step h0 L ch L' -> advances L'.
Proof.
  intros H. destruct H as [e k v Ht He Hk Hv Hl|e k v Ht He Hk Hv Hl Hnt
    |pre e k v old Ht He Hk Hv Hl Hp Hpk Hpv|pre k old Ht Hp Hpk Hl Hpv Hpost].
  - destruct (read_entry e (or_intror He)) as [E1 E2]. rewrite <- E2 in Hk. rewrite <- E1 in Hv.
    by apply (add_created k v e).
  - destruct (read_entry e (or_intror He)) as [E1 E2]. rewrite <- E2 in Hk. rewrite <- E1 in Hv.
    apply (add_fresh k v e); auto. destruct (cache c !! k) as [ex|] eqn:E; [|done].
    exfalso. apply Hnt. by apply (sq_some _ _ _ _ _ _ _ Q k ex E).
  - destruct (read_entry e (or_intror He)) as [E1 E2]. rewrite <- E2 in Hk. rewrite <- E1 in Hv.
    destruct (read_entry pre (or_introl Hp)) as [E3 E4]. rewrite <- E4 in Hpk. rewrite <- E3 in Hpv.
    by apply (add_updated pre k v e old).
  - destruct (read_entry pre (or_introl Hp)) as [E3 E4]. rewrite <- E4 in Hpk. rewrite <- E3 in Hpv.
    by apply (add_removed pre k old).
Qed.
End Step.

(** ** All the changes *)
Lemma squashed_start h0 D0 : squashed h0 D0 [] [] ∅ h0 (mkLedger D0 ∅ ∅).
Proof.
  split; cbn; [|by intros k ch; rewrite lookup_empty|done].
  intros k _. split_and!; [done|apply not_elem_of_empty|by intros ?%elem_of_empty].
Qed.

Lemma add_all_squashed h0 D0 cs0 ws0 c h L cs L' :
  squashed h0 D0 cs0 ws0 (cache c) h L -> ledger_run h0 L cs L' -> Forall well_typed cs -> separate cs0 ws0 cs ->
  exists c' h', add_all c h cs = Some (Ok (c', h')) /\
    squashed h0 D0 (cs0 ++ flat_map cells cs) (ws0 ++ flat_map writes cs) (cache c') h' L'.
Proof.
  intros Q Hrun. revert cs0 ws0 c h Q. induction Hrun as [L|L ch L1 cs L2 Hs Hrun IH]; intros cs0 ws0 c h Q HW HS; cbn [add_all flat_map].
  - exists c, h. split; [done|]. by rewrite !app_nil_r.
  - apply Forall_cons in HW as [Hw HW]. destruct HS as (Hr & Hwr & HS).
    destruct (AddChange_advances h0 D0 cs0 ws0 c h L ch Q Hw Hr Hwr L1 Hs) as (c1 & h1 & -> & _ & Q1).
    destruct (IH _ _ c1 h1 Q1 HW HS) as (c2 & h2 & E & Q2). exists c2, h2. split; [done|]. by rewrite !app_assoc.
Qed.

Lemma cached_effect h k ch L :
  cached_ok h k ch L -> effect h ch = Some (k, live L !! k).
Proof.
  unfold cached_ok, effect, holds_live, pre_key. destruct (ChangeType ch); try done.
  - intros (_ & e & v & -> & -> & -> & ->). done.
  - intros ((_ & e & v & -> & -> & -> & ->) & _). done.
  - intros (_ & -> & e & -> & ->). done.
  - intros (_ & e & v & -> & -> & -> & ->). done.
Qed.

Lemma GetChanges_effect h0 D0 cs0 ws0 c h L ch :
  squashed h0 D0 cs0 ws0 (cache c) h L -> ch ∈ GetChanges c ->
  exists k, cache c !! k = Some ch /\ effect h ch = Some (k, live L !! k).
Proof.
  intros Q Hin. unfold GetChanges in Hin. apply list_elem_of_fmap in Hin as ([k ch'] & -> & Hin).
  apply elem_of_map_to_list in Hin. exists k. split; [done|]. apply cached_effect.
  by apply (sq_some _ _ _ _ _ _ _ Q k).
Qed.

Lemma apply_squashed h0 D0 cs0 ws0 c h L l :
  squashed h0 D0 cs0 ws0 (cache c) h L -> l ≡ₚ GetChanges c -> apply_changes h D0 l = Some (live L).
Proof.
  intros Q Hl. unfold GetChanges in Hl. apply Permutation_map_inv in Hl as (ps & -> & Hps).
  assert (Hin : forall k ch, (k, ch) ∈ ps <-> cache c !! k = Some ch)
    by (intros k ch; by rewrite <- Hps, elem_of_map_to_list).
  assert (HE : forall k ch, (k, ch) ∈ ps -> effect h ch = Some (k, live L !! k)).
  { intros k ch H%Hin. apply cached_effect. by apply (sq_some _ _ _ _ _ _ _ Q k). }
  destruct (apply_changes_spec h ps D0) as (D' & -> & H1 & H2).
  - change (map fst ps) with (fst <$> ps). rewrite <- Hps. apply NoDup_fst_map_to_list.
  - intros k ch H. eexists. by apply HE.
  - f_equal. apply map_eq. intros k. destruct (cache c !! k) as [ch|] eqn:E.
    + apply Hin in E as E'. by rewrite (H1 k ch _ E' (HE k ch E')).
    + rewrite H2; [by destruct (sq_none _ _ _ _ _ _ _ Q k E) as [-> _]|].
      intros ([k' ch] & -> & Hk)%list_elem_of_fmap. apply Hin in Hk. cbn in E. congruence.
Qed.

(** ** Properties *)

(** C5: compaction preserves the net effect of a ledger. For any sequence of
    legal changes, starting from any live entries, whose updates write TTL cells that
    no other change has, the compactor accepts every change; applying the squashed changes to
    the entries before the ledger, in any order, gives the entries after it; each
    squashed change concerns a different entry; and for an entry that existed
    before the ledger it is an update or a removal that still carries, as its
    [Pre], the entry as it was before. *)
Theorem compaction_preserves_net_effect cfg h0 D0 cs L :
  ledger_run h0 (mkLedger D0 ∅ ∅) cs L -> Forall well_typed cs -> separate [] [] cs ->
  exists c h, add_all (NewChangeCompactor cfg) h0 cs = Some (Ok (c, h)) /\
    (forall l, l ≡ₚ GetChanges c -> apply_changes h D0 l = Some (live L)) /\
    NoDup (map (fun ch => fst <$> effect h ch) (GetChanges c)) /\
    forall ch, ch ∈ GetChanges c -> exists k r, effect h ch = Some (k, r) /\
      forall v, D0 !! k = Some v ->
        (ChangeType ch = LedgerEntryUpdated \/ ChangeType ch = LedgerEntryRemoved) /\
        exists pre, Pre ch = Some pre /\ value_of h pre = Some v.
Proof.
  intros Hrun HW HN.
  destruct (add_all_squashed h0 D0 [] [] (NewChangeCompactor cfg) h0 _ cs L (squashed_start h0 D0) Hrun HW HN)
    as (c & h & E & Q). cbn [app] in Q.
  exists c, h. split_and!; [done|intros l; by eapply apply_squashed| |].
  - unfold GetChanges. rewrite map_map.
    replace (map _ (map_to_list (cache c))) with (map Some (map fst (map_to_list (cache c)))).
    + apply NoDup_fmap_2; [by intros x y [= ->]|]. apply NoDup_fst_map_to_list.
    + rewrite map_map. apply map_ext_in. intros [k ch] Hin%list_elem_of_In%elem_of_map_to_list. cbn.
      by rewrite (cached_effect h k ch L) by apply (sq_some _ _ _ _ _ _ _ Q k ch Hin).
  - intros ch Hin. destruct (GetChanges_effect _ _ _ _ _ _ _ ch Q Hin) as (k & Hk & He).
    exists k, (live L !! k). split; [done|]. apply (sq_some _ _ _ _ _ _ _ Q k ch Hk).
Qed.

(** What contradicts the live entries: creating one, changing or removing what is not
    there, and restoring one that is there or that the ledger has changed already. *)
Definition contradicts (L : ledger) (k : bytes) (t : LedgerEntryChangeType) : Prop :=
  match t with
  | LedgerEntryCreated => is_Some (live L !! k)
  | LedgerEntryUpdated | LedgerEntryRemoved => live L !! k = None
  | LedgerEntryRestored => is_Some (live L !! k) \/ k ∈ touched L
  | LedgerEntryState => False
  end.

Definition contradiction_error (t : LedgerEntryChangeType) : compactor_error :=
  match t with
  | LedgerEntryCreated => StateErrorCreateExists
  | LedgerEntryUpdated => StateErrorUpdateRemoved
  | LedgerEntryRemoved => StateErrorRemoveRemoved
  | _ => StateErrorRestoreActive
  end.

(** The entry that the key of a change is of. *)
Definition keyed_entry (ch : Change) : option LedgerEntry :=
  match ChangeType ch with LedgerEntryRemoved => Pre ch | _ => Post ch end.

(** A change of an entry that no squashed change concerns is taken as it is. *)
Lemma AddChange_uncached c h ch e k : ChangeType ch <> LedgerEntryState -> keyed_entry ch = Some e ->
  key_bytes h e = Some k -> cache c !! k = None -> AddChange c h ch = Some (Ok (set_cache c (<[k := ch]> (cache c)), h)).
Proof.
  unfold keyed_entry. intros Ht He Hk Hc. pose proof (getLedgerKey_bytes h e k Hk) as HG.
  unfold AddChange, addCreatedChange, addUpdatedChange, addRemovedChange, addRestoredChange.
  destruct (ChangeType ch); try done; by rewrite He, HG, Hc.
Qed.

(** And a contradicting one of an entry that a squashed change concerns is refused. *)
Lemma AddChange_cached h0 D0 cs0 ws0 c h L ch e k ex : squashed h0 D0 cs0 ws0 (cache c) h L ->
  keyed_entry ch = Some e -> key_bytes h e = Some k -> cache c !! k = Some ex -> contradicts L k (ChangeType ch) ->
  AddChange c h ch = Some (Err (contradiction_error (ChangeType ch))).
Proof.
  unfold keyed_entry, contradicts. intros Q He Hk Hex Hbad. destruct (sq_some _ _ _ _ _ _ _ Q k ex Hex) as (_ & _ & Hok & _).
  pose proof (getLedgerKey_bytes h e k Hk) as HG.
  unfold AddChange, addCreatedChange, addUpdatedChange, addRemovedChange, addRestoredChange.
  unfold cached_ok, holds_live in Hok.
  destruct (ChangeType ch); cbn in He; try done; rewrite He, HG, Hex; try done.
  - destruct (ChangeType ex); try done. destruct Hok as (_ & Hn & _). rewrite Hn in Hbad. by destruct Hbad.
  - destruct (ChangeType ex); try done;
      (destruct Hok as [(_ & ? & ? & _ & _ & _ & Hl) _] || destruct Hok as (_ & ? & ? & _ & _ & _ & Hl)); congruence.
  - destruct (ChangeType ex); try done;
      (destruct Hok as [(_ & ? & ? & _ & _ & _ & Hl) _] || destruct Hok as (_ & ? & ? & _ & _ & _ & Hl)); congruence.
Qed.

(** C6: which changes that contradict the ones before them are refused. After any
    sequence of legal changes, for an entry that one of them concerned and that was
    there before the ledger or is there now, the compactor returns the state error that
    names the contradiction: of a creation while the entry is live, of an update or a
    removal while it is not, and of any restoration. Of an entry that was neither it
    may have no squashed change: one that was created and removed in the ledger is
    forgotten, and so is one that was restored and removed, with the option; such a
    change, and one of an entry that the ledger has not concerned, is not checked but
    becomes the squashed change of its entry. Whether there is a squashed change
    decides between the two in every case. *)
Theorem compactor_refuses_contradictions cfg h0 D0 cs L c h ch e k :
  ledger_run h0 (mkLedger D0 ∅ ∅) cs L -> Forall well_typed cs -> separate [] [] cs ->
  add_all (NewChangeCompactor cfg) h0 cs = Some (Ok (c, h)) ->
  keyed_entry ch = Some e -> key_bytes h e = Some k -> contradicts L k (ChangeType ch) ->
  (k ∈ touched L -> is_Some (D0 !! k) \/ is_Some (live L !! k) ->
     AddChange c h ch = Some (Err (contradiction_error (ChangeType ch)))) /\
  (k ∉ touched L -> AddChange c h ch = Some (Ok (set_cache c (<[k := ch]> (cache c)), h))) /\
  AddChange c h ch = (if cache c !! k
    then Some (Err (contradiction_error (ChangeType ch)))
    else Some (Ok (set_cache c (<[k := ch]> (cache c)), h))).
Proof.
  intros Hrun HW HN Ha He Hk Hbad.
  destruct (add_all_squashed h0 D0 [] [] (NewChangeCompactor cfg) h0 _ cs L (squashed_start h0 D0) Hrun HW HN)
    as (c' & h' & E & Q). rewrite E in Ha. injection Ha as -> ->.
  assert (AddChange c h ch = (if cache c !! k then Some (Err (contradiction_error (ChangeType ch)))
    else Some (Ok (set_cache c (<[k := ch]> (cache c)), h)))) as HA.
  { destruct (cache c !! k) as [ex|] eqn:Ex; [by eapply AddChange_cached|].
    eapply AddChange_uncached; [|done..]. by intros Et; rewrite Et in Hbad. }
  split_and!; [| |done]; rewrite HA; destruct (cache c !! k) as [ex|] eqn:Ex; try done.
  - intros Ht Hor. destruct (sq_none _ _ _ _ _ _ _ Q k Ex) as (Hl & _ & Hn). rewrite Hl, (Hn Ht) in Hor.
    by destruct Hor as [[? [=]]|[? [=]]].
  - intros Ht. by destruct (sq_some _ _ _ _ _ _ _ Q k ex Ex) as (? & _).
Qed.
End Spec.

(** ** A TTL created at 10 and updated to 5 *)
Module Sample.
Import ConcreteKeys.
Definition ttl_entry (p : ttl_pointer) : LedgerEntry := mkLedgerEntry 1 (DataTtl p) ([] : bytes).
Definition sample_store : ttl_store :=
  <[0%nat := mkTtlEntry (zero_array 32) 10]> (<[1%nat := mkTtlEntry (zero_array 32) 10]>
    (<[2%nat := mkTtlEntry (zero_array 32) 5]> ∅)).
Definition sample_changes : list Change :=
  [new_change LedgerEntryTypeTtl None (Some (ttl_entry 0)) LedgerEntryCreated;
   new_change LedgerEntryTypeTtl (Some (ttl_entry 1)) (Some (ttl_entry 2)) LedgerEntryUpdated].
Definition sample_key : bytes := default [] (key_bytes sample_store (ttl_entry 0)).
Definition sample_value : entry_value := mkValue 1 (inr (mkTtlEntry (zero_array 32) 10)) ([] : bytes).

Definition sample_later : entry_value := mkValue 1 (inr (mkTtlEntry (zero_array 32) 5)) ([] : bytes).

Definition sample_begin : ledger := mkLedger ∅ ∅ ∅.
Definition sample_mid : ledger :=
  mkLedger (<[sample_key := sample_value]> (live sample_begin)) ({[sample_key]} ∪ written sample_begin)
    ({[sample_key]} ∪ touched sample_begin).
Definition sample_end : ledger :=
  mkLedger (<[sample_key := if bool_decide (sample_key ∈ written sample_mid)
      then merge_values sample_value sample_later else sample_later]> (live sample_mid))
    ({[sample_key]} ∪ written sample_mid) ({[sample_key]} ∪ touched sample_mid).

Lemma sample_run : ledger_run sample_store sample_begin sample_changes sample_end.
Proof.
  apply (run_cons _ _ _ sample_mid).
  - unfold sample_mid. apply (step_created _ _ _ (ttl_entry 0) sample_key sample_value); by vm_compute.
  - apply (run_cons _ _ _ sample_end); [|apply run_nil].
    unfold sample_end. apply (step_updated _ _ _ (ttl_entry 1) (ttl_entry 2) sample_key sample_later sample_value); by vm_compute.
Qed.

Lemma sample_well_typed : Forall well_typed sample_changes.
Proof. repeat constructor; intros e [[= <-]|[= <-]]; done. Qed.

Lemma sample_cells : separate [] [] sample_changes.
Proof. cbn. repeat split; intros p Hp; set_solver. Qed.

Lemma compaction_preserves_net_effect_witness :
  exists c h, add_all (NewChangeCompactor (mkConfig false)) sample_store sample_changes = Some (Ok (c, h)) /\
    apply_changes h ∅ (GetChanges c) = Some {[sample_key := sample_value]}.
Proof.
  destruct (compaction_preserves_net_effect (mkConfig false) _ _ _ _ sample_run sample_well_typed sample_cells)
    as (c & h & E & H & _). exists c, h. split; [exact E|].
  etransitivity; [exact (H (GetChanges c) (Permutation_refl _))|]. vm_compute. exact eq_refl.
Defined.

(** A creation, a removal and a removal: the second removal is not refused. *)
Definition forgotten_changes : list Change :=
  [new_change LedgerEntryTypeTtl None (Some (ttl_entry 0)) LedgerEntryCreated;
   new_change LedgerEntryTypeTtl (Some (ttl_entry 1)) None LedgerEntryRemoved;
   new_change LedgerEntryTypeTtl (Some (ttl_entry 1)) None LedgerEntryRemoved].
Example removed_twice : match add_all (NewChangeCompactor (mkConfig false)) sample_store forgotten_changes with
  | Some (Ok (c, _)) => map ChangeType (GetChanges c)
  | _ => []
  end = [LedgerEntryRemoved].
Proof. vm_compute. reflexivity. Qed.

Lemma compactor_refuses_contradictions_witness :
  exists c h, add_all (NewChangeCompactor (mkConfig false)) sample_store sample_changes = Some (Ok (c, h)) /\
    AddChange c h (new_change LedgerEntryTypeTtl None (Some (ttl_entry 2)) LedgerEntryCreated) =
      Some (Err StateErrorCreateExists).
Proof.
  destruct (add_all (NewChangeCompactor (mkConfig false)) sample_store sample_changes) as [[[c h]|e]|] eqn:E;
    [|exfalso; revert E; by vm_compute|exfalso; revert E; by vm_compute].
  exists c, h. split; [reflexivity|].
  apply (compactor_refuses_contradictions (mkConfig false) _ _ _ _ c h
    (new_change LedgerEntryTypeTtl None (Some (ttl_entry 2)) LedgerEntryCreated) (ttl_entry 2) sample_key
    sample_run sample_well_typed sample_cells E).
  - done.
  - revert E. vm_compute. intros [= _ <-]. done.
  - by eexists.
  - set_solver.
  - right. by eexists.
Defined.
End Sample.
