(* ===== verification/Schema.v ===== *)
(** * Ledger files of a data store

    src/support/datastore/schema.go: how a schema cuts the ledgers into files and
    partitions and names each file, and the parsing of those names in
    src/support/datastore/ledger_iter.go. Arithmetic on uint32 and uint64 wraps. *)
From Stdlib Require Import ZArith Lia.
From stdpp Require Import base list option.
From S2P Require Import Prelude GoStd Decimal Encodings.
#[local] Open Scope Z_scope.
#[local] Open Scope go_scope.

Record DataStoreSchema : Type := mkSchema {
  LedgersPerFile : Z;
  FilesPerPartition : Z;
  FileExtension : bytes
}.

(** The numbers are uint32. *)
Definition is_schema (ec : DataStoreSchema) : Prop := is_u32 (LedgersPerFile ec) /\ is_u32 (FilesPerPartition ec).

Inductive schema_error : Type := ErrLedgersPerFile | ErrFilesPerPartition | ErrPartitionTooLarge.

(** The product, and whether it is neither zero nor over uint32. *)
Definition partitionSize (ec : DataStoreSchema) : Z * bool :=
  let size := u64 (LedgersPerFile ec * FilesPerPartition ec) in
  if (size =? 0) || (MaxUint32 <? size) then (0, false) else (u32 size, true).

Definition Validate (ec : DataStoreSchema) : option schema_error :=
  if LedgersPerFile ec =? 0 then Some ErrLedgersPerFile
  else if FilesPerPartition ec =? 0 then Some ErrFilesPerPartition
  else if negb (partitionSize ec).2 then Some ErrPartitionTooLarge
  else None.

Definition GetSequenceNumberStartBoundary (ec : DataStoreSchema) (ledgerSeq : Z) : Z :=
  if LedgersPerFile ec =? 0 then 0 else u32 (ledgerSeq / LedgersPerFile ec * LedgersPerFile ec).

Definition GetSequenceNumberEndBoundary (ec : DataStoreSchema) (ledgerSeq : Z) : Z :=
  let end64 := u64 (u64 (GetSequenceNumberStartBoundary ec ledgerSeq + LedgersPerFile ec) - 1) in
  let end64 := if MaxUint32 <? end64 then MaxUint32 else end64 in
  u32 end64.

Definition dash : byte := byte_of_Z 45.
Definition slash : byte := byte_of_Z 47.
Definition DefaultCompressorName : bytes := str "zst".

Definition GetObjectKeyFromSequenceNumber (ec : DataStoreSchema) (ledgerSeq : Z) : bytes :=
  let objectKey :=
    let '(partitionSize, ok) := partitionSize ec in
    if ok && (1 <? FilesPerPartition ec) then
      let partitionStart := u32 (ledgerSeq / partitionSize * partitionSize) in
      let end64 := u64 (u64 (partitionStart + partitionSize) - 1) in
      let end64 := if MaxUint32 <? end64 then MaxUint32 else end64 in
      let partitionEnd := u32 end64 in
      fmt_08X (u32 (MaxUint32 - partitionStart)) ++ [dash; dash] ++ FormatUint partitionStart ++
        [dash] ++ FormatUint partitionEnd ++ [slash]
    else [] in
  let fileStart := GetSequenceNumberStartBoundary ec ledgerSeq in
  let fileEnd := GetSequenceNumberEndBoundary ec ledgerSeq in
  let objectKey := objectKey ++ fmt_08X (u32 (MaxUint32 - fileStart)) ++ [dash; dash] ++ FormatUint fileStart in
  let objectKey := if negb (fileStart =? fileEnd) then objectKey ++ [dash] ++ FormatUint fileEnd else objectKey in
  let ext := if go_len (FileExtension ec) =? 0 then DefaultCompressorName else FileExtension ec in
  objectKey ++ str ".xdr." ++ ext.

(** ** Parsing a file name *)

(** The longest prefix of digits, and the rest. *)
Fixpoint span_digits (s : bytes) : bytes * bytes :=
  match s with
  | c :: s' => if is_digit c then let '(ds, rest) := span_digits s' in (c :: ds, rest) else ([], s)
  | [] => ([], [])
  end.

(** [strings.CutPrefix]. *)
Fixpoint CutPrefix (s prefix : bytes) : option bytes :=
  match prefix, s with
  | [], _ => Some s
  | p :: prefix, c :: s => if bool_decide (c = p) then CutPrefix s prefix else None
  | _ :: _, [] => None
  end.

Definition xdr_infix : bytes := str ".xdr.".

(** [--(\d+)(?:-(\d+))?\.xdr\.] at the start of [s]: the two groups, the second
    one empty when absent. A greedy run of digits is never given back, since what
    follows it in the expression is not a digit. *)
Definition keyRange_at (s : bytes) : option (bytes * bytes) :=
  let! s := CutPrefix s [dash; dash] in
  let '(m1, s) := span_digits s in
  if go_len m1 =? 0 then None
  else
    let without_second := let! _ := CutPrefix s xdr_infix in Some (m1, []) in
    match CutPrefix s [dash] with
    | None => without_second
    | Some s2 =>
        let '(m2, s2) := span_digits s2 in
        if go_len m2 =? 0 then without_second
        else
          match CutPrefix s2 xdr_infix with
          | Some _ => Some (m1, m2)
          | None => without_second
          end
    end.

(** [keyRangeRE.FindStringSubmatch]: the leftmost match. *)
Fixpoint keyRangeRE (s : bytes) : option (bytes * bytes) :=
  match keyRange_at s with
  | Some m => Some m
  | None => match s with [] => None | _ :: s => keyRangeRE s end
  end.

Inductive key_error : Type :=
| ErrInvalidFileName
| ErrParseLow (e : num_error)
| ErrParseHigh (e : num_error)
| ErrLowAboveHigh.

Definition parseUint32 (s : bytes) : result num_error Z :=
  match ParseUint s 32 with
  | Err e => Err e
  | Ok u => Ok (u32 u)
  end.

Definition ParseRangeFromObjectKey (base : bytes) : result key_error (Z * Z) :=
  match keyRangeRE base with
  | None => Err ErrInvalidFileName
  | Some (m1, m2) =>
      match parseUint32 m1 with
      | Err e => Err (ErrParseLow e)
      | Ok low =>
          match (if negb (go_len m2 =? 0) then parseUint32 m2 else Ok low) with
          | Err e => Err (ErrParseHigh e)
          | Ok high => if high <? low then Err ErrLowAboveHigh else Ok (low, high)
          end
      end
  end.

Definition is_upper_hex (c : byte) : bool :=
  let v := Z_of_byte c in ((48 <=? v) && (v <=? 57)) || ((65 <=? v) && (v <=? 70)).
(** [[A-Za-z0-9._-]] *)
Definition is_ext_byte (c : byte) : bool :=
  let v := Z_of_byte c in
  ((65 <=? v) && (v <=? 90)) || ((97 <=? v) && (v <=? 122)) || ((48 <=? v) && (v <=? 57)) ||
  (v =? 46) || (v =? 95) || (v =? 45).

(** [^[0-9A-F]{8}--[0-9]+(?:-[0-9]+)?\.xdr\.[A-Za-z0-9._-]+$] *)
Definition ledgerFilenameRe (s : bytes) : bool :=
  let ext_ok (s : bytes) :=
    match CutPrefix s xdr_infix with
    | Some ext => (1 <=? go_len ext) && forallb is_ext_byte ext
    | None => false
    end in
  (8 <=? go_len s) && forallb is_upper_hex (take 8 s) &&
  match CutPrefix (drop 8 s) [dash; dash] with
  | None => false
  | Some s =>
      let '(m1, s) := span_digits s in
      (1 <=? go_len m1) &&
      (ext_ok s ||
       match CutPrefix s [dash] with
       | None => false
       | Some s2 => let '(m2, s2) := span_digits s2 in (1 <=? go_len m2) && ext_ok s2
       end)
  end.

(** What follows the last slash, if there is one. *)
Fixpoint after_last_slash (s : bytes) : option bytes :=
  match s with
  | [] => None
  | c :: s =>
      match after_last_slash s with
      | Some base => Some base
      | None => if bool_decide (c = slash) then Some s else None
      end
  end.

Fixpoint drop_slashes (s : bytes) : bytes :=
  match s with
  | c :: s' => if bool_decide (c = slash) then drop_slashes s' else s
  | [] => []
  end.

(** [filepath.Base]. *)
Definition filepath_Base (path : bytes) : bytes :=
  if go_len path =? 0 then [dot]
  else
    let path := rev (drop_slashes (rev path)) in
    let path := default path (after_last_slash path) in
    if go_len path =? 0 then [slash] else path.

(** ** Boundaries *)

(** The last ledger of a run of [l] from [s]. *)
Definition capped_end (s l : Z) : Z := Z.min (s + l - 1) MaxUint32.

Lemma start_boundary ec a :
  is_u32 a -> 0 < LedgersPerFile ec ->
  GetSequenceNumberStartBoundary ec a = a / LedgersPerFile ec * LedgersPerFile ec /\
  0 <= a / LedgersPerFile ec * LedgersPerFile ec <= a.
Proof.
  unfold is_u32. intros Ha Hl. unfold GetSequenceNumberStartBoundary. rewrite (proj2 (Z.eqb_neq _ _)) by lia.
  pose proof (Z.div_mod a (LedgersPerFile ec)). pose proof (Z.mod_pos_bound a (LedgersPerFile ec) Hl).
  assert (0 <= a / LedgersPerFile ec) by (apply Z.div_pos; lia).
  rewrite u32_id by (unfold is_u32; nia). nia.
Qed.

Lemma capped_end_u64 s l :
  is_u32 s -> is_u32 l -> 0 < l ->
  u32 (if MaxUint32 <? u64 (u64 (s + l) - 1) then MaxUint32 else u64 (u64 (s + l) - 1)) = capped_end s l.
Proof.
  unfold is_u32, capped_end. intros Hs Hl Hp. rewrite (u64_id (s + l)), u64_id by (unfold is_u64; lia).
  destruct (Z.ltb_spec MaxUint32 (s + l - 1)); rewrite u32_id by (unfold is_u32; lia); lia.
Qed.

Lemma end_boundary ec a :
  is_schema ec -> is_u32 a -> 0 < LedgersPerFile ec ->
  GetSequenceNumberEndBoundary ec a = capped_end (GetSequenceNumberStartBoundary ec a) (LedgersPerFile ec).
Proof.
  intros [Hl _] Ha Hp. unfold GetSequenceNumberEndBoundary. destruct (start_boundary ec a Ha Hp) as [Hs Hr].
  apply capped_end_u64; [|done|done]. unfold is_u32 in *. lia.
Qed.

(** With no ledgers per file, one file holds everything. *)
Lemma no_boundary ec a :
  LedgersPerFile ec = 0 -> GetSequenceNumberStartBoundary ec a = 0 /\ GetSequenceNumberEndBoundary ec a = MaxUint32.
Proof. intros H. unfold GetSequenceNumberEndBoundary, GetSequenceNumberStartBoundary. by rewrite H. Qed.

(** Multiples of [l] below [a] and [b]. *)
Lemma floor_mult_mono a b l : 0 < l -> a <= b -> a / l * l <= b / l * l.
Proof. intros Hl Hab. pose proof (Z.div_le_mono a b l Hl Hab). nia. Qed.

Lemma floor_mult_eq a b l : 0 < l -> a / l * l = b / l * l <-> a / l * l <= b < a / l * l + l.
Proof.
  intros Hl. pose proof (Z.div_mod a l). pose proof (Z.div_mod b l).
  pose proof (Z.mod_pos_bound a l Hl). pose proof (Z.mod_pos_bound b l Hl). split; [nia|].
  intros Hb. assert (b / l = a / l) as ->; [|done].
  symmetry. apply (Z.div_unique _ _ _ (b - a / l * l)); lia.
Qed.

Lemma file_bounds ec a b :
  is_schema ec -> is_u32 a -> is_u32 b ->
  is_u32 (GetSequenceNumberStartBoundary ec a) /\ is_u32 (GetSequenceNumberEndBoundary ec a) /\
  GetSequenceNumberStartBoundary ec a <= a <= GetSequenceNumberEndBoundary ec a /\
  (a <= b -> GetSequenceNumberStartBoundary ec a <= GetSequenceNumberStartBoundary ec b) /\
  (GetSequenceNumberStartBoundary ec a = GetSequenceNumberStartBoundary ec b <->
    GetSequenceNumberStartBoundary ec a <= b <= GetSequenceNumberEndBoundary ec a).
Proof.
  intros Hec Ha Hb. pose proof Hec as [Hl _]. unfold is_u32 in *.
  destruct (Z.eq_dec (LedgersPerFile ec) 0) as [H0|H0].
  - destruct (no_boundary ec a H0) as [-> ->]. destruct (no_boundary ec b H0) as [-> _]. lia.
  - assert (Hp : 0 < LedgersPerFile ec) by lia. rewrite end_boundary by done.
    destruct (start_boundary ec a Ha Hp) as [-> Hra]. destruct (start_boundary ec b Hb Hp) as [-> Hrb].
    pose proof (floor_mult_eq a a _ Hp) as Haa. pose proof (floor_mult_eq a b _ Hp) as Hab.
    pose proof (floor_mult_mono a b _ Hp). unfold capped_end. split_and!; try lia.
Qed.

(** ** The parts of a key *)

Definition file_ext (ec : DataStoreSchema) : bytes :=
  if go_len (FileExtension ec) =? 0 then DefaultCompressorName else FileExtension ec.

(** The range of a file as its name gives it. *)
Definition range_text (s e : Z) : bytes := FormatUint s ++ (if s =? e then [] else dash :: FormatUint e).

Definition file_name (ec : DataStoreSchema) (a : Z) : bytes :=
  fmt_08X (MaxUint32 - GetSequenceNumberStartBoundary ec a) ++ [dash; dash] ++
  range_text (GetSequenceNumberStartBoundary ec a) (GetSequenceNumberEndBoundary ec a) ++ xdr_infix ++ file_ext ec.

Definition partition_dir (ec : DataStoreSchema) (a : Z) : bytes :=
  let p := LedgersPerFile ec * FilesPerPartition ec in
  fmt_08X (MaxUint32 - a / p * p) ++ [dash; dash] ++ FormatUint (a / p * p) ++ [dash] ++
  FormatUint (capped_end (a / p * p) p) ++ [slash].

(** A key has a partition when there are several files in one and it fits. *)
Definition partitioned (ec : DataStoreSchema) : bool :=
  (1 <=? LedgersPerFile ec) && (2 <=? FilesPerPartition ec) && (LedgersPerFile ec * FilesPerPartition ec <=? MaxUint32).

Lemma partitionSize_spec ec :
  is_schema ec -> partitionSize ec =
    let p := LedgersPerFile ec * FilesPerPartition ec in if (1 <=? p) && (p <=? MaxUint32) then (p, true) else (0, false).
Proof.
  intros [Hl Hf]. unfold is_u32 in *. unfold partitionSize. cbv zeta.
  assert (0 <= LedgersPerFile ec * FilesPerPartition ec <= MaxUint32 * MaxUint32) as Hp by nia.
  rewrite u64_id by (unfold is_u64; lia). set (p := LedgersPerFile ec * FilesPerPartition ec) in *.
  destruct (Z.eqb_spec p 0), (Z.ltb_spec MaxUint32 p), (Z.leb_spec 1 p), (Z.leb_spec p MaxUint32);
    cbn [orb andb]; try lia; try done. by rewrite u32_id by (unfold is_u32; lia).
Qed.

Lemma schema_Validate_None ec :
  is_schema ec -> Validate ec = None <->
    1 <= LedgersPerFile ec /\ 1 <= FilesPerPartition ec /\ LedgersPerFile ec * FilesPerPartition ec <= MaxUint32.
Proof.
  intros Hec. pose proof (partitionSize_spec ec Hec) as Hp. cbv zeta in Hp. destruct Hec as [Hl Hf]. unfold is_u32 in *.
  unfold Validate. rewrite Hp. destruct (Z.eqb_spec (LedgersPerFile ec) 0); [split; [done|lia]|].
  destruct (Z.eqb_spec (FilesPerPartition ec) 0); [split; [done|lia]|].
  assert (1 <= LedgersPerFile ec * FilesPerPartition ec) by nia.
  rewrite (proj2 (Z.leb_le 1 _)) by done. cbn [andb].
  destruct (Z.leb_spec (LedgersPerFile ec * FilesPerPartition ec) MaxUint32); cbn [snd negb]; split; try done; lia.
Qed.

Lemma object_key_parts ec a :
  is_schema ec -> is_u32 a ->
  GetObjectKeyFromSequenceNumber ec a = (if partitioned ec then partition_dir ec a else []) ++ file_name ec a.
Proof.
  intros Hec Ha. destruct (file_bounds ec a a Hec Ha Ha) as (Hs & He & _).
  pose proof (partitionSize_spec ec Hec) as Hp. cbv zeta in Hp. pose proof Hec as [Hl Hf].
  unfold GetObjectKeyFromSequenceNumber. rewrite Hp. clear Hp. unfold is_u32 in *.
  rewrite (u32_id (MaxUint32 - GetSequenceNumberStartBoundary ec a)) by (unfold is_u32; lia).
  assert (forall x, (if negb (GetSequenceNumberStartBoundary ec a =? GetSequenceNumberEndBoundary ec a)
             then (x ++ fmt_08X (MaxUint32 - GetSequenceNumberStartBoundary ec a) ++ [dash; dash] ++
                     FormatUint (GetSequenceNumberStartBoundary ec a)) ++ [dash] ++ FormatUint (GetSequenceNumberEndBoundary ec a)
             else x ++ fmt_08X (MaxUint32 - GetSequenceNumberStartBoundary ec a) ++ [dash; dash] ++
                     FormatUint (GetSequenceNumberStartBoundary ec a)) ++ str ".xdr." ++ file_ext ec =
    x ++ file_name ec a) as Hfile.
  { intros x. unfold file_name, range_text, xdr_infix.
    destruct (GetSequenceNumberStartBoundary ec a =? GetSequenceNumberEndBoundary ec a); cbn [negb];
      by rewrite ?app_nil_r, <- ?app_assoc. }
  fold (file_ext ec). unfold partitioned.
  set (p := LedgersPerFile ec * FilesPerPartition ec) in *.
  destruct (Z.leb_spec 1 p), (Z.leb_spec p MaxUint32); cbn [andb]; rewrite Hfile, ?andb_false_r; try done.
  - assert (1 <= LedgersPerFile ec) by (destruct (Z.eq_dec (LedgersPerFile ec) 0); subst p; nia).
    rewrite (proj2 (Z.leb_le 1 _)) by done. cbn [andb]. rewrite andb_true_r.
    assert ((1 <? FilesPerPartition ec) = (2 <=? FilesPerPartition ec)) as -> by
      (destruct (Z.ltb_spec 1 (FilesPerPartition ec)), (Z.leb_spec 2 (FilesPerPartition ec)); lia || done).
    destruct (2 <=? FilesPerPartition ec); [|done].
    assert (0 <= a / p * p <= a).
    { pose proof (Z.div_mod a p). pose proof (Z.mod_pos_bound a p).
      assert (0 <= a / p) by (apply Z.div_pos; lia). nia. }
    rewrite (u32_id (a / p * p)) by (unfold is_u32; lia). rewrite capped_end_u64, u32_id by (unfold is_u32; lia).
    unfold partition_dir. fold p. done.
  - assert ((1 <=? LedgersPerFile ec) && (2 <=? FilesPerPartition ec) = false) as ->; [|done].
    apply andb_false_iff. rewrite !Z.leb_gt. subst p. nia.
Qed.

(** ** The order of keys *)

Lemma bytes_ltb_app_lt a b x y : length a = length b -> bytes_ltb a b = true -> bytes_ltb (a ++ x) (b ++ y) = true.
Proof. intros Hl H. by rewrite bytes_ltb_app_len, H. Qed.

Lemma inverted_prefix_lt m n x y :
  is_u32 m -> is_u32 n -> m < n -> bytes_ltb (fmt_08X (MaxUint32 - n) ++ x) (fmt_08X (MaxUint32 - m) ++ y) = true.
Proof.
  unfold is_u32. intros Hm Hn Hlt. apply bytes_ltb_app_lt; [by rewrite !length_fmt_08X|].
  assert (is_u32 (MaxUint32 - n) /\ is_u32 (MaxUint32 - m)) as [Hn' Hm'] by (unfold is_u32; lia).
  rewrite (proj1 (fmt_08X_order _ _ Hn' Hm')). apply Z.ltb_lt. lia.
Qed.

Lemma inverted_prefix_inj m n x y :
  is_u32 m -> is_u32 n -> fmt_08X (MaxUint32 - n) ++ x = fmt_08X (MaxUint32 - m) ++ y -> m = n.
Proof.
  unfold is_u32. intros Hm Hn [E _]%app_inj_1; [|by rewrite !length_fmt_08X].
  apply fmt_08X_order in E; unfold is_u32; lia.
Qed.

(** Files nest in partitions. *)
Lemma partition_of_file ec a :
  is_schema ec -> is_u32 a -> partitioned ec = true ->
  let p := LedgersPerFile ec * FilesPerPartition ec in
  0 < p <= MaxUint32 /\ 0 <= a / p * p <= GetSequenceNumberStartBoundary ec a /\
  a / p * p = GetSequenceNumberStartBoundary ec a / p * p /\
  GetSequenceNumberEndBoundary ec a <= capped_end (a / p * p) p.
Proof.
  intros Hec Ha Hp p. unfold partitioned in Hp. bool_to_prop. fold p in H.
  pose proof Hec as [Hl Hf]. unfold is_u32 in *. assert (0 < LedgersPerFile ec) as Hpos by lia.
  assert (0 < p) as Hpp by (subst p; nia).
  rewrite end_boundary by done. destruct (start_boundary ec a Ha Hpos) as [-> Hr].
  set (l := LedgersPerFile ec) in *. set (f := FilesPerPartition ec) in *.
  assert (Hdiv : a / p = a / l / f) by (subst p; by rewrite Z.div_div by lia).
  pose proof (Z.div_mod (a / l) f ltac:(lia)) as Hq. pose proof (Z.mod_pos_bound (a / l) f ltac:(lia)) as Hm.
  assert (0 <= a / l / f) by (apply Z.div_pos; [apply Z.div_pos; lia|lia]).
  set (q := a / l / f) in *. set (m := a / l mod f) in *.
  assert (Hap : a / p * p = q * f * l) by (rewrite Hdiv; subst p; ring).
  rewrite Hap, Hq. unfold capped_end. split_and!; [lia|lia|nia|nia| |subst p; nia].
  replace ((f * q + m) * l) with (q * p + m * l) by (subst p; ring).
  rewrite Z.div_add_l by lia. rewrite (Z.div_small (m * l)) by (subst p; nia). subst p. ring.
Qed.

Lemma same_file_name ec a b :
  is_schema ec -> is_u32 a -> is_u32 b ->
  GetSequenceNumberStartBoundary ec a = GetSequenceNumberStartBoundary ec b ->
  GetSequenceNumberEndBoundary ec a = GetSequenceNumberEndBoundary ec b /\ file_name ec a = file_name ec b.
Proof.
  intros Hec Ha Hb E. assert (GetSequenceNumberEndBoundary ec a = GetSequenceNumberEndBoundary ec b) as He.
  { unfold GetSequenceNumberEndBoundary. by rewrite E. }
  split; [done|]. unfold file_name. by rewrite E, He.
Qed.

Lemma same_partition_dir ec a b :
  a / (LedgersPerFile ec * FilesPerPartition ec) * (LedgersPerFile ec * FilesPerPartition ec) =
  b / (LedgersPerFile ec * FilesPerPartition ec) * (LedgersPerFile ec * FilesPerPartition ec) ->
  partition_dir ec a = partition_dir ec b.
Proof. intros E. unfold partition_dir. by rewrite E. Qed.

Lemma object_key_lt ec a b :
  is_schema ec -> is_u32 a -> is_u32 b ->
  GetSequenceNumberStartBoundary ec a < GetSequenceNumberStartBoundary ec b ->
  bytes_ltb (GetObjectKeyFromSequenceNumber ec b) (GetObjectKeyFromSequenceNumber ec a) = true.
Proof.
  intros Hec Ha Hb Hlt. destruct (file_bounds ec a b Hec Ha Hb) as (Sa & _ & Ba & _).
  destruct (file_bounds ec b a Hec Hb Ha) as (Sb & _ & Bb & Hmono & _).
  assert (a <= b) as Hab by (destruct (Z.le_gt_cases a b); [done|]; lia).
  rewrite !object_key_parts by done. destruct (partitioned ec) eqn:Hp.
  - destruct (partition_of_file ec a Hec Ha Hp) as (Hpp & Ra & _).
    destruct (partition_of_file ec b Hec Hb Hp) as (_ & Rb & _).
    set (p := LedgersPerFile ec * FilesPerPartition ec) in *.
    pose proof (floor_mult_mono a b p ltac:(lia) Hab) as Hle. unfold is_u32 in *.
    destruct (Z.eq_dec (a / p * p) (b / p * p)) as [E|E].
    + rewrite (same_partition_dir ec a b E), bytes_ltb_app_same. by apply inverted_prefix_lt.
    + unfold partition_dir. fold p. rewrite <- !app_assoc. apply inverted_prefix_lt; unfold is_u32; lia.
  - cbn [app]. by apply inverted_prefix_lt.
Qed.

Lemma object_key_inj ec a b :
  is_schema ec -> is_u32 a -> is_u32 b ->
  GetObjectKeyFromSequenceNumber ec a = GetObjectKeyFromSequenceNumber ec b <->
  GetSequenceNumberStartBoundary ec a = GetSequenceNumberStartBoundary ec b.
Proof.
  intros Hec Ha Hb. split; intros E.
  - destruct (Z.lt_total (GetSequenceNumberStartBoundary ec a) (GetSequenceNumberStartBoundary ec b)) as [H|[H|H]];
      [|done|]; apply object_key_lt in H; try done; by rewrite E, bytes_ltb_irrefl in H.
  - rewrite !object_key_parts by done. destruct (same_file_name ec a b Hec Ha Hb E) as [_ ->].
    destruct (partitioned ec) eqn:Hp; [|done]. f_equal. apply same_partition_dir.
    destruct (partition_of_file ec a Hec Ha Hp) as (_ & _ & -> & _).
    destruct (partition_of_file ec b Hec Hb Hp) as (_ & _ & -> & _). by rewrite E.
Qed.

Lemma object_key_lt_iff ec a b :
  is_schema ec -> is_u32 a -> is_u32 b ->
  bytes_ltb (GetObjectKeyFromSequenceNumber ec b) (GetObjectKeyFromSequenceNumber ec a) = true <->
  GetSequenceNumberStartBoundary ec a < GetSequenceNumberStartBoundary ec b.
Proof.
  intros Hec Ha Hb. split; [|by apply object_key_lt]. intros Hlt.
  destruct (Z.lt_total (GetSequenceNumberStartBoundary ec a) (GetSequenceNumberStartBoundary ec b)) as [H|[H|H]]; [done| |].
  - apply object_key_inj in H; try done. by rewrite H, bytes_ltb_irrefl in Hlt.
  - apply object_key_lt in H; try done. pose proof (bytes_ltb_trans _ _ _ H Hlt) as Hc. by rewrite bytes_ltb_irrefl in Hc.
Qed.

(** ** Reading a name back *)

Lemma span_digits_app ds c s :
  Forall (fun c => is_digit c = true) ds -> is_digit c = false -> span_digits (ds ++ c :: s) = (ds, c :: s).
Proof.
  intros Hd Hc. induction Hd as [|x ds Hx _ IH]; cbn [app span_digits]; [by rewrite Hc|]. by rewrite Hx, IH.
Qed.

Lemma CutPrefix_app p s : CutPrefix (p ++ s) p = Some s.
Proof.
  induction p as [|c p IH]; [by destruct s|]. cbn [app CutPrefix]. by rewrite (bool_decide_eq_true_2 (c = c) eq_refl).
Qed.

Lemma keyRange_at_name s e ext :
  0 <= s -> 0 <= e ->
  keyRange_at ([dash; dash] ++ range_text s e ++ xdr_infix ++ ext) =
    Some (FormatUint s, if s =? e then [] else FormatUint e).
Proof.
  intros Hs He. destruct (FormatUint_spec s Hs) as (Ns & Ds & _). destruct (FormatUint_spec e He) as (Ne & De & _).
  unfold keyRange_at. rewrite CutPrefix_app. cbn [option_bind]. unfold range_text.
  assert (forall l : bytes, l <> [] -> (go_len l =? 0) = false) as Hlen.
  { intros [|? l] H; [done|]. unfold go_len. apply Z.eqb_neq. simpl. lia. }
  destruct (Z.eqb_spec s e) as [_|_].
  - rewrite app_nil_r. change (xdr_infix ++ ext) with (dot :: str "xdr." ++ ext).
    rewrite span_digits_app, Hlen by done. change (dot :: str "xdr." ++ ext) with (xdr_infix ++ ext).
    change (CutPrefix (xdr_infix ++ ext) [dash]) with (@None bytes). cbv zeta iota. by rewrite CutPrefix_app.
  - rewrite <- app_assoc, <- app_comm_cons. rewrite span_digits_app, Hlen by done.
    change (dash :: FormatUint e ++ xdr_infix ++ ext) with ([dash] ++ FormatUint e ++ xdr_infix ++ ext).
    rewrite CutPrefix_app. change (xdr_infix ++ ext) with (dot :: str "xdr." ++ ext).
    rewrite span_digits_app, Hlen by done. change (dot :: str "xdr." ++ ext) with (xdr_infix ++ ext).
    by rewrite CutPrefix_app.
Qed.

(** A text with no dash holds no match. *)
Lemma keyRangeRE_skip x s :
  Forall (fun c => c <> dash) x -> keyRangeRE (x ++ s) = keyRangeRE s.
Proof.
  induction 1 as [|c x Hc _ IH]; [done|]. cbn [app keyRangeRE].
  replace (keyRange_at (c :: x ++ s)) with (@None (bytes * bytes)); [done|].
  unfold keyRange_at. cbn [CutPrefix]. by rewrite bool_decide_eq_false_2.
Qed.

Lemma hex_digits_upper w v : Forall (fun c => is_upper_hex c = true) (hex_put 55 w v).
Proof.
  revert v; induction w as [|w IH]; intros v; [done|]. cbn [hex_put]. apply Forall_app. split; [done|].
  constructor; [|done]. pose proof (Z.mod_pos_bound v 16 ltac:(done)).
  unfold is_upper_hex. rewrite hex_digit_val by lia.
  destruct (Z.ltb_spec (v mod 16) 10).
  - rewrite (proj2 (Z.leb_le 48 _)), (proj2 (Z.leb_le _ 57)) by lia. done.
  - rewrite (proj2 (Z.leb_le 65 _)), (proj2 (Z.leb_le _ 70)) by lia. apply orb_true_r.
Qed.

Lemma fmt_08X_upper v : Forall (fun c => is_upper_hex c = true) (fmt_08X v).
Proof. apply hex_digits_upper. Qed.

Lemma upper_hex_facts c : is_upper_hex c = true -> c <> dash /\ c <> slash.
Proof. intros H. split; intros ->; by vm_compute in H. Qed.

(** The bytes of an extension that [ledgerFilenameRe] accepts. *)
Definition ext_ok (ec : DataStoreSchema) : Prop := Forall (fun c => is_ext_byte c = true) (FileExtension ec).

Lemma file_ext_ok ec : ext_ok ec -> file_ext ec <> [] /\ Forall (fun c => is_ext_byte c = true) (file_ext ec).
Proof.
  intros He. unfold file_ext. destruct (FileExtension ec) as [|c l] eqn:E; cbn [go_len length]; [by split; [|repeat constructor]|].
  replace (go_len (c :: l) =? 0) with false; [|symmetry; apply Z.eqb_neq; unfold go_len; simpl; lia].
  split; [done|]. by rewrite <- E.
Qed.

Lemma ext_byte_facts c : is_ext_byte c = true -> c <> slash.
Proof. intros H ->. by vm_compute in H. Qed.

Lemma digit_not_slash c : is_digit c = true -> c <> slash.
Proof. intros H ->. by vm_compute in H. Qed.

Lemma file_name_no_slash ec a :
  is_schema ec -> ext_ok ec -> is_u32 a -> Forall (fun c => c <> slash) (file_name ec a).
Proof.
  intros Hec He Ha. destruct (file_bounds ec a a Hec Ha Ha) as (Hs & Hen & _). unfold is_u32 in *.
  destruct (FormatUint_spec (GetSequenceNumberStartBoundary ec a)) as (_ & Ds & _); [lia|].
  destruct (FormatUint_spec (GetSequenceNumberEndBoundary ec a)) as (_ & De & _); [lia|].
  unfold file_name, range_text. rewrite !Forall_app. split_and!.
  - eapply Forall_impl; [|exact (fmt_08X_upper _)]. intros c Hc. by apply upper_hex_facts.
  - by repeat constructor.
  - eapply Forall_impl; [|exact Ds]. apply digit_not_slash.
  - destruct (_ =? _); [done|]. constructor; [done|]. eapply Forall_impl; [|exact De]. apply digit_not_slash.
  - by repeat constructor.
  - eapply Forall_impl; [|by apply file_ext_ok]. apply ext_byte_facts.
Qed.

Lemma after_last_slash_none s : Forall (fun c => c <> slash) s -> after_last_slash s = None.
Proof. induction 1 as [|c s Hc _ IH]; [done|]. cbn. rewrite IH. by rewrite bool_decide_eq_false_2. Qed.

Lemma after_last_slash_app x y : Forall (fun c => c <> slash) y -> after_last_slash (x ++ slash :: y) = Some y.
Proof.
  intros Hy. induction x as [|c x IH]; cbn [app after_last_slash].
  - rewrite after_last_slash_none by done. by rewrite (bool_decide_eq_true_2 (slash = slash) eq_refl).
  - by rewrite IH.
Qed.

Lemma filepath_Base_name dir name :
  name <> [] -> Forall (fun c => c <> slash) name -> (dir = [] \/ exists d, dir = d ++ [slash]) ->
  filepath_Base (dir ++ name) = name.
Proof.
  intros Hne Hs Hdir. unfold filepath_Base.
  assert (Hlen : forall l : bytes, l <> [] -> (go_len l =? 0) = false).
  { intros [|? l] H; [done|]. unfold go_len. apply Z.eqb_neq. simpl. lia. }
  rewrite Hlen by (by intros [_ ?]%app_eq_nil).
  assert (drop_slashes (rev (dir ++ name)) = rev (dir ++ name)) as ->.
  { rewrite rev_app_distr. destruct (rev name) as [|c l] eqn:E.
    - apply (f_equal (@rev _)) in E. rewrite rev_involutive in E. by subst.
    - cbn [app drop_slashes]. rewrite bool_decide_eq_false_2; [done|].
      rewrite List.Forall_forall in Hs. apply Hs. apply in_rev. rewrite E. by left. }
  rewrite rev_involutive. destruct Hdir as [->|[d ->]]; cbn [app].
  - rewrite after_last_slash_none by done. cbn [default]. by rewrite Hlen.
  - rewrite <- app_assoc. cbn [app]. rewrite after_last_slash_app by done. cbn [default]. by rewrite Hlen.
Qed.

Lemma Base_object_key ec a :
  is_schema ec -> ext_ok ec -> is_u32 a -> filepath_Base (GetObjectKeyFromSequenceNumber ec a) = file_name ec a.
Proof.
  intros Hec He Ha. rewrite object_key_parts by done. apply filepath_Base_name.
  - intros [E _]%app_eq_nil. apply (f_equal length) in E. by rewrite length_fmt_08X in E.
  - by apply file_name_no_slash.
  - destruct (partitioned ec); [right|by left]. unfold partition_dir. eexists. by rewrite !app_assoc.
Qed.

Lemma ledgerFilenameRe_name ec a :
  is_schema ec -> ext_ok ec -> is_u32 a -> ledgerFilenameRe (file_name ec a) = true.
Proof.
  intros Hec He Ha. destruct (file_bounds ec a a Hec Ha Ha) as (Hs & Hen & _). unfold is_u32 in *.
  destruct (FormatUint_spec (GetSequenceNumberStartBoundary ec a)) as (Ns & Ds & _); [lia|].
  destruct (FormatUint_spec (GetSequenceNumberEndBoundary ec a)) as (Ne & De & _); [lia|].
  destruct (file_ext_ok ec He) as [Nx Dx].
  assert (Hlen : forall l : bytes, l <> [] -> (1 <=? go_len l) = true).
  { intros [|? l] H; [done|]. unfold go_len. apply Z.leb_le. simpl. lia. }
  assert (Hall : forall f (l : bytes), Forall (fun c => f c = true) l -> forallb f l = true).
  { intros f l H. apply forallb_forall. by apply List.Forall_forall. }
  unfold ledgerFilenameRe, file_name. set (h := fmt_08X _).
  assert (length h = 8%nat) as Hh by apply length_fmt_08X.
  rewrite take_app_length', drop_app_length' by done. rewrite CutPrefix_app.
  rewrite (Hall _ h (fmt_08X_upper _)). rewrite (proj2 (Z.leb_le 8 _)) by (unfold go_len; rewrite length_app; lia).
  cbn [andb]. unfold range_text. destruct (_ =? _).
  - rewrite app_nil_r. change (xdr_infix ++ file_ext ec) with (dot :: str "xdr." ++ file_ext ec).
    rewrite span_digits_app, Hlen by done. change (dot :: str "xdr." ++ file_ext ec) with (xdr_infix ++ file_ext ec).
    rewrite CutPrefix_app, Hlen, Hall by done. done.
  - rewrite <- app_assoc, <- app_comm_cons. rewrite span_digits_app, Hlen by done. cbn [andb].
    apply orb_true_iff. right.
    change (dash :: FormatUint (GetSequenceNumberEndBoundary ec a) ++ xdr_infix ++ file_ext ec)
      with ([dash] ++ FormatUint (GetSequenceNumberEndBoundary ec a) ++ xdr_infix ++ file_ext ec).
    rewrite CutPrefix_app. change (xdr_infix ++ file_ext ec) with (dot :: str "xdr." ++ file_ext ec).
    rewrite span_digits_app, Hlen by done. change (dot :: str "xdr." ++ file_ext ec) with (xdr_infix ++ file_ext ec).
    rewrite CutPrefix_app, Hlen, Hall by done. done.
Qed.

Lemma parseUint32_FormatUint z : 0 <= z <= MaxUint32 -> parseUint32 (FormatUint z) = Ok z.
Proof.
  intros Hz. unfold parseUint32. rewrite (ParseUint_FormatUint z 32); [by rewrite u32_id|lia|].
  change (2 ^ 32) with 4294967296. lia.
Qed.

Lemma ParseRange_name ec a :
  is_schema ec -> is_u32 a ->
  ParseRangeFromObjectKey (file_name ec a) =
    Ok (GetSequenceNumberStartBoundary ec a, GetSequenceNumberEndBoundary ec a).
Proof.
  intros Hec Ha. destruct (file_bounds ec a a Hec Ha Ha) as (Hs & Hen & Hle & _). unfold is_u32 in *.
  set (s := GetSequenceNumberStartBoundary ec a) in *. set (e := GetSequenceNumberEndBoundary ec a) in *.
  assert (keyRangeRE (file_name ec a) = Some (FormatUint s, if s =? e then [] else FormatUint e)) as HR.
  { unfold file_name. rewrite keyRangeRE_skip.
    - fold s e. pose proof (keyRange_at_name s e (file_ext ec) ltac:(lia) ltac:(lia)) as HK.
      set (t := [dash; dash] ++ _) in *. clearbody t. destruct t as [|c t]; [discriminate HK|].
      cbn [keyRangeRE]. by rewrite HK.
    - eapply Forall_impl; [|exact (fmt_08X_upper _)]. intros c Hc. by apply upper_hex_facts. }
  unfold ParseRangeFromObjectKey. rewrite HR, parseUint32_FormatUint by lia.
  destruct (FormatUint_spec e) as (Ne & _); [lia|].
  destruct (Z.eqb_spec s e) as [<-|_].
  - change (go_len (@nil byte) =? 0) with true. cbv beta iota delta [negb]. rewrite Z.ltb_irrefl. done.
  - replace (go_len (FormatUint e) =? 0) with false.
    + cbn [negb]. rewrite parseUint32_FormatUint by lia. by rewrite (proj2 (Z.ltb_ge _ _)) by lia.
    + symmetry. apply Z.eqb_neq. unfold go_len. destruct (FormatUint e); [done|simpl; lia].
Qed.

(** ** Properties *)

(** Object keys sort files from the latest to the earliest. Whatever the
    schema, valid or not, the boundaries of a ledger's file hold it and are those
    of exactly the ledgers in the file; two ledgers have the same key if and only
    if they are in the same file; and of two files the later one has the bytewise
    smaller key, partition directory included. A schema that [Validate] accepts
    nests each file in one partition of its key. *)
Theorem object_key_order ec a b :
  is_schema ec -> is_u32 a -> is_u32 b ->
  let first := GetSequenceNumberStartBoundary ec in
  let last := GetSequenceNumberEndBoundary ec in
  let key := GetObjectKeyFromSequenceNumber ec in
  first a <= a <= last a /\
  (first a = first b <-> first a <= b <= last a) /\
  (key a = key b <-> first a = first b) /\
  (first a < first b <-> bytes_ltb (key b) (key a) = true) /\
  (Validate ec = None -> let p := LedgersPerFile ec * FilesPerPartition ec in
    0 < p <= MaxUint32 /\ a / p * p <= first a /\ last a <= a / p * p + p - 1).
Proof.
  intros Hec Ha Hb. cbv zeta. destruct (file_bounds ec a b Hec Ha Hb) as (_ & _ & H1 & _ & H2).
  pose proof (object_key_inj ec a b Hec Ha Hb) as Hinj. split_and!; try done; try (by apply H1); try apply H2.
  - symmetry. by apply object_key_lt_iff.
  - intros (Hl & Hf & Hp)%schema_Validate_None; [|done].
    destruct (Z.eq_dec (FilesPerPartition ec) 1) as [E|E].
    + rewrite E, Z.mul_1_r in *. rewrite end_boundary by (done || lia).
      destruct (start_boundary ec a Ha ltac:(lia)) as [-> Hr]. unfold capped_end. lia.
    + assert (partitioned ec = true) as Hpart.
      { unfold partitioned. rewrite !(proj2 (Z.leb_le _ _)) by lia. done. }
      destruct (partition_of_file ec a Hec Ha Hpart) as (? & ? & _ & ?). unfold capped_end in *. lia.
Qed.

(** The name in an object key gives its range back. For any schema whose
    extension is made of letters, digits, dots, underscores and dashes, the last
    element of an object key is a ledger file name, and [ParseRangeFromObjectKey]
    reads from it the first and last ledger of the file. *)
Theorem object_key_parses ec a :
  is_schema ec -> ext_ok ec -> is_u32 a ->
  let base := filepath_Base (GetObjectKeyFromSequenceNumber ec a) in
  ledgerFilenameRe base = true /\
  ParseRangeFromObjectKey base = Ok (GetSequenceNumberStartBoundary ec a, GetSequenceNumberEndBoundary ec a).
Proof.
  intros Hec He Ha. cbv zeta. rewrite Base_object_key by done.
  split; [by apply ledgerFilenameRe_name|by apply ParseRange_name].
Qed.

