(* ===== verification/LedgerFiles.v ===== *)
(** * Finding ledgers in a data store

    src/support/datastore/ledger_iter.go and ledger_range.go: the paged iteration
    over the ledger files of a data store, and the latest and oldest ledger in it.
    The store is an interface of the repository with several back ends; what the
    code relies on is stated as laws over the keys the store holds. *)
From Stdlib Require Import ZArith Lia.
From stdpp Require Import base list option sorting.
From S2P Require Import Prelude GoStd GoExt Decimal Encodings Schema.
#[local] Open Scope Z_scope.
#[local] Open Scope go_scope.

Record ListFileOptions : Type := mkOptions { Prefix : bytes; StartAfter : bytes; Limit : Z }.

(** The methods of [DataStore] that are called here, without their context. *)
Class DataStore := {
  store_error : Type;
  ListFilePaths : ListFileOptions -> result store_error (list bytes);
  Exists_ : bytes -> result store_error bool
}.

Definition key_lt (a b : bytes) : Prop := bytes_ltb a b = true.
Definition after (k : bytes) (l : list bytes) : list bytes := List.filter (bytes_ltb k) l.

(** A store that answers and holds the keys [stored]: none is empty, and a page of
    a listing is a start of the keys after the given one in ascending order, empty
    only when there are none. *)
Class DataStoreLaws (DS : DataStore) (stored : list bytes) : Prop := {
  stored_sorted : StronglySorted key_lt stored;
  stored_nonempty : Forall (fun k => k <> []) stored;
  ListFilePaths_page k : exists page rest,
    ListFilePaths (mkOptions [] k 0) = Ok page /\ after k stored = page ++ rest /\ (page = [] -> rest = []);
  Exists_stored k : Exists_ k = Ok (bool_decide (k ∈ stored))
}.

Record LedgerFile : Type := mkLedgerFile { Key : bytes; High : Z; Low : Z }.

Section Iter.
Context {DS : DataStore}.

Inductive iter_error : Type :=
| ErrInvalidRange
| ErrListing (e : store_error)
| ErrNotAfter
| ErrParseRange (e : key_error)
| ErrNoValidLedgerFiles
| ErrEndTooSmall
| ErrLookup (e : store_error).

Section Yield.
Context {S : Type} (yield : result iter_error LedgerFile -> S -> S * bool).

(** The paths of a page; the flag says whether to go on to the next one. *)
Fixpoint iter_paths (cursor stopAfter : bytes) (paths : list bytes) (s : S) : S * bool :=
  match paths with
  | [] => (s, true)
  | p :: paths =>
      if negb (bytes_ltb cursor p) then ((yield (Err ErrNotAfter) s).1, false)
      else if negb (go_len stopAfter =? 0) && bytes_ltb stopAfter p then (s, false)
      else
        let base := filepath_Base p in
        if negb (ledgerFilenameRe base) then iter_paths cursor stopAfter paths s
        else
          match ParseRangeFromObjectKey base with
          | Err e => ((yield (Err (ErrParseRange e)) s).1, false)
          | Ok (low, high) =>
              let '(s, more) := yield (Ok (mkLedgerFile p high low)) s in
              if more : bool then iter_paths cursor stopAfter paths s else (s, false)
          end
  end.

(** The pages; [None] when [fuel] pages were not enough. *)
Fixpoint iter_pages (fuel : nat) (cursor stopAfter : bytes) (s : S) : option S :=
  match fuel with
  | O => None
  | Datatypes.S fuel =>
      match ListFilePaths (mkOptions [] cursor 0) with
      | Err e => Some (yield (Err (ErrListing e)) s).1
      | Ok paths =>
          if go_len paths =? 0 then Some s
          else
            let '(s, more) := iter_paths cursor stopAfter paths s in
            if more : bool then iter_pages fuel (List.last paths []) stopAfter s else Some s
      end
  end.

(** Ranging over the iterator with a loop body: [yield] runs the body and says
    whether the loop goes on. *)
Definition LedgerFileIter (fuel : nat) (startAfter stopAfter : bytes) (s : S) : option S :=
  if negb (go_len startAfter =? 0) && negb (go_len stopAfter =? 0) && negb (bytes_ltb startAfter stopAfter)
  then Some (yield (Err ErrInvalidRange) s).1
  else iter_pages fuel startAfter stopAfter s.
End Yield.

(** The loop body returns at once. *)
Definition findLatestLedger (fuel : nat) (options : ListFileOptions) : option (result iter_error Z) :=
  let! r := LedgerFileIter (fun lf _ => (Some match lf with Err e => Err e | Ok lf => Ok (High lf) end, false))
              fuel (StartAfter options) [] None in
  Some (default (Err ErrNoValidLedgerFiles) r).

Definition FindLatestLedgerSequence (fuel : nat) : option (result iter_error Z) :=
  findLatestLedger fuel (mkOptions [] [] 0).

Definition FindLatestLedgerUpToSequence (fuel : nat) (end_ : Z) (schema : DataStoreSchema) :
    option (result iter_error Z) :=
  if end_ <? 2 then Some (Err ErrEndTooSmall)
  else
    let boundary := GetSequenceNumberEndBoundary schema end_ in
    let startAfter := if boundary <? MaxUint32
                      then GetObjectKeyFromSequenceNumber schema (u32 (boundary + 1)) else [] in
    findLatestLedger fuel (mkOptions [] startAfter 0).

(** [sort.Search] of the standard library, with a predicate that has a state. *)
Fixpoint Search_loop {T : Type} (f : Z -> T -> bool * T) (fuel : nat) (i j : Z) (t : T) : option (Z * T) :=
  if i <? j then
    match fuel with
    | O => None
    | Datatypes.S fuel =>
        let h := (i + j) / 2 in
        let '(b, t) := f h t in
        if b : bool then Search_loop f fuel i h t else Search_loop f fuel (h + 1) j t
    end
  else Some (i, t).

Definition stateful_Search {T : Type} (n : Z) (f : Z -> T -> bool * T) (t : T) : option (Z * T) :=
  Search_loop f (Datatypes.S (Z.to_nat (Z.log2 n))) 0 n t.

(** The predicate of the search; the state is [lookupError]. *)
Definition ledger_exists (schema : DataStoreSchema) (start : Z) (index : Z) (lookupError : option iter_error) :
    bool * option iter_error :=
  match lookupError with
  | Some e => (false, Some e)
  | None =>
      let ledgerSequence := u32 (start + u32 index) in
      match Exists_ (GetObjectKeyFromSequenceNumber schema ledgerSequence) with
      | Err e => (false, Some (ErrLookup e))
      | Ok exists_ => (exists_, None)
      end
  end.

Definition FindOldestLedgerSequence (fuel : nat) (schema : DataStoreSchema) : option (result iter_error Z) :=
  let start := 2 in
  let! r := FindLatestLedgerSequence fuel in
  match r with
  | Err e => Some (Err e)
  | Ok end_ =>
      if end_ <? start then Some (Err ErrNoValidLedgerFiles)
      else
        let n := u32 (u32 (end_ - start) + 1) in
        let! (i, lookupError) := stateful_Search n (ledger_exists schema start) None in
        match lookupError with
        | Some e => Some (Err e)
        | None => if i <? n then Some (Ok (u32 (start + u32 i))) else Some (Err ErrNoValidLedgerFiles)
        end
  end.
End Iter.

(** ** The order of a listing *)

Lemma key_lt_irrefl a : ~ key_lt a a.
Proof. unfold key_lt. by rewrite bytes_ltb_irrefl. Qed.
Lemma key_lt_trans a b c : key_lt a b -> key_lt b c -> key_lt a c.
Proof. apply bytes_ltb_trans. Qed.
Lemma key_lt_asym a b : key_lt a b -> bytes_ltb b a = false.
Proof.
  intros H. destruct (bytes_ltb b a) eqn:E; [|done]. exfalso. by apply (key_lt_irrefl a), (key_lt_trans a b a).
Qed.

(** Within the upper bound, if there is one. *)
Definition within (z k : bytes) : bool := (go_len z =? 0) || negb (bytes_ltb z k).
Definition upto (z : bytes) (l : list bytes) : list bytes := List.filter (within z) l.

Lemma within_mono z a b : key_lt a b -> within z a = false -> within z b = false.
Proof.
  unfold within. intros Hab [H1 H2]%orb_false_iff. rewrite H1. apply negb_false_iff in H2. cbn.
  apply negb_false_iff. by apply (key_lt_trans z a b).
Qed.

Lemma upto_none z a l : Forall (key_lt a) l -> within z a = false -> upto z l = [].
Proof.
  intros H Ha. unfold upto. induction H as [|b l Hb _ IH]; [done|]. cbn. by rewrite (within_mono z a b).
Qed.

Lemma filter_all {A} (f : A -> bool) l : Forall (fun x => f x = true) l -> List.filter f l = l.
Proof. induction 1 as [|x l Hx _ IH]; [done|]. cbn. by rewrite Hx, IH. Qed.
Lemma filter_none {A} (f : A -> bool) l : Forall (fun x => f x = false) l -> List.filter f l = [].
Proof. induction 1 as [|x l Hx _ IH]; [done|]. cbn. by rewrite Hx. Qed.

Lemma in_after k l x : In x (after k l) <-> In x l /\ key_lt k x.
Proof. apply filter_In. Qed.

Lemma StronglySorted_filter {A} (R : A -> A -> Prop) f l : StronglySorted R l -> StronglySorted R (List.filter f l).
Proof.
  induction 1 as [|x l _ IH Hx]; [constructor|]. cbn. destruct (f x); [|done]. constructor; [done|].
  apply List.Forall_forall. intros y [Hy _]%filter_In. rewrite List.Forall_forall in Hx. by apply Hx.
Qed.

Lemma StronglySorted_app_inv {A} (R : A -> A -> Prop) l1 l2 :
  StronglySorted R (l1 ++ l2) ->
  StronglySorted R l1 /\ StronglySorted R l2 /\ forall x y, In x l1 -> In y l2 -> R x y.
Proof.
  induction l1 as [|x l1 IH]; cbn [app]; [intros H; split_and!; [constructor|done|done]|].
  intros H. inversion H as [|? ? Hs Hx]; subst. destruct (IH Hs) as (H1 & H2 & H3).
  rewrite List.Forall_forall in Hx. split_and!; [|done|].
  - constructor; [done|]. apply List.Forall_forall. intros y Hy. apply Hx, in_or_app. by left.
  - intros a b [->|Ha] Hb; [apply Hx, in_or_app; by right|by apply H3].
Qed.

(** Listing on from the last key of a page leaves what follows the page. *)
Lemma after_last k stored page rest :
  StronglySorted key_lt stored -> after k stored = page ++ rest -> page <> [] ->
  after (List.last page []) stored = rest /\ key_lt k (List.last page []).
Proof.
  intros Hs E Hne. destruct (exists_last Hne) as (page' & c & ->). rewrite last_last.
  assert (key_lt k c) as Hc.
  { apply (in_after k stored c). rewrite E. apply in_or_app. left. apply in_or_app. right. by left. }
  split; [|done].
  assert (after c stored = after c (after k stored)) as ->.
  { unfold after. clear E Hs. induction stored as [|x l IH]; [done|]. cbn.
    destruct (bytes_ltb k x) eqn:Ex; cbn; rewrite IH; [done|].
    destruct (bytes_ltb c x) eqn:Ey; [|done]. exfalso.
    pose proof (key_lt_trans k c x Hc Ey) as H. unfold key_lt in H. congruence. }
  pose proof (StronglySorted_filter key_lt (bytes_ltb k) stored Hs) as Hsf. fold (after k stored) in Hsf.
  rewrite E in *. apply StronglySorted_app_inv in Hsf as (Hp & _ & Hpr).
  apply StronglySorted_app_inv in Hp as (_ & _ & Hpc).
  unfold after. rewrite !List.filter_app, (filter_none _ page'), (filter_all _ rest).
  - cbn. by rewrite bytes_ltb_irrefl.
  - apply List.Forall_forall. intros y Hy. apply Hpr; [|done]. apply in_or_app. right. by left.
  - apply List.Forall_forall. intros y Hy. apply key_lt_asym, Hpc; [done|by left].
Qed.

(** ** The iterator *)

Section Feed.
Context {DS : DataStore} {stored : list bytes} {DL : DataStoreLaws DS stored}.

(** What the iterator yields for a ledger file. *)
Definition file_item (p : bytes) : result iter_error LedgerFile :=
  match ParseRangeFromObjectKey (filepath_Base p) with
  | Err e => Err (ErrParseRange e)
  | Ok (low, high) => Ok (mkLedgerFile p high low)
  end.
Definition files_of (l : list bytes) : list (result iter_error LedgerFile) :=
  map file_item (List.filter (fun p => ledgerFilenameRe (filepath_Base p)) l).

Section Yield.
Context {S : Type} (yield : result iter_error LedgerFile -> S -> S * bool).

Lemma files_of_upto_cons z p page :
  files_of (upto z (p :: page)) =
    if within z p then
      if ledgerFilenameRe (filepath_Base p) then file_item p :: files_of (upto z page) else files_of (upto z page)
    else files_of (upto z page).
Proof.
  unfold files_of, upto. cbn [List.filter]. destruct (within z p); [|done]. cbn [List.filter].
  by destruct (ledgerFilenameRe (filepath_Base p)).
Qed.

Lemma files_of_upto_app z a b : files_of (upto z (a ++ b)) = files_of (upto z a) ++ files_of (upto z b).
Proof. unfold files_of, upto. by rewrite !List.filter_app, map_app. Qed.

Lemma iter_paths_feed cursor z page : forall s,
  Forall (key_lt cursor) page -> StronglySorted key_lt page ->
  iter_paths yield cursor z page s =
    let r := feed yield (files_of (upto z page)) s in (r.1, r.2 && forallb (within z) page).
Proof.
  induction page as [|p page IH]; intros s Hc Hs; [done|].
  inversion Hc as [|? ? Hp Hc']; subst. inversion Hs as [|? ? Hs' Hlt]; subst.
  cbn [iter_paths forallb]. unfold key_lt in Hp. rewrite Hp. cbn [negb].
  assert (negb (go_len z =? 0) && bytes_ltb z p = negb (within z p)) as ->.
  { unfold within. by destruct (go_len z =? 0), (bytes_ltb z p). }
  destruct (within z p) eqn:Hw; cbn [negb].
  - rewrite files_of_upto_cons, Hw.
    destruct (ledgerFilenameRe (filepath_Base p)) eqn:Hre; cbn [negb]; [|by rewrite IH].
    cbn [feed]. unfold file_item.
    destruct (ParseRangeFromObjectKey (filepath_Base p)) as [[low high]|e]; [|cbn; reflexivity].
    destruct (yield _ s) as [s' [|]]; [by rewrite IH|done].
  - assert (upto z (p :: page) = []) as ->; [|by rewrite andb_false_r].
    unfold upto. cbn [List.filter]. rewrite Hw. by apply (upto_none z p).
Qed.

Lemma iter_pages_feed z : forall fuel cursor s,
  (length (after cursor stored) < fuel)%nat ->
  iter_pages yield fuel cursor z s = Some (feed yield (files_of (upto z (after cursor stored))) s).1.
Proof.
  induction fuel as [|fuel IH]; intros cursor s Hf; [lia|]. cbn [iter_pages].
  destruct (ListFilePaths_page (DataStoreLaws := DL) cursor) as (page & rest & -> & E & Hnil). cbv iota beta.
  destruct page as [|p page']; [by rewrite E, Hnil|].
  set (page := p :: page') in *. change (go_len page =? 0) with false. cbv iota.
  assert (page <> []) as Hne by done.
  pose proof (StronglySorted_filter key_lt (bytes_ltb cursor) stored stored_sorted) as Hsf.
  fold (after cursor stored) in Hsf. rewrite E in Hsf.
  apply StronglySorted_app_inv in Hsf as (Hsp & _ & Hpr).
  assert (Forall (key_lt cursor) page) as Hcp.
  { apply List.Forall_forall. intros x Hx. apply (in_after cursor stored). rewrite E. apply in_or_app. by left. }
  rewrite iter_paths_feed by done. rewrite E, files_of_upto_app, feed_app. cbv zeta.
  destruct (feed yield (files_of (upto z page)) s) as [s' more]; cbn [fst snd]. destruct more; [|done]. cbn [andb].
  destruct (after_last cursor stored page rest stored_sorted E Hne) as [El _].
  destruct (forallb (within z) page) eqn:Hall.
  - rewrite IH, El; [done|]. rewrite El. rewrite E, length_app in Hf. subst page. cbn [length] in Hf. lia.
  - assert (upto z rest = []) as ->; [|done].
    assert (exists x, In x page /\ within z x = false) as (x & Hx & Hwx).
    { clear -Hall. clearbody page. induction page as [|x l IH]; [done|]. cbn in Hall.
      destruct (within z x) eqn:E; [|exists x; split; [by left|done]].
      destruct (IH Hall) as (y & Hy & ?). exists y. split; [by right|done]. }
    apply (upto_none z x); [|done]. apply List.Forall_forall. intros y Hy. by apply Hpr.
Qed.
End Yield.
End Feed.

Lemma upto_all l : upto [] l = l.
Proof. apply filter_all. by apply List.Forall_forall. Qed.

Lemma length_after k l : (length (after k l) <= length l)%nat.
Proof. unfold after. induction l as [|x l IH]; [done|]. cbn. destruct (bytes_ltb k x); cbn; lia. Qed.

(** ** A store filled through a schema *)
Section Stored.
Context {DS : DataStore} {stored : list bytes} {DL : DataStoreLaws DS stored}.
Context (ec : DataStoreSchema) (Hec : is_schema ec) (Hext : ext_ok ec).
Local Abbreviation first := (GetSequenceNumberStartBoundary ec).
Local Abbreviation last_ := (GetSequenceNumberEndBoundary ec).
Local Abbreviation key := (GetObjectKeyFromSequenceNumber ec).

(** Every ledger file is named by the schema; other files may be there too. *)
Definition named_by_schema : Prop :=
  forall k, k ∈ stored -> ledgerFilenameRe (filepath_Base k) = true -> exists a, is_u32 a /\ k = key a.

Lemma file_item_key a : is_u32 a -> file_item (key a) = Ok (mkLedgerFile (key a) (last_ a) (first a)).
Proof. intros Ha. unfold file_item. by rewrite Base_object_key, ParseRange_name. Qed.

(** The answer of the iterator's first item. *)
Definition first_item (items : list (result iter_error LedgerFile)) : result iter_error Z :=
  match items with
  | [] => Err ErrNoValidLedgerFiles
  | Err e :: _ => Err e
  | Ok lf :: _ => Ok (High lf)
  end.

Lemma findLatestLedger_first fuel pre k lim :
  (length stored < fuel)%nat ->
  findLatestLedger fuel (mkOptions pre k lim) = Some (first_item (files_of (after k stored))).
Proof.
  intros Hf. unfold findLatestLedger, LedgerFileIter. cbn [StartAfter].
  rewrite andb_false_r. cbn [andb]. rewrite (iter_pages_feed (stored := stored)) by (pose proof (length_after k stored); lia).
  rewrite upto_all. cbn [option_bind]. by destruct (files_of (after k stored)) as [|[lf|e] l].
Qed.

Lemma latest_after fuel pre k lim :
  named_by_schema -> (length stored < fuel)%nat ->
  (exists a, is_u32 a /\ key a ∈ stored /\ key_lt k (key a) /\
    (forall b, is_u32 b -> key b ∈ stored -> key_lt k (key b) -> first b <= first a) /\
    findLatestLedger fuel (mkOptions pre k lim) = Some (Ok (last_ a))) \/
  ((forall a, is_u32 a -> key a ∈ stored -> ~ key_lt k (key a)) /\
    findLatestLedger fuel (mkOptions pre k lim) = Some (Err ErrNoValidLedgerFiles)).
Proof.
  intros Hn Hf. rewrite findLatestLedger_first by done. unfold files_of.
  pose proof (StronglySorted_filter key_lt (fun p => ledgerFilenameRe (filepath_Base p)) _
    (StronglySorted_filter key_lt (bytes_ltb k) stored stored_sorted)) as Hs. fold (after k stored) in Hs.
  assert (Hin : forall b, is_u32 b -> key b ∈ stored -> key_lt k (key b) ->
    In (key b) (List.filter (fun p => ledgerFilenameRe (filepath_Base p)) (after k stored))).
  { intros b Hb Hk Hlt. apply filter_In. rewrite Base_object_key, ledgerFilenameRe_name by done. split; [|done].
    apply in_after. split; [by apply list_elem_of_In|done]. }
  destruct (List.filter _ (after k stored)) as [|p l] eqn:E.
  - right. split; [|done]. intros a Ha Hk Hlt. by apply (Hin a Ha Hk Hlt).
  - left. assert (In p (p :: l)) as Hp by by left. rewrite <- E in Hp. apply filter_In in Hp as [Hp Hre].
    apply in_after in Hp as [Hp Hlt]. apply list_elem_of_In in Hp. destruct (Hn p Hp Hre) as (a & Ha & ->).
    exists a. split_and!; try done.
    + intros b Hb Hk Hb'. destruct (Hin b Hb Hk Hb') as [Eb|Hb''].
      * apply object_key_inj in Eb; [lia|done..].
      * inversion Hs as [|? ? _ Hall]; subst. rewrite List.Forall_forall in Hall.
        apply Hall, object_key_lt_iff in Hb''; [lia|done..].
    + cbn [map first_item]. by rewrite file_item_key.
Qed.

(** Keys after the end of [e]'s file are those of files that start by [e]. *)
Lemma after_boundary e b :
  is_u32 e -> is_u32 b -> key b ∈ stored ->
  key_lt (if last_ e <? MaxUint32 then key (u32 (last_ e + 1)) else []) (key b) <-> first b <= e.
Proof.
  intros He Hb Hk. destruct (file_bounds ec e b Hec He Hb) as (_ & He' & Be & Hmono & Hsame).
  destruct (file_bounds ec b e Hec Hb He) as (_ & _ & Bb & Hmono' & Hsame').
  unfold is_u32 in *. destruct (Z.ltb_spec (last_ e) MaxUint32) as [Hlt|Hge].
  - rewrite u32_id by (unfold is_u32; lia). assert (is_u32 (last_ e + 1)) as Hn by (unfold is_u32; lia).
    unfold key_lt. rewrite object_key_lt_iff by done.
    destruct (file_bounds ec e (last_ e + 1) Hec He Hn) as (_ & _ & _ & Hm1 & Hs1).
    destruct (file_bounds ec (last_ e + 1) b Hec Hn Hb) as (_ & _ & Bn & Hm2 & Hs2).
    destruct (file_bounds ec b (last_ e + 1) Hec Hb Hn) as (_ & _ & _ & Hm3 & Hs3). lia.
  - pose proof stored_nonempty as Hne. rewrite List.Forall_forall in Hne. apply list_elem_of_In, Hne in Hk.
    split; [lia|]. intros _. unfold key_lt. by destruct (key b).
Qed.

(** Files do not overlap. *)
Lemma last_mono a b : is_u32 a -> is_u32 b -> first b <= first a -> last_ b <= last_ a.
Proof.
  intros Ha Hb Hle. destruct (file_bounds ec a a Hec Ha Ha) as (Fa & _ & Ba & _).
  destruct (file_bounds ec a (first a) Hec Ha Fa) as (_ & _ & _ & _ & Haa).
  destruct (file_bounds ec b (first a) Hec Hb Fa) as (_ & _ & Bb & _ & Hba).
  destruct (file_bounds ec b a Hec Hb Ha) as (_ & _ & _ & _ & Hsame).
  destruct (Z.eq_dec (first b) (first a)) as [E|E]; [|lia].
  assert (last_ b = last_ a) as ->; [|done]. unfold GetSequenceNumberEndBoundary. by rewrite E.
Qed.

(** ** The binary search *)

Lemma Search_loop_spec (f : Z -> option iter_error -> bool * option iter_error) (g : Z -> bool) : forall fuel i j,
  (forall h, i <= h < j -> f h None = (g h, None)) -> i <= j -> j - i < 2 ^ Z.of_nat fuel ->
  exists r, Search_loop f fuel i j None = Some (r, None) /\ i <= r <= j /\
    (r < j -> g r = true) /\ (i < r -> g (r - 1) = false).
Proof.
  induction fuel as [|fuel IH]; intros i j Hf Hij Hfuel; cbn [Search_loop].
  - simpl in Hfuel. rewrite (proj2 (Z.ltb_ge i j)) by lia. exists i. split_and!; done || lia.
  - destruct (Z.ltb_spec i j) as [Hlt|Hge]; [|exists i; split_and!; done || lia].
    rewrite Nat2Z.inj_succ, Z.pow_succ_r in Hfuel by lia.
    pose proof (Z.div_mod (i + j) 2 ltac:(done)). pose proof (Z.mod_pos_bound (i + j) 2 ltac:(done)).
    set (h := (i + j) / 2) in *. rewrite Hf by lia. destruct (g h) eqn:Hg.
    + destruct (IH i h) as (r & -> & Hr & H1 & H2); [intros; apply Hf; lia|lia|lia|].
      exists r. split_and!; try done; try lia. intros _. destruct (Z.eq_dec r h) as [->|]; [done|apply H1; lia].
    + destruct (IH (h + 1) j) as (r & -> & Hr & H1 & H2); [intros; apply Hf; lia|lia|lia|].
      exists r. split_and!; try done; try lia. intros _. destruct (Z.eq_dec r (h + 1)) as [->|]; [|apply H2; lia].
      by rewrite Z.add_simpl_r.
Qed.

Lemma stateful_Search_spec (f : Z -> option iter_error -> bool * option iter_error) (g : Z -> bool) n :
  0 < n -> (forall h, 0 <= h < n -> f h None = (g h, None)) ->
  exists r, stateful_Search n f None = Some (r, None) /\ 0 <= r <= n /\
    (r < n -> g r = true) /\ (0 < r -> g (r - 1) = false).
Proof.
  intros Hn Hf. unfold stateful_Search. apply Search_loop_spec; [done|lia|].
  rewrite Nat2Z.inj_succ, Z2Nat.id, Z.sub_0_r by apply Z.log2_nonneg. by apply Z.log2_spec.
Qed.
End Stored.

(** ** A concrete store

    Keys in a sorted list, listed two at a time. *)
Module ListStore.
#[export] Instance list_store (keys : list bytes) : DataStore := {|
  store_error := Empty_set;
  ListFilePaths o := Ok (take 2 (after (StartAfter o) keys));
  Exists_ k := Ok (bool_decide (k ∈ keys))
|}.

Lemma list_store_laws keys :
  StronglySorted key_lt keys -> Forall (fun k => k <> []) keys -> DataStoreLaws (list_store keys) keys.
Proof.
  intros Hs Hn. split; [done|done| |done].
  intros k. exists (take 2 (after k keys)), (drop 2 (after k keys)).
  split; [done|]. split; [symmetry; apply take_drop|]. by destruct (after k keys).
Qed.

Definition schema : DataStoreSchema := mkSchema 64 1 [].
(** A file that is no ledger file, and ledgers 64 to 255. *)
Definition keys : list bytes :=
  [str ".config.json"; GetObjectKeyFromSequenceNumber schema 192; GetObjectKeyFromSequenceNumber schema 128;
   GetObjectKeyFromSequenceNumber schema 64].

#[export] Instance keys_laws : DataStoreLaws (list_store keys) keys.
Proof.
  apply list_store_laws; unfold keys.
  - repeat constructor; vm_compute; done.
  - repeat constructor; by vm_compute.
Qed.

Lemma keys_named : @named_by_schema keys schema.
Proof.
  intros k Hk Hre. unfold keys in Hk. rewrite !elem_of_cons, elem_of_nil in Hk.
  destruct Hk as [->|[->|[->|[->|[]]]]]; [by vm_compute in Hre|exists 192|exists 128|exists 64];
    (split; [unfold is_u32; lia|done]).
Qed.

Lemma schema_ok : is_schema schema /\ ext_ok schema.
Proof. split; [unfold is_schema, is_u32; simpl; lia|constructor]. Qed.
End ListStore.

(** ** Properties *)

Section Properties.
Context {DS : DataStore} {stored : list bytes} {DL : DataStoreLaws DS stored}.

(** The iterator visits exactly the ledger files in range. For any loop body,
    over a store that answers, [LedgerFileIter] ends within one page more than
    there are keys, having run the body on an item for each stored ledger file
    whose key lies after the lower bound and not after the upper one, in ascending
    order of keys, until the body stops or a name cannot be parsed, whatever the
    pages the listing came in; a range whose bounds are out of order gives the body
    one error instead. *)
Theorem LedgerFileIter_exact {S} (yield : result iter_error LedgerFile -> S -> S * bool) fuel a z s :
  (length stored < fuel)%nat ->
  LedgerFileIter yield fuel a z s =
    if negb (go_len a =? 0) && negb (go_len z =? 0) && negb (bytes_ltb a z) then Some (yield (Err ErrInvalidRange) s).1
    else Some (feed yield (files_of (upto z (after a stored))) s).1.
Proof.
  intros Hf. unfold LedgerFileIter. case_match; [done|]. apply iter_pages_feed.
  pose proof (length_after a stored). lia.
Qed.

(** The latest ledger. Over a store whose ledger files are all named by the
    schema, [FindLatestLedgerUpToSequence] returns the last ledger of a stored file
    that starts by the given sequence number and that no such file ends after, or
    the error when there is no such file; without a limit it is the last ledger of
    all files. The last ledger can lie after the given sequence number, in the file
    that holds it. *)
Theorem FindLatestLedger_exact fuel ec end_ :
  is_schema ec -> ext_ok ec -> named_by_schema (stored := stored) ec -> (length stored < fuel)%nat ->
  2 <= end_ <= MaxUint32 ->
  let holds a := is_u32 a /\ GetObjectKeyFromSequenceNumber ec a ∈ stored in
  let latest (limit : Z) r :=
    match r with
    | Ok m => exists a, holds a /\ GetSequenceNumberStartBoundary ec a <= limit /\ m = GetSequenceNumberEndBoundary ec a /\
        forall b, holds b -> GetSequenceNumberStartBoundary ec b <= limit -> GetSequenceNumberEndBoundary ec b <= m
    | Err e => e = ErrNoValidLedgerFiles /\ forall a, holds a -> limit < GetSequenceNumberStartBoundary ec a
    end in
  (exists r, FindLatestLedgerUpToSequence fuel end_ ec = Some r /\ latest end_ r) /\
  (exists r, FindLatestLedgerSequence fuel = Some r /\ latest MaxUint32 r).
Proof.
  intros Hec Hext Hn Hf Hend. cbv zeta.
  assert (He : is_u32 end_) by (unfold is_u32; lia). split.
  - unfold FindLatestLedgerUpToSequence. rewrite (proj2 (Z.ltb_ge _ _)) by lia.
    destruct (latest_after ec Hec Hext fuel [] (if GetSequenceNumberEndBoundary ec end_ <? MaxUint32
        then GetObjectKeyFromSequenceNumber ec (u32 (GetSequenceNumberEndBoundary ec end_ + 1)) else []) 0 Hn Hf)
      as [(a & Ha & Hk & Hlt & Hmax & ->)|[Hnone ->]]; eexists; (split; [done|]).
    + exists a. split; [done|]. split; [by apply (after_boundary ec Hec)|]. split; [done|].
      intros b [Hb Hkb] Hle. apply last_mono; [done..|]. apply Hmax; [done..|]. by apply after_boundary.
    + split; [done|]. intros a [Ha Hk]. apply Z.lt_nge. intros Hle. by apply (Hnone a Ha Hk), after_boundary.
  - unfold FindLatestLedgerSequence.
    assert (Hany : forall a, GetObjectKeyFromSequenceNumber ec a ∈ stored -> key_lt [] (GetObjectKeyFromSequenceNumber ec a)).
    { intros a Hk. pose proof stored_nonempty as Hne. rewrite List.Forall_forall in Hne. apply list_elem_of_In, Hne in Hk.
      unfold key_lt. by destruct (GetObjectKeyFromSequenceNumber ec a). }
    destruct (latest_after ec Hec Hext fuel [] [] 0 Hn Hf) as [(a & Ha & Hk & Hlt & Hmax & ->)|[Hnone ->]];
      eexists; (split; [done|]).
    + exists a. pose proof (file_bounds ec a a Hec Ha Ha) as (Fa & _). unfold is_u32 in Fa.
      split; [done|]. split; [lia|]. split; [done|]. intros b [Hb Hkb] _. apply last_mono; [done..|]. apply Hmax; [done..|]. by apply Hany.
    + split; [done|]. intros a [Ha Hk]. exfalso. by apply (Hnone a Ha Hk), Hany.
Qed.

(** The oldest ledger. Over a store whose ledger files are all named by the
    schema, [FindOldestLedgerSequence] ends; a result is a ledger from 2 on that
    the store holds and whose predecessor, unless it is 2, the store does not hold,
    so that it is the oldest of all when the store has no gap below it; the only
    error is that the store holds no ledger from 2 on. *)
Theorem FindOldestLedgerSequence_exact fuel ec :
  is_schema ec -> ext_ok ec -> named_by_schema (stored := stored) ec -> (length stored < fuel)%nat ->
  let holds a := is_u32 a /\ GetObjectKeyFromSequenceNumber ec a ∈ stored in
  exists r, FindOldestLedgerSequence fuel ec = Some r /\
    match r with
    | Ok s => 2 <= s /\ holds s /\ (2 < s -> ~ holds (s - 1)) /\
        ((forall a b, holds a -> 2 <= a <= b -> b <= s -> holds b) -> forall a, holds a -> 2 <= a -> s <= a)
    | Err e => e = ErrNoValidLedgerFiles /\ forall a, 2 <= a -> ~ holds a
    end.
Proof.
  intros Hec Hext Hn Hf holds. unfold FindOldestLedgerSequence, FindLatestLedgerSequence.
  assert (Hany : forall a, GetObjectKeyFromSequenceNumber ec a ∈ stored -> key_lt [] (GetObjectKeyFromSequenceNumber ec a)).
  { intros a Hk. pose proof stored_nonempty as Hne. rewrite List.Forall_forall in Hne. apply list_elem_of_In, Hne in Hk.
    unfold key_lt. by destruct (GetObjectKeyFromSequenceNumber ec a). }
  destruct (latest_after ec Hec Hext fuel [] [] 0 Hn Hf) as [(m & Hm & Hk & Hlt & Hmax & ->)|[Hnone ->]].
  2:{ eexists. split; [done|]. split; [done|]. intros a _ [Ha Hka]. by apply (Hnone a Ha Hka), Hany. }
  cbn [option_bind]. destruct (file_bounds ec m m Hec Hm Hm) as (_ & Le & Bm & _ & _).
  set (l := GetSequenceNumberEndBoundary ec m) in *. unfold is_u32 in Le.
  assert (Hle : forall a, holds a -> a <= l).
  { intros a [Ha Hka]. destruct (file_bounds ec a a Hec Ha Ha) as (_ & _ & Ba & _).
    pose proof (last_mono ec Hec m a Hm Ha (Hmax a Ha Hka (Hany a Hka))). subst l. lia. }
  assert (Hl : holds l).
  { split; [done|]. replace (GetObjectKeyFromSequenceNumber ec l) with (GetObjectKeyFromSequenceNumber ec m); [done|].
    apply object_key_inj; [done..|]. apply (file_bounds ec m l Hec Hm Le). subst l. lia. }
  destruct (Z.ltb_spec l 2) as [Hl2|Hl2].
  { eexists. split; [done|]. split; [done|]. intros a Ha2 Ha%Hle. lia. }
  rewrite (u32_id (l - 2)), u32_id by (unfold is_u32; lia).
  destruct (stateful_Search_spec (ledger_exists ec 2)
    (fun h => bool_decide (GetObjectKeyFromSequenceNumber ec (2 + h) ∈ stored)) (l - 2 + 1)) as (r & -> & Hr & H1 & H2).
  { lia. }
  { intros h Hh. unfold ledger_exists. rewrite (u32_id h), u32_id by (unfold is_u32; lia). by rewrite (Exists_stored (DataStoreLaws := DL)). }
  cbn [option_bind]. destruct (Z.ltb_spec r (l - 2 + 1)) as [Hrl|Hrl].
  - eexists. split; [done|]. rewrite (u32_id r), u32_id by (unfold is_u32; lia).
    assert (Hno : 2 < 2 + r -> ~ holds (2 + r - 1)).
    { intros Hr0 [_ Hh]. specialize (H2 ltac:(lia)). apply bool_decide_eq_false in H2. apply H2.
      by replace (2 + (r - 1)) with (2 + r - 1) by lia. }
    split; [lia|]. split; [split; [unfold is_u32; lia|specialize (H1 Hrl); by apply bool_decide_eq_true in H1]|]. split; [done|].
    intros Hgap a Ha Ha2. apply Z.nlt_ge. intros Hlt'. apply Hno; [lia|]. apply (Hgap a); [done|lia|lia].
  - exfalso. assert (r = l - 2 + 1) as -> by lia. specialize (H2 ltac:(lia)). apply bool_decide_eq_false in H2.
    apply H2. replace (2 + (l - 2 + 1 - 1)) with l by lia. apply Hl.
Qed.
End Properties.

(** ** Applications to the concrete store *)
Module Applications.
Import ListStore.
#[local] Existing Instance list_store.

(** The ledger found is not bounded by the one asked for. *)
Example latest_beyond_end : FindLatestLedgerUpToSequence (DS := list_store keys) 5 130 schema = Some (Ok 191).
Proof. vm_compute. reflexivity. Qed.

End Applications.
