(* ===== verification/Heap.v ===== *)
(** * A min-heap backed by a slice

    src/support/collections/heap/heap.go over the standard library's
    [container/heap]: elements in a slice, sifted up and down by index. [None] is
    a panic, an index out of range. *)
From Stdlib Require Import ZArith Lia.
From stdpp Require Import base list option sorting.
From S2P Require Import Prelude GoStd GoExt.
#[local] Open Scope go_scope.

(** ** The operations *)
Record Heap (E : Type) : Type := mkHeap { slice : list E; less : E -> E -> bool }.
Arguments mkHeap {E}. Arguments slice {E}. Arguments less {E}.

Section Heap.
Context {E : Type}.

Definition set_slice (h : Heap E) (s : list E) : Heap E := mkHeap s (less h).

(** The [heap.Interface] of the slice. *)
Definition sliceHeap_Len (h : Heap E) : nat := length (slice h).
Definition sliceHeap_Swap (h : Heap E) (i j : nat) : option (Heap E) :=
  let! x := slice h !! i in
  let! y := slice h !! j in
  Some (set_slice h (<[j := x]> (<[i := y]> (slice h)))).
Definition sliceHeap_Less (h : Heap E) (i j : nat) : option bool :=
  let! x := slice h !! i in
  let! y := slice h !! j in
  Some (less h x y).
Definition sliceHeap_Push (h : Heap E) (x : E) : Heap E := set_slice h (slice h ++ [x]).
Definition sliceHeap_Pop (h : Heap E) : option (Heap E * E) :=
  let! e := slice h !! (length (slice h) - 1)%nat in
  Some (set_slice h (take (length (slice h) - 1) (slice h)), e).

(** [container/heap]: [up] and [down] stop when the fuel, one more than the index
    or the length, is used up; they never use it up. *)
Fixpoint up (fuel : nat) (h : Heap E) (j : nat) : option (Heap E) :=
  match fuel with
  | O => None
  | S fuel =>
      let i := ((j - 1) / 2)%nat in
      if (i =? j)%nat then Some h
      else
        let! b := sliceHeap_Less h j i in
        if negb b then Some h
        else let! h := sliceHeap_Swap h i j in up fuel h i
  end.

Fixpoint down (fuel : nat) (h : Heap E) (i n : nat) : option (Heap E) :=
  match fuel with
  | O => None
  | S fuel =>
      let j1 := (2 * i + 1)%nat in
      if (n <=? j1)%nat then Some h
      else
        let j2 := S j1 in
        let! j2_less := (if (j2 <? n)%nat then sliceHeap_Less h j2 j1 else Some false) in
        let j := if j2_less : bool then j2 else j1 in
        let! b := sliceHeap_Less h j i in
        if negb b then Some h
        else let! h := sliceHeap_Swap h i j in down fuel h j n
  end.

Definition heap_Push (h : Heap E) (x : E) : option (Heap E) :=
  let h := sliceHeap_Push h x in
  up (sliceHeap_Len h) h (sliceHeap_Len h - 1).

(** On an empty heap [Swap] is out of range: it gets the index -1. *)
Definition heap_Pop (h : Heap E) : option (Heap E * E) :=
  match sliceHeap_Len h with
  | O => None
  | S n =>
      let! h := sliceHeap_Swap h 0 n in
      let! h := down (S n) h 0 n in
      sliceHeap_Pop h
  end.

(** ** The exported type *)
Definition New (less : E -> E -> bool) (capacity : nat) : Heap E := mkHeap [] less.
Definition Push (h : Heap E) (elem : E) : option (Heap E) := heap_Push h elem.
Definition Pop (h : Heap E) : option (Heap E * E) := heap_Pop h.
Definition Peek (h : Heap E) : option E := slice h !! 0%nat.
Definition Len (h : Heap E) : nat := length (slice h).
End Heap.

(** ** The interface: a queue by priority *)

(** What a client relies on: the elements as a multiset, the least of which is
    seen and removed first. *)
Class PriorityQueue (E : Type) := {
  pq : Type;
  pq_empty : pq;
  pq_Push : pq -> E -> option pq;
  pq_Pop : pq -> option (pq * E);
  pq_Peek : pq -> option E;
  pq_Len : pq -> nat
}.

Class PriorityQueueLaws {E : Type} (lt : E -> E -> bool) (Q : PriorityQueue E) := {
  pq_ok : pq -> Prop;
  pq_elements : pq -> list E;
  pq_empty_ok : pq_ok pq_empty /\ pq_elements pq_empty = [];
  pq_Push_ok q x : pq_ok q -> exists q', pq_Push q x = Some q' /\ pq_ok q' /\ pq_elements q' ≡ₚ x :: pq_elements q;
  pq_Peek_ok q : pq_ok q ->
    match pq_Peek q with
    | Some x => x ∈ pq_elements q /\ forall y, y ∈ pq_elements q -> lt y x = false
    | None => pq_elements q = []
    end;
  pq_Pop_ok q x : pq_ok q -> pq_Peek q = Some x ->
    exists q', pq_Pop q = Some (q', x) /\ pq_ok q' /\ pq_elements q ≡ₚ x :: pq_elements q';
  pq_Len_ok q : pq_Len q = length (pq_elements q)
}.

(** ** The slice as a tree *)
Definition parent (k : nat) : nat := ((k - 1) / 2)%nat.

Lemma parent_lt k : (0 < k -> parent k < k)%nat.
Proof. intros H. unfold parent. apply Nat.Div0.div_lt_upper_bound. lia. Qed.

Lemma parent_child i : parent (2 * i + 1) = i /\ parent (S (2 * i + 1)) = i.
Proof.
  unfold parent. split.
  - replace (2 * i + 1 - 1)%nat with (i * 2)%nat by lia. by rewrite Nat.div_mul.
  - replace (S (2 * i + 1) - 1)%nat with (1 + i * 2)%nat by lia. by rewrite Nat.div_add.
Qed.

Lemma parent_inv i k : (0 < k)%nat -> parent k = i -> k = (2 * i + 1)%nat \/ k = S (2 * i + 1).
Proof.
  unfold parent. intros Hk <-. pose proof (Nat.div_mod (k - 1) 2 ltac:(lia)).
  pose proof (Nat.mod_upper_bound (k - 1) 2 ltac:(lia)). lia.
Qed.

Section Swap.
Context {E : Type}.
Implicit Types (s : list E).

Definition swapped s (i j : nat) (x y : E) : list E := <[j := x]> (<[i := y]> s).

Lemma insert_delete_perm s i x y : s !! i = Some x -> <[i := y]> s ≡ₚ y :: delete i s.
Proof.
  intros H. apply lookup_lt_Some in H as Hl.
  rewrite (delete_Permutation (<[i := y]> s) i y) by by apply list_lookup_insert_eq.
  f_equiv. apply Permutation_refl'. clear H. revert i Hl.
  induction s as [|a s IH]; intros [|i] Hl; simpl in *; try done. f_equal. apply IH. lia.
Qed.

Lemma swapped_perm s i j x y : s !! i = Some x -> s !! j = Some y -> swapped s i j x y ≡ₚ s.
Proof.
  intros Hi Hj. unfold swapped. destruct (decide (i = j)) as [->|Hne].
  - assert (x = y) as -> by congruence. rewrite !list_insert_id; [done|done|].
    rewrite list_lookup_insert_eq; [done|]. by eapply lookup_lt_Some.
  - assert ((<[i := y]> s) !! j = Some y) as Hj' by by rewrite list_lookup_insert_ne.
    rewrite (insert_delete_perm _ j y x Hj').
    pose proof (delete_Permutation _ j y Hj') as H1. pose proof (insert_delete_perm s i x y Hi) as H2.
    rewrite H1 in H2. apply Permutation_cons_inv in H2. rewrite H2. symmetry. by apply delete_Permutation.
Qed.

Lemma length_swapped s i j x y : length (swapped s i j x y) = length s.
Proof. unfold swapped. by rewrite !length_insert. Qed.

Lemma lookup_swapped s i j x y k z :
  s !! i = Some x -> s !! j = Some y -> swapped s i j x y !! k = Some z ->
  (k = j /\ z = x) \/ (k <> j /\ k = i /\ z = y) \/ (k <> i /\ k <> j /\ s !! k = Some z).
Proof.
  intros Hi Hj. unfold swapped. apply lookup_lt_Some in Hi as Li, Hj as Lj.
  destruct (decide (k = j)) as [->|Hkj].
  - rewrite list_lookup_insert_eq by by rewrite length_insert. intros [= <-]. by left.
  - rewrite list_lookup_insert_ne by done. destruct (decide (k = i)) as [->|Hki].
    + rewrite list_lookup_insert_eq by done. intros [= <-]. right. by left.
    + rewrite list_lookup_insert_ne by done. intros Hz. right. by right.
Qed.
End Swap.

(** ** Sifting *)
Section Sift.
Context {E : Type} (lt : E -> E -> bool) (WO : weak_order lt).
Implicit Types (l : list E).

(** The element at [k] does not precede the one at [p]. *)
Definition ordered l (k p : nat) : Prop :=
  forall x y, l !! k = Some x -> l !! p = Some y -> lt x y = false.

(** The first [n] elements are a heap. *)
Definition heap_upto (n : nat) l : Prop := forall k, (0 < k < n)%nat -> ordered l k (parent k).

Definition up_inv l (j : nat) : Prop :=
  (forall k, (0 < k)%nat -> k <> j -> ordered l k (parent k)) /\
  (forall k, (0 < k)%nat -> (0 < j)%nat -> parent k = j -> ordered l k (parent j)).

Definition down_inv l (i n : nat) : Prop :=
  (forall k, (0 < k < n)%nat -> parent k <> i -> ordered l k (parent k)) /\
  (forall k, (0 < k < n)%nat -> (0 < i)%nat -> parent k = i -> ordered l k (parent i)).

(** Case analysis of the lookups in a swapped list. *)
Ltac swapped_cases Hi Hj :=
  repeat match goal with
  | H : swapped _ _ _ _ _ !! _ = Some _ |- _ =>
      apply (lookup_swapped _ _ _ _ _ _ _ Hi Hj) in H as [(? & ?)|[(? & ? & ?)|(? & ? & H)]]
  end; subst.

Lemma up_step l i j x y :
  i = parent j -> (0 < j)%nat -> l !! i = Some y -> l !! j = Some x -> lt x y = true ->
  up_inv l j -> up_inv (swapped l i j y x) i.
Proof.
  intros Ei Hj Hy Hx Hlt [H1 H2]. pose proof (parent_lt j Hj) as Hij. rewrite <- Ei in Hij.
  pose proof (wo_asym _ WO x y Hlt) as Hyx. split.
  - intros k Hk Hki u v Hu Hv. pose proof (parent_lt k Hk) as Hpk.
    destruct (decide (k = j)) as [->|Hkj].
    + rewrite <- Ei in Hv. swapped_cases Hy Hx; try lia; done.
    + destruct (decide (parent k = j)) as [Epj|Npj]; [|destruct (decide (parent k = i)) as [Epi|Npi]].
      * rewrite Epj in Hv. swapped_cases Hy Hx; try lia. eapply (H2 k); [exact Hk|lia|done|exact Hu|exact Hy].
      * rewrite Epi in Hv. swapped_cases Hy Hx; try lia.
        apply (wo_trans _ WO x y u); [done|]. apply (H1 k Hk Hkj u y Hu). by rewrite Epi.
      * swapped_cases Hy Hx; try lia. by apply (H1 k).
  - intros k Hk Hi Ek u v Hu Hv. pose proof (parent_lt i Hi) as Hpi.
    assert (l !! parent i = Some v) as Hw by (swapped_cases Hy Hx; try lia; done).
    assert (lt y v = false) as Hyv by (eapply (H1 i); [done|lia|done|done]).
    pose proof (parent_lt k Hk). swapped_cases Hy Hx; try lia; try done.
    apply (wo_trans _ WO v y u); [done|]. eapply (H1 k); [done|done|done|by rewrite Ek].
Qed.

Lemma up_spec : forall fuel l j,
  (j < fuel)%nat -> (j < length l)%nat -> up_inv l j ->
  exists l', up fuel (mkHeap l lt) j = Some (mkHeap l' lt) /\ l' ≡ₚ l /\ heap_upto (length l') l'.
Proof.
  induction fuel as [|fuel IH]; intros l j Hf Hl Hinv; [lia|]. cbn [up]. fold (parent j).
  destruct (Nat.eqb_spec (parent j) j) as [E0|Hne].
  - exists l. split_and!; [done|done|]. intros k Hk. apply (proj1 Hinv k); [lia|]. intros ->.
    pose proof (parent_lt j ltac:(lia)). lia.
  - assert (0 < j)%nat as Hj. { destruct j; [|lia]. done. }
    pose proof (parent_lt j Hj) as Hp. unfold sliceHeap_Less, sliceHeap_Swap; cbn [slice less].
    destruct (lookup_lt_is_Some_2 l j Hl) as [x Hx].
    destruct (lookup_lt_is_Some_2 l (parent j) ltac:(lia)) as [y Hy]. rewrite Hx, Hy. cbn [option_bind].
    destruct (lt x y) eqn:Hlt; cbn [negb].
    + unfold set_slice; cbn [less]. fold (swapped l (parent j) j y x).
      destruct (IH (swapped l (parent j) j y x) (parent j)) as (l' & -> & Hperm & Hh).
      * lia.
      * rewrite length_swapped. lia.
      * by apply up_step.
      * exists l'. split_and!; [done| |done]. rewrite Hperm. by apply swapped_perm.
    + exists l. split_and!; [done|done|]. intros k Hk u v Hu Hv. destruct (decide (k = j)) as [->|].
      * congruence.
      * by apply (proj1 Hinv k); [lia|..].
Qed.

Lemma down_step l i j n x y :
  parent j = i -> (0 < j < n)%nat -> l !! i = Some x -> l !! j = Some y -> lt y x = true ->
  (forall k, (0 < k < n)%nat -> parent k = i -> ordered l k j) ->
  down_inv l i n -> down_inv (swapped l i j x y) j n.
Proof.
  intros Ej Hj Hx Hy Hlt Hleast [H1 H2]. pose proof (parent_lt j ltac:(lia)) as Hij. rewrite Ej in Hij.
  pose proof (wo_asym _ WO y x Hlt) as Hxy. split.
  - intros k Hk Hkj u v Hu Hv. pose proof (parent_lt k ltac:(lia)) as Hpk.
    destruct (decide (k = i)) as [->|Hki]; [|destruct (decide (k = j)) as [->|Hkj'];
      [|destruct (decide (parent k = i)) as [Epi|Npi]]].
    + swapped_cases Hx Hy; try lia. eapply (H2 j); [done|lia|done|done|done].
    + rewrite Ej in Hv. swapped_cases Hx Hy; try lia; done.
    + rewrite Epi in Hv. swapped_cases Hx Hy; try lia. by apply (Hleast k Hk Epi).
    + swapped_cases Hx Hy; try lia. by apply (H1 k).
  - intros k Hk Hj0 Ek u v Hu Hv. pose proof (parent_lt k ltac:(lia)) as Hpk. rewrite Ej in Hv.
    swapped_cases Hx Hy; try lia. eapply (H1 k); [done|lia|exact Hu|exact Hy].
Qed.

Lemma down_spec : forall fuel l i n,
  (n < fuel + i)%nat -> (i < n)%nat -> (n <= length l)%nat -> down_inv l i n ->
  exists l', down fuel (mkHeap l lt) i n = Some (mkHeap l' lt) /\ l' ≡ₚ l /\ heap_upto n l' /\
    length l' = length l /\ forall k, (n <= k)%nat -> l' !! k = l !! k.
Proof.
  induction fuel as [|fuel IH]; intros l i n Hf Hi Hl Hinv; [lia|]. cbn [down].
  destruct (parent_child i) as [P1 P2]. set (j1 := (2 * i + 1)%nat) in *.
  destruct (Nat.leb_spec n j1) as [Hge|Hlt1].
  { exists l. split_and!; try done. intros k Hk. apply (proj1 Hinv k Hk). intros Ek.
    apply parent_inv in Ek; lia. }
  unfold sliceHeap_Less, sliceHeap_Swap; cbn [slice less].
  destruct (lookup_lt_is_Some_2 l i ltac:(lia)) as [x Hx].
  destruct (lookup_lt_is_Some_2 l j1 ltac:(lia)) as [a Ha].
  set (sel := (if (S j1 <? n)%nat then _ else _)).
  assert (exists j y, (sel = Some (j =? S j1)%nat) /\ (j = j1 \/ (j = S j1 /\ (S j1 < n)%nat)) /\ l !! j = Some y /\
    forall k, (0 < k < n)%nat -> parent k = i -> ordered l k j) as (j & y & Hsel & Hj & Hy & Hleast).
  { subst sel. destruct (Nat.ltb_spec (S j1) n) as [Hlt2|Hge2].
    - destruct (lookup_lt_is_Some_2 l (S j1) ltac:(lia)) as [b Hb]. rewrite Ha, Hb. cbn [option_bind].
      destruct (lt b a) eqn:Hba.
      + exists (S j1), b. rewrite Nat.eqb_refl. split_and!; [done|by right|done|].
        intros k Hk Ek u v Hu Hv. apply parent_inv in Ek as [-> | ->]; [| |lia].
        * fold j1 in Hu. assert (u = a) as -> by congruence. assert (v = b) as -> by congruence. by apply (wo_asym _ WO).
        * fold j1 in Hu. assert (u = v) as -> by congruence. destruct (lt v v) eqn:C; [|done].
          pose proof (wo_asym _ WO v v C). congruence.
      + exists j1, a. assert ((j1 =? S j1)%nat = false) as -> by (apply Nat.eqb_neq; lia).
        split_and!; [done|by left|done|].
        intros k Hk Ek u v Hu Hv. apply parent_inv in Ek as [-> | ->]; [| |lia]; fold j1 in Hu.
        * assert (u = v) as -> by congruence. destruct (lt v v) eqn:C; [|done].
          pose proof (wo_asym _ WO v v C). congruence.
        * congruence.
    - exists j1, a. assert ((j1 =? S j1)%nat = false) as -> by (apply Nat.eqb_neq; lia).
      split_and!; [done|by left|done|].
      intros k Hk Ek u v Hu Hv. apply parent_inv in Ek as [-> | ->]; [| |lia]; fold j1 in Hu; [|lia].
      assert (u = v) as -> by congruence. destruct (lt v v) eqn:C; [|done].
      pose proof (wo_asym _ WO v v C). congruence. }
  rewrite Hsel. cbn [option_bind].
  assert ((if (j =? S j1)%nat then S j1 else j1) = j) as -> by (destruct (Nat.eqb_spec j (S j1)); lia).
  assert (parent j = i) as Ej by (destruct Hj as [->|[-> _]]; done). rewrite Hx, Hy. cbn [option_bind].
  assert (Hjn : (0 < j < n)%nat) by (subst j1; lia).
  destruct (lt y x) eqn:Hlt; cbn [negb].
  - unfold set_slice; cbn [less]. fold (swapped l i j x y).
    destruct (IH (swapped l i j x y) j n) as (l' & -> & Hperm & Hh & Hlen & Hk).
    + subst j1. lia.
    + lia.
    + by rewrite length_swapped.
    + by apply down_step.
    + exists l'. rewrite length_swapped in Hlen. split_and!; [done| |done|done|].
      * rewrite Hperm. by apply swapped_perm.
      * intros k Hkn. rewrite Hk by done. unfold swapped. by rewrite !list_lookup_insert_ne by lia.
  - exists l. split_and!; try done. intros k Hk. destruct (decide (parent k = i)) as [Ek|Nk]; [|by apply (proj1 Hinv k)].
    intros u v Hu Hv. rewrite Ek in Hv. assert (v = x) as -> by congruence.
    apply (wo_trans _ WO x y u); [done|]. by apply (Hleast k Hk Ek).
Qed.
End Sift.

(** ** The heap as a priority queue *)
Section Queue.
Context {E : Type} (lt : E -> E -> bool) (WO : weak_order lt).

Definition heap_ok (h : Heap E) : Prop := less h = lt /\ heap_upto lt (length (slice h)) (slice h).

Lemma lt_irrefl x : lt x x = false.
Proof. destruct (lt x x) eqn:C; [|done]. pose proof (wo_asym _ WO x x C). congruence. Qed.

(** The root precedes no less than every element. *)
Lemma heap_root l r : heap_upto lt (length l) l -> l !! 0%nat = Some r -> forall k x, l !! k = Some x -> lt x r = false.
Proof.
  intros Hh Hr k. induction k as [k IH] using lt_wf_ind. intros x Hx.
  destruct (decide (k = 0%nat)) as [->|Hk]; [assert (x = r) as -> by congruence; apply lt_irrefl|].
  pose proof (parent_lt k ltac:(lia)) as Hp. apply lookup_lt_Some in Hx as Hl.
  destruct (lookup_lt_is_Some_2 l (parent k) ltac:(lia)) as [y Hy].
  apply (wo_trans _ WO r y x); [by eapply IH|]. eapply (Hh k); [lia|done|done].
Qed.

Lemma heap_New_ok capacity : heap_ok (New lt capacity) /\ slice (New lt capacity) = [].
Proof. split; [|done]. split; [done|]. intros k Hk. cbn in Hk. lia. Qed.

Lemma heap_Push_ok h x : heap_ok h -> exists h', Push h x = Some h' /\ heap_ok h' /\ slice h' ≡ₚ x :: slice h.
Proof.
  destruct h as [l less']. intros [Hless Hh]. cbn in Hless, Hh. subst less'.
  unfold Push, heap_Push, sliceHeap_Push, sliceHeap_Len, set_slice; cbn [slice less]. rewrite length_app; cbn [length].
  replace (length l + 1 - 1)%nat with (length l) by lia.
  destruct (up_spec lt WO (length l + 1) (l ++ [x]) (length l)) as (l' & -> & Hp & Hh').
  - lia.
  - rewrite length_app; cbn [length]. lia.
  - split.
    + intros k Hk Hne u v Hu Hv. apply lookup_lt_Some in Hu as Hl. rewrite length_app in Hl; cbn [length] in Hl.
      pose proof (parent_lt k Hk). rewrite lookup_app_l in Hu by lia. rewrite lookup_app_l in Hv by lia.
      eapply (Hh k); [lia|done|done].
    + intros k Hk Hj Ek u v Hu Hv. pose proof (parent_lt k Hk). apply lookup_lt_Some in Hu.
      rewrite length_app in Hu; cbn [length] in Hu. lia.
  - exists (mkHeap l' lt). split; [done|]. split; [done|]. cbn [slice]. rewrite Hp. symmetry. apply Permutation_cons_append.
Qed.

Lemma heap_Peek_ok h : heap_ok h ->
  match Peek h with
  | Some x => x ∈ slice h /\ forall y, y ∈ slice h -> lt y x = false
  | None => slice h = []
  end.
Proof.
  destruct h as [l less']. intros [Hless Hh]. cbn in Hless, Hh. subst less'. unfold Peek; cbn [slice].
  destruct (l !! 0%nat) as [r|] eqn:Er.
  - split; [by eapply list_elem_of_lookup_2|]. intros y [k Hk]%list_elem_of_lookup. by eapply heap_root.
  - by destruct l.
Qed.

Lemma heap_Pop_ok h x : heap_ok h -> Peek h = Some x ->
  exists h', Pop h = Some (h', x) /\ heap_ok h' /\ slice h ≡ₚ x :: slice h'.
Proof.
  destruct h as [l less']. intros [Hless Hh] Hr. cbn in Hless, Hh. subst less'. unfold Peek in Hr; cbn [slice] in Hr.
  unfold Pop, heap_Pop, sliceHeap_Len, sliceHeap_Swap; cbn [slice less].
  destruct (length l) as [|n] eqn:Hlen; [by apply length_zero_iff_nil in Hlen as ->|].
  destruct (lookup_lt_is_Some_2 l n ltac:(lia)) as [y Hy]. rewrite Hr, Hy. cbn [option_bind].
  unfold set_slice; cbn [less]. fold (swapped l 0 n x y).
  assert (exists l', down (S n) (mkHeap (swapped l 0 n x y) lt) 0 n = Some (mkHeap l' lt) /\ l' ≡ₚ l /\
    heap_upto lt n l' /\ length l' = S n /\ l' !! n = Some x) as (l' & -> & Hp & Hh' & Hl' & Hn).
  { assert (swapped l 0 n x y !! n = Some x) as Hlast.
    { unfold swapped. apply list_lookup_insert_eq. rewrite length_insert. lia. }
    destruct n as [|n].
    - exists (swapped l 0 0 x y). split_and!; [done|by apply swapped_perm|intros k Hk; lia|by rewrite length_swapped|done].
    - destruct (down_spec lt WO (S (S n)) (swapped l 0 (S n) x y) 0 (S n)) as (l' & E1 & E2 & E3 & E4 & E5).
      + lia.
      + lia.
      + rewrite length_swapped. lia.
      + split; [|lia]. intros k Hk Hpk u v Hu Hv. pose proof (parent_lt k ltac:(lia)).
        apply (lookup_swapped _ _ _ _ _ _ _ Hr Hy) in Hu as [(? & _)|[(_ & ? & _)|(_ & _ & Hu)]]; [lia|lia|].
        apply (lookup_swapped _ _ _ _ _ _ _ Hr Hy) in Hv as [(? & _)|[(_ & ? & _)|(_ & _ & Hv)]]; [lia|lia|].
        eapply (Hh k); [lia|done|done].
      + exists l'. rewrite length_swapped in E4. split_and!; [done| |done|congruence|by rewrite E5].
        rewrite E2. by apply swapped_perm. }
  cbn [option_bind]. unfold sliceHeap_Pop, set_slice; cbn [slice less]. rewrite Hl'.
  replace (S n - 1)%nat with n by lia. rewrite Hn. cbn [option_bind].
  exists (mkHeap (take n l') lt). split; [done|]. split.
  - split; [done|]. cbn [slice]. rewrite length_take, Hl'. intros k Hk u v Hu Hv.
    apply lookup_take_Some in Hu as [Hu ?]. apply lookup_take_Some in Hv as [Hv ?]. eapply (Hh' k); [lia|done|done].
  - cbn [slice]. rewrite <- Hp. rewrite <- (take_drop n l') at 1. rewrite (drop_S l' x n Hn).
    rewrite (drop_ge l' (S n)) by lia. symmetry. apply Permutation_cons_append.
Qed.

#[export] Instance heap_queue : PriorityQueue E := {|
  pq := Heap E;
  pq_empty := New lt 0;
  pq_Push := Push;
  pq_Pop := Pop;
  pq_Peek := Peek;
  pq_Len := Len
|}.

#[export] Instance heap_queue_laws : PriorityQueueLaws lt heap_queue := {|
  pq_ok := heap_ok;
  pq_elements := slice;
  pq_empty_ok := heap_New_ok 0;
  pq_Push_ok := heap_Push_ok;
  pq_Peek_ok := heap_Peek_ok;
  pq_Pop_ok := heap_Pop_ok;
  pq_Len_ok := fun _ => eq_refl
|}.
End Queue.

(** ** Properties *)

(** The heap is a priority queue. For a strict weak order, from the empty heap
    on every reachable slice is heap-ordered; pushing never panics and adds the
    element, [Peek] returns an element no other one precedes, [Pop] removes that
    element and no other, and both panic exactly on the empty heap. *)
Theorem Heap_is_priority_queue {E} (lt : E -> E -> bool) (WO : weak_order lt) capacity :
  (heap_ok lt (New lt capacity) /\ Len (New lt capacity) = O) /\
  forall h, heap_ok lt h ->
    (forall x, exists h', Push h x = Some h' /\ heap_ok lt h' /\ slice h' ≡ₚ x :: slice h) /\
    (Peek h = None <-> Len h = O) /\ (Pop h = None <-> Len h = O) /\
    (forall x, Peek h = Some x -> x ∈ slice h /\ (forall y, y ∈ slice h -> lt y x = false) /\
      exists h', Pop h = Some (h', x) /\ heap_ok lt h' /\ slice h ≡ₚ x :: slice h').
Proof.
  split; [split; [apply heap_New_ok|done]|]. intros h Hh. pose proof (heap_Peek_ok lt WO h Hh) as HP.
  assert (Hnone : Peek h = None <-> Len h = O).
  { unfold Peek, Len. destruct (slice h); split; done. }
  split; [intros x; by apply heap_Push_ok|]. split; [exact Hnone|]. split; [split|].
  - intros H. apply Hnone. destruct (Peek h) as [x|] eqn:Ex; [|done].
    destruct (heap_Pop_ok lt WO h x Hh Ex) as (h' & E' & _). congruence.
  - intros H. unfold Pop, heap_Pop, sliceHeap_Len. unfold Len in H. by rewrite H.
  - intros x Hx. pose proof (heap_Pop_ok lt WO h x Hh Hx) as Hpop. rewrite Hx in HP. destruct HP. done.
Qed.

Lemma Z_lt_weak_order : weak_order Z.ltb.
Proof. split; intros *; rewrite ?Z.ltb_lt, ?Z.ltb_ge; lia. Qed.
