(* ===== verification/LedgerBuffer.v ===== *)
(** * The ledger buffer

    src/ingest/ledgerbackend/ledger_buffer.go: workers download the files of a
    range concurrently and put them back in order for one consumer. The goroutines
    are a step relation on the shared state: a step is one channel operation, one
    critical section or one download, so that every interleaving is a sequence of
    steps. The pools that recycle buffers and the decoder are left out. *)
From Stdlib Require Import ZArith Lia.
From stdpp Require Import base list option relations sorting.
From S2P Require Import Prelude GoStd GoExt Decimal Encodings Schema Heap.
#[local] Open Scope Z_scope.
#[local] Open Scope go_scope.

(** ** Data *)
Record LedgerRange : Type := mkRange { from : Z; to : Z; bounded : bool }.

Record BufferConfig : Type := mkConfig {
  BufferSize : Z;
  BufferBytes : Z;
  NumWorkers : Z;
  RetryLimit : Z
}.

Inductive config_error : Type :=
| ErrBufferSize | ErrNumWorkers | ErrBufferBytes | ErrWorkersOverBuffer | ErrLedgersPerFileZero.

(** The checks of [NewBufferedStorageBackend]. *)
Definition validate_config (config : BufferConfig) (schema : DataStoreSchema) : option config_error :=
  if BufferSize config =? 0 then Some ErrBufferSize
  else if NumWorkers config =? 0 then Some ErrNumWorkers
  else if BufferBytes config <? 0 then Some ErrBufferBytes
  else if BufferSize config <? NumWorkers config then Some ErrWorkersOverBuffer
  else if LedgersPerFile schema <=? 0 then Some ErrLedgersPerFileZero
  else None.

(** Why a download failed. *)
Inductive download_error : Type := ErrNotExist | ErrCanceled | ErrOther.

Inductive cancel_cause : Type :=
| Canceled
| MissingObject (sequence : Z)
| MaximumRetries (sequence : Z).

#[export] Instance cancel_cause_eq_dec : EqDecision cancel_cause.
Proof. solve_decision. Defined.

Section Buffer.
(** The contents of objects, and the queue of downloaded ones. *)
Context {payload : Type}.

Record ledgerBatchObject : Type := mkBatchObject { batch_payload : payload; startLedger : Z }.
Definition batch_less (a b : ledgerBatchObject) : bool := startLedger a <? startLedger b.

Context {Q : PriorityQueue ledgerBatchObject}.

(** Where a worker is: at its [select], downloading, asleep before a retry, waiting
    for the lock with an object, at the head of the emitting loop with the lock, at
    the send of that loop with an item it has popped, past the send, or gone. *)
Inductive worker : Type :=
| Receiving
| Downloading (sequence attempt : Z)
| Sleeping (sequence attempt : Z)
| Storing (sequence : Z) (p : payload)
| Draining
| Sending (item : payload)
| Advancing
| Exited.

(** Where the consumer is: between calls, or in [replenish], called with a size
    and, unless it is the call that fills a new buffer, with a batch to return. *)
Inductive consumer : Type :=
| Ready
| Replenishing (lastSize : Z) (batch : option payload).

Record ledgerBuffer : Type := mkBuffer {
  taskQueue : list Z;
  ledgerQueue : list payload;
  ledgerPriorityQueue : pq;
  currentLedger : Z;
  nextTaskLedger : Z;
  outstanding : Z;
  context : option cancel_cause;
  workers : list worker;
  reader : consumer;
  returned : list payload  (* the batches [getFromLedgerQueue] has returned *)
}.

(** [newLedgerBuffer]: the size of the buffer, and the buffer before its first
    [replenish]. *)
Definition buffer_config (config : BufferConfig) (ledgerRange : LedgerRange) : BufferConfig :=
  let bufferSize := if bounded ledgerRange
                    then u32 (Z.min (BufferSize config) (u32 (to ledgerRange - from ledgerRange) + 1))
                    else BufferSize config in
  mkConfig bufferSize (BufferBytes config) (NumWorkers config) (RetryLimit config).

Definition newLedgerBuffer (config : BufferConfig) (ledgerRange : LedgerRange) : ledgerBuffer :=
  mkBuffer [] [] pq_empty (from ledgerRange) (from ledgerRange) 0 None
    (replicate (Z.to_nat (NumWorkers config)) Receiving) (Replenishing 0 None) [].

(** ** Field updates *)
Definition set_worker (b : ledgerBuffer) (i : nat) (w : worker) : ledgerBuffer :=
  mkBuffer (taskQueue b) (ledgerQueue b) (ledgerPriorityQueue b) (currentLedger b) (nextTaskLedger b)
    (outstanding b) (context b) (<[i := w]> (workers b)) (reader b) (returned b).
Definition set_taskQueue (b : ledgerBuffer) (q : list Z) : ledgerBuffer :=
  mkBuffer q (ledgerQueue b) (ledgerPriorityQueue b) (currentLedger b) (nextTaskLedger b)
    (outstanding b) (context b) (workers b) (reader b) (returned b).
Definition set_priorityQueue (b : ledgerBuffer) (q : pq) : ledgerBuffer :=
  mkBuffer (taskQueue b) (ledgerQueue b) q (currentLedger b) (nextTaskLedger b)
    (outstanding b) (context b) (workers b) (reader b) (returned b).
Definition cancel (b : ledgerBuffer) (cause : cancel_cause) : ledgerBuffer :=
  mkBuffer (taskQueue b) (ledgerQueue b) (ledgerPriorityQueue b) (currentLedger b) (nextTaskLedger b)
    (outstanding b) (Some (default cause (context b))) (workers b) (reader b) (returned b).

#[export] Instance ledgerBatchObject_eq_dec `{EqDecision payload} : EqDecision ledgerBatchObject.
Proof. solve_decision. Defined.
#[export] Instance worker_eq_dec `{EqDecision payload} : EqDecision worker.
Proof. solve_decision. Defined.
#[export] Instance consumer_eq_dec `{EqDecision payload} : EqDecision consumer.
Proof. solve_decision. Defined.

Section Config.
Context (config : BufferConfig) (schema : DataStoreSchema) (ledgerRange : LedgerRange).
(** What the data store holds, by object key. *)
Context (object : bytes -> option payload).

(** ** Depth control *)
Definition depthLimit (lastSize : Z) : Z :=
  let limit := BufferSize config in
  if BufferBytes config <=? 0 then limit
  else if lastSize =? 0 then Z.min limit (NumWorkers config)
  else Z.min limit (Z.max (Z.quot (BufferBytes config) lastSize) 1).

(** The guard of [pushTaskQueue]. *)
Definition past_end (b : ledgerBuffer) : bool :=
  bounded ledgerRange && (GetSequenceNumberEndBoundary schema (to ledgerRange) <? nextTaskLedger b).

(** Its send, when it is chosen. *)
Definition push_task (b : ledgerBuffer) : ledgerBuffer :=
  mkBuffer (taskQueue b ++ [nextTaskLedger b]) (ledgerQueue b) (ledgerPriorityQueue b) (currentLedger b)
    (u32 (nextTaskLedger b + LedgersPerFile schema)) (outstanding b + 1) (context b) (workers b) (reader b) (returned b).

(** [getFromLedgerQueue] once it has received a batch. *)
Definition receive_batch (b : ledgerBuffer) (batch : payload) (rest : list payload) (lastSize : Z) : ledgerBuffer :=
  mkBuffer (taskQueue b) rest (ledgerPriorityQueue b) (currentLedger b) (nextTaskLedger b)
    (outstanding b - 1) (context b) (workers b) (Replenishing lastSize (Some batch)) (returned b).

(** [replenish] has returned. *)
Definition return_batch (b : ledgerBuffer) (batch : option payload) : ledgerBuffer :=
  mkBuffer (taskQueue b) (ledgerQueue b) (ledgerPriorityQueue b) (currentLedger b) (nextTaskLedger b)
    (outstanding b) (context b) (workers b) Ready (returned b ++ option_list batch).

(** ** Storing objects *)

(** The condition of the loop of [storeObject]. *)
Definition next_in_order (b : ledgerBuffer) : bool :=
  match pq_Peek (ledgerPriorityQueue b) with
  | Some item => currentLedger b =? u32 (startLedger item)
  | None => false
  end.

(** Its send, and then its second critical section, that moves [currentLedger]. *)
Definition send_item (b : ledgerBuffer) (item : payload) : ledgerBuffer :=
  mkBuffer (taskQueue b) (ledgerQueue b ++ [item]) (ledgerPriorityQueue b) (currentLedger b) (nextTaskLedger b)
    (outstanding b) (context b) (workers b) (reader b) (returned b).
Definition advance (b : ledgerBuffer) : ledgerBuffer :=
  mkBuffer (taskQueue b) (ledgerQueue b) (ledgerPriorityQueue b)
    (u32 (currentLedger b + LedgersPerFile schema)) (nextTaskLedger b)
    (outstanding b) (context b) (workers b) (reader b) (returned b).

(** [priorityQueueLock]. *)
Definition holds_lock (w : worker) : bool :=
  match w with Draining | Sending _ | Advancing => true | _ => false end.
Definition lock_free (b : ledgerBuffer) : bool := forallb (fun w => negb (holds_lock w)) (workers b).

(** A channel of the capacity of the buffer has room. *)
Definition room {A} (l : list A) : bool := go_len l <? BufferSize config.

Definition key_of (sequence : Z) : bytes := GetObjectKeyFromSequenceNumber schema sequence.

(** ** A worker after a failed download *)
Definition download_failed (b : ledgerBuffer) (i : nat) (sequence attempt : Z) (err : download_error) : ledgerBuffer :=
  match err with
  | ErrNotExist =>
      if negb (bounded ledgerRange) then set_worker b i (Sleeping sequence attempt)
      else set_worker (cancel b (MissingObject sequence)) i Exited
  | ErrCanceled => set_worker b i Exited
  | ErrOther =>
      if attempt =? RetryLimit config then set_worker (cancel b (MaximumRetries sequence)) i Exited
      else set_worker b i (Sleeping sequence (u32 (attempt + 1)))
  end.

(** A context is canceled before a download fails for that reason. *)
Definition may_fail (b : ledgerBuffer) (sequence : Z) (err : download_error) : Prop :=
  match err with
  | ErrNotExist => object (key_of sequence) = None
  | ErrCanceled => is_Some (context b)
  | ErrOther => True
  end.

(** ** The steps of the workers *)
Inductive worker_step (b : ledgerBuffer) (i : nat) : ledgerBuffer -> Prop :=
| worker_receive sequence rest :
    workers b !! i = Some Receiving -> taskQueue b = sequence :: rest ->
    worker_step b i (set_worker (set_taskQueue b rest) i (Downloading sequence 0))
| worker_done w :
    workers b !! i = Some w -> (w = Receiving \/ (exists s a, w = Sleeping s a) \/ exists p, w = Sending p) ->
    is_Some (context b) ->
    worker_step b i (set_worker b i Exited)
| worker_downloaded sequence attempt p :
    workers b !! i = Some (Downloading sequence attempt) -> object (key_of sequence) = Some p ->
    worker_step b i (set_worker b i (Storing sequence p))
| worker_failed sequence attempt err :
    workers b !! i = Some (Downloading sequence attempt) -> may_fail b sequence err ->
    worker_step b i (download_failed b i sequence attempt err)
| worker_awake sequence attempt :
    workers b !! i = Some (Sleeping sequence attempt) ->
    worker_step b i (set_worker b i (Downloading sequence attempt))
| worker_lock sequence p q :
    workers b !! i = Some (Storing sequence p) -> lock_free b = true ->
    pq_Push (ledgerPriorityQueue b) (mkBatchObject p sequence) = Some q ->
    worker_step b i (set_worker (set_priorityQueue b q) i Draining)
| worker_pop item q :
    workers b !! i = Some Draining -> next_in_order b = true ->
    pq_Pop (ledgerPriorityQueue b) = Some (q, item) ->
    worker_step b i (set_worker (set_priorityQueue b q) i (Sending (batch_payload item)))
| worker_send item :
    workers b !! i = Some (Sending item) -> room (ledgerQueue b) = true ->
    worker_step b i (set_worker (send_item b item) i Advancing)
| worker_advance :
    workers b !! i = Some Advancing ->
    worker_step b i (set_worker (advance b) i Draining)
| worker_unlock :
    workers b !! i = Some Draining -> next_in_order b = false ->
    worker_step b i (set_worker b i Receiving).

(** ** The steps of the consumer, and closing the buffer *)
Inductive reader_step (b : ledgerBuffer) : ledgerBuffer -> Prop :=
| reader_receive batch rest lastSize :
    reader b = Ready -> ledgerQueue b = batch :: rest -> 0 <= lastSize ->
    reader_step b (receive_batch b batch rest lastSize)
| reader_push lastSize batch :
    reader b = Replenishing lastSize batch -> outstanding b <= depthLimit lastSize -> past_end b = false ->
    room (taskQueue b) = true ->
    reader_step b (push_task b)
| reader_return lastSize batch :
    reader b = Replenishing lastSize batch ->
    (depthLimit lastSize < outstanding b \/ past_end b = true \/ is_Some (context b)) ->
    reader_step b (return_batch b batch).

Inductive step (b : ledgerBuffer) : ledgerBuffer -> Prop :=
| step_worker i b' : worker_step b i b' -> step b b'
| step_reader b' : reader_step b b' -> step b b'
| step_close : step b (cancel b Canceled).

(** A step that does not wrap the sequence number of the next task around. *)
Definition calm_step (b b' : ledgerBuffer) : Prop := step b b' /\ nextTaskLedger b <= nextTaskLedger b'.

Definition reachable (b : ledgerBuffer) : Prop := rtc calm_step (newLedgerBuffer config ledgerRange) b.

Definition getLatestLedgerSequence (b : ledgerBuffer) : Z :=
  if currentLedger b =? from ledgerRange then 0 else u32 (currentLedger b - 1).
End Config.
End Buffer.
