(* ===== verification/LedgerBufferSpec.v ===== *)
(** * The invariant of the ledger buffer

    Every interleaving of the workers, the consumer and a close keeps the files in
    order: the invariant that says so, and its preservation by each step. *)
From Stdlib Require Import ZArith Lia.
From stdpp Require Import base list option relations sorting.
From S2P Require Import Prelude GoStd GoExt Decimal Encodings Schema Heap LedgerBuffer.
#[local] Open Scope Z_scope.
#[local] Open Scope go_scope.

Section Inv.
Context {payload : Type} {Q : PriorityQueue (ledgerBatchObject (payload := payload))}
  {QL : PriorityQueueLaws batch_less Q}.
Context (config : BufferConfig) (schema : DataStoreSchema) (ledgerRange : LedgerRange)
  (object : bytes -> option payload).
Context (HB : 1 <= BufferSize config) (HBB : 0 <= BufferBytes config) (HW : 1 <= NumWorkers config)
  (HL : 1 <= LedgersPerFile schema <= MaxUint32) (Hfrom : is_u32 (from ledgerRange)).
Local Abbreviation buffer := (ledgerBuffer (payload := payload)).
Implicit Types (b : ledgerBuffer (payload := payload)).

(** The first ledger asked for of the [k]-th file, and the file's contents. *)
Definition nth_task (k : nat) : Z := from ledgerRange + Z.of_nat k * LedgersPerFile schema.
Definition nth_object (k : nat) : option payload := object (key_of schema (nth_task k)).

Lemma nth_task_S k : nth_task (S k) = nth_task k + LedgersPerFile schema.
Proof. unfold nth_task. lia. Qed.

Lemma nth_task_inj j k : nth_task j = nth_task k -> j = k.
Proof. unfold nth_task. intros H. apply Nat2Z.inj. nia. Qed.

(** The sequence a worker works on; the one of a popped item is the current one. *)
Definition worker_task (current : Z) (w : worker (payload := payload)) : list Z :=
  match w with
  | Downloading s _ | Sleeping s _ | Storing s _ => [s]
  | Sending _ => [current]
  | _ => []
  end.

(** The tasks pushed and not yet emitted. *)
Definition in_flight b : list Z :=
  taskQueue b ++ flat_map (worker_task (currentLedger b)) (workers b) ++
  map startLedger (pq_elements (ledgerPriorityQueue b)).

(** A worker has sent its item and not yet moved [currentLedger]. *)
Definition is_advancing (w : worker (payload := payload)) : bool :=
  match w with Advancing => true | _ => false end.
Definition sent b : bool := existsb is_advancing (workers b).

(** The batch the consumer has received and not yet returned. *)
Definition pending b : list payload :=
  match reader b with Replenishing _ batch => option_list batch | Ready => [] end.

(** One of the first [d] tasks. *)
Definition pushed (d : nat) (s : Z) : Prop := exists k, (k < d)%nat /\ s = nth_task k.

Definition worker_ok (d : nat) (current : Z) (w : worker (payload := payload)) : Prop :=
  match w with
  | Downloading s _ | Sleeping s _ => pushed d s
  | Storing s p => pushed d s /\ object (key_of schema s) = Some p
  | Sending p => pushed d current /\ object (key_of schema current) = Some p
  | _ => True
  end.

Definition item_ok (d : nat) (it : ledgerBatchObject (payload := payload)) : Prop :=
  pushed d (startLedger it) /\ object (key_of schema (startLedger it)) = Some (batch_payload it).

(** At most one worker holds the lock. *)
Definition one_holder (l : list (worker (payload := payload))) : Prop :=
  forall i j w v, l !! i = Some w -> l !! j = Some v -> holds_lock w = true -> holds_lock v = true -> i = j.

(** [g] batches received, [c] sent to the consumer, [d] tasks pushed. *)
Record inv b (g c d : nat) : Prop := {
  inv_order : (g <= c <= d)%nat;
  inv_next : nextTaskLedger b = nth_task d /\ nth_task d <= MaxUint32;
  inv_current : exists m, currentLedger b = nth_task m /\ c = (m + Nat.b2n (sent b))%nat;
  inv_received : map Some (returned b ++ pending b) = map nth_object (seq 0 g);
  inv_queue : map Some (ledgerQueue b) = map nth_object (seq g (c - g));
  inv_outstanding : outstanding b = Z.of_nat d - Z.of_nat g;
  inv_bound : outstanding b <= BufferSize config + 1 /\ go_len (taskQueue b) <= BufferSize config /\
    go_len (ledgerQueue b) <= BufferSize config;
  inv_range : forall k, (k < d)%nat -> bounded ledgerRange = true ->
    nth_task k <= GetSequenceNumberEndBoundary schema (to ledgerRange);
  inv_tasks : Forall (pushed d) (taskQueue b);
  inv_workers : Forall (worker_ok d (currentLedger b)) (workers b) /\ go_len (workers b) = NumWorkers config;
  inv_items : pq_ok (ledgerPriorityQueue b) /\ Forall (item_ok d) (pq_elements (ledgerPriorityQueue b));
  inv_lock : one_holder (workers b);
  inv_live : context b = None ->
    in_flight b ≡ₚ map nth_task (seq c (d - c)) /\ (forall i, workers b !! i <> Some Exited) /\
    (lock_free b = true -> ~ In (currentLedger b) (map startLedger (pq_elements (ledgerPriorityQueue b))));
  inv_reader : reader b = Ready -> 1 <= outstanding b \/ past_end schema ledgerRange b = true \/ is_Some (context b)
}.

(** Opens an invariant, and the goal that it holds of an updated buffer. *)
Ltac open_inv I :=
  destruct I as [I1 [I2 I2'] I3 I4 I5 I6 I7 I8 I9 [I10 I10'] [I11 I11'] I12 I13 I14].
Ltac buffer_cbn :=
  cbn [nextTaskLedger currentLedger returned ledgerQueue outstanding taskQueue workers ledgerPriorityQueue context
       reader set_worker set_taskQueue set_priorityQueue cancel send_item advance push_task receive_batch return_batch
       newLedgerBuffer].
Ltac split_inv := split; buffer_cbn; try done.

Lemma depthLimit_range lastSize : 1 <= depthLimit config lastSize <= BufferSize config.
Proof.
  unfold depthLimit. destruct (Z.leb_spec (BufferBytes config) 0); [lia|].
  destruct (Z.eqb_spec lastSize 0); lia.
Qed.

Lemma init_sent n : existsb is_advancing (replicate n Receiving) = false /\
  forall s, flat_map (worker_task s) (replicate n Receiving) = [].
Proof. split; [|intros s]; induction n; done. Qed.

Lemma inv_init : inv (newLedgerBuffer config ledgerRange) 0 0 0.
Proof.
  destruct pq_empty_ok as [Hok He]. unfold is_u32 in Hfrom.
  split_inv; unfold nth_task; try done; try lia.
  - exists 0%nat. unfold sent. buffer_cbn. rewrite (proj1 (init_sent _)). cbn [Nat.b2n]. lia.
  - unfold go_len. cbn [length]. lia.
  - split; [apply Forall_replicate; done|]. unfold go_len. rewrite length_replicate. lia.
  - rewrite He. by split.
  - intros i j w v Hi _ Hw. apply lookup_replicate in Hi as [-> _]. done.
  - intros _. unfold in_flight. buffer_cbn. rewrite He, (proj2 (init_sent _)). split; [done|].
    split; [|by intros _ []]. intros i H. apply lookup_replicate in H as [H _]. done.
Qed.

(** ** Replacing a worker *)

(** What is in flight besides the task of the [i]-th worker. *)
Definition others b (i : nat) : list Z :=
  taskQueue b ++ flat_map (worker_task (currentLedger b)) (delete i (workers b)) ++
  map startLedger (pq_elements (ledgerPriorityQueue b)).

Lemma flat_map_at {A B} (f : A -> list B) l i x :
  l !! i = Some x -> flat_map f l ≡ₚ f x ++ flat_map f (delete i l).
Proof. intros H. by rewrite (Permutation_flat_map f (delete_Permutation l i x H)). Qed.

Lemma delete_insert_same {A} (l : list A) i y : delete i (<[i := y]> l) = delete i l.
Proof. revert i. induction l as [|x l IH]; intros [|i]; try done. cbn. f_equal. apply IH. Qed.

Lemma insert_at {A} (l : list A) i x y : l !! i = Some x -> <[i := y]> l !! i = Some y.
Proof. intros H. apply list_lookup_insert_eq. by eapply lookup_lt_Some. Qed.

Lemma in_flight_split b i w : workers b !! i = Some w ->
  in_flight b ≡ₚ worker_task (currentLedger b) w ++ others b i.
Proof. intros H. unfold in_flight, others. rewrite (flat_map_at _ _ _ _ H). solve_Permutation. Qed.

Lemma others_set_worker b i w : others (set_worker b i w) i = others b i.
Proof. unfold others; buffer_cbn. by rewrite delete_insert_same. Qed.

Lemma lookup_free (l : list (worker (payload := payload))) n x :
  forallb (fun w => negb (holds_lock w)) l = true -> l !! n = Some x -> holds_lock x = false.
Proof.
  intros Hf Hx. rewrite forallb_forall in Hf. apply negb_true_iff, Hf, list_elem_of_In.
  by eapply list_elem_of_lookup_2.
Qed.

Lemma lock_insert (l : list (worker (payload := payload))) k w0 w' :
  one_holder l -> l !! k = Some w0 ->
  (holds_lock w' = true -> holds_lock w0 = true \/ forallb (fun w => negb (holds_lock w)) l = true) ->
  one_holder (<[k := w']> l).
Proof.
  intros Hl Hk Hw' i j w v Hi Hj Hw Hv.
  apply list_lookup_insert_Some in Hi as [(<- & <- & Hlen)|[Hne Hi]];
    apply list_lookup_insert_Some in Hj as [(<- & <- & _)|[Hne' Hj]]; try done.
  - destruct (Hw' Hw) as [H0|Hf]; [by eapply Hl|]. by rewrite (lookup_free l j v Hf Hj) in Hv.
  - destruct (Hw' Hv) as [H0|Hf]; [by eapply Hl|]. by rewrite (lookup_free l i w Hf Hi) in Hw.
  - by eapply Hl.
Qed.

Lemma lock_held b i w : workers b !! i = Some w -> holds_lock w = true -> lock_free b = false.
Proof.
  intros Hi Hw. destruct (lock_free b) eqn:E; [|done]. by rewrite (lookup_free _ _ _ E Hi) in Hw.
Qed.

(** The holder of the lock decides whether an item has been sent. *)
Lemma sent_holder b i w : one_holder (workers b) -> workers b !! i = Some w -> holds_lock w = true ->
  sent b = is_advancing w.
Proof.
  intros Hl Hi Hw. unfold sent. destruct (is_advancing w) eqn:Ea.
  - apply existsb_exists. exists w. split; [|done]. apply list_elem_of_In. by eapply list_elem_of_lookup_2.
  - destruct (existsb _ _) eqn:E; [|done]. apply existsb_exists in E as (v & Hv & Hadv).
    apply list_elem_of_In, list_elem_of_lookup in Hv as [j Hj].
    assert (i = j) as -> by (eapply Hl; [done|done|done|by destruct v]). congruence.
Qed.

Lemma sent_free b : lock_free b = true -> sent b = false.
Proof.
  intros Hf. unfold sent. destruct (existsb _ _) eqn:E; [|done]. apply existsb_exists in E as (v & Hv & Hadv).
  apply list_elem_of_In, list_elem_of_lookup in Hv as [j Hj]. pose proof (lookup_free _ _ _ Hf Hj). by destruct v.
Qed.

Lemma sent_set_worker b i w w' :
  workers b !! i = Some w -> is_advancing w = is_advancing w' -> sent (set_worker b i w') = sent b.
Proof.
  intros H E. unfold sent; buffer_cbn. revert i H. generalize (workers b).
  induction l as [|x l IH]; intros [|i] H; simpl in *; try done.
  - injection H as ->. by rewrite E.
  - f_equal. by apply IH.
Qed.

Lemma lock_free_set_worker b i w w' :
  workers b !! i = Some w -> holds_lock w = holds_lock w' -> lock_free (set_worker b i w') = lock_free b.
Proof.
  intros H E. unfold lock_free; buffer_cbn. revert i H. generalize (workers b).
  induction l as [|x l IH]; intros [|i] H; simpl in *; try done.
  - injection H as ->. by rewrite E.
  - f_equal. by apply IH.
Qed.

Lemma workers_set b i w' d cur : Forall (worker_ok d cur) (workers b) -> go_len (workers b) = NumWorkers config ->
  worker_ok d cur w' -> Forall (worker_ok d cur) (<[i := w']> (workers b)) /\ go_len (<[i := w']> (workers b)) = NumWorkers config.
Proof. intros HF Hlen Hok. split; [by apply Forall_insert|]. by rewrite go_len_insert. Qed.

Lemma not_exited b i w' : (forall j, workers b !! j <> Some Exited) -> w' <> Exited ->
  forall j, <[i := w']> (workers b) !! j <> Some Exited.
Proof.
  intros X Hne j Hj. apply list_lookup_insert_Some in Hj as [(_ & ? & _)|[_ Hj]]; [done|by apply (X j)].
Qed.

(** A worker change with the same task and the same hold on the lock. *)
Lemma inv_set_worker b g c d i w w' :
  inv b g c d -> workers b !! i = Some w ->
  worker_task (currentLedger b) w = worker_task (currentLedger b) w' ->
  holds_lock w = holds_lock w' -> is_advancing w = is_advancing w' ->
  worker_ok d (currentLedger b) w' -> w' <> Exited ->
  inv (set_worker b i w') g c d.
Proof.
  intros I Hi Ht Hl Ha Hok Hne. open_inv I. split_inv.
  - by rewrite (sent_set_worker b i w w').
  - by apply workers_set.
  - eapply lock_insert; [done|done|]. intros Hh. left. congruence.
  - intros Hc. destruct (I13 Hc) as (P & X & D). split; [|split].
    + rewrite (in_flight_split _ i w') by (by eapply insert_at). rewrite others_set_worker. buffer_cbn.
      by rewrite <- Ht, <- in_flight_split.
    + by apply not_exited.
    + by rewrite (lock_free_set_worker b i w w' Hi Hl).
Qed.

(** After a cancellation only what is safe is left to keep. *)
Lemma inv_canceled_worker b g c d i w w' :
  inv b g c d -> workers b !! i = Some w -> is_Some (context b) -> holds_lock w' = false ->
  is_advancing w = false -> worker_ok d (currentLedger b) w' -> inv (set_worker b i w') g c d.
Proof.
  intros I Hi Hc Hl Ha Hok. open_inv I. split_inv.
  - rewrite (sent_set_worker b i w w'); [done|done|]. rewrite Ha. by destruct w'.
  - by apply workers_set.
  - eapply lock_insert; [done|done|]. congruence.
  - intros E. rewrite E in Hc. by destruct Hc.
Qed.

Lemma inv_cancel b g c d cause : inv b g c d -> inv (cancel b cause) g c d.
Proof. intros I. open_inv I. split_inv. intros _. right. right. by eexists. Qed.

(** ** Numbers *)

Lemma nth_task_mono j k : (j <= k)%nat -> nth_task j <= nth_task k.
Proof. intros H. unfold nth_task. apply Z.add_le_mono_l, Z.mul_le_mono_nonneg_r; lia. Qed.

Lemma nth_task_u32 j : nth_task j <= MaxUint32 -> is_u32 (nth_task j).
Proof. pose proof Hfrom as H0. unfold is_u32, nth_task in *. nia. Qed.

Lemma pushed_u32 d s : nth_task d <= MaxUint32 -> pushed d s -> is_u32 s.
Proof. intros Hd (k & Hk & ->). apply nth_task_u32. pose proof (nth_task_mono k d ltac:(lia)). lia. Qed.

Lemma pushed_mono d s : pushed d s -> pushed (S d) s.
Proof. intros (k & Hk & ->). exists k. split; [lia|done]. Qed.

Lemma worker_ok_mono d cur w : worker_ok d cur w -> worker_ok (S d) cur w.
Proof. destruct w; cbn; try done; try apply pushed_mono; intros [? ?]; (split; [by apply pushed_mono|done]). Qed.

Lemma tasks_range c d s : In s (map nth_task (seq c (d - c))) -> nth_task c <= s.
Proof. intros (k & <- & Hk)%in_map_iff. apply in_seq in Hk. apply nth_task_mono. lia. Qed.

Lemma seq_snoc a n : seq a (S n) = seq a n ++ [(a + n)%nat].
Proof. rewrite <- (Nat.add_1_r n). by rewrite seq_app. Qed.

Lemma seq_split c d : (c < d)%nat -> seq c (d - c) = c :: seq (S c) (d - S c).
Proof. intros H. replace (d - c)%nat with (S (d - S c)) by lia. done. Qed.

(** The tasks of workers that do not hold the lock do not depend on the current
    ledger. *)
Lemma others_current b i w c c' :
  one_holder (workers b) -> workers b !! i = Some w -> holds_lock w = true ->
  flat_map (worker_task c) (delete i (workers b)) = flat_map (worker_task c') (delete i (workers b)) /\
  forall d, Forall (worker_ok d c) (workers b) -> Forall (worker_ok d c') (<[i := Draining]> (workers b)).
Proof.
  intros Hlock Hi Hw.
  assert (Hs : forall j v, j <> i -> workers b !! j = Some v ->
    worker_task c v = worker_task c' v /\ forall d, worker_ok d c v -> worker_ok d c' v).
  { intros j v Hj Hv. assert (holds_lock v = false) as Hn.
    { destruct (holds_lock v) eqn:E; [|done]. exfalso. apply Hj. by eapply (Hlock j i v w). }
    by destruct v. }
  split.
  - assert (forall v, v ∈ delete i (workers b) -> worker_task c v = worker_task c' v) as Heq.
    { intros v [j Hv]%list_elem_of_lookup. destruct (decide (j < i)%nat).
      - rewrite list_lookup_delete_lt in Hv by done. apply (Hs j v); [lia|done].
      - rewrite list_lookup_delete_ge in Hv by lia. apply (Hs (S j) v); [lia|done]. }
    revert Heq. generalize (delete i (workers b)). induction l as [|v l IH]; intros Heq; [done|]. cbn.
    rewrite (Heq v) by apply list_elem_of_here. f_equal. apply IH. intros u Hu. apply Heq. by apply list_elem_of_further.
  - intros d HF. apply Forall_lookup. intros j v Hv. apply list_lookup_insert_Some in Hv as [(_ & <- & _)|[Hj Hv]]; [done|].
    apply (Hs j v); [done|done|]. by eapply Forall_lookup_1 in HF.
Qed.

(** ** The steps of a worker *)

Lemma inv_receive b g c d i sequence rest :
  inv b g c d -> workers b !! i = Some Receiving -> taskQueue b = sequence :: rest ->
  inv (set_worker (set_taskQueue b rest) i (Downloading sequence 0)) g c d.
Proof.
  intros I Hi Hq. open_inv I. rewrite Hq in I9. apply Forall_cons in I9 as [Hp I9]. split_inv.
  - by rewrite (sent_set_worker (set_taskQueue b rest) i Receiving).
  - rewrite Hq in I7. unfold go_len in *. cbn [length] in I7. lia.
  - by apply workers_set.
  - by eapply lock_insert.
  - intros Hc. destruct (I13 Hc) as (P & X & D). split; [|split].
    + rewrite <- P. rewrite (in_flight_split _ i (Downloading sequence 0)) by (by eapply insert_at).
      rewrite (in_flight_split b i Receiving Hi), others_set_worker. unfold others; buffer_cbn. by rewrite Hq.
    + by apply not_exited.
    + by rewrite (lock_free_set_worker (set_taskQueue b rest) i Receiving).
Qed.

Lemma inv_failed b g c d i sequence attempt err :
  inv b g c d -> workers b !! i = Some (Downloading sequence attempt) -> may_fail schema object b sequence err ->
  inv (download_failed config ledgerRange b i sequence attempt err) g c d.
Proof.
  intros I Hi Hf. pose proof (inv_workers _ _ _ _ I) as [HF _].
  pose proof (Forall_lookup_1 _ _ _ _ HF Hi) as Hp. cbn in Hp.
  assert (Hex : forall cause, inv (set_worker (cancel b cause) i Exited) g c d).
  { intros cause. eapply inv_canceled_worker; [by apply inv_cancel|done|by eexists|done..]. }
  destruct err; cbn [download_failed].
  - destruct (negb (bounded ledgerRange)); [by eapply inv_set_worker|done].
  - by eapply inv_canceled_worker.
  - destruct (attempt =? RetryLimit config); [done|]. by eapply inv_set_worker.
Qed.

(** Pushing to or popping from the heap under the lock. *)
Lemma inv_locked b g c d i sequence p q :
  inv b g c d -> workers b !! i = Some (Storing sequence p) -> lock_free b = true ->
  pq_Push (ledgerPriorityQueue b) (mkBatchObject p sequence) = Some q ->
  inv (set_worker (set_priorityQueue b q) i Draining) g c d.
Proof.
  intros I Hi Hlock Hq. open_inv I.
  destruct (pq_Push_ok (ledgerPriorityQueue b) (mkBatchObject p sequence) I11) as (q' & Eq & Hok & Hel).
  rewrite Hq in Eq. injection Eq as <-. pose proof (Forall_lookup_1 _ _ _ _ I10 Hi) as Hp. cbn in Hp.
  split_inv.
  - by rewrite (sent_set_worker (set_priorityQueue b q) i (Storing sequence p)).
  - by apply workers_set.
  - split; [done|]. rewrite Hel. by constructor.
  - eapply lock_insert; [done|done|]. by right.
  - intros Hc. destruct (I13 Hc) as (P & X & D). split; [|split].
    + rewrite <- P. rewrite (in_flight_split _ i Draining) by (by eapply insert_at).
      rewrite (in_flight_split b i _ Hi), others_set_worker. unfold others; buffer_cbn.
      rewrite (Permutation_map startLedger Hel). cbn [worker_task map startLedger]. solve_Permutation.
    + by apply not_exited.
    + intros Hf. exfalso. rewrite (lock_held _ i Draining) in Hf; [done|by eapply insert_at|done].
Qed.

(** The item at the head is the next one exactly when its sequence is. *)
Lemma next_in_order_item b g c d :
  inv b g c d -> next_in_order b = true ->
  exists it, pq_Peek (ledgerPriorityQueue b) = Some it /\ startLedger it = currentLedger b /\ item_ok d it.
Proof.
  intros I Hn. open_inv I. unfold next_in_order in Hn. pose proof (pq_Peek_ok _ I11) as HP.
  destruct (pq_Peek (ledgerPriorityQueue b)) as [it|]; [|done]. destruct HP as [Hin _].
  exists it. rewrite List.Forall_forall in I11'. pose proof (I11' it ltac:(by apply list_elem_of_In)) as Hio.
  split; [done|]. split; [|done]. apply Z.eqb_eq in Hn. rewrite Hn. symmetry. apply u32_id.
  by apply (pushed_u32 d), Hio.
Qed.

Lemma inv_popped b g c d i item q :
  inv b g c d -> workers b !! i = Some Draining -> next_in_order b = true ->
  pq_Pop (ledgerPriorityQueue b) = Some (q, item) ->
  inv (set_worker (set_priorityQueue b q) i (Sending (batch_payload item))) g c d.
Proof.
  intros I Hi Hn Hq. destruct (next_in_order_item b g c d I Hn) as (it & Hpk & Hcur & Hio). open_inv I.
  destruct (pq_Pop_ok _ it I11 Hpk) as (q' & Eq & Hok & Hel). rewrite Hq in Eq. injection Eq as -> ->.
  split_inv.
  - by rewrite (sent_set_worker (set_priorityQueue b q') i Draining).
  - apply workers_set; [done|done|]. cbn. rewrite <- Hcur. apply Hio.
  - split; [done|]. rewrite Hel in I11'. by inversion I11'.
  - eapply lock_insert; [done|done|]. by left.
  - intros Hc. destruct (I13 Hc) as (P & X & D). split; [|split].
    + rewrite <- P. rewrite (in_flight_split _ i (Sending (batch_payload it))) by (by eapply insert_at).
      rewrite (in_flight_split b i _ Hi), others_set_worker. unfold others; buffer_cbn.
      rewrite (Permutation_map startLedger Hel). cbn [worker_task map]. rewrite Hcur. solve_Permutation.
    + by apply not_exited.
    + intros Hf. exfalso. rewrite (lock_held _ i (Sending (batch_payload it))) in Hf; [done|by eapply insert_at|done].
Qed.

Lemma inv_sent b g c d i item :
  inv b g c d -> workers b !! i = Some (Sending item) -> room config (ledgerQueue b) = true ->
  inv (set_worker (send_item b item) i Advancing) g (S c) d.
Proof.
  intros I Hi Hr. open_inv I. destruct I3 as (m & Em & Ec).
  rewrite (sent_holder b i (Sending item)) in Ec by done. cbn in Ec. rewrite Nat.add_0_r in Ec. subst m.
  pose proof (Forall_lookup_1 _ _ _ _ I10 Hi) as [(k & Hk & Ek) Ho]. rewrite Em in Ek, Ho.
  apply nth_task_inj in Ek as <-. unfold room in Hr. apply Z.ltb_lt in Hr.
  assert (Hlock : one_holder (<[i := Advancing]> (workers b))) by (eapply lock_insert; [done|done|by left]).
  split_inv.
  - lia.
  - exists c. split; [done|]. rewrite (sent_holder _ i Advancing); [cbn; lia|done|by eapply insert_at|done].
  - rewrite map_app, I5. replace (S c - g)%nat with (S (c - g)) by lia. rewrite seq_snoc, map_app.
    replace (g + (c - g))%nat with c by lia. f_equal. cbn [map]. by rewrite <- Ho.
  - unfold go_len in *. rewrite length_app. cbn [length]. lia.
  - by apply workers_set.
  - intros Hc. destruct (I13 Hc) as (P & X & D). split; [|split].
    + rewrite (in_flight_split b i _ Hi), (seq_split c d Hk) in P. cbn [worker_task map app] in P. rewrite Em in P.
      apply Permutation_cons_inv in P. by rewrite (in_flight_split _ i Advancing), others_set_worker by (by eapply insert_at).
    + by apply not_exited.
    + intros Hf. exfalso. rewrite (lock_held _ i Advancing) in Hf; [done|by eapply insert_at|done].
Qed.

Lemma inv_advanced b g c d i :
  inv b g c d -> workers b !! i = Some Advancing -> inv (set_worker (advance schema b) i Draining) g c d.
Proof.
  intros I Hi. open_inv I. destruct I3 as (m & Em & Ec).
  rewrite (sent_holder b i Advancing) in Ec by done. cbn in Ec. rewrite Nat.add_1_r in Ec. subst c.
  assert (Hlock : one_holder (<[i := Draining]> (workers b))) by (eapply lock_insert; [done|done|by left]).
  pose proof (nth_task_mono (S m) d ltac:(lia)).
  assert (Hadv : u32 (currentLedger b + LedgersPerFile schema) = nth_task (S m)).
  { rewrite Em, <- nth_task_S. apply u32_id, nth_task_u32. lia. }
  destruct (others_current b i Advancing (currentLedger b) (nth_task (S m))) as [Ho HF]; [done..|].
  split_inv; rewrite ?Hadv.
  - exists (S m). split; [done|]. rewrite (sent_holder _ i Draining); [cbn; lia|done|by eapply insert_at|done].
  - split; [by apply HF|]. by rewrite go_len_insert.
  - intros Hc. destruct (I13 Hc) as (P & X & D). split; [|split].
    + rewrite <- P. rewrite (in_flight_split _ i Draining) by (by eapply insert_at).
      rewrite (in_flight_split b i _ Hi), others_set_worker. unfold others; buffer_cbn. by rewrite Hadv, Ho.
    + by apply not_exited.
    + intros Hf. exfalso. rewrite (lock_held _ i Draining) in Hf; [done|by eapply insert_at|done].
Qed.

(** When the loop of [storeObject] ends, the next item is not in the heap. *)
Lemma inv_unlocked b g c d i :
  inv b g c d -> workers b !! i = Some Draining -> next_in_order b = false ->
  inv (set_worker b i Receiving) g c d.
Proof.
  intros I Hi Hn. open_inv I. assert (Hs : sent b = false) by (by rewrite (sent_holder b i Draining)).
  split_inv.
  - by rewrite (sent_set_worker b i Draining).
  - by apply workers_set.
  - by eapply lock_insert.
  - intros Hc. destruct (I13 Hc) as (P & X & D). split; [|split].
    + rewrite <- P. rewrite (in_flight_split _ i Receiving) by (by eapply insert_at).
      by rewrite (in_flight_split b i _ Hi), others_set_worker.
    + by apply not_exited.
    + intros _ (it & Hit & Hin)%in_map_iff. destruct I3 as (m & Em & Ec). rewrite Hs, Nat.add_0_r in Ec. subst m.
      unfold next_in_order in Hn. pose proof (pq_Peek_ok _ I11) as HP.
      destruct (pq_Peek (ledgerPriorityQueue b)) as [x|]; [|by rewrite HP in Hin]. destruct HP as [Hx Hleast].
      pose proof (Hleast it ltac:(by apply list_elem_of_In)) as Hle. unfold batch_less in Hle. apply Z.ltb_ge in Hle.
      apply list_elem_of_In in Hx. rewrite List.Forall_forall in I11'. destruct (I11' x Hx) as [Hp _].
      assert (nth_task c <= startLedger x) as Hge.
      { apply (tasks_range c d). rewrite <- P. unfold in_flight. rewrite !in_app_iff. right. right. by apply in_map. }
      rewrite u32_id in Hn by (by apply (pushed_u32 d)). apply Z.eqb_neq in Hn. lia.
Qed.

Lemma inv_worker_step b g c d i b' :
  inv b g c d -> worker_step config schema ledgerRange object b i b' -> exists c', inv b' g c' d.
Proof.
  intros I Hs. destruct Hs as [sequence rest Hi Hq|w Hi Hw Hc|sequence attempt p Hi Ho|sequence attempt err Hi Hf
    |sequence attempt Hi|sequence p q Hi Hl Hq|item q Hi Hn Hq|item Hi Hr|Hi|Hi Hn].
  - exists c. by eapply inv_receive.
  - exists c. eapply inv_canceled_worker; [done|done|done|done| |done].
    destruct Hw as [->|[(s & a & ->)|(p & ->)]]; done.
  - exists c. eapply inv_set_worker; [done|done|done|done|done| |done]. split; [|done].
    pose proof (inv_workers _ _ _ _ I) as [HF _]. by apply (Forall_lookup_1 _ _ _ _ HF Hi).
  - exists c. by apply inv_failed.
  - exists c. eapply inv_set_worker; [done|done|done|done|done| |done].
    pose proof (inv_workers _ _ _ _ I) as [HF _]. by apply (Forall_lookup_1 _ _ _ _ HF Hi).
  - exists c. by eapply inv_locked.
  - exists c. by eapply inv_popped.
  - exists (S c). by apply inv_sent.
  - exists c. by apply inv_advanced.
  - exists c. by apply inv_unlocked.
Qed.

(** ** The steps of the consumer *)

Lemma inv_reader_receive b g c d batch rest lastSize :
  inv b g c d -> reader b = Ready -> ledgerQueue b = batch :: rest ->
  inv (receive_batch b batch rest lastSize) (S g) c d.
Proof.
  intros I Hr Hq. open_inv I. rewrite Hq in I5. unfold pending in I4. rewrite Hr, app_nil_r in I4.
  assert (g < c)%nat as Hgc.
  { destruct (decide (g < c)%nat); [done|]. replace (c - g)%nat with O in I5 by lia. done. }
  rewrite (seq_split g c Hgc) in I5. cbn [map] in I5. injection I5 as Hb Hrest. split_inv.
  - lia.
  - rewrite map_app. unfold pending; buffer_cbn. rewrite I4, seq_snoc, map_app. cbn. by rewrite Hb.
  - lia.
  - rewrite Hq in I7. unfold go_len in *. cbn [length] in I7. lia.
Qed.

Lemma inv_reader_push b g c d lastSize batch :
  inv b g c d -> reader b = Replenishing lastSize batch -> outstanding b <= depthLimit config lastSize ->
  past_end schema ledgerRange b = false -> room config (taskQueue b) = true ->
  nextTaskLedger b <= nextTaskLedger (push_task schema b) ->
  inv (push_task schema b) g c (S d).
Proof.
  intros I Hr Hd Hp Hroom Hcalm. open_inv I. pose proof (depthLimit_range lastSize).
  unfold room in Hroom. apply Z.ltb_lt in Hroom. cbn [nextTaskLedger push_task] in Hcalm.
  pose proof (nth_task_u32 d I2') as Hu. assert (nth_task (S d) <= MaxUint32 /\ u32 (nextTaskLedger b + LedgersPerFile schema) = nth_task (S d)) as [Hmax Hnext].
  { rewrite I2 in *. rewrite nth_task_S. unfold is_u32 in Hu.
    destruct (decide (nth_task d + LedgersPerFile schema <= MaxUint32)).
    - split; [done|]. apply u32_id. unfold is_u32. lia.
    - exfalso. unfold u32 in Hcalm.
      rewrite <- (Z.mod_unique_pos (nth_task d + LedgersPerFile schema) 4294967296 1 (nth_task d + LedgersPerFile schema - 4294967296)) in Hcalm; lia. }
  split_inv.
  - lia.
  - lia.
  - unfold go_len in *. rewrite length_app. cbn [length]. lia.
  - intros k Hk Hb. destruct (decide (k < d)%nat); [by apply I8|]. assert (k = d) as -> by lia. rewrite <- I2.
    unfold past_end in Hp. rewrite Hb in Hp. by apply Z.ltb_ge in Hp.
  - apply Forall_app. split; [eapply Forall_impl; [exact I9|]; apply pushed_mono|].
    constructor; [|done]. exists d. split; [lia|done].
  - split; [|done]. eapply Forall_impl; [exact I10|]. apply worker_ok_mono.
  - split; [done|]. eapply Forall_impl; [exact I11'|]. intros it [? ?]. split; [by apply pushed_mono|done].
  - intros Hc. destruct (I13 Hc) as (P & X & D). split; [|done].
    replace (S d - c)%nat with (S (d - c)) by lia. rewrite seq_snoc, map_app. rewrite <- P.
    unfold in_flight; buffer_cbn. rewrite I2. replace (c + (d - c))%nat with d by lia. solve_Permutation.
  - by rewrite Hr.
Qed.

Lemma inv_reader_return b g c d lastSize batch :
  inv b g c d -> reader b = Replenishing lastSize batch ->
  (depthLimit config lastSize < outstanding b \/ past_end schema ledgerRange b = true \/ is_Some (context b)) ->
  inv (return_batch b batch) g c d.
Proof.
  intros I Hr Hend. open_inv I. unfold pending in I4. rewrite Hr in I4. split_inv.
  - unfold pending; buffer_cbn. by rewrite app_nil_r.
  - intros _. pose proof (depthLimit_range lastSize). destruct Hend as [?|?]; [left; lia|by right].
Qed.

Lemma inv_step b g c d b' :
  inv b g c d -> calm_step config schema ledgerRange object b b' -> exists g' c' d', inv b' g' c' d'.
Proof.
  intros I [Hs Hcalm]. destruct Hs as [i b' Hs|b' Hs|].
  - destruct (inv_worker_step b g c d i b' I Hs) as [c' I']. by exists g, c', d.
  - destruct Hs as [batch rest lastSize Hr Hq Hsz|lastSize batch Hr Hd Hp Hroom|lastSize batch Hr Hend].
    + exists (S g), c, d. by apply inv_reader_receive.
    + exists g, c, (S d). by eapply inv_reader_push.
    + exists g, c, d. by eapply inv_reader_return.
  - exists g, c, d. by apply inv_cancel.
Qed.

Lemma inv_reachable b : reachable config schema ledgerRange object b -> exists g c d, inv b g c d.
Proof.
  assert (H : forall b0, rtc (calm_step config schema ledgerRange object) b0 b ->
    (exists g c d, inv b0 g c d) -> exists g c d, inv b g c d).
  { intros b0 Hr. induction Hr as [|x y z Hs _ IH]; [done|].
    intros (g & c & d & I). apply IH. by eapply inv_step. }
  intros Hr. apply (H _ Hr). exists O, O, O. apply inv_init.
Qed.
End Inv.

(** ** What the ledger buffer promises

    Whatever the interleaving, the consumer gets the files of the range in order, and
    as long as downloads succeed it gets the next one, or the range is exhausted. *)
(** ** The checks of the configuration are what the invariant needs *)

(** The fields are unsigned 32-bit integers, [BufferBytes] an [int64]. *)
Definition config_typed (config : BufferConfig) (schema : DataStoreSchema) (ledgerRange : LedgerRange) : Prop :=
  is_u32 (BufferSize config) /\ is_u32 (NumWorkers config) /\ is_u32 (RetryLimit config) /\
  is_i64 (BufferBytes config) /\ is_u32 (LedgersPerFile schema) /\ is_u32 (from ledgerRange).

Lemma valid_config config schema ledgerRange :
  config_typed config schema ledgerRange -> validate_config config schema = None ->
  let config' := buffer_config config ledgerRange in
  1 <= BufferSize config' /\ 0 <= BufferBytes config' /\ 1 <= NumWorkers config' /\
  1 <= LedgersPerFile schema <= MaxUint32 /\ is_u32 (from ledgerRange).
Proof.
  intros (H1 & H2 & _ & _ & H5 & H6) Hv. unfold validate_config in Hv.
  destruct (Z.eqb_spec (BufferSize config) 0); [done|]. destruct (Z.eqb_spec (NumWorkers config) 0); [done|].
  destruct (Z.ltb_spec (BufferBytes config) 0); [done|]. destruct (_ <? _); [done|].
  destruct (Z.leb_spec (LedgersPerFile schema) 0); [done|].
  unfold buffer_config; cbn [BufferSize BufferBytes NumWorkers]. unfold is_u32 in *.
  split; [|lia]. destruct (bounded ledgerRange); [|lia].
  pose proof (u32_range (to ledgerRange - from ledgerRange)) as Hr. unfold is_u32 in Hr.
  rewrite u32_id; unfold is_u32; lia.
Qed.

(** ** Progress *)
Section Progress.
Context {payload : Type} {Q : PriorityQueue (ledgerBatchObject (payload := payload))}
  {QL : PriorityQueueLaws batch_less Q}.
Context (config : BufferConfig) (schema : DataStoreSchema) (ledgerRange : LedgerRange)
  (object : bytes -> option payload).
Implicit Types (b : ledgerBuffer (payload := payload)).

(** A step of a worker that is not a failed download. *)
Definition ok_step b b' : Prop :=
  exists i, worker_step config schema ledgerRange object b i b' /\
    forall s a, workers b !! i = Some (Downloading s a) -> exists p, workers b' !! i = Some (Storing s p).

(** How far each task is from the consumer. *)
Definition weight (w : worker (payload := payload)) : nat :=
  match w with
  | Sleeping _ _ => 7
  | Downloading _ _ => 6
  | Storing _ _ => 5
  | Sending _ => 3
  | Advancing => 2
  | Draining => 1
  | Receiving | Exited => 0
  end.
Definition work b : nat :=
  7 * length (taskQueue b) + sum_list_with weight (workers b) + 3 * pq_Len (ledgerPriorityQueue b).

Lemma sum_list_insert (l : list (worker (payload := payload))) i x y : l !! i = Some x ->
  (sum_list_with weight (<[i := y]> l) + weight x = sum_list_with weight l + weight y)%nat.
Proof.
  revert i. induction l as [|z l IH]; intros [|i] H; simpl in *; try done.
  - injection H as ->. lia.
  - specialize (IH i H). lia.
Qed.

Context (HB : 1 <= BufferSize config) (HBB : 0 <= BufferBytes config) (HW : 1 <= NumWorkers config)
  (HL : 1 <= LedgersPerFile schema <= MaxUint32) (Hfrom : is_u32 (from ledgerRange)).
Local Abbreviation inv := (inv config schema ledgerRange object).

Lemma ok_step_work b g c d b' : inv b g c d -> context b = None -> ok_step b b' ->
  (work b' < work b)%nat /\ context b' = None /\ exists c', inv b' g c' d.
Proof.
  intros I Hc (i & Hs & Hok).
  destruct (inv_worker_step config schema ledgerRange object HL Hfrom b g c d i b' I Hs) as [c' I'].
  pose proof (inv_items _ _ _ _ _ _ _ _ I) as [Hpq _].
  destruct Hs as [sequence rest Hi Hq|w Hi Hw Hd|sequence attempt p Hi Ho|sequence attempt err Hi Hf
    |sequence attempt Hi|sequence p q Hi Hl Hq|item q Hi Hn Hq|item Hi Hr|Hi|Hi Hn];
    try (pose proof (fun y => sum_list_insert _ _ _ y Hi) as Hsum);
    unfold work; cbn [taskQueue workers ledgerPriorityQueue context set_worker set_taskQueue set_priorityQueue send_item advance].
  - specialize (Hsum (Downloading sequence 0)). rewrite Hq. cbn [length weight] in *.
    split; [lia|]. split; [done|]. by exists c'.
  - rewrite Hc in Hd. by destruct Hd.
  - specialize (Hsum (Storing sequence p)). cbn [weight] in *. split; [lia|]. split; [done|]. by exists c'.
  - exfalso. destruct (Hok _ _ Hi) as [p Hp]. destruct err; cbn [download_failed] in Hp;
      repeat case_match; cbn [workers set_worker cancel] in Hp; rewrite (insert_at _ _ _ _ Hi) in Hp; done.
  - specialize (Hsum (Downloading sequence attempt)). cbn [weight] in *. split; [lia|]. split; [done|]. by exists c'.
  - specialize (Hsum Draining). cbn [weight] in *. rewrite !pq_Len_ok.
    destruct (pq_Push_ok (ledgerPriorityQueue b) (mkBatchObject p sequence) Hpq) as (q' & Eq & _ & Hel).
    rewrite Hq in Eq. injection Eq as <-. rewrite Hel. cbn [length].
    split; [lia|]. split; [done|]. by exists c'.
  - specialize (Hsum (Sending (batch_payload item))). cbn [weight] in *. rewrite !pq_Len_ok.
    destruct (next_in_order_item config schema ledgerRange object HL Hfrom b g c d I Hn) as (it & Hpk & _).
    destruct (pq_Pop_ok _ it Hpq Hpk) as (q' & Eq & _ & Hel). rewrite Hq in Eq. injection Eq as -> ->.
    rewrite Hel. cbn [length]. split; [lia|]. split; [done|]. by exists c'.
  - specialize (Hsum Advancing). cbn [weight] in *. split; [lia|]. split; [done|]. by exists c'.
  - specialize (Hsum Draining). cbn [weight] in *. split; [lia|]. split; [done|]. by exists c'.
  - specialize (Hsum Receiving). cbn [weight] in *. split; [lia|]. split; [done|]. by exists c'.
Qed.

Lemma forallb_false {A} (f : A -> bool) l : forallb f l = false -> exists i x, l !! i = Some x /\ f x = false.
Proof.
  induction l as [|x l IH]; [done|]. cbn. destruct (f x) eqn:E.
  - intros (i & y & Hy & Hf)%IH. by exists (S i), y.
  - intros _. by exists O, x.
Qed.

Definition is_receiving (w : worker (payload := payload)) : bool :=
  match w with Receiving => true | _ => false end.

Lemma all_receiving s (l : list (worker (payload := payload))) :
  forallb is_receiving l = true -> flat_map (worker_task s) l = [].
Proof. by induction l as [|[] l IH]. Qed.

(** A worker can go on, or no task is left. *)
Lemma ok_step_or_drained b g c d :
  inv b g c d -> context b = None -> ledgerQueue b = [] ->
  (forall k, (k < d)%nat -> nth_object schema ledgerRange object k <> None) ->
  (exists b', ok_step b b') \/ d = g.
Proof.
  intros I Hc Hq Hav. assert (Hroom : room config (ledgerQueue b) = true).
  { rewrite Hq. apply Z.ltb_lt. unfold go_len. cbn [length]. lia. }
  pose proof (inv_items _ _ _ _ _ _ _ _ I) as [Hpq _]. pose proof (inv_workers _ _ _ _ _ _ _ _ I) as [HF Hlen].
  destruct (inv_live _ _ _ _ _ _ _ _ I Hc) as (P & X & D).
  destruct (lock_free b) eqn:El.
  2: { apply forallb_false in El as (i & w & Hi & Hw). left. destruct w; try done.
    - destruct (next_in_order b) eqn:En.
      + destruct (next_in_order_item config schema ledgerRange object HL Hfrom b g c d I En) as (it & Hpk & _).
        destruct (pq_Pop_ok _ it Hpq Hpk) as (q & Eq & _). eexists. exists i. split; [by apply worker_pop|congruence].
      + eexists. exists i. split; [by apply worker_unlock|congruence].
    - eexists. exists i. split; [by apply worker_send|congruence].
    - eexists. exists i. split; [by apply worker_advance|congruence]. }
  destruct (forallb is_receiving (workers b)) eqn:Er.
  2: { apply forallb_false in Er as (i & w & Hi & Hw). left. pose proof (lookup_free _ _ _ El Hi).
    pose proof (Forall_lookup_1 _ _ _ _ HF Hi) as Hok. destruct w; try done.
    - cbn in Hok. destruct Hok as (k & Hk & Ek). pose proof (Hav k Hk) as Ho. unfold nth_object in Ho.
      rewrite <- Ek in Ho. destruct (object (key_of schema sequence)) as [p|] eqn:Ep; [|done].
      eexists. exists i. split; [by eapply worker_downloaded|]. intros s a Hi'. assert (s = sequence) as -> by congruence. exists p. cbn. by eapply insert_at.
    - eexists. exists i. split; [by eapply worker_awake|congruence].
    - destruct (pq_Push_ok (ledgerPriorityQueue b) (mkBatchObject p sequence) Hpq) as (q & Eq & _).
      eexists. exists i. split; [by eapply worker_lock|congruence].
    - by apply X in Hi. }
  destruct (taskQueue b) as [|s rest] eqn:Et.
  - right. unfold in_flight in P. rewrite Et, (all_receiving _ _ Er) in P. cbn [app] in P.
    destruct (inv_current _ _ _ _ _ _ _ _ I) as (m & Em & Ec). rewrite (sent_free b El), Nat.add_0_r in Ec. subst m.
    pose proof (inv_order _ _ _ _ _ _ _ _ I). pose proof (inv_queue _ _ _ _ _ _ _ _ I) as HQ.
    rewrite Hq in HQ. apply (f_equal length) in HQ. rewrite !length_map, length_seq in HQ. cbn in HQ.
    destruct (decide (c < d)%nat) as [Hcd|]; [|lia]. exfalso. apply (D eq_refl). rewrite P, Em, (seq_split c d Hcd). by left.
  - left. destruct (workers b) as [|w l] eqn:Ew; [unfold go_len in Hlen; cbn in Hlen; lia|].
    destruct w; try done. assert (workers b !! 0%nat = Some Receiving) as H0 by (by rewrite Ew).
    eexists. exists O. split; [by eapply worker_receive|]. congruence.
Qed.

Lemma ok_steps_work n b b' g c d : nsteps ok_step n b b' -> inv b g c d -> context b = None ->
  (n + work b' <= work b)%nat /\ context b' = None /\ exists c', inv b' g c' d.
Proof.
  intros Hn. revert c. induction Hn as [x|n x y z Hs Hn IH]; intros c I Hc.
  - split; [lia|]. split; [done|]. by exists c.
  - destruct (ok_step_work x g c d y I Hc Hs) as (Hw & Hc' & c' & I').
    destruct (IH c' I' Hc') as (Hw' & ?). split; [lia|done].
Qed.
End Progress.

(** ** Properties *)

(** C23: the ledger buffer hands over the files in order. With a configuration that
    the constructor accepts, whatever the workers, the consumer and a close do and
    in whatever order: what the consumer has received, and then what waits for it,
    are the contents of the files of the range one after the other, none missing or
    repeated; at most one task more than the buffer size is outstanding, and while
    the buffer is open those are the tasks in flight and the files that wait; the
    channels stay within their capacity, a bounded range is never left, one worker
    at most has the lock, and the latest sequence reported is the end of a file
    that has been sent, of the last one or the one before. *)
Theorem ledgers_in_order {payload} {Q : PriorityQueue (ledgerBatchObject (payload := payload))}
    {QL : PriorityQueueLaws batch_less Q} (config : BufferConfig) (schema : DataStoreSchema)
    (ledgerRange : LedgerRange) (object : bytes -> option payload) (b : ledgerBuffer) :
  config_typed config schema ledgerRange -> validate_config config schema = None ->
  reachable (buffer_config config ledgerRange) schema ledgerRange object b ->
  let bufferSize := BufferSize (buffer_config config ledgerRange) in
  let start k := from ledgerRange + Z.of_nat k * LedgersPerFile schema in
  let file k := object (GetObjectKeyFromSequenceNumber schema (start k)) in
  exists g c d, (g <= c <= d)%nat /\
    map Some (returned b ++ pending b) = map file (seq 0 g) /\
    map Some (ledgerQueue b) = map file (seq g (c - g)) /\
    outstanding b = Z.of_nat d - Z.of_nat g /\ outstanding b <= bufferSize + 1 /\
    (context b = None -> in_flight b ≡ₚ map start (seq c (d - c))) /\
    go_len (taskQueue b) <= bufferSize /\ go_len (ledgerQueue b) <= bufferSize /\
    (bounded ledgerRange = true -> forall k, (k < d)%nat ->
      start k <= GetSequenceNumberEndBoundary schema (to ledgerRange)) /\
    one_holder (workers b) /\
    exists m, (m = c \/ S m = c) /\
      getLatestLedgerSequence ledgerRange b = if (m =? 0)%nat then 0 else start m - 1.
Proof.
  intros Ht Hv Hr bufferSize start file. destruct (valid_config _ _ _ Ht Hv) as (HB & HBB & HW & HL & Hf).
  destruct (inv_reachable _ schema ledgerRange object HB HW HL Hf b Hr) as (g & c & d & I).
  pose proof (fun k => nth_task_mono schema ledgerRange HL k d) as Hmono.
  destruct I as [I1 [I2 I2'] (m & Em & Ec) I4 I5 I6 (I7 & I7' & I7'') I8 _ _ _ I12 I13 _].
  exists g, c, d. split; [exact I1|]. split; [exact I4|]. split; [exact I5|]. split; [exact I6|]. split; [exact I7|].
  split; [intros Hc; apply (I13 Hc)|]. split; [exact I7'|]. split; [exact I7''|].
  split; [intros Hb k Hk; by apply I8|]. split; [exact I12|].
  exists m. split; [destruct (sent b); cbn in Ec; lia|]. unfold getLatestLedgerSequence. rewrite Em. unfold nth_task.
  destruct (Nat.eqb_spec m 0) as [->|Hm]; [by rewrite Z.mul_0_l, Z.add_0_r, Z.eqb_refl|].
  assert (Z.of_nat m * LedgersPerFile schema >= 1) by nia.
  destruct (Z.eqb_spec (from ledgerRange + Z.of_nat m * LedgersPerFile schema) (from ledgerRange)); [lia|].
  apply u32_id. specialize (Hmono m ltac:(lia)). subst start. unfold nth_task, is_u32 in *. cbn beta. lia.
Qed.

(** C24: the next file arrives. When the consumer waits on an open buffer whose
    outstanding files are all in the data store, then either it has everything and
    the range is exhausted, or: the workers can take at most [work] steps other than
    failed downloads, in any order, and when they have none left the next file of
    the range is at the head of the queue. *)
Theorem next_file_arrives {payload} {Q : PriorityQueue (ledgerBatchObject (payload := payload))}
    {QL : PriorityQueueLaws batch_less Q} (config : BufferConfig) (schema : DataStoreSchema)
    (ledgerRange : LedgerRange) (object : bytes -> option payload) (b : ledgerBuffer) :
  config_typed config schema ledgerRange -> validate_config config schema = None ->
  reachable (buffer_config config ledgerRange) schema ledgerRange object b ->
  context b = None -> reader b = Ready ->
  let file k := object (GetObjectKeyFromSequenceNumber schema (from ledgerRange + Z.of_nat k * LedgersPerFile schema)) in
  (forall k, Z.of_nat k < go_len (returned b) + outstanding b -> is_Some (file k)) ->
  (outstanding b = 0 /\ past_end schema ledgerRange b = true) \/
  (forall n b', nsteps (ok_step (buffer_config config ledgerRange) schema ledgerRange object) n b b' ->
    (n <= work b)%nat /\ context b' = None /\
    ((exists p rest, ledgerQueue b' = p :: rest /\ file (length (returned b)) = Some p) \/
     exists b'', ok_step (buffer_config config ledgerRange) schema ledgerRange object b' b'')).
Proof.
  intros Ht Hv Hr Hc Hready file Hav. destruct (valid_config _ _ _ Ht Hv) as (HB & HBB & HW & HL & Hf).
  destruct (inv_reachable _ schema ledgerRange object HB HW HL Hf b Hr) as (g & c & d & I).
  pose proof (inv_outstanding _ _ _ _ _ _ _ _ I) as Ho. pose proof (inv_received _ _ _ _ _ _ _ _ I) as Hg.
  unfold pending in Hg. rewrite Hready, app_nil_r in Hg. apply (f_equal length) in Hg.
  rewrite !length_map, length_seq in Hg.
  destruct (decide (outstanding b = 0)) as [H0|H0].
  { left. split; [done|]. destruct (inv_reader _ _ _ _ _ _ _ _ I Hready) as [?|[?|[x Hx]]]; [lia|done|congruence]. }
  right. intros n b' Hn.
  destruct (ok_steps_work _ _ _ _ HL Hf n b b' g c d Hn I Hc) as (Hw & Hc' & c' & I').
  split; [lia|]. split; [done|]. destruct (ledgerQueue b') as [|p rest] eqn:Eq.
  - right. destruct (ok_step_or_drained _ _ _ _ HB HW HL Hf b' g c' d I' Hc' Eq) as [?|?]; [|done|lia].
    intros k Hk E. destruct (Hav k) as [p Hp]; [unfold go_len; lia|]. unfold nth_object, key_of, nth_task in E.
    subst file. cbn in Hp. congruence.
  - left. exists p, rest. split; [done|]. pose proof (inv_queue _ _ _ _ _ _ _ _ I') as HQ. rewrite Eq in HQ.
    destruct (c' - g)%nat; [done|]. cbn in HQ. injection HQ as HQ _. rewrite Hg. by rewrite HQ.
Qed.

(** ** A buffer of one file, with two tasks outstanding *)
Module Sample.
Definition config : BufferConfig := mkConfig 1 0 1 3.
Definition schema : DataStoreSchema := mkSchema 64 10 [].
Definition ledgerRange : LedgerRange := mkRange 3 0 false.
Definition object (key : bytes) : option bytes := Some key.
#[local] Instance queue : PriorityQueue (ledgerBatchObject (payload := bytes)) := heap_queue batch_less.

Lemma batch_less_order {payload} : weak_order (batch_less (payload := payload)).
Proof. unfold batch_less. split; intros *; rewrite ?Z.ltb_lt, ?Z.ltb_ge; lia. Qed.
#[local] Instance queue_laws : PriorityQueueLaws batch_less queue := heap_queue_laws batch_less batch_less_order.

Definition buffer : ledgerBuffer :=
  mkBuffer [67] [] pq_empty 3 131 2 None [Downloading 3 0] Ready [].

Lemma buffer_reachable : reachable (buffer_config config ledgerRange) schema ledgerRange object buffer.
Proof.
  apply rtc_l with (push_task schema (newLedgerBuffer config ledgerRange)).
  { split; [|by vm_compute]. apply step_reader. by apply reader_push with 0 None; vm_compute. }
  apply rtc_l with (set_worker (set_taskQueue (push_task schema (newLedgerBuffer config ledgerRange)) []) 0 (Downloading 3 0)).
  { split; [|by vm_compute]. apply step_worker with O. by apply worker_receive. }
  apply rtc_l with (push_task schema (set_worker (set_taskQueue (push_task schema (newLedgerBuffer config ledgerRange)) []) 0 (Downloading 3 0))).
  { split; [|by vm_compute]. apply step_reader. by apply reader_push with 0 None; vm_compute. }
  apply rtc_once. split; [|by vm_compute]. apply step_reader.
  apply (reader_return _ _ _ (push_task schema (set_worker (set_taskQueue (push_task schema (newLedgerBuffer config ledgerRange)) []) 0 (Downloading 3 0))) 0 None); [done|].
  left. by vm_compute.
Qed.

Lemma config_ok : config_typed config schema ledgerRange /\ validate_config config schema = None.
Proof. split; [|done]. unfold config_typed, is_u32, is_i64. cbn. lia. Qed.

Lemma ledgers_in_order_witness :
  outstanding buffer = BufferSize (buffer_config config ledgerRange) + 1 /\
  let start k := from ledgerRange + Z.of_nat k * LedgersPerFile schema in
  let file k := object (GetObjectKeyFromSequenceNumber schema (start k)) in
  exists g c d, (g <= c <= d)%nat /\
    map Some (returned buffer ++ pending buffer) = map file (seq 0 g) /\
    map Some (ledgerQueue buffer) = map file (seq g (c - g)).
Proof.
  split; [reflexivity|].
  destruct (ledgers_in_order config schema ledgerRange object buffer (proj1 config_ok) (proj2 config_ok)
    buffer_reachable) as (g & c & d & H1 & H2 & H3 & _). by exists g, c, d.
Defined.

Lemma next_file_arrives_witness :
  work buffer = 13%nat /\ forall n b', nsteps (ok_step (buffer_config config ledgerRange) schema ledgerRange object) n buffer b' ->
    (n <= work buffer)%nat /\ context b' = None /\
    ((exists p rest, ledgerQueue b' = p :: rest /\ object (GetObjectKeyFromSequenceNumber schema 3) = Some p) \/
     exists b'', ok_step (buffer_config config ledgerRange) schema ledgerRange object b' b'').
Proof.
  split; [reflexivity|].
  destruct (next_file_arrives config schema ledgerRange object buffer (proj1 config_ok) (proj2 config_ok)
    buffer_reachable eq_refl eq_refl) as [[H _]|H].
  - intros k _. by eexists.
  - discriminate H.
  - exact H.
Defined.
End Sample.
