(* ===== verification/Backend.v ===== *)
(** * The buffered storage backend and its stream

    src/ingest/ledgerbackend/buffered_storage_backend.go over the ledger buffer, the
    ranges of range.go, and the stream of ledger_stream.go over the backend. The
    backend serves one goroutine, so its operations are functions; what
    [getFromLedgerQueue] waits for is an argument of those that call it. Decompression
    and the views into a batch are parameters: a library, and generated code. *)
From Stdlib Require Import ZArith Lia.
From stdpp Require Import base list option relations sorting.
From S2P Require Import Prelude GoStd GoExt Decimal Encodings Schema Heap LedgerBuffer.
#[local] Open Scope Z_scope.
#[local] Open Scope go_scope.

(** ** Ranges of ledgers *)
Definition Contains (r other : LedgerRange) : bool :=
  if bounded r && negb (bounded other) then false
  else if bounded r && bounded other then (from r <=? from other) && (to other <=? to r)
  else from r <=? from other.
Definition SingleLedgerRange (ledger : Z) : LedgerRange := mkRange ledger ledger true.
Definition BoundedRange (from to : Z) : LedgerRange := mkRange from to true.
Definition UnboundedRange (from : Z) : LedgerRange := mkRange from 0 false.
Definition Range_String (r : LedgerRange) : bytes :=
  if bounded r then str "[" ++ FormatUint (from r) ++ str "," ++ FormatUint (to r) ++ str "]"
  else str "[" ++ FormatUint (from r) ++ str ",latest)".

(** ** Data *)
Inductive fetch_error : Type :=
| BufferCanceled (cause : cancel_cause)
| ContextDone.

Inductive backend_error : Type :=
| BackendClosed
| NotPrepared
| PrecedesRange
| BeyondRange
| PrecedesLastLedger
| NotNextLedger
| PrecedesBatch
| FetchFailed (e : fetch_error)
| BatchUnreadable
| EmptyBatch
| IndexOutOfRange (i : Z)
| LedgerUndecodable
| DecoderUnavailable
| InvalidConfig (e : config_error).

Section Backend.
Context {payload ledger meta : Type} {Q : PriorityQueue (ledgerBatchObject (payload := payload))}.

(** What the views read from a decompressed batch: its first and last sequence, and
    the encoded ledgers. *)
Record LedgerCloseMetaBatch : Type := mkBatch { StartSequence : Z; EndSequence : Z; LedgerCloseMetas : list ledger }.
Context (decode : payload -> option LedgerCloseMetaBatch) (SafeUnmarshal : ledger -> option meta).

(** The buffer comes with the range it was made for; [batchLoaded] says that
    [batchBytes] is not nil. *)
Record BufferedStorageBackend : Type := mkBackend {
  backend_buffer : option (LedgerRange * ledgerBuffer (payload := payload));
  prepared : option LedgerRange;
  closed : bool;
  nextLedger : Z;
  lastLedger : Z;
  batchLoaded : bool;
  ledgerSlices : list ledger;
  batchStart : Z;
  batchEnd : Z;
  batchIndex : Z
}.

Definition NewBufferedStorageBackend (config : BufferConfig) (schema : DataStoreSchema) :
    result backend_error BufferedStorageBackend :=
  match validate_config config schema with
  | Some e => Err (InvalidConfig e)
  | None => Ok (mkBackend None None false 0 0 false [] 0 0 0)
  end.

Definition set_buffer (s : BufferedStorageBackend) (b : option (LedgerRange * ledgerBuffer)) : BufferedStorageBackend :=
  mkBackend b (prepared s) (closed s) (nextLedger s) (lastLedger s)
    (batchLoaded s) (ledgerSlices s) (batchStart s) (batchEnd s) (batchIndex s).
Definition unload_batch (s : BufferedStorageBackend) : BufferedStorageBackend :=
  mkBackend (backend_buffer s) (prepared s) (closed s) (nextLedger s) (lastLedger s)
    false (ledgerSlices s) (batchStart s) (batchEnd s) (batchIndex s).
Definition load_batch (s : BufferedStorageBackend) (v : LedgerCloseMetaBatch) : BufferedStorageBackend :=
  mkBackend (backend_buffer s) (prepared s) (closed s) (nextLedger s) (lastLedger s)
    true (LedgerCloseMetas v) (StartSequence v) (EndSequence v) 0.

(** ** Preparing a range *)

(** With no buffer this dereferences nil once a range is prepared: [None]. *)
Definition isPrepared (s : BufferedStorageBackend) (ledgerRange : LedgerRange) : option bool :=
  if closed s then Some false
  else match prepared s with
  | None => Some false
  | Some _ =>
      let! (r, _) := backend_buffer s in
      Some (if from ledgerRange <? from r then false
            else if bounded r && negb (bounded ledgerRange) then false
            else if negb (bounded r) && negb (bounded ledgerRange) then true
            else if negb (bounded r) && bounded ledgerRange then true
            else to ledgerRange <=? to r)
  end.

Definition IsPrepared (s : BufferedStorageBackend) (ledgerRange : LedgerRange) : option (result backend_error bool) :=
  if closed s then Some (Err BackendClosed)
  else let! b := isPrepared s ledgerRange in Some (Ok b).

Definition releaseCurrentBatch (s : BufferedStorageBackend) : BufferedStorageBackend :=
  mkBackend None (prepared s) (closed s) (nextLedger s) (lastLedger s)
    false [] (batchStart s) (batchEnd s) (batchIndex s).

(** [fresh] is the result of [newLedgerBuffer]; [None] is its error, that there is
    no decoder. *)
Definition startPreparingRange (s : BufferedStorageBackend) (ledgerRange : LedgerRange)
    (fresh : option (ledgerBuffer (payload := payload))) : option (BufferedStorageBackend * result backend_error bool) :=
  let! already := isPrepared s ledgerRange in
  if already : bool then Some (s, Ok true)
  else
    let s := releaseCurrentBatch s in
    match fresh with
    | None => Some (s, Err DecoderUnavailable)
    | Some b => Some (mkBackend (Some (ledgerRange, b)) (prepared s) (closed s) (from ledgerRange) (lastLedger s)
                        (batchLoaded s) (ledgerSlices s) (batchStart s) (batchEnd s) (batchIndex s), Ok false)
    end.

Definition PrepareRange (s : BufferedStorageBackend) (ledgerRange : LedgerRange)
    (fresh : option (ledgerBuffer (payload := payload))) : option (BufferedStorageBackend * option backend_error) :=
  if closed s then Some (s, Some BackendClosed)
  else
    let! (s, r) := startPreparingRange s ledgerRange fresh in
    match r with
    | Err e => Some (s, Some e)
    | Ok true => Some (s, None)
    | Ok false => Some (mkBackend (backend_buffer s) (Some ledgerRange) (closed s) (nextLedger s) (lastLedger s)
                          (batchLoaded s) (ledgerSlices s) (batchStart s) (batchEnd s) (batchIndex s), None)
    end.

Definition Close (s : BufferedStorageBackend) : BufferedStorageBackend :=
  mkBackend (match backend_buffer s with Some (r, b) => Some (r, cancel b Canceled) | None => None end)
    (prepared s) true (nextLedger s) (lastLedger s)
    (batchLoaded s) (ledgerSlices s) (batchStart s) (batchEnd s) (batchIndex s).

Definition GetLatestLedgerSequence (s : BufferedStorageBackend) : option (result backend_error Z) :=
  if closed s then Some (Err BackendClosed)
  else match prepared s with
  | None => Some (Err NotPrepared)
  | Some _ => let! (r, b) := backend_buffer s in Some (Ok (getLatestLedgerSequence r b))
  end.

(** ** Reading ledgers *)

Definition nextExpectedSequence (s : BufferedStorageBackend) : Z :=
  match prepared s with
  | Some r => if nextLedger s =? 0 then from r else nextLedger s
  | None => nextLedger s
  end.

Definition validateSequence (s : BufferedStorageBackend) (sequence : Z) : option (option backend_error) :=
  if closed s then Some (Some BackendClosed)
  else match prepared s with
  | None => Some (Some NotPrepared)
  | Some _ =>
      let! (r, _) := backend_buffer s in
      Some (if sequence <? from r then Some PrecedesRange
            else if bounded r && (to r <? sequence) then Some BeyondRange
            else if sequence <? lastLedger s then Some PrecedesLastLedger
            else if nextExpectedSequence s <? sequence then Some NotNextLedger
            else None)
  end.

(** What [getFromLedgerQueue] returns, and the buffer it leaves. *)
Definition waiting : Type := ledgerBuffer (payload := payload) -> result fetch_error payload * ledgerBuffer (payload := payload).

Definition loadBatchForSequence (wait : waiting) (s : BufferedStorageBackend) (sequence : Z) :
    option (BufferedStorageBackend * option backend_error) :=
  if batchLoaded s && (batchStart s <=? sequence) && (sequence <=? batchEnd s) then Some (s, None)
  else if batchLoaded s && (sequence <? batchStart s) then Some (s, Some PrecedesBatch)
  else
    let s := unload_batch s in
    let! (r, b) := backend_buffer s in
    let '(got, b) := wait b in
    let s := set_buffer s (Some (r, b)) in
    match got with
    | Err e => Some (s, Some (FetchFailed e))
    | Ok compressed =>
        match decode compressed with
        | None => Some (s, Some BatchUnreadable)
        | Some view =>
            if (length (LedgerCloseMetas view) =? 0)%nat then Some (s, Some EmptyBatch)
            else Some (load_batch s view, None)
        end
    end.

(** The end of [getLedgerRaw], once the batch is loaded. *)
Definition serveLedger (s : BufferedStorageBackend) (sequence : Z) : BufferedStorageBackend * result backend_error ledger :=
  let targetIndex := u32 (sequence - batchStart s) in
  match go_index (ledgerSlices s) targetIndex with
  | None => (s, Err (IndexOutOfRange targetIndex))
  | Some rawBytes =>
      if batchIndex s <=? targetIndex then
        (mkBackend (backend_buffer s) (prepared s) (closed s) (u32 (nextLedger s + 1)) (nextLedger s)
           (batchLoaded s) (ledgerSlices s) (batchStart s) (batchEnd s) (u32 (targetIndex + 1)), Ok rawBytes)
      else (s, Ok rawBytes)
  end.

Definition getLedgerRaw (wait : waiting) (s : BufferedStorageBackend) (sequence : Z) :
    option (BufferedStorageBackend * result backend_error ledger) :=
  let! invalid := validateSequence s sequence in
  match invalid with
  | Some e => Some (s, Err e)
  | None =>
      let! (s, failed) := loadBatchForSequence wait s sequence in
      match failed with
      | Some e => Some (s, Err e)
      | None => Some (serveLedger s sequence)
      end
  end.

Definition GetLedger (wait : waiting) (s : BufferedStorageBackend) (sequence : Z) :
    option (BufferedStorageBackend * result backend_error meta) :=
  let! (s, r) := getLedgerRaw wait s sequence in
  match r with
  | Err e => Some (s, Err e)
  | Ok rawBytes => Some (s, match SafeUnmarshal rawBytes with Some lcm => Ok lcm | None => Err LedgerUndecodable end)
  end.
End Backend.

(** ** Streams *)

(** The machinery one stream drives: the state of a backend, and operations on it
    that can panic. *)
Record rawReader (W E L : Type) : Type := mkReader {
  prepare : W -> LedgerRange -> option (W * option E);
  read : W -> Z -> option (W * result E L);
  close : W -> W
}.
Arguments prepare {W E L}. Arguments read {W E L}. Arguments close {W E L}.

Section Stream.
Context {W E L S : Type} (rr : rawReader W E L) (yield : result E L -> S -> S * bool).

(** The loop from [seq] on: [fuel] bounds the ledgers it reads. *)
Fixpoint stream_loop (fuel : nat) (ledgerRange : LedgerRange) (seq : Z) (w : W) (acc : S) : option (W * S) :=
  match fuel with
  | O => None
  | Datatypes.S fuel =>
      let! (w, raw) := read rr w seq in
      match raw with
      | Err e => Some (w, (yield (Err e) acc).1)
      | Ok raw =>
          let '(acc, more) := yield (Ok raw) acc in
          if negb more then Some (w, acc)
          else if bounded ledgerRange && (seq =? to ledgerRange) then Some (w, acc)
          else stream_loop fuel ledgerRange (u32 (seq + 1)) w acc
      end
  end.

Definition streamRaw (fuel : nat) (ledgerRange : LedgerRange) (build : result E W) (acc : S) : option (option W * S) :=
  match build with
  | Err e => Some (None, (yield (Err e) acc).1)
  | Ok w =>
      let! (w, failed) := prepare rr w ledgerRange in
      match failed with
      | Some e => Some (Some (close rr w), (yield (Err e) acc).1)
      | None =>
          let! (w, acc) := stream_loop fuel ledgerRange (from ledgerRange) w acc in
          Some (Some (close rr w), acc)
      end
  end.
End Stream.

(** [bufferedStorageStream.RawLedgers] over an open store: [fresh] are the buffers
    it can make and [wait] what its [n]-th read would wait for. *)
Definition buffered_reader {payload ledger : Type} {Q : PriorityQueue (ledgerBatchObject (payload := payload))}
    (decode : payload -> option (LedgerCloseMetaBatch (ledger := ledger)))
    (fresh : LedgerRange -> option (ledgerBuffer (payload := payload))) (wait : Z -> waiting (payload := payload)) :
    rawReader BufferedStorageBackend backend_error ledger :=
  mkReader _ _ _ (fun s r => PrepareRange s r (fresh r)) (fun s sequence => getLedgerRaw decode (wait sequence) s sequence)
    Close.

Definition RawLedgers {payload ledger S : Type} {Q : PriorityQueue (ledgerBatchObject (payload := payload))}
    (decode : payload -> option (LedgerCloseMetaBatch (ledger := ledger)))
    (config : BufferConfig) (schema : DataStoreSchema)
    (fresh : LedgerRange -> option (ledgerBuffer (payload := payload))) (wait : Z -> waiting (payload := payload))
    (fuel : nat) (ledgerRange : LedgerRange) (yield : result backend_error ledger -> S -> S * bool) (acc : S) :
    option (option (BufferedStorageBackend (payload := payload)) * S) :=
  streamRaw (buffered_reader decode fresh wait) yield fuel ledgerRange (NewBufferedStorageBackend config schema) acc.
