(* ===== verification/BackendSpec.v ===== *)
(** * What the backend and its stream promise

    Over a store whose objects hold whole files of one chain, the backend never
    returns another ledger than the one asked for, reading in sequence only fails
    when the buffer does, and a stream yields the ledgers of its range in order. *)
From Stdlib Require Import ZArith Lia.
From stdpp Require Import base list list_numbers option relations sorting.
From S2P Require Import Prelude GoStd GoExt Decimal Encodings Schema Heap LedgerBuffer LedgerBufferSpec Backend.
#[local] Open Scope Z_scope.
#[local] Open Scope go_scope.

Section Spec.
Context {payload ledger : Type} {Q : PriorityQueue (ledgerBatchObject (payload := payload))}
  {QL : PriorityQueueLaws batch_less Q}.
Context (config : BufferConfig) (schema : DataStoreSchema) (object : bytes -> option payload)
  (decode : payload -> option (LedgerCloseMetaBatch (ledger := ledger))).
(** The chain that was exported, from its first ledger on. *)
Context (chain : Z -> ledger) (first : Z).
Local Abbreviation backend := (BufferedStorageBackend (payload := payload) (ledger := ledger)).
Local Abbreviation buffer := (ledgerBuffer (payload := payload)).
Implicit Types (s : BufferedStorageBackend (payload := payload) (ledger := ledger)) (b : ledgerBuffer (payload := payload)).

(** The ledgers from [x] to [y]. *)
Definition ledgers (x y : Z) : list ledger := map chain (seqZ x (y - x + 1)).

Lemma ledgers_snoc x y : x <= y -> ledgers x y = ledgers x (y - 1) ++ [chain y].
Proof.
  intros H. unfold ledgers. replace (y - x + 1) with (y - x + 1 - 1 + 1) by lia. rewrite seqZ_app by lia.
  rewrite map_app. f_equal; [do 2 f_equal; lia|]. rewrite seqZ_cons by lia. cbn. do 2 f_equal. lia.
Qed.

(** The first ledger of the file of [a]. *)
Definition file_start (a : Z) : Z := Z.max first (GetSequenceNumberStartBoundary schema a).

(** What an exporter writes: each object is one whole file of the chain. *)
Definition whole_files : Prop := forall a p, is_u32 a -> object (GetObjectKeyFromSequenceNumber schema a) = Some p ->
  decode p = Some (mkBatch (file_start a) (GetSequenceNumberEndBoundary schema a)
    (ledgers (file_start a) (GetSequenceNumberEndBoundary schema a))).

(** A new buffer, after its first [replenish]. *)
Definition opened (r : LedgerRange) b : Prop :=
  rtc (calm_step (buffer_config config r) schema r object) (newLedgerBuffer (buffer_config config r) r) b /\
  reader b = Ready /\ returned b = [].

(** What a wait can return: the batch the consumer got, or why it got none. *)
Definition fetched (r : LedgerRange) b (outcome : result fetch_error payload * buffer) : Prop :=
  let '(got, b') := outcome in
  rtc (calm_step (buffer_config config r) schema r object) b b' /\ reader b' = Ready /\
  match got with
  | Ok p => returned b' = returned b ++ [p]
  | Err (BufferCanceled cause) => returned b' = returned b /\ context b' = Some cause
  | Err ContextDone => returned b' = returned b
  end.

Definition fair_wait (wait : waiting (payload := payload)) s : Prop :=
  forall r b, backend_buffer s = Some (r, b) -> fetched r b (wait b).

(** ** The calls on one backend *)
Inductive called : backend -> Prop :=
| called_new s : NewBufferedStorageBackend config schema = Ok s -> called s
| called_prepare s r fresh s' failed :
    called s -> is_u32 (from r) -> (forall b, fresh = Some b -> opened r b) ->
    PrepareRange s r fresh = Some (s', failed) -> called s'
| called_get s wait sequence s' res :
    called s -> is_u32 sequence -> fair_wait wait s ->
    getLedgerRaw decode wait s sequence = Some (s', res) -> called s'
| called_close s : called s -> called (Close s).

(** The fields of a configuration have their types. *)
Definition typed : Prop :=
  is_u32 (BufferSize config) /\ is_u32 (NumWorkers config) /\ is_u32 (RetryLimit config) /\
  is_i64 (BufferBytes config) /\ is_schema schema /\ is_u32 first.

Context (Htyped : typed) (Hvalid : validate_config config schema = None) (Hwhole : whole_files).

Definition buffer_ok (r : LedgerRange) b : Prop :=
  reachable (buffer_config config r) schema r object b /\ reader b = Ready /\ is_u32 (from r).

(** The batch loaded is the whole file of [a]. *)
Definition batch_of (a : Z) s : Prop :=
  is_u32 a /\ batchStart s = file_start a /\ batchEnd s = GetSequenceNumberEndBoundary schema a /\
  ledgerSlices s = ledgers (batchStart s) (batchEnd s).

Record backend_ok s : Prop := {
  ok_buffer : forall r b, backend_buffer s = Some (r, b) -> buffer_ok r b;
  ok_batch : batchLoaded s = true -> exists a, batch_of a s
}.

Lemma range_config_ok r : is_u32 (from r) ->
  1 <= BufferSize (buffer_config config r) /\ 0 <= BufferBytes (buffer_config config r) /\
  1 <= NumWorkers (buffer_config config r) /\ 1 <= LedgersPerFile schema <= MaxUint32.
Proof.
  intros Hr. destruct Htyped as (H1 & H2 & H3 & H4 & [H5 H5'] & H6).
  destruct (valid_config config schema r) as (A & B & C & D & _); [|done|done].
  split; [done|]. split; [done|]. split; [done|]. split; [done|]. by split.
Qed.

(** What the consumer has of a buffer: its first files, one after the other. *)
Lemma returned_files r b : buffer_ok r b ->
  map Some (returned b) = map (nth_object schema r object) (seq 0 (length (returned b))) /\
  forall k, (k < length (returned b))%nat -> is_u32 (nth_task schema r k).
Proof.
  intros (Hreach & Hready & Hfrom). destruct (range_config_ok r Hfrom) as (HB & HBB & HW & HL).
  destruct (inv_reachable _ schema r object HB HW HL Hfrom b Hreach) as (g & c & d & I).
  pose proof (inv_received _ _ _ _ _ _ _ _ I) as Hg. unfold pending in Hg. rewrite Hready, app_nil_r in Hg.
  pose proof (f_equal length Hg) as Hlen. rewrite !length_map, length_seq in Hlen. rewrite Hlen. split; [done|].
  intros k Hk. destruct (inv_next _ _ _ _ _ _ _ _ I) as [_ Hd]. pose proof (inv_order _ _ _ _ _ _ _ _ I).
  apply nth_task_u32; [done|done|]. pose proof (nth_task_mono schema r HL k d ltac:(lia)). lia.
Qed.

Lemma opened_ok r b : is_u32 (from r) -> opened r b -> buffer_ok r b.
Proof. intros Hr (H1 & H2 & _). done. Qed.

Lemma fetched_ok r b got b' : buffer_ok r b -> fetched r b (got, b') -> buffer_ok r b'.
Proof. intros (H1 & H2 & H3) (H4 & H5 & _). split; [|done]. unfold reachable in *. by etrans. Qed.

Lemma fetched_file r b p b' : buffer_ok r b -> fetched r b (Ok p, b') ->
  let a := nth_task schema r (length (returned b)) in
  is_u32 a /\ object (GetObjectKeyFromSequenceNumber schema a) = Some p /\ returned b' = returned b ++ [p].
Proof.
  intros Hb Hf a. destruct (returned_files r b' (fetched_ok r b (Ok p) b' Hb Hf)) as [Hret Hu].
  destruct Hf as (_ & _ & Hp). rewrite Hp, length_app in Hret, Hu. cbn [length] in Hret, Hu.
  split; [apply Hu; lia|]. split; [|done]. rewrite Nat.add_1_r, seq_snoc, !map_app in Hret. cbn in Hret.
  apply (f_equal (fun l => last l)) in Hret. rewrite !last_snoc in Hret. by injection Hret.
Qed.

(** ** The invariant of the calls *)

Lemma load_ok wait s sequence s' failed :
  backend_ok s -> fair_wait wait s -> loadBatchForSequence decode wait s sequence = Some (s', failed) ->
  backend_ok s' /\ closed s' = closed s /\ prepared s' = prepared s /\
  option_map fst (backend_buffer s') = option_map fst (backend_buffer s) /\
  (failed = None -> batchLoaded s' = true).
Proof.
  intros [Hb Ha] Hwait. unfold loadBatchForSequence.
  destruct (batchLoaded s && (batchStart s <=? sequence) && (sequence <=? batchEnd s)) eqn:E1.
  { intros [= <- <-]. apply andb_true_iff in E1 as [E1 _]. by apply andb_true_iff in E1 as [E1 _]. }
  destruct (batchLoaded s && (sequence <? batchStart s)) eqn:E2; [by intros [= <- <-]|].
  unfold unload_batch; cbn [backend_buffer]. destruct (backend_buffer s) as [[r b]|] eqn:Eb; [|done].
  pose proof (Hwait r b Eb) as Hf. destruct (wait b) as [got b'] eqn:Ew. pose proof (Hb r b eq_refl) as Hok.
  pose proof (fetched_ok r b got b' Hok Hf) as Hok'.
  destruct got as [p|e].
  2: { intros [= <- <-]. cbn. split; [|done]. split; cbn; [by intros ? ? [= <- <-]|done]. }
  destruct (fetched_file r b p b' Hok Hf) as (Hu & Ho & _). rewrite (Hwhole _ _ Hu Ho).
  cbn [LedgerCloseMetas]. destruct (_ =? _)%nat; intros [= <- <-]; cbn.
  - split; [|done]. split; cbn; [by intros ? ? [= <- <-]|done].
  - split; [|done]. split; cbn; [by intros ? ? [= <- <-]|].
    intros _. exists (nth_task schema r (length (returned b))). by split.
Qed.

Lemma isPrepared_total s r : (prepared s <> None -> backend_buffer s <> None) -> exists p, isPrepared s r = Some p.
Proof.
  intros H. unfold isPrepared. destruct (closed s); [by eexists|]. destruct (prepared s); [|by eexists].
  destruct (backend_buffer s) as [[r0 b]|]; [by eexists|]. by destruct H.
Qed.

Lemma prepare_ok s r fresh s' failed :
  backend_ok s -> is_u32 (from r) -> (forall b, fresh = Some b -> opened r b) ->
  PrepareRange s r fresh = Some (s', failed) -> backend_ok s'.
Proof.
  intros [Hb Ha] Hr Hf. unfold PrepareRange. destruct (closed s); [by intros [= <- _]|].
  unfold startPreparingRange. destruct (isPrepared s r) as [[|]|]; [by intros [= <- _]| |done].
  destruct fresh as [b|]; intros [= <- _]; cbn; (split; [|done]); cbn; [|done].
  intros ? ? [= <- <-]. apply opened_ok; [done|by apply Hf].
Qed.

Lemma get_ok wait s sequence s' res :
  backend_ok s -> fair_wait wait s -> getLedgerRaw decode wait s sequence = Some (s', res) -> backend_ok s'.
Proof.
  intros Hs Hw. unfold getLedgerRaw. destruct (validateSequence s sequence) as [[e|]|]; [by intros [= <- _]| |done].
  destruct (loadBatchForSequence decode wait s sequence) as [[s1 failed]|] eqn:El; [|done].
  destruct (load_ok wait s sequence s1 failed Hs Hw El) as (Hs1 & _).
  destruct failed; [by intros [= <- _]|]. unfold serveLedger. destruct (go_index _ _); [|by intros [= <- _]].
  destruct (batchIndex s1 <=? _); intros [= <- _]; [|done]. destruct Hs1 as [Hb Ha]. by split.
Qed.

Lemma called_ok s : called s -> backend_ok s.
Proof.
  induction 1 as [s Hn|s r fresh s' failed _ IH Hr Hf Hp|s wait sequence s' res _ IH Hq Hw Hg|s _ IH].
  - unfold NewBufferedStorageBackend in Hn. rewrite Hvalid in Hn. injection Hn as <-. by split.
  - by eapply prepare_ok.
  - by eapply get_ok.
  - destruct IH as [Hb Ha]. split; cbn; [|done]. intros r b'. destruct (backend_buffer s) as [[r0 b]|] eqn:Eb; [|done].
    intros [= <- <-]. destruct (Hb r0 b eq_refl) as (H1 & H2 & H3). split; [|done]. unfold reachable in *.
    etrans; [exact H1|]. apply rtc_once. split; [apply step_close|cbn; lia].
Qed.

(** ** The ledger at an index *)
Lemma ledgers_lookup x y i l : is_u32 x -> 0 <= i -> go_index (ledgers x y) i = Some l -> l = chain (x + i) /\ x + i <= y.
Proof.
  intros Hx Hi. unfold go_index. rewrite (proj2 (Z.leb_le 0 i)) by done. unfold ledgers. rewrite list_lookup_fmap.
  destruct (seqZ x (y - x + 1) !! Z.to_nat i) as [z|] eqn:E; [|done]. intros [= <-]. apply lookup_seqZ in E as [-> E].
  split; [f_equal; lia|lia].
Qed.

Lemma batch_bounds a s : batch_of a s -> is_u32 (batchStart s) /\ is_u32 (batchEnd s).
Proof.
  intros (Ha & -> & -> & _). destruct Htyped as (_ & _ & _ & _ & Hsch & Hf).
  destruct (file_bounds schema a a Hsch Ha Ha) as (H1 & H2 & _). unfold is_u32, file_start in *. lia.
Qed.

(** A ledger found in a batch at the wrapped offset of a sequence is that ledger. *)
Lemma batch_ledger a s sequence l : batch_of a s -> is_u32 sequence ->
  go_index (ledgerSlices s) (u32 (sequence - batchStart s)) = Some l -> l = chain sequence /\ batchStart s <= sequence <= batchEnd s.
Proof.
  intros Ha Hq Hl. destruct (batch_bounds a s Ha) as [H1 H2]. pose proof (u32_range (sequence - batchStart s)) as Hr.
  destruct Ha as (_ & _ & _ & Hs). rewrite Hs in Hl. unfold is_u32 in *.
  apply ledgers_lookup in Hl as [-> Hle]; [|done|lia].
  destruct (decide (batchStart s <= sequence)).
  - rewrite u32_id in * by (unfold is_u32; lia). split; [f_equal; lia|lia].
  - exfalso. unfold u32 in Hle. 
    rewrite <- (Z.mod_unique_pos (sequence - batchStart s) 4294967296 (-1) (sequence - batchStart s + 4294967296)) in Hle; lia.
Qed.

Lemma batch_lookup a s sequence : batch_of a s -> batchStart s <= sequence <= batchEnd s ->
  u32 (sequence - batchStart s) = sequence - batchStart s /\
  go_index (ledgerSlices s) (sequence - batchStart s) = Some (chain sequence).
Proof.
  intros Ha Hq. destruct (batch_bounds a s Ha) as [H1 H2]. destruct Ha as (_ & _ & _ & Hs). unfold is_u32 in *.
  split; [apply u32_id; unfold is_u32; lia|]. unfold go_index. rewrite (proj2 (Z.leb_le _ _)) by lia. rewrite Hs.
  unfold ledgers. rewrite list_lookup_fmap, lookup_seqZ_lt by lia. cbn. do 2 f_equal. lia.
Qed.

(** ** Reading in sequence *)

(** After the first [n] ledgers of the range [r] have been read. *)
Record reading r (n : nat) s : Prop := {
  rd_ok : backend_ok s;
  rd_open : closed s = false;
  rd_prepared : prepared s = Some r;
  rd_buffer : exists b, backend_buffer s = Some (r, b) /\
    ((n = O /\ returned b = [] /\ batchLoaded s = false) \/
     (exists k, length (returned b) = S k /\ batch_of (nth_task schema r k) s /\ batchLoaded s = true /\
        batchStart s <= from r + Z.of_nat n - 1 <= batchEnd s /\
        batchIndex s = u32 (from r + Z.of_nat n - batchStart s)));
  rd_next : nextLedger s = u32 (from r + Z.of_nat n);
  rd_last : lastLedger s <= from r + Z.of_nat n /\ (n <> O -> lastLedger s = from r + Z.of_nat n - 1)
}.

(** The next file begins where a file ends. *)
Lemma next_file r k : is_u32 (nth_task schema r k) -> is_u32 (nth_task schema r (S k)) ->
  GetSequenceNumberStartBoundary schema (nth_task schema r (S k)) =
  GetSequenceNumberEndBoundary schema (nth_task schema r k) + 1.
Proof.
  rewrite nth_task_S. intros H1 H2. pose proof Htyped as (_ & _ & _ & _ & Hsch & _).
  assert (1 <= LedgersPerFile schema) as HL.
  { destruct (range_config_ok (mkRange 0 0 false)) as (_ & _ & _ & HL); [unfold is_u32; cbn; lia|lia]. }
  rewrite end_boundary by (done || lia).
  destruct (start_boundary schema _ H1 ltac:(lia)) as [-> _]. destruct (start_boundary schema _ H2 ltac:(lia)) as [-> E2].
  revert E2. replace (nth_task schema r k + LedgersPerFile schema) with (nth_task schema r k + 1 * LedgersPerFile schema) by ring.
  rewrite Z.div_add by lia. unfold capped_end, is_u32 in *. lia.
Qed.

(** The ledger is served from a loaded batch, and becomes the last one. *)
Lemma serve r n s b k : backend_ok s -> closed s = false -> prepared s = Some r ->
  backend_buffer s = Some (r, b) -> length (returned b) = S k -> batch_of (nth_task schema r k) s -> batchLoaded s = true ->
  batchStart s <= from r + Z.of_nat n <= batchEnd s -> batchIndex s <= from r + Z.of_nat n - batchStart s ->
  nextLedger s = u32 (from r + Z.of_nat n) ->
  exists s', serveLedger s (from r + Z.of_nat n) = (s', Ok (chain (from r + Z.of_nat n))) /\ reading r (S n) s'.
Proof.
  intros [Hb Ha] Hc Hp Hbuf Hk Hbatch Hload Hin Hidx Hnext.
  destruct (batch_lookup _ s _ Hbatch Hin) as [E1 E2]. unfold serveLedger. rewrite E1, E2.
  rewrite (proj2 (Z.leb_le _ _)) by lia. eexists. split; [done|].
  destruct (batch_bounds _ s Hbatch) as [B1 B2]. unfold is_u32 in B1, B2.
  assert (Hn : u32 (from r + Z.of_nat n) = from r + Z.of_nat n) by (apply u32_id; unfold is_u32; lia).
  rewrite Hn in Hnext. split; cbn.
  - by split.
  - done.
  - done.
  - exists b. split; [done|]. right. exists k. split; [done|]. split; [exact Hbatch|]. split; [done|].
    split; [lia|]. f_equal. lia.
  - f_equal. lia.
  - lia.
Qed.

Lemma validate_reading r n s : reading r n s -> from r + Z.of_nat n <= MaxUint32 ->
  (bounded r = true -> from r + Z.of_nat n <= to r) -> validateSequence s (from r + Z.of_nat n) = Some None.
Proof.
  intros [[Hb _] Hc Hp (b & Hbuf & _) Hnext [Hlast _]] Hn Hto. unfold validateSequence. rewrite Hc, Hp, Hbuf. cbn.
  destruct (Hb r b Hbuf) as (_ & _ & Hr). unfold is_u32 in Hr. rewrite u32_id in Hnext by (unfold is_u32; lia).
  rewrite (proj2 (Z.ltb_ge _ _)) by lia.
  assert ((bounded r && (to r <? from r + Z.of_nat n)) = false) as ->.
  { destruct (bounded r); [|done]. cbn. apply Z.ltb_ge. by apply Hto. }
  rewrite (proj2 (Z.ltb_ge _ _)) by lia.
  assert (nextExpectedSequence s = from r + Z.of_nat n) as ->.
  { unfold nextExpectedSequence. rewrite Hp, Hnext. destruct (Z.eqb_spec (from r + Z.of_nat n) 0); [lia|done]. }
  by rewrite Z.ltb_irrefl.
Qed.

(** Reading on serves the next ledger, unless the wait for its file fails. *)
Lemma read_next wait r n s : reading r n s -> first <= from r -> from r + Z.of_nat n <= MaxUint32 ->
  (bounded r = true -> from r + Z.of_nat n <= to r) -> fair_wait wait s ->
  exists s' res, getLedgerRaw decode wait s (from r + Z.of_nat n) = Some (s', res) /\
    ((res = Ok (chain (from r + Z.of_nat n)) /\ reading r (S n) s') \/
     (exists e b, backend_buffer s = Some (r, b) /\ (wait b).1 = Err e /\ res = Err (FetchFailed e))).
Proof.
  intros Hrd Hfirst Hn Hto Hw. unfold getLedgerRaw. rewrite (validate_reading r n s) by done.
  destruct Hrd as [Hok Hc Hp (b & Hbuf & Hcase) Hnext Hlast]. pose proof (Hw r b Hbuf) as Hf.
  destruct (ok_buffer s Hok r b Hbuf) as (Hreach & Hready & Hr). pose proof Hr as Hr'. unfold is_u32 in Hr'.
  pose proof Htyped as (_ & _ & _ & _ & Hsch & _).
  (* a batch that holds the ledger is loaded, or the next file is fetched *)
  assert (Hsplit : (exists k, length (returned b) = S k /\ batch_of (nth_task schema r k) s /\ batchLoaded s = true /\
      batchStart s <= from r + Z.of_nat n <= batchEnd s /\ batchIndex s <= from r + Z.of_nat n - batchStart s) \/
    ((batchLoaded s && (batchStart s <=? from r + Z.of_nat n) && (from r + Z.of_nat n <=? batchEnd s)) = false /\
     (batchLoaded s && (from r + Z.of_nat n <? batchStart s)) = false /\
     (is_u32 (nth_task schema r (length (returned b))) ->
       file_start (nth_task schema r (length (returned b))) <= from r + Z.of_nat n <=
       GetSequenceNumberEndBoundary schema (nth_task schema r (length (returned b)))))).
  { destruct Hcase as [(-> & Hret & Hl)|(k & Hk & Hbatch & Hl & Hin & Hidx)].
    - right. rewrite Hl, Hret. split; [done|]. split; [done|]. intros Hu. cbn [length] in *. unfold file_start.
      assert (nth_task schema r 0 = from r) as E by (unfold nth_task; lia). rewrite E in *.
      destruct (file_bounds schema (from r) (from r) Hsch Hr Hr) as (_ & _ & Hin & _). lia.
    - destruct (decide (from r + Z.of_nat n <= batchEnd s)) as [Hle|Hgt].
      + left. exists k. split; [done|]. split; [done|]. split; [done|]. split; [lia|].
        destruct (batch_bounds _ s Hbatch) as [B1 B2]. unfold is_u32 in *. rewrite Hidx, u32_id by (unfold is_u32; lia). lia.
      + right. rewrite Hl. cbn [andb]. split; [apply andb_false_iff; right; apply Z.leb_gt; lia|].
        split; [apply Z.ltb_ge; lia|]. rewrite Hk. intros Hu. pose proof Hbatch as (Ha & _ & Hend & _).
        pose proof (next_file r k Ha Hu) as Hnf. destruct (file_bounds schema _ _ Hsch Hu Hu) as (_ & _ & Hin' & _).
        unfold file_start. lia. }
  unfold loadBatchForSequence. destruct Hsplit as [(k & Hk & Hbatch & Hl & Hin & Hidx)|(-> & -> & Hfile)].
  - rewrite Hl, (proj2 (Z.leb_le _ _)), (proj2 (Z.leb_le _ _)) by lia. cbn [andb].
    destruct (serve r n s b k) as (s' & -> & Hrd); [done..|]. exists s'. eexists. split; [done|]. by left.
  - unfold unload_batch; cbn [backend_buffer]. rewrite Hbuf. destruct (wait b) as [got b'] eqn:Ew.
    pose proof (fetched_ok r b got b' (conj Hreach (conj Hready Hr)) Hf) as Hok'.
    destruct got as [p|e].
    2: { eexists. eexists. split; [done|]. right. exists e, b. split; [done|]. by rewrite Ew. }
    destruct (fetched_file r b p b' (conj Hreach (conj Hready Hr)) Hf) as (Hu & Ho & Hret). specialize (Hfile Hu).
    rewrite (Hwhole _ _ Hu Ho). cbn [LedgerCloseMetas].
    assert (length (ledgers (file_start (nth_task schema r (length (returned b))))
      (GetSequenceNumberEndBoundary schema (nth_task schema r (length (returned b))))) <> O) as Hne.
    { unfold ledgers. rewrite length_map, length_seqZ. lia. }
    rewrite (proj2 (Nat.eqb_neq _ _) Hne). set (s1 := load_batch _ _).
    destruct (serve r n s1 b' (length (returned b))) as (s' & -> & Hrd).
    + split; cbn; [by intros ? ? [= <- <-]|]. intros _. by eexists.
    + done.
    + done.
    + done.
    + rewrite Hret, length_app. cbn. lia.
    + by split.
    + done.
    + exact Hfile.
    + cbn. lia.
    + done.
    + exists s'. eexists. split; [done|]. by left.
Qed.

Lemma prepare_reading s r b : backend_ok s -> is_u32 (from r) -> (bounded r = true -> from r <= to r) ->
  closed s = false -> isPrepared s r = Some false -> opened r b ->
  exists s', PrepareRange s r (Some b) = Some (s', None) /\
    (lastLedger s <= from r -> reading r 0 s') /\
    (from r < lastLedger s -> forall wait, getLedgerRaw decode wait s' (from r) = Some (s', Err PrecedesLastLedger)).
Proof.
  intros Hok Hr Hto Hc Hp Ho. unfold PrepareRange, startPreparingRange. rewrite Hc, Hp. eexists. split; [done|].
  pose proof Hr as Hr'. unfold is_u32 in Hr'. split; intros Hlast.
  - split; cbn; [|done|done| | |lia].
    + split; cbn; [|done]. intros ? ? [= <- <-]. by apply opened_ok.
    + exists b. split; [done|]. left. destruct Ho as (_ & _ & Ho). done.
    + rewrite Z.add_0_r. symmetry. by apply u32_id.
  - intros wait. unfold getLedgerRaw, validateSequence. cbn. rewrite Hc, Z.ltb_irrefl.
    assert (bounded r && (to r <? from r) = false) as ->.
    { destruct (bounded r); [|done]. apply Z.ltb_ge. by apply Hto. }
    by rewrite (proj2 (Z.ltb_lt _ _)).
Qed.

(** Asking again for the last ledger. *)
Lemma reread r n s wait : reading r (S n) s ->
  (bounded r = true -> from r + Z.of_nat n <= to r) -> from r + Z.of_nat (S n) <= MaxUint32 ->
  getLedgerRaw decode wait s (from r + Z.of_nat n) = Some (s, Ok (chain (from r + Z.of_nat n))).
Proof.
  intros [Hok Hc Hp (b & Hbuf & Hcase) Hnext [_ Hl]] Hto Hmax. specialize (Hl ltac:(done)).
  destruct (ok_buffer s Hok r b Hbuf) as (_ & _ & Hr). unfold is_u32 in Hr.
  destruct Hcase as [(? & _)|(k & Hk & Hbatch & Hload & Hin & Hidx)]; [done|].
  replace (from r + Z.of_nat (S n) - 1) with (from r + Z.of_nat n) in Hin by lia.
  rewrite u32_id in Hnext by (unfold is_u32; lia).
  unfold getLedgerRaw, validateSequence. rewrite Hc, Hp, Hbuf. cbn. rewrite (proj2 (Z.ltb_ge _ _)) by lia.
  assert ((bounded r && (to r <? from r + Z.of_nat n)) = false) as ->.
  { destruct (bounded r); [|done]. cbn. apply Z.ltb_ge. by apply Hto. }
  rewrite (proj2 (Z.ltb_ge _ _)) by lia.
  assert (nextExpectedSequence s = from r + Z.of_nat (S n)) as ->.
  { unfold nextExpectedSequence. rewrite Hp, Hnext. destruct (Z.eqb_spec (from r + Z.of_nat (S n)) 0); [lia|done]. }
  rewrite (proj2 (Z.ltb_ge _ _)) by lia. unfold loadBatchForSequence.
  rewrite Hload, (proj2 (Z.leb_le _ _)), (proj2 (Z.leb_le _ _)) by lia. cbn [andb].
  destruct (batch_bounds _ s Hbatch) as [B1 B2]. unfold is_u32 in *.
  unfold serveLedger. destruct (batch_lookup _ s _ Hbatch Hin) as [E1 E2]. rewrite E1, E2.
  rewrite Hidx, u32_id by (unfold is_u32; lia). by rewrite (proj2 (Z.leb_gt _ _)) by lia.
Qed.

(** ** A stream *)

Lemma stream_items {A} (f : Z -> A) x m : seqZ x (Z.of_nat (S m)) = x :: seqZ (x + 1) (Z.of_nat m).
Proof. rewrite seqZ_cons by lia. f_equal. f_equal; lia. Qed.

Section Loop.
Context {A : Type} (fresh : LedgerRange -> option buffer) (wait : Z -> waiting (payload := payload))
  (yield : result backend_error ledger -> A -> A * bool) (r : LedgerRange).
Context (Hwait : forall sequence b, buffer_ok r b -> fetched r b (wait sequence b)).

(** The items from [x] on: ledgers, and an error of the buffer at the end, or not. *)
Definition items (x : Z) (m : nat) (failure : option fetch_error) : list (result backend_error ledger) :=
  map (fun sequence => Ok (chain sequence)) (seqZ x (Z.of_nat m)) ++
  match failure with Some e => [Err (FetchFailed e)] | None => [] end.

Lemma items_S x m failure : items x (S m) failure = Ok (chain x) :: items (x + 1) m failure.
Proof. unfold items. by rewrite (stream_items chain). Qed.

(** Why a stream ends: its range does, the body stops, or the buffer fails. *)
Definition stream_end (x : Z) (m : nat) (failure : option fetch_error) (stopped : bool) : Prop :=
  (bounded r = true -> x + Z.of_nat m <= to r + 1) /\
  (failure = None -> stopped = true \/ (bounded r = true /\ x + Z.of_nat m = to r + 1)).

Lemma stream_loop_items : first <= from r ->
  (bounded r = true -> to r <= MaxUint32) -> forall fuel n s acc,
  reading r n s -> (bounded r = true -> from r + Z.of_nat n <= to r) ->
  (bounded r = false -> from r + Z.of_nat n + Z.of_nat fuel <= MaxUint32 + 1) ->
  match stream_loop (buffered_reader decode fresh wait) yield fuel r (from r + Z.of_nat n) s acc with
  | Some (_, acc') => exists m failure, acc' = (feed yield (items (from r + Z.of_nat n) m failure) acc).1 /\
      stream_end (from r + Z.of_nat n) m failure (negb (feed yield (items (from r + Z.of_nat n) m failure) acc).2)
  | None => bounded r = true -> Z.of_nat fuel <= to r - (from r + Z.of_nat n)
  end.
Proof.
  intros Hfirst Htop. induction fuel as [|fuel IH]; intros n s acc Hrd Hto Hfuel.
  { cbn [stream_loop]. intros Hb. specialize (Hto Hb). lia. }
  assert (Hmax : from r + Z.of_nat n <= MaxUint32).
  { destruct (bounded r) eqn:Eb; [specialize (Hto eq_refl); specialize (Htop eq_refl); lia|specialize (Hfuel eq_refl); lia]. }
  assert (Hfair : fair_wait (wait (from r + Z.of_nat n)) s).
  { intros r' b Hb. pose proof (ok_buffer s (rd_ok _ _ _ Hrd) r' b Hb) as Hbuf.
    destruct (rd_buffer _ _ _ Hrd) as (b' & Hb' & _). rewrite Hb' in Hb. injection Hb as <- <-. by apply Hwait. }
  destruct (read_next _ r n s Hrd Hfirst Hmax Hto Hfair) as (s' & res & Hget & Hres).
  cbn [stream_loop]. change (read (buffered_reader decode fresh wait) s (from r + Z.of_nat n)) with
    (getLedgerRaw decode (wait (from r + Z.of_nat n)) s (from r + Z.of_nat n)). rewrite Hget.
  destruct Hres as [[-> Hrd']|(e & b & _ & _ & ->)].
  2: { exists O, (Some e). unfold items. cbn. split; [done|]. split; [|done]. intros Hb. specialize (Hto Hb). lia. }
  destruct (yield (Ok (chain (from r + Z.of_nat n))) acc) as [acc1 more] eqn:Ey.
  assert (Hone : feed yield (items (from r + Z.of_nat n) 1 None) acc = (acc1, more)).
  { rewrite items_S. cbn [feed]. rewrite Ey. by destruct more. }
  destruct more; cbn [negb].
  2: { exists 1%nat, None. rewrite Hone. split; [done|]. split; [|by left]. intros Hb. specialize (Hto Hb). lia. }
  destruct (bounded r && (from r + Z.of_nat n =? to r)) eqn:Elast.
  { apply andb_true_iff in Elast as [Hb E]. apply Z.eqb_eq in E.
    exists 1%nat, None. rewrite Hone. split; [done|]. split; [lia|]. intros _. right. split; [done|lia]. }
  assert (Hto' : bounded r = true -> from r + Z.of_nat (S n) <= to r).
  { intros Hb. rewrite Hb in Elast. cbn [andb] in Elast. apply Z.eqb_neq in Elast. specialize (Hto Hb). lia. }
  destruct fuel as [|fuel].
  { cbn [stream_loop]. intros Hb. specialize (Hto' Hb). lia. }
  assert (Hr : is_u32 (from r)).
  { destruct (rd_buffer _ _ _ Hrd) as (b & Hb & _). by apply (ok_buffer s (rd_ok _ _ _ Hrd) r b). }
  rewrite u32_id.
  2: { unfold is_u32 in *. destruct (bounded r) eqn:Eb; [specialize (Hto' eq_refl); specialize (Htop eq_refl); lia|].
    specialize (Hfuel eq_refl). lia. }
  replace (from r + Z.of_nat n + 1) with (from r + Z.of_nat (S n)) by lia.
  specialize (IH (S n) s' acc1 Hrd' Hto' ltac:(intros Hb; specialize (Hfuel Hb); lia)).
  destruct (stream_loop _ _ _ _ _ _ _) as [[s'' acc']|].
  - destruct IH as (m & failure & -> & He). exists (S m), failure. rewrite items_S. cbn [feed]. rewrite Ey.
    replace (from r + Z.of_nat n + 1) with (from r + Z.of_nat (S n)) by lia. split; [done|].
    destruct He as [He1 He2]. split; [intros Hb; specialize (He1 Hb); lia|]. intros Hf.
    destruct (He2 Hf) as [?|[Hb ?]]; [by left|right]. split; [done|lia].
  - intros Hb. specialize (IH Hb). lia.
Qed.
End Loop.

(** ** Properties *)

(** The ledgers read one after the other from a state on. *)
Inductive reads (r : LedgerRange) s : backend -> list ledger -> Prop :=
| reads_none : reads r s s []
| reads_more s1 s' wait ls l :
    reads r s s1 ls -> fair_wait wait s1 ->
    getLedgerRaw decode wait s1 (from r + go_len ls) = Some (s', Ok l) -> reads r s s' (ls ++ [l]).

Lemma reads_reading r s0 sn ls : first <= from r -> (bounded r = true -> to r <= MaxUint32) ->
  reading r 0 s0 -> reads r s0 sn ls ->
  (ls <> [] -> from r + go_len ls - 1 <= MaxUint32 /\ (bounded r = true -> from r + go_len ls - 1 <= to r)) ->
  ls = ledgers (from r) (from r + go_len ls - 1) /\ reading r (length ls) sn.
Proof.
  intros Hfirst Htop H0. induction 1 as [|s1 s' wait ls l Hreads IH Hw Hget]; intros Hb.
  { split; [|done]. unfold ledgers, go_len. cbn [length]. by rewrite seqZ_nil by lia. }
  specialize (Hb ltac:(by destruct ls)). unfold go_len in *. rewrite length_app in *. cbn [length] in *.
  destruct IH as [IHl IHr]; [intros _; split; [lia|intros E; destruct Hb as [_ Hb]; specialize (Hb E); lia]|].
  destruct (read_next wait r (length ls) s1 IHr Hfirst ltac:(lia)) as (s2 & res & E & Hres).
  - intros E. destruct Hb as [_ Hb]. specialize (Hb E). lia.
  - done.
  - rewrite Hget in E. injection E as -> <-. destruct Hres as [[[= ->] Hrd]|(e & b & _ & _ & [=])].
    rewrite Nat.add_1_r. split; [|done]. rewrite ledgers_snoc by lia.
    replace (from r + Z.of_nat (S (length ls)) - 1) with (from r + Z.of_nat (length ls)) by lia. by rewrite <- IHl.
Qed.

(** The backend never returns another ledger. After any calls to a new backend
    over whole files of one chain, whatever the waits for the buffer bring:
    [getLedgerRaw] panics exactly when a range is prepared and there is no buffer
    (the decoder of a later one was not to be had), and a ledger it returns is the
    one asked for, from an open backend and within the range of its buffer. *)
Theorem backend_returns_the_ledger s sequence wait :
  called s -> is_u32 sequence -> fair_wait wait s ->
  (getLedgerRaw decode wait s sequence = None <-> closed s = false /\ prepared s <> None /\ backend_buffer s = None) /\
  forall s' l, getLedgerRaw decode wait s sequence = Some (s', Ok l) ->
    l = chain sequence /\ closed s = false /\ lastLedger s <= sequence <= nextExpectedSequence s /\
    exists r b, backend_buffer s = Some (r, b) /\ from r <= sequence /\ (bounded r = true -> sequence <= to r).
Proof.
  intros Hs Hq Hw. pose proof (called_ok s Hs) as Hok. unfold getLedgerRaw, validateSequence.
  destruct (closed s); [split; [split; [done|by intros (? & _)]|done]|].
  destruct (prepared s) as [r0|] eqn:Hp; [|split; [split; [done|by intros (_ & ? & _)]|done]].
  destruct (backend_buffer s) as [[r b]|] eqn:Hb; [|by split].
  destruct (Z.ltb_spec sequence (from r)); [split; [split; [done|by intros (_ & _ & ?)]|done]|].
  destruct (bounded r && (to r <? sequence)) eqn:Eto; [split; [split; [done|by intros (_ & _ & ?)]|done]|].
  destruct (Z.ltb_spec sequence (lastLedger s)); [split; [split; [done|by intros (_ & _ & ?)]|done]|].
  destruct (Z.ltb_spec (nextExpectedSequence s) sequence); [split; [split; [done|by intros (_ & _ & ?)]|done]|].
  destruct (loadBatchForSequence decode wait s sequence) as [[s1 failed]|] eqn:El.
  - split; [split; [by destruct failed|by intros (_ & _ & ?)]|]. intros s' l.
    destruct (load_ok wait s sequence s1 failed Hok Hw El) as ([_ Ha] & _ & _ & _ & Hload).
    destruct failed; [done|]. destruct (Ha (Hload eq_refl)) as [a Hbatch]. unfold serveLedger.
    destruct (go_index (ledgerSlices s1) (u32 (sequence - batchStart s1))) as [x|] eqn:Ex; [|done].
    destruct (batch_ledger a s1 sequence x Hbatch Hq Ex) as [-> _]. intros Hres.
    assert (l = chain sequence) as -> by (destruct (batchIndex s1 <=? _); by injection Hres).
    split; [done|]. split; [done|]. split; [done|]. exists r, b. split; [done|]. split; [done|].
    intros Ebd. rewrite Ebd in Eto. by apply Z.ltb_ge in Eto.
  - exfalso. revert El. unfold loadBatchForSequence. destruct (_ && _ && _); [done|]. destruct (batchLoaded s && (sequence <? batchStart s)); [done|].
    unfold unload_batch; cbn [backend_buffer]. rewrite Hb. destruct (wait b) as [[p|e] b']; cbn; [|done].
    destruct (decode p); [|done]. by destruct (_ =? _)%nat.
Qed.

(** Reading a prepared range in sequence. Preparing a range that is not prepared
    on an open backend succeeds; if no ledger past its start was read before, then
    the ledgers read from its start on are those of the chain, reading goes on to
    the next one of the range unless the wait for its file fails, and asking again
    for the last one returns it without waiting and without a change. But if one was
    read before, the start of the range is refused: [lastLedger] is not reset. *)
Theorem reading_in_sequence s r b :
  called s -> is_u32 (from r) -> first <= from r -> (bounded r = true -> from r <= to r <= MaxUint32) ->
  closed s = false -> isPrepared s r = Some false -> opened r b ->
  exists s0, PrepareRange s r (Some b) = Some (s0, None) /\
    (from r < lastLedger s -> forall wait, getLedgerRaw decode wait s0 (from r) = Some (s0, Err PrecedesLastLedger)) /\
    (lastLedger s <= from r -> forall sn ls, reads r s0 sn ls ->
      from r + go_len ls <= MaxUint32 -> (bounded r = true -> from r + go_len ls - 1 <= to r) ->
      ls = ledgers (from r) (from r + go_len ls - 1) /\
      (forall wait l, last ls = Some l -> getLedgerRaw decode wait sn (from r + go_len ls - 1) = Some (sn, Ok l)) /\
      ((bounded r = true -> from r + go_len ls <= to r) -> forall wait, fair_wait wait sn ->
        exists s' res, getLedgerRaw decode wait sn (from r + go_len ls) = Some (s', res) /\
          (res = Ok (chain (from r + go_len ls)) \/
           exists e b, backend_buffer sn = Some (r, b) /\ (wait b).1 = Err e /\ res = Err (FetchFailed e)))).
Proof.
  intros Hs Hr Hfirst Hto Hc Hp Ho.
  destruct (prepare_reading s r b (called_ok s Hs) Hr ltac:(intros E; apply (Hto E)) Hc Hp Ho) as (s0 & Hprep & Hread & Hlate).
  exists s0. split; [done|]. split; [done|]. intros Hlast sn ls Hreads Hmax Hend.
  destruct (reads_reading r s0 sn ls Hfirst ltac:(intros E; apply (Hto E)) (Hread Hlast) Hreads) as [Hls Hrd].
  { intros _. split; [lia|done]. }
  split; [exact Hls|]. unfold go_len in *. split.
  - intros wait l Hl. destruct ls as [|x ls] using rev_ind; [done|]. clear IHls.
    rewrite last_snoc in Hl. injection Hl as ->. rewrite length_app in *. cbn [length] in *. rewrite Nat.add_1_r in *.
    replace (from r + Z.of_nat (S (length ls)) - 1) with (from r + Z.of_nat (length ls)) in * by lia.
    assert (l = chain (from r + Z.of_nat (length ls))) as ->.
    { rewrite ledgers_snoc in Hls by lia. by apply app_inj_2 in Hls as [_ [= ->]]. }
    by apply reread.
  - intros Hto' wait Hw. destruct (read_next wait r (length ls) sn Hrd Hfirst Hmax Hto' Hw) as (s' & res & E & Hres).
    exists s', res. split; [exact E|]. destruct Hres as [[? _]|?]; [by left|by right].
Qed.

(** C25: a stream yields the ledgers of its range in order. Over whole files of one
    chain, a stream runs its body on the ledgers from the start of the range on, one
    after the other and none left out, then on an error if the buffer fails; it goes
    on until then, or until the body stops or the range ends. On a bounded range it
    ends within as many reads as the range has ledgers. *)
Theorem stream_in_order {A} (fresh : LedgerRange -> option buffer) (wait : Z -> waiting (payload := payload))
    (yield : result backend_error ledger -> A -> A * bool) fuel r acc :
  is_u32 (from r) -> first <= from r -> (bounded r = true -> from r <= to r <= MaxUint32) ->
  (bounded r = false -> from r + Z.of_nat fuel <= MaxUint32 + 1) ->
  (forall b, fresh r = Some b -> opened r b) ->
  (forall sequence b, buffer_ok r b -> fetched r b (wait sequence b)) ->
  match RawLedgers decode config schema fresh wait fuel r yield acc with
  | Some (_, acc') =>
      (fresh r = None /\ acc' = (yield (Err DecoderUnavailable) acc).1) \/
      exists m failure, acc' = (feed yield (items (from r) m failure) acc).1 /\
        stream_end r (from r) m failure (negb (feed yield (items (from r) m failure) acc).2)
  | None => bounded r = true -> Z.of_nat fuel <= to r - from r
  end.
Proof.
  intros Hr Hfirst Hto Hfuel Hfresh Hwait. unfold RawLedgers, streamRaw, NewBufferedStorageBackend. rewrite Hvalid.
  set (s := mkBackend None None false 0 0 false [] 0 0 0).
  change (prepare (buffered_reader decode fresh wait) s r) with (PrepareRange s r (fresh r)).
  destruct (fresh r) as [b|] eqn:Ef; [|by left].
  assert (Hs : called s) by (apply called_new; unfold NewBufferedStorageBackend; by rewrite Hvalid).
  destruct (prepare_reading s r b (called_ok s Hs) Hr) as (s0 & -> & Hrd & _);
    [intros E; apply (Hto E)|done|done|by apply Hfresh|].
  unfold is_u32 in Hr. specialize (Hrd ltac:(cbn; lia)).
  pose proof (stream_loop_items fresh wait yield r Hwait Hfirst ltac:(intros E; apply (Hto E)) fuel 0 s0 acc Hrd) as H.
  rewrite Z.add_0_r in H. specialize (H ltac:(intros E; apply (Hto E)) Hfuel).
  destruct (stream_loop _ _ _ _ _ _ _) as [[s1 acc']|]; [|done]. by right.
Qed.
End Spec.

(** ** A store of whole files, and a stream of one ledger *)
Module Sample.
Definition config : BufferConfig := mkConfig 1 0 1 3.
Definition schema : DataStoreSchema := mkSchema 64 10 [].
Definition one : LedgerRange := SingleLedgerRange 3.

(** An object is its key, and the chain its sequence numbers, from 2 on. *)
Definition object (key : bytes) : option bytes := Some key.
Definition decode (p : bytes) : option (LedgerCloseMetaBatch (ledger := Z)) :=
  match ParseRangeFromObjectKey (filepath_Base p) with
  | Ok (low, high) => Some (mkBatch (Z.max 2 low) high (seqZ (Z.max 2 low) (high - Z.max 2 low + 1)))
  | Err _ => None
  end.
Definition chain (sequence : Z) : Z := sequence.

Definition queue : PriorityQueue (ledgerBatchObject (payload := bytes)) := heap_queue batch_less.
#[local] Existing Instance queue.
#[local] Instance queue_laws : PriorityQueueLaws batch_less queue :=
  heap_queue_laws batch_less LedgerBufferSpec.Sample.batch_less_order.

Lemma sample_schema_ok : is_schema schema /\ ext_ok schema.
Proof. split; [split; unfold is_u32; cbn; lia|constructor]. Qed.

Lemma typed_ok : typed config schema 2.
Proof.
  unfold typed, is_u32, is_i64. cbn. split; [lia|]. split; [lia|]. split; [lia|]. split; [lia|].
  split; [apply sample_schema_ok|lia].
Qed.

Lemma files_ok : whole_files schema object decode chain 2.
Proof.
  intros a p Ha [= <-]. destruct sample_schema_ok as [Hs He]. unfold decode.
  rewrite Base_object_key, ParseRange_name by done. unfold file_start, ledgers. do 2 f_equal.
  symmetry. apply list_fmap_id.
Qed.

(** *** A buffer before and after its one batch *)
Definition key : bytes := key_of schema 3.
Definition heap (l : list (ledgerBatchObject (payload := bytes))) : pq := mkHeap l batch_less.
Definition unread (x : Z) : ledgerBuffer := mkBuffer [x] [] (heap []) x (x + 64) 1 None [Receiving] Ready [].
Definition before : ledgerBuffer := unread 3.
Definition after : ledgerBuffer := mkBuffer [] [] (heap []) 3 67 0 None [Advancing] Ready [key].
Definition cfg : BufferConfig := buffer_config config one.

Lemma unread_opened x : x = 2 \/ x = 3 -> opened config schema object (SingleLedgerRange x) (unread x).
Proof.
  intros Hx. split; [|done]. set (r := SingleLedgerRange x). set (c := buffer_config config r).
  apply rtc_l with (push_task schema (newLedgerBuffer c r)).
  { split; [|by destruct Hx as [-> | ->]; vm_compute]. apply step_reader. by apply reader_push with 0 None; destruct Hx as [-> | ->]; vm_compute. }
  apply rtc_once. split; [|by destruct Hx as [-> | ->]; vm_compute]. apply step_reader.
  assert (unread x = return_batch (push_task schema (newLedgerBuffer c r)) None) as -> by (by destruct Hx as [-> | ->]).
  apply reader_return with 0; [done|]. right. left. by destruct Hx as [-> | ->]; vm_compute.
Qed.

Definition with_worker (w : worker) (q : pq) (sent : list bytes) : ledgerBuffer :=
  mkBuffer [] sent q 3 67 1 None [w] Ready [].

Lemma calm_worker (b b' : ledgerBuffer) : worker_step cfg schema one object b 0 b' ->
  nextTaskLedger b = nextTaskLedger b' -> calm_step cfg schema one object b b'.
Proof. intros H E. split; [by eapply step_worker|]. by rewrite E. Qed.

Lemma before_after : rtc (calm_step cfg schema one object) before after.
Proof.
  apply rtc_l with (with_worker (Downloading 3 0) (heap []) []).
  { apply calm_worker; [|done]. by apply (worker_receive _ _ _ _ before 0 3 []). }
  apply rtc_l with (with_worker (Storing 3 key) (heap []) []).
  { apply calm_worker; [|done]. by apply (worker_downloaded _ _ _ _ (with_worker (Downloading 3 0) (heap []) []) 0 3 0 key). }
  apply rtc_l with (with_worker Draining (heap [mkBatchObject key 3]) []).
  { apply calm_worker; [|done].
    by apply (worker_lock _ _ _ _ (with_worker (Storing 3 key) (heap []) []) 0 3 key (heap [mkBatchObject key 3])). }
  apply rtc_l with (with_worker (Sending key) (heap []) []).
  { apply calm_worker; [|done].
    by apply (worker_pop _ _ _ _ (with_worker Draining (heap [mkBatchObject key 3]) []) 0 (mkBatchObject key 3) (heap [])). }
  apply rtc_l with (with_worker Advancing (heap []) [key]).
  { apply calm_worker; [|done]. by apply (worker_send _ _ _ _ (with_worker (Sending key) (heap []) []) 0 key). }
  apply rtc_l with (receive_batch (with_worker Advancing (heap []) [key]) key [] 1).
  { split; [|done]. apply step_reader. by apply reader_receive. }
  apply rtc_once. split; [|done]. apply step_reader.
  change after with (return_batch (receive_batch (with_worker Advancing (heap []) [key]) key [] 1) (Some key)).
  apply reader_return with 1; [done|]. right. left. by vm_compute.
Qed.

Lemma after_fetched : fetched config schema object one before (Ok key, after).
Proof. split; [apply before_after|done]. Qed.

(** Waiting gets the batch from the buffer above, and is canceled on any other. *)
Definition is_before (b : ledgerBuffer) : bool :=
  bool_decide (taskQueue b = [3] /\ ledgerQueue b = [] /\ slice (ledgerPriorityQueue b) = [] /\ currentLedger b = 3 /\
    nextTaskLedger b = 67 /\ outstanding b = 1 /\ context b = None /\ workers b = [Receiving] /\ reader b = Ready /\ returned b = []).
Definition wait (sequence : Z) : waiting := fun b => if is_before b then (Ok key, after) else (Err ContextDone, b).

Lemma wait_fair sequence b : buffer_ok config schema object one b -> fetched config schema object one b (wait sequence b).
Proof.
  intros Hb. unfold wait. destruct (is_before b) eqn:E.
  - apply bool_decide_eq_true in E. destruct Hb as (Hreach & _).
    destruct (range_config_ok config schema 2 typed_ok eq_refl one ltac:(unfold is_u32; cbn; lia)) as (HB & HBB & HW & HL).
    destruct (inv_reachable _ schema one object HB HW HL ltac:(unfold is_u32; cbn; lia) b Hreach) as (g & c & d & I).
    destruct (inv_items _ _ _ _ _ _ _ _ I) as [[Hless _] _].
    assert (b = before) as -> by (destruct b as [? ? [? ?] ? ? ? ? ? ? ?]; cbn in *; destruct_and?; by subst).
    apply after_fetched.
  - destruct Hb as (_ & Hr & _). split; [apply rtc_refl|]. done.
Qed.

(** *** A backend before and after it reads ledger 3 *)
Definition new : BufferedStorageBackend (payload := bytes) (ledger := Z) := mkBackend None None false 0 0 false [] 0 0 0.
Definition ready : BufferedStorageBackend (payload := bytes) (ledger := Z) := mkBackend (Some (one, before)) (Some one) false 3 0 false [] 0 0 0.
Definition served : BufferedStorageBackend (payload := bytes) (ledger := Z) :=
  mkBackend (Some (one, after)) (Some one) false 4 3 true (seqZ 2 62) 2 63 2.

Lemma ready_called : called config schema object decode ready.
Proof.
  eapply (called_prepare _ _ _ _ new one (Some before)); [by apply called_new|unfold is_u32; cbn; lia| |reflexivity].
  intros b [= <-]. apply unread_opened. by right.
Qed.

Lemma ready_fair : fair_wait config schema object (wait 3) ready.
Proof. intros r b [= <- <-]. exact after_fetched. Qed.

Lemma read_three : getLedgerRaw decode (wait 3) ready 3 = Some (served, Ok 3).
Proof. by vm_compute. Qed.

Lemma served_called : called config schema object decode served.
Proof. eapply called_get; [exact ready_called| |exact ready_fair|exact read_three]. unfold is_u32. lia. Qed.

(** The stream of ledger 3 yields it. *)
Lemma stream_in_order_witness :
  match RawLedgers decode config schema (fun _ => Some before) wait 1 one (fun x l => (l ++ [x], true)) [] with
  | Some (_, l) => l = [Ok 3] /\ exists m failure, l = (feed (fun x l => (l ++ [x], true)) (items chain 3 m failure) []).1
  | None => False
  end.
Proof.
  pose proof (stream_in_order config schema object decode chain 2 typed_ok eq_refl files_ok
    (fun _ => Some before) wait (fun x l => (l ++ [x], true)) 1 one []) as H.
  assert (E : exists w, RawLedgers decode config schema (fun _ => Some before) wait 1 one
    (fun x l => (l ++ [x], true)) [] = Some (w, [Ok 3])) by (by eexists; vm_compute).
  destruct E as [w E]. rewrite E in *. split; [reflexivity|].
  destruct H as [[H _]|(m & failure & H & _)].
  - unfold is_u32. cbn. lia.
  - cbn. lia.
  - cbn. lia.
  - discriminate.
  - intros b [= <-]. apply unread_opened. by right.
  - exact wait_fair.
  - discriminate H.
  - exists m, failure. exact H.
Defined.
End Sample.
