(* ===== verification/BucketReader.v ===== *)
(** * The checkpoint reader

    src/ingest/checkpoint_change_reader.go: the entries of a bucket list, newest
    bucket first, remembering the keys that newer buckets settle; and the channel
    between the goroutine that streams them and the reader. The archive is a class
    of operations; the records of a bucket are what [readBucketRecord] returns for
    them, after its retries. Progress counts are left out. *)
From Stdlib Require Import ZArith Lia.
From stdpp Require Import base list vector option gmap relations sorting.
From S2P Require Import Prelude GoStd GoExt Price Encodings Strkey Asset LedgerEntries Checkpoints ArchiveState.
#[local] Open Scope Z_scope.
#[local] Open Scope go_scope.

(** ** Data *)
Abbreviation BucketListTypeLive := 0.
Abbreviation BucketListTypeHotArchive := 1.

Section Data.
Context {ET : EntryTypes}.

(** The arms of the unions; the last one stands for a type without a name. *)
Inductive BucketEntry : Type :=
| BucketLive (liveEntry : LedgerEntry)
| BucketInit (liveEntry : LedgerEntry)
| BucketDead (deadEntry : LedgerKey)
| BucketMeta (ledgerVersion : Z) (bucketListType : option Z)
| BucketUnknown (typ : Z).

Inductive HotArchiveBucketEntry : Type :=
| HotArchived (archivedEntry : LedgerEntry)
| HotLive (key : LedgerKey)
| HotMeta (ledgerVersion : Z) (bucketListType : option Z)
| HotUnknown (typ : Z).
End Data.

(** What opening a bucket gives: its records up to the end or a record that cannot
    be read, whether its hash is the one it was opened by, and whether it closes. *)
Record bucket_stream (E A : Type) : Type := mkStream {
  records : list (result E A);
  ValidateHash : bool;
  Stream_Close : option E
}.
Arguments mkStream {E A}. Arguments records {E A}. Arguments ValidateHash {E A}. Arguments Stream_Close {E A}.

Class ArchiveInterface {ET : EntryTypes} := {
  archive_error : Type;
  BucketExists : bytes -> result archive_error bool;
  BucketSize : bytes -> result archive_error Z;
  GetXdrStreamForHash : bytes -> result archive_error (bucket_stream archive_error BucketEntry);
  GetHotXdrStreamForHash : bytes -> result archive_error (bucket_stream archive_error HotArchiveBucketEntry)
}.

Inductive checkpoint_error {E : Type} : Type :=
| ErrRecord (n : Z) (e : E)
| ErrMetaNotFirst (n : Z)
| ErrMetaMissing
| ErrMetaListTypeMissing
| ErrMetaListType (t : Z)
| ErrMarshal (n : Z)
| ErrInitVersion (n : Z)
| ErrUnknownEntry (typ n : Z)
| ErrOpenBucket (e : E)
| ErrBucketHash
| ErrCloseBucket (e : E)
| ErrListType (t : Z)
| ErrDecodeHash
| ErrBucketExists (e : E)
| ErrBucketMissing (hash : bytes)
| ErrBucketSize (e : E)
| ErrReaderClosed
| ErrContext.
Arguments checkpoint_error : clear implicits.

Section Reader.
Context {ET : EntryTypes} {CE : ContractEncoding} {AI : ArchiveInterface}.
Local Abbreviation error := (checkpoint_error archive_error).

Record CheckpointChangeReader : Type := mkReader {
  has : HistoryArchiveState;
  bucketListType : Z;
  ledgerEntryFilter : option (LedgerEntry -> bool);
  ledgerKeyFilter : option (LedgerKey -> bool);
  disableBucketListHashValidation : bool
}.

(** The memory that decoded TTL entries live in. *)
Context (r : CheckpointChangeReader) (h : ttl_store).

Definition passes {A} (f : option (A -> bool)) (x : A) : bool := match f with Some f => f x | None => true end.

(** ** The records of a bucket *)

Definition validateLiveMetaEntry (index : Z) (listType : option Z) : option error :=
  if negb (index =? 0) then Some (ErrMetaNotFirst index)
  else match listType with
  | Some t => if t =? BucketListTypeLive then None else Some (ErrMetaListType t)
  | None => None
  end.

Definition validateHotArchiveMetaEntry (index : Z) (listType : option Z) : option error :=
  if negb (index =? 0) then Some (ErrMetaNotFirst index)
  else match listType with
  | Some t => if t =? BucketListTypeHotArchive then None else Some (ErrMetaListType t)
  | None => Some ErrMetaListTypeMissing
  end.

(** Claimable balances and offers are never created again with the same id. *)
Definition is_unique (key : LedgerKey) : bool :=
  match Key_Type key with LedgerEntryTypeClaimableBalance | LedgerEntryTypeOffer => true | _ => false end.

(** What a record does: it is passed over, it fails the stream, or it yields an
    entry or none and then leaves the visited keys as given. *)
Inductive record_action : Type :=
| Pass
| Fail_ (e : error)
| Visit (entry : option LedgerEntry) (visited : gset bytes).

(** A record of a live bucket. [None] is a panic, at a dangling TTL pointer. *)
Definition live_record (n version : Z) (oldestBucket : bool) (visited : gset bytes) (entry : BucketEntry) :
    option record_action :=
  let with_key (key : LedgerKey) (k : bytes -> bool -> record_action) :=
    match LedgerKeyUnsafeMarshalBinaryCompress key with
    | None => Some (Fail_ (ErrMarshal n))
    | Some keyBytes => Some (k keyBytes (is_unique key))
    end in
  match entry with
  | BucketMeta _ listType =>
      Some (match validateLiveMetaEntry n listType with Some e => Fail_ e | None => Pass end)
  | BucketLive liveEntry =>
      if negb (passes (ledgerEntryFilter r) liveEntry) then Some Pass
      else
        let! key := Entry_LedgerKey h liveEntry in
        with_key key (fun hk _ =>
          if bool_decide (hk ∈ visited) then Pass
          else Visit (Some liveEntry) (if oldestBucket then visited else {[hk]} ∪ visited))
  | BucketInit liveEntry =>
      if negb (passes (ledgerEntryFilter r) liveEntry) then Some Pass
      else
        let! key := Entry_LedgerKey h liveEntry in
        with_key key (fun hk unique =>
          if version <? 11 then Fail_ (ErrInitVersion n)
          else if bool_decide (hk ∈ visited) then
            if unique then Visit None (visited ∖ {[hk]}) else Pass
          else Visit (Some liveEntry) visited)
  | BucketDead key =>
      if negb (passes (ledgerKeyFilter r) key) then Some Pass
      else with_key key (fun hk _ => Visit None ({[hk]} ∪ visited))
  | BucketUnknown typ => Some (Fail_ (ErrUnknownEntry typ n))
  end.

(** The protocol version after a record. *)
Definition version_after (version : Z) (entry : BucketEntry) : Z :=
  match entry with BucketMeta v _ => v | _ => version end.

(** A record of a hot archive bucket, which begins with a meta entry. *)
Definition hot_record (n : Z) (oldestBucket : bool) (visited : gset bytes) (entry : HotArchiveBucketEntry) :
    option record_action :=
  let with_key (key : LedgerKey) (archived : option LedgerEntry) :=
    match LedgerKeyUnsafeMarshalBinaryCompress key with
    | None => Some (Fail_ (ErrMarshal n))
    | Some hk =>
        Some (if bool_decide (hk ∈ visited) then Pass
              else Visit archived (if oldestBucket then visited else {[hk]} ∪ visited))
    end in
  match entry with
  | HotMeta _ listType =>
      Some (match validateHotArchiveMetaEntry n listType with Some e => Fail_ e | None => Pass end)
  | _ =>
      if n =? 0 then Some (Fail_ ErrMetaMissing)
      else match entry with
      | HotArchived ledgerEntry =>
          if negb (passes (ledgerEntryFilter r) ledgerEntry) then Some Pass
          else
            let! key := Entry_LedgerKey h ledgerEntry in
            with_key key (Some ledgerEntry)
      | HotLive key =>
          if negb (passes (ledgerKeyFilter r) key) then Some Pass
          else with_key key None
      | HotMeta _ _ => Some Pass
      | HotUnknown typ => Some (Fail_ (ErrUnknownEntry typ n))
      end
  end.

(** ** Iterating over a bucket *)
Section Yield.
Context {S : Type} (yield : result error LedgerEntry -> S -> S * bool).

(** After a record: the visited keys, the state of the body, and whether to go on. *)
Definition run_action (visited : gset bytes) (s : S) (a : record_action) : gset bytes * S * bool :=
  match a with
  | Pass => (visited, s, true)
  | Fail_ e => (visited, (yield (Err e) s).1, false)
  | Visit None visited' => (visited', s, true)
  | Visit (Some entry) visited' =>
      let '(s, more) := yield (Ok entry) s in
      if more : bool then (visited', s, true) else (visited, s, false)
  end.

Fixpoint streamLiveBucket (oldestBucket : bool) (n version : Z) (rdr : list (result archive_error BucketEntry))
    (visited : gset bytes) (s : S) : option (gset bytes * S * bool) :=
  match rdr with
  | [] => Some (visited, s, true)
  | Err e :: _ => Some (visited, (yield (Err (ErrRecord n e)) s).1, false)
  | Ok entry :: rdr =>
      let version := version_after version entry in
      let! action := live_record n version oldestBucket visited entry in
      let '(visited, s, more) := run_action visited s action in
      if more : bool then streamLiveBucket oldestBucket (n + 1) version rdr visited s else Some (visited, s, false)
  end.

Fixpoint streamHotArchiveBucket (oldestBucket : bool) (n : Z) (rdr : list (result archive_error HotArchiveBucketEntry))
    (visited : gset bytes) (s : S) : option (gset bytes * S * bool) :=
  match rdr with
  | [] => Some (visited, s, true)
  | Err e :: _ => Some (visited, (yield (Err (ErrRecord n e)) s).1, false)
  | Ok entry :: rdr =>
      let! action := hot_record n oldestBucket visited entry in
      let '(visited, s, more) := run_action visited s action in
      if more : bool then streamHotArchiveBucket oldestBucket (n + 1) rdr visited s else Some (visited, s, false)
  end.

(** After the records: the hash, and closing. *)
Definition finish_bucket {A} (rdr : bucket_stream archive_error A) (visited : gset bytes) (s : S) : gset bytes * S * bool :=
  if negb (disableBucketListHashValidation r) && negb (ValidateHash rdr) then (visited, (yield (Err ErrBucketHash) s).1, false)
  else match Stream_Close rdr with
  | Some e => (visited, (yield (Err (ErrCloseBucket e)) s).1, false)
  | None => (visited, s, true)
  end.

Definition streamBucket (hash : bytes) (oldestBucket : bool) (visited : gset bytes) (s : S) :
    option (gset bytes * S * bool) :=
  if bucketListType r =? BucketListTypeLive then
    match GetXdrStreamForHash hash with
    | Err e => Some (visited, (yield (Err (ErrOpenBucket e)) s).1, false)
    | Ok rdr =>
        let! (visited, s, more) := streamLiveBucket oldestBucket 0 0 (records rdr) visited s in
        if more : bool then Some (finish_bucket rdr visited s) else Some (visited, s, false)
    end
  else
    match GetHotXdrStreamForHash hash with
    | Err e => Some (visited, (yield (Err (ErrOpenBucket e)) s).1, false)
    | Ok rdr =>
        if bucketListType r =? BucketListTypeHotArchive then
          let! (visited, s, more) := streamHotArchiveBucket oldestBucket 0 (records rdr) visited s in
          if more : bool then Some (finish_bucket rdr visited s) else Some (visited, s, false)
        else Some (visited, (yield (Err (ErrListType (bucketListType r))) s).1, false)
    end.

Fixpoint stream_buckets (buckets : list bytes) (visited : gset bytes) (s : S) : option S :=
  match buckets with
  | [] => Some s
  | hash :: buckets =>
      let oldestBucket := match buckets with [] => true | _ => false end in
      let! (visited, s, more) := streamBucket hash oldestBucket visited s in
      if more : bool then stream_buckets buckets visited s else Some s
  end.
End Yield.

(** ** The bucket list *)

(** The hashes that are not zero, newest first. *)
Fixpoint bucket_hashes (hashStrings : list bytes) : option (list bytes) :=
  match hashStrings with
  | [] => Some []
  | hashString :: hashStrings =>
      let! hash := DecodeHash hashString in
      let! rest := bucket_hashes hashStrings in
      Some (if IsZero hash then rest else hash :: rest)
  end.

Fixpoint check_buckets (buckets : list bytes) : option error :=
  match buckets with
  | [] => None
  | hash :: buckets =>
      match BucketExists hash with
      | Err e => Some (ErrBucketExists e)
      | Ok false => Some (ErrBucketMissing hash)
      | Ok true =>
          match BucketSize hash with
          | Err e => Some (ErrBucketSize e)
          | Ok _ => check_buckets buckets
          end
      end
  end.

(** [streamBucketList]: the state after the entries sent, and the error the reader
    is canceled with; [send] says whether an entry could be sent. *)
Definition streamBucketList {S : Type} (send : LedgerEntry -> S -> S * bool) (s : S) : option (S * option error) :=
  let list := if bucketListType r =? BucketListTypeLive then Some (CurrentBuckets (has r))
              else if bucketListType r =? BucketListTypeHotArchive then Some (HotArchiveBuckets (has r))
              else None in
  match list with
  | None => Some (s, Some (ErrListType (bucketListType r)))
  | Some list =>
      match bucket_hashes (flat_map (fun b => [Curr b; Snap b]) list) with
      | None => Some (s, Some ErrDecodeHash)
      | Some buckets =>
          match check_buckets buckets with
          | Some e => Some (s, Some e)
          | None =>
              stream_buckets (fun x '(s, failure) =>
                match x with
                | Err e => ((s, Some e), false)
                | Ok entry => let '(s, more) := send entry s in ((s, failure), more)
                end) buckets ∅ (s, None)
          end
      end
  end.
End Reader.

(** ** The channel between the producer and the reader *)

(** The producer has entries to send and then, if any, an error to cancel with; it
    returns and then closes the channel. *)
Inductive producer_phase : Type := Producing | Returning | Returned.

Section Channel.
Context {E X : Type}.

Record reader_state : Type := mkState {
  todo : list X;
  failure : option E;
  phase : producer_phase;
  readChan : list X;
  cause : option E  (* of the canceled context *)
}.

(** What [next] returns. *)
Inductive next_result : Type :=
| NextEntry (x : X)
| NextError (e : E)
| NextEOF.

Definition start (entries : list X) (failure : option E) : reader_state := mkState entries failure Producing [] None.
Definition cancel_with (s : reader_state) (e : E) : option E := Some (default e (cause s)).

Abbreviation msrBufferSize := 50000.

(** The steps, with the result of the call of [next] that a step is. *)
Inductive reader_step (s : reader_state) : option next_result -> reader_state -> Prop :=
| producer_send x rest :
    phase s = Producing -> todo s = x :: rest -> go_len (readChan s) < msrBufferSize ->
    reader_step s None (mkState rest (failure s) Producing (readChan s ++ [x]) (cause s))
| producer_stop :
    phase s = Producing -> is_Some (cause s) ->
    reader_step s None (mkState (todo s) (failure s) Returning (readChan s) (cause s))
| producer_end :
    phase s = Producing -> todo s = [] ->
    reader_step s None (mkState [] (failure s) Returning (readChan s)
      (match failure s with Some e => cancel_with s e | None => cause s end))
| producer_close :
    phase s = Returning ->
    reader_step s None (mkState (todo s) (failure s) Returned (readChan s) (cause s))
| cancel_reader e :
    reader_step s None (mkState (todo s) (failure s) (phase s) (readChan s) (cancel_with s e))
| next_entry x rest :
    readChan s = x :: rest ->
    reader_step s (Some (match cause s with None => NextEntry x | Some e => NextError e end))
      (mkState (todo s) (failure s) (phase s) rest (cause s))
| next_closed :
    phase s = Returned -> readChan s = [] ->
    reader_step s (Some (match cause s with None => NextEOF | Some e => NextError e end)) s
| next_done e :
    cause s = Some e -> reader_step s (Some (NextError e)) s.

(** The results of the calls, in order. *)
Inductive reader_run (s : reader_state) : list next_result -> reader_state -> Prop :=
| run_none : reader_run s [] s
| run_step l s1 r s2 :
    reader_run s l s1 -> reader_step s1 r s2 -> reader_run s (l ++ option_list r) s2.
End Channel.
