(* ===== verification/BucketReading.v ===== *)
(** * What the checkpoint reader reads

    Newest bucket first with a set of visited keys gives the same entries as the
    plain algorithm, oldest bucket first with a map of all entries. At the end, the
    constructors of src/ingest/checkpoint_change_reader.go and [VerifyBucketList],
    which compares the bucket lists a history archive claims with a trusted hash. *)
From Stdlib Require Import ZArith Lia.
From stdpp Require Import base list vector option gmap relations sorting.
From S2P Require Import Prelude GoStd GoExt Price Encodings Strkey Asset LedgerEntries Sha256 BucketReader Checkpoints ArchiveState.
#[local] Open Scope Z_scope.
#[local] Open Scope go_scope.

(** ** The two algorithms on operations by key *)
Section Ops.
Context {E : Type}.

Inductive op : Type :=
| OpPass
| OpLive (k : bytes) (e : E)
| OpInit (k : bytes) (e : E) (unique : bool)
| OpDead (k : bytes)
| OpGone (k : bytes)  (* of the hot archive: restored *).

Definition op_key (o : op) : option bytes :=
  match o with OpPass => None | OpLive k _ | OpInit k _ _ | OpDead k | OpGone k => Some k end.
Definition op_entry (o : op) : option E :=
  match o with OpLive _ e | OpInit _ e _ => Some e | _ => None end.
Definition op_keys (b : list op) : list bytes := omap op_key b.

(** The plain algorithm: a map, from the oldest bucket on. *)
Definition apply_op (m : gmap bytes E) (o : op) : gmap bytes E :=
  match o with
  | OpPass => m
  | OpLive k e | OpInit k e _ => <[k := e]> m
  | OpDead k | OpGone k => delete k m
  end.
Definition apply_bucket (b : list op) (m : gmap bytes E) : gmap bytes E := fold_left apply_op b m.
Definition live_state (bs : list (list op)) : gmap bytes E := foldr apply_bucket ∅ bs.

(** The reader's algorithm, on one operation, a bucket and a list of buckets. *)
Definition visit (oldest : bool) (V : gset bytes) (o : op) : gset bytes * list (bytes * E) :=
  match o with
  | OpPass => (V, [])
  | OpLive k e => if bool_decide (k ∈ V) then (V, []) else (if oldest then V else {[k]} ∪ V, [(k, e)])
  | OpInit k e unique =>
      if bool_decide (k ∈ V) then (if unique then V ∖ {[k]} else V, []) else (V, [(k, e)])
  | OpDead k => ({[k]} ∪ V, [])
  | OpGone k => (if oldest then V else {[k]} ∪ V, [])
  end.
Fixpoint visits (oldest : bool) (V : gset bytes) (b : list op) : gset bytes * list (bytes * E) :=
  match b with
  | [] => (V, [])
  | o :: b => let '(V, out) := visit oldest V o in let '(V, out') := visits oldest V b in (V, out ++ out')
  end.
Fixpoint visit_all (V : gset bytes) (bs : list (list op)) : list (bytes * E) :=
  match bs with
  | [] => []
  | b :: bs => let '(V, out) := visits (match bs with [] => true | _ => false end) V b in out ++ visit_all V bs
  end.

(** The operation of a bucket on a key, and the newest of a list of buckets. *)
Fixpoint find_op (k : bytes) (b : list op) : option op :=
  match b with
  | [] => None
  | o :: b => if decide (op_key o = Some k) then Some o else find_op k b
  end.
Fixpoint newest (k : bytes) (bs : list (list op)) : option op :=
  match bs with
  | [] => None
  | b :: bs => match find_op k b with Some o => Some o | None => newest k bs end
  end.

(** Buckets, newest first, as the protocol has them: a bucket has one record of a
    key, and one that says that it creates an entry has no older entry, and, if the
    key cannot come back, no older record at all (CAP-20). *)
Fixpoint well_formed (bs : list (list op)) : Prop :=
  match bs with
  | [] => True
  | b :: bs =>
      NoDup (op_keys b) /\
      (forall k e unique, OpInit k e unique ∈ b ->
        newest k bs = None \/ (newest k bs = Some (OpDead k) /\ unique = false)) /\
      well_formed bs
  end.

Lemma op_keys_cons o b : op_keys (o :: b) = match op_key o with Some k => k :: op_keys b | None => op_keys b end.
Proof. unfold op_keys. cbn. by destruct (op_key o). Qed.

Lemma find_op_Some k b o : find_op k b = Some o -> o ∈ b /\ op_key o = Some k.
Proof.
  induction b as [|o' b IH]; [done|]. cbn. destruct (decide (op_key o' = Some k)) as [Ek|].
  - intros [= <-]. split; [left|done].
  - intros H. destruct (IH H). split; [by right|done].
Qed.

Lemma find_op_None k b : find_op k b = None <-> k ∉ op_keys b.
Proof.
  induction b as [|o b IH]; [cbn; split; [intros _ H; inversion H|done]|]. rewrite op_keys_cons. cbn.
  destruct (decide (op_key o = Some k)) as [Ek|Nk].
  - rewrite Ek. split; [done|]. intros H. destruct H. left.
  - rewrite IH. destruct (op_key o) as [k'|]; [|done]. rewrite not_elem_of_cons. naive_solver.
Qed.

Lemma NoDup_op_tail o b : NoDup (op_keys (o :: b)) -> NoDup (op_keys b).
Proof. rewrite op_keys_cons. destruct (op_key o); [|done]. by intros [_ H]%NoDup_cons. Qed.

(** A bucket only changes the keys it has. *)
Lemma apply_bucket_lookup b m k : NoDup (op_keys b) ->
  apply_bucket b m !! k = match find_op k b with Some o => op_entry o | None => m !! k end.
Proof.
  unfold apply_bucket. revert m. induction b as [|o b IH]; intros m HN; [done|]. cbn [fold_left find_op].
  rewrite IH by (by eapply NoDup_op_tail). rewrite op_keys_cons in HN.
  destruct (decide (op_key o = Some k)) as [Ek|Nk].
  - rewrite Ek in HN. apply NoDup_cons in HN as [Hk _]. apply find_op_None in Hk. rewrite Hk.
    destruct o; try done; injection Ek as ->; cbn; by simplify_map_eq.
  - destruct (find_op k b); [done|]. destruct o; cbn in *; try done; by rewrite ?lookup_insert_ne, ?lookup_delete_ne by congruence.
Qed.

Lemma live_state_lookup bs k : well_formed bs ->
  live_state bs !! k = match newest k bs with Some o => op_entry o | None => None end.
Proof.
  induction bs as [|b bs IH]; [done|]. intros (HN & _ & Hw). cbn [live_state foldr newest].
  rewrite apply_bucket_lookup by done. destruct (find_op k b); [done|]. by apply IH.
Qed.

(** *** One bucket *)

(** The keys visited after an operation on the key. *)
Definition visited_after (oldest : bool) (o : op) (before : Prop) : Prop :=
  match o with
  | OpPass => before
  | OpLive _ _ => before \/ oldest = false
  | OpInit _ _ unique => before /\ unique = false
  | OpDead _ => True
  | OpGone _ => before \/ oldest = false
  end.

Lemma visit_spec oldest V o V' out : visit oldest V o = (V', out) ->
  (forall k, op_key o <> Some k -> k ∈ V' <-> k ∈ V) /\
  (forall k, op_key o = Some k -> k ∈ V' <-> visited_after oldest o (k ∈ V)) /\
  out = match op_key o, op_entry o with Some k, Some e => if bool_decide (k ∈ V) then [] else [(k, e)] | _, _ => [] end.
Proof.
  destruct o as [|k e|k e unique|k|k]; cbn.
  - intros [= <- <-]. split; [done|]. split; [done|done].
  - case_bool_decide as Hk; intros [= <- <-].
    + split; [done|]. split; [intros ? [= <-]; naive_solver|done].
    + split; [intros k' Hne; destruct oldest; set_solver|]. split; [|done].
      intros ? [= <-]. destruct oldest; set_solver.
  - case_bool_decide as Hk; intros [= <- <-].
    + split; [intros k' Hne; destruct unique; set_solver|]. split; [|done].
      intros ? [= <-]. destruct unique; set_solver.
    + split; [done|]. split; [intros ? [= <-]; naive_solver|done].
  - intros [= <- <-]. split; [set_solver|]. split; [|done]. intros ? [= <-]. set_solver.
  - intros [= <- <-]. split; [intros k' Hne; destruct oldest; set_solver|]. split; [|done]. intros ? [= <-]. destruct oldest; set_solver.
Qed.

Lemma visits_spec oldest : forall b V V' out, NoDup (op_keys b) -> visits oldest V b = (V', out) ->
  (forall k, k ∈ V' <-> match find_op k b with Some o => visited_after oldest o (k ∈ V) | None => k ∈ V end) /\
  (forall k e, (k, e) ∈ out <-> k ∉ V /\ exists o, find_op k b = Some o /\ op_entry o = Some e) /\
  NoDup (out.*1).
Proof.
  induction b as [|o b IH]; intros V V' out HN.
  { intros [= <- <-]. split; [done|]. split; [|constructor]. intros k e. rewrite elem_of_nil. naive_solver. }
  cbn [visits]. destruct (visit oldest V o) as [V1 out1] eqn:E1. destruct (visits oldest V1 b) as [V2 out2] eqn:E2.
  intros [= <- <-]. pose proof (NoDup_op_tail o b HN) as HNb. rewrite op_keys_cons in HN.
  assert (Hkey : forall k, op_key o = Some k -> find_op k b = None).
  { intros k Ek. rewrite Ek in HN. apply NoDup_cons in HN as [Hk _]. by apply find_op_None. }
  destruct (visit_spec oldest V o V1 out1 E1) as (A1 & A2 & A3). destruct (IH V1 V2 out2 HNb E2) as (B1 & B2 & B3).
  split; [|split].
  - intros k. rewrite B1. cbn [find_op]. destruct (decide (op_key o = Some k)) as [Ek|Nk].
    + rewrite (Hkey k Ek). by apply A2.
    + specialize (A1 k Nk). destruct (find_op k b) as [o'|]; [|done]. destruct o'; cbn; tauto.
  - intros k e. rewrite elem_of_app, B2. cbn [find_op]. destruct (decide (op_key o = Some k)) as [Ek|Nk].
    + rewrite (Hkey k Ek), A3, Ek. split.
      * intros [H|(_ & ? & ? & _)]; [|done]. destruct (op_entry o) as [e'|] eqn:Ee; [|by apply elem_of_nil in H].
        case_bool_decide; [by apply elem_of_nil in H|]. apply list_elem_of_singleton in H as [= ->].
        split; [done|]. by exists o.
      * intros (Hk & o' & [= <-] & ->). left. rewrite bool_decide_eq_false_2 by done. by apply list_elem_of_singleton.
    + rewrite (A1 k Nk). assert ((k, e) ∈ out1 <-> False) as ->; [|naive_solver]. split; [|done]. rewrite A3.
      destruct (op_key o) as [k'|]; [|by intros ?%elem_of_nil]. destruct (op_entry o); [|by intros ?%elem_of_nil].
      case_bool_decide; [by intros ?%elem_of_nil|]. intros [= -> _]%list_elem_of_singleton. congruence.
  - rewrite fmap_app. apply NoDup_app. split; [|split; [|done]].
    + rewrite A3. destruct (op_key o), (op_entry o); try constructor. case_bool_decide; [constructor|apply NoDup_singleton].
    + intros k Hk Hk2. apply list_elem_of_fmap in Hk as ([k' e] & -> & Hin). cbn in *.
      apply list_elem_of_fmap in Hk2 as ([k2 e2] & E' & Hin2). cbn in E'. subst k2.
      apply B2 in Hin2 as (_ & o' & Ho' & _). rewrite A3 in Hin. destruct (op_key o) as [k0|] eqn:Ek; [|by apply elem_of_nil in Hin].
      destruct (op_entry o); [|by apply elem_of_nil in Hin]. case_bool_decide; [by apply elem_of_nil in Hin|].
      apply list_elem_of_singleton in Hin as [= -> _]. rewrite (Hkey k0 eq_refl) in Ho'. done.
Qed.

(** *** All buckets *)
Lemma visit_all_spec : forall bs V, well_formed bs ->
  (forall k e, (k, e) ∈ visit_all V bs <-> k ∉ V /\ exists o, newest k bs = Some o /\ op_entry o = Some e) /\
  NoDup ((visit_all V bs).*1).
Proof.
  induction bs as [|b bs IH]; intros V Hw.
  { split; [|constructor]. intros k e. cbn. rewrite elem_of_nil. naive_solver. }
  destruct Hw as (HN & Hinit & Hw). cbn [visit_all]. set (oldest := match bs with [] => true | _ => false end).
  destruct (visits oldest V b) as [V1 out] eqn:Ev. destruct (visits_spec oldest b V V1 out HN Ev) as (A1 & A2 & A3).
  destruct (IH V1 Hw) as [B1 B2].
  (* what a bucket settles, no older bucket yields *)
  assert (Hsettled : forall k o e, find_op k b = Some o -> (k, e) ∉ visit_all V1 bs).
  { intros k o e Ho Hin. apply B1 in Hin as (Hk & o' & Hn & He). rewrite (A1 k), Ho in Hk.
    apply find_op_Some in Ho as [Hob Ek]. destruct o as [|k' e'|k' e' unique|k'|k']; cbn in *; try done.
    - destruct oldest eqn:Eo; [|naive_solver]. subst oldest. destruct bs; [|done]. done.
    - injection Ek as ->. destruct (Hinit k e' unique Hob) as [Hnone|[Hdead ->]]; [congruence|].
      rewrite Hdead in Hn. injection Hn as <-. done.
    - destruct oldest eqn:Eo; [|naive_solver]. subst oldest. destruct bs; [|done]. done. }
  split.
  - intros k e. rewrite elem_of_app, A2. cbn [newest]. destruct (find_op k b) as [o|] eqn:Ho.
    + split.
      * intros [H|H]; [done|]. by apply (Hsettled k o e) in H.
      * intros H. by left.
    + rewrite B1, (A1 k), Ho. naive_solver.
  - rewrite fmap_app. apply NoDup_app. split; [done|]. split; [|done]. intros k Hk Hk2.
    apply list_elem_of_fmap in Hk as ([k' e] & -> & Hin). apply list_elem_of_fmap in Hk2 as ([k2 e2] & E' & Hin2).
    cbn in *. subst k2. apply A2 in Hin as (_ & o & Ho & _). by apply (Hsettled k' o e2) in Hin2.
Qed.

Lemma visit_all_live_state bs : well_formed bs -> visit_all ∅ bs ≡ₚ map_to_list (live_state bs).
Proof.
  intros Hw. destruct (visit_all_spec bs ∅ Hw) as [H1 H2]. apply NoDup_Permutation.
  - by apply (NoDup_fmap_1 fst).
  - apply NoDup_map_to_list.
  - intros [k e]. rewrite H1, elem_of_map_to_list, live_state_lookup by done. destruct (newest k bs); [|set_solver].
    split; [naive_solver|]. intros He. split; [set_solver|]. by eexists.
Qed.
End Ops.

(** ** Filters by key *)
Section Filter.
Context {E : Type} (keep : bytes -> bool).

Definition filter_op (o : op (E:=E)) : op :=
  match op_key o with Some k => if keep k then o else OpPass | None => OpPass end.

Lemma find_filter_op k b : find_op k (map filter_op b) = if keep k then find_op k b else None.
Proof.
  induction b as [|o b IH]; cbn; [by destruct (keep k)|]. rewrite IH. unfold filter_op.
  destruct (op_key o) as [k'|] eqn:Ek; [|by rewrite decide_False by done].
  destruct (decide (k' = k)) as [->|Hne].
  - rewrite (decide_True (P:=Some k = Some k)) by done. destruct (keep k); [by rewrite Ek, decide_True|].
    by rewrite decide_False.
  - rewrite (decide_False (P:=Some k' = Some k)) by congruence. destruct (keep k'); [|by rewrite decide_False].
    by rewrite decide_False by congruence.
Qed.

Lemma newest_filter_op k bs : newest k (map (map filter_op) bs) = if keep k then newest k bs else None.
Proof.
  induction bs as [|b bs IH]; cbn; [by destruct (keep k)|]. rewrite find_filter_op, IH. by destruct (keep k).
Qed.

Lemma op_keys_filter b : op_keys (map filter_op b) `sublist_of` op_keys b.
Proof.
  induction b as [|o b IH]; cbn [map]; [constructor|]. rewrite !op_keys_cons. unfold filter_op at 1.
  destruct (op_key o) as [k|] eqn:Ek; [|done]. destruct (keep k); [rewrite Ek|]; by constructor.
Qed.

Lemma filter_op_Init o k (e : E) unique : filter_op o = OpInit k e unique -> o = OpInit k e unique /\ keep k = true.
Proof.
  unfold filter_op. destruct (op_key o) as [k'|] eqn:Ek; [|done]. destruct (keep k') eqn:Ekeep; [|done].
  intros ->. cbn in Ek. by injection Ek as ->.
Qed.

Lemma well_formed_filter bs : well_formed bs -> well_formed (map (map filter_op) bs).
Proof.
  induction bs as [|b bs IH]; [done|]. intros (HN & Hinit & Hw). cbn [map well_formed].
  split; [eapply sublist_NoDup; [done|apply op_keys_filter]|]. split; [|by apply IH].
  intros k e unique Hin. apply list_elem_of_fmap in Hin as (o & Eo & Hin). symmetry in Eo.
  apply filter_op_Init in Eo as [-> Hk]. rewrite newest_filter_op, Hk. by eapply Hinit.
Qed.

Lemma live_state_filter bs : well_formed bs ->
  live_state (map (map filter_op) bs) = filter (fun '(k, _) => keep k = true) (live_state bs).
Proof.
  intros Hw. apply map_eq. intros k. rewrite live_state_lookup by (by apply well_formed_filter).
  rewrite newest_filter_op. apply option_eq. intros e. rewrite map_lookup_filter_Some, live_state_lookup by done.
  destruct (keep k); [|naive_solver]. naive_solver.
Qed.
End Filter.

(** ** What a checkpoint reader delivers

    The records of a bucket as operations by key; the entries the checkpoint reader
    streams are those of the live state of its bucket list; and what calls of [Read]
    return, through the channel. *)
Section Records.
Context {ET : EntryTypes} {CE : ContractEncoding} {AI : ArchiveInterface}.
Local Abbreviation error := (checkpoint_error archive_error).
Context (r : CheckpointChangeReader) (h : ttl_store).

(** The string an entry and a key are known by. *)
Definition key_string (key : LedgerKey) : option bytes := LedgerKeyUnsafeMarshalBinaryCompress key.
Definition entry_string (e : LedgerEntry) : option bytes := let! key := Entry_LedgerKey h e in key_string key.

(** The operation that a record stands for; [None] if the record is not one of a
    bucket of the kind, or has no key string. *)
Definition live_op (n version : Z) (entry : BucketEntry) : option (op (E:=LedgerEntry)) :=
  match entry with
  | BucketMeta _ listType => if validateLiveMetaEntry n listType then None else Some OpPass
  | BucketLive e => let! k := entry_string e in Some (OpLive k e)
  | BucketInit e =>
      if version <? 11 then None
      else let! key := Entry_LedgerKey h e in let! k := key_string key in Some (OpInit k e (is_unique key))
  | BucketDead key => let! k := key_string key in Some (OpDead k)
  | BucketUnknown _ => None
  end.

Definition hot_op (n : Z) (entry : HotArchiveBucketEntry) : option (op (E:=LedgerEntry)) :=
  match entry with
  | HotMeta _ listType => if validateHotArchiveMetaEntry n listType then None else Some OpPass
  | HotArchived e => if n =? 0 then None else let! k := entry_string e in Some (OpLive k e)
  | HotLive key => if n =? 0 then None else let! k := key_string key in Some (OpGone k)
  | HotUnknown _ => None
  end.

Fixpoint live_ops (n version : Z) (rdr : list (result archive_error BucketEntry)) : option (list (op (E:=LedgerEntry))) :=
  match rdr with
  | [] => Some []
  | Err _ :: _ => None
  | Ok entry :: rdr =>
      let! o := live_op n (version_after version entry) entry in
      let! ops := live_ops (n + 1) (version_after version entry) rdr in
      Some (o :: ops)
  end.

Fixpoint hot_ops (n : Z) (rdr : list (result archive_error HotArchiveBucketEntry)) : option (list (op (E:=LedgerEntry))) :=
  match rdr with
  | [] => Some []
  | Err _ :: _ => None
  | Ok entry :: rdr =>
      let! o := hot_op n entry in
      let! ops := hot_ops (n + 1) rdr in
      Some (o :: ops)
  end.

(** A bucket of the list: it exists, it can be opened, closed and read to its end,
    its hash is right or not validated, and its records are [ops]. *)
Definition intact {A} (rdr : bucket_stream archive_error A) : Prop :=
  (disableBucketListHashValidation r = true \/ ValidateHash rdr = true) /\ Stream_Close rdr = None.

Definition bucket_read (hash : bytes) (ops : list (op (E:=LedgerEntry))) : Prop :=
  if bucketListType r =? BucketListTypeLive then
    exists rdr, GetXdrStreamForHash hash = Ok rdr /\ live_ops 0 0 (records rdr) = Some ops /\ intact rdr
  else exists rdr, GetHotXdrStreamForHash hash = Ok rdr /\ hot_ops 0 (records rdr) = Some ops /\ intact rdr.

Definition bucket_there (hash : bytes) : Prop :=
  BucketExists hash = Ok true /\ exists size, BucketSize hash = Ok size.

(** The filters decide by the key. *)
Context (keep : bytes -> bool).
Definition filters_by_key : Prop :=
  (forall e k, entry_string e = Some k -> passes (ledgerEntryFilter r) e = keep k) /\
  (forall key k, key_string key = Some k -> passes (ledgerKeyFilter r) key = keep k).
Context (Hkeep : filters_by_key).

(** ** Streaming into a list *)
Definition append (e : LedgerEntry) (l : list LedgerEntry) : list LedgerEntry * bool := (l ++ [e], true).
Definition collect (x : result error LedgerEntry) (s : list LedgerEntry * option error) :
    (list LedgerEntry * option error) * bool :=
  let '(l, failure) := s in
  match x with
  | Err e => ((l, Some e), false)
  | Ok entry => ((l ++ [entry], failure), true)
  end.

(** A record does what its operation says, on a kept key; else it is passed over. *)
Ltac run_record Es :=
  unfold key_string in Es; rewrite ?Es; eexists; (split; [reflexivity|]);
  repeat case_bool_decide; cbn; repeat case_match; cbn; by rewrite ?app_nil_r.

Lemma live_record_visit n version oldest V entry o s : live_op n version entry = Some o ->
  exists a, live_record r h n version oldest V entry = Some a /\
    run_action collect V s a =
      let '(V', out) := visit oldest V (filter_op keep o) in (V', (s.1 ++ out.*2, s.2), true).
Proof.
  destruct s as [l f]. destruct Hkeep as [Hke Hkk]. destruct entry as [e|e|key|v t|t]; cbn [live_op live_record]; [| | | |done].
  - destruct (entry_string e) as [k|] eqn:Es; [|done]. intros [= <-]. rewrite (Hke e k Es). unfold filter_op; cbn [op_key].
    destruct (keep k); cbn; [|by eexists; rewrite app_nil_r]. unfold entry_string in Es.
    destruct (Entry_LedgerKey h e) as [key|]; [|done]. run_record Es.
  - destruct (version <? 11) eqn:Ev; [done|]. destruct (Entry_LedgerKey h e) as [key|] eqn:Ek; [|done].
    destruct (key_string key) as [k|] eqn:Es; [|done]. intros [= <-]. rewrite (Hke e k) by (unfold entry_string; by rewrite Ek).
    unfold filter_op; cbn [op_key]. destruct (keep k); cbn; [|by eexists; rewrite app_nil_r]. run_record Es.
  - destruct (key_string key) as [k|] eqn:Es; [|done]. intros [= <-]. rewrite (Hkk key k Es). unfold filter_op; cbn [op_key].
    destruct (keep k); cbn; [|by eexists; rewrite app_nil_r]. run_record Es.
  - destruct (validateLiveMetaEntry n t); [done|]. intros [= <-]. eexists. split; [done|]. cbn. by rewrite app_nil_r.
Qed.

Lemma hot_record_visit n oldest V entry o s : hot_op n entry = Some o ->
  exists a, hot_record r h n oldest V entry = Some a /\
    run_action collect V s a =
      let '(V', out) := visit oldest V (filter_op keep o) in (V', (s.1 ++ out.*2, s.2), true).
Proof.
  destruct s as [l f]. destruct Hkeep as [Hke Hkk]. destruct entry as [e|key|v t|t]; cbn [hot_op hot_record]; [| | |done].
  - destruct (n =? 0); [done|]. destruct (entry_string e) as [k|] eqn:Es; [|done]. intros [= <-]. rewrite (Hke e k Es).
    unfold filter_op; cbn [op_key]. destruct (keep k); cbn; [|by eexists; rewrite app_nil_r]. unfold entry_string in Es.
    destruct (Entry_LedgerKey h e) as [key|]; [|done]. run_record Es.
  - destruct (n =? 0); [done|]. destruct (key_string key) as [k|] eqn:Es; [|done]. intros [= <-]. rewrite (Hkk key k Es).
    unfold filter_op; cbn [op_key]. destruct (keep k); cbn; [|by eexists; rewrite app_nil_r]. unfold key_string in Es. rewrite Es.
    eexists. split; [done|]. case_bool_decide; cbn; [|by rewrite app_nil_r].
    assert ({[k]} ∪ V = V) as -> by set_solver. by destruct oldest; rewrite app_nil_r.
  - destruct (validateHotArchiveMetaEntry n t); [done|]. intros [= <-]. eexists. split; [done|]. cbn. by rewrite app_nil_r.
Qed.

Lemma streamLiveBucket_visits oldest : forall rdr n version V s ops, live_ops n version rdr = Some ops ->
  streamLiveBucket r h collect oldest n version rdr V s =
    let '(V', out) := visits oldest V (map (filter_op keep) ops) in Some (V', (s.1 ++ out.*2, s.2), true).
Proof.
  induction rdr as [|[entry|e] rdr IH]; intros n version V [l f] ops; [|cbn|done].
  { intros [= <-]. cbn. by rewrite app_nil_r. }
  destruct (live_op n (version_after version entry) entry) as [o|] eqn:Eo; [|done].
  destruct (live_ops (n + 1) (version_after version entry) rdr) as [ops'|] eqn:Eops; [|done]. intros [= <-].
  destruct (live_record_visit n _ oldest V entry o (l, f) Eo) as (a & -> & Ha). cbn. rewrite Ha.
  destruct (visit oldest V (filter_op keep o)) as [V1 out1]. rewrite (IH _ _ _ _ _ Eops).
  destruct (visits oldest V1 _) as [V2 out2]. cbn. by rewrite fmap_app, app_assoc.
Qed.

Lemma streamHotArchiveBucket_visits oldest : forall rdr n V s ops, hot_ops n rdr = Some ops ->
  streamHotArchiveBucket r h collect oldest n rdr V s =
    let '(V', out) := visits oldest V (map (filter_op keep) ops) in Some (V', (s.1 ++ out.*2, s.2), true).
Proof.
  induction rdr as [|[entry|e] rdr IH]; intros n V [l f] ops; [|cbn|done].
  { intros [= <-]. cbn. by rewrite app_nil_r. }
  destruct (hot_op n entry) as [o|] eqn:Eo; [|done]. destruct (hot_ops (n + 1) rdr) as [ops'|] eqn:Eops; [|done]. intros [= <-].
  destruct (hot_record_visit n oldest V entry o (l, f) Eo) as (a & -> & Ha). cbn. rewrite Ha.
  destruct (visit oldest V (filter_op keep o)) as [V1 out1]. rewrite (IH _ _ _ _ Eops).
  destruct (visits oldest V1 _) as [V2 out2]. cbn. by rewrite fmap_app, app_assoc.
Qed.

Lemma streamBucket_visits hash oldest V s ops :
  bucketListType r = BucketListTypeLive \/ bucketListType r = BucketListTypeHotArchive -> bucket_read hash ops ->
  streamBucket r h collect hash oldest V s =
    let '(V', out) := visits oldest V (map (filter_op keep) ops) in Some (V', (s.1 ++ out.*2, s.2), true).
Proof.
  intros Ht. unfold streamBucket, bucket_read. destruct (bucketListType r =? BucketListTypeLive) eqn:El.
  - intros (rdr & -> & Hops & Hv & Hc). rewrite (streamLiveBucket_visits oldest _ _ _ _ _ _ Hops).
    destruct (visits _ _ _) as [V' out]. cbn. unfold finish_bucket. rewrite Hc. by destruct Hv as [->| ->]; rewrite ?andb_false_r.
  - intros (rdr & -> & Hops & Hv & Hc). replace (bucketListType r =? BucketListTypeHotArchive) with true by lia.
    rewrite (streamHotArchiveBucket_visits oldest _ _ _ _ _ Hops).
    destruct (visits _ _ _) as [V' out]. cbn. unfold finish_bucket. rewrite Hc. by destruct Hv as [->| ->]; rewrite ?andb_false_r.
Qed.

Lemma stream_buckets_visits buckets opss V s :
  bucketListType r = BucketListTypeLive \/ bucketListType r = BucketListTypeHotArchive ->
  Forall2 bucket_read buckets opss ->
  stream_buckets r h collect buckets V s = Some (s.1 ++ (visit_all V (map (map (filter_op keep)) opss)).*2, s.2).
Proof.
  intros Ht HF. revert V s. induction HF as [|hash ops buckets opss Hr HF IH]; intros V s.
  { cbn. rewrite app_nil_r. by destruct s. }
  cbn [stream_buckets]. rewrite (streamBucket_visits _ _ _ _ _ Ht Hr). cbn [map visit_all].
  assert (match buckets with [] => true | _ => false end =
    match map (map (filter_op keep)) opss with [] => true | _ => false end) as -> by (by destruct HF).
  destruct (visits _ _ _) as [V' out]. rewrite IH. cbn. by rewrite fmap_app, app_assoc.
Qed.

Lemma check_buckets_there buckets : Forall bucket_there buckets <-> check_buckets buckets = None.
Proof.
  induction buckets as [|hash buckets IH]; [done|]. rewrite Forall_cons, IH. cbn. unfold bucket_there.
  destruct (BucketExists hash) as [[|]|e]; [|naive_solver|naive_solver]. destruct (BucketSize hash) as [z|e]; naive_solver.
Qed.

(** The bucket list that is streamed, and its buckets, newest first. *)
Definition selected_list : option (list BucketLevel) :=
  if bucketListType r =? BucketListTypeLive then Some (CurrentBuckets (has r))
  else if bucketListType r =? BucketListTypeHotArchive then Some (HotArchiveBuckets (has r))
  else None.
Definition selected_buckets : option (list bytes) :=
  let! levels := selected_list in bucket_hashes (flat_map (fun b => [Curr b; Snap b]) levels).

Lemma selected_type buckets : selected_buckets = Some buckets ->
  bucketListType r = BucketListTypeLive \/ bucketListType r = BucketListTypeHotArchive.
Proof.
  unfold selected_buckets, selected_list. destruct (bucketListType r =? BucketListTypeLive) eqn:E; [lia|].
  destruct (bucketListType r =? BucketListTypeHotArchive) eqn:E'; [lia|done].
Qed.

Lemma streamBucketList_selected : streamBucketList r h append [] =
  match selected_buckets with
  | None => Some ([], Some (if selected_list then ErrDecodeHash else ErrListType (bucketListType r)))
  | Some buckets =>
      match check_buckets buckets with Some e => Some ([], Some e) | None => stream_buckets r h collect buckets ∅ ([], None) end
  end.
Proof.
  unfold streamBucketList, selected_buckets, selected_list. repeat case_match; simplify_eq/=; try done.
  all: repeat case_match; simplify_eq/=; done.
Qed.

(** C26: the checkpoint reader streams the live state. For buckets that are intact
    and whose records are those of a bucket list as CAP-20 has it, one pass from the
    newest bucket on, which remembers keys and skips INITENTRY keys, claimable
    balances and offers, streams without an error the entries that the plain
    algorithm, oldest bucket first with a map of all entries, has left at the end:
    each once, and those whose key the filters keep. *)
Theorem checkpoint_streams_live_state buckets opss :
  selected_buckets = Some buckets -> Forall bucket_there buckets -> Forall2 bucket_read buckets opss -> well_formed opss ->
  exists entries, streamBucketList r h append [] = Some (entries, None) /\
    entries ≡ₚ (map_to_list (filter (fun '(k, _) => keep k = true) (live_state opss))).*2.
Proof.
  intros Hb Hthere Hread Hw. rewrite streamBucketList_selected, Hb. apply check_buckets_there in Hthere. rewrite Hthere.
  rewrite (stream_buckets_visits buckets opss ∅ ([], None)) by (done || by eapply selected_type). eexists. split; [done|].
  cbn. by rewrite visit_all_live_state, live_state_filter by (done || by apply well_formed_filter).
Qed.
End Records.

(** ** What the end of the stream vouches for *)
Section Verified.
Context {ET : EntryTypes} {CE : ContractEncoding} {AI : ArchiveInterface}.
Local Abbreviation error := (checkpoint_error archive_error).
Context (r : CheckpointChangeReader) (h : ttl_store).

Definition was_read {A} (x : result archive_error A) : Prop := exists a, x = Ok a.

Definition bucket_verified (hash : bytes) : Prop :=
  bucket_there hash /\
  if bucketListType r =? BucketListTypeLive then
    exists rdr, GetXdrStreamForHash hash = Ok rdr /\ Forall was_read (records rdr) /\ intact r rdr
  else exists rdr, GetHotXdrStreamForHash hash = Ok rdr /\ Forall was_read (records rdr) /\ intact r rdr.

(** Streaming into a list stops at the first failure and only there. *)
Definition stopped (more : bool) (failure : option error) (P : Prop) : Prop :=
  if more then failure = None /\ P else is_Some failure.

Lemma run_action_collect V l a V' l' f more :
  run_action collect V (l, None) a = (V', (l', f), more) -> stopped more f True.
Proof. destruct a as [|e|[e|] W]; cbn; intros; simplify_eq; cbn; eauto. Qed.

Lemma streamLiveBucket_verified oldest : forall rdr n version V l V' l' f more,
  streamLiveBucket r h collect oldest n version rdr V (l, None) = Some (V', (l', f), more) ->
  stopped more f (Forall was_read rdr).
Proof.
  induction rdr as [|[entry|e] rdr IH]; intros n version V l V' l' f more; [by intros [= -> -> <- <-]| |cbn; intros; simplify_eq; cbn; eauto].
  cbn. destruct (live_record _ _ _ _ _ _ _) as [a|]; [|done]. cbn.
  destruct (run_action collect V (l, None) a) as [[V1 [l1 f1]] m1] eqn:Ea. apply run_action_collect in Ea.
  destruct m1; cbn in Ea; [|intros; by simplify_eq]. destruct Ea as [-> _]. intros H. apply IH in H.
  destruct more; [|done]. destruct H as [-> H]. split; [done|]. constructor; [by eexists|done].
Qed.

Lemma streamHotArchiveBucket_verified oldest : forall rdr n V l V' l' f more,
  streamHotArchiveBucket r h collect oldest n rdr V (l, None) = Some (V', (l', f), more) ->
  stopped more f (Forall was_read rdr).
Proof.
  induction rdr as [|[entry|e] rdr IH]; intros n V l V' l' f more; [by intros [= -> -> <- <-]| |cbn; intros; simplify_eq; cbn; eauto].
  cbn. destruct (hot_record _ _ _ _ _ _) as [a|]; [|done]. cbn.
  destruct (run_action collect V (l, None) a) as [[V1 [l1 f1]] m1] eqn:Ea. apply run_action_collect in Ea.
  destruct m1; cbn in Ea; [|intros; by simplify_eq]. destruct Ea as [-> _]. intros H. apply IH in H.
  destruct more; [|done]. destruct H as [-> H]. split; [done|]. constructor; [by eexists|done].
Qed.

Lemma finish_bucket_verified {A} (rdr : bucket_stream archive_error A) V l V' l' f more :
  finish_bucket r collect rdr V (l, None) = (V', (l', f), more) -> stopped more f (intact r rdr).
Proof.
  unfold finish_bucket, intact. destruct (disableBucketListHashValidation r), (ValidateHash rdr); cbn;
    destruct (Stream_Close rdr); cbn; intros; simplify_eq; cbn; by eauto.
Qed.

(** After the records: [streamBucket] on either kind of bucket. *)
Lemma finish_verified {A} (rdr : bucket_stream archive_error A) V1 l1 f1 m1 V' l' f more :
  stopped m1 f1 (Forall was_read (records rdr)) ->
  (if m1 : bool then Some (finish_bucket r collect rdr V1 (l1, f1)) else Some (V1, (l1, f1), false)) = Some (V', (l', f), more) ->
  stopped more f (Forall was_read (records rdr) /\ intact r rdr).
Proof.
  destruct m1; cbn; [|intros; by simplify_eq]. intros [-> Hr] [= H]. apply finish_bucket_verified in H.
  destruct more; [|done]. by destruct H as [-> H].
Qed.

Lemma streamBucket_verified hash oldest V l V' l' f more : bucket_there hash ->
  bucketListType r = BucketListTypeLive \/ bucketListType r = BucketListTypeHotArchive ->
  streamBucket r h collect hash oldest V (l, None) = Some (V', (l', f), more) ->
  stopped more f (bucket_verified hash).
Proof.
  intros Hthere Ht. unfold streamBucket, bucket_verified. destruct (bucketListType r =? BucketListTypeLive) eqn:El.
  - destruct (GetXdrStreamForHash hash) as [rdr|e]; [|cbn; intros; simplify_eq; cbn; eauto].
    destruct (streamLiveBucket _ _ _ _ _ _ _ _ _) as [[[V1 [l1 f1]] m1]|] eqn:Es; [|done]. cbn.
    apply streamLiveBucket_verified in Es. intros H. apply finish_verified in H; [|done].
    destruct more; [|done]. destruct H as [-> []]. split; [done|]. eauto.
  - replace (bucketListType r =? BucketListTypeHotArchive) with true by lia.
    destruct (GetHotXdrStreamForHash hash) as [rdr|e]; [|cbn; intros; simplify_eq; cbn; eauto].
    destruct (streamHotArchiveBucket _ _ _ _ _ _ _ _) as [[[V1 [l1 f1]] m1]|] eqn:Es; [|done]. cbn.
    apply streamHotArchiveBucket_verified in Es. intros H. apply finish_verified in H; [|done].
    destruct more; [|done]. destruct H as [-> []]. split; [done|]. eauto.
Qed.

Lemma stream_buckets_verified buckets V l l' :
  bucketListType r = BucketListTypeLive \/ bucketListType r = BucketListTypeHotArchive ->
  Forall bucket_there buckets -> stream_buckets r h collect buckets V (l, None) = Some (l', None) ->
  Forall bucket_verified buckets.
Proof.
  intros Ht HF. revert V l. induction HF as [|hash buckets Hh HF IH]; intros V l; [by constructor|]. cbn.
  destruct (streamBucket _ _ _ _ _ _ _) as [[[V1 [l1 f1]] m1]|] eqn:Es; [|done]. cbn.
  apply streamBucket_verified in Es; [|done|done]. destruct m1; cbn in Es.
  - destruct Es as [-> Hv]. intros H. constructor; [done|]. by eapply IH.
  - intros [= -> ->]. by destruct Es.
Qed.

Lemma streamBucketList_verified entries : streamBucketList r h append [] = Some (entries, None) ->
  exists buckets, selected_buckets r = Some buckets /\ Forall bucket_verified buckets.
Proof.
  rewrite streamBucketList_selected. destruct (selected_buckets r) as [buckets|] eqn:Eb; [|done].
  destruct (check_buckets buckets) eqn:Ec; [done|]. apply check_buckets_there in Ec. intros H. exists buckets. split; [done|].
  by eapply stream_buckets_verified; [eapply selected_type| |].
Qed.
End Verified.

(** ** Through the channel *)
Section Results.
Context {E X : Type}.
#[local] Abbreviation reader_state := (reader_state (E:=E) (X:=X)).
#[local] Abbreviation next_result := (next_result (E:=E) (X:=X)).

Definition delivered (l : list next_result) : list X := omap (fun r => match r with NextEntry x => Some x | _ => None end) l.

Record reader_inv (entries : list X) (fail : option E) (l : list next_result) (s : reader_state) : Prop := {
  inv_failure : failure s = fail;
  inv_prefix : delivered l `prefix_of` entries;
  inv_all : cause s = None -> entries = delivered l ++ readChan s ++ todo s;
  inv_end : cause s = None -> phase s <> Producing -> todo s = [] /\ fail = None;
  inv_error e : NextError e ∈ l -> cause s = Some e;
  inv_EOF : NextEOF ∈ l -> phase s = Returned /\ readChan s = [] /\ delivered l = entries /\ fail = None
}.

Lemma delivered_app l l' : delivered (l ++ l') = delivered l ++ delivered l'.
Proof. apply omap_app. Qed.

Lemma reader_inv_start entries fail : reader_inv entries fail [] (start entries fail).
Proof. split; cbn; try done; [apply prefix_nil|..]; intros; by (try set_solver). Qed.

Lemma reader_step_inv entries fail l s res s' :
  reader_inv entries fail l s -> reader_step s res s' -> reader_inv entries fail (l ++ option_list res) s'.
Proof.
  intros [Hf Hp Ha He Hx HE]. destruct 1 as [x rest Hph Ht Hl|Hph Hc|Hph Ht|Hph|e|x rest Hr|Hph Hr|e Hc]; cbn [option_list]; rewrite ?app_nil_r.
  - split; cbn; try done; [|intros Hin; destruct (HE Hin) as (? & _); congruence].
    intros Hc. rewrite (Ha Hc), Ht. by rewrite <- !app_assoc.
  - destruct Hc as [e Hc]. split; cbn; rewrite ?Hc in *; try done. intros Hin. destruct (HE Hin) as (? & _). congruence.
  - split; cbn; try done.
    + destruct (failure s); [done|]. intros Hc. rewrite (Ha Hc), Ht. by rewrite app_nil_r.
    + destruct (failure s); [done|]. by subst.
    + intros e Hin. specialize (Hx e Hin). destruct (failure s); [|done]. unfold cancel_with. by rewrite Hx.
    + intros Hin. destruct (HE Hin) as (? & _). congruence.
  - split; cbn; try done; [intros Hc _; apply He; congruence|intros Hin; destruct (HE Hin) as (? & _); congruence].
  - split; cbn; try done. intros e' Hin. specialize (Hx e' Hin). unfold cancel_with. by rewrite Hx.
  - destruct (cause s) as [e|] eqn:Ec; split; cbn; try done; rewrite ?delivered_app, ?app_nil_r; cbn; rewrite ?app_nil_r; try done.
    + intros e' [Hin|Hin]%elem_of_app; [by apply Hx|]. by apply list_elem_of_singleton in Hin as [= ->].
    + intros [Hin|Hin]%elem_of_app; [|by apply list_elem_of_singleton in Hin]. destruct (HE Hin) as (? & H & ?). congruence.
    + rewrite (Ha eq_refl), Hr. exists (rest ++ todo s). by rewrite <- app_assoc.
    + intros _. rewrite (Ha eq_refl), Hr. by rewrite <- app_assoc.
    + intros e' [Hin|Hin]%elem_of_app; [by apply Hx in Hin|]. by apply list_elem_of_singleton in Hin.
    + intros [Hin|Hin]%elem_of_app; [|by apply list_elem_of_singleton in Hin]. destruct (HE Hin) as (? & H & ?). congruence.
  - destruct (cause s) as [e|] eqn:Ec; split; rewrite ?delivered_app, ?Ec; cbn; rewrite ?app_nil_r; try done.
    + intros e' [Hin|Hin]%elem_of_app; [by apply Hx|]. by apply list_elem_of_singleton in Hin as [= ->].
    + intros [Hin|Hin]%elem_of_app; [by apply HE|by apply list_elem_of_singleton in Hin].
    + intros e' [Hin|Hin]%elem_of_app; [by apply Hx in Hin|]. by apply list_elem_of_singleton in Hin.
    + intros _. destruct (He eq_refl) as [Ht ->]; [by rewrite Hph|]. rewrite (Ha eq_refl), Hr, Ht. by rewrite !app_nil_r.
  - split; rewrite ?delivered_app, ?Hc; cbn; rewrite ?app_nil_r; try done.
    + intros e' [Hin|Hin]%elem_of_app; [rewrite <- Hc; by apply Hx|]. by apply list_elem_of_singleton in Hin as [= ->].
    + intros [Hin|Hin]%elem_of_app; [by apply HE|by apply list_elem_of_singleton in Hin].
Qed.

Lemma reader_run_inv entries fail l s : reader_run (start entries fail) l s -> reader_inv entries fail l s.
Proof. induction 1 as [|l s1 res s2 _ IH Hs]; [apply reader_inv_start|by eapply reader_step_inv]. Qed.

(** After an error, only that error. *)
Lemma reader_run_sticky (entries : list X) (fail : option E) l s l1 e l2 : reader_run (start entries fail) l s ->
  l = l1 ++ NextError e :: l2 -> Forall (eq (NextError e)) l2.
Proof.
  intros Hr. revert l2. induction Hr as [|l s1 res s2 Hr IH Hs]; intros l2 El; [by destruct l1|].
  apply reader_run_inv in Hr as [_ _ _ _ Hx _].
  destruct res as [res|]; cbn [option_list] in *; [|rewrite app_nil_r in El; by apply IH].
  destruct l2 as [|res' l2' _] using rev_ind; [constructor|].
  assert (l ++ option_list (Some res) = (l1 ++ NextError e :: l2') ++ [res']) as El' by (rewrite El; by rewrite <- app_assoc).
  cbn in El'. apply app_inj_tail in El' as [-> ->]. apply Forall_app. split; [by apply IH|]. constructor; [|constructor].
  assert (cause s1 = Some e) as Hc by (apply Hx; set_solver). inversion Hs; subst; rewrite ?Hc in *; congruence.
Qed.

Lemma run_silent (s s1 s2 : reader_state) l : reader_run s l s1 -> reader_step s1 None s2 -> reader_run s l s2.
Proof. intros Hr Hs. rewrite <- (app_nil_r l). by apply (run_step s l s1 None s2). Qed.

Lemma run_result (s : reader_state) l res (s1 s2 : reader_state) :
  reader_run s l s1 -> reader_step s1 (Some res) s2 -> reader_run s (l ++ [res]) s2.
Proof. apply (run_step s l s1 (Some res) s2). Qed.

(** A waiting call of [next] returns once the producer has gone on. *)
Lemma next_returns (entries : list X) (fail : option E) s l : reader_run (start entries fail) l s ->
  exists s' res s'', rtc (fun a b : reader_state => reader_step a None b) s s' /\ reader_step s' (Some res) s''.
Proof.
  intros Hr. destruct s as [td f ph ch c]. destruct ch as [|x ch].
  2: { do 3 eexists. split; [apply rtc_refl|]. by eapply next_entry. }
  assert (forall (td : list X) (c : option E), exists s' res s'',
    rtc (fun a b : reader_state => reader_step a None b) (mkState td f Returning [] c) s' /\ reader_step s' (Some res) s'') as Hret.
  { intros td' c'. do 3 eexists. split; [by eapply rtc_once, producer_close|]. by eapply next_closed. }
  destruct ph; [|apply Hret|].
  - destruct td as [|x td].
    + edestruct Hret as (s' & res & s'' & H1 & H2). exists s', res, s''. split; [|exact H2].
      eapply rtc_l; [by eapply producer_end|exact H1].
    + do 3 eexists. split; [by eapply rtc_once, (producer_send _ x td)|]. by eapply next_entry.
  - do 3 eexists. split; [apply rtc_refl|]. by eapply next_closed.
Qed.
End Results.

(** What calls of the checkpoint reader return. The entries returned are, in
    order, the first of those the producer sends; end of file comes only after all
    of them, and only if the producer had no error; after an error every call
    returns that error and no entry that was still buffered; and a call is never
    left waiting, since the producer can go on until it returns. *)
Theorem reader_results {E X} (entries : list X) (failure : option E) l s :
  reader_run (start entries failure) l s ->
  delivered l `prefix_of` entries /\
  (NextEOF ∈ l -> delivered l = entries /\ failure = None) /\
  (forall l1 e l2, l = l1 ++ NextError e :: l2 -> Forall (eq (NextError e)) l2) /\
  exists s' res s'', rtc (fun a b => reader_step a None b) s s' /\ reader_step s' (Some res) s''.
Proof.
  intros Hr. pose proof (reader_run_inv _ _ _ _ Hr) as [_ Hp _ _ _ HE]. split; [done|]. split; [|split].
  - intros Hin. by destruct (HE Hin) as (_ & _ & ? & ?).
  - intros l1 e l2. by eapply reader_run_sticky.
  - by eapply next_returns.
Qed.

(** C27: end of file vouches for the checkpoint. Whatever the archive holds, when a
    reader has returned end of file, every bucket that the state names exists and
    could be opened, was read to its end without a record that could not be read, has
    the hash it was opened by (unless validation is disabled) and was closed; and the
    reader has returned every entry that it streams. *)
Theorem eof_means_verified `{CE : ContractEncoding} {AI : ArchiveInterface} (r : CheckpointChangeReader) (h : ttl_store)
    entries failure l s :
  streamBucketList r h append [] = Some (entries, failure) ->
  reader_run (start entries failure) l s -> NextEOF ∈ l ->
  delivered l = entries /\
  exists buckets, selected_buckets r = Some buckets /\ Forall (bucket_verified r) buckets.
Proof.
  intros Hs Hr HE. pose proof (reader_run_inv _ _ _ _ Hr) as [_ _ _ _ _ H].
  destruct (H HE) as (_ & _ & ? & ->). split; [done|]. by eapply streamBucketList_verified.
Qed.

(** ** A concrete archive *)
Module SampleArchive.
Import ConcreteKeys ConcreteContracts.

Definition account (c : byte) : AccountId := Vector.const c 32.
Definition an_account (c : byte) (fields : bytes) : LedgerEntry := mkLedgerEntry 1 (DataAccount (account c) fields) [].
Definition an_offer (id : Z) : LedgerEntry :=
  mkLedgerEntry 1 (DataOffer (mkOfferEntry (account Byte.x01) id Native Native 1 (mkPrice 1 1) 0 0)) [].

(** The older bucket creates an offer that the newer one deletes, and an account
    that the newer one changes. *)
Definition newer : list (result unit BucketEntry) :=
  [Ok (BucketMeta 12 None); Ok (BucketLive (an_account Byte.x01 [Byte.x02])); Ok (BucketDead (LedgerKeyOffer (account Byte.x01) 7))].
Definition older : list (result unit BucketEntry) :=
  [Ok (BucketMeta 12 None); Ok (BucketInit (an_account Byte.x01 [])); Ok (BucketInit (an_offer 7));
   Ok (BucketLive (an_account Byte.x03 []))].

Definition hash (c : byte) : bytes := replicate 32 c.
#[export] Instance two_buckets : ArchiveInterface := {|
  archive_error := unit;
  BucketExists _ := Ok true;
  BucketSize _ := Ok 100;
  GetXdrStreamForHash b :=
    Ok (mkStream (if bool_decide (b = hash Byte.x01) then newer else older) true None);
  GetHotXdrStreamForHash _ := Err ()
|}.

Definition hex_hash (c : byte) : bytes := concat (replicate 32 [Byte.x30; c]).
Definition reader : CheckpointChangeReader :=
  mkReader (mkHAS 1 63 [] [mkLevel (hex_hash Byte.x31) (hex_hash Byte.x30) []; mkLevel (hex_hash Byte.x32) (hex_hash Byte.x30) []] [])
    BucketListTypeLive None None false.

Definition streamed : list LedgerEntry := [an_account Byte.x01 [Byte.x02]; an_account Byte.x03 []].

Lemma streamed_eq : streamBucketList reader ∅ append [] = Some (streamed, None).
Proof. vm_compute. reflexivity. Qed.

Definition newer_ops : list op := default [] (live_ops ∅ 0 0 newer).
Definition older_ops : list op := default [] (live_ops ∅ 0 0 older).

Lemma sample_read : Forall2 (bucket_read reader ∅) [hash Byte.x01; hash Byte.x02] [newer_ops; older_ops].
Proof.
  constructor; [|constructor; [|constructor]].
  all: eexists; split; [reflexivity|]; split; [vm_compute; reflexivity|]; split; [right|]; reflexivity.
Qed.

Lemma NoDup_by_decide (l : list bytes) : bool_decide (NoDup l) = true -> NoDup l.
Proof. apply bool_decide_eq_true_1. Qed.

Lemma sample_well_formed : well_formed [newer_ops; older_ops].
Proof.
  split; [apply NoDup_by_decide; vm_compute; reflexivity|]. split.
  { intros k e u H. assert (existsb (fun o => match o with OpInit _ _ _ => true | _ => false end) newer_ops = true) as Hx;
      [|vm_compute in Hx; discriminate]. apply existsb_exists. exists (OpInit k e u). by rewrite <- list_elem_of_In. }
  split; [apply NoDup_by_decide; vm_compute; reflexivity|]. split; [by left|done].
Qed.

Lemma checkpoint_streams_live_state_witness : exists entries,
  streamBucketList reader ∅ append [] = Some (entries, None) /\
  entries ≡ₚ (map_to_list (filter (fun '(k, _) => (fun _ : bytes => true) k = true) (live_state [newer_ops; older_ops]))).*2.
Proof.
  apply (checkpoint_streams_live_state reader ∅ (fun _ => true) ltac:(by split) [hash Byte.x01; hash Byte.x02]).
  - vm_compute. reflexivity.
  - repeat constructor; by eexists.
  - apply sample_read.
  - apply sample_well_formed.
Defined.

(** All is sent, received and the end reported. *)
Abbreviation sample_state := (reader_state (E:=checkpoint_error archive_error) (X:=LedgerEntry)).
Definition final : sample_state := mkState [] None Returned [] None.
Definition all_results := map NextEntry streamed ++ [NextEOF (E:=checkpoint_error archive_error)].

Lemma sample_reader_run : reader_run (start streamed None) all_results final.
Proof.
  set (a := an_account Byte.x01 [Byte.x02]). set (b := an_account Byte.x03 []).
  apply (run_result _ _ NextEOF final); [|by apply (next_closed final)].
  eapply (run_result _ [NextEntry a] (NextEntry b)); [|by apply (next_entry (mkState [] None Returned [b] None))].
  eapply (run_result _ [] (NextEntry a)); [|by apply (next_entry (mkState [] None Returned [a; b] None))].
  eapply run_silent; [|by apply (producer_close (mkState [] None Returning [a; b] None))].
  eapply run_silent; [|by apply (producer_end (mkState [] None Producing [a; b] None))].
  eapply run_silent; [|by apply (producer_send (mkState [b] None Producing [a] None) b [])].
  eapply run_silent; [|by apply (producer_send (mkState [a; b] None Producing [] None) a [b])].
  apply run_none.
Qed.

Lemma eof_means_verified_witness : delivered all_results = streamed /\
  exists buckets, selected_buckets reader = Some buckets /\ Forall (bucket_verified reader) buckets.
Proof.
  apply (eof_means_verified reader ∅ streamed None all_results final); [apply streamed_eq|apply sample_reader_run|].
  apply elem_of_app. right. apply list_elem_of_singleton. reflexivity.
Defined.

(** A filter on the contents of entries and not on their keys lets an old version
    of an account through, since the new one is passed over without its key. *)
Definition content_filter (e : LedgerEntry) : bool :=
  match Data e with DataAccount _ [] => true | _ => false end.
Definition filtered_reader : CheckpointChangeReader :=
  mkReader (has reader) BucketListTypeLive (Some content_filter) None false.

Lemma content_filter_streams_old_version :
  exists entries, streamBucketList filtered_reader ∅ append [] = Some (entries, None) /\
    an_account Byte.x01 [] ∈ entries /\ an_account Byte.x01 [] ∉ (map_to_list (live_state [newer_ops; older_ops])).*2.
Proof.
  eexists. split; [vm_compute; reflexivity|]. split; [left|]. vm_compute.
  repeat (apply not_elem_of_cons; split; [discriminate|]). apply not_elem_of_nil.
Qed.
End SampleArchive.

(** ** Making and verifying a reader *)
Inductive new_reader_error {E : Type} : Type :=
| ErrNotCheckpoint (sequence prev next freq : Z)
| ErrGetHAS (e : E).
Arguments new_reader_error : clear implicits.

Inductive verify_error : Type :=
| ErrBucketListHash (e : has_error)
| ErrListHashDiffers (actual expected : bytes).

Section Make.
Context {ET : EntryTypes} {CE : ContractEncoding} {AI : ArchiveInterface}.

(** ** Options *)
Abbreviation CheckpointReaderOption := (CheckpointChangeReader -> CheckpointChangeReader).

Definition DisableBucketListValidation : CheckpointReaderOption := fun r =>
  mkReader (has r) (bucketListType r) (ledgerEntryFilter r) (ledgerKeyFilter r) true.

Definition WithFilter (entryFilter : option (LedgerEntry -> bool)) (keyFilter : option (LedgerKey -> bool)) :
    CheckpointReaderOption := fun r =>
  mkReader (has r) (bucketListType r) entryFilter keyFilter (disableBucketListHashValidation r).

(** ** Construction *)
Section Archive.
Context (GetCheckpointManager : CheckpointManager) (GetCheckpointHAS : Z -> result archive_error HistoryArchiveState).

(** A division by zero panics: [None]. *)
Definition newCheckpointChangeReaderWithBucketList (sequence listType : Z) (opts : list CheckpointReaderOption) :
    option (result (new_reader_error archive_error) CheckpointChangeReader) :=
  let manager := GetCheckpointManager in
  let! is_checkpoint := IsCheckpoint manager sequence in
  if negb is_checkpoint then
    let! prev := PrevCheckpoint manager sequence in
    let! next := NextCheckpoint manager sequence in
    Some (Err (ErrNotCheckpoint sequence prev next (GetCheckpointFrequency manager)))
  else
    Some match GetCheckpointHAS sequence with
    | Err e => Err (ErrGetHAS e)
    | Ok has => Ok (fold_left (fun r opt => opt r) opts (mkReader has listType None None false))
    end.

Definition NewCheckpointChangeReader (sequence : Z) (opts : list CheckpointReaderOption) :=
  newCheckpointChangeReaderWithBucketList sequence BucketListTypeLive opts.
End Archive.

(** ** Verification *)
Definition VerifyBucketList (r : CheckpointChangeReader) (expectedHash : bytes) : option verify_error :=
  match BucketListHash (has r) with
  | Err e => Some (ErrBucketListHash e)
  | Ok historyBucketListHash =>
      if bool_decide (historyBucketListHash = expectedHash) then None
      else Some (ErrListHashDiffers historyBucketListHash expectedHash)
  end.

(** The reader over another state. *)
Definition with_state (r : CheckpointChangeReader) (t : HistoryArchiveState) : CheckpointChangeReader :=
  mkReader t (bucketListType r) (ledgerEntryFilter r) (ledgerKeyFilter r) (disableBucketListHashValidation r).

Lemma bucket_hashes_streamed l : bucket_hashes l = (let! hs := mapM id (map DecodeHash l) in Some (filter (fun h => IsZero h = false) hs)).
Proof.
  induction l as [|s l IH]; [done|]. cbn. destruct (DecodeHash s) as [h|]; [|done]. cbn. rewrite IH.
  destruct (mapM id (map DecodeHash l)) as [hs|]; [|done]. cbn. by destruct (IsZero h).
Qed.

Lemma bucket_hashes_all b hs : bucket_hashes (flat_map (fun l => [Curr l; Snap l]) b) = Some hs -> all_hashes b.
Proof.
  revert hs; induction b as [|l b IH]; intros hs; [constructor|]. cbn.
  destruct (DecodeHash (Curr l)) as [c|] eqn:Ec; [|done]. destruct (DecodeHash (Snap l)) as [s|] eqn:Es; [|done].
  destruct (bucket_hashes _) as [rest|]; [|done]. intros _. constructor; [|by eapply IH]. rewrite Ec, Es. by split.
Qed.

(** C30: what a verified reader streams. When [VerifyBucketList] accepts a hash that
    is the bucket list hash of a state one trusts, the reader streams, whatever the
    rest of the archive's state says, just what it would stream from the trusted state,
    or refuses the archive's hashes before anything is streamed; for the hot archive
    when the archive's state is of a version whose hash covers it. Two different
    messages of the same hash are taken not to turn up. *)
Theorem verified_reader_streams_trusted_state {S : Type} (r : CheckpointChangeReader) h (trusted : HistoryArchiveState)
    expected (send : LedgerEntry -> S -> S * bool) (s : S) :
  VerifyBucketList r expected = None -> BucketListHash trusted = Ok expected ->
  length (CurrentBuckets (has r)) = NumLevels -> length (CurrentBuckets trusted) = NumLevels ->
  all_hashes (CurrentBuckets trusted) -> all_hashes (HotArchiveBuckets trusted) ->
  no_collision (state_messages (has r) ++ state_messages trusted) ->
  (bucketListType r = BucketListTypeHotArchive -> HistoryArchiveStateVersionForProtocol23 <= Version (has r)) ->
  streamBucketList r h send s = streamBucketList (with_state r trusted) h send s \/
  streamBucketList r h send s = Some (s, Some ErrDecodeHash).
Proof.
  intros Hv Ht Hl Hl' Hc Hh Hn Hver. unfold VerifyBucketList in Hv.
  destruct (BucketListHash (has r)) as [e|] eqn:Er; [|done]. case_bool_decide as Ee; [subst e|done].
  destruct (BucketListHash_inj _ _ _ Hn Hl Hl' Er Ht) as [Elive Ehot].
  assert (forall a b, all_hashes b -> level_contents a = level_contents b ->
    bucket_hashes (flat_map (fun l => [Curr l; Snap l]) a) = bucket_hashes (flat_map (fun l => [Curr l; Snap l]) b) \/
    bucket_hashes (flat_map (fun l => [Curr l; Snap l]) a) = None) as Hsame.
  { intros a b Hb E. destruct (bucket_hashes (flat_map _ a)) as [hs|] eqn:Ea; [|by right]. left.
    apply bucket_hashes_all in Ea as Ha. rewrite <- Ea. rewrite !bucket_hashes_streamed.
    change (map DecodeHash (flat_map _ a)) with (streamed_hashes a). by rewrite (level_contents_hashes a b). }
  destruct r as [st typ f k d]. unfold streamBucketList, with_state. cbn [has bucketListType] in *.
  destruct (typ =? BucketListTypeLive) eqn:El.
  - destruct (Hsame _ _ Hc Elive) as [-> | ->]; [by left|by right].
  - destruct (Z.eqb_spec typ BucketListTypeHotArchive) as [->|]; [|by left].
    destruct (Hsame _ _ Hh (proj2 (Ehot (Hver eq_refl)))) as [-> | ->]; [by left|by right].
Qed.
End Make.

(** A state of eleven levels with the same buckets, and another of the same hash. *)
Module SampleVerified.
Import ConcreteKeys ConcreteContracts BucketReading.SampleArchive.

Definition level : BucketLevel := mkLevel (hex_hash Byte.x31) (hex_hash Byte.x32) [].
Definition trusted : HistoryArchiveState := mkHAS 1 63 [] (replicate 11 level) [].
Definition claimed : HistoryArchiveState := mkHAS 1 64 (str "Public") (replicate 11 level) [].
Definition expected : bytes := match BucketListHash trusted with Ok h => h | Err _ => [] end.
Definition verified : CheckpointChangeReader := mkReader claimed BucketListTypeLive None None false.
Definition append (e : LedgerEntry) (l : list LedgerEntry) := (l ++ [e], true).

(** The messages hashed are that of the level and that of the list. *)
Definition level_message : bytes := replicate 32 Byte.x01 ++ replicate 32 Byte.x02.
Definition level_hash : bytes := Eval vm_compute in Sum256 level_message.

Lemma level_hash_eq : Sum256 level_message = level_hash.
Proof. vm_compute. reflexivity. Qed.

Lemma sample_messages m : m ∈ state_messages claimed ++ state_messages trusted ->
  m = concat (replicate 11 level_hash) \/ m = level_message.
Proof.
  assert (forall st, CurrentBuckets st = replicate 11 level -> Version st = 1 ->
    state_messages st = concat (replicate 11 level_hash) :: replicate 11 level_message) as E.
  { intros st E1 E2. unfold state_messages, list_messages. rewrite E1, E2.
    change (level_contents (replicate 11 level)) with (Some (replicate 11 level_message)). cbn [map replicate]. by rewrite level_hash_eq. }
  rewrite !E by done. intros [H|H]%elem_of_app; apply elem_of_cons in H as [->|H]; [by left| |by left|]; right;
    by apply elem_of_replicate in H as [-> _].
Qed.

Lemma sample_no_collision : no_collision (state_messages claimed ++ state_messages trusted).
Proof.
  assert (Sum256 (concat (replicate 11 level_hash)) <> level_hash) as Hne.
  { apply (bool_decide_eq_true_1 (~ _)). vm_compute. reflexivity. }
  rewrite <- level_hash_eq in Hne at 2. intros m m' Hm Hm' E.
  destruct (sample_messages _ Hm) as [-> | ->], (sample_messages _ Hm') as [-> | ->]; congruence.
Qed.

Lemma verified_reader_streams_trusted_state_witness : VerifyBucketList verified expected = None /\
  (streamBucketList verified ∅ append [] = streamBucketList (with_state verified trusted) ∅ append [] \/
   streamBucketList verified ∅ append [] = Some ([], Some ErrDecodeHash)).
Proof.
  assert (exists e, BucketListHash trusted = Ok e) as [e He] by (eexists; reflexivity).
  assert (VerifyBucketList verified expected = None) as Hv.
  { unfold VerifyBucketList, expected. change (BucketListHash (has verified)) with (BucketListHash trusted).
    rewrite He. by rewrite bool_decide_true. }
  split; [exact Hv|].
  apply (verified_reader_streams_trusted_state verified ∅ trusted expected append []);
    [exact Hv|unfold expected; by rewrite He|reflexivity|reflexivity| |constructor|exact sample_no_collision|discriminate].
  apply (bool_decide_eq_true_1 (all_hashes _)). vm_compute. reflexivity.
Defined.
End SampleVerified.
