(* ===== verification/CloseMeta.v ===== *)
(** * The meta of a closed ledger

    src/xdr/ledger_close_meta.go: what stellar-core reports of a ledger, in the three
    versions of the format, and the accessors that hide the version. A union is the
    type of its arms, the last arm standing for a version without a name, which the
    accessors refuse with a panic: [None]. Envelopes and upgrades are opaque, and so is
    what a result holds besides its code. *)
From Stdlib Require Import ZArith Lia.
From stdpp Require Import base list vector option gmap.
From S2P Require Import Prelude GoStd GoExt Price Encodings Strkey Asset LedgerEntries.
#[local] Open Scope Z_scope.
#[local] Open Scope go_scope.

(** The opaque types, and the hash of an envelope on a network
    ([network.HashTransactionInEnvelope]: SHA-256 of a generated encoding). *)
Class TransactionTypes := {
  TransactionEnvelope : Type;
  LedgerUpgrade_ : Type;
  ResultRest : Type;
  HashTransactionInEnvelope : TransactionEnvelope -> bytes -> option Hash
}.

Abbreviation TransactionResultCodeTxInternalError := (-11).

Section Meta.
Context {ET : EntryTypes} {TT : TransactionTypes}.

(** ** Data *)
Inductive LedgerEntryChange : Type :=
| EntryCreated (created : LedgerEntry)
| EntryUpdated (updated : LedgerEntry)
| EntryRemoved (removed : LedgerKey)
| EntryState (state : LedgerEntry)
| EntryRestored (restored : LedgerEntry)
| EntryUnknown (typ : Z).
Abbreviation LedgerEntryChanges := (list LedgerEntryChange).

(** A contract event; [Body_V] is the version of its body, of which the first has
    topics and data. *)
Record ContractEvent : Type := mkContractEvent {
  event_Type : Z;
  event_ContractId : option Hash;
  Body_V : Z;
  Topics : list ScVal;
  EventData : ScVal
}.
Record DiagnosticEvent : Type := mkDiagnosticEvent { InSuccessfulContractCall : bool; diagnostic_Event : ContractEvent }.
Record TransactionEvent_ : Type := mkTransactionEvent { Stage : Z; stage_Event : ContractEvent }.

(** [soroban_V1] is the first version of the extension: the fees charged, not
    refundable, refundable and rent. *)
Record SorobanFees : Type := mkSorobanFees {
  TotalNonRefundableResourceFeeCharged : Z;
  TotalRefundableResourceFeeCharged : Z;
  RentFeeCharged : Z
}.
Record SorobanTransactionMeta : Type := mkSorobanMeta {
  soroban_V1 : option SorobanFees;
  soroban_Events : list ContractEvent;
  soroban_DiagnosticEvents : list DiagnosticEvent
}.
Record OperationMetaV2 : Type := mkOperationMetaV2 { op_Changes : LedgerEntryChanges; op_Events : list ContractEvent }.

(** Up to version 3 an operation of a meta is the list of its changes. *)
Inductive TransactionMeta : Type :=
| MetaV0 (Operations : list LedgerEntryChanges)
| MetaV1 (TxChanges : LedgerEntryChanges) (Operations : list LedgerEntryChanges)
| MetaV2 (TxChangesBefore : LedgerEntryChanges) (Operations : list LedgerEntryChanges) (TxChangesAfter : LedgerEntryChanges)
| MetaV3 (TxChangesBefore : LedgerEntryChanges) (Operations : list LedgerEntryChanges) (TxChangesAfter : LedgerEntryChanges)
    (SorobanMeta : option SorobanTransactionMeta)
| MetaV4 (TxChangesBefore : LedgerEntryChanges) (Operations : list OperationMetaV2) (TxChangesAfter : LedgerEntryChanges)
    (Events : list TransactionEvent_) (DiagnosticEvents : list DiagnosticEvent)
| MetaUnknown (V : Z).

Definition Meta_V (m : TransactionMeta) : Z :=
  match m with
  | MetaV0 _ => 0 | MetaV1 _ _ => 1 | MetaV2 _ _ _ => 2 | MetaV3 _ _ _ _ => 3 | MetaV4 _ _ _ _ _ => 4 | MetaUnknown v => v
  end.

Record TransactionResultPair : Type := mkResultPair { pair_TransactionHash : Hash; ResultCode : Z; pair_Rest : ResultRest }.

Record TransactionResultMeta : Type := mkResultMeta {
  Result : TransactionResultPair;
  FeeProcessing_ : LedgerEntryChanges;
  TxApplyProcessing_ : TransactionMeta
}.

Record TransactionResultMetaV1 : Type := mkResultMetaV1 {
  ResultMeta : TransactionResultMeta;
  PostTxApplyFeeProcessing : LedgerEntryChanges
}.

Record UpgradeEntryMeta : Type := mkUpgradeMeta { Upgrade : LedgerUpgrade_; Changes : LedgerEntryChanges }.

Record LedgerHeaderHistoryEntry_ : Type := mkHeader {
  header_Hash : Hash;
  LedgerVersion : Z;
  header_PreviousLedgerHash : Hash;
  header_BucketListHash : Hash;
  LedgerSeq : Z;
  CloseTime : Z
}.

(** A phase of a generalized transaction set: components, or stages of clusters. *)
Inductive TransactionPhase : Type :=
| PhaseV0 (V0Components : list (list TransactionEnvelope))
| PhaseV1 (ExecutionStages : list (list (list TransactionEnvelope)))
| PhaseUnknown (V : Z).

Inductive LedgerCloseMeta : Type :=
| LedgerCloseMetaV0 (LedgerHeader : LedgerHeaderHistoryEntry_) (Txs : list TransactionEnvelope)
    (TxProcessing : list TransactionResultMeta) (UpgradesProcessing : list UpgradeEntryMeta)
| LedgerCloseMetaV1 (LedgerHeader : LedgerHeaderHistoryEntry_) (Phases : list TransactionPhase)
    (TxProcessing : list TransactionResultMeta) (UpgradesProcessing : list UpgradeEntryMeta) (EvictedKeys : list LedgerKey)
| LedgerCloseMetaV2 (LedgerHeader : LedgerHeaderHistoryEntry_) (Phases : list TransactionPhase)
    (TxProcessing : list TransactionResultMetaV1) (UpgradesProcessing : list UpgradeEntryMeta) (EvictedKeys : list LedgerKey)
| LedgerCloseMetaUnknown (V : Z).

(** ** Accessors *)
Definition LedgerHeaderHistoryEntry (l : LedgerCloseMeta) : option LedgerHeaderHistoryEntry_ :=
  match l with
  | LedgerCloseMetaV0 header _ _ _ => Some header
  | LedgerCloseMetaV1 header _ _ _ _ => Some header
  | LedgerCloseMetaV2 header _ _ _ _ => Some header
  | LedgerCloseMetaUnknown _ => None
  end.

Definition LedgerSequence (l : LedgerCloseMeta) : option Z := let! h := LedgerHeaderHistoryEntry l in Some (LedgerSeq h).
Definition LedgerCloseTime (l : LedgerCloseMeta) : option Z := let! h := LedgerHeaderHistoryEntry l in Some (i64 (CloseTime h)).
Definition LedgerHash (l : LedgerCloseMeta) : option Hash := let! h := LedgerHeaderHistoryEntry l in Some (header_Hash h).
Definition PreviousLedgerHash (l : LedgerCloseMeta) : option Hash :=
  let! h := LedgerHeaderHistoryEntry l in Some (header_PreviousLedgerHash h).
Definition ProtocolVersion (l : LedgerCloseMeta) : option Z := let! h := LedgerHeaderHistoryEntry l in Some (LedgerVersion h).
Definition BucketListHash (l : LedgerCloseMeta) : option Hash :=
  let! h := LedgerHeaderHistoryEntry l in Some (header_BucketListHash h).

Definition CountTransactions (l : LedgerCloseMeta) : option Z :=
  match l with
  | LedgerCloseMetaV0 _ _ txs _ => Some (go_len txs)
  | LedgerCloseMetaV1 _ _ txs _ _ => Some (go_len txs)
  | LedgerCloseMetaV2 _ _ txs _ _ => Some (go_len txs)
  | LedgerCloseMetaUnknown _ => None
  end.

Definition phase_envelopes (phase : TransactionPhase) : option (list TransactionEnvelope) :=
  match phase with
  | PhaseV0 components => Some (concat components)
  | PhaseV1 stages => Some (concat (concat stages))
  | PhaseUnknown _ => None
  end.

Fixpoint phases_envelopes (phases : list TransactionPhase) : option (list TransactionEnvelope) :=
  match phases with
  | [] => Some []
  | phase :: phases =>
      let! envelopes := phase_envelopes phase in
      let! rest := phases_envelopes phases in
      Some (envelopes ++ rest)
  end.

Definition TransactionEnvelopes (l : LedgerCloseMeta) : option (list TransactionEnvelope) :=
  match l with
  | LedgerCloseMetaV0 _ txs _ _ => Some txs
  | LedgerCloseMetaV1 _ phases _ _ _ => phases_envelopes phases
  | LedgerCloseMetaV2 _ phases _ _ _ => phases_envelopes phases
  | LedgerCloseMetaUnknown _ => None
  end.

(** [TxProcessing[i]], which all three versions have. *)
Definition TxProcessing_at (l : LedgerCloseMeta) (i : Z) : option TransactionResultMeta :=
  match l with
  | LedgerCloseMetaV0 _ _ txs _ => go_index txs i
  | LedgerCloseMetaV1 _ _ txs _ _ => go_index txs i
  | LedgerCloseMetaV2 _ _ txs _ _ => let! tx := go_index txs i in Some (ResultMeta tx)
  | LedgerCloseMetaUnknown _ => None
  end.

Definition TransactionHash (l : LedgerCloseMeta) (i : Z) : option Hash :=
  let! tx := TxProcessing_at l i in Some (pair_TransactionHash (Result tx)).
Definition TransactionResultPair_ (l : LedgerCloseMeta) (i : Z) : option TransactionResultPair :=
  let! tx := TxProcessing_at l i in Some (Result tx).
Definition FeeProcessing (l : LedgerCloseMeta) (i : Z) : option LedgerEntryChanges :=
  let! tx := TxProcessing_at l i in Some (FeeProcessing_ tx).
Definition TxApplyProcessing (l : LedgerCloseMeta) (i : Z) : option TransactionMeta :=
  let! tx := TxProcessing_at l i in Some (TxApplyProcessing_ tx).

Definition UpgradesProcessing (l : LedgerCloseMeta) : option (list UpgradeEntryMeta) :=
  match l with
  | LedgerCloseMetaV0 _ _ _ upgrades => Some upgrades
  | LedgerCloseMetaV1 _ _ _ upgrades _ => Some upgrades
  | LedgerCloseMetaV2 _ _ _ upgrades _ => Some upgrades
  | LedgerCloseMetaUnknown _ => None
  end.

Definition EvictedLedgerKeys (l : LedgerCloseMeta) : option (list LedgerKey) :=
  match l with
  | LedgerCloseMetaV0 _ _ _ _ => Some []
  | LedgerCloseMetaV1 _ _ _ _ keys => Some keys
  | LedgerCloseMetaV2 _ _ _ _ keys => Some keys
  | LedgerCloseMetaUnknown _ => None
  end.

(** ** Every transaction is within reach *)
Lemma TxProcessing_at_count l n : CountTransactions l = Some n ->
  0 <= n /\ forall i, is_Some (TxProcessing_at l i) <-> 0 <= i < n.
Proof.
  assert (forall A (txs : list A) i, is_Some (go_index txs i) <-> 0 <= i < go_len txs) as Hidx.
  { intros A txs i. unfold go_index, go_len. destruct (Z.leb_spec 0 i) as [Hi|Hi].
    - rewrite lookup_lt_is_Some. lia.
    - split; [by intros []|lia]. }
  destruct l as [? ? txs|? ? txs|? ? txs|]; [| | |done]; intros [= <-]; (split; [unfold go_len; lia|]); intros i; cbn; [apply Hidx|apply Hidx|].
  rewrite <- Hidx. destruct (go_index txs i); [split; intros _; by eexists|split; by intros []].
Qed.
End Meta.

(** ** Envelopes that are their own hashes *)
Module ConcreteTransactions.
#[export] Instance hash_envelopes : TransactionTypes := {|
  TransactionEnvelope := Hash; LedgerUpgrade_ := Z; ResultRest := unit; HashTransactionInEnvelope e _ := Some e |}.
End ConcreteTransactions.
