(* ===== verification/LedgerChanges.v ===== *)
(** * The changes of a group of ledger entry changes

    [GetChangesFromLedgerEntryChanges] and [sortChanges] of src/ingest/change.go:
    updates and removals are paired with the state before them, and the changes are
    sorted by the encoding of their keys, by a stable sort. [None] is a panic. *)
From Stdlib Require Import ZArith Lia.
From stdpp Require Import base list vector option gmap sorting.
From S2P Require Import Prelude GoStd GoExt Price Encodings Strkey Asset LedgerEntries Compactor CloseMeta.
#[local] Open Scope Z_scope.
#[local] Open Scope go_scope.

(** ** [sort.Stable] on keyed values *)
Section Stable.
Context {A : Type}.

Fixpoint stable_insert (x : bytes * A) (l : list (bytes * A)) : list (bytes * A) :=
  match l with
  | [] => [x]
  | y :: l => if bytes_ltb y.1 x.1 then y :: stable_insert x l else x :: y :: l
  end.
Definition sort_Stable (l : list (bytes * A)) : list (bytes * A) := foldr stable_insert [] l.

Definition key_le (x y : bytes * A) : Prop := bytes_ltb y.1 x.1 = false.
Definition of_key (k : bytes) (l : list (bytes * A)) : list A := map snd (filter (fun x => x.1 = k) l).

Lemma stable_insert_perm x l : stable_insert x l ≡ₚ x :: l.
Proof.
  induction l as [|y l IH]; [done|]. cbn. destruct (bytes_ltb y.1 x.1); [|done].
  rewrite IH. constructor.
Qed.

Lemma sort_Stable_perm l : sort_Stable l ≡ₚ l.
Proof. induction l as [|x l IH]; [done|]. cbn. by rewrite stable_insert_perm, IH. Qed.

Lemma key_le_trans x y z : key_le x y -> key_le y z -> key_le x z.
Proof.
  unfold key_le. intros H1 H2. destruct (bytes_ltb z.1 x.1) eqn:E; [|done].
  destruct (bytes_ltb_total y.1 x.1) as [H|[H|H]]; [congruence| |].
  - rewrite H in H2. congruence.
  - rewrite (bytes_ltb_trans _ _ _ E H) in H2. done.
Qed.

Lemma stable_insert_sorted x l : StronglySorted key_le l -> StronglySorted key_le (stable_insert x l).
Proof.
  induction 1 as [|y l HS IH HF]; [repeat constructor|]. cbn. destruct (bytes_ltb y.1 x.1) eqn:E.
  - constructor; [done|]. rewrite stable_insert_perm. constructor; [|done]. unfold key_le.
    destruct (bytes_ltb x.1 y.1) eqn:E'; [|done]. pose proof (bytes_ltb_trans _ _ _ E E') as H. by rewrite bytes_ltb_irrefl in H.
  - constructor; [by constructor|]. constructor; [done|]. eapply Forall_impl; [exact HF|]. intros z Hz. by eapply key_le_trans.
Qed.

Lemma sort_Stable_sorted l : StronglySorted key_le (sort_Stable l).
Proof. induction l as [|x l IH]; cbn; [constructor|by apply stable_insert_sorted]. Qed.

Lemma stable_insert_of_key x l k : of_key k (stable_insert x l) = of_key k (x :: l).
Proof.
  unfold of_key. induction l as [|y l IH]; [done|]. cbn [stable_insert]. destruct (bytes_ltb y.1 x.1) eqn:E; [|done].
  rewrite !filter_cons in *. destruct (decide (y.1 = k)) as [Ey|]; destruct (decide (x.1 = k)) as [Ex|]; cbn in *; rewrite ?IH; try done.
  rewrite Ey, Ex, bytes_ltb_irrefl in E. done.
Qed.

(** The values of a key stay in order. *)
Lemma sort_Stable_of_key l k : of_key k (sort_Stable l) = of_key k l.
Proof.
  induction l as [|x l IH]; [done|]. change (sort_Stable (x :: l)) with (stable_insert x (sort_Stable l)).
  rewrite stable_insert_of_key. unfold of_key in *. rewrite !filter_cons. destruct (decide _); cbn; by rewrite IH.
Qed.
End Stable.

Section Changes.
Context {ET : EntryTypes} {KE : KeyEncoding} {TT : TransactionTypes}.
#[local] Abbreviation LedgerEntryChanges := (list LedgerEntryChange).

(** [change.LedgerKey]: neither pointer set is a nil dereference. *)
Definition Change_LedgerKey (h : ttl_store) (c : Change) : option LedgerKey :=
  match Pre c with
  | Some pre => Entry_LedgerKey h pre
  | None => let! post := Post c in Entry_LedgerKey h post
  end.

(** The entry before an update or a removal: the state or restored entry at [i-1]. *)
Definition state_before (prev : option LedgerEntryChange) : option LedgerEntry :=
  match prev with
  | Some (EntryState state) => Some state
  | Some (EntryRestored restored) => Some restored
  | _ => None
  end.

(** The loop, with the change before the current one. *)
Fixpoint changes_loop (prev : option LedgerEntryChange) (l : LedgerEntryChanges) : option (list Change) :=
  match l with
  | [] => Some []
  | entryChange :: l =>
      let! here := match entryChange with
        | EntryCreated created => Some [new_change (Data_Type (Data created)) None (Some created) LedgerEntryCreated]
        | EntryUpdated updated =>
            let! state := state_before prev in
            Some [new_change (Data_Type (Data state)) (Some state) (Some updated) LedgerEntryUpdated]
        | EntryRemoved _ =>
            let! state := state_before prev in
            Some [new_change (Data_Type (Data state)) (Some state) None LedgerEntryRemoved]
        | EntryRestored restored => Some [new_change (Data_Type (Data restored)) None (Some restored) LedgerEntryRestored]
        | EntryState _ => Some []
        | EntryUnknown _ => None
        end in
      let! rest := changes_loop (Some entryChange) l in
      Some (here ++ rest)
  end.

(** The keys of [newSortableChanges]. *)
Definition change_key (h : ttl_store) (c : Change) : option bytes :=
  let! key := Change_LedgerKey h c in UnsafeMarshalBinary key.
Fixpoint newSortableChanges (h : ttl_store) (changes : list Change) : option (list (bytes * Change)) :=
  match changes with
  | [] => Some []
  | c :: changes =>
      let! k := change_key h c in
      let! rest := newSortableChanges h changes in
      Some ((k, c) :: rest)
  end.

Definition sortChanges (h : ttl_store) (changes : list Change) : option (list Change) :=
  let! s := newSortableChanges h changes in Some (map snd (sort_Stable s)).

Definition GetChangesFromLedgerEntryChanges (h : ttl_store) (ledgerEntryChanges : LedgerEntryChanges) : option (list Change) :=
  let! changes := changes_loop None ledgerEntryChanges in sortChanges h changes.

(** ** What is returned *)

(** Groups as stellar-core writes them, and the change each entry of them is. *)
Inductive group : LedgerEntryChanges -> list Change -> Prop :=
| group_nil : group [] []
| group_created e l cs : group l cs ->
    group (EntryCreated e :: l) (new_change (Data_Type (Data e)) None (Some e) LedgerEntryCreated :: cs)
| group_updated s e l cs : group l cs ->
    group (EntryState s :: EntryUpdated e :: l) (new_change (Data_Type (Data s)) (Some s) (Some e) LedgerEntryUpdated :: cs)
| group_removed s k l cs : group l cs ->
    group (EntryState s :: EntryRemoved k :: l) (new_change (Data_Type (Data s)) (Some s) None LedgerEntryRemoved :: cs)
| group_restored e l cs : group l cs ->
    group (EntryRestored e :: l) (new_change (Data_Type (Data e)) None (Some e) LedgerEntryRestored :: cs)
| group_restored_updated s e l cs : group l cs ->
    group (EntryRestored s :: EntryUpdated e :: l)
      (new_change (Data_Type (Data s)) None (Some s) LedgerEntryRestored ::
       new_change (Data_Type (Data s)) (Some s) (Some e) LedgerEntryUpdated :: cs)
| group_restored_removed s k l cs : group l cs ->
    group (EntryRestored s :: EntryRemoved k :: l)
      (new_change (Data_Type (Data s)) None (Some s) LedgerEntryRestored ::
       new_change (Data_Type (Data s)) (Some s) None LedgerEntryRemoved :: cs).

Lemma group_loop l cs : group l cs -> forall prev, changes_loop prev l = Some cs.
Proof. induction 1; intros prev; cbn; by rewrite ?IHgroup. Qed.

Definition keyed (h : ttl_store) (k : bytes) (cs : list Change) : list Change :=
  filter (fun c => change_key h c = Some k) cs.

Lemma newSortableChanges_Some h cs s : newSortableChanges h cs = Some s ->
  map snd s = cs /\ Forall (fun x => change_key h x.2 = Some x.1) s.
Proof.
  revert s. induction cs as [|c cs IH]; intros s; cbn; [by intros [= <-]|].
  destruct (change_key h c) as [k|] eqn:Ek; [|done]. destruct (newSortableChanges h cs) as [s'|]; [|done].
  intros [= <-]. destruct (IH s' eq_refl) as [<- HF]. split; [done|]. by constructor.
Qed.

Lemma newSortableChanges_total h cs : (forall c, c ∈ cs -> is_Some (change_key h c)) -> is_Some (newSortableChanges h cs).
Proof.
  induction cs as [|c cs IH]; intros H; cbn; [by eexists|]. destruct (H c ltac:(left)) as [k ->].
  destruct IH as [s ->]; [|by eexists]. intros c' Hc. apply H. by right.
Qed.

Lemma of_key_keyed h k s : Forall (fun x : bytes * Change => change_key h x.2 = Some x.1) s ->
  of_key k s = keyed h k (map snd s).
Proof.
  unfold of_key, keyed. induction 1 as [|x s Hx HF IH]; [done|]. cbn [map]. rewrite !filter_cons.
  destruct (decide (x.1 = k)) as [Ek|Hne]; cbn [map].
  - rewrite IH. by rewrite decide_True by congruence.
  - rewrite IH. by rewrite decide_False by congruence.
Qed.

Lemma sortChanges_spec h cs cs' : sortChanges h cs = Some cs' ->
  cs' ≡ₚ cs /\ (forall k, keyed h k cs' = keyed h k cs) /\
  StronglySorted (fun c c' => forall k k', change_key h c = Some k -> change_key h c' = Some k' -> bytes_ltb k' k = false) cs'.
Proof.
  unfold sortChanges. destruct (newSortableChanges h cs) as [s|] eqn:Es; [|done]. intros [= <-].
  apply newSortableChanges_Some in Es as [<- HF]. pose proof (sort_Stable_perm s) as HP.
  assert (Forall (fun x : bytes * Change => change_key h x.2 = Some x.1) (sort_Stable s)) as HF' by (by rewrite HP).
  split; [by rewrite HP|]. split.
  - intros k. by rewrite <- !of_key_keyed, sort_Stable_of_key.
  - pose proof (sort_Stable_sorted s) as HS. clear HP HF. induction HS as [|x l HS IH Hx]; [constructor|].
    apply Forall_cons in HF' as [Hk HF']. cbn. constructor; [by apply IH|]. apply Forall_map.
    apply Forall_forall. intros y Hy k k'. cbn. rewrite Hk. intros [= <-].
    rewrite Forall_forall in HF', Hx. rewrite (HF' y Hy). intros [= <-]. by apply Hx.
Qed.

(** Where the loop panics: a change without a name, or an update or a removal that
    does not follow the state before it. *)
Definition stuck_at (prev : option LedgerEntryChange) (l : LedgerEntryChanges) (i : nat) : Prop :=
  match l !! i with
  | Some (EntryUnknown _) => True
  | Some (EntryUpdated _) | Some (EntryRemoved _) => state_before (match i with O => prev | S j => l !! j end) = None
  | _ => False
  end.

Lemma stuck_at_S prev x l i : stuck_at prev (x :: l) (S i) <-> stuck_at (Some x) l i.
Proof. unfold stuck_at. cbn. by destruct i. Qed.

Lemma changes_loop_None prev l : changes_loop prev l = None <-> exists i, stuck_at prev l i.
Proof.
  revert prev. induction l as [|x l IH]; intros prev; [split; [done|by intros [i H]; unfold stuck_at in H]|].
  transitivity (stuck_at prev (x :: l) 0 \/ changes_loop (Some x) l = None).
  - cbn. destruct x; unfold stuck_at; cbn; try destruct (state_before prev); cbn; destruct (changes_loop _ l); naive_solver.
  - rewrite IH. split.
    + intros [H|[i H]]; [by exists O|]. exists (S i). by apply stuck_at_S.
    + intros [[|i] H]; [by left|]. right. exists i. by apply stuck_at_S in H.
Qed.

Lemma newSortableChanges_None h cs : newSortableChanges h cs = None <-> exists c, c ∈ cs /\ change_key h c = None.
Proof.
  induction cs as [|c cs IH]; cbn; [split; [done|by intros (c & H & _); apply elem_of_nil in H]|].
  destruct (change_key h c) as [k|] eqn:Ek.
  - transitivity (newSortableChanges h cs = None); [by destruct (newSortableChanges h cs)|]. rewrite IH. split.
    + intros (c' & Hc & Hk). exists c'. split; [by right|done].
    + intros (c' & Hc & Hk). apply elem_of_cons in Hc as [->|Hc]; [congruence|]. by exists c'.
  - split; [|done]. intros _. exists c. split; [left|done].
Qed.

(** A group of ledger entry changes becomes sorted changes. It panics exactly
    where an update or a removal does not follow the state it changes, at a change
    without a name, or at a change whose key cannot be encoded. On a group as
    stellar-core writes it, every creation, update, removal and restoration is one
    change, with the entry before and the entry after it; the changes are sorted by
    the encoding of their keys, and those of one key keep their order. *)
Theorem group_changes h l :
  (GetChangesFromLedgerEntryChanges h l = None <->
    (exists i, stuck_at None l i) \/
    exists cs c, changes_loop None l = Some cs /\ c ∈ cs /\ change_key h c = None) /\
  forall cs, group l cs -> (forall c, c ∈ cs -> is_Some (change_key h c)) ->
    exists cs', GetChangesFromLedgerEntryChanges h l = Some cs' /\ cs' ≡ₚ cs /\
      (forall k, keyed h k cs' = keyed h k cs) /\
      StronglySorted (fun c c' => forall k k', change_key h c = Some k -> change_key h c' = Some k' -> bytes_ltb k' k = false) cs'.
Proof.
  unfold GetChangesFromLedgerEntryChanges. split.
  - rewrite <- changes_loop_None. destruct (changes_loop None l) as [cs|]; [|split; [by left|done]].
    unfold sortChanges. pose proof (newSortableChanges_None h cs) as Hn. destruct (newSortableChanges h cs) as [s|]; split; try done.
    + intros [|(? & c & [= <-] & H)]; [done|]. assert (Some s = None) by (apply Hn; by exists c). done.
    + intros _. right. destruct (proj1 Hn eq_refl) as (c & Hc). by exists cs, c.
  - intros cs Hg Hk. rewrite (group_loop l cs Hg). destruct (newSortableChanges_total h cs Hk) as [s Es].
    assert (sortChanges h cs = Some (map snd (sort_Stable s))) as E by (unfold sortChanges; by rewrite Es).
    eexists. split; [exact E|]. by apply sortChanges_spec.
Qed.
End Changes.

(** ** A group with a restoration, its update, and a creation *)
Module SampleGroup.
Import ConcreteKeys ConcreteTransactions.
Definition code (c : byte) (fields : bytes) : LedgerEntry := mkLedgerEntry 1 (DataContractCode (Vector.const c 32) fields) [].
Definition a_group : list LedgerEntryChange :=
  [EntryRestored (code Byte.x09 []); EntryUpdated (code Byte.x09 [Byte.x01]); EntryCreated (code Byte.x02 [])].
Definition group_result : list Change :=
  [new_change LedgerEntryTypeContractCode None (Some (code Byte.x09 [])) LedgerEntryRestored;
   new_change LedgerEntryTypeContractCode (Some (code Byte.x09 [])) (Some (code Byte.x09 [Byte.x01])) LedgerEntryUpdated;
   new_change LedgerEntryTypeContractCode None (Some (code Byte.x02 [])) LedgerEntryCreated].

End SampleGroup.
