(* ===== verification/TransactionReader.v ===== *)
(** * Reading the transactions of a ledger

    src/ingest/ledger_transaction_reader.go, and the changes of a transaction in
    src/ingest/ledger_transaction.go. The pointers a change keeps are named by what
    they point to: a transaction by its index, a ledger by its sequence number, an
    upgrade by its position. [None] is a panic. *)
From Stdlib Require Import ZArith Lia.
From stdpp Require Import base list vector option gmap sorting.
From S2P Require Import Prelude GoStd GoExt Price Encodings Strkey Asset LedgerEntries Compactor CloseMeta LedgerChanges.
#[local] Open Scope Z_scope.
#[local] Open Scope go_scope.

(** The errors of the readers, [io.EOF] first. *)
Inductive reader_error : Type :=
| EOF
| UnknownTxHash (hash : Hash)
| ErrHashTransaction (i : Z)
| BadMetaVersion
| MetaV0Unsupported
| MetaVersionUnsupported (V : Z).

Abbreviation LedgerEntryChangeReasonUnknown := 0.
Abbreviation LedgerEntryChangeReasonOperation := 1.
Abbreviation LedgerEntryChangeReasonTransaction := 2.
Abbreviation LedgerEntryChangeReasonFee := 3.
Abbreviation LedgerEntryChangeReasonFeeRefund := 4.
Abbreviation LedgerEntryChangeReasonUpgrade := 5.

Section Reader.
Context {ET : EntryTypes} {KE : KeyEncoding} {TT : TransactionTypes}.
#[local] Abbreviation LedgerEntryChanges := (list LedgerEntryChange).

(** ** A transaction and its changes *)
Record LedgerTransaction : Type := mkTransaction {
  Index : Z;
  Envelope : TransactionEnvelope;
  tx_Result : TransactionResultPair;
  FeeChanges : LedgerEntryChanges;
  UnsafeMeta : TransactionMeta;
  PostTxApplyFeeChanges : LedgerEntryChanges;
  tx_LedgerVersion : Z;
  tx_Ledger : LedgerCloseMeta;
  tx_Hash : Hash
}.

Definition txInternalError (t : LedgerTransaction) : bool :=
  ResultCode (tx_Result t) =? TransactionResultCodeTxInternalError.

(** Names for [t] and [&t.Ledger]. *)
Definition tx_pointer (t : LedgerTransaction) : option nat := Some (Z.to_nat (Index t)).
Definition ledger_pointer (l : LedgerCloseMeta) : option nat := let! s := LedgerSequence l in Some (Z.to_nat s).

(** The loop over the changes that fills their fields in. *)
Definition with_cause (reason opIndex : Z) (t lcm upgrade : option nat) (c : Change) : Change :=
  mkChange (Type_ c) (ChangeType c) (Pre c) (Post c) reason opIndex t lcm upgrade.

Definition caused_changes (h : ttl_store) (t : LedgerTransaction) (reason opIndex : Z) (l : LedgerEntryChanges) :
    option (list Change) :=
  let! changes := GetChangesFromLedgerEntryChanges h l in
  Some (map (with_cause reason opIndex (tx_pointer t) (ledger_pointer (tx_Ledger t)) None) changes).

Definition GetFeeChanges (h : ttl_store) (t : LedgerTransaction) : option (list Change) :=
  caused_changes h t LedgerEntryChangeReasonFee 0 (FeeChanges t).
Definition GetPostApplyFeeChanges (h : ttl_store) (t : LedgerTransaction) : option (list Change) :=
  caused_changes h t LedgerEntryChangeReasonFeeRefund 0 (PostTxApplyFeeChanges t).
Definition getTransactionChanges (h : ttl_store) (t : LedgerTransaction) (l : LedgerEntryChanges) : option (list Change) :=
  caused_changes h t LedgerEntryChangeReasonTransaction 0 l.

(** The changes of one operation, by its index. *)
Definition operationChanges (h : ttl_store) (t : LedgerTransaction) (ops : list LedgerEntryChanges) (index : Z) :
    option (list Change) :=
  if go_len ops <=? index then Some []
  else
    let! l := go_index ops index in
    caused_changes h t LedgerEntryChangeReasonOperation index l.

(** The loop over the operations from [opIdx] on; [rest] are those left. *)
Fixpoint operations_loop (h : ttl_store) (t : LedgerTransaction) (ops rest : list LedgerEntryChanges) (opIdx : Z) :
    option (list Change) :=
  match rest with
  | [] => Some []
  | _ :: rest =>
      let! here := operationChanges h t ops (u32 opIdx) in
      let! more := operations_loop h t ops rest (opIdx + 1) in
      Some (here ++ more)
  end.

(** The part [GetChanges] shares between the versions from 2 on. *)
Definition before_operations_after (h : ttl_store) (t : LedgerTransaction)
    (txBeforeChanges : LedgerEntryChanges) (ops : list LedgerEntryChanges) (txAfterChanges : LedgerEntryChanges) :
    option (list Change) :=
  let! txChangesBefore := getTransactionChanges h t txBeforeChanges in
  if txInternalError t && (tx_LedgerVersion t <=? 12) then Some txChangesBefore
  else
    let! opChanges := operations_loop h t ops ops 0 in
    let! txChangesAfter := getTransactionChanges h t txAfterChanges in
    Some (txChangesBefore ++ opChanges ++ txChangesAfter).

Definition GetChanges (h : ttl_store) (t : LedgerTransaction) : option (result reader_error (list Change)) :=
  match UnsafeMeta t with
  | MetaV0 _ => Some (Err MetaV0Unsupported)
  | MetaV1 txChanges ops =>
      let! txChanges := getTransactionChanges h t txChanges in
      if txInternalError t && (tx_LedgerVersion t <=? 12) then Some (Ok txChanges)
      else
        let! opChanges := operations_loop h t ops ops 0 in
        Some (Ok (txChanges ++ opChanges))
  | MetaV2 before ops after | MetaV3 before ops after _ =>
      let! changes := before_operations_after h t before ops after in Some (Ok changes)
  | MetaV4 before ops after _ _ =>
      let! changes := before_operations_after h t before (map op_Changes ops) after in Some (Ok changes)
  | MetaUnknown v => Some (Err (MetaVersionUnsupported v))
  end.

Definition GetOperationChanges (h : ttl_store) (t : LedgerTransaction) (operationIndex : Z) :
    option (result reader_error (list Change)) :=
  if Meta_V (UnsafeMeta t) =? 0 then Some (Err MetaV0Unsupported)
  else if txInternalError t && (tx_LedgerVersion t <=? 12) then Some (Ok [])
  else match UnsafeMeta t with
  | MetaV1 _ ops | MetaV2 _ ops _ | MetaV3 _ ops _ _ =>
      let! changes := operationChanges h t ops operationIndex in Some (Ok changes)
  | MetaV4 _ ops _ _ _ =>
      let! changes := operationChanges h t (map op_Changes ops) operationIndex in Some (Ok changes)
  | MetaV0 _ => Some (Err (MetaVersionUnsupported 0))
  | MetaUnknown v => Some (Err (MetaVersionUnsupported v))
  end.

(** ** The reader *)
Record LedgerTransactionReader : Type := mkTxReader {
  lcm : LedgerCloseMeta;
  envelopesByHash : gmap bytes TransactionEnvelope;
  readIdx : Z
}.

(** The loop over the envelopes, from [i] on. *)
Fixpoint storeTransactions_loop (l : LedgerCloseMeta) (networkPassphrase : bytes) (i : Z) (envelopes : list TransactionEnvelope)
    (m : gmap bytes TransactionEnvelope) : option (result reader_error (gmap bytes TransactionEnvelope)) :=
  match envelopes with
  | [] => Some (Ok m)
  | tx :: envelopes =>
      match HashTransactionInEnvelope tx networkPassphrase with
      | None => Some (Err (ErrHashTransaction i))
      | Some hash =>
          let! version := ProtocolVersion l in
          let! bad := if version <? 10 then
              let! meta := TxApplyProcessing l i in
              if Meta_V meta <? 2 then
                let! fees := FeeProcessing l i in Some (0 <? go_len fees)
              else Some false
            else Some false in
          if bad : bool then Some (Err BadMetaVersion)
          else storeTransactions_loop l networkPassphrase (i + 1) envelopes (<[vec_to_list hash := tx]> m)
      end
  end.

Definition NewLedgerTransactionReaderFromLedgerCloseMeta (networkPassphrase : bytes) (l : LedgerCloseMeta) :
    option (result reader_error LedgerTransactionReader) :=
  let! _ := CountTransactions l in
  let! envelopes := TransactionEnvelopes l in
  let! r := storeTransactions_loop l networkPassphrase 0 envelopes ∅ in
  Some (match r with Ok m => Ok (mkTxReader l m 0) | Err e => Err e end).

Definition set_readIdx (r : LedgerTransactionReader) (i : Z) : LedgerTransactionReader :=
  mkTxReader (lcm r) (envelopesByHash r) i.

(** What [Read] makes of the transaction at [i]. *)
Definition transaction_at (r : LedgerTransactionReader) (i : Z) : option (result reader_error LedgerTransaction) :=
  let! hash := TransactionHash (lcm r) i in
  match envelopesByHash r !! vec_to_list hash with
  | None => Some (Err (UnknownTxHash hash))
  | Some envelope =>
      let! postTxApplyFeeChanges := match lcm r with
        | LedgerCloseMetaV2 _ _ txs _ _ => let! tx := go_index txs i in Some (PostTxApplyFeeProcessing tx)
        | _ => Some []
        end in
      let! resultPair := TransactionResultPair_ (lcm r) i in
      let! meta := TxApplyProcessing (lcm r) i in
      let! fees := FeeProcessing (lcm r) i in
      let! header := LedgerHeaderHistoryEntry (lcm r) in
      Some (Ok (mkTransaction (u32 (i + 1)) envelope resultPair fees meta postTxApplyFeeChanges
        (LedgerVersion header) (lcm r) hash))
  end.

Definition Transaction_Read (r : LedgerTransactionReader) : option (result reader_error LedgerTransaction * LedgerTransactionReader) :=
  let! n := CountTransactions (lcm r) in
  if n <=? readIdx r then Some (Err EOF, r)
  else
    let! tx := transaction_at r (readIdx r) in
    Some (tx, set_readIdx r (readIdx r + 1)).

Definition Seek (r : LedgerTransactionReader) (index : Z) : option (option reader_error * LedgerTransactionReader) :=
  let! n := CountTransactions (lcm r) in
  if (n <=? index) || (index <? 0) then Some (Some EOF, r) else Some (None, set_readIdx r index).

Definition Rewind (r : LedgerTransactionReader) : option LedgerTransactionReader :=
  let! (_, r) := Seek r 0 in Some r.

Definition GetSequence (r : LedgerTransactionReader) : option Z := LedgerSequence (lcm r).
Definition GetHeader (r : LedgerTransactionReader) : option LedgerHeaderHistoryEntry_ := LedgerHeaderHistoryEntry (lcm r).

Definition Transaction_Close (r : LedgerTransactionReader) : LedgerTransactionReader := mkTxReader (lcm r) ∅ (readIdx r).
End Reader.

(** ** Envelopes and results *)
Section Matching.
Context {ET : EntryTypes} {KE : KeyEncoding} {TT : TransactionTypes}.

Lemma storeTransactions_map l passphrase : forall envelopes i m m',
  storeTransactions_loop l passphrase i envelopes m = Some (Ok m') ->
  (forall k e, m' !! k = Some e -> m !! k = Some e \/
    e ∈ envelopes /\ exists hash, k = vec_to_list hash /\ HashTransactionInEnvelope e passphrase = Some hash) /\
  (forall k, is_Some (m !! k) -> is_Some (m' !! k)) /\
  (forall e hash, e ∈ envelopes -> HashTransactionInEnvelope e passphrase = Some hash -> is_Some (m' !! vec_to_list hash)).
Proof.
  induction envelopes as [|tx envelopes IH]; intros i m m'; cbn.
  { intros [= <-]. split; [by left|]. split; [done|]. by intros e hash ?%elem_of_nil. }
  destruct (HashTransactionInEnvelope tx passphrase) as [hash|] eqn:Eh; [|done].
  destruct (ProtocolVersion l) as [version|]; [|done].
  destruct (if version <? 10 then _ else _) as [[]|]; [done| |done]. intros H. destruct (IH _ _ _ H) as (H1 & H2 & H3).
  split; [|split].
  - intros k e Hk. destruct (H1 k e Hk) as [Hm|[Hin Hh]]; [|right; split; [by right|done]].
    apply lookup_insert_Some in Hm as [[<- <-]|[_ Hm]]; [|by left]. right. split; [left|by exists hash].
  - intros k Hk. apply H2. destruct (decide (k = vec_to_list hash)) as [->|]; [by rewrite lookup_insert_eq|by rewrite lookup_insert_ne].
  - intros e hash' [->|Hin]%elem_of_cons He; [|by eapply H3]. rewrite Eh in He. injection He as <-. apply H2. by rewrite lookup_insert_eq.
Qed.

Lemma transaction_at_reads r i tx : TxProcessing_at (lcm r) i = Some tx ->
  match transaction_at r i with
  | Some (Ok t) => envelopesByHash r !! vec_to_list (pair_TransactionHash (Result tx)) = Some (Envelope t) /\
      Index t = u32 (i + 1) /\ tx_Hash t = pair_TransactionHash (Result tx) /\
      tx_Result t = Result tx /\ FeeChanges t = FeeProcessing_ tx /\ UnsafeMeta t = TxApplyProcessing_ tx
  | Some (Err e) => envelopesByHash r !! vec_to_list (pair_TransactionHash (Result tx)) = None /\
      e = UnknownTxHash (pair_TransactionHash (Result tx))
  | None => False
  end.
Proof.
  intros Htx. unfold transaction_at, TransactionHash, TransactionResultPair_, TxApplyProcessing, FeeProcessing. rewrite Htx. cbn.
  destruct (envelopesByHash r !! _) as [e|]; [|done].
  destruct (lcm r) as [? ? txs|? ? txs|? ? txs|]; cbn in *; try done. destruct (go_index txs i) as [t|]; [|done]. by injection Htx as <-.
Qed.

(** C9: every result is read with its own envelope. The envelopes of a transaction set
    are in another order than the results; the transaction read at an index has the
    index, result, fees and meta of that place, and an envelope of the set that has
    the hash of the result on the network; and reading it gives an error exactly when
    the set has no envelope with that hash. *)
Theorem results_with_their_envelopes passphrase l r i tx :
  NewLedgerTransactionReaderFromLedgerCloseMeta passphrase l = Some (Ok r) -> TxProcessing_at l i = Some tx ->
  exists envelopes, TransactionEnvelopes l = Some envelopes /\
  match transaction_at r i with
  | Some (Ok t) =>
      Envelope t ∈ envelopes /\ HashTransactionInEnvelope (Envelope t) passphrase = Some (pair_TransactionHash (Result tx)) /\
      Index t = u32 (i + 1) /\ tx_Hash t = pair_TransactionHash (Result tx) /\
      tx_Result t = Result tx /\ FeeChanges t = FeeProcessing_ tx /\ UnsafeMeta t = TxApplyProcessing_ tx
  | Some (Err e) => e = UnknownTxHash (pair_TransactionHash (Result tx)) /\
      forall envelope, envelope ∈ envelopes ->
        HashTransactionInEnvelope envelope passphrase <> Some (pair_TransactionHash (Result tx))
  | None => False
  end.
Proof.
  unfold NewLedgerTransactionReaderFromLedgerCloseMeta. destruct (CountTransactions l); [|done].
  destruct (TransactionEnvelopes l) as [envelopes|] eqn:Ee; [|done].
  destruct (storeTransactions_loop l passphrase 0 envelopes ∅) as [[m|]|] eqn:Es; [|done|done]. intros [= <-] Htx.
  exists envelopes. split; [done|]. destruct (storeTransactions_map _ _ _ _ _ _ Es) as (H1 & _ & H3).
  pose proof (transaction_at_reads (mkTxReader l m 0) i tx Htx) as H. destruct (transaction_at _ i) as [[t|e]|]; [| |done].
  - destruct H as [Hm H]. cbn in Hm. destruct (H1 _ _ Hm) as [Hm'|(Hin & hash & Ek & Hh)]; [by rewrite lookup_empty in Hm'|].
    apply vec_to_list_inj2 in Ek as <-. split; [done|]. split; [done|]. exact H.
  - destruct H as [Hm ->]. cbn in Hm. split; [done|]. intros e Hin He. destruct (H3 e _ Hin He) as [x Hx]. congruence.
Qed.
End Matching.

(** ** A set in the other order than the results *)
Module SampleSet.
Import ConcreteKeys ConcreteTransactions.
Definition tx_result (c : byte) : TransactionResultMeta :=
  mkResultMeta (mkResultPair (Vector.const c 32) 0 tt) [] (MetaV2 [] [] []).
Definition a_meta : LedgerCloseMeta :=
  LedgerCloseMetaV0 (mkHeader (Vector.const Byte.x00 32) 21 (Vector.const Byte.x00 32) (Vector.const Byte.x00 32) 9 0)
    [Vector.const Byte.x02 32; Vector.const Byte.x01 32] [tx_result Byte.x01; tx_result Byte.x02] [].
Definition a_tx_reader : LedgerTransactionReader :=
  mkTxReader a_meta (<[vec_to_list (Vector.const Byte.x01 32) := Vector.const Byte.x01 32]>
    (<[vec_to_list (Vector.const Byte.x02 32) := Vector.const Byte.x02 32]> ∅)) 0.

Lemma results_with_their_envelopes_witness : exists envelopes, TransactionEnvelopes a_meta = Some envelopes /\
  exists t, transaction_at a_tx_reader 0 = Some (Ok t) /\ Envelope t ∈ envelopes /\ Index t = 1 /\ Envelope t = Vector.const Byte.x01 32.
Proof.
  destruct (results_with_their_envelopes [] a_meta a_tx_reader 0 (tx_result Byte.x01)) as (es & Ee & H);
    [vm_compute; reflexivity|reflexivity|]. exists es. split; [exact Ee|].
  destruct (transaction_at a_tx_reader 0) as [[t|e]|] eqn:Et.
  - exists t. split; [reflexivity|]. destruct H as (Hin & Hh & Hi & _). split; [exact Hin|]. split; [exact Hi|]. injection Hh as Hh. exact Hh.
  - exfalso. vm_compute in Et. discriminate Et.
  - destruct H.
Defined.
End SampleSet.
