(* ===== verification/ChangeReader.v ===== *)
(** * The change reader of a ledger

    src/ingest/ledger_change_reader.go: the state machine that reads a ledger's
    changes in order, and the reader that compacts the changes of another one. [None]
    is a panic. *)
From Stdlib Require Import ZArith Lia.
From stdpp Require Import base list vector option gmap sorting.
From S2P Require Import Prelude GoStd GoExt Price Encodings Strkey Asset LedgerEntries Compactor CloseMeta LedgerChanges TransactionReader.
#[local] Open Scope Z_scope.
#[local] Open Scope go_scope.

Section Reader.
Context {ET : EntryTypes} {KE : KeyEncoding} {TT : TransactionTypes}.

Inductive ledgerChangeReaderState : Type := feeChangesState | metaChangesState | postTxApplyState | upgradeChangesState.

Record LedgerChangeReader : Type := mkChangeReader {
  transactions : LedgerTransactionReader;
  state : ledgerChangeReaderState;
  pending : list Change;
  pendingIndex : Z;
  upgradeIndex : Z
}.

Definition NewLedgerChangeReaderFromLedgerCloseMeta (networkPassphrase : bytes) (ledger : LedgerCloseMeta) :
    option (result reader_error LedgerChangeReader) :=
  let! r := NewLedgerTransactionReaderFromLedgerCloseMeta networkPassphrase ledger in
  Some (match r with Ok txs => Ok (mkChangeReader txs feeChangesState [] 0 0) | Err e => Err e end).

(** [r.state++], which is only done before the last state. *)
Definition next_state (s : ledgerChangeReaderState) : ledgerChangeReaderState :=
  match s with
  | feeChangesState => metaChangesState
  | metaChangesState => postTxApplyState
  | postTxApplyState | upgradeChangesState => upgradeChangesState
  end.

(** The changes of a transaction in a state. *)
Definition state_changes (h : ttl_store) (s : ledgerChangeReaderState) (tx : LedgerTransaction) :
    option (result reader_error (list Change)) :=
  match s with
  | feeChangesState => let! changes := GetFeeChanges h tx in Some (Ok changes)
  | metaChangesState => GetChanges h tx
  | postTxApplyState => let! changes := GetPostApplyFeeChanges h tx in Some (Ok changes)
  | upgradeChangesState => Some (Ok [])
  end.

Definition upgrade_changes (h : ttl_store) (l : LedgerCloseMeta) (i : Z) (upgrade : UpgradeEntryMeta) : option (list Change) :=
  let! changes := GetChangesFromLedgerEntryChanges h (Changes upgrade) in
  Some (map (with_cause LedgerEntryChangeReasonUpgrade 0 None (ledger_pointer l) (Some (Z.to_nat i))) changes).

Definition set_transactions (r : LedgerChangeReader) (txs : LedgerTransactionReader) : LedgerChangeReader :=
  mkChangeReader txs (state r) (pending r) (pendingIndex r) (upgradeIndex r).
Definition append_pending (r : LedgerChangeReader) (changes : list Change) : LedgerChangeReader :=
  mkChangeReader (transactions r) (state r) (pending r ++ changes) (pendingIndex r) (upgradeIndex r).

(** [Read], which calls itself; [fuel] bounds the calls. *)
Fixpoint Read_loop (fuel : nat) (h : ttl_store) (r : LedgerChangeReader) : option (result reader_error Change * LedgerChangeReader) :=
  match fuel with
  | O => None
  | S fuel =>
      if pendingIndex r <? go_len (pending r) then
        let! next := go_index (pending r) (pendingIndex r) in
        Some (Ok next,
          if pendingIndex r + 1 =? go_len (pending r)
          then mkChangeReader (transactions r) (state r) [] 0 (upgradeIndex r)
          else mkChangeReader (transactions r) (state r) (pending r) (pendingIndex r + 1) (upgradeIndex r))
      else match state r with
      | upgradeChangesState =>
          let! upgrades := UpgradesProcessing (lcm (transactions r)) in
          if upgradeIndex r <? go_len upgrades then
            let! upgrade := go_index upgrades (upgradeIndex r) in
            let! changes := upgrade_changes h (lcm (transactions r)) (upgradeIndex r) upgrade in
            Read_loop fuel h (mkChangeReader (transactions r) (state r) (pending r ++ changes) (pendingIndex r) (upgradeIndex r + 1))
          else Some (Err EOF, r)
      | _ =>
          let! (tx, txs) := Transaction_Read (transactions r) in
          let r := set_transactions r txs in
          match tx with
          | Err EOF =>
              let! txs := match state r with postTxApplyState => Some (transactions r) | _ => Rewind (transactions r) end in
              Read_loop fuel h (mkChangeReader txs (next_state (state r)) (pending r) (pendingIndex r) (upgradeIndex r))
          | Err e => Some (Err e, r)
          | Ok tx =>
              let! changes := state_changes h (state r) tx in
              match changes with
              | Err e => Some (Err e, r)
              | Ok changes => Read_loop fuel h (append_pending r changes)
              end
          end
      end
  end.

(** Enough for a call: the transactions of each state, the ends of the states, the
    upgrades, and the call that returns. *)
Definition read_fuel (r : LedgerChangeReader) : nat :=
  (3 * (Z.to_nat (default 0%Z (CountTransactions (lcm (transactions r)))) + 1)
   + length (default [] (UpgradesProcessing (lcm (transactions r)))) + 2)%nat.

Definition Change_Read (h : ttl_store) (r : LedgerChangeReader) : option (result reader_error Change * LedgerChangeReader) :=
  Read_loop (read_fuel r) h r.

Definition Change_Close (r : LedgerChangeReader) : LedgerChangeReader :=
  mkChangeReader (Transaction_Close (transactions r)) (state r) [] (pendingIndex r) (upgradeIndex r).
End Reader.

(** ** Compacting another reader *)
Section Compacting.
Context {ET : EntryTypes} {KE : KeyEncoding}.
(** The input, with its errors, [io.EOF] among them; and the order in which Go lists
    the cache of a compactor. *)
Context {R E : Type} (Read : ttl_store -> R -> option (result E Change * R)) (is_EOF : E -> bool).
Context (listed : ChangeCompactor -> list Change).

Inductive compacting_error : Type := InputError (e : E) | CompactorError (e : compactor_error) | CompactingEOF.

Record compactingChangeReader : Type := mkCompacting {
  input : R;
  changes : list Change;
  compacted : bool;
  reader_config : ChangeCompactorConfig
}.

Definition NewCompactingChangeReader (input : R) (config : ChangeCompactorConfig) : compactingChangeReader :=
  mkCompacting input [] false config.

(** The loop of [compact]; [fuel] bounds the changes read. It leaves the store, where
    the compactor writes TTLs, and the input as they are when it ends. *)
Fixpoint compact_loop (fuel : nat) (h : ttl_store) (compactor : ChangeCompactor) (r : R) :
    option (result compacting_error ChangeCompactor * ttl_store * R) :=
  match fuel with
  | O => None
  | S fuel =>
      let! (x, r) := Read h r in
      match x with
      | Err e => Some (if is_EOF e then Ok compactor else Err (InputError e), h, r)
      | Ok change =>
          let! added := AddChange compactor h change in
          match added with
          | Err e => Some (Err (CompactorError e), h, r)
          | Ok (compactor, h) => compact_loop fuel h compactor r
          end
      end
  end.

Definition compact (fuel : nat) (h : ttl_store) (c : compactingChangeReader) :
    option (option compacting_error * ttl_store * compactingChangeReader) :=
  let! (x, h, r) := compact_loop fuel h (NewChangeCompactor (reader_config c)) (input c) in
  Some (match x with
        | Err e => (Some e, h, mkCompacting r (changes c) (compacted c) (reader_config c))
        | Ok compactor => (None, h, mkCompacting r (listed compactor) true (reader_config c))
        end).

Definition take_change (h : ttl_store) (c : compactingChangeReader) :
    result compacting_error Change * ttl_store * compactingChangeReader :=
  match changes c with
  | [] => (Err CompactingEOF, h, c)
  | change :: rest => (Ok change, h, mkCompacting (input c) rest (compacted c) (reader_config c))
  end.

Definition Compacting_Read (fuel : nat) (h : ttl_store) (c : compactingChangeReader) :
    option (result compacting_error Change * ttl_store * compactingChangeReader) :=
  if compacted c then Some (take_change h c)
  else
    let! (e, h, c) := compact fuel h c in
    match e with
    | Some e => Some (Err e, h, c)
    | None => Some (take_change h c)
    end.
End Compacting.
