(* ===== verification/ChangeReaderSpec.v ===== *)
(** * What the readers of a ledger deliver

    The changes of a ledger in order, then end of file; and the compacting reader
    over any reader whose changes are those of a ledger. *)
From Stdlib Require Import ZArith Lia.
From stdpp Require Import base list vector option gmap sorting numbers.
From S2P Require Import Prelude GoStd GoExt Price Encodings Strkey Asset LedgerEntries Compactor CompactorSpec CloseMeta LedgerChanges.
From S2P Require Import TransactionReader ChangeReader.
#[local] Open Scope Z_scope.
#[local] Open Scope go_scope.

Section Order.
Context {ET : EntryTypes} {KE : KeyEncoding} {TT : TransactionTypes}.
#[local] Abbreviation item := (result reader_error Change).

(** ** The results a ledger's changes are read as *)

(** Of one transaction in a state: its changes, or the error there is. *)
Definition tx_items (h : ttl_store) (txs : LedgerTransactionReader) (s : ledgerChangeReaderState) (i : Z) : option (list item) :=
  let! tx := transaction_at txs i in
  match tx with
  | Err e => Some [Err e]
  | Ok tx =>
      let! changes := state_changes h s tx in
      Some (match changes with Err e => [Err e] | Ok changes => map Ok changes end)
  end.

(** Of the transactions from [i] on, in a state. *)
Definition state_items (h : ttl_store) (txs : LedgerTransactionReader) (s : ledgerChangeReaderState) (i n : Z) : option (list item) :=
  let! items := mapM (tx_items h txs s) (seqZ i (n - i)) in Some (concat items).

(** Of the upgrades, from the one at [i] on. *)
Fixpoint upgrade_items (h : ttl_store) (l : LedgerCloseMeta) (i : Z) (upgrades : list UpgradeEntryMeta) : option (list item) :=
  match upgrades with
  | [] => Some []
  | upgrade :: upgrades =>
      let! changes := upgrade_changes h l i upgrade in
      let! rest := upgrade_items h l (i + 1) upgrades in
      Some (map Ok changes ++ rest)
  end.

(** All of a ledger: the fees of all transactions, their changes, their refunds, the
    upgrades. *)
Definition ledger_items (h : ttl_store) (txs : LedgerTransactionReader) : option (list item) :=
  let! n := CountTransactions (lcm txs) in
  let! upgrades := UpgradesProcessing (lcm txs) in
  let! fees := state_items h txs feeChangesState 0 n in
  let! metas := state_items h txs metaChangesState 0 n in
  let! refunds := state_items h txs postTxApplyState 0 n in
  let! ups := upgrade_items h (lcm txs) 0 upgrades in
  Some (fees ++ metas ++ refunds ++ ups).

(** ** What is left to read *)
Definition later_items (h : ttl_store) (txs : LedgerTransactionReader) (s : ledgerChangeReaderState) (n : Z) : option (list item) :=
  match s with
  | feeChangesState =>
      let! metas := state_items h txs metaChangesState 0 n in
      let! refunds := state_items h txs postTxApplyState 0 n in
      Some (metas ++ refunds)
  | metaChangesState => state_items h txs postTxApplyState 0 n
  | _ => Some []
  end.

Definition current_items (h : ttl_store) (txs : LedgerTransactionReader) (s : ledgerChangeReaderState) (n : Z) : option (list item) :=
  match s with upgradeChangesState => Some [] | _ => state_items h txs s (readIdx txs) n end.

Definition remaining (h : ttl_store) (r : LedgerChangeReader) (n : Z) (upgrades : list UpgradeEntryMeta) : option (list item) :=
  let! current := current_items h (transactions r) (state r) n in
  let! later := later_items h (transactions r) (state r) n in
  let! ups := upgrade_items h (lcm (transactions r)) (upgradeIndex r) (drop (Z.to_nat (upgradeIndex r)) upgrades) in
  Some (map Ok (drop (Z.to_nat (pendingIndex r)) (pending r)) ++ current ++ later ++ ups).

Record reading (r : LedgerChangeReader) (n : Z) (upgrades : list UpgradeEntryMeta) : Prop := {
  r_count : CountTransactions (lcm (transactions r)) = Some n;
  r_upgrades : UpgradesProcessing (lcm (transactions r)) = Some upgrades;
  r_idx : 0 <= readIdx (transactions r) <= n;
  r_pending : (pending r = [] /\ pendingIndex r = 0) \/ 0 <= pendingIndex r < go_len (pending r);
  r_upgrade : 0 <= upgradeIndex r <= go_len upgrades
}.

(** The calls that a call of [Read] makes at most. *)
Definition states_left (s : ledgerChangeReaderState) : Z :=
  match s with feeChangesState => 3 | metaChangesState => 2 | postTxApplyState => 1 | upgradeChangesState => 0 end.
Definition calls_left (r : LedgerChangeReader) (n : Z) (upgrades : list UpgradeEntryMeta) : Z :=
  states_left (state r) * (n + 1) - (match state r with upgradeChangesState => 0 | _ => readIdx (transactions r) end)
  + (go_len upgrades - upgradeIndex r).

(** The transactions do not depend on how far they are read. *)
Lemma items_set_readIdx h txs s n i j :
  state_items h (set_readIdx txs j) s i n = state_items h txs s i n.
Proof. done. Qed.

Lemma state_items_step h txs s i n : i < n ->
  state_items h txs s i n =
    let! here := tx_items h txs s i in let! rest := state_items h txs s (i + 1) n in Some (here ++ rest).
Proof.
  intros Hi. unfold state_items. rewrite seqZ_cons by lia. cbn. replace (Z.succ i) with (i + 1) by lia.
  replace (Z.pred (n - i)) with (n - (i + 1)) by lia.
  destruct (tx_items h txs s i); cbn; [|done]. by destruct (mapM _ _).
Qed.

Lemma state_items_end h txs s n : state_items h txs s n n = Some [].
Proof. unfold state_items. by rewrite Z.sub_diag. Qed.

Lemma transaction_at_not_EOF txs i : transaction_at txs i <> Some (Err EOF).
Proof.
  unfold transaction_at. destruct (TransactionHash _ _); [|done]. destruct (_ !! _); [|done].
  repeat match goal with |- context [match ?x with Some _ => _ | None => _ end] => destruct x; try done end.
Qed.

(** ** One call *)
Definition reads (h : ttl_store) (r : LedgerChangeReader) (n : Z) (upgrades : list UpgradeEntryMeta) (items : list item)
    (x : option (item * LedgerChangeReader)) : Prop :=
  exists r', reading r' n upgrades /\ lcm (transactions r') = lcm (transactions r) /\
    envelopesByHash (transactions r') = envelopesByHash (transactions r) /\
    match items with
    | [] => x = Some (Err EOF, r') /\ remaining h r' n upgrades = Some []
    | item :: items => x = Some (item, r') /\ remaining h r' n upgrades = Some items
    end.

Lemma reads_from h r r' n upgrades items x :
  lcm (transactions r') = lcm (transactions r) -> envelopesByHash (transactions r') = envelopesByHash (transactions r) ->
  reads h r' n upgrades items x -> reads h r n upgrades items x.
Proof. intros E1 E2 (r2 & H1 & H2 & H3 & H4). exists r2. split; [done|]. by rewrite <- E1, <- E2. Qed.

Lemma calls_left_nonneg r n upgrades : reading r n upgrades -> 0 <= calls_left r n upgrades.
Proof.
  intros [_ _ Hi _ Hu]. unfold calls_left. destruct (state r); cbn [states_left]; lia.
Qed.

(** A pending change. *)
Lemma read_pending h fuel r n upgrades items : reading r n upgrades -> remaining h r n upgrades = Some items ->
  pendingIndex r < go_len (pending r) -> reads h r n upgrades items (Read_loop (S fuel) h r).
Proof.
  intros [Hc Hu Hi [[Hp Hp0]|Hp] Hup] Hr Hlt; [rewrite Hp, Hp0 in Hlt; done|].
  cbn [Read_loop]. replace (pendingIndex r <? go_len (pending r)) with true by lia.
  destruct (lookup_lt_is_Some_2 (pending r) (Z.to_nat (pendingIndex r)) ltac:(unfold go_len in *; lia)) as [x Hx].
  assert (go_index (pending r) (pendingIndex r) = Some x) as -> by (apply go_index_Some; split; [lia|done]).
  unfold remaining in Hr. rewrite (drop_S _ _ _ Hx) in Hr.
  destruct (current_items _ _ _ _) as [cur|] eqn:Ec; [|done]. destruct (later_items _ _ _ _) as [lat|] eqn:El; [|done].
  destruct (upgrade_items _ _ _ _) as [ups|] eqn:Eu; [|done]. cbn in Hr. injection Hr as <-.
  destruct (Z.eqb_spec (pendingIndex r + 1) (go_len (pending r))) as [Hend|Hne]; eexists; (split; [|split; [|split; [|split; [reflexivity|]]]]); try done.
  - split; cbn; try done. by left.
  - unfold remaining; cbn. rewrite Ec, El, Eu. cbn. rewrite (drop_ge (pending r)) by (unfold go_len in *; lia). done.
  - split; cbn; try done. right. unfold go_len in *. lia.
  - unfold remaining; cbn. rewrite Ec, El, Eu. cbn. replace (Z.to_nat (pendingIndex r + 1)) with (S (Z.to_nat (pendingIndex r))) by lia. done.
Qed.

Section Call.
Context (h : ttl_store) (fuel : nat) (r : LedgerChangeReader) (n : Z) (upgrades : list UpgradeEntryMeta) (items : list item).
Context (IH : forall r items, reading r n upgrades -> remaining h r n upgrades = Some items ->
  calls_left r n upgrades < Z.of_nat fuel -> reads h r n upgrades items (Read_loop fuel h r)).
Context (Hrd : reading r n upgrades) (Hrem : remaining h r n upgrades = Some items) (Hfuel : calls_left r n upgrades < Z.of_nat (S fuel)).
Context (Hpend : pending r = []) (Hpidx : pendingIndex r = 0).

(** The next upgrade, or the end of the ledger. *)
Lemma read_upgrade : state r = upgradeChangesState -> reads h r n upgrades items (Read_loop (S fuel) h r).
Proof.
  intros Hs. destruct Hrd as [Hc Hu Hi Hp Hup]. cbn [Read_loop]. rewrite Hpidx, Hpend, Hs, Hu. cbn [go_len length Z.ltb].
  pose proof Hrem as Hr. unfold remaining in Hr. rewrite Hs, Hpend, Hpidx in Hr. cbn in Hr.
  destruct (Z.ltb_spec (upgradeIndex r) (go_len upgrades)) as [Hlt|Hge].
  - destruct (lookup_lt_is_Some_2 upgrades (Z.to_nat (upgradeIndex r)) ltac:(unfold go_len in *; lia)) as [u Hx].
    assert (go_index upgrades (upgradeIndex r) = Some u) as -> by (apply go_index_Some; split; [lia|done]).
    rewrite (drop_S _ _ _ Hx) in Hr. cbn in Hr. destruct (upgrade_changes _ _ _ _) as [cs|]; [|done].
    destruct (upgrade_items h (lcm (transactions r)) (upgradeIndex r + 1) _) as [ups|] eqn:Eu; [|done].
    cbn in Hr. injection Hr as <-. apply reads_from with (r' := mkChangeReader (transactions r) upgradeChangesState cs 0 (upgradeIndex r + 1)); [done|done|].
    apply IH.
    + split; cbn; try done; [|lia]. destruct cs; [by left|right; unfold go_len; cbn; lia].
    + unfold remaining; cbn. replace (Z.to_nat (upgradeIndex r + 1)) with (S (Z.to_nat (upgradeIndex r))) by lia.
      by rewrite Eu.
    + unfold calls_left in *. rewrite Hs in Hfuel. cbn in *. lia.
  - rewrite drop_ge in Hr by (unfold go_len in *; lia). cbn in Hr. injection Hr as <-.
    exists r. split; [done|]. split; [done|]. split; [done|]. split; [done|]. exact Hrem.
Qed.

(** The end of a state: rewound, the reader goes on with the next. *)
Lemma remaining_next txs : state r <> upgradeChangesState -> readIdx (transactions r) = n ->
  lcm txs = lcm (transactions r) -> envelopesByHash txs = envelopesByHash (transactions r) ->
  (state r <> postTxApplyState -> readIdx txs = 0) ->
  remaining h (mkChangeReader txs (next_state (state r)) (pending r) (pendingIndex r) (upgradeIndex r)) n upgrades = Some items.
Proof.
  intros Hs Hn E1 E2 E3. rewrite <- Hrem. unfold remaining, current_items, later_items. cbn [transactions state pending pendingIndex upgradeIndex].
  rewrite E1. assert (forall s i, state_items h txs s i n = state_items h (transactions r) s i n) as E.
  { intros s i. destruct txs as [l e j], (transactions r) as [l' e' j']. cbn in *. by subst. }
  destruct (state r) eqn:Es; cbn [next_state]; try done; rewrite ?Hn, ?state_items_end, ?E, ?E3 by done; cbn.
  - destruct (state_items h (transactions r) metaChangesState 0 n) as [a|]; [|done]. cbn.
    destruct (state_items h (transactions r) postTxApplyState 0 n) as [b|]; [|done]. cbn.
    destruct (upgrade_items _ _ _ _); [|done]. cbn. by rewrite <- !app_assoc.
  - destruct (state_items h (transactions r) postTxApplyState 0 n) as [b|]; [|done]. done.
  - done.
Qed.

Lemma Read_loop_transaction : state r <> upgradeChangesState -> Read_loop (S fuel) h r =
  let! (tx, txs) := Transaction_Read (transactions r) in
  let r := set_transactions r txs in
  match tx with
  | Err EOF =>
      let! txs := match state r with postTxApplyState => Some (transactions r) | _ => Rewind (transactions r) end in
      Read_loop fuel h (mkChangeReader txs (next_state (state r)) (pending r) (pendingIndex r) (upgradeIndex r))
  | Err e => Some (Err e, r)
  | Ok tx =>
      let! changes := state_changes h (state r) tx in
      match changes with
      | Err e => Some (Err e, r)
      | Ok changes => Read_loop fuel h (append_pending r changes)
      end
  end.
Proof. destruct r as [t s p i u]. cbn in Hpend, Hpidx. subst p i. by destruct s. Qed.

Lemma read_end : state r <> upgradeChangesState -> n <= readIdx (transactions r) ->
  reads h r n upgrades items (Read_loop (S fuel) h r).
Proof.
  intros Hs Hend. pose proof Hrd as [Hc Hu Hi Hp Hup]. rewrite Read_loop_transaction by done. unfold Transaction_Read. rewrite Hc.
  replace (n <=? readIdx (transactions r)) with true by lia.
  replace (set_transactions r (transactions r)) with r by (by destruct r). cbn zeta.
  assert (exists txs, Rewind (transactions r) = Some txs /\ lcm txs = lcm (transactions r) /\
    envelopesByHash txs = envelopesByHash (transactions r) /\ readIdx txs = 0) as (txs & Ht & E1 & E2 & E3).
  { unfold Rewind, Seek. rewrite Hc. destruct (Z.leb_spec n 0); cbn; eexists; (split; [reflexivity|]); repeat split. lia. }
  assert (forall txs, lcm txs = lcm (transactions r) -> envelopesByHash txs = envelopesByHash (transactions r) ->
    (state r <> postTxApplyState -> readIdx txs = 0) -> 0 <= readIdx txs <= n ->
    reads h r n upgrades items
      (Read_loop fuel h (mkChangeReader txs (next_state (state r)) (pending r) (pendingIndex r) (upgradeIndex r)))) as Hnext.
  { intros txs' F1 F2 F3 F4. eapply (reads_from h r); [| |apply IH]; [done|done| | |].
    - split; cbn; rewrite ?F1; done.
    - by apply remaining_next; [done|lia|..].
    - unfold calls_left in *. destruct (state r); cbn in *; try done; rewrite ?F3 by done; lia. }
  destruct (state r) eqn:Es; [| | |done]; cbn; rewrite ?Ht; apply Hnext; try done; lia.
Qed.

(** What is left is of one transaction and of the rest. *)
Lemma remaining_transaction txs : state r <> upgradeChangesState -> readIdx (transactions r) < n ->
  txs = set_readIdx (transactions r) (readIdx (transactions r) + 1) ->
  exists here rest, tx_items h (transactions r) (state r) (readIdx (transactions r)) = Some here /\ items = here ++ rest /\
    forall cs, remaining h (mkChangeReader txs (state r) cs 0 (upgradeIndex r)) n upgrades = Some (map Ok cs ++ rest).
Proof.
  intros Hs Hmore ->. set (txs := set_readIdx _ _). pose proof Hrem as Hr. unfold remaining in Hr. rewrite Hpend, Hpidx in Hr.
  assert (current_items h (transactions r) (state r) n =
    let! here := tx_items h (transactions r) (state r) (readIdx (transactions r)) in
    let! rest := current_items h txs (state r) n in Some (here ++ rest)) as Hcur.
  { unfold current_items, txs. cbn [readIdx set_readIdx].
    destruct (state r); [| | |done]; rewrite state_items_step, items_set_readIdx by done; done. }
  rewrite Hcur in Hr. destruct (tx_items _ _ _ _) as [here|]; [|done]. unfold remaining. cbn in Hr |- *.
  destruct (current_items h txs (state r) n) as [cur|]; [|done]. cbn in Hr |- *.
  change (later_items h txs (state r) n) with (later_items h (transactions r) (state r) n).
  destruct (later_items _ _ _ _) as [lat|]; [|done]. cbn in Hr |- *.
  destruct (upgrade_items _ _ _ _) as [ups|]; [|done]. cbn in Hr |- *.
  exists here, (cur ++ lat ++ ups). split; [done|]. injection Hr as <-. split; [by rewrite <- !app_assoc|done].
Qed.

Lemma read_transaction : state r <> upgradeChangesState -> readIdx (transactions r) < n ->
  reads h r n upgrades items (Read_loop (S fuel) h r).
Proof.
  intros Hs Hmore. pose proof Hrd as [Hc Hu Hi Hp Hup]. rewrite Read_loop_transaction by done. unfold Transaction_Read. rewrite Hc.
  replace (n <=? readIdx (transactions r)) with false by lia.
  set (txs := set_readIdx (transactions r) (readIdx (transactions r) + 1)).
  destruct (remaining_transaction txs Hs Hmore eq_refl) as (here & rest & Hhere & -> & Hrest).
  assert (forall cs : list Change, reading (mkChangeReader txs (state r) cs 0 (upgradeIndex r)) n upgrades) as Hrd'.
  { intros cs. split; cbn; try done; [lia|]. destruct cs; [by left|right; unfold go_len; cbn; lia]. }
  assert (set_transactions r txs = mkChangeReader txs (state r) [] 0 (upgradeIndex r)) as Er.
  { unfold set_transactions. by rewrite Hpend, Hpidx. }
  assert (forall e, reads h r n upgrades (Err e :: rest) (Some (Err e, mkChangeReader txs (state r) [] 0 (upgradeIndex r)))) as Herr.
  { intros e. exists (mkChangeReader txs (state r) [] 0 (upgradeIndex r)). repeat split; try apply Hrd'. apply Hrest. }
  unfold tx_items in Hhere. destruct (transaction_at (transactions r) (readIdx (transactions r))) as [[tx|e]|] eqn:Etx; [| |done].
  - cbn [state set_transactions]. cbn zeta. destruct (state_changes h (state r) tx) as [[cs|e]|]; [| |done]; injection Hhere as <-.
    + apply reads_from with (r' := mkChangeReader txs (state r) cs 0 (upgradeIndex r)); [done|done|].
      replace (append_pending (set_transactions r txs) cs) with (mkChangeReader txs (state r) cs 0 (upgradeIndex r)) by (by rewrite Er).
      apply IH; [apply Hrd'|apply Hrest|]. unfold calls_left in *. destruct (state r); cbn in *; try done; lia.
    + rewrite Er. apply Herr.
  - injection Hhere as <-. cbn zeta. destruct e; [by apply transaction_at_not_EOF in Etx|rewrite Er; apply Herr..].
Qed.
End Call.

Lemma Read_loop_reads h n upgrades fuel : forall r items,
  reading r n upgrades -> remaining h r n upgrades = Some items -> calls_left r n upgrades < Z.of_nat fuel ->
  reads h r n upgrades items (Read_loop fuel h r).
Proof.
  induction fuel as [|fuel IH]; intros r items Hrd Hrem Hfuel; [apply calls_left_nonneg in Hrd; lia|].
  destruct (Z.lt_ge_cases (pendingIndex r) (go_len (pending r))) as [Hlt|Hge]; [by apply read_pending|].
  destruct (r_pending _ _ _ Hrd) as [[Hp Hi]|]; [|lia].
  destruct (state r) eqn:Es.
  4: by apply read_upgrade.
  all: destruct (Z.lt_ge_cases (readIdx (transactions r)) n); [apply read_transaction|apply read_end]; rewrite ?Es; done.
Qed.

Lemma Change_Read_reads h r n upgrades items : reading r n upgrades -> remaining h r n upgrades = Some items ->
  reads h r n upgrades items (Change_Read h r).
Proof.
  intros Hrd Hrem. unfold Change_Read. apply Read_loop_reads; [done|done|].
  destruct Hrd as [Hc Hu Hi Hp Hup]. unfold read_fuel. rewrite Hc, Hu. cbn. unfold calls_left, go_len.
  destruct (state r); cbn [states_left]; lia.
Qed.

(** ** All calls *)
Fixpoint read_times (k : nat) (h : ttl_store) (r : LedgerChangeReader) : option (list item * LedgerChangeReader) :=
  match k with
  | O => Some ([], r)
  | S k =>
      let! (x, r) := Change_Read h r in
      let! (xs, r) := read_times k h r in
      Some (x :: xs, r)
  end.

Lemma read_times_items h n upgrades k : forall r items, reading r n upgrades -> remaining h r n upgrades = Some items ->
  exists r', read_times k h r = Some (take k items ++ replicate (k - length items) (Err EOF), r').
Proof.
  induction k as [|k IH]; intros r items Hrd Hrem; [by eexists|]. cbn [read_times].
  destruct (Change_Read_reads h r n upgrades items Hrd Hrem) as (r1 & Hrd1 & _ & _ & H).
  destruct items as [|x items]; destruct H as [-> Hrem1]; destruct (IH r1 _ Hrd1 Hrem1) as [r2 E]; rewrite E; cbn; eexists; [|done].
  rewrite firstn_nil. cbn. by rewrite Nat.sub_0_r.
Qed.

Lemma new_reader_reading passphrase l r :
  NewLedgerChangeReaderFromLedgerCloseMeta passphrase l = Some (Ok r) ->
  state r = feeChangesState /\ pending r = [] /\ pendingIndex r = 0 /\ upgradeIndex r = 0 /\
  lcm (transactions r) = l /\ readIdx (transactions r) = 0.
Proof.
  unfold NewLedgerChangeReaderFromLedgerCloseMeta, NewLedgerTransactionReaderFromLedgerCloseMeta.
  destruct (CountTransactions l); [|done]. destruct (TransactionEnvelopes l); [|done].
  destruct (storeTransactions_loop _ _ _ _ _) as [[m|e]|]; [|done|done]. by intros [= <-].
Qed.

Lemma new_reader_remaining h passphrase l r items :
  NewLedgerChangeReaderFromLedgerCloseMeta passphrase l = Some (Ok r) -> ledger_items h (transactions r) = Some items ->
  exists n upgrades, reading r n upgrades /\ remaining h r n upgrades = Some items.
Proof.
  intros Hnew Hit. apply new_reader_reading in Hnew as (E1 & E2 & E3 & E4 & E5 & E6). unfold ledger_items in Hit.
  destruct (CountTransactions (lcm (transactions r))) as [n|] eqn:Ec; [|done].
  destruct (UpgradesProcessing (lcm (transactions r))) as [ups|] eqn:Eu; [|done].
  exists n, ups. pose proof (proj1 (TxProcessing_at_count _ _ Ec)) as Hn. split.
  - split; rewrite ?E2, ?E3, ?E4, ?E6; try done; [by left|unfold go_len; lia].
  - unfold remaining, current_items, later_items. rewrite E1, E2, E3, E4, E6. cbn.
    destruct (state_items h (transactions r) feeChangesState 0 n); [|done].
    destruct (state_items h (transactions r) metaChangesState 0 n); [|done].
    destruct (state_items h (transactions r) postTxApplyState 0 n); [|done]. cbn in Hit |- *.
    destruct (upgrade_items _ _ _ _); [|done]. cbn in Hit |- *. by rewrite <- Hit, <- app_assoc.
Qed.

(** C8: a ledger is read in order, and to its end. A new change reader returns, call
    by call, the fee changes of every transaction, then the changes of every
    transaction, then the refunds of every transaction, then the changes of every
    upgrade, a transaction that cannot be read giving its error in its place; and
    every later call returns end of file. *)
Theorem ledger_read_in_order h passphrase l r items :
  NewLedgerChangeReaderFromLedgerCloseMeta passphrase l = Some (Ok r) -> ledger_items h (transactions r) = Some items ->
  forall k, exists r', read_times k h r = Some (take k items ++ replicate (k - length items) (Err EOF), r').
Proof.
  intros Hnew Hit k. destruct (new_reader_remaining h passphrase l r items Hnew Hit) as (n & ups & Hrd & Hrem).
  by eapply read_times_items.
Qed.
End Order.

(** ** Stores with the same keys give the same changes *)
Section SameKeys.
Context {ET : EntryTypes} {KE : KeyEncoding} {TT : TransactionTypes}.
Context (h h' : ttl_store) (Hsk : same_keys h h').

Lemma Entry_LedgerKey_same e : Entry_LedgerKey h' e = Entry_LedgerKey h e.
Proof.
  unfold Entry_LedgerKey. destruct (Data e) as [| | | | | | | | |p]; try done. cbn. specialize (Hsk p).
  destruct (h' !! p), (h !! p); cbn in *; congruence.
Qed.

Lemma change_key_same c : change_key h' c = change_key h c.
Proof.
  unfold change_key, Change_LedgerKey. destruct (Pre c); [by rewrite Entry_LedgerKey_same|].
  destruct (Post c); [by rewrite Entry_LedgerKey_same|done].
Qed.

Lemma newSortableChanges_same cs : newSortableChanges h' cs = newSortableChanges h cs.
Proof. induction cs as [|c cs IH]; [done|]. cbn. by rewrite change_key_same, IH. Qed.

Lemma GetChangesFromLedgerEntryChanges_same l : GetChangesFromLedgerEntryChanges h' l = GetChangesFromLedgerEntryChanges h l.
Proof.
  unfold GetChangesFromLedgerEntryChanges, sortChanges. destruct (changes_loop None l); [|done]. by rewrite newSortableChanges_same.
Qed.

Lemma caused_changes_same t reason i l : caused_changes h' t reason i l = caused_changes h t reason i l.
Proof. unfold caused_changes. by rewrite GetChangesFromLedgerEntryChanges_same. Qed.

Lemma operations_loop_same t ops rest i : operations_loop h' t ops rest i = operations_loop h t ops rest i.
Proof.
  revert i. induction rest as [|l rest IH]; intros i; [done|]. cbn. rewrite IH. unfold operationChanges.
  destruct (go_len ops <=? u32 i); [done|]. destruct (go_index ops (u32 i)); [|done]. by rewrite caused_changes_same.
Qed.

Lemma state_changes_same s t : state_changes h' s t = state_changes h s t.
Proof.
  destruct s; cbn; unfold GetFeeChanges, GetPostApplyFeeChanges, GetChanges, before_operations_after, getTransactionChanges;
    rewrite ?caused_changes_same; [done| |done|done].
  destruct (UnsafeMeta t); rewrite ?caused_changes_same, ?operations_loop_same; done.
Qed.

Lemma tx_items_same txs s i : tx_items h' txs s i = tx_items h txs s i.
Proof. unfold tx_items. destruct (transaction_at txs i) as [[]|]; [by rewrite state_changes_same|done|done]. Qed.

Lemma state_items_same txs s i n : state_items h' txs s i n = state_items h txs s i n.
Proof. unfold state_items. by rewrite (mapM_ext _ _ _ (tx_items_same txs s)). Qed.

Lemma upgrade_items_same l i ups : upgrade_items h' l i ups = upgrade_items h l i ups.
Proof.
  revert i. induction ups as [|u ups IH]; intros i; [done|]. cbn. unfold upgrade_changes.
  by rewrite GetChangesFromLedgerEntryChanges_same, IH.
Qed.

Lemma remaining_same r n ups : remaining h' r n ups = remaining h r n ups.
Proof.
  unfold remaining, current_items, later_items. rewrite upgrade_items_same.
  destruct (state r); rewrite ?state_items_same; done.
Qed.
End SameKeys.

(** ** Compacting *)

(** What the compacting reader relies on: a reader that delivers changes and then its
    end of file, whatever TTLs are extended meanwhile. *)
Class ChangeSource {ET : EntryTypes} {KE : KeyEncoding} {R E : Type}
    (Read : ttl_store -> R -> option (result E Change * R)) (is_EOF : E -> bool) (h0 : ttl_store)
    (source : R -> list Change -> Prop) : Prop := {
  source_next h r c cs : same_keys h0 h -> source r (c :: cs) -> exists r', Read h r = Some (Ok c, r') /\ source r' cs;
  source_end h r : same_keys h0 h -> source r [] -> exists e r', Read h r = Some (Err e, r') /\ is_EOF e = true
}.

Section Compacting.
Context {ET : EntryTypes} {KE : KeyEncoding} {KEL : KeyEncodingLaws KE} {R E : Type}.
Context (Read : ttl_store -> R -> option (result E Change * R)) (is_EOF : E -> bool).
Context (listed : ChangeCompactor -> list Change) (listed_perm : forall c, listed c ≡ₚ Compactor.GetChanges c).
Context (h0 : ttl_store) (source : R -> list Change -> Prop) {SRC : ChangeSource Read is_EOF h0 source}.

Lemma compact_loop_squashed D0 cs0 ws0 c h L cs L' r fuel :
  squashed h0 D0 cs0 ws0 (cache c) h L -> same_keys h0 h -> ledger_run h0 L cs L' -> Forall well_typed cs ->
  separate cs0 ws0 cs -> source r cs -> (length cs < fuel)%nat ->
  exists c' h' r', compact_loop Read is_EOF fuel h c r = Some (Ok c', h', r') /\
    squashed h0 D0 (cs0 ++ flat_map cells cs) (ws0 ++ flat_map writes cs) (cache c') h' L'.
Proof.
  intros Q Hsk Hrun. revert cs0 ws0 c h r fuel Q Hsk.
  induction Hrun as [L|L ch L1 cs L2 Hs Hrun IH]; intros cs0 ws0 c h r fuel Q Hsk HW HS Hsrc Hf; (destruct fuel as [|fuel]; [cbn in Hf; lia|]).
  - destruct (source_end h r Hsk Hsrc) as (e & r' & Er & Ee). cbn [compact_loop]. rewrite Er, Ee.
    exists c, h, r'. split; [done|]. by rewrite !app_nil_r.
  - destruct (source_next h r ch cs Hsk Hsrc) as (r1 & Er & Hsrc1). cbn [compact_loop]. rewrite Er.
    apply Forall_cons_1 in HW as [Hw HW]. destruct HS as (Hrd & Hwr & HS).
    destruct (AddChange_advances h0 D0 cs0 ws0 c h L ch Q Hw Hrd Hwr L1 Hs) as (c1 & h1 & -> & Hsk1 & Q1).
    destruct (IH (cs0 ++ cells ch) (ws0 ++ writes ch) c1 h1 r1 fuel Q1) as (c2 & h2 & r2 & E2 & Q2); try done.
    + intros p. by rewrite (Hsk1 p), (Hsk p).
    + cbn in Hf. lia.
    + exists c2, h2, r2. split; [done|]. cbn. by rewrite !app_assoc.
Qed.

Fixpoint compacting_times (k fuel : nat) (h : ttl_store) (c : compactingChangeReader (R:=R)) :
    option (list (result (compacting_error (E:=E)) Change) * ttl_store * compactingChangeReader (R:=R)) :=
  match k with
  | O => Some ([], h, c)
  | S k =>
      let! (x, h, c) := Compacting_Read Read is_EOF listed fuel h c in
      let! (xs, h, c) := compacting_times k fuel h c in
      Some (x :: xs, h, c)
  end.

Lemma compacting_times_listed k fuel h c : compacted c = true ->
  exists c', compacting_times k fuel h c =
    Some (take k (map Ok (changes c)) ++ replicate (k - length (changes c)) (Err CompactingEOF), h, c').
Proof.
  revert c. induction k as [|k IH]; intros c Hc; [by eexists|]. cbn [compacting_times]. unfold Compacting_Read. rewrite Hc.
  unfold take_change. destruct (changes c) as [|x xs] eqn:Ex.
  - destruct (IH c Hc) as [c' ->]. rewrite Ex. cbn. eexists. rewrite firstn_nil, Nat.sub_0_r. done.
  - destruct (IH (mkCompacting (input c) xs (compacted c) (reader_config c)) Hc) as [c' ->]. cbn. by eexists.
Qed.

Lemma compacting_reader cfg D0 L cs r fuel :
  ledger_run h0 (mkLedger D0 ∅ ∅) cs L -> Forall well_typed cs -> separate [] [] cs -> source r cs -> (length cs < fuel)%nat ->
  exists out h', apply_changes h' D0 out = Some (live L) /\
    NoDup (map (fun ch => fst <$> effect h' ch) out) /\
    forall k, exists c', compacting_times (S k) fuel h0 (NewCompactingChangeReader r cfg) =
      Some (take (S k) (map Ok out) ++ replicate (S k - length out) (Err CompactingEOF), h', c').
Proof.
  intros Hrun HW HS Hsrc Hf.
  destruct (compact_loop_squashed D0 [] [] (NewChangeCompactor cfg) h0 _ cs L r fuel (squashed_start h0 D0)) as (c & h & r' & E1 & Q); try done.
  exists (listed c), h. split; [by eapply apply_squashed|]. split.
  - rewrite (listed_perm c). unfold Compactor.GetChanges. rewrite map_map.
    replace (map _ (map_to_list (cache c))) with (map Some (map fst (map_to_list (cache c)))).
    + apply NoDup_fmap_2; [by intros x y [= ->]|]. apply NoDup_fst_map_to_list.
    + rewrite map_map. apply map_ext_in. intros [k ch] Hin%list_elem_of_In%elem_of_map_to_list. cbn.
      by rewrite (cached_effect h k ch L) by apply (sq_some _ _ _ _ _ _ _ Q k ch Hin).
  - intros k. set (c2 := mkCompacting r' (listed c) true cfg).
    assert (forall c', Compacting_Read Read is_EOF listed fuel h0 (NewCompactingChangeReader r cfg) = Some (take_change h c2) /\
      (c' = c2 -> Compacting_Read Read is_EOF listed fuel h c' = Some (take_change h c2))) as Hfirst.
    { intros c'. unfold Compacting_Read, compact. cbn [compacted NewCompactingChangeReader reader_config input]. rewrite E1.
      split; [done|]. by intros ->. }
    destruct (compacting_times_listed (S k) fuel h c2 eq_refl) as [c' Ec']. exists c'. etransitivity; [|exact Ec']. cbn [compacting_times].
    destruct (Hfirst c2) as [-> H2]. by rewrite (H2 eq_refl).
Qed.
End Compacting.

(** The change reader of a ledger is such a source. *)
Section LedgerSource.
Context {ET : EntryTypes} {KE : KeyEncoding} {KEL : KeyEncodingLaws KE} {TT : TransactionTypes}.
Definition error_is_EOF (e : reader_error) : bool := match e with EOF => true | _ => false end.
Definition ledger_source (h0 : ttl_store) (r : LedgerChangeReader) (cs : list Change) : Prop :=
  exists n ups, reading r n ups /\ remaining h0 r n ups = Some (map Ok cs).

#[export] Instance ledger_reader_source h0 : ChangeSource Change_Read error_is_EOF h0 (ledger_source h0).
Proof.
  split.
  - intros h r c cs Hsk (n & ups & Hrd & Hrem). rewrite <- (remaining_same h0 h Hsk) in Hrem.
    destruct (Change_Read_reads h r n ups _ Hrd Hrem) as (r' & Hrd' & _ & _ & E & Hrem'). exists r'. split; [done|].
    exists n, ups. split; [done|]. by rewrite <- (remaining_same h0 h Hsk).
  - intros h r Hsk (n & ups & Hrd & Hrem). rewrite <- (remaining_same h0 h Hsk) in Hrem.
    destruct (Change_Read_reads h r n ups _ Hrd Hrem) as (r' & _ & _ & _ & E & _). by exists EOF, r'.
Qed.

(** C7: a compacting reader over the change reader of a ledger gives the net effect
    of the ledger. When the changes read from the meta are legal and their updates
    write TTL cells that no other change has, the calls of the compacting reader
    return, in whatever order Go lists a map, changes of different entries that turn
    the entries before the ledger into those after it, and then end of file. *)
Theorem compacted_ledger (listed : ChangeCompactor -> list Change) cfg passphrase l r h D0 L cs fuel :
  (forall c, listed c ≡ₚ Compactor.GetChanges c) ->
  NewLedgerChangeReaderFromLedgerCloseMeta passphrase l = Some (Ok r) ->
  ledger_items h (transactions r) = Some (map Ok cs) ->
  ledger_run h (mkLedger D0 ∅ ∅) cs L -> Forall well_typed cs -> separate [] [] cs -> (length cs < fuel)%nat ->
  exists out h', apply_changes h' D0 out = Some (live L) /\
    NoDup (map (fun ch => fst <$> effect h' ch) out) /\
    forall k, exists c', compacting_times Change_Read error_is_EOF listed (S k) fuel h (NewCompactingChangeReader r cfg) =
      Some (take (S k) (map Ok out) ++ replicate (S k - length out) (Err CompactingEOF), h', c').
Proof.
  intros Hl Hnew Hit Hrun HW HS Hf.
  apply (compacting_reader Change_Read error_is_EOF listed Hl h (ledger_source h) cfg D0 L cs r fuel); try done.
  by apply (new_reader_remaining h passphrase l).
Qed.
End LedgerSource.

(** ** A ledger of two transactions and an upgrade *)
Module SampleLedger.
Import ConcreteKeys ConcreteTransactions.

Definition array (c : byte) : Hash := Vector.const c 32.
Definition account (c : byte) (seq : Z) (fields : bytes) : LedgerEntry := mkLedgerEntry seq (DataAccount (array c) fields) [].
Definition setting : LedgerEntry := mkLedgerEntry 9 (DataConfigSetting 1 []) [].

(** The first pays a fee, creates an account and gets a refund; the second has no
    changes. The transaction set lists them the other way round. *)
Definition first_tx : TransactionResultMetaV1 :=
  mkResultMetaV1 (mkResultMeta (mkResultPair (array Byte.x01) 0 tt)
    [EntryState (account Byte.x05 3 [Byte.x0a]); EntryUpdated (account Byte.x05 9 [Byte.x08])]
    (MetaV4 [] [mkOperationMetaV2 [EntryCreated (account Byte.x06 9 [])] []] [] [] []))
  [EntryState (account Byte.x05 9 [Byte.x08]); EntryUpdated (account Byte.x05 9 [Byte.x09])].
Definition second_tx : TransactionResultMetaV1 :=
  mkResultMetaV1 (mkResultMeta (mkResultPair (array Byte.x02) 0 tt) [] (MetaV3 [] [] [] None)) [].
Definition meta : LedgerCloseMeta :=
  LedgerCloseMetaV2 (mkHeader (array Byte.x00) 23 (array Byte.x00) (array Byte.x00) 9 0)
    [PhaseV0 [[array Byte.x02]]; PhaseV1 [[[array Byte.x01]]]] [first_tx; second_tx]
    [mkUpgradeMeta 7 [EntryCreated setting]] [].

Definition new_reader : option (result reader_error LedgerChangeReader) := NewLedgerChangeReaderFromLedgerCloseMeta [] meta.
Definition a_reader : LedgerChangeReader :=
  mkChangeReader (mkTxReader meta (<[vec_to_list (array Byte.x01) := array Byte.x01]>
    (<[vec_to_list (array Byte.x02) := array Byte.x02]> ∅)) 0) feeChangesState [] 0 0.
Definition a_ledger_changes : list Change :=
  [mkChange LedgerEntryTypeAccount LedgerEntryUpdated (Some (account Byte.x05 3 [Byte.x0a])) (Some (account Byte.x05 9 [Byte.x08]))
     LedgerEntryChangeReasonFee 0 (Some 1%nat) (Some 9%nat) None;
   mkChange LedgerEntryTypeAccount LedgerEntryCreated None (Some (account Byte.x06 9 []))
     LedgerEntryChangeReasonOperation 0 (Some 1%nat) (Some 9%nat) None;
   mkChange LedgerEntryTypeAccount LedgerEntryUpdated (Some (account Byte.x05 9 [Byte.x08])) (Some (account Byte.x05 9 [Byte.x09]))
     LedgerEntryChangeReasonFeeRefund 0 (Some 1%nat) (Some 9%nat) None;
   mkChange LedgerEntryTypeConfigSetting LedgerEntryCreated None (Some setting)
     LedgerEntryChangeReasonUpgrade 0 None (Some 9%nat) (Some 0%nat)].

Lemma a_reader_new : NewLedgerChangeReaderFromLedgerCloseMeta [] meta = Some (Ok a_reader).
Proof. vm_compute. reflexivity. Qed.

Lemma a_reader_items : ledger_items ∅ (transactions a_reader) = Some (map Ok a_ledger_changes).
Proof. vm_compute. reflexivity. Qed.

Lemma ledger_read_in_order_witness : exists r', read_times 6 ∅ a_reader = Some (map Ok a_ledger_changes ++ [Err EOF; Err EOF], r').
Proof. exact (ledger_read_in_order ∅ [] meta a_reader _ a_reader_new a_reader_items 6). Defined.

(** As steps of a ledger that had the first account. *)
Definition value (e : LedgerEntry) : entry_value := mkValue (LastModifiedLedgerSeq e) (inl (Data e)) (EntryExt e).
Definition key (e : LedgerEntry) : bytes := default [] (key_bytes ∅ e).
Definition entries_before : gmap bytes entry_value :=
  {[key (account Byte.x05 3 []) := value (account Byte.x05 3 [Byte.x0a])]}.

Lemma a_ledger_run : exists L, ledger_run ∅ (mkLedger entries_before ∅ ∅) a_ledger_changes L.
Proof.
  eexists. unfold a_ledger_changes.
  eapply run_cons; [apply (step_updated _ _ _ (account Byte.x05 3 [Byte.x0a]) (account Byte.x05 9 [Byte.x08]) (key (account Byte.x05 3 []))
    (value (account Byte.x05 9 [Byte.x08])) (value (account Byte.x05 3 [Byte.x0a]))); try reflexivity; vm_compute; reflexivity|].
  eapply run_cons; [apply (step_created _ _ _ (account Byte.x06 9 []) (key (account Byte.x06 9 [])) (value (account Byte.x06 9 [])));
    try reflexivity; vm_compute; reflexivity|].
  eapply run_cons; [apply (step_updated _ _ _ (account Byte.x05 9 [Byte.x08]) (account Byte.x05 9 [Byte.x09]) (key (account Byte.x05 3 []))
    (value (account Byte.x05 9 [Byte.x09])) (value (account Byte.x05 9 [Byte.x08]))); try reflexivity; try (vm_compute; reflexivity)|].
  eapply run_cons; [apply (step_created _ _ _ setting (key setting) (value setting)); try reflexivity; vm_compute; reflexivity|].
  apply run_nil.
Qed.

Lemma compacted_ledger_witness : exists L, ledger_run ∅ (mkLedger entries_before ∅ ∅) a_ledger_changes L /\
  exists out h', apply_changes h' entries_before out = Some (live L) /\
    NoDup (map (fun ch => fst <$> effect h' ch) out) /\
    forall k, exists c', compacting_times Change_Read error_is_EOF Compactor.GetChanges (S k) 5 ∅
        (NewCompactingChangeReader a_reader (mkConfig true)) =
      Some (take (S k) (map Ok out) ++ replicate (S k - length out) (Err CompactingEOF), h', c').
Proof.
  destruct a_ledger_run as [L HL]. exists L. split; [exact HL|].
  apply (compacted_ledger Compactor.GetChanges (mkConfig true) [] meta a_reader ∅ entries_before L a_ledger_changes 5).
  - intros c. reflexivity.
  - apply a_reader_new.
  - apply a_reader_items.
  - exact HL.
  - repeat constructor; intros e [He|He]; try discriminate He; injection He as <-; reflexivity.
  - cbn. repeat split; intros p Hp; set_solver.
  - cbn. lia.
Defined.
End SampleLedger.
