(* ===== verification/XdrStream.v ===== *)
(** * Framed XDR streams

    src/xdr/xdrstream.go with the framing of src/xdr/main.go: records behind a 4-byte
    header each, read from a stream that is hashed as it is read and that another
    stream can resume from the last record. A reader is the bytes it still gives and
    how it ends, at its end of file or with an error; the state of a running SHA-256
    is the bytes it has been given. A stream is read by one goroutine and, once it is
    closed, at most drained. Counting compressed bytes is left out. *)
From Stdlib Require Import ZArith Lia.
From stdpp Require Import base list vector option.
From S2P Require Import Prelude GoStd.
#[local] Open Scope Z_scope.
#[local] Open Scope go_scope.

Abbreviation xdrFrameLastFragment := 2147483648.
Abbreviation xdrFrameLengthMask := 2147483647.
Abbreviation DefaultMaxXDRStreamRecordSize := 67108864.

Inductive stream_error {E D : Type} : Type :=
| io_EOF
| UnexpectedEOF
| SourceError (e : E)
| MalformedHeader
| OverlongWrite (n : Z)
| ErrRecordTooLarge (n max : Z)
| WrongNumberOfBytes
| DecodeError (d : D)
| UnmarshalledBytes (n expected : Z)
| HashMismatch (expected actual : bytes).
Arguments stream_error : clear implicits.

Section Stream.
(** Errors of the source and of decoding; the generated decoder, which says how many
    bytes it used; SHA-256; and what draining a closed stream gives, of the bytes it
    had left ([ValidateHash] says that it gives nothing once all is read). *)
Context {A SE D : Type} (DecodeBytes : bytes -> result D (A * Z)).
Context (sha256 : bytes -> bytes) (read_after_close : bytes -> result SE bytes).
#[local] Abbreviation error := (stream_error SE D).

Record Stream : Type := mkXdrStream {
  unread : bytes;
  ending : option SE;
  closing : option SE;
  sha256Hash : bytes;
  bytesRead : Z;
  maxRecordSize : Z;
  boundaryOffset : Z;
  boundaryState : bytes;
  closed : bool;
  closeErr : option SE
}.

(** ** Framing *)
Definition MarshalFramed (payload : bytes) : result error bytes :=
  let n := go_len payload in
  if xdrFrameLengthMask <? u32 n then Err (OverlongWrite n)
  else Ok (be_put 4 (Z.lor (u32 n) xdrFrameLastFragment) ++ payload).

(** ** A new stream *)
Definition NewStream (content : bytes) (ending closing : option SE) : Stream :=
  mkXdrStream content ending closing [] 0 DefaultMaxXDRStreamRecordSize 0 [] false None.

Definition SetMaxRecordSize (x : Stream) (size : Z) : Stream :=
  mkXdrStream (unread x) (ending x) (closing x) (sha256Hash x) (bytesRead x)
    (if size =? 0 then DefaultMaxXDRStreamRecordSize else size) (boundaryOffset x) (boundaryState x) (closed x) (closeErr x).

(** ** Reading *)

(** Up to [n] bytes, fewer only at the ending. *)
Definition deliver (x : Stream) (n : Z) : bytes * Stream :=
  let b := take (Z.to_nat n) (unread x) in
  (b, mkXdrStream (drop (Z.to_nat n) (unread x)) (ending x) (closing x) (sha256Hash x ++ b) (bytesRead x + go_len b)
        (maxRecordSize x) (boundaryOffset x) (boundaryState x) (closed x) (closeErr x)).

Definition ReadFrameLength (x : Stream) : result error Z * Stream :=
  let '(b, x) := deliver x 4 in
  (if go_len b <? 4 then
     match ending x with
     | None => Err (if go_len b =? 0 then io_EOF else UnexpectedEOF)
     | Some e => Err (SourceError e)
     end
   else
     let frameHeader := be_get b in
     if negb (Z.land frameHeader xdrFrameLastFragment =? xdrFrameLastFragment) then Err MalformedHeader
     else Ok (Z.land frameHeader xdrFrameLengthMask), x).

Definition Close (x : Stream) : option SE * Stream :=
  let x := if closed x then x
           else mkXdrStream (unread x) (ending x) (closing x) (sha256Hash x) (bytesRead x) (maxRecordSize x)
                  (boundaryOffset x) (boundaryState x) true (closing x) in
  (closeErr x, x).

Definition mark_boundary (x : Stream) : Stream :=
  mkXdrStream (unread x) (ending x) (closing x) (sha256Hash x) (bytesRead x) (maxRecordSize x)
    (bytesRead x) (sha256Hash x) (closed x) (closeErr x).

Definition ReadOne (x : Stream) : result error A * Stream :=
  let '(r, x) := ReadFrameLength (mark_boundary x) in
  match r with
  | Err e => (Err e, (Close x).2)
  | Ok nbytes =>
      if nbytes =? 0 then (Err io_EOF, (Close x).2)
      else if maxRecordSize x <? nbytes then (Err (ErrRecordTooLarge nbytes (maxRecordSize x)), (Close x).2)
      else
        let '(b, x) := deliver x nbytes in
        if go_len b <? nbytes then
          (Err match ending x with Some e => SourceError e | None => WrongNumberOfBytes end, (Close x).2)
        else match DecodeBytes b with
        | Err d => (Err (DecodeError d), (Close x).2)
        | Ok (value, readi) =>
            if negb (readi =? nbytes) then (Err (UnmarshalledBytes readi nbytes), x)
            else (Ok value, x)
        end
  end.

Definition BytesRead (x : Stream) : Z := bytesRead x.

(** ** Resuming *)
Definition Discard (x : Stream) (n : Z) : option error * Stream :=
  let '(b, x) := deliver x n in
  (if go_len b <? n then Some match ending x with Some e => SourceError e | None => io_EOF end else None, x).

Definition ResumeFrom (x prev : Stream) : option error * Stream :=
  let '(err, x) := Discard x (boundaryOffset prev) in
  match err with
  | Some e => (Some e, x)
  | None =>
      (None, mkXdrStream (unread x) (ending x) (closing x) (boundaryState prev) (bytesRead x) (maxRecordSize x)
               (boundaryOffset x) (boundaryState x) (closed x) (closeErr x))
  end.

(** ** Validating *)
Definition drain (x : Stream) : result SE bytes :=
  if closed x then read_after_close (unread x)
  else match ending x with Some e => Err e | None => Ok (unread x) end.

Definition XdrStream_ValidateHash (x : Stream) (expected : bytes) : option error :=
  match drain x with
  | Err e => Some (SourceError e)
  | Ok b =>
      let actual := sha256 (sha256Hash x ++ b) in
      if bool_decide (expected = actual) then None else Some (HashMismatch expected actual)
  end.

(** ** Facts *)

(** A record in its frame. *)
Definition framed (value : A) (frame : bytes) : Prop :=
  exists payload, MarshalFramed payload = Ok frame /\ 0 < go_len payload <= xdrFrameLengthMask /\
    DecodeBytes payload = Ok (value, go_len payload).

Lemma land_last_fragment h : 0 <= h < 4294967296 -> Z.land h xdrFrameLastFragment = h / 2147483648 * 2147483648.
Proof.
  intros Hh. change xdrFrameLastFragment with (2 ^ 31). change 2147483648 with (2 ^ 31). apply Z.bits_inj'. intros i Hi.
  rewrite Z.land_spec, Z.pow2_bits_eqb, Z.mul_pow2_bits by lia. destruct (Z.eqb_spec 31 i) as [<-|Hne].
  - rewrite andb_true_r, Z.div_pow2_bits by lia. done.
  - rewrite andb_false_r. destruct (Z.lt_ge_cases i 31) as [Hlt|Hge]; [by rewrite Z.testbit_neg_r by lia|].
    rewrite Z.div_pow2_bits by lia. replace (i - 31 + 31) with i by lia.
    rewrite <- (Z.mod_small h (2 ^ 32)) by lia. by rewrite Z.mod_pow2_bits_high by lia.
Qed.

Lemma header_range n : 0 <= n <= xdrFrameLengthMask -> Z.lor n xdrFrameLastFragment = n + 2147483648.
Proof.
  intros Hn. rewrite Z.lor_comm. pose proof (lor_disjoint 1 n 31 2147483648 ltac:(lia) eq_refl) as H.
  rewrite Z.mul_1_l in H. rewrite H by lia. lia.
Qed.

Lemma header_valid h : 0 <= h < 4294967296 -> Z.land h xdrFrameLastFragment = xdrFrameLastFragment ->
  h = Z.lor (Z.land h xdrFrameLengthMask) xdrFrameLastFragment /\ 0 <= Z.land h xdrFrameLengthMask <= xdrFrameLengthMask.
Proof.
  intros Hh Hl. rewrite land_last_fragment in Hl by done.
  assert (Z.land h xdrFrameLengthMask = h mod 2147483648) as E by (apply (Z.land_ones h 31); lia).
  pose proof (Z.mod_pos_bound h 2147483648 ltac:(lia)) as Hm. rewrite E. split; [|lia].
  rewrite header_range by lia. pose proof (Z.div_mod h 2147483648 ltac:(lia)). lia.
Qed.

Lemma header_read n : 0 <= n <= xdrFrameLengthMask ->
  be_get (be_put 4 (Z.lor n xdrFrameLastFragment)) = Z.lor n xdrFrameLastFragment /\
  Z.land (Z.lor n xdrFrameLastFragment) xdrFrameLastFragment = xdrFrameLastFragment /\
  Z.land (Z.lor n xdrFrameLastFragment) xdrFrameLengthMask = n.
Proof.
  intros Hn. pose proof (header_range n Hn) as Eh. rewrite Eh. split; [apply be_get_put; change (256 ^ Z.of_nat 4) with 4294967296; lia|]. split.
  - rewrite land_last_fragment by lia. replace ((n + 2147483648) / 2147483648) with 1; [done|].
    apply (Z.div_unique _ _ 1 n); lia.
  - transitivity ((n + 2147483648) mod 2147483648); [apply (Z.land_ones _ 31); lia|].
    symmetry. apply (Z.mod_unique _ _ 1 n); lia.
Qed.

(** A stream that has read on past some bytes. *)
Record read_on (x : Stream) (b : bytes) (x' : Stream) : Prop := {
  ro_unread : unread x = b ++ unread x';
  ro_hash : sha256Hash x' = sha256Hash x ++ b;
  ro_read : bytesRead x' = bytesRead x + go_len b;
  ro_ending : ending x' = ending x;
  ro_max : maxRecordSize x' = maxRecordSize x
}.

Lemma read_on_refl x : read_on x [] x.
Proof. split; try done; [by rewrite app_nil_r|unfold go_len; cbn; lia]. Qed.

Lemma read_on_trans x b x1 b' x2 : read_on x b x1 -> read_on x1 b' x2 -> read_on x (b ++ b') x2.
Proof.
  intros [H1 H2 H3 H4 H5] [G1 G2 G3 G4 G5]. split; [by rewrite H1, G1, app_assoc|by rewrite G2, H2, app_assoc| |congruence|congruence].
  rewrite G3, H3. unfold go_len. rewrite length_app. lia.
Qed.

Lemma read_on_Close x b x' : read_on x b x' -> read_on x b (Close x').2.
Proof. intros [H1 H2 H3 H4 H5]. unfold Close. by destruct (closed x'). Qed.

Lemma read_on_mark x b x' : read_on (mark_boundary x) b x' -> read_on x b x'.
Proof. by intros []. Qed.

Lemma deliver_read_on x n b x' : deliver x n = (b, x') -> read_on x b x' /\
  boundaryOffset x' = boundaryOffset x /\ boundaryState x' = boundaryState x /\ (0 <= n -> go_len b = Z.min n (go_len (unread x))).
Proof.
  intros [= <- <-]. split; [|split; [done|split; [done|]]].
  - split; try done. cbn. by rewrite take_drop.
  - intros Hn. unfold go_len. rewrite length_take. lia.
Qed.

(** A short read is of all there is. *)
Lemma read_on_all x n b x' : read_on x b x' -> go_len b = Z.min n (go_len (unread x)) -> go_len b < n -> b = unread x /\ unread x' = [].
Proof.
  intros [H _ _ _ _] Hb Hs. assert (unread x' = []) as E.
  { apply length_zero_iff_nil. rewrite H in Hb. unfold go_len in *. rewrite length_app in Hb. lia. }
  by rewrite H, E, app_nil_r.
Qed.

(** A frame header, read. *)
Lemma ReadFrameLength_reads x r x' : ReadFrameLength x = (r, x') ->
  exists b, read_on x b x' /\ boundaryOffset x' = boundaryOffset x /\ boundaryState x' = boundaryState x /\
  match r with
  | Ok n => 0 <= n <= xdrFrameLengthMask /\ b = be_put 4 (Z.lor n xdrFrameLastFragment)
  | Err e => e = io_EOF -> unread x = [] /\ b = [] /\ ending x = None
  end.
Proof.
  unfold ReadFrameLength. destruct (deliver x 4) as [b x1] eqn:Ed. apply deliver_read_on in Ed as (Hro & H1 & H2 & Hb).
  specialize (Hb ltac:(lia)). intros [= <- <-]. exists b. split; [done|]. split; [done|]. split; [done|].
  destruct (Z.ltb_spec (go_len b) 4) as [Hl|Hl].
  - destruct (read_on_all x 4 b x1 Hro Hb Hl) as [-> _]. rewrite (ro_ending _ _ _ Hro).
    destruct (ending x); [done|]. destruct (Z.eqb_spec (go_len (unread x)) 0) as [E0|]; [|done].
    intros _. destruct (unread x); done.
  - destruct (Z.eqb_spec (Z.land (be_get b) xdrFrameLastFragment) xdrFrameLastFragment) as [Ev|]; [|done]. cbn [negb].
    assert (length b = 4%nat) as Hb4 by (unfold go_len in *; lia).
    pose proof (be_get_range b) as Hr. rewrite Hb4 in Hr. change (256 ^ Z.of_nat 4) with 4294967296 in Hr.
    destruct (header_valid (be_get b) Hr Ev) as [Eh Hn]. split; [exact Hn|]. by rewrite <- Eh, <- Hb4, be_put_get.
Qed.

(** ** One record *)

(** The frame of no bytes, which ends a stream as its end of file does. *)
Definition empty_frame : bytes := be_put 4 xdrFrameLastFragment.

Lemma ReadOne_reads x r x' : ReadOne x = (r, x') ->
  exists b, read_on x b x' /\ boundaryOffset x' = bytesRead x /\ boundaryState x' = sha256Hash x /\
  match r with
  | Ok value => framed value b
  | Err e => e = io_EOF -> closed x' = true /\ ((unread x = [] /\ b = [] /\ ending x = None) \/ b = empty_frame)
  end.
Proof.
  unfold ReadOne. destruct (ReadFrameLength (mark_boundary x)) as [r1 x1] eqn:E1.
  apply ReadFrameLength_reads in E1 as (b1 & Hro & Ho & Hs & H1). apply read_on_mark in Hro. cbn in Ho, Hs.
  assert (forall (e : error) b (x2 : Stream), read_on x b x2 -> boundaryOffset x2 = bytesRead x -> boundaryState x2 = sha256Hash x ->
    (e = io_EOF -> (unread x = [] /\ b = [] /\ ending x = None) \/ b = empty_frame) ->
    forall (r : result error A) x', (Err e, (Close x2).2) = (r, x') ->
    exists b, read_on x b x' /\ boundaryOffset x' = bytesRead x /\ boundaryState x' = sha256Hash x /\
      match r with
      | Ok value => framed value b
      | Err e => e = io_EOF -> closed x' = true /\ ((unread x = [] /\ b = [] /\ ending x = None) \/ b = empty_frame)
      end) as Hclose.
  { intros e b x2 Hr Hbo Hbs He r' x'' [= <- <-]. exists b. split; [by apply read_on_Close|].
    unfold Close. destruct (closed x2) eqn:Ec; cbn; by eauto. }
  destruct r1 as [n|e]; [|apply (Hclose e b1); [done..|]; intros ->; left; by apply H1].
  destruct H1 as [Hn ->]. destruct (Z.eqb_spec n 0) as [->|Hn0]; [apply (Hclose io_EOF empty_frame); [done..|]; intros _; by right|].
  destruct (maxRecordSize x1 <? n); [by eapply Hclose|].
  destruct (deliver x1 n) as [b2 x2] eqn:E2. apply deliver_read_on in E2 as (Hro2 & Ho2 & Hs2 & Hb2).
  specialize (Hb2 ltac:(lia)). rewrite Ho in Ho2. rewrite Hs in Hs2. pose proof (read_on_trans _ _ _ _ _ Hro Hro2) as Hro3.
  destruct (Z.ltb_spec (go_len b2) n) as [Hlt|Hge]; [eapply Hclose; [done..|]; by destruct (ending x2)|].
  destruct (DecodeBytes b2) as [[value readi]|d] eqn:Ed; [|by eapply Hclose].
  destruct (Z.eqb_spec readi n) as [->|Hne]; intros [= <- <-]; (eexists; split; [exact Hro3|split; [done|split; [done|]]]); [|done].
  assert (go_len b2 = n) as El by lia. exists b2. unfold MarshalFramed. rewrite El.
  rewrite u32_id by (unfold is_u32; lia). replace (xdrFrameLengthMask <? n) with false by lia.
  split; [done|]. split; [lia|done].
Qed.

(** ** Whole records *)
Lemma framed_inv v f : framed v f -> exists payload,
  f = be_put 4 (Z.lor (go_len payload) xdrFrameLastFragment) ++ payload /\ 0 < go_len payload <= xdrFrameLengthMask /\
  DecodeBytes payload = Ok (v, go_len payload).
Proof.
  intros (payload & E & Hn & Hd). exists payload. split; [|done]. unfold MarshalFramed in E.
  rewrite u32_id in E by (unfold is_u32; lia). replace (xdrFrameLengthMask <? go_len payload) with false in E by lia.
  by injection E as <-.
Qed.

Lemma framed_len v f : framed v f -> 4 < go_len f.
Proof.
  intros (payload & -> & Hn & _)%framed_inv. unfold go_len in *. rewrite length_app, length_be_put. lia.
Qed.

(** Frames say where they end. *)
Lemma framed_prefix v f v' f' rest rest' : framed v f -> framed v' f' -> f ++ rest = f' ++ rest' -> v = v' /\ f = f' /\ rest = rest'.
Proof.
  intros (p & -> & Hp & Hd)%framed_inv (p' & -> & Hp' & Hd')%framed_inv E. rewrite <- !app_assoc in E.
  apply app_inj_1 in E as [Eh E]; [|by rewrite !length_be_put].
  apply (f_equal (fun b => Z.land (be_get b) xdrFrameLengthMask)) in Eh.
  destruct (header_read (go_len p)) as (E1 & _ & E2); [lia|]. destruct (header_read (go_len p')) as (E1' & _ & E2'); [lia|].
  rewrite E1, E1', E2, E2' in Eh. apply app_inj_1 in E as [<- ->]; [|unfold go_len in Eh; lia].
  split; [congruence|done].
Qed.

Lemma deliver_app x b rest : unread x = b ++ rest ->
  exists x', deliver x (go_len b) = (b, x') /\ unread x' = rest /\ closed x' = closed x.
Proof.
  intros E. unfold deliver. rewrite E. replace (Z.to_nat (go_len b)) with (length b) by (unfold go_len; lia).
  rewrite take_app_length, drop_app_length. by eexists.
Qed.

Lemma ReadFrameLength_frame x n rest : 0 <= n <= xdrFrameLengthMask -> unread x = be_put 4 (Z.lor n xdrFrameLastFragment) ++ rest ->
  exists x', ReadFrameLength x = (Ok n, x') /\ unread x' = rest /\ maxRecordSize x' = maxRecordSize x /\ closed x' = closed x.
Proof.
  intros Hn E. destruct (deliver_app _ _ _ E) as (x' & Ed & Hu & Hc). destruct (header_read n Hn) as (E1 & E2 & E3).
  change (go_len (be_put 4 (Z.lor n xdrFrameLastFragment))) with 4 in Ed. pose proof (deliver_read_on _ _ _ _ Ed) as (Hro & _).
  exists x'. unfold ReadFrameLength. rewrite Ed, E1, E2, E3, Z.eqb_refl. by destruct Hro.
Qed.

Lemma ReadOne_frame x v f rest : unread x = f ++ rest -> framed v f -> go_len f <= maxRecordSize x + 4 ->
  exists x', ReadOne x = (Ok v, x') /\ unread x' = rest /\ closed x' = closed x.
Proof.
  intros E Hf Hmax. destruct (framed_inv _ _ Hf) as (p & -> & Hn & Hd). rewrite <- app_assoc in E.
  unfold go_len in Hmax. rewrite length_app, length_be_put in Hmax.
  destruct (ReadFrameLength_frame (mark_boundary x) (go_len p) (p ++ rest)) as (x1 & E1 & Hu & Hm & Hc); [lia|done|].
  unfold ReadOne. rewrite E1, Hm. replace (go_len p =? 0) with false by lia. cbn [maxRecordSize mark_boundary].
  replace (maxRecordSize x <? go_len p) with false by (unfold go_len; lia).
  destruct (deliver_app _ _ _ Hu) as (x2 & E2 & Hu2 & Hc2). rewrite E2, Z.ltb_irrefl, Hd, Z.eqb_refl. cbn [negb].
  exists x2. split; [done|]. split; [done|cbn in Hc; congruence].
Qed.

Lemma ReadOne_eof x : unread x = [] -> ending x = None -> exists x', ReadOne x = (Err io_EOF, x') /\ closed x' = true.
Proof.
  intros E En. unfold ReadOne, ReadFrameLength, deliver. cbn. rewrite E, En. cbn. eexists. split; [done|]. by destruct (closed x).
Qed.

(** Records read one after the other. *)
Inductive reads : Stream -> list A -> Stream -> Prop :=
| reads_nil x : reads x [] x
| reads_cons x v x1 vs x2 : ReadOne x = (Ok v, x1) -> reads x1 vs x2 -> reads x (v :: vs) x2.

Lemma reads_frames values frames : Forall2 framed values frames -> forall x rest,
  unread x = concat frames ++ rest -> Forall (fun f => go_len f <= maxRecordSize x + 4) frames ->
  exists x', reads x values x' /\ unread x' = rest /\ read_on x (concat frames) x' /\ closed x' = closed x.
Proof.
  induction 1 as [|v f values frames Hf Hfs IH]; cbn [concat]; intros x rest E Hm.
  - exists x. split; [constructor|]. split; [done|]. split; [apply read_on_refl|done].
  - rewrite <- app_assoc in E. destruct (Forall_cons_1 _ _ _ Hm) as [Hm1 Hm2].
    destruct (ReadOne_frame x v f _ E Hf Hm1) as (x1 & E1 & Hu1 & Hc1).
    destruct (ReadOne_reads _ _ _ E1) as (b & Hro & _ & _ & Hb).
    assert (b = f) as -> by (pose proof (ro_unread _ _ _ Hro) as Hu; rewrite E in Hu;
      by destruct (framed_prefix _ _ _ _ _ _ Hf Hb Hu) as (_ & -> & _)).
    destruct (IH x1 rest Hu1) as (x' & Hr & Hu & Hro' & Hc); [by rewrite (ro_max _ _ _ Hro)|].
    exists x'. split; [by econstructor|]. split; [done|]. split; [by eapply read_on_trans|congruence].
Qed.

(** ** The hash of a stream *)
Lemma validates x b expected : read_after_close [] = Ok [] -> unread x = [] -> closed x = true -> sha256Hash x = b ->
  XdrStream_ValidateHash x expected = None <-> expected = sha256 b.
Proof.
  intros Hrc Hu Hc <-. unfold XdrStream_ValidateHash, drain. rewrite Hc, Hu, Hrc, app_nil_r.
  destruct (decide (expected = sha256 (sha256Hash x))) as [->|Hne]; [by rewrite bool_decide_true by done|].
  by rewrite bool_decide_false by done.
Qed.

(** The records framed by [MarshalFramed] one after the other are the records that
    [ReadOne] gives, in order, and then end of file; all bytes have been read then,
    and the hash that [ValidateHash] accepts is that of the written bytes, no other. *)
Theorem framed_stream_roundtrip values frames closing :
  Forall2 framed values frames -> Forall (fun f => go_len f <= DefaultMaxXDRStreamRecordSize + 4) frames ->
  read_after_close [] = Ok [] ->
  exists x x', reads (NewStream (concat frames) None closing) values x /\ ReadOne x = (Err io_EOF, x') /\
    BytesRead x' = go_len (concat frames) /\
    forall expected, XdrStream_ValidateHash x' expected = None <-> expected = sha256 (concat frames).
Proof.
  intros Hfs Hm Hrc.
  destruct (reads_frames _ _ Hfs (NewStream (concat frames) None closing) []) as (x & Hr & Hu & Hro & Hc);
    [by rewrite app_nil_r|done|].
  destruct (ReadOne_eof x Hu) as (x' & E & Hc'); [by rewrite (ro_ending _ _ _ Hro)|].
  destruct (ReadOne_reads _ _ _ E) as (b & Hro' & _). pose proof (ro_unread _ _ _ Hro') as Eu. rewrite Hu in Eu.
  symmetry in Eu. apply app_nil in Eu as [-> Eu]. pose proof (read_on_trans _ _ _ _ _ Hro Hro') as Hro2.
  rewrite app_nil_r in Hro2. exists x, x'. split; [done|]. split; [done|]. split; [exact (ro_read _ _ _ Hro2)|].
  intros expected. apply validates; [done..|]. by rewrite (ro_hash _ _ _ Hro2).
Qed.

(** A payload of 4 GiB and more is written behind a header that says less. *)
Lemma overlong_wraps payload : go_len payload = 4294967300 ->
  MarshalFramed payload = Ok (be_put 4 (Z.lor 4 xdrFrameLastFragment) ++ payload).
Proof. intros E. unfold MarshalFramed. by rewrite E. Qed.
End Stream.

(** Two records, of one byte and of two. *)
Module SampleStream.
Definition decode (b : bytes) : result unit (bytes * Z) := Ok (b, go_len b).
Definition sha (b : bytes) : bytes := b.
Definition closed_gzip (b : bytes) : result unit bytes := Ok [].
Definition values : list bytes := [[Byte.x01]; [Byte.x02; Byte.x03]].
Definition frames : list bytes := [be_put 4 2147483649 ++ [Byte.x01]; be_put 4 2147483650 ++ [Byte.x02; Byte.x03]].

Lemma values_framed : Forall2 (framed (SE:=unit) decode) values frames.
Proof.
  repeat constructor; [exists [Byte.x01]|exists [Byte.x02; Byte.x03]]; (split; [reflexivity|split; [unfold go_len; cbn; lia|reflexivity]]).
Qed.
End SampleStream.
