(* ===== verification/ArchiveVerify.v ===== *)
(** * Verifying a history archive

    src/historyarchive/verify.go: what the files of a checkpoint claim about ledgers is
    noted in maps by ledger, expected hashes and actual ones, and compared at the end.
    The generated types are a class: their fields that are read, and their encodings. *)
From Stdlib Require Import ZArith Lia.
From stdpp Require Import base list gmap sets sorting option list_relations.
From S2P Require Import Prelude GoStd GoExt Sha256 Checkpoints ArchiveState XdrStream.
#[local] Open Scope Z_scope.
#[local] Open Scope go_scope.

Class HistoryTypes := {
  LedgerHeader : Type;
  header_LedgerSeq : LedgerHeader -> Z;
  PreviousLedgerHash : LedgerHeader -> bytes;
  TxSetHash : LedgerHeader -> bytes;
  TxSetResultHash : LedgerHeader -> bytes;
  header_Marshal : LedgerHeader -> option bytes;
  Envelope : Type;
  envelope_Marshal : Envelope -> option bytes;
  ResultSet : Type;
  results_Marshal : ResultSet -> option bytes
}.

Section Data.
Context {HT : HistoryTypes}.

Record LedgerHeaderHistoryEntry : Type := mkHeaderEntry { entry_Hash : bytes; Header : LedgerHeader }.

(** Transaction sets. *)
Record TransactionSet : Type := mkTxSet { set_PreviousLedgerHash : bytes; Txs : list Envelope }.

Record TxSetComponent : Type := mkComponent { component_Type : Z; component_BaseFee : option Z; component_Txs : list Envelope }.
Record ParallelTxsComponent : Type := mkParallel { BaseFee : option Z; ExecutionStages : list (list (list Envelope)) }.
Record TransactionPhase : Type := mkPhase {
  phase_V : Z;
  V0Components : option (list TxSetComponent);
  phase_Parallel : option ParallelTxsComponent
}.
Record TransactionSetV1 : Type := mkSetV1 { v1_PreviousLedgerHash : bytes; Phases : list TransactionPhase }.
Record GeneralizedTransactionSet : Type := mkGeneralized { generalized_V : Z; V1TxSet : option TransactionSetV1 }.

Inductive TransactionHistoryEntryExt : Type :=
| ExtV0
| ExtV1 (GeneralizedTxSet : GeneralizedTransactionSet)
| ExtUnknown (V : Z).

Record TransactionHistoryEntry : Type := mkTxEntry { tx_LedgerSeq : Z; TxSet : TransactionSet; Ext : TransactionHistoryEntryExt }.
Record TransactionHistoryResultEntry : Type := mkResultEntry { result_LedgerSeq : Z; TxResultSet : ResultSet }.
End Data.

Inductive verify_file_error : Type :=
| ErrMarshal_
| ErrLedgerHash (seq : Z) (expected actual : bytes)
| ErrExtVersion (v : Z)
| ErrOpenFile
| ErrReadFile
| ErrBucketHashMismatch (expected actual : bytes).

(** ** The archive's tables *)
Record Archive : Type := mkArchive {
  checkpointFiles : gmap bytes (gmap Z bool);
  allBuckets : gmap bytes bool;
  referencedBuckets : gmap bytes bool;
  expectLedgerHashes : gmap Z bytes;
  actualLedgerHashes : gmap Z bytes;
  expectTxSetHashes : gmap Z bytes;
  actualTxSetHashes : gmap Z bytes;
  expectTxResultSetHashes : gmap Z bytes;
  actualTxResultSetHashes : gmap Z bytes;
  invalidBuckets : Z;
  invalidLedgers : Z;
  invalidTxSets : Z;
  invalidTxResultSets : Z
}.

Section Verify.
Context {HT : HistoryTypes} {GS : GoSort} (generalized_Marshal : GeneralizedTransactionSet -> option bytes).

(** [xdr.HashXdr], of an encoding. *)
Definition HashXdr (encoding : option bytes) : result verify_file_error bytes :=
  match encoding with None => Err ErrMarshal_ | Some b => Ok (Sum256 b) end.

(** ** Transaction sets *)

(** The hashes of all before the sort; then both lists are sorted together. *)
Fixpoint hash_all (txs : list Envelope) : result verify_file_error (list (Envelope * bytes)) :=
  match txs with
  | [] => Ok []
  | tx :: txs =>
      let? h := HashXdr (envelope_Marshal tx) in
      let? rest := hash_all txs in
      Ok ((tx, h) :: rest)
  end.

Definition byHash_Less (a b : Envelope * bytes) : bool := bytes_ltb a.2 b.2.

Definition SortTxsForHash (txset : TransactionSet) : result verify_file_error TransactionSet :=
  let? hashed := hash_all (Txs txset) in
  Ok (mkTxSet (set_PreviousLedgerHash txset) (sort_Sort byHash_Less hashed).*1).

(** What is written to the hash after the previous ledger's. *)
Fixpoint marshal_all (txs : list Envelope) : result verify_file_error bytes :=
  match txs with
  | [] => Ok []
  | env :: txs =>
      match envelope_Marshal env with
      | None => Err ErrMarshal_
      | Some b => let? rest := marshal_all txs in Ok (b ++ rest)
      end
  end.

Definition HashTxSet (txset : TransactionSet) : result verify_file_error bytes :=
  let? txset := SortTxsForHash txset in
  let? b := marshal_all (Txs txset) in
  Ok (Sum256 (set_PreviousLedgerHash txset ++ b)).

Definition HashEmptyTxSet (previousLedgerHash : bytes) : bytes := Sum256 previousLedgerHash.

(** ** Entries *)
Definition VerifyLedgerHeaderHistoryEntry (arch : Archive) (entry : LedgerHeaderHistoryEntry) : result verify_file_error Archive :=
  let? h := HashXdr (header_Marshal (Header entry)) in
  let seq := header_LedgerSeq (Header entry) in
  if negb (bool_decide (h = entry_Hash entry)) then Err (ErrLedgerHash seq (entry_Hash entry) h)
  else
    Ok (mkArchive (checkpointFiles arch) (allBuckets arch) (referencedBuckets arch)
      (<[u32 (seq - 1) := PreviousLedgerHash (Header entry)]> (expectLedgerHashes arch))
      (<[seq := h]> (actualLedgerHashes arch))
      (<[seq := TxSetHash (Header entry)]> (expectTxSetHashes arch))
      (actualTxSetHashes arch)
      (<[seq := TxSetResultHash (Header entry)]> (expectTxResultSetHashes arch))
      (actualTxResultSetHashes arch)
      (invalidBuckets arch) (invalidLedgers arch) (invalidTxSets arch) (invalidTxResultSets arch)).

Definition VerifyTransactionHistoryEntry (arch : Archive) (entry : TransactionHistoryEntry) : result verify_file_error Archive :=
  let? h := match Ext entry with
            | ExtV0 => HashTxSet (TxSet entry)
            | ExtV1 GeneralizedTxSet => HashXdr (generalized_Marshal GeneralizedTxSet)
            | ExtUnknown v => Err (ErrExtVersion v)
            end in
  Ok (mkArchive (checkpointFiles arch) (allBuckets arch) (referencedBuckets arch) (expectLedgerHashes arch) (actualLedgerHashes arch)
    (expectTxSetHashes arch) (<[tx_LedgerSeq entry := h]> (actualTxSetHashes arch))
    (expectTxResultSetHashes arch) (actualTxResultSetHashes arch)
    (invalidBuckets arch) (invalidLedgers arch) (invalidTxSets arch) (invalidTxResultSets arch)).

Definition VerifyTransactionHistoryResultEntry (arch : Archive) (entry : TransactionHistoryResultEntry) : result verify_file_error Archive :=
  let? h := HashXdr (results_Marshal (TxResultSet entry)) in
  Ok (mkArchive (checkpointFiles arch) (allBuckets arch) (referencedBuckets arch) (expectLedgerHashes arch) (actualLedgerHashes arch)
    (expectTxSetHashes arch) (actualTxSetHashes arch)
    (expectTxResultSetHashes arch) (<[result_LedgerSeq entry := h]> (actualTxResultSetHashes arch))
    (invalidBuckets arch) (invalidLedgers arch) (invalidTxSets arch) (invalidTxResultSets arch)).

(** ** Files: the entries that are read, up to one that cannot be *)
Definition entries (A : Type) : Type := list (result unit A).

Inductive category_file : Type :=
| LedgerFile (es : entries LedgerHeaderHistoryEntry)
| TransactionsFile (es : entries TransactionHistoryEntry)
| ResultsFile (es : entries TransactionHistoryResultEntry)
| OtherFile.

(** The table after the steps, and how they ended: a step that fails has changed nothing. *)
Fixpoint verify_entries {A} (step : Archive -> A -> result verify_file_error Archive) (es : entries A) (arch : Archive) :
    Archive * option verify_file_error :=
  match es with
  | [] => (arch, None)
  | Err _ :: _ => (arch, Some ErrReadFile)
  | Ok e :: es =>
      match step arch e with
      | Err err => (arch, Some err)
      | Ok arch => verify_entries step es arch
      end
  end.

Definition VerifyCategoryCheckpoint (open : bytes -> Z -> result unit category_file) (arch : Archive) (cat : bytes) (chk : Z) :
    Archive * option verify_file_error :=
  if bool_decide (cat = str "history") then (arch, None)
  else match open cat chk with
  | Err _ => (arch, Some ErrOpenFile)
  | Ok (LedgerFile es) => verify_entries VerifyLedgerHeaderHistoryEntry es arch
  | Ok (TransactionsFile es) => verify_entries VerifyTransactionHistoryEntry es arch
  | Ok (ResultsFile es) => verify_entries VerifyTransactionHistoryResultEntry es arch
  | Ok OtherFile => (arch, None)
  end.

(** ** Buckets *)
Definition checkBucketHash (hashed expect : bytes) : option verify_file_error :=
  let actual := Sum256 hashed in
  if bool_decide (actual = expect) then None else Some (ErrBucketHashMismatch expect actual).

(** The error of [io.Copy] is dropped: what was read is hashed. *)
Definition VerifyBucketHash (open : bytes -> result unit bytes) (h : bytes) : option verify_file_error :=
  match open h with
  | Err _ => Some ErrOpenFile
  | Ok content => checkBucketHash content h
  end.

(** The records are decoded and encoded again, each in its frame. *)
Fixpoint reframe {A} (Marshal : A -> option bytes) (es : entries A) (hashed : bytes) : result verify_file_error bytes :=
  match es with
  | [] => Ok hashed
  | Err _ :: _ => Err ErrReadFile
  | Ok e :: es =>
      match Marshal e with
      | None => Err ErrMarshal_
      | Some payload =>
          match MarshalFramed (SE:=unit) (D:=unit) payload with
          | Err _ => Err ErrMarshal_
          | Ok frame => reframe Marshal es (hashed ++ frame)
          end
      end
  end.

Definition VerifyBucketEntries {A} (Marshal : A -> option bytes) (open : bytes -> result unit (entries A)) (h : bytes) :
    option verify_file_error :=
  match open h with
  | Err _ => Some ErrOpenFile
  | Ok es => match reframe Marshal es [] with Err e => Some e | Ok hashed => checkBucketHash hashed h end
  end.

(** ** The comparison *)
Definition zero_hash : bytes := replicate 32 zero_byte.

(** Whether an expected hash is not met. *)
Definition mismatched (actual : gmap Z bytes) (passOn : Z -> bytes -> bool) (e : Z * bytes) : bool :=
  let '(eledger, ehash) := e in
  match actual !! eledger with
  | None => if passOn eledger ehash then false else negb (bool_decide (zero_hash = ehash))
  | Some ahash => negb (bool_decide (ahash = ehash))
  end.

Definition compareHashMaps (expect actual : gmap Z bytes) (passOn : Z -> bytes -> bool) : Z :=
  go_len (filter (fun e => mismatched actual passOn e = true) (map_to_list expect)).

Definition makeEmptyGeneralizedSequentialTxSet (previousLedgerHash : bytes) : GeneralizedTransactionSet :=
  mkGeneralized 1 (Some (mkSetV1 previousLedgerHash [mkPhase 0 (Some []) None; mkPhase 0 (Some []) None])).

Definition makeEmptyGeneralizedParallelTxSet (previousLedgerHash : bytes) : GeneralizedTransactionSet :=
  mkGeneralized 1 (Some (mkSetV1 previousLedgerHash [mkPhase 0 (Some []) None; mkPhase 1 None (Some (mkParallel None []))])).

(** The least ledger that is expected. *)
Definition lowest_expected (arch : Archive) : Z :=
  fold_left (fun lowest e => if e.1 <? lowest then e.1 else lowest) (map_to_list (expectLedgerHashes arch)) MaxUint32.

(** Sets that are empty have no entry. *)
Definition pass_on_tx_set (arch : Archive) (eledger : Z) (ehash : bytes) : bool :=
  let previousLedgerHash := default zero_hash (expectLedgerHashes arch !! u32 (eledger - 1)) in
  if bool_decide (ehash = HashEmptyTxSet previousLedgerHash) then true
  else match HashXdr (generalized_Marshal (makeEmptyGeneralizedSequentialTxSet previousLedgerHash)) with
  | Err _ => false
  | Ok h =>
      if bool_decide (ehash = h) then true
      else match HashXdr (generalized_Marshal (makeEmptyGeneralizedParallelTxSet previousLedgerHash)) with
      | Err _ => false
      | Ok h => bool_decide (ehash = h)
      end
  end.

(** [verify] is the option; with the table, whether it was invalid and the number of
    objects that were. [EmptyXdrArrayHash] panics if its constant is no hash. *)
Definition ReportInvalid (verify : bool) (arch : Archive) : option (Archive * option Z) :=
  if negb verify then Some (arch, None)
  else
    let lowest := lowest_expected arch in
    let ledgers := compareHashMaps (expectLedgerHashes arch) (actualLedgerHashes arch) (fun eledger _ => eledger =? lowest) in
    let tx_sets := compareHashMaps (expectTxSetHashes arch) (actualTxSetHashes arch) (pass_on_tx_set arch) in
    let! emptyXdrArrayHash := EmptyXdrArrayHash in
    let results := compareHashMaps (expectTxResultSetHashes arch) (actualTxResultSetHashes arch)
                     (fun _ ehash => bool_decide (ehash = emptyXdrArrayHash)) in
    let arch := mkArchive (checkpointFiles arch) (allBuckets arch) (referencedBuckets arch)
                  (expectLedgerHashes arch) (actualLedgerHashes arch) (expectTxSetHashes arch) (actualTxSetHashes arch)
                  (expectTxResultSetHashes arch) (actualTxResultSetHashes arch) (invalidBuckets arch) ledgers tx_sets results in
    let totalInvalid := invalidBuckets arch + ledgers + tx_sets + results in
    Some (arch, if negb (totalInvalid =? 0) then Some totalInvalid else None).

(** ** The hash of a transaction set *)
Section TxSets.
Context {GSL : GoSortLaws GS}.

Definition envelope_bytes (p : Envelope * bytes) : bytes := default [] (envelope_Marshal p.1).
Definition hashed_ok (p : Envelope * bytes) : Prop := envelope_Marshal p.1 = Some (envelope_bytes p) /\ p.2 = Sum256 (envelope_bytes p).

Lemma hash_all_ok txs l : hash_all txs = Ok l -> l.*1 = txs /\ Forall hashed_ok l.
Proof.
  revert l; induction txs as [|tx txs IH]; intros l; cbn; [by intros [= <-]|]. unfold HashXdr.
  destruct (envelope_Marshal tx) as [b|] eqn:E; [|done]. cbn. destruct (hash_all txs) as [rest|]; [|done]. cbn. intros [= <-].
  destruct (IH rest eq_refl) as [H1 H2]. split; [cbn; by rewrite H1|]. constructor; [|done].
  unfold hashed_ok, envelope_bytes. cbn. by rewrite E.
Qed.

Lemma hash_all_permutation txs txs' l : txs ≡ₚ txs' -> hash_all txs = Ok l -> exists l', hash_all txs' = Ok l' /\ l ≡ₚ l'.
Proof.
  intros Hp. revert l. induction Hp as [|tx txs txs' Hp IH|a b txs|txs1 txs2 txs3 _ IH1 _ IH2]; intros l E.
  - by exists l.
  - cbn in *. destruct (HashXdr (envelope_Marshal tx)) as [h|]; [|done]. cbn in *. destruct (hash_all txs) as [rest|]; [|done]. cbn in *.
    injection E as <-. destruct (IH rest eq_refl) as (l' & -> & Hl'). cbn. eexists. split; [done|by constructor].
  - cbn in *. destruct (HashXdr (envelope_Marshal a)), (HashXdr (envelope_Marshal b)); cbn in *; try done.
    destruct (hash_all txs); cbn in *; [|done]. injection E as <-. eexists. split; [done|apply Permutation_swap].
  - destruct (IH1 l E) as (l1 & E1 & H1). destruct (IH2 l1 E1) as (l2 & E2 & H2). exists l2. split; [done|by etrans].
Qed.

Lemma marshal_all_ok l : Forall hashed_ok l -> marshal_all l.*1 = Ok (concat (map envelope_bytes l)).
Proof. induction 1 as [|p l [Hp _] _ IH]; [done|]. cbn. rewrite Hp. cbn. by rewrite IH. Qed.

Lemma byHash_weak : weak_order byHash_Less.
Proof.
  unfold byHash_Less. split.
  - intros [x hx] [y hy]. cbn. intros Hxy. destruct (bytes_ltb hy hx) eqn:E; [|done].
    pose proof (bytes_ltb_trans _ _ _ Hxy E) as H. by rewrite bytes_ltb_irrefl in H.
  - intros [x hx] [y hy] [z hz]. cbn. intros Hyx Hzy. destruct (bytes_ltb hz hx) eqn:E; [|done]. exfalso.
    destruct (bytes_ltb_total hy hx) as [H|[H|H]]; [congruence|subst; congruence|].
    pose proof (bytes_ltb_trans _ _ _ E H). congruence.
Qed.

(** Sorted lists of the same transactions are the same messages in the same order. *)
Lemma sorted_messages l l' : Forall hashed_ok l -> l ≡ₚ l' -> no_collision (map envelope_bytes l) ->
  map envelope_bytes (sort_Sort byHash_Less l) = map envelope_bytes (sort_Sort byHash_Less l').
Proof.
  intros Hl Hp Hno. pose proof (sort_Sort_perm byHash_Less l) as P1. pose proof (sort_Sort_perm byHash_Less l') as P2.
  pose proof (sort_Sort_sorted byHash_Less l byHash_weak) as S1. pose proof (sort_Sort_sorted byHash_Less l' byHash_weak) as S2.
  set (m := sort_Sort byHash_Less l) in *. set (m' := sort_Sort byHash_Less l') in *.
  assert (m ⊆ l /\ m' ⊆ l) as [I1 I2] by (split; intros x Hx; [by rewrite <- P1|rewrite Hp; by rewrite <- P2]).
  assert (map snd m = map snd m') as E.
  { apply (StronglySorted_unique_strong (fun a b => bytes_ltb b a = false)).
    - intros a b _ _ H1 H2. destruct (bytes_ltb_total a b) as [H|[H|H]]; [congruence|done|congruence].
    - clear -S1. induction S1 as [|x xs _ IH Hx]; constructor; [done|]. by apply Forall_map.
    - clear -S2. induction S2 as [|x xs _ IH Hx]; constructor; [done|]. by apply Forall_map.
    - apply fmap_Permutation. by rewrite P1, P2. }
  clear P1 P2 S1 S2. clearbody m m'. rewrite Forall_forall in Hl. revert m' I2 E. induction m as [|p m IH]; intros [|p' m'] I2 E; try done.
  apply list_subseteq_cons_iff in I1 as [Ip I1]. apply list_subseteq_cons_iff in I2 as [Ip' I2]. cbn in E. injection E as Eh E.
  cbn. f_equal; [|by apply IH]. apply Hno; [by apply list_elem_of_fmap_2|by apply list_elem_of_fmap_2|].
  destruct (Hl p Ip) as [_ H1], (Hl p' Ip') as [_ H2]. congruence.
Qed.

(** The hash of a transaction set is of the set: in whatever order its envelopes are
    given, which is that of application in the files of an archive and another in what
    validators agree on, [HashTxSet] fails or gives the same hash. No two of the
    envelopes' encodings collide. *)
Theorem HashTxSet_order prev txs txs' : txs ≡ₚ txs' -> no_collision (omap envelope_Marshal txs) ->
  HashTxSet (mkTxSet prev txs) = HashTxSet (mkTxSet prev txs').
Proof.
  intros Hp Hno. unfold HashTxSet, SortTxsForHash. cbn [Txs].
  destruct (hash_all txs) as [l|e] eqn:E.
  - destruct (hash_all_permutation _ _ _ Hp E) as (l' & -> & Hl). destruct (hash_all_ok _ _ E) as [E1 Hok]. cbn [result_bind Txs set_PreviousLedgerHash].
    assert (Forall hashed_ok l') as Hok' by by rewrite <- Hl.
    rewrite !marshal_all_ok by (by rewrite sort_Sort_perm). cbn [result_bind]. rewrite (sorted_messages l l'); [done|done|done|].
    assert (map envelope_bytes l = omap envelope_Marshal txs) as ->; [|done].
    rewrite <- E1. clear -Hok. induction Hok as [|p l [H _] _ IH]; [done|]. cbn. by rewrite H, <- IH.
  - destruct (hash_all txs') as [l'|e'] eqn:E'.
    + destruct (hash_all_permutation _ _ _ (Permutation_sym Hp) E') as (l & El & _). congruence.
    + assert (forall ts er, hash_all ts = Err er -> er = ErrMarshal_) as Herr.
      { induction ts as [|t ts IH]; intros er; [done|]. cbn. unfold HashXdr. destruct (envelope_Marshal t); cbn; [|congruence].
        destruct (hash_all ts); cbn; [done|]. intros [= <-]. by apply IH. }
      cbn. by rewrite (Herr _ _ E), (Herr _ _ E').
Qed.
End TxSets.

(** ** What a report without errors says *)

(** [Connect]: tables with nothing in them. *)
Definition new_archive : Archive :=
  mkArchive (list_to_map (map (fun cat => (cat, ∅)) [str "history"; str "ledger"; str "transactions"; str "results"; str "scp"]))
    ∅ ∅ ∅ ∅ ∅ ∅ ∅ ∅ 0 0 0 0.

(** The entries of all the files that are verified, in the order in which the workers
    that read the files come to note them. *)
Inductive history_entry : Type :=
| LedgerEntry_ (e : LedgerHeaderHistoryEntry)
| TransactionEntry_ (e : TransactionHistoryEntry)
| ResultEntry_ (e : TransactionHistoryResultEntry).

Definition verify_one (arch : Archive) (e : history_entry) : result verify_file_error Archive :=
  match e with
  | LedgerEntry_ e => VerifyLedgerHeaderHistoryEntry arch e
  | TransactionEntry_ e => VerifyTransactionHistoryEntry arch e
  | ResultEntry_ e => VerifyTransactionHistoryResultEntry arch e
  end.

Fixpoint verify_history (arch : Archive) (es : list history_entry) : result verify_file_error Archive :=
  match es with
  | [] => Ok arch
  | e :: es => let? arch := verify_one arch e in verify_history arch es
  end.

Definition headers (es : list history_entry) : list LedgerHeaderHistoryEntry :=
  omap (fun e => match e with LedgerEntry_ e => Some e | _ => None end) es.

Definition seq_of (e : LedgerHeaderHistoryEntry) : Z := header_LedgerSeq (Header e).
Definition previous_of (e : LedgerHeaderHistoryEntry) : Z := u32 (seq_of e - 1).

Definition insert_all {A} (k : A -> Z) (v : A -> bytes) (m : gmap Z bytes) (l : list A) : gmap Z bytes :=
  fold_left (fun m e => <[k e := v e]> m) l m.

(** The value of the last one with the key. *)
Lemma insert_all_lookup {A} (k : A -> Z) (v : A -> bytes) l m n :
  insert_all k v m l !! n = match last (filter (fun e => k e = n) l) with Some e => Some (v e) | None => m !! n end.
Proof.
  induction l as [|e l IH] using rev_ind; [done|]. unfold insert_all in *. rewrite fold_left_app, filter_app. cbn [fold_left].
  destruct (decide (k e = n)) as [<-|Hne].
  - rewrite filter_cons_True by done. cbn. by rewrite last_snoc, lookup_insert_eq.
  - rewrite filter_cons_False by done. cbn. by rewrite app_nil_r, lookup_insert_ne.
Qed.

(** The header of a ledger that is noted: of several the last, which takes the place of
    the ones before it. *)
Definition latest_header (es : list history_entry) (n : Z) : option LedgerHeaderHistoryEntry :=
  last (filter (fun e => seq_of e = n) (headers es)).

Lemma latest_header_in es n e : latest_header es n = Some e -> e ∈ headers es /\ seq_of e = n.
Proof. intros H%last_Some_elem_of. by apply list_elem_of_filter in H as [? ?]. Qed.

Lemma latest_header_at es n e v m : latest_header es n = Some e -> insert_all seq_of v m (headers es) !! n = Some (v e).
Proof. unfold latest_header. intros H. by rewrite insert_all_lookup, H. Qed.

(** Links are noted under the ledger before. *)
Lemma latest_header_before es n e v m : Forall (fun e => is_u32 (seq_of e)) (headers es) -> is_u32 n ->
  latest_header es (n + 1) = Some e -> insert_all previous_of v m (headers es) !! n = Some (v e).
Proof.
  intros Hu Hn H. rewrite insert_all_lookup. replace (filter (fun e => previous_of e = n) (headers es))
    with (filter (fun e => seq_of e = n + 1) (headers es)); [unfold latest_header in H; by rewrite H|].
  destruct (latest_header_in _ _ _ H) as [He Es]. rewrite Forall_forall in Hu. pose proof (Hu e He) as Hmax. rewrite Es in Hmax.
  clear H He Es. induction (headers es) as [|x l IH]; [done|].
  assert (previous_of x = n <-> seq_of x = n + 1) as Hx.
  { pose proof (Hu x ltac:(by left)). unfold previous_of, u32, is_u32 in *. Z.to_euclidean_division_equations; lia. }
  rewrite !filter_cons, IH by (intros y Hy; apply Hu; by right). destruct (decide (seq_of x = n + 1)), (decide (previous_of x = n)); tauto.
Qed.

(** What the entries leave in the tables of ledgers. *)
Lemma verify_history_ledgers es : forall arch arch', verify_history arch es = Ok arch' ->
  expectLedgerHashes arch' = insert_all previous_of (fun e => PreviousLedgerHash (Header e)) (expectLedgerHashes arch) (headers es) /\
  actualLedgerHashes arch' = insert_all seq_of entry_Hash (actualLedgerHashes arch) (headers es) /\
  expectTxSetHashes arch' = insert_all seq_of (fun e => TxSetHash (Header e)) (expectTxSetHashes arch) (headers es) /\
  expectTxResultSetHashes arch' = insert_all seq_of (fun e => TxSetResultHash (Header e)) (expectTxResultSetHashes arch) (headers es) /\
  invalidBuckets arch' = invalidBuckets arch /\
  Forall (fun e => exists b, header_Marshal (Header e) = Some b /\ Sum256 b = entry_Hash e) (headers es).
Proof.
  induction es as [|e es IH]; intros arch arch' H; cbn [verify_history] in H; [by injection H as <-|].
  destruct (verify_one arch e) as [arch1|] eqn:E; [|done]. cbn [result_bind] in H. apply IH in H as (H1 & H2 & H3 & H4 & H5 & H6).
  destruct e as [e|e|e]; cbn [verify_one] in E.
  - unfold VerifyLedgerHeaderHistoryEntry, HashXdr in E. destruct (header_Marshal (Header e)) as [b|] eqn:Eb; [|done]. cbn [result_bind] in E.
    case_bool_decide as Eh; cbn [negb] in E; [|done]. injection E as <-. cbn in H1, H2, H3, H4, H5.
    rewrite Eh in H2. split_and!; [done..|]. constructor; [by exists b|done].
  - unfold VerifyTransactionHistoryEntry in E. destruct (match Ext e with ExtV0 => _ | ExtV1 _ => _ | ExtUnknown _ => _ end); [|done].
    by injection E as <-.
  - unfold VerifyTransactionHistoryResultEntry in E. destruct (HashXdr _); [|done]. by injection E as <-.
Qed.

Lemma compareHashMaps_0 expect actual passOn : compareHashMaps expect actual passOn = 0 ->
  forall n h, expect !! n = Some h -> actual !! n = Some h \/ (actual !! n = None /\ (passOn n h = true \/ h = zero_hash)).
Proof.
  intros H n h Hn. unfold compareHashMaps, go_len in H. assert (mismatched actual passOn (n, h) = false) as Hm.
  { destruct (mismatched actual passOn (n, h)) eqn:E; [|done]. exfalso.
    assert ((n, h) ∈ filter (fun e => mismatched actual passOn e = true) (map_to_list expect)) as Hin.
    { apply list_elem_of_filter. split; [done|]. by apply elem_of_map_to_list. }
    destruct (filter _ _); [by apply elem_of_nil in Hin|cbn in H; lia]. }
  cbn in Hm. destruct (actual !! n) as [h'|]; [case_bool_decide; [left; congruence|done]|]. right. split; [done|].
  destruct (passOn n h); [by left|]. case_bool_decide; [by right|done].
Qed.

Lemma compareHashMaps_nonneg expect actual passOn : 0 <= compareHashMaps expect actual passOn.
Proof. unfold compareHashMaps, go_len. lia. Qed.

(** Entries that verified in this order, with sequence numbers that are uint32, and were
    then reported as valid. A ledger can have several headers. *)
Definition verified_history (es : list history_entry) (arch : Archive) : Prop :=
  Forall (fun e => is_u32 (seq_of e)) (headers es) /\
  verify_history new_archive es = Ok arch /\ exists arch', ReportInvalid true arch = Some (arch', None).

Lemma ReportInvalid_ok arch arch' : 0 <= invalidBuckets arch -> ReportInvalid true arch = Some (arch', None) ->
  compareHashMaps (expectLedgerHashes arch) (actualLedgerHashes arch) (fun eledger _ => eledger =? lowest_expected arch) = 0 /\
  compareHashMaps (expectTxSetHashes arch) (actualTxSetHashes arch) (pass_on_tx_set arch) = 0 /\
  exists empty, EmptyXdrArrayHash = Some empty /\
    compareHashMaps (expectTxResultSetHashes arch) (actualTxResultSetHashes arch) (fun _ ehash => bool_decide (ehash = empty)) = 0.
Proof.
  intros Hb. unfold ReportInvalid. cbn [negb]. destruct EmptyXdrArrayHash as [empty|]; [|done].
  set (a := compareHashMaps _ _ _). set (b := compareHashMaps _ _ _). set (c := compareHashMaps _ _ _). cbn [invalidBuckets].
  assert (0 <= a /\ 0 <= b /\ 0 <= c) as (Ha & Hb' & Hc) by (split_and!; apply compareHashMaps_nonneg).
  destruct (Z.eqb_spec (invalidBuckets arch + a + b + c) 0) as [E|]; cbn [negb]; intros Er; [|discriminate Er].
  split; [lia|]. split; [lia|]. exists empty. split; [done|lia].
Qed.

(** The hash of a header, the link to the header before it, and the sets of its ledger. *)
Lemma verified_chain es arch : verified_history es arch ->
  (forall e, e ∈ headers es -> exists b, header_Marshal (Header e) = Some b /\ Sum256 b = entry_Hash e) /\
  (forall n e e', latest_header es n = Some e -> latest_header es (n + 1) = Some e' -> PreviousLedgerHash (Header e') = entry_Hash e) /\
  (forall n e h, latest_header es n = Some e -> actualTxSetHashes arch !! n = Some h -> h = TxSetHash (Header e)) /\
  (forall n e h, latest_header es n = Some e -> actualTxResultSetHashes arch !! n = Some h -> h = TxSetResultHash (Header e)).
Proof.
  intros (Hu & Hv & arch' & Hr). destruct (verify_history_ledgers _ _ _ Hv) as (H1 & H2 & H3 & H4 & H5 & H6).
  destruct (ReportInvalid_ok arch arch') as (C1 & C2 & empty & _ & C3); [by rewrite H5|done|]. rewrite Forall_forall in H6.
  split; [done|]. split_and!.
  - intros n e e' He He'. assert (is_u32 n) as Hn.
    { apply latest_header_in in He as [He <-]. rewrite Forall_forall in Hu. by apply Hu. }
    pose proof (latest_header_before _ _ _ (fun e => PreviousLedgerHash (Header e)) (expectLedgerHashes new_archive) Hu Hn He') as Hexp.
    pose proof (latest_header_at _ _ _ entry_Hash (actualLedgerHashes new_archive) He) as Hact. rewrite <- H1 in Hexp. rewrite <- H2 in Hact.
    destruct (compareHashMaps_0 _ _ _ C1 _ _ Hexp) as [H|[H _]]; congruence.
  - intros n e h He Hact. pose proof (latest_header_at _ _ _ (fun e => TxSetHash (Header e)) (expectTxSetHashes new_archive) He) as Hexp.
    rewrite <- H3 in Hexp. destruct (compareHashMaps_0 _ _ _ C2 _ _ Hexp) as [H|[H _]]; congruence.
  - intros n e h He Hact. pose proof (latest_header_at _ _ _ (fun e => TxSetResultHash (Header e)) (expectTxResultSetHashes new_archive) He) as Hexp.
    rewrite <- H4 in Hexp. destruct (compareHashMaps_0 _ _ _ C3 _ _ Hexp) as [H|[H _]]; congruence.
Qed.

(** The headers of a history from [lo] to [hi], none missing. *)
Definition covers (es : list history_entry) (lo hi : Z) : Prop := forall n, lo <= n <= hi -> is_Some (latest_header es n).

(** C31: one hash vouches for a range of history. Two histories that were verified and
    reported without an invalid object, that have headers of all the ledgers from [lo]
    to [hi] and the same hash in the one noted last of [hi], have on the whole range the
    same headers noted last, and the same hash of every transaction set and result set
    of it that both have; however their files were read and in whatever order the
    entries were noted. A header that is noted before another of its ledger is not
    compared with anything but its own hash, so nothing is said of it: one that was
    forged is not noticed. The encoding of headers is injective, and no two of these
    headers collide. *)
Theorem verified_histories_agree es es' arch arch' lo hi :
  verified_history es arch -> verified_history es' arch' -> covers es lo hi -> covers es' lo hi ->
  (forall e e', latest_header es hi = Some e -> latest_header es' hi = Some e' -> entry_Hash e = entry_Hash e') ->
  (forall a b m, header_Marshal a = Some m -> header_Marshal b = Some m -> a = b) ->
  no_collision (omap (fun e => header_Marshal (Header e)) (headers es ++ headers es')) ->
  forall n, lo <= n <= hi -> exists e e', latest_header es n = Some e /\ latest_header es' n = Some e' /\
    Header e = Header e' /\ entry_Hash e = entry_Hash e' /\
    (forall h h', actualTxSetHashes arch !! n = Some h -> actualTxSetHashes arch' !! n = Some h' -> h = h') /\
    (forall h h', actualTxResultSetHashes arch !! n = Some h -> actualTxResultSetHashes arch' !! n = Some h' -> h = h').
Proof.
  intros Hv Hv' Hc Hc' Htop Hinj Hno.
  destruct (verified_chain _ _ Hv) as (Hh & Hl & Hs & Hr). destruct (verified_chain _ _ Hv') as (Hh' & Hl' & Hs' & Hr').
  assert (forall n e e', latest_header es n = Some e -> latest_header es' n = Some e' -> entry_Hash e = entry_Hash e' -> Header e = Header e') as Hhead.
  { intros n e e' [He _]%latest_header_in [He' _]%latest_header_in E. destruct (Hh e He) as (b & Eb & Sb), (Hh' e' He') as (b' & Eb' & Sb').
    assert (b = b') as <-; [|by eapply Hinj]. apply Hno; [| |congruence]; apply list_elem_of_omap.
    - exists e. split; [|done]. apply elem_of_app. by left.
    - exists e'. split; [|done]. apply elem_of_app. by right. }
  assert (forall k e e', Z.of_nat k <= hi - lo -> latest_header es (hi - Z.of_nat k) = Some e -> latest_header es' (hi - Z.of_nat k) = Some e' ->
    entry_Hash e = entry_Hash e') as Hall.
  { induction k as [|k IH]; intros e e' Hk He He'; [rewrite Z.sub_0_r in *; by apply Htop|].
    destruct (Hc (hi - Z.of_nat k)) as (e1 & He1); [lia|]. destruct (Hc' (hi - Z.of_nat k)) as (e1' & He1'); [lia|].
    assert (Header e1 = Header e1') as E1 by (eapply Hhead; [done|done|apply IH; [lia|done|done]]).
    replace (hi - Z.of_nat k) with (hi - Z.of_nat (S k) + 1) in He1, He1' by lia.
    rewrite <- (Hl _ _ _ He He1), <- (Hl' _ _ _ He' He1'). by rewrite E1. }
  intros n Hn. destruct (Hc n Hn) as [e He], (Hc' n Hn) as [e' He']. exists e, e'.
  assert (entry_Hash e = entry_Hash e') as Eh.
  { apply (Hall (Z.to_nat (hi - n))); [lia|..]; by replace (hi - Z.of_nat (Z.to_nat (hi - n))) with n by lia. }
  pose proof (Hhead n e e' He He' Eh) as EH. repeat (split; [done|]). split.
  - intros h h' E E'. by rewrite (Hs n e h He E), (Hs' n e' h' He' E'), EH.
  - intros h h' E E'. by rewrite (Hr n e h He E), (Hr' n e' h' He' E'), EH.
Qed.
End Verify.

(** Two envelopes of one byte each. *)
Module SampleTxSet.
Import Concrete.
#[local] Instance byte_envelopes : HistoryTypes := {|
  LedgerHeader := unit; header_LedgerSeq _ := 0; PreviousLedgerHash _ := []; TxSetHash _ := []; TxSetResultHash _ := [];
  header_Marshal _ := None; Envelope := byte; envelope_Marshal b := Some [b]; ResultSet := unit; results_Marshal _ := None
|}.

End SampleTxSet.

(** Two ledgers, and their headers noted in either order; with another header of the
    first ledger that is noted before the one that the second links to. *)
Module SampleHistory.
Import Concrete.
Definition hash_1 : bytes := Eval vm_compute in Sum256 [Byte.x01].
Definition hash_2 : bytes := Eval vm_compute in Sum256 [Byte.x02].
Definition hash_3 : bytes := Eval vm_compute in Sum256 [Byte.x03].

(** Headers of one byte; that of the second ledger is 2. *)
#[export] Instance byte_headers : HistoryTypes := {|
  LedgerHeader := byte;
  header_LedgerSeq b := if bool_decide (b = Byte.x02) then 2 else 1;
  PreviousLedgerHash b := if bool_decide (b = Byte.x02) then hash_1 else zero_hash;
  TxSetHash _ := zero_hash;
  TxSetResultHash _ := zero_hash;
  header_Marshal b := Some [b];
  Envelope := unit;
  envelope_Marshal _ := None;
  ResultSet := unit;
  results_Marshal _ := None
|}.

Definition no_generalized (s : GeneralizedTransactionSet) : option bytes := None.
Definition first_entry : LedgerHeaderHistoryEntry := mkHeaderEntry hash_1 Byte.x01.
Definition second_entry : LedgerHeaderHistoryEntry := mkHeaderEntry hash_2 Byte.x02.
Definition forged_entry : LedgerHeaderHistoryEntry := mkHeaderEntry hash_3 Byte.x03.
Definition reordered : list history_entry := [LedgerEntry_ second_entry; LedgerEntry_ first_entry].
Definition forged : list history_entry := [LedgerEntry_ forged_entry; LedgerEntry_ first_entry; LedgerEntry_ second_entry].

Definition noted (es : list history_entry) : Archive :=
  match verify_history no_generalized new_archive es with Ok arch => arch | Err _ => new_archive end.

Lemma sample_verified es : es = forged \/ es = reordered -> verified_history no_generalized es (noted es).
Proof.
  assert (forall es, forallb (fun e => (0 <=? seq_of e) && (seq_of e <=? MaxUint32)) (headers es) &&
    (match verify_history no_generalized new_archive es with Ok _ => true | Err _ => false end) &&
    (match ReportInvalid no_generalized true (noted es) with Some (_, None) => true | _ => false end) = true ->
    verified_history no_generalized es (noted es)) as H.
  { intros l [[H2 H3]%andb_prop H4]%andb_prop. split; [|split].
    - apply Forall_forall. intros e He. apply list_elem_of_In in He. rewrite forallb_forall in H2. specialize (H2 e He).
      unfold is_u32. apply andb_prop in H2. lia.
    - unfold noted. by destruct (verify_history _ _ _).
    - destruct (ReportInvalid _ _ _) as [[a [|]]|]; [done|by exists a|done]. }
  intros [-> | ->]; apply H; vm_compute; reflexivity.
Qed.

Lemma verified_histories_agree_witness : exists e e',
  latest_header forged 1 = Some e /\ latest_header reordered 1 = Some e' /\
  Header e = Header e' /\ entry_Hash e = entry_Hash e' /\
  (forall h h', actualTxSetHashes (noted forged) !! 1 = Some h -> actualTxSetHashes (noted reordered) !! 1 = Some h' -> h = h') /\
  (forall h h', actualTxResultSetHashes (noted forged) !! 1 = Some h ->
     actualTxResultSetHashes (noted reordered) !! 1 = Some h' -> h = h').
Proof.
  assert (forall es, es = forged \/ es = reordered -> covers es 1 2) as Hc.
  { intros es Hes n Hn. assert (n = 1 \/ n = 2) as [-> | ->] by lia; destruct Hes as [-> | ->]; vm_compute; by eexists. }
  apply (verified_histories_agree no_generalized forged reordered (noted forged) (noted reordered) 1 2).
  - apply sample_verified. by left.
  - apply sample_verified. by right.
  - apply Hc. by left.
  - apply Hc. by right.
  - intros e e' [= <-] [= <-]. reflexivity.
  - by intros a b m [= <-] [=].
  - assert (forall m, m ∈ omap (fun e => header_Marshal (Header e)) (headers forged ++ headers reordered) ->
      m = [Byte.x01] \/ m = [Byte.x02] \/ m = [Byte.x03]) as Hm.
    { intros m Hin. cbn in Hin. repeat (apply elem_of_cons in Hin as [->|Hin]; [tauto|]). by apply elem_of_nil in Hin. }
    assert (Sum256 [Byte.x01] <> Sum256 [Byte.x02]) as H12 by (apply (bool_decide_eq_true_1 (~ _)); vm_compute; reflexivity).
    assert (Sum256 [Byte.x01] <> Sum256 [Byte.x03]) as H13 by (apply (bool_decide_eq_true_1 (~ _)); vm_compute; reflexivity).
    assert (Sum256 [Byte.x02] <> Sum256 [Byte.x03]) as H23 by (apply (bool_decide_eq_true_1 (~ _)); vm_compute; reflexivity).
    intros m m' [-> | [-> | ->]]%Hm [-> | [-> | ->]]%Hm E; congruence.
  - lia.
Defined.
End SampleHistory.
