(* ===== verification/ArchiveScan.v ===== *)
(** * Scanning a history archive

    src/historyarchive/scan.go: pools of workers note in the tables of the archive which
    checkpoint files and buckets there are and which buckets are referred to, and verify
    them as they go; what is missing is then read off the tables.

    The files do not change during a scan. Storage calls are counted and can fail, as in
    [Mirror]; what reading a file gives can depend on the call. Progress messages, the
    cache of buckets on disk and request statistics are left out. *)
From Stdlib Require Import ZArith Lia.
From stdpp Require Import base list gmap relations option.
From S2P Require Import Prelude GoStd GoExt Checkpoints ArchiveState ArchivePaths Concurrent Mirror XdrStream ArchiveVerify.
#[local] Open Scope Z_scope.
#[local] Open Scope go_scope.

(** Listing a storage: whether it can, and the names and the number of errors that are
    sent before the channels are closed. *)
Class Listing := {
  CanListFiles : bool;
  ListFiles : nat -> files -> bytes -> list bytes * Z
}.

(** Reading: what comes out of a file, the entries of a category or of a bucket and the
    bytes of a bucket, and the encodings of what was decoded. *)
Class Decoders {HT : HistoryTypes} := {
  read_category : nat -> bytes -> bytes -> result unit category_file;
  gunzip : nat -> bytes -> result unit bytes;
  BucketEntry : Type;
  bucket_entry_Marshal : BucketEntry -> option bytes;
  read_bucket_entries : nat -> bytes -> result unit (entries BucketEntry);
  generalized_Marshal : GeneralizedTransactionSet -> option bytes
}.

(** The storage, with the errors counted, and the tables of the archive. In a scan
    [bucketFetch] of the storage's part is not read: it keeps for which checkpoint a
    bucket was first noted. *)
Record Scanning : Type := mkScanning { world : World; tables : Archive }.

Definition with_tables (s : Scanning) (arch : Archive) : Scanning := mkScanning (world s) arch.

(** ** The tables *)
Definition with_checkpoints (a : Archive) (m : gmap bytes (gmap Z bool)) : Archive :=
  mkArchive m (allBuckets a) (referencedBuckets a) (expectLedgerHashes a) (actualLedgerHashes a) (expectTxSetHashes a)
    (actualTxSetHashes a) (expectTxResultSetHashes a) (actualTxResultSetHashes a)
    (invalidBuckets a) (invalidLedgers a) (invalidTxSets a) (invalidTxResultSets a).

Definition with_buckets (a : Archive) (all referenced : gmap bytes bool) (invalid : Z) : Archive :=
  mkArchive (checkpointFiles a) all referenced (expectLedgerHashes a) (actualLedgerHashes a) (expectTxSetHashes a)
    (actualTxSetHashes a) (expectTxResultSetHashes a) (actualTxResultSetHashes a)
    invalid (invalidLedgers a) (invalidTxSets a) (invalidTxResultSets a).

(** Assignment in the map of a category, which panics on the nil map of an unknown one. *)
Definition NoteCheckpointFile (cat : bytes) (chk : Z) (present : bool) (arch : Archive) : option Archive :=
  let! files := checkpointFiles arch !! cat in
  Some (with_checkpoints arch (<[cat := <[chk := present]> files]> (checkpointFiles arch))).

Definition NoteExistingBucket (bucket : bytes) (arch : Archive) : Archive :=
  with_buckets arch (<[bucket := true]> (allBuckets arch)) (referencedBuckets arch) (invalidBuckets arch).

(** With the archive, whether the bucket is new. *)
Definition NoteReferencedBucket (bucket : bytes) (arch : Archive) : Archive * bool :=
  match referencedBuckets arch !! bucket with
  | Some _ => (arch, false)
  | None => (with_buckets arch (allBuckets arch) (<[bucket := true]> (referencedBuckets arch)) (invalidBuckets arch), true)
  end.

Definition ClearCachedInfo (arch : Archive) : Archive :=
  with_buckets (with_checkpoints arch (foldr (fun cat m => <[cat := ∅]> m) (checkpointFiles arch) Categories)) ∅ ∅ (invalidBuckets arch).

(** The zero value of a nil map's or a missing entry. *)
Definition checkpoint_present (arch : Archive) (cat : bytes) (ix : Z) : bool :=
  default false (default ∅ (checkpointFiles arch !! cat) !! ix).

(** The loop over a channel of checkpoints takes [fuel]. *)
Definition CheckCheckpointFilesMissing (fuel : nat) (r : Range) (m : CheckpointManager) (arch : Archive) :
    option (gmap bytes (list Z)) :=
  let! checkpoints := GenerateCheckpoints fuel r m in
  Some (list_to_map (map (fun cat => (cat, filter (fun ix => checkpoint_present arch cat ix = false) checkpoints)) Categories)).

Definition bucket_missing (arch : Archive) (e : bytes * bool) : bool := negb (default false (allBuckets arch !! e.1)).

Definition CheckBucketsMissing (arch : Archive) : gmap bytes bool :=
  list_to_map (map (fun e => (e.1, true)) (filter (fun e => bucket_missing arch e = true) (map_to_list (referencedBuckets arch)))).

Definition ReportMissing (fuel : nat) (r : Range) (m : CheckpointManager) (arch : Archive) : option bool :=
  let! missingCheckpointFiles := CheckCheckpointFilesMissing fuel r m arch in
  let missingBuckets := CheckBucketsMissing arch in
  let missingCheckpoints :=
    existsb (fun e => categoryRequired e.1 && negb (bool_decide (e.2 = []))) (map_to_list missingCheckpointFiles) in
  Some (missingCheckpoints || negb (Z.of_nat (size missingBuckets) =? 0)).

(** ** Steps that count errors *)
Definition call (err : bool) (s : Scanning) : Scanning := mkScanning (note err (called (world s))) (tables s).
Definition count (err : bool) (s : Scanning) : Scanning := mkScanning (note err (world s)) (tables s).
Definition count_errors (n : Z) (s : Scanning) : Scanning :=
  let w := world s in mkScanning (mkWorld (dst w) (calls w) (bucketFetch w) (u32 (errs w + n)) (noted w + n)) (tables s).

Inductive scan_error : Type :=
| ErrZeroConcurrency
| ErrScanRootHAS (e : archive_file_error)
| ErrScanning (n : Z).

Section Scan.
Context {HT : HistoryTypes} {GS : GoSort} {LS : Listing} {DE : Decoders}.
Context (json_Decode : bytes -> HistoryArchiveState * bool) (passphrase : bytes) (checkpointManager : CheckpointManager).
Context (fault : nat -> option (option bytes)) (opts : CommandOptions).

(** ** Verifying the file of a checkpoint: each entry in a critical section *)
Fixpoint verify_steps {A} (step : Archive -> A -> result verify_file_error Archive) (es : entries A) : prog Scanning :=
  match es with
  | [] => Ret
  | Err _ :: _ => Step (count true) (fun _ => Ret)
  | Ok e :: es =>
      Step (fun s => match step (tables s) e with Err _ => count true s | Ok arch => with_tables s arch end)
           (fun s => match step (tables s) e with Err _ => Ret | Ok _ => verify_steps step es end)
  end.

Definition open_category (s : Scanning) (cat : bytes) (chk : Z) : result unit category_file :=
  match GetFile fault (dst (world s)) (world s) (CategoryCheckpointPath cat chk) with
  | None => Err tt
  | Some content => read_category (calls (world s)) cat content
  end.

(** [noteError(arch.VerifyCategoryCheckpoint(cat, chk))]. *)
Definition verify_checkpoint_file (cat : bytes) (chk : Z) : prog Scanning :=
  if bool_decide (cat = str "history") then Ret
  else Step (fun s => call (match open_category s cat chk with Err _ => true | Ok _ => false end) s) (fun s =>
    match open_category s cat chk with
    | Err _ => Ret
    | Ok (LedgerFile es) => verify_steps VerifyLedgerHeaderHistoryEntry es
    | Ok (TransactionsFile es) => verify_steps (VerifyTransactionHistoryEntry generalized_Marshal) es
    | Ok (ResultsFile es) => verify_steps VerifyTransactionHistoryResultEntry es
    | Ok OtherFile => Ret
    end).

(** ** Checkpoint files *)
Definition note_file (cat : bytes) (chk : Z) (present : bool) (rest : prog Scanning) : prog Scanning :=
  Step (fun s => with_tables s (default (tables s) (NoteCheckpointFile cat chk present (tables s)))) (fun s =>
    match NoteCheckpointFile cat chk present (tables s) with None => Panic | Some _ => rest end).

(** One request of a worker of [ScanCheckpointsSlow]. *)
Definition scan_slowly (req : bytes * Z) : prog Scanning :=
  let '(cat, chk) := req in
  Step (call false) (fun s =>
    match Exists_ fault (world s) (CategoryCheckpointPath cat chk) with
    | None => Panic
    | Some exists_ => note_file cat chk exists_ (if exists_ && Verify opts then verify_checkpoint_file cat chk else Ret)
    end).

(** [ListCategoryCheckpoints]: the checkpoints and the errors. *)
Definition ListCategoryCheckpoints (s : Scanning) (cat pth : bytes) : list Z * Z :=
  let '(names, errors) := ListFiles (calls (world s)) (dst (world s)) (path_Join [cat; pth]) in
  (omap (match_checkpoint cat) names, errors).

(** One request of a worker of [ScanCheckpointsFast]. *)
Definition scan_fast (r : Range) (req : bytes * bytes) : prog Scanning :=
  let '(cat, pth) := req in
  Step (call false) (fun s =>
    let '(ch, es) := ListCategoryCheckpoints s cat pth in
    seq_prog
      (for_each ch (fun n =>
         if (n <? Low r) || (High r <? n) then Ret
         else note_file cat n true (if Verify opts then verify_checkpoint_file cat n else Ret)))
      (Step (count_errors es) (fun _ => Ret))).

Definition scanned_categories : list bytes :=
  filter (fun cat => (SkipOptional opts && negb (categoryRequired cat)) = false) Categories.

Definition slow_requests (fuel : nat) (r : Range) : option (list (bytes * Z)) :=
  let! checkpoints := GenerateCheckpoints fuel r checkpointManager in
  Some (flat_map (fun cat => map (pair cat) checkpoints) scanned_categories).

Definition fast_requests (r : Range) : list (bytes * bytes) :=
  flat_map (fun cat => map (pair cat) (RangePaths r)) scanned_categories.

(** The counter of errors is new for each scan. *)
Definition start_scan (s : Scanning) : Scanning :=
  let w := world s in mkScanning (mkWorld (dst w) (calls w) ∅ 0 (noted w)) (tables s).

Definition scan_result (s : Scanning) : option scan_error :=
  if errs (world s) =? 0 then None else Some (ErrScanning (errs (world s))).

(** The workers, on requests that are the ones to send, up to their last one returning. *)
Inductive run_workers {A} (body : A -> prog Scanning) (requests : list A) (s : Scanning) : option scan_error -> Scanning -> Prop :=
| no_workers : Concurrency opts = 0 -> run_workers body requests s (Some ErrZeroConcurrency) s
| workers_run c : 0 < Concurrency opts ->
    rtc (pool_step body) (start_pool (Z.to_nat (Concurrency opts)) (start_scan s) requests) c -> finished c ->
    run_workers body requests s (scan_result (shared c)) (shared c).

Definition GetRootHAS_ (s : Scanning) : HistoryArchiveState * option archive_file_error :=
  GetRootHAS json_Decode fault (dst (world s)) passphrase (world s).

(** With the range that the options have then. *)
Inductive ScanCheckpoints (r : Range) (s : Scanning) : option scan_error -> Range -> Scanning -> Prop :=
| scan_no_root has e : GetRootHAS_ s = (has, Some e) -> ScanCheckpoints r s (Some (ErrScanRootHAS e)) r (call false s)
| scan_listing state r' err s' : GetRootHAS_ s = (state, None) -> clamp r (State_Range state) checkpointManager = Some r' ->
    CanListFiles = true -> run_workers (scan_fast r') (fast_requests r') (call false s) err s' ->
    ScanCheckpoints r s err r' s'
| scan_asking state r' err s' fuel requests : GetRootHAS_ s = (state, None) ->
    clamp r (State_Range state) checkpointManager = Some r' -> CanListFiles = false ->
    slow_requests fuel r' = Some requests -> run_workers scan_slowly requests (call false s) err s' ->
    ScanCheckpoints r s err r' s'.

(** ** Buckets *)

(** Whether it failed, and the state after it. *)
Definition ScanAllBuckets (s : Scanning) : bool * Scanning :=
  let '(names, errors) := ListFiles (calls (world s)) (dst (world s)) (str "bucket") in
  (negb (u32 errors =? 0), with_tables (call false s) (fold_left (fun a b => NoteExistingBucket b a) (omap match_bucket names) (tables s))).

(** What [noteError] of the verification counts. *)
Definition bucket_invalid (s : Scanning) (bucket : bytes) : bool :=
  let content := GetFile fault (dst (world s)) (world s) (BucketPath bucket) in
  let opened {A} (read : nat -> bytes -> result unit A) : result unit A :=
    match content with None => Err tt | Some content => read (calls (world s)) content end in
  match (if Thorough opts then VerifyBucketEntries bucket_entry_Marshal (fun _ => opened read_bucket_entries) bucket
         else VerifyBucketHash (fun _ => opened gunzip) bucket) with
  | None => false
  | Some _ => true
  end.

Definition verify_bucket (bucket : bytes) : prog Scanning :=
  Step (fun s => call (bucket_invalid s bucket) s) (fun s =>
    if bucket_invalid s bucket
    then Step (fun s => with_tables s (with_buckets (tables s) (allBuckets (tables s)) (referencedBuckets (tables s)) (invalidBuckets (tables s) + 1)))
              (fun _ => Ret)
    else Ret).

(** A bucket that is new is looked for, unless all are known. *)
Definition reference_bucket (doList : bool) (ix : Z) (bucket : bytes) : prog Scanning :=
  Step (fun s =>
      let '(arch, new) := NoteReferencedBucket bucket (tables s) in
      let w := world s in
      mkScanning (if new then mkWorld (dst w) (calls w) (<[bucket := ix]> (bucketFetch w)) (errs w) (noted w) else w) arch) (fun s =>
    if negb (NoteReferencedBucket bucket (tables s)).2 then Ret
    else if negb doList || Verify opts then
      Step (call false) (fun s =>
        match Exists_ fault (world s) (BucketPath bucket) with
        | None => Panic
        | Some false => Ret
        | Some true =>
            seq_prog (if doList then Ret else Step (fun s => with_tables s (NoteExistingBucket bucket (tables s))) (fun _ => Ret))
                     (if Verify opts then verify_bucket bucket else Ret)
        end)
    else Ret).

(** One request of a worker of [ScanBuckets]: the buckets of what could be read. *)
Definition scan_has (doList : bool) (ix : Z) : prog Scanning :=
  Step (fun s => call (match GetCheckpointHAS json_Decode fault (dst (world s)) passphrase (world s) ix with (_, Some _) => true | _ => false end) s)
       (fun s =>
    match Buckets (GetCheckpointHAS json_Decode fault (dst (world s)) passphrase (world s) ix).1 with
    | Err _ => Panic
    | Ok buckets => for_each buckets (reference_bucket doList ix)
    end).

(** Whether all buckets are listed first: when the range is all there is. *)
Definition do_list (r : Range) (s : Scanning) : option bool :=
  match GetRootHAS_ s with
  | (has, None) =>
      let! fullRange := MakeRange checkpointManager 0 (CurrentLedger has) in
      if CanListFiles then
        let! size := SizeInCheckPoints r checkpointManager in
        let! fullSize := SizeInCheckPoints fullRange checkpointManager in
        Some (size =? fullSize)
      else Some false
  | (_, Some _) => Some CanListFiles
  end.

(** The checkpoints whose archive state is there, in some order. *)
Definition present_histories (arch : Archive) : list Z :=
  map fst (filter (fun e => e.2 = true) (map_to_list (default ∅ (checkpointFiles arch !! str "history")))).

Definition list_buckets (doList : bool) (s : Scanning) : Scanning :=
  if doList then let '(failed, s') := ScanAllBuckets s in count failed s' else s.

Inductive ScanBuckets (r : Range) (s : Scanning) : option scan_error -> Scanning -> Prop :=
| buckets_no_workers : Concurrency opts = 0 -> ScanBuckets r s (Some ErrZeroConcurrency) s
| buckets_run doList seqs c :
    let s1 := call false (start_scan s) in
    0 < Concurrency opts -> do_list r (start_scan s) = Some doList ->
    seqs ≡ₚ present_histories (tables (list_buckets doList s1)) ->
    rtc (pool_step (scan_has doList)) (start_pool (Z.to_nat (Concurrency opts)) (list_buckets doList s1) seqs) c -> finished c ->
    ScanBuckets r s (scan_result (shared c)) (shared c).

(** ** Both *)
Inductive Scan (r : Range) (s : Scanning) : option scan_error -> Range -> Scanning -> Prop :=
| scan_stops e r' s' : ScanCheckpoints r s (Some e) r' s' -> Scan r s (Some e) r' s'
| scan_goes_on r' s1 err s' : ScanCheckpoints r s None r' s1 -> ScanBuckets r' s1 err s' -> Scan r s err r' s'.
End Scan.
