(* ===== verification/ScanSpec.v ===== *)
(** * What a scan of a history archive finds

    After a scan without an error the tables agree with the files: by rely and guarantee
    over the workers, first for the checkpoint files, then for the buckets. *)
From Stdlib Require Import ZArith Lia.
From stdpp Require Import base list sets gmap relations option list_relations.
From S2P Require Import Prelude GoStd GoExt Checkpoints ArchiveState ArchivePaths Concurrent Mirror MirrorSpec XdrStream ArchiveVerify ArchiveScan.
#[local] Open Scope Z_scope.
#[local] Open Scope go_scope.

(** ** Lists of requests *)
Lemma NoDup_pairs {A B} (l : list A) (m : list B) : NoDup l -> NoDup m -> NoDup (flat_map (fun x => map (pair x) m) l).
Proof.
  intros Hl Hm. induction Hl as [|x l Hx _ IH]; [constructor|]. cbn. apply NoDup_app. split_and!; [|intros [a b]|done].
  - apply NoDup_fmap_2_strong; [|done]. by intros ? ? _ _ [= ->].
  - intros (y & [= <- <-] & _)%list_elem_of_fmap Hin. apply Hx. apply list_elem_of_In, in_flat_map in Hin as (x' & Hx' & Hin).
    apply list_elem_of_In, list_elem_of_fmap in Hin as (y' & [= <- _] & _). by apply list_elem_of_In.
Qed.

Lemma elem_of_pairs {A B} (l : list A) (m : list B) x y : (x, y) ∈ flat_map (fun x => map (pair x) m) l <-> x ∈ l /\ y ∈ m.
Proof.
  rewrite list_elem_of_In, in_flat_map. split.
  - intros (x' & Hx' & Hin). apply list_elem_of_In, list_elem_of_fmap in Hin as (y' & [= -> ->] & Hy). by rewrite list_elem_of_In.
  - intros [Hx Hy]. exists x. split; [by apply list_elem_of_In|]. apply list_elem_of_In, list_elem_of_fmap. by exists y.
Qed.

Lemma GenerateCheckpoints_loop_det high freq : forall fuel fuel' i l l', GenerateCheckpoints_loop fuel i high freq = Some l ->
  GenerateCheckpoints_loop fuel' i high freq = Some l' -> l = l'.
Proof.
  induction fuel as [|fuel IH]; intros [|fuel'] i l l'; cbn; destruct (i <=? high); try congruence.
  destruct (GenerateCheckpoints_loop fuel _ _ _) as [m|] eqn:E; [|done].
  destruct (GenerateCheckpoints_loop fuel' _ _ _) as [m'|] eqn:E'; [|done]. cbn. intros [= <-] [= <-]. f_equal. by eapply IH.
Qed.

Lemma Categories_NoDup : NoDup Categories.
Proof. apply (bool_decide_eq_true_1 (NoDup _)). reflexivity. Qed.

Lemma category_nonempty cat : cat ∈ Categories -> cat <> [].
Proof. unfold Categories. intros Hc ->. repeat (apply elem_of_cons in Hc as [Hc|Hc]; [discriminate|]). by apply elem_of_nil in Hc. Qed.

(** ** Files and listings *)
Abbreviation has_file fs p := (is_Some ((fs : files) !! p)).

(** What is promised of a listing, whose names start with [pre]: they are of files, and
    without an error all the files of the directory are named. *)
Class ListingLaws {LS : Listing} (pre : bytes) : Prop := {
  list_errors n fs dir : 0 <= (ListFiles n fs dir).2 <= MaxUint32;
  list_names n fs dir name : name ∈ (ListFiles n fs dir).1 -> exists p, name = pre ++ p /\ has_file fs p;
  list_complete n fs dir p : (ListFiles n fs dir).2 = 0 -> has_file fs p -> under dir p -> pre ++ p ∈ (ListFiles n fs dir).1
}.

(** Files that look like those of a checkpoint or a bucket are in the right directory. *)
Definition well_placed (pre : bytes) (fs : files) : Prop := forall p, has_file fs p ->
  (forall cat n, cat ∈ Categories -> match_checkpoint cat (pre ++ p) = Some n -> p = CategoryCheckpointPath cat n) /\
  (forall b, match_bucket (pre ++ p) = Some b -> p = BucketPath b).

(** What is kept in the tables that verification does not use. *)
Definition same_notes (a a' : Archive) : Prop :=
  checkpointFiles a' = checkpointFiles a /\ allBuckets a' = allBuckets a /\ referencedBuckets a' = referencedBuckets a.

Section Spec.
Context {HT : HistoryTypes} {GS : GoSort} {LS : Listing} {DE : Decoders} (pre : bytes) {LL : ListingLaws pre}.
Context (json_Decode : bytes -> HistoryArchiveState * bool) (passphrase : bytes) (checkpointManager : CheckpointManager).
Context (fault : nat -> option (option bytes)) (opts : CommandOptions) (fs : files).

Lemma VerifyLedger_notes a e a' : VerifyLedgerHeaderHistoryEntry a e = Ok a' -> same_notes a a'.
Proof. unfold VerifyLedgerHeaderHistoryEntry. destruct (HashXdr _); [|done]. cbn. by destruct (negb _); [|intros [= <-]]. Qed.
Lemma VerifyTransaction_notes m a e a' : VerifyTransactionHistoryEntry m a e = Ok a' -> same_notes a a'.
Proof. unfold VerifyTransactionHistoryEntry. destruct (match Ext e with ExtV0 => _ | ExtV1 _ => _ | _ => _ end); [|done]. by intros [= <-]. Qed.
Lemma VerifyResult_notes a e a' : VerifyTransactionHistoryResultEntry a e = Ok a' -> same_notes a a'.
Proof. unfold VerifyTransactionHistoryResultEntry. destruct (HashXdr _); [|done]. by intros [= <-]. Qed.

(** ** Checkpoint files *)
Section Checkpoints.
(** The ledgers that can be noted; the count of errors at the start; the buckets noted. *)
Context (ledgers : Z -> Prop) (noted0 : Z) (all0 referenced0 : gmap bytes bool).

Record inv (s : Scanning) : Prop := {
  inv_files : dst (world s) = fs;
  inv_noted : noted0 <= noted (world s);
  inv_errs : errs (world s) = u32 (noted (world s) - noted0);
  inv_buckets : allBuckets (tables s) = all0 /\ referencedBuckets (tables s) = referenced0;
  inv_categories cat : cat ∈ Categories -> is_Some (checkpointFiles (tables s) !! cat);
  inv_right cat m n b : cat ∈ Categories -> checkpointFiles (tables s) !! cat = Some m -> m !! n = Some b ->
    ledgers n /\ (b = true <-> has_file fs (CategoryCheckpointPath cat n))
}.

Definition noted_key (cat : bytes) (n : Z) (s : Scanning) : Prop :=
  is_Some (default ∅ (checkpointFiles (tables s) !! cat) !! n).

Record goes_on (s s' : Scanning) : Prop := {
  go_noted : noted (world s) <= noted (world s');
  go_keys cat n : noted_key cat n s -> noted_key cat n s'
}.

#[export] Instance goes_on_preorder : PreOrder goes_on.
Proof. split; [by split|]. intros s1 s2 s3 [H1 H2] [G1 G2]. split; [lia|auto]. Qed.

#[local] Abbreviation wp_scan := (wp inv True goes_on goes_on).

Lemma noted_key_stable cat n : stable inv goes_on (noted_key cat n).
Proof. intros s s' [_ H] _. apply H. Qed.

(** A step that leaves the tables of checkpoint files and buckets. *)
Lemma quiet_ok s s' k : 0 <= k -> dst (world s') = dst (world s) -> noted (world s') = noted (world s) + k ->
  errs (world s') = u32 (errs (world s) + k) -> same_notes (tables s) (tables s') -> inv s -> inv s' /\ goes_on s s'.
Proof.
  intros Hk Hd Hn He (Hc & Ha & Hr) [H1 H2 H3 H4 H5 H6]. split; [split|split].
  - congruence.
  - lia.
  - rewrite He, H3, Hn. unfold u32. rewrite Zplus_mod_idemp_l. f_equal. lia.
  - rewrite Ha, Hr. exact H4.
  - rewrite Hc. exact H5.
  - rewrite Hc. exact H6.
  - lia.
  - unfold noted_key. by rewrite Hc.
Qed.

Lemma count_errors_ok k s : 0 <= k -> inv s -> inv (count_errors k s) /\ goes_on s (count_errors k s).
Proof. intros Hk. by apply (quiet_ok _ _ k). Qed.

Lemma errs_small s : inv s -> u32 (errs (world s) + 0) = errs (world s).
Proof. intros Hi. rewrite (inv_errs _ Hi). rewrite Z.add_0_r. apply u32_id, u32_range. Qed.

Lemma count_ok e s : inv s -> inv (count e s) /\ goes_on s (count e s).
Proof.
  intros Hi. apply (quiet_ok _ _ (if e then 1 else 0)); [by destruct e|by destruct e| | |done|done].
  - destruct e; cbn; lia.
  - destruct e; cbn; [done|]. by rewrite errs_small.
Qed.

Lemma call_ok e s : inv s -> inv (call e s) /\ goes_on s (call e s).
Proof.
  intros Hi. apply (quiet_ok _ _ (if e then 1 else 0)); [by destruct e|by destruct e| | |done|done].
  - destruct e; cbn; lia.
  - destruct e; cbn; [done|]. by rewrite errs_small.
Qed.

Lemma wp_done s (Q : Scanning -> Prop) : stable inv goes_on Q -> Q s -> wp_scan Ret s Q.
Proof. intros Hst HQ s' Hr Hi. by eapply Hst. Qed.

Lemma wp_verify_steps {A} (step : Archive -> A -> result verify_file_error Archive) es :
  (forall a e a', step a e = Ok a' -> same_notes a a') -> forall s, wp_scan (verify_steps step es) s (fun _ => True).
Proof.
  intros Hstep. induction es as [|[e|e] es IH]; intros s; [done| |]; intros s1 _ Hi; cbn.
  - destruct (step (tables s1) e) as [a|err] eqn:E; [|by destruct (count_ok true s1 Hi)].
    destruct (quiet_ok s1 (with_tables s1 a) 0) as [Hi' Hg]; [done|done|cbn; lia| |by eapply Hstep|done|split; [done|by split; [|apply IH]]].
    by rewrite errs_small.
  - by destruct (count_ok true s1 Hi).
Qed.

Lemma wp_verify cat chk s : wp_scan (verify_checkpoint_file fault cat chk) s (fun _ => True).
Proof.
  unfold verify_checkpoint_file. case_bool_decide; [done|]. intros s1 _ Hi. destruct (call_ok (match open_category fault s1 cat chk with Err _ => true | Ok _ => false end) s1 Hi) as [H1 H2].
  split; [done|]. split; [done|]. destruct (open_category fault s1 cat chk) as [[es|es|es|]|]; [..|done|done]; apply wp_verify_steps.
  - apply VerifyLedger_notes.
  - apply VerifyTransaction_notes.
  - apply VerifyResult_notes.
Qed.

Lemma wp_note_file cat n present rest s : cat ∈ Categories -> ledgers n ->
  (present = true <-> has_file fs (CategoryCheckpointPath cat n)) ->
  (forall s', wp_scan rest s' (fun _ => True)) -> wp_scan (note_file cat n present rest) s (noted_key cat n).
Proof.
  intros Hcat Hn Hp Hrest s1 _ Hi. destruct (inv_categories _ Hi cat Hcat) as [m Hm]. unfold NoteCheckpointFile. rewrite Hm. cbn [option_bind default].
  set (s2 := with_tables s1 _). assert (forall c k, noted_key c k s1 -> noted_key c k s2) as Hkeys.
  { intros c k. unfold noted_key, s2. cbn. destruct (decide (c = cat)) as [->|Hne].
    - rewrite Hm, lookup_insert_eq. cbn. intros Hk. destruct (decide (k = n)) as [->|Hk']; [by rewrite lookup_insert_eq|by rewrite lookup_insert_ne].
    - by rewrite lookup_insert_ne. }
  assert (noted_key cat n s2) as Hkey by (unfold noted_key, s2; cbn; rewrite lookup_insert_eq; cbn; by rewrite lookup_insert_eq).
  assert (inv s2) as Hi2.
  { destruct Hi as [H1 H2 H3 H4 H5 H6]. split; try done; cbn.
    - intros c Hc. destruct (decide (c = cat)) as [->|Hne]; [by rewrite lookup_insert_eq|rewrite lookup_insert_ne by done; auto].
    - intros c m' k b Hcc Hc Hk. destruct (decide (c = cat)) as [->|Hne].
      + rewrite lookup_insert_eq in Hc. injection Hc as <-. destruct (decide (k = n)) as [->|Hk'].
        * rewrite lookup_insert_eq in Hk. by injection Hk as <-.
        * rewrite lookup_insert_ne in Hk by done. exact (H6 _ _ _ _ Hcc Hm Hk).
      + rewrite lookup_insert_ne in Hc by done. exact (H6 _ _ _ _ Hcc Hc Hk). }
  split; [done|]. split; [split; [done|apply Hkeys]|].
  eapply wp_impl; [|apply (wp_keeps inv True goes_on goes_on rest (noted_key cat n)); [apply noted_key_stable|apply noted_key_stable|exact Hkey|apply Hrest]].
  by intros s' _ [H _].
Qed.

Lemma wp_scan_slowly cat chk s : cat ∈ Categories -> ledgers chk -> wp_scan (scan_slowly fault opts (cat, chk)) s (noted_key cat chk).
Proof.
  intros Hcat Hl s1 _ Hi. destruct (call_ok false s1 Hi) as [H1 H2]. split; [done|]. split; [done|].
  unfold Exists_. rewrite (inv_files _ Hi). destruct (fails fault (world s1)); [done|].
  apply wp_note_file; [done|done| |].
  - destruct (fs !! _); split; done || by intros [].
  - intros s'. destruct (_ && _); [apply wp_verify|done].
Qed.

(** What listing a directory leaves noted, if there is no error. *)
Definition directory_noted (r : Range) (cat pth : bytes) (s : Scanning) : Prop :=
  noted (world s) <= noted0 -> forall n, is_u32 n -> Low r <= n <= High r ->
    has_file fs (CategoryCheckpointPath cat n) -> under (path_Join [cat; pth]) (CategoryCheckpointPath cat n) -> noted_key cat n s.

Lemma directory_noted_stable r cat pth : stable inv goes_on (directory_noted r cat pth).
Proof. intros s s' [Hn Hk] _ H Hc n Hu Hr Hf Hun. apply Hk. apply H; [lia|done..]. Qed.

Lemma wp_scan_fast r cat pth s : well_placed pre fs -> cat ∈ Categories -> (forall n, Low r <= n <= High r -> ledgers n) -> inv s ->
  wp_scan (scan_fast fault opts r (cat, pth)) s (directory_noted r cat pth).
Proof.
  intros Hw Hcat Hl _ s1 _ Hi. destruct (call_ok false s1 Hi) as [H1 H2]. split; [done|]. split; [done|].
  unfold ListCategoryCheckpoints. rewrite (inv_files _ Hi).
  pose proof (list_errors (pre := pre) (calls (world s1)) fs (path_Join [cat; pth])) as He.
  pose proof (list_names (pre := pre) (calls (world s1)) fs (path_Join [cat; pth])) as Hnames.
  pose proof (list_complete (pre := pre) (calls (world s1)) fs (path_Join [cat; pth])) as Hall.
  destruct (ListFiles (calls (world s1)) fs (path_Join [cat; pth])) as [names errors]. cbn [fst snd] in He, Hnames, Hall.
  apply (wp_seq inv True goes_on goes_on); [done|].
  eapply wp_impl; [|apply (wp_for_each inv True goes_on goes_on _ _ (fun _ => True) (fun n s => Low r <= n <= High r -> noted_key cat n s))].
  - intros s2 Hi2 [_ Hk] s3 Hr3 Hi3. destruct (count_errors_ok errors s3) as [G1 G2]; [lia|done|]. split; [done|]. split; [done|].
    apply wp_done; [apply directory_noted_stable|]. intros Hc n Hu Hr Hf Hun. cbn in Hc. pose proof (inv_noted _ Hi3).
    apply (go_keys _ _ G2). apply (go_keys _ _ Hr3). apply Hk; [|done]. apply list_elem_of_omap. exists (pre ++ CategoryCheckpointPath cat n).
    split; [apply Hall; [lia|done..]|]. apply match_checkpoint_path; [by apply category_nonempty|done].
  - intros n _. split; intros s2 s3 [_ Hk] _ H Hr; apply Hk; auto.
  - done.
  - intros n s2 Hn Hi2 _. apply list_elem_of_omap in Hn as (name & Hname & Hmatch). apply Hnames in Hname as (p & -> & Hp).
    destruct (Z.ltb_spec n (Low r)); cbn [orb]; [apply wp_done; [|split; [done|lia]]; intros ? ? [_ Hk] _ [_ H']; split; auto|].
    destruct (Z.ltb_spec (High r) n); [apply wp_done; [|split; [done|lia]]; intros ? ? [_ Hk] _ [_ H']; split; auto|].
    eapply wp_impl; [|apply wp_note_file; [done|by apply Hl| |]].
    + intros s3 _ Hk. by split.
    + split; [|done]. intros _. destruct (Hw p Hp) as [Hw1 _]. by rewrite <- (Hw1 cat n Hcat Hmatch).
    + intros s'. destruct (Verify opts); [apply wp_verify|done].
  - done.
  - done.
Qed.
End Checkpoints.

(** A table that agrees with the files on the ledgers it has. *)
Definition right (ledgers : Z -> Prop) (a : Archive) : Prop :=
  (forall cat, cat ∈ Categories -> is_Some (checkpointFiles a !! cat)) /\
  forall cat m n b, cat ∈ Categories -> checkpointFiles a !! cat = Some m -> m !! n = Some b ->
    ledgers n /\ (b = true <-> has_file fs (CategoryCheckpointPath cat n)).

(** What a scan of checkpoint files leaves alone, whatever it finds. *)
Definition left_alone (s s' : Scanning) : Prop :=
  dst (world s') = fs /\ noted (world s) <= noted (world s') /\
  allBuckets (tables s') = allBuckets (tables s) /\ referencedBuckets (tables s') = referencedBuckets (tables s).

(** The workers of either scan. *)
Lemma run_workers_ok {A} ledgers (body : A -> prog Scanning) q (P : A -> Scanning -> Prop) s err s' : NoDup q ->
  let I := inv ledgers (noted (world s)) (allBuckets (tables s)) (referencedBuckets (tables s)) in
  dst (world s) = fs -> right ledgers (tables s) ->
  (forall x, stable I goes_on (P x)) ->
  (forall x s, x ∈ q -> I s -> wp I True goes_on goes_on (body x) s (P x)) ->
  run_workers opts body q s err s' ->
  left_alone s s' /\ (err = None -> noted (world s') < 4294967296 -> 0 <= noted (world s) ->
    I s' /\ noted (world s') = noted (world s) /\ forall x, x ∈ q -> P x s').
Proof.
  intros Hnd I Hd [Hc Hr] Hst Hwp Hrun. destruct Hrun as [|c Hpos Hsteps Hfin]; [by split|].
  assert (I (start_scan s)) as Hstart.
  { split; cbn; [done|lia|by rewrite Z.sub_diag|done|done|done]. }
  destruct (pool_correct body I True (fun _ => goes_on) (fun _ => goes_on) (fun _ _ => True) P
    (fun _ _ _ _ _ H => H) (fun _ _ _ _ _ H => H) Hst (Z.to_nat (Concurrency opts)) (start_scan s) q c Hnd
    (fun x s Hx Hs _ => Hwp x s Hx Hs) Hstart (fun _ _ => Logic.I) Hsteps Hfin) as [HI HP].
  split; [destruct HI as [I1 I2 I3 [I4 I5] I6 I7]; by split_and!|]. intros Hres Hn H0. split; [done|]. split; [|done]. unfold scan_result in Hres. rewrite (inv_errs _ _ _ _ _ HI) in Hres.
  pose proof (inv_noted _ _ _ _ _ HI). rewrite u32_id in Hres by (unfold is_u32; lia).
  destruct (Z.eqb_spec (noted (world (shared c)) - noted (world s)) 0); [lia|done].
Qed.

(** The ledgers that a scan of [r] asks for. *)
Definition asked (r : Range) (n : Z) : Prop :=
  if CanListFiles then Low r <= n <= High r
  else exists fuel l, GenerateCheckpoints fuel r checkpointManager = Some l /\ n ∈ l.

#[local] Abbreviation scan_checkpoints := (ScanCheckpoints json_Decode passphrase checkpointManager fault opts).
#[local] Abbreviation valid_frequency := (1 <= checkpointFreq checkpointManager <= MaxUint32).

Lemma asked_in_range r n : valid_frequency -> is_u32 (Low r) -> is_u32 (High r) -> asked r n -> Low r <= n <= High r.
Proof.
  intros Hf Hl Hh. unfold asked. destruct CanListFiles; [done|]. intros (fuel & l & Hgen & Hin).
  apply GenerateCheckpoints_loop_sorted in Hgen as [_ Hb]; [by apply Hb|done|done|]. unfold is_u32, is_u64 in *. lia.
Qed.

(** What a scan of checkpoint files leaves: the files and the buckets as they were, no
    error counted, and tables that agree with the files on all that was asked for. *)
Record checkpoints_scanned (r : Range) (s s' : Scanning) : Prop := {
  cs_files : dst (world s') = fs;
  cs_noted : noted (world s') = noted (world s);
  cs_buckets : allBuckets (tables s') = allBuckets (tables s) /\ referencedBuckets (tables s') = referencedBuckets (tables s);
  cs_right : right (asked r) (tables s');
  cs_range : is_u32 (Low r) /\ is_u32 (High r);
  cs_noted_keys cat n : cat ∈ scanned_categories opts -> asked r n -> has_file fs (CategoryCheckpointPath cat n) -> noted_key cat n s'
}.

Lemma scanned_category cat : cat ∈ scanned_categories opts -> cat ∈ Categories.
Proof. unfold scanned_categories. by intros [_ H]%list_elem_of_filter. Qed.

Lemma scanned_NoDup : NoDup (scanned_categories opts).
Proof. apply NoDup_filter, Categories_NoDup. Qed.

Lemma ScanCheckpoints_ok r s err r' s' : valid_frequency -> well_placed pre fs -> dst (world s) = fs -> 0 <= noted (world s) ->
  right (asked r') (tables s) -> scan_checkpoints r s err r' s' ->
  left_alone s s' /\ (err = None -> noted (world s') < 4294967296 -> checkpoints_scanned r' s s').
Proof.
  intros Hf Hw Hd H0 Hr Hrun. destruct Hrun as [|state r' err s' Hroot Hclamp Hlist Hworkers|state r' err s' fuel q Hroot Hclamp Hlist Hq Hworkers]; [by split| |].
  - apply MakeRange_u32 in Hclamp as Hu. destruct Hu as [Hul Huh].
    assert (asked r' = fun n => Low r' <= n <= High r') as Hasked by (unfold asked; by rewrite Hlist).
    assert (forall cat pth, (cat, pth) ∈ fast_requests opts r' -> cat ∈ Categories) as Hcats.
    { intros cat pth [Hc _]%elem_of_pairs. by apply scanned_category. }
    destruct (run_workers_ok (asked r') (scan_fast fault opts r') (fast_requests opts r')
      (fun x => directory_noted (noted (world s)) r' x.1 x.2) (call false s) err s') as [Hkept Hclean]; try done.
    + apply NoDup_pairs; [apply scanned_NoDup|]. apply RangePaths_NoDup.
    + intros x. apply directory_noted_stable.
    + intros [cat pth] s2 Hin Hi. apply wp_scan_fast; [done|by eapply Hcats|by rewrite Hasked|done].
    + split; [done|]. intros He Hn. destruct (Hclean He Hn H0) as (HI & Hn' & HP).
      cbn in Hn'. destruct HI as [I1 I2 I3 I4 I5 I6]. split; try done. intros cat n Hc Hn2 Hfile. rewrite Hasked in Hn2. cbn in Hn2.
      assert (is_u32 n) as Hnu by (unfold is_u32 in *; lia).
      destruct (RangePaths_facts r' n Hul Huh Hnu Hn2) as (Hdiff & Hin & _).
      apply scanned_category in Hc as Hcat. pose proof (category_nonempty cat Hcat) as Hne.
      apply (HP (cat, pathPrefix (CheckpointPrefix n) (first_difference 0 (CheckpointPrefix (Low r')) (CheckpointPrefix (High r'))))); [by apply elem_of_pairs|lia|done|done|done|by apply under_prefix].
  - apply MakeRange_u32 in Hclamp as Hu. destruct Hu as [Hul Huh].
    unfold slow_requests in Hq. destruct (GenerateCheckpoints fuel r' checkpointManager) as [l|] eqn:Hgen; [|done]. injection Hq as <-.
    assert (forall cat n, (cat, n) ∈ flat_map (fun cat => map (pair cat) l) (scanned_categories opts) -> cat ∈ Categories /\ asked r' n) as Hreq.
    { intros cat n [Hc Hin]%elem_of_pairs. split; [by apply scanned_category|]. unfold asked. rewrite Hlist. by exists fuel, l. }
    destruct (run_workers_ok (asked r') (scan_slowly fault opts) (flat_map (fun cat => map (pair cat) l) (scanned_categories opts))
      (fun x => noted_key x.1 x.2) (call false s) err s') as [Hkept Hclean]; try done.
    + apply NoDup_pairs; [apply scanned_NoDup|].
      apply GenerateCheckpoints_loop_sorted in Hgen as [Hnd _]; [done|done|done|]. unfold is_u32, is_u64 in *. lia.
    + intros x. apply noted_key_stable.
    + intros [cat n] s2 Hin Hi. destruct (Hreq _ _ Hin). by apply wp_scan_slowly.
    + split; [done|]. intros He Hn. destruct (Hclean He Hn H0) as (HI & Hn' & HP).
      destruct HI as [I1 I2 I3 I4 I5 I6]. split; try done. intros cat n Hc Hn2 _. apply (HP (cat, n)). apply elem_of_pairs. split; [done|].
      unfold asked in Hn2. rewrite Hlist in Hn2. destruct Hn2 as (fuel' & l' & Hgen' & Hin).
      by rewrite (GenerateCheckpoints_loop_det _ _ _ _ _ _ _ Hgen Hgen').
Qed.

(** ** Buckets *)
Section Buckets.
(** The checkpoints whose states are read, the count of errors and the table of checkpoint
    files at the start. *)
Context (doList : bool) (q : list Z) (noted0 : Z) (checkpoints0 : gmap bytes (gmap Z bool)).

#[local] Abbreviation state_of x := (ReadHAS json_Decode fs passphrase (CategoryCheckpointPath (str "history") x)).

(** The state of a checkpoint, as far as it can be read, refers to a bucket. *)
Definition refers (x : Z) (b : bytes) : Prop := exists l, Buckets (state_of x).1 = Ok l /\ b ∈ l.

Record binv (s : Scanning) : Prop := {
  b_files : dst (world s) = fs;
  b_noted : noted0 <= noted (world s);
  b_errs : errs (world s) = u32 (noted (world s) - noted0);
  b_checkpoints : checkpointFiles (tables s) = checkpoints0;
  b_all b v : allBuckets (tables s) !! b = Some v -> v = true /\ has_file fs (BucketPath b);
  b_claimed b : is_Some (referencedBuckets (tables s) !! b) <-> is_Some (bucketFetch (world s) !! b);
  b_claims b x : bucketFetch (world s) !! b = Some x -> x ∈ q /\ refers x b;
  b_listed b : doList = true -> noted (world s) <= noted0 -> length b = 32%nat -> has_file fs (BucketPath b) -> allBuckets (tables s) !! b = Some true
}.

Record bgo (s s' : Scanning) : Prop := {
  bgo_noted : noted (world s) <= noted (world s');
  bgo_claims b x : bucketFetch (world s) !! b = Some x -> bucketFetch (world s') !! b = Some x;
  bgo_all b : allBuckets (tables s) !! b = Some true -> allBuckets (tables s') !! b = Some true
}.
Definition bquiet (s s' : Scanning) : Prop := bgo s s' /\ bucketFetch (world s') = bucketFetch (world s).
Definition bguarantee (x : Z) (s s' : Scanning) : Prop :=
  bgo s s' /\ forall b y, bucketFetch (world s') !! b = Some y -> bucketFetch (world s) !! b = Some y \/ y = x.
Definition brely (x : Z) (s s' : Scanning) : Prop :=
  bgo s s' /\ forall b, bucketFetch (world s') !! b = Some x -> bucketFetch (world s) !! b = Some x.

Lemma bgo_trans s1 s2 s3 : bgo s1 s2 -> bgo s2 s3 -> bgo s1 s3.
Proof. intros [H1 H2 H3] [G1 G2 G3]. split; [lia|auto..]. Qed.

#[export] Instance brely_preorder x : PreOrder (brely x).
Proof. split; [intros s; by split|]. intros s1 s2 s3 [H1 H2] [G1 G2]. split; [by eapply bgo_trans|auto]. Qed.

Lemma bguarantee_rely x y s s' : x <> y -> bguarantee x s s' -> brely y s s'.
Proof. intros Hne [H1 H2]. split; [done|]. intros b Hb. by destruct (H2 _ _ Hb) as [|<-]. Qed.
Lemma bquiet_guarantee x s s' : bquiet s s' -> bguarantee x s s'.
Proof. intros [H E]. split; [done|]. rewrite E. by left. Qed.

#[local] Abbreviation wp_bucket x := (wp binv True (brely x) (bguarantee x)).
#[local] Abbreviation wp_quiet x := (wp binv True (brely x) bquiet).

(** A step that leaves the tables and the claims. *)
Lemma bquiet_ok s s' k : 0 <= k -> dst (world s') = dst (world s) -> bucketFetch (world s') = bucketFetch (world s) ->
  noted (world s') = noted (world s) + k -> errs (world s') = u32 (errs (world s) + k) ->
  same_notes (tables s) (tables s') -> binv s -> binv s' /\ bquiet s s'.
Proof.
  intros Hk Hd Hb Hn He (Hc & Ha & Hr) [H1 H2 H3 H4 H5 H6 H7 H8]. split; [split|split; [split|done]].
  - congruence.
  - lia.
  - rewrite He, H3, Hn. unfold u32. rewrite Zplus_mod_idemp_l. f_equal. lia.
  - congruence.
  - rewrite Ha. exact H5.
  - rewrite Hr, Hb. exact H6.
  - rewrite Hb. exact H7.
  - rewrite Ha. intros b Hdl Hcl. apply H8; [done|lia].
  - lia.
  - by rewrite Hb.
  - by rewrite Ha.
Qed.

Lemma berrs_small s : binv s -> u32 (errs (world s) + 0) = errs (world s).
Proof. intros Hi. rewrite (b_errs _ Hi), Z.add_0_r. apply u32_id, u32_range. Qed.

Lemma bcall_ok e s : binv s -> binv (call e s) /\ bquiet s (call e s).
Proof.
  intros Hi. apply (bquiet_ok _ _ (if e then 1 else 0)); [by destruct e|by destruct e|by destruct e| | |done|done].
  - destruct e; cbn; lia.
  - destruct e; cbn; [done|]. by rewrite berrs_small.
Qed.

Lemma wp_verify_bucket x b s : wp_quiet x (verify_bucket fault opts b) s (fun _ => True).
Proof.
  intros s1 _ Hi. destruct (bcall_ok (bucket_invalid fault opts s1 b) s1 Hi) as [H1 H2]. split; [done|]. split; [done|].
  destruct (bucket_invalid fault opts s1 b); [|done]. intros s2 _ Hi2.
  destruct (bquiet_ok s2 (with_tables s2 (with_buckets (tables s2) (allBuckets (tables s2)) (referencedBuckets (tables s2)) (invalidBuckets (tables s2) + 1))) 0)
    as [G1 G2]; [done|done|done|cbn; lia| |done|done|done]. by rewrite berrs_small.
Qed.

(** ** One bucket *)
Definition bucket_known (b : bytes) (s : Scanning) : Prop :=
  noted (world s) <= noted0 -> has_file fs (BucketPath b) -> allBuckets (tables s) !! b = Some true.

Lemma bucket_known_stable x b : stable binv (brely x) (bucket_known b).
Proof. intros s s' [[Hn _ Ha] _] _ H Hc Hf. apply Ha, H; [lia|done]. Qed.
Lemma bucket_known_kept b : kept binv bquiet (bucket_known b).
Proof. intros s s' [[Hn _ Ha] _] _ H Hc Hf. apply Ha, H; [lia|done]. Qed.

Lemma note_existing_ok s b : has_file fs (BucketPath b) -> binv s ->
  let s' := with_tables s (NoteExistingBucket b (tables s)) in binv s' /\ bquiet s s' /\ bucket_known b s'.
Proof.
  intros Hf [H1 H2 H3 H4 H5 H6 H7 H8] s'. split_and!; [split; try done; cbn|split; [split; cbn; [done|done|]|done]|].
  - intros b' v. destruct (decide (b' = b)) as [->|Hne]; [rewrite lookup_insert_eq; by intros [= <-]|rewrite lookup_insert_ne by done; apply H5].
  - intros b' Hd Hc Hl Hf'. destruct (decide (b' = b)) as [->|Hne]; [by rewrite lookup_insert_eq|rewrite lookup_insert_ne by done; auto].
  - intros b'. destruct (decide (b' = b)) as [->|Hne]; [by rewrite lookup_insert_eq|by rewrite lookup_insert_ne].
  - intros _ _. cbn. apply lookup_insert_eq.
Qed.

(** What follows when a bucket is new. *)
Lemma wp_look x b s : length b = 32%nat -> binv s ->
  wp_quiet x (if negb doList || Verify opts then
      Step (call false) (fun s =>
        match Exists_ fault (world s) (BucketPath b) with
        | None => Panic
        | Some false => Ret
        | Some true =>
            seq_prog (if doList then Ret else Step (fun s => with_tables s (NoteExistingBucket b (tables s))) (fun _ => Ret))
                     (if Verify opts then verify_bucket fault opts b else Ret)
        end)
    else Ret) s (bucket_known b).
Proof.
  intros Hl _. assert (forall s', doList = true -> binv s' -> bucket_known b s') as Hlist.
  { intros s' Hd Hi Hc Hf. by apply (b_listed _ Hi). }
  destruct (negb doList || Verify opts) eqn:Elook; cycle 1.
  { apply orb_false_iff in Elook as [Ed _]. intros s1 _ Hi. apply Hlist; [by destruct doList|done]. }
  intros s1 _ Hi. destruct (bcall_ok false s1 Hi) as [H1 H2]. split; [done|]. split; [done|].
  unfold Exists_. rewrite (b_files _ Hi). destruct (fails fault (world s1)); [done|].
  destruct (fs !! BucketPath b) as [content|] eqn:Ef; cycle 1.
  { intros s2 _ _ _ Hf. rewrite Ef in Hf. by destruct Hf. }
  apply (wp_seq binv True (brely x) bquiet); [done|].
  assert (forall s2, bucket_known b s2 -> wp_quiet x (if Verify opts then verify_bucket fault opts b else Ret) s2 (bucket_known b)) as Hverify.
  { intros s2 Hk. eapply wp_impl; [|apply (wp_keeps binv True (brely x) bquiet _ (bucket_known b)); [apply bucket_known_stable|apply bucket_known_kept|exact Hk|]].
    - by intros s' _ [H _].
    - instantiate (1 := fun _ => True). destruct (Verify opts); [apply wp_verify_bucket|done]. }
  destruct doList eqn:Ed.
  - intros s2 _ Hi2. apply Hverify. by apply Hlist.
  - intros s2 _ Hi2. destruct (note_existing_ok s2 b) as (G1 & G2 & G3); [by rewrite Ef|done|]. split; [done|]. split; [done|].
    intros s3 Hr3 Hi3. apply Hverify. by eapply bucket_known_stable.
Qed.

(** ** One archive state *)
Definition bucket_unclaimed (x : Z) (s : Scanning) : Prop := forall b, bucketFetch (world s) !! b <> Some x.
Definition claims_known (x : Z) (s : Scanning) : Prop := forall b, bucketFetch (world s) !! b = Some x -> bucket_known b s.
Definition claims_known_but (x : Z) (b : bytes) (s : Scanning) : Prop :=
  forall b', b' <> b -> bucketFetch (world s) !! b' = Some x -> bucket_known b' s.
Definition claimed (b : bytes) (s : Scanning) : Prop := is_Some (bucketFetch (world s) !! b).
Definition state_scanned (x : Z) (s : Scanning) : Prop :=
  noted (world s) <= noted0 -> exists has l, state_of x = (has, None) /\ Buckets has = Ok l /\ forall b, b ∈ l -> claimed b s.

Lemma unclaimed_stable_ x : stable binv (brely x) (bucket_unclaimed x).
Proof. intros s s' [_ H] _ Hu b Hb. by apply (Hu b), H. Qed.
Lemma claims_known_stable x : stable binv (brely x) (claims_known x).
Proof. intros s s' Hr Hi H b Hb. eapply bucket_known_stable; [exact Hr|done|]. apply H. by apply Hr. Qed.
Lemma claims_known_but_stable x b : stable binv (brely x) (claims_known_but x b).
Proof. intros s s' Hr Hi H b' Hne Hb. eapply bucket_known_stable; [exact Hr|done|]. apply H; [done|]. by apply Hr. Qed.
Lemma claims_known_but_kept x b : kept binv bquiet (claims_known_but x b).
Proof. intros s s' Hq Hi H b' Hne Hb. eapply bucket_known_kept; [exact Hq|done|]. apply H; [done|]. by rewrite <- (proj2 Hq). Qed.
Lemma claimed_bgo b s s' : bgo s s' -> claimed b s -> claimed b s'.
Proof. intros [_ H _] [x Hx]. exists x. auto. Qed.
Lemma state_scanned_stable x : stable binv (brely x) (state_scanned x).
Proof.
  intros s s' [Hg _] _ H Hc. destruct H as (has & l & H1 & H2 & H3); [pose proof (bgo_noted _ _ Hg); lia|].
  exists has, l. split_and!; [done|done|]. intros b Hb. eapply claimed_bgo; [done|auto].
Qed.

Lemma wp_reference_bucket x b s : x ∈ q -> refers x b -> length b = 32%nat -> binv s -> claims_known x s ->
  wp_bucket x (reference_bucket fault opts doList x b) s (fun s' => claims_known x s' /\ claimed b s').
Proof.
  intros Hx Href Hl Hi0 Hk0 s1 Hr1 Hi1. pose proof (claims_known_stable x _ _ Hr1 Hi1 Hk0) as Hk1. unfold NoteReferencedBucket.
  destruct (referencedBuckets (tables s1) !! b) as [v|] eqn:Eref.
  { assert (claimed b s1) as Hc by (apply (b_claimed _ Hi1); by rewrite Eref). destruct s1 as [w1 t1]. cbn [world tables snd negb].
    split; [done|]. split; [split; [by split|by left]|]. intros s2 Hr2 Hi2. split; [by eapply claims_known_stable|]. eapply claimed_bgo; [apply Hr2|done]. }
  cbn [snd negb]. set (s2 := mkScanning _ _).
  assert (bucketFetch (world s1) !! b = None) as Enone.
  { apply eq_None_not_Some. intros H. apply (b_claimed _ Hi1) in H. rewrite Eref in H. by destruct H. }
  assert (binv s2) as Hi2.
  { destruct Hi1 as [H1 H2 H3 H4 H5 H6 H7 H8]. split; try done; cbn.
    - intros b'. destruct (decide (b' = b)) as [->|Hne]; [rewrite !lookup_insert_eq; by split|by rewrite !lookup_insert_ne by done].
    - intros b' y. destruct (decide (b' = b)) as [->|Hne]; [rewrite lookup_insert_eq; by intros [= <-]|rewrite lookup_insert_ne by done; apply H7]. }
  assert (bguarantee x s1 s2) as Hg.
  { split; [split; cbn; [done| |done]|cbn].
    - intros b' y. destruct (decide (b' = b)) as [->|Hne]; [by rewrite Enone|by rewrite lookup_insert_ne].
    - intros b' y. destruct (decide (b' = b)) as [->|Hne]; [rewrite lookup_insert_eq; right; congruence|rewrite lookup_insert_ne by done; by left]. }
  assert (claims_known_but x b s2) as Hbut.
  { intros b' Hne Hb. cbn in Hb. rewrite lookup_insert_ne in Hb by done. intros Hc Hf. by apply (Hk1 b'). }
  assert (claimed b s2) as Hc2 by (unfold claimed; cbn; rewrite lookup_insert_eq; by eexists).
  split; [done|]. split; [done|]. apply (wp_guarantee binv True _ bquiet); [apply bquiet_guarantee|].
  eapply wp_impl; [|apply (wp_keeps binv True (brely x) bquiet _ (fun s => claims_known_but x b s /\ claimed b s)); [| |exact (conj Hbut Hc2)|by apply wp_look]].
  - intros s' _ [[H1 H2] H3]. split; [|done]. intros b' Hb'. destruct (decide (b' = b)) as [->|Hne]; [done|by apply H1].
  - intros s3 s4 Hr Hi [H1 H2]. split; [by eapply claims_known_but_stable|eapply claimed_bgo; [apply Hr|done]].
  - intros s3 s4 Hr Hi [H1 H2]. split; [by eapply claims_known_but_kept|eapply claimed_bgo; [apply Hr|done]].
Qed.

Lemma zero_state_buckets : Buckets zero_state = Ok [].
Proof. vm_compute. reflexivity. Qed.

Lemma Buckets_length has l b : Buckets has = Ok l -> b ∈ l -> length b = 32%nat.
Proof.
  assert (forall bss l, bucket_hashes_of bss = Ok l -> Forall (fun b => length b = 32%nat) l) as Hof.
  { induction bss as [|bs bss IH]; intros m; cbn; [by intros [= <-]|]. destruct (bool_decide (bs = [])); [apply IH|].
    unfold DecodeHash. destruct (hex_DecodeString bs) as [h|]; [|done]. cbn. destruct (Nat.eqb_spec (length h) 32) as [Hlen|]; cbn; [|done].
    destruct (bucket_hashes_of bss) as [rest|]; [|done]. cbn. intros [= <-]. destruct (IsZero h); [by apply IH|constructor; [done|by apply IH]]. }
  unfold Buckets, extractBucketHashes. destruct (bucket_hashes_of _) as [l1|] eqn:E1; [|done]. cbn. intros H Hb.
  apply Hof in E1. destruct (_ <=? _).
  - destruct (bucket_hashes_of (flat_map _ (HotArchiveBuckets has))) as [l2|] eqn:E2; [|done]. cbn in H. injection H as <-. apply Hof in E2.
    assert (Forall (fun b => length b = 32%nat) (l1 ++ l2)) as Hall by (by apply Forall_app). rewrite Forall_forall in Hall. by apply Hall.
  - injection H as <-. rewrite Forall_forall in E1. by apply E1.
Qed.

Lemma wp_scan_has x s : x ∈ q -> binv s -> bucket_unclaimed x s ->
  wp_bucket x (scan_has json_Decode passphrase fault opts doList x) s (fun s' => claims_known x s' /\ state_scanned x s').
Proof.
  intros Hx Hi Hu s1 Hr1 Hi1. pose proof (unclaimed_stable_ x _ _ Hr1 Hi1 Hu) as Hu1. rewrite (b_files _ Hi1).
  set (found := GetCheckpointHAS json_Decode fault fs passphrase (world s1) x). set (failed := match found with (_, Some _) => true | _ => false end).
  destruct (bcall_ok failed s1 Hi1) as [H1 H2]. split; [done|]. split; [by apply bquiet_guarantee|].
  destruct (Buckets found.1) as [l|] eqn:El; [|done].
  assert (forall b, b ∈ l -> refers x b) as Hrefers.
  { intros b Hb. exists l. split; [|done]. rewrite <- El. unfold found, GetCheckpointHAS, GetPathHAS. destruct (fails fault (world s1)) eqn:Ef; [|done].
    unfold found, GetCheckpointHAS, GetPathHAS in El. rewrite Ef in El. change (Buckets zero_state = Ok l) in El. rewrite zero_state_buckets in El. injection El as <-. by apply elem_of_nil in Hb. }
  assert (claims_known x (call failed s1)) as Hk by (intros b Hb; destruct (Hu1 b); by rewrite (proj2 H2) in Hb).
  eapply wp_impl; [|apply (wp_keeps binv True (brely x) (bguarantee x) _ (fun s' => failed = true -> noted0 < noted (world s'))); cycle 3;
    [apply (wp_for_each binv True (brely x) (bguarantee x) l _ (claims_known x) claimed)| | |]].
  - intros s2 _ [Hfail [Hk2 Hc2]]. split; [done|]. intros Hc. destruct failed eqn:Efail; [specialize (Hfail eq_refl); lia|].
    destruct found as [has [e|]] eqn:Efound; [done|]. exists has, l. split_and!; [|done|done].
    unfold found, GetCheckpointHAS, GetPathHAS in Efound. by destruct (fails fault (world s1)).
  - intros b _. split; intros s2 s3 [Hg _] _; by apply claimed_bgo.
  - apply claims_known_stable.
  - intros b s2 Hb Hi2 Hk2. apply wp_reference_bucket; [done|by apply Hrefers|by eapply Buckets_length|done..].
  - done.
  - done.
  - intros s2 s3 [[Hn _ _] _] _ H Hf. specialize (H Hf). lia.
  - intros s2 s3 [[Hn _ _] _] _ H Hf. specialize (H Hf). lia.
  - intros Hf. pose proof (b_noted _ Hi1). rewrite Hf. cbn. lia.
Qed.
End Buckets.

Lemma note_existing_fold l : forall a, let a' := fold_left (fun a b => NoteExistingBucket b a) l a in
  checkpointFiles a' = checkpointFiles a /\ referencedBuckets a' = referencedBuckets a /\
  forall b, allBuckets a' !! b = if bool_decide (b ∈ l) then Some true else allBuckets a !! b.
Proof.
  induction l as [|x l IH]; intros a; cbn [fold_left].
  - split_and!; [done|done|]. intros b. rewrite bool_decide_false; [done|apply not_elem_of_nil].
  - destruct (IH (NoteExistingBucket x a)) as (H1 & H2 & H3). split_and!; [done|done|]. intros b. rewrite H3.
    destruct (decide (b ∈ l)) as [Hin|Hin]; [by rewrite !bool_decide_true by (by try right)|].
    rewrite (bool_decide_false (b ∈ l)) by done. cbn. destruct (decide (b = x)) as [->|Hne].
    + rewrite lookup_insert_eq, bool_decide_true by (by left). done.
    + rewrite lookup_insert_ne by done. rewrite bool_decide_false; [done|]. by apply not_elem_of_cons.
Qed.

Lemma bucket_under b : length b = 32%nat -> under (str "bucket") (BucketPath b).
Proof. intros Hb. rewrite BucketPath_eq by done. unfold under, GetBucketPathForHash. eexists. reflexivity. Qed.

(** The state with which the workers on buckets start. *)
Lemma list_buckets_binv doList q s : well_placed pre fs -> dst (world s) = fs -> allBuckets (tables s) = ∅ -> referencedBuckets (tables s) = ∅ ->
  let s1 := list_buckets doList (call false (start_scan s)) in
  binv doList q (noted (world s)) (checkpointFiles (tables s)) s1 /\ forall x, bucket_unclaimed x s1.
Proof.
  intros Hw Hd Ha Hr s1.
  assert (binv false q (noted (world s)) (checkpointFiles (tables s)) (call false (start_scan s))) as H0.
  { split; cbn; [done|lia|by rewrite Z.sub_diag|done| | | |done].
    - intros b v. by rewrite Ha, lookup_empty.
    - intros b. by rewrite Hr, !lookup_empty.
    - intros b x. by rewrite lookup_empty. }
  unfold s1, list_buckets. destruct doList; [|split; [done|intros x b; cbn; by rewrite lookup_empty]].
  unfold ScanAllBuckets. cbn [world dst calls call start_scan note called tables].
  rewrite Hd. set (k := S (calls (world s))).
  pose proof (list_errors (pre := pre) k fs (str "bucket")) as He. pose proof (list_names (pre := pre) k fs (str "bucket")) as Hn.
  pose proof (list_complete (pre := pre) k fs (str "bucket")) as Hc. destruct (ListFiles k fs (str "bucket")) as [names errors].
  cbn [fst snd] in He, Hn, Hc. destruct (note_existing_fold (omap match_bucket names) (tables s)) as (F1 & F2 & F3).
  set (a := fold_left _ _ _) in *. rewrite (u32_id errors) by (unfold is_u32; lia).
  split; [|intros x b; cbn; by destruct (negb (errors =? 0)); cbn; rewrite lookup_empty].
  split; cbn [tables world with_tables count].
  - by destruct (negb (errors =? 0)).
  - destruct (negb (errors =? 0)); cbn; lia.
  - destruct (negb (errors =? 0)); cbn; [|by rewrite Z.sub_diag]. f_equal. lia.
  - done.
  - intros b v. rewrite F3. case_bool_decide as Hin; [|by rewrite Ha, lookup_empty]. intros [= <-]. split; [done|].
    apply list_elem_of_omap in Hin as (name & Hname & Hm). apply Hn in Hname as (p & -> & Hp). destruct (Hw p Hp) as [_ Hb]. by rewrite <- (Hb b Hm).
  - intros b. rewrite F2, Hr. destruct (negb (errors =? 0)); cbn; by rewrite !lookup_empty.
  - intros b x. destruct (negb (errors =? 0)); cbn; by rewrite lookup_empty.
  - intros b _ Hcl Hl Hf. rewrite F3, bool_decide_true; [done|]. apply list_elem_of_omap. exists (pre ++ BucketPath b).
    split; [|by apply match_bucket_path]. apply Hc; [|done|by apply bucket_under].
    destruct (Z.eqb_spec errors 0) as [|Hne]; [done|]. cbn in Hcl. lia.
Qed.

#[local] Abbreviation state_of x := (ReadHAS json_Decode fs passphrase (CategoryCheckpointPath (str "history") x)).

(** The checkpoints whose state was read, and what the tables then say of buckets. *)
Record buckets_scanned (s s' : Scanning) : Prop := {
  bs_files : dst (world s') = fs;
  bs_noted : noted (world s') = noted (world s);
  bs_checkpoints : checkpointFiles (tables s') = checkpointFiles (tables s);
  bs_read n : checkpoint_present (tables s) (str "history") n = true ->
    exists has l, state_of n = (has, None) /\ Buckets has = Ok l /\ forall b, b ∈ l -> is_Some (referencedBuckets (tables s') !! b);
  bs_referenced b : is_Some (referencedBuckets (tables s') !! b) ->
    (exists n has l, checkpoint_present (tables s) (str "history") n = true /\ state_of n = (has, None) /\ Buckets has = Ok l /\ b ∈ l) /\
    default false (allBuckets (tables s') !! b) = bool_decide (has_file fs (BucketPath b))
}.

Lemma present_histories_spec a n : n ∈ present_histories a <-> checkpoint_present a (str "history") n = true.
Proof.
  unfold present_histories, checkpoint_present. rewrite list_elem_of_fmap. split.
  - intros ([n' v] & -> & [Hv Hin]%list_elem_of_filter). apply elem_of_map_to_list in Hin. cbn in *. rewrite Hin. by subst v.
  - intros H. exists (n, true). split; [done|]. apply list_elem_of_filter. split; [done|]. apply elem_of_map_to_list.
    by destruct (default ∅ _ !! n) as [[|]|].
Qed.

Lemma present_histories_NoDup a : NoDup (present_histories a).
Proof.
  unfold present_histories. set (m := default ∅ _). clearbody m. pose proof (NoDup_fst_map_to_list m) as H.
  induction (map_to_list m) as [|[k v] l IH]; [constructor|]. cbn in H. apply NoDup_cons in H as [H1 H2]. rewrite filter_cons.
  destruct (decide _); [|by apply IH]. cbn. constructor; [|by apply IH]. intros Hin. apply H1.
  apply list_elem_of_fmap in Hin as (y & -> & [_ Hy]%list_elem_of_filter). apply list_elem_of_fmap. by exists y.
Qed.

Lemma ScanBuckets_ok r s err s' : well_placed pre fs -> dst (world s) = fs -> 0 <= noted (world s) ->
  allBuckets (tables s) = ∅ -> referencedBuckets (tables s) = ∅ ->
  ScanBuckets json_Decode passphrase checkpointManager fault opts r s err s' ->
  (dst (world s') = fs /\ noted (world s) <= noted (world s')) /\ (err = None -> noted (world s') < 4294967296 -> buckets_scanned s s').
Proof.
  intros Hw Hd H0 Ha Hr Hrun. destruct Hrun as [|doList seqs c s1 Hpos Hdo Hseqs Hsteps Hfin]; [by split|].
  destruct (list_buckets_binv doList seqs s Hw Hd Ha Hr) as [Hstart Hunc]. fold s1 in Hstart, Hunc.
  set (I := binv doList seqs (noted (world s)) (checkpointFiles (tables s))) in *.
  destruct (pool_correct (scan_has json_Decode passphrase fault opts doList) I True brely bguarantee bucket_unclaimed
    (fun x s' => claims_known (noted (world s)) x s' /\ state_scanned (noted (world s)) x s') bguarantee_rely
    (fun x => unclaimed_stable_ doList seqs _ _ x) (fun x s s' Hr Hi H => conj (claims_known_stable _ _ _ _ x s s' Hr Hi (proj1 H)) (state_scanned_stable _ _ _ _ x s s' Hr Hi (proj2 H)))
    (Z.to_nat (Concurrency opts)) (list_buckets doList s1) seqs c) as [HI HP]; [|intros; by apply wp_scan_has|done|intros; apply Hunc|done|done|].
  { rewrite Hseqs. apply present_histories_NoDup. }
  set (s' := shared c) in *.
  split; [by destruct HI|]. intros Hres Hn. assert (noted (world s') = noted (world s)) as Hclean.
  { unfold scan_result in Hres. rewrite (b_errs _ _ _ _ _ HI) in Hres. pose proof (b_noted _ _ _ _ _ HI).
    rewrite u32_id in Hres by (unfold is_u32; lia). destruct (Z.eqb_spec (noted (world s') - noted (world s)) 0); [lia|done]. }
  assert (forall n, n ∈ seqs <-> checkpoint_present (tables s) (str "history") n = true) as Hseq.
  { intros n. rewrite Hseqs, present_histories_spec. unfold checkpoint_present. by rewrite (b_checkpoints _ _ _ _ _ Hstart). }
  assert (forall b x, bucketFetch (world s') !! b = Some x -> x ∈ seqs /\ exists has l, state_of x = (has, None) /\ Buckets has = Ok l /\ b ∈ l) as Hclaim.
  { intros b x Hb. destruct (b_claims _ _ _ _ _ HI b x Hb) as [Hx (l & Hl & Hin)]. split; [done|]. destruct (HP x Hx) as [_ Hscan].
    destruct Hscan as (has & l' & E & El & _); [lia|]. rewrite E in Hl. by exists has, l. }
  split; [apply HI|done|apply HI| |].
  - intros n Hpn. apply Hseq in Hpn. destruct (HP n Hpn) as [_ Hscan]. destruct Hscan as (has & l & E & El & Hall); [lia|].
    exists has, l. split_and!; [done|done|]. intros b Hb. apply HI. by apply Hall.
  - intros b Hb. apply HI in Hb as [x Hx]. destruct (Hclaim b x Hx) as (Hin & has & l & E & El & Hbl). split.
    + exists x, has, l. split_and!; [by apply Hseq|done..].
    + case_bool_decide as Hf.
      * destruct (HP x Hin) as [Hk _]. by rewrite (Hk b Hx) by (lia || done).
      * destruct (allBuckets (tables s') !! b) as [v|] eqn:Ev; [|done]. by destruct (b_all _ _ _ _ _ HI b v Ev).
Qed.

(** ** The whole scan *)

(** Tables in which nothing is noted yet. *)
Definition cleared (a : Archive) : Prop :=
  (forall cat, cat ∈ Categories -> checkpointFiles a !! cat = Some ∅) /\ allBuckets a = ∅ /\ referencedBuckets a = ∅.

Lemma new_archive_cleared : cleared new_archive.
Proof.
  split; [|done]. intros cat Hc. unfold Categories in Hc. repeat (apply elem_of_cons in Hc as [->|Hc]; [reflexivity|]). by apply elem_of_nil in Hc.
Qed.

Lemma ClearCachedInfo_cleared a : cleared (ClearCachedInfo a).
Proof.
  split; [|done]. intros cat Hc. unfold ClearCachedInfo. cbn [checkpointFiles with_buckets with_checkpoints].
  induction Categories as [|c cats IH]; [by apply elem_of_nil in Hc|]. cbn. apply elem_of_cons in Hc as [->|Hc]; [apply lookup_insert_eq|].
  destruct (decide (cat = c)) as [->|Hne]; [apply lookup_insert_eq|]. rewrite lookup_insert_ne by done. by apply IH.
Qed.

Lemma cleared_right ledgers a : cleared a -> right ledgers a.
Proof.
  intros (H & _). split; [intros cat Hc; rewrite H by done; by eexists|]. intros cat m n b Hc Hm Hn. rewrite H in Hm by done. by injection Hm as <-.
Qed.

Lemma checkpoint_present_right r s s' cat n : checkpoints_scanned r s s' -> cat ∈ scanned_categories opts -> asked r n ->
  checkpoint_present (tables s') cat n = bool_decide (has_file fs (CategoryCheckpointPath cat n)).
Proof.
  intros H Hc Hn. unfold checkpoint_present. destruct (cs_right _ _ _ H) as [Hcat Hright]. apply scanned_category in Hc as Hc'.
  destruct (Hcat cat Hc') as [m Hm]. pose proof (cs_noted_keys _ _ _ H cat n Hc Hn) as Hkey. unfold noted_key in Hkey. rewrite Hm in *. cbn in *.
  case_bool_decide as Hf.
  - destruct (Hkey Hf) as [b Hb]. rewrite Hb. cbn. by apply (Hright cat m n b Hc' Hm Hb).
  - destruct (m !! n) as [b|] eqn:Hb; [|done]. destruct (Hright cat m n b Hc' Hm Hb) as [_ Hiff]. cbn. destruct b; [|reflexivity]. destruct (Hf (proj1 Hiff eq_refl)).
Qed.

Lemma present_asked r s s' n : checkpoints_scanned r s s' -> checkpoint_present (tables s') (str "history") n = true ->
  asked r n /\ has_file fs (CategoryCheckpointPath (str "history") n).
Proof.
  intros H Hp. assert (str "history" ∈ Categories) as Hc by (by left). destruct (cs_right _ _ _ H) as [Hcat Hright].
  destruct (Hcat _ Hc) as [m Hm]. unfold checkpoint_present in Hp. rewrite Hm in Hp. cbn in Hp. destruct (m !! n) as [b|] eqn:Hb; [|done].
  cbn in Hp. subst b. destruct (Hright _ m n true Hc Hm Hb) as [Ha Hf]. split; [done|]. by apply Hf.
Qed.

Lemma required_scanned cat : cat ∈ Categories -> categoryRequired cat = true -> cat ∈ scanned_categories opts.
Proof. intros Hc Hr. apply list_elem_of_filter. split; [|done]. rewrite Hr. apply andb_false_r. Qed.

Lemma filter_ext_in {A} (P Q : A -> Prop) `{!forall x, Decision (P x)} `{!forall x, Decision (Q x)} (l : list A) :
  (forall x, x ∈ l -> P x <-> Q x) -> filter P l = filter Q l.
Proof.
  induction l as [|x l IH]; intros Hpq; [done|]. rewrite !filter_cons. pose proof (Hpq x ltac:(by left)).
  rewrite IH by (intros y Hy; apply Hpq; by right). destruct (decide (P x)), (decide (Q x)); (done || tauto).
Qed.

Lemma missing_files_category fuel r a M cat m : CheckCheckpointFilesMissing fuel r checkpointManager a = Some M -> M !! cat = Some m -> cat ∈ Categories.
Proof.
  unfold CheckCheckpointFilesMissing. destruct (GenerateCheckpoints _ _ _); [|done]. cbn [option_bind]. set (ms := map _ Categories).
  intros E. assert (M = list_to_map ms) as -> by congruence. intros H. apply elem_of_list_to_map_2 in H. apply list_elem_of_fmap in H as (c & Ec & Hc). by injection Ec as -> _.
Qed.

Lemma missing_files_lookup fuel r l a M cat : GenerateCheckpoints fuel r checkpointManager = Some l -> cat ∈ Categories ->
  CheckCheckpointFilesMissing fuel r checkpointManager a = Some M -> M !! cat = Some (filter (fun ix => checkpoint_present a cat ix = false) l).
Proof.
  intros Hgen Hc. unfold CheckCheckpointFilesMissing. rewrite Hgen. cbn [option_bind]. set (m := map _ Categories).
  intros E. assert (M = list_to_map m) as -> by congruence. unfold m. apply elem_of_list_to_map_1.
  - rewrite <- list_fmap_compose. change (NoDup (map (fun cat => cat) Categories)). rewrite map_id. apply Categories_NoDup.
  - apply list_elem_of_fmap. by exists cat.
Qed.

Lemma CheckBucketsMissing_spec a b : is_Some (CheckBucketsMissing a !! b) <->
  is_Some (referencedBuckets a !! b) /\ default false (allBuckets a !! b) = false.
Proof.
  unfold CheckBucketsMissing. set (l := map _ _). assert (b ∈ l.*1 <-> is_Some (referencedBuckets a !! b) /\ default false (allBuckets a !! b) = false) as H.
  { unfold l. rewrite <- list_fmap_compose, list_elem_of_fmap. split.
    - intros ([b' v] & -> & [Hm Hin]%list_elem_of_filter). cbn in *. apply elem_of_map_to_list in Hin. rewrite Hin. split; [by eexists|].
      unfold bucket_missing in Hm. cbn in Hm. by destruct (default false _).
    - intros [[v Hv] Hd]. exists (b, v). split; [done|]. apply list_elem_of_filter. split; [|by apply elem_of_map_to_list].
      unfold bucket_missing. cbn. by rewrite Hd. }
  rewrite <- H. split.
  - intros [v Hv]. apply elem_of_list_to_map_2 in Hv. apply list_elem_of_fmap. by exists (b, v).
  - intros Hin. destruct (list_to_map l !! b) as [v|] eqn:E; [by eexists|]. by apply not_elem_of_list_to_map in E.
Qed.

(** A bucket that the archive state of a checkpoint in the range refers to. *)
Definition referred (r : Range) (b : bytes) : Prop :=
  exists n has l, asked r n /\ has_file fs (CategoryCheckpointPath (str "history") n) /\ state_of n = (has, None) /\ Buckets has = Ok l /\ b ∈ l.

Lemma tables_report r s s1 s' fuel l : valid_frequency -> checkpoints_scanned r s s1 -> buckets_scanned s1 s' ->
  GenerateCheckpoints fuel r checkpointManager = Some l ->
  exists missing report,
    CheckCheckpointFilesMissing fuel r checkpointManager (tables s') = Some missing /\
    ReportMissing fuel r checkpointManager (tables s') = Some report /\
    (forall cat, cat ∈ scanned_categories opts ->
      missing !! cat = Some (filter (fun n => ~ has_file fs (CategoryCheckpointPath cat n)) l)) /\
    (forall b, is_Some (CheckBucketsMissing (tables s') !! b) <-> referred r b /\ ~ has_file fs (BucketPath b)) /\
    (report = true <-> (exists cat n, cat ∈ Categories /\ categoryRequired cat = true /\ n ∈ l /\ ~ has_file fs (CategoryCheckpointPath cat n)) \/
                       (exists b, referred r b /\ ~ has_file fs (BucketPath b))).
Proof.
  intros Hf Hck Hbk Hgen. destruct (cs_range _ _ _ Hck) as [Hlo Hhi].
  assert (forall n, n ∈ l -> asked r n) as Hasked.
  { intros n Hn. unfold asked. destruct CanListFiles; [|by exists fuel, l].
    eapply GenerateCheckpoints_loop_sorted in Hgen as [_ Hb]; [by apply Hb|done|done|]. unfold is_u32, is_u64 in *. lia. }
  assert (forall cat n, cat ∈ scanned_categories opts -> n ∈ l ->
    checkpoint_present (tables s') cat n = bool_decide (has_file fs (CategoryCheckpointPath cat n))) as Hpresent.
  { intros cat n Hc Hn. rewrite <- (checkpoint_present_right _ _ _ _ _ Hck Hc (Hasked n Hn)). unfold checkpoint_present. by rewrite (bs_checkpoints _ _ Hbk). }
  assert (forall b, is_Some (CheckBucketsMissing (tables s') !! b) <-> referred r b /\ ~ has_file fs (BucketPath b)) as Hbuckets.
  { intros b. rewrite CheckBucketsMissing_spec. split.
    - intros [Hr Hd]. destruct (bs_referenced _ _ Hbk b Hr) as [(n & has & m & Hp & E & El & Hb) Hall]. rewrite Hall in Hd. split; [|by apply bool_decide_eq_false_1 in Hd].
      destruct (present_asked _ _ _ _ Hck Hp). by exists n, has, m.
    - intros [(n & has & m & Han & Hfile & E & El & Hb) Hno].
      assert (checkpoint_present (tables s1) (str "history") n = true) as Hp.
      { rewrite (checkpoint_present_right _ _ _ _ _ Hck) by (done || by apply required_scanned; [by left|]). by apply bool_decide_true. }
      destruct (bs_read _ _ Hbk n Hp) as (has' & m' & E' & El' & Hall). assert (m' = m) as -> by congruence. specialize (Hall b Hb). split; [done|].
      destruct (bs_referenced _ _ Hbk b Hall) as [_ ->]. by apply bool_decide_false. }
  assert (exists M, CheckCheckpointFilesMissing fuel r checkpointManager (tables s') = Some M) as [M HM].
  { unfold CheckCheckpointFilesMissing. rewrite Hgen. by eexists. }
  assert (forall cat, cat ∈ scanned_categories opts -> M !! cat = Some (filter (fun n => ~ has_file fs (CategoryCheckpointPath cat n)) l)) as Hmissing.
  { intros cat Hc. rewrite (missing_files_lookup _ _ _ _ _ cat Hgen (scanned_category cat Hc) HM). f_equal. apply filter_ext_in.
    intros n Hn. rewrite Hpresent by done. apply bool_decide_eq_false. }
  eexists M, _. split_and!; [done| |done|done|].
  - unfold ReportMissing. rewrite HM. reflexivity.
  - rewrite orb_true_iff. split; (intros [H|H]; [left|right]).
    + apply existsb_exists in H as ([cat m] & Hin & Hm). cbn [fst snd] in Hm. apply andb_true_iff in Hm as [Hreq Hm].
      apply list_elem_of_In, elem_of_map_to_list in Hin. pose proof (missing_files_category _ _ _ _ _ _ HM Hin) as Hcat.
      rewrite (Hmissing cat) in Hin by (by apply required_scanned). apply negb_true_iff, bool_decide_eq_false_1 in Hm.
      destruct m as [|n m]; [done|]. assert (n ∈ n :: m) as Hn by (by left). injection Hin as Hin. rewrite <- Hin in Hn.
      apply list_elem_of_filter in Hn as [Hno Hn]. by exists cat, n.
    + apply negb_true_iff, Z.eqb_neq in H. destruct (map_choose (CheckBucketsMissing (tables s'))) as (b & v & Hb).
      { intros E. apply H. rewrite E. done. }
      exists b. apply Hbuckets. by eexists.
    + destruct H as (cat & n & Hcat & Hreq & Hn & Hno). apply existsb_exists. eexists (cat, _). cbn [fst snd]. split.
      * apply list_elem_of_In, elem_of_map_to_list, Hmissing. by apply required_scanned.
      * rewrite Hreq. cbn [andb]. apply negb_true_iff, bool_decide_eq_false_2. intros E.
        assert (n ∈ filter (fun n => ~ has_file fs (CategoryCheckpointPath cat n)) l) as Hin by (by apply list_elem_of_filter).
        rewrite E in Hin. by apply elem_of_nil in Hin.
    + destruct H as [b Hb]. apply Hbuckets in Hb as [v Hv]. apply negb_true_iff, Z.eqb_neq. intros E.
      apply (f_equal Z.to_nat) in E. rewrite Nat2Z.id in E. apply map_size_empty_iff in E. by rewrite E, lookup_empty in Hv.
Qed.

(** C32: a scan that reports no error, of less than 2^32 that there can have been, finds
    what is missing, in whatever order its workers run and whichever storage calls fail:
    of each category that is not skipped, just the checkpoints of the range without a
    file; of the buckets that the archive states of the range refer to, all of which could
    be read, just those without a file; and [ReportMissing] says whether a required file
    or a bucket is missing. Listings keep their promise, and files that are named like
    those of a checkpoint or a bucket are where those should be. *)
Theorem scan_finds_missing r s r' s' fuel l : valid_frequency -> well_placed pre fs -> dst (world s) = fs -> 0 <= noted (world s) ->
  cleared (tables s) -> Scan json_Decode passphrase checkpointManager fault opts r s None r' s' -> noted (world s') < 4294967296 ->
  GenerateCheckpoints fuel r' checkpointManager = Some l ->
  exists missing report,
    CheckCheckpointFilesMissing fuel r' checkpointManager (tables s') = Some missing /\
    ReportMissing fuel r' checkpointManager (tables s') = Some report /\
    (forall cat, cat ∈ scanned_categories opts ->
      missing !! cat = Some (filter (fun n => ~ has_file fs (CategoryCheckpointPath cat n)) l)) /\
    (forall b, is_Some (CheckBucketsMissing (tables s') !! b) <-> referred r' b /\ ~ has_file fs (BucketPath b)) /\
    (report = true <-> (exists cat n, cat ∈ Categories /\ categoryRequired cat = true /\ n ∈ l /\ ~ has_file fs (CategoryCheckpointPath cat n)) \/
                       (exists b, referred r' b /\ ~ has_file fs (BucketPath b))).
Proof.
  intros Hf Hw Hd H0 Hcl Hscan Hn Hgen. inversion Hscan as [|? s1 ? ? Hck Hbk]. subst.
  apply ScanCheckpoints_ok in Hck as [(Hd1 & Hn1 & Ha1 & Hr1) Hck]; [|done|done|done|done|by apply cleared_right].
  destruct Hcl as (_ & Ha & Hr). rewrite Ha in Ha1. rewrite Hr in Hr1.
  apply ScanBuckets_ok in Hbk as [[_ Hn2] Hbk]; [|done|done|lia|done|done].
  apply (tables_report r' s s1); [done|apply Hck; [done|lia]|by apply Hbk|done].
Qed.

End Spec.

(** ** An archive with one checkpoint *)

(** Whether a path is in its place. *)
Definition placed (pre p : bytes) : bool :=
  forallb (fun cat => match match_checkpoint cat (pre ++ p) with Some n => bool_decide (p = CategoryCheckpointPath cat n) | None => true end) Categories &&
  match match_bucket (pre ++ p) with Some b => bool_decide (p = BucketPath b) | None => true end.

Lemma well_placed_check pre fs : forallb (fun e => placed pre e.1) (map_to_list fs) = true -> well_placed pre fs.
Proof.
  intros H p [content Hp]. apply elem_of_map_to_list, list_elem_of_In in Hp. rewrite forallb_forall in H. specialize (H _ Hp). cbn in H.
  apply andb_true_iff in H as [H1 H2]. split.
  - intros cat n Hc Hm. rewrite forallb_forall in H1. apply list_elem_of_In in Hc. specialize (H1 _ Hc). rewrite Hm in H1. by apply bool_decide_eq_true_1 in H1.
  - intros b Hm. rewrite Hm in H2. by apply bool_decide_eq_true_1 in H2.
Qed.

Lemma strip_Some p s rest : strip p s = Some rest <-> s = p ++ rest.
Proof.
  split; [|intros ->; apply strip_app]. revert s; induction p as [|x p IH]; intros s; cbn; [by intros [= ->]|].
  destruct s as [|y s]; [done|]. case_bool_decide as E; [subst y|done]. intros H. by rewrite <- (IH _ H).
Qed.

Module SampleScan.
Import Concrete.

(** A storage that lists the files of a directory. *)
#[export] Instance directory : Listing := {|
  CanListFiles := true;
  ListFiles _ fs dir := (filter (fun p => is_Some (strip (dir ++ slash) p)) (map_to_list fs).*1, 0)
|}.

#[export] Instance directory_laws : ListingLaws [].
Proof.
  split; cbn.
  - intros _ _ _. split; discriminate.
  - intros _ fs dir p [_ Hp]%list_elem_of_filter. exists p. split; [done|].
    apply list_elem_of_fmap in Hp as ([q c] & -> & Hq). apply elem_of_map_to_list in Hq. by eexists.
  - intros _ fs dir p _ [c Hc] [rest ->]. apply list_elem_of_filter. split.
    + exists rest. apply strip_Some. by rewrite app_assoc.
    + apply list_elem_of_fmap. eexists (_, c). split; [done|]. by apply elem_of_map_to_list.
Qed.

#[export] Instance no_types : HistoryTypes := {|
  LedgerHeader := unit; header_LedgerSeq _ := 0; PreviousLedgerHash _ := []; TxSetHash _ := []; TxSetResultHash _ := [];
  header_Marshal _ := None; Envelope := unit; envelope_Marshal _ := None; ResultSet := unit; results_Marshal _ := None
|}.
#[export] Instance no_decoders : Decoders := {|
  read_category _ _ _ := Err tt; gunzip _ _ := Err tt; BucketEntry := unit; bucket_entry_Marshal _ := None;
  read_bucket_entries _ _ := Err tt; generalized_Marshal _ := None
|}.

Definition bucket : bytes := replicate 32 Byte.x01.
Definition state : HistoryArchiveState := mkHAS 1 63 [] [mkLevel (Hash_String bucket) [] []] [].
Definition decode (content : bytes) : HistoryArchiveState * bool := (state, true).
Definition works (n : nat) : option (option bytes) := None.
Definition manager : CheckpointManager := NewCheckpointManager 64.
Definition opts : CommandOptions := mkOptions 1 (mkRange 0 63) false false false false false.
Definition range : Range := mkRange 63 63.

(** The archive states and the headers are there; transactions, results and the bucket
    are not. *)
Definition fs : files := list_to_map
  ((rootHASPath, str "state") :: map (fun cat => (CategoryCheckpointPath cat 63, cat)) [str "history"; str "ledger"]).

Definition start : Scanning := mkScanning (mkWorld fs 0 ∅ 0 0) new_archive.
Definition checkpoints_pool : pool (A := bytes * bytes) :=
  run_one (scan_fast works opts range) 60 (start_scan (call false start)) (fast_requests opts range) None Ret.
Definition with_checkpoints_ : Scanning := shared checkpoints_pool.
Definition buckets_pool : pool (A := Z) :=
  run_one (scan_has decode [] works opts true) 60 (list_buckets true (call false (start_scan with_checkpoints_))) [63] None Ret.
Definition scanned : Scanning := shared buckets_pool.

Lemma pool_done {A} (c : pool (S := Scanning) (A := A)) : forallb (fun w => match w.2 with Ret => true | _ => false end) (workers c) = true ->
  requests c = [] -> finished c.
Proof.
  intros Hw Hq. split; [done|]. apply Forall_forall. intros w Hin. apply list_elem_of_In in Hin. rewrite forallb_forall in Hw. specialize (Hw _ Hin).
  by destruct w.2.
Qed.

Lemma sample_scan : Scan decode [] manager works opts (mkRange 0 63) start None range scanned.
Proof.
  apply (scan_goes_on _ _ _ _ _ _ _ range with_checkpoints_ None scanned).
  - apply (scan_listing _ _ _ _ _ _ _ state); [vm_compute; reflexivity|vm_compute; reflexivity|reflexivity|].
    assert (scan_result with_checkpoints_ = None) as <- by (vm_compute; reflexivity). apply workers_run; [reflexivity|apply run_one_steps|].
    apply pool_done; vm_compute; reflexivity.
  - assert (scan_result scanned = None) as <- by (vm_compute; reflexivity). apply (buckets_run _ _ _ _ _ _ _ true [63]).
    + reflexivity.
    + vm_compute. reflexivity.
    + assert (present_histories (tables (list_buckets true (call false (start_scan with_checkpoints_)))) = [63]) as -> by (vm_compute; reflexivity). reflexivity.
    + apply run_one_steps.
    + apply pool_done; vm_compute; reflexivity.
Qed.

Lemma scan_finds_missing_witness : exists s', Scan decode [] manager works opts (mkRange 0 63) start None range s' /\
  exists missing report,
    CheckCheckpointFilesMissing 2 range manager (tables s') = Some missing /\
    ReportMissing 2 range manager (tables s') = Some report /\
    (forall cat, cat ∈ scanned_categories opts ->
      missing !! cat = Some (filter (fun n => ~ has_file fs (CategoryCheckpointPath cat n)) [63])) /\
    (forall b, is_Some (CheckBucketsMissing (tables s') !! b) <-> referred decode [] manager fs range b /\ ~ has_file fs (BucketPath b)) /\
    (report = true <-> (exists cat n, cat ∈ Categories /\ categoryRequired cat = true /\ n ∈ [63] /\ ~ has_file fs (CategoryCheckpointPath cat n)) \/
                       (exists b, referred decode [] manager fs range b /\ ~ has_file fs (BucketPath b))).
Proof.
  exists scanned. split; [exact sample_scan|].
  apply (scan_finds_missing [] decode [] manager works opts fs (mkRange 0 63) start range scanned 2 [63]).
  - split; vm_compute; discriminate.
  - apply well_placed_check. vm_compute. reflexivity.
  - reflexivity.
  - vm_compute. discriminate.
  - apply new_archive_cleared.
  - exact sample_scan.
  - vm_compute. reflexivity.
  - vm_compute. reflexivity.
Defined.

(** What it finds. *)
Example missing_there : ReportMissing 2 range manager (tables scanned) = Some true.
Proof. vm_compute. reflexivity. Qed.
Example missing_bucket : map_to_list (CheckBucketsMissing (tables scanned)) = [(bucket, true)].
Proof. vm_compute. reflexivity. Qed.
Example missing_transactions : checkpoint_present (tables scanned) (str "transactions") 63 = false /\ checkpoint_present (tables scanned) (str "ledger") 63 = true.
Proof. vm_compute. split; reflexivity. Qed.
End SampleScan.
