(* ===== verification/Repair.v ===== *)
(** * Repairing a history archive

    src/historyarchive/repair.go: what a scan finds missing in an archive is copied from
    another one. The workers of the scans are those of [ArchiveScan]; the copies are made
    one after the other. *)
From Stdlib Require Import ZArith Lia.
From stdpp Require Import base list sets gmap relations option.
From S2P Require Import Prelude GoStd GoExt Checkpoints ArchiveState ArchivePaths Concurrent Mirror MirrorSpec XdrStream ArchiveVerify ArchiveScan.
From S2P Require Import ScanSpec.
#[local] Open Scope Z_scope.
#[local] Open Scope go_scope.

Inductive repair_error : Type :=
| ErrRepairRootHAS (e : archive_file_error)
| ErrRepairExists
| ErrRepairing (n : Z).

(** After a scan, whose own count of errors is dropped: [errs += noteError(err)]. *)
Definition after_scan (before after : Scanning) (failed : bool) : Scanning :=
  let k := if failed then 1 else 0 in
  mkScanning (mkWorld (dst (world after)) (calls (world after)) ∅ (u32 (errs (world before) + k)) (noted (world after) + k)) (tables after).

Definition is_err {E} (e : option E) : bool := if e then true else false.

Section Repair.
Context {HT : HistoryTypes} {GS : GoSort} {LS : Listing} {DE : Decoders}.
Context (json_Decode : bytes -> HistoryArchiveState * bool) (passphrase : bytes) (checkpointManager : CheckpointManager).
Context (src : files) (fault : nat -> option (option bytes)) (opts : CommandOptions).

(** [errs += noteError(copyPath(src, dst, pth, opts))]. *)
Definition copy_counted (pth : bytes) (w : World) : World := default w (run_prog (copyPath src fault opts pth true) w).

Definition on_world (f : World -> World) (s : Scanning) : Scanning := mkScanning (f (world s)) (tables s).

(** The loops over the missing files: whether the source could be asked for each, the
    state, and whether there was an archive state among them. *)
Fixpoint repair_files (missing : list (bytes * Z)) (s : Scanning) (repairedHistory : bool) : bool * Scanning * bool :=
  match missing with
  | [] => (true, s, repairedHistory)
  | (cat, chk) :: missing =>
      if SkipOptional opts && negb (categoryRequired cat) then repair_files missing s repairedHistory
      else
        let pth := CategoryCheckpointPath cat chk in
        let s' := on_world called s in
        if fails fault (world s) then (false, s', repairedHistory)
        else if negb (categoryRequired cat) && negb (is_err (src !! pth)) then repair_files missing s' repairedHistory
        else repair_files missing (on_world (copy_counted pth) s') (repairedHistory || bool_decide (cat = str "history"))
  end.

Fixpoint repair_buckets (missing : list bytes) (s : Scanning) : Scanning :=
  match missing with
  | [] => s
  | bkt :: missing => repair_buckets missing (on_world (copy_counted (BucketPath bkt)) s)
  end.

(** The second scan, if an archive state was repaired. *)
Inductive rescan (r : Range) (s : Scanning) : bool -> Range -> Scanning -> Prop :=
| no_rescan : rescan r s false r s
| rescanned err r' s' :
    ScanCheckpoints json_Decode passphrase checkpointManager fault opts r (with_tables s (ClearCachedInfo (tables s))) err r' s' ->
    rescan r s true r' (after_scan s s' (is_err err)).

(** From the second scan on, if the source could be asked for every file. *)
Inductive repair_rest : bool -> bool -> Range -> Scanning -> option repair_error -> Range -> Scanning -> Prop :=
| repair_stops repairedHistory r s : repair_rest false repairedHistory r s (Some ErrRepairExists) r s
| repair_goes_on repairedHistory r s r' s3 err3 s4 buckets s5 :
    rescan r s repairedHistory r' s3 ->
    ScanBuckets json_Decode passphrase checkpointManager fault opts r' s3 err3 s4 ->
    buckets ≡ₚ map fst (map_to_list (CheckBucketsMissing (tables s4))) ->
    s5 = repair_buckets buckets (after_scan s3 s4 (is_err err3)) ->
    repair_rest true repairedHistory r s
      (if errs (world s5) =? 0 then None else Some (ErrRepairing (errs (world s5)))) r' s5.

(** From the range of the options, and to the one they have at the end. The missing files
    and buckets are gone through in any order of their maps. *)
Inductive Repair (r : Range) (s : Scanning) : option repair_error -> Range -> Scanning -> Prop :=
| repair_no_root has e :
    GetRootHAS_ json_Decode passphrase fault s = (has, Some e) -> Repair r s (Some (ErrRepairRootHAS e)) r (call false s)
| repair_run state r1 err1 r2 s1 fuel missing cats asked s2 repairedHistory err r' s' :
    GetRootHAS_ json_Decode passphrase fault s = (state, None) ->
    clamp r (State_Range state) checkpointManager = Some r1 ->
    let s0 := call false (start_scan s) in
    ScanCheckpoints json_Decode passphrase checkpointManager fault opts r1 s0 err1 r2 s1 ->
    CheckCheckpointFilesMissing fuel r2 checkpointManager (tables s1) = Some missing ->
    cats ≡ₚ map_to_list missing ->
    repair_files (flat_map (fun e => map (pair e.1) e.2) cats) (after_scan s0 s1 (is_err err1)) false = (asked, s2, repairedHistory) ->
    repair_rest asked repairedHistory r2 s2 err r' s' ->
    Repair r s err r' s'.
End Repair.

(** * What a repair comes to *)

(** Counters that only grow, so long as they do not wrap. *)
Definition counts_up (w w' : World) : Prop :=
  noted w <= noted w' /\ (0 <= errs w <= noted w -> noted w' < 4294967296 -> errs w <= errs w' <= noted w').

Lemma counts_up_refl w : counts_up w w.
Proof. split; lia. Qed.

Lemma counts_up_trans w1 w2 w3 : counts_up w1 w2 -> counts_up w2 w3 -> counts_up w1 w3.
Proof. intros [H1 H2] [G1 G2]. split; [lia|]. intros He Hn. specialize (H2 He ltac:(lia)). specialize (G2 ltac:(lia) Hn). lia. Qed.

(** Errors counted one at a time. *)
Lemma counts_up_plus w w' k : 0 <= k <= 1 -> noted w + k <= noted w' -> errs w' = u32 (errs w + k) -> counts_up w w'.
Proof. intros Hk Hn He. split; [lia|]. intros H0 Hlt. rewrite He, u32_id by (unfold is_u32; lia). lia. Qed.

Lemma after_scan_counts before after failed : noted (world before) <= noted (world after) ->
  counts_up (world before) (world (after_scan before after failed)).
Proof. intros H. apply (counts_up_plus _ _ (if failed then 1 else 0)); [destruct failed; lia|cbn; lia|done]. Qed.

(** A scan whose error is counted in a count that stays 0 had none. *)
Lemma after_scan_ok before after failed : noted (world before) <= noted (world after) -> 0 <= errs (world before) <= noted (world before) ->
  noted (world (after_scan before after failed)) < 4294967296 -> errs (world (after_scan before after failed)) = 0 -> failed = false.
Proof. intros Hn He Hlt. cbn in *. destruct failed; [|done]. rewrite u32_id by (unfold is_u32; lia). lia. Qed.

Section RepairSpec.
Context {HT : HistoryTypes} {GS : GoSort} {LS : Listing} {DE : Decoders} (pre : bytes) {LL : ListingLaws pre}.
Context (json_Decode : bytes -> HistoryArchiveState * bool) (passphrase : bytes) (checkpointManager : CheckpointManager).
Context (src : files) (fault : nat -> option (option bytes)) (opts : CommandOptions).

(** ** Copies *)

(** What copying to some paths does: nothing to the others, and no file that neither
    archive had. *)
Record copies (ps : list bytes) (w w' : World) : Prop := {
  cp_counts : counts_up w w';
  cp_other p : p ∉ ps -> dst w' !! p = dst w !! p;
  cp_new p : has_file (dst w') p -> has_file (dst w) p \/ has_file src p
}.

(** Without an error no file goes. *)
Definition errorless (w w' : World) : Prop := 0 <= errs w <= noted w /\ noted w' < 4294967296 /\ errs w' = 0.

Lemma note_counts e w : counts_up w (note e w) /\ (errorless w (note e w) -> e = false).
Proof.
  destruct e; cbn; [|split; [apply counts_up_refl|done]]. split; [by apply (counts_up_plus _ _ 1)|].
  intros (He & Hn & E). cbn in *. rewrite u32_id in E by (unfold is_u32; lia). lia.
Qed.

Lemma note_called_counts e w : counts_up w (note e (called w)) /\ (errorless w (note e (called w)) -> e = false).
Proof. exact (note_counts e (called w)). Qed.

Lemma note_dst e w : dst (note e w) = dst w.
Proof. by destruct e. Qed.

(** The first of two steps without an error has none. *)
Lemma errorless_first w1 w2 w3 : counts_up w1 w2 -> counts_up w2 w3 -> errorless w1 w3 -> errorless w1 w2 /\ errorless w2 w3.
Proof. intros [H1 H2] [G1 G2] (He & Hn & E). unfold errorless. specialize (H2 He ltac:(lia)). specialize (G2 ltac:(lia) Hn). lia. Qed.

(** The end of a copy: an upload of the source's file. *)
Lemma upload_copies p content w : src !! p = Some content ->
  let w' := note (fails fault w && true) (PutFile fault w p content) in
  copies [p] w w' /\ (errorless w w' -> has_file (dst w') p /\ forall p', has_file (dst w) p' -> has_file (dst w') p').
Proof.
  intros Hs w'. destruct (note_counts (fails fault w && true) (PutFile fault w p content)) as [Hc Hn]. fold w' in Hc, Hn.
  assert (dst w' = put fault w p content) as Ed by apply note_dst. split; [split|]; rewrite ?Ed.
  - exact Hc.
  - intros p' Hp. assert (p' <> p) by set_solver. unfold put. destruct (fault (calls w)) as [[l|]|]; by rewrite ?lookup_insert_ne.
  - intros p' Hp. destruct (decide (p' = p)) as [->|Hne]; [right; by eexists|]. left.
    unfold put in Hp. destruct (fault (calls w)) as [[l|]|]; by rewrite ?lookup_insert_ne in Hp.
  - intros Hel. specialize (Hn Hel). rewrite andb_true_r in Hn. unfold fails, put in *. destruct (fault (calls w)); [done|].
    split; [rewrite lookup_insert_eq; by eexists|]. intros p' Hp. destruct (decide (p' = p)) as [->|Hne]; [rewrite lookup_insert_eq; by eexists|by rewrite lookup_insert_ne].
Qed.

Lemma copies_same ps w w' w'' : copies ps w w'' -> dst w' = dst w -> counts_up w' w -> copies ps w' w''.
Proof. intros [H1 H2 H3] Hd Hc. split; [by eapply counts_up_trans|by rewrite Hd|by rewrite Hd]. Qed.

Lemma copies_none ps w w' : dst w' = dst w -> counts_up w w' -> copies ps w w'.
Proof. intros Hd Hc. split; [done|by rewrite Hd|rewrite Hd; by left]. Qed.

Lemma copy_counted_ok p w : copies [p] w (copy_counted src fault opts p w) /\
  (DryRun opts = false -> errorless w (copy_counted src fault opts p w) ->
   has_file (dst (copy_counted src fault opts p w)) p /\
   forall p', has_file (dst w) p' -> has_file (dst (copy_counted src fault opts p w)) p').
Proof.
  unfold copy_counted, copyPath. destruct (DryRun opts); [split; [apply copies_none; [done|apply counts_up_refl]|done]|]. cbn [run_prog].
  set (e1 := match Exists_ fault w p with Some _ => false | None => true end).
  destruct (note_called_counts e1 w) as [Hc1 Hn1]. assert (dst (note e1 (called w)) = dst w) as Hd1 by exact (note_dst e1 (called w)).
  unfold e1 in Hc1, Hn1, Hd1 |- *. destruct (Exists_ fault w p) as [present|] eqn:Ee; cycle 1.
  { cbn [run_prog default]. split; [by apply copies_none|]. intros _ Hel. by specialize (Hn1 Hel). }
  destruct (present && negb (Force opts)) eqn:Eskip.
  { cbn [run_prog default]. split; [by apply copies_none|]. intros _ _. change (has_file (dst w) p /\ forall p', has_file (dst w) p' -> has_file (dst w) p'). split; [|done]. apply andb_true_iff in Eskip as [-> _].
    unfold Exists_ in Ee. destruct (fails fault w); [done|]. by destruct (dst w !! p) eqn:Ed; [eexists|]. }
  cbn [run_prog]. set (w1 := note false (called w)) in *.
  destruct (GetFile fault src w1 p) as [content|] eqn:Eg; cycle 1.
  { cbn [run_prog default]. destruct (note_called_counts true w1) as [Hc2 Hn2].
    split; [apply copies_none; [done|exact (counts_up_trans _ w1 _ (counts_up_refl w) Hc2)]|].
    intros _ Hel. by specialize (Hn2 Hel). }
  cbn [run_prog default]. assert (src !! p = Some content) as Hs by (unfold GetFile in Eg; by destruct (fails fault w1)).
  destruct (upload_copies p content (note false (called w1)) Hs) as [Hcp Hok]. split; [apply (copies_same [p] (note false (called w1)) w); [done|done|exact (counts_up_refl w)]|].
  intros _ Hel. by apply Hok.
Qed.

(** ** The loops *)
Lemma copies_trans ps qs w1 w2 w3 : copies ps w1 w2 -> copies qs w2 w3 -> copies (ps ++ qs) w1 w3.
Proof.
  intros [H1 H2 H3] [G1 G2 G3]. split; [by eapply counts_up_trans| |].
  - intros p Hp. apply not_elem_of_app in Hp as [Hp Hq]. by rewrite G2, H2.
  - intros p Hp. destruct (G3 p Hp) as [H|H]; [by apply H3|by right].
Qed.

Lemma repair_buckets_ok missing : forall s, let s' := repair_buckets src fault opts missing s in
  copies (map BucketPath missing) (world s) (world s') /\ tables s' = tables s /\
  (DryRun opts = false -> errorless (world s) (world s') ->
   (forall b, b ∈ missing -> has_file (dst (world s')) (BucketPath b)) /\
   forall p, has_file (dst (world s)) p -> has_file (dst (world s')) p).
Proof.
  induction missing as [|b missing IH]; intros s; cbn [repair_buckets map].
  - split_and!; [apply copies_none; [done|apply counts_up_refl]|done|]. intros _ _. split; [by intros b ?%elem_of_nil|done].
  - destruct (copy_counted_ok (BucketPath b) (world s)) as [Hcp Hok]. destruct (IH (on_world (copy_counted src fault opts (BucketPath b)) s)) as (IH1 & IH2 & IH3).
    split_and!; [exact (copies_trans [BucketPath b] _ _ _ _ Hcp IH1)|done|]. intros Hdry Hel.
    destruct (errorless_first _ _ _ (cp_counts _ _ _ Hcp) (cp_counts _ _ _ IH1) Hel) as [He1 He2].
    destruct (Hok Hdry He1) as [Hb Hkeep]. destruct (IH3 Hdry He2) as [Hall Hkeep']. split; [|auto].
    intros b' [->|Hb']%elem_of_cons; [by apply Hkeep'|by apply Hall].
Qed.

Definition path_of (e : bytes * Z) : bytes := CategoryCheckpointPath e.1 e.2.
Definition not_skipped (e : bytes * Z) : Prop := (SkipOptional opts && negb (categoryRequired e.1)) = false.
#[local] Abbreviation paths_of missing := (map path_of (filter not_skipped missing)).

(** A missing file that a repair passes over. *)
Definition passed_over (cat : bytes) (p : bytes) : Prop := categoryRequired cat = false /\ (SkipOptional opts = true \/ ~ has_file src p).

Lemma repair_files_flag missing : forall s asked s' rep', repair_files src fault opts missing s true = (asked, s', rep') -> rep' = true.
Proof.
  induction missing as [|[cat chk] missing IH]; intros s asked s' rep'; cbn [repair_files]; [by intros [= _ _ <-]|].
  destruct (_ && _); [apply IH|]. destruct (fails _ _); [by intros [= _ _ <-]|]. destruct (_ && _); apply IH.
Qed.

Lemma paths_cons cat chk missing : paths_of ((cat, chk) :: missing) =
  if SkipOptional opts && negb (categoryRequired cat) then paths_of missing else CategoryCheckpointPath cat chk :: paths_of missing.
Proof.
  rewrite filter_cons. destruct (decide (not_skipped (cat, chk))) as [H|H]; unfold not_skipped in H; cbn [fst] in H; [by rewrite H|].
  by apply not_false_is_true in H as ->.
Qed.

Lemma repair_files_ok missing : forall s rep asked s' rep', repair_files src fault opts missing s rep = (asked, s', rep') ->
  copies (paths_of missing) (world s) (world s') /\ tables s' = tables s /\
  (asked = true -> DryRun opts = false -> errorless (world s) (world s') ->
   (forall e, e ∈ missing -> has_file (dst (world s')) (path_of e) \/ passed_over e.1 (path_of e)) /\
   (forall p, has_file (dst (world s)) p -> has_file (dst (world s')) p) /\
   (rep' = false -> forall n, (str "history", n) ∉ missing)).
Proof.
  induction missing as [|[cat chk] missing IH]; intros s rep asked s' rep' H; cbn [repair_files] in *.
  { injection H as <- <- <-. split_and!; [apply copies_none; [done|apply counts_up_refl]|done|]. intros _ _ _.
    split_and!; [by intros e ?%elem_of_nil|done|intros _ n; apply not_elem_of_nil]. }
  assert (forall w w' : World, copies (paths_of missing) w w' -> copies (CategoryCheckpointPath cat chk :: paths_of missing) w w') as Hmore.
  { intros w w' [H1 H2 H3]. split; [done| |done]. intros p Hp. apply H2. set_solver. }
  assert (categoryRequired cat = false -> forall n, (str "history", n) ∉ missing -> (str "history", n) ∉ (cat, chk) :: missing) as Hhist.
  { intros Hr n Hn [[= <- _]|]%elem_of_cons; [discriminate Hr|done]. }
  rewrite paths_cons. destruct (SkipOptional opts && negb (categoryRequired cat)) eqn:Eskip.
  { apply andb_true_iff in Eskip as [Eskip Ereq]. apply negb_true_iff in Ereq. apply IH in H as (H1 & H2 & H3).
    split_and!; [done|done|]. intros Ha Hd Hel. destruct (H3 Ha Hd Hel) as (F1 & F2 & F3). split_and!; [|done|auto].
    intros e [->|He]%elem_of_cons; [right; split; [done|by left]|by apply F1]. }
  destruct (fails fault (world s)) eqn:Efail.
  { injection H as <- <- <-. split_and!; [apply copies_none; [done|exact (counts_up_refl (world s))]|done|done]. }
  destruct (negb (categoryRequired cat) && negb (is_err (src !! CategoryCheckpointPath cat chk))) eqn:Eopt.
  { apply andb_true_iff in Eopt as [Ereq Esrc]. apply negb_true_iff in Ereq, Esrc. apply IH in H as (H1 & H2 & H3).
    split_and!; [apply Hmore; exact (copies_same _ _ (world s) _ H1 eq_refl (counts_up_refl _))|done|]. intros Ha Hd Hel. destruct (H3 Ha Hd Hel) as (F1 & F2 & F3). split_and!; [|done|auto].
    intros e [->|He]%elem_of_cons; [right; split; [done|right]|by apply F1]. unfold path_of. cbn [fst snd]. intros [c Hc]. by rewrite Hc in Esrc. }
  set (s1 := on_world _ (on_world called s)) in H. destruct (copy_counted_ok (CategoryCheckpointPath cat chk) (called (world s))) as [Hcp Hok].
  pose proof H as Hrun. apply IH in H as (H1 & H2 & H3). split_and!; [|by rewrite H2|].
  { apply (copies_same _ (called (world s))); [|done|exact (counts_up_refl (world s))]. exact (copies_trans [_] _ _ _ _ Hcp H1). }
  intros Ha Hd Hel. destruct (errorless_first (called (world s)) (world s1) (world s')) as [He1 He2]; [apply Hcp|apply H1|exact Hel|].
  destruct (Hok Hd He1) as [Hp Hkeep]. destruct (H3 Ha Hd He2) as (F1 & F2 & F3). split_and!; [|auto|].
  - intros e [->|He]%elem_of_cons; [left; by apply F2|by apply F1].
  - intros Hrep n [[= <- _]|Hn]%elem_of_cons; [|by apply (F3 Hrep n)].
    rewrite bool_decide_true, orb_true_r in Hrun by done. apply repair_files_flag in Hrun. congruence.
Qed.
(** ** Files that stay where they are *)
Lemma ReadHAS_same fs fs' p : fs !! p = fs' !! p -> ReadHAS json_Decode fs passphrase p = ReadHAS json_Decode fs' passphrase p.
Proof. intros E. unfold ReadHAS. by rewrite E. Qed.

Lemma well_placed_sub fs fs' : (forall p, has_file fs p -> has_file fs' p) -> well_placed pre fs' -> well_placed pre fs.
Proof. intros H Hw p Hp. by apply Hw, H. Qed.

Lemma copies_placed ps w w' : well_placed pre (dst w ∪ src) -> copies ps w w' -> well_placed pre (dst w').
Proof.
  intros Hw [_ _ H]. apply (well_placed_sub _ (dst w ∪ src)); [|done]. intros p Hp. apply lookup_union_is_Some. by apply H.
Qed.

Lemma category_path_differs cat cat' n m : cat ∈ Categories -> cat' ∈ Categories -> CategoryCheckpointPath cat n = CategoryCheckpointPath cat' m -> cat = cat'.
Proof.
  intros Hc Hc'. rewrite !CategoryCheckpointPath_eq by (by apply category_nonempty). unfold Categories in *.
  repeat (apply elem_of_cons in Hc as [->|Hc]; [repeat (apply elem_of_cons in Hc' as [->|Hc']; [by intros [=]|]); by apply elem_of_nil in Hc'|]).
  by apply elem_of_nil in Hc.
Qed.

Lemma category_path_not_bucket cat n b : cat ∈ Categories -> CategoryCheckpointPath cat n <> BucketPath b.
Proof.
  intros Hc. destruct (BucketPath_starts b) as [rest ->]. rewrite CategoryCheckpointPath_eq by (by apply category_nonempty). unfold Categories in Hc.
  repeat (apply elem_of_cons in Hc as [->|Hc]; [discriminate|]). by apply elem_of_nil in Hc.
Qed.

(** ** The second scan *)
#[local] Abbreviation asked_of r := (asked checkpointManager r).
#[local] Abbreviation valid_frequency := (1 <= checkpointFreq checkpointManager <= MaxUint32).

(** The archive states of the range that are there are known to be. *)
Definition histories_known (fs : files) (r : Range) (a : Archive) : Prop :=
  forall n, asked_of r n -> (checkpoint_present a (str "history") n = true <-> has_file fs (CategoryCheckpointPath (str "history") n)).

Lemma scanned_histories fs r s s' : checkpoints_scanned checkpointManager opts fs r s s' -> histories_known fs r (tables s').
Proof.
  intros H n Hn. rewrite (checkpoint_present_right _ _ _ _ _ _ _ _ H) by (done || by apply required_scanned; [by left|]).
  by rewrite bool_decide_eq_true.
Qed.

Definition root_state (fs : files) (state : HistoryArchiveState) : Prop := ReadHAS json_Decode fs passphrase rootHASPath = (state, None).

Lemma ScanCheckpoints_range r s r' s' state : ScanCheckpoints json_Decode passphrase checkpointManager fault opts r s None r' s' ->
  root_state (dst (world s)) state -> clamp r (State_Range state) checkpointManager = Some r'.
Proof.
  intros H Hs. assert (forall state', GetRootHAS_ json_Decode passphrase fault s = (state', None) -> state' = state) as Hroot.
  { intros state'. unfold GetRootHAS_, GetRootHAS, GetPathHAS. rewrite Hs. destruct (fails fault (world s)); congruence. }
  inversion H as [|? ? ? ? E Hc|? ? ? ? ? ? E Hc]; subst; by rewrite <- (Hroot _ E).
Qed.

Lemma rescan_ok r s rep r' s3 : valid_frequency -> well_placed pre (dst (world s)) -> 0 <= noted (world s) ->
  allBuckets (tables s) = ∅ -> referencedBuckets (tables s) = ∅ ->
  rescan json_Decode passphrase checkpointManager fault opts r s rep r' s3 ->
  counts_up (world s) (world s3) /\ dst (world s3) = dst (world s) /\ allBuckets (tables s3) = ∅ /\ referencedBuckets (tables s3) = ∅ /\
  (errorless (world s) (world s3) ->
   ((rep = false -> histories_known (dst (world s)) r (tables s)) -> histories_known (dst (world s)) r' (tables s3)) /\
   (r' = r \/ forall state, root_state (dst (world s)) state -> clamp r (State_Range state) checkpointManager = Some r')).
Proof.
  intros Hf Hw H0 Ha Hr Hre. destruct Hre as [|err r' s' Hscan].
  { split_and!; [apply counts_up_refl|done|done|done|]. auto. }
  pose proof Hscan as Hrange. apply (ScanCheckpoints_ok pre _ _ _ _ _ (dst (world s))) in Hscan as [(Hd & Hn & Ha' & Hr') Hck]; [|done|done|done|done|apply cleared_right, ClearCachedInfo_cleared].
  cbn in Hn, Ha', Hr'. split_and!; [by apply after_scan_counts|done|done|done|]. intros (He & Hlt & E).
  apply after_scan_ok in E as Eerr; [|done|done|done]. destruct err; [done|]. split; [|right; intros state; by apply (ScanCheckpoints_range _ _ _ _ _ Hrange)].
  intros _. change (histories_known (dst (world s)) r' (tables s')). apply (scanned_histories _ _ (with_tables s (ClearCachedInfo (tables s)))), Hck; [done|]. cbn in Hlt. lia.
Qed.

(** ** The last part: buckets *)
Lemma repair_rest_ok asked_ rep r s r' s' : valid_frequency -> well_placed pre (dst (world s)) -> 0 <= noted (world s) -> DryRun opts = false ->
  allBuckets (tables s) = ∅ -> referencedBuckets (tables s) = ∅ ->
  repair_rest json_Decode passphrase checkpointManager src fault opts asked_ rep r s None r' s' ->
  counts_up (world s) (world s') /\ asked_ = true /\ errs (world s') = 0 /\
  (errorless (world s) (world s') -> (rep = false -> histories_known (dst (world s)) r (tables s)) ->
   (r' = r \/ forall state, root_state (dst (world s)) state -> clamp r (State_Range state) checkpointManager = Some r') /\
   (forall p c, dst (world s) !! p = Some c -> dst (world s') !! p = Some c) /\
   forall b, referred json_Decode passphrase checkpointManager (dst (world s')) r' b -> has_file (dst (world s')) (BucketPath b)).
Proof.
  intros Hf Hw H0 Hdry Ha Hr Hrest. remember None as err eqn:Eerr.
  destruct Hrest as [|rep r s r' s3 err3 s4 buckets s5 Hre Hbk Hperm E5]; [done|].
  destruct (rescan_ok _ _ _ _ _ Hf Hw H0 Ha Hr Hre) as (Hup3 & Hd3 & Ha3 & Hr3 & Hhist).
  apply (ScanBuckets_ok pre _ _ _ _ _ (dst (world s))) in Hbk as [[Hd4 Hn4] Hbk]; [|done|done|destruct Hup3; lia|done|done].
  set (a4 := after_scan s3 s4 (is_err err3)) in *. destruct (repair_buckets_ok buckets a4) as (Hcp & _ & Hall). rewrite <- E5 in Hcp, Hall.
  pose proof (after_scan_counts s3 s4 (is_err err3) Hn4) as Hup4. fold a4 in Hup4.
  assert (counts_up (world s3) (world s5)) as Hup35 by (eapply counts_up_trans; [exact Hup4|apply Hcp]).
  destruct (Z.eqb_spec (errs (world s5)) 0) as [Ee|]; [|done].
  split; [by eapply counts_up_trans|]. split; [done|]. split; [done|]. intros Hel Hknown.
  destruct (errorless_first _ _ _ Hup3 Hup35 Hel) as [He3 He35]. destruct (errorless_first _ _ _ Hup4 (cp_counts _ _ _ Hcp) He35) as [He4 He5].
  assert (err3 = None) as ->.
  { destruct He4 as (? & ? & E). apply after_scan_ok in E as E'; [|done|done|done]. by destruct err3. }
  destruct (Hhist He3) as [Hh Hrange]. specialize (Hh Hknown). clear Hhist. rename Hh into Hhist. destruct He5 as (Hb5 & Hlt5 & Ee5). cbn in Hb5. pose proof (proj1 (cp_counts _ _ _ Hcp)) as Hle5.
  destruct Hbk as [_ _ B3 B4 B5]; [done|cbn in Hle5; lia|].
  destruct (Hall Hdry) as [Hfetched Hkept]; [done|]. cbn [dst world a4 after_scan] in *.
  assert (forall b, b ∈ buckets <-> is_Some (CheckBucketsMissing (tables s4) !! b)) as Hin.
  { intros b. rewrite Hperm. rewrite list_elem_of_fmap. split.
    - intros ([b' v] & -> & Hb). apply elem_of_map_to_list in Hb. by eexists.
    - intros [v Hv]. exists (b, v). split; [done|]. by apply elem_of_map_to_list. }
  split; [done|]. split.
  - intros p c Hp. rewrite (cp_other _ _ _ Hcp); [by rewrite <- Hp, <- Hd4|]. intros (b & -> & Hb)%list_elem_of_fmap.
    apply Hin, CheckBucketsMissing_spec in Hb as [Hb1 Hb2]. destruct (B5 b Hb1) as [_ E]. rewrite E in Hb2.
    apply bool_decide_eq_false_1 in Hb2. apply Hb2. rewrite Hp. by eexists.
  - intros b (n & has & l & Han & Hfile & Eh & El & Hbl).
    assert (dst (world s5) !! CategoryCheckpointPath (str "history") n = dst (world s) !! CategoryCheckpointPath (str "history") n) as Esame.
    { rewrite (cp_other _ _ _ Hcp); [by rewrite <- Hd4|]. intros (b' & E & _)%list_elem_of_fmap. by apply (category_path_not_bucket (str "history") n b'); [left|]. }
    rewrite Esame in Hfile. apply (Hhist n Han) in Hfile. destruct (B4 n Hfile) as (has' & l' & E1 & E2 & E3).
    rewrite (ReadHAS_same _ _ _ Esame), E1 in Eh. injection Eh as ->. rewrite E2 in El. injection El as ->. specialize (E3 b Hbl).
    destruct (B5 b E3) as [_ E]. case_bool_decide as Hb; [apply Hkept; by rewrite Hd4|]. apply Hfetched, Hin, CheckBucketsMissing_spec. by split.
Qed.

(** ** The missing files *)
Lemma missing_element fuel r a missing (cats : list (bytes * list Z)) l cat n : CheckCheckpointFilesMissing fuel r checkpointManager a = Some missing ->
  GenerateCheckpoints fuel r checkpointManager = Some l -> cats ≡ₚ map_to_list missing ->
  (cat, n) ∈ flat_map (fun e => map (pair e.1) e.2) cats <-> cat ∈ Categories /\ n ∈ l /\ checkpoint_present a cat n = false.
Proof.
  intros Hm Hgen Hp. rewrite list_elem_of_In, in_flat_map. split.
  - intros ([c ns] & Hc & Hn). apply list_elem_of_In, list_elem_of_fmap in Hn as (k & [= -> ->] & Hk). cbn [fst snd] in *.
    apply list_elem_of_In in Hc. rewrite Hp in Hc. apply elem_of_map_to_list in Hc. pose proof (missing_files_category _ _ _ _ _ _ _ Hm Hc) as Hcat.
    rewrite (missing_files_lookup _ _ _ _ _ _ _ Hgen Hcat Hm) in Hc. injection Hc as <-. by apply list_elem_of_filter in Hk as [H1 H2].
  - intros (Hcat & Hn & Hno). pose proof (missing_files_lookup _ _ _ _ _ _ _ Hgen Hcat Hm) as Hc. eexists (cat, _). split.
    + apply list_elem_of_In. rewrite Hp. by apply elem_of_map_to_list.
    + apply list_elem_of_In, list_elem_of_fmap. exists n. split; [done|]. by apply list_elem_of_filter.
Qed.

(** The files that a scan found missing are missing, but for those of skipped categories,
    and none of the others is. *)
Lemma scanned_missing fuel r fs s s1 missing cats l : valid_frequency -> checkpoints_scanned checkpointManager opts fs r s s1 ->
  CheckCheckpointFilesMissing fuel r checkpointManager (tables s1) = Some missing -> GenerateCheckpoints fuel r checkpointManager = Some l ->
  cats ≡ₚ map_to_list missing -> let todo := flat_map (fun e => map (pair e.1) e.2) cats in
  (forall cat n, cat ∈ Categories -> n ∈ l -> (cat, n) ∉ todo -> has_file fs (CategoryCheckpointPath cat n) \/ passed_over cat (CategoryCheckpointPath cat n)) /\
  forall p, p ∈ paths_of todo -> exists cat n, p = CategoryCheckpointPath cat n /\ cat ∈ Categories /\ fs !! p = None /\ (cat, n) ∈ todo.
Proof.
  intros Hf Hscanned Hmissing Hgen Hcats todo.
  pose proof (fun cat n => missing_element fuel r (tables s1) missing cats l cat n Hmissing Hgen Hcats) as Helem. fold todo in Helem.
  destruct (cs_range _ _ _ _ _ _ Hscanned) as [Hlo Hhi].
  assert (forall cat n, cat ∈ Categories -> not_skipped (cat, n) -> n ∈ l ->
    checkpoint_present (tables s1) cat n = bool_decide (has_file fs (CategoryCheckpointPath cat n))) as Hpresent.
  { intros cat n Hc Hns Hn. apply (checkpoint_present_right _ _ _ _ _ _ _ _ Hscanned); [by apply list_elem_of_filter|].
    unfold asked. destruct CanListFiles; [|by exists fuel, l].
    eapply GenerateCheckpoints_loop_sorted in Hgen as [_ Hb]; [by apply Hb|done|done|]. unfold is_u32, is_u64 in *. lia. }
  split.
  - intros cat n Hcat Hn Hin. destruct (decide (not_skipped (cat, n))) as [Hns|Hns].
    + left. pose proof (Hpresent cat n Hcat Hns Hn) as Hp. case_bool_decide as Hb; [done|]. by destruct Hin; apply Helem.
    + right. unfold not_skipped in Hns. cbn [fst] in Hns. apply not_false_is_true, andb_true_iff in Hns as [H1 H2]. split; [by apply negb_true_iff|by left].
  - intros p Hp. apply list_elem_of_fmap in Hp as ([cat n] & -> & [Hns Hin]%list_elem_of_filter). apply Helem in Hin as Hin'. destruct Hin' as (Hcat & Hn & Hno).
    exists cat, n. split_and!; [done|done| |done]. unfold path_of. cbn [fst snd]. rewrite Hpresent in Hno by done. apply bool_decide_eq_false_1 in Hno.
    destruct (fs !! _) eqn:Ed; [|done]. destruct Hno. by eexists.
Qed.

(** C33: a repair that reports no error, of less than 2^32 that there can have been, is
    complete and loses nothing: every file that the destination had is there with its
    content; it has the files of all checkpoints of its range, but for optional ones that
    are skipped or that the source does not have; and the buckets that its archive states
    then refer to, those that were repaired included. The range is that of the options,
    cut down twice to what the archive claims to have. Listings keep their promise, and
    files that are named like those of a checkpoint or a bucket are in their places. *)
Theorem repair_completes r s r' s' : valid_frequency -> well_placed pre (dst (world s) ∪ src) -> cleared (tables s) ->
  0 <= noted (world s) -> DryRun opts = false ->
  Repair json_Decode passphrase checkpointManager src fault opts r s None r' s' -> noted (world s') < 4294967296 ->
  (forall p c, dst (world s) !! p = Some c -> dst (world s') !! p = Some c) /\
  exists state r1 r2 fuel l,
    ReadHAS json_Decode (dst (world s)) passphrase rootHASPath = (state, None) /\
    clamp r (State_Range state) checkpointManager = Some r1 /\ clamp r1 (State_Range state) checkpointManager = Some r2 /\
    GenerateCheckpoints fuel r2 checkpointManager = Some l /\
    (forall cat n, cat ∈ Categories -> n ∈ l ->
      has_file (dst (world s')) (CategoryCheckpointPath cat n) \/ passed_over cat (CategoryCheckpointPath cat n)) /\
    (r' = r2 \/ clamp r2 (State_Range state) checkpointManager = Some r') /\
    forall b, referred json_Decode passphrase checkpointManager (dst (world s')) r' b -> has_file (dst (world s')) (BucketPath b).
Proof.
  intros Hf Hw Hcl H0 Hdry Hrun Hlt. remember None as err eqn:Eerr.
  destruct Hrun as [|state r1 err1 r2 s1 fuel missing cats asked_ s2 rep err r' s' Hroot Hclamp s0 Hck Hmissing Hcats Hfiles Hrest]; [done|]. subst err.
  assert (ReadHAS json_Decode (dst (world s)) passphrase rootHASPath = (state, None)) as Hread.
  { unfold GetRootHAS_, GetRootHAS, GetPathHAS in Hroot. by destruct (fails fault (world s)). }
  destruct Hcl as (Hclc & Hcla & Hclr). apply (well_placed_sub (dst (world s)) _) in Hw as Hw0; cycle 1.
  { intros p Hp. apply lookup_union_is_Some. by left. }
  pose proof Hck as Hrange. apply (ScanCheckpoints_ok pre _ _ _ _ _ (dst (world s))) in Hck as [(Hd1 & Hn1 & Ha1 & Hr1) Hck];
    [|done|done|done|done|by apply cleared_right].
  set (a1 := after_scan s0 s1 (is_err err1)) in *. pose proof (after_scan_counts s0 s1 (is_err err1) Hn1) as Hup1. fold a1 in Hup1.
  destruct (repair_files_ok _ _ _ _ _ _ Hfiles) as (Hcp & Ht2 & Hcopied).
  assert (dst (world a1) = dst (world s)) as Hda by exact Hd1.
  apply repair_rest_ok in Hrest as (Hup2 & -> & E & Hbuckets); [|done| | |done|rewrite Ht2; exact (eq_trans Ha1 Hcla)|rewrite Ht2; exact (eq_trans Hr1 Hclr)]; cycle 1.
  { eapply copies_placed; [|exact Hcp]. by rewrite Hda. }
  { pose proof (proj1 Hup1). pose proof (proj1 (cp_counts _ _ _ Hcp)). cbn in *. lia. }
  assert (errorless (world s0) (world s')) as Hel by (split_and!; [done|done|done|done]).
  destruct (errorless_first (world s0) (world a1) (world s') Hup1) as [He1 He2]; [eapply counts_up_trans; [apply Hcp|done]|done|].
  destruct (errorless_first _ _ _ (cp_counts _ _ _ Hcp) Hup2 He2) as [He3 He4].
  assert (err1 = None) as ->.
  { destruct He1 as (? & ? & E1). apply after_scan_ok in E1; [|done|done|done]. by destruct err1. }
  assert (checkpoints_scanned checkpointManager opts (dst (world s)) r2 s0 s1) as Hscanned.
  { apply Hck; [done|]. destruct He1 as (_ & H1 & _). cbn in H1. lia. }
  clear Hck. destruct (Hcopied eq_refl Hdry He3) as (Hfiles1 & Hkept1 & Hhist1).
  assert (exists l, GenerateCheckpoints fuel r2 checkpointManager = Some l) as [l Hgen].
  { unfold CheckCheckpointFilesMissing in Hmissing. destruct (GenerateCheckpoints fuel r2 checkpointManager) as [l|]; [by exists l|done]. }
  destruct (scanned_missing _ _ _ _ _ _ _ _ Hf Hscanned Hmissing Hgen Hcats) as [Hthere Hpaths].
  assert (forall p c, dst (world s) !! p = Some c -> dst (world s2) !! p = Some c) as Hlost.
  { intros p c Hp. rewrite (cp_other _ _ _ Hcp); [by rewrite Hda|]. intros Hin. destruct (Hpaths p Hin) as (cat & n & _ & _ & Ed & _). congruence. }
  destruct Hbuckets as (Hr' & Hlost2 & Hfinal); [done| |].
  { intros Erep n Hn. rewrite Ht2. change (tables a1) with (tables s1). rewrite (scanned_histories _ _ _ _ Hscanned n Hn).
    rewrite (cp_other _ _ _ Hcp); [by rewrite Hda|]. intros Hin. destruct (Hpaths _ Hin) as (cat & m & Epath & Hcat & _ & Hin').
    apply (category_path_differs (str "history") cat) in Epath as Ecat; [|by left|done]. subst cat. by apply (Hhist1 Erep m). }
  split; [intros p c Hp; by apply Hlost2, Hlost|]. exists state, r1, r2, fuel, l.
  split_and!; [done|done|by apply (ScanCheckpoints_range r1 s0 r2 s1)|done| | |done].
  - intros cat n Hcat Hn. destruct (decide ((cat, n) ∈ flat_map (fun e => map (pair e.1) e.2) cats)) as [Hin|Hin].
    + destruct (Hfiles1 _ Hin) as [[c Hc]|Hover]; [left; exists c; by apply Hlost2|by right].
    + destruct (Hthere cat n Hcat Hn Hin) as [[c Hc]|Hover]; [left; exists c; by apply Hlost2, Hlost|by right].
  - destruct Hr' as [->|Hr']; [by left|right]. apply Hr'. unfold root_state. rewrite <- Hread. apply ReadHAS_same.
    rewrite (cp_other _ _ _ Hcp); [by rewrite Hda|]. intros Hin. destruct (Hpaths _ Hin) as (cat & m & Epath & Hcat & _).
    eapply root_path_other; [right; by exists cat, m|done].
Qed.
End RepairSpec.

(** The archive of [SampleScan], repaired from one that has the rest. *)
Module SampleRepair.
Import Concrete SampleScan.

Definition src : files := list_to_map ((BucketPath bucket, str "bucket") ::
  map (fun cat => (CategoryCheckpointPath cat 63, cat)) [str "history"; str "transactions"; str "results"]).

Definition before : Scanning := call false (start_scan start).
Definition checkpoints_pool_ : pool (A := bytes * bytes) :=
  run_one (scan_fast works opts range) 60 (start_scan (call false before)) (fast_requests opts range) None Ret.
Definition missing : gmap bytes (list Z) :=
  default ∅ (CheckCheckpointFilesMissing 2 range manager (tables (shared checkpoints_pool_))).
Definition files_repaired : bool * Scanning * bool :=
  repair_files src works opts (flat_map (fun e => map (pair e.1) e.2) (map_to_list missing)) (after_scan before (shared checkpoints_pool_) false) false.
Definition repaired : Scanning := files_repaired.1.2.
Definition buckets_pool_ : pool (A := Z) :=
  run_one (scan_has decode [] works opts true) 60 (list_buckets true (call false (start_scan repaired))) [63] None Ret.
Definition finally : Scanning := repair_buckets src works opts [bucket] (after_scan repaired (shared buckets_pool_) false).

Lemma sample_repair : Repair decode [] manager src works opts (mkRange 0 63) start None range finally.
Proof.
  apply (repair_run _ _ _ _ _ _ _ _ state range None range (shared checkpoints_pool_) 2 missing (map_to_list missing) true repaired false).
  - vm_compute. reflexivity.
  - vm_compute. reflexivity.
  - apply (scan_listing _ _ _ _ _ _ _ state); [vm_compute; reflexivity|vm_compute; reflexivity|reflexivity|].
    assert (scan_result (shared checkpoints_pool_) = None) as <- by (vm_compute; reflexivity). apply workers_run; [reflexivity|apply run_one_steps|].
    apply pool_done; vm_compute; reflexivity.
  - assert (is_err (CheckCheckpointFilesMissing 2 range manager (tables (shared checkpoints_pool_))) = true) as Hm by (vm_compute; reflexivity).
    unfold missing. destruct (CheckCheckpointFilesMissing _ _ _ _); [reflexivity|discriminate Hm].
  - reflexivity.
  - change (files_repaired = (true, repaired, false)). unfold repaired. rewrite (surjective_pairing files_repaired), (surjective_pairing files_repaired.1).
    assert (files_repaired.1.1 = true) as -> by (vm_compute; reflexivity). assert (files_repaired.2 = false) as -> by (vm_compute; reflexivity). reflexivity.
  - assert ((if errs (world finally) =? 0 then None else Some (ErrRepairing (errs (world finally)))) = None) as <- by (vm_compute; reflexivity).
    apply (repair_goes_on _ _ _ _ _ _ false range repaired range repaired None (shared buckets_pool_) [bucket] finally).
    + constructor.
    + assert (scan_result (shared buckets_pool_) = None) as <- by (vm_compute; reflexivity). apply (buckets_run _ _ _ _ _ _ _ true [63]).
      * reflexivity.
      * vm_compute. reflexivity.
      * assert (present_histories (tables (list_buckets true (call false (start_scan repaired)))) = [63]) as -> by (vm_compute; reflexivity). reflexivity.
      * apply run_one_steps.
      * apply pool_done; vm_compute; reflexivity.
    + assert (map_to_list (CheckBucketsMissing (tables (shared buckets_pool_))) = [(bucket, true)]) as -> by (vm_compute; reflexivity). reflexivity.
    + reflexivity.
Qed.

Lemma repair_completes_witness : exists s', Repair decode [] manager src works opts (mkRange 0 63) start None range s' /\
  (forall p c, fs !! p = Some c -> dst (world s') !! p = Some c) /\
  exists state r1 r2 fuel l,
    ReadHAS decode fs [] rootHASPath = (state, None) /\
    clamp (mkRange 0 63) (State_Range state) manager = Some r1 /\ clamp r1 (State_Range state) manager = Some r2 /\
    GenerateCheckpoints fuel r2 manager = Some l /\
    (forall cat n, cat ∈ Categories -> n ∈ l ->
      has_file (dst (world s')) (CategoryCheckpointPath cat n) \/ passed_over src opts cat (CategoryCheckpointPath cat n)) /\
    (range = r2 \/ clamp r2 (State_Range state) manager = Some range) /\
    forall b, referred decode [] manager (dst (world s')) range b -> has_file (dst (world s')) (BucketPath b).
Proof.
  exists finally. split; [exact sample_repair|].
  apply (repair_completes [] decode [] manager src works opts (mkRange 0 63) start range finally).
  - split; vm_compute; discriminate.
  - apply well_placed_check. vm_compute. reflexivity.
  - apply new_archive_cleared.
  - vm_compute. discriminate.
  - reflexivity.
  - exact sample_repair.
  - vm_compute. reflexivity.
Defined.
End SampleRepair.
