(* ===== verification/BucketRecords.v ===== *)
(** * Records of a bucket over a connection that fails

    [readBucketRecord] of src/ingest/checkpoint_change_reader.go: a record that cannot
    be read is read again from a new stream of the same bucket, resumed at the start
    of that record with the hash of the bytes before it, at most [maxStreamRetries]
    times. What each opening gives and when the context ends are given as oracles.
    [BucketReader] has a bucket as the list of what these calls return. *)
From Stdlib Require Import ZArith Lia.
From stdpp Require Import base list vector option.
From S2P Require Import Prelude GoStd XdrStream.
#[local] Open Scope Z_scope.
#[local] Open Scope go_scope.

Inductive record_error {SE D : Type} : Type :=
| ContextDone (e : SE)
| ReadFailed (e : stream_error SE D)
| ErrCreatingStream (e : SE)
| ErrResumingStream (e : stream_error SE D).
Arguments record_error : clear implicits.

Definition maxStreamRetries : nat := 3.

(** The content of a new stream, how it ends and how it closes. *)
Record opening {SE : Type} : Type := mkOpening {
  opening_content : bytes;
  opening_ending : option SE;
  opening_closing : option SE
}.
Arguments opening : clear implicits. Arguments mkOpening {SE}. Arguments opening_content {SE}. Arguments opening_ending {SE}. Arguments opening_closing {SE}.

Section Records.
Context {A SE D : Type} (DecodeBytes : bytes -> result D (A * Z)).
Context (sha256 : bytes -> bytes) (read_after_close : bytes -> result SE bytes).
(** What the k-th opening of the bucket gives; the context's error the k-th time it
    is asked for. *)
Context (GetXdrStreamForHash : nat -> result SE (opening SE)) (ctx_Err : nat -> option SE).
#[local] Abbreviation Stream := (@Stream SE).
#[local] Abbreviation error := (record_error SE D).

(** How many openings and how many looks at the context there have been. *)
Record World : Type := mkWorld { opened : nat; looked : nat }.

Definition newXDRStream (w : World) : result SE Stream * World :=
  (match GetXdrStreamForHash (opened w) with
   | Err e => Err e
   | Ok o => Ok (NewStream (opening_content o) (opening_ending o) (opening_closing o))
   end, mkWorld (S (opened w)) (looked w)).

(** Reading, unless the last retry ended with an error. *)
Definition attempt (err : option error) (stream : Stream) : result error A * Stream :=
  match err with
  | Some e => (Err e, stream)
  | None =>
      let '(r, stream) := ReadOne DecodeBytes stream in
      (match r with Ok entry => Ok entry | Err e => Err (ReadFailed e) end, stream)
  end.

(** A retry: the error it ends with, or the stream to read from. *)
Definition reopen (w : World) (stream : Stream) : option error * World * Stream :=
  let stream := (Close stream).2 in
  let '(r, w) := newXDRStream w in
  match r with
  | Err e => (Some (ErrCreatingStream e), w, stream)
  | Ok retryStream =>
      let '(err, retryStream) := ResumeFrom (D:=D) retryStream stream in
      match err with
      | Some e => (Some (ErrResumingStream e), w, stream)
      | None => (None, w, retryStream)
      end
  end.

(** The loop, with the number of retries that are left. *)
Fixpoint read_attempts (retries : nat) (err : option error) (w : World) (stream : Stream) : result error A * World * Stream :=
  let look := ctx_Err (looked w) in
  let w := mkWorld (opened w) (S (looked w)) in
  match look with
  | Some e => (Err (ContextDone e), w, stream)
  | None =>
      let '(r, stream) := attempt err stream in
      match r, retries with
      | Ok _, _ | Err (ReadFailed io_EOF), _ | _, O => (r, w, stream)
      | Err _, S retries =>
          let '(err, w, stream) := reopen w stream in
          read_attempts retries err w stream
      end
  end.

Definition readBucketRecord (w : World) (stream : Stream) : result error A * World * Stream :=
  read_attempts maxStreamRetries None w stream.

(** Reading a bucket to its end: the records in order. *)
Inductive reads_bucket : World -> Stream -> list A -> World -> Stream -> Prop :=
| rb_end w s w' s' : readBucketRecord w s = (Err (ReadFailed io_EOF), w', s') -> reads_bucket w s [] w' s'
| rb_record w s v w1 s1 vs w' s' :
    readBucketRecord w s = (Ok v, w1, s1) -> reads_bucket w1 s1 vs w' s' -> reads_bucket w s (v :: vs) w' s'.

(** ** What has been hashed *)

(** The bytes that a stream has given, and those before its last record. *)
Definition given (s : Stream) (b : bytes) : Prop := sha256Hash s = b /\ bytesRead s = go_len b.
Definition boundary (s : Stream) (b : bytes) : Prop := boundaryState s = b /\ boundaryOffset s = go_len b.

Lemma given_read_on s b b' s' : given s b -> read_on s b' s' -> given s' (b ++ b').
Proof.
  intros [H1 H2] [_ H4 H5 _ _]. split; [congruence|]. unfold go_len in *. rewrite length_app. lia.
Qed.

Lemma boundary_Close s b : boundary s b -> boundary (Close s).2 b.
Proof. unfold Close, boundary. by destruct (closed s). Qed.

(** A stream of a new opening, resumed. *)
Lemma ResumeFrom_new c e cl (prev : Stream) b (s' : Stream) : boundary prev b ->
  ResumeFrom (D:=D) (NewStream c e cl) prev = (None, s') ->
  given s' b /\ (exists skipped, length skipped = length b /\ c = skipped ++ unread s') /\ ending s' = e /\
  maxRecordSize s' = DefaultMaxXDRStreamRecordSize.
Proof.
  intros [Hs Ho] E. unfold ResumeFrom, Discard in E. rewrite Ho in E.
  destruct (deliver (NewStream c e cl) (go_len b)) as [b' x] eqn:Ed. apply deliver_read_on in Ed as (Hro & _ & _ & Hlen).
  destruct (Z.ltb_spec (go_len b') (go_len b)) as [|Hge]; [by destruct (ending x)|]. injection E as <-.
  specialize (Hlen ltac:(unfold go_len; lia)). destruct Hro as [H1 H2 H3 H4 H5]. cbn in *.
  assert (go_len b' = go_len b) as El by lia. split; [|split; [exists b'; unfold go_len in El; split; [lia|done]|done]].
  split; [done|]. cbn. lia.
Qed.

(** Before an attempt. *)
Definition ready (err : option error) (s : Stream) (b : bytes) : Prop :=
  match err with None => given s b | Some e => e <> ReadFailed io_EOF /\ boundary s b end.

Lemma attempt_given err s b r s' : ready err s b -> attempt err s = (r, s') ->
  match r with
  | Ok v => exists f, framed (SE:=SE) DecodeBytes v f /\ given s' (b ++ f)
  | Err e => boundary s' b /\ (e = ReadFailed io_EOF ->
      exists rest, given s' (b ++ rest) /\ closed s' = true /\ ((rest = [] /\ unread s' = []) \/ rest = empty_frame))
  end.
Proof.
  destruct err as [e|]; cbn [ready attempt].
  - intros [He Hb] [= <- <-]. by split.
  - intros Hg. destruct (ReadOne DecodeBytes s) as [r1 s1] eqn:E. intros [= <- <-].
    destruct (ReadOne_reads _ _ _ _ E) as (b' & Hro & Ho & Hs & H). pose proof (given_read_on _ _ _ _ Hg Hro) as Hg'.
    destruct r1 as [v|e]; [by exists b'|]. destruct Hg as [Hg1 Hg2]. split; [split; congruence|].
    intros [= ->]. destruct (H eq_refl) as [Hc Hend]. exists b'. split; [done|]. split; [done|].
    destruct Hend as [(Hu & -> & _)| ->]; [|by right]. left. split; [done|]. pose proof (ro_unread _ _ _ Hro) as Eu. cbn in Eu. congruence.
Qed.

Lemma reopen_ready w s b err w' s' : boundary s b -> reopen w s = (err, w', s') -> ready err s' b.
Proof.
  intros Hb%boundary_Close E. unfold reopen, newXDRStream in E.
  destruct (GetXdrStreamForHash (opened w)) as [o|e]; [|by injection E as <- <- <-].
  destruct (ResumeFrom _ _) as [[e|] s1] eqn:Er; injection E as <- <- <-; [done|].
  by apply (ResumeFrom_new _ _ _ _ _ _ Hb) in Er as [? _].
Qed.

(** Whatever the openings give, what has been hashed are the frames returned. *)
Lemma read_attempts_given retries : forall err w s b r w' s',
  ready err s b -> read_attempts retries err w s = (r, w', s') ->
  match r with
  | Ok v => exists f, framed (SE:=SE) DecodeBytes v f /\ given s' (b ++ f)
  | Err e => e = ReadFailed io_EOF ->
      exists rest, given s' (b ++ rest) /\ closed s' = true /\ ((rest = [] /\ unread s' = []) \/ rest = empty_frame)
  end.
Proof.
  induction retries as [|retries IH]; intros err w s b r w' s' Hr E; cbn [read_attempts] in E.
  all: destruct (ctx_Err (looked w)); [by injection E as <- <- <-|].
  all: destruct (attempt err s) as [r1 s1] eqn:Ea; pose proof (attempt_given _ _ _ _ _ Hr Ea) as Ha.
  all: destruct r1 as [v|e]; [by injection E as <- <- <-|]; destruct Ha as [Hb Ha].
  - destruct e as [| []| |]; by injection E as <- <- <-.
  - destruct (reopen _ s1) as [[err' w1] s2] eqn:Eo. apply (reopen_ready _ _ _ _ _ _ Hb) in Eo.
    destruct e as [| []| |]; try (by eapply IH); by injection E as <- <- <-.
Qed.

Lemma reads_bucket_given w s vs w' s' : reads_bucket w s vs w' s' -> forall b, given s b ->
  exists frames rest, Forall2 (framed (SE:=SE) DecodeBytes) vs frames /\ given s' (b ++ concat frames ++ rest) /\ closed s' = true /\
    ((rest = [] /\ unread s' = []) \/ rest = empty_frame).
Proof.
  induction 1 as [w s w' s' E|w s v w1 s1 vs w' s' E _ IH]; intros b Hg;
    pose proof (read_attempts_given _ None _ _ _ _ _ _ Hg E) as H.
  - destruct (H eq_refl) as (rest & ? & ? & ?). by exists [], rest.
  - destruct H as (f & Hf & Hg1). destruct (IH _ Hg1) as (frames & rest & Hfs & Hg' & Hc & Hrest).
    exists (f :: frames), rest. split; [by constructor|]. cbn. by rewrite <- !app_assoc in *.
Qed.

(** A list of frames has no empty frame, and is one in one way. *)
Lemma no_empty_frame values frames tail : Forall2 (framed (SE:=SE) DecodeBytes) values frames -> empty_frame ++ tail <> concat frames.
Proof.
  intros Hfs E. destruct Hfs as [|v f values frames Hf _]; [done|]. cbn [concat] in E. unfold empty_frame in E.
  destruct (framed_inv _ _ _ Hf) as (p & -> & Hn & _). rewrite <- app_assoc in E.
  apply app_inj_1 in E as [E _]; [|by rewrite !length_be_put].
  apply (f_equal (fun b => Z.land (be_get b) xdrFrameLengthMask)) in E.
  destruct (header_read (go_len p)) as (E1 & _ & E2); [lia|]. rewrite E1, E2 in E. change (0 = go_len p) in E. lia.
Qed.

Lemma frames_first values frames v f rest : Forall2 (framed (SE:=SE) DecodeBytes) values frames ->
  framed (SE:=SE) DecodeBytes v f -> f ++ rest = concat frames ->
  exists vs fs, values = v :: vs /\ frames = f :: fs /\ Forall2 (framed (SE:=SE) DecodeBytes) vs fs /\ rest = concat fs.
Proof.
  intros Hfs Hf E. destruct Hfs as [|v' f' values frames Hf' Hfs].
  - by destruct (framed_inv _ _ _ Hf) as (p & -> & _).
  - destruct (framed_prefix _ _ _ _ _ _ _ Hf Hf' E) as (-> & -> & E'). by exists values, frames.
Qed.

Lemma frames_unique vs fs : Forall2 (framed (SE:=SE) DecodeBytes) vs fs -> forall values frames rest,
  Forall2 (framed (SE:=SE) DecodeBytes) values frames -> concat fs ++ rest = concat frames ->
  rest = [] \/ (exists tail, rest = empty_frame ++ tail) -> vs = values.
Proof.
  induction 1 as [|v f vs fs Hf _ IH]; intros values frames rest Hfs E Hrest.
  - destruct Hrest as [->|[tail ->]]; [|by apply (no_empty_frame _ _ tail) in Hfs].
    destruct Hfs as [|v f values frames Hf _]; [done|]. by destruct (framed_inv _ _ _ Hf) as (p & -> & _).
  - cbn in E. rewrite <- app_assoc in E.
    destruct (frames_first _ _ _ _ _ Hfs Hf E) as (vs' & fs' & -> & -> & Hfs' & E'). f_equal. by eapply IH.
Qed.

(** C28: a bucket that is read to its end and whose hash then validates has been read
    right, whatever the connections it was read over gave: the hash is that of the
    frames of the records returned, and no bytes that were skipped, repeated or lost
    at a retry are among them; so that the records are those of the bucket, if the hash
    is of no other content. *)
Theorem validated_bucket_records w (o : opening SE) vs w' s' expected :
  read_after_close [] = Ok [] ->
  reads_bucket w (NewStream (opening_content o) (opening_ending o) (opening_closing o)) vs w' s' ->
  XdrStream_ValidateHash (D:=D) sha256 read_after_close s' expected = None ->
  (exists frames tail, Forall2 (framed (SE:=SE) DecodeBytes) vs frames /\ expected = sha256 (concat frames ++ tail) /\
     (tail = [] \/ exists more, tail = empty_frame ++ more)) /\
  forall values frames, Forall2 (framed (SE:=SE) DecodeBytes) values frames ->
    (forall content, sha256 content = expected -> content = concat frames) -> vs = values.
Proof.
  intros Hrc H Hv. destruct (reads_bucket_given _ _ _ _ _ H []) as (fs & rest & Hfs & [Hg _] & Hc & Hrest); [done|].
  assert (exists tail, expected = sha256 (concat fs ++ tail) /\ (tail = [] \/ exists more, tail = empty_frame ++ more)) as (tail & -> & Ht).
  { destruct Hrest as [[-> Hu]| ->].
    - exists []. split; [|by left]. rewrite (validates _ _ _ _ _ Hrc Hu Hc Hg) in Hv. done.
    - unfold XdrStream_ValidateHash in Hv. destruct (drain read_after_close s') as [more|]; [|done]. cbn in Hv. rewrite Hg in Hv.
      exists (empty_frame ++ more). split; [|by right; exists more]. rewrite app_nil_l, <- app_assoc in Hv.
      by case_bool_decide. }
  split; [by exists fs, tail|]. intros values frames Hvf Hno. eapply frames_unique; [done|done| |done]. by apply Hno.
Qed.

(** ** Connections that fail *)
Section Failing.
(** A bucket; the context does not end. Its openings fail, or break off with an error
    after some of the content, but of any three in a row one gives all of it. *)
Context (values : list A) (frames : list bytes).
#[local] Abbreviation content := (concat frames).
Definition whole (o : opening SE) : Prop := opening_content o = content /\ opening_ending o = None.
Definition broken (o : opening SE) : Prop := exists m e, opening_content o = take m content /\ opening_ending o = Some e.
Definition opens_whole (k : nat) : Prop := exists o, GetXdrStreamForHash k = Ok o /\ whole o.
Context (Hframed : Forall2 (framed (SE:=SE) DecodeBytes) values frames).
Context (Hfits : Forall (fun f => go_len f <= DefaultMaxXDRStreamRecordSize + 4) frames).
Context (Hctx : forall k, ctx_Err k = None).
Context (Hopen : forall k o, GetXdrStreamForHash k = Ok o -> whole o \/ broken o).
Context (Hwhole : forall k, exists j, (k <= j < k + 3)%nat /\ opens_whole j).

(** A stream that has [t] left, all of it or some with an error at the end. *)
Definition has_all (s : Stream) (t : bytes) : Prop := unread s = t /\ ending s = None.
Definition has_left (s : Stream) (t : bytes) : Prop :=
  maxRecordSize s = DefaultMaxXDRStreamRecordSize /\
  (has_all s t \/ exists m e, unread s = take m t /\ ending s = Some e).

Lemma has_left_prefix s t : has_left s t -> exists more, unread s ++ more = t.
Proof.
  intros [_ [[<- _]|(m & e & -> & _)]]; [exists []; apply app_nil_r|exists (drop m t); apply take_drop].
Qed.

Lemma has_left_on s f s' t : has_left s (f ++ t) -> read_on s f s' -> has_left s' t.
Proof.
  intros [Hm Hl] [H1 _ _ H4 H5]. split; [congruence|]. destruct Hl as [[Hu He]|(m & e & Hu & He)]; rewrite H1 in Hu.
  - left. split; [by apply app_inv_head in Hu|congruence].
  - right. exists (m - length f)%nat, e. split; [|congruence].
    assert (length f <= m)%nat as Hle.
    { apply (f_equal length) in Hu. rewrite length_app, length_take, length_app in Hu. lia. }
    rewrite take_app, take_ge in Hu by done. by apply app_inv_head in Hu.
Qed.

(** An attempt at the next record, or at the end. *)
Lemma attempt_left s b vs fs r s' :
  Forall2 (framed (SE:=SE) DecodeBytes) vs fs -> Forall (fun f => go_len f <= DefaultMaxXDRStreamRecordSize + 4) fs ->
  given s b -> has_left s (concat fs) -> attempt None s = (r, s') ->
  match r with
  | Ok v => exists f vs' fs', vs = v :: vs' /\ fs = f :: fs' /\ given s' (b ++ f) /\ has_left s' (concat fs')
  | Err (ReadFailed io_EOF) => vs = [] /\ given s' b /\ closed s' = true /\ unread s' = []
  | Err _ => boundary s' b /\ ~ has_all s (concat fs)
  end.
Proof.
  intros Hfs Hm Hg Hl Ea. pose proof (attempt_given None _ _ _ _ Hg Ea) as Ha. cbn [attempt] in Ea.
  destruct (ReadOne DecodeBytes s) as [r1 s1] eqn:E. injection Ea as <- <-.
  destruct (ReadOne_reads _ _ _ _ E) as (b' & Hro & _ & _ & H). destruct (has_left_prefix _ _ Hl) as [more Hp].
  rewrite (ro_unread _ _ _ Hro), <- app_assoc in Hp. destruct r1 as [v|e].
  - destruct (frames_first _ _ _ _ _ Hfs H Hp) as (vs' & fs' & -> & -> & _ & _). exists b', vs', fs'.
    split; [done|]. split; [done|]. split; [by apply (given_read_on s)|by apply (has_left_on s b')].
  - destruct Ha as [Hb Ha]. assert (e <> io_EOF -> ~ has_all s (concat fs)) as Hnot.
    { intros Hne [Hu He]. destruct Hfs as [|v f vs fs Hf _].
      - destruct (ReadOne_eof DecodeBytes s Hu He) as (? & E' & _). congruence.
      - apply Forall_cons_1 in Hm as [Hm _]. rewrite <- (proj1 Hl) in Hm.
        destruct (ReadOne_frame _ _ _ _ _ Hu Hf Hm) as (? & E' & _). congruence. }
    destruct e; try (split; [exact Hb|by apply Hnot]). destruct (H eq_refl) as [Hc [(Hu & -> & He)| ->]].
    + destruct Hl as [_ [[Hu' _]|(m & e & _ & He')]]; [|congruence]. rewrite Hu in Hu'.
      pose proof (ro_unread _ _ _ Hro) as Eu. rewrite Hu in Eu. split; [|split; [|done]].
      * destruct Hfs as [|v f vs fs Hf _]; [done|]. by destruct (framed_inv _ _ _ Hf) as (p & -> & _).
      * rewrite <- (app_nil_r b). by apply (given_read_on s).
    + by destruct (no_empty_frame _ _ _ Hfs Hp).
Qed.

(** A retry, with [t] left to read. *)
Lemma ResumeFrom_whole c cl (prev : Stream) b t : c = b ++ t -> boundary prev b ->
  exists s', ResumeFrom (D:=D) (NewStream c None cl) prev = (None, s').
Proof.
  intros -> [_ Ho]. unfold ResumeFrom, Discard. rewrite Ho.
  destruct (deliver _ _) as [b' x] eqn:Ed. apply deliver_read_on in Ed as (_ & _ & _ & Hlen).
  replace (go_len b' <? go_len b) with false; [by eexists|]. cbn in Hlen. unfold go_len in *. rewrite length_app in Hlen. lia.
Qed.

Lemma reopen_left w s b t err w' s' : content = b ++ t -> boundary s b -> reopen w s = (err, w', s') ->
  opened w' = S (opened w) /\
  match err with
  | None => given s' b /\ has_left s' t /\ (opens_whole (opened w) -> has_all s' t)
  | Some e => e <> ReadFailed io_EOF /\ boundary s' b /\ ~ opens_whole (opened w)
  end.
Proof.
  intros Ec Hb E. pose proof (reopen_ready _ _ _ _ _ _ Hb E) as Hr. apply boundary_Close in Hb. unfold reopen, newXDRStream in E.
  destruct (GetXdrStreamForHash (opened w)) as [o|e] eqn:Eo.
  - destruct (ResumeFrom _ _) as [[e|] s1] eqn:Er; injection E as <- <- <-; (split; [done|]).
    + destruct Hr as [_ Hr]. split; [done|]. split; [done|]. intros (o' & Eo' & Ho' & He'). assert (o' = o) as -> by congruence.
      rewrite Ho', He', Ec in Er. destruct (ResumeFrom_whole (b ++ t) (opening_closing o) _ b t eq_refl Hb) as [? Er']. congruence.
    + destruct (ResumeFrom_new _ _ _ _ _ _ Hb Er) as (_ & (sk & Hsk & Hc) & He & Hm). split; [done|].
      assert (whole o -> has_all s1 t) as Hall.
      { intros [Ho' He']. rewrite Ho', Ec in Hc. split; [|congruence]. symmetry in Hc. by apply app_inj_1 in Hc as [_ Hc]. }
      split; [|intros (o' & Eo' & Ho'); assert (o' = o) as -> by congruence; by apply Hall]. split; [done|].
      destruct (Hopen _ _ Eo) as [Ho|(m & e & Ho & He')]; [left; by apply Hall|]. right. exists (m - length b)%nat, e.
      split; [|congruence]. rewrite Ho, Ec in Hc.
      assert (length b <= m)%nat as Hle.
      { apply (f_equal length) in Hc. rewrite length_app, length_take, length_app in Hc. lia. }
      rewrite take_app, take_ge in Hc by done. symmetry in Hc. by apply app_inj_1 in Hc as [_ Hc].
  - injection E as <- <- <-. split; [done|]. destruct Hr as [Hr1 Hr2]. split; [done|]. split; [done|]. by intros (o & Eo' & _); congruence.
Qed.

(** What reading the next record comes to. *)
Definition next_read (r : result error A) (s' : Stream) (b : bytes) (vs : list A) (fs : list bytes) : Prop :=
  match r with
  | Ok v => exists f vs' fs', vs = v :: vs' /\ fs = f :: fs' /\ given s' (b ++ f) /\ has_left s' (concat fs')
  | Err e => e = ReadFailed io_EOF /\ vs = [] /\ given s' b /\ closed s' = true /\ unread s' = []
  end.

Lemma read_attempts_left retries : forall err w s b vs fs,
  Forall2 (framed (SE:=SE) DecodeBytes) vs fs -> Forall (fun f => go_len f <= DefaultMaxXDRStreamRecordSize + 4) fs ->
  content = b ++ concat fs -> ready err s b -> (err = None -> has_left s (concat fs)) ->
  (err = None /\ has_all s (concat fs)) \/ (exists j, (opened w <= j < opened w + retries)%nat /\ opens_whole j) ->
  exists r w' s', read_attempts retries err w s = (r, w', s') /\ next_read r s' b vs fs.
Proof.
  induction retries as [|retries IH]; intros err w s b vs fs Hfs Hm Ec Hr Hl Hw; cbn [read_attempts]; rewrite Hctx.
  all: destruct (attempt err s) as [r1 s1] eqn:Ea.
  all: assert (next_read r1 s1 b vs fs \/ exists e, r1 = Err e /\ e <> ReadFailed io_EOF /\ boundary s1 b /\
    ~ (err = None /\ has_all s (concat fs))) as [Hn|(e & -> & Hne & Hb & Hna)].
  1,4: destruct err as [e0|]; [injection Ea as <- <-; destruct Hr; right; exists e0; naive_solver|];
    pose proof (attempt_left _ _ _ _ _ _ Hfs Hm Hr (Hl eq_refl) Ea) as Ha; destruct r1 as [v|e]; [by left|];
    destruct e as [| []| |]; solve [by left | right; eexists; split; [done|]; naive_solver].
  1,3: exists r1; destruct r1 as [v|e]; [by eexists _, _|]; destruct Hn as [-> Hn]; by eexists _, _.
  - destruct Hw as [|(j & Hj & _)]; [done|lia].
  - destruct Hw as [|(j & Hj & Hw)]; [done|].
    destruct (reopen _ s1) as [[err' w1] s2] eqn:Eo. pose proof (reopen_ready _ _ _ _ _ _ Hb Eo) as Hr'.
    destruct (reopen_left _ _ _ _ _ _ _ Ec Hb Eo) as [Ew Ho]. cbn [opened] in *.
    destruct (IH err' w1 s2 b vs fs Hfs Hm Ec Hr') as (r & w' & s' & E & Hn).
    + intros ->. apply Ho.
    + destruct (decide (j = opened w)) as [->|]; [|right; exists j; split; [lia|done]].
      left. destruct err'; [by destruct Ho as (_ & _ & Ho)|]. split; [done|by apply Ho].
    + exists r, w', s'. split; [|done]. destruct e as [| []| |]; done.
Qed.

(** C29: when of any three openings in a row one gives the whole content, however the
    others fail, every record of the bucket is read, once each and in order, then its
    end, and the bucket's hash validates, and no other. *)
Theorem failing_bucket_is_read w (o : opening SE) :
  read_after_close [] = Ok [] -> whole o \/ broken o ->
  exists w' s', reads_bucket w (NewStream (opening_content o) (opening_ending o) (opening_closing o)) values w' s' /\
    forall expected, XdrStream_ValidateHash (D:=D) sha256 read_after_close s' expected = None <-> expected = sha256 content.
Proof.
  intros Hrc Ho.
  assert (forall vs fs, Forall2 (framed (SE:=SE) DecodeBytes) vs fs ->
    Forall (fun f => go_len f <= DefaultMaxXDRStreamRecordSize + 4) fs -> forall w s b, content = b ++ concat fs -> given s b ->
    has_left s (concat fs) -> exists w' s', reads_bucket w s vs w' s' /\ given s' content /\ closed s' = true /\ unread s' = [])
    as Hall.
  { intros vs fs Hfs Hm. induction Hfs as [|v f vs fs Hf Hfs IH]; intros w1 s b Ec Hg Hl;
      [assert (Forall2 (framed (SE:=SE) DecodeBytes) [] []) as Hfs' by constructor
      |assert (Forall2 (framed (SE:=SE) DecodeBytes) (v :: vs) (f :: fs)) as Hfs' by (by constructor)];
      destruct (read_attempts_left maxStreamRetries None w1 s b _ _ Hfs' Hm Ec Hg (fun _ => Hl)
        (or_intror (Hwhole (opened w1)))) as ([v'|e] & w' & s' & E & Hn).
    - by destruct Hn as (? & ? & ? & ? & _).
    - destruct Hn as (-> & _ & Hg' & Hc & Hu). exists w', s'. split; [by constructor|]. by rewrite Ec, app_nil_r.
    - destruct Hn as (f' & vs' & fs' & [= <- <-] & [= <- <-] & Hg' & Hl'). apply Forall_cons_1 in Hm as [_ Hm].
      destruct (IH Hm w' s' (b ++ f)) as (w2 & s2 & Hr & H2); [by rewrite Ec, <- app_assoc|done..|].
      exists w2, s2. split; [by econstructor|done].
    - by destruct Hn as (_ & ? & _). }
  destruct (Hall _ _ Hframed Hfits w (NewStream (opening_content o) (opening_ending o) (opening_closing o)) [])
    as (w' & s' & Hr & [Hg _] & Hc & Hu); [done|done| |].
  - split; [done|]. destruct Ho as [Ho|Ho]; [by left|by right].
  - exists w', s'. split; [done|]. intros expected. by apply validates.
Qed.
End Failing.
End Records.

(** Two records; openings that fail, that break off, and that give all. *)
Module SampleBucket.
Import SampleStream.
Definition content : bytes := concat frames.
Definition openings (k : nat) : result unit (opening unit) :=
  match (k mod 3)%nat with
  | O => Err tt
  | S O => Ok (mkOpening (take 7 content) (Some tt) None)
  | _ => Ok (mkOpening content None None)
  end.
Definition start : Stream := NewStream (take 7 content) (Some tt) None.
Abbreviation reads_sample := (reads_bucket decode openings (fun _ => None)).

Lemma sample_openings k : exists j, (k <= j < k + 3)%nat /\ opens_whole openings frames j.
Proof.
  exists (k + (2 - k mod 3))%nat. pose proof (Nat.mod_upper_bound k 3). split; [lia|].
  eexists. unfold openings. replace ((k + (2 - k mod 3)) mod 3)%nat with 2%nat; [by split|].
  rewrite (Nat.div_mod_eq k 3) at 1. replace (3 * (k / 3) + k mod 3 + (2 - k mod 3))%nat with (2 + (k / 3) * 3)%nat by lia.
  by rewrite Nat.Div0.mod_add.
Qed.

Lemma validated_bucket_records_witness :
  exists w' s', reads_sample (mkWorld 0 0) start values w' s' /\
  XdrStream_ValidateHash (D:=unit) sha closed_gzip s' content = None /\
  ((exists fs tail, Forall2 (framed (SE:=unit) decode) values fs /\ content = sha (concat fs ++ tail) /\
     (tail = [] \/ exists more, tail = empty_frame ++ more)) /\
  forall vs fs, Forall2 (framed (SE:=unit) decode) vs fs ->
    (forall b, sha b = content -> b = concat fs) -> values = vs).
Proof.
  eassert (reads_sample (mkWorld 0 0) start values _ _) as H.
  { eapply rb_record; [vm_compute; reflexivity|]. eapply rb_record; [vm_compute; reflexivity|].
    apply rb_end. vm_compute. reflexivity. }
  eexists _, _. split; [exact H|]. split; [vm_compute; reflexivity|].
  refine (validated_bucket_records decode sha closed_gzip openings (fun _ => None) (mkWorld 0 0)
    (mkOpening (take 7 content) (Some tt) None) values _ _ content _ H _); vm_compute; reflexivity.
Defined.

Lemma failing_bucket_is_read_witness :
  exists w' s', reads_sample (mkWorld 0 0) start values w' s' /\
    forall expected, XdrStream_ValidateHash (D:=unit) sha closed_gzip s' expected = None <-> expected = sha content.
Proof.
  refine (failing_bucket_is_read decode sha closed_gzip openings (fun _ => None) values frames values_framed _ _ _ sample_openings
    (mkWorld 0 0) (mkOpening (take 7 content) (Some tt) None) eq_refl _).
  - repeat constructor; vm_compute; discriminate.
  - reflexivity.
  - intros k o. unfold openings. destruct (k mod 3)%nat as [|[|n]]; [discriminate| |]; intros [= <-];
      [right; exists 7%nat, tt|left]; by split.
  - right. exists 7%nat, tt. by split.
Defined.
End SampleBucket.
