(* ===== verification/Accounts.v ===== *)
(** * Multiplexed accounts and printed addresses

    src/xdr/muxed_account.go, claimable_balance_id.go, scval.go ([ScAddress.String])
    and trust_line_asset.go: the unions that name the holder of a token, and the
    strkeys they are printed as. A union is the type of its arms, so an accessor of
    the arm its type names never fails; a claimable balance has one kind of
    identifier, so it is the 32 bytes of that hash. *)
From Stdlib Require Import ZArith Lia.
From stdpp Require Import base list vector option gmap sorting.
From S2P Require Import Prelude GoStd GoExt Price Encodings Strkey Asset LedgerEntries Sha256.
#[local] Open Scope Z_scope.
#[local] Open Scope go_scope.

(** The 64-bit unsigned integer [Uint64.MarshalBinary] writes and
    [UnmarshalBinary] reads: an XDR unsigned hyper. *)
Definition Uint64_MarshalBinary (v : Z) : bytes := be_put 8 v.
Definition Uint64_UnmarshalBinary (b : bytes) : Z := be_get (take 8 b).

(** ** Muxed accounts *)
Inductive MuxedAccount_ : Type :=
| KeyTypeEd25519 (ed25519 : vec byte 32)
| KeyTypeMuxedEd25519 (id : Z) (ed25519 : vec byte 32).

Inductive muxed_error : Type :=
| MuxedStrkey (e : strkey_error)
| MuxedAddressLength
| MuxedNoId.

Definition ToAccountId (m : MuxedAccount_) : AccountId :=
  match m with KeyTypeEd25519 ed => ed | KeyTypeMuxedEd25519 _ ed => ed end.

Definition Muxed_GetAddress (m : MuxedAccount_) : result strkey_error bytes :=
  match m with
  | KeyTypeEd25519 ed => Encode VersionByteAccountID (vec_to_list ed)
  | KeyTypeMuxedEd25519 id ed => Encode VersionByteMuxedAccount (vec_to_list ed ++ Uint64_MarshalBinary id)
  end.
Definition Muxed_Address (m : MuxedAccount_) : option bytes :=
  match Muxed_GetAddress m with Ok a => Some a | Err _ => None end.

Definition Muxed_GetId (m : MuxedAccount_) : result muxed_error Z :=
  match m with KeyTypeEd25519 _ => Err MuxedNoId | KeyTypeMuxedEd25519 id _ => Ok id end.

Definition MuxedAccountFromAccountId (gAddress : bytes) (id : Z) : result muxed_error MuxedAccount_ :=
  match AddressToAccountId gAddress with
  | Err e => Err (MuxedStrkey e)
  | Ok accountId => Ok (KeyTypeMuxedEd25519 (u64 id) accountId)
  end.

Definition SetEd25519Address (address : bytes) : result muxed_error MuxedAccount_ :=
  if go_len address =? 56 then
    match Decode VersionByteAccountID address with
    | Err e => Err (MuxedStrkey e)
    | Ok raw => Ok (KeyTypeEd25519 (copy_array (zero_array 32) raw))
    end
  else Err MuxedAddressLength.

(** Slicing the payload of a muxed account past its end would panic; [Decode]
    returns 40 bytes. *)
Definition Muxed_SetAddress (address : bytes) : result muxed_error MuxedAccount_ :=
  if go_len address =? 56 then SetEd25519Address address
  else if go_len address =? 69 then
    match Decode VersionByteMuxedAccount address with
    | Err e => Err (MuxedStrkey e)
    | Ok raw => Ok (KeyTypeMuxedEd25519 (Uint64_UnmarshalBinary (drop 32 raw)) (copy_array (zero_array 32) (take 32 raw)))
    end
  else Err MuxedAddressLength.
Definition AddressToMuxedAccount (address : bytes) : result muxed_error MuxedAccount_ := Muxed_SetAddress address.
Definition MustMuxedAddress (address : bytes) : option MuxedAccount_ :=
  match Muxed_SetAddress address with Ok m => Some m | Err _ => None end.

(** ** Claimable balances, pools, contracts *)
Definition ClaimableBalanceId : Type := Hash.
Definition ClaimableBalanceIdTypeV0 : byte := Byte.x00.

Inductive claimable_error : Type :=
| ClaimableStrkey (e : strkey_error)
| ClaimableType (t : byte).

Definition EncodeToStrkey (c : ClaimableBalanceId) : result strkey_error bytes :=
  Encode VersionByteClaimableBalance (ClaimableBalanceIdTypeV0 :: vec_to_list c).
Definition MustEncodeToStrkey (c : ClaimableBalanceId) : option bytes :=
  match EncodeToStrkey c with Ok a => Some a | Err _ => None end.

(** [None] is a payload without a first byte. *)
Definition DecodeFromStrkey (address : bytes) : option (result claimable_error ClaimableBalanceId) :=
  match Decode VersionByteClaimableBalance address with
  | Err e => Some (Err (ClaimableStrkey e))
  | Ok payload =>
      let! t := go_index payload 0 in
      if bool_decide (t = ClaimableBalanceIdTypeV0) then
        Some (Ok (copy_array (zero_array 32) (drop 1 payload)))
      else Some (Err (ClaimableType t))
  end.

Inductive ScAddress_ : Type :=
| ScAddressTypeAccount (accountId : AccountId)
| ScAddressTypeContract (contractId : Hash)
| ScAddressTypeMuxedAccount (id : Z) (ed25519 : vec byte 32)
| ScAddressTypeMuxedContract (id : Z) (contractId : Hash)
| ScAddressTypeLiquidityPool (liquidityPoolId : PoolId)
| ScAddressTypeClaimableBalance (claimableBalanceId : ClaimableBalanceId).

Definition ScAddress_String (address : ScAddress_) : result strkey_error bytes :=
  match address with
  | ScAddressTypeAccount accountId => Encode VersionByteAccountID (vec_to_list accountId)
  | ScAddressTypeContract contractId => Encode VersionByteContract (vec_to_list contractId)
  | ScAddressTypeMuxedAccount id ed => Muxed_GetAddress (KeyTypeMuxedEd25519 id ed)
  | ScAddressTypeMuxedContract id contractId =>
      Encode VersionByteMuxedContract (vec_to_list contractId ++ BigEndian_PutUint64 id)
  | ScAddressTypeLiquidityPool poolID => Encode VersionByteLiquidityPool (vec_to_list poolID)
  | ScAddressTypeClaimableBalance cbId => EncodeToStrkey cbId
  end.

(** The asset of a trust line; a pool share has none. *)
Definition ToAsset (tla : TrustLineAsset) : option Asset :=
  match tla with
  | TrustLineNative => Some Native
  | TrustLineAlphanum4 code issuer => Some (CreditAlphanum4 code issuer)
  | TrustLineAlphanum12 code issuer => Some (CreditAlphanum12 code issuer)
  | TrustLinePoolShare _ => None
  end.

(** ** Printed addresses

    A strkey of a payload of the length its kind has. *)
Definition address_of (v : byte) (p : bytes) : bytes := default [] (MustEncode v p).

Lemma address_of_Encode v p n : checkValidVersionByte v = None -> fixed_length v = Some n -> length p = n ->
  Encode v p = Ok (address_of v p) /\ Decode v (address_of v p) = Ok p.
Proof.
  intros Hv Hf Hl. destruct (Encode_fixed_ok v p n Hv Hf Hl) as (s & HE & HD).
  unfold address_of, MustEncode. by rewrite HE.
Qed.

Lemma MustEncode_address_of v p n : checkValidVersionByte v = None -> fixed_length v = Some n -> length p = n ->
  MustEncode v p = Some (address_of v p).
Proof. intros Hv Hf Hl. unfold MustEncode. by rewrite (proj1 (address_of_Encode v p n Hv Hf Hl)). Qed.

Lemma length_Encode v p s : Encode v p = Ok s -> exists r, (r < 5)%nat /\ (5 * length s = 8 * (length p + 3) + r)%nat.
Proof.
  unfold Encode. destruct (checkValidVersionByte v); [done|]. destruct (maxPayloadSize <? length p)%nat; [done|].
  cbv zeta. intros [= <-]. destruct (length_base32_Encode (v :: p ++ LittleEndian_PutUint16 (Checksum (v :: p)))) as (r & Hr & HL).
  rewrite length_cons, length_app, length_be_put16 in HL. exists r. split; [done|]. lia.
Qed.

(** The version and the payload of a string are unique. *)
Lemma Decode_unique v w s p q : Decode v s = Ok p -> Decode w s = Ok q -> v = w /\ p = q.
Proof. intros H%DecodeAny_Ok H'%DecodeAny_Ok. by simplify_eq. Qed.

Lemma Decode_other v w s p : Decode v s = Ok p -> v <> w -> is_Ok (Decode w s) = false.
Proof. intros H Hv. destruct (Decode w s) as [q|] eqn:E; [|done]. by destruct (Decode_unique _ _ _ _ _ H E). Qed.

Definition muxed_payload (id : Z) (ed : vec byte 32) : bytes := vec_to_list ed ++ Uint64_MarshalBinary id.
Lemma length_muxed_payload id ed : length (muxed_payload id ed) = 40%nat.
Proof. unfold muxed_payload, Uint64_MarshalBinary. by rewrite length_app, length_vec_to_list, length_be_put. Qed.

Definition muxed_address (m : MuxedAccount_) : bytes :=
  match m with
  | KeyTypeEd25519 ed => account_address ed
  | KeyTypeMuxedEd25519 id ed => address_of VersionByteMuxedAccount (muxed_payload id ed)
  end.
Definition pool_address (p : PoolId) : bytes := address_of VersionByteLiquidityPool (vec_to_list p).
Definition balance_address (c : ClaimableBalanceId) : bytes :=
  address_of VersionByteClaimableBalance (ClaimableBalanceIdTypeV0 :: vec_to_list c).
Definition contract_address (c : Hash) : bytes := address_of VersionByteContract (vec_to_list c).

Lemma Muxed_Address_Some m : Muxed_Address m = Some (muxed_address m).
Proof.
  unfold Muxed_Address, Muxed_GetAddress. destruct m as [ed|id ed].
  - by rewrite (proj1 (account_address_Encode ed)).
  - exact (MustEncode_address_of VersionByteMuxedAccount _ 40 eq_refl eq_refl (length_muxed_payload id ed)).
Qed.

Lemma MustEncode_pool p : MustEncode VersionByteLiquidityPool (vec_to_list p) = Some (pool_address p).
Proof. apply (MustEncode_address_of _ _ 32); [done|done|apply length_vec_to_list]. Qed.
Lemma MustEncode_contract c : MustEncode VersionByteContract (vec_to_list c) = Some (contract_address c).
Proof. apply (MustEncode_address_of _ _ 32); [done|done|apply length_vec_to_list]. Qed.
Lemma MustEncodeToStrkey_Some c : MustEncodeToStrkey c = Some (balance_address c).
Proof.
  change (MustEncode VersionByteClaimableBalance (ClaimableBalanceIdTypeV0 :: vec_to_list c) = Some (balance_address c)).
  apply (MustEncode_address_of _ _ 33); [done|done|]. rewrite length_cons. by rewrite length_vec_to_list.
Qed.

Lemma pool_address_Decode p : Decode VersionByteLiquidityPool (pool_address p) = Ok (vec_to_list p).
Proof. apply (address_of_Encode _ _ 32); [done|done|apply length_vec_to_list]. Qed.
Lemma balance_address_Decode c : Decode VersionByteClaimableBalance (balance_address c) = Ok (ClaimableBalanceIdTypeV0 :: vec_to_list c).
Proof. apply (address_of_Encode _ _ 33); [done|done|]. rewrite length_cons. by rewrite length_vec_to_list. Qed.
Lemma contract_address_Decode c : Decode VersionByteContract (contract_address c) = Ok (vec_to_list c).
Proof. apply (address_of_Encode _ _ 32); [done|done|apply length_vec_to_list]. Qed.
Lemma account_address_Decode k : Decode VersionByteAccountID (account_address k) = Ok (vec_to_list k).
Proof. apply account_address_Encode. Qed.
Lemma muxed_address_Decode id ed :
  Decode VersionByteMuxedAccount (muxed_address (KeyTypeMuxedEd25519 id ed)) = Ok (muxed_payload id ed).
Proof. apply (address_of_Encode _ _ 40); [done|done|apply length_muxed_payload]. Qed.

#[export] Instance pool_address_inj : Inj (=) (=) pool_address.
Proof. intros p q E. pose proof (pool_address_Decode p) as H. rewrite E, pool_address_Decode in H. injection H as H. by apply vec_to_list_inj2. Qed.
#[export] Instance balance_address_inj : Inj (=) (=) balance_address.
Proof. intros p q E. pose proof (balance_address_Decode p) as H. rewrite E, balance_address_Decode in H. injection H as H. by apply vec_to_list_inj2. Qed.

Lemma account_address_nonempty k : account_address k <> [].
Proof. intros E. pose proof (length_account_address k) as H. by rewrite E in H. Qed.

Lemma address_of_nonempty v p s : Decode v s = Ok p -> s <> [].
Proof. intros H%Encode_Decode_iff ->. destruct H as [H _]. destruct (length_Encode _ _ _ H) as (r & Hr & HL). cbn [length] in HL. lia. Qed.

(** ** Reading an address back *)
Definition muxed_ok (m : MuxedAccount_) : Prop := match m with KeyTypeEd25519 _ => True | KeyTypeMuxedEd25519 id _ => is_u64 id end.

(** The strings [MustMuxedAddress] accepts are those of the two kinds of account. *)
Lemma MustMuxedAddress_account s raw : Decode VersionByteAccountID s = Ok raw ->
  MustMuxedAddress s = Some (KeyTypeEd25519 (copy_array (zero_array 32) raw)).
Proof.
  intros HD. destruct (Decode_fixed _ _ _ 32 fixed_account HD) as [Hl HE]. destruct (length_Encode _ _ _ HE) as (r & Hr & HL).
  assert (Hs : length s = 56%nat) by lia. unfold MustMuxedAddress, Muxed_SetAddress, SetEd25519Address, go_len.
  rewrite Hs. cbn [Z.of_nat]. change (Z.of_nat 56 =? 56) with true. cbv iota. by rewrite HD.
Qed.

Lemma MustMuxedAddress_muxed s raw : Decode VersionByteMuxedAccount s = Ok raw ->
  MustMuxedAddress s = Some (KeyTypeMuxedEd25519 (Uint64_UnmarshalBinary (drop 32 raw)) (copy_array (zero_array 32) (take 32 raw))).
Proof.
  intros HD. destruct (Decode_fixed _ _ _ 40 fixed_muxed_account HD) as [Hl HE]. destruct (length_Encode _ _ _ HE) as (r & Hr & HL).
  assert (Hs : length s = 69%nat) by lia. unfold MustMuxedAddress, Muxed_SetAddress, go_len.
  rewrite Hs. change (Z.of_nat 69 =? 56) with false. change (Z.of_nat 69 =? 69) with true. cbv iota. by rewrite HD.
Qed.

Lemma MustMuxedAddress_roundtrip m : muxed_ok m -> MustMuxedAddress (muxed_address m) = Some m.
Proof.
  destruct m as [ed|id ed]; intros Hm.
  - cbn [muxed_address]. rewrite (MustMuxedAddress_account _ _ (account_address_Decode ed)). by rewrite copy_array_vec.
  - rewrite (MustMuxedAddress_muxed _ _ (muxed_address_Decode id ed)). unfold muxed_payload.
    destruct (vec_take_app ed (Uint64_MarshalBinary id)) as [-> ->]. unfold Uint64_UnmarshalBinary, Uint64_MarshalBinary.
    rewrite take_ge by (by rewrite length_be_put). by rewrite be_get_put8.
Qed.

(** ** Hashed identifiers and assets in text

    The identifiers that are the SHA-256 of a generated encoding: the contract of an
    asset (src/xdr/asset.go, [ContractID]), a liquidity pool (pool_id.go) and the
    claimable balance a revocation creates
    (src/processors/token_transfer/helpers.go); the lists of assets in text
    (asset.go, [BuildAssets]); and the assets of the events
    (src/asset/asset.go). The encodings are those of the [EncodeTo] methods of
    xdr_generated.go, on values whose encoding cannot fail. *)
(** [sha256.Sum256] into an array of 32 bytes. *)
Definition Sum256_array (m : bytes) : Hash := copy_array (zero_array 32) (Sum256 m).

Lemma Sum256_array_bytes m : vec_to_list (Sum256_array m) = Sum256 m.
Proof. apply vec_to_list_copy, length_Sum256. Qed.

(** ** Encodings *)
Definition AccountId_EncodeTo (aid : AccountId) : bytes := be_put 4 0 ++ vec_to_list aid.

Inductive HashIdPreimage : Type :=
| PreimagePoolRevokeOpId (SourceAccount : AccountId) (SeqNum OpNum : Z) (LiquidityPoolId : PoolId) (RevokedAsset : Asset)
| PreimageContractId (NetworkId : Hash) (FromAsset : Asset).

Definition HashIdPreimage_EncodeTo (p : HashIdPreimage) : bytes :=
  match p with
  | PreimagePoolRevokeOpId source seqNum opNum pool asset =>
      be_put 4 7 ++ AccountId_EncodeTo source ++ be_put 8 seqNum ++ be_put 4 opNum ++ vec_to_list pool ++ asset_xdr asset
  | PreimageContractId networkId asset =>
      be_put 4 8 ++ vec_to_list networkId ++ be_put 4 1 ++ asset_xdr asset
  end.

Definition LiquidityPoolParameters_EncodeTo (p : PoolParameters) : bytes :=
  be_put 4 0 ++ asset_xdr (AssetA p) ++ asset_xdr (AssetB p) ++ be_put 4 (Fee p).

(** ** Identifiers *)
Definition ContractID (a : Asset) (passphrase : bytes) : Hash :=
  let networkId := Sum256_array passphrase in
  Sum256_array (HashIdPreimage_EncodeTo (PreimageContractId networkId a)).

Definition ClaimableBalanceIdFromRevocation (liquidityPoolId : PoolId) (asset : Asset) (accountSequence : Z)
    (accountId : AccountId) (opIndex : Z) : ClaimableBalanceId :=
  Sum256_array (HashIdPreimage_EncodeTo (PreimagePoolRevokeOpId accountId accountSequence opIndex liquidityPoolId asset)).

Inductive pool_id_error : Type := AssetsOutOfOrder.

Definition NewPoolId (a b : Asset) (fee : Z) : option (result pool_id_error PoolId) :=
  let! less := LessThan a b in
  if negb less then Some (Err AssetsOutOfOrder)
  else Some (Ok (Sum256_array (LiquidityPoolParameters_EncodeTo (mkPoolParameters a b fee)))).

(** Different preimages have different encodings. *)
Lemma HashIdPreimage_revoke_inj source seqNum opNum pool asset source' seqNum' opNum' pool' asset' :
  is_i64 seqNum -> is_i64 seqNum' -> is_u32 opNum -> is_u32 opNum' ->
  HashIdPreimage_EncodeTo (PreimagePoolRevokeOpId source seqNum opNum pool asset) =
  HashIdPreimage_EncodeTo (PreimagePoolRevokeOpId source' seqNum' opNum' pool' asset') ->
  source = source' /\ pool = pool' /\ asset = asset'.
Proof.
  intros _ _ _ _ E. unfold HashIdPreimage_EncodeTo, AccountId_EncodeTo in E. rewrite <- !app_assoc in E.
  apply app_inv_head in E. apply app_inv_head in E.
  apply app_inj_1 in E as [Es E]; [|by rewrite !length_vec_to_list]. apply vec_to_list_inj2 in Es as <-.
  apply app_inj_1 in E as [_ E]; [|by rewrite !length_be_put].
  apply app_inj_1 in E as [_ E]; [|by rewrite !length_be_put].
  apply app_inj_1 in E as [Ep E]; [|by rewrite !length_vec_to_list]. apply vec_to_list_inj2 in Ep as <-.
  apply asset_xdr_inj in E as <-. done.
Qed.

(** ** Lists of assets in text *)
Definition comma : byte := byte_of_Z 44.
Definition colon : byte := byte_of_Z 58.

(** [strings.Split] for a separator of one byte. *)
Fixpoint strings_Split (sep : byte) (s : bytes) : list bytes :=
  match s with
  | [] => [[]]
  | c :: s =>
      if bool_decide (c = sep) then [] :: strings_Split sep s
      else match strings_Split sep s with
           | part :: parts => (c :: part) :: parts
           | [] => [[c]]
           end
  end.

(** [strings.ToLower], as far as comparing its result with the word native can
    tell: the ASCII letters, and the one other letter (U+0130, in UTF-8) that is
    mapped to one of that word. *)
Definition lower_byte (c : byte) : byte :=
  let v := Z_of_byte c in if (65 <=? v) && (v <=? 90) then byte_of_Z (v + 32) else c.
Fixpoint ToLower (s : bytes) : bytes :=
  match s with
  | Byte.xc4 :: Byte.xb0 :: s => byte_of_Z 105 :: ToLower s
  | c :: s => lower_byte c :: ToLower s
  | [] => []
  end.

Definition alnum (c : byte) : bool :=
  let v := Z_of_byte c in
  ((48 <=? v) && (v <=? 57)) || ((65 <=? v) && (v <=? 90)) || ((97 <=? v) && (v <=? 122)).
Definition ValidAssetCode (code : bytes) : bool :=
  (1 <=? go_len code) && (go_len code <=? 12) && forallb alnum code.

Inductive build_error : Type := NotValidAsset | InvalidAssetCode | InvalidIssuer.

Definition build_asset (assetString : bytes) : result build_error Asset :=
  if bool_decide (ToLower assetString = str "native") then Ok SetNative
  else match strings_Split colon assetString with
  | [code; address] =>
      if negb (ValidAssetCode code) then Err InvalidAssetCode
      else match AddressToAccountId address with
      | Err _ => Err InvalidIssuer
      | Ok issuer => match SetCredit code issuer with Err _ => Err NotValidAsset | Ok asset => Ok asset end
      end
  | _ => Err NotValidAsset
  end.

Fixpoint build_loop (assetStrings : list bytes) : result build_error (list Asset) :=
  match assetStrings with
  | [] => Ok []
  | s :: assetStrings =>
      let? asset := build_asset s in
      let? assets := build_loop assetStrings in
      Ok (asset :: assets)
  end.

Definition BuildAssets (s : bytes) : result build_error (list Asset) :=
  if bool_decide (s = []) then Ok [] else build_loop (strings_Split comma s).

(** ** The assets of events *)
Inductive ProtoAsset : Type :=
| Asset_Native
| Asset_IssuedAsset (AssetCode Issuer : bytes).
#[export] Instance ProtoAsset_eq_dec : EqDecision ProtoAsset.
Proof. solve_decision. Defined.

Definition NewProtoAsset (asset : Asset) : ProtoAsset :=
  if IsNative asset then Asset_Native
  else Asset_IssuedAsset (trimRightZeros (GetCode asset)) (GetIssuer asset).

Definition ToXdrAsset (a : ProtoAsset) : option Asset :=
  match a with
  | Asset_Native => Some Native
  | Asset_IssuedAsset code issuer => MustNewCreditAsset code issuer
  end.

(** The strings compared here are those of one asset each; [a.Native] is true in
    every native asset. *)
Definition ProtoAsset_Equals (a other : ProtoAsset) : bool := bool_decide (a = other).

(** An asset whose code is not all zeros. *)
Definition asset_named (a : Asset) : Prop := IsNative a = true \/ trimRightZeros (GetCode a) <> [].
#[export] Instance asset_named_dec a : Decision (asset_named a).
Proof. unfold asset_named. apply _. Defined.

Lemma trimRightZeros_last b : list.last (trimRightZeros b) <> Some zero_byte.
Proof.
  unfold trimRightZeros. destruct (Nat.eqb_spec (length b) 0) as [E|_]; [by apply nil_length_inv in E as ->|].
  assert (H : forall i, (i <= length b)%nat -> list.last (take (trim_loop i b) b) <> Some zero_byte).
  { induction i as [|i IH]; intros Hi; [done|]. cbn [trim_loop]. case_bool_decide as Hb; [apply IH; lia|].
    destruct (lookup_lt_is_Some_2 b i) as [x Hx]; [lia|]. rewrite (take_S_r b i x), last_snoc by done. congruence. }
  by apply H.
Qed.

Lemma length_trimRightZeros b : (length (trimRightZeros b) <= length b)%nat.
Proof. destruct (trimRightZeros_padded b) as [n Hn]. rewrite Hn at 2. rewrite length_app. lia. Qed.

Definition canonical_name (a : Asset) : bytes :=
  match a with
  | Native => str "native"
  | CreditAlphanum4 c i => trimRightZeros (vec_to_list c) ++ str ":" ++ account_address i
  | CreditAlphanum12 c i => trimRightZeros (vec_to_list c) ++ str ":" ++ account_address i
  end.

Lemma StringCanonical_name a : StringCanonical a = Some (canonical_name a).
Proof.
  unfold StringCanonical, Extract. destruct a as [|c i|c i]; [done|..].
  - by rewrite MustEncode_account.
  - by rewrite MustEncode_account.
Qed.

Lemma SetAddress_account k : SetAddress (account_address k) = Ok k.
Proof. unfold SetAddress. rewrite account_address_Decode. by rewrite copy_array_vec. Qed.

(** The asset an event carries is the one it was made from, by name. *)
Lemma ToXdrAsset_NewProtoAsset a : asset_named a ->
  exists a', ToXdrAsset (NewProtoAsset a) = Some a' /\ canonical_name a' = canonical_name a.
Proof.
  intros Hn.
  assert (H : forall code i, (length code <= 12)%nat -> trimRightZeros code <> [] ->
    exists a', MustNewCreditAsset (trimRightZeros code) (account_address i) = Some a' /\
      canonical_name a' = trimRightZeros code ++ str ":" ++ account_address i).
  { intros code i Hl Hc. unfold MustNewCreditAsset, NewCreditAsset. rewrite SetAddress_account.
    pose proof (length_trimRightZeros code) as Ht. pose proof (trimRightZeros_last code) as Hlast.
    assert (H1 : (1 <= length (trimRightZeros code))%nat) by (destruct (trimRightZeros code); [done|cbn; lia]).
    destruct (SetCredit (trimRightZeros code) i) as [a'|e] eqn:E.
    - exists a'. split; [done|]. destruct (SetCredit_Ok _ _ _ E) as [[H ->]|[H ->]]; cbn [canonical_name];
        rewrite length_copy_code by lia; by rewrite trimRightZeros_app_zeros.
    - exfalso. unfold SetCredit, go_len in E. revert E. repeat case_bool; try done; lia. }
  unfold NewProtoAsset. destruct a as [|c i|c i]; [by exists Native|..].
  all: destruct Hn as [Hn|Hn]; [done|]; cbn [GetCode] in Hn; change (IsNative _) with false; cbv iota;
    unfold GetIssuer, AccountId_GetAddress; cbn [GetIssuerAccountId GetCode];
    rewrite (proj1 (account_address_Encode i)); apply H; [rewrite length_vec_to_list; lia|done].
Qed.

(** ** Known identifiers *)
Module KnownIds.
Definition public_network : bytes := str "Public Global Stellar Network ; September 2015".

Lemma native_contract :
  contract_address (ContractID Native public_network) = str "CAS3J7GYLGXMF6TDJBBYYSE3HQ6BBSMLNUQ34T6TZMYMW2EVH34XOWMA".
Proof. vm_compute. reflexivity. Qed.
End KnownIds.
