(* ===== verification/Envelopes.v ===== *)
(** * Transactions, operations and their results

    The envelope of a transaction, its operations and the results of a transaction,
    with the accessors of src/xdr/transaction_envelope.go, transaction.go,
    preconditions.go, memo.go, transaction_result.go, claim_atom.go and
    path_payment_result.go. An operation keeps the fields the token events are made
    of; the types of operation and of result nothing reads are one arm. *)
From Stdlib Require Import ZArith Lia.
From stdpp Require Import base list vector option gmap sorting.
From S2P Require Import Prelude GoStd GoExt Price Encodings Strkey Asset LedgerEntries CloseMeta Accounts.
#[local] Open Scope Z_scope.
#[local] Open Scope go_scope.

(** ** Operations *)
Inductive OperationBody : Type :=
| CreateAccountOp (Destination : AccountId) (StartingBalance : Z)
| PaymentOp (Destination : MuxedAccount_) (PaymentAsset : Asset) (Amount : Z)
| PathPaymentStrictReceiveOp (Destination : MuxedAccount_) (DestAsset : Asset) (DestAmount : Z)
| PathPaymentStrictSendOp (Destination : MuxedAccount_) (DestAsset : Asset) (DestMin : Z)
| ManageSellOfferOp
| ManageBuyOfferOp
| CreatePassiveSellOfferOp
| AllowTrustOp
| SetTrustLineFlagsOp
| AccountMergeOp (Destination : MuxedAccount_)
| InflationOp
| CreateClaimableBalanceOp (BalanceAsset : Asset) (Amount : Z)
| ClaimClaimableBalanceOp (BalanceId : ClaimableBalanceId)
| ClawbackOp (ClawedAsset : Asset) (From : MuxedAccount_) (Amount : Z)
| ClawbackClaimableBalanceOp (BalanceId : ClaimableBalanceId)
| LiquidityPoolDepositOp
| LiquidityPoolWithdrawOp
| InvokeHostFunctionOp
| OtherOp (Type_ : Z).

(** [op_SourceAccount] is nil when the operation has no source of its own. *)
Record Operation : Type := mkOperation { op_SourceAccount : option MuxedAccount_; op_Body : OperationBody }.

(** ** Memos and preconditions *)
Inductive Memo_ : Type :=
| MemoTypeMemoNone
| MemoTypeMemoText (Text : bytes)
| MemoTypeMemoId (Id : Z)
| MemoTypeMemoHash (hash : Hash)
| MemoTypeMemoReturn (RetHash : Hash)
| MemoTypeUnknown (Type_ : Z).

Definition MemoText (text : bytes) : Memo_ := MemoTypeMemoText text.
Definition MemoID (id : Z) : Memo_ := MemoTypeMemoId id.
Definition MemoHash (hash : Hash) : Memo_ := MemoTypeMemoHash hash.
Definition MemoRetHash (hash : Hash) : Memo_ := MemoTypeMemoReturn hash.

Record TimeBounds_ : Type := mkTimeBounds { MinTime : Z; MaxTime : Z }.
Record LedgerBounds_ : Type := mkLedgerBounds { MinLedger : Z; MaxLedger : Z }.

(** Extra signers by their encodings. *)
Record PreconditionsV2 : Type := mkPreconditionsV2 {
  V2_TimeBounds : option TimeBounds_;
  V2_LedgerBounds : option LedgerBounds_;
  V2_MinSeqNum : option Z;
  V2_MinSeqAge : Z;
  V2_MinSeqLedgerGap : Z;
  V2_ExtraSigners : list bytes
}.
Inductive Preconditions_ : Type :=
| PreconditionTypePrecondNone
| PreconditionTypePrecondTime (timeBounds : TimeBounds_)
| PreconditionTypePrecondV2 (V2 : PreconditionsV2)
| PreconditionTypeUnknown (Type_ : Z).

Definition NewPreconditionsWithTimeBounds (timebounds : option TimeBounds_) : Preconditions_ :=
  match timebounds with None => PreconditionTypePrecondNone | Some t => PreconditionTypePrecondTime t end.

(** ** Transactions *)

(** [tx_SorobanData] is the extension of a smart contract transaction: its resource
    fee and what it may instruct, read and write; its footprint by the keys it reads
    and those it writes; in [ArchivedEntries], when its own extension has them, which
    of those are to be restored. *)
Section Footprint.
Context {ET : EntryTypes}.
Record SorobanData : Type := mkSorobanData {
  ArchivedEntries : option (list Z);
  ResourceFee : Z;
  Instructions : Z;
  DiskReadBytes : Z;
  WriteBytes : Z;
  ReadOnly : list LedgerKey;
  ReadWrite : list LedgerKey
}.

Record TransactionV0 : Type := mkTransactionV0 {
  V0_SourceAccountEd25519 : vec byte 32;
  V0_Fee : Z;
  V0_SeqNum : Z;
  V0_TimeBounds : option TimeBounds_;
  V0_Memo : Memo_;
  V0_Operations : list Operation
}.
Record Transaction : Type := mkTx {
  tx_SourceAccount : MuxedAccount_;
  tx_Fee : Z;
  tx_SeqNum : Z;
  tx_Cond : Preconditions_;
  tx_Memo : Memo_;
  tx_Operations : list Operation;
  tx_SorobanData : option SorobanData
}.

(** Signatures by their bytes. *)
Inductive Envelope_ : Type :=
| EnvelopeTypeTxV0 (V0 : TransactionV0) (Signatures : list bytes)
| EnvelopeTypeTx (V1 : Transaction) (Signatures : list bytes)
| EnvelopeTypeTxFeeBump (FeeSource : MuxedAccount_) (Fee : Z) (InnerTx : Transaction) (InnerSignatures Signatures : list bytes)
| EnvelopeTypeOther (Type_ : Z).

Definition Tx_TimeBounds (tx : Transaction) : option (option TimeBounds_) :=
  match tx_Cond tx with
  | PreconditionTypePrecondNone => Some None
  | PreconditionTypePrecondTime t => Some (Some t)
  | PreconditionTypePrecondV2 v => Some (V2_TimeBounds v)
  | PreconditionTypeUnknown _ => None
  end.

(** What an accessor reads of the preconditions: nil without their second version. *)
Definition of_V2 {A} (f : PreconditionsV2 -> option A) (tx : Transaction) : option (option A) :=
  match tx_Cond tx with
  | PreconditionTypePrecondNone | PreconditionTypePrecondTime _ => Some None
  | PreconditionTypePrecondV2 v => Some (f v)
  | PreconditionTypeUnknown _ => None
  end.
Definition Tx_LedgerBounds : Transaction -> option (option LedgerBounds_) := of_V2 V2_LedgerBounds.
Definition Tx_MinSeqNum : Transaction -> option (option Z) := of_V2 V2_MinSeqNum.
Definition Tx_MinSeqAge : Transaction -> option (option Z) := of_V2 (fun v => Some (V2_MinSeqAge v)).
Definition Tx_MinSeqLedgerGap : Transaction -> option (option Z) := of_V2 (fun v => Some (V2_MinSeqLedgerGap v)).
Definition Tx_ExtraSigners : Transaction -> option (option (list bytes)) := of_V2 (fun v => Some (V2_ExtraSigners v)).

(** ** Accessors of the envelope *)

(** The transaction inside, of a fee bump the inner one; the other types panic. *)
Definition inner {A} (f0 : TransactionV0 -> A) (f : Transaction -> A) (e : Envelope_) : option A :=
  match e with
  | EnvelopeTypeTxFeeBump _ _ inner _ _ => Some (f inner)
  | EnvelopeTypeTx tx _ => Some (f tx)
  | EnvelopeTypeTxV0 tx _ => Some (f0 tx)
  | EnvelopeTypeOther _ => None
  end.

Definition IsFeeBump (e : Envelope_) : bool := match e with EnvelopeTypeTxFeeBump _ _ _ _ _ => true | _ => false end.
Definition FeeBumpAccount (e : Envelope_) : option MuxedAccount_ :=
  match e with EnvelopeTypeTxFeeBump feeSource _ _ _ _ => Some feeSource | _ => None end.
Definition FeeBumpFee (e : Envelope_) : option Z :=
  match e with EnvelopeTypeTxFeeBump _ fee _ _ _ => Some fee | _ => None end.
Definition FeeBumpSignatures (e : Envelope_) : option (list bytes) :=
  match e with EnvelopeTypeTxFeeBump _ _ _ _ sigs => Some sigs | _ => None end.

Definition SourceAccount : Envelope_ -> option MuxedAccount_ :=
  inner (fun tx => KeyTypeEd25519 (V0_SourceAccountEd25519 tx)) tx_SourceAccount.
Definition FeeAccount (e : Envelope_) : option MuxedAccount_ :=
  if IsFeeBump e then FeeBumpAccount e else SourceAccount e.
Definition Envelope_Fee : Envelope_ -> option Z := inner (fun tx => u32 (V0_Fee tx)) (fun tx => u32 (tx_Fee tx)).
Definition Signatures (e : Envelope_) : option (list bytes) :=
  match e with
  | EnvelopeTypeTxFeeBump _ _ _ sigs _ => Some sigs
  | EnvelopeTypeTx _ sigs => Some sigs
  | EnvelopeTypeTxV0 _ sigs => Some sigs
  | EnvelopeTypeOther _ => None
  end.
Definition SeqNum : Envelope_ -> option Z := inner V0_SeqNum tx_SeqNum.
Definition Memo : Envelope_ -> option Memo_ := inner V0_Memo tx_Memo.
Definition Operations : Envelope_ -> option (list Operation) := inner V0_Operations tx_Operations.
Definition OperationsCount (e : Envelope_) : option Z := let! ops := Operations e in Some (u32 (go_len ops)).

Definition TimeBounds (e : Envelope_) : option (option TimeBounds_) :=
  let! r := inner (fun tx => Some (V0_TimeBounds tx)) Tx_TimeBounds e in r.
Definition LedgerBounds (e : Envelope_) : option (option LedgerBounds_) :=
  let! r := inner (fun _ => Some None) Tx_LedgerBounds e in r.
Definition MinSeqAge (e : Envelope_) : option (option Z) :=
  let! r := inner (fun _ => Some None) Tx_MinSeqAge e in r.
Definition MinSeqLedgerGap (e : Envelope_) : option (option Z) :=
  let! r := inner (fun _ => Some None) Tx_MinSeqLedgerGap e in r.
Definition ExtraSigners (e : Envelope_) : option (option (list bytes)) :=
  let! r := inner (fun _ => Some None) Tx_ExtraSigners e in r.

(** Unlike [Tx_MinSeqNum], this accessor takes an unknown type for none. *)
Definition MinSeqNum : Envelope_ -> option (option Z) :=
  inner (fun _ => None) (fun tx => match tx_Cond tx with PreconditionTypePrecondV2 v => V2_MinSeqNum v | _ => None end).
Definition Preconditions (e : Envelope_) : option Preconditions_ :=
  match e with
  | EnvelopeTypeTxV0 _ _ => let! t := TimeBounds e in Some (NewPreconditionsWithTimeBounds t)
  | _ => inner (fun _ => PreconditionTypePrecondNone) tx_Cond e
  end.
End Footprint.

(** ** Trades *)
Inductive ClaimAtom : Type :=
| ClaimAtomTypeV0 (SellerEd25519 : vec byte 32) (OfferId : Z) (AssetSold : Asset) (AmountSold : Z) (AssetBought : Asset) (AmountBought : Z)
| ClaimAtomTypeOrderBook (SellerId : AccountId) (OfferId : Z) (AssetSold : Asset) (AmountSold : Z) (AssetBought : Asset) (AmountBought : Z)
| ClaimAtomTypeLiquidityPool (LiquidityPoolId : PoolId) (AssetSold : Asset) (AmountSold : Z) (AssetBought : Asset) (AmountBought : Z).

Definition claim_OfferId (a : ClaimAtom) : option Z :=
  match a with
  | ClaimAtomTypeV0 _ o _ _ _ _ => Some o
  | ClaimAtomTypeOrderBook _ o _ _ _ _ => Some o
  | ClaimAtomTypeLiquidityPool _ _ _ _ _ => None
  end.
Definition claim_SellerId (a : ClaimAtom) : option AccountId :=
  match a with
  | ClaimAtomTypeV0 s _ _ _ _ _ => Some s
  | ClaimAtomTypeOrderBook s _ _ _ _ _ => Some s
  | ClaimAtomTypeLiquidityPool _ _ _ _ _ => None
  end.
Definition AssetSold (a : ClaimAtom) : Asset :=
  match a with
  | ClaimAtomTypeV0 _ _ s _ _ _ => s
  | ClaimAtomTypeOrderBook _ _ s _ _ _ => s
  | ClaimAtomTypeLiquidityPool _ s _ _ _ => s
  end.
Definition AmountSold (a : ClaimAtom) : Z :=
  match a with
  | ClaimAtomTypeV0 _ _ _ s _ _ => s
  | ClaimAtomTypeOrderBook _ _ _ s _ _ => s
  | ClaimAtomTypeLiquidityPool _ _ s _ _ => s
  end.
Definition AssetBought (a : ClaimAtom) : Asset :=
  match a with
  | ClaimAtomTypeV0 _ _ _ _ b _ => b
  | ClaimAtomTypeOrderBook _ _ _ _ b _ => b
  | ClaimAtomTypeLiquidityPool _ _ _ b _ => b
  end.
Definition AmountBought (a : ClaimAtom) : Z :=
  match a with
  | ClaimAtomTypeV0 _ _ _ _ _ b => b
  | ClaimAtomTypeOrderBook _ _ _ _ _ b => b
  | ClaimAtomTypeLiquidityPool _ _ _ _ b => b
  end.

(** ** Results of operations *)

(** The success arm of a path payment: the offers it took and the amount of its last
    step. *)
Record PathPaymentSuccess : Type := mkPathSuccess { Offers : list ClaimAtom; LastAmount : Z }.

(** [None] in place of a success is another code of the result. *)
Inductive OperationResultTr : Type :=
| ManageSellOfferResult (Success : option (list ClaimAtom))
| CreatePassiveSellOfferResult (Success : option (list ClaimAtom))
| ManageBuyOfferResult (Success : option (list ClaimAtom))
| PathPaymentStrictSendResult (Success : option PathPaymentSuccess)
| PathPaymentStrictReceiveResult (Success : option PathPaymentSuccess)
| AccountMergeResult (SourceAccountBalance : option Z)
| InflationResult (Payouts : option (list (AccountId * Z)))
| CreateClaimableBalanceResult (BalanceId : option ClaimableBalanceId)
| OtherResult (Type_ : Z).

(** An operation that was not tried has no result. *)
Definition OperationResult : Type := option OperationResultTr.

Definition DestAmount (success : option PathPaymentSuccess) : Z :=
  match success with Some s => LastAmount s | None => 0 end.

(** The loop that adds up the amounts bought while the asset is the first one's. *)
Fixpoint SendAmount_loop (sa : bytes) (ret : Z) (offers : list ClaimAtom) : option Z :=
  match offers with
  | [] => Some ret
  | o :: offers =>
      let! name := Asset_String (AssetBought o) in
      if negb (bool_decide (name = sa)) then Some ret
      else SendAmount_loop sa (i64 (ret + AmountBought o)) offers
  end.
Definition SendAmount (success : option PathPaymentSuccess) : option Z :=
  match success with
  | None => Some 0
  | Some s =>
      match Offers s with
      | [] => Some (LastAmount s)
      | o :: _ => let! sa := Asset_String (AssetBought o) in SendAmount_loop sa 0 (Offers s)
      end
  end.

(** What a result holds besides its code: the fee charged, the results of the
    operations of a transaction ([GetResults]: none for most codes), and of a fee bump
    the hash and the results of the inner transaction. *)
Record ResultRest_ : Type := mkResultRest {
  FeeCharged_ : Z;
  Results : option (list OperationResult);
  InnerResultPair : option (Hash * option (list OperationResult))
}.

Abbreviation TransactionResultCodeTxSuccess := 0.
Abbreviation TransactionResultCodeTxFeeBumpInnerSuccess := 1.

Definition Successful (code : Z) : bool :=
  (code =? TransactionResultCodeTxSuccess) || (code =? TransactionResultCodeTxFeeBumpInnerSuccess).

Definition OperationResults (r : ResultRest_) : option (list OperationResult) :=
  match InnerResultPair r with
  | Some (_, results) => results
  | None => Results r
  end.

Definition InnerHash (r : ResultRest_) : option Hash := let! p := InnerResultPair r in Some p.1.

Inductive balance_id_error : Type := NoOperationResults | InvalidOperationIndex.

(** The balance is nil when the operation's result has another code. *)
Definition ExtractBalanceID (r : ResultRest_) (opIndex : Z) : option (result balance_id_error (option ClaimableBalanceId)) :=
  match OperationResults r with
  | None => Some (Err NoOperationResults)
  | Some opResults =>
      if (opIndex <? 0) || (go_len opResults <=? opIndex) then Some (Err InvalidOperationIndex)
      else
        let! result := go_index opResults opIndex in
        match result with
        | Some (CreateClaimableBalanceResult balanceId) => Some (Ok balanceId)
        | _ => None
        end
  end.
