(* ===== verification/Transactions.v ===== *)
(** * The accessors of a transaction

    The rest of src/ingest/ledger_transaction.go and src/xdr/transaction_meta.go: the
    fees a transaction paid, read from the changes of its fee account's balance, its
    events, and the fields of its envelope in print. Here the types the readers keep
    opaque are concrete: values of contracts, the balances of entries, envelopes and
    results. [None] is a panic; an accessor's second result, whether there is
    something to report, is an option inside. *)
From Stdlib Require Import ZArith Lia.
From stdpp Require Import base list vector option gmap sorting.
From S2P Require Import Prelude GoStd GoExt Price Amount Encodings Strkey Asset LedgerEntries Compactor CloseMeta LedgerChanges TransactionReader.
From S2P Require Import Accounts Envelopes Toid.
#[local] Open Scope Z_scope.
#[local] Open Scope go_scope.

(** ** Concrete types *)

(** The arms of a contract value the events read; [ScvMap None] is a map that is
    nil. *)
Inductive ScVal_ : Type :=
| ScvVoid
| ScvU64 (v : Z)
| ScvI128 (v : Int128Parts)
| ScvBytes (b : bytes)
| ScvString (s : bytes)
| ScvSymbol (s : bytes)
| ScvMap (m : option (list (ScVal_ * ScVal_)))
| ScvAddress (a : ScAddress_)
| ScvOther (Type_ : Z).

(** What an entry holds: the balance of an account or a trust line; the amount and
    the asset of a claimable balance. *)
Record HoldingFields : Type := mkHolding { Balance : Z; HeldAsset : Asset }.
#[export] Instance token_entries : EntryTypes :=
  {| ScAddress := ScAddress_; ScVal := ScVal_; Fields := HoldingFields |}.

(** The hash of an envelope on a network. *)
Class NetworkHash := { hash_envelope : Envelope_ -> bytes -> option Hash }.
#[export] Instance token_transactions {NH : NetworkHash} : TransactionTypes :=
  {| TransactionEnvelope := Envelope_; LedgerUpgrade_ := bytes; ResultRest := ResultRest_;
     HashTransactionInEnvelope := hash_envelope |}.

Definition HexString (h : Hash) : bytes := hex_EncodeToString (vec_to_list h).

Section Transactions.
Context {NH : NetworkHash} {KE : @KeyEncoding token_entries}.
#[local] Abbreviation LedgerTransaction := (@LedgerTransaction token_entries token_transactions).
#[local] Abbreviation ContractEvent := (@ContractEvent token_entries).
Implicit Types t : LedgerTransaction.

Definition tx_FeeAccount t : option MuxedAccount_ := FeeAccount (Envelope t).

(** ** Operations and events *)
Definition GetOperation t (index : Z) : option (option Operation) :=
  let! ops := Operations (Envelope t) in
  if go_len ops <=? index then Some None
  else let! op := go_index ops index in Some (Some op).

(** [None] inside is an unsupported version of the meta. *)
Definition Meta_GetContractEventsForOperation (m : TransactionMeta) (opIndex : Z) : option (option (list ContractEvent)) :=
  match m with
  | MetaV1 _ _ | MetaV2 _ _ _ => Some (Some [])
  | MetaV3 _ _ _ None => Some (Some [])
  | MetaV3 _ _ _ (Some soroban) => Some (Some (soroban_Events soroban))
  | MetaV4 _ ops _ _ _ =>
      if go_len ops =? 0 then Some (Some [])
      else let! op := go_index ops opIndex in Some (Some (op_Events op))
  | MetaV0 _ | MetaUnknown _ => Some None
  end.
Definition Meta_GetDiagnosticEvents (m : TransactionMeta) : option (list DiagnosticEvent) :=
  match m with
  | MetaV1 _ _ | MetaV2 _ _ _ => Some []
  | MetaV3 _ _ _ None => Some []
  | MetaV3 _ _ _ (Some soroban) => Some (soroban_DiagnosticEvents soroban)
  | MetaV4 _ _ _ _ diagnostic => Some diagnostic
  | MetaV0 _ | MetaUnknown _ => None
  end.
Definition Meta_GetTransactionEvents (m : TransactionMeta) : option (list TransactionEvent_) :=
  match m with
  | MetaV1 _ _ | MetaV2 _ _ _ | MetaV3 _ _ _ _ => Some []
  | MetaV4 _ _ _ events _ => Some events
  | MetaV0 _ | MetaUnknown _ => None
  end.

Definition GetContractEventsForOperation t (opIndex : Z) : option (option (list ContractEvent)) :=
  Meta_GetContractEventsForOperation (UnsafeMeta t) opIndex.

Definition GetSorobanData t : option (option SorobanData) :=
  match Envelope t with
  | EnvelopeTypeTx tx _ => Some (tx_SorobanData tx)
  | EnvelopeTypeTxFeeBump _ _ tx _ _ => Some (tx_SorobanData tx)
  | EnvelopeTypeTxV0 _ _ => Some None
  | EnvelopeTypeOther typ => if bool_decide (typ ∈ [1; 3; 4; 6; 7; 8; 9]) then Some None else None
  end.
Definition IsSorobanTx t : option bool := let! data := GetSorobanData t in Some (match data with Some _ => true | None => false end).

Inductive events_error : Type := NotSoroban | EventsMetaVersion (V : Z).

Definition GetContractEvents t : option (result events_error (list ContractEvent)) :=
  let! soroban := IsSorobanTx t in
  if negb soroban then Some (Err NotSoroban)
  else
    let! events := GetContractEventsForOperation t 0 in
    Some (match events with Some l => Ok l | None => Err (EventsMetaVersion (Meta_V (UnsafeMeta t))) end).

Definition GetDiagnosticEvents t : result events_error (list DiagnosticEvent) :=
  match Meta_GetDiagnosticEvents (UnsafeMeta t) with Some l => Ok l | None => Err (EventsMetaVersion (Meta_V (UnsafeMeta t))) end.

Record TransactionEvents_ : Type := mkTransactionEvents {
  TransactionEvents : list TransactionEvent_;
  OperationEvents : list (list ContractEvent);
  DiagnosticEvents_ : list DiagnosticEvent
}.

Definition GetTransactionEvents t : option (result events_error TransactionEvents_) :=
  match UnsafeMeta t with
  | MetaV1 _ _ | MetaV2 _ _ _ => Some (Ok (mkTransactionEvents [] [] []))
  | MetaV3 _ _ _ _ =>
      let! soroban := IsSorobanTx t in
      if negb soroban then Some (Ok (mkTransactionEvents [] [] []))
      else
        let! contract := GetContractEvents t in
        Some (let? contractEvents := contract in
              let? diagnosticEvents := GetDiagnosticEvents t in
              Ok (mkTransactionEvents [] [contractEvents] diagnosticEvents))
  | MetaV4 _ ops _ events diagnostic => Some (Ok (mkTransactionEvents events (map op_Events ops) diagnostic))
  | MetaV0 _ => Some (Err (EventsMetaVersion 0))
  | MetaUnknown v => Some (Err (EventsMetaVersion v))
  end.

(** ** Fees *)

(** The loop over the changes: the last state and the last update of the account. *)
Fixpoint account_balance_loop (changes : list LedgerEntryChange) (address : bytes) (start end_ : Z) : option (Z * Z) :=
  match changes with
  | [] => Some (start, end_)
  | change :: changes =>
      match change with
      | EntryUpdated e =>
          match Data e with
          | DataAccount accountId fields =>
              let! a := AccountId_Address accountId in
              account_balance_loop changes address start (if bool_decide (a = address) then Balance fields else end_)
          | _ => account_balance_loop changes address start end_
          end
      | EntryState e =>
          match Data e with
          | DataAccount accountId fields =>
              let! a := AccountId_Address accountId in
              account_balance_loop changes address (if bool_decide (a = address) then Balance fields else start) end_
          | _ => account_balance_loop changes address start end_
          end
      | EntryCreated _ | EntryRemoved _ => account_balance_loop changes address start end_
      | EntryRestored _ | EntryUnknown _ => None
      end
  end.
Definition getAccountBalanceFromLedgerEntryChanges (changes : list LedgerEntryChange) (sourceAccountAddress : bytes) : option (Z * Z) :=
  account_balance_loop changes sourceAccountAddress 0 0.

Definition OriginalFeeCharged t : option Z :=
  let! feeAccount := tx_FeeAccount t in
  let! address := AccountId_Address (ToAccountId feeAccount) in
  let! (startingBal, endingBal) := getAccountBalanceFromLedgerEntryChanges (FeeChanges t) address in
  if startingBal <? endingBal then None else Some (i64 (startingBal - endingBal)).

Definition SorobanResourceFeeRefund t : option Z :=
  let! soroban := IsSorobanTx t in
  if negb soroban then Some 0
  else
    let! txChangesAfter := match UnsafeMeta t with
      | MetaV3 _ _ after _ => Some after
      | MetaV4 _ _ after _ _ => Some after
      | _ => None
      end in
    let! feeAccount := tx_FeeAccount t in
    let! address := AccountId_Address (ToAccountId feeAccount) in
    let! (startingBal, endingBal) :=
      getAccountBalanceFromLedgerEntryChanges (txChangesAfter ++ PostTxApplyFeeChanges t) address in
    if endingBal <? startingBal then None else Some (i64 (endingBal - startingBal)).

Definition result_FeeCharged t : Z := FeeCharged_ (pair_Rest (tx_Result t)).

(** Before protocol 21 the result of a smart contract's fee bump counts the refund. *)
Definition FeeCharged t : option Z :=
  let! data := GetSorobanData t in
  match data with
  | Some _ =>
      let! header := LedgerHeaderHistoryEntry (tx_Ledger t) in
      if (u32 (LedgerVersion header) <? 21) && IsFeeBump (Envelope t) then
        let! resourceFeeRefund := SorobanResourceFeeRefund t in
        Some (i64 (result_FeeCharged t - resourceFeeRefund))
      else Some (result_FeeCharged t)
  | None => Some (result_FeeCharged t)
  end.

(** A field of the extension of a smart contract transaction. *)
Definition soroban_field {A} (f : SorobanData -> A) t : option (option A) :=
  let! data := GetSorobanData t in Some (match data with Some d => Some (f d) | None => None end).
Definition SorobanResourceFee : LedgerTransaction -> option (option Z) := soroban_field ResourceFee.
Definition SorobanResourcesInstructions : LedgerTransaction -> option (option Z) := soroban_field Instructions.
Definition SorobanResourcesDiskReadBytes : LedgerTransaction -> option (option Z) := soroban_field DiskReadBytes.
Definition SorobanResourcesWriteBytes : LedgerTransaction -> option (option Z) := soroban_field WriteBytes.

Definition MaxFee t : option Z := Envelope_Fee (Envelope t).
Definition SorobanInclusionFeeBid t : option (option Z) :=
  let! resourceFee := SorobanResourceFee t in
  match resourceFee with
  | None => Some None
  | Some resourceFee => let! fee := Envelope_Fee (Envelope t) in Some (Some (i64 (fee - resourceFee)))
  end.

Definition FeeAccountAddress t : option (option bytes) :=
  match Envelope t with
  | EnvelopeTypeTx tx _ => let! a := Muxed_Address (tx_SourceAccount tx) in Some (Some a)
  | EnvelopeTypeTxFeeBump feeSource _ _ _ _ => let! a := Muxed_Address feeSource in Some (Some a)
  | EnvelopeTypeTxV0 _ _ => Some None
  | EnvelopeTypeOther typ => if bool_decide (typ ∈ [1; 3; 4; 6; 7; 8; 9]) then Some None else None
  end.

Definition SorobanInclusionFeeCharged t : option (option Z) :=
  let! resourceFee := SorobanResourceFee t in
  match resourceFee with
  | None => Some None
  | Some resourceFee =>
      let! feeAccountAddress := FeeAccountAddress t in
      match feeAccountAddress with
      | None => Some None
      | Some address =>
          let! (start, end_) := getAccountBalanceFromLedgerEntryChanges (FeeChanges t) address in
          let initialFeeCharged := i64 (start - end_) in
          Some (Some (i64 (initialFeeCharged - resourceFee)))
      end
  end.

Definition OperationCount t : option Z := OperationsCount (Envelope t).

(** Dividing by no operations panics. *)
Definition InclusionFeeCharged t : option (option Z) :=
  let! inclusionFee := SorobanInclusionFeeCharged t in
  match inclusionFee with
  | Some fee => Some (Some fee)
  | None =>
      let! operationCount := OperationCount t in
      let operationCount := if IsFeeBump (Envelope t) then u32 (operationCount + 1) else operationCount in
      let! feeCharged := FeeCharged t in
      if operationCount =? 0 then None else Some (Some (i64 (Z.quot feeCharged operationCount)))
  end.

(** A fee of the meta of a smart contract. The meta is nil for other transactions, and
    without the extension the accessor panics. *)
Definition soroban_fee (f : SorobanFees -> Z) t : option (option Z) :=
  match UnsafeMeta t with
  | MetaV3 _ _ _ soroban => let! m := soroban in let! fees := soroban_V1 m in Some (Some (f fees))
  | _ => Some None
  end.
Definition SorobanTotalNonRefundableResourceFeeCharged := soroban_fee TotalNonRefundableResourceFeeCharged.
Definition SorobanTotalRefundableResourceFeeCharged := soroban_fee TotalRefundableResourceFeeCharged.
Definition SorobanRentFeeCharged := soroban_fee RentFeeCharged.

(** ** Fields *)
Definition tx_ID t : option Z :=
  let! sequence := CloseMeta.LedgerSequence (tx_Ledger t) in
  Toid.ToInt64 (New (i32 sequence) (i32 (Index t)) 0).

Definition Account t : option (result strkey_error bytes) :=
  let! source := SourceAccount (Envelope t) in Some (AccountId_GetAddress (ToAccountId source)).
Definition AccountSequence t : option Z := SeqNum (Envelope t).

Definition AccountMuxed t : option (option bytes) :=
  let! source := SourceAccount (Envelope t) in
  match source with
  | KeyTypeEd25519 _ => Some None
  | KeyTypeMuxedEd25519 _ _ => let! a := Muxed_Address source in Some (Some a)
  end.

Definition text_Memo t : option bytes :=
  let! memo := Memo (Envelope t) in
  match memo with
  | MemoTypeMemoNone => Some []
  | MemoTypeMemoText text => Some text
  | MemoTypeMemoId id => Some (FormatUint id)
  | MemoTypeMemoHash h | MemoTypeMemoReturn h => Some (StdEncoding_EncodeToString (vec_to_list h))
  | MemoTypeUnknown _ => None
  end.

Definition bounds_text (lo hi : bytes) : bytes := str "[" ++ lo ++ str "," ++ hi ++ str ")".
Definition text_TimeBounds t : option (option bytes) :=
  let! timeBounds := TimeBounds (Envelope t) in
  Some (match timeBounds with
        | None => None
        | Some b => Some (bounds_text (FormatUint (MinTime b)) (if MaxTime b =? 0 then [] else FormatUint (MaxTime b)))
        end).
Definition text_LedgerBounds t : option (option bytes) :=
  let! ledgerBounds := LedgerBounds (Envelope t) in
  Some (match ledgerBounds with
        | None => None
        | Some b => Some (bounds_text (FormatInt (MinLedger b)) (FormatInt (MaxLedger b)))
        end).
Definition MinSequence t : option (option Z) := MinSeqNum (Envelope t).
Definition MinSequenceAge t : option (option Z) :=
  let! age := MinSeqAge (Envelope t) in Some (match age with None => None | Some a => Some (i64 a) end).
Definition MinSequenceLedgerGap t : option (option Z) := MinSeqLedgerGap (Envelope t).

Definition tx_Successful t : bool := Successful (ResultCode (tx_Result t)).

Fixpoint getTxSigners (xdrSignatures : list bytes) : result strkey_error (list bytes) :=
  match xdrSignatures with
  | [] => Ok []
  | sig :: rest =>
      let? signer := Encode VersionByteAccountID sig in
      let? signers := getTxSigners rest in
      Ok (signer :: signers)
  end.
Definition Signers t : option (result strkey_error (list bytes)) :=
  if IsFeeBump (Envelope t) then let! sigs := FeeBumpSignatures (Envelope t) in Some (getTxSigners sigs)
  else let! sigs := Signatures (Envelope t) in Some (getTxSigners sigs).

Definition InnerTransactionHash t : option (option bytes) :=
  if negb (IsFeeBump (Envelope t)) then Some None
  else let! innerHash := InnerHash (pair_Rest (tx_Result t)) in Some (Some (HexString innerHash)).
Definition NewMaxFee t : option (option Z) :=
  if negb (IsFeeBump (Envelope t)) then Some None else let! fee := FeeBumpFee (Envelope t) in Some (Some fee).

Definition GetTransactionV1Envelope t : option Transaction :=
  match Envelope t with
  | EnvelopeTypeTx tx _ => Some tx
  | EnvelopeTypeTxFeeBump _ _ tx _ _ => Some tx
  | _ => None
  end.

(** ** Footprints *)

(** [xdr.MarshalBase64] of a key; it panics when encoding fails. An empty encoding is
    left out. *)
Fixpoint footprint_hashes (keys : list LedgerKey) : option (list bytes) :=
  match keys with
  | [] => Some []
  | key :: keys =>
      let! b := UnsafeMarshalBinary key in
      let! rest := footprint_hashes keys in
      let text := StdEncoding_EncodeToString b in
      Some (if bool_decide (text = []) then rest else text :: rest)
  end.
Definition LedgerKeyHashesFromSorobanFootprint t : option (list bytes) :=
  match GetTransactionV1Envelope t with
  | None => Some []
  | Some tx =>
      let! data := tx_SorobanData tx in
      let! ro := footprint_hashes (ReadOnly data) in
      let! rw := footprint_hashes (ReadWrite data) in
      Some (ro ++ rw)
  end.

(** The loop over the keys that stops at the first one [f] has something for, and
    gives up at the first one it is not for: [Some None] goes on. *)
Fixpoint first_of (f : LedgerKey -> option bytes) (keys : list LedgerKey) : option (option bytes) :=
  match keys with
  | [] => Some None
  | key :: keys =>
      match f key with
      | None => None
      | Some [] => first_of f keys
      | Some text => Some (Some text)
      end
  end.
Definition search_footprint (f : LedgerKey -> option bytes) (first second : list LedgerKey) : option bytes :=
  match first_of f first with
  | None => None
  | Some (Some text) => Some text
  | Some None =>
      match first_of f second with
      | None => None
      | Some (Some text) => Some text
      | Some None => Some []
      end
  end.

Definition contractCodeFromContractData (key : LedgerKey) : option bytes :=
  match key with LedgerKeyContractCode hash => Some (StdEncoding_EncodeToString (vec_to_list hash)) | _ => None end.
Definition contractIdFromContractData (key : LedgerKey) : option bytes :=
  match key with
  | LedgerKeyContractData (ScAddressTypeContract contractId) _ _ => Some (contract_address contractId)
  | _ => None
  end.

Definition ContractCodeHashFromSorobanFootprint t : option (option bytes) :=
  match GetTransactionV1Envelope t with
  | None => Some None
  | Some tx =>
      let! data := tx_SorobanData tx in Some (search_footprint contractCodeFromContractData (ReadOnly data) (ReadWrite data))
  end.
Definition ContractIdFromTxEnvelope t : option (option bytes) :=
  match GetTransactionV1Envelope t with
  | None => Some None
  | Some tx =>
      let! data := tx_SorobanData tx in Some (search_footprint contractIdFromContractData (ReadWrite data) (ReadOnly data))
  end.
End Transactions.

(** ** Fees of a muxed account

    The changes name accounts by G addresses, so nothing in them has the address of a
    muxed fee account: the fee for inclusion is then minus the resource fee. *)
Lemma account_balance_loop_other changes address s e :
  (forall k, account_address k <> address) ->
  account_balance_loop changes address s e = Some (s, e) \/ account_balance_loop changes address s e = None.
Proof.
  intros Hk. induction changes as [|c changes IH]; [by left|]. cbn [account_balance_loop].
  assert (Ha : forall k, AccountId_Address k = Some (account_address k)).
  { intros k. unfold AccountId_Address, AccountId_GetAddress. by rewrite (proj1 (account_address_Encode k)). }
  destruct c as [x|x|x|x|x|x]; try done; try (by right); destruct (Data x); try done;
    rewrite Ha; by rewrite bool_decide_eq_false_2.
Qed.

Lemma muxed_inclusion_fee {NH : NetworkHash} (t : LedgerTransaction) tx sigs id ed data fee :
  Envelope t = EnvelopeTypeTx tx sigs -> tx_SourceAccount tx = KeyTypeMuxedEd25519 id ed -> tx_SorobanData tx = Some data ->
  is_i64 (- ResourceFee data) -> SorobanInclusionFeeCharged t = Some (Some fee) -> fee = - ResourceFee data.
Proof.
  intros He Hs Hd Hr. unfold SorobanInclusionFeeCharged, SorobanResourceFee, soroban_field, GetSorobanData, FeeAccountAddress,
    getAccountBalanceFromLedgerEntryChanges. rewrite He, Hd, Hs, Muxed_Address_Some.
  destruct (account_balance_loop_other (FeeChanges t) (muxed_address (KeyTypeMuxedEd25519 id ed)) 0 0) as [-> | ->]; [|intros [= <-]|done].
  - intros k E. pose proof (account_address_Decode k) as D. rewrite E in D.
    by destruct (Decode_unique _ _ _ _ _ D (muxed_address_Decode id ed)).
  - change (i64 (0 - 0)) with 0. by rewrite Z.sub_0_l, i64_id.
Qed.
