(* ===== verification/TokenEvents.v ===== *)
(** * Token transfer events

    src/processors/token_transfer/token_transfer_event.go and muxed_info.go: an event
    is the arm of a union, with the amount in decimal and, when the asset is known,
    the asset; its meta says where it happened. An event is only changed right after
    it is made, before anything else refers to it, so the model passes values. *)
From Stdlib Require Import ZArith Lia.
From stdpp Require Import base list vector option gmap sorting.
From S2P Require Import Prelude GoStd GoExt Price Amount Encodings Strkey Asset LedgerEntries Compactor CloseMeta LedgerChanges TransactionReader.
From S2P Require Import Accounts Envelopes Toid Sha256 Transactions.
#[local] Open Scope Z_scope.
#[local] Open Scope go_scope.

(** ** Muxed information *)
Inductive MuxedInfo : Type :=
| MuxedInfo_Text (Text : bytes)
| MuxedInfo_Id (Id : Z)
| MuxedInfo_Hash (hash : bytes).
#[export] Instance MuxedInfo_eq_dec : EqDecision MuxedInfo.
Proof. solve_decision. Defined.

Definition NewMuxedInfoFromId (id : Z) : MuxedInfo := MuxedInfo_Id id.
Definition NewMuxedInfoFromText (text : bytes) : MuxedInfo := MuxedInfo_Text text.

(** Nil for a transaction without a memo; an unknown type panics. *)
Definition NewMuxedInfoFromMemo (m : Memo_) : option (option MuxedInfo) :=
  match m with
  | MemoTypeMemoNone => Some None
  | MemoTypeMemoId id => Some (Some (NewMuxedInfoFromId id))
  | MemoTypeMemoText text => Some (Some (MuxedInfo_Text text))
  | MemoTypeMemoHash h => Some (Some (MuxedInfo_Hash (vec_to_list h)))
  | MemoTypeMemoReturn h => Some (Some (MuxedInfo_Hash (vec_to_list h)))
  | MemoTypeUnknown _ => None
  end.

(** ** Events *)

(** [ClosedAt] in seconds; [OperationIndex] counts from 1, and is nil for the events
    of a transaction. *)
Record EventMeta : Type := mkEventMeta {
  meta_LedgerSequence : Z;
  ClosedAt : Z;
  TxHash : bytes;
  TransactionIndex : Z;
  OperationIndex_ : option Z;
  ContractAddress : bytes;
  ToMuxedInfo : option MuxedInfo
}.
#[export] Instance EventMeta_eq_dec : EqDecision EventMeta.
Proof. solve_decision. Defined.

Inductive token_event : Type :=
| Transfer (From To amount : bytes) (token : option ProtoAsset)
| Mint (To amount : bytes) (token : option ProtoAsset)
| Burn (From amount : bytes) (token : option ProtoAsset)
| Clawback (From amount : bytes) (token : option ProtoAsset)
| FeeOf (From amount : bytes) (token : option ProtoAsset).
#[export] Instance token_event_eq_dec : EqDecision token_event.
Proof. solve_decision. Defined.

Record TokenTransferEvent : Type := mkTokenEvent { Meta : EventMeta; Event_ : token_event }.
#[export] Instance TokenTransferEvent_eq_dec : EqDecision TokenTransferEvent.
Proof. solve_decision. Defined.

Definition TransferEvent : bytes := str "transfer".
Definition MintEvent : bytes := str "mint".
Definition BurnEvent : bytes := str "burn".
Definition ClawbackEvent : bytes := str "clawback".
Definition FeeEvent : bytes := str "fee".

Definition NewTransferEvent (meta : EventMeta) (from to amount : bytes) (token : option ProtoAsset) : TokenTransferEvent :=
  mkTokenEvent meta (Transfer from to amount token).
Definition NewMintEvent (meta : EventMeta) (to amount : bytes) (token : option ProtoAsset) : TokenTransferEvent :=
  mkTokenEvent meta (Mint to amount token).
Definition NewBurnEvent (meta : EventMeta) (from amount : bytes) (token : option ProtoAsset) : TokenTransferEvent :=
  mkTokenEvent meta (Burn from amount token).
Definition NewClawbackEvent (meta : EventMeta) (from amount : bytes) (token : option ProtoAsset) : TokenTransferEvent :=
  mkTokenEvent meta (Clawback from amount token).
Definition NewFeeEvent (meta : EventMeta) (from amount : bytes) (token : option ProtoAsset) : TokenTransferEvent :=
  mkTokenEvent meta (FeeOf from amount token).

Definition GetEventType (event : TokenTransferEvent) : bytes :=
  match Event_ event with
  | Transfer _ _ _ _ => TransferEvent
  | Mint _ _ _ => MintEvent
  | Burn _ _ _ => BurnEvent
  | Clawback _ _ _ => ClawbackEvent
  | FeeOf _ _ _ => FeeEvent
  end.
Definition GetAsset (event : TokenTransferEvent) : option ProtoAsset :=
  match Event_ event with
  | Transfer _ _ _ a | Mint _ _ a | Burn _ _ a | Clawback _ _ a | FeeOf _ _ a => a
  end.
Definition GetAmount (event : TokenTransferEvent) : bytes :=
  match Event_ event with
  | Transfer _ _ n _ | Mint _ n _ | Burn _ n _ | Clawback _ n _ | FeeOf _ n _ => n
  end.
Definition SetAsset (event : TokenTransferEvent) (asset : Asset) : TokenTransferEvent :=
  let protoAsset := Some (NewProtoAsset asset) in
  mkTokenEvent (Meta event)
    match Event_ event with
    | Mint to n _ => Mint to n protoAsset
    | Burn from n _ => Burn from n protoAsset
    | Clawback from n _ => Clawback from n protoAsset
    | FeeOf from n _ => FeeOf from n protoAsset
    | Transfer from to n _ => Transfer from to n protoAsset
    end.

Definition set_ToMuxedInfo (event : TokenTransferEvent) (info : option MuxedInfo) : TokenTransferEvent :=
  let m := Meta event in
  mkTokenEvent (mkEventMeta (meta_LedgerSequence m) (ClosedAt m) (TxHash m) (TransactionIndex m) (OperationIndex_ m)
                  (ContractAddress m) info) (Event_ event).

(** ** The asset of the native token *)
Definition xlmAsset : Asset := SetNative.
Definition xlmProtoAsset : ProtoAsset := Asset_Native.

Definition isAccountAddress (addr : bytes) : bool :=
  IsValidEd25519PublicKey (Some addr) || IsValidMuxedAccountEd25519PublicKey addr.

(** The id of an M address; of a G address nothing. *)
Lemma isAccountAddress_muxed s : isAccountAddress s = true ->
  exists m, MustMuxedAddress s = Some m /\
    IsValidMuxedAccountEd25519PublicKey s = match m with KeyTypeEd25519 _ => false | KeyTypeMuxedEd25519 _ _ => true end.
Proof.
  unfold isAccountAddress, IsValidEd25519PublicKey, IsValidMuxedAccountEd25519PublicKey, valid_interface.
  destruct (Decode VersionByteAccountID s) as [raw|] eqn:D; cbn [is_Ok orb].
  - intros _. eexists. split; [exact (MustMuxedAddress_account s raw D)|]. by apply (Decode_other _ _ _ _ D).
  - destruct (Decode VersionByteMuxedAccount s) as [raw|] eqn:D'; [|done]. intros _.
    eexists. split; [exact (MustMuxedAddress_muxed s raw D')|done].
Qed.

Lemma isAccountAddress_other v s p : Decode v s = Ok p -> v <> VersionByteAccountID -> v <> VersionByteMuxedAccount ->
  isAccountAddress s = false.
Proof.
  intros D H H'. unfold isAccountAddress, IsValidEd25519PublicKey, IsValidMuxedAccountEd25519PublicKey, valid_interface.
  by rewrite (Decode_other _ _ _ _ D H), (Decode_other _ _ _ _ D H').
Qed.

Lemma isAccountAddress_muxed_address m : isAccountAddress (muxed_address m) = true.
Proof.
  unfold isAccountAddress, IsValidEd25519PublicKey, IsValidMuxedAccountEd25519PublicKey, valid_interface.
  destruct m as [ed|id ed].
  - change (muxed_address (KeyTypeEd25519 ed)) with (account_address ed). by rewrite account_address_Decode.
  - rewrite muxed_address_Decode. by rewrite orb_true_r.
Qed.

Section Metas.
Context {NH : NetworkHash}.
#[local] Abbreviation LedgerTransaction := (@LedgerTransaction token_entries token_transactions).

(** The index of an operation wraps at the end of its type. *)
Definition NewEventMetaFromTx (tx : LedgerTransaction) (operationIndex : option Z) (contractAddress : bytes) : option EventMeta :=
  let outputOpIndex := match operationIndex with None => None | Some i => Some (u32 (i + 1)) end in
  let! sequence := CloseMeta.LedgerSequence (tx_Ledger tx) in
  let! closedAt := LedgerCloseTime (tx_Ledger tx) in
  Some (mkEventMeta sequence closedAt (HexString (tx_Hash tx)) (Index tx) outputOpIndex contractAddress None).

Inductive event_error : Type :=
| MissingAddress (eventType : bytes)
| MuxedIdError (e : muxed_error).

Definition setDestinationMuxedInfo (e : TokenTransferEvent) (to : bytes) (tx : LedgerTransaction) :
    option (result event_error TokenTransferEvent) :=
  if negb (isAccountAddress to) then Some (Ok e)
  else if IsValidMuxedAccountEd25519PublicKey to then
    let! muxedAcc := MustMuxedAddress to in
    match Muxed_GetId muxedAcc with
    | Err err => Some (Err (MuxedIdError err))
    | Ok muxedId => Some (Ok (set_ToMuxedInfo e (Some (NewMuxedInfoFromId muxedId))))
    end
  else
    let! txMemo := Memo (Envelope tx) in
    let! info := NewMuxedInfoFromMemo txMemo in
    Some (Ok (set_ToMuxedInfo e info)).
End Metas.
