(* ===== verification/TokenDeltas.v ===== *)
(** * Balance deltas

    src/processors/token_transfer/verify_events.go up to [VerifyEvents]: the net change
    of every holder's balance of every asset, from events and from ledger entry
    changes. The two loops are shown to compute the same thing, the sum of signed
    movements, so that the maps of events and of changes can be compared as sums. *)
From Stdlib Require Import ZArith Lia.
From stdpp Require Import base list vector option gmap sorting.
From S2P Require Import Prelude GoStd GoExt Price Amount Encodings Strkey Asset LedgerEntries Compactor CloseMeta LedgerChanges TransactionReader.
From S2P Require Import Accounts Envelopes Toid Sha256 Transactions TokenEvents.
#[local] Open Scope Z_scope.
#[local] Open Scope go_scope.

(** ** math/big: parsing in base 10 *)
Definition digits_value (s : bytes) : option Z :=
  if bool_decide (s = []) then None else if forallb is_digit s then Some (dec_val s) else None.
Definition big_SetString (s : bytes) : option Z :=
  match s with
  | [] => None
  | c :: d =>
      if bool_decide (c = minus_sign) then let! v := digits_value d in Some (- v)
      else if bool_decide (c = plus_sign) then digits_value d
      else digits_value s
  end.

Lemma digits_value_FormatUint n : 0 <= n -> digits_value (FormatUint n) = Some n.
Proof.
  intros Hn. destruct (FormatUint_spec n Hn) as (H1 & H2 & H3 & _). unfold digits_value.
  rewrite bool_decide_eq_false_2 by done.
  assert (forallb is_digit (FormatUint n) = true) as ->; [|by rewrite H3].
  apply forallb_forall. intros x Hx. rewrite List.Forall_forall in H2. by apply H2.
Qed.

Lemma big_SetString_FormatInt z : big_SetString (FormatInt z) = Some z.
Proof.
  unfold FormatInt. destruct (Z.ltb_spec z 0) as [Hz|Hz]; unfold big_SetString.
  - rewrite bool_decide_eq_true_2, digits_value_FormatUint by (done || lia). f_equal. lia.
  - pose proof (digits_value_FormatUint z Hz) as Hv. destruct (FormatUint_spec z Hz) as (H1 & H2 & _ & _).
    destruct (FormatUint z) as [|c d]; [done|]. inversion H2 as [|? ? Hc _]; subst.
    destruct (digit_facts c Hc) as (Hm & Hp & _). by rewrite !bool_decide_eq_false_2.
Qed.

(** Binding a result that may also panic. *)
Definition try_bind {E A B} (r : option (result E A)) (k : A -> option (result E B)) : option (result E B) :=
  match r with Some (Ok a) => k a | Some (Err e) => Some (Err e) | None => None end.
Notation "'try!' x := e 'in' k" :=
  (try_bind e (fun x => k)) (at level 10, x pattern, e at level 100, k at level 200) : go_scope.

Lemma try_bind_Ok {E A B} (r : option (result E A)) (k : A -> option (result E B)) b :
  try_bind r k = Some (Ok b) -> exists a, r = Some (Ok a) /\ k a = Some (Ok b).
Proof. destruct r as [[a|e]|]; [by exists a|done|done]. Qed.

(** ** Keys and maps *)
Definition balanceKey : Type := bytes * bytes.
Definition holder (k : balanceKey) : bytes := k.1.
Abbreviation balance_map := (gmap (bytes * bytes) Z).

(** Contracts, whose movements are left out. *)
Definition untracked (address : bytes) : bool := IsValidContractAddress (Some address) || IsValidMuxedContractAddress address.

Definition updateBalanceMap (m : balance_map) (key : balanceKey) (delta : Z) : balance_map :=
  if untracked (holder key) then m
  else if Z.sgn delta =? 0 then m
  else match m !! key with
  | Some existing =>
      let existing := existing + delta in
      if Z.sgn existing =? 0 then delete key m else <[key := existing]> m
  | None => <[key := delta]> m
  end.

Inductive delta_error : Type := InvalidAmount (amountStr eventType : bytes).

Definition parseAmount (amountStr eventType : bytes) : result delta_error Z :=
  match big_SetString amountStr with Some amt => Ok amt | None => Err (InvalidAmount amountStr eventType) end.

(** The canonical string of the asset of an event. *)
Definition event_asset (event : TokenTransferEvent) : option bytes :=
  let! a := GetAsset event in
  let! asset := ToXdrAsset a in
  StringCanonical asset.

(** ** Deltas of events *)
Definition event_deltas (m : balance_map) (event : TokenTransferEvent) : option (result delta_error balance_map) :=
  match GetAsset event with
  | None => Some (Ok m)
  | Some _ =>
      match Event_ event with
      | FeeOf from n _ =>
          let! asset := StringCanonical xlmAsset in
          try! amt := Some (parseAmount n (GetEventType event)) in
          Some (Ok (updateBalanceMap m (from, asset) (- amt)))
      | Transfer from to n _ =>
          try! amt := Some (parseAmount n (GetEventType event)) in
          let! asset := event_asset event in
          Some (Ok (updateBalanceMap (updateBalanceMap m (from, asset) (- amt)) (to, asset) amt))
      | Mint to n _ =>
          let! asset := event_asset event in
          try! amt := Some (parseAmount n (GetEventType event)) in
          Some (Ok (updateBalanceMap m (to, asset) amt))
      | Burn from n _ =>
          let! asset := event_asset event in
          try! amt := Some (parseAmount n (GetEventType event)) in
          Some (Ok (updateBalanceMap m (from, asset) (- amt)))
      | Clawback from n _ =>
          let! asset := event_asset event in
          try! amt := Some (parseAmount n (GetEventType event)) in
          Some (Ok (updateBalanceMap m (from, asset) (- amt)))
      end
  end.

Fixpoint events_loop (m : balance_map) (events : list TokenTransferEvent) : option (result delta_error balance_map) :=
  match events with
  | [] => Some (Ok m)
  | event :: events => try! m := event_deltas m event in events_loop m events
  end.
Definition findBalanceDeltasFromEvents (events : list TokenTransferEvent) : option (result delta_error balance_map) :=
  events_loop ∅ events.

(** ** Deltas of changes *)

(** The two sides of a change, by the arm its type names: [MustAccount] and the like
    panic on another arm. *)
Section Sides.
Context {A : Type} (arm : LedgerEntryData -> option A).
Definition change_sides (c : Change) : option (option A * option A) :=
  let! pre := match Pre c with None => Some None | Some e => let! a := arm (Data e) in Some (Some a) end in
  let! post := match Post c with None => Some None | Some e => let! a := arm (Data e) in Some (Some a) end in
  Some (pre, post).
End Sides.

(** What a variable set from the side before and then from the side after holds. *)
Definition last_set {A B} (zero : B) (f : A -> B) (sides : option A * option A) : B :=
  match sides with (_, Some a) => f a | (Some a, None) => f a | (None, None) => zero end.
Definition side_amount {A} (f : A -> Z) (side : option A) : Z := match side with Some a => f a | None => 0 end.

Definition arm_Account (d : LedgerEntryData) : option (bytes * Z) :=
  match d with
  | DataAccount accountId fields => let! a := AccountId_Address accountId in Some (a, Balance fields)
  | _ => None
  end.
Definition fetchAccountDeltaFromChange (change : Change) (m : balance_map) : option balance_map :=
  let! sides := change_sides arm_Account change in
  let delta := i64 (side_amount snd sides.2 - side_amount snd sides.1) in
  let! xlm := StringCanonical xlmAsset in
  Some (updateBalanceMap m (last_set [] fst sides, xlm) delta).

(** A trust line to shares of a pool is skipped: [Some None]. *)
Definition arm_TrustLine (d : LedgerEntryData) : option (option (bytes * bytes * Z)) :=
  match d with
  | DataTrustLine _ (TrustLinePoolShare _) _ => Some None
  | DataTrustLine accountId line fields =>
      let! a := AccountId_Address accountId in
      let! asset := ToAsset line in
      let! name := StringCanonical asset in
      Some (Some (a, name, Balance fields))
  | _ => None
  end.
Definition fetchTrustlineDeltaFromChange (change : Change) (m : balance_map) : option balance_map :=
  let! pre := match Pre change with None => Some (Some None) | Some e =>
      let! a := arm_TrustLine (Data e) in Some (match a with None => None | Some x => Some (Some x) end) end in
  match pre with
  | None => Some m
  | Some pre =>
      let! post := match Post change with None => Some (Some None) | Some e =>
          let! a := arm_TrustLine (Data e) in Some (match a with None => None | Some x => Some (Some x) end) end in
      match post with
      | None => Some m
      | Some post =>
          let delta := i64 (side_amount snd post - side_amount snd pre) in
          Some (updateBalanceMap m (last_set ([], []) fst (pre, post)) delta)
      end
  end.

Definition arm_ClaimableBalance (d : LedgerEntryData) : option (bytes * bytes * Z) :=
  match d with
  | DataClaimableBalance balanceId fields =>
      let! key := MustEncodeToStrkey balanceId in
      let! name := StringCanonical (HeldAsset fields) in
      Some (key, name, Balance fields)
  | _ => None
  end.
Definition fetchClaimableDeltaFromChange (change : Change) (m : balance_map) : option balance_map :=
  let! sides := change_sides arm_ClaimableBalance change in
  let delta := i64 (side_amount snd sides.2 - side_amount snd sides.1) in
  Some (updateBalanceMap m (last_set ([], []) fst sides) delta).

Definition lpIdToStrkey (lpId : PoolId) : option bytes := MustEncode VersionByteLiquidityPool (vec_to_list lpId).

(** The pool's address, its two assets and its two reserves. A nil constant-product
    arm is dereferenced. *)
Definition arm_LiquidityPool (d : LedgerEntryData) : option (bytes * bytes * bytes * (Z * Z)) :=
  match d with
  | DataLiquidityPool pool =>
      let! key := lpIdToStrkey (LiquidityPoolId pool) in
      let! cp := ConstantProduct (Body pool) in
      let! a := StringCanonical (AssetA (Params cp)) in
      let! b := StringCanonical (AssetB (Params cp)) in
      Some (key, a, b, (ReserveA cp, ReserveB cp))
  | _ => None
  end.
Definition fetchLiquidityPoolDeltaFromChange (change : Change) (m : balance_map) : option balance_map :=
  let! sides := change_sides arm_LiquidityPool change in
  let '(key, a, b) := last_set ([], [], []) fst sides in
  let deltaA := i64 (side_amount (fun s => (snd s).1) sides.2 - side_amount (fun s => (snd s).1) sides.1) in
  let deltaB := i64 (side_amount (fun s => (snd s).2) sides.2 - side_amount (fun s => (snd s).2) sides.1) in
  Some (updateBalanceMap (updateBalanceMap m (key, a) deltaA) (key, b) deltaB).

Definition change_deltas (m : balance_map) (change : Change) : option balance_map :=
  match Type_ change with
  | LedgerEntryTypeAccount => fetchAccountDeltaFromChange change m
  | LedgerEntryTypeTrustline => fetchTrustlineDeltaFromChange change m
  | LedgerEntryTypeClaimableBalance => fetchClaimableDeltaFromChange change m
  | LedgerEntryTypeLiquidityPool => fetchLiquidityPoolDeltaFromChange change m
  | _ => Some m
  end.
Fixpoint changes_deltas (m : balance_map) (changes : list Change) : option balance_map :=
  match changes with
  | [] => Some m
  | change :: changes => let! m := change_deltas m change in changes_deltas m changes
  end.
Definition findBalanceDeltasFromChanges (changes : list Change) : option balance_map := changes_deltas ∅ changes.

(** ** Movements

    What an event or a change moves: signed amounts by key. *)
Abbreviation movements := (list ((bytes * bytes) * Z)).

Definition native_name : bytes := str "native".

Definition event_moves (event : TokenTransferEvent) : option movements :=
  match GetAsset event with
  | None => Some []
  | Some _ =>
      let! amt := big_SetString (GetAmount event) in
      match Event_ event with
      | FeeOf from _ _ => Some [((from, native_name), - amt)]
      | Transfer from to _ _ => let! asset := event_asset event in Some [((from, asset), - amt); ((to, asset), amt)]
      | Mint to _ _ => let! asset := event_asset event in Some [((to, asset), amt)]
      | Burn from _ _ => let! asset := event_asset event in Some [((from, asset), - amt)]
      | Clawback from _ _ => let! asset := event_asset event in Some [((from, asset), - amt)]
      end
  end.

Definition change_moves (change : Change) : option movements :=
  match Type_ change with
  | LedgerEntryTypeAccount =>
      let! sides := change_sides arm_Account change in
      Some [((last_set [] fst sides, native_name), i64 (side_amount snd sides.2 - side_amount snd sides.1))]
  | LedgerEntryTypeTrustline =>
      let! pre := match Pre change with None => Some (Some None) | Some e =>
          let! a := arm_TrustLine (Data e) in Some (match a with None => None | Some x => Some (Some x) end) end in
      match pre with
      | None => Some []
      | Some pre =>
          let! post := match Post change with None => Some (Some None) | Some e =>
              let! a := arm_TrustLine (Data e) in Some (match a with None => None | Some x => Some (Some x) end) end in
          match post with
          | None => Some []
          | Some post => Some [(last_set ([], []) fst (pre, post), i64 (side_amount snd post - side_amount snd pre))]
          end
      end
  | LedgerEntryTypeClaimableBalance =>
      let! sides := change_sides arm_ClaimableBalance change in
      Some [(last_set ([], []) fst sides, i64 (side_amount snd sides.2 - side_amount snd sides.1))]
  | LedgerEntryTypeLiquidityPool =>
      let! sides := change_sides arm_LiquidityPool change in
      let '(key, a, b) := last_set ([], [], []) fst sides in
      Some [((key, a), i64 (side_amount (fun s => (snd s).1) sides.2 - side_amount (fun s => (snd s).1) sides.1));
            ((key, b), i64 (side_amount (fun s => (snd s).2) sides.2 - side_amount (fun s => (snd s).2) sides.1))]
  | _ => Some []
  end.

Fixpoint all_moves {A} (moves : A -> option movements) (l : list A) : option movements :=
  match l with
  | [] => Some []
  | x :: l => let! ms := moves x in let! rest := all_moves moves l in Some (ms ++ rest)
  end.

Definition apply_moves (m : balance_map) (ms : movements) : balance_map :=
  fold_left (fun m kd => updateBalanceMap m kd.1 kd.2) ms m.

Definition total (k : balanceKey) (ms : movements) : Z :=
  foldr (fun kd acc => (if bool_decide (kd.1 = k) then kd.2 else 0) + acc) 0 ms.

(** A map holds a balance when it has its nonzero values at the tracked keys. *)
Definition holds (m : balance_map) (f : balanceKey -> Z) : Prop :=
  forall k, m !! k = (if untracked (holder k) || (f k =? 0) then None else Some (f k)).

Lemma total_app k a b : total k (a ++ b) = total k a + total k b.
Proof. unfold total in *. induction a as [|x a IH]; cbn [app foldr]; [done|]. by rewrite IH, Z.add_assoc. Qed.

Lemma total_perm k a b : a ≡ₚ b -> total k a = total k b.
Proof.
  induction 1 as [|x a b _ IH|x y a|a b c _ IH1 _ IH2]; unfold total in *; cbn [foldr]; [done|by rewrite IH| |congruence].
  by rewrite !Z.add_assoc, (Z.add_comm (if bool_decide (y.1 = k) then y.2 else 0)).
Qed.

Lemma sgn_zero z : (Z.sgn z =? 0) = (z =? 0).
Proof. by destruct z. Qed.

Lemma updateBalanceMap_holds m f key d : holds m f ->
  holds (updateBalanceMap m key d) (fun k => f k + (if bool_decide (key = k) then d else 0)).
Proof.
  intros H k. unfold updateBalanceMap. rewrite !sgn_zero.
  destruct (untracked (holder key)) eqn:Eu.
  { rewrite H. case_bool_decide as E; [subst; by rewrite Eu|by rewrite Z.add_0_r]. }
  destruct (Z.eqb_spec d 0) as [->|Hd].
  { rewrite H. case_bool_decide; by rewrite Z.add_0_r. }
  assert (Hne : forall (x : option Z) (g : Z), key <> k -> (untracked (holder k) || (f k =? 0)) = (untracked (holder k) || (f k + 0 =? 0)))
    by (intros; by rewrite Z.add_0_r).
  pose proof (H key) as Hk. rewrite Eu in Hk. cbn [orb] in Hk.
  destruct (Z.eqb_spec (f key) 0) as [E0|E0]; rewrite Hk; [|rewrite sgn_zero; destruct (Z.eqb_spec (f key + d) 0) as [E1|E1]];
    case_bool_decide as E; try subst k; rewrite ?lookup_insert_eq, ?lookup_insert_ne, ?lookup_delete_eq, ?lookup_delete_ne, ?Eu by done;
    rewrite ?E0, ?Z.add_0_l, ?Z.add_0_r; cbn [orb]; try apply H.
  - by rewrite (proj2 (Z.eqb_neq d 0)).
  - by rewrite E1.
  - by rewrite (proj2 (Z.eqb_neq _ 0)).
Qed.

Lemma apply_moves_holds ms : forall m f, holds m f -> holds (apply_moves m ms) (fun k => f k + total k ms).
Proof.
  induction ms as [|[key d] ms IH]; intros m f H.
  - intros k. cbn. rewrite Z.add_0_r. apply H.
  - intros k. etrans; [exact (IH _ _ (updateBalanceMap_holds m f key d H) k)|].
    change (total k ((key, d) :: ms)) with ((if bool_decide (key = k) then d else 0) + total k ms). by rewrite Z.add_assoc.
Qed.

Lemma holds_empty : holds ∅ (fun _ => 0).
Proof. intros k. rewrite lookup_empty. by rewrite orb_true_r. Qed.

Lemma apply_moves_total ms k :
  apply_moves ∅ ms !! k = (if untracked (holder k) || (total k ms =? 0) then None else Some (total k ms)).
Proof. by rewrite (apply_moves_holds ms ∅ _ holds_empty k), Z.add_0_l. Qed.

(** Two lists of movements make the same map exactly when they move as much of every
    tracked key. *)
Lemma apply_moves_same a b :
  apply_moves ∅ a = apply_moves ∅ b <-> forall k, untracked (holder k) = false -> total k a = total k b.
Proof.
  split.
  - intros E k Hk. pose proof (f_equal (fun m : balance_map => m !! k) E) as El. cbn beta in El.
    rewrite !apply_moves_total, Hk in El. cbn [orb] in El.
    destruct (Z.eqb_spec (total k a) 0), (Z.eqb_spec (total k b) 0); congruence.
  - intros H. apply map_eq. intros k. rewrite !apply_moves_total.
    destruct (untracked (holder k)) eqn:Eu; [done|]. by rewrite (H k Eu).
Qed.

(** ** The loops are sums of movements *)
Lemma apply_moves_app m a b : apply_moves m (a ++ b) = apply_moves (apply_moves m a) b.
Proof. apply fold_left_app. Qed.

Lemma event_deltas_moves m event m' :
  event_deltas m event = Some (Ok m') <-> exists ms, event_moves event = Some ms /\ m' = apply_moves m ms.
Proof.
  unfold event_deltas, event_moves, parseAmount, event_asset, GetAmount.
  destruct (GetAsset event) as [a|]; [|split; [intros [= <-]; by exists []|by intros (ms & [= <-] & ->)]].
  destruct event as [meta [from to n t|to n t|from n t|from n t|from n t]]; cbn [Event_];
    destruct (big_SetString n) as [amt|]; cbn [try_bind]; try (split; [done|by intros (? & ? & _)]);
    try (destruct (ToXdrAsset a) as [x|]; [destruct (StringCanonical x) as [s|]|]);
    split; try done; try (by intros (? & ? & _)); try (intros [= <-]; eexists; split; done); by intros (ms & [= <-] & ->).
Qed.

Lemma events_loop_moves events : forall m m',
  events_loop m events = Some (Ok m') <-> exists ms, all_moves event_moves events = Some ms /\ m' = apply_moves m ms.
Proof.
  induction events as [|event events IH]; intros m m'; cbn [events_loop all_moves].
  { split; [intros [= <-]; by exists []|by intros (ms & [= <-] & ->)]. }
  split.
  - intros (m1 & H1 & H2)%try_bind_Ok. apply event_deltas_moves in H1 as (ms & -> & ->).
    apply IH in H2 as (rest & -> & ->). exists (ms ++ rest). by rewrite apply_moves_app.
  - intros (all & E & ->). destruct (event_moves event) as [ms|] eqn:E1; [|done].
    destruct (all_moves event_moves events) as [rest|] eqn:E2; [|done]. injection E as <-.
    rewrite (proj2 (event_deltas_moves m event (apply_moves m ms))) by eauto. cbn [try_bind].
    apply IH. exists rest. by rewrite apply_moves_app.
Qed.

Lemma findBalanceDeltasFromEvents_moves events m :
  findBalanceDeltasFromEvents events = Some (Ok m) <->
  exists ms, all_moves event_moves events = Some ms /\ m = apply_moves ∅ ms.
Proof. apply events_loop_moves. Qed.

Lemma change_deltas_moves m change :
  change_deltas m change = let! ms := change_moves change in Some (apply_moves m ms).
Proof.
  unfold change_deltas, change_moves. destruct (Type_ change); try done;
    unfold fetchAccountDeltaFromChange, fetchTrustlineDeltaFromChange, fetchClaimableDeltaFromChange, fetchLiquidityPoolDeltaFromChange.
  - by destruct (change_sides arm_Account change).
  - destruct (match Pre change with None => _ | Some e => _ end) as [[pre|]|]; [|done..].
    by destruct (match Post change with None => _ | Some e => _ end) as [[post|]|].
  - by destruct (change_sides arm_ClaimableBalance change).
  - destruct (change_sides arm_LiquidityPool change) as [sides|]; [|done]. by destruct (last_set _ _ sides) as [[key a] b].
Qed.

Lemma changes_deltas_moves changes : forall m,
  changes_deltas m changes = let! ms := all_moves change_moves changes in Some (apply_moves m ms).
Proof.
  induction changes as [|change changes IH]; intros m; cbn [changes_deltas all_moves]; [done|].
  rewrite change_deltas_moves. destruct (change_moves change) as [ms|]; [|done]. rewrite IH.
  destruct (all_moves change_moves changes) as [rest|]; [|done]. by rewrite apply_moves_app.
Qed.

Lemma findBalanceDeltasFromChanges_moves changes :
  findBalanceDeltasFromChanges changes = let! ms := all_moves change_moves changes in Some (apply_moves ∅ ms).
Proof. apply changes_deltas_moves. Qed.

Lemma all_moves_app {A} (moves : A -> option movements) a b :
  all_moves moves (a ++ b) = let! x := all_moves moves a in let! y := all_moves moves b in Some (x ++ y).
Proof.
  induction a as [|e a IH]; cbn [all_moves app]; [by destruct (all_moves moves b)|].
  destruct (moves e) as [ms|]; [|done]. rewrite IH. destruct (all_moves moves a); [|done].
  destruct (all_moves moves b); [|done]. by rewrite app_assoc.
Qed.
