(* ===== verification/TokenTransfer.v ===== *)
(** * Token transfers of the classic operations

    src/processors/token_transfer/helpers.go and the handlers of
    token_transfer_processor.go that derive the events of an operation from the
    operation, its result and its ledger entry changes, and the reconciliation of the
    native balance of the operation's source before protocol 8. [None] is a panic. *)
From Stdlib Require Import ZArith Lia.
From stdpp Require Import base list vector option gmap sorting.
From S2P Require Import Prelude GoStd GoExt Price Amount Encodings Strkey Asset LedgerEntries Compactor CloseMeta LedgerChanges TransactionReader.
From S2P Require Import Accounts Envelopes Toid Sha256 Transactions TokenEvents TokenDeltas.
#[local] Open Scope Z_scope.
#[local] Open Scope go_scope.

Inductive token_error : Type :=
| ErrEvent (e : event_error)
| ErrChanges (e : reader_error)
| ErrDelta (e : delta_error)
| ErrNoLiquidityPoolEntryFound
| ErrNoClaimableBalanceEntryFound
| ManyClaimableBalanceEntries
| ManyLiquidityPoolEntries
| InvalidChangeFilter
| PoolAmount (amount : Z) (asset : Asset)
| ManyBalancesOfPool
| ReconciliationEventType (eventType : bytes)
| ErrContractEvents (V : Z)
| ErrTransactionEvents (e : events_error)
| ErrNotSep41TokenEvent
| InvalidFeeEvent
| NoFeeEvents
| ManyFeeEvents (n : Z)
| UnifiedMetaVersion (V : Z)
| OfOperation (opIndex : Z) (e : token_error)
| InvalidFeeEvents (n : Z)
| ErrReading (e : reader_error)
| DeltaMismatch (hash : Hash).

(** A result with its error wrapped. *)
Definition wrap_error {E E' A} (f : E -> E') (r : option (result E A)) : option (result E' A) :=
  match r with Some (Ok a) => Some (Ok a) | Some (Err e) => Some (Err (f e)) | None => None end.

Record EventsProcessor : Type := mkProcessor { networkPassphrase : bytes; readFromUnifiedEventsStream : bool }.

Definition NewEventsProcessor (passphrase : bytes) : EventsProcessor := mkProcessor passphrase false.
Definition NewEventsProcessorForUnifiedEvents (passphrase : bytes) : EventsProcessor := mkProcessor passphrase true.

(** [abs64] of the least 64-bit integer is itself. *)
Definition abs64 (a : Z) : Z := if a <? 0 then i64 (- a) else a.

Definition protoAddressFromAccount (account : MuxedAccount_) : option bytes := AccountId_Address (ToAccountId account).
Definition cbIdToStrkey (cbId : ClaimableBalanceId) : option bytes := MustEncodeToStrkey cbId.

(** What the events read of an entry of a claimable balance. *)
Record ClaimableBalanceEntry : Type := mkClaimable { cb_BalanceId : ClaimableBalanceId; cb_Asset : Asset; cb_Amount : Z }.
Definition MustClaimableBalance (d : LedgerEntryData) : option ClaimableBalanceEntry :=
  match d with
  | DataClaimableBalance balanceId fields => Some (mkClaimable balanceId (HeldAsset fields) (Balance fields))
  | _ => None
  end.

Record liquidityPoolEntryDelta : Type := mkPoolDelta {
  liquidityPoolId : PoolId;
  assetA : Asset;
  assetB : Asset;
  amountChangeForAssetA : Z;
  amountChangeForAssetB : Z
}.

(** The pool of a side of a change and its constant-product arm, both behind pointers
    that are nil in other arms. *)
Definition pool_of (d : LedgerEntryData) : option (LiquidityPoolEntry * ConstantProductPool) :=
  match d with
  | DataLiquidityPool pool => let! cp := ConstantProduct (Body pool) in Some (pool, cp)
  | _ => None
  end.

Section Processor.
Context {NH : NetworkHash} {KE : @KeyEncoding token_entries}.
Variable h : ttl_store.
Variable p : EventsProcessor.
#[local] Abbreviation LedgerTransaction := (@LedgerTransaction token_entries token_transactions).
#[local] Abbreviation Change := (@Change token_entries).
#[local] Abbreviation events := (option (result token_error (list TokenTransferEvent))).
#[local] Abbreviation one_event := (option (result token_error TokenTransferEvent)).
Implicit Types (tx : LedgerTransaction) (op : Operation) (opIndex : Z) (opResult : OperationResult).

Definition operationSourceAccount tx op : option MuxedAccount_ :=
  match op_SourceAccount op with Some acc => Some acc | None => SourceAccount (Envelope tx) end.

Definition generateEventMeta tx (opIndex : option Z) (asset : Asset) : option EventMeta :=
  let contractId := ContractID asset (networkPassphrase p) in
  let! contractAddress := MustEncode VersionByteContract (vec_to_list contractId) in
  NewEventMetaFromTx tx opIndex contractAddress.

(** ** Mint, burn or transfer *)

(** The address an event names for a strkey, always the G address of an account, and
    whether it is the issuer of the asset. *)
Definition holder_side (asset : Asset) (strkey : bytes) : option (bytes * bool) :=
  if isAccountAddress strkey then
    let! muxed := MustMuxedAddress strkey in
    let account := ToAccountId muxed in
    let! address := AccountId_Address account in
    Some (address, negb (IsNative asset) &&
      match GetIssuerAccountId asset with Ok issuer => AccountId_Equals issuer account | Err _ => false end)
  else Some (strkey, false).

Definition mux_event tx (event : TokenTransferEvent) (toStrkey : bytes) (includeMuxInfo : bool) : one_event :=
  if includeMuxInfo then wrap_error ErrEvent (setDestinationMuxedInfo event toStrkey tx) else Some (Ok event).

Definition mintOrBurnOrTransferEvent tx (opIndex : option Z) (asset : Asset) (fromStrkey toStrkey amt : bytes)
    (includeMuxInfo : bool) : one_event :=
  let! (fromAddress, isFromIssuer) := holder_side asset fromStrkey in
  let! (toAddress, isToIssuer) := holder_side asset toStrkey in
  let protoAsset := Some (NewProtoAsset asset) in
  let! meta := generateEventMeta tx opIndex asset in
  if isFromIssuer && isToIssuer then
    mux_event tx (NewTransferEvent meta fromAddress toAddress amt protoAsset) toStrkey includeMuxInfo
  else if isFromIssuer then
    if bool_decide (toAddress = []) then Some (Err (ErrEvent (MissingAddress MintEvent)))
    else mux_event tx (NewMintEvent meta toAddress amt protoAsset) toStrkey includeMuxInfo
  else if isToIssuer then
    if bool_decide (fromAddress = []) then Some (Err (ErrEvent (MissingAddress BurnEvent)))
    else Some (Ok (NewBurnEvent meta fromAddress amt protoAsset))
  else if bool_decide (fromAddress = []) then Some (Err (ErrEvent (MissingAddress TransferEvent)))
  else if bool_decide (toAddress = []) then Some (Err (ErrEvent (MissingAddress TransferEvent)))
  else mux_event tx (NewTransferEvent meta fromAddress toAddress amt protoAsset) toStrkey includeMuxInfo.

(** ** Entries among the changes of an operation *)
Definition operation_changes tx opIndex : option (result token_error (list Change)) :=
  wrap_error ErrChanges (GetOperationChanges h tx opIndex).

(** The loop that keeps the entry of each change of a claimable balance. *)
Fixpoint claimable_loop (changeType : LedgerEntryChangeType) (changes : list Change) : option (list ClaimableBalanceEntry) :=
  match changes with
  | [] => Some []
  | change :: changes =>
      if negb (bool_decide (Type_ change = LedgerEntryTypeClaimableBalance)) ||
         negb (bool_decide (ChangeType change = changeType)) then claimable_loop changeType changes
      else match Pre change, Post change with
      | Some pre, _ =>
          let! cb := MustClaimableBalance (Data pre) in
          let! rest := claimable_loop changeType changes in Some (cb :: rest)
      | None, Some post =>
          let! cb := MustClaimableBalance (Data post) in
          let! rest := claimable_loop changeType changes in Some (cb :: rest)
      | None, None => claimable_loop changeType changes
      end
  end.
Definition getClaimableBalanceEntriesFromOperationChanges (changeType : LedgerEntryChangeType) tx opIndex :
    option (result token_error (list ClaimableBalanceEntry)) :=
  if bool_decide (changeType = LedgerEntryUpdated) then Some (Err InvalidChangeFilter)
  else
    try! changes := operation_changes tx opIndex in
    let! entries := claimable_loop changeType changes in
    Some (Ok entries).

Definition pool_delta (c : Change) : option liquidityPoolEntryDelta :=
  let! sides := change_sides pool_of c in
  let params := last_set (mkPoolParameters Native Native 0) (fun s => Params (snd s)) sides in
  let preA := side_amount (fun s => ReserveA (snd s)) sides.1 in
  let preB := side_amount (fun s => ReserveB (snd s)) sides.1 in
  let postA := side_amount (fun s => ReserveA (snd s)) sides.2 in
  let postB := side_amount (fun s => ReserveB (snd s)) sides.2 in
  Some (mkPoolDelta (last_set (zero_array 32) (fun s => LiquidityPoolId (fst s)) sides) (AssetA params) (AssetB params)
          (abs64 (i64 (postA - preA))) (abs64 (i64 (postB - preB)))).
Fixpoint pool_deltas (changes : list Change) : option (list liquidityPoolEntryDelta) :=
  match changes with
  | [] => Some []
  | c :: changes =>
      if negb (bool_decide (Type_ c = LedgerEntryTypeLiquidityPool)) then pool_deltas changes
      else
        let! entry := pool_delta c in
        let! entries := pool_deltas changes in
        Some (entry :: entries)
  end.
Definition getImpactedLiquidityPoolEntriesFromOperation tx opIndex : option (result token_error (list liquidityPoolEntryDelta)) :=
  try! changes := operation_changes tx opIndex in
  let! entries := pool_deltas changes in
  Some (Ok entries).

Definition possibleClaimableBalanceIdsFromRevocation (lpEntry : liquidityPoolEntryDelta) tx (txSrcAccount : AccountId) opIndex :
    option (list ClaimableBalanceId) :=
  let! seqNum := SeqNum (Envelope tx) in
  Some (map (fun asset => ClaimableBalanceIdFromRevocation (liquidityPoolId lpEntry) asset seqNum txSrcAccount opIndex)
          [assetA lpEntry; assetB lpEntry]).

(** ** Payments *)
Definition one (e : one_event) : events := try! event := e in Some (Ok [event]).

Definition accountCreateEvents tx opIndex op : events :=
  let! opSrcAcc := operationSourceAccount tx op in
  match op_Body op with
  | CreateAccountOp destination startingBalance =>
      let destAcc := KeyTypeEd25519 destination in
      let! from := Muxed_Address opSrcAcc in
      let! to := Muxed_Address destAcc in
      one (mintOrBurnOrTransferEvent tx (Some opIndex) xlmAsset from to (String64Raw startingBalance) true)
  | _ => None
  end.

Definition mergeAccountEvents tx opIndex op opResult : events :=
  match opResult with
  | Some (AccountMergeResult None) => Some (Ok [])
  | Some (AccountMergeResult (Some balance)) =>
      let! opSrcAcc := operationSourceAccount tx op in
      match op_Body op with
      | AccountMergeOp destAcc =>
          let! from := Muxed_Address opSrcAcc in
          let! to := Muxed_Address destAcc in
          one (mintOrBurnOrTransferEvent tx (Some opIndex) xlmAsset from to (String64Raw balance) true)
      | _ => None
      end
  | _ => None
  end.

Definition paymentEvents tx opIndex op : events :=
  match op_Body op with
  | PaymentOp destAcc asset n =>
      let! opSrcAcc := operationSourceAccount tx op in
      let! from := Muxed_Address opSrcAcc in
      let! to := Muxed_Address destAcc in
      one (mintOrBurnOrTransferEvent tx (Some opIndex) asset from to (String64Raw n) true)
  | _ => None
  end.

Fixpoint payouts_loop (meta : EventMeta) (payouts : list (AccountId * Z)) : option (list TokenTransferEvent) :=
  match payouts with
  | [] => Some []
  | (destination, n) :: payouts =>
      let! to := AccountId_Address destination in
      let! rest := payouts_loop meta payouts in
      Some (NewMintEvent meta to (String64Raw n) (Some xlmProtoAsset) :: rest)
  end.
Definition inflationEvents tx opIndex opResult : events :=
  match opResult with
  | Some (InflationResult (Some payouts)) =>
      let! meta := generateEventMeta tx (Some opIndex) xlmAsset in
      let! mintEvents := payouts_loop meta payouts in
      Some (Ok mintEvents)
  | _ => None
  end.

(** ** Claimable balances *)
Definition createClaimableBalanceEvents tx opIndex op opResult : events :=
  match op_Body op, opResult with
  | CreateClaimableBalanceOp asset n, Some (CreateClaimableBalanceResult (Some cbId)) =>
      let! opSrcAcc := operationSourceAccount tx op in
      let! from := Muxed_Address opSrcAcc in
      let! to := cbIdToStrkey cbId in
      one (mintOrBurnOrTransferEvent tx (Some opIndex) asset from to (String64Raw n) false)
  | _, _ => None
  end.

(** The one claimable balance an operation removed. *)
Definition removed_balance tx opIndex : option (result token_error ClaimableBalanceEntry) :=
  try! cbEntries := getClaimableBalanceEntriesFromOperationChanges LedgerEntryRemoved tx opIndex in
  Some (match cbEntries with
        | [] => Err ErrNoClaimableBalanceEntryFound
        | [cb] => Ok cb
        | _ => Err ManyClaimableBalanceEntries
        end).

Definition claimClaimableBalanceEvents tx opIndex op : events :=
  match op_Body op with
  | ClaimClaimableBalanceOp cbId =>
      try! cb := removed_balance tx opIndex in
      let! opSrcAcc := operationSourceAccount tx op in
      let! from := cbIdToStrkey cbId in
      let! to := Muxed_Address opSrcAcc in
      one (mintOrBurnOrTransferEvent tx (Some opIndex) (cb_Asset cb) from to (String64Raw (cb_Amount cb)) true)
  | _ => None
  end.

Definition clawbackEvents tx opIndex op : events :=
  match op_Body op with
  | ClawbackOp asset clawedFrom n =>
      let! meta := generateEventMeta tx (Some opIndex) asset in
      let! from := protoAddressFromAccount clawedFrom in
      Some (Ok [NewClawbackEvent meta from (String64Raw n) (Some (NewProtoAsset asset))])
  | _ => None
  end.

Definition clawbackClaimableBalanceEvents tx opIndex op : events :=
  match op_Body op with
  | ClawbackClaimableBalanceOp cbId =>
      try! cb := removed_balance tx opIndex in
      let! meta := generateEventMeta tx (Some opIndex) (cb_Asset cb) in
      let! from := cbIdToStrkey cbId in
      Some (Ok [NewClawbackEvent meta from (String64Raw (cb_Amount cb)) (Some (NewProtoAsset (cb_Asset cb)))])
  | _ => None
  end.

(** ** Revoked trust lines *)

(** The claimable balances of [ids] that were created, in the order of the ids. *)
Definition created_among (byId : gmap bytes ClaimableBalanceEntry) (ids : list ClaimableBalanceId) : list ClaimableBalanceEntry :=
  omap (fun id : ClaimableBalanceId => byId !! vec_to_list id) ids.

(** The events of one pool. A single balance means that the other asset went back to
    its issuer. *)
Definition revoked_pool_events tx opIndex (lp : liquidityPoolEntryDelta) (cbsCreatedByThisLp : list ClaimableBalanceEntry) : events :=
  let transfer := fun cb : ClaimableBalanceEntry =>
    let! from := lpIdToStrkey (liquidityPoolId lp) in
    let! to := cbIdToStrkey (cb_BalanceId cb) in
    mintOrBurnOrTransferEvent tx (Some opIndex) (cb_Asset cb) from to (String64Raw (cb_Amount cb)) false in
  match cbsCreatedByThisLp with
  | [] => Some (Ok [])
  | [cb] =>
      let '(burnedAsset, burnedAmount) :=
        if Asset_Equals (cb_Asset cb) (assetA lp) then (assetB lp, amountChangeForAssetB lp)
        else (assetA lp, amountChangeForAssetA lp) in
      try! transferEvent := transfer cb in
      let! burnMeta := generateEventMeta tx (Some opIndex) burnedAsset in
      let! from := lpIdToStrkey (liquidityPoolId lp) in
      Some (Ok [transferEvent; NewBurnEvent burnMeta from (String64Raw burnedAmount) (Some (NewProtoAsset burnedAsset))])
  | [cb1; cb2] =>
      try! ev1 := transfer cb1 in
      try! ev2 := transfer cb2 in
      Some (Ok [ev1; ev2])
  | _ => Some (Err ManyBalancesOfPool)
  end.

Fixpoint revoked_loop tx opIndex (byId : gmap bytes ClaimableBalanceEntry) (lps : list liquidityPoolEntryDelta) : events :=
  match lps with
  | [] => Some (Ok [])
  | lp :: lps =>
      let! source := SourceAccount (Envelope tx) in
      let! ids := possibleClaimableBalanceIdsFromRevocation lp tx (ToAccountId source) opIndex in
      try! here := revoked_pool_events tx opIndex lp (created_among byId ids) in
      try! rest := revoked_loop tx opIndex byId lps in
      Some (Ok (here ++ rest))
  end.

Definition balances_by_id (cbs : list ClaimableBalanceEntry) : gmap bytes ClaimableBalanceEntry :=
  fold_left (fun m cb => <[vec_to_list (cb_BalanceId cb) := cb]> m) cbs ∅.

Definition generateEventsForRevokedTrustlines tx opIndex : events :=
  try! impactedLiquidityPools := getImpactedLiquidityPoolEntriesFromOperation tx opIndex in
  if bool_decide (impactedLiquidityPools = []) then Some (Ok [])
  else
    try! createdClaimableBalances :=
      getClaimableBalanceEntriesFromOperationChanges LedgerEntryCreated tx opIndex in
    if bool_decide (createdClaimableBalances = []) then Some (Ok [])
    else revoked_loop tx opIndex (balances_by_id createdClaimableBalances) impactedLiquidityPools.

Definition allowTrustEvents tx opIndex : events := generateEventsForRevokedTrustlines tx opIndex.
Definition setTrustLineFlagsEvents tx opIndex : events := generateEventsForRevokedTrustlines tx opIndex.

(** ** Liquidity pools *)
Definition impacted_pool tx opIndex : option (result token_error liquidityPoolEntryDelta) :=
  try! lpDeltas := getImpactedLiquidityPoolEntriesFromOperation tx opIndex in
  Some (match lpDeltas with
        | [] => Err ErrNoLiquidityPoolEntryFound
        | [delta] => Ok delta
        | _ => Err ManyLiquidityPoolEntries
        end).

Definition liquidityPoolDepositEvents tx opIndex op : events :=
  try! delta := impacted_pool tx opIndex in
  if amountChangeForAssetA delta <=? 0 then Some (Err (PoolAmount (amountChangeForAssetA delta) (assetA delta)))
  else if amountChangeForAssetB delta <=? 0 then Some (Err (PoolAmount (amountChangeForAssetB delta) (assetB delta)))
  else
    let! opSrcAcc := operationSourceAccount tx op in
    let! from := Muxed_Address opSrcAcc in
    let! to := lpIdToStrkey (liquidityPoolId delta) in
    try! eventA := mintOrBurnOrTransferEvent tx (Some opIndex) (assetA delta) from to (String64Raw (amountChangeForAssetA delta)) false in
    try! eventB := mintOrBurnOrTransferEvent tx (Some opIndex) (assetB delta) from to (String64Raw (amountChangeForAssetB delta)) false in
    Some (Ok [eventA; eventB]).

Definition liquidityPoolWithdrawEvents tx opIndex op : events :=
  try! delta := impacted_pool tx opIndex in
  if amountChangeForAssetA delta <? 0 then Some (Err (PoolAmount (amountChangeForAssetA delta) (assetA delta)))
  else if amountChangeForAssetB delta <? 0 then Some (Err (PoolAmount (amountChangeForAssetB delta) (assetB delta)))
  else
    let! opSrcAcc := operationSourceAccount tx op in
    let! from := lpIdToStrkey (liquidityPoolId delta) in
    let! to := Muxed_Address opSrcAcc in
    try! eventA := mintOrBurnOrTransferEvent tx (Some opIndex) (assetA delta) from to (String64Raw (amountChangeForAssetA delta)) true in
    try! eventB := mintOrBurnOrTransferEvent tx (Some opIndex) (assetB delta) from to (String64Raw (amountChangeForAssetB delta)) true in
    Some (Ok [eventA; eventB]).

(** ** Trades *)
Definition claim_seller (claim : ClaimAtom) : option bytes :=
  match claim with
  | ClaimAtomTypeLiquidityPool lpId _ _ _ _ => lpIdToStrkey lpId
  | _ => let! sellerId := claim_SellerId claim in AccountId_Address sellerId
  end.

Fixpoint claims_loop tx opIndex (operationSource : bytes) (claims : list ClaimAtom) : events :=
  match claims with
  | [] => Some (Ok [])
  | claim :: claims =>
      let! seller := claim_seller claim in
      try! ev1 := mintOrBurnOrTransferEvent tx (Some opIndex) (AssetSold claim) seller operationSource (String64Raw (AmountSold claim)) false in
      try! ev2 := mintOrBurnOrTransferEvent tx (Some opIndex) (AssetBought claim) operationSource seller (String64Raw (AmountBought claim)) false in
      try! rest := claims_loop tx opIndex operationSource claims in
      Some (Ok (ev1 :: ev2 :: rest))
  end.
Definition generateEventsFromClaimAtoms tx opIndex (opSrcAcc : MuxedAccount_) (claims : list ClaimAtom) : events :=
  let! operationSource := AccountId_Address (ToAccountId opSrcAcc) in
  claims_loop tx opIndex operationSource claims.

Definition offers_events tx opIndex op (offersClaimed : list ClaimAtom) : events :=
  let! opSrcAcc := operationSourceAccount tx op in
  if go_len offersClaimed =? 0 then Some (Ok [])
  else generateEventsFromClaimAtoms tx opIndex opSrcAcc offersClaimed.

Definition manageBuyOfferEvents tx opIndex op opResult : events :=
  match opResult with
  | Some (ManageBuyOfferResult (Some offersClaimed)) => offers_events tx opIndex op offersClaimed
  | _ => None
  end.
Definition manageSellOfferEvents tx opIndex op opResult : events :=
  match opResult with
  | Some (ManageSellOfferResult (Some offersClaimed)) => offers_events tx opIndex op offersClaimed
  | _ => None
  end.
Definition createPassiveSellOfferEvents tx opIndex op opResult : events := manageSellOfferEvents tx opIndex op opResult.

(** The trades of a path payment, and the last event for what the destination gets. *)
Definition path_events tx opIndex op (offers : list ClaimAtom) (destAsset : Asset) (destination : MuxedAccount_) (n : Z) : events :=
  let! opSrcAcc := operationSourceAccount tx op in
  try! ev := generateEventsFromClaimAtoms tx opIndex opSrcAcc offers in
  let! from := Muxed_Address opSrcAcc in
  let! to := Muxed_Address destination in
  try! finalEvent := mintOrBurnOrTransferEvent tx (Some opIndex) destAsset from to (String64Raw n) true in
  Some (Ok (ev ++ [finalEvent])).
Definition pathPaymentStrictSendEvents tx opIndex op opResult : events :=
  match op_Body op, opResult with
  | PathPaymentStrictSendOp destination destAsset _, Some (PathPaymentStrictSendResult (Some success)) =>
      path_events tx opIndex op (Offers success) destAsset destination (DestAmount (Some success))
  | _, _ => None
  end.
Definition pathPaymentStrictReceiveEvents tx opIndex op opResult : events :=
  match op_Body op, opResult with
  | PathPaymentStrictReceiveOp destination destAsset destAmount, Some (PathPaymentStrictReceiveResult (Some success)) =>
      path_events tx opIndex op (Offers success) destAsset destination destAmount
  | _, _ => None
  end.

(** ** Reconciliation *)
Definition maybeGenerateMintOrBurnEventsForReconciliation tx opIndex (changesMap eventsMap : balance_map)
    (account : MuxedAccount_) (asset : Asset) : option (option TokenTransferEvent) :=
  let! accountStr := AccountId_Address (ToAccountId account) in
  let! name := StringCanonical asset in
  let key := (accountStr, name) in
  let changesBalance := default 0 (changesMap !! key) in
  let eventsBalance := default 0 (eventsMap !! key) in
  let diff := changesBalance - eventsBalance in
  if Z.sgn diff =? 0 then Some None
  else
    let! meta := generateEventMeta tx (Some opIndex) asset in
    let protoAsset := Some (NewProtoAsset asset) in
    Some (Some (if 0 <? Z.sgn diff then NewMintEvent meta accountStr (FormatInt diff) protoAsset
                else NewBurnEvent meta accountStr (FormatInt (Z.abs diff)) protoAsset)).

Definition generateXlmReconciliationEvents tx opIndex op (operationEvents : list TokenTransferEvent) :
    option (result token_error (option TokenTransferEvent)) :=
  try! operationChanges := operation_changes tx opIndex in
  let! changesMap := findBalanceDeltasFromChanges operationChanges in
  try! eventsMap := wrap_error ErrDelta (findBalanceDeltasFromEvents operationEvents) in
  let! operationSrcAccount := operationSourceAccount tx op in
  let! event := maybeGenerateMintOrBurnEventsForReconciliation tx opIndex changesMap eventsMap operationSrcAccount xlmAsset in
  Some (Ok event).
End Processor.
