(* ===== verification/TokenContract.v ===== *)
(** * Token transfers in contract events

    src/processors/token_transfer/contract_events.go: the fee events of a transaction
    with unified events, and the token events contracts emit, in the format before
    (V3) and after (V4) unified events. An event that is not one of a token is left
    out, so all that is kept of why it is not is [ErrNotSep41TokenEvent]. *)
From Stdlib Require Import ZArith Lia.
From stdpp Require Import base list vector option gmap sorting.
From S2P Require Import Prelude GoStd GoExt Price Amount Encodings Strkey Asset LedgerEntries Compactor CloseMeta LedgerChanges TransactionReader.
From S2P Require Import Accounts Envelopes Toid Sha256 Transactions TokenEvents TokenDeltas TokenTransfer.
#[local] Open Scope Z_scope.
#[local] Open Scope go_scope.

Abbreviation ContractEventTypeContract := 1.

(** ** Reading values *)
Definition GetSym (v : ScVal_) : option bytes := match v with ScvSymbol s => Some s | _ => None end.
Definition GetStr (v : ScVal_) : option bytes := match v with ScvString s => Some s | _ => None end.
Definition GetI128 (v : ScVal_) : option Int128Parts := match v with ScvI128 i => Some i | _ => None end.
Definition GetMap (v : ScVal_) : option (option (list (ScVal_ * ScVal_))) := match v with ScvMap m => Some m | _ => None end.

(** [None] is an error. *)
Definition extractAddress (val : ScVal_) : option bytes :=
  match val with
  | ScvAddress addr => match ScAddress_String addr with Ok s => Some s | Err _ => None end
  | _ => None
  end.

Definition topic (topics : list ScVal_) (i : nat) : ScVal_ := default ScvVoid (topics !! i).

(** ** The number of topics of an event of an asset's contract *)
Definition getExpectedTopicsCount (eventType : bytes) (txMetaVersion : Z) : Z :=
  if txMetaVersion =? 3 then if bool_decide (eventType = BurnEvent) then 3 else 4
  else if txMetaVersion =? 4 then if bool_decide (eventType = TransferEvent) then 4 else 3
  else -1.

(** ** The data of a V4 event *)
Fixpoint mapData_loop (foundAmount : bool) (amt : Int128Parts) (muxedInfo : option MuxedInfo)
    (mapData : list (ScVal_ * ScVal_)) : option (bool * Int128Parts * option MuxedInfo) :=
  match mapData with
  | [] => Some (foundAmount, amt, muxedInfo)
  | (key, val) :: mapData =>
      match GetSym key with
      | None => None
      | Some key =>
          if bool_decide (key = str "amount") then
            match GetI128 val with
            | None => None
            | Some amt => mapData_loop true amt muxedInfo mapData
            end
          else if bool_decide (key = str "to_muxed_id") then
            match val with
            | ScvU64 v => mapData_loop foundAmount amt (Some (NewMuxedInfoFromId v)) mapData
            | ScvBytes b => mapData_loop foundAmount amt (Some (MuxedInfo_Hash b)) mapData
            | ScvString s => mapData_loop foundAmount amt (Some (MuxedInfo_Text s)) mapData
            | ScvVoid => mapData_loop foundAmount amt muxedInfo mapData
            | _ => None
            end
          else mapData_loop foundAmount amt muxedInfo mapData
      end
  end.
Definition parseV4MapDataForTokenEvents (mapData : list (ScVal_ * ScVal_)) : option (Int128Parts * option MuxedInfo) :=
  match mapData_loop false (mkInt128Parts 0 0) None mapData with
  | Some (true, amt, muxedInfo) => Some (amt, muxedInfo)
  | _ => None
  end.

Section Contract.
Context {NH : NetworkHash} {KE : @KeyEncoding token_entries}.
Variable p : EventsProcessor.
#[local] Abbreviation LedgerTransaction := (@LedgerTransaction token_entries token_transactions).
#[local] Abbreviation ContractEvent := (@ContractEvent token_entries).
#[local] Abbreviation one_event := (option (result token_error TokenTransferEvent)).
Implicit Types (tx : LedgerTransaction) (contractEvent : ContractEvent).

(** The meta of an event of the contract [contractId]. *)
Definition contract_meta tx (opIndex : option Z) (contractId : Hash) : option EventMeta :=
  let! contractAddress := MustEncode VersionByteContract (vec_to_list contractId) in
  NewEventMetaFromTx tx opIndex contractAddress.

Definition not_token : one_event := Some (Err ErrNotSep41TokenEvent).

(** An address among the topics, or no token event. *)
Definition with_address (val : ScVal_) (k : bytes -> one_event) : one_event :=
  match extractAddress val with None => not_token | Some a => k a end.

Definition parseCustomTokenEventV3 (eventType : bytes) tx (opIndex : option Z) (contractId : Hash) (topics : list ScVal_) (value : ScVal_) : one_event :=
  match GetI128 value with
  | None => not_token
  | Some amt =>
      let amtRaw128 := String128Raw amt in
      let! meta := contract_meta tx opIndex contractId in
      let lenTopics := go_len topics in
      if bool_decide (eventType = TransferEvent) then
        if lenTopics <? 3 then not_token
        else with_address (topic topics 1) (fun from => with_address (topic topics 2) (fun to =>
          Some (Ok (NewTransferEvent meta from to amtRaw128 None))))
      else if bool_decide (eventType = MintEvent) then
        if lenTopics <? 3 then not_token
        else with_address (topic topics 1) (fun _ => with_address (topic topics 2) (fun to =>
          Some (Ok (NewMintEvent meta to amtRaw128 None))))
      else if bool_decide (eventType = ClawbackEvent) then
        if lenTopics <? 3 then not_token
        else with_address (topic topics 1) (fun _ => with_address (topic topics 2) (fun from =>
          Some (Ok (NewClawbackEvent meta from amtRaw128 None))))
      else if bool_decide (eventType = BurnEvent) then
        if lenTopics <? 2 then not_token
        else with_address (topic topics 1) (fun from => Some (Ok (NewBurnEvent meta from amtRaw128 None)))
      else not_token
  end.

(** The amount and the muxed destination in the data of a V4 event. *)
Definition v4_data (value : ScVal_) : option (Int128Parts * option MuxedInfo) :=
  match GetMap value with
  | Some None => None
  | Some (Some mapData) => parseV4MapDataForTokenEvents mapData
  | None => let! amt := GetI128 value in Some (amt, None)
  end.

Definition meta_with_memo (meta : EventMeta) (memo : option MuxedInfo) : EventMeta :=
  match memo with
  | None => meta
  | Some _ => mkEventMeta (meta_LedgerSequence meta) (ClosedAt meta) (TxHash meta) (TransactionIndex meta) (OperationIndex_ meta)
                (ContractAddress meta) memo
  end.

Definition parseCustomTokenEventV4 (eventType : bytes) tx (opIndex : option Z) (contractId : Hash) (topics : list ScVal_) (value : ScVal_) : one_event :=
  match v4_data value with
  | None => not_token
  | Some (amt, destinationMemo) =>
      let amtRaw128 := String128Raw amt in
      let! meta := contract_meta tx opIndex contractId in
      let meta := meta_with_memo meta destinationMemo in
      let lenTopics := go_len topics in
      if bool_decide (eventType = TransferEvent) then
        if lenTopics <? 3 then not_token
        else with_address (topic topics 1) (fun from => with_address (topic topics 2) (fun to =>
          Some (Ok (NewTransferEvent meta from to amtRaw128 None))))
      else if bool_decide (eventType = MintEvent) then
        if lenTopics <? 2 then not_token
        else with_address (topic topics 1) (fun to => Some (Ok (NewMintEvent meta to amtRaw128 None)))
      else if bool_decide (eventType = ClawbackEvent) then
        if lenTopics <? 2 then not_token
        else with_address (topic topics 1) (fun from => Some (Ok (NewClawbackEvent meta from amtRaw128 None)))
      else if bool_decide (eventType = BurnEvent) then
        if lenTopics <? 2 then not_token
        else with_address (topic topics 1) (fun from => Some (Ok (NewBurnEvent meta from amtRaw128 None)))
      else not_token
  end.

(** The asset whose contract emitted an event, by its last topic: its name parses to
    one asset, and the contract of that asset is the one of the event. *)
Definition sac_asset (fn : bytes) (txMetaVersion : Z) (contractId : Hash) (topics : list ScVal_) : option Asset :=
  if negb (go_len topics =? getExpectedTopicsCount fn txMetaVersion) then None
  else match list.last topics with
  | None => None
  | Some lastTopic =>
      match GetStr lastTopic with
      | None => None
      | Some assetStr =>
          if bool_decide (assetStr = []) then None
          else match BuildAssets assetStr with
          | Ok [asset] => if bool_decide (ContractID asset (networkPassphrase p) = contractId) then Some asset else None
          | _ => None
          end
      end
  end.

(** Under the first format of events the mints and burns of an asset's issuer are
    transfers. *)
Definition retyped tx (opIndex : option Z) (protoEvent : TokenTransferEvent) : one_event :=
  match Event_ protoEvent with
  | Transfer from to n a =>
      let! a := a in
      let! asset := ToXdrAsset a in
      mintOrBurnOrTransferEvent p tx opIndex asset from to n false
  | _ => Some (Ok protoEvent)
  end.

Definition parseEvent tx (opIndex : option Z) contractEvent : one_event :=
  match event_ContractId contractEvent with
  | Some contractId =>
      if negb (event_Type contractEvent =? ContractEventTypeContract) || negb (Body_V contractEvent =? 0) then not_token
      else
        let topics := Topics contractEvent in
        let value := EventData contractEvent in
        if go_len topics <? 2 then not_token
        else match GetSym (topic topics 0) with
        | None => not_token
        | Some fn =>
            let txMetaVersion := Meta_V (UnsafeMeta tx) in
            try! protoEvent :=
              if txMetaVersion =? 3 then parseCustomTokenEventV3 fn tx opIndex contractId topics value
              else if txMetaVersion =? 4 then parseCustomTokenEventV4 fn tx opIndex contractId topics value
              else not_token in
            match sac_asset fn txMetaVersion contractId topics with
            | None => Some (Ok protoEvent)
            | Some asset =>
                let protoEvent := SetAsset protoEvent asset in
                if txMetaVersion =? 4 then Some (Ok protoEvent) else retyped tx opIndex protoEvent
            end
        end
  | None => not_token
  end.

(** The loop over the events of an operation: those that are not of a token are left
    out. *)
Fixpoint parse_loop tx (opIndex : Z) (contractEvents : list ContractEvent) : option (list TokenTransferEvent) :=
  match contractEvents with
  | [] => Some []
  | contractEvent :: contractEvents =>
      let! ev := parseEvent tx (Some opIndex) contractEvent in
      let! rest := parse_loop tx opIndex contractEvents in
      Some (match ev with Ok ev => ev :: rest | Err _ => rest end)
  end.
Definition contractEventsFromOperation tx (opIndex : Z) : option (result token_error (list TokenTransferEvent)) :=
  let! contractEvents := GetContractEventsForOperation tx opIndex in
  match contractEvents with
  | None => Some (Err (ErrContractEvents (Meta_V (UnsafeMeta tx))))
  | Some contractEvents => let! events := parse_loop tx opIndex contractEvents in Some (Ok events)
  end.

(** ** Fee events *)
Fixpoint fee_loop tx (txEvents : list (@TransactionEvent_ token_entries)) : option (result token_error (list TokenTransferEvent)) :=
  match txEvents with
  | [] => Some (Ok [])
  | ev :: txEvents =>
      let contractEvent := stage_Event ev in
      match event_ContractId contractEvent with
      | None => Some (Err InvalidFeeEvent)
      | Some contractId =>
          if negb (event_Type contractEvent =? ContractEventTypeContract) || negb (Body_V contractEvent =? 0) then
            Some (Err InvalidFeeEvent)
          else
            let topics := Topics contractEvent in
            let! first := go_index topics 0 in
            match GetSym first with
            | None => fee_loop tx txEvents
            | Some fn =>
                if negb (bool_decide (fn = FeeEvent)) then fee_loop tx txEvents
                else if negb (go_len topics =? 2) then Some (Err InvalidFeeEvent)
                else match GetI128 (EventData contractEvent), extractAddress (topic topics 1) with
                | Some amt, Some from =>
                    if negb (bool_decide (ContractID xlmAsset (networkPassphrase p) = contractId)) then Some (Err InvalidFeeEvent)
                    else
                      let! meta := generateEventMeta p tx None xlmAsset in
                      try! rest := fee_loop tx txEvents in
                      Some (Ok (NewFeeEvent meta from (String128Raw amt) (Some xlmProtoAsset) :: rest))
                | _, _ => Some (Err InvalidFeeEvent)
                end
            end
      end
  end.

Definition parseFeeEventsFromTransactionEvents tx : option (result token_error (list TokenTransferEvent)) :=
  try! txEvents := wrap_error ErrTransactionEvents (GetTransactionEvents tx) in
  try! feeEvents := fee_loop tx (TransactionEvents txEvents) in
  Some (if go_len feeEvents =? 0 then Err NoFeeEvents
        else if 2 <? go_len feeEvents then Err (ManyFeeEvents (go_len feeEvents))
        else Ok feeEvents).
End Contract.
