(* ===== verification/TokenLedger.v ===== *)
(** * The token events of a ledger

    The rest of src/processors/token_transfer/token_transfer_processor.go: the fee
    events of a transaction, the events of an operation, a transaction and a ledger in
    order; and [VerifyEvents] of verify_events.go, which compares the deltas of a
    transaction's events with those of its ledger entry changes. *)
From Stdlib Require Import ZArith Lia.
From stdpp Require Import base list vector option gmap sorting.
From S2P Require Import Prelude GoStd GoExt Price Amount Encodings Strkey Asset LedgerEntries Compactor CloseMeta LedgerChanges TransactionReader.
From S2P Require Import Accounts Envelopes Toid Sha256 Transactions TokenEvents TokenDeltas TokenTransfer TokenContract.
#[local] Open Scope Z_scope.
#[local] Open Scope go_scope.

Record TokenTransactionEvents : Type := mkTokenEvents {
  FeeEvents : list TokenTransferEvent;
  token_OperationEvents : list TokenTransferEvent
}.

(** The events of a ledger so far: fees, operations, refunds. *)
Record LedgerEvents : Type := mkLedgerEvents {
  feeEvents : list TokenTransferEvent;
  operationEvents : list TokenTransferEvent;
  feeRefundEvents : list TokenTransferEvent
}.

Definition assembleEventOrder (e : LedgerEvents) (isProtocol23Plus : bool) : list TokenTransferEvent :=
  if isProtocol23Plus then feeEvents e ++ operationEvents e ++ feeRefundEvents e
  else feeEvents e ++ operationEvents e.

Section Ledger.
Context {NH : NetworkHash} {KE : @KeyEncoding token_entries}.
Variable h : ttl_store.
Variable p : EventsProcessor.
#[local] Abbreviation LedgerTransaction := (@LedgerTransaction token_entries token_transactions).
#[local] Abbreviation LedgerTransactionReader := (@LedgerTransactionReader token_entries token_transactions).
#[local] Abbreviation LedgerCloseMeta := (@LedgerCloseMeta token_entries token_transactions).
#[local] Abbreviation events := (option (result token_error (list TokenTransferEvent))).
Implicit Types (tx : LedgerTransaction) (op : Operation) (opIndex : Z) (opResult : OperationResult).

(** ** Fees *)
Definition generateFeeEvents tx : events :=
  let txMetaVersion := Meta_V (UnsafeMeta tx) in
  if readFromUnifiedEventsStream p then
    if negb (txMetaVersion =? 4) then Some (Err (UnifiedMetaVersion txMetaVersion))
    else parseFeeEventsFromTransactionEvents p tx
  else
    let! feeAccount := tx_FeeAccount tx in
    let! meta := generateEventMeta p tx None xlmAsset in
    let! from := protoAddressFromAccount feeAccount in
    let! soroban := IsSorobanTx tx in
    if negb soroban then
      Some (Ok [NewFeeEvent meta from (String64Raw (result_FeeCharged tx)) (Some xlmProtoAsset)])
    else
      let! originalSorobanFeeCharged := OriginalFeeCharged tx in
      let originalFeeEvent := NewFeeEvent meta from (String64Raw originalSorobanFeeCharged) (Some xlmProtoAsset) in
      let! sorobanFeeRefund := SorobanResourceFeeRefund tx in
      if 0 <? sorobanFeeRefund then
        Some (Ok [originalFeeEvent; NewFeeEvent meta from (String64Raw (i64 (- sorobanFeeRefund))) (Some xlmProtoAsset)])
      else Some (Ok [originalFeeEvent]).

(** ** Operations *)

(** The handler of the type of the operation; [None] in the first place is the types
    that have none. *)
Definition operation_handler tx opIndex op opResult : option events :=
  match op_Body op with
  | CreateAccountOp _ _ => Some (accountCreateEvents p tx opIndex op)
  | AccountMergeOp _ => Some (mergeAccountEvents p tx opIndex op opResult)
  | PaymentOp _ _ _ => Some (paymentEvents p tx opIndex op)
  | CreateClaimableBalanceOp _ _ => Some (createClaimableBalanceEvents p tx opIndex op opResult)
  | ClaimClaimableBalanceOp _ => Some (claimClaimableBalanceEvents h p tx opIndex op)
  | ClawbackOp _ _ _ => Some (clawbackEvents p tx opIndex op)
  | ClawbackClaimableBalanceOp _ => Some (clawbackClaimableBalanceEvents h p tx opIndex op)
  | AllowTrustOp => Some (allowTrustEvents h p tx opIndex)
  | SetTrustLineFlagsOp => Some (setTrustLineFlagsEvents h p tx opIndex)
  | LiquidityPoolDepositOp => Some (liquidityPoolDepositEvents h p tx opIndex op)
  | LiquidityPoolWithdrawOp => Some (liquidityPoolWithdrawEvents h p tx opIndex op)
  | ManageBuyOfferOp => Some (manageBuyOfferEvents p tx opIndex op opResult)
  | ManageSellOfferOp => Some (manageSellOfferEvents p tx opIndex op opResult)
  | CreatePassiveSellOfferOp => Some (createPassiveSellOfferEvents p tx opIndex op opResult)
  | PathPaymentStrictSendOp _ _ _ => Some (pathPaymentStrictSendEvents p tx opIndex op opResult)
  | PathPaymentStrictReceiveOp _ _ _ => Some (pathPaymentStrictReceiveEvents p tx opIndex op opResult)
  | InflationOp => Some (inflationEvents p tx opIndex opResult)
  | InvokeHostFunctionOp => Some (contractEventsFromOperation p tx opIndex)
  | OtherOp _ => None
  end.

(** A mint goes before the other events, a burn after them. *)
Definition add_reconciliation (l : list TokenTransferEvent) (reconciliationEvent : option TokenTransferEvent) :
    result token_error (list TokenTransferEvent) :=
  match reconciliationEvent with
  | None => Ok l
  | Some e =>
      match Event_ e with
      | Mint _ _ _ => Ok (e :: l)
      | Burn _ _ _ => Ok (l ++ [e])
      | _ => Err (ReconciliationEventType (GetEventType e))
      end
  end.

Definition EventsFromOperation tx opIndex op opResult : events :=
  match operation_handler tx opIndex op opResult with
  | None => Some (Ok [])
  | Some handled =>
      wrap_error (OfOperation opIndex) (
        try! events := handled in
        let! version := ProtocolVersion (tx_Ledger tx) in
        if 8 <=? version then Some (Ok events)
        else
          try! reconciliationEvent := generateXlmReconciliationEvents h p tx opIndex op events in
          Some (add_reconciliation events reconciliationEvent))
  end.

(** ** Transactions *)
Fixpoint unified_loop tx (i : Z) (operationMetaV2 : list (@OperationMetaV2 token_entries)) : events :=
  match operationMetaV2 with
  | [] => Some (Ok [])
  | _ :: rest =>
      try! here := wrap_error (OfOperation i) (contractEventsFromOperation p tx (u32 i)) in
      try! more := unified_loop tx (i + 1) rest in
      Some (Ok (here ++ more))
  end.

Fixpoint token_operations_loop tx (i : Z) (operations : list Operation) (operationResults : list OperationResult) : events :=
  match operations with
  | [] => Some (Ok [])
  | op :: rest =>
      let! result := go_index operationResults i in
      try! opEvents := wrap_error (OfOperation i) (EventsFromOperation tx (u32 i) op result) in
      try! more := token_operations_loop tx (i + 1) rest operationResults in
      Some (Ok (opEvents ++ more))
  end.

Definition transaction_operations tx : events :=
  if readFromUnifiedEventsStream p then
    match UnsafeMeta tx with
    | MetaV4 _ ops _ _ _ => unified_loop tx 0 ops
    | m => Some (Err (UnifiedMetaVersion (Meta_V m)))
    end
  else
    let! operations := Operations (Envelope tx) in
    token_operations_loop tx 0 operations (default [] (OperationResults (pair_Rest (tx_Result tx)))).

Definition EventsFromTransaction tx : option (result token_error TokenTransactionEvents) :=
  try! fees := generateFeeEvents tx in
  if negb (tx_Successful tx) then Some (Ok (mkTokenEvents fees []))
  else
    try! operationEvents := transaction_operations tx in
    Some (Ok (mkTokenEvents fees operationEvents)).

(** ** Ledgers *)

(** What a transaction adds. *)
Definition add_transaction (isProtocol23Plus : bool) (acc : LedgerEvents) (txEvents : TokenTransactionEvents) : result token_error LedgerEvents :=
  match FeeEvents txEvents with
  | [fee] => Ok (mkLedgerEvents (feeEvents acc ++ [fee]) (operationEvents acc ++ token_OperationEvents txEvents) (feeRefundEvents acc))
  | [fee; refund] =>
      if isProtocol23Plus then
        Ok (mkLedgerEvents (feeEvents acc ++ [fee]) (operationEvents acc ++ token_OperationEvents txEvents) (feeRefundEvents acc ++ [refund]))
      else
        Ok (mkLedgerEvents (feeEvents acc ++ [fee]) ((operationEvents acc ++ token_OperationEvents txEvents) ++ [refund]) (feeRefundEvents acc))
  | l => Err (InvalidFeeEvents (go_len l))
  end.

(** The loops over the transactions of a reader; every turn reads one, so as many turns
    as there are transactions, and one more, are enough. *)
Fixpoint ledger_loop (fuel : nat) (isProtocol23Plus : bool) (r : LedgerTransactionReader) (acc : LedgerEvents) :
    option (result token_error LedgerEvents) :=
  match fuel with
  | O => None
  | S fuel =>
      let! (read, r) := Transaction_Read r in
      match read with
      | Err EOF => Some (Ok acc)
      | Err e => Some (Err (ErrReading e))
      | Ok tx =>
          try! txEvents := EventsFromTransaction tx in
          match add_transaction isProtocol23Plus acc txEvents with
          | Err e => Some (Err e)
          | Ok acc => ledger_loop fuel isProtocol23Plus r acc
          end
      end
  end.

Definition read_fuel (l : LedgerCloseMeta) : nat := S (Z.to_nat (default 0 (CountTransactions l))).

Definition EventsFromLedger (l : LedgerCloseMeta) : events :=
  try! txReader := wrap_error ErrReading (NewLedgerTransactionReaderFromLedgerCloseMeta (networkPassphrase p) l) in
  let! header := LedgerHeaderHistoryEntry l in
  let isProtocol23Plus := 23 <=? LedgerVersion header in
  try! acc := ledger_loop (read_fuel l) isProtocol23Plus txReader (mkLedgerEvents [] [] []) in
  Some (Ok (assembleEventOrder acc isProtocol23Plus)).
End Ledger.

(** ** Verification *)
Section Verify.
Context {NH : NetworkHash} {KE : @KeyEncoding token_entries}.
Variable h : ttl_store.
#[local] Abbreviation LedgerTransaction := (@LedgerTransaction token_entries token_transactions).
#[local] Abbreviation LedgerTransactionReader := (@LedgerTransactionReader token_entries token_transactions).
#[local] Abbreviation LedgerCloseMeta := (@LedgerCloseMeta token_entries token_transactions).

(** All the changes of a transaction, those of its fees and of its refunds too. *)
Definition all_changes (tx : LedgerTransaction) : option (result token_error (list Change)) :=
  let! feeChanges := GetFeeChanges h tx in
  try! txChanges := wrap_error ErrChanges (GetChanges h tx) in
  let! postTxApplyFeeChanges := GetPostApplyFeeChanges h tx in
  Some (Ok ((feeChanges ++ txChanges) ++ postTxApplyFeeChanges)).

Definition verify_transaction (ttp : EventsProcessor) (tx : LedgerTransaction) : option (result token_error unit) :=
  try! txEvents := EventsFromTransaction h ttp tx in
  let events := FeeEvents txEvents ++ token_OperationEvents txEvents in
  try! changes := all_changes tx in
  try! txEventsMap := wrap_error ErrDelta (findBalanceDeltasFromEvents events) in
  let! txChangesMap := findBalanceDeltasFromChanges changes in
  Some (if bool_decide (txEventsMap = txChangesMap) then Ok tt else Err (DeltaMismatch (tx_Hash tx))).

Fixpoint verify_loop (fuel : nat) (ttp : EventsProcessor) (r : LedgerTransactionReader) : option (result token_error unit) :=
  match fuel with
  | O => None
  | S fuel =>
      let! (read, r) := Transaction_Read r in
      match read with
      | Err EOF => Some (Ok tt)
      | Err e => Some (Err (ErrReading e))
      | Ok tx =>
          try! _ := verify_transaction ttp tx in
          verify_loop fuel ttp r
      end
  end.

Definition VerifyEvents (ledger : LedgerCloseMeta) (passphrase : bytes) (readFromUnifiedEvents : bool) : option (result token_error unit) :=
  let ttp := if readFromUnifiedEvents then NewEventsProcessorForUnifiedEvents passphrase else NewEventsProcessor passphrase in
  try! txReader := wrap_error ErrReading (NewLedgerTransactionReaderFromLedgerCloseMeta passphrase ledger) in
  verify_loop (read_fuel ledger) ttp txReader.
End Verify.
