(* ===== verification/TokenSamples.v ===== *)
(** * A small ledger

    Concrete keys and hashes, accounts and a transaction, for the examples of the token
    events: an account creates another under protocol 5, and the ledger entry changes
    show five stroops more at the source than the creation takes. *)
From Stdlib Require Import ZArith Lia.
From stdpp Require Import base list vector option gmap sorting.
From S2P Require Import Prelude GoStd GoExt Price Amount Encodings Strkey Asset LedgerEntries Compactor CloseMeta LedgerChanges TransactionReader.
From S2P Require Import Accounts Envelopes Toid Sha256 Transactions TokenEvents TokenDeltas TokenTransfer TokenContract TokenLedger.
#[local] Open Scope Z_scope.

Module SampleLedger.
#[export] Instance sample_hash : NetworkHash :=
  {| hash_envelope e _ := match SeqNum e with Some n => Some (copy_array (zero_array 32) (be_put 8 n)) | None => None end |}.

(** Keys of the entries the samples have. *)
#[export] Instance sample_keys : @KeyEncoding token_entries := {|
  UnsafeMarshalBinary k := match k with
    | LedgerKeyAccount a => Some (Byte.x00 :: vec_to_list a)
    | LedgerKeyTrustLine a _ => Some (Byte.x01 :: vec_to_list a)
    | LedgerKeyClaimableBalance b => Some (Byte.x04 :: vec_to_list b)
    | LedgerKeyLiquidityPool b => Some (Byte.x05 :: vec_to_list b)
    | _ => None
    end |}.

Definition account_of (c : byte) : AccountId := Vector.const c 32.
Definition alice : AccountId := account_of Byte.x0a.
Definition bob : AccountId := account_of Byte.x0b.
Definition issuer : AccountId := account_of Byte.x0c.
Definition usd : Asset := CreditAlphanum4 (copy_array (zero_array 4) (str "USD")) issuer.

Definition account_entry (a : AccountId) (balance : Z) : LedgerEntry :=
  mkLedgerEntry 1 (DataAccount a (mkHolding balance Native)) (mkHolding 0 Native).

Definition header_of (version : Z) : LedgerHeaderHistoryEntry_ :=
  mkHeader (Vector.const Byte.x00 32) version (Vector.const Byte.x00 32) (Vector.const Byte.x00 32) 9 100.

Definition creation : Operation := mkOperation None (CreateAccountOp bob 100).
Definition envelope_of (source : AccountId) (ops : list Operation) : Envelope_ :=
  EnvelopeTypeTx (mkTx (KeyTypeEd25519 source) 100 7 PreconditionTypePrecondNone MemoTypeMemoNone ops None) [].
Definition tx_hash : Hash := copy_array (zero_array 32) (be_put 8 7).

Definition creation_changes : list LedgerEntryChange :=
  [EntryCreated (account_entry bob 100); EntryState (account_entry alice 1000); EntryUpdated (account_entry alice 905)].
Definition fee_changes : list LedgerEntryChange :=
  [EntryState (account_entry alice 1100); EntryUpdated (account_entry alice 1000)].
Definition result_of (results : list OperationResult) : TransactionResultPair :=
  mkResultPair tx_hash 0 (mkResultRest 100 (Some results) None).

Definition ledger_of (version : Z) (ops : list Operation) (results : list OperationResult) (meta : TransactionMeta) : LedgerCloseMeta :=
  LedgerCloseMetaV0 (header_of version) [envelope_of alice ops] [mkResultMeta (result_of results) fee_changes meta] [].
Definition transaction_of (version : Z) (ops : list Operation) (results : list OperationResult) (meta : TransactionMeta) : LedgerTransaction :=
  mkTransaction 1 (envelope_of alice ops) (result_of results) fee_changes meta [] version (ledger_of version ops results meta) tx_hash.

Definition creation_meta : TransactionMeta := MetaV2 [] [creation_changes] [].
Definition creation_tx : LedgerTransaction := transaction_of 5 [creation] [None] creation_meta.
Definition creation_ledger : LedgerCloseMeta := ledger_of 5 [creation] [None] creation_meta.
Definition processor : EventsProcessor := NewEventsProcessor (str "Test").

(** The creation is a transfer, and the surplus is minted before it. *)
Lemma creation_events :
  match EventsFromLedger ∅ processor creation_ledger with
  | Some (Ok evs) => map Event_ evs =
      [FeeOf (account_address alice) (str "100") (Some Asset_Native); Mint (account_address alice) (str "5") (Some Asset_Native);
       Transfer (account_address alice) (account_address bob) (str "100") (Some Asset_Native)]
  | _ => False
  end.
Proof. vm_compute. reflexivity. Qed.

Lemma creation_verifies : VerifyEvents ∅ creation_ledger (str "Test") false = Some (Ok tt).
Proof. vm_compute. reflexivity. Qed.

(** From protocol 8 on nothing is reconciled, and the same ledger does not verify. *)
Lemma later_creation_mismatch :
  VerifyEvents ∅ (ledger_of 10 [creation] [None] creation_meta) (str "Test") false = Some (Err (DeltaMismatch tx_hash)).
Proof. vm_compute. reflexivity. Qed.

(** A result of a passive offer under its own type of operation is not the one the
    handler of passive offers asks for. *)
Lemma passive_offer_panics :
  operation_handler ∅ processor creation_tx 0 (mkOperation None CreatePassiveSellOfferOp) (Some (CreatePassiveSellOfferResult (Some []))) = Some None.
Proof. reflexivity. Qed.
Lemma passive_offer_other_arm :
  operation_handler ∅ processor creation_tx 0 (mkOperation None CreatePassiveSellOfferOp) (Some (ManageSellOfferResult (Some []))) = Some (Some (Ok [])).
Proof. reflexivity. Qed.
End SampleLedger.
