(* ===== verification/TokenSpec.v ===== *)
(** * What token events mean

    The events of src/processors/token_transfer as movements of balances: what a mint,
    a burn or a transfer moves, what the events of trades and the reconciliation of
    early protocols add up to, which events name an asset, in which order a ledger's
    events come and what [VerifyEvents] establishes. *)
From Stdlib Require Import ZArith Lia.
From stdpp Require Import base list vector option gmap sorting list_relations.
From S2P Require Import Prelude GoStd GoExt Price Amount Encodings Strkey Asset LedgerEntries Compactor CloseMeta LedgerChanges TransactionReader.
From S2P Require Import Accounts Envelopes Toid Sha256 Transactions TokenEvents TokenDeltas TokenTransfer TokenContract TokenLedger TokenSamples.
#[local] Open Scope Z_scope.
#[local] Open Scope go_scope.

(** ** Names and addresses *)
Lemma AccountId_Address_Some k : AccountId_Address k = Some (account_address k).
Proof. unfold AccountId_Address, AccountId_GetAddress. by rewrite (proj1 (account_address_Encode k)). Qed.

Lemma account_untracked k : untracked (account_address k) = false.
Proof.
  unfold untracked, IsValidContractAddress, IsValidMuxedContractAddress, valid_interface.
  pose proof (account_address_Decode k) as D. by rewrite !(Decode_other _ _ _ _ D) by done.
Qed.

Lemma event_asset_named meta e a : asset_named a -> GetAsset (mkTokenEvent meta e) = Some (NewProtoAsset a) ->
  event_asset (mkTokenEvent meta e) = Some (canonical_name a).
Proof.
  intros Hn E. unfold event_asset. rewrite E. destruct (ToXdrAsset_NewProtoAsset a Hn) as (a' & -> & Ha).
  by rewrite StringCanonical_name, Ha.
Qed.

(** Muxed information changes nothing of what an event moves. *)
Lemma event_moves_meta meta meta' e : event_moves (mkTokenEvent meta e) = event_moves (mkTokenEvent meta' e).
Proof. done. Qed.

(** ** Mint, burn or transfer *)

(** An account that is the issuer of the asset has no balance of it. *)
Definition issues (asset : Asset) (address : bytes) : bool :=
  match GetIssuerAccountId asset with Ok issuer => bool_decide (account_address issuer = address) | Err _ => false end.

(** The address an event names for a strkey. *)
Definition plain_address (strkey : bytes) : bytes :=
  match MustMuxedAddress strkey with
  | Some m => if isAccountAddress strkey then account_address (ToAccountId m) else strkey
  | None => strkey
  end.

Lemma GetIssuer_native a : IsNative a = true -> GetIssuerAccountId a = Err ErrNoIssuer.
Proof. by destruct a. Qed.

Lemma holder_side_Some asset strkey : (isAccountAddress strkey = false -> issues asset strkey = false) /\
  holder_side asset strkey = Some (plain_address strkey, issues asset (plain_address strkey)).
Proof.
  assert (Hi : isAccountAddress strkey = false -> issues asset strkey = false).
  { intros Ha. unfold issues. destruct (GetIssuerAccountId asset) as [i|]; [|done]. apply bool_decide_eq_false_2. intros <-.
    by pose proof (isAccountAddress_muxed_address (KeyTypeEd25519 i)) as H; cbn [muxed_address] in H; rewrite Ha in H. }
  split; [done|]. unfold holder_side, plain_address. destruct (isAccountAddress strkey) eqn:Ha.
  - destruct (isAccountAddress_muxed strkey Ha) as (m & -> & _). rewrite AccountId_Address_Some.
    unfold issues. destruct (IsNative asset) eqn:En; [by rewrite (GetIssuer_native asset En)|]. cbn [negb andb].
    destruct (GetIssuerAccountId asset) as [issuer|]; [|done]. unfold AccountId_Equals.
    do 2 f_equal. apply bool_decide_ext. split; [by intros ->|by intros H%(inj account_address)].
  - destruct (MustMuxedAddress strkey); by rewrite (Hi eq_refl).
Qed.

(** What [amt] of an asset moves from one holder to another: nothing at its issuer. *)
Definition moved (asset : Asset) (from to : bytes) (amt : Z) (k : balanceKey) : Z :=
  if issues asset (holder k) then 0
  else (if bool_decide ((from, canonical_name asset) = k) then - amt else 0) +
       (if bool_decide ((to, canonical_name asset) = k) then amt else 0).

Section Moves.
Context {NH : NetworkHash} {KE : @KeyEncoding token_entries}.
Variable p : EventsProcessor.
#[local] Abbreviation LedgerTransaction := (@LedgerTransaction token_entries token_transactions).
Implicit Types tx : LedgerTransaction.

Lemma mux_event_Ok tx event to b e : mux_event tx event to b = Some (Ok e) -> Event_ e = Event_ event.
Proof.
  unfold mux_event. destruct b; [|by intros [= <-]]. unfold setDestinationMuxedInfo.
  destruct (negb (isAccountAddress to)); [by intros [= <-]|]. destruct (IsValidMuxedAccountEd25519PublicKey to).
  - destruct (MustMuxedAddress to) as [m|]; [|done]. destruct (Muxed_GetId m); [|done]. by intros [= <-].
  - destruct (Memo (Envelope tx)) as [memo|]; [|done]. destruct (NewMuxedInfoFromMemo memo); [|done]. by intros [= <-].
Qed.

Lemma event_moves_of e e' : Event_ e = Event_ e' -> event_moves e = event_moves e'.
Proof. destruct e as [m x], e' as [m' x']. cbn [Event_]. by intros ->. Qed.

Lemma mintOrBurnOrTransfer_event tx opIndex asset from to amt b e :
  mintOrBurnOrTransferEvent p tx opIndex asset from to amt b = Some (Ok e) ->
  let a := Some (NewProtoAsset asset) in let f := plain_address from in let t := plain_address to in
  Event_ e = (if issues asset f then if issues asset t then Transfer f t amt a else Mint t amt a
              else if issues asset t then Burn f amt a else Transfer f t amt a).
Proof.
  unfold mintOrBurnOrTransferEvent. rewrite (proj2 (holder_side_Some asset from)), (proj2 (holder_side_Some asset to)).
  destruct (generateEventMeta p tx opIndex asset) as [meta|]; [|done].
  destruct (issues asset (plain_address from)), (issues asset (plain_address to)); cbn [andb]; cbv zeta.
  - by intros Hm%mux_event_Ok.
  - case_bool_decide; [done|]. by intros Hm%mux_event_Ok.
  - case_bool_decide; [done|]. by intros [= <-].
  - do 2 (case_bool_decide; [done|]). by intros Hm%mux_event_Ok.
Qed.

Lemma issues_same asset a b : issues asset a = true -> issues asset b = true -> a = b.
Proof. unfold issues. destruct (GetIssuerAccountId asset); [|done]. intros H%bool_decide_eq_true H'%bool_decide_eq_true. congruence. Qed.

Lemma total_one k key d : total k [(key, d)] = if bool_decide (key = k) then d else 0.
Proof. cbn. apply Z.add_0_r. Qed.

Lemma total_two k key d key' d' :
  total k [(key, d); (key', d')] = (if bool_decide (key = k) then d else 0) + (if bool_decide (key' = k) then d' else 0).
Proof. cbn. by rewrite Z.add_0_r. Qed.

(** The net effect of an event that was made of a movement is that movement. *)
Lemma mintOrBurnOrTransfer_moves tx opIndex asset from to n b e : asset_named asset ->
  mintOrBurnOrTransferEvent p tx opIndex asset from to (String64Raw n) b = Some (Ok e) ->
  exists ms, event_moves e = Some ms /\ forall k, total k ms = moved asset (plain_address from) (plain_address to) n k.
Proof.
  intros Hn H%mintOrBurnOrTransfer_event. cbv zeta in H. destruct e as [meta e]. cbn [Event_] in H. unfold moved.
  set (f := plain_address from) in *. set (t := plain_address to) in *.
  assert (Hx : forall k x, (x, canonical_name asset) = k -> issues asset (holder k) = issues asset x) by (by intros k x <-).
  assert (Hv : big_SetString (String64Raw n) = Some n) by apply big_SetString_FormatInt.
  destruct (issues asset f) eqn:Ef, (issues asset t) eqn:Et; subst e;
    unfold event_moves, GetAsset, GetAmount; cbn [Event_]; rewrite Hv, (event_asset_named meta _ asset Hn) by done;
    (eexists; split; [reflexivity|]); intros k; rewrite ?total_one, ?total_two.
  - rewrite (issues_same asset f t Ef Et). case_bool_decide as E; [rewrite (Hx k t E), Et; lia|by destruct (issues asset (holder k))].
  - case_bool_decide as E; case_bool_decide as E'; destruct (issues asset (holder k)) eqn:Ek;
      repeat match goal with H : (_, _) = k |- _ => pose proof (Hx k _ H); clear H end; congruence || lia.
  - case_bool_decide as E; case_bool_decide as E'; destruct (issues asset (holder k)) eqn:Ek;
      repeat match goal with H : (_, _) = k |- _ => pose proof (Hx k _ H); clear H end; congruence || lia.
  - case_bool_decide as E; case_bool_decide as E'; destruct (issues asset (holder k)) eqn:Ek;
      repeat match goal with H : (_, _) = k |- _ => pose proof (Hx k _ H); clear H end; congruence || lia.
Qed.

Lemma plain_address_nonempty s : s <> [] -> plain_address s <> [].
Proof.
  intros H. unfold plain_address. destruct (MustMuxedAddress s); [|done]. destruct (isAccountAddress s); [|done].
  apply account_address_nonempty.
Qed.

(** The header of the ledger has a version the code knows, and so has the memo. *)
Definition known_header tx : Prop := is_Some (LedgerHeaderHistoryEntry (tx_Ledger tx)).
Definition known_memo tx : Prop := exists memo, Memo (Envelope tx) = Some memo /\ is_Some (NewMuxedInfoFromMemo memo).

Lemma generateEventMeta_total tx opIndex asset : known_header tx -> is_Some (generateEventMeta p tx opIndex asset).
Proof.
  intros [header Hh]. unfold generateEventMeta. rewrite MustEncode_contract.
  unfold NewEventMetaFromTx, CloseMeta.LedgerSequence, LedgerCloseTime. rewrite Hh. by eexists.
Qed.

Lemma mux_event_total tx event to b : (b = true -> known_memo tx) ->
  exists e, mux_event tx event to b = Some (Ok e).
Proof.
  intros Hm. unfold mux_event. destruct b; [|by eexists]. destruct (Hm eq_refl) as (memo & Em & [info Ei]).
  unfold setDestinationMuxedInfo. destruct (isAccountAddress to) eqn:Ea; cbn [negb]; [|by eexists].
  destruct (isAccountAddress_muxed to Ea) as (m & Hmm & Hv). rewrite Hv.
  destruct m as [ed|id ed]; [rewrite Em, Ei; by eexists|]. rewrite Hmm. by eexists.
Qed.

Lemma mintOrBurnOrTransfer_total tx opIndex asset from to n b :
  known_header tx -> (b = true -> known_memo tx) -> from <> [] -> to <> [] ->
  exists e, mintOrBurnOrTransferEvent p tx opIndex asset from to n b = Some (Ok e).
Proof.
  intros Hh Hm Hf Ht. unfold mintOrBurnOrTransferEvent.
  rewrite (proj2 (holder_side_Some asset from)), (proj2 (holder_side_Some asset to)).
  destruct (generateEventMeta_total tx opIndex asset Hh) as [meta ->]. cbv zeta.
  rewrite !bool_decide_eq_false_2 by by apply plain_address_nonempty.
  destruct (issues asset (plain_address from)), (issues asset (plain_address to)); cbn [andb];
    first [by eexists|by apply mux_event_total].
Qed.

(** ** Trades *)
Lemma plain_address_account k : plain_address (account_address k) = account_address k.
Proof.
  unfold plain_address. pose proof (isAccountAddress_muxed_address (KeyTypeEd25519 k)) as Ha. cbn [muxed_address] in Ha.
  rewrite Ha, (MustMuxedAddress_account _ _ (account_address_Decode k)). cbn [ToAccountId]. by rewrite copy_array_vec.
Qed.

Lemma plain_address_muxed m : muxed_ok m -> plain_address (muxed_address m) = account_address (ToAccountId m).
Proof.
  intros Hm. unfold plain_address. by rewrite isAccountAddress_muxed_address, MustMuxedAddress_roundtrip.
Qed.

Lemma plain_address_other s : isAccountAddress s = false -> plain_address s = s.
Proof. intros H. unfold plain_address. rewrite H. by destruct (MustMuxedAddress s). Qed.

Lemma isAccountAddress_pool lp : isAccountAddress (pool_address lp) = false.
Proof. by apply (isAccountAddress_other _ _ _ (pool_address_Decode lp)). Qed.

(** The printed counterparty of a trade. *)
Definition seller_address (claim : ClaimAtom) : bytes :=
  match claim with
  | ClaimAtomTypeV0 s _ _ _ _ _ => account_address s
  | ClaimAtomTypeOrderBook s _ _ _ _ _ => account_address s
  | ClaimAtomTypeLiquidityPool lp _ _ _ _ => pool_address lp
  end.

Lemma claim_seller_Some claim : claim_seller claim = Some (seller_address claim) /\
  seller_address claim <> [] /\ plain_address (seller_address claim) = seller_address claim.
Proof.
  destruct claim as [s ? ? ? ? ?|s ? ? ? ? ?|lp ? ? ? ?]; cbn [claim_seller claim_SellerId seller_address].
  - rewrite AccountId_Address_Some. split; [done|]. split; [apply account_address_nonempty|apply plain_address_account].
  - rewrite AccountId_Address_Some. split; [done|]. split; [apply account_address_nonempty|apply plain_address_account].
  - split; [apply MustEncode_pool|]. split; [exact (address_of_nonempty _ _ _ (pool_address_Decode lp))|].
    apply plain_address_other, isAccountAddress_pool.
Qed.

(** What the trades move: what was sold to the source, what was bought of it. *)
Definition trade_moves (source : bytes) (claims : list ClaimAtom) (k : balanceKey) : Z :=
  foldr (fun claim acc =>
    moved (AssetSold claim) (seller_address claim) source (AmountSold claim) k +
    moved (AssetBought claim) source (seller_address claim) (AmountBought claim) k + acc) 0 claims.

Definition claim_named (claim : ClaimAtom) : Prop := asset_named (AssetSold claim) /\ asset_named (AssetBought claim).

Lemma claims_loop_moves tx opIndex source claims : known_header tx -> Forall claim_named claims ->
  exists evs ms, claims_loop p tx opIndex (account_address source) claims = Some (Ok evs) /\
    length evs = (2 * length claims)%nat /\ all_moves event_moves evs = Some ms /\
    forall k, total k ms = trade_moves (account_address source) claims k.
Proof.
  intros Hh Hc. induction Hc as [|claim claims [Hs Hb] _ (evs & ms & IH & IHl & IHm & IHt)].
  { exists [], []. split; [done|]. split; [done|]. by split. }
  destruct (claim_seller_Some claim) as (Eseller & Hne & Hplain).
  pose proof (account_address_nonempty source) as Hsrc.
  destruct (mintOrBurnOrTransfer_total tx (Some opIndex) (AssetSold claim) (seller_address claim) (account_address source)
    (String64Raw (AmountSold claim)) false) as [e1 E1]; [done|done|done|done|].
  destruct (mintOrBurnOrTransfer_total tx (Some opIndex) (AssetBought claim) (account_address source) (seller_address claim)
    (String64Raw (AmountBought claim)) false) as [e2 E2]; [done|done|done|done|].
  destruct (mintOrBurnOrTransfer_moves _ _ _ _ _ _ _ _ Hs E1) as (ms1 & Em1 & Ht1).
  destruct (mintOrBurnOrTransfer_moves _ _ _ _ _ _ _ _ Hb E2) as (ms2 & Em2 & Ht2).
  exists (e1 :: e2 :: evs), (ms1 ++ ms2 ++ ms). cbn [claims_loop all_moves]. rewrite Eseller, E1, E2, IH, Em1, Em2, IHm.
  split; [done|]. split; [cbn [length]; lia|]. split; [done|]. intros k.
  rewrite !total_app, Ht1, Ht2, IHt, Hplain, plain_address_account. unfold trade_moves. cbn [foldr]. lia.
Qed.

End Moves.

(** ** Reconciliation *)
Lemma apply_moves_default ms k : untracked (holder k) = false -> default 0 (apply_moves ∅ ms !! k) = total k ms.
Proof. intros Hk. rewrite apply_moves_total, Hk. cbn [orb]. by destruct (Z.eqb_spec (total k ms) 0) as [->|]. Qed.

Lemma wrap_error_Ok {E E' A} (f : E -> E') (r : option (result E A)) a : wrap_error f r = Some (Ok a) -> r = Some (Ok a).
Proof. destruct r as [[|]|]; [by intros [= ->]|done|done]. Qed.

Definition native_key (k : AccountId) : balanceKey := (account_address k, native_name).

Lemma native_mint_moves meta to d :
  event_moves (NewMintEvent meta to (FormatInt d) (Some (NewProtoAsset xlmAsset))) = Some [((to, native_name), d)].
Proof. unfold event_moves, GetAsset, GetAmount, NewMintEvent. cbn [Event_]. by rewrite big_SetString_FormatInt. Qed.
Lemma native_burn_moves meta from d :
  event_moves (NewBurnEvent meta from (FormatInt d) (Some (NewProtoAsset xlmAsset))) = Some [((from, native_name), - d)].
Proof. unfold event_moves, GetAsset, GetAmount, NewBurnEvent. cbn [Event_]. by rewrite big_SetString_FormatInt. Qed.

(** The reconciliation makes up the difference of the two maps at one key. *)
Section Reconcile.
Context {NH : NetworkHash} {KE : @KeyEncoding token_entries}.
Variable h : ttl_store.
Variable p : EventsProcessor.
#[local] Abbreviation LedgerTransaction := (@LedgerTransaction token_entries token_transactions).

Lemma reconciliation_moves (tx : LedgerTransaction) opIndex cms ems account events r l :
  all_moves event_moves events = Some ems ->
  maybeGenerateMintOrBurnEventsForReconciliation p tx opIndex (apply_moves ∅ cms) (apply_moves ∅ ems) account xlmAsset = Some r ->
  add_reconciliation events r = Ok l ->
  exists ms, all_moves event_moves l = Some ms /\
    total (native_key (ToAccountId account)) ms = total (native_key (ToAccountId account)) cms.
Proof.
  intros He. unfold maybeGenerateMintOrBurnEventsForReconciliation. rewrite AccountId_Address_Some, (StringCanonical_name xlmAsset).
  change (account_address (ToAccountId account), canonical_name xlmAsset) with (native_key (ToAccountId account)).
  set (key := native_key (ToAccountId account)). assert (Hk : untracked (holder key) = false) by apply account_untracked.
  rewrite !apply_moves_default by done. rewrite sgn_zero. destruct (Z.eqb_spec (total key cms - total key ems) 0) as [E|E].
  { intros [= <-] [= <-]. exists ems. split; [done|]. lia. }
  destruct (generateEventMeta p tx (Some opIndex) xlmAsset) as [meta|]; [|done]. intros [= <-].
  assert (Hone : forall d, total key [((account_address (ToAccountId account), native_name), d)] = d).
  { intros d. rewrite total_one. by rewrite bool_decide_eq_true_2. }
  destruct (Z.ltb_spec 0 (Z.sgn (total key cms - total key ems))) as [Hs|Hs]; intros Hr; cbn in Hr; injection Hr as <-.
  - cbn [all_moves]. rewrite native_mint_moves, He. eexists. split; [reflexivity|]. rewrite total_app, Hone. lia.
  - rewrite all_moves_app, He. cbn [all_moves]. rewrite native_burn_moves, app_nil_r.
    eexists. split; [reflexivity|]. rewrite total_app, Hone. lia.
Qed.

(** C11: before protocol 8 the events of an operation account for its source's native
    balance. When the events of an operation of a kind that has events are returned
    for a ledger of such a protocol, their net effect on the native balance of the
    source of the operation is that of the operation's ledger entry changes. *)
Theorem source_is_reconciled (tx : LedgerTransaction) opIndex op opResult handled version source events :
  operation_handler h p tx opIndex op opResult = Some handled ->
  EventsFromOperation h p tx opIndex op opResult = Some (Ok events) ->
  ProtocolVersion (tx_Ledger tx) = Some version -> version < 8 ->
  operationSourceAccount tx op = Some source ->
  exists changes cms ems,
    GetOperationChanges h tx opIndex = Some (Ok changes) /\
    all_moves change_moves changes = Some cms /\ all_moves event_moves events = Some ems /\
    total (native_key (ToAccountId source)) ems = total (native_key (ToAccountId source)) cms.
Proof.
  intros Hh He Hv Hlt Hs. unfold EventsFromOperation in He. rewrite Hh in He. apply wrap_error_Ok in He.
  apply try_bind_Ok in He as (evs & -> & He). rewrite Hv, (proj2 (Z.leb_gt 8 version)) in He by done.
  apply try_bind_Ok in He as (r & Hr & He). unfold generateXlmReconciliationEvents in Hr.
  apply try_bind_Ok in Hr as (changes & Hc & Hr). apply wrap_error_Ok in Hc.
  rewrite findBalanceDeltasFromChanges_moves in Hr. destruct (all_moves change_moves changes) as [cms|] eqn:Ec; [|done].
  apply try_bind_Ok in Hr as (m & Hm & Hr). apply wrap_error_Ok, findBalanceDeltasFromEvents_moves in Hm as (ems & Em & ->).
  rewrite Hs in Hr. destruct (maybeGenerateMintOrBurnEventsForReconciliation _ _ _ _ _ _ _) as [e|] eqn:Ee; [|done].
  injection Hr as <-. injection He as He.
  destruct (reconciliation_moves tx opIndex cms ems source evs e events Em Ee He) as (ms & Ems & Et). by exists changes, cms, ms.
Qed.
End Reconcile.

(** ** Payments along a path *)
Section Paths.
Context {NH : NetworkHash} {KE : @KeyEncoding token_entries}.
Variable h : ttl_store.
Variable p : EventsProcessor.
#[local] Abbreviation LedgerTransaction := (@LedgerTransaction token_entries token_transactions).

(** The trades, the destination and what it gets, of a path payment that succeeded. *)
Definition path_payment (op : Operation) (opResult : OperationResult) : option (list ClaimAtom * Asset * MuxedAccount_ * Z) :=
  match op_Body op, opResult with
  | PathPaymentStrictSendOp destination destAsset _, Some (PathPaymentStrictSendResult (Some success)) =>
      Some (Offers success, destAsset, destination, LastAmount success)
  | PathPaymentStrictReceiveOp destination destAsset destAmount, Some (PathPaymentStrictReceiveResult (Some success)) =>
      Some (Offers success, destAsset, destination, destAmount)
  | _, _ => None
  end.

Lemma muxed_address_nonempty m : muxed_address m <> [].
Proof.
  destruct m as [ed|id ed]; [apply account_address_nonempty|].
  exact (address_of_nonempty _ _ _ (muxed_address_Decode id ed)).
Qed.

(** The events of a path payment move what it moved. When a path payment
    succeeded, its events are two for each trade and one for the payment; at every
    holder that is not the issuer of the asset they add up to what the trades sold
    and bought and to what the destination received from the source, and at an issuer
    to nothing. *)
Theorem path_payment_moves (tx : LedgerTransaction) opIndex op opResult offers destAsset destination n source :
  path_payment op opResult = Some (offers, destAsset, destination, n) ->
  operationSourceAccount tx op = Some source -> muxed_ok source -> muxed_ok destination ->
  known_header tx -> known_memo tx -> Forall claim_named offers -> asset_named destAsset ->
  exists evs ms, operation_handler h p tx opIndex op opResult = Some (Some (Ok evs)) /\
    length evs = (2 * length offers + 1)%nat /\ all_moves event_moves evs = Some ms /\
    forall k, total k ms =
      trade_moves (account_address (ToAccountId source)) offers k +
      moved destAsset (account_address (ToAccountId source)) (account_address (ToAccountId destination)) n k.
Proof.
  intros Hp Hs Ms Md Hh Hm Hc Hd.
  assert (Hhandler : operation_handler h p tx opIndex op opResult = Some (path_events p tx opIndex op offers destAsset destination n)).
  { revert Hp. unfold path_payment, operation_handler, pathPaymentStrictSendEvents, pathPaymentStrictReceiveEvents.
    destruct (op_Body op); try done; destruct opResult as [[| | |[success|]|[success|]| | | |]|]; try done; by intros [= <- <- <- <-]. }
  rewrite Hhandler. unfold path_events, generateEventsFromClaimAtoms. rewrite Hs, AccountId_Address_Some, !Muxed_Address_Some.
  destruct (claims_loop_moves p tx opIndex (ToAccountId source) offers Hh Hc) as (evs & ms & E & El & Em & Et). rewrite E. cbn [try_bind].
  destruct (mintOrBurnOrTransfer_total p tx (Some opIndex) destAsset (muxed_address source) (muxed_address destination)
    (String64Raw n) true) as [e Ee]; [done|done|apply muxed_address_nonempty|apply muxed_address_nonempty|].
  destruct (mintOrBurnOrTransfer_moves p _ _ _ _ _ _ _ _ Hd Ee) as (ms' & Em' & Et').
  rewrite Ee. cbn [try_bind]. exists (evs ++ [e]), (ms ++ ms'). split; [done|].
  split; [rewrite length_app, El; cbn [length]; lia|]. split; [rewrite all_moves_app, Em; cbn [all_moves]; rewrite Em'; by rewrite app_nil_r|].
  intros k. rewrite total_app, Et, Et'. by rewrite !plain_address_muxed.
Qed.
End Paths.

(** A movement of an asset becomes one event. For a known ledger and memo, and two
    strkeys that are not empty, the event is a mint if only the sender is the issuer
    of the asset, a burn if only the receiver is, and a transfer otherwise; it names
    the accounts by their G addresses; and at every holder but the issuer its net
    effect is that the amount left the one and reached the other. *)
Theorem movement_becomes_event {NH : NetworkHash} {KE : @KeyEncoding token_entries} p
    (tx : @LedgerTransaction token_entries token_transactions) opIndex asset from to n b :
  known_header tx -> known_memo tx -> asset_named asset -> from <> [] -> to <> [] ->
  exists e ms, mintOrBurnOrTransferEvent p tx opIndex asset from to (String64Raw n) b = Some (Ok e) /\
    Event_ e = (let a := Some (NewProtoAsset asset) in let f := plain_address from in let t := plain_address to in
                let amt := String64Raw n in
                if issues asset f then if issues asset t then Transfer f t amt a else Mint t amt a
                else if issues asset t then Burn f amt a else Transfer f t amt a) /\
    event_moves e = Some ms /\
    forall k, total k ms = moved asset (plain_address from) (plain_address to) n k.
Proof.
  intros Hh Hm Hn Hf Ht.
  destruct (mintOrBurnOrTransfer_total p tx opIndex asset from to (String64Raw n) b Hh (fun _ => Hm) Hf Ht) as [e E].
  destruct (mintOrBurnOrTransfer_moves p _ _ _ _ _ _ _ _ Hn E) as (ms & Em & Et). exists e, ms.
  split; [done|]. split; [exact (mintOrBurnOrTransfer_event p _ _ _ _ _ _ _ _ E)|]. by split.
Qed.

(** ** The sample ledger *)
Module SampleTokens.
Import SampleLedger.

Lemma sample_header version ops results meta : known_header (transaction_of version ops results meta).
Proof. by exists (header_of version). Qed.
Lemma sample_memo version ops results meta : known_memo (transaction_of version ops results meta).
Proof. exists MemoTypeMemoNone. split; [done|by exists None]. Qed.

Lemma usd_named : asset_named usd.
Proof. right. vm_compute. discriminate. Qed.

Lemma source_is_reconciled_witness : exists events changes cms ems,
  EventsFromOperation ∅ processor creation_tx 0 creation None = Some (Ok events) /\
  GetOperationChanges ∅ creation_tx 0 = Some (Ok changes) /\
  all_moves change_moves changes = Some cms /\ all_moves event_moves events = Some ems /\
  total (native_key alice) ems = total (native_key alice) cms.
Proof.
  destruct (EventsFromOperation ∅ processor creation_tx 0 creation None) as [[events|]|] eqn:E;
    [|exfalso; vm_compute in E; discriminate E|exfalso; vm_compute in E; discriminate E].
  destruct (source_is_reconciled ∅ processor creation_tx 0 creation None _ 5 (KeyTypeEd25519 alice) events eq_refl E eq_refl eq_refl eq_refl)
    as (changes & cms & ems & H1 & H2 & H3 & H4).
  exists events, changes, cms, ems. split; [reflexivity|]. split; [exact H1|]. split; [exact H2|]. split; [exact H3|exact H4].
Defined.

(** Alice pays bob dollars by way of an offer of the issuer. *)
Definition path_op : Operation := mkOperation None (PathPaymentStrictReceiveOp (KeyTypeMuxedEd25519 5 bob) usd 20).
Definition path_offers : list ClaimAtom := [ClaimAtomTypeOrderBook issuer 1 usd 20 Native 40].
Definition path_result : OperationResult := Some (PathPaymentStrictReceiveResult (Some (mkPathSuccess path_offers 20))).

Lemma path_offers_named : Forall claim_named path_offers.
Proof. apply Forall_singleton. split; [apply usd_named|by left]. Qed.

End SampleTokens.
