(* ===== verification/TokenVerify.v ===== *)
(** * Event order and verification

    The loops over a ledger's transactions: [EventsFromLedger] puts the events of the
    transactions in the order of the protocol, and [VerifyEvents] accepts a ledger
    exactly when the events and the changes of every transaction move as much. *)
From Stdlib Require Import ZArith Lia.
From stdpp Require Import base list vector option gmap sorting list_relations.
From S2P Require Import Prelude GoStd GoExt Price Amount Encodings Strkey Asset LedgerEntries Compactor CloseMeta LedgerChanges TransactionReader.
From S2P Require Import Accounts Envelopes Toid Sha256 Transactions TokenEvents TokenDeltas TokenTransfer TokenContract TokenLedger TokenSpec.
From S2P Require Import TokenSamples.
#[local] Open Scope Z_scope.
#[local] Open Scope go_scope.

(** ** The order of the events *)

(** The events of the transactions, one by one. *)
Definition first_fees (evs : list TokenTransactionEvents) : list TokenTransferEvent := flat_map (fun ev => take 1 (FeeEvents ev)) evs.
Definition refunds (evs : list TokenTransactionEvents) : list TokenTransferEvent := flat_map (fun ev => drop 1 (FeeEvents ev)) evs.
Definition operations_of (evs : list TokenTransactionEvents) : list TokenTransferEvent := flat_map token_OperationEvents evs.
Definition operations_and_refunds (evs : list TokenTransactionEvents) : list TokenTransferEvent :=
  flat_map (fun ev => token_OperationEvents ev ++ drop 1 (FeeEvents ev)) evs.

Definition fees_ok (ev : TokenTransactionEvents) : Prop := (1 <= length (FeeEvents ev) <= 2)%nat.

Fixpoint add_all (b : bool) (acc : LedgerEvents) (evs : list TokenTransactionEvents) : result token_error LedgerEvents :=
  match evs with
  | [] => Ok acc
  | ev :: evs => match add_transaction b acc ev with Err e => Err e | Ok acc => add_all b acc evs end
  end.

Definition after (b : bool) (acc : LedgerEvents) (evs : list TokenTransactionEvents) : LedgerEvents :=
  mkLedgerEvents (feeEvents acc ++ first_fees evs)
    (operationEvents acc ++ (if b then operations_of evs else operations_and_refunds evs))
    (feeRefundEvents acc ++ (if b then refunds evs else [])).

Lemma add_transaction_Ok b acc ev acc' : add_transaction b acc ev = Ok acc' <-> fees_ok ev /\ acc' = after b acc [ev].
Proof.
  unfold add_transaction, fees_ok, after, first_fees, refunds, operations_of, operations_and_refunds. cbn [flat_map].
  destruct ev as [[|f [|r [|x l]]] ops]; cbn [FeeEvents token_OperationEvents take drop length]; destruct b; rewrite ?app_nil_r, ?app_assoc;
    split; try done; try (intros [H _]; lia); try (intros [= <-]; split; [lia|done]); by intros [_ ->].
Qed.

Lemma after_app b acc x y : after b (after b acc x) y = after b acc (x ++ y).
Proof.
  unfold after, first_fees, refunds, operations_of, operations_and_refunds. cbn [feeEvents operationEvents feeRefundEvents].
  rewrite !flat_map_app. destruct b; by rewrite ?app_assoc, ?app_nil_r.
Qed.

Lemma add_all_Ok b evs : forall acc acc', add_all b acc evs = Ok acc' <-> Forall fees_ok evs /\ acc' = after b acc evs.
Proof.
  induction evs as [|ev evs IH]; intros acc acc'; cbn [add_all].
  - unfold after. destruct acc, b; cbn; rewrite ?app_nil_r; (split; [intros [= <-]; split; [constructor|done]|by intros [_ ->]]).
  - change (ev :: evs) with ([ev] ++ evs). rewrite Forall_app, Forall_singleton, <- after_app. split.
    + destruct (add_transaction b acc ev) as [acc1|] eqn:E; [|done]. apply add_transaction_Ok in E as [Hf ->].
      intros [He ->]%IH. done.
    + intros [[Hf He] ->]. rewrite (proj2 (add_transaction_Ok b acc ev _) (conj Hf eq_refl)). by apply IH.
Qed.

Section Loops.
Context {NH : NetworkHash} {KE : @KeyEncoding token_entries}.
Variable h : ttl_store.
Variable p : EventsProcessor.
#[local] Abbreviation LedgerTransaction := (@LedgerTransaction token_entries token_transactions).
#[local] Abbreviation LedgerTransactionReader := (@LedgerTransactionReader token_entries token_transactions).
#[local] Abbreviation LedgerCloseMeta := (@LedgerCloseMeta token_entries token_transactions).
Implicit Types (r : LedgerTransactionReader) (l : LedgerCloseMeta).

Lemma transaction_at_error r i e : transaction_at r i = Some (Err e) -> e <> EOF.
Proof.
  unfold transaction_at. destruct (TransactionHash (lcm r) i); [|done].
  destruct (envelopesByHash r !! _); [|by intros [= <-]].
  destruct (match lcm r with LedgerCloseMetaV2 _ _ _ _ _ => _ | _ => _ end); [|done].
  destruct (TransactionResultPair_ (lcm r) i), (TxApplyProcessing (lcm r) i), (FeeProcessing (lcm r) i), (LedgerHeaderHistoryEntry (lcm r)); done.
Qed.

Lemma transaction_at_set r i j : transaction_at (set_readIdx r i) j = transaction_at r j.
Proof. done. Qed.

(** A loop that reads every transaction, does something with it and goes on. *)
Section Reading.
Context {A B : Type}.
Variable visit : LedgerTransaction -> option (result token_error B).
Variable step : A -> B -> result token_error A.
Fixpoint reading_loop (fuel : nat) r (acc : A) : option (result token_error A) :=
  match fuel with
  | O => None
  | S fuel =>
      let! (read, r) := Transaction_Read r in
      match read with
      | Err EOF => Some (Ok acc)
      | Err e => Some (Err (ErrReading e))
      | Ok tx =>
          try! b := visit tx in
          match step acc b with Err e => Some (Err e) | Ok acc => reading_loop fuel r acc end
      end
  end.

(** What the transactions from index [i] on give. *)
Definition visited r (i : Z) (bs : list B) : Prop :=
  forall (j : nat) b, bs !! j = Some b -> exists tx, transaction_at r (i + Z.of_nat j) = Some (Ok tx) /\ visit tx = Some (Ok b).

Fixpoint steps (acc : A) (bs : list B) : result token_error A :=
  match bs with [] => Ok acc | b :: bs => match step acc b with Err e => Err e | Ok acc => steps acc bs end end.

Lemma reading_loop_Ok fuel : forall r n acc acc',
  CountTransactions (lcm r) = Some n -> (Z.to_nat (n - readIdx r) < fuel)%nat -> readIdx r <= n ->
  reading_loop fuel r acc = Some (Ok acc') <->
  exists bs, Z.of_nat (length bs) = n - readIdx r /\ visited r (readIdx r) bs /\ steps acc bs = Ok acc'.
Proof.
  induction fuel as [|fuel IH]; intros r n acc acc' Hn Hf Hi; [lia|]. cbn [reading_loop]. unfold Transaction_Read. rewrite Hn.
  destruct (Z.leb_spec n (readIdx r)) as [Hle|Hlt].
  { split.
    - intros [= <-]. exists []. split; [cbn; lia|]. split; [|done]. intros j b Hj. by rewrite lookup_nil in Hj.
    - intros (bs & Hl & _ & Hs). destruct bs; [|cbn in Hl; lia]. cbn in Hs. congruence. }
  destruct (transaction_at r (readIdx r)) as [[tx|e]|] eqn:Et.
  - set (r' := set_readIdx r (readIdx r + 1)).
    assert (Hih : forall acc, reading_loop fuel r' acc = Some (Ok acc') <->
      exists bs, Z.of_nat (length bs) = n - (readIdx r + 1) /\ visited r (readIdx r + 1) bs /\ steps acc bs = Ok acc').
    { intros acc0. apply (IH r' n acc0 acc' Hn); cbn [readIdx set_readIdx r']; lia. }
    split.
    + intros (b & Hb & Hs)%try_bind_Ok. destruct (step acc b) as [acc1|] eqn:Es; [|done].
      apply Hih in Hs as (bs & Hl & Hv & Hs). exists (b :: bs). split; [cbn [length]; lia|]. split; [|cbn; by rewrite Es].
      intros [|j] b' Hj.
      * injection Hj as <-. exists tx. by rewrite Z.add_0_r.
      * destruct (Hv j b' Hj) as (tx' & Ht & Hv'). exists tx'. by replace (readIdx r + Z.of_nat (S j)) with (readIdx r + 1 + Z.of_nat j) by lia.
    + intros ([|b bs] & Hl & Hv & Hs); [cbn in Hl; lia|].
      destruct (Hv 0%nat b eq_refl) as (tx' & Ht & Hb). rewrite Z.add_0_r, Et in Ht. injection Ht as <-.
      cbn [steps] in Hs. rewrite Hb. cbn [try_bind]. destruct (step acc b) as [acc1|]; [|done]. apply Hih. exists bs.
      split; [cbn [length] in Hl; lia|]. split; [|done]. intros j b' Hj. destruct (Hv (S j) b' Hj) as (tx' & Ht & Hv').
      exists tx'. by replace (readIdx r + 1 + Z.of_nat j) with (readIdx r + Z.of_nat (S j)) by lia.
  - pose proof (transaction_at_error _ _ _ Et) as He. split; [by destruct e|]. intros ([|b bs] & Hl & Hv & _); [cbn in Hl; lia|].
    destruct (Hv 0%nat b eq_refl) as (tx' & Ht & _). rewrite Z.add_0_r in Ht. congruence.
  - split; [done|]. intros ([|b bs] & Hl & Hv & _); [cbn in Hl; lia|].
    destruct (Hv 0%nat b eq_refl) as (tx' & Ht & _). rewrite Z.add_0_r in Ht. congruence.
Qed.
End Reading.

Lemma ledger_loop_reading fuel b : forall r acc,
  ledger_loop h p fuel b r acc = reading_loop (EventsFromTransaction h p) (add_transaction b) fuel r acc.
Proof.
  induction fuel as [|fuel IH]; intros r acc; cbn [ledger_loop reading_loop]; [done|].
  destruct (Transaction_Read r) as [[[tx|[]] r']|]; try done. destruct (EventsFromTransaction h p tx) as [[ev|]|]; cbn [try_bind]; try done.
  destruct (add_transaction b acc ev); [apply IH|done].
Qed.

Lemma verify_loop_reading fuel : forall r,
  verify_loop h fuel p r = reading_loop (verify_transaction h p) (fun _ (_ : unit) => Ok tt) fuel r tt.
Proof.
  induction fuel as [|fuel IH]; intros r; cbn [verify_loop reading_loop]; [done|].
  destruct (Transaction_Read r) as [[[tx|[]] r']|]; try done. destruct (verify_transaction h p tx) as [[ev|]|]; cbn [try_bind]; try done.
Qed.

Lemma steps_add_all b evs : forall acc, steps (add_transaction b) acc evs = add_all b acc evs.
Proof. induction evs as [|ev evs IH]; intros acc; cbn; [done|]. destruct (add_transaction b acc ev); [apply IH|done]. Qed.

Lemma new_reader passphrase l r : NewLedgerTransactionReaderFromLedgerCloseMeta passphrase l = Some (Ok r) ->
  lcm r = l /\ readIdx r = 0 /\ exists n, CountTransactions l = Some n /\ 0 <= n.
Proof.
  unfold NewLedgerTransactionReaderFromLedgerCloseMeta. destruct (CountTransactions l) as [n|] eqn:En; [|done].
  destruct (TransactionEnvelopes l); [|done]. destruct (storeTransactions_loop _ _ _ _ _) as [[m|]|]; try done. intros [= <-].
  split; [done|]. split; [done|]. exists n. split; [done|]. unfold CountTransactions in En. destruct l; try done; injection En as <-; unfold go_len; lia.
Qed.

Lemma read_fuel_enough l n : CountTransactions l = Some n -> 0 <= n -> (Z.to_nat (n - 0) < read_fuel l)%nat.
Proof. intros Hn H. unfold read_fuel. rewrite Hn. cbn [default]. rewrite Z.sub_0_r. apply Nat.lt_succ_diag_r. Qed.

(** C12: the events of a ledger come in the order of its protocol. The events of a
    ledger are returned exactly when its reader is made and each of its transactions
    is read and gives one or two fee events; they are then the first fee event of each
    transaction, and from protocol 23 on the events of all their operations and after
    them all the refunds, before it the events of the operations of each transaction
    followed by its refund. *)
Theorem ledger_event_order l out :
  EventsFromLedger h p l = Some (Ok out) <->
  exists r n header evs,
    NewLedgerTransactionReaderFromLedgerCloseMeta (networkPassphrase p) l = Some (Ok r) /\
    CountTransactions l = Some n /\ LedgerHeaderHistoryEntry l = Some header /\
    Z.of_nat (length evs) = n /\ Forall fees_ok evs /\
    (forall (i : nat) ev, evs !! i = Some ev ->
      exists tx, transaction_at r (Z.of_nat i) = Some (Ok tx) /\ EventsFromTransaction h p tx = Some (Ok ev)) /\
    out = first_fees evs ++
      (if 23 <=? LedgerVersion header then operations_of evs ++ refunds evs else operations_and_refunds evs).
Proof.
  unfold EventsFromLedger.
  assert (Hloop : forall r n b acc', NewLedgerTransactionReaderFromLedgerCloseMeta (networkPassphrase p) l = Some (Ok r) ->
    CountTransactions l = Some n -> 0 <= n ->
    ledger_loop h p (read_fuel l) b r (mkLedgerEvents [] [] []) = Some (Ok acc') <->
    exists evs, Z.of_nat (length evs) = n /\ Forall fees_ok evs /\
      visited (EventsFromTransaction h p) r 0 evs /\ acc' = after b (mkLedgerEvents [] [] []) evs).
  { intros r n b acc' Hr Hn H0. destruct (new_reader _ _ _ Hr) as (Hl & Hi & _). rewrite ledger_loop_reading.
    rewrite (reading_loop_Ok (EventsFromTransaction h p) (add_transaction b) (read_fuel l) r n) by
      (rewrite ?Hl, ?Hi; try done; by apply read_fuel_enough).
    rewrite Hi, Z.sub_0_r. split; intros (evs & H1 & H2 & H3); exists evs.
    - rewrite steps_add_all in H3. apply add_all_Ok in H3 as [Hf ->]. done.
    - destruct H3 as [H3 ->]. split; [done|]. split; [done|]. rewrite steps_add_all. by apply add_all_Ok. }
  split.
  - intros (r & Hr & H)%try_bind_Ok. apply wrap_error_Ok in Hr. destruct (new_reader _ _ _ Hr) as (Hl & Hi & n & Hn & H0).
    destruct (LedgerHeaderHistoryEntry l) as [header|] eqn:Eh; [|done]. apply try_bind_Ok in H as (acc & Ha & [= <-]).
    apply (Hloop r n _ acc Hr Hn H0) in Ha as (evs & Hlen & Hf & Hv & ->). exists r, n, header, evs.
    split_and!; try done. unfold assembleEventOrder, after. cbn [feeEvents operationEvents feeRefundEvents app].
    by destruct (23 <=? LedgerVersion header).
  - intros (r & n & header & evs & Hr & Hn & Hh & Hlen & Hf & Hv & ->). rewrite Hr, Hh. cbn [wrap_error try_bind].
    rewrite (proj2 (Hloop r n (23 <=? LedgerVersion header) (after (23 <=? LedgerVersion header) (mkLedgerEvents [] [] []) evs) Hr Hn ltac:(lia))) by (by exists evs).
    cbn [try_bind].
    do 2 f_equal. unfold assembleEventOrder, after. cbn [feeEvents operationEvents feeRefundEvents app].
    by destruct (23 <=? LedgerVersion header).
Qed.

(** ** Verification *)

(** The events and the changes of a transaction move as much of every asset at every
    holder that is not a contract. *)
Definition balanced (tx : LedgerTransaction) : Prop :=
  exists txEvents changes ems cms,
    EventsFromTransaction h p tx = Some (Ok txEvents) /\ all_changes h tx = Some (Ok changes) /\
    all_moves event_moves (FeeEvents txEvents ++ token_OperationEvents txEvents) = Some ems /\
    all_moves change_moves changes = Some cms /\
    forall k, untracked (holder k) = false -> total k ems = total k cms.

Lemma verify_transaction_balanced tx : verify_transaction h p tx = Some (Ok tt) <-> balanced tx.
Proof.
  unfold verify_transaction, balanced. split.
  - intros (ev & Ee & H)%try_bind_Ok. apply try_bind_Ok in H as (changes & Ec & H). apply try_bind_Ok in H as (m & Em & H).
    apply wrap_error_Ok, findBalanceDeltasFromEvents_moves in Em as (ems & Em & ->).
    rewrite findBalanceDeltasFromChanges_moves in H. destruct (all_moves change_moves changes) as [cms|] eqn:Ecm; [|done].
    exists ev, changes, ems, cms. split_and!; try done. apply apply_moves_same. case_bool_decide; [done|]. by injection H.
  - intros (ev & changes & ems & cms & -> & Ec & Em & Ecm & Ht). cbn [try_bind]. rewrite Ec. cbn [try_bind].
    rewrite (proj2 (findBalanceDeltasFromEvents_moves _ _)) by (exists ems; done). cbn [wrap_error try_bind].
    rewrite findBalanceDeltasFromChanges_moves, Ecm. by rewrite bool_decide_eq_true_2 by (by apply apply_moves_same).
Qed.

Lemma steps_unit (us : list unit) : steps (fun _ (_ : unit) => Ok tt) tt us = Ok tt.
Proof. by induction us. Qed.
End Loops.

(** C10: a ledger verifies exactly when its events account for its balances.
    [VerifyEvents] returns nil if and only if every transaction of the ledger is read,
    and the events derived for it, fees and refunds included, move as much of every
    asset at every holder that is not a contract as its ledger entry changes do. *)
Theorem VerifyEvents_balances {NH : NetworkHash} {KE : @KeyEncoding token_entries} h l passphrase unified :
  VerifyEvents h l passphrase unified = Some (Ok tt) <->
  exists r n, NewLedgerTransactionReaderFromLedgerCloseMeta passphrase l = Some (Ok r) /\ CountTransactions l = Some n /\
    forall i, 0 <= i < n -> exists tx, transaction_at r i = Some (Ok tx) /\ balanced h (mkProcessor passphrase unified) tx.
Proof.
  unfold VerifyEvents.
  assert ((if unified then NewEventsProcessorForUnifiedEvents passphrase else NewEventsProcessor passphrase) = mkProcessor passphrase unified) as ->
    by by destruct unified.
  set (p := mkProcessor passphrase unified).
  assert (Hloop : forall r n, NewLedgerTransactionReaderFromLedgerCloseMeta passphrase l = Some (Ok r) -> CountTransactions l = Some n -> 0 <= n ->
    verify_loop h (read_fuel l) p r = Some (Ok tt) <->
    exists us : list unit, Z.of_nat (length us) = n /\ visited (verify_transaction h p) r 0 us).
  { intros r n Hr Hn H0. destruct (new_reader _ _ _ Hr) as (Hl & Hi & _). rewrite verify_loop_reading.
    rewrite (reading_loop_Ok (verify_transaction h p) _ (read_fuel l) r n) by (rewrite ?Hl, ?Hi; try done; by apply read_fuel_enough).
    rewrite Hi, Z.sub_0_r. split; intros (us & H1 & H2); exists us; [by destruct H2|]. split; [done|]. split; [done|apply steps_unit]. }
  split.
  - intros (r & Hr & H)%try_bind_Ok. apply wrap_error_Ok in Hr. destruct (new_reader _ _ _ Hr) as (Hl & Hi & n & Hn & H0).
    apply (Hloop r n Hr Hn H0) in H as (us & Hlen & Hv). exists r, n. split; [done|]. split; [done|]. intros i Hin.
    destruct (lookup_lt_is_Some_2 us (Z.to_nat i)) as [u Hu]; [lia|]. destruct (Hv _ u Hu) as (tx & Ht & Hb).
    rewrite Z2Nat.id in Ht by lia. exists tx. split; [done|]. apply verify_transaction_balanced. by destruct u.
  - intros (r & n & Hr & Hn & Hb). rewrite Hr. cbn [wrap_error try_bind].
    destruct (new_reader _ _ _ Hr) as (_ & _ & n' & Hn' & H0). rewrite Hn in Hn'. injection Hn' as <-.
    apply (Hloop r n Hr Hn H0). exists (replicate (Z.to_nat n) tt). rewrite length_replicate. split; [lia|].
    intros j u [-> Hj]%lookup_replicate. destruct (Hb (Z.of_nat j)) as (tx & Ht & Hbt); [lia|]. exists tx. split; [done|].
    by apply verify_transaction_balanced.
Qed.

(** ** The assets of contract events

    An event a contract emits has an asset exactly when the contract is that asset's:
    what [parseEvent] makes of an event, against the text of its last topic. *)
(** ** Assets in text are canonical *)
Lemma alnum_last code : forallb alnum code = true -> list.last code <> Some zero_byte.
Proof.
  intros H E. apply last_Some in E as [l ->]. rewrite forallb_app in H. apply andb_true_iff in H as [_ H]. by vm_compute in H.
Qed.

Lemma SetCredit_roundtrip code issuer a : SetCredit code issuer = Ok a -> list.last code <> Some zero_byte ->
  ToXdrAsset (NewProtoAsset a) = Some a.
Proof.
  intros H Hl. assert (E : NewProtoAsset a = Asset_IssuedAsset code (account_address issuer)).
  { destruct (SetCredit_Ok _ _ _ H) as [[Hlen ->]|[Hlen ->]]; unfold NewProtoAsset; change (IsNative _) with false; cbv iota;
      unfold GetIssuer, AccountId_GetAddress; cbn [GetIssuerAccountId GetCode];
      rewrite (proj1 (account_address_Encode issuer)), length_copy_code by lia; by rewrite trimRightZeros_app_zeros. }
  rewrite E. cbn [ToXdrAsset]. unfold MustNewCreditAsset, NewCreditAsset. by rewrite SetAddress_account, H.
Qed.

Lemma build_asset_roundtrip s a : build_asset s = Ok a -> ToXdrAsset (NewProtoAsset a) = Some a.
Proof.
  unfold build_asset. case_bool_decide; [by intros [= <-]|]. destruct (strings_Split colon s) as [|code [|address [|]]]; try done.
  unfold ValidAssetCode. destruct (forallb alnum code) eqn:Ea; [|by rewrite andb_false_r]. destruct (_ && _); [|done]. cbn [negb].
  destruct (AddressToAccountId address) as [issuer|]; [|done]. destruct (SetCredit code issuer) as [a'|] eqn:E; [|done].
  intros [= <-]. by apply (SetCredit_roundtrip code issuer); [|apply alnum_last].
Qed.

Lemma BuildAssets_roundtrip s a : BuildAssets s = Ok [a] -> ToXdrAsset (NewProtoAsset a) = Some a.
Proof.
  unfold BuildAssets. case_bool_decide; [done|]. destruct (strings_Split comma s) as [|x l]; [done|]. cbn [build_loop].
  destruct (build_asset x) as [b|] eqn:E; [|done]. cbn [result_bind]. destruct (build_loop l) as [bs|]; [|done]. cbn [result_bind].
  intros [= -> _]. by apply (build_asset_roundtrip x).
Qed.

Section Events.
Context {NH : NetworkHash} {KE : @KeyEncoding token_entries}.
Variable p : EventsProcessor.
#[local] Abbreviation LedgerTransaction := (@LedgerTransaction token_entries token_transactions).
#[local] Abbreviation ContractEvent := (@ContractEvent token_entries).
Implicit Types (tx : LedgerTransaction) (ce : ContractEvent).

Lemma sac_asset_Some fn v cid topics a : sac_asset p fn v cid topics = Some a ->
  ContractID a (networkPassphrase p) = cid /\ ToXdrAsset (NewProtoAsset a) = Some a.
Proof.
  unfold sac_asset. destruct (negb _); [done|]. destruct (list.last topics) as [t|]; [|done]. destruct (GetStr t) as [s|]; [|done].
  case_bool_decide; [done|]. destruct (BuildAssets s) as [[|b [|]]|] eqn:E; try done. case_bool_decide as Hc; [|done].
  intros [= <-]. split; [done|]. by apply (BuildAssets_roundtrip s).
Qed.

Lemma meta_address tx opIndex address m : NewEventMetaFromTx tx opIndex address = Some m -> ContractAddress m = address.
Proof.
  unfold NewEventMetaFromTx. destruct (CloseMeta.LedgerSequence (tx_Ledger tx)); [|done]. destruct (LedgerCloseTime (tx_Ledger tx)); [|done].
  by intros [= <-].
Qed.

Lemma contract_meta_address tx opIndex cid m : contract_meta tx opIndex cid = Some m -> ContractAddress m = contract_address cid.
Proof. unfold contract_meta. rewrite MustEncode_contract. apply meta_address. Qed.

Lemma generateEventMeta_address tx opIndex asset m : generateEventMeta p tx opIndex asset = Some m ->
  ContractAddress m = contract_address (ContractID asset (networkPassphrase p)).
Proof. unfold generateEventMeta. rewrite MustEncode_contract. apply meta_address. Qed.

(** A token event just parsed has the contract's address and no asset. *)
Definition bare (cid : Hash) (e : TokenTransferEvent) : Prop :=
  ContractAddress (Meta e) = contract_address cid /\ GetAsset e = None.

Lemma with_address_Ok val k e : with_address val k = Some (Ok e) -> exists a, extractAddress val = Some a /\ k a = Some (Ok e).
Proof. unfold with_address. destruct (extractAddress val) as [a|]; [by exists a|done]. Qed.

Lemma parseV3_bare fn tx opIndex cid topics value e :
  parseCustomTokenEventV3 fn tx opIndex cid topics value = Some (Ok e) -> bare cid e.
Proof.
  unfold parseCustomTokenEventV3. destruct (GetI128 value) as [amt|]; [|done].
  destruct (contract_meta tx opIndex cid) as [m|] eqn:Em; [|done]. apply contract_meta_address in Em. cbv zeta.
  repeat (case_bool_decide; [destruct (_ <? _); [done|];
    repeat (intros (? & _ & He)%with_address_Ok; revert He); by intros [= <-]|]). done.
Qed.

Lemma parseV4_bare fn tx opIndex cid topics value e :
  parseCustomTokenEventV4 fn tx opIndex cid topics value = Some (Ok e) -> bare cid e.
Proof.
  unfold parseCustomTokenEventV4. destruct (v4_data value) as [[amt memo]|]; [|done].
  destruct (contract_meta tx opIndex cid) as [m|] eqn:Em; [|done]. apply contract_meta_address in Em. cbv zeta.
  assert (Hm : ContractAddress (meta_with_memo m memo) = contract_address cid) by (by destruct memo).
  repeat (case_bool_decide; [destruct (_ <? _); [done|];
    repeat (intros (? & _ & He)%with_address_Ok; revert He); by intros [= <-]|]). done.
Qed.

Lemma SetAsset_fields e asset : Meta (SetAsset e asset) = Meta e /\ GetAsset (SetAsset e asset) = Some (NewProtoAsset asset).
Proof. by destruct e as [m []]. Qed.

Lemma mintOrBurn_fields tx opIndex asset from to amt e :
  mintOrBurnOrTransferEvent p tx opIndex asset from to amt false = Some (Ok e) ->
  ContractAddress (Meta e) = contract_address (ContractID asset (networkPassphrase p)) /\ GetAsset e = Some (NewProtoAsset asset).
Proof.
  unfold mintOrBurnOrTransferEvent. rewrite (proj2 (holder_side_Some asset from)), (proj2 (holder_side_Some asset to)).
  destruct (generateEventMeta p tx opIndex asset) as [m|] eqn:Em; [|done]. apply generateEventMeta_address in Em. cbv zeta.
  destruct (issues asset (plain_address from)), (issues asset (plain_address to)); cbn [andb mux_event];
    repeat (case_bool_decide; [done|]); by intros [= <-].
Qed.

(** C13: an event names an asset only if that asset's own contract emitted it. A
    contract event that is accepted as a token event was emitted by a contract, whose
    address it carries; it carries an asset exactly when the text in its last topic
    names one, under the number of topics such an event has, whose contract on the
    network is that very contract. *)
Theorem asset_of_its_contract tx opIndex ce e :
  parseEvent p tx opIndex ce = Some (Ok e) ->
  exists cid fn, event_ContractId ce = Some cid /\ event_Type ce = ContractEventTypeContract /\ Body_V ce = 0 /\
    GetSym (topic (Topics ce) 0) = Some fn /\ ContractAddress (Meta e) = contract_address cid /\
    GetAsset e = (let! asset := sac_asset p fn (Meta_V (UnsafeMeta tx)) cid (Topics ce) in Some (NewProtoAsset asset)) /\
    (forall a, GetAsset e = Some a -> exists asset, a = NewProtoAsset asset /\ ContractID asset (networkPassphrase p) = cid).
Proof.
  unfold parseEvent. destruct (event_ContractId ce) as [cid|]; [|done].
  destruct (Z.eqb_spec (event_Type ce) ContractEventTypeContract) as [Ht|]; [|done].
  destruct (Z.eqb_spec (Body_V ce) 0) as [Hv|]; [|done]. cbn [negb orb]. destruct (go_len (Topics ce) <? 2); [done|].
  destruct (GetSym (topic (Topics ce) 0)) as [fn|]; [|done]. intros (e0 & He0 & H)%try_bind_Ok. exists cid, fn.
  assert (Hb : bare cid e0).
  { destruct (_ =? 3); [by apply parseV3_bare in He0|]. destruct (_ =? 4); [by apply parseV4_bare in He0|done]. }
  destruct Hb as [Hb1 Hb2]. do 4 (split; [done|]).
  destruct (sac_asset p fn (Meta_V (UnsafeMeta tx)) cid (Topics ce)) as [asset|] eqn:Es.
  - destruct (sac_asset_Some _ _ _ _ _ Es) as [Hc Hx]. destruct (SetAsset_fields e0 asset) as [Hm Ha].
    assert (Hout : ContractAddress (Meta e) = contract_address cid /\ GetAsset e = Some (NewProtoAsset asset)).
    { destruct (Meta_V (UnsafeMeta tx) =? 4); [injection H as <-; by rewrite Hm|]. unfold retyped in H.
      unfold GetAsset in Ha. destruct (Event_ (SetAsset e0 asset)) as [from to n a| | | |] eqn:Ee; try (injection H as <-; unfold GetAsset; rewrite Ee, Hm; done).
      rewrite Ha, Hx in H. apply mintOrBurn_fields in H. by rewrite Hc in H. }
    destruct Hout as [H1 H2]. split; [done|]. split; [done|]. intros a Hga. exists asset. split; congruence.
  - injection H as <-. split; [done|]. split; [done|]. intros a Hga. congruence.
Qed.
End Events.

(** ** An event of the contract of an asset *)
Module SampleContract.
Import SampleLedger.
Definition usd_contract : Hash := ContractID usd (str "Test").
Definition usd_text : bytes := str "USD:" ++ account_address issuer.

(** A V4 transfer with the data in a map, from a contract [cid]. *)
Definition transfer_event (cid : Hash) : ContractEvent := mkContractEvent 1 (Some cid) 0
  [ScvSymbol (str "transfer"); ScvAddress (ScAddressTypeAccount alice); ScvAddress (ScAddressTypeAccount bob); ScvString usd_text]
  (ScvMap (Some [(ScvSymbol (str "amount"), ScvI128 (mkInt128Parts 0 7)); (ScvSymbol (str "to_muxed_id"), ScvU64 9)])).
Definition v4_tx : LedgerTransaction := transaction_of 23 [] [] (MetaV4 [] [] [] [] []).

Lemma asset_of_its_contract_witness : exists e, parseEvent processor v4_tx (Some 0) (transfer_event usd_contract) = Some (Ok e) /\
  ContractAddress (Meta e) = contract_address usd_contract /\ GetAsset e = Some (NewProtoAsset usd) /\ ToMuxedInfo (Meta e) = Some (MuxedInfo_Id 9).
Proof.
  destruct (parseEvent processor v4_tx (Some 0) (transfer_event usd_contract)) as [[e|]|] eqn:E;
    [|exfalso; vm_compute in E; discriminate E|exfalso; vm_compute in E; discriminate E].
  exists e. split; [reflexivity|].
  destruct (asset_of_its_contract processor v4_tx (Some 0) (transfer_event usd_contract) e E) as (cid & fn & Ec & _ & _ & Es & Ha & Hg & _).
  injection Ec as <-. injection Es as <-. split; [exact Ha|]. split; [rewrite Hg; vm_compute; reflexivity|]. vm_compute in E. injection E as <-. reflexivity.
Defined.

(** From another contract the same event has no asset. *)
Lemma spoofed_event : match parseEvent processor v4_tx (Some 0) (transfer_event (Vector.const Byte.x01 32)) with
  | Some (Ok e) => GetAsset e = None
  | _ => False
  end.
Proof. vm_compute. reflexivity. Qed.
End SampleContract.
