(* ===== verification/TokenTypes.v ===== *)
(** * Well-formed events

    Every event of an operation is well formed: its holders are strkeys of the kinds
    that hold balances, its amount is a decimal integer, and its meta says in which
    operation of which transaction it happened and names a contract. *)
From Stdlib Require Import ZArith Lia.
From stdpp Require Import base list vector option gmap sorting list_relations.
From S2P Require Import Prelude GoStd GoExt Price Amount Encodings Strkey Asset LedgerEntries Compactor CloseMeta LedgerChanges TransactionReader.
From S2P Require Import Accounts Envelopes Toid Sha256 Transactions TokenEvents TokenDeltas TokenTransfer TokenContract TokenLedger TokenSamples.
From S2P Require Import TokenSpec.
#[local] Open Scope Z_scope.
#[local] Open Scope go_scope.

(** ** Strkeys of holders *)
Definition holder_kinds : list byte :=
  [VersionByteAccountID; VersionByteMuxedAccount; VersionByteContract; VersionByteMuxedContract;
   VersionByteLiquidityPool; VersionByteClaimableBalance].
Definition holder_strkey (s : bytes) : Prop := Exists (fun v => is_Ok (Decode v s) = true) holder_kinds.
#[export] Instance holder_strkey_dec s : Decision (holder_strkey s).
Proof. unfold holder_strkey. apply _. Defined.

Lemma holder_kind v : bool_decide (v ∈ holder_kinds) = true -> v ∈ holder_kinds.
Proof. apply bool_decide_eq_true_1. Qed.

Lemma holder_strkey_Decode v s q : v ∈ holder_kinds -> Decode v s = Ok q -> holder_strkey s.
Proof. intros Hv HD. apply Exists_exists. exists v. split; [done|]. by rewrite HD. Qed.

Lemma account_strkey k : holder_strkey (account_address k).
Proof. apply (holder_strkey_Decode VersionByteAccountID _ _ (holder_kind VersionByteAccountID eq_refl) (account_address_Decode k)). Qed.
Lemma pool_strkey lp : holder_strkey (pool_address lp).
Proof. apply (holder_strkey_Decode VersionByteLiquidityPool _ _ (holder_kind VersionByteLiquidityPool eq_refl) (pool_address_Decode lp)). Qed.
Lemma balance_strkey c : holder_strkey (balance_address c).
Proof. apply (holder_strkey_Decode VersionByteClaimableBalance _ _ (holder_kind VersionByteClaimableBalance eq_refl) (balance_address_Decode c)). Qed.
Lemma contract_strkey c : holder_strkey (contract_address c).
Proof. apply (holder_strkey_Decode VersionByteContract _ _ (holder_kind VersionByteContract eq_refl) (contract_address_Decode c)). Qed.
Lemma muxed_strkey m : holder_strkey (muxed_address m).
Proof.
  destruct m as [ed|id ed]; [apply account_strkey|].
  apply (holder_strkey_Decode VersionByteMuxedAccount _ _ (holder_kind VersionByteMuxedAccount eq_refl) (muxed_address_Decode id ed)).
Qed.

Lemma ScAddress_strkey a s : ScAddress_String a = Ok s -> holder_strkey s.
Proof.
  destruct a as [k|c|id ed|id c|lp|b]; cbn [ScAddress_String].
  - rewrite (proj1 (account_address_Encode k)). intros [= <-]. apply account_strkey.
  - intros E. pose proof (MustEncode_contract c) as H. unfold MustEncode in H. rewrite E in H. injection H as ->. apply contract_strkey.
  - intros E. pose proof (Muxed_Address_Some (KeyTypeMuxedEd25519 id ed)) as H. unfold Muxed_Address in H. rewrite E in H. injection H as ->.
    apply (muxed_strkey (KeyTypeMuxedEd25519 id ed)).
  - intros E. apply (holder_strkey_Decode VersionByteMuxedContract s (vec_to_list c ++ BigEndian_PutUint64 id)); [by apply holder_kind|].
    apply Encode_Decode_iff. split; [done|]. apply (checkPayloadLength_fixed _ _ 40 fixed_muxed_contract).
    unfold BigEndian_PutUint64. by rewrite length_app, length_vec_to_list, length_be_put.
  - intros E. pose proof (MustEncode_pool lp) as H. unfold MustEncode in H. rewrite E in H. injection H as ->. apply pool_strkey.
  - intros E. pose proof (MustEncodeToStrkey_Some b) as H. unfold MustEncodeToStrkey in H. rewrite E in H. injection H as ->. apply balance_strkey.
Qed.

Lemma extractAddress_strkey v s : extractAddress v = Some s -> holder_strkey s.
Proof.
  unfold extractAddress. destruct v; try done. destruct (ScAddress_String a) as [x|] eqn:E; [|done]. intros [= <-]. by apply (ScAddress_strkey a).
Qed.

Lemma plain_address_strkey s : holder_strkey s -> holder_strkey (plain_address s).
Proof.
  intros H. unfold plain_address. destruct (MustMuxedAddress s); [|done]. destruct (isAccountAddress s); [apply account_strkey|done].
Qed.

(** ** Events *)
Definition holders (e : token_event) : list bytes :=
  match e with
  | Transfer from to _ _ => [from; to]
  | Mint to _ _ => [to]
  | Burn from _ _ => [from]
  | Clawback from _ _ => [from]
  | FeeOf from _ _ => [from]
  end.

Definition decimal_amount (s : bytes) : Prop := is_Some (big_SetString s).

(** What an event says besides where it happened. *)
Definition typed_event (e : TokenTransferEvent) : Prop := Forall holder_strkey (holders (Event_ e)) /\ decimal_amount (GetAmount e).


#[global] Opaque holder_strkey.

(** What a result satisfies when there is one. *)
Definition yields {E A} (r : option (result E A)) (P : A -> Prop) : Prop := forall a, r = Some (Ok a) -> P a.

Section Yields.
Context {E A B : Type}.
Implicit Types (P : B -> Prop).

Lemma yields_let (o : option A) (f : A -> option (result E B)) P :
  (forall a, o = Some a -> yields (f a) P) -> yields (let! a := o in f a) P.
Proof. intros H b. destruct o as [a|]; [by apply H|done]. Qed.
Lemma yields_try (o : option (result E A)) (f : A -> option (result E B)) P :
  (forall a, o = Some (Ok a) -> yields (f a) P) -> yields (try! a := o in f a) P.
Proof. intros H b. destruct o as [[a|]|]; [by apply H|done|done]. Qed.
Lemma yields_Ok b P : P b -> yields (Some (Ok b : result E B)) P.
Proof. by intros H ? [= <-]. Qed.
Lemma yields_Err (e : E) P : yields (Some (Err e)) P.
Proof. done. Qed.
Lemma yields_None P : yields (@None (result E B)) P.
Proof. done. Qed.
End Yields.

Lemma yields_wrap {E E' A} (f : E -> E') (r : option (result E A)) P : yields r P -> yields (wrap_error f r) P.
Proof. intros H a Ha%wrap_error_Ok. by apply H. Qed.

Create HintDb typed.
#[export] Hint Resolve yields_Err yields_None account_strkey pool_strkey balance_strkey contract_strkey muxed_strkey : typed.

(** One bind of a handler. *)
Ltac bind_step :=
  first [apply yields_try | apply yields_let]; let a := fresh "a" in let Ha := fresh "Ha" in intros a Ha.

Section Typed.
Context {NH : NetworkHash} {KE : @KeyEncoding token_entries}.
Variable h : ttl_store.
Variable p : EventsProcessor.
#[local] Abbreviation LedgerTransaction := (@LedgerTransaction token_entries token_transactions).
Implicit Types (tx : LedgerTransaction) (place : option Z).

Definition meta_of tx place (m : EventMeta) : Prop :=
  TxHash m = HexString (tx_Hash tx) /\ TransactionIndex m = Index tx /\
  OperationIndex_ m = match place with Some i => Some (u32 (i + 1)) | None => None end /\
  exists c, ContractAddress m = contract_address c.

Definition well_formed tx place (e : TokenTransferEvent) : Prop := typed_event e /\ meta_of tx place (Meta e).
#[local] Abbreviation all_well_formed tx place r := (yields r (Forall (well_formed tx place))).

Lemma NewEventMetaFromTx_of tx place c m : NewEventMetaFromTx tx place (contract_address c) = Some m -> meta_of tx place m.
Proof.
  unfold NewEventMetaFromTx. destruct (CloseMeta.LedgerSequence (tx_Ledger tx)); [|done]. destruct (LedgerCloseTime (tx_Ledger tx)); [|done].
  intros [= <-]. unfold meta_of. cbn. split_and!; try done. by exists c.
Qed.

Lemma generateEventMeta_of tx place asset m : generateEventMeta p tx place asset = Some m -> meta_of tx place m.
Proof. unfold generateEventMeta. rewrite MustEncode_contract. apply NewEventMetaFromTx_of. Qed.

Lemma contract_meta_of tx place c m : contract_meta tx place c = Some m -> meta_of tx place m.
Proof. unfold contract_meta. rewrite MustEncode_contract. apply NewEventMetaFromTx_of. Qed.

Lemma raw64_decimal n : decimal_amount (String64Raw n).
Proof. exists n. apply big_SetString_FormatInt. Qed.
Lemma raw128_decimal n : decimal_amount (String128Raw n).
Proof. exists (int128_val n). apply big_SetString_FormatInt. Qed.
Lemma FormatInt_decimal n : decimal_amount (FormatInt n).
Proof. exists n. apply big_SetString_FormatInt. Qed.
#[local] Hint Resolve raw64_decimal raw128_decimal FormatInt_decimal generateEventMeta_of contract_meta_of : typed.

Lemma mux_event_meta tx event to b e : mux_event tx event to b = Some (Ok e) ->
  forall place, meta_of tx place (Meta event) -> meta_of tx place (Meta e).
Proof.
  unfold mux_event. destruct b; [|by intros [= <-]]. unfold setDestinationMuxedInfo.
  destruct (negb (isAccountAddress to)); [by intros [= <-]|]. destruct (IsValidMuxedAccountEd25519PublicKey to).
  - destruct (MustMuxedAddress to) as [m|]; [|done]. destruct (Muxed_GetId m); [|done]. by intros [= <-].
  - destruct (Memo (Envelope tx)) as [memo|]; [|done]. destruct (NewMuxedInfoFromMemo memo); [|done]. by intros [= <-].
Qed.

Lemma mintOrBurnOrTransfer_typed tx place asset from to amt b : holder_strkey from -> holder_strkey to -> decimal_amount amt ->
  yields (mintOrBurnOrTransferEvent p tx place asset from to amt b) (well_formed tx place).
Proof.
  intros Hf%plain_address_strkey Ht%plain_address_strkey Ha e H. split.
  - apply mintOrBurnOrTransfer_event in H. cbv zeta in H. unfold typed_event, GetAmount. rewrite H.
    destruct (issues asset (plain_address from)), (issues asset (plain_address to)); cbn [holders];
      (split; [|exact Ha]); repeat apply Forall_cons_2; first [apply Forall_nil_2|assumption].
  - revert H. unfold mintOrBurnOrTransferEvent. rewrite (proj2 (holder_side_Some asset from)), (proj2 (holder_side_Some asset to)).
    destruct (generateEventMeta p tx place asset) as [m|] eqn:Em; [|done]. apply generateEventMeta_of in Em. cbv zeta.
    destruct (issues asset (plain_address from)), (issues asset (plain_address to)); cbn [andb];
      repeat (case_bool_decide; [done|]); intros Hev; first [by apply (mux_event_meta _ _ _ _ _ Hev)|by injection Hev as <-].
Qed.

Lemma one_typed tx place r : yields r (well_formed tx place) -> all_well_formed tx place (one r).
Proof. intros H. unfold one. bind_step. apply yields_Ok, Forall_singleton. by apply H. Qed.


(** ** The addresses of an operation *)
Lemma address_strkey k s : AccountId_Address k = Some s -> holder_strkey s.
Proof. rewrite AccountId_Address_Some. intros [= <-]. apply account_strkey. Qed.
Lemma muxed_source_strkey m s : Muxed_Address m = Some s -> holder_strkey s.
Proof. rewrite Muxed_Address_Some. intros [= <-]. apply muxed_strkey. Qed.
Lemma proto_strkey m s : protoAddressFromAccount m = Some s -> holder_strkey s.
Proof. apply address_strkey. Qed.
Lemma lpId_strkey lp s : lpIdToStrkey lp = Some s -> holder_strkey s.
Proof. unfold lpIdToStrkey. rewrite MustEncode_pool. intros [= <-]. apply pool_strkey. Qed.
Lemma cbId_strkey c s : cbIdToStrkey c = Some s -> holder_strkey s.
Proof. unfold cbIdToStrkey. rewrite MustEncodeToStrkey_Some. intros [= <-]. apply balance_strkey. Qed.
Lemma claim_seller_strkey c s : claim_seller c = Some s -> holder_strkey s.
Proof.
  destruct c; cbn [claim_seller]; [| |apply lpId_strkey];
    (destruct (claim_SellerId _); [apply address_strkey|done]).
Qed.
#[local] Hint Resolve address_strkey muxed_source_strkey proto_strkey lpId_strkey cbId_strkey claim_seller_strkey
  mintOrBurnOrTransfer_typed one_typed : typed.

Lemma event_typed tx place e : Forall holder_strkey (holders (Event_ e)) -> decimal_amount (GetAmount e) ->
  meta_of tx place (Meta e) -> well_formed tx place e.
Proof. intros H1 H2 H3. split; [by split|done]. Qed.

(** The events of the handlers: binds, choices, and in the end lists of events that
    are made of a movement or around a holder. *)
Ltac typed_events :=
  repeat (match goal with
          | |- yields (mintOrBurnOrTransferEvent _ _ _ _ _ _ _ _) _ => apply mintOrBurnOrTransfer_typed; [| |apply raw64_decimal]
          | |- yields (one _) _ => apply one_typed
          | |- yields _ _ => bind_step
          end ||
          match goal with
          | |- yields (Some (Err _)) _ => apply yields_Err
          | |- yields None _ => apply yields_None
          | |- yields (Some (Ok _)) _ => apply yields_Ok
          | |- yields (if ?b then _ else _) _ => destruct b
          | |- yields (match ?x with _ => _ end) _ => destruct x
          | H : ?r = Some (Ok ?e) |- ?P ?e =>
              let Y := fresh in assert (Y : yields r P); [clear H | exact (Y _ H)]
          | |- Forall _ [] => apply Forall_nil_2
          | |- Forall _ (_ :: _) => apply Forall_cons_2
          | |- Forall _ (_ ++ _) => apply Forall_app_2
          | |- well_formed _ _ (_ ?meta _ _ _) => apply event_typed; [cbn|first [apply raw64_decimal|apply raw128_decimal]|]
          | |- well_formed _ _ (_ ?meta _ _ _ _) => apply event_typed; [cbn|first [apply raw64_decimal|apply raw128_decimal]|]
          end);
  eauto 3 with typed.

Lemma payments_typed tx opIndex op opResult :
  all_well_formed tx (Some opIndex) (accountCreateEvents p tx opIndex op) /\
  all_well_formed tx (Some opIndex) (mergeAccountEvents p tx opIndex op opResult) /\
  all_well_formed tx (Some opIndex) (paymentEvents p tx opIndex op).
Proof.
  unfold accountCreateEvents, mergeAccountEvents, paymentEvents. split_and!; typed_events.
Qed.

Lemma payouts_typed m tx place payouts : meta_of tx place m -> forall l, payouts_loop m payouts = Some l -> Forall (well_formed tx place) l.
Proof.
  intros Hm. induction payouts as [|[k n] payouts IH]; intros l; cbn [payouts_loop].
  - intros [= <-]. apply Forall_nil_2.
  - rewrite AccountId_Address_Some. destruct (payouts_loop m payouts) as [rest|] eqn:E; [|done]. intros [= <-].
    apply Forall_cons_2; [|by apply IH]. apply event_typed; cbn; [apply Forall_singleton, account_strkey|apply raw64_decimal|done].
Qed.

Lemma inflation_typed tx opIndex opResult : all_well_formed tx (Some opIndex) (inflationEvents p tx opIndex opResult).
Proof. unfold inflationEvents. typed_events. eapply payouts_typed; eauto with typed. Qed.

Lemma balances_typed tx opIndex op opResult :
  all_well_formed tx (Some opIndex) (createClaimableBalanceEvents p tx opIndex op opResult) /\
  all_well_formed tx (Some opIndex) (claimClaimableBalanceEvents h p tx opIndex op) /\
  all_well_formed tx (Some opIndex) (clawbackEvents p tx opIndex op) /\
  all_well_formed tx (Some opIndex) (clawbackClaimableBalanceEvents h p tx opIndex op).
Proof.
  unfold createClaimableBalanceEvents, claimClaimableBalanceEvents, clawbackEvents, clawbackClaimableBalanceEvents.
  split_and!; typed_events.
Qed.

Lemma revoked_pool_typed tx opIndex lp cbs : all_well_formed tx (Some opIndex) (revoked_pool_events p tx opIndex lp cbs).
Proof.
  unfold revoked_pool_events. cbv zeta. typed_events.
Qed.

Lemma revoked_loop_typed tx opIndex byId lps : all_well_formed tx (Some opIndex) (revoked_loop p tx opIndex byId lps).
Proof.
  induction lps as [|lp lps IH]; cbn [revoked_loop]; [by apply yields_Ok|].
  do 4 bind_step. apply yields_Ok, Forall_app_2; [by eapply revoked_pool_typed|by apply IH].
Qed.

Lemma revoked_typed tx opIndex : all_well_formed tx (Some opIndex) (generateEventsForRevokedTrustlines h p tx opIndex).
Proof. unfold generateEventsForRevokedTrustlines. typed_events. apply revoked_loop_typed. Qed.

Lemma pools_typed tx opIndex op :
  all_well_formed tx (Some opIndex) (liquidityPoolDepositEvents h p tx opIndex op) /\
  all_well_formed tx (Some opIndex) (liquidityPoolWithdrawEvents h p tx opIndex op).
Proof. unfold liquidityPoolDepositEvents, liquidityPoolWithdrawEvents. split; typed_events. Qed.

Lemma claims_typed tx opIndex source claims : holder_strkey source ->
  all_well_formed tx (Some opIndex) (claims_loop p tx opIndex source claims).
Proof. intros Hs. induction claims as [|c claims IH]; cbn [claims_loop]; typed_events. Qed.

Lemma trades_typed tx opIndex op opResult :
  all_well_formed tx (Some opIndex) (manageBuyOfferEvents p tx opIndex op opResult) /\
  all_well_formed tx (Some opIndex) (manageSellOfferEvents p tx opIndex op opResult) /\
  all_well_formed tx (Some opIndex) (pathPaymentStrictSendEvents p tx opIndex op opResult) /\
  all_well_formed tx (Some opIndex) (pathPaymentStrictReceiveEvents p tx opIndex op opResult).
Proof.
  unfold manageBuyOfferEvents, manageSellOfferEvents, pathPaymentStrictSendEvents, pathPaymentStrictReceiveEvents, path_events,
    offers_events, generateEventsFromClaimAtoms.
  split_and!; typed_events. all: by eapply claims_typed, address_strkey.
Qed.

(** ** Contract events *)
Lemma with_address_typed v k P : (forall a, holder_strkey a -> yields (k a) P) -> yields (with_address v k) P.
Proof.
  intros H. unfold with_address. destruct (extractAddress v) as [a|] eqn:E; [|apply yields_Err]. by apply H, (extractAddress_strkey v).
Qed.

Lemma meta_with_memo_of tx place m memo : meta_of tx place m -> meta_of tx place (meta_with_memo m memo).
Proof. by destruct memo. Qed.

Lemma SetAsset_typed tx place e asset : well_formed tx place e -> well_formed tx place (SetAsset e asset).
Proof. unfold well_formed, typed_event, SetAsset, GetAmount. by destruct (Event_ e). Qed.

(** The events of a contract, below a known number of topics. *)
Ltac contract_event := repeat (case_match || (apply with_address_typed; intros)); try apply yields_Err;
  (apply yields_Ok, event_typed; [cbn; repeat apply Forall_cons_2; try assumption; apply Forall_nil_2|apply raw128_decimal|cbn]).

Lemma custom_events_typed eventType tx place contractId topics value :
  yields (parseCustomTokenEventV3 eventType tx place contractId topics value) (well_formed tx place) /\
  yields (parseCustomTokenEventV4 eventType tx place contractId topics value) (well_formed tx place).
Proof.
  unfold parseCustomTokenEventV3, parseCustomTokenEventV4, not_token. cbv zeta. split.
  - destruct (GetI128 value); [|apply yields_Err]. bind_step. contract_event; by eapply contract_meta_of.
  - destruct (v4_data value) as [[amt memo]|]; [|apply yields_Err]. bind_step.
    contract_event; by eapply meta_with_memo_of, contract_meta_of.
Qed.

Lemma retyped_typed tx place e : well_formed tx place e -> yields (retyped p tx place e) (well_formed tx place).
Proof.
  intros H. pose proof H as [[Hh Ha] _]. unfold retyped. unfold GetAmount in Ha. revert Hh Ha.
  destruct (Event_ e); cbn [holders]; intros Hh Hd; try by apply yields_Ok.
  apply Forall_cons in Hh as [Hf [Ht _]%Forall_cons]. do 2 bind_step. by apply mintOrBurnOrTransfer_typed.
Qed.

Lemma parseEvent_typed tx place contractEvent : yields (parseEvent p tx place contractEvent) (well_formed tx place).
Proof.
  unfold parseEvent. cbv zeta. destruct (event_ContractId contractEvent) as [contractId|]; [|apply yields_Err].
  case_match; [apply yields_Err|]. case_match; [apply yields_Err|]. destruct (GetSym _) as [fn|]; [|apply yields_Err].
  apply yields_try. intros custom Hcustom. assert (Hc : well_formed tx place custom).
  { revert Hcustom. do 2 (case_match; [intros H'; by apply custom_events_typed in H'|]). done. }
  destruct (sac_asset p fn (Meta_V (UnsafeMeta tx)) contractId (Topics contractEvent)) as [asset|]; [|by apply yields_Ok].
  destruct (Meta_V (UnsafeMeta tx) =? 4); [by apply yields_Ok, SetAsset_typed|by apply retyped_typed, SetAsset_typed].
Qed.

Lemma parse_loop_typed tx i contractEvents l : parse_loop p tx i contractEvents = Some l -> Forall (well_formed tx (Some i)) l.
Proof.
  revert l. induction contractEvents as [|c cs IH]; intros l; cbn [parse_loop]; [intros [= <-]; apply Forall_nil_2|].
  destruct (parseEvent p tx (Some i) c) as [[e|]|] eqn:E; [| |done]; (destruct (parse_loop p tx i cs); [|done]); intros [= <-].
  - apply Forall_cons_2; [by apply parseEvent_typed in E|by apply IH].
  - by apply IH.
Qed.

Lemma contract_typed tx i : all_well_formed tx (Some i) (contractEventsFromOperation p tx i).
Proof.
  unfold contractEventsFromOperation. bind_step. case_match; [|apply yields_Err]. bind_step. by eapply yields_Ok, parse_loop_typed.
Qed.

(** ** Operations *)
Lemma handler_typed tx opIndex op opResult r : operation_handler h p tx opIndex op opResult = Some r -> all_well_formed tx (Some opIndex) r.
Proof.
  pose proof (payments_typed tx opIndex op opResult) as (? & ? & ?). pose proof (balances_typed tx opIndex op opResult) as (? & ? & ? & ?).
  pose proof (trades_typed tx opIndex op opResult) as (? & ? & ? & ?). pose proof (pools_typed tx opIndex op) as (? & ?).
  unfold operation_handler. destruct (op_Body op); intros [= <-];
    first [assumption|apply inflation_typed|apply revoked_typed|apply contract_typed].
Qed.

Lemma reconciliation_typed tx opIndex op evs :
  yields (generateXlmReconciliationEvents h p tx opIndex op evs)
    (fun r => match r with Some e => well_formed tx (Some opIndex) e | None => True end).
Proof.
  unfold generateXlmReconciliationEvents. do 5 bind_step. apply yields_Ok. revert Ha3.
  unfold maybeGenerateMintOrBurnEventsForReconciliation. rewrite AccountId_Address_Some.
  destruct (StringCanonical xlmAsset); [|done]. case_match; [by intros [= <-]|].
  destruct (generateEventMeta p tx (Some opIndex) xlmAsset) as [m|] eqn:Em; [|done]. intros [= <-].
  case_match; (apply event_typed; [apply Forall_singleton, account_strkey|apply FormatInt_decimal|by apply generateEventMeta_of in Em]).
Qed.

Lemma add_reconciliation_typed tx place l r l' : Forall (well_formed tx place) l ->
  match r with Some e => well_formed tx place e | None => True end -> add_reconciliation l r = Ok l' -> Forall (well_formed tx place) l'.
Proof.
  intros Hl. destruct r as [e|]; cbn; [|by intros _ [= <-]]. intros He.
  destruct (Event_ e); intros [= <-]; [by apply Forall_cons_2|by apply Forall_app_2; [|apply Forall_singleton]].
Qed.

Lemma operation_typed tx opIndex op opResult : all_well_formed tx (Some opIndex) (EventsFromOperation h p tx opIndex op opResult).
Proof.
  unfold EventsFromOperation. destruct (operation_handler h p tx opIndex op opResult) as [r|] eqn:E; [|by apply yields_Ok].
  apply handler_typed in E. apply yields_wrap. apply yields_try. intros evs Hevs. specialize (E evs Hevs). bind_step.
  case_match; [by apply yields_Ok|]. apply yields_try. intros rec Hrec%reconciliation_typed. intros l' [= Hl'].
  by apply (add_reconciliation_typed tx (Some opIndex) evs rec).
Qed.

(** ** Transactions *)

(** One list of events for each operation, in order; the index of an operation is a
    32-bit one. *)
Definition grouped tx (count : nat) (l : list TokenTransferEvent) : Prop :=
  exists groups, l = concat groups /\ length groups = count /\
    forall i g, groups !! i = Some g -> Forall (well_formed tx (Some (u32 (Z.of_nat i)))) g.

Lemma grouped_from tx (A : Type) (f : Z -> list A -> option (result token_error (list TokenTransferEvent))) l :
  (forall i, f i [] = Some (Ok [])) ->
  (forall i x rest, 0 <= i -> yields (f i (x :: rest)) (fun es => exists here more,
     es = here ++ more /\ Forall (well_formed tx (Some (u32 i))) here /\ f (i + 1) rest = Some (Ok more))) ->
  yields (f 0 l) (grouped tx (length l)).
Proof.
  intros H0 Hs. enough (G : forall i es, 0 <= i -> f i l = Some (Ok es) ->
    exists groups, es = concat groups /\ length groups = length l /\
      forall j g, groups !! j = Some g -> Forall (well_formed tx (Some (u32 (i + Z.of_nat j)))) g).
  { intros es E. destruct (G 0 es ltac:(lia) E) as (groups & H). exists groups. exact H. }
  induction l as [|x l IH]; intros i es Hi E.
  - rewrite H0 in E. injection E as <-. by exists [].
  - destruct (Hs i x l Hi es E) as (here & more & -> & Hh & Em). destruct (IH (i + 1) more ltac:(lia) Em) as (groups & -> & Hl & Hg).
    exists (here :: groups). split; [done|]. split; [cbn; by rewrite Hl|]. intros [|j] g; cbn.
    + intros [= <-]. by rewrite Z.add_0_r.
    + intros Hj%Hg. by replace (i + Z.of_nat (S j)) with (i + 1 + Z.of_nat j) by lia.
Qed.

Lemma classic_grouped tx operations results : yields (token_operations_loop h p tx 0 operations results) (grouped tx (length operations)).
Proof.
  apply (grouped_from tx _ (fun i l => token_operations_loop h p tx i l results)); [done|].
  intros i op rest _. cbn [token_operations_loop]. apply yields_let. intros r _.
  apply yields_try. intros here Hhere%wrap_error_Ok%operation_typed. apply yields_try. intros more Hmore.
  apply yields_Ok. by exists here, more.
Qed.

Lemma unified_grouped tx ops : yields (unified_loop p tx 0 ops) (grouped tx (length ops)).
Proof.
  apply (grouped_from tx _ (fun i l => unified_loop p tx i l)); [done|].
  intros i op rest _. cbn [unified_loop].
  apply yields_try. intros here Hhere%wrap_error_Ok%contract_typed. apply yields_try. intros more Hmore.
  apply yields_Ok. by exists here, more.
Qed.

Lemma fee_loop_typed tx evs : all_well_formed tx None (fee_loop p tx evs).
Proof.
  induction evs as [|ev evs IH]; cbn [fee_loop]; [by apply yields_Ok|].
  destruct (event_ContractId _) as [c|]; [|apply yields_Err]. case_match; [apply yields_Err|]. cbv zeta.
  bind_step. destruct (GetSym _) as [fn|]; [|apply IH]. case_match; [apply IH|]. case_match; [apply yields_Err|].
  destruct (GetI128 _) as [amt|]; [|apply yields_Err]. destruct (extractAddress _) as [from|] eqn:Ef; [|apply yields_Err].
  case_match; [apply yields_Err|]. do 2 bind_step. apply yields_Ok, Forall_cons_2; [|by apply IH].
  apply event_typed; [by apply Forall_singleton, (extractAddress_strkey _ _ Ef)|apply raw128_decimal|by eapply generateEventMeta_of].
Qed.

Lemma fees_typed tx : all_well_formed tx None (generateFeeEvents p tx).
Proof.
  unfold generateFeeEvents. cbv zeta. case_match.
  - case_match; [apply yields_Err|]. unfold parseFeeEventsFromTransactionEvents. apply yields_try. intros a _.
    apply yields_try. intros fees Hfees%fee_loop_typed. repeat (case_match; [apply yields_Err|]). by apply yields_Ok.
  - typed_events.
Qed.

(** Operations, or of unified events the metas of operations. *)
Definition operation_count tx : nat :=
  if readFromUnifiedEventsStream p then match UnsafeMeta tx with MetaV4 _ ops _ _ _ => length ops | _ => 0 end
  else length (default [] (Operations (Envelope tx))).

Lemma operations_typed tx : yields (transaction_operations h p tx) (grouped tx (operation_count tx)).
Proof.
  unfold transaction_operations, operation_count. case_match.
  - destruct (UnsafeMeta tx); try apply yields_Err. apply unified_grouped.
  - destruct (Operations (Envelope tx)); [apply classic_grouped|apply yields_None].
Qed.
End Typed.

(** C14: the events of a transaction are well formed and in the order of its operations.
    Their holders are strkeys of accounts, contracts, pools or claimable balances,
    their amounts are decimal integers, and their metas name the transaction and the
    contract of a token. A fee event has no operation index; the events of the
    operations are one group per operation, each with its own index counted from one.
    A failed transaction has none. *)
Theorem events_well_formed {NH : NetworkHash} {KE : @KeyEncoding token_entries} h p
    (tx : @LedgerTransaction token_entries token_transactions) evs : EventsFromTransaction h p tx = Some (Ok evs) ->
  Forall (well_formed tx None) (FeeEvents evs) /\
  grouped tx (if tx_Successful tx then operation_count p tx else 0) (token_OperationEvents evs).
Proof.
  intros (fees & Hf & H)%try_bind_Ok. apply fees_typed in Hf. destruct (tx_Successful tx); cbn [negb] in H.
  - apply try_bind_Ok in H as (ops & Ho & [= <-]). split; [done|]. by apply operations_typed in Ho.
  - injection H as <-. split; [done|]. by exists [].
Qed.

Module SampleTypes.
Import SampleLedger.

Lemma events_well_formed_witness : exists evs,
  EventsFromTransaction ∅ processor creation_tx = Some (Ok evs) /\ length (FeeEvents evs) = 1%nat /\
  Forall (well_formed creation_tx None) (FeeEvents evs) /\ grouped creation_tx 1 (token_OperationEvents evs).
Proof.
  destruct (EventsFromTransaction ∅ processor creation_tx) as [[evs|]|] eqn:E;
    [|exfalso; vm_compute in E; discriminate E|exfalso; vm_compute in E; discriminate E].
  exists evs. split; [reflexivity|]. split; [revert E; vm_compute; intros [= <-]; reflexivity|].
  exact (events_well_formed ∅ processor creation_tx evs E).
Defined.
End SampleTypes.
