(* ===== verification/Keypair.v ===== *)
(** * Key pairs

    src/keypair (main.go, from_address.go, full.go), with the decorated signatures of
    src/xdr/decorated_signature.go and [network.ID] of src/network/main.go. The curve,
    crypto/ed25519, is a class with the laws of its documentation. *)
From Stdlib Require Import ZArith Lia.
From stdpp Require Import base list vector option.
From S2P Require Import Prelude GoStd GoExt Encodings Strkey Sha256 Asset LedgerEntries Accounts.
#[local] Open Scope Z_scope.
#[local] Open Scope go_scope.

(** ** Addresses read back *)
Lemma Muxed_SetAddress_muxed m : muxed_ok m -> Muxed_SetAddress (muxed_address m) = Ok m.
Proof.
  intros H. pose proof (MustMuxedAddress_roundtrip m H) as E. unfold MustMuxedAddress in E.
  destruct (Muxed_SetAddress _); [by injection E as ->|done].
Qed.
Lemma Muxed_SetAddress_account k : Muxed_SetAddress (account_address k) = Ok (KeyTypeEd25519 k).
Proof. exact (Muxed_SetAddress_muxed (KeyTypeEd25519 k) I). Qed.

Lemma Version_Decode v s p : Decode v s = Ok p -> Version s = Some (Ok v).
Proof.
  intros (_ & C & E & _)%Decode_Ok. unfold Version.
  assert (decodeString s = Ok (base32_Decode s)) as -> by (by apply decodeString_Ok). by rewrite E.
Qed.

Lemma account_Address k : AccountId_Address k = Some (account_address k).
Proof. unfold AccountId_Address, AccountId_GetAddress. by rewrite (proj1 (account_address_Encode k)). Qed.
Lemma account_SetAddress k : SetAddress (account_address k) = Ok k.
Proof. unfold SetAddress. by rewrite account_address_Decode, copy_array_vec. Qed.

Lemma muxed_text_nonempty m : muxed_address m <> [].
Proof. destruct m as [k|id k]; [apply account_address_nonempty|]. by eapply address_of_nonempty, muxed_address_Decode. Qed.

(** ** crypto/ed25519 *)
Abbreviation PublicKey := (vec byte 32).
Class Ed25519 := {
  PrivateKey : Type;
  NewKeyFromSeed : vec byte 32 -> PublicKey * PrivateKey;
  ed25519_Sign : PrivateKey -> bytes -> bytes;
  ed25519_Verify : PublicKey -> bytes -> bytes -> bool
}.

(** Signatures have 64 bytes and verify with the key of their seed. *)
Class Ed25519Laws (E : Ed25519) : Prop := {
  length_signature k m : length (ed25519_Sign k m) = 64%nat;
  signature_verifies seed m : ed25519_Verify (NewKeyFromSeed seed).1 m (ed25519_Sign (NewKeyFromSeed seed).2 m) = true
}.

(** ** Decorated signatures, their hints by four bytes *)
Record DecoratedSignature : Type := mkDecorated { sig_Hint : bytes; sig_Signature : bytes }.
#[export] Instance DecoratedSignature_eq_dec : EqDecision DecoratedSignature.
Proof. solve_decision. Defined.

Definition NewDecoratedSignature (sig hint : bytes) : DecoratedSignature := mkDecorated hint sig.

Definition byte_xor (a b : byte) : byte := byte_of_Z (Z.lxor (Z_of_byte a) (Z_of_byte b)).
Definition NewDecoratedSignatureForPayload (sig keyHint payload : bytes) : DecoratedSignature :=
  let hint := if 4 <=? go_len payload then drop (length payload - 4) payload
              else payload ++ replicate (4 - length payload) zero_byte in
  mkDecorated (zip_with byte_xor hint keyHint) sig.

(** ** Networks *)
Definition network_ID (passphrase : bytes) : Hash := Sum256_array passphrase.

(** ** Key pairs *)
Inductive key_error : Type :=
| ErrInvalidKey (e : strkey_error)
| ErrSeed (e : strkey_error)
| ErrInvalidSignature
| ErrCannotSign.

(** An address with its public key. *)
Record FromAddress : Type := mkFromAddress { kp_address : bytes; kp_publicKey : PublicKey }.

Section Keys.
Context {ED : Ed25519}.

Record Full : Type := mkFull {
  full_address : bytes;
  full_seed : bytes;
  full_publicKey : PublicKey;
  full_privateKey : PrivateKey
}.

(** The interface of both. *)
Inductive KP : Type := KP_FromAddress (kp : FromAddress) | KP_Full (kp : Full).

Definition newFromAddress (address : bytes) : result key_error FromAddress :=
  match Decode VersionByteAccountID address with
  | Err e => Err (ErrInvalidKey e)
  | Ok payload => Ok (mkFromAddress address (copy_array (zero_array 32) payload))
  end.

(** Seeds that decode have 32 bytes. *)
Definition newFullFromRawSeed (rawSeed : vec byte 32) : result key_error Full :=
  match Encode VersionByteSeed (vec_to_list rawSeed) with
  | Err e => Err (ErrSeed e)
  | Ok seed =>
      let '(pub, priv) := NewKeyFromSeed rawSeed in
      match Encode VersionByteAccountID (vec_to_list pub) with
      | Err e => Err (ErrSeed e)
      | Ok address => Ok (mkFull address seed pub priv)
      end
  end.
Definition newFull (seed : bytes) : result key_error Full :=
  match Decode VersionByteSeed seed with
  | Err e => Err (ErrSeed e)
  | Ok rawSeed =>
      let '(pub, priv) := NewKeyFromSeed (copy_array (zero_array 32) rawSeed) in
      match Encode VersionByteAccountID (vec_to_list pub) with
      | Err e => Err (ErrSeed e)
      | Ok address => Ok (mkFull address seed pub priv)
      end
  end.

Definition ParseAddress (address : bytes) : result key_error FromAddress := newFromAddress address.
Definition ParseFull (seed : bytes) : result key_error Full := newFull seed.
Definition FromRawSeed (rawSeed : vec byte 32) : result key_error Full := newFullFromRawSeed rawSeed.

(** A seed is only tried when the address has the wrong version. *)
Definition keypair_Parse (addressOrSeed : bytes) : result key_error KP :=
  match ParseAddress addressOrSeed with
  | Ok addr => Ok (KP_FromAddress addr)
  | Err (ErrInvalidKey ErrInvalidVersionByte) =>
      match ParseFull addressOrSeed with Ok kp => Ok (KP_Full kp) | Err e => Err e end
  | Err e => Err e
  end.

Definition Root (networkPassphrase : bytes) : option Full :=
  match FromRawSeed (network_ID networkPassphrase) with Ok kp => Some kp | Err _ => None end.

(** ** Methods *)
Definition KP_Address (kp : KP) : bytes := match kp with KP_FromAddress kp => kp_address kp | KP_Full kp => full_address kp end.
Definition Full_FromAddress (kp : Full) : FromAddress := mkFromAddress (full_address kp) (full_publicKey kp).
Definition key_hint (k : PublicKey) : bytes := drop 28 (vec_to_list k).
Definition FromAddress_Hint (kp : FromAddress) : bytes := key_hint (kp_publicKey kp).
Definition Full_Hint (kp : Full) : bytes := key_hint (full_publicKey kp).

(** The error, or [None] for nil. *)
Definition verify_with (k : PublicKey) (input sig : bytes) : option key_error :=
  if negb (go_len sig =? 64) then Some ErrInvalidSignature
  else if negb (ed25519_Verify k input sig) then Some ErrInvalidSignature
  else None.
Definition FromAddress_Verify (kp : FromAddress) : bytes -> bytes -> option key_error := verify_with (kp_publicKey kp).
Definition Full_Verify (kp : Full) : bytes -> bytes -> option key_error := verify_with (full_publicKey kp).

Definition Full_Sign (kp : Full) (input : bytes) : bytes := ed25519_Sign (full_privateKey kp) input.
Definition Full_SignBase64 (kp : Full) (input : bytes) : bytes := StdEncoding_EncodeToString (Full_Sign kp input).
Definition SignDecorated (kp : Full) (input : bytes) : DecoratedSignature :=
  NewDecoratedSignature (Full_Sign kp input) (Full_Hint kp).
Definition SignPayloadDecorated (kp : Full) (input : bytes) : DecoratedSignature :=
  NewDecoratedSignatureForPayload (Full_Sign kp input) (Full_Hint kp) input.

(** Only a pair with a secret signs. *)
Definition KP_Sign (kp : KP) (input : bytes) : result key_error bytes :=
  match kp with KP_FromAddress _ => Err ErrCannotSign | KP_Full kp => Ok (Full_Sign kp input) end.
Definition KP_Verify (kp : KP) (input sig : bytes) : option key_error :=
  match kp with KP_FromAddress kp => FromAddress_Verify kp input sig | KP_Full kp => Full_Verify kp input sig end.

(** ** Facts *)
Lemma ParseAddress_Ok a kp : ParseAddress a = Ok kp <-> a = account_address (kp_publicKey kp) /\ kp_address kp = a.
Proof.
  unfold ParseAddress, newFromAddress. split.
  - destruct (Decode VersionByteAccountID a) as [raw|] eqn:D; [|done]. intros [= <-]. cbn. split; [|done].
    destruct (Decode_fixed _ _ _ 32 fixed_account D) as [Hl HE]. pose proof (proj1 (account_address_Encode (copy_array (zero_array 32) raw))) as H.
    rewrite (vec_to_list_copy _ raw) in H by done. rewrite HE in H. by injection H.
  - intros [-> Hk]. rewrite account_address_Decode, copy_array_vec, <- Hk. by destruct kp.
Qed.

Lemma ParseAddress_account k : ParseAddress (account_address k) = Ok (mkFromAddress (account_address k) k).
Proof. by apply ParseAddress_Ok. Qed.

(** What pairs with a secret are: the key is that of a seed, the address its strkey. *)
Definition full_ok (kp : Full) : Prop :=
  full_address kp = account_address (full_publicKey kp) /\
  exists seed, NewKeyFromSeed seed = (full_publicKey kp, full_privateKey kp).

Lemma newFullFromRawSeed_ok raw kp : newFullFromRawSeed raw = Ok kp -> full_ok kp.
Proof.
  unfold newFullFromRawSeed. destruct (Encode VersionByteSeed _); [|done]. destruct (NewKeyFromSeed raw) as [pub priv] eqn:E.
  rewrite (proj1 (account_address_Encode pub)). intros [= <-]. split; [done|]. by exists raw.
Qed.
Lemma newFull_ok seed kp : newFull seed = Ok kp -> full_ok kp.
Proof.
  unfold newFull. destruct (Decode VersionByteSeed seed) as [raw|]; [|done]. destruct (NewKeyFromSeed _) as [pub priv] eqn:E.
  rewrite (proj1 (account_address_Encode pub)). intros [= <-]. split; [done|]. by eexists.
Qed.

Lemma Full_Verify_Sign {EL : Ed25519Laws ED} kp m : full_ok kp -> verify_with (full_publicKey kp) m (Full_Sign kp m) = None.
Proof.
  intros [_ [seed Hs]]. unfold verify_with, Full_Sign, go_len. rewrite length_signature. cbn [negb Z.of_nat Z.eqb].
  pose proof (signature_verifies seed m) as H. rewrite Hs in H. cbn in H. by rewrite H.
Qed.
End Keys.

(** ** An instance with the laws

    The public key is the seed, and a signature the key and the hash of the message. *)
Module ToyCurve.
Definition sign (k : vec byte 32) (m : bytes) : bytes := vec_to_list k ++ Sum256 m.
#[export] Instance toy_ed25519 : Ed25519 := {|
  PrivateKey := vec byte 32;
  NewKeyFromSeed seed := (seed, seed);
  ed25519_Sign := sign;
  ed25519_Verify k m s := bool_decide (s = sign k m)
|}.
#[export] Instance toy_laws : Ed25519Laws toy_ed25519.
Proof.
  split.
  - intros k m. cbn. unfold sign. by rewrite length_app, length_vec_to_list, length_Sum256.
  - intros seed m. cbn. by apply bool_decide_eq_true_2.
Qed.
Lemma toy_exclusive k seed m m' : ed25519_Verify k m (ed25519_Sign (NewKeyFromSeed seed).2 m') = true -> k = (NewKeyFromSeed seed).1.
Proof.
  intros H. apply bool_decide_eq_true_1 in H. unfold sign in H.
  apply app_inj_1 in H as [H _]; [|by rewrite !length_vec_to_list]. by apply vec_to_list_inj2.
Qed.
End ToyCurve.
