(* ===== verification/TxnXdr.v ===== *)
(** * Transactions in full

    The types of src/xdr/xdr_generated.go that package txnbuild builds and parses:
    operations with all their fields, preconditions with their extra signers and
    envelopes with decorated signatures ([Envelopes] has them with the fields the
    ingestion of ledgers reads); with signer_key.go, trust_line_flags.go,
    transaction_envelope.go, the conversions of asset.go, trust_line_asset.go and
    change_trust_asset.go, and src/network/main.go. *)
From Stdlib Require Import ZArith Lia.
From stdpp Require Import base list vector option.
From S2P Require Import Prelude GoStd GoExt Price Encodings Strkey Sha256 Asset LedgerEntries CloseMeta Accounts Envelopes Keypair.
#[local] Open Scope Z_scope.
#[local] Open Scope go_scope.

(** ** Signer keys *)
Inductive SignerKey : Type :=
| SignerKeyTypeEd25519 (Ed25519_ : vec byte 32)
| SignerKeyTypePreAuthTx (PreAuthTx : vec byte 32)
| SignerKeyTypeHashX (HashX : vec byte 32)
| SignerKeyTypeEd25519SignedPayload (Ed25519_ : vec byte 32) (Payload : bytes).
#[export] Instance SignerKey_eq_dec : EqDecision SignerKey.
Proof. solve_decision. Defined.

Definition SignerKey_GetAddress (skey : SignerKey) : result strkey_error bytes :=
  match skey with
  | SignerKeyTypeEd25519 key => Encode VersionByteAccountID (vec_to_list key)
  | SignerKeyTypeHashX key => Encode VersionByteHashX (vec_to_list key)
  | SignerKeyTypePreAuthTx key => Encode VersionByteHashTx (vec_to_list key)
  | SignerKeyTypeEd25519SignedPayload key payload => Encode VersionByteSignedPayload (signed_bytes (vec_to_list key) payload)
  end.
Definition SignerKey_Address (skey : SignerKey) : option bytes :=
  match SignerKey_GetAddress skey with Ok a => Some a | Err _ => None end.
Definition SignerKey_Equals (skey other : SignerKey) : bool := bool_decide (skey = other).

Definition SignerKey_SetAddress (address : bytes) : option (result strkey_error SignerKey) :=
  let! version := Version address in
  Some (match version with
  | Err e => Err e
  | Ok vb =>
      if bool_decide (vb = VersionByteSignedPayload) then
        match DecodeSignedPayload address with
        | Err e => Err e
        | Ok sp =>
            match Decode VersionByteAccountID (SignedPayload_signer sp) with
            | Err e => Err e
            | Ok pubkey => Ok (SignerKeyTypeEd25519SignedPayload (copy_array (zero_array 32) pubkey) (SignedPayload_payload sp))
            end
        end
      else if bool_decide (vb ∈ [VersionByteAccountID; VersionByteHashX; VersionByteHashTx]) then
        match Decode vb address with
        | Err e => Err e
        | Ok raw =>
            let signer := copy_array (zero_array 32) raw in
            Ok (if bool_decide (vb = VersionByteAccountID) then SignerKeyTypeEd25519 signer
                else if bool_decide (vb = VersionByteHashX) then SignerKeyTypeHashX signer
                else SignerKeyTypePreAuthTx signer)
        end
      else Err ErrInvalidVersionByte
  end).
Definition MustSigner (address : bytes) : option SignerKey :=
  match SignerKey_SetAddress address with Some (Ok k) => Some k | _ => None end.

(** ** Assets of trust lines *)
Inductive AssetCode : Type :=
| AssetCode4 (code : vec byte 4)
| AssetCode12 (code : vec byte 12).

Definition ToAssetCode (code : bytes) : result asset_error AssetCode :=
  let length := go_len code in
  if (1 <=? length) && (length <=? 4) then Ok (AssetCode4 (copy_array (zero_array 4) code))
  else if (5 <=? length) && (length <=? 12) then Ok (AssetCode12 (copy_array (zero_array 12) code))
  else Err ErrAssetCodeLength.

Inductive ChangeTrustAsset_ : Type :=
| ChangeTrustNative
| ChangeTrustAlphanum4 (code : vec byte 4) (issuer : AccountId)
| ChangeTrustAlphanum12 (code : vec byte 12) (issuer : AccountId)
| ChangeTrustPoolShare (LiquidityPool : PoolParameters).

Definition ToChangeTrustAsset (a : Asset) : ChangeTrustAsset_ :=
  match a with
  | Native => ChangeTrustNative
  | CreditAlphanum4 code issuer => ChangeTrustAlphanum4 code issuer
  | CreditAlphanum12 code issuer => ChangeTrustAlphanum12 code issuer
  end.
Definition ChangeTrust_ToAsset (a : ChangeTrustAsset_) : option Asset :=
  match a with
  | ChangeTrustNative => Some Native
  | ChangeTrustAlphanum4 code issuer => Some (CreditAlphanum4 code issuer)
  | ChangeTrustAlphanum12 code issuer => Some (CreditAlphanum12 code issuer)
  | ChangeTrustPoolShare _ => None
  end.
Definition ToTrustLineAsset (a : Asset) : TrustLineAsset :=
  match a with
  | Native => TrustLineNative
  | CreditAlphanum4 code issuer => TrustLineAlphanum4 code issuer
  | CreditAlphanum12 code issuer => TrustLineAlphanum12 code issuer
  end.

(** Flags of trust lines. *)
Definition TrustLineFlagsAuthorizedFlag : Z := 1.
Definition TrustLineFlagsAuthorizedToMaintainLiabilitiesFlag : Z := 2.
Definition TrustLineFlagsTrustlineClawbackEnabledFlag : Z := 4.
Definition IsAuthorized (e : Z) : bool := negb (Z.land e TrustLineFlagsAuthorizedFlag =? 0).
Definition IsAuthorizedToMaintainLiabilitiesFlag (e : Z) : bool :=
  negb (Z.land e TrustLineFlagsAuthorizedToMaintainLiabilitiesFlag =? 0).
Definition IsClawbackEnabledFlag (e : Z) : bool := negb (Z.land e TrustLineFlagsTrustlineClawbackEnabledFlag =? 0).

(** ** Claimants *)
Inductive ClaimPredicate : Type :=
| ClaimPredicateUnconditional
| ClaimPredicateAnd (AndPredicates : list ClaimPredicate)
| ClaimPredicateOr (OrPredicates : list ClaimPredicate)
| ClaimPredicateNot (NotPredicate_ : option ClaimPredicate)
| ClaimPredicateBeforeAbsoluteTime (AbsBefore : Z)
| ClaimPredicateBeforeRelativeTime (RelBefore : Z).

Record XdrClaimant : Type := mkXdrClaimant { V0_Destination : AccountId; V0_Predicate : ClaimPredicate }.

(** ** Operations

    What only passes through is opaque: host functions and their authorizations. Behind
    the pointer to a data value is a slice, which may be nil. *)
Class SorobanTypes := { HostFunction : Type; SorobanAuthorizationEntry : Type }.

Record XdrSigner : Type := mkXdrSigner { signer_Key : SignerKey; signer_Weight : Z }.

Record SetOptionsOp : Type := mkSetOptionsOp {
  InflationDest : option AccountId;
  xso_ClearFlags : option Z;
  xso_SetFlags : option Z;
  xso_MasterWeight : option Z;
  xso_LowThreshold : option Z;
  xso_MedThreshold : option Z;
  xso_HighThreshold : option Z;
  xso_HomeDomain : option bytes;
  xso_Signer : option XdrSigner
}.

Section Xdr.
Context {ET : EntryTypes} {ST : SorobanTypes}.

Inductive RevokeSponsorshipOp : Type :=
| RevokeSponsorshipLedgerEntry (LedgerKey_ : LedgerKey)
| RevokeSponsorshipSigner (account : AccountId) (signerKey : SignerKey).

Inductive XdrOperationBody : Type :=
| OperationTypeCreateAccount (Destination : AccountId) (StartingBalance : Z)
| OperationTypePayment (Destination : MuxedAccount_) (asset : Asset) (amount : Z)
| OperationTypePathPaymentStrictReceive (SendAsset : Asset) (SendMax : Z) (Destination : MuxedAccount_) (DestAsset : Asset)
    (DestAmount : Z) (Path : list Asset)
| OperationTypeManageSellOffer (selling buying : Asset) (amount : Z) (price : Price) (offerId : Z)
| OperationTypeCreatePassiveSellOffer (selling buying : Asset) (amount : Z) (price : Price)
| OperationTypeSetOptions (options : SetOptionsOp)
| OperationTypeChangeTrust (Line : ChangeTrustAsset_) (Limit : Z)
| OperationTypeAllowTrust (Trustor : AccountId) (code : AssetCode) (Authorize : Z)
| OperationTypeAccountMerge (Destination : MuxedAccount_)
| OperationTypeInflation
| OperationTypeManageData (DataName : bytes) (DataValue : option (option bytes))
| OperationTypeBumpSequence (BumpTo : Z)
| OperationTypeManageBuyOffer (selling buying : Asset) (BuyAmount : Z) (price : Price) (offerId : Z)
| OperationTypePathPaymentStrictSend (SendAsset : Asset) (SendAmount : Z) (Destination : MuxedAccount_) (DestAsset : Asset)
    (DestMin : Z) (Path : list Asset)
| OperationTypeCreateClaimableBalance (asset : Asset) (amount : Z) (Claimants : list XdrClaimant)
| OperationTypeClaimClaimableBalance (BalanceId : ClaimableBalanceId)
| OperationTypeBeginSponsoringFutureReserves (SponsoredId : AccountId)
| OperationTypeEndSponsoringFutureReserves
| OperationTypeRevokeSponsorship (op : RevokeSponsorshipOp)
| OperationTypeClawback (asset : Asset) (From : MuxedAccount_) (amount : Z)
| OperationTypeClawbackClaimableBalance (BalanceId : ClaimableBalanceId)
| OperationTypeSetTrustLineFlags (Trustor : AccountId) (asset : Asset) (clearFlags setFlags : Z)
| OperationTypeLiquidityPoolDeposit (pool : PoolId) (MaxAmountA MaxAmountB : Z) (MinPrice MaxPrice : Price)
| OperationTypeLiquidityPoolWithdraw (pool : PoolId) (amount MinAmountA MinAmountB : Z)
| OperationTypeInvokeHostFunction (function : HostFunction) (Auth : list SorobanAuthorizationEntry)
| OperationTypeExtendFootprintTtl (ExtendTo : Z)
| OperationTypeRestoreFootprint.

(** [xop_SourceAccount] is nil when the operation has no source of its own. *)
Record XdrOperation : Type := mkXdrOperation { xop_SourceAccount : option MuxedAccount_; xop_Body : XdrOperationBody }.

(** ** Preconditions *)
Record XdrPreconditionsV2 : Type := mkXdrPreconditionsV2 {
  xpc_TimeBounds : option TimeBounds_;
  xpc_LedgerBounds : option LedgerBounds_;
  xpc_MinSeqNum : option Z;
  xpc_MinSeqAge : Z;
  xpc_MinSeqLedgerGap : Z;
  xpc_ExtraSigners : list SignerKey
}.
Inductive XdrPreconditions : Type :=
| PrecondNone
| PrecondTime (timeBounds : TimeBounds_)
| PrecondV2 (v2 : XdrPreconditionsV2).

(** ** Transactions *)
Record XdrTransactionV0 : Type := mkXdrTransactionV0 {
  xt0_SourceAccountEd25519 : vec byte 32;
  xt0_Fee : Z;
  xt0_SeqNum : Z;
  xt0_TimeBounds : option TimeBounds_;
  xt0_Memo : Memo_;
  xt0_Operations : list XdrOperation
}.
Record XdrTransaction : Type := mkXdrTransaction {
  xtx_SourceAccount : MuxedAccount_;
  xtx_Fee : Z;
  xtx_SeqNum : Z;
  xtx_Cond : XdrPreconditions;
  xtx_Memo : Memo_;
  xtx_Operations : list XdrOperation;
  xtx_Ext : option SorobanData
}.
Record XdrTransactionV1Envelope : Type := mkV1Envelope { v1_Tx : XdrTransaction; v1_Signatures : list DecoratedSignature }.

(** The inner transaction of a fee bump is behind a pointer, which a decoder never
    leaves nil. *)
Inductive XdrEnvelope : Type :=
| XdrEnvelopeTxV0 (tx : XdrTransactionV0) (sigs : list DecoratedSignature)
| XdrEnvelopeTx (V1 : XdrTransactionV1Envelope)
| XdrEnvelopeTxFeeBump (FeeSource : MuxedAccount_) (fee : Z) (InnerTx_V1 : option XdrTransactionV1Envelope)
    (sigs : list DecoratedSignature).

Definition env_inner {A} (f0 : XdrTransactionV0 -> A) (f : XdrTransaction -> A) (e : XdrEnvelope) : option A :=
  match e with
  | XdrEnvelopeTxFeeBump _ _ inner _ => let! v1 := inner in Some (f (v1_Tx v1))
  | XdrEnvelopeTx v1 => Some (f (v1_Tx v1))
  | XdrEnvelopeTxV0 tx _ => Some (f0 tx)
  end.
Definition env_IsFeeBump (e : XdrEnvelope) : bool := match e with XdrEnvelopeTxFeeBump _ _ _ _ => true | _ => false end.
Definition env_SourceAccount : XdrEnvelope -> option MuxedAccount_ :=
  env_inner (fun tx => KeyTypeEd25519 (xt0_SourceAccountEd25519 tx)) xtx_SourceAccount.
Definition env_Fee : XdrEnvelope -> option Z := env_inner xt0_Fee xtx_Fee.
Definition env_SeqNum : XdrEnvelope -> option Z := env_inner xt0_SeqNum xtx_SeqNum.
Definition env_Memo : XdrEnvelope -> option Memo_ := env_inner xt0_Memo xtx_Memo.
Definition env_Operations : XdrEnvelope -> option (list XdrOperation) := env_inner xt0_Operations xtx_Operations.
Definition XdrPreconditionsWithTimeBounds (timebounds : option TimeBounds_) : XdrPreconditions :=
  match timebounds with None => PrecondNone | Some t => PrecondTime t end.
Definition env_Preconditions : XdrEnvelope -> option XdrPreconditions :=
  env_inner (fun tx => XdrPreconditionsWithTimeBounds (xt0_TimeBounds tx)) xtx_Cond.
Definition env_Signatures (e : XdrEnvelope) : option (list DecoratedSignature) :=
  match e with
  | XdrEnvelopeTxFeeBump _ _ inner _ => let! v1 := inner in Some (v1_Signatures v1)
  | XdrEnvelopeTx v1 => Some (v1_Signatures v1)
  | XdrEnvelopeTxV0 _ sigs => Some sigs
  end.
Definition env_FeeBumpSignatures (e : XdrEnvelope) : option (list DecoratedSignature) :=
  match e with XdrEnvelopeTxFeeBump _ _ _ sigs => Some sigs | _ => None end.
End Xdr.

(** ** The hash of a transaction on a network *)

(** The generated encodings of transactions and envelopes, and the decoder of
    envelopes in base 64; each can fail. *)
Class TransactionCodec {ET : EntryTypes} {ST : SorobanTypes} := {
  Transaction_MarshalBinary : XdrTransaction -> option bytes;
  FeeBump_MarshalBinary : MuxedAccount_ -> Z -> option XdrTransactionV1Envelope -> option bytes;
  Envelope_MarshalBinary : XdrEnvelope -> option bytes;
  SafeUnmarshalBase64 : bytes -> option XdrEnvelope
}.
(** [strings.TrimSpace] leaves nothing of a text of white space, which is in UTF-8. *)
Fixpoint all_space (s : bytes) : bool :=
  match s with
  | [] => true
  | a :: s1 =>
      let a := Z_of_byte a in
      if ((9 <=? a) && (a <=? 13)) || (a =? 32) then all_space s1
      else match s1 with
      | b :: s2 =>
          let b := Z_of_byte b in
          if (a =? 194) && ((b =? 133) || (b =? 160)) then all_space s2
          else match s2 with
          | c :: s3 =>
              let c := Z_of_byte c in
              if ((a =? 225) && (b =? 154) && (c =? 128)) ||
                 ((a =? 226) && (b =? 128) && (((128 <=? c) && (c <=? 138)) || (c =? 168) || (c =? 169) || (c =? 175))) ||
                 ((a =? 226) && (b =? 129) && (c =? 159)) || ((a =? 227) && (b =? 128) && (c =? 128))
              then all_space s3 else false
          | [] => false
          end
      | [] => false
      end
  end.

Inductive network_error : Type := EmptyPassphrase | MarshalTx.

Definition validatePassphrase (passphrase : bytes) : option network_error :=
  if all_space passphrase then Some EmptyPassphrase else None.

Section Hashing.
Context {ET : EntryTypes} {ST : SorobanTypes} {TC : TransactionCodec}.

Definition EnvelopeTypeTx_ : Z := 2.
Definition EnvelopeTypeTxFeeBump_ : Z := 5.

Definition hashTx (type_ : Z) (tx : option bytes) (passphrase : bytes) : result network_error Hash :=
  match validatePassphrase passphrase with
  | Some e => Err e
  | None =>
      match tx with
      | None => Err MarshalTx
      | Some b => Ok (Sum256_array (vec_to_list (network_ID passphrase) ++ be_put 4 type_ ++ b))
      end
  end.
Definition HashTransaction (tx : XdrTransaction) (passphrase : bytes) : result network_error Hash :=
  hashTx EnvelopeTypeTx_ (Transaction_MarshalBinary tx) passphrase.
Definition HashFeeBumpTransaction (feeSource : MuxedAccount_) (fee : Z) (inner : option XdrTransactionV1Envelope)
    (passphrase : bytes) : result network_error Hash :=
  hashTx EnvelopeTypeTxFeeBump_ (FeeBump_MarshalBinary feeSource fee inner) passphrase.

(** The transaction of the second version with the same content. *)
Definition tx_of_V0 (tx : XdrTransactionV0) : XdrTransaction :=
  mkXdrTransaction (KeyTypeEd25519 (xt0_SourceAccountEd25519 tx)) (xt0_Fee tx) (xt0_SeqNum tx)
    (XdrPreconditionsWithTimeBounds (xt0_TimeBounds tx)) (xt0_Memo tx) (xt0_Operations tx) None.
Definition HashTransactionV0 (tx : XdrTransactionV0) (passphrase : bytes) : result network_error Hash :=
  HashTransaction (tx_of_V0 tx) passphrase.
Definition network_HashTransactionInEnvelope (envelope : XdrEnvelope) (passphrase : bytes) : result network_error Hash :=
  match envelope with
  | XdrEnvelopeTx v1 => HashTransaction (v1_Tx v1) passphrase
  | XdrEnvelopeTxV0 tx _ => HashTransactionV0 tx passphrase
  | XdrEnvelopeTxFeeBump feeSource fee inner _ => HashFeeBumpTransaction feeSource fee inner passphrase
  end.
End Hashing.
