(* ===== verification/TxnAssets.v ===== *)
(** * Assets of transactions

    src/txnbuild/asset.go, trust_line_asset.go, change_trust_asset.go,
    liquidity_pool_id.go and liquidity_pool_parameters.go, and the validation of
    assets, accounts, amounts and prices in helpers.go. An error keeps its outer
    message. Assets are interface values: [option], nil being [None], where a nil can
    reach a method, which then panics. *)
From Stdlib Require Import ZArith Lia.
From stdpp Require Import base list vector option.
From S2P Require Import Prelude GoStd GoExt Price Encodings Strkey Amount Asset LedgerEntries CloseMeta Accounts Envelopes TokenDeltas Keypair TxnXdr.
#[local] Open Scope Z_scope.
#[local] Open Scope go_scope.

(** ** Errors *)
Inductive txn_error : Type :=
| Failed (message : bytes)
| ValidationError (Field : bytes).
Definition fail {A} (message : String.string) : option (result txn_error A) := Some (Err (Failed (str message))).

(** The result of a call whose error is wrapped in a message. *)
Definition wrapped {E A} (r : result E A) (message : String.string) : option (result txn_error A) :=
  match r with Ok a => Some (Ok a) | Err _ => fail message end.

(** The check of a field. *)
Definition field {E} (Field : String.string) (err : option E) : result txn_error unit :=
  match err with None => Ok tt | Some _ => Err (ValidationError (str Field)) end.

#[global] Arguments fail {_} message%_string_scope.
#[global] Arguments wrapped {_ _} r message%_string_scope.
#[global] Arguments field {_} Field%_string_scope.

Lemma wrapped_Ok {E A} (r : result E A) message a : wrapped r message = Some (Ok a) <-> r = Ok a.
Proof. unfold wrapped, fail. destruct r as [b|e]; split; congruence. Qed.

(** Takes apart a hypothesis [H] that a body returned. *)
Ltac run_ok H :=
  repeat lazymatch type of H with
  | try_bind _ _ = Some (Ok _) =>
      let x := fresh "x" in let E := fresh "E" in
      apply try_bind_Ok in H as (x & E & H); lazy beta in H;
      try (apply wrapped_Ok in E)
  | (match ?e with Some _ => _ | None => None end) = Some _ =>
      let E := fresh "E" in destruct e eqn:E; [|discriminate H]
  | (if ?b then fail _ else _) = Some (Ok _) =>
      let E := fresh "E" in destruct b eqn:E; [discriminate H|]
  end.

(** The error of a result, if it is one. *)
Definition error_of {E A} (r : result E A) : option E := match r with Ok _ => None | Err e => Some e end.

(** ** Assets *)
Inductive TxAsset : Type :=
| NativeAsset
| CreditAsset (Code Issuer : bytes).
#[export] Instance TxAsset_eq_dec : EqDecision TxAsset.
Proof. solve_decision. Defined.

Inductive TxAssetType : Type := TypeNative | TypeCreditAlphanum4 | TypeCreditAlphanum12 | TypePoolShare.

Definition TxAsset_GetType (a : TxAsset) : result txn_error TxAssetType :=
  match a with
  | NativeAsset => Ok TypeNative
  | CreditAsset code _ =>
      if (1 <=? go_len code) && (go_len code <=? 4) then Ok TypeCreditAlphanum4
      else if (5 <=? go_len code) && (go_len code <=? 12) then Ok TypeCreditAlphanum12
      else Err (Failed (str "asset code length must be between 1 and 12 characters"))
  end.
Definition TxAsset_IsNative (a : TxAsset) : bool := match a with NativeAsset => true | CreditAsset _ _ => false end.
Definition TxAsset_GetCode (a : TxAsset) : bytes := match a with NativeAsset => [] | CreditAsset code _ => code end.
Definition TxAsset_GetIssuer (a : TxAsset) : bytes := match a with NativeAsset => [] | CreditAsset _ issuer => issuer end.

Definition TxAsset_ToXDR (a : TxAsset) : result asset_error Asset :=
  match a with
  | NativeAsset => Ok SetNative
  | CreditAsset code issuer =>
      match SetAddress issuer with
      | Err e => Err (ErrIssuer e)
      | Ok issuer => SetCredit code issuer
      end
  end.

(** [None] is the panic of an asset of no type, which does not occur. *)
Definition TxAsset_LessThan (a other : TxAsset) : option bool :=
  match a with
  | NativeAsset => Some (negb (TxAsset_IsNative other))
  | CreditAsset _ _ =>
      match TxAsset_ToXDR a, TxAsset_ToXDR other with
      | Ok a, Ok other => LessThan a other
      | _, _ => Some false
      end
  end.

(** [bytes.Trim(code, "\x00")]: zeros are cut off at both ends. *)
Fixpoint trimLeftZeros (b : bytes) : bytes :=
  match b with c :: b' => if bool_decide (c = zero_byte) then trimLeftZeros b' else b | [] => [] end.
Definition trim_code (b : bytes) : bytes := trimLeftZeros (trimRightZeros b).

Definition assetFromXDR (a : Asset) : option TxAsset :=
  match a with
  | Native => Some NativeAsset
  | CreditAlphanum4 code issuer =>
      let! address := AccountId_Address issuer in Some (CreditAsset (trim_code (vec_to_list code)) address)
  | CreditAlphanum12 code issuer =>
      let! address := AccountId_Address issuer in Some (CreditAsset (trim_code (vec_to_list code)) address)
  end.

(** A call of [ToXDR] on a field that may be nil, with its error wrapped. *)
Definition field_ToXDR (a : option TxAsset) (message : String.string) : option (result txn_error Asset) :=
  let! a := a in wrapped (TxAsset_ToXDR a) message.
#[global] Arguments field_ToXDR a message%_string_scope.

(** ** Liquidity pools *)
Definition LiquidityPoolFeeV18 : Z := 30.

Record TxPoolParameters : Type := mkTxPoolParameters { par_AssetA : option TxAsset; par_AssetB : option TxAsset; par_Fee : Z }.

Definition NewLiquidityPoolId (a b : option TxAsset) : option (result txn_error PoolId) :=
  try! xdrAssetA := field_ToXDR a "failed to build XDR AssetA ID" in
  try! xdrAssetB := field_ToXDR b "failed to build XDR AssetB ID" in
  let! id := NewPoolId xdrAssetA xdrAssetB LiquidityPoolFeeV18 in
  wrapped id "AssetA must be < AssetB".

Definition TxPoolParameters_ToXDR (lpi : TxPoolParameters) : option (result txn_error PoolParameters) :=
  try! xdrAssetA := field_ToXDR (par_AssetA lpi) "failed to build XDR AssetA ID" in
  try! xdrAssetB := field_ToXDR (par_AssetB lpi) "failed to build XDR AssetB ID" in
  let! less := LessThan xdrAssetA xdrAssetB in
  if negb less then fail "AssetA must be < AssetB"
  else Some (Ok (mkPoolParameters xdrAssetA xdrAssetB (par_Fee lpi))).
Definition liquidityPoolParametersFromXDR (params : PoolParameters) : option TxPoolParameters :=
  let! assetA := assetFromXDR (AssetA params) in
  let! assetB := assetFromXDR (AssetB params) in
  Some (mkTxPoolParameters (Some assetA) (Some assetB) (Fee params)).

(** ** Assets of trust lines

    Wrappers hold an asset; one around nil, whose methods all panic, is left out. *)
Inductive TxTrustLineAsset : Type :=
| TrustLineAssetWrapper (a : TxAsset)
| LiquidityPoolShareTrustLineAsset (LiquidityPoolID : PoolId).

(** The type of the share is left at its zero value, so it is encoded as the native
    asset. *)
Definition TxTrustLineAsset_ToXDR (a : TxTrustLineAsset) : result asset_error TrustLineAsset :=
  match a with
  | TrustLineAssetWrapper a => match TxAsset_ToXDR a with Ok x => Ok (ToTrustLineAsset x) | Err e => Err e end
  | LiquidityPoolShareTrustLineAsset _ => Ok TrustLineNative
  end.
Definition assetFromTrustLineAssetXDR (xAsset : TrustLineAsset) : option TxTrustLineAsset :=
  match xAsset with
  | TrustLinePoolShare poolId => Some (LiquidityPoolShareTrustLineAsset poolId)
  | _ =>
      let! a := ToAsset xAsset in
      let! a := assetFromXDR a in
      Some (TrustLineAssetWrapper a)
  end.
Definition TxTrustLineAsset_IsNative (a : TxTrustLineAsset) : bool :=
  match a with TrustLineAssetWrapper a => TxAsset_IsNative a | LiquidityPoolShareTrustLineAsset _ => false end.
Definition TxTrustLineAsset_GetType (a : TxTrustLineAsset) : result txn_error TxAssetType :=
  match a with TrustLineAssetWrapper a => TxAsset_GetType a | LiquidityPoolShareTrustLineAsset _ => Ok TypePoolShare end.
Definition TxTrustLineAsset_GetIssuer (a : TxTrustLineAsset) : bytes :=
  match a with TrustLineAssetWrapper a => TxAsset_GetIssuer a | LiquidityPoolShareTrustLineAsset _ => [] end.

Inductive TxChangeTrustAsset : Type :=
| ChangeTrustAssetWrapper (a : TxAsset)
| LiquidityPoolShareChangeTrustAsset (params : TxPoolParameters).

Definition TxChangeTrustAsset_ToXDR (a : TxChangeTrustAsset) : option (result txn_error ChangeTrustAsset_) :=
  match a with
  | ChangeTrustAssetWrapper a =>
      try! x := wrapped (TxAsset_ToXDR a) "asset" in
      Some (Ok (ToChangeTrustAsset x))
  | LiquidityPoolShareChangeTrustAsset params =>
      try! xdrPoolParams := TxPoolParameters_ToXDR params in
      Some (Ok (ChangeTrustPoolShare xdrPoolParams))
  end.
Definition assetFromChangeTrustAssetXDR (xAsset : ChangeTrustAsset_) : option TxChangeTrustAsset :=
  match xAsset with
  | ChangeTrustPoolShare params =>
      let! params := liquidityPoolParametersFromXDR params in
      Some (LiquidityPoolShareChangeTrustAsset params)
  | _ =>
      let! a := ChangeTrust_ToAsset xAsset in
      let! a := assetFromXDR a in
      Some (ChangeTrustAssetWrapper a)
  end.
Definition TxChangeTrustAsset_IsNative (a : TxChangeTrustAsset) : bool :=
  match a with ChangeTrustAssetWrapper a => TxAsset_IsNative a | LiquidityPoolShareChangeTrustAsset _ => false end.
Definition TxChangeTrustAsset_GetType (a : TxChangeTrustAsset) : result txn_error TxAssetType :=
  match a with ChangeTrustAssetWrapper a => TxAsset_GetType a | LiquidityPoolShareChangeTrustAsset _ => Ok TypePoolShare end.
Definition TxChangeTrustAsset_GetIssuer (a : TxChangeTrustAsset) : bytes :=
  match a with ChangeTrustAssetWrapper a => TxAsset_GetIssuer a | LiquidityPoolShareChangeTrustAsset _ => [] end.
Definition TxChangeTrustAsset_ToTrustLineAsset (a : TxChangeTrustAsset) : option (result txn_error TxTrustLineAsset) :=
  match a with
  | ChangeTrustAssetWrapper a => Some (Ok (TrustLineAssetWrapper a))
  | LiquidityPoolShareChangeTrustAsset params =>
      try! poolId := NewLiquidityPoolId (par_AssetA params) (par_AssetB params) in
      Some (Ok (LiquidityPoolShareTrustLineAsset poolId))
  end.

(** ** Validation *)
Definition some_error (message : String.string) : option txn_error := Some (Failed (str message)).
#[global] Arguments some_error message%_string_scope.

Definition validateStellarPublicKey (publicKey : bytes) : option txn_error :=
  if bool_decide (publicKey = []) then some_error "public key is undefined"
  else if negb (IsValidEd25519PublicKey (Some publicKey)) then some_error "not a valid stellar public key"
  else None.
Definition validateStellarSignerKey (signerKey : bytes) : option (option txn_error) :=
  if bool_decide (signerKey = []) then Some (some_error "signer key is undefined")
  else
    let! r := SignerKey_SetAddress signerKey in
    Some (match r with Ok _ => None | Err _ => some_error "not a valid stellar signer key" end).

(** The three kinds of asset, by what is asked of them. *)
Definition validate_issued (isNative : bool) (type_ : result txn_error TxAssetType) (issuer : bytes) : option txn_error :=
  if isNative then None
  else match type_ with
  | Err e => Some e
  | Ok _ => validateStellarPublicKey issuer
  end.
Definition validateStellarAsset (asset : option TxAsset) : option txn_error :=
  match asset with
  | None => some_error "asset is undefined"
  | Some a => validate_issued (TxAsset_IsNative a) (TxAsset_GetType a) (TxAsset_GetIssuer a)
  end.
Definition validateStellarAsset_trust (asset : option TxTrustLineAsset) : option txn_error :=
  match asset with
  | None => some_error "asset is undefined"
  | Some a => validate_issued (TxTrustLineAsset_IsNative a) (TxTrustLineAsset_GetType a) (TxTrustLineAsset_GetIssuer a)
  end.

Definition validateAmount_int (stellarAmount : Z) : option txn_error :=
  if stellarAmount <? 0 then some_error "amount can not be negative" else None.
Definition validateAmount (n : bytes) : option txn_error :=
  match ParseInt64 n with
  | Err _ => some_error "could not parse amount"
  | Ok v => validateAmount_int v
  end.
Definition validateSequenceNumber (sequenceNumber : Z) : option txn_error :=
  if sequenceNumber <? 0 then some_error "sequence number cannot be negative" else None.
Definition validatePrice (p : Price) : option txn_error :=
  if PriceN p =? 0 then some_error "price cannot be 0"
  else if PriceD p =? 0 then some_error "price denominator cannot be 0"
  else if (PriceN p <? 0) || (PriceD p <? 0) then some_error "price cannot be negative"
  else None.

Definition validate_code (isNative : bool) (type_ : result txn_error TxAssetType) : option txn_error :=
  if isNative then some_error "native (XLM) asset type is not allowed" else error_of type_.
Definition validateAssetCode (asset : option TxAsset) : option txn_error :=
  match asset with
  | None => some_error "asset is undefined"
  | Some a => validate_code (TxAsset_IsNative a) (TxAsset_GetType a)
  end.
Definition validateChangeTrustAsset (asset : option TxChangeTrustAsset) : option (option txn_error) :=
  match asset with
  | None => Some (some_error "asset is undefined")
  | Some a =>
      match validate_code (TxChangeTrustAsset_IsNative a) (TxChangeTrustAsset_GetType a) with
      | Some e => Some (Some e)
      | None =>
          match a with
          | LiquidityPoolShareChangeTrustAsset params => let! r := TxPoolParameters_ToXDR params in Some (error_of r)
          | ChangeTrustAssetWrapper a => Some (validateStellarPublicKey (TxAsset_GetIssuer a))
          end
      end
  end.

Definition validatePassiveOffer (buying selling : option TxAsset) (offerAmount : bytes) (price : Price) : result txn_error unit :=
  let? _ := field "Buying" (validateStellarAsset buying) in
  let? _ := field "Selling" (validateStellarAsset selling) in
  let? _ := field "Amount" (validateAmount offerAmount) in
  field "Price" (validatePrice price).
Definition validateOffer (buying selling : option TxAsset) (offerAmount : bytes) (price : Price) (offerID : Z) : result txn_error unit :=
  let? _ := validatePassiveOffer buying selling offerAmount price in
  field "OfferID" (validateAmount_int offerID).

Definition ParseAssetString (canonical : bytes) : option (result txn_error TxAsset) :=
  match BuildAssets canonical with
  | Err _ => fail "error parsing asset string"
  | Ok [a] => let! asset := assetFromXDR a in Some (Ok asset)
  | Ok _ => fail "error parsing out a single asset"
  end.
