(* ===== verification/TxnOperations.v ===== *)
(** * Operations of transactions

    src/txnbuild/operation.go and the files of the operations: each is built into its
    XDR form, parsed from it, and validated. [BuildXDR] and [FromXDR] return an option,
    [None] being a panic, as of a nil asset where a method is called. [FromXDR] is
    called on new operations, so it is a function of the XDR form alone. *)
From Stdlib Require Import ZArith Lia.
From stdpp Require Import base list vector option.
From S2P Require Import Prelude GoStd GoExt Price Encodings Strkey Amount Asset LedgerEntries CloseMeta Accounts Envelopes TokenDeltas Keypair TxnXdr.
From S2P Require Import TxnAssets.
#[local] Open Scope Z_scope.
#[local] Open Scope go_scope.

(** ** Claimable balance identifiers in hexadecimal *)
Definition ClaimableBalanceId_EncodeTo (id : ClaimableBalanceId) : bytes := be_put 4 0 ++ vec_to_list id.
Definition MarshalHex (id : ClaimableBalanceId) : bytes := hex_EncodeToString (ClaimableBalanceId_EncodeTo id).

(** The streaming decoder reads up to 1024 characters at once, and decodes those of
    the 36 bytes it is asked for: what is left of a shorter text is not looked at. *)
Definition SafeUnmarshalHex (data : bytes) : option ClaimableBalanceId :=
  if (go_len data <? 72) || (1024 <? go_len data) then None
  else
    let! b := hex_DecodeString (take 72 data) in
    if bool_decide (take 4 b = be_put 4 0) then Some (copy_array (zero_array 32) (drop 4 b)) else None.

Definition unmarshal_id (data : bytes) (message : String.string) : option (result txn_error ClaimableBalanceId) :=
  match SafeUnmarshalHex data with Some id => Some (Ok id) | None => fail message end.
#[global] Arguments unmarshal_id data message%_string_scope.

(** ** The operations *)
Record TxClaimant : Type := mkTxClaimant { cl_Destination : bytes; cl_Predicate : ClaimPredicate }.
Record TxSigner : Type := mkTxSigner { Address : bytes; Weight : Z }.

Record SetOptions : Type := mkSetOptions {
  InflationDestination : option bytes;
  so_SetFlags : list Z;
  so_ClearFlags : list Z;
  so_MasterWeight : option Z;
  so_LowThreshold : option Z;
  so_MediumThreshold : option Z;
  so_HighThreshold : option Z;
  so_HomeDomain : option bytes;
  so_Signer : option TxSigner
}.

(** What is revoked, behind the pointer of its type. *)
Inductive Sponsorship : Type :=
| SponsoredAccount (Account : option bytes)
| SponsoredTrustLine (TrustLine : option (bytes * option TxTrustLineAsset))
| SponsoredOffer (Offer : option (bytes * Z))
| SponsoredData (Data : option (bytes * bytes))
| SponsoredClaimableBalance (ClaimableBalance : option bytes)
| SponsoredSigner (Signer : option (bytes * bytes))
| SponsoredUnknown (SponsorshipType : Z).

Section Operations.
Context {ET : EntryTypes} {ST : SorobanTypes}.

Inductive TxBody : Type :=
| CreateAccount (Destination amount : bytes)
| Payment (Destination amount : bytes) (asset : option TxAsset)
| PathPaymentStrictReceive (SendAsset : option TxAsset) (SendMax Destination : bytes) (DestAsset : option TxAsset)
    (DestAmount : bytes) (Path : list (option TxAsset))
| ManageSellOffer (selling buying : option TxAsset) (amount : bytes) (price : Price) (OfferID : Z)
| CreatePassiveSellOffer (selling buying : option TxAsset) (amount : bytes) (price : Price)
| SetOptions_ (options : SetOptions)
| ChangeTrust (Line : option TxChangeTrustAsset) (Limit : bytes)
| AllowTrust (Trustor : bytes) (asset : option TxAsset) (Authorize AuthorizeToMaintainLiabilities ClawbackEnabled : bool)
| AccountMerge (Destination : bytes)
| Inflation
| ManageData (Name : bytes) (Value : option bytes)
| BumpSequence (BumpTo : Z)
| ManageBuyOffer (selling buying : option TxAsset) (amount : bytes) (price : Price) (OfferID : Z)
| PathPaymentStrictSend (SendAsset : option TxAsset) (SendAmount Destination : bytes) (DestAsset : option TxAsset)
    (DestMin : bytes) (Path : list (option TxAsset))
| BeginSponsoringFutureReserves (SponsoredID : bytes)
| EndSponsoringFutureReserves
| CreateClaimableBalance (amount : bytes) (asset : option TxAsset) (Destinations : list TxClaimant)
| ClaimClaimableBalance (BalanceID : bytes)
| RevokeSponsorship (sponsorship : Sponsorship)
| Clawback (From amount : bytes) (asset : option TxAsset)
| ClawbackClaimableBalance (BalanceID : bytes)
| SetTrustLineFlags (Trustor : bytes) (asset : option TxAsset) (setFlags clearFlags : list Z)
| LiquidityPoolDeposit (pool : PoolId) (MaxAmountA MaxAmountB : bytes) (MinPrice MaxPrice : Price)
| LiquidityPoolWithdraw (pool : PoolId) (amount MinAmountA MinAmountB : bytes)
| InvokeHostFunction (function : HostFunction) (Auth : list SorobanAuthorizationEntry) (Ext : option SorobanData)
| ExtendFootprintTtl (ExtendTo : Z) (Ext : option SorobanData)
| RestoreFootprint (Ext : option SorobanData).

(** All operations have a source account, the empty text being none. *)
Record TxOperation : Type := mkTxOperation { GetSourceAccount : bytes; Op : TxBody }.

#[local] Abbreviation built := (option (result txn_error XdrOperationBody)).
#[local] Abbreviation parsed := (option (result txn_error TxBody)).
#[local] Abbreviation checked := (option (result txn_error unit)).

Definition done_build (b : XdrOperationBody) : built := Some (Ok b).
Definition parse_amount (n : bytes) (message : String.string) : option (result txn_error Z) := wrapped (Amount.Parse n) message.
#[local] Arguments parse_amount n message%_string_scope.

(** A field that must not be nil. *)
Definition required {A} (a : option A) (message : String.string) : option (result txn_error A) :=
  match a with Some a => Some (Ok a) | None => fail message end.
#[local] Arguments required {_} a message%_string_scope.
(** A call on a field that may be nil. *)
Definition called {A} (a : option A) : option (result txn_error A) := let! a := a in Some (Ok a).

(** The result of a call that already failed with a message, wrapped again. *)
Definition rewrap {A} (r : option (result txn_error A)) (message : String.string) : option (result txn_error A) :=
  match r with Some (Err _) => fail message | r => r end.
#[local] Arguments rewrap {_} r message%_string_scope.

Fixpoint path_ToXDR (path : list (option TxAsset)) : option (result txn_error (list Asset)) :=
  match path with
  | [] => Some (Ok [])
  | a :: path =>
      try! xdrPathAsset := field_ToXDR a "failed to set asset type" in
      try! rest := path_ToXDR path in
      Some (Ok (xdrPathAsset :: rest))
  end.
Fixpoint path_FromXDR (path : list Asset) : option (list (option TxAsset)) :=
  match path with
  | [] => Some []
  | a :: path =>
      let! pathAsset := assetFromXDR a in
      let! rest := path_FromXDR path in
      Some (Some pathAsset :: rest)
  end.

(** ** Accounts and payments *)
Definition CreateAccount_BuildXDR (destination amount : bytes) : built :=
  try! destination := wrapped (SetAddress destination) "failed to set destination address" in
  try! startingBalance := parse_amount amount "failed to parse amount" in
  done_build (OperationTypeCreateAccount destination startingBalance).

Definition Payment_BuildXDR (destination amount : bytes) (asset : option TxAsset) : built :=
  try! destMuxedAccount := wrapped (Muxed_SetAddress destination) "failed to set destination address" in
  try! xdrAmount := parse_amount amount "failed to parse amount" in
  try! asset := required asset "you must specify an asset for payment" in
  try! xdrAsset := wrapped (TxAsset_ToXDR asset) "failed to set asset type" in
  done_build (OperationTypePayment destMuxedAccount xdrAsset xdrAmount).

Definition PathPayment_BuildXDR (sendAsset : option TxAsset) (sendMax destination : bytes) (destAsset : option TxAsset)
    (destAmount : bytes) (path : list (option TxAsset)) : built :=
  try! sendAsset := required sendAsset "you must specify an asset to send for payment" in
  try! xdrSendAsset := wrapped (TxAsset_ToXDR sendAsset) "failed to set asset type" in
  try! xdrSendMax := parse_amount sendMax "failed to parse maximum amount to send" in
  try! xdrDestination := wrapped (Muxed_SetAddress destination) "failed to set destination address" in
  try! destAsset := required destAsset "you must specify an asset for destination account to receive" in
  try! xdrDestAsset := wrapped (TxAsset_ToXDR destAsset) "failed to set asset type" in
  try! xdrDestAmount := parse_amount destAmount "failed to parse amount of asset destination account receives" in
  try! xdrPath := path_ToXDR path in
  done_build (OperationTypePathPaymentStrictReceive xdrSendAsset xdrSendMax xdrDestination xdrDestAsset xdrDestAmount xdrPath).

Definition PathPaymentStrictSend_BuildXDR (sendAsset : option TxAsset) (sendAmount destination : bytes) (destAsset : option TxAsset)
    (destMin : bytes) (path : list (option TxAsset)) : built :=
  try! sendAsset := required sendAsset "you must specify an asset to send for payment" in
  try! xdrSendAsset := wrapped (TxAsset_ToXDR sendAsset) "failed to set asset type" in
  try! xdrDestMin := parse_amount destMin "failed to parse minimum amount to receive" in
  try! xdrDestination := wrapped (Muxed_SetAddress destination) "failed to set destination address" in
  try! destAsset := required destAsset "you must specify an asset for destination account to receive" in
  try! xdrDestAsset := wrapped (TxAsset_ToXDR destAsset) "failed to set asset type" in
  try! xdrSendAmount := parse_amount sendAmount "failed to parse amount of asset source account sends" in
  try! xdrPath := path_ToXDR path in
  done_build (OperationTypePathPaymentStrictSend xdrSendAsset xdrSendAmount xdrDestination xdrDestAsset xdrDestMin xdrPath).

Definition AccountMerge_BuildXDR (destination : bytes) : built :=
  try! xdrOp := wrapped (Muxed_SetAddress destination) "failed to set destination address" in
  done_build (OperationTypeAccountMerge xdrOp).

(** ** Offers *)
Definition offer_sides (selling buying : option TxAsset) (amount : bytes) : option (result txn_error (Asset * Asset * Z)) :=
  try! xdrSelling := field_ToXDR selling "failed to set XDR 'Selling' field" in
  try! xdrBuying := field_ToXDR buying "failed to set XDR 'Buying' field" in
  try! xdrAmount := parse_amount amount "failed to parse 'Amount'" in
  Some (Ok (xdrSelling, xdrBuying, xdrAmount)).
Definition ManageSellOffer_BuildXDR selling buying (amount : bytes) (price : Price) (offerID : Z) : built :=
  try! (xdrSelling, xdrBuying, xdrAmount) := offer_sides selling buying amount in
  done_build (OperationTypeManageSellOffer xdrSelling xdrBuying xdrAmount price offerID).
Definition ManageBuyOffer_BuildXDR selling buying (amount : bytes) (price : Price) (offerID : Z) : built :=
  try! (xdrSelling, xdrBuying, xdrAmount) := offer_sides selling buying amount in
  done_build (OperationTypeManageBuyOffer xdrSelling xdrBuying xdrAmount price offerID).
Definition CreatePassiveSellOffer_BuildXDR selling buying (amount : bytes) (price : Price) : built :=
  try! (xdrSelling, xdrBuying, xdrAmount) := offer_sides selling buying amount in
  done_build (OperationTypeCreatePassiveSellOffer xdrSelling xdrBuying xdrAmount price).

(** The constructors of offers; a source account more is refused. *)
Definition one_source (sourceAccount : list bytes) (op : TxBody) : result txn_error TxOperation :=
  match sourceAccount with
  | [] => Ok (mkTxOperation [] op)
  | [a] => Ok (mkTxOperation a op)
  | _ => Err (Failed (str "offer can't have multiple source accounts"))
  end.
Definition CreateOfferOp selling buying (amount : bytes) (price : Price) (sourceAccount : list bytes) : result txn_error TxOperation :=
  one_source sourceAccount (ManageSellOffer selling buying amount price 0).
Definition UpdateOfferOp selling buying (amount : bytes) (price : Price) (offerID : Z) (sourceAccount : list bytes) : result txn_error TxOperation :=
  one_source sourceAccount (ManageSellOffer selling buying amount price offerID).
Definition DeleteOfferOp (offerID : Z) (sourceAccount : list bytes) : result txn_error TxOperation :=
  one_source sourceAccount (ManageSellOffer (Some NativeAsset)
    (Some (CreditAsset (str "FAKE") (str "GBAQPADEYSKYMYXTMASBUIS5JI3LMOAWSTM2CHGDBJ3QDDPNCSO3DVAA"))) (str "0") (mkPrice 1 1) offerID).

(** ** Options of an account *)
Definition flags_ToXDR (flags : list Z) : option Z :=
  match flags with [] => None | _ => Some (fold_left Z.lor flags 0) end.

(** The account flags, in the order they are parsed in. *)
Definition account_flags : list Z := [1; 2; 4; 8].
Definition flags_FromXDR (flags : option Z) : list Z :=
  match flags with None => [] | Some flags => filter (fun f => Z.land f flags <> 0) account_flags end.

Definition handleInflation (dest : option bytes) : result strkey_error (option AccountId) :=
  match dest with
  | None => Ok None
  | Some a => match SetAddress a with Ok k => Ok (Some k) | Err e => Err e end
  end.
Definition handleHomeDomain (hd : option bytes) : option (result txn_error (option bytes)) :=
  match hd with
  | Some d => if 32 <? go_len d then fail "failed to set home domain" else Some (Ok (Some d))
  | None => Some (Ok None)
  end.
Definition handleSigner (signer : option TxSigner) : option (result txn_error (option XdrSigner)) :=
  match signer with
  | None => Some (Ok None)
  | Some s =>
      let! key := SignerKey_SetAddress (Address s) in
      try! key := wrapped key "failed to set signer" in
      Some (Ok (Some (mkXdrSigner key (Weight s))))
  end.
Definition SetOptions_BuildXDR (so : SetOptions) : built :=
  try! inflationDest := wrapped (handleInflation (InflationDestination so)) "failed to set inflation destination address" in
  try! homeDomain := handleHomeDomain (so_HomeDomain so) in
  try! signer := handleSigner (so_Signer so) in
  done_build (OperationTypeSetOptions (mkSetOptionsOp inflationDest (flags_ToXDR (so_ClearFlags so)) (flags_ToXDR (so_SetFlags so))
    (so_MasterWeight so) (so_LowThreshold so) (so_MediumThreshold so) (so_HighThreshold so) homeDomain signer)).

(** Thresholds are of 8 bits. *)
Definition threshold_FromXDR (weight : option Z) : option Z := option_map u8 weight.
Definition SetOptions_FromXDR (o : SetOptionsOp) : option SetOptions :=
  let! inflation := match InflationDest o with
                    | None => Some None
                    | Some k => let! a := AccountId_Address k in Some (Some a)
                    end in
  let! signer := match xso_Signer o with
                 | None => Some None
                 | Some s => let! a := SignerKey_Address (signer_Key s) in Some (Some (mkTxSigner a (u8 (signer_Weight s))))
                 end in
  Some (mkSetOptions inflation (flags_FromXDR (xso_SetFlags o)) (flags_FromXDR (xso_ClearFlags o))
    (threshold_FromXDR (xso_MasterWeight o)) (threshold_FromXDR (xso_LowThreshold o)) (threshold_FromXDR (xso_MedThreshold o))
    (threshold_FromXDR (xso_HighThreshold o)) (xso_HomeDomain o) signer).

(** ** Trust lines *)
Definition MaxTrustlineLimit : bytes := default [] (StringFromInt64 MaxInt64).

(** [BuildXDR] leaves an empty limit set to the greatest one. *)
Definition limit_or_max (limit : bytes) : bytes := if bool_decide (limit = []) then MaxTrustlineLimit else limit.
Definition ChangeTrust_BuildXDR (line : option TxChangeTrustAsset) (limit : bytes) : built :=
  try! line := called line in
  if TxChangeTrustAsset_IsNative line then fail "trustline cannot be extended to a native (XLM) asset"
  else
    try! xdrLine := rewrap (TxChangeTrustAsset_ToXDR line) "can't convert trustline asset to XDR" in
    try! xdrLimit := parse_amount (limit_or_max limit) "failed to parse limit amount" in
    done_build (OperationTypeChangeTrust xdrLine xdrLimit).
Definition RemoveTrustlineOp (issuedAsset : option TxChangeTrustAsset) : TxOperation :=
  mkTxOperation [] (ChangeTrust issuedAsset (str "0")).

Definition AllowTrust_BuildXDR (trustor : bytes) (asset : option TxAsset) (authorize authorizeToMaintainLiabilities : bool) : built :=
  try! trustor := wrapped (SetAddress trustor) "failed to set trustor address" in
  try! asset := called asset in
  if TxAsset_IsNative asset then fail "trustline doesn't exist for a native (XLM) asset"
  else
    try! code := wrapped (ToAssetCode (TxAsset_GetCode asset)) "can't convert asset for trustline to allow trust asset type" in
    done_build (OperationTypeAllowTrust trustor code
      (if authorize then TrustLineFlagsAuthorizedFlag
       else if authorizeToMaintainLiabilities then TrustLineFlagsAuthorizedToMaintainLiabilitiesFlag else 0)).
Definition assetCodeToCreditAsset (assetCode : AssetCode) : TxAsset :=
  match assetCode with
  | AssetCode4 code => CreditAsset (trim_code (vec_to_list code)) []
  | AssetCode12 code => CreditAsset (trim_code (vec_to_list code)) []
  end.

Definition trustLineFlagsToXDR (flags : list Z) : Z := fold_left Z.lor flags 0.
Definition fromXDRTrustlineFlag (flags : Z) : list Z :=
  (if IsAuthorized flags then [TrustLineFlagsAuthorizedFlag] else []) ++
  (if IsAuthorizedToMaintainLiabilitiesFlag flags then [TrustLineFlagsAuthorizedToMaintainLiabilitiesFlag] else []) ++
  (if IsClawbackEnabledFlag flags then [TrustLineFlagsTrustlineClawbackEnabledFlag] else []).
Definition SetTrustLineFlags_BuildXDR (trustor : bytes) (asset : option TxAsset) (setFlags clearFlags : list Z) : built :=
  try! trustor := wrapped (SetAddress trustor) "failed to set trustor address" in
  try! asset := called asset in
  if TxAsset_IsNative asset then fail "trustline doesn't exist for a native (XLM) asset"
  else
    try! xdrAsset := wrapped (TxAsset_ToXDR asset) "can't convert asset to XDR" in
    done_build (OperationTypeSetTrustLineFlags trustor xdrAsset (trustLineFlagsToXDR clearFlags) (trustLineFlagsToXDR setFlags)).

Definition Clawback_BuildXDR (from amount : bytes) (asset : option TxAsset) : built :=
  try! fromMuxedAccount := wrapped (Muxed_SetAddress from) "failed to set from address" in
  try! asset := required asset "you must specify an asset for the clawback" in
  if TxAsset_IsNative asset then fail "clawbacks don't support the native (XLM) asset"
  else
    try! xdrAmount := parse_amount amount "failed to parse amount" in
    try! xdrAsset := wrapped (TxAsset_ToXDR asset) "can't convert asset to XDR" in
    done_build (OperationTypeClawback xdrAsset fromMuxedAccount xdrAmount).

(** ** Claimable balances *)
Definition NewClaimant (destination : bytes) (predicate : option ClaimPredicate) : TxClaimant :=
  mkTxClaimant destination (default ClaimPredicateUnconditional predicate).
Definition AndPredicate (left right : ClaimPredicate) : ClaimPredicate := ClaimPredicateAnd [left; right].
Definition OrPredicate (left right : ClaimPredicate) : ClaimPredicate := ClaimPredicateOr [left; right].
Definition NotPredicate (pred : ClaimPredicate) : ClaimPredicate := ClaimPredicateNot (Some pred).
Definition BeforeAbsoluteTimePredicate (epochSeconds : Z) : ClaimPredicate := ClaimPredicateBeforeAbsoluteTime epochSeconds.
Definition BeforeRelativeTimePredicate (secondsBefore : Z) : ClaimPredicate := ClaimPredicateBeforeRelativeTime secondsBefore.

Fixpoint claimants_ToXDR (l : list TxClaimant) : option (result txn_error (list XdrClaimant)) :=
  match l with
  | [] => Some (Ok [])
  | d :: l =>
      try! k := wrapped (SetAddress (cl_Destination d)) "failed to set destination address" in
      try! rest := claimants_ToXDR l in
      Some (Ok (mkXdrClaimant k (cl_Predicate d) :: rest))
  end.
Fixpoint claimants_FromXDR (l : list XdrClaimant) : option (list TxClaimant) :=
  match l with
  | [] => Some []
  | c :: l =>
      let! a := AccountId_Address (V0_Destination c) in
      let! rest := claimants_FromXDR l in
      Some (mkTxClaimant a (V0_Predicate c) :: rest)
  end.
Definition CreateClaimableBalance_BuildXDR (amount : bytes) (asset : option TxAsset) (destinations : list TxClaimant) : built :=
  try! xdrAsset := field_ToXDR asset "failed to set XDR 'Asset' field" in
  try! xdrAmount := parse_amount amount "failed to parse 'Amount'" in
  try! claimants := claimants_ToXDR destinations in
  done_build (OperationTypeCreateClaimableBalance xdrAsset xdrAmount claimants).
Definition ClaimClaimableBalance_BuildXDR (balanceID : bytes) : built :=
  try! xdrBalanceID := unmarshal_id balanceID "failed to set XDR 'ClaimableBalanceId' field" in
  done_build (OperationTypeClaimClaimableBalance xdrBalanceID).
Definition ClawbackClaimableBalance_BuildXDR (balanceID : bytes) : built :=
  try! xdrBalanceID := unmarshal_id balanceID "failed to set XDR 'ClaimableBalanceId' field" in
  done_build (OperationTypeClawbackClaimableBalance xdrBalanceID).

(** ** Sponsorship *)
Definition BeginSponsoringFutureReserves_BuildXDR (sponsoredID : bytes) : built :=
  try! k := wrapped (SetAddress sponsoredID) "failed to set sponsored id address" in
  done_build (OperationTypeBeginSponsoringFutureReserves k).

Definition revoke_entry (key : LedgerKey) : built := done_build (OperationTypeRevokeSponsorship (RevokeSponsorshipLedgerEntry key)).
Definition RevokeSponsorship_BuildXDR (r : Sponsorship) : built :=
  match r with
  | SponsoredAccount account =>
      try! account := required account "Account can't be nil" in
      try! k := wrapped (SetAddress account) "incorrect Account address" in
      revoke_entry (LedgerKeyAccount k)
  | SponsoredTrustLine trustLine =>
      try! (account, asset) := required trustLine "TrustLine can't be nil" in
      try! k := wrapped (SetAddress account) "incorrect Account address" in
      try! asset := called asset in
      try! asset := wrapped (TxTrustLineAsset_ToXDR asset) "incorrect TrustLine asset" in
      revoke_entry (LedgerKeyTrustLine k asset)
  | SponsoredOffer offer =>
      try! (seller, offerID) := required offer "Offer can't be nil" in
      try! k := wrapped (SetAddress seller) "incorrect Seller account address" in
      revoke_entry (LedgerKeyOffer k offerID)
  | SponsoredData data =>
      try! (account, dataName) := required data "Data can't be nil" in
      try! k := wrapped (SetAddress account) "incorrect Account address" in
      revoke_entry (LedgerKeyData k dataName)
  | SponsoredClaimableBalance balance =>
      try! balance := required balance "ClaimableBalance can't be nil" in
      try! id := unmarshal_id balance "cannot parse ClaimableBalance" in
      revoke_entry (LedgerKeyClaimableBalance id)
  | SponsoredSigner signer =>
      try! (account, signerAddress) := required signer "Signer can't be nil" in
      try! k := wrapped (SetAddress account) "incorrect Account address" in
      let! key := SignerKey_SetAddress signerAddress in
      try! key := wrapped key "incorrect Signer account address" in
      done_build (OperationTypeRevokeSponsorship (RevokeSponsorshipSigner k key))
  | SponsoredUnknown _ => fail "unknown SponsorshipType"
  end.
Definition RevokeSponsorship_FromXDR (op : RevokeSponsorshipOp) : option (result txn_error Sponsorship) :=
  match op with
  | RevokeSponsorshipLedgerEntry (LedgerKeyAccount k) => let! a := AccountId_Address k in Some (Ok (SponsoredAccount (Some a)))
  | RevokeSponsorshipLedgerEntry (LedgerKeyTrustLine k asset) =>
      let! a := AccountId_Address k in
      let! asset := assetFromTrustLineAssetXDR asset in
      Some (Ok (SponsoredTrustLine (Some (a, Some asset))))
  | RevokeSponsorshipLedgerEntry (LedgerKeyOffer k offerID) =>
      let! a := AccountId_Address k in Some (Ok (SponsoredOffer (Some (a, offerID))))
  | RevokeSponsorshipLedgerEntry (LedgerKeyData k dataName) =>
      let! a := AccountId_Address k in Some (Ok (SponsoredData (Some (a, dataName))))
  | RevokeSponsorshipLedgerEntry (LedgerKeyClaimableBalance id) => Some (Ok (SponsoredClaimableBalance (Some (MarshalHex id))))
  | RevokeSponsorshipLedgerEntry _ => fail "unexpected LedgerEntryType"
  | RevokeSponsorshipSigner k key =>
      let! a := AccountId_Address k in
      let! s := SignerKey_Address key in
      Some (Ok (SponsoredSigner (Some (a, s))))
  end.

(** ** Liquidity pools *)
Definition LiquidityPoolDeposit_BuildXDR (pool : PoolId) (maxAmountA maxAmountB : bytes) (minPrice maxPrice : Price) : built :=
  try! xdrMaxAmountA := parse_amount maxAmountA "failed to parse 'MaxAmountA'" in
  try! xdrMaxAmountB := parse_amount maxAmountB "failed to parse 'MaxAmountB'" in
  done_build (OperationTypeLiquidityPoolDeposit pool xdrMaxAmountA xdrMaxAmountB minPrice maxPrice).
Definition LiquidityPoolWithdraw_BuildXDR (pool : PoolId) (amount minAmountA minAmountB : bytes) : built :=
  try! xdrAmount := parse_amount amount "failed to parse 'Amount'" in
  try! xdrMinAmountA := parse_amount minAmountA "failed to parse 'MinAmountA'" in
  try! xdrMinAmountB := parse_amount minAmountB "failed to parse 'MinAmountB'" in
  done_build (OperationTypeLiquidityPoolWithdraw pool xdrAmount xdrMinAmountA xdrMinAmountB).
Definition NewLiquidityPoolDeposit (sourceAccount : bytes) (a b : option TxAsset * bytes) (minPrice maxPrice : Price) :
    option (result txn_error TxOperation) :=
  try! poolId := NewLiquidityPoolId a.1 b.1 in
  Some (Ok (mkTxOperation sourceAccount (LiquidityPoolDeposit poolId a.2 b.2 minPrice maxPrice))).
Definition NewLiquidityPoolWithdraw (sourceAccount : bytes) (a b : option TxAsset * bytes) (amount : bytes) :
    option (result txn_error TxOperation) :=
  try! poolId := NewLiquidityPoolId a.1 b.1 in
  Some (Ok (mkTxOperation sourceAccount (LiquidityPoolWithdraw poolId amount a.2 b.2))).

(** ** All of them *)
Definition Body_BuildXDR (op : TxBody) : built :=
  match op with
  | CreateAccount destination amount => CreateAccount_BuildXDR destination amount
  | Payment destination amount asset => Payment_BuildXDR destination amount asset
  | PathPaymentStrictReceive sa sm d da n p => PathPayment_BuildXDR sa sm d da n p
  | ManageSellOffer s b n p id => ManageSellOffer_BuildXDR s b n p id
  | CreatePassiveSellOffer s b n p => CreatePassiveSellOffer_BuildXDR s b n p
  | SetOptions_ so => SetOptions_BuildXDR so
  | ChangeTrust line limit => ChangeTrust_BuildXDR line limit
  | AllowTrust trustor asset a l _ => AllowTrust_BuildXDR trustor asset a l
  | AccountMerge destination => AccountMerge_BuildXDR destination
  | Inflation => done_build OperationTypeInflation
  | ManageData name value => done_build (OperationTypeManageData name (option_map Some value))
  | BumpSequence bumpTo => done_build (OperationTypeBumpSequence bumpTo)
  | ManageBuyOffer s b n p id => ManageBuyOffer_BuildXDR s b n p id
  | PathPaymentStrictSend sa n d da dm p => PathPaymentStrictSend_BuildXDR sa n d da dm p
  | BeginSponsoringFutureReserves id => BeginSponsoringFutureReserves_BuildXDR id
  | EndSponsoringFutureReserves => done_build OperationTypeEndSponsoringFutureReserves
  | CreateClaimableBalance n asset ds => CreateClaimableBalance_BuildXDR n asset ds
  | ClaimClaimableBalance id => ClaimClaimableBalance_BuildXDR id
  | RevokeSponsorship r => RevokeSponsorship_BuildXDR r
  | Clawback from n asset => Clawback_BuildXDR from n asset
  | ClawbackClaimableBalance id => ClawbackClaimableBalance_BuildXDR id
  | SetTrustLineFlags trustor asset s c => SetTrustLineFlags_BuildXDR trustor asset s c
  | LiquidityPoolDeposit pool a b mn mx => LiquidityPoolDeposit_BuildXDR pool a b mn mx
  | LiquidityPoolWithdraw pool n a b => LiquidityPoolWithdraw_BuildXDR pool n a b
  | InvokeHostFunction f auth _ => done_build (OperationTypeInvokeHostFunction f auth)
  | ExtendFootprintTtl extendTo _ => done_build (OperationTypeExtendFootprintTtl extendTo)
  | RestoreFootprint _ => done_build OperationTypeRestoreFootprint
  end.

Definition SetOpSourceAccount (sourceAccount : bytes) : option (result txn_error (option MuxedAccount_)) :=
  if bool_decide (sourceAccount = []) then Some (Ok None)
  else
    try! opSourceAccountID := wrapped (Muxed_SetAddress sourceAccount) "failed to set op source account" in
    Some (Ok (Some opSourceAccountID)).
Definition BuildXDR (op : TxOperation) : option (result txn_error XdrOperation) :=
  try! body := Body_BuildXDR (Op op) in
  try! source := SetOpSourceAccount (GetSourceAccount op) in
  Some (Ok (mkXdrOperation source body)).

(** ** Parsing *)
Definition accountFromXDR (account : option MuxedAccount_) : option bytes :=
  match account with Some a => Muxed_Address a | None => Some [] end.
Definition parsed_as (b : TxBody) : parsed := Some (Ok b).

Definition CreateAccount_FromXDR (destination : AccountId) (startingBalance : Z) : parsed :=
  let! destination := AccountId_Address destination in
  let! amount := String_ startingBalance in
  parsed_as (CreateAccount destination amount).
Definition Payment_FromXDR (destination : MuxedAccount_) (asset : Asset) (amount : Z) : parsed :=
  let! destination := Muxed_Address destination in
  let! amount := String_ amount in
  let! asset := assetFromXDR asset in
  parsed_as (Payment destination amount (Some asset)).
Definition PathPaymentStrictReceive_FromXDR (sendAsset : Asset) (sendMax : Z) (destination : MuxedAccount_) (destAsset : Asset) (destAmount : Z) (path : list Asset) : parsed :=
  let! destination := Muxed_Address destination in
  let! destAmount := String_ destAmount in
  let! sendMax := String_ sendMax in
  let! destAsset := assetFromXDR destAsset in
  let! sendAsset := assetFromXDR sendAsset in
  let! path := path_FromXDR path in
  parsed_as (PathPaymentStrictReceive (Some sendAsset) sendMax destination (Some destAsset) destAmount path).
Definition PathPaymentStrictSend_FromXDR (sendAsset : Asset) (sendAmount : Z) (destination : MuxedAccount_) (destAsset : Asset) (destMin : Z) (path : list Asset) : parsed :=
  let! destination := Muxed_Address destination in
  let! sendAmount := String_ sendAmount in
  let! destMin := String_ destMin in
  let! destAsset := assetFromXDR destAsset in
  let! sendAsset := assetFromXDR sendAsset in
  let! path := path_FromXDR path in
  parsed_as (PathPaymentStrictSend (Some sendAsset) sendAmount destination (Some destAsset) destMin path).
Definition ManageSellOffer_FromXDR (selling : Asset) (buying : Asset) (amount : Z) (price : Price) (offerId : Z) : parsed :=
  let! amount := String_ amount in
  let! buying := assetFromXDR buying in
  let! selling := assetFromXDR selling in
  parsed_as (ManageSellOffer (Some selling) (Some buying) amount price offerId).
Definition ManageBuyOffer_FromXDR (selling : Asset) (buying : Asset) (buyAmount : Z) (price : Price) (offerId : Z) : parsed :=
  let! amount := String_ buyAmount in
  let! buying := assetFromXDR buying in
  let! selling := assetFromXDR selling in
  parsed_as (ManageBuyOffer (Some selling) (Some buying) amount price offerId).
Definition CreatePassiveSellOffer_FromXDR (selling : Asset) (buying : Asset) (amount : Z) (price : Price) : parsed :=
  let! amount := String_ amount in
  let! buying := assetFromXDR buying in
  let! selling := assetFromXDR selling in
  parsed_as (CreatePassiveSellOffer (Some selling) (Some buying) amount price).
Definition ChangeTrust_FromXDR (line : ChangeTrustAsset_) (limit : Z) : parsed :=
  let! limit := String_ limit in
  let! asset := assetFromChangeTrustAssetXDR line in
  parsed_as (ChangeTrust (Some asset) limit).
Definition AllowTrust_FromXDR (trustor : AccountId) (code : AssetCode) (authorize : Z) : parsed :=
  let! trustor := AccountId_Address trustor in
  parsed_as (AllowTrust trustor (Some (assetCodeToCreditAsset code)) (IsAuthorized authorize)
    (IsAuthorizedToMaintainLiabilitiesFlag authorize) false).
Definition AccountMerge_FromXDR (destination : MuxedAccount_) : parsed :=
  let! destination := Muxed_Address destination in parsed_as (AccountMerge destination).
Definition ManageData_FromXDR (name : bytes) (value : option (option bytes)) : parsed :=
  parsed_as (ManageData name (default None value)).
Definition BumpSequence_FromXDR (bumpTo : Z) : parsed :=
  parsed_as (BumpSequence bumpTo).
Definition BeginSponsoringFutureReserves_FromXDR (k : AccountId) : parsed :=
  let! a := AccountId_Address k in parsed_as (BeginSponsoringFutureReserves a).
Definition CreateClaimableBalance_FromXDR (asset : Asset) (amount : Z) (claimants : list XdrClaimant) : parsed :=
  let! asset := assetFromXDR asset in
  let! amount := String_ amount in
  let! destinations := claimants_FromXDR claimants in
  parsed_as (CreateClaimableBalance amount (Some asset) destinations).
Definition ClaimClaimableBalance_FromXDR (id : ClaimableBalanceId) : parsed :=
  parsed_as (ClaimClaimableBalance (MarshalHex id)).
Definition Clawback_FromXDR (asset : Asset) (from : MuxedAccount_) (amount : Z) : parsed :=
  let! from := Muxed_Address from in
  let! amount := String_ amount in
  let! asset := assetFromXDR asset in
  parsed_as (Clawback from amount (Some asset)).
Definition ClawbackClaimableBalance_FromXDR (id : ClaimableBalanceId) : parsed :=
  parsed_as (ClawbackClaimableBalance (MarshalHex id)).
Definition SetTrustLineFlags_FromXDR (trustor : AccountId) (asset : Asset) (clearFlags : Z) (setFlags : Z) : parsed :=
  let! trustor := AccountId_Address trustor in
  let! asset := assetFromXDR asset in
  parsed_as (SetTrustLineFlags trustor (Some asset) (fromXDRTrustlineFlag setFlags) (fromXDRTrustlineFlag clearFlags)).
Definition LiquidityPoolDeposit_FromXDR (pool : PoolId) (a : Z) (b : Z) (minPrice : Price) (maxPrice : Price) : parsed :=
  let! a := String_ a in
  let! b := String_ b in
  parsed_as (LiquidityPoolDeposit pool a b minPrice maxPrice).
Definition LiquidityPoolWithdraw_FromXDR (pool : PoolId) (amount : Z) (a : Z) (b : Z) : parsed :=
  let! amount := String_ amount in
  let! a := String_ a in
  let! b := String_ b in
  parsed_as (LiquidityPoolWithdraw pool amount a b).
Definition InvokeHostFunction_FromXDR (function : HostFunction) (auth : list SorobanAuthorizationEntry) : parsed :=
  parsed_as (InvokeHostFunction function auth None).
Definition ExtendFootprintTtl_FromXDR (extendTo : Z) : parsed :=
  parsed_as (ExtendFootprintTtl extendTo None).

Definition Body_FromXDR (body : XdrOperationBody) : parsed :=
  match body with
  | OperationTypeCreateAccount destination startingBalance => CreateAccount_FromXDR destination startingBalance
  | OperationTypePayment destination asset amount => Payment_FromXDR destination asset amount
  | OperationTypePathPaymentStrictReceive sendAsset sendMax destination destAsset destAmount path => PathPaymentStrictReceive_FromXDR sendAsset sendMax destination destAsset destAmount path
  | OperationTypePathPaymentStrictSend sendAsset sendAmount destination destAsset destMin path => PathPaymentStrictSend_FromXDR sendAsset sendAmount destination destAsset destMin path
  | OperationTypeManageSellOffer selling buying amount price offerId => ManageSellOffer_FromXDR selling buying amount price offerId
  | OperationTypeManageBuyOffer selling buying buyAmount price offerId => ManageBuyOffer_FromXDR selling buying buyAmount price offerId
  | OperationTypeCreatePassiveSellOffer selling buying amount price => CreatePassiveSellOffer_FromXDR selling buying amount price
  | OperationTypeSetOptions o => let! so := SetOptions_FromXDR o in parsed_as (SetOptions_ so)
  | OperationTypeChangeTrust line limit => ChangeTrust_FromXDR line limit
  | OperationTypeAllowTrust trustor code authorize => AllowTrust_FromXDR trustor code authorize
  | OperationTypeAccountMerge destination => AccountMerge_FromXDR destination
  | OperationTypeInflation => parsed_as Inflation
  | OperationTypeManageData name value => ManageData_FromXDR name value
  | OperationTypeBumpSequence bumpTo => BumpSequence_FromXDR bumpTo
  | OperationTypeBeginSponsoringFutureReserves k => BeginSponsoringFutureReserves_FromXDR k
  | OperationTypeEndSponsoringFutureReserves => parsed_as EndSponsoringFutureReserves
  | OperationTypeCreateClaimableBalance asset amount claimants => CreateClaimableBalance_FromXDR asset amount claimants
  | OperationTypeClaimClaimableBalance id => ClaimClaimableBalance_FromXDR id
  | OperationTypeRevokeSponsorship op =>
      try! r := RevokeSponsorship_FromXDR op in
      parsed_as (RevokeSponsorship r)
  | OperationTypeClawback asset from amount => Clawback_FromXDR asset from amount
  | OperationTypeClawbackClaimableBalance id => ClawbackClaimableBalance_FromXDR id
  | OperationTypeSetTrustLineFlags trustor asset clearFlags setFlags => SetTrustLineFlags_FromXDR trustor asset clearFlags setFlags
  | OperationTypeLiquidityPoolDeposit pool a b minPrice maxPrice => LiquidityPoolDeposit_FromXDR pool a b minPrice maxPrice
  | OperationTypeLiquidityPoolWithdraw pool amount a b => LiquidityPoolWithdraw_FromXDR pool amount a b
  | OperationTypeInvokeHostFunction function auth => InvokeHostFunction_FromXDR function auth
  | OperationTypeExtendFootprintTtl extendTo => ExtendFootprintTtl_FromXDR extendTo
  | OperationTypeRestoreFootprint => parsed_as (RestoreFootprint None)
  end.

Definition operationFromXDR (xdrOp : XdrOperation) : option (result txn_error TxOperation) :=
  try! body := Body_FromXDR (xop_Body xdrOp) in
  let! source := accountFromXDR (xop_SourceAccount xdrOp) in
  Some (Ok (mkTxOperation source body)).

(** ** Validation

    The checks of an operation's fields, in the order of the code. *)
Definition valid : checked := Some (Ok tt).
Definition check_field {E} (Field : String.string) (err : option E) : checked := Some (field Field err).
#[local] Arguments check_field {_} Field%_string_scope.
Definition check_account (Field : String.string) (address : bytes) : checked := check_field Field (error_of (Muxed_SetAddress address)).
#[local] Arguments check_account Field%_string_scope.
(** An error wrapped in a message. *)
Definition check_wrapped {E} (err : option E) (message : String.string) : checked :=
  match err with None => valid | Some _ => fail message end.
#[local] Arguments check_wrapped {_} err message%_string_scope.
Definition check_balance (Field : String.string) (balanceID : bytes) : checked :=
  match SafeUnmarshalHex balanceID with Some _ => valid | None => check_field Field (Some tt) end.
#[local] Arguments check_balance Field%_string_scope.

Fixpoint check_destinations (l : list TxClaimant) : checked :=
  match l with
  | [] => valid
  | d :: l =>
      try! _ := check_field "Destinations" (validateStellarPublicKey (cl_Destination d)) in
      check_destinations l
  end.

Definition PathPayment_Validate (dest : bytes) (sendAsset destAsset : option TxAsset)
    (sentField : String.string) (sent : bytes) (receivedField : String.string) (received : bytes) : checked :=
  try! _ := check_account "Destination" dest in
  try! _ := check_field "SendAsset" (validateStellarAsset sendAsset) in
  try! _ := check_field "DestAsset" (validateStellarAsset destAsset) in
  try! _ := check_field sentField (validateAmount sent) in
  check_field receivedField (validateAmount received).
#[local] Arguments PathPayment_Validate _ _ _ sentField%_string_scope _ receivedField%_string_scope.

Definition ChangeTrust_Validate (line : option TxChangeTrustAsset) (limit : bytes) : checked :=
  try! _ := if bool_decide (limit = []) then valid else check_field "Limit" (validateAmount limit) in
  let! err := validateChangeTrustAsset line in
  check_field "Line" err.

(** The code of an asset to trust, of an account. *)
Definition trustor_Validate (trustor : bytes) (Field : String.string) (asset : option TxAsset) : checked :=
  try! _ := check_field "Trustor" (validateStellarPublicKey trustor) in
  check_field Field (validateAssetCode asset).
#[local] Arguments trustor_Validate trustor Field%_string_scope.

Definition ManageData_Validate (name : bytes) (value : option bytes) : checked :=
  if 64 <? go_len name then check_field "Name" (Some tt)
  else if 64 <? go_len (default [] value) then check_field "Value" (Some tt)
  else valid.

Definition RevokeSponsorship_Validate (r : Sponsorship) : checked :=
  match r with
  | SponsoredAccount account =>
      try! account := required account "Account can't be nil" in
      Some (match validateStellarPublicKey account with None => Ok tt | Some e => Err e end)
  | SponsoredTrustLine trustLine =>
      try! (account, asset) := required trustLine "Trustline can't be nil" in
      try! _ := check_wrapped (validateStellarPublicKey account) "invalid Account address" in
      check_wrapped (validateStellarAsset_trust asset) "invalid TrustLine asset"
  | SponsoredOffer offer =>
      try! (seller, _) := required offer "Offer can't be nil" in
      check_wrapped (validateStellarPublicKey seller) "invalid Seller account address"
  | SponsoredData data =>
      try! (account, _) := required data "Data can't be nil" in
      check_wrapped (validateStellarPublicKey account) "invalid Account address"
  | SponsoredClaimableBalance balance =>
      try! balance := required balance "ClaimableBalance can't be nil" in
      check_wrapped (match SafeUnmarshalHex balance with Some _ => None | None => Some tt end) "cannot parse ClaimableBalance"
  | SponsoredSigner signer =>
      try! (account, signerAddress) := required signer "Signer can't be nil" in
      try! _ := check_wrapped (validateStellarPublicKey account) "invalid Account address" in
      let! err := validateStellarSignerKey signerAddress in
      check_wrapped err "invalid Signer account address"
  | SponsoredUnknown _ => fail "unknown SponsorshipType"
  end.

(** A source account is only checked by the operations of smart contracts. *)
Definition source_Validate (sourceAccount : bytes) : checked :=
  if bool_decide (sourceAccount = []) then valid else check_account "SourceAccount" sourceAccount.

Definition CreateAccount_Validate (destination : bytes) (amount : bytes) : checked :=
  try! _ := check_field "Destination" (validateStellarPublicKey destination) in
  check_field "Amount" (validateAmount amount).
Definition Payment_Validate (destination : bytes) (amount : bytes) (asset : option TxAsset) : checked :=
  try! _ := check_account "Destination" destination in
  try! _ := check_field "Asset" (validateStellarAsset asset) in
  check_field "Amount" (validateAmount amount).
Definition ManageSellOffer_Validate (selling : option TxAsset) (buying : option TxAsset) (amount : bytes) (price : Price) (id : Z) : checked :=
  Some (validateOffer buying selling amount price id).
Definition ManageBuyOffer_Validate (selling : option TxAsset) (buying : option TxAsset) (amount : bytes) (price : Price) (id : Z) : checked :=
  Some (validateOffer buying selling amount price id).
Definition CreatePassiveSellOffer_Validate (selling : option TxAsset) (buying : option TxAsset) (amount : bytes) (price : Price) : checked :=
  Some (validatePassiveOffer buying selling amount price).
Definition AllowTrust_Validate (trustor : bytes) (asset : option TxAsset) : checked :=
  trustor_Validate trustor "Type" asset.
Definition AccountMerge_Validate (destination : bytes) : checked :=
  check_account "Destination" destination.
Definition BumpSequence_Validate (bumpTo : Z) : checked :=
  check_field "BumpTo" (validateSequenceNumber bumpTo).
Definition BeginSponsoringFutureReserves_Validate (id : bytes) : checked :=
  check_field "SponsoredID" (validateStellarPublicKey id).
Definition CreateClaimableBalance_Validate (amount : bytes) (asset : option TxAsset) (destinations : list TxClaimant) : checked :=
  try! _ := check_destinations destinations in
  try! _ := check_field "Amount" (validateAmount amount) in
  check_field "Asset" (validateStellarAsset asset).
Definition ClaimClaimableBalance_Validate (id : bytes) : checked :=
  check_balance "BalanceID" id.
Definition Clawback_Validate (from : bytes) (amount : bytes) (asset : option TxAsset) : checked :=
  try! _ := check_account "From" from in
  try! _ := check_field "Amount" (validateAmount amount) in
  check_field "Asset" (validateAssetCode asset).
Definition ClawbackClaimableBalance_Validate (id : bytes) : checked :=
  check_balance "BalanceID" id.
Definition SetTrustLineFlags_Validate (trustor : bytes) (asset : option TxAsset) : checked :=
  trustor_Validate trustor "Asset" asset.
Definition LiquidityPoolDeposit_Validate (a : bytes) (b : bytes) (minPrice : Price) (maxPrice : Price) : checked :=
  try! _ := check_field "MaxAmountA" (validateAmount a) in
  try! _ := check_field "MaxAmountB" (validateAmount b) in
  try! _ := check_field "MinPrice" (validatePrice minPrice) in
  check_field "MaxPrice" (validatePrice maxPrice).
Definition LiquidityPoolWithdraw_Validate (amount : bytes) (a : bytes) (b : bytes) : checked :=
  try! _ := check_field "Amount" (validateAmount amount) in
  try! _ := check_field "MinAmountA" (validateAmount a) in
  check_field "MinAmountB" (validateAmount b).

Definition Validate (op : TxOperation) : checked :=
  match Op op with
  | CreateAccount destination amount => CreateAccount_Validate destination amount
  | Payment destination amount asset => Payment_Validate destination amount asset
  | PathPaymentStrictReceive sa sm d da n _ => PathPayment_Validate d sa da "SendMax" sm "DestAmount" n
  | PathPaymentStrictSend sa n d da dm _ => PathPayment_Validate d sa da "SendAmount" n "DestMin" dm
  | ManageSellOffer selling buying amount price id => ManageSellOffer_Validate selling buying amount price id
  | ManageBuyOffer selling buying amount price id => ManageBuyOffer_Validate selling buying amount price id
  | CreatePassiveSellOffer selling buying amount price => CreatePassiveSellOffer_Validate selling buying amount price
  | SetOptions_ _ => valid
  | ChangeTrust line limit => ChangeTrust_Validate line limit
  | AllowTrust trustor asset _ _ _ => AllowTrust_Validate trustor asset
  | AccountMerge destination => AccountMerge_Validate destination
  | Inflation => valid
  | ManageData name value => ManageData_Validate name value
  | BumpSequence bumpTo => BumpSequence_Validate bumpTo
  | BeginSponsoringFutureReserves id => BeginSponsoringFutureReserves_Validate id
  | EndSponsoringFutureReserves => valid
  | CreateClaimableBalance amount asset destinations => CreateClaimableBalance_Validate amount asset destinations
  | ClaimClaimableBalance id => ClaimClaimableBalance_Validate id
  | RevokeSponsorship r => RevokeSponsorship_Validate r
  | Clawback from amount asset => Clawback_Validate from amount asset
  | ClawbackClaimableBalance id => ClawbackClaimableBalance_Validate id
  | SetTrustLineFlags trustor asset _ _ => SetTrustLineFlags_Validate trustor asset
  | LiquidityPoolDeposit _ a b minPrice maxPrice => LiquidityPoolDeposit_Validate a b minPrice maxPrice
  | LiquidityPoolWithdraw _ amount a b => LiquidityPoolWithdraw_Validate amount a b
  | InvokeHostFunction _ _ _ | ExtendFootprintTtl _ _ | RestoreFootprint _ => source_Validate (GetSourceAccount op)
  end.

(** ** Extensions of smart contracts *)

(** What the operations of the interface [SorobanOperation] return; [None] for the
    others, which are not of it. *)
Definition BuildTransactionExt (op : TxOperation) : option (option SorobanData) :=
  match Op op with
  | InvokeHostFunction _ _ ext | ExtendFootprintTtl _ ext | RestoreFootprint ext => Some ext
  | _ => None
  end.

(** An operation after its [BuildXDR], which sets an empty limit. *)
Definition after_BuildXDR (op : TxOperation) : TxOperation :=
  match Op op with
  | ChangeTrust line limit => mkTxOperation (GetSourceAccount op) (ChangeTrust line (limit_or_max limit))
  | _ => op
  end.
End Operations.
#[global] Arguments required {_} a message%_string_scope.
#[global] Arguments rewrap {_} r message%_string_scope.

Lemma rewrap_Ok {A} (r : option (result txn_error A)) message a : rewrap r message = Some (Ok a) <-> r = Some (Ok a).
Proof. unfold rewrap, fail. destruct r as [[b|e]|]; split; congruence. Qed.

(** Takes the parsing of an operation apart. *)
Ltac parse_unfold := unfold CreateAccount_FromXDR, Payment_FromXDR, PathPaymentStrictReceive_FromXDR, PathPaymentStrictSend_FromXDR, ManageSellOffer_FromXDR, ManageBuyOffer_FromXDR, CreatePassiveSellOffer_FromXDR, ChangeTrust_FromXDR, AllowTrust_FromXDR, AccountMerge_FromXDR, ManageData_FromXDR, BumpSequence_FromXDR, BeginSponsoringFutureReserves_FromXDR, CreateClaimableBalance_FromXDR, ClaimClaimableBalance_FromXDR, Clawback_FromXDR, ClawbackClaimableBalance_FromXDR, SetTrustLineFlags_FromXDR, LiquidityPoolDeposit_FromXDR, LiquidityPoolWithdraw_FromXDR, InvokeHostFunction_FromXDR, ExtendFootprintTtl_FromXDR, parsed_as in *.
