(* ===== verification/TxnTransaction.v ===== *)
(** * Transactions

    src/txnbuild/memo.go, timebounds.go, ledgerbounds.go, preconditions.go,
    simple_account.go and transaction.go up to its web authentication ([Challenge]).
    A transaction is a value, of which methods make changed copies, as in the code. An
    account that is passed to a constructor is a [SimpleAccount]. An error message that
    the code prints with the Go type of an operation is kept without it. *)
From Stdlib Require Import ZArith Lia.
From stdpp Require Import base list vector option.
From S2P Require Import Prelude GoStd GoExt Price Encodings Strkey Sha256 Asset LedgerEntries CloseMeta Accounts Envelopes TokenDeltas Keypair TxnXdr.
From S2P Require Import TxnAssets TxnOperations.
#[local] Open Scope Z_scope.
#[local] Open Scope go_scope.

(** ** Memos *)
Inductive TxMemo : Type :=
| TxMemoText (mt : bytes)
| TxMemoID (mid : Z)
| TxMemoHash (mh : Hash)
| TxMemoReturn (mr : Hash).
#[export] Instance TxMemo_eq_dec : EqDecision TxMemo.
Proof. solve_decision. Defined.
Definition MemoTextMaxLength : Z := 28.

Definition TxMemo_ToXDR (m : TxMemo) : result txn_error Memo_ :=
  match m with
  | TxMemoText mt =>
      if MemoTextMaxLength <? go_len mt then Err (Failed (str "Memo text can't be longer than 28 bytes"))
      else Ok (MemoTypeMemoText mt)
  | TxMemoID mid => Ok (MemoTypeMemoId mid)
  | TxMemoHash mh => Ok (MemoTypeMemoHash mh)
  | TxMemoReturn mr => Ok (MemoTypeMemoReturn mr)
  end.

(** A transaction without a memo has nil. *)
Definition memoFromXDR (memo : Memo_) : result txn_error (option TxMemo) :=
  match memo with
  | MemoTypeMemoText value => Ok (Some (TxMemoText value))
  | MemoTypeMemoId value => Ok (Some (TxMemoID value))
  | MemoTypeMemoHash value => Ok (Some (TxMemoHash value))
  | MemoTypeMemoReturn value => Ok (Some (TxMemoReturn value))
  | MemoTypeMemoNone => Ok None
  | MemoTypeUnknown _ => Err (Failed (str "invalid memo"))
  end.

(** ** Bounds *)
Definition TimeoutInfinite : Z := 0.
Record TxTimeBounds : Type := mkTxTimeBounds { tb_MinTime : Z; tb_MaxTime : Z; wasBuilt : bool }.

Definition TimeBounds_Validate (tb : TxTimeBounds) : option txn_error :=
  if negb (wasBuilt tb) then
    some_error "timebounds must be constructed using NewTimebounds(), NewTimeout(), or NewInfiniteTimeout()"
  else if tb_MinTime tb <? 0 then some_error "invalid timebound: minTime cannot be negative"
  else if tb_MaxTime tb <? 0 then some_error "invalid timebound: maxTime cannot be negative"
  else if negb (tb_MaxTime tb =? TimeoutInfinite) && (tb_MaxTime tb <? tb_MinTime tb) then
    some_error "invalid timebound: maxTime < minTime"
  else None.
Definition NewTimebounds (minTime maxTime : Z) : TxTimeBounds := mkTxTimeBounds minTime maxTime true.
(** [now] is the time of the call in seconds. *)
Definition NewTimeout (now timeout : Z) : TxTimeBounds := mkTxTimeBounds 0 (i64 (now + timeout)) true.
Definition NewInfiniteTimeout : TxTimeBounds := mkTxTimeBounds 0 TimeoutInfinite true.

Definition LedgerBounds_Validate (lb : option LedgerBounds_) : option txn_error :=
  match lb with
  | None => None
  | Some lb =>
      if (0 <? MaxLedger lb) && (MaxLedger lb <? MinLedger lb) then some_error "invalid ledgerbound: max ledger < min ledger"
      else None
  end.

(** ** Preconditions *)
Record TxPreconditions : Type := mkTxPreconditions {
  TimeBounds : TxTimeBounds;
  LedgerBounds : option LedgerBounds_;
  MinSequenceNumber : option Z;
  MinSequenceNumberAge : Z;
  MinSequenceNumberLedgerGap : Z;
  ExtraSigners : list bytes
}.
Definition zero_preconditions : TxPreconditions := mkTxPreconditions (mkTxTimeBounds 0 0 false) None None 0 0 [].
Definition only_time (t : TxTimeBounds) : TxPreconditions := mkTxPreconditions t None None 0 0 [].

Definition Preconditions_Validate (cond : TxPreconditions) : option txn_error :=
  match TimeBounds_Validate (TimeBounds cond) with
  | Some e => Some e
  | None =>
      match LedgerBounds_Validate (LedgerBounds cond) with
      | Some e => Some e
      | None => if 2 <? go_len (ExtraSigners cond) then some_error "only 2 extra signers allowed" else None
      end
  end.

Definition hasV2Conditions (cond : TxPreconditions) : bool :=
  bool_decide (is_Some (LedgerBounds cond)) || bool_decide (is_Some (MinSequenceNumber cond)) ||
  (0 <? MinSequenceNumberAge cond) || (0 <? MinSequenceNumberLedgerGap cond) || (0 <? go_len (ExtraSigners cond)).

Fixpoint signers_ToXDR (l : list bytes) : option (result txn_error (list SignerKey)) :=
  match l with
  | [] => Some (Ok [])
  | signer :: l =>
      let! key := SignerKey_SetAddress signer in
      try! key := wrapped key "invalid signer" in
      try! rest := signers_ToXDR l in
      Some (Ok (key :: rest))
  end.
Definition bounds_ToXDR (lb : option LedgerBounds_) : option LedgerBounds_ :=
  match lb with
  | Some lb => if (MinLedger lb =? 0) && (MaxLedger lb =? 0) then None else Some lb
  | None => None
  end.
Definition Preconditions_BuildXDR (cond : TxPreconditions) : option (result txn_error XdrPreconditions) :=
  let xdrTimeBounds := mkTimeBounds (u64 (tb_MinTime (TimeBounds cond))) (u64 (tb_MaxTime (TimeBounds cond))) in
  if hasV2Conditions cond then
    try! signers := signers_ToXDR (ExtraSigners cond) in
    Some (Ok (PrecondV2 (mkXdrPreconditionsV2 (Some xdrTimeBounds) (bounds_ToXDR (LedgerBounds cond)) (MinSequenceNumber cond)
      (MinSequenceNumberAge cond) (MinSequenceNumberLedgerGap cond) signers)))
  else Some (Ok (PrecondTime xdrTimeBounds)).

(** The addresses up to the first that has none, with the error. *)
Fixpoint signers_FromXDR (l : list SignerKey) : list bytes * option strkey_error :=
  match l with
  | [] => ([], None)
  | k :: l =>
      match SignerKey_GetAddress k with
      | Err e => (replicate (S (length l)) [], Some e)
      | Ok signer => let '(rest, e) := signers_FromXDR l in (signer :: rest, e)
      end
  end.
Definition TimeBounds_FromXDR (t : option TimeBounds_) : TxTimeBounds :=
  match t with
  | None => mkTxTimeBounds 0 0 false
  | Some t => NewTimebounds (i64 (MinTime t)) (i64 (MaxTime t))
  end.
(** The preconditions that are left in the receiver, and the error. *)
Definition Preconditions_FromXDR (precondXdr : XdrPreconditions) : TxPreconditions * option strkey_error :=
  match precondXdr with
  | PrecondNone => (zero_preconditions, None)
  | PrecondTime t => (only_time (TimeBounds_FromXDR (Some t)), None)
  | PrecondV2 inner =>
      let '(signers, e) := signers_FromXDR (xpc_ExtraSigners inner) in
      (mkTxPreconditions (TimeBounds_FromXDR (xpc_TimeBounds inner)) (xpc_LedgerBounds inner) (xpc_MinSeqNum inner)
        (xpc_MinSeqAge inner) (xpc_MinSeqLedgerGap inner) signers, e)
  end.

(** ** Accounts *)
Record SimpleAccount : Type := mkSimpleAccount { AccountID : bytes; Sequence : Z }.
Definition IncrementSequenceNumber (sa : SimpleAccount) : SimpleAccount := mkSimpleAccount (AccountID sa) (i64 (Sequence sa + 1)).

(** ** Transactions *)
Section Transactions.
Context {ED : Ed25519} {ET : EntryTypes} {ST : SorobanTypes} {TC : TransactionCodec}.

Record Tx : Type := mkTransaction {
  envelope : XdrEnvelope;
  baseFee : Z;
  maxFee : Z;
  sourceAccount : SimpleAccount;
  operations : list TxOperation;
  memo : option TxMemo;
  preconditions : TxPreconditions
}.
Record FeeBumpTx : Type := mkFeeBump {
  fb_envelope : XdrEnvelope;
  fb_baseFee : Z;
  fb_maxFee : Z;
  feeAccount : bytes;
  fb_inner : Tx
}.
Record GenericTx : Type := mkGeneric { simple : option Tx; feeBump : option FeeBumpTx }.

Definition Signatures (t : Tx) : option (list DecoratedSignature) := env_Signatures (envelope t).
Definition FeeBump_Signatures (t : FeeBumpTx) : option (list DecoratedSignature) := env_FeeBumpSignatures (fb_envelope t).

(** *** Signatures *)
Definition concatSignatures (e : XdrEnvelope) (network : bytes) (signatures : list DecoratedSignature) (kps : list Full) :
    option (result txn_error (list DecoratedSignature)) :=
  try! h := wrapped (network_HashTransactionInEnvelope e network) "failed to hash transaction" in
  Some (Ok (signatures ++ map (fun kp => SignDecorated kp (vec_to_list h)) kps)).

Definition concatSignatureBase64 (e : XdrEnvelope) (signatures : list DecoratedSignature) (network publicKey signature : bytes) :
    option (result txn_error (list DecoratedSignature)) :=
  if bool_decide (signature = []) then fail "signature not presented"
  else
    try! kp := wrapped (ParseAddress publicKey) "failed to parse the public key" in
    try! sigBytes := match StdEncoding_DecodeString signature with
                     | Some b => Some (Ok b)
                     | None => fail "failed to base64-decode the signature"
                     end in
    try! h := wrapped (network_HashTransactionInEnvelope e network) "failed to hash transaction" in
    match FromAddress_Verify kp (vec_to_list h) sigBytes with
    | Some _ => fail "failed to verify the signature"
    | None => Some (Ok (signatures ++ [mkDecorated (FromAddress_Hint kp) sigBytes]))
    end.

Fixpoint stringsToKP (keys : list bytes) : option (result txn_error (list Full)) :=
  match keys with
  | [] => Some (Ok [])
  | k :: keys =>
      try! kp := wrapped (keypair_Parse k) "provided string is not a valid Stellar key" in
      match kp with
      | KP_FromAddress _ => fail "provided string %s is not a valid Stellar secret key"
      | KP_Full kpf =>
          try! rest := stringsToKP keys in
          Some (Ok (kpf :: rest))
      end
  end.

Definition signature_max_size : Z := 64.
Definition concatHashX (signatures : list DecoratedSignature) (preimage : bytes) : result txn_error (list DecoratedSignature) :=
  if signature_max_size <? go_len preimage then Err (Failed (str "preimage cannot be more than 64 bytes"))
  else Ok (signatures ++ [mkDecorated (drop 28 (Sum256 preimage)) preimage]).

(** The envelope of a clone: an envelope of a fee bump is none of a transaction. *)
Definition with_signatures (e : XdrEnvelope) (sigs : list DecoratedSignature) : option XdrEnvelope :=
  match e with
  | XdrEnvelopeTx v1 => Some (XdrEnvelopeTx (mkV1Envelope (v1_Tx v1) sigs))
  | XdrEnvelopeTxV0 tx _ => Some (XdrEnvelopeTxV0 tx sigs)
  | XdrEnvelopeTxFeeBump _ _ _ _ => None
  end.
Definition clone (t : Tx) (sigs : list DecoratedSignature) : option (result txn_error Tx) :=
  let! e := with_signatures (envelope t) sigs in
  Some (Ok (mkTransaction e (baseFee t) (maxFee t) (sourceAccount t) (operations t) (memo t) (preconditions t))).

Definition Tx_Sign (t : Tx) (network : bytes) (kps : list Full) : option (result txn_error Tx) :=
  let! sigs := Signatures t in
  try! extendedSignatures := concatSignatures (envelope t) network sigs kps in
  clone t extendedSignatures.
Definition SignWithKeyString (t : Tx) (network : bytes) (keys : list bytes) : option (result txn_error Tx) :=
  try! kps := stringsToKP keys in
  Tx_Sign t network kps.
Definition SignHashX (t : Tx) (preimage : bytes) : option (result txn_error Tx) :=
  let! sigs := Signatures t in
  match concatHashX sigs preimage with Err e => Some (Err e) | Ok extendedSignatures => clone t extendedSignatures end.
Definition ClearSignatures (t : Tx) : option (result txn_error Tx) := clone t [].
Definition AddSignatureDecorated (t : Tx) (signature : list DecoratedSignature) : option (result txn_error Tx) :=
  let! sigs := Signatures t in
  clone t (sigs ++ signature).
Definition AddSignatureBase64 (t : Tx) (network publicKey signature : bytes) : option (result txn_error Tx) :=
  let! sigs := Signatures t in
  try! extendedSignatures := concatSignatureBase64 (envelope t) sigs network publicKey signature in
  clone t extendedSignatures.

(** The same for fee bumps. *)
Definition FeeBump_clone (t : FeeBumpTx) (sigs : list DecoratedSignature) : option (result txn_error FeeBumpTx) :=
  match fb_envelope t with
  | XdrEnvelopeTxFeeBump source fee inner _ =>
      Some (Ok (mkFeeBump (XdrEnvelopeTxFeeBump source fee inner sigs) (fb_baseFee t) (fb_maxFee t) (feeAccount t) (fb_inner t)))
  | _ => None
  end.
Definition FeeBump_Sign (t : FeeBumpTx) (network : bytes) (kps : list Full) : option (result txn_error FeeBumpTx) :=
  let! sigs := FeeBump_Signatures t in
  try! extendedSignatures := concatSignatures (fb_envelope t) network sigs kps in
  FeeBump_clone t extendedSignatures.
Definition FeeBump_SignWithKeyString (t : FeeBumpTx) (network : bytes) (keys : list bytes) : option (result txn_error FeeBumpTx) :=
  try! kps := stringsToKP keys in
  FeeBump_Sign t network kps.
Definition FeeBump_SignHashX (t : FeeBumpTx) (preimage : bytes) : option (result txn_error FeeBumpTx) :=
  let! sigs := FeeBump_Signatures t in
  match concatHashX sigs preimage with Err e => Some (Err e) | Ok extendedSignatures => FeeBump_clone t extendedSignatures end.
Definition FeeBump_ClearSignatures (t : FeeBumpTx) : option (result txn_error FeeBumpTx) := FeeBump_clone t [].
Definition FeeBump_AddSignatureDecorated (t : FeeBumpTx) (signature : list DecoratedSignature) : option (result txn_error FeeBumpTx) :=
  let! sigs := FeeBump_Signatures t in
  FeeBump_clone t (sigs ++ signature).
Definition FeeBump_AddSignatureBase64 (t : FeeBumpTx) (network publicKey signature : bytes) : option (result txn_error FeeBumpTx) :=
  let! sigs := FeeBump_Signatures t in
  try! extendedSignatures := concatSignatureBase64 (fb_envelope t) sigs network publicKey signature in
  FeeBump_clone t extendedSignatures.

(** *** Hashes and texts *)
Definition Tx_Hash (t : Tx) (network : bytes) : result network_error Hash := network_HashTransactionInEnvelope (envelope t) network.
Definition FeeBump_Hash (t : FeeBumpTx) (network : bytes) : result network_error Hash :=
  network_HashTransactionInEnvelope (fb_envelope t) network.
Definition hashHex (e : XdrEnvelope) (network : bytes) : result network_error bytes :=
  match network_HashTransactionInEnvelope e network with
  | Ok h => Ok (hex_EncodeToString (vec_to_list h))
  | Err e => Err e
  end.
Definition HashHex (t : Tx) (network : bytes) : result network_error bytes := hashHex (envelope t) network.
Definition FeeBump_HashHex (t : FeeBumpTx) (network : bytes) : result network_error bytes := hashHex (fb_envelope t) network.

(** The signatures that are set are those of the envelope. *)
Definition marshallBase64 (e : XdrEnvelope) : option (result txn_error bytes) :=
  match Envelope_MarshalBinary e with
  | None => fail "failed to get XDR bytestring"
  | Some binary => Some (Ok (StdEncoding_EncodeToString binary))
  end.
Definition Base64 (t : Tx) : option (result txn_error bytes) := marshallBase64 (envelope t).
Definition FeeBump_Base64 (t : FeeBumpTx) : option (result txn_error bytes) := marshallBase64 (fb_envelope t).
Definition Generic_ToXDR (t : GenericTx) : result txn_error XdrEnvelope :=
  match simple t, feeBump t with
  | Some tx, _ => Ok (envelope tx)
  | None, Some fbtx => Ok (fb_envelope fbtx)
  | None, None => Err (Failed (str "unable to get xdr of empty GenericTransaction"))
  end.

(** ** Parsing *)

(** The extension is only given to the calls of contracts. *)
Definition with_ext (ext : option SorobanData) (op : TxOperation) : TxOperation :=
  match ext, Op op with
  | Some d, InvokeHostFunction f auth _ => mkTxOperation (GetSourceAccount op) (InvokeHostFunction f auth (Some d))
  | _, _ => op
  end.
Definition env_Ext (e : XdrEnvelope) : option SorobanData :=
  match e with XdrEnvelopeTx v1 => xtx_Ext (v1_Tx v1) | _ => None end.
Fixpoint operations_FromXDR (ext : option SorobanData) (l : list XdrOperation) : option (result txn_error (list TxOperation)) :=
  match l with
  | [] => Some (Ok [])
  | op :: l =>
      try! newOp := operationFromXDR op in
      try! rest := operations_FromXDR ext l in
      Some (Ok (with_ext ext newOp :: rest))
  end.

(** A transaction that is no fee bump. The error of the preconditions is dropped. *)
Definition simpleFromParsedXDR (xdrEnv : XdrEnvelope) : option (result txn_error Tx) :=
  let! source := env_SourceAccount xdrEnv in
  let! accountID := Muxed_Address source in
  let! totalFee := env_Fee xdrEnv in
  let! ops := env_Operations xdrEnv in
  let! seqNum := env_SeqNum xdrEnv in
  let! cond := env_Preconditions xdrEnv in
  let! xdrMemo := env_Memo xdrEnv in
  let count := go_len ops in
  try! memo := wrapped (memoFromXDR xdrMemo) "unable to parse memo" in
  try! operations := operations_FromXDR (env_Ext xdrEnv) ops in
  Some (Ok (mkTransaction xdrEnv (if 0 <? count then Z.quot totalFee count else totalFee) totalFee
    (mkSimpleAccount accountID seqNum) operations memo (Preconditions_FromXDR cond).1)).

Definition transactionFromParsedXDR (xdrEnv : XdrEnvelope) : option (result txn_error GenericTx) :=
  match xdrEnv with
  | XdrEnvelopeTxFeeBump feeSource fee inner _ =>
      let! v1 := inner in
      try! innerTx := rewrap (simpleFromParsedXDR (XdrEnvelopeTx v1)) "could not parse inner transaction" in
      let! feeAccount := Muxed_Address feeSource in
      Some (Ok (mkGeneric None (Some (mkFeeBump xdrEnv (Z.quot fee (go_len (operations innerTx) + 1)) fee feeAccount innerTx))))
  | _ =>
      try! tx := simpleFromParsedXDR xdrEnv in
      Some (Ok (mkGeneric (Some tx) None))
  end.
Definition TransactionFromXDR (txeB64 : bytes) : option (result txn_error GenericTx) :=
  match SafeUnmarshalBase64 txeB64 with
  | None => fail "unable to unmarshal transaction envelope"
  | Some xdrEnv => transactionFromParsedXDR xdrEnv
  end.
Definition UnmarshalText (b : bytes) : option (result txn_error Tx) :=
  try! gtx := TransactionFromXDR b in
  match simple gtx with
  | None => fail "transaction envelope unmarshaled into FeeBumpTransaction is not a fee bump transaction"
  | Some tx => Some (Ok tx)
  end.
Definition FeeBump_UnmarshalText (b : bytes) : option (result txn_error FeeBumpTx) :=
  try! gtx := TransactionFromXDR b in
  match feeBump gtx with
  | None => fail "transaction envelope unmarshaled into Transaction is not a transaction"
  | Some tx => Some (Ok tx)
  end.

(** ** Construction *)
Record TransactionParams : Type := mkParams {
  par_SourceAccount : option SimpleAccount;
  IncrementSequenceNum : bool;
  Operations : list TxOperation;
  par_BaseFee : Z;
  par_Memo : option TxMemo;
  par_Preconditions : TxPreconditions
}.

(** The account of the caller, whose sequence number the constructor may increment. *)
Definition account_after (params : TransactionParams) : option SimpleAccount :=
  if IncrementSequenceNum params then option_map IncrementSequenceNumber (par_SourceAccount params) else par_SourceAccount params.

Fixpoint operations_BuildXDR (l : list TxOperation) : option (result txn_error (list XdrOperation)) :=
  match l with
  | [] => Some (Ok [])
  | op :: l =>
      try! _ := rewrap (Validate op) "validation failed for operation" in
      try! xdrOperation := rewrap (BuildXDR op) "failed to build operation" in
      try! rest := operations_BuildXDR l in
      Some (Ok (xdrOperation :: rest))
  end.
(** The extension of the last operation that has one. *)
Definition sorobanOp (l : list TxOperation) : option (option SorobanData) :=
  fold_left (fun found op => match BuildTransactionExt op with Some ext => Some ext | None => found end) l None.
Definition sorobanFee (ext : option SorobanData) : Z := match ext with Some d => u64 (ResourceFee d) | None => 0 end.

(** [bits.Mul64] of the fee and the number of operations, and the resource fee, under a
    limit. *)
Definition total_fee (limit fee count soroban : Z) : result txn_error Z :=
  let product := u64 fee * count in
  let hi := product / 18446744073709551616 in
  let lo := u64 product in
  if (0 <? hi) || (limit <? lo) then Err (Failed (str "base fee results in an overflow of max fee"))
  else
    let totalFee := u64 (lo + soroban) in
    if (totalFee <? lo) || (limit <? totalFee) then Err (Failed (str "soroban fee results in an overflow of max fee"))
    else Ok totalFee.

Definition NewTransaction (params : TransactionParams) : option (result txn_error Tx) :=
  try! _ := required (par_SourceAccount params) "transaction has no source account" in
  let! sa := account_after params in
  try! source := wrapped (Muxed_SetAddress (AccountID sa)) "account id is not valid" in
  if par_BaseFee params <? 0 then fail "base fee cannot be negative"
  else if bool_decide (Operations params = []) then fail "transaction has no operations"
  else if bool_decide (is_Some (Preconditions_Validate (par_Preconditions params))) then fail "invalid preconditions"
  else
    try! precondXdr := rewrap (Preconditions_BuildXDR (par_Preconditions params)) "invalid preconditions" in
    try! xdrMemo := match par_Memo params with
                    | None => Some (Ok MemoTypeMemoNone)
                    | Some m => wrapped (TxMemo_ToXDR m) "couldn't build memo XDR"
                    end in
    try! ops := operations_BuildXDR (Operations params) in
    let ext := default None (sorobanOp (Operations params)) in
    try! totalFee := Some (total_fee MaxUint32 (par_BaseFee params) (go_len (Operations params)) (sorobanFee ext)) in
    Some (Ok (mkTransaction
      (XdrEnvelopeTx (mkV1Envelope (mkXdrTransaction source totalFee (Sequence sa) precondXdr xdrMemo ops ext) []))
      (par_BaseFee params) totalFee sa (map after_BuildXDR (Operations params)) (par_Memo params) (par_Preconditions params))).

(** ** Fee bumps *)
Record FeeBumpParams : Type := mkFeeBumpParams { par_Inner : option Tx; par_FeeAccount : bytes; par_FeeBumpBaseFee : Z }.

(** The transaction is built again, of its fields; the fee is a multiple of the number of
    its operations then. *)
Definition convertToV1 (tx : Tx) : option (result txn_error Tx) :=
  let! signatures := Signatures tx in
  try! tx := NewTransaction (mkParams (Some (sourceAccount tx)) false (operations tx) (baseFee tx) (memo tx)
                               (only_time (TimeBounds (preconditions tx)))) in
  clone tx signatures.

Definition MinBaseFee : Z := 100.
Definition inner_V1 (e : XdrEnvelope) : option XdrTransactionV1Envelope := match e with XdrEnvelopeTx v1 => Some v1 | _ => None end.

(** The envelope that is wrapped is that of the parameter, also when the inner
    transaction was converted. *)
Definition NewFeeBumpTransaction (params : FeeBumpParams) : option (result txn_error FeeBumpTx) :=
  try! inner := required (par_Inner params) "inner transaction is missing" in
  let innerEnv := envelope inner in
  try! inner := match innerEnv with
                | XdrEnvelopeTxFeeBump _ _ _ _ => fail "transactions cannot be fee bumped"
                | XdrEnvelopeTxV0 _ _ => rewrap (convertToV1 inner) "could not upgrade transaction from v0 to v1"
                | XdrEnvelopeTx _ => Some (Ok inner)
                end in
  let fee := par_FeeBumpBaseFee params in
  if fee <? baseFee inner then fail "base fee cannot be lower than provided inner transaction fee"
  else if fee <? MinBaseFee then fail "base fee cannot be lower than network minimum of 100"
  else
    try! totalFee := Some (total_fee MaxInt64 fee (go_len (operations inner) + 1) (sorobanFee (env_Ext (envelope inner)))) in
    try! feeSource := wrapped (Muxed_SetAddress (par_FeeAccount params)) "fee account is not a valid address" in
    Some (Ok (mkFeeBump (XdrEnvelopeTxFeeBump feeSource totalFee (inner_V1 innerEnv) [])
      fee totalFee (par_FeeAccount params) inner)).

(** ** Claimable balances that a transaction creates *)
Definition OperationId_EncodeTo (source : AccountId) (seqNum opNum : Z) : bytes :=
  be_put 4 6 ++ AccountId_EncodeTo source ++ be_put 8 seqNum ++ be_put 4 opNum.
Definition ClaimableBalanceID (t : Tx) (operationIndex : Z) : option (result txn_error bytes) :=
  if (operationIndex <? 0) || (go_len (operations t) <=? operationIndex) then fail "invalid operation index"
  else
    match operations t !! Z.to_nat operationIndex with
    | Some (mkTxOperation _ (CreateClaimableBalance _ _ _)) =>
        let! source := MustMuxedAddress (AccountID (sourceAccount t)) in
        let preimage := OperationId_EncodeTo (ToAccountId source) (Sequence (sourceAccount t)) operationIndex in
        Some (Ok (MarshalHex (Sum256_array preimage)))
    | _ => fail "operation is not CreateClaimableBalance"
    end.

(** ** What constructors return *)
Definition memo_ToXDR (m : option TxMemo) : result txn_error Memo_ :=
  match m with None => Ok MemoTypeMemoNone | Some m => TxMemo_ToXDR m end.

Lemma NewTransaction_Ok params tx : NewTransaction params = Some (Ok tx) ->
  exists sa source cond m ops fee, account_after params = Some sa /\ Muxed_SetAddress (AccountID sa) = Ok source /\
    0 <= par_BaseFee params /\ Operations params <> [] /\ Preconditions_Validate (par_Preconditions params) = None /\
    Preconditions_BuildXDR (par_Preconditions params) = Some (Ok cond) /\ memo_ToXDR (par_Memo params) = Ok m /\
    operations_BuildXDR (Operations params) = Some (Ok ops) /\
    let ext := default None (sorobanOp (Operations params)) in
    total_fee MaxUint32 (par_BaseFee params) (go_len (Operations params)) (sorobanFee ext) = Ok fee /\
    tx = mkTransaction (XdrEnvelopeTx (mkV1Envelope (mkXdrTransaction source fee (Sequence sa) cond m ops ext) []))
      (par_BaseFee params) fee sa (map after_BuildXDR (Operations params)) (par_Memo params) (par_Preconditions params).
Proof.
  unfold NewTransaction. intros H. run_ok H. injection H as <-. injection E8 as E8. apply Z.ltb_ge in E2.
  apply bool_decide_eq_false_1 in E3, E4. exists s, x0, x1, x2, x3, x4. repeat (split; [done|]).
  split; [by destruct (Preconditions_Validate _); [destruct E4; eexists|]|].
  split; [by destruct (Preconditions_BuildXDR _) as [[]|]|]. split; [|done].
  unfold memo_ToXDR. destruct (par_Memo params); [by apply wrapped_Ok in E6|by injection E6 as <-].
Qed.

Lemma Tx_Sign_Ok t v1 network kps t' : envelope t = XdrEnvelopeTx v1 -> Tx_Sign t network kps = Some (Ok t') ->
  exists h, HashTransaction (v1_Tx v1) network = Ok h /\ sourceAccount t' = sourceAccount t /\
    envelope t' = XdrEnvelopeTx (mkV1Envelope (v1_Tx v1) (v1_Signatures v1 ++ map (fun kp => SignDecorated kp (vec_to_list h)) kps)).
Proof.
  intros He H. unfold Tx_Sign, Signatures, concatSignatures, clone in H. rewrite He in H. cbn [env_Signatures] in H.
  run_ok H. injection H as <-. run_ok E. injection E as <-. cbn in E0. injection E0 as <-. by exists x1.
Qed.

Lemma simpleFromParsedXDR_Ok e tx : simpleFromParsedXDR e = Some (Ok tx) ->
  exists source cond m ops, env_SourceAccount e = Some source /\ env_SeqNum e = Some (Sequence (sourceAccount tx)) /\
    env_Preconditions e = Some cond /\ env_Memo e = Some m /\ env_Operations e = Some ops /\
    envelope tx = e /\ AccountID (sourceAccount tx) = muxed_address source /\ preconditions tx = (Preconditions_FromXDR cond).1 /\
    memoFromXDR m = Ok (memo tx) /\ operations_FromXDR (env_Ext e) ops = Some (Ok (operations tx)).
Proof.
  unfold simpleFromParsedXDR. intros H. run_ok H. injection H as <-. rewrite Muxed_Address_Some in E0. injection E0 as <-.
  by exists m, x, m0, l0.
Qed.

Lemma transactionFromParsedXDR_simple e g tx : transactionFromParsedXDR e = Some (Ok g) -> simple g = Some tx ->
  env_IsFeeBump e = false /\ simpleFromParsedXDR e = Some (Ok tx).
Proof.
  unfold transactionFromParsedXDR. intros H Hs. destruct e; run_ok H; injection H as <-; try done;
    cbn in Hs; injection Hs as <-; done.
Qed.
End Transactions.
