(* ===== verification/TxnSpec.v ===== *)
(** * Operations read back

    An operation in its XDR form is parsed, and built again to the same form, when its
    fields are of the values that the types of the package hold. *)
From Stdlib Require Import ZArith Lia.
From stdpp Require Import base list list_relations vector option.
From S2P Require Import Prelude GoStd GoExt Price Encodings Strkey Amount Asset LedgerEntries CloseMeta Accounts Envelopes TokenDeltas Keypair TxnXdr.
From S2P Require Import TxnAssets TxnOperations TxnTransaction.
#[local] Open Scope Z_scope.
#[local] Open Scope go_scope.

(** ** Codes and assets *)

(** Codes with no zero byte at either end. *)
Definition plain_code (code : bytes) : Prop := list.head code <> Some zero_byte /\ list.last code <> Some zero_byte.

(** The assets that such a code names. *)
Definition asset_ok (a : Asset) : Prop :=
  a = Native \/ exists code issuer, SetCredit code issuer = Ok a /\ plain_code code.
Definition code_ok (c : AssetCode) : Prop := exists code, ToAssetCode code = Ok c /\ plain_code code.

Lemma trim_code_padded code n : plain_code code -> trim_code (code ++ replicate n zero_byte) = code.
Proof.
  intros [Hh Hl]. unfold trim_code. rewrite trimRightZeros_app_zeros by done. destruct code as [|c code]; [done|].
  cbn. rewrite bool_decide_eq_false_2; [done|]. by intros ->.
Qed.

Lemma asset_roundtrip a : asset_ok a -> exists t, assetFromXDR a = Some t /\ TxAsset_ToXDR t = Ok a /\ TxAsset_IsNative t = IsNative a.
Proof.
  intros [->|(code & issuer & Hs & Hp)]; [by exists NativeAsset|]. exists (CreditAsset code (account_address issuer)).
  cbn [TxAsset_ToXDR]. rewrite account_SetAddress, Hs.
  apply SetCredit_Ok in Hs as [[Hl ->]|[Hl ->]]; cbn; rewrite account_Address, length_copy_code, trim_code_padded by (done || lia); done.
Qed.

Lemma code_roundtrip c : code_ok c -> exists t, assetCodeToCreditAsset c = t /\ TxAsset_IsNative t = false /\ ToAssetCode (TxAsset_GetCode t) = Ok c.
Proof.
  intros (code & Hs & Hp). exists (CreditAsset code []). cbn [TxAsset_GetCode TxAsset_IsNative]. rewrite Hs. split; [|done].
  revert Hs. unfold ToAssetCode, go_len. repeat case_bool; intros [= <-]; cbn;
    rewrite length_copy_code, trim_code_padded by (done || lia); done.
Qed.

(** ** Identifiers in hexadecimal, amounts *)
Lemma id_roundtrip id : SafeUnmarshalHex (MarshalHex id) = Some id.
Proof.
  unfold SafeUnmarshalHex, MarshalHex. assert (H : length (hex_EncodeToString (ClaimableBalanceId_EncodeTo id)) = 72%nat).
  { rewrite length_hex_Encode. unfold ClaimableBalanceId_EncodeTo. rewrite length_app, length_vec_to_list. by rewrite length_be_put. }
  unfold go_len. rewrite H, take_ge by lia. cbn [Z.of_nat orb].
  change ((Z.of_nat 72 <? 72) || (1024 <? Z.of_nat 72)) with false. cbv iota. rewrite hex_Decode_Encode.
  unfold ClaimableBalanceId_EncodeTo. change 4%nat with (length (be_put 4 0)). rewrite take_app_length, drop_app_length.
  rewrite bool_decide_eq_true_2 by done. by rewrite copy_array_vec.
Qed.

Lemma amount_roundtrip v : is_i64 v -> Amount.Parse (amount_text v) = Ok v.
Proof. intros H. unfold Amount.Parse. by rewrite ParseInt64_amount_text. Qed.
Lemma amount_String v : String_ v = Some (amount_text v).
Proof. apply StringFromInt64_text. Qed.
Lemma amount_nonempty v : is_i64 v -> amount_text v <> [].
Proof. intros H E. pose proof (amount_roundtrip v H) as P. by rewrite E in P. Qed.

(** ** Keys of signers *)
Definition signer_ok (k : SignerKey) : Prop :=
  match k with SignerKeyTypeEd25519SignedPayload _ payload => (1 <= length payload <= 64)%nat | _ => True end.

Lemma fixed_roundtrip v (k : vec byte 32) : checkValidVersionByte v = None -> fixed_length v = Some 32%nat ->
  Encode v (vec_to_list k) = Ok (address_of v (vec_to_list k)) /\ Decode v (address_of v (vec_to_list k)) = Ok (vec_to_list k).
Proof. intros Hv Hf. by apply (address_of_Encode v _ 32); [..|apply length_vec_to_list]. Qed.

Lemma signer_roundtrip k : signer_ok k -> exists s, SignerKey_Address k = Some s /\ SignerKey_SetAddress s = Some (Ok k).
Proof.
  unfold SignerKey_Address, SignerKey_SetAddress. destruct k as [key|key|key|key payload]; cbn [SignerKey_GetAddress signer_ok]; intros H.
  1-3: match goal with |- context [Encode ?v _] => destruct (fixed_roundtrip v key eq_refl eq_refl) as [-> D] end;
    eexists; (split; [done|]); rewrite (Version_Decode _ _ _ D);
    cbv delta [bool_decide]; cbn -[Decode]; rewrite D; cbn; by rewrite copy_array_vec.
  assert (Hp : checkPayloadLength VersionByteSignedPayload (signed_bytes (vec_to_list key) payload) = None).
  { apply checkSignedPayload_shape. exists (vec_to_list key), payload. split; [apply length_vec_to_list|done]. }
  destruct (Encode_ok VersionByteSignedPayload (signed_bytes (vec_to_list key) payload)) as [s E]; [done|by apply (checkPayloadLength_max VersionByteSignedPayload)|].
  pose proof (proj2 (Encode_Decode_iff _ _ _) (conj E Hp)) as D. rewrite E. exists s. split; [done|]. rewrite (Version_Decode _ _ _ D), bool_decide_eq_true_2 by done. unfold DecodeSignedPayload. rewrite D.
  destruct (signed_bytes_parts (vec_to_list key) payload) as (P1 & P2 & P3 & _ & _); [apply length_vec_to_list|lia|].
  rewrite P1, P2, P3, (proj1 (account_address_Encode key)). unfold NewSignedPayload, go_len, maxPayloadLen.
  rewrite (proj2 (Z.eqb_neq _ 0)), (proj2 (Z.ltb_ge 64 _)) by lia. cbn [SignedPayload_signer SignedPayload_payload].
  by rewrite account_address_Decode, copy_array_vec.
Qed.

(** ** Options *)
Definition flags_ok (f : option Z) : Prop := match f with Some f => 1 <= f <= 15 | None => True end.
Definition byte_ok (w : option Z) : Prop := match w with Some w => 0 <= w <= 255 | None => True end.
Definition set_options_ok (o : SetOptionsOp) : Prop :=
  flags_ok (xso_ClearFlags o) /\ flags_ok (xso_SetFlags o) /\ byte_ok (xso_MasterWeight o) /\ byte_ok (xso_LowThreshold o) /\
  byte_ok (xso_MedThreshold o) /\ byte_ok (xso_HighThreshold o) /\
  match xso_HomeDomain o with Some d => (length d <= 32)%nat | None => True end /\
  match xso_Signer o with Some s => signer_ok (signer_Key s) /\ 0 <= signer_Weight s <= 255 | None => True end.

Lemma flags_roundtrip f : flags_ok f -> flags_ToXDR (flags_FromXDR f) = f.
Proof.
  destruct f as [f|]; [|done]. cbn [flags_ok]. intros H.
  assert (HF : Forall (fun f => flags_ToXDR (flags_FromXDR (Some f)) = Some f) (seqZ 1 15)) by (vm_compute; repeat constructor).
  rewrite list.Forall_forall in HF. apply HF, elem_of_seqZ. lia.
Qed.

Lemma threshold_roundtrip w : byte_ok w -> threshold_FromXDR w = w.
Proof. destruct w as [w|]; [|done]. cbn. intros H. rewrite u8_id by lia. done. Qed.

Lemma trust_flags_roundtrip f : 0 <= f <= 7 -> trustLineFlagsToXDR (fromXDRTrustlineFlag f) = f.
Proof.
  intros H. assert (HF : Forall (fun f => trustLineFlagsToXDR (fromXDRTrustlineFlag f) = f) (seqZ 0 8)) by (vm_compute; repeat constructor).
  rewrite list.Forall_forall in HF. apply HF, elem_of_seqZ. lia.
Qed.

Section RoundTrip.
Context {ET : EntryTypes} {ST : SorobanTypes}.

Lemma options_roundtrip o : set_options_ok o ->
  exists so, SetOptions_FromXDR o = Some so /\ SetOptions_BuildXDR so = Some (Ok (OperationTypeSetOptions o)).
Proof.
  destruct o as [infl cf sf mw lt mt ht hd sg]. unfold set_options_ok. cbn -[flags_ok byte_ok].
  intros (Hcf & Hsf & Hmw & Hlt & Hmt & Hht & Hhd & Hsg). unfold SetOptions_FromXDR. cbn -[flags_FromXDR threshold_FromXDR].
  assert (Hinf : exists i, match infl with None => Some None | Some k => let! a := AccountId_Address k in Some (Some a) end = Some i /\
    handleInflation i = Ok infl).
  { destruct infl as [k|]; [|by exists None]. exists (Some (account_address k)). rewrite account_Address. split; [done|].
    cbn. by rewrite account_SetAddress. }
  assert (Hsig : exists s, match sg with None => Some None | Some s => let! a := SignerKey_Address (signer_Key s) in
    Some (Some (mkTxSigner a (u8 (signer_Weight s)))) end = Some s /\ handleSigner s = Some (Ok sg)).
  { destruct sg as [[key w]|]; [|by exists None]. cbn in Hsg |- *. destruct Hsg as [Hk Hw].
    destruct (signer_roundtrip key Hk) as (a & -> & E). eexists. split; [done|]. cbn. rewrite E. cbn. rewrite u8_id by lia. done. }
  destruct Hinf as (i & -> & Hi), Hsig as (s & -> & Hs). eexists. split; [done|].
  unfold SetOptions_BuildXDR. cbn -[handleInflation handleHomeDomain handleSigner flags_FromXDR threshold_FromXDR].
  rewrite Hi, Hs. assert (handleHomeDomain hd = Some (Ok hd)) as ->.
  { destruct hd as [d|]; [|done]. cbn. unfold go_len. by rewrite (proj2 (Z.ltb_ge _ _)) by lia. }
  cbn -[flags_FromXDR threshold_FromXDR]. by rewrite !flags_roundtrip, !threshold_roundtrip.
Qed.

(** ** Lists *)
Lemma path_roundtrip path : Forall asset_ok path ->
  exists p, path_FromXDR path = Some p /\ path_ToXDR p = Some (Ok path).
Proof.
  induction 1 as [|a path Ha _ (p & Hp & Hb)]; [by exists []|]. destruct (asset_roundtrip a Ha) as (t & Ht & Hx & _).
  exists (Some t :: p). cbn. rewrite Ht, Hp, Hx. cbn. by rewrite Hb.
Qed.
Lemma claimants_roundtrip l : exists ds, claimants_FromXDR l = Some ds /\ claimants_ToXDR ds = Some (Ok l).
Proof.
  induction l as [|[k p] l (ds & Hd & Hb)]; [by exists []|]. eexists. cbn. rewrite account_Address, Hd. split; [done|].
  cbn. rewrite account_SetAddress. cbn. by rewrite Hb.
Qed.

(** ** Operations *)

(** Trust lines and what is revoked: no pool shares for those, whose form is lost. *)
Definition line_ok (a : ChangeTrustAsset_) : Prop :=
  match a with
  | ChangeTrustPoolShare p => asset_ok (AssetA p) /\ asset_ok (AssetB p) /\ LessThan (AssetA p) (AssetB p) = Some true
  | _ => exists x, a = ToChangeTrustAsset x /\ asset_ok x /\ x <> Native
  end.
Definition revoke_ok (op : RevokeSponsorshipOp) : Prop :=
  match op with
  | RevokeSponsorshipLedgerEntry key =>
      match key with
      | LedgerKeyTrustLine _ asset => exists x, asset = ToTrustLineAsset x /\ asset_ok x
      | LedgerKeyAccount _ | LedgerKeyOffer _ _ | LedgerKeyData _ _ | LedgerKeyClaimableBalance _ => True
      | _ => False
      end
  | RevokeSponsorshipSigner _ key => signer_ok key
  end.

(** The values that the types of the package can hold: amounts in 64 bits, codes without
    zeros at their ends, the flags that exist, issued assets where one is asked for. *)
Definition body_ok (body : XdrOperationBody) : Prop :=
  match body with
  | OperationTypeCreateAccount _ n => is_i64 n
  | OperationTypePayment d a n => muxed_ok d /\ asset_ok a /\ is_i64 n
  | OperationTypePathPaymentStrictReceive sa sm d da n path | OperationTypePathPaymentStrictSend sa sm d da n path =>
      muxed_ok d /\ asset_ok sa /\ asset_ok da /\ is_i64 sm /\ is_i64 n /\ Forall asset_ok path
  | OperationTypeManageSellOffer s b n _ _ | OperationTypeManageBuyOffer s b n _ _ | OperationTypeCreatePassiveSellOffer s b n _ =>
      asset_ok s /\ asset_ok b /\ is_i64 n
  | OperationTypeSetOptions o => set_options_ok o
  | OperationTypeChangeTrust line limit => line_ok line /\ is_i64 limit
  | OperationTypeAllowTrust _ code authorize => code_ok code /\ 0 <= authorize <= 2
  | OperationTypeAccountMerge d => muxed_ok d
  | OperationTypeManageData _ value => value <> Some None
  | OperationTypeCreateClaimableBalance a n _ => asset_ok a /\ is_i64 n
  | OperationTypeRevokeSponsorship op => revoke_ok op
  | OperationTypeClawback a from n => asset_ok a /\ a <> Native /\ muxed_ok from /\ is_i64 n
  | OperationTypeSetTrustLineFlags _ a c s => asset_ok a /\ a <> Native /\ 0 <= c <= 7 /\ 0 <= s <= 7
  | OperationTypeLiquidityPoolDeposit _ a b _ _ => is_i64 a /\ is_i64 b
  | OperationTypeLiquidityPoolWithdraw _ n a b => is_i64 n /\ is_i64 a /\ is_i64 b
  | _ => True
  end.

(** What is parsed is built again. *)
Definition reads_back (body : XdrOperationBody) : Prop :=
  exists op, Body_FromXDR body = Some (Ok op) /\ Body_BuildXDR op = Some (Ok body).

Lemma native_issued a : a <> Native -> IsNative a = false.
Proof. by destruct a. Qed.

Ltac assets_back :=
  repeat match goal with
  | H : _ /\ _ |- _ => destruct H
  | H : asset_ok ?a |- _ =>
      let t := fresh "t" in let E := fresh "E" in let X := fresh "X" in let N := fresh "N" in
      destruct (asset_roundtrip a H) as (t & E & X & N); clear H; rewrite ?E
  end.
Ltac reads :=
  intros; assets_back; unfold reads_back; cbn [Body_FromXDR]; parse_unfold;
  rewrite ?Muxed_Address_Some, ?amount_String, ?account_Address;
  repeat match goal with E : assetFromXDR _ = _ |- _ => rewrite !E; clear E end;
  eexists; (split; [reflexivity|]); cbn [Body_BuildXDR];
  unfold CreateAccount_BuildXDR, Payment_BuildXDR, PathPayment_BuildXDR, PathPaymentStrictSend_BuildXDR, AccountMerge_BuildXDR,
    ManageSellOffer_BuildXDR, ManageBuyOffer_BuildXDR, CreatePassiveSellOffer_BuildXDR, offer_sides, Clawback_BuildXDR,
    SetTrustLineFlags_BuildXDR, BeginSponsoringFutureReserves_BuildXDR, ClaimClaimableBalance_BuildXDR,
    ClawbackClaimableBalance_BuildXDR, LiquidityPoolDeposit_BuildXDR, LiquidityPoolWithdraw_BuildXDR,
    parse_amount, field_ToXDR, required, called, unmarshal_id;
  rewrite ?account_SetAddress, ?Muxed_SetAddress_muxed, ?amount_roundtrip, ?id_roundtrip by done; cbn [try_bind wrapped];
  repeat match goal with X : TxAsset_ToXDR ?t = _ |- _ => rewrite !X; clear X end;
  repeat match goal with N : TxAsset_IsNative ?t = IsNative _ |- context [TxAsset_IsNative ?t] => rewrite N, native_issued by done end;
  cbn [try_bind wrapped].

Lemma body_reads_payments body : body_ok body ->
  match body with
  | OperationTypeCreateAccount _ _ | OperationTypePayment _ _ _ | OperationTypeAccountMerge _ | OperationTypeManageSellOffer _ _ _ _ _
  | OperationTypeManageBuyOffer _ _ _ _ _ | OperationTypeCreatePassiveSellOffer _ _ _ _ | OperationTypeClawback _ _ _
  | OperationTypeBeginSponsoringFutureReserves _ | OperationTypeClaimClaimableBalance _ | OperationTypeClawbackClaimableBalance _
  | OperationTypeLiquidityPoolDeposit _ _ _ _ _ | OperationTypeLiquidityPoolWithdraw _ _ _ _ => reads_back body
  | _ => True
  end.
Proof. destruct body; try done; cbn [body_ok]; reads; try done. Qed.

Lemma paths_read body : body_ok body ->
  match body with
  | OperationTypePathPaymentStrictReceive _ _ _ _ _ _ | OperationTypePathPaymentStrictSend _ _ _ _ _ _ => reads_back body
  | _ => True
  end.
Proof.
  destruct body; try done; cbn [body_ok]; intros (? & ? & ? & ? & ? & Hp); destruct (path_roundtrip _ Hp) as (p & Hr & Hb);
    revert Hb; assets_back; unfold reads_back; cbn [Body_FromXDR]; parse_unfold; rewrite Muxed_Address_Some, !amount_String, Hr; clear Hr; intros Hb;
    repeat match goal with E : assetFromXDR _ = _ |- _ => rewrite !E; clear E end; (eexists; split; [reflexivity|]);
    cbn [Body_BuildXDR]; unfold PathPayment_BuildXDR, PathPaymentStrictSend_BuildXDR, parse_amount, required;
    rewrite !amount_roundtrip, Muxed_SetAddress_muxed by done; cbn [try_bind];
    repeat match goal with X : TxAsset_ToXDR ?t = _ |- _ => rewrite X; clear X end; cbn [try_bind wrapped]; by rewrite Hb.
Qed.

Lemma claimable_reads asset amount claimants : asset_ok asset -> is_i64 amount ->
  reads_back (OperationTypeCreateClaimableBalance asset amount claimants).
Proof.
  intros Ha Hn. destruct (asset_roundtrip asset Ha) as (t & E & X & _), (claimants_roundtrip claimants) as (ds & Hd & Hb).
  unfold reads_back. cbn [Body_FromXDR]. parse_unfold. rewrite E, amount_String, Hd. eexists. split; [done|]. cbn [Body_BuildXDR].
  unfold CreateClaimableBalance_BuildXDR, field_ToXDR, parse_amount. rewrite X, amount_roundtrip by done. cbn [wrapped try_bind]. by rewrite Hb.
Qed.

Lemma line_reads line limit : line_ok line -> is_i64 limit -> reads_back (OperationTypeChangeTrust line limit).
Proof.
  intros Hl Hn. unfold reads_back. cbn [Body_FromXDR]. parse_unfold. rewrite amount_String.
  assert (Hx : exists t, assetFromChangeTrustAssetXDR line = Some t /\ TxChangeTrustAsset_IsNative t = false /\
    TxChangeTrustAsset_ToXDR t = Some (Ok line)).
  { assert (Hw : forall x, asset_ok x -> x <> Native -> exists t, assetFromChangeTrustAssetXDR (ToChangeTrustAsset x) = Some t /\
      TxChangeTrustAsset_IsNative t = false /\ TxChangeTrustAsset_ToXDR t = Some (Ok (ToChangeTrustAsset x))).
    { intros x Hx Hn'. destruct (asset_roundtrip x Hx) as (t & E & X & N). exists (ChangeTrustAssetWrapper t).
      cbn [TxChangeTrustAsset_IsNative TxChangeTrustAsset_ToXDR]. rewrite X, N, native_issued by done. split; [|done].
      destruct x; [done|..]; cbn [ToChangeTrustAsset assetFromChangeTrustAssetXDR ChangeTrust_ToAsset]; by rewrite E. }
    destruct line as [| | |[a b f]]; cbn [line_ok] in Hl.
    1-3: destruct Hl as (x & -> & Hx & Hn'); by apply Hw.
    cbn in Hl. destruct Hl as (Ha & Hb & Hless). destruct (asset_roundtrip a Ha) as (ta & Ea & Xa & _), (asset_roundtrip b Hb) as (tb & Eb & Xb & _).
    exists (LiquidityPoolShareChangeTrustAsset (mkTxPoolParameters (Some ta) (Some tb) f)).
    cbn [assetFromChangeTrustAssetXDR TxChangeTrustAsset_IsNative TxChangeTrustAsset_ToXDR]. unfold liquidityPoolParametersFromXDR, TxPoolParameters_ToXDR, field_ToXDR.
    cbn [AssetA AssetB par_AssetA par_AssetB]. rewrite Ea, Eb, Xa, Xb. cbn [wrapped try_bind]. by rewrite Hless. }
  destruct Hx as (t & -> & N & X). eexists. split; [done|]. cbn [Body_BuildXDR]. unfold ChangeTrust_BuildXDR, called. cbn [try_bind].
  rewrite N, X. cbn [rewrap try_bind]. unfold limit_or_max. rewrite bool_decide_eq_false_2 by (by apply amount_nonempty).
  unfold parse_amount. by rewrite amount_roundtrip.
Qed.

Lemma allow_reads trustor code authorize : code_ok code -> 0 <= authorize <= 2 -> reads_back (OperationTypeAllowTrust trustor code authorize).
Proof.
  intros Hc Ha. destruct (code_roundtrip code Hc) as (t & E & N & X). unfold reads_back. cbn [Body_FromXDR]. parse_unfold.
  rewrite account_Address, E. eexists. split; [done|]. cbn [Body_BuildXDR]. unfold AllowTrust_BuildXDR, called.
  rewrite account_SetAddress. cbn [wrapped try_bind]. rewrite N, X. cbn [wrapped try_bind]. unfold done_build. do 3 f_equal.
  assert (authorize = 0 \/ authorize = 1 \/ authorize = 2) as [->|[->| ->]] by lia; reflexivity.
Qed.

Lemma revoke_reads op : revoke_ok op -> reads_back (OperationTypeRevokeSponsorship op).
Proof.
  intros Hop. unfold reads_back. cbn [Body_FromXDR].
  assert (H : exists r, RevokeSponsorship_FromXDR op = Some (Ok r) /\ RevokeSponsorship_BuildXDR r = Some (Ok (OperationTypeRevokeSponsorship op))).
  { destruct op as [key|k key]; cbn [revoke_ok] in Hop.
    - destruct key; try done; cbn [RevokeSponsorship_FromXDR]; rewrite ?account_Address.
      2: { destruct Hop as (x & -> & Hx). destruct (asset_roundtrip x Hx) as (t & E & X & _).
        assert (assetFromTrustLineAssetXDR (ToTrustLineAsset x) = Some (TrustLineAssetWrapper t)) as ->
          by (destruct x; cbn [ToTrustLineAsset assetFromTrustLineAssetXDR ToAsset]; by rewrite E).
        eexists. split; [done|]. cbn [RevokeSponsorship_BuildXDR required try_bind]. rewrite account_SetAddress. cbn. by rewrite X. }
      all: eexists; (split; [done|]); cbn [RevokeSponsorship_BuildXDR required try_bind]; unfold unmarshal_id;
        rewrite ?account_SetAddress, ?id_roundtrip; done.
    - cbn [RevokeSponsorship_FromXDR]. rewrite account_Address. destruct (signer_roundtrip key Hop) as (s & -> & E).
      eexists. split; [done|]. cbn [RevokeSponsorship_BuildXDR required try_bind]. rewrite account_SetAddress. cbn [wrapped try_bind]. by rewrite E. }
  destruct H as (r & -> & Hr). eexists. split; [done|]. exact Hr.
Qed.

Lemma set_flags_reads trustor asset clear set_ : asset_ok asset -> asset <> Native -> 0 <= clear <= 7 -> 0 <= set_ <= 7 ->
  reads_back (OperationTypeSetTrustLineFlags trustor asset clear set_).
Proof. reads. by rewrite !trust_flags_roundtrip. Qed.

Lemma body_reads body : body_ok body -> reads_back body.
Proof.
  intros H. pose proof (body_reads_payments body H) as P. pose proof (paths_read body H) as Q.
  destruct body; try done; cbn [body_ok] in H; clear P Q.
  - destruct (options_roundtrip _ H) as (so & E & X). unfold reads_back. cbn [Body_FromXDR]. parse_unfold. rewrite E. by eexists.
  - apply line_reads; tauto.
  - apply allow_reads; tauto.
  - eexists; split; [reflexivity|]. reflexivity.
  - exists (ManageData DataName (default None DataValue)). split; [done|]. cbn. by destruct DataValue as [[v|]|].
  - eexists; split; [reflexivity|]. reflexivity.
  - apply claimable_reads; tauto.
  - eexists; split; [reflexivity|]. reflexivity.
  - by apply revoke_reads.
  - apply set_flags_reads; tauto.
  - eexists; split; [reflexivity|]. reflexivity.
  - eexists; split; [reflexivity|]. reflexivity.
  - eexists; split; [reflexivity|]. reflexivity.
Qed.

Definition operation_ok (op : XdrOperation) : Prop :=
  body_ok (xop_Body op) /\ match xop_SourceAccount op with Some m => muxed_ok m | None => True end.

(** C20: An operation of values that the package can hold is parsed, and the parsed
    operation is built to the same form: nothing is lost, of any of the 27 types. *)
Theorem operation_reads_back xop : operation_ok xop ->
  exists op, operationFromXDR xop = Some (Ok op) /\ BuildXDR op = Some (Ok xop).
Proof.
  destruct xop as [source body]. intros [Hb Hs]. cbn in Hb, Hs. destruct (body_reads body Hb) as (b & Hr & Hw).
  unfold operationFromXDR, BuildXDR. cbn [xop_Body xop_SourceAccount]. rewrite Hr. cbn [try_bind].
  destruct source as [m|]; cbn [accountFromXDR].
  - rewrite Muxed_Address_Some. eexists. split; [done|]. cbn [Op GetSourceAccount]. rewrite Hw. cbn [try_bind].
    unfold SetOpSourceAccount. rewrite bool_decide_eq_false_2, Muxed_SetAddress_muxed by (done || apply muxed_text_nonempty). done.
  - eexists. split; [done|]. cbn [Op GetSourceAccount]. rewrite Hw. done.
Qed.
End RoundTrip.

(** ** An operation of each kind of field *)
Module SampleOperation.
Import LedgerEntries.ConcreteKeys.
#[local] Instance opaque_soroban : SorobanTypes := {| HostFunction := unit; SorobanAuthorizationEntry := unit |}.

Definition issuer : AccountId := copy_array (zero_array 32) (replicate 32 (byte_of_Z 9)).
Definition usd : Asset := CreditAlphanum4 (copy_array (zero_array 4) (str "USD")) issuer.
Definition path_payment : XdrOperation :=
  mkXdrOperation (Some (KeyTypeMuxedEd25519 7 issuer))
    (OperationTypePathPaymentStrictReceive Native 12345678901 (KeyTypeEd25519 issuer) usd 50000000 [usd; Native]).

Lemma usd_ok : asset_ok usd.
Proof. right. exists (str "USD"), issuer. split; [done|by split]. Qed.

Lemma operation_reads_back_witness : exists op,
  operationFromXDR path_payment = Some (Ok op) /\ BuildXDR op = Some (Ok path_payment).
Proof.
  apply (operation_reads_back path_payment). split; [|by vm_compute].
  split; [done|]. split; [by left|]. split; [apply usd_ok|]. split; [by vm_compute|]. split; [by vm_compute|].
  constructor; [apply usd_ok|constructor; [by left|constructor]].
Defined.
End SampleOperation.

(** ** What constructors of transactions keep

    Fees are exact and within their widths, and a transaction that was parsed is built
    again to the same content, so its signatures stay valid. *)
(** ** Fees *)

(** The sum, when it is within the limit: nothing wraps unseen. *)
Lemma total_fee_exact limit fee count soroban : is_u64 fee -> 0 <= count -> is_u64 soroban -> 0 <= limit <= MaxInt64 ->
  (forall t, total_fee limit fee count soroban = Ok t <-> t = fee * count + soroban /\ t <= limit).
Proof.
  intros Hf Hc Hs Hl t. unfold is_u64 in *. unfold total_fee. rewrite (u64_id fee) by (unfold is_u64; lia).
  assert (Hp : 0 <= fee * count) by nia. generalize dependent (fee * count). intros p Hp.
  destruct (Z.lt_ge_cases p 18446744073709551616) as [H|H].
  - rewrite (Z.div_small p), (u64_id p) by (unfold is_u64; lia). cbn [Z.ltb orb]. change (0 <? 0) with false. cbn [orb].
    destruct (Z.ltb_spec limit p); [split; [done|lia]|].
    destruct (Z.lt_ge_cases (p + soroban) 18446744073709551616) as [H'|H'].
    + rewrite (u64_id (p + soroban)) by (unfold is_u64; lia). rewrite (proj2 (Z.ltb_ge _ p)) by lia. cbn [orb].
      destruct (Z.ltb_spec limit (p + soroban)); [split; [done|lia]|]. split; [intros E; injection E as E; lia|intros [-> ?]; f_equal; lia].
    + assert (u64 (p + soroban) < p) as Hw; [|rewrite (proj2 (Z.ltb_lt _ _)) by done; split; [done|lia]].
      unfold u64. replace (p + soroban) with (p + soroban - 18446744073709551616 + 1 * 18446744073709551616) by lia.
      rewrite Z.mod_add, Z.mod_small by lia. lia.
  - assert (0 < p / 18446744073709551616) as Hq by (apply Z.div_str_pos; lia). rewrite (proj2 (Z.ltb_lt _ _)) by done.
    split; [done|lia].
Qed.

Section Spec.
Context {ED : Ed25519} {ET : EntryTypes} {ST : SorobanTypes} {TC : TransactionCodec}.

(** ** Operations *)
Lemma operations_read l : Forall operation_ok l ->
  exists ops, operations_FromXDR None l = Some (Ok ops) /\ Forall2 (fun op xop => BuildXDR op = Some (Ok xop)) ops l /\
    Forall (fun op => BuildTransactionExt op = None \/ BuildTransactionExt op = Some None) ops.
Proof.
  induction 1 as [|xop l Hx _ (ops & Hr & Hb & He)]; [by exists []|]. destruct (operation_reads_back xop Hx) as (op & Ho & Hw).
  exists (op :: ops). cbn [operations_FromXDR]. rewrite Ho. cbn [try_bind]. rewrite Hr. cbn [try_bind].
  split; [done|]. split; [by constructor|]. constructor; [|done].
  unfold operationFromXDR in Ho. run_ok Ho. injection Ho as <-. unfold BuildTransactionExt. cbn [Op].
  destruct (xop_Body xop); cbn [Body_FromXDR] in E; parse_unfold; run_ok E; injection E as <-; auto.
Qed.

Lemma operations_built ops l l' : Forall2 (fun op xop => BuildXDR op = Some (Ok xop)) ops l ->
  operations_BuildXDR ops = Some (Ok l') -> l' = l.
Proof.
  intros H. revert l'. induction H as [|op xop ops l Hb _ IH]; intros l'; cbn [operations_BuildXDR]; [by intros [= <-]|].
  intros B. run_ok B. injection B as <-. rewrite Hb in E0. injection E0 as <-. f_equal. by apply IH.
Qed.

Lemma no_extension ops : Forall (fun op => BuildTransactionExt op = None \/ BuildTransactionExt op = Some None) ops ->
  default None (sorobanOp ops) = None.
Proof.
  unfold sorobanOp. assert (H : forall found, (found = None \/ found = Some None) -> 
    Forall (fun op => BuildTransactionExt op = None \/ BuildTransactionExt op = Some None) ops ->
    default None (fold_left (fun found op => match BuildTransactionExt op with Some ext => Some ext | None => found end) ops found) = None).
  { induction ops as [|op ops IH]; intros found Hf Ho; cbn [fold_left]; [by destruct Hf as [->| ->]|].
    apply list.Forall_cons in Ho as [Hop Ho]. apply IH; [|done]. destruct Hop as [->| ->]; auto. }
  apply H. by left.
Qed.

Lemma memo_back m mm m' : memoFromXDR m = Ok mm -> memo_ToXDR mm = Ok m' -> m' = m.
Proof.
  destruct m; cbn; intros H; try discriminate H; injection H as <-; cbn; [by intros [= <-]| |by intros [= <-]..].
  destruct (_ <? _); [done|]. by intros [= <-].
Qed.

(** ** Transactions *)

(** The parameters with which a transaction of the same content is built. *)
Definition rebuild (t : Tx) (cond : TxPreconditions) : TransactionParams :=
  mkParams (Some (sourceAccount t)) false (operations t) (baseFee t) (memo t) cond.

Lemma total_fee_rebuilt count fee t : 0 < count -> is_u32 fee -> fee mod count = 0 ->
  total_fee MaxUint32 (Z.quot fee count) count 0 = Ok t -> t = fee.
Proof.
  intros Hc Hf Hm H. unfold is_u32 in Hf. rewrite Z.quot_div_nonneg in H by lia.
  pose proof (Z.div_mod fee count ltac:(lia)) as Hd. rewrite Hm in Hd.
  assert (Hq : 0 <= fee / count <= MaxUint32) by (split; [apply Z.div_pos; lia|apply Z.div_le_upper_bound; nia]).
  apply total_fee_exact in H as [-> _]; unfold is_u64; lia.
Qed.

Lemma rebuilt_transaction e source fee seq cond m l sigs pre t t' :
  simpleFromParsedXDR e = Some (Ok t) -> env_SourceAccount e = Some source -> env_Fee e = Some fee -> env_SeqNum e = Some seq ->
  env_Operations e = Some l -> env_Memo e = Some m -> env_Ext e = None -> env_Signatures e = Some sigs ->
  Forall operation_ok l -> muxed_ok source -> is_u32 fee -> fee mod go_len l = 0 ->
  Preconditions_BuildXDR pre = Some (Ok cond) -> NewTransaction (rebuild t pre) = Some (Ok t') ->
  envelope t' = XdrEnvelopeTx (mkV1Envelope (mkXdrTransaction source fee seq cond m l None) []) /\ maxFee t' = fee.
Proof.
  intros P Hsrc Hfee Hseq Hl Hm Hext Hsigs Hok Hmux Hu Hdiv Hpre N. unfold simpleFromParsedXDR in P.
  rewrite Hsrc, Muxed_Address_Some, Hfee, Hl, Hseq, Hm, Hext in P. destruct (env_Preconditions e) as [c|]; [|done].
  destruct (operations_read l Hok) as (ops & Hr & Hb & He). rewrite Hr in P. run_ok P. injection P as <-. injection E0 as <-.
  apply NewTransaction_Ok in N as (sa & source' & cond' & m' & ops' & fee' & Hsa & Hs & _ & Hne & _ & Hc & Hmemo & Hops & Htot & ->).
  cbn [rebuild account_after IncrementSequenceNum par_SourceAccount Operations par_BaseFee par_Memo par_Preconditions sourceAccount operations baseFee memo] in *.
  injection Hsa as <-. cbn [AccountID Sequence] in *. rewrite Muxed_SetAddress_muxed in Hs by done. injection Hs as <-.
  rewrite Hpre in Hc. injection Hc as <-. apply (operations_built _ _ _ Hb) in Hops as ->. apply (memo_back _ _ _ E) in Hmemo as ->.
  rewrite (no_extension ops He) in *. cbn [sorobanFee] in Htot. cbn [envelope maxFee].
  assert (Hlen : go_len ops = go_len l) by (unfold go_len; by rewrite (list.Forall2_length _ _ _ Hb)). rewrite Hlen in Htot.
  assert (0 < go_len l) by (unfold go_len in *; destruct ops; [done|]; cbn in Hlen; lia).
  rewrite (proj2 (Z.ltb_lt _ _)) in Htot by done. by apply total_fee_rebuilt in Htot as ->.
Qed.

(** ** The upgrade of a transaction of the first version *)

(** Transactions whose fields the package holds: their fee a multiple, their bounds given. *)
Definition v0_ok (x : XdrTransactionV0) : Prop :=
  Forall operation_ok (xt0_Operations x) /\ is_u32 (xt0_Fee x) /\ xt0_Fee x mod go_len (xt0_Operations x) = 0 /\
  match xt0_TimeBounds x with Some t => 0 <= MinTime t <= MaxInt64 /\ 0 <= MaxTime t <= MaxInt64 | None => True end.

Lemma with_signatures_Ok t sigs e tx t' : envelope t = XdrEnvelopeTx (mkV1Envelope tx e) -> clone t sigs = Some (Ok t') ->
  envelope t' = XdrEnvelopeTx (mkV1Envelope tx sigs).
Proof. intros He H. unfold clone in H. rewrite He in H. cbn in H. by injection H as <-. Qed.

(** C21: The upgrade of a transaction keeps its content, its hash on any network, its
    signatures and its total fee, when the fee is a multiple of the number of operations:
    what was signed stays signed. *)
Theorem convertToV1_same_hash x sigs t t' : v0_ok x ->
  simpleFromParsedXDR (XdrEnvelopeTxV0 x sigs) = Some (Ok t) -> convertToV1 t = Some (Ok t') ->
  envelope t' = XdrEnvelopeTx (mkV1Envelope (tx_of_V0 x) sigs) /\
  env_Fee (envelope t') = env_Fee (envelope t) /\ forall network, Tx_Hash t' network = Tx_Hash t network.
Proof.
  intros (Hok & Hfee & Hdiv & Htb) P C. destruct (simpleFromParsedXDR_Ok _ _ P) as (_ & cond & _ & _ & _ & _ & Hc & _ & _ & He & _ & Hp & _).
  unfold convertToV1, Signatures in C. rewrite He in C. cbn [env_Signatures] in C. run_ok C.
  assert (Hcond : Preconditions_BuildXDR (only_time (TimeBounds (preconditions t))) = Some (Ok (XdrPreconditionsWithTimeBounds (xt0_TimeBounds x)))).
  { apply NewTransaction_Ok in E as (_ & _ & _ & _ & _ & _ & _ & _ & _ & _ & Hv & _). cbn in Hc. injection Hc as <-. rewrite Hp in Hv |- *.
    destruct (xt0_TimeBounds x) as [[mn mx]|]; [|done]. cbn -[u64 i64] in Htb |- *. unwrap_ints. unfold Preconditions_BuildXDR. cbn -[u64]. by unwrap_ints. }
  destruct (rebuilt_transaction _ _ _ _ _ _ _ sigs _ t x0 P eq_refl eq_refl eq_refl eq_refl eq_refl eq_refl eq_refl Hok I Hfee Hdiv Hcond E) as [Hx _].
  apply (with_signatures_Ok _ _ _ _ _ Hx) in C. rewrite C, He. split; [done|]. split; [done|]. intros network.
  unfold Tx_Hash. by rewrite C, He.
Qed.

(** ** Fee bumps *)
Lemma NewFeeBumpTransaction_Ok params fb : NewFeeBumpTransaction params = Some (Ok fb) ->
  exists t inner source total, par_Inner params = Some t /\ env_IsFeeBump (envelope t) = false /\
    (forall v1, envelope t = XdrEnvelopeTx v1 -> inner = t) /\
    baseFee inner <= par_FeeBumpBaseFee params /\ MinBaseFee <= par_FeeBumpBaseFee params /\
    total_fee MaxInt64 (par_FeeBumpBaseFee params) (go_len (operations inner) + 1) (sorobanFee (env_Ext (envelope inner))) = Ok total /\
    Muxed_SetAddress (par_FeeAccount params) = Ok source /\
    fb = mkFeeBump (XdrEnvelopeTxFeeBump source total (inner_V1 (envelope t)) []) (par_FeeBumpBaseFee params) total (par_FeeAccount params) inner.
Proof.
  unfold NewFeeBumpTransaction. intros H. run_ok H. injection H as <-. injection E3 as E3.
  apply Z.ltb_ge in E1, E2. unfold required in E. destruct (par_Inner params) as [t|]; [|done]. injection E as <-.
  exists t, x0, x2, x1. split; [done|]. split; [by destruct (envelope t)|]. split; [|done].
  intros v1 Hv. rewrite Hv in E0. by injection E0.
Qed.

Lemma sorobanFee_u64 ext : is_u64 (sorobanFee ext).
Proof. destruct ext; cbn; [apply u64_range|unfold is_u64; lia]. Qed.

(** The operations of a transaction that is built: not changed in number. *)
Lemma NewTransaction_fee params t : is_i64 (par_BaseFee params) -> NewTransaction params = Some (Ok t) ->
  exists v1, envelope t = XdrEnvelopeTx v1 /\ v1_Signatures v1 = [] /\ xtx_Fee (v1_Tx v1) = maxFee t /\
    baseFee t = par_BaseFee params /\ 0 <= baseFee t /\ length (operations t) = length (Operations params) /\
    maxFee t = baseFee t * go_len (operations t) + sorobanFee (env_Ext (envelope t)) /\ maxFee t <= MaxUint32.
Proof.
  intros Hb N. apply NewTransaction_Ok in N as (sa & source & cond & m & ops & fee & _ & _ & Hn & _ & _ & _ & _ & _ & Htot & ->).
  pose proof (sorobanFee_u64 (default None (sorobanOp (Operations params)))) as Hu.
  apply total_fee_exact in Htot as [-> Hl]; [|unfold is_u64, is_i64 in *; lia|unfold go_len; lia|done|lia].
  eexists. split; [done|]. cbn [envelope env_Ext v1_Tx v1_Signatures xtx_Fee xtx_Ext maxFee baseFee operations].
  unfold go_len. rewrite length_map. done.
Qed.

(** C22: A fee bump of a transaction that was built, and signed since, offers exactly its
    base fee for one operation more than the transaction has, and the resource fee, in 64
    bits with no overflow: at least one base fee above what the transaction offers. It
    wraps the transaction with its signatures, and so does not change its hash. *)
Theorem NewFeeBumpTransaction_offers params t0 t feeAccount fee fb :
  is_i64 (par_BaseFee params) -> is_i64 fee -> NewTransaction params = Some (Ok t0) -> 
  (exists sigs, clone t0 sigs = Some (Ok t)) -> NewFeeBumpTransaction (mkFeeBumpParams (Some t) feeAccount fee) = Some (Ok fb) ->
  fb_maxFee fb = fee * (go_len (operations t) + 1) + sorobanFee (env_Ext (envelope t)) /\
  maxFee t + fee <= fb_maxFee fb <= MaxInt64 /\ MinBaseFee <= fee /\
  exists source v1, envelope t = XdrEnvelopeTx v1 /\ Muxed_SetAddress feeAccount = Ok source /\
    fb_envelope fb = XdrEnvelopeTxFeeBump source (fb_maxFee fb) (Some v1) [] /\ fb_inner fb = t /\
    env_Signatures (fb_envelope fb) = Signatures t.
Proof.
  intros Hp Hf N [sigs C] F. destruct (NewTransaction_fee _ _ Hp N) as (v1 & He & _ & _ & _ & Hb & _ & Hmax & _).
  unfold clone in C. rewrite He in C. cbn [with_signatures] in C. injection C as <-. cbn [envelope operations maxFee baseFee].
  apply NewFeeBumpTransaction_Ok in F as (t' & inner & source & total & Ht & _ & Hv & Hbase & Hmin & Htot & Hs & ->).
  cbn in Ht. injection Ht as <-. rewrite (Hv _ eq_refl) in *. cbn [envelope operations baseFee env_Ext v1_Tx par_FeeBumpBaseFee par_FeeAccount] in *.
  pose proof (sorobanFee_u64 (xtx_Ext (v1_Tx v1))) as Hu.
  apply total_fee_exact in Htot as [-> Hl]; [|unfold is_u64, is_i64, MinBaseFee in *; lia|unfold go_len; lia|done|lia].
  rewrite He in Hmax. cbn [env_Ext] in Hmax. cbn [fb_maxFee fb_envelope fb_inner]. unfold MinBaseFee in *.
  assert (0 <= go_len (operations t0)) by (unfold go_len; lia).
  split; [done|]. split; [split; [nia|done]|]. split; [done|]. exists source, (mkV1Envelope (v1_Tx v1) sigs). done.
Qed.

(** A transaction of the first version is not wrapped: its fee bump is of nothing. *)
Lemma fee_bump_of_V0 params x sigs t fb : par_Inner params = Some t -> envelope t = XdrEnvelopeTxV0 x sigs ->
  NewFeeBumpTransaction params = Some (Ok fb) -> exists source fee, fb_envelope fb = XdrEnvelopeTxFeeBump source fee None [].
Proof.
  intros Hi He F. apply NewFeeBumpTransaction_Ok in F as (t' & inner & source & total & Ht & _ & _ & _ & _ & _ & _ & ->).
  rewrite Hi in Ht. injection Ht as <-. cbn [fb_envelope]. rewrite He. by eexists _, _.
Qed.
End Spec.

(** ** A transaction of the first version, and a fee bump *)
Module SampleTransactions.
Import LedgerEntries.ConcreteKeys ToyCurve SampleOperation.
#[local] Instance opaque_soroban : SorobanTypes := SampleOperation.opaque_soroban.
#[local] Instance fee_codec : TransactionCodec := {|
  Transaction_MarshalBinary tx := Some (be_put 4 (xtx_Fee tx));
  FeeBump_MarshalBinary _ _ _ := None;
  Envelope_MarshalBinary _ := None;
  SafeUnmarshalBase64 _ := None
|}.

Definition payment : XdrOperation := mkXdrOperation None (OperationTypePayment (KeyTypeEd25519 issuer) usd 50000000).
Definition first_version : XdrTransactionV0 :=
  mkXdrTransactionV0 issuer 200 41 (Some (mkTimeBounds 0 1700000000)) (MemoTypeMemoText (str "hello")) [payment; path_payment].
Definition signature : DecoratedSignature := mkDecorated (replicate 4 zero_byte) (replicate 64 zero_byte).
Definition no_tx : Tx := mkTransaction (XdrEnvelopeTxV0 first_version []) 0 0 (mkSimpleAccount [] 0) [] None zero_preconditions.
Definition ok_tx (r : option (result txn_error Tx)) : Tx := match r with Some (Ok t) => t | _ => no_tx end.
Definition parsed : Tx := ok_tx (simpleFromParsedXDR (XdrEnvelopeTxV0 first_version [signature])).
Definition upgraded : Tx := ok_tx (convertToV1 parsed).

Lemma payment_ok : operation_ok payment.
Proof. split; [|done]. split; [done|]. split; [apply usd_ok|by vm_compute]. Qed.
Lemma path_payment_ok : operation_ok path_payment.
Proof.
  split; [|by vm_compute]. split; [done|]. split; [by left|]. split; [apply usd_ok|]. split; [by vm_compute|]. split; [by vm_compute|].
  constructor; [apply usd_ok|constructor; [by left|constructor]].
Qed.

Lemma convertToV1_same_hash_witness :
  envelope upgraded = XdrEnvelopeTx (mkV1Envelope (tx_of_V0 first_version) [signature]) /\
  env_Fee (envelope upgraded) = env_Fee (envelope parsed) /\ forall network, Tx_Hash upgraded network = Tx_Hash parsed network.
Proof.
  apply (convertToV1_same_hash first_version [signature] parsed upgraded).
  - split; [constructor; [apply payment_ok|constructor; [apply path_payment_ok|constructor]]|].
    split; [by vm_compute|]. split; [done|]. by vm_compute.
  - vm_compute. reflexivity.
  - vm_compute. reflexivity.
Defined.

(** A transaction of the second version, with a fee bump of its own. *)
Definition params : TransactionParams :=
  mkParams (Some (mkSimpleAccount (account_address issuer) 41)) true [mkTxOperation [] Inflation; mkTxOperation [] (BumpSequence 50)] 150 None
    (only_time NewInfiniteTimeout).
Definition built : Tx := ok_tx (NewTransaction params).
Definition built_signed : Tx := ok_tx (clone built [signature]).
Definition no_bump : FeeBumpTx := mkFeeBump (XdrEnvelopeTxV0 first_version []) 0 0 [] no_tx.
Definition bump : FeeBumpTx :=
  match NewFeeBumpTransaction (mkFeeBumpParams (Some built_signed) (account_address issuer) 200) with Some (Ok fb) => fb | _ => no_bump end.

Lemma NewFeeBumpTransaction_offers_witness :
  fb_maxFee bump = 200 * (go_len (operations built_signed) + 1) + sorobanFee (env_Ext (envelope built_signed)) /\
  maxFee built_signed + 200 <= fb_maxFee bump <= MaxInt64 /\ MinBaseFee <= 200 /\
  exists source v1, envelope built_signed = XdrEnvelopeTx v1 /\ Muxed_SetAddress (account_address issuer) = Ok source /\
    fb_envelope bump = XdrEnvelopeTxFeeBump source (fb_maxFee bump) (Some v1) [] /\ fb_inner bump = built_signed /\
    env_Signatures (fb_envelope bump) = Signatures built_signed.
Proof.
  apply (NewFeeBumpTransaction_offers params built built_signed (account_address issuer) 200 bump).
  - by vm_compute.
  - by vm_compute.
  - vm_compute. reflexivity.
  - exists [signature]. vm_compute. reflexivity.
  - vm_compute. reflexivity.
Defined.
End SampleTransactions.
