(* ===== verification/Challenge.v ===== *)
(** * Web authentication

    The challenges of SEP 10 in src/txnbuild/transaction.go: a server builds and signs a
    transaction that names a client, and reads it back with the client's signatures. The
    time of the call and the random nonce are arguments. *)
From Stdlib Require Import ZArith Lia.
From stdpp Require Import base list vector option.
From S2P Require Import Prelude GoStd GoExt Encodings Strkey Asset LedgerEntries CloseMeta Accounts Envelopes TokenDeltas Keypair TxnXdr TxnAssets.
From S2P Require Import TxnOperations TxnTransaction.
#[local] Open Scope Z_scope.
#[local] Open Scope go_scope.

Section Challenge.
Context {ED : Ed25519} {ET : EntryTypes} {ST : SorobanTypes} {TC : TransactionCodec}.

(** ** Building a challenge *)

(** Durations, and times since the epoch, in nanoseconds. *)
Definition Second : Z := 1000000000.
Definition Unix (t : Z) : Z := t / Second.

Definition challenge_account (clientAccountID : bytes) (memo : option Z) : option (result txn_error unit) :=
  match AddressToAccountId clientAccountID with
  | Ok _ => Some (Ok tt)
  | Err _ =>
      match Muxed_SetAddress clientAccountID with
      | Err _ => fail "not a valid account id or muxed account"
      | Ok _ =>
          if bool_decide (is_Some memo) then fail "memos are not valid for challenge transactions with a muxed client account"
          else Some (Ok tt)
      end
  end.

Definition challenge_params (server clientAccountID webAuthDomain homeDomain nonceB64 : bytes) (now timebound : Z) (memo : option Z) :
    TransactionParams :=
  mkParams (Some (mkSimpleAccount server 0)) false
    [mkTxOperation clientAccountID (ManageData (homeDomain ++ str " auth") (Some nonceB64));
     mkTxOperation server (ManageData (str "web_auth_domain") (Some webAuthDomain))]
    MinBaseFee (option_map TxMemoID memo) (only_time (NewTimebounds (Unix now) (Unix (now + timebound)))).

(** A server key that is an address has no secret: the type assertion panics. *)
Definition BuildChallengeTx (randomNonce : option bytes) (now : Z)
    (serverSignerSecret clientAccountID webAuthDomain homeDomain network : bytes) (timebound : Z) (memo : option Z) :
    option (result txn_error Tx) :=
  if timebound <? Second then fail "provided timebound must be at least 1s (300s is recommended)"
  else
    try! serverKP := wrapped (keypair_Parse serverSignerSecret) "key" in
    try! randomNonce := required randomNonce "rand" in
    let nonceB64 := StdEncoding_EncodeToString randomNonce in
    if negb (go_len nonceB64 =? 64) then fail "64 byte long random nonce required"
    else
      try! _ := challenge_account clientAccountID memo in
      try! tx := NewTransaction (challenge_params (KP_Address serverKP) clientAccountID webAuthDomain homeDomain nonceB64
                                   now timebound memo) in
      match serverKP with
      | KP_FromAddress _ => None
      | KP_Full kp => Tx_Sign tx network [kp]
      end.

(** ** Signatures of a transaction *)

(** The first signature that is not used and is of the key, from index [i] on. *)
Fixpoint find_signature (kp : FromAddress) (txHash : Hash) (signatureUsed : list nat) (i : nat) (sigs : list DecoratedSignature) :
    option nat :=
  match sigs with
  | [] => None
  | decSig :: sigs =>
      if bool_decide (i ∉ signatureUsed) && bool_decide (sig_Hint decSig = FromAddress_Hint kp) &&
         bool_decide (FromAddress_Verify kp (vec_to_list txHash) (sig_Signature decSig) = None)
      then Some i
      else find_signature kp txHash signatureUsed (S i) sigs
  end.

(** The set of signers that are found. *)
Fixpoint find_signers (txHash : Hash) (sigs : list DecoratedSignature) (signatureUsed : list nat) (signersFound : list bytes)
    (signers : list bytes) : result txn_error (list bytes) :=
  match signers with
  | [] => Ok signersFound
  | signer :: signers =>
      match ParseAddress signer with
      | Err _ => Err (Failed (str "signer not address"))
      | Ok kp =>
          match find_signature kp txHash signatureUsed 0 sigs with
          | Some i => find_signers txHash sigs (i :: signatureUsed) (signer :: signersFound) signers
          | None => find_signers txHash sigs signatureUsed signersFound signers
          end
      end
  end.

(** The signers in the order of the argument, each once. *)
Fixpoint found_list (signersFound : list bytes) (signers : list bytes) : list bytes :=
  match signers with
  | [] => []
  | signer :: signers =>
      if bool_decide (signer ∈ signersFound) then signer :: found_list (filter (fun s => s <> signer) signersFound) signers
      else found_list signersFound signers
  end.

Definition verifyTxSignatures (tx : Tx) (network : bytes) (signers : list bytes) : option (result txn_error (list bytes)) :=
  try! txHash := wrapped (Tx_Hash tx network) "hash" in
  let! sigs := Signatures tx in
  try! signersFound := Some (find_signers txHash sigs [] [] signers) in
  Some (Ok (found_list signersFound signers)).

(** An error is also a signer that is not found. *)
Definition verifyTxSignature (tx : Tx) (network signer : bytes) : option (result txn_error unit) :=
  let! r := verifyTxSignatures tx network [signer] in
  match r with
  | Ok (_ :: _) => Some (Ok tt)
  | _ => fail "transaction not signed by"
  end.

(** ** Reading a challenge *)
Definition gracePeriod : Z := 5 * 60.

Definition read_bounds (now : Z) (t : TxTimeBounds) : option (result txn_error unit) :=
  if tb_MaxTime t =? TimeoutInfinite then fail "transaction requires non-infinite timebounds"
  else
    let currentTime := Unix now in
    if (i64 (currentTime + gracePeriod) <? tb_MinTime t) || (tb_MaxTime t <? currentTime) then
      fail "transaction is not within range of the specified timebounds"
    else Some (Ok tt).

(** The source, the name and the value of an operation on data. *)
Definition read_data (op : TxOperation) : option (result txn_error (bytes * bytes * option bytes)) :=
  match Op op with
  | ManageData name value =>
      if bool_decide (GetSourceAccount op = []) then fail "operation should have a source account"
      else Some (Ok (GetSourceAccount op, name, value))
  | _ => fail "operation type should be manage_data"
  end.

(** The first of the domains that the name is of. *)
Fixpoint match_domain (name : bytes) (homeDomains : list bytes) : bytes :=
  match homeDomains with
  | [] => []
  | homeDomain :: homeDomains =>
      if bool_decide (name = homeDomain ++ str " auth") then homeDomain else match_domain name homeDomains
  end.

Definition is_muxed (m : MuxedAccount_) : bool := match m with KeyTypeMuxedEd25519 _ _ => true | _ => false end.
Definition read_memo (muxed : bool) (memo : option TxMemo) : option (result txn_error (option Z)) :=
  match memo with
  | None => Some (Ok None)
  | Some m =>
      if muxed then fail "memos are not valid for challenge transactions with a muxed client account"
      else match m with
      | TxMemoID id => Some (Ok (Some id))
      | _ => fail "invalid memo, only ID memos are permitted"
      end
  end.
Definition read_nonce (nonceB64 : bytes) : option (result txn_error unit) :=
  if negb (go_len nonceB64 =? 64) then fail "random nonce encoded as base64 should be 64 bytes long"
  else match StdEncoding_DecodeString nonceB64 with
  | None => fail "failed to decode random nonce provided in manage_data operation"
  | Some nonceBytes =>
      if negb (go_len nonceBytes =? 48) then fail "random nonce before encoding as base64 should be 48 bytes long"
      else Some (Ok tt)
  end.
Fixpoint read_subsequent (serverAccountID webAuthDomain : bytes) (l : list TxOperation) : option (result txn_error unit) :=
  match l with
  | [] => Some (Ok tt)
  | op :: l =>
      try! (source, name, value) := read_data op in
      if bool_decide (name = str "web_auth_domain") then
        if negb (bool_decide (source = serverAccountID)) then fail "web auth domain operation must have server source account"
        else if negb (bool_decide (default [] value = webAuthDomain)) then fail "web auth domain operation value"
        else read_subsequent serverAccountID webAuthDomain l
      else if negb (bool_decide (source = serverAccountID)) then fail "subsequent operations are unrecognized"
      else read_subsequent serverAccountID webAuthDomain l
  end.

Record ReadChallenge : Type := mkRead { read_tx : Tx; clientAccountID : bytes; matchedHomeDomain : bytes; read_memo_id : option Z }.

Definition ReadChallengeTx (now : Z) (challengeTx serverAccountID network webAuthDomain : bytes) (homeDomains : list bytes) :
    option (result txn_error ReadChallenge) :=
  try! parsed := rewrap (TransactionFromXDR challengeTx) "could not parse challenge" in
  match simple parsed with
  | None => fail "challenge cannot be a fee bump transaction"
  | Some tx =>
      let! source := env_SourceAccount (envelope tx) in
      if is_muxed source then fail "invalid source account: only valid Ed25519 accounts are allowed in challenge transactions"
      else if negb (bool_decide (AccountID (sourceAccount tx) = serverAccountID)) then
        fail "transaction source account is not equal to server's account"
      else if negb (Sequence (sourceAccount tx) =? 0) then fail "transaction sequence number must be 0"
      else
        try! _ := read_bounds now (TimeBounds (preconditions tx)) in
        match operations tx with
        | [] => fail "transaction requires at least one manage_data operation"
        | op :: subsequent =>
            try! (client, name, value) := read_data op in
            let matched := match_domain name homeDomains in
            if bool_decide (matched = []) then fail "operation key does not match any homeDomains passed"
            else
              let! xdrOps := env_Operations (envelope tx) in
              let! xdrOp := head xdrOps in
              let! firstOpSource := xop_SourceAccount xdrOp in
              try! memo := read_memo (is_muxed firstOpSource) (memo tx) in
              try! _ := read_nonce (default [] value) in
              try! _ := read_subsequent serverAccountID webAuthDomain subsequent in
              try! _ := verifyTxSignature tx network serverAccountID in
              Some (Ok (mkRead tx client matched memo))
        end
  end.

(** ** Verifying a challenge *)

(** The signers that are accounts and not the server, each once. *)
Fixpoint client_signers (server : bytes) (seen : list bytes) (signers : list bytes) : option (list bytes) :=
  match signers with
  | [] => Some []
  | signer :: signers =>
      if bool_decide (signer = server) then client_signers server seen signers
      else if bool_decide (signer ∈ seen) then client_signers server seen signers
      else
        let! version := Version signer in
        if match version with Ok v => bool_decide (v = VersionByteAccountID) | Err _ => false end then
          let! rest := client_signers server (signer :: seen) signers in
          Some (signer :: rest)
        else client_signers server seen signers
  end.

Definition VerifyChallengeTxSigners (now : Z) (challengeTx serverAccountID network webAuthDomain : bytes) (homeDomains : list bytes)
    (signers : list bytes) : option (result txn_error (list bytes)) :=
  try! challenge := ReadChallengeTx now challengeTx serverAccountID network webAuthDomain homeDomains in
  let tx := read_tx challenge in
  try! serverKP := wrapped (ParseAddress serverAccountID) "key" in
  let server := kp_address serverKP in
  let! clientSigners := client_signers server [] signers in
  if bool_decide (clientSigners = []) then
    fail "no verifiable signers provided, at least one G... address must be provided"
  else
    try! allSignersFound := verifyTxSignatures tx network (server :: clientSigners) in
    let signersFound := filter (fun s => s <> server) allSignersFound in
    let! sigs := Signatures tx in
    if negb (bool_decide (server ∈ allSignersFound)) then fail "transaction not signed by"
    else if bool_decide (signersFound = []) then fail "transaction not signed by"
    else if negb (length allSignersFound =? length sigs)%nat then fail "transaction has unrecognized signatures"
    else Some (Ok signersFound).

(** The weights of signers in an order in which the map may be iterated; the sum wraps. *)
Definition weight_of (signerSummary : list (bytes * Z)) (signer : bytes) : Z :=
  match list_find (fun p => p.1 = signer) signerSummary with Some (_, p) => p.2 | None => 0 end.
Definition VerifyChallengeTxThreshold (now : Z) (challengeTx serverAccountID network webAuthDomain : bytes) (homeDomains : list bytes)
    (threshold : Z) (signerSummary : list (bytes * Z)) : option (result txn_error (list bytes)) :=
  try! signersFound := VerifyChallengeTxSigners now challengeTx serverAccountID network webAuthDomain homeDomains (map fst signerSummary) in
  let weight := fold_left (fun w s => i32 (w + weight_of signerSummary s)) signersFound 0 in
  if weight <? threshold then fail "signers with weight do not meet threshold"
  else Some (Ok signersFound).
End Challenge.
