(* ===== verification/ChallengeSpec.v ===== *)
(** * What a verified challenge means

    The signatures of a transaction that verifies are one of the server and one of each
    signer that is returned: each signature counts once, and none is left over. *)
From Stdlib Require Import ZArith Lia.
From stdpp Require Import base list list_relations vector option.
From S2P Require Import Prelude GoStd GoExt Encodings Strkey Asset LedgerEntries CloseMeta Accounts Envelopes TokenDeltas Keypair TxnXdr TxnAssets.
From S2P Require Import TxnOperations TxnTransaction Challenge.
#[local] Open Scope Z_scope.
#[local] Open Scope go_scope.

Section Sound.
Context {ED : Ed25519} {ET : EntryTypes} {ST : SorobanTypes} {TC : TransactionCodec}.
Implicit Types (h : Hash) (sigs : list DecoratedSignature) (signers found : list bytes).

(** A signature with the hint of an account's key that verifies with it. *)
Definition signed_by (h : Hash) (signer : bytes) (s : DecoratedSignature) : Prop :=
  exists k, signer = account_address k /\ sig_Hint s = key_hint k /\ verify_with k (vec_to_list h) (sig_Signature s) = None.

(** The signatures are one of each of the signers. *)
Definition signatures_of (h : Hash) (signers : list bytes) (sigs : list DecoratedSignature) : Prop :=
  exists l, l ≡ₚ signers /\ Forall2 (signed_by h) l sigs.

(** ** The search for signatures *)
Lemma find_signature_Some kp h used i sigs j : find_signature kp h used i sigs = Some j ->
  (i <= j)%nat /\ j ∉ used /\ exists s, sigs !! (j - i)%nat = Some s /\
  sig_Hint s = FromAddress_Hint kp /\ FromAddress_Verify kp (vec_to_list h) (sig_Signature s) = None.
Proof.
  revert i. induction sigs as [|s sigs IH]; intros i; cbn; [done|]. destruct (_ && _) eqn:E.
  - intros [= <-]. apply andb_true_iff in E as [E Hv]. apply andb_true_iff in E as [Hu Hh].
    rewrite Nat.sub_diag. split; [lia|]. split; [by apply bool_decide_eq_true_1 in Hu|]. exists s.
    by apply bool_decide_eq_true_1 in Hh, Hv.
  - intros H. apply IH in H as (? & ? & s' & Hs & ?). split; [lia|]. split; [done|]. exists s'.
    by replace (j - i)%nat with (S (j - S i)) by lia.
Qed.

(** The signers found, each with the index of a signature of its own. *)
Lemma find_signers_Ok h sigs used found signers found' :
  find_signers h sigs used found signers = Ok found' ->
  exists pairs : list (bytes * nat), found' = reverse (pairs.*1) ++ found /\ pairs.*1 `sublist_of` signers /\
    NoDup pairs.*2 /\ (forall i, i ∈ pairs.*2 -> i ∉ used) /\
    Forall (fun p => exists s, sigs !! p.2 = Some s /\ signed_by h p.1 s) pairs.
Proof.
  revert used found. induction signers as [|signer signers IH]; intros used found; cbn [find_signers].
  - intros [= <-]. exists []. repeat split; try done; [constructor|]. by intros ? ?%elem_of_nil.
  - destruct (ParseAddress signer) as [kp|] eqn:P; [|done]. apply ParseAddress_Ok in P as [-> Ha].
    destruct (find_signature _ _ _ _ _) as [j|] eqn:F; intros H; apply IH in H as (pairs & -> & Hsub & Hnd & Hu & Hall).
    + apply find_signature_Some in F as (_ & Hj & s & Hs & Hh & Hv). rewrite Nat.sub_0_r in Hs.
      exists ((account_address (kp_publicKey kp), j) :: pairs). rewrite !fmap_cons, reverse_cons, <- app_assoc. split; [done|].
      split; [by apply sublist_skip|]. split; [constructor; [intros Hin; apply (Hu j Hin); left|done]|]. split.
      * intros i [->|Hi]%elem_of_cons; [done|]. intros Hi'. apply (Hu i Hi). by right.
      * constructor; [|done]. exists s. split; [done|]. by exists (kp_publicKey kp).
    + exists pairs. split; [done|]. split; [by constructor|done].
Qed.

Lemma found_list_sublist l signers : l `sublist_of` signers -> NoDup signers ->
  forall found, (forall x, x ∈ found <-> x ∈ l) -> found_list found signers = l.
Proof.
  induction 1 as [|x l signers Hs IH|x l signers Hs IH]; intros Hnd found Hf; cbn [found_list]; [done| |]; inversion_clear Hnd as [|? ? Hx Hnd'].
  - rewrite bool_decide_eq_true_2 by (apply Hf; left). f_equal. apply IH; [done|]. intros y.
    rewrite list_elem_of_filter, Hf, elem_of_cons. assert (y ∈ l -> y ∈ signers) by (intros Hy; by eapply sublist_subseteq).
    naive_solver.
  - rewrite bool_decide_eq_false_2; [by apply IH|]. rewrite Hf. intros Hin. apply Hx. by eapply sublist_subseteq.
Qed.

(** Signers with the index of a signature of theirs. *)
Definition witnessed (h : Hash) (sigs : list DecoratedSignature) (pairs : list (bytes * nat)) : Prop :=
  NoDup pairs.*2 /\ Forall (fun p => exists s, sigs !! p.2 = Some s /\ signed_by h p.1 s) pairs.

(** What [verifyTxSignatures] returns of signers that are all different. *)
Lemma verifyTxSignatures_Ok tx network signers found : NoDup signers ->
  verifyTxSignatures tx network signers = Some (Ok found) ->
  exists h sigs pairs, Tx_Hash tx network = Ok h /\ Signatures tx = Some sigs /\ found = pairs.*1 /\
    found `sublist_of` signers /\ witnessed h sigs pairs.
Proof.
  intros Hnd H. unfold verifyTxSignatures in H. run_ok H. injection H as <-. injection E1 as E1.
  apply find_signers_Ok in E1 as (pairs & -> & Hsub & Hn & _ & Hall). exists x, l, pairs.
  rewrite app_nil_r, (found_list_sublist pairs.*1) by (done || (intros; by rewrite elem_of_reverse)). done.
Qed.

(** When there are as many as signatures, all signatures are accounted for. *)
Lemma all_accounted h sigs pairs : length pairs = length sigs -> witnessed h sigs pairs -> signatures_of h pairs.*1 sigs.
Proof.
  intros Hlen [Hn Hall]. assert (Hp : seq 0 (length sigs) ≡ₚ pairs.*2).
  { symmetry. apply submseteq_length_Permutation; [|by rewrite length_seq, length_fmap, Hlen].
    apply NoDup_submseteq; [done|]. intros i Hi. apply list_elem_of_fmap in Hi as (p & -> & Hp).
    apply list_elem_of_lookup_1 in Hp as [n Hp]. rewrite Forall_lookup in Hall. destruct (Hall n p Hp) as (s & Hs & _). apply elem_of_seq. apply lookup_lt_Some in Hs. lia. }
  destruct (Permutation_map_inv _ _ Hp) as (pairs' & Hs & Hpp). exists pairs'.*1. split; [by rewrite Hpp|].
  rewrite Hpp in Hall. assert (Hlen' : length pairs' = length sigs) by (by rewrite <- Hpp).
  apply Forall2_same_length_lookup_2; [by rewrite length_fmap|]. intros i signer s Hi Hsig.
  apply list_lookup_fmap_Some in Hi as (p & -> & Hi). rewrite Forall_lookup in Hall. destruct (Hall i p Hi) as (s' & Hs' & Hb).
  assert (Hi2 : pairs'.*2 !! i = Some p.2) by (by rewrite list_lookup_fmap, Hi).
  change (pairs'.*2) with (map snd pairs') in Hi2. rewrite <- Hs in Hi2. apply lookup_seq in Hi2 as [Hi2 _]. cbn in Hi2.
  rewrite Hi2, Hsig in Hs'. by injection Hs' as ->.
Qed.

(** ** Challenges *)

(** An operation on data of an account, by the account's address. *)
Definition data_operation (op : XdrOperation) (source name : bytes) (value : option bytes) : Prop :=
  exists m dv, xop_SourceAccount op = Some m /\ muxed_address m = source /\
    xop_Body op = OperationTypeManageData name dv /\ default None dv = value.

Definition subsequent_ok (server webAuthDomain : bytes) (op : XdrOperation) : Prop :=
  exists name value, data_operation op server name value /\
    (name = str "web_auth_domain" -> default [] value = webAuthDomain).

Definition nonce_value (value : option bytes) : Prop :=
  length (default [] value) = 64%nat /\
  exists nonce, StdEncoding_DecodeString (default [] value) = Some nonce /\ length nonce = 48%nat.

Definition challenge_memo (client : MuxedAccount_) (m : Memo_) : Prop :=
  m = MemoTypeMemoNone \/ (is_muxed client = false /\ exists id, m = MemoTypeMemoId id).

(** The time bounds a reader keeps. *)
Definition time_window (cond : XdrPreconditions) : TxTimeBounds := TimeBounds (Preconditions_FromXDR cond).1.

(** A transaction of the server that is never valid on the network, for its number, and
    names the client and one of the domains. *)
Record challenge (now : Z) (e : XdrEnvelope) (server webAuthDomain : bytes) (homeDomains : list bytes) (client home : bytes) : Prop := {
  challenge_simple : env_IsFeeBump e = false;
  challenge_server : exists k, env_SourceAccount e = Some (KeyTypeEd25519 k) /\ server = account_address k;
  challenge_sequence : env_SeqNum e = Some 0;
  challenge_time : exists cond, env_Preconditions e = Some cond /\ tb_MaxTime (time_window cond) <> 0 /\
    tb_MinTime (time_window cond) <= i64 (Unix now + 300) /\ Unix now <= tb_MaxTime (time_window cond);
  challenge_operations : exists op rest value m, env_Operations e = Some (op :: rest) /\
    data_operation op client (home ++ str " auth") value /\ nonce_value value /\ Forall (subsequent_ok server webAuthDomain) rest /\
    xop_SourceAccount op = Some m /\ exists memo, env_Memo e = Some memo /\ challenge_memo m memo;
  challenge_home : home ∈ homeDomains /\ home <> []
}.

(** ** What was parsed *)
Lemma Body_FromXDR_data body name value : Body_FromXDR body = Some (Ok (ManageData name value)) ->
  exists dv, body = OperationTypeManageData name dv /\ default None dv = value.
Proof.
  destruct body; cbn [Body_FromXDR]; parse_unfold; intros H; run_ok H; try done.
  injection H as <- <-. by eexists.
Qed.

Lemma accountFromXDR_Some source a : accountFromXDR source = Some a -> a = default [] (muxed_address <$> source).
Proof. destruct source as [m|]; cbn; [rewrite Muxed_Address_Some|]; congruence. Qed.

Lemma read_data_Ok op xdrOp ext source name value :
  operationFromXDR xdrOp = Some (Ok op) -> read_data (with_ext ext op) = Some (Ok (source, name, value)) ->
  data_operation xdrOp source name value.
Proof.
  intros P H. unfold operationFromXDR in P. run_ok P. injection P as <-.
  assert (Hop : Op (with_ext ext (mkTxOperation l x)) = ManageData name value /\ GetSourceAccount (with_ext ext (mkTxOperation l x)) = source /\ source <> []).
  { unfold read_data in H. destruct (Op (with_ext _ _)) eqn:EO; try done. case_bool_decide; [done|]. by injection H as <- <- <-. }
  destruct Hop as (Hop & Hs & Hn). assert (He : with_ext ext (mkTxOperation l x) = mkTxOperation l x).
  { revert Hop. unfold with_ext. destruct ext, x; cbn; done. }
  rewrite He in Hop, Hs. cbn in Hop, Hs. subst x l. apply Body_FromXDR_data in E as (dv & Hb & Hv).
  apply accountFromXDR_Some in E0. destruct (xop_SourceAccount xdrOp) as [m|] eqn:Em; cbn in E0; [|done]. by exists m, dv.
Qed.

Lemma operations_FromXDR_Ok ext l ops : operations_FromXDR ext l = Some (Ok ops) ->
  Forall2 (fun xop op => exists op0, operationFromXDR xop = Some (Ok op0) /\ op = with_ext ext op0) l ops.
Proof.
  revert ops. induction l as [|xop l IH]; intros ops; cbn [operations_FromXDR]; [intros [= <-]; constructor|].
  intros H. run_ok H. injection H as <-. constructor; [by exists x|by apply IH].
Qed.

Lemma read_subsequent_Ok server web ext l ops : operations_FromXDR ext l = Some (Ok ops) ->
  read_subsequent server web ops = Some (Ok tt) -> Forall (subsequent_ok server web) l.
Proof.
  intros H. apply operations_FromXDR_Ok in H. induction H as [|xop op l ops (op0 & Hop & ->) H IH]; cbn [read_subsequent]; [constructor|].
  intros R. apply try_bind_Ok in R as ([[source name] value] & R0 & R). apply (read_data_Ok _ _ _ _ _ _ Hop) in R0.
  constructor.
  - exists name, value. case_bool_decide.
    + run_ok R. apply negb_false_iff, bool_decide_eq_true_1 in E, E0. by subst source.
    + run_ok R. apply negb_false_iff, bool_decide_eq_true_1 in E. by subst source.
  - case_bool_decide; run_ok R; by apply IH.
Qed.

Lemma match_domain_elem name homes : match_domain name homes <> [] ->
  match_domain name homes ∈ homes /\ name = match_domain name homes ++ str " auth".
Proof.
  induction homes as [|d homes IH]; cbn [match_domain]; [done|]. case_bool_decide as E; intros Hn.
  - split; [left|done].
  - destruct (IH Hn). split; [by right|done].
Qed.

Lemma read_bounds_Ok now t : read_bounds now t = Some (Ok tt) ->
  tb_MaxTime t <> 0 /\ tb_MinTime t <= i64 (Unix now + 300) /\ Unix now <= tb_MaxTime t.
Proof. unfold read_bounds, gracePeriod, TimeoutInfinite. intros H. run_ok H. bool_to_prop. done. Qed.

Lemma read_nonce_Ok value : read_nonce (default [] value) = Some (Ok tt) -> nonce_value value.
Proof.
  unfold read_nonce. intros H. run_ok H. destruct (StdEncoding_DecodeString _) as [nonce|] eqn:D; [|done]. run_ok H.
  unfold go_len in *. bool_to_prop. split; [lia|]. exists nonce. split; [done|lia].
Qed.

Lemma read_memo_Ok client m mm id : memoFromXDR m = Ok mm -> read_memo (is_muxed client) mm = Some (Ok id) -> challenge_memo client m.
Proof.
  unfold read_memo. destruct m; cbn; intros H; try discriminate H; injection H as <-; [by left|..]; intros R; run_ok R; try done.
  right. split; [done|by eexists].
Qed.

Lemma verifyTxSignature_Ok tx network signer : verifyTxSignature tx network signer = Some (Ok tt) ->
  exists h sigs s, Tx_Hash tx network = Ok h /\ Signatures tx = Some sigs /\ s ∈ sigs /\ signed_by h signer s.
Proof.
  unfold verifyTxSignature. intros H. destruct (verifyTxSignatures _ _ _) as [[[|a found]|]|] eqn:V; try done.
  apply verifyTxSignatures_Ok in V as (h & sigs & pairs & Hh & Hs & Hf & Hsub & _ & Hall); [|by apply NoDup_singleton].
  destruct pairs as [|[a' i] pairs]; [done|]. injection Hf as <- ->. inversion_clear Hall as [|? ? (s & Hi & Hb) _].
  apply sublist_subseteq in Hsub. assert (a ∈ [signer]) as ->%list_elem_of_singleton by (apply Hsub; left).
  exists h, sigs, s. repeat split; try done. by eapply list_elem_of_lookup_2.
Qed.

(** A challenge that is read is one, and the server signed it. *)
Lemma ReadChallengeTx_Ok now text server network web homes r :
  ReadChallengeTx now text server network web homes = Some (Ok r) ->
  exists e h, SafeUnmarshalBase64 text = Some e /\ simpleFromParsedXDR e = Some (Ok (read_tx r)) /\
    challenge now e server web homes (clientAccountID r) (matchedHomeDomain r) /\
    network_HashTransactionInEnvelope e network = Ok h /\
    exists sigs s, env_Signatures e = Some sigs /\ s ∈ sigs /\ signed_by h server s.
Proof.
  unfold ReadChallengeTx, TransactionFromXDR. intros H. run_ok H. apply rewrap_Ok in E.
  destruct (SafeUnmarshalBase64 text) as [e|] eqn:D; [|done]. destruct (simple x) as [tx|] eqn:S; [|done].
  destruct (transactionFromParsedXDR_simple _ _ _ E S) as [Hb P]. run_ok H.
  destruct (simpleFromParsedXDR_Ok _ _ P) as (source & cond & m' & ops & Hsrc & Hseq & Hcond & Hmemo & Hops & He & Ha & Hp & Hm & Ho).
  destruct (operations tx) as [|op subsequent] eqn:EO; [done|]. run_ok H.
  destruct x1 as [[client name] value]. run_ok H. injection H as <-. cbn [read_tx clientAccountID matchedHomeDomain].
  destruct x0, x3, x4, x5. destruct m as [k|]; [|done]. subst e. simplify_eq.
  apply verifyTxSignature_Ok in E13 as (h & sigs & s & Hh & Hs & Hin & Hsig). unfold Tx_Hash, Signatures in *.
  exists (envelope tx), h. repeat (split; [done|]). split; [|split; [done|by exists sigs, s]].
  apply negb_false_iff, bool_decide_eq_true_1 in E2. apply negb_false_iff, Z.eqb_eq in E3. apply bool_decide_eq_false_1 in E6.
  destruct l as [|xop rest]; [done|]. injection E8 as ->.
  destruct (match_domain_elem _ _ E6) as [Hd Hname].
  pose proof Ho as Ho'. cbn [operations_FromXDR] in Ho'. run_ok Ho'. injection Ho' as <- <-.
  split; try done.
  - exists k. by rewrite <- E2, Ha.
  - by rewrite Hseq, E3.
  - exists cond. split; [done|]. unfold time_window. rewrite <- Hp. by apply read_bounds_Ok.
  - exists x1, rest, value, m0. split; [done|]. split; [rewrite <- Hname; by eapply read_data_Ok|].
    split; [by apply read_nonce_Ok|].
    split; [by eapply read_subsequent_Ok|]. split; [done|]. exists m'. split; [done|]. by eapply read_memo_Ok.
Qed.

Lemma client_signers_Ok server seen signers l : client_signers server seen signers = Some l ->
  NoDup l /\ forall x, x ∈ l -> x ∉ seen /\ x <> server /\ x ∈ signers.
Proof.
  revert seen l. induction signers as [|signer signers IH]; intros seen l; cbn [client_signers].
  { intros [= <-]. split; [constructor|]. by intros x ?%elem_of_nil. }
  assert (Hskip : client_signers server seen signers = Some l ->
    NoDup l /\ forall x, x ∈ l -> x ∉ seen /\ x <> server /\ x ∈ signer :: signers).
  { intros H. destruct (IH _ _ H) as [Hn Hx]. split; [done|]. intros x Hi. destruct (Hx x Hi) as (? & ? & ?).
    repeat split; try done. by right. }
  case_bool_decide as Es; [done|]. case_bool_decide as Eseen; [done|]. intros H. run_ok H.
  destruct (match r with Ok v => bool_decide _ | Err _ => false end); [|by apply Hskip].
  run_ok H. injection H as <-. destruct (IH _ _ E0) as [Hn Hx]. split.
  - constructor; [|done]. intros Hi. destruct (Hx _ Hi) as [Hs _]. apply Hs. left.
  - intros x [->|Hi]%elem_of_cons; [repeat split; try done; left|]. destruct (Hx x Hi) as (Hs & ? & ?).
    repeat split; [|done|by right]. intros Hin. apply Hs. by right.
Qed.

(** Without the server the rest is left. *)
Lemma NoDup_without (x : bytes) l : NoDup l -> x ∈ l -> l ≡ₚ x :: filter (fun s => s <> x) l.
Proof.
  intros Hn Hx. apply NoDup_Permutation; [done|..].
  - constructor; [rewrite list_elem_of_filter; naive_solver|by apply list.NoDup_filter].
  - intros y. rewrite elem_of_cons, list_elem_of_filter. destruct (decide (y = x)) as [->|]; naive_solver.
Qed.

(** C15: A text that verifies is a challenge of the server, within its time, that names a
    client; and its signatures are exactly one of the server and one of each signer
    that is returned. Those are accounts of the list that was given, all different,
    without the server, and at least one. *)
Theorem VerifyChallengeTxSigners_sound now text server network web homes signers found :
  VerifyChallengeTxSigners now text server network web homes signers = Some (Ok found) ->
  exists e h sigs client home, SafeUnmarshalBase64 text = Some e /\ challenge now e server web homes client home /\
    network_HashTransactionInEnvelope e network = Ok h /\ env_Signatures e = Some sigs /\
    signatures_of h (server :: found) sigs /\ NoDup (server :: found) /\ found <> [] /\ found ⊆ signers.
Proof.
  unfold VerifyChallengeTxSigners. intros H. run_ok H. injection H as <-. apply ReadChallengeTx_Ok in E as (e & h & Ht & P & C & Hh & _).
  destruct (simpleFromParsedXDR_Ok _ _ P) as (_ & _ & _ & _ & _ & _ & _ & _ & _ & He & _). subst e.
  apply ParseAddress_Ok in E0 as [_ Hk]. rewrite Hk in *. apply client_signers_Ok in E1 as [Hn Hx].
  assert (Hnd : NoDup (server :: l)) by (constructor; [intros Hi; by destruct (Hx _ Hi) as (_ & ? & _)|done]).
  apply verifyTxSignatures_Ok in E3 as (h' & sigs & pairs & Hh' & Hs & -> & Hsub & Hw); [|done].
  rewrite Hs in E4. injection E4 as <-. unfold Tx_Hash in Hh'. rewrite Hh in Hh'. injection Hh' as <-.
  apply negb_false_iff, bool_decide_eq_true_1 in E5. apply bool_decide_eq_false_1 in E6.
  apply negb_false_iff, Nat.eqb_eq in E7. rewrite length_fmap in E7.
  assert (Hp := NoDup_without server _ (sublist_NoDup _ _ Hnd Hsub) E5).
  exists (envelope (read_tx x)), h, sigs, (clientAccountID x), (matchedHomeDomain x). repeat (split; [done|]). split.
  { destruct (all_accounted _ _ _ E7 Hw) as (l' & Hl & Hall). exists l'. split; [by transitivity (pairs.*1)|done]. }
  split; [rewrite <- Hp; by eapply sublist_NoDup|]. split; [done|].
  intros y [Hy Hin]%list_elem_of_filter. apply (sublist_subseteq _ _ Hsub) in Hin as [?|Hin]%elem_of_cons; [done|].
  by destruct (Hx y Hin) as (_ & _ & ?).
Qed.
End Sound.

(** ** A challenge that verifies *)
Module SampleChallenge.
Import LedgerEntries.ConcreteKeys ToyCurve.

#[export] Instance opaque_soroban : SorobanTypes := {| HostFunction := unit; SorobanAuthorizationEntry := unit |}.
(** Transactions are told apart by their fees and times. *)
Definition marshal (tx : XdrTransaction) : option bytes :=
  Some (be_put 4 (xtx_Fee tx) ++ match xtx_Cond tx with PrecondTime t => be_put 8 (MinTime t) ++ be_put 8 (MaxTime t) | _ => [] end).
Definition codec (decoded : option XdrEnvelope) : TransactionCodec := {|
  Transaction_MarshalBinary := marshal;
  FeeBump_MarshalBinary _ _ _ := None;
  Envelope_MarshalBinary _ := None;
  SafeUnmarshalBase64 _ := decoded
|}.

Definition key (n : Z) : vec byte 32 := copy_array (zero_array 32) (replicate 32 (byte_of_Z n)).
Definition pair (n : Z) : Full :=
  match FromRawSeed (key n) with
  | Ok kp => kp
  | Err _ => mkFull [] [] (key 0) (key 0)
  end.
Definition server : Full := pair 1.
Definition client : Full := pair 2.
Definition now : Z := 1700000000 * Second.
Definition network : bytes := str "Test SDF Network ; September 2015".
Definition nonce : bytes := replicate 48 (byte_of_Z 7).

(** The challenge with the server's signature, and then with the client's. *)
Definition built : option (result txn_error Tx) :=
  @BuildChallengeTx _ _ _ (codec None) (Some nonce) now (full_seed server) (full_address client) (str "auth.example.org")
    (str "example.org") network (300 * Second) None.
Definition zero_tx : Tx :=
  mkTransaction (XdrEnvelopeTxV0 (mkXdrTransactionV0 (key 0) 0 0 None MemoTypeMemoNone []) []) 0 0 (mkSimpleAccount [] 0) [] None zero_preconditions.
Definition ok_tx (r : option (result txn_error Tx)) : Tx := match r with Some (Ok t) => t | _ => zero_tx end.
Definition signed : Tx := ok_tx (@Tx_Sign _ _ _ (codec None) (ok_tx built) network [client]).

#[export] Instance sample_codec : TransactionCodec := codec (Some (envelope signed)).

Lemma VerifyChallengeTxSigners_sound_witness :
  exists e h sigs client' home, SafeUnmarshalBase64 (str "challenge") = Some e /\
    challenge (now + 10 * Second) e (full_address server) (str "auth.example.org") [str "example.org"] client' home /\
    network_HashTransactionInEnvelope e network = Ok h /\ env_Signatures e = Some sigs /\
    signatures_of h [full_address server; full_address client] sigs /\ NoDup [full_address server; full_address client] /\
    [full_address client] <> [] /\ [full_address client] ⊆ [full_address client; full_address server].
Proof.
  apply (VerifyChallengeTxSigners_sound (now + 10 * Second) (str "challenge") (full_address server) network (str "auth.example.org")
    [str "example.org"] [full_address client; full_address server] [full_address client]). vm_compute. reflexivity.
Defined.
End SampleChallenge.

(** ** A signed challenge verifies

    What [BuildChallengeTx] returns, and that its signers are found when none of their
    signatures verifies with the key of another that has the same hint. *)
Section Complete.
Context {ED : Ed25519} {EL : Ed25519Laws ED}.
Context {ET : EntryTypes} {ST : SorobanTypes} {TC : TransactionCodec}.
Implicit Types (h : Hash) (kps : list Full) (signers : list bytes).

(** ** Which signature is found *)

(** Of the signatures of a hash by some pairs, those that are tried with a key, for its
    hint is theirs, and that verify with it are by the pair of that key. *)
Definition only_own h kps (k : PublicKey) : Prop :=
  forall kp, kp ∈ kps -> Full_Hint kp = key_hint k -> ed25519_Verify k (vec_to_list h) (Full_Sign kp (vec_to_list h)) = true ->
    full_publicKey kp = k.

(** Keys of different hints need no more. *)
Lemma only_own_hints h kps k : (forall kp, kp ∈ kps -> Full_Hint kp = key_hint k -> full_publicKey kp = k) -> only_own h kps k.
Proof. intros H kp Hkp Hh _. by apply H. Qed.

Lemma only_own_verifies h kps k kp : only_own h kps k -> kp ∈ kps -> Full_Hint kp = key_hint k ->
  verify_with k (vec_to_list h) (Full_Sign kp (vec_to_list h)) = None -> full_publicKey kp = k.
Proof.
  intros Ho Hkp Hh. unfold verify_with. destruct (negb (go_len _ =? 64)); [done|].
  destruct (ed25519_Verify _ _ _) eqn:V; [|done]. intros _. by apply Ho.
Qed.

(** The signature of [kp] is that of a key, when it is its key. *)
Definition sign_all (h : Hash) (kps : list Full) : list DecoratedSignature := map (fun kp => SignDecorated kp (vec_to_list h)) kps.

Lemma find_signature_none k a h used i kps : only_own h kps k ->
  (forall j kp, kps !! j = Some kp -> full_publicKey kp = k -> (i + j)%nat ∈ used) ->
  find_signature (mkFromAddress a k) h used i (sign_all h kps) = None.
Proof.
  revert i. induction kps as [|kp kps IH]; intros i Ho Hu; cbn [sign_all map find_signature]; [done|].
  destruct (_ && _) eqn:E.
  - apply andb_true_iff in E as [E Hv]. apply andb_true_iff in E as [Hi Hh].
    apply bool_decide_eq_true_1 in Hi, Hv, Hh. exfalso. apply Hi. rewrite <- (Nat.add_0_r i). apply (Hu 0%nat kp); [done|].
    apply (only_own_verifies h (kp :: kps)); [done|by left|done|done].
  - apply IH; [intros kp' Hkp'; apply Ho; by right|].
    intros j kp' Hj Hk. replace (S i + j)%nat with (i + S j)%nat by lia. by apply (Hu (S j) kp').
Qed.

Lemma find_signature_some k a h used i kps n kp : Forall full_ok kps -> only_own h kps k -> kps !! n = Some kp -> full_publicKey kp = k ->
  (i + n)%nat ∉ used -> NoDup (map full_publicKey kps) ->
  find_signature (mkFromAddress a k) h used i (sign_all h kps) = Some (i + n)%nat.
Proof.
  intros Hok. revert i n. induction Hok as [|kp0 kps Hkp Hok IH]; intros i n Ho Hn Hk Hu Hnd; [done|].
  cbn [map] in Hnd. inversion_clear Hnd as [|? ? Hnin Hnd']. cbn [sign_all map find_signature].
  destruct n as [|n]; cbn in Hn.
  - injection Hn as ->. rewrite Nat.add_0_r in *. rewrite !bool_decide_eq_true_2; [done|..|done].
    + rewrite <- Hk. by apply Full_Verify_Sign.
    + cbn. unfold FromAddress_Hint, Full_Hint. by rewrite <- Hk.
  - destruct (_ && _) eqn:E.
    + exfalso. apply andb_true_iff in E as [E Hv]. apply andb_true_iff in E as [_ Hh]. apply bool_decide_eq_true_1 in Hv, Hh.
      apply (only_own_verifies h (kp0 :: kps)) in Hv; [|done|by left|done]. apply Hnin. rewrite Hv, <- Hk.
      change (map full_publicKey kps) with (full_publicKey <$> kps). apply list_elem_of_fmap. exists kp.
      split; [done|by eapply list_elem_of_lookup_2].
    + replace (i + S n)%nat with (S i + n)%nat by lia. apply IH; try done; [intros kp' Hkp'; apply Ho; by right|].
      by replace (S i + n)%nat with (i + S n)%nat by lia.
Qed.

(** Signers that are accounts are found when they signed, and only then. *)
Lemma find_signers_all h kps used found signers : Forall full_ok kps -> (forall k, account_address k ∈ signers -> only_own h kps k) -> NoDup (map full_address kps) -> NoDup signers ->
  Forall (fun s => exists k, s = account_address k) signers ->
  (forall j kp, j ∈ used -> kps !! j = Some kp -> full_address kp ∉ signers) ->
  find_signers h (sign_all h kps) used found signers =
    Ok (reverse (filter (fun s => s ∈ map full_address kps) signers) ++ found).
Proof.
  intros Hok Hown Hnd. assert (Hkeys : NoDup (map full_publicKey kps)).
  { apply (NoDup_fmap_1 account_address). assert (account_address <$> map full_publicKey kps = map full_address kps) as ->; [|done].
    clear Hnd Hown. induction Hok as [|kp kps [E _] _ IH]; cbn; [done|]. by rewrite E, <- IH. }
  assert (Hadr : forall j kp, kps !! j = Some kp -> full_address kp = account_address (full_publicKey kp)).
  { intros j kp Hj. rewrite Forall_lookup in Hok. by apply (Hok j kp). }
  revert used found. induction signers as [|signer signers IH]; intros used found Hs Hacc Hu; cbn [find_signers]; [done|].
  specialize (IH (fun k Hk => Hown k ltac:(by right))).
  apply list.NoDup_cons in Hs as [Hnin Hs']. apply list.Forall_cons in Hacc as [[k ->] Hacc']. rewrite ParseAddress_account.
  pose proof (Hown k ltac:(by left)) as Hk0. rewrite filter_cons. destruct (decide (account_address k ∈ map full_address kps)) as [Hin|Hin].
  - assert (exists n kp, kps !! n = Some kp /\ full_publicKey kp = k) as (n & kp & Hn & Hk).
    { change (account_address k ∈ full_address <$> kps) in Hin. apply list_elem_of_fmap in Hin as (kp & E & Hkp).
      apply list_elem_of_lookup_1 in Hkp as [n Hn]. exists n, kp. split; [done|]. rewrite (Hadr n kp Hn) in E. symmetry. by apply (inj account_address). }
    assert (Hfree : n ∉ used). { intros Hi. apply (Hu n kp Hi Hn). rewrite (Hadr n kp Hn), Hk. left. }
    rewrite (find_signature_some k _ h used 0 kps n kp) by done. rewrite IH; try done.
    + by rewrite reverse_cons, <- app_assoc.
    + intros j kp' [->|Hj]%elem_of_cons Hkp'.
      * rewrite Nat.add_0_l in Hkp'. rewrite Hn in Hkp'. injection Hkp' as <-. by rewrite (Hadr n kp Hn), Hk.
      * intros Hi. apply (Hu j kp' Hj Hkp'). by right.
  - rewrite find_signature_none; [|done|].
    + apply IH; try done. intros j kp Hj Hkp Hi. apply (Hu j kp Hj Hkp). by right.
    + intros j kp Hj Hk. exfalso. apply Hin. rewrite <- Hk, <- (Hadr j kp Hj).
      change (full_address kp ∈ full_address <$> kps). apply list_elem_of_fmap. exists kp.
      split; [done|by eapply list_elem_of_lookup_2].
Qed.

Lemma client_signers_all server seen signers : Forall (fun s => exists k, s = account_address k) signers ->
  exists l, client_signers server seen signers = Some l /\
    forall x, x ∈ l <-> x ∈ signers /\ x <> server /\ x ∉ seen.
Proof.
  intros Hacc. revert seen. induction Hacc as [|signer signers [k ->] _ IH]; intros seen; cbn [client_signers].
  { exists []. split; [done|]. intros x. rewrite elem_of_nil. tauto. }
  assert (Hskip : account_address k = server \/ account_address k ∈ seen -> exists l, client_signers server seen signers = Some l /\
    forall x, x ∈ l <-> x ∈ account_address k :: signers /\ x <> server /\ x ∉ seen).
  { intros Hk. destruct (IH seen) as (l & Hl & Hx). exists l. split; [done|]. intros x. rewrite Hx, elem_of_cons.
    split; [tauto|]. intros ([->|?] & ? & ?); [by destruct Hk|done]. }
  case_bool_decide as Es; [by apply Hskip; left|]. case_bool_decide as Eseen; [by apply Hskip; right|].
  rewrite (Version_Decode _ _ _ (account_address_Decode k)), bool_decide_eq_true_2 by done.
  destruct (IH (account_address k :: seen)) as (l & -> & Hx). exists (account_address k :: l). split; [done|].
  intros x. rewrite !elem_of_cons, Hx, elem_of_cons. destruct (decide (x = account_address k)) as [->|]; naive_solver.
Qed.

(** ** What is built *)
Definition client_memo (memo : option Z) : Memo_ := match memo with Some id => MemoTypeMemoId id | None => MemoTypeMemoNone end.

(** The transaction of a challenge. *)
Definition challenge_transaction (k : vec byte 32) (client : MuxedAccount_) (web home nonce : bytes) (now timebound : Z)
    (memo : option Z) (fee : Z) : XdrTransaction :=
  mkXdrTransaction (KeyTypeEd25519 k) fee 0 (PrecondTime (mkTimeBounds (u64 (Unix now)) (u64 (Unix (now + timebound)))))
    (client_memo memo)
    [mkXdrOperation (Some client) (OperationTypeManageData (home ++ str " auth") (Some (Some (StdEncoding_EncodeToString nonce))));
     mkXdrOperation (Some (KeyTypeEd25519 k)) (OperationTypeManageData (str "web_auth_domain") (Some (Some web)))] None.

Lemma BuildXDR_data source name value m : Muxed_SetAddress source = Ok m ->
  BuildXDR (mkTxOperation source (ManageData name (Some value))) =
    Some (Ok (mkXdrOperation (Some m) (OperationTypeManageData name (Some (Some value))))).
Proof.
  intros H. unfold BuildXDR, SetOpSourceAccount. cbn. rewrite bool_decide_eq_false_2; [by rewrite H|].
  intros ->. done.
Qed.

Lemma client_account_memo client memo : challenge_account client memo = Some (Ok tt) ->
  exists m, Muxed_SetAddress client = Ok m /\ (memo <> None -> is_muxed m = false).
Proof.
  unfold challenge_account. destruct (AddressToAccountId client) as [k|] eqn:A.
  - intros _. unfold AddressToAccountId, SetAddress in A. destruct (Decode VersionByteAccountID client) as [raw|] eqn:D; [|done].
    pose proof (MustMuxedAddress_account _ _ D) as M. unfold MustMuxedAddress in M.
    destruct (Muxed_SetAddress client) as [m|]; [|done]. injection M as ->. eexists. split; [done|]. by intros _.
  - destruct (Muxed_SetAddress client) as [m|]; [|done]. case_bool_decide as Hm; [done|]. intros _. exists m. split; [done|].
    intros H. destruct memo; [|done]. exfalso. apply Hm. by eexists.
Qed.

Lemma keypair_Parse_Full s kp : keypair_Parse s = Ok (KP_Full kp) -> full_ok kp.
Proof.
  unfold keypair_Parse, ParseFull. destruct (ParseAddress s) as [a|[[]| | |]]; try done.
  destruct (newFull s) as [kp'|] eqn:F; [|done]. intros [= <-]. by eapply newFull_ok.
Qed.

Lemma BuildChallengeTx_Ok nonce now secret client web home network timebound memo t :
  BuildChallengeTx (Some nonce) now secret client web home network timebound memo = Some (Ok t) ->
  exists kp m fee h, keypair_Parse secret = Ok (KP_Full kp) /\ full_ok kp /\ AccountID (sourceAccount t) = full_address kp /\
    let tx := challenge_transaction (full_publicKey kp) m web home nonce now timebound memo fee in
    envelope t = XdrEnvelopeTx (mkV1Envelope tx (sign_all h [kp])) /\ HashTransaction tx network = Ok h /\
    length (StdEncoding_EncodeToString nonce) = 64%nat /\
    (memo <> None -> is_muxed m = false) /\ 0 <= Unix now /\ Second <= timebound.
Proof.
  unfold BuildChallengeTx. intros H. run_ok H. injection E1 as <-. destruct x1. destruct x as [|kp]; [done|].
  apply keypair_Parse_Full in E0 as Hkp. destruct (Hkp) as [Ha _]. cbn [KP_Address] in E4.
  apply client_account_memo in E3 as (m & Hm & Hmuxed). apply Z.ltb_ge in E. apply negb_false_iff, Z.eqb_eq in E2.
  apply NewTransaction_Ok in E4 as (sa & source & cond & xm & ops & fee & Hsa & Hs & _ & _ & Hv & Hc & Hmemo & Hops & _ & ->).
  injection Hsa as <-. cbn in Hs. rewrite Ha in Hs. rewrite Muxed_SetAddress_account in Hs. injection Hs as <-.
  eapply Tx_Sign_Ok in H as (h & Hh & Hsa & He); [|done].
  cbn [challenge_params Operations operations_BuildXDR] in Hops. run_ok Hops. apply rewrap_Ok in E3. injection Hops as <-.
  rewrite (BuildXDR_data _ _ _ m Hm) in E3. injection E3 as <-. run_ok E4. injection E4 as <-. apply rewrap_Ok in E5.
  rewrite Ha, (BuildXDR_data _ _ _ _ (Muxed_SetAddress_account _)) in E5. injection E5 as <-. injection E6 as <-.
  cbn in Hc. injection Hc as <-. assert (xm = client_memo memo) as -> by (by destruct memo; injection Hmemo as <-).
  exists kp, m, fee, h. split; [done|]. split; [done|]. split; [by rewrite Hsa|]. split; [done|]. split; [done|].
  unfold go_len in E2. split; [lia|]. split; [done|]. split; [|done].
  cbn in Hv. unfold Preconditions_Validate, TimeBounds_Validate in Hv. cbn in Hv. unfold some_error in Hv. by destruct (Z.ltb_spec (Unix now) 0).
Qed.

(** ** What is read back *)
Lemma challenge_parsed k m web home nonce now timebound memo fee sigs :
  let e := XdrEnvelopeTx (mkV1Envelope (challenge_transaction k m web home nonce now timebound memo fee) sigs) in
  exists tx, simpleFromParsedXDR e = Some (Ok tx) /\ envelope tx = e /\
    sourceAccount tx = mkSimpleAccount (account_address k) 0 /\
    TimeBounds (preconditions tx) = NewTimebounds (i64 (u64 (Unix now))) (i64 (u64 (Unix (now + timebound)))) /\
    TxnTransaction.memo tx = option_map TxMemoID memo /\
    operations tx = [mkTxOperation (muxed_address m) (ManageData (home ++ str " auth") (Some (StdEncoding_EncodeToString nonce)));
                     mkTxOperation (account_address k) (ManageData (str "web_auth_domain") (Some web))].
Proof.
  cbn zeta. destruct memo; (eexists; split;
    [unfold simpleFromParsedXDR; cbn -[Muxed_Address Z.quot]; rewrite !Muxed_Address_Some; reflexivity|done]).
Qed.

Lemma match_domain_home home homes : home ∈ homes -> match_domain (home ++ str " auth") homes = home.
Proof.
  induction homes as [|d homes IH]; [by intros ?%elem_of_nil|]. cbn [match_domain]. intros Hin. case_bool_decide as E.
  - symmetry. by apply app_inv_tail in E.
  - apply IH. apply elem_of_cons in Hin as [->|Hin]; [done|done].
Qed.

Lemma client_memo_read m memo : (memo <> None -> is_muxed m = false) -> read_memo (is_muxed m) (option_map TxMemoID memo) = Some (Ok memo).
Proof. destruct memo; [|done]. intros H. cbn. by rewrite (H ltac:(done)). Qed.

(** The signers of a transaction that were asked for. *)
Lemma verifyTxSignatures_all tx network h kps signers : Tx_Hash tx network = Ok h -> Signatures tx = Some (sign_all h kps) ->
  Forall full_ok kps -> (forall k, account_address k ∈ signers -> only_own h kps k) ->
  NoDup (map full_address kps) -> NoDup signers -> Forall (fun s => exists k, s = account_address k) signers ->
  verifyTxSignatures tx network signers = Some (Ok (filter (fun s => s ∈ map full_address kps) signers)).
Proof.
  intros Hh Hs Hok Hown Hnd Hn Hacc. unfold verifyTxSignatures. rewrite Hh. cbn [wrapped try_bind]. rewrite Hs.
  rewrite find_signers_all by (done || (intros j kp Hj; by apply elem_of_nil in Hj)). cbn [try_bind]. rewrite app_nil_r.
  by rewrite (found_list_sublist (filter (fun s => s ∈ map full_address kps) signers))
    by (done || apply sublist_filter || (intros; by rewrite elem_of_reverse)).
Qed.

Lemma Unix_later now timebound : 0 <= Unix now -> Second <= timebound -> Unix now + 1 <= Unix (now + timebound).
Proof.
  unfold Unix, Second. intros Hn Ht. transitivity ((now + 1 * 1000000000) / 1000000000); [by rewrite Z.div_add by done|].
  apply Z.div_le_mono; lia.
Qed.

Lemma read_bounds_within now now' timebound : 0 <= Unix now -> Second <= timebound ->
  Unix now - 300 <= Unix now' <= Unix (now + timebound) -> Unix (now + timebound) <= MaxInt64 - 300 ->
  read_bounds now' (NewTimebounds (i64 (u64 (Unix now))) (i64 (u64 (Unix (now + timebound))))) = Some (Ok tt).
Proof.
  intros Hn Ht Hnow Hmax. pose proof (Unix_later now timebound Hn Ht). unfold read_bounds, gracePeriod, TimeoutInfinite. cbn [tb_MinTime tb_MaxTime NewTimebounds].
  unwrap_ints. destruct (Z.eqb_spec (Unix (now + timebound)) 0); [lia|].
  by rewrite (proj2 (Z.ltb_ge _ _)), (proj2 (Z.ltb_ge _ _)) by lia.
Qed.

Lemma read_nonce_encoded nonce : length nonce = 48%nat -> read_nonce (StdEncoding_EncodeToString nonce) = Some (Ok tt).
Proof.
  intros H. unfold read_nonce. pose proof (length_EncodeToString nonce) as L. unfold go_len in *. rewrite L, DecodeString_EncodeToString, H.
  done.
Qed.

(** A challenge of [kp] that it signed first reads back. *)
Lemma challenge_read nonce now kp m web home network timebound memo fee h kps text now' homes :
  let e := XdrEnvelopeTx (mkV1Envelope (challenge_transaction (full_publicKey kp) m web home nonce now timebound memo fee) (sign_all h (kp :: kps))) in
  network_HashTransactionInEnvelope e network = Ok h -> SafeUnmarshalBase64 text = Some e ->
  full_ok kp -> Forall full_ok kps -> only_own h (kp :: kps) (full_publicKey kp) -> NoDup (map full_address (kp :: kps)) ->
  length nonce = 48%nat -> (memo <> None -> is_muxed m = false) -> home ∈ homes -> home <> [] ->
  0 <= Unix now -> Second <= timebound -> Unix now - 300 <= Unix now' <= Unix (now + timebound) -> Unix (now + timebound) <= MaxInt64 - 300 ->
  exists r, ReadChallengeTx now' text (full_address kp) network web homes = Some (Ok r) /\ envelope (read_tx r) = e.
Proof.
  cbn zeta. intros Hh T Hkp Hkps Hown Hnd Hlen Hmemo Hhome Hhome' Hn Ht Hnow Hmax.
  destruct (challenge_parsed (full_publicKey kp) m web home nonce now timebound memo fee (sign_all h (kp :: kps)))
    as (tx & Hp & Htx & Hsa & Htime & Hm & Hops). destruct (Hkp) as [Ha _].
  exists (mkRead tx (muxed_address m) home memo). split; [|done].
  unfold ReadChallengeTx, TransactionFromXDR. rewrite T. unfold transactionFromParsedXDR. rewrite Hp. cbn [rewrap try_bind simple].
  rewrite Htx. cbn [env_SourceAccount env_inner v1_Tx challenge_transaction xtx_SourceAccount is_muxed]. rewrite Hsa. cbn [AccountID Sequence].
  rewrite bool_decide_eq_true_2 by done. cbn [negb Z.eqb]. rewrite Htime, read_bounds_within by done. cbn [try_bind]. rewrite Hops.
  unfold read_data at 1. cbn [Op GetSourceAccount]. rewrite bool_decide_eq_false_2 by apply muxed_text_nonempty. cbn [try_bind].
  rewrite match_domain_home, bool_decide_eq_false_2 by done. cbn [env_Operations env_inner v1_Tx challenge_transaction xtx_Operations list.head xop_SourceAccount].
  rewrite Hm, client_memo_read by done. cbn [try_bind from_option id]. rewrite read_nonce_encoded by done. cbn [try_bind read_subsequent].
  unfold read_data. cbn [Op GetSourceAccount]. rewrite bool_decide_eq_false_2 by apply account_address_nonempty. cbn [try_bind].
  rewrite Ha, !bool_decide_eq_true_2 by done. cbn [negb try_bind from_option id].
  unfold verifyTxSignature. rewrite (verifyTxSignatures_all tx network h (kp :: kps)); try done.
  - rewrite filter_cons_True; [done|]. rewrite <- Ha. left.
  - unfold Tx_Hash. by rewrite Htx.
  - unfold Signatures. by rewrite Htx.
  - by constructor.
  - intros k Hk%list_elem_of_singleton%(inj account_address). by rewrite Hk.
  - apply list.NoDup_singleton.
  - apply list.Forall_singleton. by eexists.
Qed.

(** The filters of the signers that are found. *)
Lemma found_signers server (addrs l : list bytes) : NoDup (server :: addrs) -> NoDup (server :: l) -> addrs ⊆ l ->
  let F := filter (fun s => s ∈ server :: addrs) (server :: l) in
  F ≡ₚ server :: addrs /\ filter (fun s => s <> server) F ≡ₚ addrs.
Proof.
  cbn zeta. intros Ha Hl Hin. assert (Hp : filter (fun s => s ∈ server :: addrs) (server :: l) ≡ₚ server :: addrs).
  { apply NoDup_Permutation; [by apply list.NoDup_filter|done|]. intros x. rewrite list_elem_of_filter. split; [by intros []|].
    intros Hx. split; [done|]. apply elem_of_cons in Hx as [->|Hx]; [left|right; by apply Hin]. }
  split; [done|]. rewrite Hp, filter_cons_False by naive_solver. apply list.NoDup_cons in Ha as [Hs _].
  rewrite filter_kept_all; [done|]. apply list.Forall_forall. intros x Hx ->. done.
Qed.

(** C16: A challenge that a server built and signed, and clients signed, verifies for any
    reader's time within its bounds, with a grace period before: the signers that are
    returned are the clients, when they are among the given ones. A signature of the
    challenge that has the hint of the server's key or of a given signer's and verifies
    with that key is one made with it; of keys whose last four bytes differ nothing is
    asked ([only_own_hints]). *)
Theorem signed_challenge_verifies nonce now secret skp client web home network timebound memo t kps t' text now' homes signers :
  BuildChallengeTx (Some nonce) now secret client web home network timebound memo = Some (Ok t) ->
  Tx_Sign t network kps = Some (Ok t') -> SafeUnmarshalBase64 text = Some (envelope t') ->
  keypair_Parse secret = Ok (KP_Full skp) -> let server := full_address skp in
  length nonce = 48%nat -> Forall full_ok kps -> NoDup (server :: map full_address kps) -> kps <> [] ->
  home ∈ homes -> home <> [] ->
  Unix now - 300 <= Unix now' <= Unix (now + timebound) -> Unix (now + timebound) <= MaxInt64 - 300 ->
  (forall h k, Tx_Hash t' network = Ok h -> account_address k ∈ server :: signers -> only_own h (skp :: kps) k) ->
  Forall (fun s => exists k, s = account_address k) signers -> Forall (fun kp => full_address kp ∈ signers) kps ->
  exists found, VerifyChallengeTxSigners now' text server network web homes signers = Some (Ok found) /\
    found ≡ₚ map full_address kps.
Proof.
  cbn zeta. intros B S T Hsk Hlen48 Hkps Hnd Hne Hhome Hhome' Hnow Hmax Hown Hacc Hin.
  apply BuildChallengeTx_Ok in B as (kp & m & fee & h & Hsk' & Hkp & _ & He & Hh & Hlen & Hmemo & Hn0 & Htb).
  eapply Tx_Sign_Ok in S as (h' & Hh' & _ & He'); [|exact He]. cbn [v1_Tx v1_Signatures] in *.
  rewrite Hh in Hh'. injection Hh' as <-. change (sign_all h [kp] ++ map _ kps) with (sign_all h (kp :: kps)) in He'.
  assert (skp = kp) as -> by congruence.
  assert (Hown' : forall k, account_address k ∈ full_address kp :: signers -> only_own h (kp :: kps) k).
  { intros k. apply Hown. unfold Tx_Hash. by rewrite He'. }
  rewrite He' in T. assert (Hp : ParseAddress (full_address kp) = Ok (mkFromAddress (full_address kp) (full_publicKey kp))).
  { apply ParseAddress_Ok. by destruct Hkp. }
  destruct (challenge_read nonce now kp m web home network timebound memo fee h kps text now' homes) as (r & Hr & Henv); try done.
  { apply Hown'. destruct Hkp as [-> _]. left. }
  destruct (client_signers_all (full_address kp) [] signers Hacc) as (l & Hl & Hx). pose proof (client_signers_Ok _ _ _ _ Hl) as [Hln _].
  assert (Hsub : map full_address kps ⊆ l).
  { intros x Hin'. apply Hx. apply list.NoDup_cons in Hnd as [Hs _]. split; [|split; [by intros ->|apply not_elem_of_nil]].
    change (x ∈ full_address <$> kps) in Hin'. apply list_elem_of_fmap in Hin' as (kp' & -> & Hkp').
    rewrite list.Forall_forall in Hin. by apply Hin. }
  assert (Hln' : NoDup (full_address kp :: l)) by (constructor; [by intros (_ & ? & _)%Hx|done]).
  assert (Hlacc : Forall (fun s => exists k, s = account_address k) (full_address kp :: l)).
  { constructor; [by destruct Hkp; eexists|]. apply list.Forall_forall. intros x (Hxs & _)%Hx.
    rewrite list.Forall_forall in Hacc. by apply Hacc. }
  destruct (found_signers (full_address kp) (map full_address kps) l) as [HF HG]; [done..|].
  unfold VerifyChallengeTxSigners. rewrite Hr. cbn [try_bind]. rewrite Hp. cbn [wrapped try_bind kp_address]. rewrite Hl.
  rewrite bool_decide_eq_false_2 by (intros ->; destruct kps; [done|]; by apply list_nil_subseteq in Hsub).
  rewrite (verifyTxSignatures_all _ network h (kp :: kps)); [|by unfold Tx_Hash; rewrite Henv|by unfold Signatures; rewrite Henv|by constructor| |done..]; cycle 1.
  { intros k [Hk|(Hk & _)%Hx]%elem_of_cons; apply Hown'; [rewrite Hk; left|by right]. }
  cbn [try_bind map]. unfold Signatures. rewrite Henv. cbn [env_Signatures v1_Signatures].
  set (F := filter _ (full_address kp :: l)) in *. rewrite bool_decide_eq_true_2 by (rewrite HF; left). cbn [negb].
  rewrite bool_decide_eq_false_2 by (intros E; rewrite E in HG; apply Permutation_nil_l in HG; by destruct kps).
  rewrite (Permutation_length HF). unfold sign_all. cbn [length map]. rewrite !length_map, Nat.eqb_refl. cbn [negb]. by eexists.
Qed.
End Complete.

(** ** A challenge that is built and signed *)
Module SampleSigned.
Import LedgerEntries.ConcreteKeys ToyCurve SampleChallenge.

Lemma pair_ok n : full_ok (pair n).
Proof.
  unfold pair. destruct (FromRawSeed (key n)) as [kp|e] eqn:E; [by eapply newFullFromRawSeed_ok|].
  unfold FromRawSeed, newFullFromRawSeed in E. pose proof (proj1 (address_of_Encode VersionByteSeed (vec_to_list (key n)) 32 eq_refl eq_refl (length_vec_to_list _))) as H.
  rewrite H in E. cbn in E. by rewrite (proj1 (account_address_Encode (key n))) in E.
Qed.

Definition full_fields (kp : Full) : bytes * bytes * bytes * bytes :=
  (full_address kp, full_seed kp, vec_to_list (full_publicKey kp), vec_to_list (full_privateKey kp)).
Lemma full_fields_inj kp kp' : full_fields kp = full_fields kp' -> kp = kp'.
Proof. destruct kp, kp'. unfold full_fields. cbn. intros [= -> -> ?%vec_to_list_inj2 ?%vec_to_list_inj2]. by subst. Qed.

Lemma server_parsed : keypair_Parse (full_seed server) = Ok (KP_Full server).
Proof.
  assert (match keypair_Parse (full_seed server) with Ok (KP_Full kp) => bool_decide (full_fields kp = full_fields server) | _ => false end = true)
    as H by (vm_compute; reflexivity).
  destruct (keypair_Parse (full_seed server)) as [[|kp]|]; [done| |done].
  apply bool_decide_eq_true_1, full_fields_inj in H. by rewrite H.
Qed.

Lemma signed_challenge_verifies_witness : exists found,
  VerifyChallengeTxSigners (now + 10 * Second) (str "challenge") (full_address server) network (str "auth.example.org")
    [str "example.org"] [full_address client] = Some (Ok found) /\ found ≡ₚ [full_address client].
Proof.
  apply (signed_challenge_verifies nonce now (full_seed server) server (full_address client) (str "auth.example.org") (str "example.org")
    network (300 * Second) None (ok_tx built) [client] signed (str "challenge") (now + 10 * Second) [str "example.org"] [full_address client]).
  - vm_compute. reflexivity.
  - vm_compute. reflexivity.
  - reflexivity.
  - exact server_parsed.
  - reflexivity.
  - constructor; [apply pair_ok|constructor].
  - apply (bool_decide_unpack (NoDup _)). vm_compute. exact I.
  - done.
  - left.
  - done.
  - vm_compute. by split.
  - by vm_compute.
  - intros h k _ _ kp Hkp _ Hv. assert (full_ok kp) as [_ [seed Hs]].
    { apply elem_of_cons in Hkp as [->|Hkp]; [apply pair_ok|]. apply list_elem_of_singleton in Hkp as ->. apply pair_ok. }
    unfold Full_Sign in Hv. replace (full_privateKey kp) with (NewKeyFromSeed seed).2 in Hv by (by rewrite Hs).
    apply toy_exclusive in Hv. by rewrite Hv, Hs.
  - constructor; [|constructor]. exists (full_publicKey client). apply pair_ok.
  - constructor; [left|constructor].
Defined.
End SampleSigned.
