(* ===== verification/XdrCodec.v ===== *)
(** * Encoders and decoders

    The generated methods [EncodeTo] and [DecodeFrom] of src/xdr/xdr_generated.go are
    made of a few patterns over the encoder and decoder of github.com/stellar/go-xdr.
    Those are a class here, with the laws of RFC 4506; the patterns are the definitions
    below, each with the lemma that what it encodes is read back. *)
From Stdlib Require Import ZArith Lia.
From stdpp Require Import base list vector option.
From S2P Require Import Prelude GoStd.
#[local] Open Scope Z_scope.
#[local] Open Scope go_scope.

(** ** The library

    An encoding method gives what it writes, unless it fails. A decoding method gives
    the value, the number of bytes it read and the decoder after it. A decoder is made
    over an input, with the default options but for a bound on its length, 0 being none;
    [TrackOutputBytesOf] counts the memory of a value of the named type, and fails past
    a limit, which the default options do not set. [opaque_slice] is the slice that holds
    the bytes of an opaque value; nil may stand for none. *)
Class GoXdrCoder := {
  EncodeInt : Z -> option bytes;
  EncodeUint : Z -> option bytes;
  EncodeHyper : Z -> option bytes;
  EncodeUhyper : Z -> option bytes;
  EncodeBool : bool -> option bytes;
  EncodeFixedOpaque : bytes -> option bytes;
  EncodeOpaque : bytes -> option bytes;
  EncodeString : bytes -> option bytes;
  Decoder : Type;
  NewDecoder : bytes -> Decoder;
  NewDecoderWithOptions : bytes -> Z -> Decoder;
  DefaultMaxDepth : nat;
  DecodeDefaultMaxDepth : nat;
  InputLen : Decoder -> option Z;
  TrackOutputBytesOf : String.string -> Decoder -> option Decoder;
  DecodeInt : Decoder -> option (Z * Z * Decoder);
  DecodeUint : Decoder -> option (Z * Z * Decoder);
  DecodeHyper : Decoder -> option (Z * Z * Decoder);
  DecodeUhyper : Decoder -> option (Z * Z * Decoder);
  DecodeBool : Decoder -> option (bool * Z * Decoder);
  DecodeFixedOpaqueInplace : forall n : nat, Decoder -> option (vec byte n * Z * Decoder);
  opaque_slice : bytes -> option bytes;
  DecodeOpaque : Z -> Decoder -> option (bytes * Z * Decoder);
  DecodeString : Z -> Decoder -> option (bytes * Z * Decoder)
}.

(** Zeros up to a multiple of four bytes. *)
Definition xdr_padding (n : nat) : bytes := replicate ((4 - n mod 4) mod 4) zero_byte.
Definition xdr_opaque (p : bytes) : bytes := be_put 4 (go_len p) ++ p ++ xdr_padding (length p).

Definition after_reading {D A} (reads : D -> bytes -> Prop) (m : D -> option (A * Z * D)) (b : bytes) (v : A) : Prop :=
  forall d t, reads d (b ++ t) -> exists d', m d = Some (v, go_len b, d') /\ reads d' t.

(** [reads d s]: the input left is [s], within the bound, and memory has no limit. A
    limit of 0 on a text stands for the longest there is. *)
Class GoXdrCoderLaws (X : GoXdrCoder) := {
  reads : Decoder -> bytes -> Prop;
  reads_new_default inp : reads (NewDecoder inp) inp;
  reads_new inp n : n = 0 \/ go_len inp <= n -> reads (NewDecoderWithOptions inp n) inp;
  reads_bound d s n : reads d s -> InputLen d = Some n -> go_len s <= n;
  reads_tracked d s T : reads d s -> exists d', TrackOutputBytesOf T d = Some d' /\ reads d' s;
  encode_int v : is_i32 v -> EncodeInt v = Some (be_put 4 (u32 v));
  encode_uint v : is_u32 v -> EncodeUint v = Some (be_put 4 v);
  encode_hyper v : is_i64 v -> EncodeHyper v = Some (be_put 8 (u64 v));
  encode_uhyper v : is_u64 v -> EncodeUhyper v = Some (be_put 8 v);
  encode_bool b : EncodeBool b = Some (be_put 4 (if b then 1 else 0));
  encode_fixed p : EncodeFixedOpaque p = Some (p ++ xdr_padding (length p));
  encode_opaque p : is_u32 (go_len p) -> EncodeOpaque p = Some (xdr_opaque p);
  encode_string p : is_u32 (go_len p) -> EncodeString p = Some (xdr_opaque p);
  decode_int v : is_i32 v -> after_reading reads DecodeInt (be_put 4 (u32 v)) v;
  decode_uint v : is_u32 v -> after_reading reads DecodeUint (be_put 4 v) v;
  decode_hyper v : is_i64 v -> after_reading reads DecodeHyper (be_put 8 (u64 v)) v;
  decode_uhyper v : is_u64 v -> after_reading reads DecodeUhyper (be_put 8 v) v;
  decode_bool (b : bool) : after_reading reads DecodeBool (be_put 4 (if b then 1 else 0)) b;
  decode_fixed n (p : vec byte n) :
    after_reading reads (DecodeFixedOpaqueInplace n) (vec_to_list p ++ xdr_padding n) p;
  opaque_slice_bytes p : p <> [] -> opaque_slice p = Some p;
  decode_opaque max p : is_u32 (go_len p) -> max = 0 \/ go_len p <= max ->
    after_reading reads (DecodeOpaque max) (xdr_opaque p) p;
  decode_string max p : is_u32 (go_len p) -> max = 0 \/ go_len p <= max ->
    after_reading reads (DecodeString max) (xdr_opaque p) p
}.

(** ** Encoding *)
Notation "'write!' e 'in' k" :=
  (match e with
   | Some b => match k with Some b' => Some (b ++ b') | None => None end
   | None => None
   end)
  (at level 10, e at level 100, k at level 200) : go_scope.

(** [return nil]. *)
Definition written : option bytes := Some [].

Section Codec.
Context {X : GoXdrCoder}.

(** The value of an enumeration, given by the keys of its map of names. *)
Definition enum_EncodeTo (members : list Z) (v : Z) : option bytes :=
  if bool_decide (v ∈ members) then EncodeInt v else None.

Definition elements_EncodeTo {A} (enc : A -> option bytes) : list A -> option bytes :=
  fix go (l : list A) : option bytes :=
    match l with [] => written | x :: l => write! enc x in go l end.
Definition slice_EncodeTo {A} (enc : A -> option bytes) (l : list A) : option bytes :=
  write! EncodeUint (u32 (go_len l)) in elements_EncodeTo enc l.
Definition pointer_EncodeTo {A} (enc : A -> option bytes) (p : option A) : option bytes :=
  write! EncodeBool (match p with Some _ => true | None => false end) in
  match p with Some x => enc x | None => written end.

(** ** Decoding *)
Definition decode (A : Type) : Type := Decoder -> option (A * Z * Decoder).
Definition ret {A} (a : A) : decode A := fun d => Some (a, 0, d).
Definition invalid {A} : decode A := fun _ => None.
Definition decode_bind {A B} (m : decode A) (k : A -> decode B) : decode B := fun d =>
  match m d with
  | None => None
  | Some (a, n, d) =>
      match k a d with
      | None => None
      | Some (b, nTmp, d) => Some (b, n + nTmp, d)
      end
  end.
End Codec.

Notation "'read!' x := m 'in' k" := (decode_bind m (fun x => k))
  (at level 10, x pattern, m at level 100, k at level 200) : go_scope.

Section Decode.
Context {X : GoXdrCoder}.

(** A method is given how deep values may still nest. *)
Definition nested {A} (maxDepth : nat) (f : nat -> decode A) : decode A :=
  match maxDepth with O => invalid | S maxDepth => f maxDepth end.

(** [TrackOutputBytesOf[T](d)], and what follows when it has not failed. *)
Definition tracked {A} (T : String.string) (m : decode A) : decode A := fun d =>
  let! d := TrackOutputBytesOf T d in m d.

Definition enum_DecodeFrom (members : list Z) (maxDepth : nat) : decode Z :=
  nested maxDepth (fun _ =>
    read! v := DecodeInt in if bool_decide (v ∈ members) then ret v else invalid).

Fixpoint elements_DecodeFrom {A} (T : String.string) (dec : decode A) (l : nat) : decode (list A) :=
  match l with
  | O => ret []
  | S l => read! x := tracked T dec in read! xs := elements_DecodeFrom T dec l in ret (x :: xs)
  end.

(** An array of [l] elements, in place. *)
Fixpoint array_DecodeFrom {A} (dec : decode A) (l : nat) : decode (list A) :=
  match l with
  | O => ret []
  | S l => read! x := dec in read! xs := array_DecodeFrom dec l in ret (x :: xs)
  end.

(** The input left must be no shorter than the number of elements. *)
Definition length_within (l : Z) : decode unit := fun d =>
  match InputLen d with
  | Some il => if il <? l then None else Some (tt, 0, d)
  | None => Some (tt, 0, d)
  end.

(** A slice of at most [max] elements, or of any number. *)
Definition slice_DecodeFrom {A} (T : String.string) (max : option Z) (dec : decode A) : decode (list A) :=
  read! l := DecodeUint in
  if match max with Some m => m <? l | None => false end then invalid
  else if l =? 0 then ret []
  else read! _ := length_within l in elements_DecodeFrom T dec (Z.to_nat l).

Definition pointer_DecodeFrom {A} (T : String.string) (dec : decode A) : decode (option A) :=
  read! b := DecodeBool in
  if b then read! x := tracked T dec in ret (Some x) else ret None.

(** ** [UnmarshalBinary], and the calls of src/xdr/main.go *)
Definition UnmarshalBinary_ {A} (dec : nat -> decode A) (inp : bytes) : option A :=
  let! r := dec DefaultMaxDepth (NewDecoderWithOptions inp (go_len inp)) in Some r.1.1.
(** The number of bytes that were read. *)
Definition xdr_Unmarshal {A} (dec : nat -> decode A) (r : bytes) : option (A * Z) :=
  let! r := dec DefaultMaxDepth (NewDecoderWithOptions r 0) in Some r.1.
Definition SafeUnmarshal {A} (dec : nat -> decode A) (data : bytes) : option A :=
  let! r := xdr_Unmarshal dec data in if r.2 =? go_len data then Some r.1 else None.
Definition DecodeBytes {A} (dec : nat -> decode A) (b : bytes) : result unit (A * Z) :=
  match dec DecodeDefaultMaxDepth (NewDecoder b) with Some r => Ok r.1 | None => Err tt end.
End Decode.

(** ** What is encoded is read back *)

(** Values within their widths and sizes. *)
Definition valid_i32 (v : Z) : bool := (MinInt32 <=? v) && (v <=? MaxInt32).
Definition valid_u32 (v : Z) : bool := (0 <=? v) && (v <=? MaxUint32).
Definition valid_i64 (v : Z) : bool := (MinInt64 <=? v) && (v <=? MaxInt64).
Definition valid_u64 (v : Z) : bool := (0 <=? v) && (v <=? MaxUint64).
Definition valid_enum (members : list Z) (v : Z) : bool := bool_decide (v ∈ members).
(** At most [max] bytes or elements. *)
Definition valid_size {A} (max : option Z) (l : list A) : bool :=
  go_len l <=? match max with Some m => m | None => MaxUint32 end.
Definition valid_slice {A} (max : option Z) (valid : A -> bool) (l : list A) : bool :=
  valid_size max l && forallb valid l.
Definition valid_array {A} (size : nat) (valid : A -> bool) (l : list A) : bool :=
  (length l =? size)%nat && forallb valid l.
Definition valid_pointer {A} (valid : A -> bool) (p : option A) : bool :=
  match p with Some x => valid x | None => true end.

Section Laws.
Context {X : GoXdrCoder} {XL : GoXdrCoderLaws X}.

(** [m] reads [v] from the bytes [b], whatever follows. *)
Definition decodes {A} (m : decode A) (b : bytes) (v : A) : Prop := after_reading reads m b v.

(** [e] writes bytes from which [m] reads [v]; [writes] that there are some. *)
Definition writes0 {A} (e : option bytes) (m : decode A) (v : A) : Prop :=
  exists b, e = Some b /\ decodes m b v.
Definition writes {A} (e : option bytes) (m : decode A) (v : A) : Prop :=
  exists b, e = Some b /\ b <> [] /\ decodes m b v.

Lemma writes_writes0 {A} e (m : decode A) v : writes e m v -> writes0 e m v.
Proof. intros (b & ? & _ & ?). by exists b. Qed.
Lemma writes_ret {A} (v : A) : writes0 written (ret v) v.
Proof. exists []. split; [done|]. intros d t Hd. by exists d. Qed.

Lemma decodes_bind {A B} (m : decode A) (k : A -> decode B) b b' v w :
  decodes m b v -> decodes (k v) b' w -> decodes (decode_bind m k) (b ++ b') w.
Proof.
  intros Hm Hk d t Hd. rewrite <- app_assoc in Hd. destruct (Hm d _ Hd) as (d1 & E1 & H1).
  destruct (Hk d1 _ H1) as (d2 & E2 & H2). exists d2. split; [|done]. unfold decode_bind. rewrite E1, E2.
  unfold go_len. by rewrite length_app, Nat2Z.inj_add.
Qed.
Lemma writes0_bind {A B} e e' (m : decode A) (k : A -> decode B) v w :
  writes0 e m v -> writes0 e' (k v) w -> writes0 (write! e in e') (decode_bind m k) w.
Proof. intros (b & -> & Hb) (b' & -> & Hb'). exists (b ++ b'). split; [done|by eapply decodes_bind]. Qed.
Lemma writes_bind {A B} e e' (m : decode A) (k : A -> decode B) v w :
  writes e m v -> writes0 e' (k v) w -> writes (write! e in e') (decode_bind m k) w.
Proof.
  intros (b & -> & Hn & Hb) (b' & -> & Hb'). exists (b ++ b'). split; [done|].
  split; [by destruct b|by eapply decodes_bind].
Qed.
(** Nothing is left to write after the last value. *)
Lemma writes0_last {A B} e (m : decode A) (f : A -> B) v w :
  writes0 e m v -> w = f v -> writes0 e (decode_bind m (fun x => ret (f x))) w.
Proof.
  intros (b & -> & Hb) ->. exists b. split; [done|]. rewrite <- (app_nil_r b). eapply decodes_bind; [done|].
  intros d t Hd. by exists d.
Qed.

Lemma decodes_tracked {A} T (m : decode A) b v : decodes m b v -> decodes (tracked T m) b v.
Proof.
  intros Hm d t Hd. destruct (reads_tracked d _ T Hd) as (d1 & E1 & H1). destruct (Hm d1 _ H1) as (d2 & E2 & H2).
  exists d2. split; [|done]. unfold tracked. by rewrite E1.
Qed.
Lemma writes_tracked {A} T e (m : decode A) v : writes e m v -> writes e (tracked T m) v.
Proof. intros (b & ? & ? & ?). exists b. split_and!; [done|done|by apply decodes_tracked]. Qed.
Lemma writes0_tracked {A} T e (m : decode A) v : writes0 e m v -> writes0 e (tracked T m) v.
Proof. intros (b & ? & ?). exists b. split; [done|by apply decodes_tracked]. Qed.

(** ** A method with enough depth left *)
Definition coded {A} (depth : nat) (valid : A -> bool) (enc : A -> option bytes) (dec : nat -> decode A) : Prop :=
  forall v n, valid v = true -> (depth <= n)%nat -> writes (enc v) (dec n) v.

Lemma coded_nested {A} depth (valid : A -> bool) enc (f : nat -> decode A) : (1 <= depth)%nat ->
  (forall v n, valid v = true -> (depth <= S n)%nat -> writes (enc v) (f n) v) ->
  coded depth valid enc (fun n => nested n f).
Proof. intros Hd H v n Hv Hn. destruct n as [|n]; [lia|]. by apply H. Qed.

(** ** The patterns *)
Lemma length_be_put4 v : be_put 4 v <> [].
Proof. intros E. by pose proof (length_be_put 4 v) as H; rewrite E in H. Qed.
Lemma length_be_put8 v : be_put 8 v <> [].
Proof. intros E. by pose proof (length_be_put 8 v) as H; rewrite E in H. Qed.
Lemma valid_i32_true v : valid_i32 v = true -> is_i32 v.
Proof. unfold valid_i32, is_i32. intros [? ?]%andb_true_iff. lia. Qed.
Lemma valid_u32_true v : valid_u32 v = true -> is_u32 v.
Proof. unfold valid_u32, is_u32. intros [? ?]%andb_true_iff. lia. Qed.
Lemma valid_i64_true v : valid_i64 v = true -> is_i64 v.
Proof. unfold valid_i64, is_i64. intros [? ?]%andb_true_iff. lia. Qed.
Lemma valid_u64_true v : valid_u64 v = true -> is_u64 v.
Proof. unfold valid_u64, is_u64. intros [? ?]%andb_true_iff. lia. Qed.

Lemma writes_int v : valid_i32 v = true -> writes (EncodeInt v) DecodeInt v.
Proof.
  intros H%valid_i32_true. exists (be_put 4 (u32 v)).
  split_and!; [by apply encode_int|apply length_be_put4|by apply decode_int].
Qed.
Lemma writes_uint v : valid_u32 v = true -> writes (EncodeUint v) DecodeUint v.
Proof.
  intros H%valid_u32_true. exists (be_put 4 v). split_and!; [by apply encode_uint|apply length_be_put4|by apply decode_uint].
Qed.
Lemma writes_hyper v : valid_i64 v = true -> writes (EncodeHyper v) DecodeHyper v.
Proof.
  intros H%valid_i64_true. exists (be_put 8 (u64 v)).
  split_and!; [by apply encode_hyper|apply length_be_put8|by apply decode_hyper].
Qed.
Lemma writes_uhyper v : valid_u64 v = true -> writes (EncodeUhyper v) DecodeUhyper v.
Proof.
  intros H%valid_u64_true. exists (be_put 8 v). split_and!; [by apply encode_uhyper|apply length_be_put8|by apply decode_uhyper].
Qed.
Lemma writes_bool b : writes (EncodeBool b) DecodeBool b.
Proof. exists (be_put 4 (if b then 1 else 0)). split_and!; [apply encode_bool|apply length_be_put4|apply decode_bool]. Qed.
Lemma writes_fixed n (p : vec byte (S n)) : writes (EncodeFixedOpaque (vec_to_list p)) (DecodeFixedOpaqueInplace (S n)) p.
Proof.
  exists (vec_to_list p ++ xdr_padding (S n)). split_and!.
  - rewrite encode_fixed. by rewrite length_vec_to_list.
  - by inv_vec p.
  - apply decode_fixed.
Qed.

(** The limit as the decoder takes it. *)
Definition size_limit (max : Z) : option Z := if max =? 0 then None else Some max.
Lemma valid_size_limit max (p : bytes) : (max <=? MaxUint32) = true -> valid_size (size_limit max) p = true ->
  is_u32 (go_len p) /\ (max = 0 \/ go_len p <= max).
Proof.
  unfold valid_size, size_limit, is_u32, go_len. intros H. destruct (Z.eqb_spec max 0); lia.
Qed.
Lemma xdr_opaque_nonempty p : xdr_opaque p <> [].
Proof. unfold xdr_opaque. intros [E _]%app_nil. by apply (length_be_put4 (go_len p)). Qed.
Lemma writes_opaque max p : (max <=? MaxUint32) = true -> valid_size (size_limit max) p = true ->
  writes (EncodeOpaque p) (DecodeOpaque max) p.
Proof.
  intros Hm Hp. destruct (valid_size_limit max p Hm Hp) as [H1 H2].
  exists (xdr_opaque p). split_and!; [by apply encode_opaque|apply xdr_opaque_nonempty|by apply decode_opaque].
Qed.
Lemma writes_string max p : (max <=? MaxUint32) = true -> valid_size (size_limit max) p = true ->
  writes (EncodeString p) (DecodeString max) p.
Proof.
  intros Hm Hp. destruct (valid_size_limit max p Hm Hp) as [H1 H2].
  exists (xdr_opaque p). split_and!; [by apply encode_string|apply xdr_opaque_nonempty|by apply decode_string].
Qed.

Lemma enum_coded members : forallb valid_i32 members = true ->
  coded 1 (valid_enum members) (enum_EncodeTo members) (enum_DecodeFrom members).
Proof.
  intros Hm. apply coded_nested; [lia|]. intros v n Hv _. unfold valid_enum in Hv. unfold enum_EncodeTo. rewrite Hv.
  apply bool_decide_eq_true_1 in Hv. destruct (writes_int v) as (b & Eb & Hb & Db).
  { rewrite forallb_forall in Hm. apply Hm. by apply list_elem_of_In. }
  exists b. split_and!; [done|done|]. rewrite <- (app_nil_r b). eapply decodes_bind; [exact Db|].
  rewrite bool_decide_eq_true_2 by done. intros d t Hd. by exists d.
Qed.

(** Each element takes a byte at least, so the bound on the input is kept. *)
Lemma elements_coded {A} T (enc : A -> option bytes) (dec : decode A) l :
  (forall x, x ∈ l -> writes (enc x) dec x) ->
  exists b, elements_EncodeTo enc l = Some b /\ go_len l <= go_len b /\ decodes (elements_DecodeFrom T dec (length l)) b l.
Proof.
  induction l as [|x l IH]; intros H.
  - exists []. split_and!; [done|done|]. intros d t Hd. by exists d.
  - destruct (H x) as (b & Eb & Hb & Db); [apply list_elem_of_here|].
    destruct IH as (bs & Es & Hs & Ds); [intros y Hy; apply H; by apply list_elem_of_further|].
    exists (b ++ bs). cbn [elements_EncodeTo]. rewrite Eb, Es. split_and!; [done| |].
    + destruct b; [done|]. unfold go_len in *. rewrite length_app. cbn [length]. lia.
    + cbn [length elements_DecodeFrom]. eapply decodes_bind; [by apply decodes_tracked|].
      rewrite <- (app_nil_r bs). eapply decodes_bind; [done|]. intros d t Hd. by exists d.
Qed.

Lemma decodes_within {A} (m : decode A) l b v :
  l <= go_len b -> decodes m b v -> decodes (read! _ := length_within l in m) b v.
Proof.
  intros Hl Hm d t Hd. destruct (Hm d t Hd) as (d' & E & H). exists d'. split; [|done].
  assert (length_within l d = Some (tt, 0, d)) as El.
  { unfold length_within. destruct (InputLen d) as [il|] eqn:I; [|done]. pose proof (reads_bound _ _ _ Hd I) as Hb.
    unfold go_len in *. rewrite length_app in Hb. replace (il <? l) with false by (symmetry; apply Z.ltb_ge; lia). done. }
  unfold decode_bind. rewrite El, E. done.
Qed.

Lemma slice_coded {A} T max (enc : A -> option bytes) (dec : decode A) l :
  (match max with Some m => m <=? MaxUint32 | None => true end) = true ->
  (forall x, x ∈ l -> writes (enc x) dec x) -> valid_size max l = true ->
  writes (slice_EncodeTo enc l) (slice_DecodeFrom T max dec) l.
Proof.
  intros Hm Hl Hs. unfold valid_size in Hs.
  assert (Hu : is_u32 (go_len l)) by (unfold is_u32, go_len in *; destruct max; lia).
  destruct (writes_uint (go_len l)) as (b & Eb & Hb & Db).
  { unfold valid_u32, is_u32 in *. apply andb_true_iff. lia. }
  destruct (elements_coded T enc dec l Hl) as (bs & Es & Hbs & Ds).
  exists (b ++ bs). unfold slice_EncodeTo. rewrite (u32_id _ Hu), Eb, Es. split_and!; [done|by destruct b|].
  eapply decodes_bind; [done|]. replace (match max with Some m => m <? go_len l | None => false end) with false
    by (destruct max; [symmetry; apply Z.ltb_ge; lia|done]).
  destruct (Z.eqb_spec (go_len l) 0) as [E|E].
  - destruct l; [|unfold go_len in E; cbn in E; lia]. injection Es as <-. intros d t Hd. by exists d.
  - apply decodes_within; [done|]. unfold go_len. by rewrite Nat2Z.id.
Qed.

Lemma pointer_coded {A} T (enc : A -> option bytes) (dec : decode A) (p : option A) :
  (forall x, p = Some x -> writes (enc x) dec x) -> writes (pointer_EncodeTo enc p) (pointer_DecodeFrom T dec) p.
Proof.
  intros H. destruct p as [x|].
  - eapply writes_bind; [apply writes_bool|]. cbv beta iota. eapply writes0_last; [|done].
    apply writes_writes0, writes_tracked. by apply H.
  - eapply writes_bind; [apply writes_bool|]. apply writes_ret.
Qed.

Lemma array_coded {A} (enc : A -> option bytes) (dec : decode A) l n : length l = n ->
  (forall x, x ∈ l -> writes (enc x) dec x) -> writes0 (elements_EncodeTo enc l) (array_DecodeFrom dec n) l.
Proof.
  intros <-. induction l as [|x l IH]; intros H; [apply writes_ret|]. cbn [elements_EncodeTo length array_DecodeFrom].
  eapply writes0_bind; [apply writes_writes0, H, list_elem_of_here|].
  eapply writes0_last; [|done]. apply IH. intros y Hy. apply H. by apply list_elem_of_further.
Qed.

(** In the form of a field, whose elements are valid. *)
Lemma pointer_valid {A} T valid (enc : A -> option bytes) (dec : decode A) p :
  (forall x, valid x = true -> writes (enc x) dec x) -> valid_pointer valid p = true ->
  writes (pointer_EncodeTo enc p) (pointer_DecodeFrom T dec) p.
Proof. intros H Hp. apply pointer_coded. intros x ->. by apply H. Qed.
Lemma slice_valid {A} T max valid (enc : A -> option bytes) (dec : decode A) l :
  (match max with Some m => m <=? MaxUint32 | None => true end) = true ->
  (forall x, valid x = true -> writes (enc x) dec x) -> valid_slice max valid l = true ->
  writes (slice_EncodeTo enc l) (slice_DecodeFrom T max dec) l.
Proof.
  intros Hm H [Hs Hl]%andb_true_iff. apply slice_coded; [done| |done]. intros x Hx. apply H.
  rewrite forallb_forall in Hl. apply Hl. by apply list_elem_of_In.
Qed.
Lemma array_valid {A} n valid (enc : A -> option bytes) (dec : decode A) l :
  (forall x, valid x = true -> writes (enc x) dec x) -> valid_array n valid l = true ->
  writes0 (elements_EncodeTo enc l) (array_DecodeFrom dec n) l.
Proof.
  intros H [Hn Hl]%andb_true_iff. apply Nat.eqb_eq in Hn. apply array_coded; [done|]. intros x Hx. apply H.
  rewrite forallb_forall in Hl. apply Hl. by apply list_elem_of_In.
Qed.
Lemma use_coded {A} depth valid (enc : A -> option bytes) dec v n :
  coded depth valid enc dec -> valid v = true -> (depth <= n)%nat -> writes (enc v) (dec n) v.
Proof. intros H. apply H. Qed.

(** Different values have different encodings. *)
Lemma coded_inj {A} depth valid (enc : A -> option bytes) dec : coded depth valid enc dec ->
  forall v w b, valid v = true -> valid w = true -> enc v = Some b -> enc w = Some b -> v = w.
Proof.
  intros H v w b Hv Hw Ev Ew. destruct (H v depth Hv (le_n _)) as (b1 & E1 & _ & D1).
  destruct (H w depth Hw (le_n _)) as (b2 & E2 & _ & D2). rewrite Ev in E1. rewrite Ew in E2. injection E1 as <-. injection E2 as <-.
  assert (Hr : reads (NewDecoderWithOptions b (go_len b)) (b ++ [])) by (rewrite app_nil_r; apply reads_new; by right).
  destruct (D1 _ _ Hr) as (d1 & R1 & _). destruct (D2 _ _ Hr) as (d2 & R2 & _). rewrite R1 in R2. by injection R2.
Qed.

(** ** A whole encoding *)
Lemma UnmarshalBinary_coded {A} depth valid (enc : A -> option bytes) dec v :
  coded depth valid enc dec -> valid v = true -> (depth <= DefaultMaxDepth)%nat ->
  exists b, enc v = Some b /\ UnmarshalBinary_ dec b = Some v.
Proof.
  intros Hc Hv Hd. destruct (Hc v _ Hv Hd) as (b & Eb & _ & Db). exists b. split; [done|].
  destruct (Db (NewDecoderWithOptions b (go_len b)) []) as (d & Ed & _).
  { rewrite app_nil_r. apply reads_new. by right. }
  unfold UnmarshalBinary_. by rewrite Ed.
Qed.
Lemma SafeUnmarshal_coded {A} depth valid (enc : A -> option bytes) dec v :
  coded depth valid enc dec -> valid v = true -> (depth <= DefaultMaxDepth)%nat ->
  exists b, enc v = Some b /\ SafeUnmarshal dec b = Some v.
Proof.
  intros Hc Hv Hd. destruct (Hc v _ Hv Hd) as (b & Eb & _ & Db). exists b. split; [done|].
  destruct (Db (NewDecoderWithOptions b 0) []) as (d & Ed & _).
  { rewrite app_nil_r. apply reads_new. by left. }
  unfold SafeUnmarshal, xdr_Unmarshal. rewrite Ed. cbn. by rewrite Z.eqb_refl.
Qed.
Lemma DecodeBytes_coded {A} depth valid (enc : A -> option bytes) dec v :
  coded depth valid enc dec -> valid v = true -> (depth <= DecodeDefaultMaxDepth)%nat ->
  exists b, enc v = Some b /\ b <> [] /\ DecodeBytes dec b = Ok (v, go_len b).
Proof.
  intros Hc Hv Hd. destruct (Hc v _ Hv Hd) as (b & Eb & Hb & Db). exists b. split; [done|]. split; [done|].
  destruct (Db (NewDecoder b) []) as (d & Ed & _); [rewrite app_nil_r; apply reads_new_default|].
  unfold DecodeBytes. by rewrite Ed.
Qed.
End Laws.

(** How deep values of recursive types may nest. *)
Class Nesting := { nesting : nat }.

(** ** Proofs that a type is read back *)
Create HintDb xdr.

Ltac valid_value := first [assumption | reflexivity].
(** A field, by its type. *)
Ltac xdr_value :=
  lazymatch goal with
  | |- writes (EncodeInt _) _ _ => apply writes_int; valid_value
  | |- writes (EncodeUint _) _ _ => apply writes_uint; valid_value
  | |- writes (EncodeHyper _) _ _ => apply writes_hyper; valid_value
  | |- writes (EncodeUhyper _) _ _ => apply writes_uhyper; valid_value
  | |- writes (EncodeBool _) _ _ => apply writes_bool
  | |- writes (EncodeFixedOpaque _) _ _ => apply writes_fixed
  | |- writes (EncodeOpaque _) _ _ => apply writes_opaque; valid_value
  | |- writes (EncodeString _) _ _ => apply writes_string; valid_value
  | |- writes (pointer_EncodeTo _ _) _ _ => eapply pointer_valid; [|eassumption]; intros ? ?; xdr_value
  | |- writes (slice_EncodeTo _ _) _ _ => eapply slice_valid; [reflexivity| |eassumption]; intros ? ?; xdr_value
  | |- writes _ _ _ => eapply use_coded; [solve [eauto 2 with xdr nocore]|valid_value|lia]
  end.
Ltac xdr_value0 :=
  lazymatch goal with
  | |- writes0 (elements_EncodeTo _ _) _ _ => eapply array_valid; [|eassumption]; intros ? ?; xdr_value
  | |- _ => apply writes_writes0; xdr_value
  end.
Ltac xdr_rest :=
  cbv beta iota;
  lazymatch goal with
  | |- writes0 written _ _ => apply writes_ret
  | |- writes0 _ (tracked _ _) _ => apply writes0_tracked; xdr_rest
  | |- _ => eapply writes0_bind; [xdr_value0|cbn [Z.eqb Pos.eqb]; xdr_rest]
  end.
Ltac xdr_fields := cbv beta iota; eapply writes_bind; [xdr_value|cbn [Z.eqb Pos.eqb]; xdr_rest].
Ltac xdr_valid :=
  repeat match goal with
  | H : _ && _ = true |- _ => apply andb_true_iff in H; destruct H
  end.
(** A type of one field; of several; of several cases. *)
Tactic Notation "xdr_single" reference(e) reference(d) reference(v) :=
  unfold d; apply coded_nested; [lia|]; let x := fresh "x" in let n := fresh "n" in let Hv := fresh "Hv" in
  intros x n Hv ?; unfold v in Hv; unfold e; cbv beta iota zeta in Hv |- *; xdr_fields.
Tactic Notation "xdr_record" reference(e) reference(d) reference(v) :=
  unfold d; apply coded_nested; [lia|]; let x := fresh "x" in let n := fresh "n" in let Hv := fresh "Hv" in
  intros x n Hv ?; unfold v in Hv; unfold e;
  repeat match goal with y : _ * _ |- _ => destruct y end; try (is_var x; destruct x);
  cbv beta iota in Hv |- *; xdr_valid; xdr_fields.
Tactic Notation "xdr_union" reference(e) reference(d) reference(v) :=
  unfold d; apply coded_nested; [lia|]; let x := fresh "x" in let n := fresh "n" in let Hv := fresh "Hv" in
  intros x n Hv ?; unfold v in Hv; unfold e; destruct x; cbv beta iota in Hv |- *; try discriminate Hv; xdr_fields.

(** ** A coder that follows RFC 4506

    It shows that the laws can hold. A decoder is the input left. *)
Module Rfc4506.
Definition read_bytes (n : nat) (d : bytes) : option (bytes * bytes) :=
  if (length d <? n)%nat then None else Some (take n d, drop n d).
Definition read_number (n : nat) (f : Z -> Z) (d : bytes) : option (Z * Z * bytes) :=
  let! p := read_bytes n d in Some (f (be_get p.1), Z.of_nat n, p.2).
Definition read_opaque (max : Z) (d : bytes) : option (bytes * Z * bytes) :=
  let! p := read_bytes 4 d in
  let l := be_get p.1 in
  if negb (max =? 0) && (max <? l) then None
  else if go_len p.2 <? l then None
  else
    let n := Z.to_nat l in
    let! q := read_bytes n p.2 in
    let! r := read_bytes (length (xdr_padding n)) q.2 in
    Some (q.1, 4 + l + go_len (xdr_padding n), r.2).
Fixpoint vec_of (n : nat) (l : bytes) : option (vec byte n) :=
  match n with
  | O => Some vnil
  | S n => match l with [] => None | x :: l => let! v := vec_of n l in Some (vcons x v) end
  end.
Definition read_fixed (n : nat) (d : bytes) : option (vec byte n * Z * bytes) :=
  let! p := read_bytes n d in
  let! v := vec_of n p.1 in
  let! q := read_bytes (length (xdr_padding n)) p.2 in
  Some (v, Z.of_nat (n + length (xdr_padding n)), q.2).

Instance coder : GoXdrCoder := {|
  EncodeInt v := Some (be_put 4 (u32 v));
  EncodeUint v := Some (be_put 4 v);
  EncodeHyper v := Some (be_put 8 (u64 v));
  EncodeUhyper v := Some (be_put 8 v);
  EncodeBool b := Some (be_put 4 (if b then 1 else 0));
  EncodeFixedOpaque p := Some (p ++ xdr_padding (length p));
  EncodeOpaque p := Some (xdr_opaque p);
  EncodeString p := Some (xdr_opaque p);
  Decoder := bytes;
  NewDecoder inp := inp;
  NewDecoderWithOptions inp _ := inp;
  DefaultMaxDepth := 200;
  DecodeDefaultMaxDepth := 200;
  InputLen d := Some (go_len d);
  TrackOutputBytesOf _ d := Some d;
  DecodeInt := read_number 4 i32;
  DecodeUint := read_number 4 id;
  DecodeHyper := read_number 8 i64;
  DecodeUhyper := read_number 8 id;
  DecodeBool d := let! r := read_number 4 id d in
    if r.1.1 =? 0 then Some (false, r.1.2, r.2) else if r.1.1 =? 1 then Some (true, r.1.2, r.2) else None;
  DecodeFixedOpaqueInplace := read_fixed;
  opaque_slice p := Some p;
  DecodeOpaque := read_opaque;
  DecodeString := read_opaque
|}.

Lemma read_bytes_app n b t : length b = n -> read_bytes n (b ++ t) = Some (b, t).
Proof.
  intros <-. unfold read_bytes. rewrite length_app. destruct (Nat.ltb_spec (length b + length t) (length b)); [lia|].
  by rewrite take_app_length, drop_app_length.
Qed.
Lemma read_number_app n f v w t : length v = n -> f (be_get v) = w -> read_number n f (v ++ t) = Some (w, go_len v, t).
Proof. intros E F. unfold read_number. rewrite (read_bytes_app n) by done. cbn [fst snd]. unfold go_len. by rewrite F, E. Qed.
Lemma read_opaque_app max p t : is_u32 (go_len p) -> max = 0 \/ go_len p <= max ->
  read_opaque max (xdr_opaque p ++ t) = Some (p, go_len (xdr_opaque p), t).
Proof.
  intros Hp Hm. unfold read_opaque, xdr_opaque. rewrite <- !app_assoc, (read_bytes_app 4) by apply length_be_put. cbn [fst snd].
  rewrite be_get_put by (unfold is_u32 in Hp; lia).
  replace (negb (max =? 0) && (max <? go_len p)) with false by
    (symmetry; destruct (Z.eqb_spec max 0); [done|]; cbn; apply Z.ltb_ge; lia).
  replace (go_len (p ++ xdr_padding (length p) ++ t) <? go_len p) with false by
    (symmetry; apply Z.ltb_ge; unfold go_len; rewrite length_app; lia).
  unfold go_len at 1 2. rewrite Nat2Z.id, (read_bytes_app (length p)) by done. cbn [fst snd].
  rewrite read_bytes_app by done. cbn [snd]. do 3 f_equal. unfold go_len. rewrite !length_app, length_be_put, Nat2Z.id. lia.
Qed.
Lemma vec_of_list n (v : vec byte n) : vec_of n (vec_to_list v) = Some v.
Proof. induction v as [|x n v IH]; [done|]. cbn. by rewrite IH. Qed.

Lemma u32_i32 v : is_i32 v -> i32 (u32 v) = v.
Proof.
  unfold is_i32, i32, u32. intros H. rewrite Zplus_mod_idemp_l. rewrite Z.mod_small by lia. lia.
Qed.
Lemma u64_i64 v : is_i64 v -> i64 (u64 v) = v.
Proof. unfold is_i64, i64, u64. intros H. rewrite Zplus_mod_idemp_l. rewrite Z.mod_small by lia. lia. Qed.

#[refine] Instance coder_laws : GoXdrCoderLaws coder := {| reads := fun (d : @Decoder coder) (s : bytes) => d = s |}.
Proof.
  all: try (intros; done).
  all: try (intros; eexists; split; [reflexivity|done]).
  - intros d s n -> [= <-]. done.
  - intros v Hv d t ->. exists t. split; [|done]. apply read_number_app; [apply length_be_put|].
    rewrite be_get_put; [by apply u32_i32|]. pose proof (u32_range v) as H; unfold is_u32 in H; lia.
  - intros v Hv d t ->. exists t. split; [|done]. apply read_number_app; [apply length_be_put|].
    apply be_get_put. unfold is_u32 in Hv; lia.
  - intros v Hv d t ->. exists t. split; [|done]. apply read_number_app; [apply length_be_put|].
    rewrite be_get_put; [by apply u64_i64|]. pose proof (u64_range v) as H; unfold is_u64 in H; lia.
  - intros v Hv d t ->. exists t. split; [|done]. apply read_number_app; [apply length_be_put|].
    apply be_get_put. unfold is_u64 in Hv; lia.
  - intros b d t ->. exists t. split; [|done]. cbn [DecodeBool coder].
    rewrite (read_number_app 4 id _ (if b then 1 else 0)) by (try apply length_be_put; destruct b; reflexivity). by destruct b.
  - intros n p d t ->. exists t. split; [|done]. cbn [DecodeFixedOpaqueInplace coder]. unfold read_fixed.
    rewrite <- app_assoc, (read_bytes_app n) by apply length_vec_to_list. cbn [fst snd]. rewrite vec_of_list.
    rewrite read_bytes_app by done. cbn [snd]. do 3 f_equal. unfold go_len. by rewrite length_app, length_vec_to_list.
  - intros max p Hp Hm d t ->. exists t. split; [|done]. by apply read_opaque_app.
  - intros max p Hp Hm d t ->. exists t. split; [|done]. by apply read_opaque_app.
Defined.
End Rfc4506.
