(* ===== verification/XdrTypes.v ===== *)
(** * The encoded types of transactions

    The types of src/xdr/xdr_generated.go that operations, keys and contract calls are
    made of: for each its encoder [EncodeTo], its decoder [DecodeFrom], and which values
    are within the sizes of the protocol, its [valid]. The types are those of the other
    files where they have them. Discriminants are written as numbers. A pointer to an
    arm of a union is never nil, and the extensions that hold nothing are left out of
    values. What the code adds to an error is not kept. *)
From Stdlib Require Import ZArith Lia.
From stdpp Require Import base list vector option.
From S2P Require Import Prelude GoStd GoExt Price Encodings Strkey Asset LedgerEntries CloseMeta Accounts Envelopes.
From S2P Require Import Keypair TxnXdr XdrCodec.
#[local] Open Scope Z_scope.
#[local] Open Scope go_scope.
#[local] Open Scope string_scope.

Section Types.
Context {X : GoXdrCoder} {N : Nesting}.

Definition ledgerEntryTypeMap : list Z := [0; 1; 2; 3; 4; 5; 6; 7; 8; 9].
Definition LedgerEntryType_EncodeTo (e : Z) : option bytes := enum_EncodeTo ledgerEntryTypeMap e.
Definition LedgerEntryType_DecodeFrom (maxDepth : nat) : decode Z := enum_DecodeFrom ledgerEntryTypeMap maxDepth.
Definition LedgerEntryType_valid (e : Z) : bool := valid_enum ledgerEntryTypeMap e.

Definition publicKeyTypeMap : list Z := [0].
Definition PublicKeyType_EncodeTo (e : Z) : option bytes := enum_EncodeTo publicKeyTypeMap e.
Definition PublicKeyType_DecodeFrom (maxDepth : nat) : decode Z := enum_DecodeFrom publicKeyTypeMap maxDepth.
Definition PublicKeyType_valid (e : Z) : bool := valid_enum publicKeyTypeMap e.

Definition Uint256_EncodeTo (s : vec byte 32) : option bytes := write! EncodeFixedOpaque (vec_to_list s) in written.
Definition Uint256_DecodeFrom (maxDepth : nat) : decode (vec byte 32) := nested maxDepth (fun maxDepth =>
  read! s := DecodeFixedOpaqueInplace 32 in ret s).
Definition Uint256_valid (s : vec byte 32) : bool := true.

Definition PublicKey_EncodeTo (u : AccountId) : option bytes :=
  match u with
  | k => write! PublicKeyType_EncodeTo 0 in write! Uint256_EncodeTo k in written
  end.
Definition PublicKey_DecodeFrom (maxDepth : nat) : decode AccountId := nested maxDepth (fun maxDepth =>
  read! type_ := PublicKeyType_DecodeFrom maxDepth in
  if type_ =? 0 then tracked "Uint256" (read! k := Uint256_DecodeFrom maxDepth in ret k) else
  invalid).
Definition PublicKey_valid (u : AccountId) : bool :=
  match u with
  | k => Uint256_valid k
  end.

Definition AccountId_EncodeTo (s : AccountId) : option bytes := write! PublicKey_EncodeTo s in written.
Definition AccountId_DecodeFrom (maxDepth : nat) : decode AccountId := nested maxDepth (fun maxDepth =>
  read! s := PublicKey_DecodeFrom maxDepth in ret s).
Definition AccountId_valid (s : AccountId) : bool := PublicKey_valid s.

Definition LedgerKeyAccount_EncodeTo (s : AccountId) : option bytes :=
  let accountId := s in
  write! AccountId_EncodeTo accountId in
  written.
Definition LedgerKeyAccount_DecodeFrom (maxDepth : nat) : decode AccountId := nested maxDepth (fun maxDepth =>
  read! accountId := AccountId_DecodeFrom maxDepth in
  ret accountId).
Definition LedgerKeyAccount_valid (s : AccountId) : bool :=
  let accountId := s in
  AccountId_valid accountId.

Definition assetTypeMap : list Z := [0; 1; 2; 3].
Definition AssetType_EncodeTo (e : Z) : option bytes := enum_EncodeTo assetTypeMap e.
Definition AssetType_DecodeFrom (maxDepth : nat) : decode Z := enum_DecodeFrom assetTypeMap maxDepth.
Definition AssetType_valid (e : Z) : bool := valid_enum assetTypeMap e.

Definition AssetCode4_EncodeTo (s : vec byte 4) : option bytes := write! EncodeFixedOpaque (vec_to_list s) in written.
Definition AssetCode4_DecodeFrom (maxDepth : nat) : decode (vec byte 4) := nested maxDepth (fun maxDepth =>
  read! s := DecodeFixedOpaqueInplace 4 in ret s).
Definition AssetCode4_valid (s : vec byte 4) : bool := true.

Definition AlphaNum4_EncodeTo (s : (vec byte 4 * AccountId)) : option bytes :=
  let '(assetCode, issuer) := s in
  write! AssetCode4_EncodeTo assetCode in
  write! AccountId_EncodeTo issuer in
  written.
Definition AlphaNum4_DecodeFrom (maxDepth : nat) : decode (vec byte 4 * AccountId) := nested maxDepth (fun maxDepth =>
  read! assetCode := AssetCode4_DecodeFrom maxDepth in
  read! issuer := AccountId_DecodeFrom maxDepth in
  ret (assetCode, issuer)).
Definition AlphaNum4_valid (s : (vec byte 4 * AccountId)) : bool :=
  let '(assetCode, issuer) := s in
  AssetCode4_valid assetCode && AccountId_valid issuer.

Definition AssetCode12_EncodeTo (s : vec byte 12) : option bytes := write! EncodeFixedOpaque (vec_to_list s) in written.
Definition AssetCode12_DecodeFrom (maxDepth : nat) : decode (vec byte 12) := nested maxDepth (fun maxDepth =>
  read! s := DecodeFixedOpaqueInplace 12 in ret s).
Definition AssetCode12_valid (s : vec byte 12) : bool := true.

Definition AlphaNum12_EncodeTo (s : (vec byte 12 * AccountId)) : option bytes :=
  let '(assetCode, issuer) := s in
  write! AssetCode12_EncodeTo assetCode in
  write! AccountId_EncodeTo issuer in
  written.
Definition AlphaNum12_DecodeFrom (maxDepth : nat) : decode (vec byte 12 * AccountId) := nested maxDepth (fun maxDepth =>
  read! assetCode := AssetCode12_DecodeFrom maxDepth in
  read! issuer := AccountId_DecodeFrom maxDepth in
  ret (assetCode, issuer)).
Definition AlphaNum12_valid (s : (vec byte 12 * AccountId)) : bool :=
  let '(assetCode, issuer) := s in
  AssetCode12_valid assetCode && AccountId_valid issuer.

Definition Hash_EncodeTo (s : vec byte 32) : option bytes := write! EncodeFixedOpaque (vec_to_list s) in written.
Definition Hash_DecodeFrom (maxDepth : nat) : decode (vec byte 32) := nested maxDepth (fun maxDepth =>
  read! s := DecodeFixedOpaqueInplace 32 in ret s).
Definition Hash_valid (s : vec byte 32) : bool := true.

Definition PoolId_EncodeTo (s : PoolId) : option bytes := write! Hash_EncodeTo s in written.
Definition PoolId_DecodeFrom (maxDepth : nat) : decode PoolId := nested maxDepth (fun maxDepth =>
  read! s := Hash_DecodeFrom maxDepth in ret s).
Definition PoolId_valid (s : PoolId) : bool := Hash_valid s.

Definition TrustLineAsset_EncodeTo (u : TrustLineAsset) : option bytes :=
  match u with
  | TrustLineNative => write! AssetType_EncodeTo 0 in written
  | TrustLineAlphanum4 c i => write! AssetType_EncodeTo 1 in write! AlphaNum4_EncodeTo (c, i) in written
  | TrustLineAlphanum12 c i => write! AssetType_EncodeTo 2 in write! AlphaNum12_EncodeTo (c, i) in written
  | TrustLinePoolShare p => write! AssetType_EncodeTo 3 in write! PoolId_EncodeTo p in written
  end.
Definition TrustLineAsset_DecodeFrom (maxDepth : nat) : decode TrustLineAsset := nested maxDepth (fun maxDepth =>
  read! type_ := AssetType_DecodeFrom maxDepth in
  if type_ =? 0 then ret TrustLineNative else
  if type_ =? 1 then tracked "AlphaNum4" (read! (c, i) := AlphaNum4_DecodeFrom maxDepth in ret (TrustLineAlphanum4 c i)) else
  if type_ =? 2 then tracked "AlphaNum12" (read! (c, i) := AlphaNum12_DecodeFrom maxDepth in ret (TrustLineAlphanum12 c i)) else
  if type_ =? 3 then tracked "PoolId" (read! p := PoolId_DecodeFrom maxDepth in ret (TrustLinePoolShare p)) else
  invalid).
Definition TrustLineAsset_valid (u : TrustLineAsset) : bool :=
  match u with
  | TrustLineNative => true
  | TrustLineAlphanum4 c i => AlphaNum4_valid (c, i)
  | TrustLineAlphanum12 c i => AlphaNum12_valid (c, i)
  | TrustLinePoolShare p => PoolId_valid p
  end.

Definition LedgerKeyTrustLine_EncodeTo (s : (AccountId * TrustLineAsset)) : option bytes :=
  let '(accountId, asset) := s in
  write! AccountId_EncodeTo accountId in
  write! TrustLineAsset_EncodeTo asset in
  written.
Definition LedgerKeyTrustLine_DecodeFrom (maxDepth : nat) : decode (AccountId * TrustLineAsset) := nested maxDepth (fun maxDepth =>
  read! accountId := AccountId_DecodeFrom maxDepth in
  read! asset := TrustLineAsset_DecodeFrom maxDepth in
  ret (accountId, asset)).
Definition LedgerKeyTrustLine_valid (s : (AccountId * TrustLineAsset)) : bool :=
  let '(accountId, asset) := s in
  AccountId_valid accountId && TrustLineAsset_valid asset.

Definition Int64_EncodeTo (s : Z) : option bytes := write! EncodeHyper s in written.
Definition Int64_DecodeFrom (maxDepth : nat) : decode Z := nested maxDepth (fun maxDepth =>
  read! s := DecodeHyper in ret s).
Definition Int64_valid (s : Z) : bool := valid_i64 s.

Definition LedgerKeyOffer_EncodeTo (s : (AccountId * Z)) : option bytes :=
  let '(sellerId, offerId) := s in
  write! AccountId_EncodeTo sellerId in
  write! Int64_EncodeTo offerId in
  written.
Definition LedgerKeyOffer_DecodeFrom (maxDepth : nat) : decode (AccountId * Z) := nested maxDepth (fun maxDepth =>
  read! sellerId := AccountId_DecodeFrom maxDepth in
  read! offerId := Int64_DecodeFrom maxDepth in
  ret (sellerId, offerId)).
Definition LedgerKeyOffer_valid (s : (AccountId * Z)) : bool :=
  let '(sellerId, offerId) := s in
  AccountId_valid sellerId && Int64_valid offerId.

Definition String64_EncodeTo (s : bytes) : option bytes := write! EncodeString s in written.
Definition String64_DecodeFrom (maxDepth : nat) : decode bytes := nested maxDepth (fun maxDepth =>
  read! s := DecodeString 64 in ret s).
Definition String64_valid (s : bytes) : bool := valid_size (size_limit 64) s.

Definition LedgerKeyData_EncodeTo (s : (AccountId * bytes)) : option bytes :=
  let '(accountId, dataName) := s in
  write! AccountId_EncodeTo accountId in
  write! String64_EncodeTo dataName in
  written.
Definition LedgerKeyData_DecodeFrom (maxDepth : nat) : decode (AccountId * bytes) := nested maxDepth (fun maxDepth =>
  read! accountId := AccountId_DecodeFrom maxDepth in
  read! dataName := String64_DecodeFrom maxDepth in
  ret (accountId, dataName)).
Definition LedgerKeyData_valid (s : (AccountId * bytes)) : bool :=
  let '(accountId, dataName) := s in
  AccountId_valid accountId && String64_valid dataName.

Definition claimableBalanceIdTypeMap : list Z := [0].
Definition ClaimableBalanceIdType_EncodeTo (e : Z) : option bytes := enum_EncodeTo claimableBalanceIdTypeMap e.
Definition ClaimableBalanceIdType_DecodeFrom (maxDepth : nat) : decode Z := enum_DecodeFrom claimableBalanceIdTypeMap maxDepth.
Definition ClaimableBalanceIdType_valid (e : Z) : bool := valid_enum claimableBalanceIdTypeMap e.

Definition ClaimableBalanceId_EncodeTo (u : ClaimableBalanceId) : option bytes :=
  match u with
  | h => write! ClaimableBalanceIdType_EncodeTo 0 in write! Hash_EncodeTo h in written
  end.
Definition ClaimableBalanceId_DecodeFrom (maxDepth : nat) : decode ClaimableBalanceId := nested maxDepth (fun maxDepth =>
  read! type_ := ClaimableBalanceIdType_DecodeFrom maxDepth in
  if type_ =? 0 then tracked "Hash" (read! h := Hash_DecodeFrom maxDepth in ret h) else
  invalid).
Definition ClaimableBalanceId_valid (u : ClaimableBalanceId) : bool :=
  match u with
  | h => Hash_valid h
  end.

Definition LedgerKeyClaimableBalance_EncodeTo (s : ClaimableBalanceId) : option bytes :=
  let balanceId := s in
  write! ClaimableBalanceId_EncodeTo balanceId in
  written.
Definition LedgerKeyClaimableBalance_DecodeFrom (maxDepth : nat) : decode ClaimableBalanceId := nested maxDepth (fun maxDepth =>
  read! balanceId := ClaimableBalanceId_DecodeFrom maxDepth in
  ret balanceId).
Definition LedgerKeyClaimableBalance_valid (s : ClaimableBalanceId) : bool :=
  let balanceId := s in
  ClaimableBalanceId_valid balanceId.

Definition LedgerKeyLiquidityPool_EncodeTo (s : PoolId) : option bytes :=
  let liquidityPoolId := s in
  write! PoolId_EncodeTo liquidityPoolId in
  written.
Definition LedgerKeyLiquidityPool_DecodeFrom (maxDepth : nat) : decode PoolId := nested maxDepth (fun maxDepth =>
  read! liquidityPoolId := PoolId_DecodeFrom maxDepth in
  ret liquidityPoolId).
Definition LedgerKeyLiquidityPool_valid (s : PoolId) : bool :=
  let liquidityPoolId := s in
  PoolId_valid liquidityPoolId.

Definition scAddressTypeMap : list Z := [0; 1; 2; 3; 4; 5].
Definition ScAddressType_EncodeTo (e : Z) : option bytes := enum_EncodeTo scAddressTypeMap e.
Definition ScAddressType_DecodeFrom (maxDepth : nat) : decode Z := enum_DecodeFrom scAddressTypeMap maxDepth.
Definition ScAddressType_valid (e : Z) : bool := valid_enum scAddressTypeMap e.

Definition ContractId_EncodeTo (s : vec byte 32) : option bytes := write! Hash_EncodeTo s in written.
Definition ContractId_DecodeFrom (maxDepth : nat) : decode (vec byte 32) := nested maxDepth (fun maxDepth =>
  read! s := Hash_DecodeFrom maxDepth in ret s).
Definition ContractId_valid (s : vec byte 32) : bool := Hash_valid s.

Definition Uint64_EncodeTo (s : Z) : option bytes := write! EncodeUhyper s in written.
Definition Uint64_DecodeFrom (maxDepth : nat) : decode Z := nested maxDepth (fun maxDepth =>
  read! s := DecodeUhyper in ret s).
Definition Uint64_valid (s : Z) : bool := valid_u64 s.

Definition MuxedEd25519Account_EncodeTo (s : (Z * vec byte 32)) : option bytes :=
  let '(id_, ed25519) := s in
  write! Uint64_EncodeTo id_ in
  write! Uint256_EncodeTo ed25519 in
  written.
Definition MuxedEd25519Account_DecodeFrom (maxDepth : nat) : decode (Z * vec byte 32) := nested maxDepth (fun maxDepth =>
  read! id_ := Uint64_DecodeFrom maxDepth in
  read! ed25519 := Uint256_DecodeFrom maxDepth in
  ret (id_, ed25519)).
Definition MuxedEd25519Account_valid (s : (Z * vec byte 32)) : bool :=
  let '(id_, ed25519) := s in
  Uint64_valid id_ && Uint256_valid ed25519.

Definition MuxedContract_EncodeTo (s : (Z * Hash)) : option bytes :=
  let '(id_, contractId) := s in
  write! Uint64_EncodeTo id_ in
  write! ContractId_EncodeTo contractId in
  written.
Definition MuxedContract_DecodeFrom (maxDepth : nat) : decode (Z * Hash) := nested maxDepth (fun maxDepth =>
  read! id_ := Uint64_DecodeFrom maxDepth in
  read! contractId := ContractId_DecodeFrom maxDepth in
  ret (id_, contractId)).
Definition MuxedContract_valid (s : (Z * Hash)) : bool :=
  let '(id_, contractId) := s in
  Uint64_valid id_ && ContractId_valid contractId.

Definition ScAddress_EncodeTo (u : ScAddress_) : option bytes :=
  match u with
  | ScAddressTypeAccount a => write! ScAddressType_EncodeTo 0 in write! AccountId_EncodeTo a in written
  | ScAddressTypeContract c => write! ScAddressType_EncodeTo 1 in write! ContractId_EncodeTo c in written
  | ScAddressTypeMuxedAccount i k => write! ScAddressType_EncodeTo 2 in write! MuxedEd25519Account_EncodeTo (i, k) in written
  | ScAddressTypeClaimableBalance c => write! ScAddressType_EncodeTo 3 in write! ClaimableBalanceId_EncodeTo c in written
  | ScAddressTypeLiquidityPool p => write! ScAddressType_EncodeTo 4 in write! PoolId_EncodeTo p in written
  | ScAddressTypeMuxedContract i c => write! ScAddressType_EncodeTo 5 in write! MuxedContract_EncodeTo (i, c) in written
  end.
Definition ScAddress_DecodeFrom (maxDepth : nat) : decode ScAddress_ := nested maxDepth (fun maxDepth =>
  read! type_ := ScAddressType_DecodeFrom maxDepth in
  if type_ =? 0 then tracked "AccountId" (read! a := AccountId_DecodeFrom maxDepth in ret (ScAddressTypeAccount a)) else
  if type_ =? 1 then tracked "ContractId" (read! c := ContractId_DecodeFrom maxDepth in ret (ScAddressTypeContract c)) else
  if type_ =? 2 then tracked "MuxedEd25519Account" (read! (i, k) := MuxedEd25519Account_DecodeFrom maxDepth in ret
      (ScAddressTypeMuxedAccount i k)) else
  if type_ =? 3 then tracked "ClaimableBalanceId" (read! c := ClaimableBalanceId_DecodeFrom maxDepth in ret (ScAddressTypeClaimableBalance
      c)) else
  if type_ =? 4 then tracked "PoolId" (read! p := PoolId_DecodeFrom maxDepth in ret (ScAddressTypeLiquidityPool p)) else
  if type_ =? 5 then tracked "MuxedContract" (read! (i, c) := MuxedContract_DecodeFrom maxDepth in ret (ScAddressTypeMuxedContract i c))
      else
  invalid).
Definition ScAddress_valid (u : ScAddress_) : bool :=
  match u with
  | ScAddressTypeAccount a => AccountId_valid a
  | ScAddressTypeContract c => ContractId_valid c
  | ScAddressTypeMuxedAccount i k => MuxedEd25519Account_valid (i, k)
  | ScAddressTypeClaimableBalance c => ClaimableBalanceId_valid c
  | ScAddressTypeLiquidityPool p => PoolId_valid p
  | ScAddressTypeMuxedContract i c => MuxedContract_valid (i, c)
  end.

Definition scValTypeMap : list Z := [0; 1; 2; 3; 4; 5; 6; 7; 8; 9; 10; 11; 12; 13; 14; 15; 16; 17; 18; 19; 20; 21; 22].
Definition ScValType_EncodeTo (e : Z) : option bytes := enum_EncodeTo scValTypeMap e.
Definition ScValType_DecodeFrom (maxDepth : nat) : decode Z := enum_DecodeFrom scValTypeMap maxDepth.
Definition ScValType_valid (e : Z) : bool := valid_enum scValTypeMap e.

Definition scErrorTypeMap : list Z := [0; 1; 2; 3; 4; 5; 6; 7; 8; 9].
Definition ScErrorType_EncodeTo (e : Z) : option bytes := enum_EncodeTo scErrorTypeMap e.
Definition ScErrorType_DecodeFrom (maxDepth : nat) : decode Z := enum_DecodeFrom scErrorTypeMap maxDepth.
Definition ScErrorType_valid (e : Z) : bool := valid_enum scErrorTypeMap e.

Definition Uint32_EncodeTo (s : Z) : option bytes := write! EncodeUint s in written.
Definition Uint32_DecodeFrom (maxDepth : nat) : decode Z := nested maxDepth (fun maxDepth =>
  read! s := DecodeUint in ret s).
Definition Uint32_valid (s : Z) : bool := valid_u32 s.

Definition scErrorCodeMap : list Z := [0; 1; 2; 3; 4; 5; 6; 7; 8; 9].
Definition ScErrorCode_EncodeTo (e : Z) : option bytes := enum_EncodeTo scErrorCodeMap e.
Definition ScErrorCode_DecodeFrom (maxDepth : nat) : decode Z := enum_DecodeFrom scErrorCodeMap maxDepth.
Definition ScErrorCode_valid (e : Z) : bool := valid_enum scErrorCodeMap e.

Inductive XdrScError : Type :=
| ScError_SceContract (contractCode : Z)
| ScError_SceWasmVm (code : Z)
| ScError_SceContext (code : Z)
| ScError_SceStorage (code : Z)
| ScError_SceObject (code : Z)
| ScError_SceCrypto (code : Z)
| ScError_SceEvents (code : Z)
| ScError_SceBudget (code : Z)
| ScError_SceValue (code : Z)
| ScError_SceAuth (code : Z).
Definition ScError_EncodeTo (u : XdrScError) : option bytes :=
  match u with
  | ScError_SceContract contractCode => write! ScErrorType_EncodeTo 0 in write! Uint32_EncodeTo contractCode in written
  | ScError_SceWasmVm code => write! ScErrorType_EncodeTo 1 in write! ScErrorCode_EncodeTo code in written
  | ScError_SceContext code => write! ScErrorType_EncodeTo 2 in write! ScErrorCode_EncodeTo code in written
  | ScError_SceStorage code => write! ScErrorType_EncodeTo 3 in write! ScErrorCode_EncodeTo code in written
  | ScError_SceObject code => write! ScErrorType_EncodeTo 4 in write! ScErrorCode_EncodeTo code in written
  | ScError_SceCrypto code => write! ScErrorType_EncodeTo 5 in write! ScErrorCode_EncodeTo code in written
  | ScError_SceEvents code => write! ScErrorType_EncodeTo 6 in write! ScErrorCode_EncodeTo code in written
  | ScError_SceBudget code => write! ScErrorType_EncodeTo 7 in write! ScErrorCode_EncodeTo code in written
  | ScError_SceValue code => write! ScErrorType_EncodeTo 8 in write! ScErrorCode_EncodeTo code in written
  | ScError_SceAuth code => write! ScErrorType_EncodeTo 9 in write! ScErrorCode_EncodeTo code in written
  end.
Definition ScError_DecodeFrom (maxDepth : nat) : decode XdrScError := nested maxDepth (fun maxDepth =>
  read! type_ := ScErrorType_DecodeFrom maxDepth in
  if type_ =? 0 then tracked "Uint32" (read! contractCode := Uint32_DecodeFrom maxDepth in ret (ScError_SceContract contractCode)) else
  if type_ =? 1 then tracked "ScErrorCode" (read! code := ScErrorCode_DecodeFrom maxDepth in ret (ScError_SceWasmVm code)) else
  if type_ =? 2 then tracked "ScErrorCode" (read! code := ScErrorCode_DecodeFrom maxDepth in ret (ScError_SceContext code)) else
  if type_ =? 3 then tracked "ScErrorCode" (read! code := ScErrorCode_DecodeFrom maxDepth in ret (ScError_SceStorage code)) else
  if type_ =? 4 then tracked "ScErrorCode" (read! code := ScErrorCode_DecodeFrom maxDepth in ret (ScError_SceObject code)) else
  if type_ =? 5 then tracked "ScErrorCode" (read! code := ScErrorCode_DecodeFrom maxDepth in ret (ScError_SceCrypto code)) else
  if type_ =? 6 then tracked "ScErrorCode" (read! code := ScErrorCode_DecodeFrom maxDepth in ret (ScError_SceEvents code)) else
  if type_ =? 7 then tracked "ScErrorCode" (read! code := ScErrorCode_DecodeFrom maxDepth in ret (ScError_SceBudget code)) else
  if type_ =? 8 then tracked "ScErrorCode" (read! code := ScErrorCode_DecodeFrom maxDepth in ret (ScError_SceValue code)) else
  if type_ =? 9 then tracked "ScErrorCode" (read! code := ScErrorCode_DecodeFrom maxDepth in ret (ScError_SceAuth code)) else
  invalid).
Definition ScError_valid (u : XdrScError) : bool :=
  match u with
  | ScError_SceContract contractCode => Uint32_valid contractCode
  | ScError_SceWasmVm code => ScErrorCode_valid code
  | ScError_SceContext code => ScErrorCode_valid code
  | ScError_SceStorage code => ScErrorCode_valid code
  | ScError_SceObject code => ScErrorCode_valid code
  | ScError_SceCrypto code => ScErrorCode_valid code
  | ScError_SceEvents code => ScErrorCode_valid code
  | ScError_SceBudget code => ScErrorCode_valid code
  | ScError_SceValue code => ScErrorCode_valid code
  | ScError_SceAuth code => ScErrorCode_valid code
  end.

Definition Int32_EncodeTo (s : Z) : option bytes := write! EncodeInt s in written.
Definition Int32_DecodeFrom (maxDepth : nat) : decode Z := nested maxDepth (fun maxDepth =>
  read! s := DecodeInt in ret s).
Definition Int32_valid (s : Z) : bool := valid_i32 s.

Definition TimePoint_EncodeTo (s : Z) : option bytes := write! Uint64_EncodeTo s in written.
Definition TimePoint_DecodeFrom (maxDepth : nat) : decode Z := nested maxDepth (fun maxDepth =>
  read! s := Uint64_DecodeFrom maxDepth in ret s).
Definition TimePoint_valid (s : Z) : bool := Uint64_valid s.

Definition Duration_EncodeTo (s : Z) : option bytes := write! Uint64_EncodeTo s in written.
Definition Duration_DecodeFrom (maxDepth : nat) : decode Z := nested maxDepth (fun maxDepth =>
  read! s := Uint64_DecodeFrom maxDepth in ret s).
Definition Duration_valid (s : Z) : bool := Uint64_valid s.

Record XdrUInt128Parts : Type := mkXdrUInt128Parts {
  UInt128Parts_Hi : Z;
  UInt128Parts_Lo : Z
}.
Definition UInt128Parts_EncodeTo (s : XdrUInt128Parts) : option bytes :=
  let '(mkXdrUInt128Parts hi lo) := s in
  write! Uint64_EncodeTo hi in
  write! Uint64_EncodeTo lo in
  written.
Definition UInt128Parts_DecodeFrom (maxDepth : nat) : decode XdrUInt128Parts := nested maxDepth (fun maxDepth =>
  read! hi := Uint64_DecodeFrom maxDepth in
  read! lo := Uint64_DecodeFrom maxDepth in
  ret (mkXdrUInt128Parts hi lo)).
Definition UInt128Parts_valid (s : XdrUInt128Parts) : bool :=
  let '(mkXdrUInt128Parts hi lo) := s in
  Uint64_valid hi && Uint64_valid lo.

Record XdrInt128Parts : Type := mkXdrInt128Parts {
  Int128Parts_Hi : Z;
  Int128Parts_Lo : Z
}.
Definition Int128Parts_EncodeTo (s : XdrInt128Parts) : option bytes :=
  let '(mkXdrInt128Parts hi lo) := s in
  write! Int64_EncodeTo hi in
  write! Uint64_EncodeTo lo in
  written.
Definition Int128Parts_DecodeFrom (maxDepth : nat) : decode XdrInt128Parts := nested maxDepth (fun maxDepth =>
  read! hi := Int64_DecodeFrom maxDepth in
  read! lo := Uint64_DecodeFrom maxDepth in
  ret (mkXdrInt128Parts hi lo)).
Definition Int128Parts_valid (s : XdrInt128Parts) : bool :=
  let '(mkXdrInt128Parts hi lo) := s in
  Int64_valid hi && Uint64_valid lo.

Record XdrUInt256Parts : Type := mkXdrUInt256Parts {
  UInt256Parts_HiHi : Z;
  UInt256Parts_HiLo : Z;
  UInt256Parts_LoHi : Z;
  UInt256Parts_LoLo : Z
}.
Definition UInt256Parts_EncodeTo (s : XdrUInt256Parts) : option bytes :=
  let '(mkXdrUInt256Parts hiHi hiLo loHi loLo) := s in
  write! Uint64_EncodeTo hiHi in
  write! Uint64_EncodeTo hiLo in
  write! Uint64_EncodeTo loHi in
  write! Uint64_EncodeTo loLo in
  written.
Definition UInt256Parts_DecodeFrom (maxDepth : nat) : decode XdrUInt256Parts := nested maxDepth (fun maxDepth =>
  read! hiHi := Uint64_DecodeFrom maxDepth in
  read! hiLo := Uint64_DecodeFrom maxDepth in
  read! loHi := Uint64_DecodeFrom maxDepth in
  read! loLo := Uint64_DecodeFrom maxDepth in
  ret (mkXdrUInt256Parts hiHi hiLo loHi loLo)).
Definition UInt256Parts_valid (s : XdrUInt256Parts) : bool :=
  let '(mkXdrUInt256Parts hiHi hiLo loHi loLo) := s in
  Uint64_valid hiHi && Uint64_valid hiLo && Uint64_valid loHi && Uint64_valid loLo.

Record XdrInt256Parts : Type := mkXdrInt256Parts {
  Int256Parts_HiHi : Z;
  Int256Parts_HiLo : Z;
  Int256Parts_LoHi : Z;
  Int256Parts_LoLo : Z
}.
Definition Int256Parts_EncodeTo (s : XdrInt256Parts) : option bytes :=
  let '(mkXdrInt256Parts hiHi hiLo loHi loLo) := s in
  write! Int64_EncodeTo hiHi in
  write! Uint64_EncodeTo hiLo in
  write! Uint64_EncodeTo loHi in
  write! Uint64_EncodeTo loLo in
  written.
Definition Int256Parts_DecodeFrom (maxDepth : nat) : decode XdrInt256Parts := nested maxDepth (fun maxDepth =>
  read! hiHi := Int64_DecodeFrom maxDepth in
  read! hiLo := Uint64_DecodeFrom maxDepth in
  read! loHi := Uint64_DecodeFrom maxDepth in
  read! loLo := Uint64_DecodeFrom maxDepth in
  ret (mkXdrInt256Parts hiHi hiLo loHi loLo)).
Definition Int256Parts_valid (s : XdrInt256Parts) : bool :=
  let '(mkXdrInt256Parts hiHi hiLo loHi loLo) := s in
  Int64_valid hiHi && Uint64_valid hiLo && Uint64_valid loHi && Uint64_valid loLo.

Definition ScBytes_EncodeTo (s : bytes) : option bytes := write! EncodeOpaque s in written.
Definition ScBytes_DecodeFrom (maxDepth : nat) : decode bytes := nested maxDepth (fun maxDepth =>
  read! s := DecodeOpaque 0 in ret s).
Definition ScBytes_valid (s : bytes) : bool := valid_size (size_limit 0) s.

Definition ScString_EncodeTo (s : bytes) : option bytes := write! EncodeString s in written.
Definition ScString_DecodeFrom (maxDepth : nat) : decode bytes := nested maxDepth (fun maxDepth =>
  read! s := DecodeString 0 in ret s).
Definition ScString_valid (s : bytes) : bool := valid_size (size_limit 0) s.

Definition ScSymbol_EncodeTo (s : bytes) : option bytes := write! EncodeString s in written.
Definition ScSymbol_DecodeFrom (maxDepth : nat) : decode bytes := nested maxDepth (fun maxDepth =>
  read! s := DecodeString 32 in ret s).
Definition ScSymbol_valid (s : bytes) : bool := valid_size (size_limit 32) s.

Definition contractExecutableTypeMap : list Z := [0; 1; 2].
Definition ContractExecutableType_EncodeTo (e : Z) : option bytes := enum_EncodeTo contractExecutableTypeMap e.
Definition ContractExecutableType_DecodeFrom (maxDepth : nat) : decode Z := enum_DecodeFrom contractExecutableTypeMap maxDepth.
Definition ContractExecutableType_valid (e : Z) : bool := valid_enum contractExecutableTypeMap e.

Record XdrContractExecutableExternalRef : Type := mkXdrContractExecutableExternalRef {
  ContractExecutableExternalRef_ExecutableOwner : ScAddress_;
  ContractExecutableExternalRef_Tag : bytes
}.
Definition ContractExecutableExternalRef_EncodeTo (s : XdrContractExecutableExternalRef) : option bytes :=
  let '(mkXdrContractExecutableExternalRef executableOwner tag) := s in
  write! ScAddress_EncodeTo executableOwner in
  write! ScString_EncodeTo tag in
  written.
Definition ContractExecutableExternalRef_DecodeFrom (maxDepth : nat) : decode XdrContractExecutableExternalRef := nested maxDepth (fun
    maxDepth =>
  read! executableOwner := ScAddress_DecodeFrom maxDepth in
  read! tag := ScString_DecodeFrom maxDepth in
  ret (mkXdrContractExecutableExternalRef executableOwner tag)).
Definition ContractExecutableExternalRef_valid (s : XdrContractExecutableExternalRef) : bool :=
  let '(mkXdrContractExecutableExternalRef executableOwner tag) := s in
  ScAddress_valid executableOwner && ScString_valid tag.

Inductive XdrContractExecutable : Type :=
| ContractExecutable_ContractExecutableWasm (wasmHash : vec byte 32)
| ContractExecutable_ContractExecutableStellarAsset
| ContractExecutable_ContractExecutableExternalRef (externalRef : XdrContractExecutableExternalRef).
Definition ContractExecutable_EncodeTo (u : XdrContractExecutable) : option bytes :=
  match u with
  | ContractExecutable_ContractExecutableWasm wasmHash => write! ContractExecutableType_EncodeTo 0 in write! Hash_EncodeTo wasmHash in
      written
  | ContractExecutable_ContractExecutableStellarAsset => write! ContractExecutableType_EncodeTo 1 in written
  | ContractExecutable_ContractExecutableExternalRef externalRef => write! ContractExecutableType_EncodeTo 2 in write!
      ContractExecutableExternalRef_EncodeTo externalRef in written
  end.
Definition ContractExecutable_DecodeFrom (maxDepth : nat) : decode XdrContractExecutable := nested maxDepth (fun maxDepth =>
  read! type_ := ContractExecutableType_DecodeFrom maxDepth in
  if type_ =? 0 then tracked "Hash" (read! wasmHash := Hash_DecodeFrom maxDepth in ret (ContractExecutable_ContractExecutableWasm
      wasmHash)) else
  if type_ =? 1 then ret ContractExecutable_ContractExecutableStellarAsset else
  if type_ =? 2 then tracked "ContractExecutableExternalRef" (read! externalRef := ContractExecutableExternalRef_DecodeFrom maxDepth in ret
      (ContractExecutable_ContractExecutableExternalRef externalRef)) else
  invalid).
Definition ContractExecutable_valid (u : XdrContractExecutable) : bool :=
  match u with
  | ContractExecutable_ContractExecutableWasm wasmHash => Hash_valid wasmHash
  | ContractExecutable_ContractExecutableStellarAsset => true
  | ContractExecutable_ContractExecutableExternalRef externalRef => ContractExecutableExternalRef_valid externalRef
  end.

Record XdrScNonceKey : Type := mkXdrScNonceKey {
  ScNonceKey_Nonce : Z
}.
Definition ScNonceKey_EncodeTo (s : XdrScNonceKey) : option bytes :=
  let '(mkXdrScNonceKey nonce) := s in
  write! Int64_EncodeTo nonce in
  written.
Definition ScNonceKey_DecodeFrom (maxDepth : nat) : decode XdrScNonceKey := nested maxDepth (fun maxDepth =>
  read! nonce := Int64_DecodeFrom maxDepth in
  ret (mkXdrScNonceKey nonce)).
Definition ScNonceKey_valid (s : XdrScNonceKey) : bool :=
  let '(mkXdrScNonceKey nonce) := s in
  Int64_valid nonce.

(** Contract values hold others in vectors, maps and contract instances. *)
Inductive XdrScVal : Type :=
| ScVal_ScvBool (b : bool)
| ScVal_ScvVoid
| ScVal_ScvError (x : XdrScError)
| ScVal_ScvU32 (x : Z)
| ScVal_ScvI32 (x : Z)
| ScVal_ScvU64 (x : Z)
| ScVal_ScvI64 (x : Z)
| ScVal_ScvTimepoint (x : Z)
| ScVal_ScvDuration (x : Z)
| ScVal_ScvU128 (x : XdrUInt128Parts)
| ScVal_ScvI128 (x : XdrInt128Parts)
| ScVal_ScvU256 (x : XdrUInt256Parts)
| ScVal_ScvI256 (x : XdrInt256Parts)
| ScVal_ScvBytes (x : bytes)
| ScVal_ScvString (x : bytes)
| ScVal_ScvSymbol (x : bytes)
| ScVal_ScvVec (vec : option (list XdrScVal))
| ScVal_ScvMap (map : option (list XdrScMapEntry))
| ScVal_ScvAddress (x : ScAddress_)
| ScVal_ScvContractInstance (instance : XdrScContractInstance)
| ScVal_ScvLedgerKeyContractInstance
| ScVal_ScvLedgerKeyNonce (x : XdrScNonceKey)
| ScVal_ScvExecutableTag (x : bytes)
with XdrScMapEntry : Type := mkXdrScMapEntry (Key Val : XdrScVal)
with XdrScContractInstance : Type := mkXdrScContractInstance (Executable : XdrContractExecutable) (Storage : option (list XdrScMapEntry)).

Fixpoint ScVal_EncodeTo (u : XdrScVal) : option bytes :=
  match u with
  | ScVal_ScvBool b => write! ScValType_EncodeTo 0 in write! EncodeBool b in written
  | ScVal_ScvVoid => write! ScValType_EncodeTo 1 in written
  | ScVal_ScvError x => write! ScValType_EncodeTo 2 in write! ScError_EncodeTo x in written
  | ScVal_ScvU32 x => write! ScValType_EncodeTo 3 in write! Uint32_EncodeTo x in written
  | ScVal_ScvI32 x => write! ScValType_EncodeTo 4 in write! Int32_EncodeTo x in written
  | ScVal_ScvU64 x => write! ScValType_EncodeTo 5 in write! Uint64_EncodeTo x in written
  | ScVal_ScvI64 x => write! ScValType_EncodeTo 6 in write! Int64_EncodeTo x in written
  | ScVal_ScvTimepoint x => write! ScValType_EncodeTo 7 in write! TimePoint_EncodeTo x in written
  | ScVal_ScvDuration x => write! ScValType_EncodeTo 8 in write! Duration_EncodeTo x in written
  | ScVal_ScvU128 x => write! ScValType_EncodeTo 9 in write! UInt128Parts_EncodeTo x in written
  | ScVal_ScvI128 x => write! ScValType_EncodeTo 10 in write! Int128Parts_EncodeTo x in written
  | ScVal_ScvU256 x => write! ScValType_EncodeTo 11 in write! UInt256Parts_EncodeTo x in written
  | ScVal_ScvI256 x => write! ScValType_EncodeTo 12 in write! Int256Parts_EncodeTo x in written
  | ScVal_ScvBytes x => write! ScValType_EncodeTo 13 in write! ScBytes_EncodeTo x in written
  | ScVal_ScvString x => write! ScValType_EncodeTo 14 in write! ScString_EncodeTo x in written
  | ScVal_ScvSymbol x => write! ScValType_EncodeTo 15 in write! ScSymbol_EncodeTo x in written
  | ScVal_ScvVec vec => write! ScValType_EncodeTo 16 in write! pointer_EncodeTo (slice_EncodeTo ScVal_EncodeTo) vec in written
  | ScVal_ScvMap map => write! ScValType_EncodeTo 17 in write! pointer_EncodeTo (slice_EncodeTo ScMapEntry_EncodeTo) map in written
  | ScVal_ScvAddress x => write! ScValType_EncodeTo 18 in write! ScAddress_EncodeTo x in written
  | ScVal_ScvContractInstance instance => write! ScValType_EncodeTo 19 in write! ScContractInstance_EncodeTo instance in written
  | ScVal_ScvLedgerKeyContractInstance => write! ScValType_EncodeTo 20 in written
  | ScVal_ScvLedgerKeyNonce x => write! ScValType_EncodeTo 21 in write! ScNonceKey_EncodeTo x in written
  | ScVal_ScvExecutableTag x => write! ScValType_EncodeTo 22 in write! ScString_EncodeTo x in written
  end
with ScMapEntry_EncodeTo (s : XdrScMapEntry) : option bytes :=
  match s with
  | mkXdrScMapEntry key_ val => write! ScVal_EncodeTo key_ in write! ScVal_EncodeTo val in written
  end
with ScContractInstance_EncodeTo (s : XdrScContractInstance) : option bytes :=
  match s with
  | mkXdrScContractInstance executable storage =>
      write! ContractExecutable_EncodeTo executable in
      write! pointer_EncodeTo (slice_EncodeTo ScMapEntry_EncodeTo) storage in written
  end.
Definition ScVec_EncodeTo (s : list XdrScVal) : option bytes := slice_EncodeTo ScVal_EncodeTo s.
Definition ScMap_EncodeTo (s : list XdrScMapEntry) : option bytes := slice_EncodeTo ScMapEntry_EncodeTo s.

Fixpoint ScVal_DecodeFrom (maxDepth : nat) : decode XdrScVal :=
  match maxDepth with
  | O => invalid
  | S maxDepth =>
      read! type_ := ScValType_DecodeFrom maxDepth in
      if type_ =? 0 then tracked "bool" (read! b := DecodeBool in ret (ScVal_ScvBool b)) else
      if type_ =? 1 then ret ScVal_ScvVoid else
      if type_ =? 2 then tracked "ScError" (read! x := ScError_DecodeFrom maxDepth in ret (ScVal_ScvError x)) else
      if type_ =? 3 then tracked "Uint32" (read! x := Uint32_DecodeFrom maxDepth in ret (ScVal_ScvU32 x)) else
      if type_ =? 4 then tracked "Int32" (read! x := Int32_DecodeFrom maxDepth in ret (ScVal_ScvI32 x)) else
      if type_ =? 5 then tracked "Uint64" (read! x := Uint64_DecodeFrom maxDepth in ret (ScVal_ScvU64 x)) else
      if type_ =? 6 then tracked "Int64" (read! x := Int64_DecodeFrom maxDepth in ret (ScVal_ScvI64 x)) else
      if type_ =? 7 then tracked "TimePoint" (read! x := TimePoint_DecodeFrom maxDepth in ret (ScVal_ScvTimepoint x)) else
      if type_ =? 8 then tracked "Duration" (read! x := Duration_DecodeFrom maxDepth in ret (ScVal_ScvDuration x)) else
      if type_ =? 9 then tracked "UInt128Parts" (read! x := UInt128Parts_DecodeFrom maxDepth in ret (ScVal_ScvU128 x)) else
      if type_ =? 10 then tracked "Int128Parts" (read! x := Int128Parts_DecodeFrom maxDepth in ret (ScVal_ScvI128 x)) else
      if type_ =? 11 then tracked "UInt256Parts" (read! x := UInt256Parts_DecodeFrom maxDepth in ret (ScVal_ScvU256 x)) else
      if type_ =? 12 then tracked "Int256Parts" (read! x := Int256Parts_DecodeFrom maxDepth in ret (ScVal_ScvI256 x)) else
      if type_ =? 13 then tracked "ScBytes" (read! x := ScBytes_DecodeFrom maxDepth in ret (ScVal_ScvBytes x)) else
      if type_ =? 14 then tracked "ScString" (read! x := ScString_DecodeFrom maxDepth in ret (ScVal_ScvString x)) else
      if type_ =? 15 then tracked "ScSymbol" (read! x := ScSymbol_DecodeFrom maxDepth in ret (ScVal_ScvSymbol x)) else
      if type_ =? 16 then tracked "*ScVec" (read! vec := pointer_DecodeFrom "ScVec" (ScVec_DecodeFrom maxDepth) in ret (ScVal_ScvVec vec))
          else
      if type_ =? 17 then tracked "*ScMap" (read! map := pointer_DecodeFrom "ScMap" (ScMap_DecodeFrom maxDepth) in ret (ScVal_ScvMap map))
          else
      if type_ =? 18 then tracked "ScAddress" (read! x := ScAddress_DecodeFrom maxDepth in ret (ScVal_ScvAddress x)) else
      if type_ =? 19 then tracked "ScContractInstance"
        (read! instance := ScContractInstance_DecodeFrom maxDepth in ret (ScVal_ScvContractInstance instance)) else
      if type_ =? 20 then ret ScVal_ScvLedgerKeyContractInstance else
      if type_ =? 21 then tracked "ScNonceKey" (read! x := ScNonceKey_DecodeFrom maxDepth in ret (ScVal_ScvLedgerKeyNonce x)) else
      if type_ =? 22 then tracked "ScString" (read! x := ScString_DecodeFrom maxDepth in ret (ScVal_ScvExecutableTag x)) else
      invalid
  end
with ScVec_DecodeFrom (maxDepth : nat) : decode (list XdrScVal) :=
  match maxDepth with
  | O => invalid
  | S maxDepth => slice_DecodeFrom "ScVal" None (ScVal_DecodeFrom maxDepth)
  end
with ScMap_DecodeFrom (maxDepth : nat) : decode (list XdrScMapEntry) :=
  match maxDepth with
  | O => invalid
  | S maxDepth => slice_DecodeFrom "ScMapEntry" None (ScMapEntry_DecodeFrom maxDepth)
  end
with ScMapEntry_DecodeFrom (maxDepth : nat) : decode XdrScMapEntry :=
  match maxDepth with
  | O => invalid
  | S maxDepth =>
      read! key_ := ScVal_DecodeFrom maxDepth in read! val := ScVal_DecodeFrom maxDepth in ret (mkXdrScMapEntry key_ val)
  end
with ScContractInstance_DecodeFrom (maxDepth : nat) : decode XdrScContractInstance :=
  match maxDepth with
  | O => invalid
  | S maxDepth =>
      read! executable := ContractExecutable_DecodeFrom maxDepth in
      read! storage := pointer_DecodeFrom "ScMap" (ScMap_DecodeFrom maxDepth) in
      ret (mkXdrScContractInstance executable storage)
  end.

Definition ScMapEntry_valid_with (valid : XdrScVal -> bool) (s : XdrScMapEntry) : bool :=
  let '(mkXdrScMapEntry key_ val) := s in valid key_ && valid val.
Definition ScContractInstance_valid_with (valid : XdrScVal -> bool) (s : XdrScContractInstance) : bool :=
  let '(mkXdrScContractInstance executable storage) := s in
  ContractExecutable_valid executable && valid_pointer (valid_slice None (ScMapEntry_valid_with valid)) storage.
Fixpoint ScVal_valid_in (depth : nat) (u : XdrScVal) : bool :=
  match u, depth with
  | ScVal_ScvBool _, _ | ScVal_ScvVoid, _ | ScVal_ScvLedgerKeyContractInstance, _ => true
  | ScVal_ScvError x, _ => ScError_valid x
  | ScVal_ScvU32 x, _ => Uint32_valid x
  | ScVal_ScvI32 x, _ => Int32_valid x
  | ScVal_ScvU64 x, _ => Uint64_valid x
  | ScVal_ScvI64 x, _ => Int64_valid x
  | ScVal_ScvTimepoint x, _ => TimePoint_valid x
  | ScVal_ScvDuration x, _ => Duration_valid x
  | ScVal_ScvU128 x, _ => UInt128Parts_valid x
  | ScVal_ScvI128 x, _ => Int128Parts_valid x
  | ScVal_ScvU256 x, _ => UInt256Parts_valid x
  | ScVal_ScvI256 x, _ => Int256Parts_valid x
  | ScVal_ScvBytes x, _ => ScBytes_valid x
  | ScVal_ScvString x, _ => ScString_valid x
  | ScVal_ScvSymbol x, _ => ScSymbol_valid x
  | ScVal_ScvAddress x, _ => ScAddress_valid x
  | ScVal_ScvLedgerKeyNonce x, _ => ScNonceKey_valid x
  | ScVal_ScvExecutableTag x, _ => ScString_valid x
  | ScVal_ScvVec vec, S depth => valid_pointer (valid_slice None (ScVal_valid_in depth)) vec
  | ScVal_ScvMap map, S depth => valid_pointer (valid_slice None (ScMapEntry_valid_with (ScVal_valid_in depth))) map
  | ScVal_ScvContractInstance instance, S depth => ScContractInstance_valid_with (ScVal_valid_in depth) instance
  | _, O => false
  end.
Definition ScVal_valid : XdrScVal -> bool := ScVal_valid_in nesting.
Definition ScVec_valid (l : list XdrScVal) : bool := valid_slice None ScVal_valid l.
Definition ScMap_valid (l : list XdrScMapEntry) : bool := valid_slice None (ScMapEntry_valid_with ScVal_valid) l.

End Types.

(** The types that other files leave open. *)
Definition xdr_entries : EntryTypes := {| ScAddress := ScAddress_; ScVal := XdrScVal; Fields := unit |}.
#[local] Existing Instance xdr_entries.

Section Keys.
Context {X : GoXdrCoder} {N : Nesting}.


Definition contractDataDurabilityMap : list Z := [0; 1].
Definition ContractDataDurability_EncodeTo (e : Z) : option bytes := enum_EncodeTo contractDataDurabilityMap e.
Definition ContractDataDurability_DecodeFrom (maxDepth : nat) : decode Z := enum_DecodeFrom contractDataDurabilityMap maxDepth.
Definition ContractDataDurability_valid (e : Z) : bool := valid_enum contractDataDurabilityMap e.

Definition LedgerKeyContractData_EncodeTo (s : (ScAddress_ * XdrScVal * Z)) : option bytes :=
  let '(contract, key_, durability) := s in
  write! ScAddress_EncodeTo contract in
  write! ScVal_EncodeTo key_ in
  write! ContractDataDurability_EncodeTo durability in
  written.
Definition LedgerKeyContractData_DecodeFrom (maxDepth : nat) : decode (ScAddress_ * XdrScVal * Z) := nested maxDepth (fun maxDepth =>
  read! contract := ScAddress_DecodeFrom maxDepth in
  read! key_ := ScVal_DecodeFrom maxDepth in
  read! durability := ContractDataDurability_DecodeFrom maxDepth in
  ret (contract, key_, durability)).
Definition LedgerKeyContractData_valid (s : (ScAddress_ * XdrScVal * Z)) : bool :=
  let '(contract, key_, durability) := s in
  ScAddress_valid contract && ScVal_valid key_ && ContractDataDurability_valid durability.

Definition LedgerKeyContractCode_EncodeTo (s : Hash) : option bytes :=
  let hash := s in
  write! Hash_EncodeTo hash in
  written.
Definition LedgerKeyContractCode_DecodeFrom (maxDepth : nat) : decode Hash := nested maxDepth (fun maxDepth =>
  read! hash := Hash_DecodeFrom maxDepth in
  ret hash).
Definition LedgerKeyContractCode_valid (s : Hash) : bool :=
  let hash := s in
  Hash_valid hash.

Definition configSettingIdMap : list Z := [0; 1; 2; 3; 4; 5; 6; 7; 8; 9; 10; 11; 12; 13; 14; 15; 16; 17; 18; 19; 20].
Definition ConfigSettingId_EncodeTo (e : Z) : option bytes := enum_EncodeTo configSettingIdMap e.
Definition ConfigSettingId_DecodeFrom (maxDepth : nat) : decode Z := enum_DecodeFrom configSettingIdMap maxDepth.
Definition ConfigSettingId_valid (e : Z) : bool := valid_enum configSettingIdMap e.

Definition LedgerKeyConfigSetting_EncodeTo (s : Z) : option bytes :=
  let configSettingId := s in
  write! ConfigSettingId_EncodeTo configSettingId in
  written.
Definition LedgerKeyConfigSetting_DecodeFrom (maxDepth : nat) : decode Z := nested maxDepth (fun maxDepth =>
  read! configSettingId := ConfigSettingId_DecodeFrom maxDepth in
  ret configSettingId).
Definition LedgerKeyConfigSetting_valid (s : Z) : bool :=
  let configSettingId := s in
  ConfigSettingId_valid configSettingId.

Definition LedgerKeyTtl_EncodeTo (s : Hash) : option bytes :=
  let keyHash := s in
  write! Hash_EncodeTo keyHash in
  written.
Definition LedgerKeyTtl_DecodeFrom (maxDepth : nat) : decode Hash := nested maxDepth (fun maxDepth =>
  read! keyHash := Hash_DecodeFrom maxDepth in
  ret keyHash).
Definition LedgerKeyTtl_valid (s : Hash) : bool :=
  let keyHash := s in
  Hash_valid keyHash.

Definition LedgerKey_EncodeTo (u : LedgerKey) : option bytes :=
  match u with
  | LedgerKeyAccount a => write! LedgerEntryType_EncodeTo 0 in write! LedgerKeyAccount_EncodeTo a in written
  | LedgerKeyTrustLine a l => write! LedgerEntryType_EncodeTo 1 in write! LedgerKeyTrustLine_EncodeTo (a, l) in written
  | LedgerKeyOffer a o => write! LedgerEntryType_EncodeTo 2 in write! LedgerKeyOffer_EncodeTo (a, o) in written
  | LedgerKeyData a d => write! LedgerEntryType_EncodeTo 3 in write! LedgerKeyData_EncodeTo (a, d) in written
  | LedgerKeyClaimableBalance c => write! LedgerEntryType_EncodeTo 4 in write! LedgerKeyClaimableBalance_EncodeTo c in written
  | LedgerKeyLiquidityPool p => write! LedgerEntryType_EncodeTo 5 in write! LedgerKeyLiquidityPool_EncodeTo p in written
  | LedgerKeyContractData c k d => write! LedgerEntryType_EncodeTo 6 in write! LedgerKeyContractData_EncodeTo (c, k, d) in written
  | LedgerKeyContractCode h => write! LedgerEntryType_EncodeTo 7 in write! LedgerKeyContractCode_EncodeTo h in written
  | LedgerKeyConfigSetting c => write! LedgerEntryType_EncodeTo 8 in write! LedgerKeyConfigSetting_EncodeTo c in written
  | LedgerKeyTtl h => write! LedgerEntryType_EncodeTo 9 in write! LedgerKeyTtl_EncodeTo h in written
  end.
Definition LedgerKey_DecodeFrom (maxDepth : nat) : decode LedgerKey := nested maxDepth (fun maxDepth =>
  read! type_ := LedgerEntryType_DecodeFrom maxDepth in
  if type_ =? 0 then tracked "LedgerKeyAccount" (read! a := LedgerKeyAccount_DecodeFrom maxDepth in ret (LedgerKeyAccount a)) else
  if type_ =? 1 then tracked "LedgerKeyTrustLine" (read! (a, l) := LedgerKeyTrustLine_DecodeFrom maxDepth in ret (LedgerKeyTrustLine a l))
      else
  if type_ =? 2 then tracked "LedgerKeyOffer" (read! (a, o) := LedgerKeyOffer_DecodeFrom maxDepth in ret (LedgerKeyOffer a o)) else
  if type_ =? 3 then tracked "LedgerKeyData" (read! (a, d) := LedgerKeyData_DecodeFrom maxDepth in ret (LedgerKeyData a d)) else
  if type_ =? 4 then tracked "LedgerKeyClaimableBalance" (read! c := LedgerKeyClaimableBalance_DecodeFrom maxDepth in ret
      (LedgerKeyClaimableBalance c)) else
  if type_ =? 5 then tracked "LedgerKeyLiquidityPool" (read! p := LedgerKeyLiquidityPool_DecodeFrom maxDepth in ret (LedgerKeyLiquidityPool
      p)) else
  if type_ =? 6 then tracked "LedgerKeyContractData" (read! (c, k, d) := LedgerKeyContractData_DecodeFrom maxDepth in ret
      (LedgerKeyContractData c k d)) else
  if type_ =? 7 then tracked "LedgerKeyContractCode" (read! h := LedgerKeyContractCode_DecodeFrom maxDepth in ret (LedgerKeyContractCode
      h)) else
  if type_ =? 8 then tracked "LedgerKeyConfigSetting" (read! c := LedgerKeyConfigSetting_DecodeFrom maxDepth in ret (LedgerKeyConfigSetting
      c)) else
  if type_ =? 9 then tracked "LedgerKeyTtl" (read! h := LedgerKeyTtl_DecodeFrom maxDepth in ret (LedgerKeyTtl h)) else
  invalid).
Definition LedgerKey_valid (u : LedgerKey) : bool :=
  match u with
  | LedgerKeyAccount a => LedgerKeyAccount_valid a
  | LedgerKeyTrustLine a l => LedgerKeyTrustLine_valid (a, l)
  | LedgerKeyOffer a o => LedgerKeyOffer_valid (a, o)
  | LedgerKeyData a d => LedgerKeyData_valid (a, d)
  | LedgerKeyClaimableBalance c => LedgerKeyClaimableBalance_valid c
  | LedgerKeyLiquidityPool p => LedgerKeyLiquidityPool_valid p
  | LedgerKeyContractData c k d => LedgerKeyContractData_valid (c, k, d)
  | LedgerKeyContractCode h => LedgerKeyContractCode_valid h
  | LedgerKeyConfigSetting c => LedgerKeyConfigSetting_valid c
  | LedgerKeyTtl h => LedgerKeyTtl_valid h
  end.

Definition signerKeyTypeMap : list Z := [0; 1; 2; 3].
Definition SignerKeyType_EncodeTo (e : Z) : option bytes := enum_EncodeTo signerKeyTypeMap e.
Definition SignerKeyType_DecodeFrom (maxDepth : nat) : decode Z := enum_DecodeFrom signerKeyTypeMap maxDepth.
Definition SignerKeyType_valid (e : Z) : bool := valid_enum signerKeyTypeMap e.

Definition SignerKeyEd25519SignedPayload_EncodeTo (s : (vec byte 32 * bytes)) : option bytes :=
  let '(ed25519, payload) := s in
  write! Uint256_EncodeTo ed25519 in
  write! EncodeOpaque payload in
  written.
Definition SignerKeyEd25519SignedPayload_DecodeFrom (maxDepth : nat) : decode (vec byte 32 * bytes) := nested maxDepth (fun maxDepth =>
  read! ed25519 := Uint256_DecodeFrom maxDepth in
  read! payload := DecodeOpaque 64 in
  ret (ed25519, payload)).
Definition SignerKeyEd25519SignedPayload_valid (s : (vec byte 32 * bytes)) : bool :=
  let '(ed25519, payload) := s in
  Uint256_valid ed25519 && valid_size (size_limit 64) payload.

Definition SignerKey_EncodeTo (u : SignerKey) : option bytes :=
  match u with
  | SignerKeyTypeEd25519 k => write! SignerKeyType_EncodeTo 0 in write! Uint256_EncodeTo k in written
  | SignerKeyTypePreAuthTx k => write! SignerKeyType_EncodeTo 1 in write! Uint256_EncodeTo k in written
  | SignerKeyTypeHashX k => write! SignerKeyType_EncodeTo 2 in write! Uint256_EncodeTo k in written
  | SignerKeyTypeEd25519SignedPayload k p => write! SignerKeyType_EncodeTo 3 in write! SignerKeyEd25519SignedPayload_EncodeTo (k, p) in
      written
  end.
Definition SignerKey_DecodeFrom (maxDepth : nat) : decode SignerKey := nested maxDepth (fun maxDepth =>
  read! type_ := SignerKeyType_DecodeFrom maxDepth in
  if type_ =? 0 then tracked "Uint256" (read! k := Uint256_DecodeFrom maxDepth in ret (SignerKeyTypeEd25519 k)) else
  if type_ =? 1 then tracked "Uint256" (read! k := Uint256_DecodeFrom maxDepth in ret (SignerKeyTypePreAuthTx k)) else
  if type_ =? 2 then tracked "Uint256" (read! k := Uint256_DecodeFrom maxDepth in ret (SignerKeyTypeHashX k)) else
  if type_ =? 3 then tracked "SignerKeyEd25519SignedPayload" (read! (k, p) := SignerKeyEd25519SignedPayload_DecodeFrom maxDepth in ret
      (SignerKeyTypeEd25519SignedPayload k p)) else
  invalid).
Definition SignerKey_valid (u : SignerKey) : bool :=
  match u with
  | SignerKeyTypeEd25519 k => Uint256_valid k
  | SignerKeyTypePreAuthTx k => Uint256_valid k
  | SignerKeyTypeHashX k => Uint256_valid k
  | SignerKeyTypeEd25519SignedPayload k p => SignerKeyEd25519SignedPayload_valid (k, p)
  end.

Definition memoTypeMap : list Z := [0; 1; 2; 3; 4].
Definition MemoType_EncodeTo (e : Z) : option bytes := enum_EncodeTo memoTypeMap e.
Definition MemoType_DecodeFrom (maxDepth : nat) : decode Z := enum_DecodeFrom memoTypeMap maxDepth.
Definition MemoType_valid (e : Z) : bool := valid_enum memoTypeMap e.

Definition Memo_EncodeTo (u : Memo_) : option bytes :=
  match u with
  | MemoTypeMemoNone => write! MemoType_EncodeTo 0 in written
  | MemoTypeMemoText text => write! MemoType_EncodeTo 1 in write! EncodeString text in written
  | MemoTypeMemoId i => write! MemoType_EncodeTo 2 in write! Uint64_EncodeTo i in written
  | MemoTypeMemoHash h => write! MemoType_EncodeTo 3 in write! Hash_EncodeTo h in written
  | MemoTypeMemoReturn h => write! MemoType_EncodeTo 4 in write! Hash_EncodeTo h in written
  | MemoTypeUnknown _ => None
  end.
Definition Memo_DecodeFrom (maxDepth : nat) : decode Memo_ := nested maxDepth (fun maxDepth =>
  read! type_ := MemoType_DecodeFrom maxDepth in
  if type_ =? 0 then ret MemoTypeMemoNone else
  if type_ =? 1 then tracked "string" (read! text := DecodeString 28 in ret (MemoTypeMemoText text)) else
  if type_ =? 2 then tracked "Uint64" (read! i := Uint64_DecodeFrom maxDepth in ret (MemoTypeMemoId i)) else
  if type_ =? 3 then tracked "Hash" (read! h := Hash_DecodeFrom maxDepth in ret (MemoTypeMemoHash h)) else
  if type_ =? 4 then tracked "Hash" (read! h := Hash_DecodeFrom maxDepth in ret (MemoTypeMemoReturn h)) else
  invalid).
Definition Memo_valid (u : Memo_) : bool :=
  match u with
  | MemoTypeMemoNone => true
  | MemoTypeMemoText text => (valid_size (size_limit 28)) text
  | MemoTypeMemoId i => Uint64_valid i
  | MemoTypeMemoHash h => Hash_valid h
  | MemoTypeMemoReturn h => Hash_valid h
  | MemoTypeUnknown _ => false
  end.

Definition preconditionTypeMap : list Z := [0; 1; 2].
Definition PreconditionType_EncodeTo (e : Z) : option bytes := enum_EncodeTo preconditionTypeMap e.
Definition PreconditionType_DecodeFrom (maxDepth : nat) : decode Z := enum_DecodeFrom preconditionTypeMap maxDepth.
Definition PreconditionType_valid (e : Z) : bool := valid_enum preconditionTypeMap e.

Definition TimeBounds_EncodeTo (s : TimeBounds_) : option bytes :=
  let '(mkTimeBounds minTime maxTime) := s in
  write! TimePoint_EncodeTo minTime in
  write! TimePoint_EncodeTo maxTime in
  written.
Definition TimeBounds_DecodeFrom (maxDepth : nat) : decode TimeBounds_ := nested maxDepth (fun maxDepth =>
  read! minTime := TimePoint_DecodeFrom maxDepth in
  read! maxTime := TimePoint_DecodeFrom maxDepth in
  ret (mkTimeBounds minTime maxTime)).
Definition TimeBounds_valid (s : TimeBounds_) : bool :=
  let '(mkTimeBounds minTime maxTime) := s in
  TimePoint_valid minTime && TimePoint_valid maxTime.

Definition LedgerBounds_EncodeTo (s : LedgerBounds_) : option bytes :=
  let '(mkLedgerBounds minLedger maxLedger) := s in
  write! Uint32_EncodeTo minLedger in
  write! Uint32_EncodeTo maxLedger in
  written.
Definition LedgerBounds_DecodeFrom (maxDepth : nat) : decode LedgerBounds_ := nested maxDepth (fun maxDepth =>
  read! minLedger := Uint32_DecodeFrom maxDepth in
  read! maxLedger := Uint32_DecodeFrom maxDepth in
  ret (mkLedgerBounds minLedger maxLedger)).
Definition LedgerBounds_valid (s : LedgerBounds_) : bool :=
  let '(mkLedgerBounds minLedger maxLedger) := s in
  Uint32_valid minLedger && Uint32_valid maxLedger.

Definition SequenceNumber_EncodeTo (s : Z) : option bytes := write! Int64_EncodeTo s in written.
Definition SequenceNumber_DecodeFrom (maxDepth : nat) : decode Z := nested maxDepth (fun maxDepth =>
  read! s := Int64_DecodeFrom maxDepth in ret s).
Definition SequenceNumber_valid (s : Z) : bool := Int64_valid s.

Definition PreconditionsV2_EncodeTo (s : XdrPreconditionsV2) : option bytes :=
  let '(mkXdrPreconditionsV2 timeBounds ledgerBounds minSeqNum minSeqAge minSeqLedgerGap extraSigners) := s in
  write! pointer_EncodeTo TimeBounds_EncodeTo timeBounds in
  write! pointer_EncodeTo LedgerBounds_EncodeTo ledgerBounds in
  write! pointer_EncodeTo SequenceNumber_EncodeTo minSeqNum in
  write! Duration_EncodeTo minSeqAge in
  write! Uint32_EncodeTo minSeqLedgerGap in
  write! slice_EncodeTo SignerKey_EncodeTo extraSigners in
  written.
Definition PreconditionsV2_DecodeFrom (maxDepth : nat) : decode XdrPreconditionsV2 := nested maxDepth (fun maxDepth =>
  read! timeBounds := pointer_DecodeFrom "TimeBounds" (TimeBounds_DecodeFrom maxDepth) in
  read! ledgerBounds := pointer_DecodeFrom "LedgerBounds" (LedgerBounds_DecodeFrom maxDepth) in
  read! minSeqNum := pointer_DecodeFrom "SequenceNumber" (SequenceNumber_DecodeFrom maxDepth) in
  read! minSeqAge := Duration_DecodeFrom maxDepth in
  read! minSeqLedgerGap := Uint32_DecodeFrom maxDepth in
  read! extraSigners := slice_DecodeFrom "SignerKey" (Some 2) (SignerKey_DecodeFrom maxDepth) in
  ret (mkXdrPreconditionsV2 timeBounds ledgerBounds minSeqNum minSeqAge minSeqLedgerGap extraSigners)).
Definition PreconditionsV2_valid (s : XdrPreconditionsV2) : bool :=
  let '(mkXdrPreconditionsV2 timeBounds ledgerBounds minSeqNum minSeqAge minSeqLedgerGap extraSigners) := s in
  valid_pointer TimeBounds_valid timeBounds && valid_pointer LedgerBounds_valid ledgerBounds && valid_pointer SequenceNumber_valid
      minSeqNum && Duration_valid minSeqAge && Uint32_valid minSeqLedgerGap && valid_slice (Some 2) SignerKey_valid extraSigners.

Definition Preconditions_EncodeTo (u : XdrPreconditions) : option bytes :=
  match u with
  | PrecondNone => write! PreconditionType_EncodeTo 0 in written
  | PrecondTime t => write! PreconditionType_EncodeTo 1 in write! TimeBounds_EncodeTo t in written
  | PrecondV2 v => write! PreconditionType_EncodeTo 2 in write! PreconditionsV2_EncodeTo v in written
  end.
Definition Preconditions_DecodeFrom (maxDepth : nat) : decode XdrPreconditions := nested maxDepth (fun maxDepth =>
  read! type_ := PreconditionType_DecodeFrom maxDepth in
  if type_ =? 0 then ret PrecondNone else
  if type_ =? 1 then tracked "TimeBounds" (read! t := TimeBounds_DecodeFrom maxDepth in ret (PrecondTime t)) else
  if type_ =? 2 then tracked "PreconditionsV2" (read! v := PreconditionsV2_DecodeFrom maxDepth in ret (PrecondV2 v)) else
  invalid).
Definition Preconditions_valid (u : XdrPreconditions) : bool :=
  match u with
  | PrecondNone => true
  | PrecondTime t => TimeBounds_valid t
  | PrecondV2 v => PreconditionsV2_valid v
  end.

Definition claimantTypeMap : list Z := [0].
Definition ClaimantType_EncodeTo (e : Z) : option bytes := enum_EncodeTo claimantTypeMap e.
Definition ClaimantType_DecodeFrom (maxDepth : nat) : decode Z := enum_DecodeFrom claimantTypeMap maxDepth.
Definition ClaimantType_valid (e : Z) : bool := valid_enum claimantTypeMap e.

Definition claimPredicateTypeMap : list Z := [0; 1; 2; 3; 4; 5].
Definition ClaimPredicateType_EncodeTo (e : Z) : option bytes := enum_EncodeTo claimPredicateTypeMap e.
Definition ClaimPredicateType_DecodeFrom (maxDepth : nat) : decode Z := enum_DecodeFrom claimPredicateTypeMap maxDepth.
Definition ClaimPredicateType_valid (e : Z) : bool := valid_enum claimPredicateTypeMap e.

(** Predicates nest to any depth. *)
Fixpoint ClaimPredicate_EncodeTo (u : ClaimPredicate) : option bytes :=
  match u with
  | ClaimPredicateUnconditional => write! ClaimPredicateType_EncodeTo 0 in written
  | ClaimPredicateAnd l => write! ClaimPredicateType_EncodeTo 1 in write! slice_EncodeTo ClaimPredicate_EncodeTo l in written
  | ClaimPredicateOr l => write! ClaimPredicateType_EncodeTo 2 in write! slice_EncodeTo ClaimPredicate_EncodeTo l in written
  | ClaimPredicateNot p => write! ClaimPredicateType_EncodeTo 3 in write! pointer_EncodeTo ClaimPredicate_EncodeTo p in written
  | ClaimPredicateBeforeAbsoluteTime t => write! ClaimPredicateType_EncodeTo 4 in write! Int64_EncodeTo t in written
  | ClaimPredicateBeforeRelativeTime t => write! ClaimPredicateType_EncodeTo 5 in write! Int64_EncodeTo t in written
  end.
Fixpoint ClaimPredicate_DecodeFrom (maxDepth : nat) : decode ClaimPredicate :=
  match maxDepth with
  | O => invalid
  | S maxDepth =>
      read! type_ := ClaimPredicateType_DecodeFrom maxDepth in
      if type_ =? 0 then ret ClaimPredicateUnconditional else
      if type_ =? 1 then tracked "[]ClaimPredicate"
        (read! l := slice_DecodeFrom "ClaimPredicate" (Some 2) (ClaimPredicate_DecodeFrom maxDepth) in ret (ClaimPredicateAnd l)) else
      if type_ =? 2 then tracked "[]ClaimPredicate"
        (read! l := slice_DecodeFrom "ClaimPredicate" (Some 2) (ClaimPredicate_DecodeFrom maxDepth) in ret (ClaimPredicateOr l)) else
      if type_ =? 3 then tracked "*ClaimPredicate"
        (read! p := pointer_DecodeFrom "ClaimPredicate" (ClaimPredicate_DecodeFrom maxDepth) in ret (ClaimPredicateNot p)) else
      if type_ =? 4 then tracked "Int64" (read! t := Int64_DecodeFrom maxDepth in ret (ClaimPredicateBeforeAbsoluteTime t)) else
      if type_ =? 5 then tracked "Int64" (read! t := Int64_DecodeFrom maxDepth in ret (ClaimPredicateBeforeRelativeTime t)) else
      invalid
  end.
Fixpoint ClaimPredicate_valid_in (depth : nat) (u : ClaimPredicate) : bool :=
  match u, depth with
  | ClaimPredicateUnconditional, _ => true
  | ClaimPredicateBeforeAbsoluteTime t, _ | ClaimPredicateBeforeRelativeTime t, _ => Int64_valid t
  | ClaimPredicateAnd l, S depth | ClaimPredicateOr l, S depth => valid_slice (Some 2) (ClaimPredicate_valid_in depth) l
  | ClaimPredicateNot p, S depth => valid_pointer (ClaimPredicate_valid_in depth) p
  | _, O => false
  end.
Definition ClaimPredicate_valid : ClaimPredicate -> bool := ClaimPredicate_valid_in nesting.

Definition ClaimantV0_EncodeTo (s : (AccountId * ClaimPredicate)) : option bytes :=
  let '(destination, predicate) := s in
  write! AccountId_EncodeTo destination in
  write! ClaimPredicate_EncodeTo predicate in
  written.
Definition ClaimantV0_DecodeFrom (maxDepth : nat) : decode (AccountId * ClaimPredicate) := nested maxDepth (fun maxDepth =>
  read! destination := AccountId_DecodeFrom maxDepth in
  read! predicate := ClaimPredicate_DecodeFrom maxDepth in
  ret (destination, predicate)).
Definition ClaimantV0_valid (s : (AccountId * ClaimPredicate)) : bool :=
  let '(destination, predicate) := s in
  AccountId_valid destination && ClaimPredicate_valid predicate.

Definition Claimant_EncodeTo (u : XdrClaimant) : option bytes :=
  match u with
  | mkXdrClaimant d p => write! ClaimantType_EncodeTo 0 in write! ClaimantV0_EncodeTo (d, p) in written
  end.
Definition Claimant_DecodeFrom (maxDepth : nat) : decode XdrClaimant := nested maxDepth (fun maxDepth =>
  read! type_ := ClaimantType_DecodeFrom maxDepth in
  if type_ =? 0 then tracked "ClaimantV0" (read! (d, p) := ClaimantV0_DecodeFrom maxDepth in ret (mkXdrClaimant d p)) else
  invalid).
Definition Claimant_valid (u : XdrClaimant) : bool :=
  match u with
  | mkXdrClaimant d p => ClaimantV0_valid (d, p)
  end.

Definition liquidityPoolTypeMap : list Z := [0].
Definition LiquidityPoolType_EncodeTo (e : Z) : option bytes := enum_EncodeTo liquidityPoolTypeMap e.
Definition LiquidityPoolType_DecodeFrom (maxDepth : nat) : decode Z := enum_DecodeFrom liquidityPoolTypeMap maxDepth.
Definition LiquidityPoolType_valid (e : Z) : bool := valid_enum liquidityPoolTypeMap e.

Definition Asset_EncodeTo (u : Asset) : option bytes :=
  match u with
  | Native => write! AssetType_EncodeTo 0 in written
  | CreditAlphanum4 c i => write! AssetType_EncodeTo 1 in write! AlphaNum4_EncodeTo (c, i) in written
  | CreditAlphanum12 c i => write! AssetType_EncodeTo 2 in write! AlphaNum12_EncodeTo (c, i) in written
  end.
Definition Asset_DecodeFrom (maxDepth : nat) : decode Asset := nested maxDepth (fun maxDepth =>
  read! type_ := AssetType_DecodeFrom maxDepth in
  if type_ =? 0 then ret Native else
  if type_ =? 1 then tracked "AlphaNum4" (read! (c, i) := AlphaNum4_DecodeFrom maxDepth in ret (CreditAlphanum4 c i)) else
  if type_ =? 2 then tracked "AlphaNum12" (read! (c, i) := AlphaNum12_DecodeFrom maxDepth in ret (CreditAlphanum12 c i)) else
  invalid).
Definition Asset_valid (u : Asset) : bool :=
  match u with
  | Native => true
  | CreditAlphanum4 c i => AlphaNum4_valid (c, i)
  | CreditAlphanum12 c i => AlphaNum12_valid (c, i)
  end.

Definition LiquidityPoolConstantProductParameters_EncodeTo (s : PoolParameters) : option bytes :=
  let '(mkPoolParameters assetA assetB fee) := s in
  write! Asset_EncodeTo assetA in
  write! Asset_EncodeTo assetB in
  write! Int32_EncodeTo fee in
  written.
Definition LiquidityPoolConstantProductParameters_DecodeFrom (maxDepth : nat) : decode PoolParameters := nested maxDepth (fun maxDepth =>
  read! assetA := Asset_DecodeFrom maxDepth in
  read! assetB := Asset_DecodeFrom maxDepth in
  read! fee := Int32_DecodeFrom maxDepth in
  ret (mkPoolParameters assetA assetB fee)).
Definition LiquidityPoolConstantProductParameters_valid (s : PoolParameters) : bool :=
  let '(mkPoolParameters assetA assetB fee) := s in
  Asset_valid assetA && Asset_valid assetB && Int32_valid fee.

Definition LiquidityPoolParameters_EncodeTo (u : PoolParameters) : option bytes :=
  match u with
  | p => write! LiquidityPoolType_EncodeTo 0 in write! LiquidityPoolConstantProductParameters_EncodeTo p in written
  end.
Definition LiquidityPoolParameters_DecodeFrom (maxDepth : nat) : decode PoolParameters := nested maxDepth (fun maxDepth =>
  read! type_ := LiquidityPoolType_DecodeFrom maxDepth in
  if type_ =? 0 then tracked "LiquidityPoolConstantProductParameters" (read! p := LiquidityPoolConstantProductParameters_DecodeFrom
      maxDepth in ret p) else
  invalid).
Definition LiquidityPoolParameters_valid (u : PoolParameters) : bool :=
  match u with
  | p => LiquidityPoolConstantProductParameters_valid p
  end.

Definition ChangeTrustAsset_EncodeTo (u : ChangeTrustAsset_) : option bytes :=
  match u with
  | ChangeTrustNative => write! AssetType_EncodeTo 0 in written
  | ChangeTrustAlphanum4 c i => write! AssetType_EncodeTo 1 in write! AlphaNum4_EncodeTo (c, i) in written
  | ChangeTrustAlphanum12 c i => write! AssetType_EncodeTo 2 in write! AlphaNum12_EncodeTo (c, i) in written
  | ChangeTrustPoolShare p => write! AssetType_EncodeTo 3 in write! LiquidityPoolParameters_EncodeTo p in written
  end.
Definition ChangeTrustAsset_DecodeFrom (maxDepth : nat) : decode ChangeTrustAsset_ := nested maxDepth (fun maxDepth =>
  read! type_ := AssetType_DecodeFrom maxDepth in
  if type_ =? 0 then ret ChangeTrustNative else
  if type_ =? 1 then tracked "AlphaNum4" (read! (c, i) := AlphaNum4_DecodeFrom maxDepth in ret (ChangeTrustAlphanum4 c i)) else
  if type_ =? 2 then tracked "AlphaNum12" (read! (c, i) := AlphaNum12_DecodeFrom maxDepth in ret (ChangeTrustAlphanum12 c i)) else
  if type_ =? 3 then tracked "LiquidityPoolParameters" (read! p := LiquidityPoolParameters_DecodeFrom maxDepth in ret (ChangeTrustPoolShare
      p)) else
  invalid).
Definition ChangeTrustAsset_valid (u : ChangeTrustAsset_) : bool :=
  match u with
  | ChangeTrustNative => true
  | ChangeTrustAlphanum4 c i => AlphaNum4_valid (c, i)
  | ChangeTrustAlphanum12 c i => AlphaNum12_valid (c, i)
  | ChangeTrustPoolShare p => LiquidityPoolParameters_valid p
  end.

Definition AssetCode_EncodeTo (u : AssetCode) : option bytes :=
  match u with
  | AssetCode4 c => write! AssetType_EncodeTo 1 in write! AssetCode4_EncodeTo c in written
  | AssetCode12 c => write! AssetType_EncodeTo 2 in write! AssetCode12_EncodeTo c in written
  end.
Definition AssetCode_DecodeFrom (maxDepth : nat) : decode AssetCode := nested maxDepth (fun maxDepth =>
  read! type_ := AssetType_DecodeFrom maxDepth in
  if type_ =? 1 then tracked "AssetCode4" (read! c := AssetCode4_DecodeFrom maxDepth in ret (AssetCode4 c)) else
  if type_ =? 2 then tracked "AssetCode12" (read! c := AssetCode12_DecodeFrom maxDepth in ret (AssetCode12 c)) else
  invalid).
Definition AssetCode_valid (u : AssetCode) : bool :=
  match u with
  | AssetCode4 c => AssetCode4_valid c
  | AssetCode12 c => AssetCode12_valid c
  end.

Definition Price_EncodeTo (s : Price) : option bytes :=
  let '(mkPrice n_ d) := s in
  write! Int32_EncodeTo n_ in
  write! Int32_EncodeTo d in
  written.
Definition Price_DecodeFrom (maxDepth : nat) : decode Price := nested maxDepth (fun maxDepth =>
  read! n_ := Int32_DecodeFrom maxDepth in
  read! d := Int32_DecodeFrom maxDepth in
  ret (mkPrice n_ d)).
Definition Price_valid (s : Price) : bool :=
  let '(mkPrice n_ d) := s in
  Int32_valid n_ && Int32_valid d.

(** The hint is kept as a list of bytes. *)
Definition SignatureHint_EncodeTo (s : bytes) : option bytes := write! EncodeFixedOpaque s in written.
Definition SignatureHint_DecodeFrom (maxDepth : nat) : decode bytes := nested maxDepth (fun maxDepth =>
  read! s := DecodeFixedOpaqueInplace 4 in ret (vec_to_list s)).
Definition SignatureHint_valid (s : bytes) : bool := (length s =? 4)%nat.

Definition Signature_EncodeTo (s : bytes) : option bytes := write! EncodeOpaque s in written.
Definition Signature_DecodeFrom (maxDepth : nat) : decode bytes := nested maxDepth (fun maxDepth =>
  read! s := DecodeOpaque 64 in ret s).
Definition Signature_valid (s : bytes) : bool := valid_size (size_limit 64) s.

Definition DecoratedSignature_EncodeTo (s : DecoratedSignature) : option bytes :=
  let '(mkDecorated hint signature) := s in
  write! SignatureHint_EncodeTo hint in
  write! Signature_EncodeTo signature in
  written.
Definition DecoratedSignature_DecodeFrom (maxDepth : nat) : decode DecoratedSignature := nested maxDepth (fun maxDepth =>
  read! hint := SignatureHint_DecodeFrom maxDepth in
  read! signature := Signature_DecodeFrom maxDepth in
  ret (mkDecorated hint signature)).
Definition DecoratedSignature_valid (s : DecoratedSignature) : bool :=
  let '(mkDecorated hint signature) := s in
  SignatureHint_valid hint && Signature_valid signature.

Definition hostFunctionTypeMap : list Z := [0; 1; 2; 3].
Definition HostFunctionType_EncodeTo (e : Z) : option bytes := enum_EncodeTo hostFunctionTypeMap e.
Definition HostFunctionType_DecodeFrom (maxDepth : nat) : decode Z := enum_DecodeFrom hostFunctionTypeMap maxDepth.
Definition HostFunctionType_valid (e : Z) : bool := valid_enum hostFunctionTypeMap e.

Record XdrInvokeContractArgs : Type := mkXdrInvokeContractArgs {
  InvokeContractArgs_ContractAddress : ScAddress_;
  InvokeContractArgs_FunctionName : bytes;
  InvokeContractArgs_Args : list XdrScVal
}.
Definition InvokeContractArgs_EncodeTo (s : XdrInvokeContractArgs) : option bytes :=
  let '(mkXdrInvokeContractArgs contractAddress functionName args) := s in
  write! ScAddress_EncodeTo contractAddress in
  write! ScSymbol_EncodeTo functionName in
  write! slice_EncodeTo ScVal_EncodeTo args in
  written.
Definition InvokeContractArgs_DecodeFrom (maxDepth : nat) : decode XdrInvokeContractArgs := nested maxDepth (fun maxDepth =>
  read! contractAddress := ScAddress_DecodeFrom maxDepth in
  read! functionName := ScSymbol_DecodeFrom maxDepth in
  read! args := slice_DecodeFrom "ScVal" None (ScVal_DecodeFrom maxDepth) in
  ret (mkXdrInvokeContractArgs contractAddress functionName args)).
Definition InvokeContractArgs_valid (s : XdrInvokeContractArgs) : bool :=
  let '(mkXdrInvokeContractArgs contractAddress functionName args) := s in
  ScAddress_valid contractAddress && ScSymbol_valid functionName && valid_slice None ScVal_valid args.

Definition contractIdPreimageTypeMap : list Z := [0; 1].
Definition ContractIdPreimageType_EncodeTo (e : Z) : option bytes := enum_EncodeTo contractIdPreimageTypeMap e.
Definition ContractIdPreimageType_DecodeFrom (maxDepth : nat) : decode Z := enum_DecodeFrom contractIdPreimageTypeMap maxDepth.
Definition ContractIdPreimageType_valid (e : Z) : bool := valid_enum contractIdPreimageTypeMap e.

Record XdrContractIdPreimageFromAddress : Type := mkXdrContractIdPreimageFromAddress {
  ContractIdPreimageFromAddress_Address : ScAddress_;
  ContractIdPreimageFromAddress_Salt : vec byte 32
}.
Definition ContractIdPreimageFromAddress_EncodeTo (s : XdrContractIdPreimageFromAddress) : option bytes :=
  let '(mkXdrContractIdPreimageFromAddress address salt) := s in
  write! ScAddress_EncodeTo address in
  write! Uint256_EncodeTo salt in
  written.
Definition ContractIdPreimageFromAddress_DecodeFrom (maxDepth : nat) : decode XdrContractIdPreimageFromAddress := nested maxDepth (fun
    maxDepth =>
  read! address := ScAddress_DecodeFrom maxDepth in
  read! salt := Uint256_DecodeFrom maxDepth in
  ret (mkXdrContractIdPreimageFromAddress address salt)).
Definition ContractIdPreimageFromAddress_valid (s : XdrContractIdPreimageFromAddress) : bool :=
  let '(mkXdrContractIdPreimageFromAddress address salt) := s in
  ScAddress_valid address && Uint256_valid salt.

Inductive XdrContractIdPreimage : Type :=
| ContractIdPreimage_ContractIdPreimageFromAddress (fromAddress : XdrContractIdPreimageFromAddress)
| ContractIdPreimage_ContractIdPreimageFromAsset (fromAsset : Asset).
Definition ContractIdPreimage_EncodeTo (u : XdrContractIdPreimage) : option bytes :=
  match u with
  | ContractIdPreimage_ContractIdPreimageFromAddress fromAddress => write! ContractIdPreimageType_EncodeTo 0 in write!
      ContractIdPreimageFromAddress_EncodeTo fromAddress in written
  | ContractIdPreimage_ContractIdPreimageFromAsset fromAsset => write! ContractIdPreimageType_EncodeTo 1 in write! Asset_EncodeTo fromAsset
      in written
  end.
Definition ContractIdPreimage_DecodeFrom (maxDepth : nat) : decode XdrContractIdPreimage := nested maxDepth (fun maxDepth =>
  read! type_ := ContractIdPreimageType_DecodeFrom maxDepth in
  if type_ =? 0 then tracked "ContractIdPreimageFromAddress" (read! fromAddress := ContractIdPreimageFromAddress_DecodeFrom maxDepth in ret
      (ContractIdPreimage_ContractIdPreimageFromAddress fromAddress)) else
  if type_ =? 1 then tracked "Asset" (read! fromAsset := Asset_DecodeFrom maxDepth in ret (ContractIdPreimage_ContractIdPreimageFromAsset
      fromAsset)) else
  invalid).
Definition ContractIdPreimage_valid (u : XdrContractIdPreimage) : bool :=
  match u with
  | ContractIdPreimage_ContractIdPreimageFromAddress fromAddress => ContractIdPreimageFromAddress_valid fromAddress
  | ContractIdPreimage_ContractIdPreimageFromAsset fromAsset => Asset_valid fromAsset
  end.

Record XdrCreateContractArgs : Type := mkXdrCreateContractArgs {
  CreateContractArgs_ContractIdPreimage : XdrContractIdPreimage;
  CreateContractArgs_Executable : XdrContractExecutable
}.
Definition CreateContractArgs_EncodeTo (s : XdrCreateContractArgs) : option bytes :=
  let '(mkXdrCreateContractArgs contractIdPreimage executable) := s in
  write! ContractIdPreimage_EncodeTo contractIdPreimage in
  write! ContractExecutable_EncodeTo executable in
  written.
Definition CreateContractArgs_DecodeFrom (maxDepth : nat) : decode XdrCreateContractArgs := nested maxDepth (fun maxDepth =>
  read! contractIdPreimage := ContractIdPreimage_DecodeFrom maxDepth in
  read! executable := ContractExecutable_DecodeFrom maxDepth in
  ret (mkXdrCreateContractArgs contractIdPreimage executable)).
Definition CreateContractArgs_valid (s : XdrCreateContractArgs) : bool :=
  let '(mkXdrCreateContractArgs contractIdPreimage executable) := s in
  ContractIdPreimage_valid contractIdPreimage && ContractExecutable_valid executable.

Record XdrCreateContractArgsV2 : Type := mkXdrCreateContractArgsV2 {
  CreateContractArgsV2_ContractIdPreimage : XdrContractIdPreimage;
  CreateContractArgsV2_Executable : XdrContractExecutable;
  CreateContractArgsV2_ConstructorArgs : list XdrScVal
}.
Definition CreateContractArgsV2_EncodeTo (s : XdrCreateContractArgsV2) : option bytes :=
  let '(mkXdrCreateContractArgsV2 contractIdPreimage executable constructorArgs) := s in
  write! ContractIdPreimage_EncodeTo contractIdPreimage in
  write! ContractExecutable_EncodeTo executable in
  write! slice_EncodeTo ScVal_EncodeTo constructorArgs in
  written.
Definition CreateContractArgsV2_DecodeFrom (maxDepth : nat) : decode XdrCreateContractArgsV2 := nested maxDepth (fun maxDepth =>
  read! contractIdPreimage := ContractIdPreimage_DecodeFrom maxDepth in
  read! executable := ContractExecutable_DecodeFrom maxDepth in
  read! constructorArgs := slice_DecodeFrom "ScVal" None (ScVal_DecodeFrom maxDepth) in
  ret (mkXdrCreateContractArgsV2 contractIdPreimage executable constructorArgs)).
Definition CreateContractArgsV2_valid (s : XdrCreateContractArgsV2) : bool :=
  let '(mkXdrCreateContractArgsV2 contractIdPreimage executable constructorArgs) := s in
  ContractIdPreimage_valid contractIdPreimage && ContractExecutable_valid executable && valid_slice None ScVal_valid constructorArgs.

Inductive XdrHostFunction : Type :=
| HostFunction_HostFunctionTypeInvokeContract (invokeContract : XdrInvokeContractArgs)
| HostFunction_HostFunctionTypeCreateContract (createContract : XdrCreateContractArgs)
| HostFunction_HostFunctionTypeUploadContractWasm (wasm : bytes)
| HostFunction_HostFunctionTypeCreateContractV2 (createContractV2 : XdrCreateContractArgsV2).
Definition HostFunction_EncodeTo (u : XdrHostFunction) : option bytes :=
  match u with
  | HostFunction_HostFunctionTypeInvokeContract invokeContract => write! HostFunctionType_EncodeTo 0 in write! InvokeContractArgs_EncodeTo
      invokeContract in written
  | HostFunction_HostFunctionTypeCreateContract createContract => write! HostFunctionType_EncodeTo 1 in write! CreateContractArgs_EncodeTo
      createContract in written
  | HostFunction_HostFunctionTypeUploadContractWasm wasm => write! HostFunctionType_EncodeTo 2 in write! EncodeOpaque wasm in written
  | HostFunction_HostFunctionTypeCreateContractV2 createContractV2 => write! HostFunctionType_EncodeTo 3 in write!
      CreateContractArgsV2_EncodeTo createContractV2 in written
  end.
Definition HostFunction_DecodeFrom (maxDepth : nat) : decode XdrHostFunction := nested maxDepth (fun maxDepth =>
  read! type_ := HostFunctionType_DecodeFrom maxDepth in
  if type_ =? 0 then tracked "InvokeContractArgs" (read! invokeContract := InvokeContractArgs_DecodeFrom maxDepth in ret
      (HostFunction_HostFunctionTypeInvokeContract invokeContract)) else
  if type_ =? 1 then tracked "CreateContractArgs" (read! createContract := CreateContractArgs_DecodeFrom maxDepth in ret
      (HostFunction_HostFunctionTypeCreateContract createContract)) else
  if type_ =? 2 then tracked "[]byte" (read! wasm := DecodeOpaque 0 in ret (HostFunction_HostFunctionTypeUploadContractWasm wasm)) else
  if type_ =? 3 then tracked "CreateContractArgsV2" (read! createContractV2 := CreateContractArgsV2_DecodeFrom maxDepth in ret
      (HostFunction_HostFunctionTypeCreateContractV2 createContractV2)) else
  invalid).
Definition HostFunction_valid (u : XdrHostFunction) : bool :=
  match u with
  | HostFunction_HostFunctionTypeInvokeContract invokeContract => InvokeContractArgs_valid invokeContract
  | HostFunction_HostFunctionTypeCreateContract createContract => CreateContractArgs_valid createContract
  | HostFunction_HostFunctionTypeUploadContractWasm wasm => (valid_size (size_limit 0)) wasm
  | HostFunction_HostFunctionTypeCreateContractV2 createContractV2 => CreateContractArgsV2_valid createContractV2
  end.

Definition sorobanCredentialsTypeMap : list Z := [0; 1; 2; 3].
Definition SorobanCredentialsType_EncodeTo (e : Z) : option bytes := enum_EncodeTo sorobanCredentialsTypeMap e.
Definition SorobanCredentialsType_DecodeFrom (maxDepth : nat) : decode Z := enum_DecodeFrom sorobanCredentialsTypeMap maxDepth.
Definition SorobanCredentialsType_valid (e : Z) : bool := valid_enum sorobanCredentialsTypeMap e.

Record XdrSorobanAddressCredentials : Type := mkXdrSorobanAddressCredentials {
  SorobanAddressCredentials_Address : ScAddress_;
  SorobanAddressCredentials_Nonce : Z;
  SorobanAddressCredentials_SignatureExpirationLedger : Z;
  SorobanAddressCredentials_Signature : XdrScVal
}.
Definition SorobanAddressCredentials_EncodeTo (s : XdrSorobanAddressCredentials) : option bytes :=
  let '(mkXdrSorobanAddressCredentials address nonce signatureExpirationLedger signature) := s in
  write! ScAddress_EncodeTo address in
  write! Int64_EncodeTo nonce in
  write! Uint32_EncodeTo signatureExpirationLedger in
  write! ScVal_EncodeTo signature in
  written.
Definition SorobanAddressCredentials_DecodeFrom (maxDepth : nat) : decode XdrSorobanAddressCredentials := nested maxDepth (fun maxDepth =>
  read! address := ScAddress_DecodeFrom maxDepth in
  read! nonce := Int64_DecodeFrom maxDepth in
  read! signatureExpirationLedger := Uint32_DecodeFrom maxDepth in
  read! signature := ScVal_DecodeFrom maxDepth in
  ret (mkXdrSorobanAddressCredentials address nonce signatureExpirationLedger signature)).
Definition SorobanAddressCredentials_valid (s : XdrSorobanAddressCredentials) : bool :=
  let '(mkXdrSorobanAddressCredentials address nonce signatureExpirationLedger signature) := s in
  ScAddress_valid address && Int64_valid nonce && Uint32_valid signatureExpirationLedger && ScVal_valid signature.

(** Delegates sign for others in turn. *)
Inductive XdrSorobanDelegateSignature : Type :=
  mkXdrSorobanDelegateSignature (Address : ScAddress_) (Signature : XdrScVal) (NestedDelegates : list XdrSorobanDelegateSignature).
Fixpoint SorobanDelegateSignature_EncodeTo (s : XdrSorobanDelegateSignature) : option bytes :=
  match s with
  | mkXdrSorobanDelegateSignature address signature nestedDelegates =>
      write! ScAddress_EncodeTo address in
      write! ScVal_EncodeTo signature in
      write! slice_EncodeTo SorobanDelegateSignature_EncodeTo nestedDelegates in
      written
  end.
Fixpoint SorobanDelegateSignature_DecodeFrom (maxDepth : nat) : decode XdrSorobanDelegateSignature :=
  match maxDepth with
  | O => invalid
  | S maxDepth =>
      read! address := ScAddress_DecodeFrom maxDepth in
      read! signature := ScVal_DecodeFrom maxDepth in
      read! nestedDelegates := slice_DecodeFrom "SorobanDelegateSignature" None (SorobanDelegateSignature_DecodeFrom maxDepth) in
      ret (mkXdrSorobanDelegateSignature address signature nestedDelegates)
  end.
Fixpoint SorobanDelegateSignature_valid_in (depth : nat) (s : XdrSorobanDelegateSignature) : bool :=
  match depth with
  | O => false
  | S depth =>
      let '(mkXdrSorobanDelegateSignature address signature nestedDelegates) := s in
      ScAddress_valid address && ScVal_valid signature && valid_slice None (SorobanDelegateSignature_valid_in depth) nestedDelegates
  end.
Definition SorobanDelegateSignature_valid : XdrSorobanDelegateSignature -> bool := SorobanDelegateSignature_valid_in nesting.

Record XdrSorobanAddressCredentialsWithDelegates : Type := mkXdrSorobanAddressCredentialsWithDelegates {
  SorobanAddressCredentialsWithDelegates_AddressCredentials : XdrSorobanAddressCredentials;
  SorobanAddressCredentialsWithDelegates_Delegates : list XdrSorobanDelegateSignature
}.
Definition SorobanAddressCredentialsWithDelegates_EncodeTo (s : XdrSorobanAddressCredentialsWithDelegates) : option bytes :=
  let '(mkXdrSorobanAddressCredentialsWithDelegates addressCredentials delegates) := s in
  write! SorobanAddressCredentials_EncodeTo addressCredentials in
  write! slice_EncodeTo SorobanDelegateSignature_EncodeTo delegates in
  written.
Definition SorobanAddressCredentialsWithDelegates_DecodeFrom (maxDepth : nat) : decode XdrSorobanAddressCredentialsWithDelegates := nested
    maxDepth (fun maxDepth =>
  read! addressCredentials := SorobanAddressCredentials_DecodeFrom maxDepth in
  read! delegates := slice_DecodeFrom "SorobanDelegateSignature" None (SorobanDelegateSignature_DecodeFrom maxDepth) in
  ret (mkXdrSorobanAddressCredentialsWithDelegates addressCredentials delegates)).
Definition SorobanAddressCredentialsWithDelegates_valid (s : XdrSorobanAddressCredentialsWithDelegates) : bool :=
  let '(mkXdrSorobanAddressCredentialsWithDelegates addressCredentials delegates) := s in
  SorobanAddressCredentials_valid addressCredentials && valid_slice None SorobanDelegateSignature_valid delegates.

Inductive XdrSorobanCredentials : Type :=
| SorobanCredentials_SorobanCredentialsSourceAccount
| SorobanCredentials_SorobanCredentialsAddress (address : XdrSorobanAddressCredentials)
| SorobanCredentials_SorobanCredentialsAddressV2 (addressV2 : XdrSorobanAddressCredentials)
| SorobanCredentials_SorobanCredentialsAddressWithDelegates (addressWithDelegates : XdrSorobanAddressCredentialsWithDelegates).
Definition SorobanCredentials_EncodeTo (u : XdrSorobanCredentials) : option bytes :=
  match u with
  | SorobanCredentials_SorobanCredentialsSourceAccount => write! SorobanCredentialsType_EncodeTo 0 in written
  | SorobanCredentials_SorobanCredentialsAddress address => write! SorobanCredentialsType_EncodeTo 1 in write!
      SorobanAddressCredentials_EncodeTo address in written
  | SorobanCredentials_SorobanCredentialsAddressV2 addressV2 => write! SorobanCredentialsType_EncodeTo 2 in write!
      SorobanAddressCredentials_EncodeTo addressV2 in written
  | SorobanCredentials_SorobanCredentialsAddressWithDelegates addressWithDelegates => write! SorobanCredentialsType_EncodeTo 3 in write!
      SorobanAddressCredentialsWithDelegates_EncodeTo addressWithDelegates in written
  end.
Definition SorobanCredentials_DecodeFrom (maxDepth : nat) : decode XdrSorobanCredentials := nested maxDepth (fun maxDepth =>
  read! type_ := SorobanCredentialsType_DecodeFrom maxDepth in
  if type_ =? 0 then ret SorobanCredentials_SorobanCredentialsSourceAccount else
  if type_ =? 1 then tracked "SorobanAddressCredentials" (read! address := SorobanAddressCredentials_DecodeFrom maxDepth in ret
      (SorobanCredentials_SorobanCredentialsAddress address)) else
  if type_ =? 2 then tracked "SorobanAddressCredentials" (read! addressV2 := SorobanAddressCredentials_DecodeFrom maxDepth in ret
      (SorobanCredentials_SorobanCredentialsAddressV2 addressV2)) else
  if type_ =? 3 then tracked "SorobanAddressCredentialsWithDelegates" (read! addressWithDelegates :=
      SorobanAddressCredentialsWithDelegates_DecodeFrom maxDepth in ret (SorobanCredentials_SorobanCredentialsAddressWithDelegates
      addressWithDelegates)) else
  invalid).
Definition SorobanCredentials_valid (u : XdrSorobanCredentials) : bool :=
  match u with
  | SorobanCredentials_SorobanCredentialsSourceAccount => true
  | SorobanCredentials_SorobanCredentialsAddress address => SorobanAddressCredentials_valid address
  | SorobanCredentials_SorobanCredentialsAddressV2 addressV2 => SorobanAddressCredentials_valid addressV2
  | SorobanCredentials_SorobanCredentialsAddressWithDelegates addressWithDelegates => SorobanAddressCredentialsWithDelegates_valid
      addressWithDelegates
  end.

Definition sorobanAuthorizedFunctionTypeMap : list Z := [0; 1; 2].
Definition SorobanAuthorizedFunctionType_EncodeTo (e : Z) : option bytes := enum_EncodeTo sorobanAuthorizedFunctionTypeMap e.
Definition SorobanAuthorizedFunctionType_DecodeFrom (maxDepth : nat) : decode Z := enum_DecodeFrom sorobanAuthorizedFunctionTypeMap
    maxDepth.
Definition SorobanAuthorizedFunctionType_valid (e : Z) : bool := valid_enum sorobanAuthorizedFunctionTypeMap e.

Inductive XdrSorobanAuthorizedFunction : Type :=
| SorobanAuthorizedFunction_SorobanAuthorizedFunctionTypeContractFn (contractFn : XdrInvokeContractArgs)
| SorobanAuthorizedFunction_SorobanAuthorizedFunctionTypeCreateContractHostFn (createContractHostFn : XdrCreateContractArgs)
| SorobanAuthorizedFunction_SorobanAuthorizedFunctionTypeCreateContractV2HostFn (createContractV2HostFn : XdrCreateContractArgsV2).
Definition SorobanAuthorizedFunction_EncodeTo (u : XdrSorobanAuthorizedFunction) : option bytes :=
  match u with
  | SorobanAuthorizedFunction_SorobanAuthorizedFunctionTypeContractFn contractFn => write! SorobanAuthorizedFunctionType_EncodeTo 0 in
      write! InvokeContractArgs_EncodeTo contractFn in written
  | SorobanAuthorizedFunction_SorobanAuthorizedFunctionTypeCreateContractHostFn createContractHostFn => write!
      SorobanAuthorizedFunctionType_EncodeTo 1 in write! CreateContractArgs_EncodeTo createContractHostFn in written
  | SorobanAuthorizedFunction_SorobanAuthorizedFunctionTypeCreateContractV2HostFn createContractV2HostFn => write!
      SorobanAuthorizedFunctionType_EncodeTo 2 in write! CreateContractArgsV2_EncodeTo createContractV2HostFn in written
  end.
Definition SorobanAuthorizedFunction_DecodeFrom (maxDepth : nat) : decode XdrSorobanAuthorizedFunction := nested maxDepth (fun maxDepth =>
  read! type_ := SorobanAuthorizedFunctionType_DecodeFrom maxDepth in
  if type_ =? 0 then tracked "InvokeContractArgs" (read! contractFn := InvokeContractArgs_DecodeFrom maxDepth in ret
      (SorobanAuthorizedFunction_SorobanAuthorizedFunctionTypeContractFn contractFn)) else
  if type_ =? 1 then tracked "CreateContractArgs" (read! createContractHostFn := CreateContractArgs_DecodeFrom maxDepth in ret
      (SorobanAuthorizedFunction_SorobanAuthorizedFunctionTypeCreateContractHostFn createContractHostFn)) else
  if type_ =? 2 then tracked "CreateContractArgsV2" (read! createContractV2HostFn := CreateContractArgsV2_DecodeFrom maxDepth in ret
      (SorobanAuthorizedFunction_SorobanAuthorizedFunctionTypeCreateContractV2HostFn createContractV2HostFn)) else
  invalid).
Definition SorobanAuthorizedFunction_valid (u : XdrSorobanAuthorizedFunction) : bool :=
  match u with
  | SorobanAuthorizedFunction_SorobanAuthorizedFunctionTypeContractFn contractFn => InvokeContractArgs_valid contractFn
  | SorobanAuthorizedFunction_SorobanAuthorizedFunctionTypeCreateContractHostFn createContractHostFn => CreateContractArgs_valid
      createContractHostFn
  | SorobanAuthorizedFunction_SorobanAuthorizedFunctionTypeCreateContractV2HostFn createContractV2HostFn => CreateContractArgsV2_valid
      createContractV2HostFn
  end.

(** Authorized calls make others in turn. *)
Inductive XdrSorobanAuthorizedInvocation : Type :=
  mkXdrSorobanAuthorizedInvocation (Function : XdrSorobanAuthorizedFunction) (SubInvocations : list XdrSorobanAuthorizedInvocation).
Fixpoint SorobanAuthorizedInvocation_EncodeTo (s : XdrSorobanAuthorizedInvocation) : option bytes :=
  match s with
  | mkXdrSorobanAuthorizedInvocation function subInvocations =>
      write! SorobanAuthorizedFunction_EncodeTo function in
      write! slice_EncodeTo SorobanAuthorizedInvocation_EncodeTo subInvocations in
      written
  end.
Fixpoint SorobanAuthorizedInvocation_DecodeFrom (maxDepth : nat) : decode XdrSorobanAuthorizedInvocation :=
  match maxDepth with
  | O => invalid
  | S maxDepth =>
      read! function := SorobanAuthorizedFunction_DecodeFrom maxDepth in
      read! subInvocations := slice_DecodeFrom "SorobanAuthorizedInvocation" None (SorobanAuthorizedInvocation_DecodeFrom maxDepth) in
      ret (mkXdrSorobanAuthorizedInvocation function subInvocations)
  end.
Fixpoint SorobanAuthorizedInvocation_valid_in (depth : nat) (s : XdrSorobanAuthorizedInvocation) : bool :=
  match depth with
  | O => false
  | S depth =>
      let '(mkXdrSorobanAuthorizedInvocation function subInvocations) := s in
      SorobanAuthorizedFunction_valid function && valid_slice None (SorobanAuthorizedInvocation_valid_in depth) subInvocations
  end.
Definition SorobanAuthorizedInvocation_valid : XdrSorobanAuthorizedInvocation -> bool := SorobanAuthorizedInvocation_valid_in nesting.

Record XdrSorobanAuthorizationEntry : Type := mkXdrSorobanAuthorizationEntry {
  SorobanAuthorizationEntry_Credentials : XdrSorobanCredentials;
  SorobanAuthorizationEntry_RootInvocation : XdrSorobanAuthorizedInvocation
}.
Definition SorobanAuthorizationEntry_EncodeTo (s : XdrSorobanAuthorizationEntry) : option bytes :=
  let '(mkXdrSorobanAuthorizationEntry credentials rootInvocation) := s in
  write! SorobanCredentials_EncodeTo credentials in
  write! SorobanAuthorizedInvocation_EncodeTo rootInvocation in
  written.
Definition SorobanAuthorizationEntry_DecodeFrom (maxDepth : nat) : decode XdrSorobanAuthorizationEntry := nested maxDepth (fun maxDepth =>
  read! credentials := SorobanCredentials_DecodeFrom maxDepth in
  read! rootInvocation := SorobanAuthorizedInvocation_DecodeFrom maxDepth in
  ret (mkXdrSorobanAuthorizationEntry credentials rootInvocation)).
Definition SorobanAuthorizationEntry_valid (s : XdrSorobanAuthorizationEntry) : bool :=
  let '(mkXdrSorobanAuthorizationEntry credentials rootInvocation) := s in
  SorobanCredentials_valid credentials && SorobanAuthorizedInvocation_valid rootInvocation.
End Keys.

(** ** Each type is read back *)
Section Laws.
Context {X : GoXdrCoder} {XL : GoXdrCoderLaws X} {N : Nesting}.

Lemma LedgerEntryType_coded : coded 1 LedgerEntryType_valid LedgerEntryType_EncodeTo LedgerEntryType_DecodeFrom.
Proof. by apply (enum_coded ledgerEntryTypeMap). Qed.
#[local] Hint Resolve LedgerEntryType_coded : xdr.
Lemma PublicKeyType_coded : coded 1 PublicKeyType_valid PublicKeyType_EncodeTo PublicKeyType_DecodeFrom.
Proof. by apply (enum_coded publicKeyTypeMap). Qed.
#[local] Hint Resolve PublicKeyType_coded : xdr.
Lemma Uint256_coded : coded 1 Uint256_valid Uint256_EncodeTo Uint256_DecodeFrom.
Proof. xdr_single Uint256_EncodeTo Uint256_DecodeFrom Uint256_valid. Qed.
#[local] Hint Resolve Uint256_coded : xdr.
Lemma PublicKey_coded : coded 2 PublicKey_valid PublicKey_EncodeTo PublicKey_DecodeFrom.
Proof. xdr_single PublicKey_EncodeTo PublicKey_DecodeFrom PublicKey_valid. Qed.
#[local] Hint Resolve PublicKey_coded : xdr.
Lemma AccountId_coded : coded 3 AccountId_valid AccountId_EncodeTo AccountId_DecodeFrom.
Proof. xdr_single AccountId_EncodeTo AccountId_DecodeFrom AccountId_valid. Qed.
#[local] Hint Resolve AccountId_coded : xdr.
Lemma LedgerKeyAccount_coded : coded 4 LedgerKeyAccount_valid LedgerKeyAccount_EncodeTo LedgerKeyAccount_DecodeFrom.
Proof. xdr_single LedgerKeyAccount_EncodeTo LedgerKeyAccount_DecodeFrom LedgerKeyAccount_valid. Qed.
#[local] Hint Resolve LedgerKeyAccount_coded : xdr.
Lemma AssetType_coded : coded 1 AssetType_valid AssetType_EncodeTo AssetType_DecodeFrom.
Proof. by apply (enum_coded assetTypeMap). Qed.
#[local] Hint Resolve AssetType_coded : xdr.
Lemma AssetCode4_coded : coded 1 AssetCode4_valid AssetCode4_EncodeTo AssetCode4_DecodeFrom.
Proof. xdr_single AssetCode4_EncodeTo AssetCode4_DecodeFrom AssetCode4_valid. Qed.
#[local] Hint Resolve AssetCode4_coded : xdr.
Lemma AlphaNum4_coded : coded 4 AlphaNum4_valid AlphaNum4_EncodeTo AlphaNum4_DecodeFrom.
Proof. xdr_record AlphaNum4_EncodeTo AlphaNum4_DecodeFrom AlphaNum4_valid. Qed.
#[local] Hint Resolve AlphaNum4_coded : xdr.
Lemma AssetCode12_coded : coded 1 AssetCode12_valid AssetCode12_EncodeTo AssetCode12_DecodeFrom.
Proof. xdr_single AssetCode12_EncodeTo AssetCode12_DecodeFrom AssetCode12_valid. Qed.
#[local] Hint Resolve AssetCode12_coded : xdr.
Lemma AlphaNum12_coded : coded 4 AlphaNum12_valid AlphaNum12_EncodeTo AlphaNum12_DecodeFrom.
Proof. xdr_record AlphaNum12_EncodeTo AlphaNum12_DecodeFrom AlphaNum12_valid. Qed.
#[local] Hint Resolve AlphaNum12_coded : xdr.
Lemma Hash_coded : coded 1 Hash_valid Hash_EncodeTo Hash_DecodeFrom.
Proof. xdr_single Hash_EncodeTo Hash_DecodeFrom Hash_valid. Qed.
#[local] Hint Resolve Hash_coded : xdr.
Lemma PoolId_coded : coded 2 PoolId_valid PoolId_EncodeTo PoolId_DecodeFrom.
Proof. xdr_single PoolId_EncodeTo PoolId_DecodeFrom PoolId_valid. Qed.
#[local] Hint Resolve PoolId_coded : xdr.
Lemma TrustLineAsset_coded : coded 5 TrustLineAsset_valid TrustLineAsset_EncodeTo TrustLineAsset_DecodeFrom.
Proof. xdr_union TrustLineAsset_EncodeTo TrustLineAsset_DecodeFrom TrustLineAsset_valid. Qed.
#[local] Hint Resolve TrustLineAsset_coded : xdr.
Lemma LedgerKeyTrustLine_coded : coded 6 LedgerKeyTrustLine_valid LedgerKeyTrustLine_EncodeTo LedgerKeyTrustLine_DecodeFrom.
Proof. xdr_record LedgerKeyTrustLine_EncodeTo LedgerKeyTrustLine_DecodeFrom LedgerKeyTrustLine_valid. Qed.
#[local] Hint Resolve LedgerKeyTrustLine_coded : xdr.
Lemma Int64_coded : coded 1 Int64_valid Int64_EncodeTo Int64_DecodeFrom.
Proof. xdr_single Int64_EncodeTo Int64_DecodeFrom Int64_valid. Qed.
#[local] Hint Resolve Int64_coded : xdr.
Lemma LedgerKeyOffer_coded : coded 4 LedgerKeyOffer_valid LedgerKeyOffer_EncodeTo LedgerKeyOffer_DecodeFrom.
Proof. xdr_record LedgerKeyOffer_EncodeTo LedgerKeyOffer_DecodeFrom LedgerKeyOffer_valid. Qed.
#[local] Hint Resolve LedgerKeyOffer_coded : xdr.
Lemma String64_coded : coded 1 String64_valid String64_EncodeTo String64_DecodeFrom.
Proof. xdr_single String64_EncodeTo String64_DecodeFrom String64_valid. Qed.
#[local] Hint Resolve String64_coded : xdr.
Lemma LedgerKeyData_coded : coded 4 LedgerKeyData_valid LedgerKeyData_EncodeTo LedgerKeyData_DecodeFrom.
Proof. xdr_record LedgerKeyData_EncodeTo LedgerKeyData_DecodeFrom LedgerKeyData_valid. Qed.
#[local] Hint Resolve LedgerKeyData_coded : xdr.
Lemma ClaimableBalanceIdType_coded : coded 1 ClaimableBalanceIdType_valid ClaimableBalanceIdType_EncodeTo ClaimableBalanceIdType_DecodeFrom.
Proof. by apply (enum_coded claimableBalanceIdTypeMap). Qed.
#[local] Hint Resolve ClaimableBalanceIdType_coded : xdr.
Lemma ClaimableBalanceId_coded : coded 2 ClaimableBalanceId_valid ClaimableBalanceId_EncodeTo ClaimableBalanceId_DecodeFrom.
Proof. xdr_single ClaimableBalanceId_EncodeTo ClaimableBalanceId_DecodeFrom ClaimableBalanceId_valid. Qed.
#[local] Hint Resolve ClaimableBalanceId_coded : xdr.
Lemma LedgerKeyClaimableBalance_coded : coded 3 LedgerKeyClaimableBalance_valid LedgerKeyClaimableBalance_EncodeTo
    LedgerKeyClaimableBalance_DecodeFrom.
Proof. xdr_single LedgerKeyClaimableBalance_EncodeTo LedgerKeyClaimableBalance_DecodeFrom LedgerKeyClaimableBalance_valid. Qed.
#[local] Hint Resolve LedgerKeyClaimableBalance_coded : xdr.
Lemma LedgerKeyLiquidityPool_coded : coded 3 LedgerKeyLiquidityPool_valid LedgerKeyLiquidityPool_EncodeTo LedgerKeyLiquidityPool_DecodeFrom.
Proof. xdr_single LedgerKeyLiquidityPool_EncodeTo LedgerKeyLiquidityPool_DecodeFrom LedgerKeyLiquidityPool_valid. Qed.
#[local] Hint Resolve LedgerKeyLiquidityPool_coded : xdr.
Lemma ScAddressType_coded : coded 1 ScAddressType_valid ScAddressType_EncodeTo ScAddressType_DecodeFrom.
Proof. by apply (enum_coded scAddressTypeMap). Qed.
#[local] Hint Resolve ScAddressType_coded : xdr.
Lemma ContractId_coded : coded 2 ContractId_valid ContractId_EncodeTo ContractId_DecodeFrom.
Proof. xdr_single ContractId_EncodeTo ContractId_DecodeFrom ContractId_valid. Qed.
#[local] Hint Resolve ContractId_coded : xdr.
Lemma Uint64_coded : coded 1 Uint64_valid Uint64_EncodeTo Uint64_DecodeFrom.
Proof. xdr_single Uint64_EncodeTo Uint64_DecodeFrom Uint64_valid. Qed.
#[local] Hint Resolve Uint64_coded : xdr.
Lemma MuxedEd25519Account_coded : coded 2 MuxedEd25519Account_valid MuxedEd25519Account_EncodeTo MuxedEd25519Account_DecodeFrom.
Proof. xdr_record MuxedEd25519Account_EncodeTo MuxedEd25519Account_DecodeFrom MuxedEd25519Account_valid. Qed.
#[local] Hint Resolve MuxedEd25519Account_coded : xdr.
Lemma MuxedContract_coded : coded 3 MuxedContract_valid MuxedContract_EncodeTo MuxedContract_DecodeFrom.
Proof. xdr_record MuxedContract_EncodeTo MuxedContract_DecodeFrom MuxedContract_valid. Qed.
#[local] Hint Resolve MuxedContract_coded : xdr.
Lemma ScAddress_coded : coded 4 ScAddress_valid ScAddress_EncodeTo ScAddress_DecodeFrom.
Proof. xdr_union ScAddress_EncodeTo ScAddress_DecodeFrom ScAddress_valid. Qed.
#[local] Hint Resolve ScAddress_coded : xdr.
Lemma ScValType_coded : coded 1 ScValType_valid ScValType_EncodeTo ScValType_DecodeFrom.
Proof. by apply (enum_coded scValTypeMap). Qed.
#[local] Hint Resolve ScValType_coded : xdr.
Lemma ScErrorType_coded : coded 1 ScErrorType_valid ScErrorType_EncodeTo ScErrorType_DecodeFrom.
Proof. by apply (enum_coded scErrorTypeMap). Qed.
#[local] Hint Resolve ScErrorType_coded : xdr.
Lemma Uint32_coded : coded 1 Uint32_valid Uint32_EncodeTo Uint32_DecodeFrom.
Proof. xdr_single Uint32_EncodeTo Uint32_DecodeFrom Uint32_valid. Qed.
#[local] Hint Resolve Uint32_coded : xdr.
Lemma ScErrorCode_coded : coded 1 ScErrorCode_valid ScErrorCode_EncodeTo ScErrorCode_DecodeFrom.
Proof. by apply (enum_coded scErrorCodeMap). Qed.
#[local] Hint Resolve ScErrorCode_coded : xdr.
Lemma ScError_coded : coded 2 ScError_valid ScError_EncodeTo ScError_DecodeFrom.
Proof. xdr_union ScError_EncodeTo ScError_DecodeFrom ScError_valid. Qed.
#[local] Hint Resolve ScError_coded : xdr.
Lemma Int32_coded : coded 1 Int32_valid Int32_EncodeTo Int32_DecodeFrom.
Proof. xdr_single Int32_EncodeTo Int32_DecodeFrom Int32_valid. Qed.
#[local] Hint Resolve Int32_coded : xdr.
Lemma TimePoint_coded : coded 2 TimePoint_valid TimePoint_EncodeTo TimePoint_DecodeFrom.
Proof. xdr_single TimePoint_EncodeTo TimePoint_DecodeFrom TimePoint_valid. Qed.
#[local] Hint Resolve TimePoint_coded : xdr.
Lemma Duration_coded : coded 2 Duration_valid Duration_EncodeTo Duration_DecodeFrom.
Proof. xdr_single Duration_EncodeTo Duration_DecodeFrom Duration_valid. Qed.
#[local] Hint Resolve Duration_coded : xdr.
Lemma UInt128Parts_coded : coded 2 UInt128Parts_valid UInt128Parts_EncodeTo UInt128Parts_DecodeFrom.
Proof. xdr_record UInt128Parts_EncodeTo UInt128Parts_DecodeFrom UInt128Parts_valid. Qed.
#[local] Hint Resolve UInt128Parts_coded : xdr.
Lemma Int128Parts_coded : coded 2 Int128Parts_valid Int128Parts_EncodeTo Int128Parts_DecodeFrom.
Proof. xdr_record Int128Parts_EncodeTo Int128Parts_DecodeFrom Int128Parts_valid. Qed.
#[local] Hint Resolve Int128Parts_coded : xdr.
Lemma UInt256Parts_coded : coded 2 UInt256Parts_valid UInt256Parts_EncodeTo UInt256Parts_DecodeFrom.
Proof. xdr_record UInt256Parts_EncodeTo UInt256Parts_DecodeFrom UInt256Parts_valid. Qed.
#[local] Hint Resolve UInt256Parts_coded : xdr.
Lemma Int256Parts_coded : coded 2 Int256Parts_valid Int256Parts_EncodeTo Int256Parts_DecodeFrom.
Proof. xdr_record Int256Parts_EncodeTo Int256Parts_DecodeFrom Int256Parts_valid. Qed.
#[local] Hint Resolve Int256Parts_coded : xdr.
Lemma ScBytes_coded : coded 1 ScBytes_valid ScBytes_EncodeTo ScBytes_DecodeFrom.
Proof. xdr_single ScBytes_EncodeTo ScBytes_DecodeFrom ScBytes_valid. Qed.
#[local] Hint Resolve ScBytes_coded : xdr.
Lemma ScString_coded : coded 1 ScString_valid ScString_EncodeTo ScString_DecodeFrom.
Proof. xdr_single ScString_EncodeTo ScString_DecodeFrom ScString_valid. Qed.
#[local] Hint Resolve ScString_coded : xdr.
Lemma ScSymbol_coded : coded 1 ScSymbol_valid ScSymbol_EncodeTo ScSymbol_DecodeFrom.
Proof. xdr_single ScSymbol_EncodeTo ScSymbol_DecodeFrom ScSymbol_valid. Qed.
#[local] Hint Resolve ScSymbol_coded : xdr.
Lemma ContractExecutableType_coded : coded 1 ContractExecutableType_valid ContractExecutableType_EncodeTo ContractExecutableType_DecodeFrom.
Proof. by apply (enum_coded contractExecutableTypeMap). Qed.
#[local] Hint Resolve ContractExecutableType_coded : xdr.
Lemma ContractExecutableExternalRef_coded : coded 5 ContractExecutableExternalRef_valid ContractExecutableExternalRef_EncodeTo
    ContractExecutableExternalRef_DecodeFrom.
Proof. xdr_record ContractExecutableExternalRef_EncodeTo ContractExecutableExternalRef_DecodeFrom ContractExecutableExternalRef_valid. Qed.
#[local] Hint Resolve ContractExecutableExternalRef_coded : xdr.
Lemma ContractExecutable_coded : coded 6 ContractExecutable_valid ContractExecutable_EncodeTo ContractExecutable_DecodeFrom.
Proof. xdr_union ContractExecutable_EncodeTo ContractExecutable_DecodeFrom ContractExecutable_valid. Qed.
#[local] Hint Resolve ContractExecutable_coded : xdr.
Lemma ScNonceKey_coded : coded 2 ScNonceKey_valid ScNonceKey_EncodeTo ScNonceKey_DecodeFrom.
Proof. xdr_record ScNonceKey_EncodeTo ScNonceKey_DecodeFrom ScNonceKey_valid. Qed.
#[local] Hint Resolve ScNonceKey_coded : xdr.
Lemma ScMapEntry_coded_with depth valid : coded depth valid ScVal_EncodeTo ScVal_DecodeFrom ->
  coded (S depth) (ScMapEntry_valid_with valid) ScMapEntry_EncodeTo ScMapEntry_DecodeFrom.
Proof.
  intros H v n Hv Hn. destruct n as [|n]; [lia|]. destruct v as [key_ val]. apply andb_true_iff in Hv as [? ?].
  cbn [ScMapEntry_EncodeTo ScMapEntry_DecodeFrom]. eapply writes_bind; [apply H; [done|lia]|].
  eapply writes0_bind; [apply writes_writes0, H; [done|lia]|]. apply writes_ret.
Qed.
Lemma ScMap_coded_with depth valid : coded depth valid ScVal_EncodeTo ScVal_DecodeFrom ->
  coded (S (S depth)) (valid_slice None (ScMapEntry_valid_with valid)) ScMap_EncodeTo ScMap_DecodeFrom.
Proof.
  intros H v n Hv Hn. destruct n as [|n]; [lia|]. cbn [ScMap_DecodeFrom]. unfold ScMap_EncodeTo.
  eapply slice_valid; [reflexivity| |exact Hv]. intros x Hx. eapply ScMapEntry_coded_with; [exact H|done|lia].
Qed.
Lemma ScVec_coded_with depth valid : coded depth valid ScVal_EncodeTo ScVal_DecodeFrom ->
  coded (S depth) (valid_slice None valid) ScVec_EncodeTo ScVec_DecodeFrom.
Proof.
  intros H v n Hv Hn. destruct n as [|n]; [lia|]. cbn [ScVec_DecodeFrom]. unfold ScVec_EncodeTo.
  eapply slice_valid; [reflexivity| |exact Hv]. intros x Hx. apply H; [done|lia].
Qed.
Lemma ScContractInstance_coded_with depth valid : coded (depth + 8) valid ScVal_EncodeTo ScVal_DecodeFrom ->
  coded (S (S (S (depth + 8)))) (ScContractInstance_valid_with valid) ScContractInstance_EncodeTo ScContractInstance_DecodeFrom.
Proof.
  intros H v n Hv Hn. destruct n as [|n]; [lia|]. destruct v as [executable storage]. apply andb_true_iff in Hv as [? ?].
  cbn [ScContractInstance_EncodeTo ScContractInstance_DecodeFrom]. eapply writes_bind; [xdr_value|].
  eapply writes0_bind; [apply writes_writes0|apply writes_ret]. eapply (pointer_valid _ _ ScMap_EncodeTo); [|eassumption].
  intros x Hx. eapply ScMap_coded_with; [exact H|done|lia].
Qed.
Lemma ScVal_coded_in depth : coded (4 * depth + 8) (ScVal_valid_in depth) ScVal_EncodeTo ScVal_DecodeFrom.
Proof.
  induction depth as [|depth IH]; intros v n Hv Hn; (destruct n as [|n]; [lia|]); cbn [ScVal_DecodeFrom];
    destruct v; cbn [ScVal_valid_in] in Hv; try discriminate Hv; cbn [ScVal_EncodeTo];
    try (solve [xdr_fields]);
    (eapply writes_bind; [xdr_value|]; cbn [Z.eqb Pos.eqb]; apply writes0_tracked;
     eapply writes0_bind; [|apply writes_ret]; apply writes_writes0).
  - eapply (pointer_valid _ _ ScVec_EncodeTo); [|exact Hv]. intros x Hx. eapply ScVec_coded_with; [exact IH|done|lia].
  - eapply (pointer_valid _ _ ScMap_EncodeTo); [|exact Hv]. intros x Hx. eapply ScMap_coded_with; [exact IH|done|lia].
  - eapply (ScContractInstance_coded_with (4 * depth)); [exact IH|exact Hv|lia].
Qed.
Lemma ScVal_coded : coded (4 * nesting + 8) ScVal_valid ScVal_EncodeTo ScVal_DecodeFrom.
Proof. apply ScVal_coded_in. Qed.
Lemma ScVec_coded : coded (4 * nesting + 9) ScVec_valid ScVec_EncodeTo ScVec_DecodeFrom.
Proof. intros v n Hv Hn. eapply (ScVec_coded_with _ _ ScVal_coded); [exact Hv|lia]. Qed.
Lemma ScMap_coded : coded (4 * nesting + 10) ScMap_valid ScMap_EncodeTo ScMap_DecodeFrom.
Proof. intros v n Hv Hn. eapply (ScMap_coded_with _ _ ScVal_coded); [exact Hv|lia]. Qed.
#[local] Hint Resolve ScVal_coded : xdr.
Lemma ContractDataDurability_coded : coded 1 ContractDataDurability_valid ContractDataDurability_EncodeTo ContractDataDurability_DecodeFrom.
Proof. by apply (enum_coded contractDataDurabilityMap). Qed.
#[local] Hint Resolve ContractDataDurability_coded : xdr.
Lemma LedgerKeyContractData_coded : coded (4 * nesting + 9) LedgerKeyContractData_valid LedgerKeyContractData_EncodeTo
    LedgerKeyContractData_DecodeFrom.
Proof. xdr_record LedgerKeyContractData_EncodeTo LedgerKeyContractData_DecodeFrom LedgerKeyContractData_valid. Qed.
#[local] Hint Resolve LedgerKeyContractData_coded : xdr.
Lemma LedgerKeyContractCode_coded : coded 2 LedgerKeyContractCode_valid LedgerKeyContractCode_EncodeTo LedgerKeyContractCode_DecodeFrom.
Proof. xdr_single LedgerKeyContractCode_EncodeTo LedgerKeyContractCode_DecodeFrom LedgerKeyContractCode_valid. Qed.
#[local] Hint Resolve LedgerKeyContractCode_coded : xdr.
Lemma ConfigSettingId_coded : coded 1 ConfigSettingId_valid ConfigSettingId_EncodeTo ConfigSettingId_DecodeFrom.
Proof. by apply (enum_coded configSettingIdMap). Qed.
#[local] Hint Resolve ConfigSettingId_coded : xdr.
Lemma LedgerKeyConfigSetting_coded : coded 2 LedgerKeyConfigSetting_valid LedgerKeyConfigSetting_EncodeTo LedgerKeyConfigSetting_DecodeFrom.
Proof. xdr_single LedgerKeyConfigSetting_EncodeTo LedgerKeyConfigSetting_DecodeFrom LedgerKeyConfigSetting_valid. Qed.
#[local] Hint Resolve LedgerKeyConfigSetting_coded : xdr.
Lemma LedgerKeyTtl_coded : coded 2 LedgerKeyTtl_valid LedgerKeyTtl_EncodeTo LedgerKeyTtl_DecodeFrom.
Proof. xdr_single LedgerKeyTtl_EncodeTo LedgerKeyTtl_DecodeFrom LedgerKeyTtl_valid. Qed.
#[local] Hint Resolve LedgerKeyTtl_coded : xdr.
Lemma LedgerKey_coded : coded (4 * nesting + 10) LedgerKey_valid LedgerKey_EncodeTo LedgerKey_DecodeFrom.
Proof. xdr_union LedgerKey_EncodeTo LedgerKey_DecodeFrom LedgerKey_valid. Qed.
#[local] Hint Resolve LedgerKey_coded : xdr.
Lemma SignerKeyType_coded : coded 1 SignerKeyType_valid SignerKeyType_EncodeTo SignerKeyType_DecodeFrom.
Proof. by apply (enum_coded signerKeyTypeMap). Qed.
#[local] Hint Resolve SignerKeyType_coded : xdr.
Lemma SignerKeyEd25519SignedPayload_coded : coded 2 SignerKeyEd25519SignedPayload_valid SignerKeyEd25519SignedPayload_EncodeTo
    SignerKeyEd25519SignedPayload_DecodeFrom.
Proof. xdr_record SignerKeyEd25519SignedPayload_EncodeTo SignerKeyEd25519SignedPayload_DecodeFrom SignerKeyEd25519SignedPayload_valid. Qed.
#[local] Hint Resolve SignerKeyEd25519SignedPayload_coded : xdr.
Lemma SignerKey_coded : coded 3 SignerKey_valid SignerKey_EncodeTo SignerKey_DecodeFrom.
Proof. xdr_union SignerKey_EncodeTo SignerKey_DecodeFrom SignerKey_valid. Qed.
#[local] Hint Resolve SignerKey_coded : xdr.
Lemma MemoType_coded : coded 1 MemoType_valid MemoType_EncodeTo MemoType_DecodeFrom.
Proof. by apply (enum_coded memoTypeMap). Qed.
#[local] Hint Resolve MemoType_coded : xdr.
Lemma Memo_coded : coded 2 Memo_valid Memo_EncodeTo Memo_DecodeFrom.
Proof. xdr_union Memo_EncodeTo Memo_DecodeFrom Memo_valid. Qed.
#[local] Hint Resolve Memo_coded : xdr.
Lemma PreconditionType_coded : coded 1 PreconditionType_valid PreconditionType_EncodeTo PreconditionType_DecodeFrom.
Proof. by apply (enum_coded preconditionTypeMap). Qed.
#[local] Hint Resolve PreconditionType_coded : xdr.
Lemma TimeBounds_coded : coded 3 TimeBounds_valid TimeBounds_EncodeTo TimeBounds_DecodeFrom.
Proof. xdr_record TimeBounds_EncodeTo TimeBounds_DecodeFrom TimeBounds_valid. Qed.
#[local] Hint Resolve TimeBounds_coded : xdr.
Lemma LedgerBounds_coded : coded 2 LedgerBounds_valid LedgerBounds_EncodeTo LedgerBounds_DecodeFrom.
Proof. xdr_record LedgerBounds_EncodeTo LedgerBounds_DecodeFrom LedgerBounds_valid. Qed.
#[local] Hint Resolve LedgerBounds_coded : xdr.
Lemma SequenceNumber_coded : coded 2 SequenceNumber_valid SequenceNumber_EncodeTo SequenceNumber_DecodeFrom.
Proof. xdr_single SequenceNumber_EncodeTo SequenceNumber_DecodeFrom SequenceNumber_valid. Qed.
#[local] Hint Resolve SequenceNumber_coded : xdr.
Lemma PreconditionsV2_coded : coded 4 PreconditionsV2_valid PreconditionsV2_EncodeTo PreconditionsV2_DecodeFrom.
Proof. xdr_record PreconditionsV2_EncodeTo PreconditionsV2_DecodeFrom PreconditionsV2_valid. Qed.
#[local] Hint Resolve PreconditionsV2_coded : xdr.
Lemma Preconditions_coded : coded 5 Preconditions_valid Preconditions_EncodeTo Preconditions_DecodeFrom.
Proof. xdr_union Preconditions_EncodeTo Preconditions_DecodeFrom Preconditions_valid. Qed.
#[local] Hint Resolve Preconditions_coded : xdr.
Lemma ClaimantType_coded : coded 1 ClaimantType_valid ClaimantType_EncodeTo ClaimantType_DecodeFrom.
Proof. by apply (enum_coded claimantTypeMap). Qed.
#[local] Hint Resolve ClaimantType_coded : xdr.
Lemma ClaimPredicateType_coded : coded 1 ClaimPredicateType_valid ClaimPredicateType_EncodeTo ClaimPredicateType_DecodeFrom.
Proof. by apply (enum_coded claimPredicateTypeMap). Qed.
#[local] Hint Resolve ClaimPredicateType_coded : xdr.
Lemma ClaimPredicate_coded_in depth : coded (depth + 3) (ClaimPredicate_valid_in depth) ClaimPredicate_EncodeTo ClaimPredicate_DecodeFrom.
Proof.
  induction depth as [|depth IH]; intros v n Hv Hn; (destruct n as [|n]; [lia|]); cbn [ClaimPredicate_DecodeFrom];
    destruct v; cbn [ClaimPredicate_valid_in] in Hv; try discriminate Hv; cbn [ClaimPredicate_EncodeTo];
    try (solve [xdr_fields]);
    (eapply writes_bind; [xdr_value|]; cbn [Z.eqb Pos.eqb]; apply writes0_tracked;
     eapply writes0_bind; [|apply writes_ret]; apply writes_writes0;
     first [eapply slice_valid; [reflexivity| |exact Hv]|eapply pointer_valid; [|exact Hv]]; intros x Hx; apply IH; [done|lia]).
Qed.
Lemma ClaimPredicate_coded : coded (4 * nesting + 3) ClaimPredicate_valid ClaimPredicate_EncodeTo ClaimPredicate_DecodeFrom.
Proof. intros v n Hv Hn. apply (ClaimPredicate_coded_in nesting); [done|lia]. Qed.
#[local] Hint Resolve ClaimPredicate_coded : xdr.
Lemma ClaimantV0_coded : coded (4 * nesting + 4) ClaimantV0_valid ClaimantV0_EncodeTo ClaimantV0_DecodeFrom.
Proof. xdr_record ClaimantV0_EncodeTo ClaimantV0_DecodeFrom ClaimantV0_valid. Qed.
#[local] Hint Resolve ClaimantV0_coded : xdr.
Lemma Claimant_coded : coded (4 * nesting + 5) Claimant_valid Claimant_EncodeTo Claimant_DecodeFrom.
Proof. xdr_union Claimant_EncodeTo Claimant_DecodeFrom Claimant_valid. Qed.
#[local] Hint Resolve Claimant_coded : xdr.
Lemma LiquidityPoolType_coded : coded 1 LiquidityPoolType_valid LiquidityPoolType_EncodeTo LiquidityPoolType_DecodeFrom.
Proof. by apply (enum_coded liquidityPoolTypeMap). Qed.
#[local] Hint Resolve LiquidityPoolType_coded : xdr.
Lemma Asset_coded : coded 5 Asset_valid Asset_EncodeTo Asset_DecodeFrom.
Proof. xdr_union Asset_EncodeTo Asset_DecodeFrom Asset_valid. Qed.
#[local] Hint Resolve Asset_coded : xdr.
Lemma LiquidityPoolConstantProductParameters_coded : coded 6 LiquidityPoolConstantProductParameters_valid
    LiquidityPoolConstantProductParameters_EncodeTo LiquidityPoolConstantProductParameters_DecodeFrom.
Proof. xdr_record LiquidityPoolConstantProductParameters_EncodeTo LiquidityPoolConstantProductParameters_DecodeFrom
    LiquidityPoolConstantProductParameters_valid. Qed.
#[local] Hint Resolve LiquidityPoolConstantProductParameters_coded : xdr.
Lemma LiquidityPoolParameters_coded : coded 7 LiquidityPoolParameters_valid LiquidityPoolParameters_EncodeTo
    LiquidityPoolParameters_DecodeFrom.
Proof. xdr_single LiquidityPoolParameters_EncodeTo LiquidityPoolParameters_DecodeFrom LiquidityPoolParameters_valid. Qed.
#[local] Hint Resolve LiquidityPoolParameters_coded : xdr.
Lemma ChangeTrustAsset_coded : coded 8 ChangeTrustAsset_valid ChangeTrustAsset_EncodeTo ChangeTrustAsset_DecodeFrom.
Proof. xdr_union ChangeTrustAsset_EncodeTo ChangeTrustAsset_DecodeFrom ChangeTrustAsset_valid. Qed.
#[local] Hint Resolve ChangeTrustAsset_coded : xdr.
Lemma AssetCode_coded : coded 2 AssetCode_valid AssetCode_EncodeTo AssetCode_DecodeFrom.
Proof. xdr_union AssetCode_EncodeTo AssetCode_DecodeFrom AssetCode_valid. Qed.
#[local] Hint Resolve AssetCode_coded : xdr.
Lemma Price_coded : coded 2 Price_valid Price_EncodeTo Price_DecodeFrom.
Proof. xdr_record Price_EncodeTo Price_DecodeFrom Price_valid. Qed.
#[local] Hint Resolve Price_coded : xdr.
Lemma SignatureHint_coded : coded 1 SignatureHint_valid SignatureHint_EncodeTo SignatureHint_DecodeFrom.
Proof.
  unfold SignatureHint_DecodeFrom. apply coded_nested; [lia|]. intros s n Hs _. apply Nat.eqb_eq in Hs.
  assert (exists v : vec byte 4, s = vec_to_list v) as [v ->].
  { destruct s as [|a [|b [|c [|d [|? ?]]]]]; try done. by exists [# a; b; c; d]. }
  eapply writes_bind; [apply writes_fixed|]. apply writes_ret.
Qed.
#[local] Hint Resolve SignatureHint_coded : xdr.
Lemma Signature_coded : coded 1 Signature_valid Signature_EncodeTo Signature_DecodeFrom.
Proof. xdr_single Signature_EncodeTo Signature_DecodeFrom Signature_valid. Qed.
#[local] Hint Resolve Signature_coded : xdr.
Lemma DecoratedSignature_coded : coded 2 DecoratedSignature_valid DecoratedSignature_EncodeTo DecoratedSignature_DecodeFrom.
Proof. xdr_record DecoratedSignature_EncodeTo DecoratedSignature_DecodeFrom DecoratedSignature_valid. Qed.
#[local] Hint Resolve DecoratedSignature_coded : xdr.
Lemma HostFunctionType_coded : coded 1 HostFunctionType_valid HostFunctionType_EncodeTo HostFunctionType_DecodeFrom.
Proof. by apply (enum_coded hostFunctionTypeMap). Qed.
#[local] Hint Resolve HostFunctionType_coded : xdr.
Lemma InvokeContractArgs_coded : coded (4 * nesting + 9) InvokeContractArgs_valid InvokeContractArgs_EncodeTo InvokeContractArgs_DecodeFrom.
Proof. xdr_record InvokeContractArgs_EncodeTo InvokeContractArgs_DecodeFrom InvokeContractArgs_valid. Qed.
#[local] Hint Resolve InvokeContractArgs_coded : xdr.
Lemma ContractIdPreimageType_coded : coded 1 ContractIdPreimageType_valid ContractIdPreimageType_EncodeTo ContractIdPreimageType_DecodeFrom.
Proof. by apply (enum_coded contractIdPreimageTypeMap). Qed.
#[local] Hint Resolve ContractIdPreimageType_coded : xdr.
Lemma ContractIdPreimageFromAddress_coded : coded 5 ContractIdPreimageFromAddress_valid ContractIdPreimageFromAddress_EncodeTo
    ContractIdPreimageFromAddress_DecodeFrom.
Proof. xdr_record ContractIdPreimageFromAddress_EncodeTo ContractIdPreimageFromAddress_DecodeFrom ContractIdPreimageFromAddress_valid. Qed.
#[local] Hint Resolve ContractIdPreimageFromAddress_coded : xdr.
Lemma ContractIdPreimage_coded : coded 6 ContractIdPreimage_valid ContractIdPreimage_EncodeTo ContractIdPreimage_DecodeFrom.
Proof. xdr_union ContractIdPreimage_EncodeTo ContractIdPreimage_DecodeFrom ContractIdPreimage_valid. Qed.
#[local] Hint Resolve ContractIdPreimage_coded : xdr.
Lemma CreateContractArgs_coded : coded 7 CreateContractArgs_valid CreateContractArgs_EncodeTo CreateContractArgs_DecodeFrom.
Proof. xdr_record CreateContractArgs_EncodeTo CreateContractArgs_DecodeFrom CreateContractArgs_valid. Qed.
#[local] Hint Resolve CreateContractArgs_coded : xdr.
Lemma CreateContractArgsV2_coded : coded (4 * nesting + 9) CreateContractArgsV2_valid CreateContractArgsV2_EncodeTo
    CreateContractArgsV2_DecodeFrom.
Proof. xdr_record CreateContractArgsV2_EncodeTo CreateContractArgsV2_DecodeFrom CreateContractArgsV2_valid. Qed.
#[local] Hint Resolve CreateContractArgsV2_coded : xdr.
Lemma HostFunction_coded : coded (4 * nesting + 10) HostFunction_valid HostFunction_EncodeTo HostFunction_DecodeFrom.
Proof. xdr_union HostFunction_EncodeTo HostFunction_DecodeFrom HostFunction_valid. Qed.
#[local] Hint Resolve HostFunction_coded : xdr.
Lemma SorobanCredentialsType_coded : coded 1 SorobanCredentialsType_valid SorobanCredentialsType_EncodeTo SorobanCredentialsType_DecodeFrom.
Proof. by apply (enum_coded sorobanCredentialsTypeMap). Qed.
#[local] Hint Resolve SorobanCredentialsType_coded : xdr.
Lemma SorobanAddressCredentials_coded : coded (4 * nesting + 9) SorobanAddressCredentials_valid SorobanAddressCredentials_EncodeTo
    SorobanAddressCredentials_DecodeFrom.
Proof. xdr_record SorobanAddressCredentials_EncodeTo SorobanAddressCredentials_DecodeFrom SorobanAddressCredentials_valid. Qed.
#[local] Hint Resolve SorobanAddressCredentials_coded : xdr.
Lemma SorobanDelegateSignature_coded_in depth :
  coded (depth + 4 * nesting + 9) (SorobanDelegateSignature_valid_in depth) SorobanDelegateSignature_EncodeTo
      SorobanDelegateSignature_DecodeFrom.
Proof.
  induction depth as [|depth IH]; intros v n Hv Hn; [done|]. destruct n as [|n]; [lia|]. destruct v. cbn
      [SorobanDelegateSignature_valid_in] in Hv.
  xdr_valid. cbn [SorobanDelegateSignature_EncodeTo SorobanDelegateSignature_DecodeFrom].
  eapply writes_bind; [xdr_value|]. eapply writes0_bind; [xdr_value0|]. eapply writes0_bind; [|apply writes_ret].
  apply writes_writes0. eapply slice_valid; [reflexivity| |eassumption]. intros x Hx. apply IH; [done|lia].
Qed.
Lemma SorobanDelegateSignature_coded :
  coded (5 * nesting + 9) SorobanDelegateSignature_valid SorobanDelegateSignature_EncodeTo SorobanDelegateSignature_DecodeFrom.
Proof. intros v n Hv Hn. apply (SorobanDelegateSignature_coded_in nesting); [done|lia]. Qed.
#[local] Hint Resolve SorobanDelegateSignature_coded : xdr.
Lemma SorobanAddressCredentialsWithDelegates_coded : coded (5 * nesting + 10) SorobanAddressCredentialsWithDelegates_valid
    SorobanAddressCredentialsWithDelegates_EncodeTo SorobanAddressCredentialsWithDelegates_DecodeFrom.
Proof. xdr_record SorobanAddressCredentialsWithDelegates_EncodeTo SorobanAddressCredentialsWithDelegates_DecodeFrom
    SorobanAddressCredentialsWithDelegates_valid. Qed.
#[local] Hint Resolve SorobanAddressCredentialsWithDelegates_coded : xdr.
Lemma SorobanCredentials_coded : coded (5 * nesting + 11) SorobanCredentials_valid SorobanCredentials_EncodeTo
    SorobanCredentials_DecodeFrom.
Proof. xdr_union SorobanCredentials_EncodeTo SorobanCredentials_DecodeFrom SorobanCredentials_valid. Qed.
#[local] Hint Resolve SorobanCredentials_coded : xdr.
Lemma SorobanAuthorizedFunctionType_coded : coded 1 SorobanAuthorizedFunctionType_valid SorobanAuthorizedFunctionType_EncodeTo
    SorobanAuthorizedFunctionType_DecodeFrom.
Proof. by apply (enum_coded sorobanAuthorizedFunctionTypeMap). Qed.
#[local] Hint Resolve SorobanAuthorizedFunctionType_coded : xdr.
Lemma SorobanAuthorizedFunction_coded : coded (4 * nesting + 10) SorobanAuthorizedFunction_valid SorobanAuthorizedFunction_EncodeTo
    SorobanAuthorizedFunction_DecodeFrom.
Proof. xdr_union SorobanAuthorizedFunction_EncodeTo SorobanAuthorizedFunction_DecodeFrom SorobanAuthorizedFunction_valid. Qed.
#[local] Hint Resolve SorobanAuthorizedFunction_coded : xdr.
Lemma SorobanAuthorizedInvocation_coded_in depth :
  coded (depth + 4 * nesting + 11) (SorobanAuthorizedInvocation_valid_in depth) SorobanAuthorizedInvocation_EncodeTo
      SorobanAuthorizedInvocation_DecodeFrom.
Proof.
  induction depth as [|depth IH]; intros v n Hv Hn; [done|]. destruct n as [|n]; [lia|]. destruct v. cbn
      [SorobanAuthorizedInvocation_valid_in] in Hv.
  xdr_valid. cbn [SorobanAuthorizedInvocation_EncodeTo SorobanAuthorizedInvocation_DecodeFrom].
  eapply writes_bind; [xdr_value|]. eapply writes0_bind; [|apply writes_ret].
  apply writes_writes0. eapply slice_valid; [reflexivity| |eassumption]. intros x Hx. apply IH; [done|lia].
Qed.
Lemma SorobanAuthorizedInvocation_coded :
  coded (5 * nesting + 11) SorobanAuthorizedInvocation_valid SorobanAuthorizedInvocation_EncodeTo SorobanAuthorizedInvocation_DecodeFrom.
Proof. intros v n Hv Hn. apply (SorobanAuthorizedInvocation_coded_in nesting); [done|lia]. Qed.
#[local] Hint Resolve SorobanAuthorizedInvocation_coded : xdr.
Lemma SorobanAuthorizationEntry_coded : coded (5 * nesting + 12) SorobanAuthorizationEntry_valid SorobanAuthorizationEntry_EncodeTo
    SorobanAuthorizationEntry_DecodeFrom.
Proof. xdr_record SorobanAuthorizationEntry_EncodeTo SorobanAuthorizationEntry_DecodeFrom SorobanAuthorizationEntry_valid. Qed.
#[local] Hint Resolve SorobanAuthorizationEntry_coded : xdr.
End Laws.
#[export] Hint Resolve
  LedgerEntryType_coded PublicKeyType_coded Uint256_coded PublicKey_coded
  AccountId_coded LedgerKeyAccount_coded AssetType_coded AssetCode4_coded
  AlphaNum4_coded AssetCode12_coded AlphaNum12_coded Hash_coded
  PoolId_coded TrustLineAsset_coded LedgerKeyTrustLine_coded Int64_coded
  LedgerKeyOffer_coded String64_coded LedgerKeyData_coded ClaimableBalanceIdType_coded
  ClaimableBalanceId_coded LedgerKeyClaimableBalance_coded LedgerKeyLiquidityPool_coded ScAddressType_coded
  ContractId_coded Uint64_coded MuxedEd25519Account_coded MuxedContract_coded
  ScAddress_coded ScValType_coded ScErrorType_coded Uint32_coded
  ScErrorCode_coded ScError_coded Int32_coded TimePoint_coded
  Duration_coded UInt128Parts_coded Int128Parts_coded UInt256Parts_coded
  Int256Parts_coded ScBytes_coded ScString_coded ScSymbol_coded
  ContractExecutableType_coded ContractExecutableExternalRef_coded ContractExecutable_coded ScNonceKey_coded
  ScVal_coded ContractDataDurability_coded LedgerKeyContractData_coded LedgerKeyContractCode_coded
  ConfigSettingId_coded LedgerKeyConfigSetting_coded LedgerKeyTtl_coded LedgerKey_coded
  SignerKeyType_coded SignerKeyEd25519SignedPayload_coded SignerKey_coded MemoType_coded
  Memo_coded PreconditionType_coded TimeBounds_coded LedgerBounds_coded
  SequenceNumber_coded PreconditionsV2_coded Preconditions_coded ClaimantType_coded
  ClaimPredicateType_coded ClaimPredicate_coded ClaimantV0_coded Claimant_coded
  LiquidityPoolType_coded Asset_coded LiquidityPoolConstantProductParameters_coded LiquidityPoolParameters_coded
  ChangeTrustAsset_coded AssetCode_coded Price_coded SignatureHint_coded
  Signature_coded DecoratedSignature_coded HostFunctionType_coded InvokeContractArgs_coded
  ContractIdPreimageType_coded ContractIdPreimageFromAddress_coded ContractIdPreimage_coded CreateContractArgs_coded
  CreateContractArgsV2_coded HostFunction_coded SorobanCredentialsType_coded SorobanAddressCredentials_coded
  SorobanDelegateSignature_coded SorobanAddressCredentialsWithDelegates_coded SorobanCredentials_coded SorobanAuthorizedFunctionType_coded
  SorobanAuthorizedFunction_coded SorobanAuthorizedInvocation_coded SorobanAuthorizationEntry_coded : xdr.
