(* ===== verification/XdrTransactions.v ===== *)
(** * Encoded transactions

    The operations, transactions and envelopes of src/xdr/xdr_generated.go, in the way
    of [XdrTypes]. *)
From Stdlib Require Import ZArith Lia.
From stdpp Require Import base list vector option.
From S2P Require Import Prelude GoStd GoExt Price Encodings Strkey Asset LedgerEntries CloseMeta Accounts Envelopes.
From S2P Require Import Keypair TxnXdr XdrCodec XdrTypes.
#[local] Open Scope Z_scope.
#[local] Open Scope go_scope.
#[local] Open Scope string_scope.

Definition xdr_soroban : SorobanTypes :=
  {| HostFunction := XdrHostFunction; SorobanAuthorizationEntry := XdrSorobanAuthorizationEntry |}.
#[local] Existing Instances xdr_entries xdr_soroban.

Section Types.
Context {X : GoXdrCoder} {N : Nesting}.

Definition envelopeTypeMap : list Z := [0; 1; 2; 3; 4; 5; 6; 7; 8; 9; 10].
Definition EnvelopeType_EncodeTo (e : Z) : option bytes := enum_EncodeTo envelopeTypeMap e.
Definition EnvelopeType_DecodeFrom (maxDepth : nat) : decode Z := enum_DecodeFrom envelopeTypeMap maxDepth.
Definition EnvelopeType_valid (e : Z) : bool := valid_enum envelopeTypeMap e.

Definition cryptoKeyTypeMap : list Z := [0; 1; 2; 3; 256].
Definition CryptoKeyType_EncodeTo (e : Z) : option bytes := enum_EncodeTo cryptoKeyTypeMap e.
Definition CryptoKeyType_DecodeFrom (maxDepth : nat) : decode Z := enum_DecodeFrom cryptoKeyTypeMap maxDepth.
Definition CryptoKeyType_valid (e : Z) : bool := valid_enum cryptoKeyTypeMap e.

Definition MuxedAccountMed25519_EncodeTo (s : (Z * vec byte 32)) : option bytes :=
  let '(id_, ed25519) := s in
  write! Uint64_EncodeTo id_ in
  write! Uint256_EncodeTo ed25519 in
  written.
Definition MuxedAccountMed25519_DecodeFrom (maxDepth : nat) : decode (Z * vec byte 32) := nested maxDepth (fun maxDepth =>
  read! id_ := Uint64_DecodeFrom maxDepth in
  read! ed25519 := Uint256_DecodeFrom maxDepth in
  ret (id_, ed25519)).
Definition MuxedAccountMed25519_valid (s : (Z * vec byte 32)) : bool :=
  let '(id_, ed25519) := s in
  Uint64_valid id_ && Uint256_valid ed25519.

Definition MuxedAccount_EncodeTo (u : MuxedAccount_) : option bytes :=
  match u with
  | KeyTypeEd25519 k => write! CryptoKeyType_EncodeTo 0 in write! Uint256_EncodeTo k in written
  | KeyTypeMuxedEd25519 i k => write! CryptoKeyType_EncodeTo 256 in write! MuxedAccountMed25519_EncodeTo (i, k) in written
  end.
Definition MuxedAccount_DecodeFrom (maxDepth : nat) : decode MuxedAccount_ := nested maxDepth (fun maxDepth =>
  read! type_ := CryptoKeyType_DecodeFrom maxDepth in
  if type_ =? 0 then tracked "Uint256" (read! k := Uint256_DecodeFrom maxDepth in ret (KeyTypeEd25519 k)) else
  if type_ =? 256 then tracked "MuxedAccountMed25519" (read! (i, k) := MuxedAccountMed25519_DecodeFrom maxDepth in ret (KeyTypeMuxedEd25519
      i k)) else
  invalid).
Definition MuxedAccount_valid (u : MuxedAccount_) : bool :=
  match u with
  | KeyTypeEd25519 k => Uint256_valid k
  | KeyTypeMuxedEd25519 i k => MuxedAccountMed25519_valid (i, k)
  end.

Definition operationTypeMap : list Z := [0; 1; 2; 3; 4; 5; 6; 7; 8; 9; 10; 11; 12; 13; 14; 15; 16; 17; 18; 19; 20; 21; 22; 23; 24; 25; 26].
Definition OperationType_EncodeTo (e : Z) : option bytes := enum_EncodeTo operationTypeMap e.
Definition OperationType_DecodeFrom (maxDepth : nat) : decode Z := enum_DecodeFrom operationTypeMap maxDepth.
Definition OperationType_valid (e : Z) : bool := valid_enum operationTypeMap e.

Definition CreateAccountOp_EncodeTo (s : (AccountId * Z)) : option bytes :=
  let '(destination, startingBalance) := s in
  write! AccountId_EncodeTo destination in
  write! Int64_EncodeTo startingBalance in
  written.
Definition CreateAccountOp_DecodeFrom (maxDepth : nat) : decode (AccountId * Z) := nested maxDepth (fun maxDepth =>
  read! destination := AccountId_DecodeFrom maxDepth in
  read! startingBalance := Int64_DecodeFrom maxDepth in
  ret (destination, startingBalance)).
Definition CreateAccountOp_valid (s : (AccountId * Z)) : bool :=
  let '(destination, startingBalance) := s in
  AccountId_valid destination && Int64_valid startingBalance.

Definition PaymentOp_EncodeTo (s : (MuxedAccount_ * Asset * Z)) : option bytes :=
  let '(destination, asset, amount) := s in
  write! MuxedAccount_EncodeTo destination in
  write! Asset_EncodeTo asset in
  write! Int64_EncodeTo amount in
  written.
Definition PaymentOp_DecodeFrom (maxDepth : nat) : decode (MuxedAccount_ * Asset * Z) := nested maxDepth (fun maxDepth =>
  read! destination := MuxedAccount_DecodeFrom maxDepth in
  read! asset := Asset_DecodeFrom maxDepth in
  read! amount := Int64_DecodeFrom maxDepth in
  ret (destination, asset, amount)).
Definition PaymentOp_valid (s : (MuxedAccount_ * Asset * Z)) : bool :=
  let '(destination, asset, amount) := s in
  MuxedAccount_valid destination && Asset_valid asset && Int64_valid amount.

Definition PathPaymentStrictReceiveOp_EncodeTo (s : (Asset * Z * MuxedAccount_ * Asset * Z * list Asset)) : option bytes :=
  let '(sendAsset, sendMax, destination, destAsset, destAmount, path) := s in
  write! Asset_EncodeTo sendAsset in
  write! Int64_EncodeTo sendMax in
  write! MuxedAccount_EncodeTo destination in
  write! Asset_EncodeTo destAsset in
  write! Int64_EncodeTo destAmount in
  write! slice_EncodeTo Asset_EncodeTo path in
  written.
Definition PathPaymentStrictReceiveOp_DecodeFrom (maxDepth : nat) : decode (Asset * Z * MuxedAccount_ * Asset * Z * list Asset) := nested
    maxDepth (fun maxDepth =>
  read! sendAsset := Asset_DecodeFrom maxDepth in
  read! sendMax := Int64_DecodeFrom maxDepth in
  read! destination := MuxedAccount_DecodeFrom maxDepth in
  read! destAsset := Asset_DecodeFrom maxDepth in
  read! destAmount := Int64_DecodeFrom maxDepth in
  read! path := slice_DecodeFrom "Asset" (Some 5) (Asset_DecodeFrom maxDepth) in
  ret (sendAsset, sendMax, destination, destAsset, destAmount, path)).
Definition PathPaymentStrictReceiveOp_valid (s : (Asset * Z * MuxedAccount_ * Asset * Z * list Asset)) : bool :=
  let '(sendAsset, sendMax, destination, destAsset, destAmount, path) := s in
  Asset_valid sendAsset && Int64_valid sendMax && MuxedAccount_valid destination && Asset_valid destAsset && Int64_valid destAmount &&
      valid_slice (Some 5) Asset_valid path.

Definition ManageSellOfferOp_EncodeTo (s : (Asset * Asset * Z * Price * Z)) : option bytes :=
  let '(selling, buying, amount, price, offerId) := s in
  write! Asset_EncodeTo selling in
  write! Asset_EncodeTo buying in
  write! Int64_EncodeTo amount in
  write! Price_EncodeTo price in
  write! Int64_EncodeTo offerId in
  written.
Definition ManageSellOfferOp_DecodeFrom (maxDepth : nat) : decode (Asset * Asset * Z * Price * Z) := nested maxDepth (fun maxDepth =>
  read! selling := Asset_DecodeFrom maxDepth in
  read! buying := Asset_DecodeFrom maxDepth in
  read! amount := Int64_DecodeFrom maxDepth in
  read! price := Price_DecodeFrom maxDepth in
  read! offerId := Int64_DecodeFrom maxDepth in
  ret (selling, buying, amount, price, offerId)).
Definition ManageSellOfferOp_valid (s : (Asset * Asset * Z * Price * Z)) : bool :=
  let '(selling, buying, amount, price, offerId) := s in
  Asset_valid selling && Asset_valid buying && Int64_valid amount && Price_valid price && Int64_valid offerId.

Definition CreatePassiveSellOfferOp_EncodeTo (s : (Asset * Asset * Z * Price)) : option bytes :=
  let '(selling, buying, amount, price) := s in
  write! Asset_EncodeTo selling in
  write! Asset_EncodeTo buying in
  write! Int64_EncodeTo amount in
  write! Price_EncodeTo price in
  written.
Definition CreatePassiveSellOfferOp_DecodeFrom (maxDepth : nat) : decode (Asset * Asset * Z * Price) := nested maxDepth (fun maxDepth =>
  read! selling := Asset_DecodeFrom maxDepth in
  read! buying := Asset_DecodeFrom maxDepth in
  read! amount := Int64_DecodeFrom maxDepth in
  read! price := Price_DecodeFrom maxDepth in
  ret (selling, buying, amount, price)).
Definition CreatePassiveSellOfferOp_valid (s : (Asset * Asset * Z * Price)) : bool :=
  let '(selling, buying, amount, price) := s in
  Asset_valid selling && Asset_valid buying && Int64_valid amount && Price_valid price.

Definition String32_EncodeTo (s : bytes) : option bytes := write! EncodeString s in written.
Definition String32_DecodeFrom (maxDepth : nat) : decode bytes := nested maxDepth (fun maxDepth =>
  read! s := DecodeString 32 in ret s).
Definition String32_valid (s : bytes) : bool := valid_size (size_limit 32) s.

Definition Signer_EncodeTo (s : XdrSigner) : option bytes :=
  let '(mkXdrSigner key_ weight) := s in
  write! SignerKey_EncodeTo key_ in
  write! Uint32_EncodeTo weight in
  written.
Definition Signer_DecodeFrom (maxDepth : nat) : decode XdrSigner := nested maxDepth (fun maxDepth =>
  read! key_ := SignerKey_DecodeFrom maxDepth in
  read! weight := Uint32_DecodeFrom maxDepth in
  ret (mkXdrSigner key_ weight)).
Definition Signer_valid (s : XdrSigner) : bool :=
  let '(mkXdrSigner key_ weight) := s in
  SignerKey_valid key_ && Uint32_valid weight.

Definition SetOptionsOp_EncodeTo (s : SetOptionsOp) : option bytes :=
  let '(mkSetOptionsOp inflationDest clearFlags setFlags masterWeight lowThreshold medThreshold highThreshold homeDomain signer) := s in
  write! pointer_EncodeTo AccountId_EncodeTo inflationDest in
  write! pointer_EncodeTo Uint32_EncodeTo clearFlags in
  write! pointer_EncodeTo Uint32_EncodeTo setFlags in
  write! pointer_EncodeTo Uint32_EncodeTo masterWeight in
  write! pointer_EncodeTo Uint32_EncodeTo lowThreshold in
  write! pointer_EncodeTo Uint32_EncodeTo medThreshold in
  write! pointer_EncodeTo Uint32_EncodeTo highThreshold in
  write! pointer_EncodeTo String32_EncodeTo homeDomain in
  write! pointer_EncodeTo Signer_EncodeTo signer in
  written.
Definition SetOptionsOp_DecodeFrom (maxDepth : nat) : decode SetOptionsOp := nested maxDepth (fun maxDepth =>
  read! inflationDest := pointer_DecodeFrom "AccountId" (AccountId_DecodeFrom maxDepth) in
  read! clearFlags := pointer_DecodeFrom "Uint32" (Uint32_DecodeFrom maxDepth) in
  read! setFlags := pointer_DecodeFrom "Uint32" (Uint32_DecodeFrom maxDepth) in
  read! masterWeight := pointer_DecodeFrom "Uint32" (Uint32_DecodeFrom maxDepth) in
  read! lowThreshold := pointer_DecodeFrom "Uint32" (Uint32_DecodeFrom maxDepth) in
  read! medThreshold := pointer_DecodeFrom "Uint32" (Uint32_DecodeFrom maxDepth) in
  read! highThreshold := pointer_DecodeFrom "Uint32" (Uint32_DecodeFrom maxDepth) in
  read! homeDomain := pointer_DecodeFrom "String32" (String32_DecodeFrom maxDepth) in
  read! signer := pointer_DecodeFrom "Signer" (Signer_DecodeFrom maxDepth) in
  ret (mkSetOptionsOp inflationDest clearFlags setFlags masterWeight lowThreshold medThreshold highThreshold homeDomain signer)).
Definition SetOptionsOp_valid (s : SetOptionsOp) : bool :=
  let '(mkSetOptionsOp inflationDest clearFlags setFlags masterWeight lowThreshold medThreshold highThreshold homeDomain signer) := s in
  valid_pointer AccountId_valid inflationDest && valid_pointer Uint32_valid clearFlags && valid_pointer Uint32_valid setFlags &&
      valid_pointer Uint32_valid masterWeight && valid_pointer Uint32_valid lowThreshold && valid_pointer Uint32_valid medThreshold &&
      valid_pointer Uint32_valid highThreshold && valid_pointer String32_valid homeDomain && valid_pointer Signer_valid signer.

Definition ChangeTrustOp_EncodeTo (s : (ChangeTrustAsset_ * Z)) : option bytes :=
  let '(line, limit) := s in
  write! ChangeTrustAsset_EncodeTo line in
  write! Int64_EncodeTo limit in
  written.
Definition ChangeTrustOp_DecodeFrom (maxDepth : nat) : decode (ChangeTrustAsset_ * Z) := nested maxDepth (fun maxDepth =>
  read! line := ChangeTrustAsset_DecodeFrom maxDepth in
  read! limit := Int64_DecodeFrom maxDepth in
  ret (line, limit)).
Definition ChangeTrustOp_valid (s : (ChangeTrustAsset_ * Z)) : bool :=
  let '(line, limit) := s in
  ChangeTrustAsset_valid line && Int64_valid limit.

Definition AllowTrustOp_EncodeTo (s : (AccountId * AssetCode * Z)) : option bytes :=
  let '(trustor, asset, authorize) := s in
  write! AccountId_EncodeTo trustor in
  write! AssetCode_EncodeTo asset in
  write! Uint32_EncodeTo authorize in
  written.
Definition AllowTrustOp_DecodeFrom (maxDepth : nat) : decode (AccountId * AssetCode * Z) := nested maxDepth (fun maxDepth =>
  read! trustor := AccountId_DecodeFrom maxDepth in
  read! asset := AssetCode_DecodeFrom maxDepth in
  read! authorize := Uint32_DecodeFrom maxDepth in
  ret (trustor, asset, authorize)).
Definition AllowTrustOp_valid (s : (AccountId * AssetCode * Z)) : bool :=
  let '(trustor, asset, authorize) := s in
  AccountId_valid trustor && AssetCode_valid asset && Uint32_valid authorize.

(** A slice, which may be nil. *)
Definition DataValue_EncodeTo (s : option bytes) : option bytes := write! EncodeOpaque (default [] s) in written.
Definition DataValue_DecodeFrom (maxDepth : nat) : decode (option bytes) := nested maxDepth (fun maxDepth =>
  read! s := DecodeOpaque 64 in ret (opaque_slice s)).
Definition DataValue_valid (s : option bytes) : bool :=
  match s with Some (x :: l) => valid_size (size_limit 64) (x :: l) | _ => false end.

Definition ManageDataOp_EncodeTo (s : (bytes * option (option bytes))) : option bytes :=
  let '(dataName, dataValue) := s in
  write! String64_EncodeTo dataName in
  write! pointer_EncodeTo DataValue_EncodeTo dataValue in
  written.
Definition ManageDataOp_DecodeFrom (maxDepth : nat) : decode (bytes * option (option bytes)) := nested maxDepth (fun maxDepth =>
  read! dataName := String64_DecodeFrom maxDepth in
  read! dataValue := pointer_DecodeFrom "DataValue" (DataValue_DecodeFrom maxDepth) in
  ret (dataName, dataValue)).
Definition ManageDataOp_valid (s : (bytes * option (option bytes))) : bool :=
  let '(dataName, dataValue) := s in
  String64_valid dataName && valid_pointer DataValue_valid dataValue.

Definition BumpSequenceOp_EncodeTo (s : Z) : option bytes :=
  let bumpTo := s in
  write! SequenceNumber_EncodeTo bumpTo in
  written.
Definition BumpSequenceOp_DecodeFrom (maxDepth : nat) : decode Z := nested maxDepth (fun maxDepth =>
  read! bumpTo := SequenceNumber_DecodeFrom maxDepth in
  ret bumpTo).
Definition BumpSequenceOp_valid (s : Z) : bool :=
  let bumpTo := s in
  SequenceNumber_valid bumpTo.

Definition ManageBuyOfferOp_EncodeTo (s : (Asset * Asset * Z * Price * Z)) : option bytes :=
  let '(selling, buying, buyAmount, price, offerId) := s in
  write! Asset_EncodeTo selling in
  write! Asset_EncodeTo buying in
  write! Int64_EncodeTo buyAmount in
  write! Price_EncodeTo price in
  write! Int64_EncodeTo offerId in
  written.
Definition ManageBuyOfferOp_DecodeFrom (maxDepth : nat) : decode (Asset * Asset * Z * Price * Z) := nested maxDepth (fun maxDepth =>
  read! selling := Asset_DecodeFrom maxDepth in
  read! buying := Asset_DecodeFrom maxDepth in
  read! buyAmount := Int64_DecodeFrom maxDepth in
  read! price := Price_DecodeFrom maxDepth in
  read! offerId := Int64_DecodeFrom maxDepth in
  ret (selling, buying, buyAmount, price, offerId)).
Definition ManageBuyOfferOp_valid (s : (Asset * Asset * Z * Price * Z)) : bool :=
  let '(selling, buying, buyAmount, price, offerId) := s in
  Asset_valid selling && Asset_valid buying && Int64_valid buyAmount && Price_valid price && Int64_valid offerId.

Definition PathPaymentStrictSendOp_EncodeTo (s : (Asset * Z * MuxedAccount_ * Asset * Z * list Asset)) : option bytes :=
  let '(sendAsset, sendAmount, destination, destAsset, destMin, path) := s in
  write! Asset_EncodeTo sendAsset in
  write! Int64_EncodeTo sendAmount in
  write! MuxedAccount_EncodeTo destination in
  write! Asset_EncodeTo destAsset in
  write! Int64_EncodeTo destMin in
  write! slice_EncodeTo Asset_EncodeTo path in
  written.
Definition PathPaymentStrictSendOp_DecodeFrom (maxDepth : nat) : decode (Asset * Z * MuxedAccount_ * Asset * Z * list Asset) := nested
    maxDepth (fun maxDepth =>
  read! sendAsset := Asset_DecodeFrom maxDepth in
  read! sendAmount := Int64_DecodeFrom maxDepth in
  read! destination := MuxedAccount_DecodeFrom maxDepth in
  read! destAsset := Asset_DecodeFrom maxDepth in
  read! destMin := Int64_DecodeFrom maxDepth in
  read! path := slice_DecodeFrom "Asset" (Some 5) (Asset_DecodeFrom maxDepth) in
  ret (sendAsset, sendAmount, destination, destAsset, destMin, path)).
Definition PathPaymentStrictSendOp_valid (s : (Asset * Z * MuxedAccount_ * Asset * Z * list Asset)) : bool :=
  let '(sendAsset, sendAmount, destination, destAsset, destMin, path) := s in
  Asset_valid sendAsset && Int64_valid sendAmount && MuxedAccount_valid destination && Asset_valid destAsset && Int64_valid destMin &&
      valid_slice (Some 5) Asset_valid path.

Definition CreateClaimableBalanceOp_EncodeTo (s : (Asset * Z * list XdrClaimant)) : option bytes :=
  let '(asset, amount, claimants) := s in
  write! Asset_EncodeTo asset in
  write! Int64_EncodeTo amount in
  write! slice_EncodeTo Claimant_EncodeTo claimants in
  written.
Definition CreateClaimableBalanceOp_DecodeFrom (maxDepth : nat) : decode (Asset * Z * list XdrClaimant) := nested maxDepth (fun maxDepth =>
  read! asset := Asset_DecodeFrom maxDepth in
  read! amount := Int64_DecodeFrom maxDepth in
  read! claimants := slice_DecodeFrom "Claimant" (Some 10) (Claimant_DecodeFrom maxDepth) in
  ret (asset, amount, claimants)).
Definition CreateClaimableBalanceOp_valid (s : (Asset * Z * list XdrClaimant)) : bool :=
  let '(asset, amount, claimants) := s in
  Asset_valid asset && Int64_valid amount && valid_slice (Some 10) Claimant_valid claimants.

Definition ClaimClaimableBalanceOp_EncodeTo (s : ClaimableBalanceId) : option bytes :=
  let balanceId := s in
  write! ClaimableBalanceId_EncodeTo balanceId in
  written.
Definition ClaimClaimableBalanceOp_DecodeFrom (maxDepth : nat) : decode ClaimableBalanceId := nested maxDepth (fun maxDepth =>
  read! balanceId := ClaimableBalanceId_DecodeFrom maxDepth in
  ret balanceId).
Definition ClaimClaimableBalanceOp_valid (s : ClaimableBalanceId) : bool :=
  let balanceId := s in
  ClaimableBalanceId_valid balanceId.

Definition BeginSponsoringFutureReservesOp_EncodeTo (s : AccountId) : option bytes :=
  let sponsoredId := s in
  write! AccountId_EncodeTo sponsoredId in
  written.
Definition BeginSponsoringFutureReservesOp_DecodeFrom (maxDepth : nat) : decode AccountId := nested maxDepth (fun maxDepth =>
  read! sponsoredId := AccountId_DecodeFrom maxDepth in
  ret sponsoredId).
Definition BeginSponsoringFutureReservesOp_valid (s : AccountId) : bool :=
  let sponsoredId := s in
  AccountId_valid sponsoredId.

Definition revokeSponsorshipTypeMap : list Z := [0; 1].
Definition RevokeSponsorshipType_EncodeTo (e : Z) : option bytes := enum_EncodeTo revokeSponsorshipTypeMap e.
Definition RevokeSponsorshipType_DecodeFrom (maxDepth : nat) : decode Z := enum_DecodeFrom revokeSponsorshipTypeMap maxDepth.
Definition RevokeSponsorshipType_valid (e : Z) : bool := valid_enum revokeSponsorshipTypeMap e.

Definition RevokeSponsorshipOpSigner_EncodeTo (s : (AccountId * SignerKey)) : option bytes :=
  let '(accountId, signerKey) := s in
  write! AccountId_EncodeTo accountId in
  write! SignerKey_EncodeTo signerKey in
  written.
Definition RevokeSponsorshipOpSigner_DecodeFrom (maxDepth : nat) : decode (AccountId * SignerKey) := nested maxDepth (fun maxDepth =>
  read! accountId := AccountId_DecodeFrom maxDepth in
  read! signerKey := SignerKey_DecodeFrom maxDepth in
  ret (accountId, signerKey)).
Definition RevokeSponsorshipOpSigner_valid (s : (AccountId * SignerKey)) : bool :=
  let '(accountId, signerKey) := s in
  AccountId_valid accountId && SignerKey_valid signerKey.

Definition RevokeSponsorshipOp_EncodeTo (u : RevokeSponsorshipOp) : option bytes :=
  match u with
  | RevokeSponsorshipLedgerEntry k => write! RevokeSponsorshipType_EncodeTo 0 in write! LedgerKey_EncodeTo k in written
  | RevokeSponsorshipSigner a k => write! RevokeSponsorshipType_EncodeTo 1 in write! RevokeSponsorshipOpSigner_EncodeTo (a, k) in written
  end.
Definition RevokeSponsorshipOp_DecodeFrom (maxDepth : nat) : decode RevokeSponsorshipOp := nested maxDepth (fun maxDepth =>
  read! type_ := RevokeSponsorshipType_DecodeFrom maxDepth in
  if type_ =? 0 then tracked "LedgerKey" (read! k := LedgerKey_DecodeFrom maxDepth in ret (RevokeSponsorshipLedgerEntry k)) else
  if type_ =? 1 then tracked "RevokeSponsorshipOpSigner" (read! (a, k) := RevokeSponsorshipOpSigner_DecodeFrom maxDepth in ret
      (RevokeSponsorshipSigner a k)) else
  invalid).
Definition RevokeSponsorshipOp_valid (u : RevokeSponsorshipOp) : bool :=
  match u with
  | RevokeSponsorshipLedgerEntry k => LedgerKey_valid k
  | RevokeSponsorshipSigner a k => RevokeSponsorshipOpSigner_valid (a, k)
  end.

Definition ClawbackOp_EncodeTo (s : (Asset * MuxedAccount_ * Z)) : option bytes :=
  let '(asset, from, amount) := s in
  write! Asset_EncodeTo asset in
  write! MuxedAccount_EncodeTo from in
  write! Int64_EncodeTo amount in
  written.
Definition ClawbackOp_DecodeFrom (maxDepth : nat) : decode (Asset * MuxedAccount_ * Z) := nested maxDepth (fun maxDepth =>
  read! asset := Asset_DecodeFrom maxDepth in
  read! from := MuxedAccount_DecodeFrom maxDepth in
  read! amount := Int64_DecodeFrom maxDepth in
  ret (asset, from, amount)).
Definition ClawbackOp_valid (s : (Asset * MuxedAccount_ * Z)) : bool :=
  let '(asset, from, amount) := s in
  Asset_valid asset && MuxedAccount_valid from && Int64_valid amount.

Definition ClawbackClaimableBalanceOp_EncodeTo (s : ClaimableBalanceId) : option bytes :=
  let balanceId := s in
  write! ClaimableBalanceId_EncodeTo balanceId in
  written.
Definition ClawbackClaimableBalanceOp_DecodeFrom (maxDepth : nat) : decode ClaimableBalanceId := nested maxDepth (fun maxDepth =>
  read! balanceId := ClaimableBalanceId_DecodeFrom maxDepth in
  ret balanceId).
Definition ClawbackClaimableBalanceOp_valid (s : ClaimableBalanceId) : bool :=
  let balanceId := s in
  ClaimableBalanceId_valid balanceId.

Definition SetTrustLineFlagsOp_EncodeTo (s : (AccountId * Asset * Z * Z)) : option bytes :=
  let '(trustor, asset, clearFlags, setFlags) := s in
  write! AccountId_EncodeTo trustor in
  write! Asset_EncodeTo asset in
  write! Uint32_EncodeTo clearFlags in
  write! Uint32_EncodeTo setFlags in
  written.
Definition SetTrustLineFlagsOp_DecodeFrom (maxDepth : nat) : decode (AccountId * Asset * Z * Z) := nested maxDepth (fun maxDepth =>
  read! trustor := AccountId_DecodeFrom maxDepth in
  read! asset := Asset_DecodeFrom maxDepth in
  read! clearFlags := Uint32_DecodeFrom maxDepth in
  read! setFlags := Uint32_DecodeFrom maxDepth in
  ret (trustor, asset, clearFlags, setFlags)).
Definition SetTrustLineFlagsOp_valid (s : (AccountId * Asset * Z * Z)) : bool :=
  let '(trustor, asset, clearFlags, setFlags) := s in
  AccountId_valid trustor && Asset_valid asset && Uint32_valid clearFlags && Uint32_valid setFlags.

Definition LiquidityPoolDepositOp_EncodeTo (s : (PoolId * Z * Z * Price * Price)) : option bytes :=
  let '(liquidityPoolId, maxAmountA, maxAmountB, minPrice, maxPrice) := s in
  write! PoolId_EncodeTo liquidityPoolId in
  write! Int64_EncodeTo maxAmountA in
  write! Int64_EncodeTo maxAmountB in
  write! Price_EncodeTo minPrice in
  write! Price_EncodeTo maxPrice in
  written.
Definition LiquidityPoolDepositOp_DecodeFrom (maxDepth : nat) : decode (PoolId * Z * Z * Price * Price) := nested maxDepth (fun maxDepth =>
  read! liquidityPoolId := PoolId_DecodeFrom maxDepth in
  read! maxAmountA := Int64_DecodeFrom maxDepth in
  read! maxAmountB := Int64_DecodeFrom maxDepth in
  read! minPrice := Price_DecodeFrom maxDepth in
  read! maxPrice := Price_DecodeFrom maxDepth in
  ret (liquidityPoolId, maxAmountA, maxAmountB, minPrice, maxPrice)).
Definition LiquidityPoolDepositOp_valid (s : (PoolId * Z * Z * Price * Price)) : bool :=
  let '(liquidityPoolId, maxAmountA, maxAmountB, minPrice, maxPrice) := s in
  PoolId_valid liquidityPoolId && Int64_valid maxAmountA && Int64_valid maxAmountB && Price_valid minPrice && Price_valid maxPrice.

Definition LiquidityPoolWithdrawOp_EncodeTo (s : (PoolId * Z * Z * Z)) : option bytes :=
  let '(liquidityPoolId, amount, minAmountA, minAmountB) := s in
  write! PoolId_EncodeTo liquidityPoolId in
  write! Int64_EncodeTo amount in
  write! Int64_EncodeTo minAmountA in
  write! Int64_EncodeTo minAmountB in
  written.
Definition LiquidityPoolWithdrawOp_DecodeFrom (maxDepth : nat) : decode (PoolId * Z * Z * Z) := nested maxDepth (fun maxDepth =>
  read! liquidityPoolId := PoolId_DecodeFrom maxDepth in
  read! amount := Int64_DecodeFrom maxDepth in
  read! minAmountA := Int64_DecodeFrom maxDepth in
  read! minAmountB := Int64_DecodeFrom maxDepth in
  ret (liquidityPoolId, amount, minAmountA, minAmountB)).
Definition LiquidityPoolWithdrawOp_valid (s : (PoolId * Z * Z * Z)) : bool :=
  let '(liquidityPoolId, amount, minAmountA, minAmountB) := s in
  PoolId_valid liquidityPoolId && Int64_valid amount && Int64_valid minAmountA && Int64_valid minAmountB.

Definition InvokeHostFunctionOp_EncodeTo (s : (XdrHostFunction * list XdrSorobanAuthorizationEntry)) : option bytes :=
  let '(hostFunction, auth) := s in
  write! HostFunction_EncodeTo hostFunction in
  write! slice_EncodeTo SorobanAuthorizationEntry_EncodeTo auth in
  written.
Definition InvokeHostFunctionOp_DecodeFrom (maxDepth : nat) : decode (XdrHostFunction * list XdrSorobanAuthorizationEntry) := nested
    maxDepth (fun maxDepth =>
  read! hostFunction := HostFunction_DecodeFrom maxDepth in
  read! auth := slice_DecodeFrom "SorobanAuthorizationEntry" None (SorobanAuthorizationEntry_DecodeFrom maxDepth) in
  ret (hostFunction, auth)).
Definition InvokeHostFunctionOp_valid (s : (XdrHostFunction * list XdrSorobanAuthorizationEntry)) : bool :=
  let '(hostFunction, auth) := s in
  HostFunction_valid hostFunction && valid_slice None SorobanAuthorizationEntry_valid auth.

Definition ExtensionPoint_EncodeTo (u : unit) : option bytes :=
  match u with
  | tt => write! EncodeInt 0 in written
  end.
Definition ExtensionPoint_DecodeFrom (maxDepth : nat) : decode unit := nested maxDepth (fun maxDepth =>
  read! v := DecodeInt in
  if v =? 0 then ret tt else
  invalid).
Definition ExtensionPoint_valid (u : unit) : bool :=
  match u with
  | tt => true
  end.

Definition ExtendFootprintTtlOp_EncodeTo (s : Z) : option bytes :=
  let extendTo := s in
  write! ExtensionPoint_EncodeTo tt in
  write! Uint32_EncodeTo extendTo in
  written.
Definition ExtendFootprintTtlOp_DecodeFrom (maxDepth : nat) : decode Z := nested maxDepth (fun maxDepth =>
  read! _ := ExtensionPoint_DecodeFrom maxDepth in
  read! extendTo := Uint32_DecodeFrom maxDepth in
  ret extendTo).
Definition ExtendFootprintTtlOp_valid (s : Z) : bool :=
  let extendTo := s in
  Uint32_valid extendTo.

Definition RestoreFootprintOp_EncodeTo (s : unit) : option bytes :=
  let 'tt := s in
  write! ExtensionPoint_EncodeTo tt in
  written.
Definition RestoreFootprintOp_DecodeFrom (maxDepth : nat) : decode unit := nested maxDepth (fun maxDepth =>
  read! _ := ExtensionPoint_DecodeFrom maxDepth in
  ret tt).
Definition RestoreFootprintOp_valid (s : unit) : bool :=
  let 'tt := s in
  true.

Definition OperationBody_EncodeTo (u : XdrOperationBody) : option bytes :=
  match u with
  | OperationTypeCreateAccount d s => write! OperationType_EncodeTo 0 in write! CreateAccountOp_EncodeTo (d, s) in written
  | OperationTypePayment d a m => write! OperationType_EncodeTo 1 in write! PaymentOp_EncodeTo (d, a, m) in written
  | OperationTypePathPaymentStrictReceive sa sm d da dm p => write! OperationType_EncodeTo 2 in write! PathPaymentStrictReceiveOp_EncodeTo
      (sa, sm, d, da, dm, p) in written
  | OperationTypeManageSellOffer se bu a p o => write! OperationType_EncodeTo 3 in write! ManageSellOfferOp_EncodeTo (se, bu, a, p, o) in
      written
  | OperationTypeCreatePassiveSellOffer se bu a p => write! OperationType_EncodeTo 4 in write! CreatePassiveSellOfferOp_EncodeTo (se, bu,
      a, p) in written
  | OperationTypeSetOptions o => write! OperationType_EncodeTo 5 in write! SetOptionsOp_EncodeTo o in written
  | OperationTypeChangeTrust l li => write! OperationType_EncodeTo 6 in write! ChangeTrustOp_EncodeTo (l, li) in written
  | OperationTypeAllowTrust t c a => write! OperationType_EncodeTo 7 in write! AllowTrustOp_EncodeTo (t, c, a) in written
  | OperationTypeAccountMerge d => write! OperationType_EncodeTo 8 in write! MuxedAccount_EncodeTo d in written
  | OperationTypeInflation => write! OperationType_EncodeTo 9 in written
  | OperationTypeManageData d v => write! OperationType_EncodeTo 10 in write! ManageDataOp_EncodeTo (d, v) in written
  | OperationTypeBumpSequence t => write! OperationType_EncodeTo 11 in write! BumpSequenceOp_EncodeTo t in written
  | OperationTypeManageBuyOffer se bu a p o => write! OperationType_EncodeTo 12 in write! ManageBuyOfferOp_EncodeTo (se, bu, a, p, o) in
      written
  | OperationTypePathPaymentStrictSend sa sm d da dm p => write! OperationType_EncodeTo 13 in write! PathPaymentStrictSendOp_EncodeTo (sa,
      sm, d, da, dm, p) in written
  | OperationTypeCreateClaimableBalance a m c => write! OperationType_EncodeTo 14 in write! CreateClaimableBalanceOp_EncodeTo (a, m, c) in
      written
  | OperationTypeClaimClaimableBalance c => write! OperationType_EncodeTo 15 in write! ClaimClaimableBalanceOp_EncodeTo c in written
  | OperationTypeBeginSponsoringFutureReserves a => write! OperationType_EncodeTo 16 in write! BeginSponsoringFutureReservesOp_EncodeTo a
      in written
  | OperationTypeEndSponsoringFutureReserves => write! OperationType_EncodeTo 17 in written
  | OperationTypeRevokeSponsorship o => write! OperationType_EncodeTo 18 in write! RevokeSponsorshipOp_EncodeTo o in written
  | OperationTypeClawback a f m => write! OperationType_EncodeTo 19 in write! ClawbackOp_EncodeTo (a, f, m) in written
  | OperationTypeClawbackClaimableBalance c => write! OperationType_EncodeTo 20 in write! ClawbackClaimableBalanceOp_EncodeTo c in written
  | OperationTypeSetTrustLineFlags t a c s => write! OperationType_EncodeTo 21 in write! SetTrustLineFlagsOp_EncodeTo (t, a, c, s) in
      written
  | OperationTypeLiquidityPoolDeposit p a c mi ma => write! OperationType_EncodeTo 22 in write! LiquidityPoolDepositOp_EncodeTo (p, a, c,
      mi, ma) in written
  | OperationTypeLiquidityPoolWithdraw p m a c => write! OperationType_EncodeTo 23 in write! LiquidityPoolWithdrawOp_EncodeTo (p, m, a, c)
      in written
  | OperationTypeInvokeHostFunction f a => write! OperationType_EncodeTo 24 in write! InvokeHostFunctionOp_EncodeTo (f, a) in written
  | OperationTypeExtendFootprintTtl t => write! OperationType_EncodeTo 25 in write! ExtendFootprintTtlOp_EncodeTo t in written
  | OperationTypeRestoreFootprint => write! OperationType_EncodeTo 26 in write! RestoreFootprintOp_EncodeTo tt in written
  end.
Definition OperationBody_DecodeFrom (maxDepth : nat) : decode XdrOperationBody := nested maxDepth (fun maxDepth =>
  read! type_ := OperationType_DecodeFrom maxDepth in
  if type_ =? 0 then tracked "CreateAccountOp" (read! (d, s) := CreateAccountOp_DecodeFrom maxDepth in ret (OperationTypeCreateAccount d
      s)) else
  if type_ =? 1 then tracked "PaymentOp" (read! (d, a, m) := PaymentOp_DecodeFrom maxDepth in ret (OperationTypePayment d a m)) else
  if type_ =? 2 then tracked "PathPaymentStrictReceiveOp" (read! (sa, sm, d, da, dm, p) := PathPaymentStrictReceiveOp_DecodeFrom maxDepth
      in ret (OperationTypePathPaymentStrictReceive sa sm d da dm p)) else
  if type_ =? 3 then tracked "ManageSellOfferOp" (read! (se, bu, a, p, o) := ManageSellOfferOp_DecodeFrom maxDepth in ret
      (OperationTypeManageSellOffer se bu a p o)) else
  if type_ =? 4 then tracked "CreatePassiveSellOfferOp" (read! (se, bu, a, p) := CreatePassiveSellOfferOp_DecodeFrom maxDepth in ret
      (OperationTypeCreatePassiveSellOffer se bu a p)) else
  if type_ =? 5 then tracked "SetOptionsOp" (read! o := SetOptionsOp_DecodeFrom maxDepth in ret (OperationTypeSetOptions o)) else
  if type_ =? 6 then tracked "ChangeTrustOp" (read! (l, li) := ChangeTrustOp_DecodeFrom maxDepth in ret (OperationTypeChangeTrust l li))
      else
  if type_ =? 7 then tracked "AllowTrustOp" (read! (t, c, a) := AllowTrustOp_DecodeFrom maxDepth in ret (OperationTypeAllowTrust t c a))
      else
  if type_ =? 8 then tracked "MuxedAccount" (read! d := MuxedAccount_DecodeFrom maxDepth in ret (OperationTypeAccountMerge d)) else
  if type_ =? 9 then ret OperationTypeInflation else
  if type_ =? 10 then tracked "ManageDataOp" (read! (d, v) := ManageDataOp_DecodeFrom maxDepth in ret (OperationTypeManageData d v)) else
  if type_ =? 11 then tracked "BumpSequenceOp" (read! t := BumpSequenceOp_DecodeFrom maxDepth in ret (OperationTypeBumpSequence t)) else
  if type_ =? 12 then tracked "ManageBuyOfferOp" (read! (se, bu, a, p, o) := ManageBuyOfferOp_DecodeFrom maxDepth in ret
      (OperationTypeManageBuyOffer se bu a p o)) else
  if type_ =? 13 then tracked "PathPaymentStrictSendOp" (read! (sa, sm, d, da, dm, p) := PathPaymentStrictSendOp_DecodeFrom maxDepth in ret
      (OperationTypePathPaymentStrictSend sa sm d da dm p)) else
  if type_ =? 14 then tracked "CreateClaimableBalanceOp" (read! (a, m, c) := CreateClaimableBalanceOp_DecodeFrom maxDepth in ret
      (OperationTypeCreateClaimableBalance a m c)) else
  if type_ =? 15 then tracked "ClaimClaimableBalanceOp" (read! c := ClaimClaimableBalanceOp_DecodeFrom maxDepth in ret
      (OperationTypeClaimClaimableBalance c)) else
  if type_ =? 16 then tracked "BeginSponsoringFutureReservesOp" (read! a := BeginSponsoringFutureReservesOp_DecodeFrom maxDepth in ret
      (OperationTypeBeginSponsoringFutureReserves a)) else
  if type_ =? 17 then ret OperationTypeEndSponsoringFutureReserves else
  if type_ =? 18 then tracked "RevokeSponsorshipOp" (read! o := RevokeSponsorshipOp_DecodeFrom maxDepth in ret
      (OperationTypeRevokeSponsorship o)) else
  if type_ =? 19 then tracked "ClawbackOp" (read! (a, f, m) := ClawbackOp_DecodeFrom maxDepth in ret (OperationTypeClawback a f m)) else
  if type_ =? 20 then tracked "ClawbackClaimableBalanceOp" (read! c := ClawbackClaimableBalanceOp_DecodeFrom maxDepth in ret
      (OperationTypeClawbackClaimableBalance c)) else
  if type_ =? 21 then tracked "SetTrustLineFlagsOp" (read! (t, a, c, s) := SetTrustLineFlagsOp_DecodeFrom maxDepth in ret
      (OperationTypeSetTrustLineFlags t a c s)) else
  if type_ =? 22 then tracked "LiquidityPoolDepositOp" (read! (p, a, c, mi, ma) := LiquidityPoolDepositOp_DecodeFrom maxDepth in ret
      (OperationTypeLiquidityPoolDeposit p a c mi ma)) else
  if type_ =? 23 then tracked "LiquidityPoolWithdrawOp" (read! (p, m, a, c) := LiquidityPoolWithdrawOp_DecodeFrom maxDepth in ret
      (OperationTypeLiquidityPoolWithdraw p m a c)) else
  if type_ =? 24 then tracked "InvokeHostFunctionOp" (read! (f, a) := InvokeHostFunctionOp_DecodeFrom maxDepth in ret
      (OperationTypeInvokeHostFunction f a)) else
  if type_ =? 25 then tracked "ExtendFootprintTtlOp" (read! t := ExtendFootprintTtlOp_DecodeFrom maxDepth in ret
      (OperationTypeExtendFootprintTtl t)) else
  if type_ =? 26 then tracked "RestoreFootprintOp" (read! tt := RestoreFootprintOp_DecodeFrom maxDepth in ret
      OperationTypeRestoreFootprint) else
  invalid).
Definition OperationBody_valid (u : XdrOperationBody) : bool :=
  match u with
  | OperationTypeCreateAccount d s => CreateAccountOp_valid (d, s)
  | OperationTypePayment d a m => PaymentOp_valid (d, a, m)
  | OperationTypePathPaymentStrictReceive sa sm d da dm p => PathPaymentStrictReceiveOp_valid (sa, sm, d, da, dm, p)
  | OperationTypeManageSellOffer se bu a p o => ManageSellOfferOp_valid (se, bu, a, p, o)
  | OperationTypeCreatePassiveSellOffer se bu a p => CreatePassiveSellOfferOp_valid (se, bu, a, p)
  | OperationTypeSetOptions o => SetOptionsOp_valid o
  | OperationTypeChangeTrust l li => ChangeTrustOp_valid (l, li)
  | OperationTypeAllowTrust t c a => AllowTrustOp_valid (t, c, a)
  | OperationTypeAccountMerge d => MuxedAccount_valid d
  | OperationTypeInflation => true
  | OperationTypeManageData d v => ManageDataOp_valid (d, v)
  | OperationTypeBumpSequence t => BumpSequenceOp_valid t
  | OperationTypeManageBuyOffer se bu a p o => ManageBuyOfferOp_valid (se, bu, a, p, o)
  | OperationTypePathPaymentStrictSend sa sm d da dm p => PathPaymentStrictSendOp_valid (sa, sm, d, da, dm, p)
  | OperationTypeCreateClaimableBalance a m c => CreateClaimableBalanceOp_valid (a, m, c)
  | OperationTypeClaimClaimableBalance c => ClaimClaimableBalanceOp_valid c
  | OperationTypeBeginSponsoringFutureReserves a => BeginSponsoringFutureReservesOp_valid a
  | OperationTypeEndSponsoringFutureReserves => true
  | OperationTypeRevokeSponsorship o => RevokeSponsorshipOp_valid o
  | OperationTypeClawback a f m => ClawbackOp_valid (a, f, m)
  | OperationTypeClawbackClaimableBalance c => ClawbackClaimableBalanceOp_valid c
  | OperationTypeSetTrustLineFlags t a c s => SetTrustLineFlagsOp_valid (t, a, c, s)
  | OperationTypeLiquidityPoolDeposit p a c mi ma => LiquidityPoolDepositOp_valid (p, a, c, mi, ma)
  | OperationTypeLiquidityPoolWithdraw p m a c => LiquidityPoolWithdrawOp_valid (p, m, a, c)
  | OperationTypeInvokeHostFunction f a => InvokeHostFunctionOp_valid (f, a)
  | OperationTypeExtendFootprintTtl t => ExtendFootprintTtlOp_valid t
  | OperationTypeRestoreFootprint => RestoreFootprintOp_valid tt
  end.

Definition Operation_EncodeTo (s : XdrOperation) : option bytes :=
  let '(mkXdrOperation sourceAccount body) := s in
  write! pointer_EncodeTo MuxedAccount_EncodeTo sourceAccount in
  write! OperationBody_EncodeTo body in
  written.
Definition Operation_DecodeFrom (maxDepth : nat) : decode XdrOperation := nested maxDepth (fun maxDepth =>
  read! sourceAccount := pointer_DecodeFrom "MuxedAccount" (MuxedAccount_DecodeFrom maxDepth) in
  read! body := OperationBody_DecodeFrom maxDepth in
  ret (mkXdrOperation sourceAccount body)).
Definition Operation_valid (s : XdrOperation) : bool :=
  let '(mkXdrOperation sourceAccount body) := s in
  valid_pointer MuxedAccount_valid sourceAccount && OperationBody_valid body.

Definition TransactionV0Ext_EncodeTo (u : unit) : option bytes :=
  match u with
  | tt => write! EncodeInt 0 in written
  end.
Definition TransactionV0Ext_DecodeFrom (maxDepth : nat) : decode unit := nested maxDepth (fun maxDepth =>
  read! v := DecodeInt in
  if v =? 0 then ret tt else
  invalid).
Definition TransactionV0Ext_valid (u : unit) : bool :=
  match u with
  | tt => true
  end.

Definition TransactionV0_EncodeTo (s : XdrTransactionV0) : option bytes :=
  let '(mkXdrTransactionV0 sourceAccountEd25519 fee seqNum timeBounds memo operations) := s in
  write! Uint256_EncodeTo sourceAccountEd25519 in
  write! Uint32_EncodeTo fee in
  write! SequenceNumber_EncodeTo seqNum in
  write! pointer_EncodeTo TimeBounds_EncodeTo timeBounds in
  write! Memo_EncodeTo memo in
  write! slice_EncodeTo Operation_EncodeTo operations in
  write! TransactionV0Ext_EncodeTo tt in
  written.
Definition TransactionV0_DecodeFrom (maxDepth : nat) : decode XdrTransactionV0 := nested maxDepth (fun maxDepth =>
  read! sourceAccountEd25519 := Uint256_DecodeFrom maxDepth in
  read! fee := Uint32_DecodeFrom maxDepth in
  read! seqNum := SequenceNumber_DecodeFrom maxDepth in
  read! timeBounds := pointer_DecodeFrom "TimeBounds" (TimeBounds_DecodeFrom maxDepth) in
  read! memo := Memo_DecodeFrom maxDepth in
  read! operations := slice_DecodeFrom "Operation" (Some 100) (Operation_DecodeFrom maxDepth) in
  read! _ := TransactionV0Ext_DecodeFrom maxDepth in
  ret (mkXdrTransactionV0 sourceAccountEd25519 fee seqNum timeBounds memo operations)).
Definition TransactionV0_valid (s : XdrTransactionV0) : bool :=
  let '(mkXdrTransactionV0 sourceAccountEd25519 fee seqNum timeBounds memo operations) := s in
  Uint256_valid sourceAccountEd25519 && Uint32_valid fee && SequenceNumber_valid seqNum && valid_pointer TimeBounds_valid timeBounds &&
      Memo_valid memo && valid_slice (Some 100) Operation_valid operations.

Definition TransactionV0Envelope_EncodeTo (s : (XdrTransactionV0 * list DecoratedSignature)) : option bytes :=
  let '(tx, signatures) := s in
  write! TransactionV0_EncodeTo tx in
  write! slice_EncodeTo DecoratedSignature_EncodeTo signatures in
  written.
Definition TransactionV0Envelope_DecodeFrom (maxDepth : nat) : decode (XdrTransactionV0 * list DecoratedSignature) := nested maxDepth (fun
    maxDepth =>
  read! tx := TransactionV0_DecodeFrom maxDepth in
  read! signatures := slice_DecodeFrom "DecoratedSignature" (Some 20) (DecoratedSignature_DecodeFrom maxDepth) in
  ret (tx, signatures)).
Definition TransactionV0Envelope_valid (s : (XdrTransactionV0 * list DecoratedSignature)) : bool :=
  let '(tx, signatures) := s in
  TransactionV0_valid tx && valid_slice (Some 20) DecoratedSignature_valid signatures.

Definition SorobanResourcesExtV0_EncodeTo (s : (list Z)) : option bytes :=
  let archivedSorobanEntries := s in
  write! slice_EncodeTo Uint32_EncodeTo archivedSorobanEntries in
  written.
Definition SorobanResourcesExtV0_DecodeFrom (maxDepth : nat) : decode (list Z) := nested maxDepth (fun maxDepth =>
  read! archivedSorobanEntries := slice_DecodeFrom "Uint32" None (Uint32_DecodeFrom maxDepth) in
  ret archivedSorobanEntries).
Definition SorobanResourcesExtV0_valid (s : (list Z)) : bool :=
  let archivedSorobanEntries := s in
  valid_slice None Uint32_valid archivedSorobanEntries.

Definition SorobanTransactionDataExt_EncodeTo (u : (option (list Z))) : option bytes :=
  match u with
  | None => write! EncodeInt 0 in written
  | Some l => write! EncodeInt 1 in write! SorobanResourcesExtV0_EncodeTo l in written
  end.
Definition SorobanTransactionDataExt_DecodeFrom (maxDepth : nat) : decode (option (list Z)) := nested maxDepth (fun maxDepth =>
  read! v := DecodeInt in
  if v =? 0 then ret None else
  if v =? 1 then tracked "SorobanResourcesExtV0" (read! l := SorobanResourcesExtV0_DecodeFrom maxDepth in ret (Some l)) else
  invalid).
Definition SorobanTransactionDataExt_valid (u : (option (list Z))) : bool :=
  match u with
  | None => true
  | Some l => SorobanResourcesExtV0_valid l
  end.

Definition LedgerFootprint_EncodeTo (s : (list LedgerKey * list LedgerKey)) : option bytes :=
  let '(readOnly, readWrite) := s in
  write! slice_EncodeTo LedgerKey_EncodeTo readOnly in
  write! slice_EncodeTo LedgerKey_EncodeTo readWrite in
  written.
Definition LedgerFootprint_DecodeFrom (maxDepth : nat) : decode (list LedgerKey * list LedgerKey) := nested maxDepth (fun maxDepth =>
  read! readOnly := slice_DecodeFrom "LedgerKey" None (LedgerKey_DecodeFrom maxDepth) in
  read! readWrite := slice_DecodeFrom "LedgerKey" None (LedgerKey_DecodeFrom maxDepth) in
  ret (readOnly, readWrite)).
Definition LedgerFootprint_valid (s : (list LedgerKey * list LedgerKey)) : bool :=
  let '(readOnly, readWrite) := s in
  valid_slice None LedgerKey_valid readOnly && valid_slice None LedgerKey_valid readWrite.

Definition SorobanResources_EncodeTo (s : (list LedgerKey * list LedgerKey * Z * Z * Z)) : option bytes :=
  let '(readOnly, readWrite, instructions, diskReadBytes, writeBytes) := s in
  write! LedgerFootprint_EncodeTo (readOnly, readWrite) in
  write! Uint32_EncodeTo instructions in
  write! Uint32_EncodeTo diskReadBytes in
  write! Uint32_EncodeTo writeBytes in
  written.
Definition SorobanResources_DecodeFrom (maxDepth : nat) : decode (list LedgerKey * list LedgerKey * Z * Z * Z) := nested maxDepth (fun
    maxDepth =>
  read! (readOnly, readWrite) := LedgerFootprint_DecodeFrom maxDepth in
  read! instructions := Uint32_DecodeFrom maxDepth in
  read! diskReadBytes := Uint32_DecodeFrom maxDepth in
  read! writeBytes := Uint32_DecodeFrom maxDepth in
  ret (readOnly, readWrite, instructions, diskReadBytes, writeBytes)).
Definition SorobanResources_valid (s : (list LedgerKey * list LedgerKey * Z * Z * Z)) : bool :=
  let '(readOnly, readWrite, instructions, diskReadBytes, writeBytes) := s in
  LedgerFootprint_valid (readOnly, readWrite) && Uint32_valid instructions && Uint32_valid diskReadBytes && Uint32_valid writeBytes.

Definition SorobanTransactionData_EncodeTo (s : SorobanData) : option bytes :=
  let '(mkSorobanData ext resourceFee instructions diskReadBytes writeBytes readOnly readWrite) := s in
  write! SorobanTransactionDataExt_EncodeTo ext in
  write! SorobanResources_EncodeTo (readOnly, readWrite, instructions, diskReadBytes, writeBytes) in
  write! Int64_EncodeTo resourceFee in
  written.
Definition SorobanTransactionData_DecodeFrom (maxDepth : nat) : decode SorobanData := nested maxDepth (fun maxDepth =>
  read! ext := SorobanTransactionDataExt_DecodeFrom maxDepth in
  read! (readOnly, readWrite, instructions, diskReadBytes, writeBytes) := SorobanResources_DecodeFrom maxDepth in
  read! resourceFee := Int64_DecodeFrom maxDepth in
  ret (mkSorobanData ext resourceFee instructions diskReadBytes writeBytes readOnly readWrite)).
Definition SorobanTransactionData_valid (s : SorobanData) : bool :=
  let '(mkSorobanData ext resourceFee instructions diskReadBytes writeBytes readOnly readWrite) := s in
  SorobanTransactionDataExt_valid ext && SorobanResources_valid (readOnly, readWrite, instructions, diskReadBytes, writeBytes) &&
      Int64_valid resourceFee.

Definition TransactionExt_EncodeTo (u : (option SorobanData)) : option bytes :=
  match u with
  | None => write! EncodeInt 0 in written
  | Some d => write! EncodeInt 1 in write! SorobanTransactionData_EncodeTo d in written
  end.
Definition TransactionExt_DecodeFrom (maxDepth : nat) : decode (option SorobanData) := nested maxDepth (fun maxDepth =>
  read! v := DecodeInt in
  if v =? 0 then ret None else
  if v =? 1 then tracked "SorobanTransactionData" (read! d := SorobanTransactionData_DecodeFrom maxDepth in ret (Some d)) else
  invalid).
Definition TransactionExt_valid (u : (option SorobanData)) : bool :=
  match u with
  | None => true
  | Some d => SorobanTransactionData_valid d
  end.

Definition Transaction_EncodeTo (s : XdrTransaction) : option bytes :=
  let '(mkXdrTransaction sourceAccount fee seqNum cond memo operations ext) := s in
  write! MuxedAccount_EncodeTo sourceAccount in
  write! Uint32_EncodeTo fee in
  write! SequenceNumber_EncodeTo seqNum in
  write! Preconditions_EncodeTo cond in
  write! Memo_EncodeTo memo in
  write! slice_EncodeTo Operation_EncodeTo operations in
  write! TransactionExt_EncodeTo ext in
  written.
Definition Transaction_DecodeFrom (maxDepth : nat) : decode XdrTransaction := nested maxDepth (fun maxDepth =>
  read! sourceAccount := MuxedAccount_DecodeFrom maxDepth in
  read! fee := Uint32_DecodeFrom maxDepth in
  read! seqNum := SequenceNumber_DecodeFrom maxDepth in
  read! cond := Preconditions_DecodeFrom maxDepth in
  read! memo := Memo_DecodeFrom maxDepth in
  read! operations := slice_DecodeFrom "Operation" (Some 100) (Operation_DecodeFrom maxDepth) in
  read! ext := TransactionExt_DecodeFrom maxDepth in
  ret (mkXdrTransaction sourceAccount fee seqNum cond memo operations ext)).
Definition Transaction_valid (s : XdrTransaction) : bool :=
  let '(mkXdrTransaction sourceAccount fee seqNum cond memo operations ext) := s in
  MuxedAccount_valid sourceAccount && Uint32_valid fee && SequenceNumber_valid seqNum && Preconditions_valid cond && Memo_valid memo &&
      valid_slice (Some 100) Operation_valid operations && TransactionExt_valid ext.

Definition TransactionV1Envelope_EncodeTo (s : XdrTransactionV1Envelope) : option bytes :=
  let '(mkV1Envelope tx signatures) := s in
  write! Transaction_EncodeTo tx in
  write! slice_EncodeTo DecoratedSignature_EncodeTo signatures in
  written.
Definition TransactionV1Envelope_DecodeFrom (maxDepth : nat) : decode XdrTransactionV1Envelope := nested maxDepth (fun maxDepth =>
  read! tx := Transaction_DecodeFrom maxDepth in
  read! signatures := slice_DecodeFrom "DecoratedSignature" (Some 20) (DecoratedSignature_DecodeFrom maxDepth) in
  ret (mkV1Envelope tx signatures)).
Definition TransactionV1Envelope_valid (s : XdrTransactionV1Envelope) : bool :=
  let '(mkV1Envelope tx signatures) := s in
  Transaction_valid tx && valid_slice (Some 20) DecoratedSignature_valid signatures.

Definition FeeBumpTransactionInnerTx_EncodeTo (u : (option XdrTransactionV1Envelope)) : option bytes :=
  match u with
  | Some v => write! EnvelopeType_EncodeTo 2 in write! TransactionV1Envelope_EncodeTo v in written
  | None => None
  end.
Definition FeeBumpTransactionInnerTx_DecodeFrom (maxDepth : nat) : decode (option XdrTransactionV1Envelope) := nested maxDepth (fun
    maxDepth =>
  read! type_ := EnvelopeType_DecodeFrom maxDepth in
  if type_ =? 2 then tracked "TransactionV1Envelope" (read! v := TransactionV1Envelope_DecodeFrom maxDepth in ret (Some v)) else
  invalid).
Definition FeeBumpTransactionInnerTx_valid (u : (option XdrTransactionV1Envelope)) : bool :=
  match u with
  | Some v => TransactionV1Envelope_valid v
  | None => false
  end.

Definition FeeBumpTransactionExt_EncodeTo (u : unit) : option bytes :=
  match u with
  | tt => write! EncodeInt 0 in written
  end.
Definition FeeBumpTransactionExt_DecodeFrom (maxDepth : nat) : decode unit := nested maxDepth (fun maxDepth =>
  read! v := DecodeInt in
  if v =? 0 then ret tt else
  invalid).
Definition FeeBumpTransactionExt_valid (u : unit) : bool :=
  match u with
  | tt => true
  end.

Definition FeeBumpTransaction_EncodeTo (s : (MuxedAccount_ * Z * option XdrTransactionV1Envelope)) : option bytes :=
  let '(feeSource, fee, innerTx) := s in
  write! MuxedAccount_EncodeTo feeSource in
  write! Int64_EncodeTo fee in
  write! FeeBumpTransactionInnerTx_EncodeTo innerTx in
  write! FeeBumpTransactionExt_EncodeTo tt in
  written.
Definition FeeBumpTransaction_DecodeFrom (maxDepth : nat) : decode (MuxedAccount_ * Z * option XdrTransactionV1Envelope) := nested maxDepth
    (fun maxDepth =>
  read! feeSource := MuxedAccount_DecodeFrom maxDepth in
  read! fee := Int64_DecodeFrom maxDepth in
  read! innerTx := FeeBumpTransactionInnerTx_DecodeFrom maxDepth in
  read! _ := FeeBumpTransactionExt_DecodeFrom maxDepth in
  ret (feeSource, fee, innerTx)).
Definition FeeBumpTransaction_valid (s : (MuxedAccount_ * Z * option XdrTransactionV1Envelope)) : bool :=
  let '(feeSource, fee, innerTx) := s in
  MuxedAccount_valid feeSource && Int64_valid fee && FeeBumpTransactionInnerTx_valid innerTx.

Definition FeeBumpTransactionEnvelope_EncodeTo (s : (MuxedAccount_ * Z * option XdrTransactionV1Envelope * list DecoratedSignature)) :
    option bytes :=
  let '(feeSource, fee, innerTx, signatures) := s in
  write! FeeBumpTransaction_EncodeTo (feeSource, fee, innerTx) in
  write! slice_EncodeTo DecoratedSignature_EncodeTo signatures in
  written.
Definition FeeBumpTransactionEnvelope_DecodeFrom (maxDepth : nat) : decode (MuxedAccount_ * Z * option XdrTransactionV1Envelope * list
    DecoratedSignature) := nested maxDepth (fun maxDepth =>
  read! (feeSource, fee, innerTx) := FeeBumpTransaction_DecodeFrom maxDepth in
  read! signatures := slice_DecodeFrom "DecoratedSignature" (Some 20) (DecoratedSignature_DecodeFrom maxDepth) in
  ret (feeSource, fee, innerTx, signatures)).
Definition FeeBumpTransactionEnvelope_valid (s : (MuxedAccount_ * Z * option XdrTransactionV1Envelope * list DecoratedSignature)) : bool :=
  let '(feeSource, fee, innerTx, signatures) := s in
  FeeBumpTransaction_valid (feeSource, fee, innerTx) && valid_slice (Some 20) DecoratedSignature_valid signatures.

Definition TransactionEnvelope_EncodeTo (u : XdrEnvelope) : option bytes :=
  match u with
  | XdrEnvelopeTxV0 t s => write! EnvelopeType_EncodeTo 0 in write! TransactionV0Envelope_EncodeTo (t, s) in written
  | XdrEnvelopeTx v => write! EnvelopeType_EncodeTo 2 in write! TransactionV1Envelope_EncodeTo v in written
  | XdrEnvelopeTxFeeBump f n i s => write! EnvelopeType_EncodeTo 5 in write! FeeBumpTransactionEnvelope_EncodeTo (f, n, i, s) in written
  end.
Definition TransactionEnvelope_DecodeFrom (maxDepth : nat) : decode XdrEnvelope := nested maxDepth (fun maxDepth =>
  read! type_ := EnvelopeType_DecodeFrom maxDepth in
  if type_ =? 0 then tracked "TransactionV0Envelope" (read! (t, s) := TransactionV0Envelope_DecodeFrom maxDepth in ret (XdrEnvelopeTxV0 t
      s)) else
  if type_ =? 2 then tracked "TransactionV1Envelope" (read! v := TransactionV1Envelope_DecodeFrom maxDepth in ret (XdrEnvelopeTx v)) else
  if type_ =? 5 then tracked "FeeBumpTransactionEnvelope" (read! (f, n, i, s) := FeeBumpTransactionEnvelope_DecodeFrom maxDepth in ret
      (XdrEnvelopeTxFeeBump f n i s)) else
  invalid).
Definition TransactionEnvelope_valid (u : XdrEnvelope) : bool :=
  match u with
  | XdrEnvelopeTxV0 t s => TransactionV0Envelope_valid (t, s)
  | XdrEnvelopeTx v => TransactionV1Envelope_valid v
  | XdrEnvelopeTxFeeBump f n i s => FeeBumpTransactionEnvelope_valid (f, n, i, s)
  end.
End Types.

(** ** Each type is read back *)
Section Laws.
Context {X : GoXdrCoder} {XL : GoXdrCoderLaws X} {N : Nesting}.

Lemma EnvelopeType_coded : coded 1 EnvelopeType_valid EnvelopeType_EncodeTo EnvelopeType_DecodeFrom.
Proof. by apply (enum_coded envelopeTypeMap). Qed.
#[local] Hint Resolve EnvelopeType_coded : xdr.
Lemma CryptoKeyType_coded : coded 1 CryptoKeyType_valid CryptoKeyType_EncodeTo CryptoKeyType_DecodeFrom.
Proof. by apply (enum_coded cryptoKeyTypeMap). Qed.
#[local] Hint Resolve CryptoKeyType_coded : xdr.
Lemma MuxedAccountMed25519_coded : coded 2 MuxedAccountMed25519_valid MuxedAccountMed25519_EncodeTo MuxedAccountMed25519_DecodeFrom.
Proof. xdr_record MuxedAccountMed25519_EncodeTo MuxedAccountMed25519_DecodeFrom MuxedAccountMed25519_valid. Qed.
#[local] Hint Resolve MuxedAccountMed25519_coded : xdr.
Lemma MuxedAccount_coded : coded 3 MuxedAccount_valid MuxedAccount_EncodeTo MuxedAccount_DecodeFrom.
Proof. xdr_union MuxedAccount_EncodeTo MuxedAccount_DecodeFrom MuxedAccount_valid. Qed.
#[local] Hint Resolve MuxedAccount_coded : xdr.
Lemma OperationType_coded : coded 1 OperationType_valid OperationType_EncodeTo OperationType_DecodeFrom.
Proof. by apply (enum_coded operationTypeMap). Qed.
#[local] Hint Resolve OperationType_coded : xdr.
Lemma CreateAccountOp_coded : coded 4 CreateAccountOp_valid CreateAccountOp_EncodeTo CreateAccountOp_DecodeFrom.
Proof. xdr_record CreateAccountOp_EncodeTo CreateAccountOp_DecodeFrom CreateAccountOp_valid. Qed.
#[local] Hint Resolve CreateAccountOp_coded : xdr.
Lemma PaymentOp_coded : coded 6 PaymentOp_valid PaymentOp_EncodeTo PaymentOp_DecodeFrom.
Proof. xdr_record PaymentOp_EncodeTo PaymentOp_DecodeFrom PaymentOp_valid. Qed.
#[local] Hint Resolve PaymentOp_coded : xdr.
Lemma PathPaymentStrictReceiveOp_coded : coded 6 PathPaymentStrictReceiveOp_valid PathPaymentStrictReceiveOp_EncodeTo
    PathPaymentStrictReceiveOp_DecodeFrom.
Proof. xdr_record PathPaymentStrictReceiveOp_EncodeTo PathPaymentStrictReceiveOp_DecodeFrom PathPaymentStrictReceiveOp_valid. Qed.
#[local] Hint Resolve PathPaymentStrictReceiveOp_coded : xdr.
Lemma ManageSellOfferOp_coded : coded 6 ManageSellOfferOp_valid ManageSellOfferOp_EncodeTo ManageSellOfferOp_DecodeFrom.
Proof. xdr_record ManageSellOfferOp_EncodeTo ManageSellOfferOp_DecodeFrom ManageSellOfferOp_valid. Qed.
#[local] Hint Resolve ManageSellOfferOp_coded : xdr.
Lemma CreatePassiveSellOfferOp_coded : coded 6 CreatePassiveSellOfferOp_valid CreatePassiveSellOfferOp_EncodeTo
    CreatePassiveSellOfferOp_DecodeFrom.
Proof. xdr_record CreatePassiveSellOfferOp_EncodeTo CreatePassiveSellOfferOp_DecodeFrom CreatePassiveSellOfferOp_valid. Qed.
#[local] Hint Resolve CreatePassiveSellOfferOp_coded : xdr.
Lemma String32_coded : coded 1 String32_valid String32_EncodeTo String32_DecodeFrom.
Proof. xdr_single String32_EncodeTo String32_DecodeFrom String32_valid. Qed.
#[local] Hint Resolve String32_coded : xdr.
Lemma Signer_coded : coded 4 Signer_valid Signer_EncodeTo Signer_DecodeFrom.
Proof. xdr_record Signer_EncodeTo Signer_DecodeFrom Signer_valid. Qed.
#[local] Hint Resolve Signer_coded : xdr.
Lemma SetOptionsOp_coded : coded 5 SetOptionsOp_valid SetOptionsOp_EncodeTo SetOptionsOp_DecodeFrom.
Proof. xdr_record SetOptionsOp_EncodeTo SetOptionsOp_DecodeFrom SetOptionsOp_valid. Qed.
#[local] Hint Resolve SetOptionsOp_coded : xdr.
Lemma ChangeTrustOp_coded : coded 9 ChangeTrustOp_valid ChangeTrustOp_EncodeTo ChangeTrustOp_DecodeFrom.
Proof. xdr_record ChangeTrustOp_EncodeTo ChangeTrustOp_DecodeFrom ChangeTrustOp_valid. Qed.
#[local] Hint Resolve ChangeTrustOp_coded : xdr.
Lemma AllowTrustOp_coded : coded 4 AllowTrustOp_valid AllowTrustOp_EncodeTo AllowTrustOp_DecodeFrom.
Proof. xdr_record AllowTrustOp_EncodeTo AllowTrustOp_DecodeFrom AllowTrustOp_valid. Qed.
#[local] Hint Resolve AllowTrustOp_coded : xdr.
Lemma DataValue_coded : coded 1 DataValue_valid DataValue_EncodeTo DataValue_DecodeFrom.
Proof.
  unfold DataValue_DecodeFrom. apply coded_nested; [lia|]. intros s n Hs _. destruct s as [[|x l]|]; [done| |done].
  unfold DataValue_valid in Hs. eapply writes_bind; [by apply (writes_opaque 64)|]. rewrite opaque_slice_bytes by done. apply writes_ret.
Qed.
#[local] Hint Resolve DataValue_coded : xdr.
Lemma ManageDataOp_coded : coded 2 ManageDataOp_valid ManageDataOp_EncodeTo ManageDataOp_DecodeFrom.
Proof. xdr_record ManageDataOp_EncodeTo ManageDataOp_DecodeFrom ManageDataOp_valid. Qed.
#[local] Hint Resolve ManageDataOp_coded : xdr.
Lemma BumpSequenceOp_coded : coded 3 BumpSequenceOp_valid BumpSequenceOp_EncodeTo BumpSequenceOp_DecodeFrom.
Proof. xdr_single BumpSequenceOp_EncodeTo BumpSequenceOp_DecodeFrom BumpSequenceOp_valid. Qed.
#[local] Hint Resolve BumpSequenceOp_coded : xdr.
Lemma ManageBuyOfferOp_coded : coded 6 ManageBuyOfferOp_valid ManageBuyOfferOp_EncodeTo ManageBuyOfferOp_DecodeFrom.
Proof. xdr_record ManageBuyOfferOp_EncodeTo ManageBuyOfferOp_DecodeFrom ManageBuyOfferOp_valid. Qed.
#[local] Hint Resolve ManageBuyOfferOp_coded : xdr.
Lemma PathPaymentStrictSendOp_coded : coded 6 PathPaymentStrictSendOp_valid PathPaymentStrictSendOp_EncodeTo
    PathPaymentStrictSendOp_DecodeFrom.
Proof. xdr_record PathPaymentStrictSendOp_EncodeTo PathPaymentStrictSendOp_DecodeFrom PathPaymentStrictSendOp_valid. Qed.
#[local] Hint Resolve PathPaymentStrictSendOp_coded : xdr.
Lemma CreateClaimableBalanceOp_coded : coded (4 * nesting + 6) CreateClaimableBalanceOp_valid CreateClaimableBalanceOp_EncodeTo
    CreateClaimableBalanceOp_DecodeFrom.
Proof. xdr_record CreateClaimableBalanceOp_EncodeTo CreateClaimableBalanceOp_DecodeFrom CreateClaimableBalanceOp_valid. Qed.
#[local] Hint Resolve CreateClaimableBalanceOp_coded : xdr.
Lemma ClaimClaimableBalanceOp_coded : coded 3 ClaimClaimableBalanceOp_valid ClaimClaimableBalanceOp_EncodeTo
    ClaimClaimableBalanceOp_DecodeFrom.
Proof. xdr_single ClaimClaimableBalanceOp_EncodeTo ClaimClaimableBalanceOp_DecodeFrom ClaimClaimableBalanceOp_valid. Qed.
#[local] Hint Resolve ClaimClaimableBalanceOp_coded : xdr.
Lemma BeginSponsoringFutureReservesOp_coded : coded 4 BeginSponsoringFutureReservesOp_valid BeginSponsoringFutureReservesOp_EncodeTo
    BeginSponsoringFutureReservesOp_DecodeFrom.
Proof. xdr_single BeginSponsoringFutureReservesOp_EncodeTo BeginSponsoringFutureReservesOp_DecodeFrom
    BeginSponsoringFutureReservesOp_valid. Qed.
#[local] Hint Resolve BeginSponsoringFutureReservesOp_coded : xdr.
Lemma RevokeSponsorshipType_coded : coded 1 RevokeSponsorshipType_valid RevokeSponsorshipType_EncodeTo RevokeSponsorshipType_DecodeFrom.
Proof. by apply (enum_coded revokeSponsorshipTypeMap). Qed.
#[local] Hint Resolve RevokeSponsorshipType_coded : xdr.
Lemma RevokeSponsorshipOpSigner_coded : coded 4 RevokeSponsorshipOpSigner_valid RevokeSponsorshipOpSigner_EncodeTo
    RevokeSponsorshipOpSigner_DecodeFrom.
Proof. xdr_record RevokeSponsorshipOpSigner_EncodeTo RevokeSponsorshipOpSigner_DecodeFrom RevokeSponsorshipOpSigner_valid. Qed.
#[local] Hint Resolve RevokeSponsorshipOpSigner_coded : xdr.
Lemma RevokeSponsorshipOp_coded : coded (4 * nesting + 11) RevokeSponsorshipOp_valid RevokeSponsorshipOp_EncodeTo
    RevokeSponsorshipOp_DecodeFrom.
Proof. xdr_union RevokeSponsorshipOp_EncodeTo RevokeSponsorshipOp_DecodeFrom RevokeSponsorshipOp_valid. Qed.
#[local] Hint Resolve RevokeSponsorshipOp_coded : xdr.
Lemma ClawbackOp_coded : coded 6 ClawbackOp_valid ClawbackOp_EncodeTo ClawbackOp_DecodeFrom.
Proof. xdr_record ClawbackOp_EncodeTo ClawbackOp_DecodeFrom ClawbackOp_valid. Qed.
#[local] Hint Resolve ClawbackOp_coded : xdr.
Lemma ClawbackClaimableBalanceOp_coded : coded 3 ClawbackClaimableBalanceOp_valid ClawbackClaimableBalanceOp_EncodeTo
    ClawbackClaimableBalanceOp_DecodeFrom.
Proof. xdr_single ClawbackClaimableBalanceOp_EncodeTo ClawbackClaimableBalanceOp_DecodeFrom ClawbackClaimableBalanceOp_valid. Qed.
#[local] Hint Resolve ClawbackClaimableBalanceOp_coded : xdr.
Lemma SetTrustLineFlagsOp_coded : coded 6 SetTrustLineFlagsOp_valid SetTrustLineFlagsOp_EncodeTo SetTrustLineFlagsOp_DecodeFrom.
Proof. xdr_record SetTrustLineFlagsOp_EncodeTo SetTrustLineFlagsOp_DecodeFrom SetTrustLineFlagsOp_valid. Qed.
#[local] Hint Resolve SetTrustLineFlagsOp_coded : xdr.
Lemma LiquidityPoolDepositOp_coded : coded 3 LiquidityPoolDepositOp_valid LiquidityPoolDepositOp_EncodeTo LiquidityPoolDepositOp_DecodeFrom.
Proof. xdr_record LiquidityPoolDepositOp_EncodeTo LiquidityPoolDepositOp_DecodeFrom LiquidityPoolDepositOp_valid. Qed.
#[local] Hint Resolve LiquidityPoolDepositOp_coded : xdr.
Lemma LiquidityPoolWithdrawOp_coded : coded 3 LiquidityPoolWithdrawOp_valid LiquidityPoolWithdrawOp_EncodeTo
    LiquidityPoolWithdrawOp_DecodeFrom.
Proof. xdr_record LiquidityPoolWithdrawOp_EncodeTo LiquidityPoolWithdrawOp_DecodeFrom LiquidityPoolWithdrawOp_valid. Qed.
#[local] Hint Resolve LiquidityPoolWithdrawOp_coded : xdr.
Lemma InvokeHostFunctionOp_coded : coded (5 * nesting + 13) InvokeHostFunctionOp_valid InvokeHostFunctionOp_EncodeTo
    InvokeHostFunctionOp_DecodeFrom.
Proof. xdr_record InvokeHostFunctionOp_EncodeTo InvokeHostFunctionOp_DecodeFrom InvokeHostFunctionOp_valid. Qed.
#[local] Hint Resolve InvokeHostFunctionOp_coded : xdr.
Lemma ExtensionPoint_coded : coded 1 ExtensionPoint_valid ExtensionPoint_EncodeTo ExtensionPoint_DecodeFrom.
Proof. xdr_union ExtensionPoint_EncodeTo ExtensionPoint_DecodeFrom ExtensionPoint_valid. Qed.
#[local] Hint Resolve ExtensionPoint_coded : xdr.
Lemma ExtendFootprintTtlOp_coded : coded 2 ExtendFootprintTtlOp_valid ExtendFootprintTtlOp_EncodeTo ExtendFootprintTtlOp_DecodeFrom.
Proof. xdr_single ExtendFootprintTtlOp_EncodeTo ExtendFootprintTtlOp_DecodeFrom ExtendFootprintTtlOp_valid. Qed.
#[local] Hint Resolve ExtendFootprintTtlOp_coded : xdr.
Lemma RestoreFootprintOp_coded : coded 2 RestoreFootprintOp_valid RestoreFootprintOp_EncodeTo RestoreFootprintOp_DecodeFrom.
Proof. xdr_record RestoreFootprintOp_EncodeTo RestoreFootprintOp_DecodeFrom RestoreFootprintOp_valid. Qed.
#[local] Hint Resolve RestoreFootprintOp_coded : xdr.
Lemma OperationBody_coded : coded (5 * nesting + 14) OperationBody_valid OperationBody_EncodeTo OperationBody_DecodeFrom.
Proof. xdr_union OperationBody_EncodeTo OperationBody_DecodeFrom OperationBody_valid. Qed.
#[local] Hint Resolve OperationBody_coded : xdr.
Lemma Operation_coded : coded (5 * nesting + 15) Operation_valid Operation_EncodeTo Operation_DecodeFrom.
Proof. xdr_record Operation_EncodeTo Operation_DecodeFrom Operation_valid. Qed.
#[local] Hint Resolve Operation_coded : xdr.
Lemma TransactionV0Ext_coded : coded 1 TransactionV0Ext_valid TransactionV0Ext_EncodeTo TransactionV0Ext_DecodeFrom.
Proof. xdr_union TransactionV0Ext_EncodeTo TransactionV0Ext_DecodeFrom TransactionV0Ext_valid. Qed.
#[local] Hint Resolve TransactionV0Ext_coded : xdr.
Lemma TransactionV0_coded : coded (5 * nesting + 16) TransactionV0_valid TransactionV0_EncodeTo TransactionV0_DecodeFrom.
Proof. xdr_record TransactionV0_EncodeTo TransactionV0_DecodeFrom TransactionV0_valid. Qed.
#[local] Hint Resolve TransactionV0_coded : xdr.
Lemma TransactionV0Envelope_coded : coded (5 * nesting + 17) TransactionV0Envelope_valid TransactionV0Envelope_EncodeTo
    TransactionV0Envelope_DecodeFrom.
Proof. xdr_record TransactionV0Envelope_EncodeTo TransactionV0Envelope_DecodeFrom TransactionV0Envelope_valid. Qed.
#[local] Hint Resolve TransactionV0Envelope_coded : xdr.
Lemma SorobanResourcesExtV0_coded : coded 2 SorobanResourcesExtV0_valid SorobanResourcesExtV0_EncodeTo SorobanResourcesExtV0_DecodeFrom.
Proof. xdr_single SorobanResourcesExtV0_EncodeTo SorobanResourcesExtV0_DecodeFrom SorobanResourcesExtV0_valid. Qed.
#[local] Hint Resolve SorobanResourcesExtV0_coded : xdr.
Lemma SorobanTransactionDataExt_coded : coded 3 SorobanTransactionDataExt_valid SorobanTransactionDataExt_EncodeTo
    SorobanTransactionDataExt_DecodeFrom.
Proof. xdr_union SorobanTransactionDataExt_EncodeTo SorobanTransactionDataExt_DecodeFrom SorobanTransactionDataExt_valid. Qed.
#[local] Hint Resolve SorobanTransactionDataExt_coded : xdr.
Lemma LedgerFootprint_coded : coded (4 * nesting + 11) LedgerFootprint_valid LedgerFootprint_EncodeTo LedgerFootprint_DecodeFrom.
Proof. xdr_record LedgerFootprint_EncodeTo LedgerFootprint_DecodeFrom LedgerFootprint_valid. Qed.
#[local] Hint Resolve LedgerFootprint_coded : xdr.
Lemma SorobanResources_coded : coded (4 * nesting + 12) SorobanResources_valid SorobanResources_EncodeTo SorobanResources_DecodeFrom.
Proof. xdr_record SorobanResources_EncodeTo SorobanResources_DecodeFrom SorobanResources_valid. Qed.
#[local] Hint Resolve SorobanResources_coded : xdr.
Lemma SorobanTransactionData_coded : coded (4 * nesting + 13) SorobanTransactionData_valid SorobanTransactionData_EncodeTo
    SorobanTransactionData_DecodeFrom.
Proof. xdr_record SorobanTransactionData_EncodeTo SorobanTransactionData_DecodeFrom SorobanTransactionData_valid. Qed.
#[local] Hint Resolve SorobanTransactionData_coded : xdr.
Lemma TransactionExt_coded : coded (4 * nesting + 14) TransactionExt_valid TransactionExt_EncodeTo TransactionExt_DecodeFrom.
Proof. xdr_union TransactionExt_EncodeTo TransactionExt_DecodeFrom TransactionExt_valid. Qed.
#[local] Hint Resolve TransactionExt_coded : xdr.
Lemma Transaction_coded : coded (5 * nesting + 16) Transaction_valid Transaction_EncodeTo Transaction_DecodeFrom.
Proof. xdr_record Transaction_EncodeTo Transaction_DecodeFrom Transaction_valid. Qed.
#[local] Hint Resolve Transaction_coded : xdr.
Lemma TransactionV1Envelope_coded : coded (5 * nesting + 17) TransactionV1Envelope_valid TransactionV1Envelope_EncodeTo
    TransactionV1Envelope_DecodeFrom.
Proof. xdr_record TransactionV1Envelope_EncodeTo TransactionV1Envelope_DecodeFrom TransactionV1Envelope_valid. Qed.
#[local] Hint Resolve TransactionV1Envelope_coded : xdr.
Lemma FeeBumpTransactionInnerTx_coded : coded (5 * nesting + 18) FeeBumpTransactionInnerTx_valid FeeBumpTransactionInnerTx_EncodeTo
    FeeBumpTransactionInnerTx_DecodeFrom.
Proof. xdr_union FeeBumpTransactionInnerTx_EncodeTo FeeBumpTransactionInnerTx_DecodeFrom FeeBumpTransactionInnerTx_valid. Qed.
#[local] Hint Resolve FeeBumpTransactionInnerTx_coded : xdr.
Lemma FeeBumpTransactionExt_coded : coded 1 FeeBumpTransactionExt_valid FeeBumpTransactionExt_EncodeTo FeeBumpTransactionExt_DecodeFrom.
Proof. xdr_union FeeBumpTransactionExt_EncodeTo FeeBumpTransactionExt_DecodeFrom FeeBumpTransactionExt_valid. Qed.
#[local] Hint Resolve FeeBumpTransactionExt_coded : xdr.
Lemma FeeBumpTransaction_coded : coded (5 * nesting + 19) FeeBumpTransaction_valid FeeBumpTransaction_EncodeTo
    FeeBumpTransaction_DecodeFrom.
Proof. xdr_record FeeBumpTransaction_EncodeTo FeeBumpTransaction_DecodeFrom FeeBumpTransaction_valid. Qed.
#[local] Hint Resolve FeeBumpTransaction_coded : xdr.
Lemma FeeBumpTransactionEnvelope_coded : coded (5 * nesting + 20) FeeBumpTransactionEnvelope_valid FeeBumpTransactionEnvelope_EncodeTo
    FeeBumpTransactionEnvelope_DecodeFrom.
Proof. xdr_record FeeBumpTransactionEnvelope_EncodeTo FeeBumpTransactionEnvelope_DecodeFrom FeeBumpTransactionEnvelope_valid. Qed.
#[local] Hint Resolve FeeBumpTransactionEnvelope_coded : xdr.
Lemma TransactionEnvelope_coded : coded (5 * nesting + 21) TransactionEnvelope_valid TransactionEnvelope_EncodeTo
    TransactionEnvelope_DecodeFrom.
Proof. xdr_union TransactionEnvelope_EncodeTo TransactionEnvelope_DecodeFrom TransactionEnvelope_valid. Qed.
#[local] Hint Resolve TransactionEnvelope_coded : xdr.
End Laws.
#[export] Hint Resolve
  EnvelopeType_coded CryptoKeyType_coded MuxedAccountMed25519_coded MuxedAccount_coded
  OperationType_coded CreateAccountOp_coded PaymentOp_coded PathPaymentStrictReceiveOp_coded
  ManageSellOfferOp_coded CreatePassiveSellOfferOp_coded String32_coded Signer_coded
  SetOptionsOp_coded ChangeTrustOp_coded AllowTrustOp_coded DataValue_coded
  ManageDataOp_coded BumpSequenceOp_coded ManageBuyOfferOp_coded PathPaymentStrictSendOp_coded
  CreateClaimableBalanceOp_coded ClaimClaimableBalanceOp_coded BeginSponsoringFutureReservesOp_coded RevokeSponsorshipType_coded
  RevokeSponsorshipOpSigner_coded RevokeSponsorshipOp_coded ClawbackOp_coded ClawbackClaimableBalanceOp_coded
  SetTrustLineFlagsOp_coded LiquidityPoolDepositOp_coded LiquidityPoolWithdrawOp_coded InvokeHostFunctionOp_coded
  ExtensionPoint_coded ExtendFootprintTtlOp_coded RestoreFootprintOp_coded OperationBody_coded
  Operation_coded TransactionV0Ext_coded TransactionV0_coded TransactionV0Envelope_coded
  SorobanResourcesExtV0_coded SorobanTransactionDataExt_coded LedgerFootprint_coded SorobanResources_coded
  SorobanTransactionData_coded TransactionExt_coded Transaction_coded TransactionV1Envelope_coded
  FeeBumpTransactionInnerTx_coded FeeBumpTransactionExt_coded FeeBumpTransaction_coded FeeBumpTransactionEnvelope_coded
  TransactionEnvelope_coded : xdr.
