(* ===== verification/XdrLedger.v ===== *)
(** * Encoded ledgers

    The types of src/xdr/xdr_generated.go that make up the meta of a ledger, in the way
    of [XdrTypes]: headers, upgrades, transaction sets, entries and their changes,
    results, events and metas. *)
From Stdlib Require Import ZArith Lia.
From stdpp Require Import base list vector option.
From S2P Require Import Prelude GoStd GoExt Price Encodings Strkey Asset LedgerEntries CloseMeta Accounts Envelopes.
From S2P Require Import Keypair TxnXdr XdrCodec XdrTypes XdrTransactions.
#[local] Open Scope Z_scope.
#[local] Open Scope go_scope.
#[local] Open Scope string_scope.

#[local] Existing Instances xdr_entries xdr_soroban.

Section Types.
Context {X : GoXdrCoder} {N : Nesting}.

Definition UpgradeType_EncodeTo (s : bytes) : option bytes := write! EncodeOpaque s in written.
Definition UpgradeType_DecodeFrom (maxDepth : nat) : decode bytes := nested maxDepth (fun maxDepth =>
  read! s := DecodeOpaque 128 in ret s).
Definition UpgradeType_valid (s : bytes) : bool := valid_size (size_limit 128) s.

Definition stellarValueTypeMap : list Z := [0; 1; 2; 3; 4].
Definition StellarValueType_EncodeTo (e : Z) : option bytes := enum_EncodeTo stellarValueTypeMap e.
Definition StellarValueType_DecodeFrom (maxDepth : nat) : decode Z := enum_DecodeFrom stellarValueTypeMap maxDepth.
Definition StellarValueType_valid (e : Z) : bool := valid_enum stellarValueTypeMap e.

Definition NodeId_EncodeTo (s : AccountId) : option bytes := write! PublicKey_EncodeTo s in written.
Definition NodeId_DecodeFrom (maxDepth : nat) : decode AccountId := nested maxDepth (fun maxDepth =>
  read! s := PublicKey_DecodeFrom maxDepth in ret s).
Definition NodeId_valid (s : AccountId) : bool := PublicKey_valid s.

Record XdrLedgerCloseValueSignature : Type := mkXdrLedgerCloseValueSignature {
  LedgerCloseValueSignature_NodeId : AccountId;
  LedgerCloseValueSignature_Signature : bytes
}.
Definition LedgerCloseValueSignature_EncodeTo (s : XdrLedgerCloseValueSignature) : option bytes :=
  let '(mkXdrLedgerCloseValueSignature nodeId signature) := s in
  write! NodeId_EncodeTo nodeId in
  write! Signature_EncodeTo signature in
  written.
Definition LedgerCloseValueSignature_DecodeFrom (maxDepth : nat) : decode XdrLedgerCloseValueSignature := nested maxDepth (fun maxDepth =>
  read! nodeId := NodeId_DecodeFrom maxDepth in
  read! signature := Signature_DecodeFrom maxDepth in
  ret (mkXdrLedgerCloseValueSignature nodeId signature)).
Definition LedgerCloseValueSignature_valid (s : XdrLedgerCloseValueSignature) : bool :=
  let '(mkXdrLedgerCloseValueSignature nodeId signature) := s in
  NodeId_valid nodeId && Signature_valid signature.

Record XdrStellarValueProposedValue : Type := mkXdrStellarValueProposedValue {
  StellarValueProposedValue_TxSetHash : vec byte 32;
  StellarValueProposedValue_PreviousLedgerHash : vec byte 32;
  StellarValueProposedValue_PreviousLedgerVersion : Z;
  StellarValueProposedValue_LcValueSignature : XdrLedgerCloseValueSignature
}.
Definition StellarValueProposedValue_EncodeTo (s : XdrStellarValueProposedValue) : option bytes :=
  let '(mkXdrStellarValueProposedValue txSetHash previousLedgerHash previousLedgerVersion lcValueSignature) := s in
  write! Hash_EncodeTo txSetHash in
  write! Hash_EncodeTo previousLedgerHash in
  write! Uint32_EncodeTo previousLedgerVersion in
  write! LedgerCloseValueSignature_EncodeTo lcValueSignature in
  written.
Definition StellarValueProposedValue_DecodeFrom (maxDepth : nat) : decode XdrStellarValueProposedValue := nested maxDepth (fun maxDepth =>
  read! txSetHash := Hash_DecodeFrom maxDepth in
  read! previousLedgerHash := Hash_DecodeFrom maxDepth in
  read! previousLedgerVersion := Uint32_DecodeFrom maxDepth in
  read! lcValueSignature := LedgerCloseValueSignature_DecodeFrom maxDepth in
  ret (mkXdrStellarValueProposedValue txSetHash previousLedgerHash previousLedgerVersion lcValueSignature)).
Definition StellarValueProposedValue_valid (s : XdrStellarValueProposedValue) : bool :=
  let '(mkXdrStellarValueProposedValue txSetHash previousLedgerHash previousLedgerVersion lcValueSignature) := s in
  Hash_valid txSetHash && Hash_valid previousLedgerHash && Uint32_valid previousLedgerVersion && LedgerCloseValueSignature_valid
      lcValueSignature.

Definition TimePointMs_EncodeTo (s : Z) : option bytes := write! Uint64_EncodeTo s in written.
Definition TimePointMs_DecodeFrom (maxDepth : nat) : decode Z := nested maxDepth (fun maxDepth =>
  read! s := Uint64_DecodeFrom maxDepth in ret s).
Definition TimePointMs_valid (s : Z) : bool := Uint64_valid s.

Record XdrStellarValueSignedMsValue : Type := mkXdrStellarValueSignedMsValue {
  StellarValueSignedMsValue_CloseTimeMs : Z;
  StellarValueSignedMsValue_LcValueSignature : XdrLedgerCloseValueSignature
}.
Definition StellarValueSignedMsValue_EncodeTo (s : XdrStellarValueSignedMsValue) : option bytes :=
  let '(mkXdrStellarValueSignedMsValue closeTimeMs lcValueSignature) := s in
  write! TimePointMs_EncodeTo closeTimeMs in
  write! LedgerCloseValueSignature_EncodeTo lcValueSignature in
  written.
Definition StellarValueSignedMsValue_DecodeFrom (maxDepth : nat) : decode XdrStellarValueSignedMsValue := nested maxDepth (fun maxDepth =>
  read! closeTimeMs := TimePointMs_DecodeFrom maxDepth in
  read! lcValueSignature := LedgerCloseValueSignature_DecodeFrom maxDepth in
  ret (mkXdrStellarValueSignedMsValue closeTimeMs lcValueSignature)).
Definition StellarValueSignedMsValue_valid (s : XdrStellarValueSignedMsValue) : bool :=
  let '(mkXdrStellarValueSignedMsValue closeTimeMs lcValueSignature) := s in
  TimePointMs_valid closeTimeMs && LedgerCloseValueSignature_valid lcValueSignature.

Record XdrStellarValueProposedMsValue : Type := mkXdrStellarValueProposedMsValue {
  StellarValueProposedMsValue_CloseTimeMs : Z;
  StellarValueProposedMsValue_TxSetHash : vec byte 32;
  StellarValueProposedMsValue_PreviousLedgerHash : vec byte 32;
  StellarValueProposedMsValue_PreviousLedgerVersion : Z;
  StellarValueProposedMsValue_LcValueSignature : XdrLedgerCloseValueSignature
}.
Definition StellarValueProposedMsValue_EncodeTo (s : XdrStellarValueProposedMsValue) : option bytes :=
  let '(mkXdrStellarValueProposedMsValue closeTimeMs txSetHash previousLedgerHash previousLedgerVersion lcValueSignature) := s in
  write! TimePointMs_EncodeTo closeTimeMs in
  write! Hash_EncodeTo txSetHash in
  write! Hash_EncodeTo previousLedgerHash in
  write! Uint32_EncodeTo previousLedgerVersion in
  write! LedgerCloseValueSignature_EncodeTo lcValueSignature in
  written.
Definition StellarValueProposedMsValue_DecodeFrom (maxDepth : nat) : decode XdrStellarValueProposedMsValue := nested maxDepth (fun maxDepth
    =>
  read! closeTimeMs := TimePointMs_DecodeFrom maxDepth in
  read! txSetHash := Hash_DecodeFrom maxDepth in
  read! previousLedgerHash := Hash_DecodeFrom maxDepth in
  read! previousLedgerVersion := Uint32_DecodeFrom maxDepth in
  read! lcValueSignature := LedgerCloseValueSignature_DecodeFrom maxDepth in
  ret (mkXdrStellarValueProposedMsValue closeTimeMs txSetHash previousLedgerHash previousLedgerVersion lcValueSignature)).
Definition StellarValueProposedMsValue_valid (s : XdrStellarValueProposedMsValue) : bool :=
  let '(mkXdrStellarValueProposedMsValue closeTimeMs txSetHash previousLedgerHash previousLedgerVersion lcValueSignature) := s in
  TimePointMs_valid closeTimeMs && Hash_valid txSetHash && Hash_valid previousLedgerHash && Uint32_valid previousLedgerVersion &&
      LedgerCloseValueSignature_valid lcValueSignature.

Inductive XdrStellarValueExt : Type :=
| StellarValueExt_StellarValueBasic
| StellarValueExt_StellarValueSigned (lcValueSignature : XdrLedgerCloseValueSignature)
| StellarValueExt_StellarValueEmptyTxSet (proposedValue : XdrStellarValueProposedValue)
| StellarValueExt_StellarValueSignedMs (signedMsValue : XdrStellarValueSignedMsValue)
| StellarValueExt_StellarValueEmptyTxSetMs (proposedMsValue : XdrStellarValueProposedMsValue).
Definition StellarValueExt_EncodeTo (u : XdrStellarValueExt) : option bytes :=
  match u with
  | StellarValueExt_StellarValueBasic => write! StellarValueType_EncodeTo 0 in written
  | StellarValueExt_StellarValueSigned lcValueSignature => write! StellarValueType_EncodeTo 1 in write! LedgerCloseValueSignature_EncodeTo
      lcValueSignature in written
  | StellarValueExt_StellarValueEmptyTxSet proposedValue => write! StellarValueType_EncodeTo 2 in write! StellarValueProposedValue_EncodeTo
      proposedValue in written
  | StellarValueExt_StellarValueSignedMs signedMsValue => write! StellarValueType_EncodeTo 3 in write! StellarValueSignedMsValue_EncodeTo
      signedMsValue in written
  | StellarValueExt_StellarValueEmptyTxSetMs proposedMsValue => write! StellarValueType_EncodeTo 4 in write!
      StellarValueProposedMsValue_EncodeTo proposedMsValue in written
  end.
Definition StellarValueExt_DecodeFrom (maxDepth : nat) : decode XdrStellarValueExt := nested maxDepth (fun maxDepth =>
  read! v := StellarValueType_DecodeFrom maxDepth in
  if v =? 0 then ret StellarValueExt_StellarValueBasic else
  if v =? 1 then tracked "LedgerCloseValueSignature" (read! lcValueSignature := LedgerCloseValueSignature_DecodeFrom maxDepth in ret
      (StellarValueExt_StellarValueSigned lcValueSignature)) else
  if v =? 2 then tracked "StellarValueProposedValue" (read! proposedValue := StellarValueProposedValue_DecodeFrom maxDepth in ret
      (StellarValueExt_StellarValueEmptyTxSet proposedValue)) else
  if v =? 3 then tracked "StellarValueSignedMsValue" (read! signedMsValue := StellarValueSignedMsValue_DecodeFrom maxDepth in ret
      (StellarValueExt_StellarValueSignedMs signedMsValue)) else
  if v =? 4 then tracked "StellarValueProposedMsValue" (read! proposedMsValue := StellarValueProposedMsValue_DecodeFrom maxDepth in ret
      (StellarValueExt_StellarValueEmptyTxSetMs proposedMsValue)) else
  invalid).
Definition StellarValueExt_valid (u : XdrStellarValueExt) : bool :=
  match u with
  | StellarValueExt_StellarValueBasic => true
  | StellarValueExt_StellarValueSigned lcValueSignature => LedgerCloseValueSignature_valid lcValueSignature
  | StellarValueExt_StellarValueEmptyTxSet proposedValue => StellarValueProposedValue_valid proposedValue
  | StellarValueExt_StellarValueSignedMs signedMsValue => StellarValueSignedMsValue_valid signedMsValue
  | StellarValueExt_StellarValueEmptyTxSetMs proposedMsValue => StellarValueProposedMsValue_valid proposedMsValue
  end.

Record XdrStellarValue : Type := mkXdrStellarValue {
  StellarValue_TxSetHash : vec byte 32;
  StellarValue_CloseTime : Z;
  StellarValue_Upgrades : list bytes;
  StellarValue_Ext : XdrStellarValueExt
}.
Definition StellarValue_EncodeTo (s : XdrStellarValue) : option bytes :=
  let '(mkXdrStellarValue txSetHash closeTime upgrades ext) := s in
  write! Hash_EncodeTo txSetHash in
  write! TimePoint_EncodeTo closeTime in
  write! slice_EncodeTo UpgradeType_EncodeTo upgrades in
  write! StellarValueExt_EncodeTo ext in
  written.
Definition StellarValue_DecodeFrom (maxDepth : nat) : decode XdrStellarValue := nested maxDepth (fun maxDepth =>
  read! txSetHash := Hash_DecodeFrom maxDepth in
  read! closeTime := TimePoint_DecodeFrom maxDepth in
  read! upgrades := slice_DecodeFrom "UpgradeType" (Some 6) (UpgradeType_DecodeFrom maxDepth) in
  read! ext := StellarValueExt_DecodeFrom maxDepth in
  ret (mkXdrStellarValue txSetHash closeTime upgrades ext)).
Definition StellarValue_valid (s : XdrStellarValue) : bool :=
  let '(mkXdrStellarValue txSetHash closeTime upgrades ext) := s in
  Hash_valid txSetHash && TimePoint_valid closeTime && valid_slice (Some 6) UpgradeType_valid upgrades && StellarValueExt_valid ext.

Definition LedgerHeaderExtensionV1Ext_EncodeTo (u : unit) : option bytes :=
  match u with
  | tt => write! EncodeInt 0 in written
  end.
Definition LedgerHeaderExtensionV1Ext_DecodeFrom (maxDepth : nat) : decode unit := nested maxDepth (fun maxDepth =>
  read! v := DecodeInt in
  if v =? 0 then ret tt else
  invalid).
Definition LedgerHeaderExtensionV1Ext_valid (u : unit) : bool :=
  match u with
  | tt => true
  end.

Record XdrLedgerHeaderExtensionV1 : Type := mkXdrLedgerHeaderExtensionV1 {
  LedgerHeaderExtensionV1_Flags : Z
}.
Definition LedgerHeaderExtensionV1_EncodeTo (s : XdrLedgerHeaderExtensionV1) : option bytes :=
  let '(mkXdrLedgerHeaderExtensionV1 flags) := s in
  write! Uint32_EncodeTo flags in
  write! LedgerHeaderExtensionV1Ext_EncodeTo tt in
  written.
Definition LedgerHeaderExtensionV1_DecodeFrom (maxDepth : nat) : decode XdrLedgerHeaderExtensionV1 := nested maxDepth (fun maxDepth =>
  read! flags := Uint32_DecodeFrom maxDepth in
  read! _ := LedgerHeaderExtensionV1Ext_DecodeFrom maxDepth in
  ret (mkXdrLedgerHeaderExtensionV1 flags)).
Definition LedgerHeaderExtensionV1_valid (s : XdrLedgerHeaderExtensionV1) : bool :=
  let '(mkXdrLedgerHeaderExtensionV1 flags) := s in
  Uint32_valid flags.

Inductive XdrLedgerHeaderExt : Type :=
| LedgerHeaderExt_0
| LedgerHeaderExt_1 (v1 : XdrLedgerHeaderExtensionV1).
Definition LedgerHeaderExt_EncodeTo (u : XdrLedgerHeaderExt) : option bytes :=
  match u with
  | LedgerHeaderExt_0 => write! EncodeInt 0 in written
  | LedgerHeaderExt_1 v1 => write! EncodeInt 1 in write! LedgerHeaderExtensionV1_EncodeTo v1 in written
  end.
Definition LedgerHeaderExt_DecodeFrom (maxDepth : nat) : decode XdrLedgerHeaderExt := nested maxDepth (fun maxDepth =>
  read! v := DecodeInt in
  if v =? 0 then ret LedgerHeaderExt_0 else
  if v =? 1 then tracked "LedgerHeaderExtensionV1" (read! v1 := LedgerHeaderExtensionV1_DecodeFrom maxDepth in ret (LedgerHeaderExt_1 v1))
      else
  invalid).
Definition LedgerHeaderExt_valid (u : XdrLedgerHeaderExt) : bool :=
  match u with
  | LedgerHeaderExt_0 => true
  | LedgerHeaderExt_1 v1 => LedgerHeaderExtensionV1_valid v1
  end.

Record XdrLedgerHeader : Type := mkXdrLedgerHeader {
  LedgerHeader_LedgerVersion : Z;
  LedgerHeader_PreviousLedgerHash : vec byte 32;
  LedgerHeader_ScpValue : XdrStellarValue;
  LedgerHeader_TxSetResultHash : vec byte 32;
  LedgerHeader_BucketListHash : vec byte 32;
  LedgerHeader_LedgerSeq : Z;
  LedgerHeader_TotalCoins : Z;
  LedgerHeader_FeePool : Z;
  LedgerHeader_InflationSeq : Z;
  LedgerHeader_IdPool : Z;
  LedgerHeader_BaseFee : Z;
  LedgerHeader_BaseReserve : Z;
  LedgerHeader_MaxTxSetSize : Z;
  LedgerHeader_SkipList : list (vec byte 32);
  LedgerHeader_Ext : XdrLedgerHeaderExt
}.
Definition LedgerHeader_EncodeTo (s : XdrLedgerHeader) : option bytes :=
  let '(mkXdrLedgerHeader ledgerVersion previousLedgerHash scpValue txSetResultHash bucketListHash ledgerSeq totalCoins feePool
      inflationSeq idPool baseFee baseReserve maxTxSetSize skipList ext) := s in
  write! Uint32_EncodeTo ledgerVersion in
  write! Hash_EncodeTo previousLedgerHash in
  write! StellarValue_EncodeTo scpValue in
  write! Hash_EncodeTo txSetResultHash in
  write! Hash_EncodeTo bucketListHash in
  write! Uint32_EncodeTo ledgerSeq in
  write! Int64_EncodeTo totalCoins in
  write! Int64_EncodeTo feePool in
  write! Uint32_EncodeTo inflationSeq in
  write! Uint64_EncodeTo idPool in
  write! Uint32_EncodeTo baseFee in
  write! Uint32_EncodeTo baseReserve in
  write! Uint32_EncodeTo maxTxSetSize in
  write! elements_EncodeTo Hash_EncodeTo skipList in
  write! LedgerHeaderExt_EncodeTo ext in
  written.
Definition LedgerHeader_DecodeFrom (maxDepth : nat) : decode XdrLedgerHeader := nested maxDepth (fun maxDepth =>
  read! ledgerVersion := Uint32_DecodeFrom maxDepth in
  read! previousLedgerHash := Hash_DecodeFrom maxDepth in
  read! scpValue := StellarValue_DecodeFrom maxDepth in
  read! txSetResultHash := Hash_DecodeFrom maxDepth in
  read! bucketListHash := Hash_DecodeFrom maxDepth in
  read! ledgerSeq := Uint32_DecodeFrom maxDepth in
  read! totalCoins := Int64_DecodeFrom maxDepth in
  read! feePool := Int64_DecodeFrom maxDepth in
  read! inflationSeq := Uint32_DecodeFrom maxDepth in
  read! idPool := Uint64_DecodeFrom maxDepth in
  read! baseFee := Uint32_DecodeFrom maxDepth in
  read! baseReserve := Uint32_DecodeFrom maxDepth in
  read! maxTxSetSize := Uint32_DecodeFrom maxDepth in
  read! skipList := array_DecodeFrom (Hash_DecodeFrom maxDepth) 4 in
  read! ext := LedgerHeaderExt_DecodeFrom maxDepth in
  ret (mkXdrLedgerHeader ledgerVersion previousLedgerHash scpValue txSetResultHash bucketListHash ledgerSeq totalCoins feePool inflationSeq
      idPool baseFee baseReserve maxTxSetSize skipList ext)).
Definition LedgerHeader_valid (s : XdrLedgerHeader) : bool :=
  let '(mkXdrLedgerHeader ledgerVersion previousLedgerHash scpValue txSetResultHash bucketListHash ledgerSeq totalCoins feePool
      inflationSeq idPool baseFee baseReserve maxTxSetSize skipList ext) := s in
  Uint32_valid ledgerVersion && Hash_valid previousLedgerHash && StellarValue_valid scpValue && Hash_valid txSetResultHash && Hash_valid
      bucketListHash && Uint32_valid ledgerSeq && Int64_valid totalCoins && Int64_valid feePool && Uint32_valid inflationSeq &&
      Uint64_valid idPool && Uint32_valid baseFee && Uint32_valid baseReserve && Uint32_valid maxTxSetSize && valid_array 4 Hash_valid
      skipList && LedgerHeaderExt_valid ext.

Definition LedgerHeaderHistoryEntryExt_EncodeTo (u : unit) : option bytes :=
  match u with
  | tt => write! EncodeInt 0 in written
  end.
Definition LedgerHeaderHistoryEntryExt_DecodeFrom (maxDepth : nat) : decode unit := nested maxDepth (fun maxDepth =>
  read! v := DecodeInt in
  if v =? 0 then ret tt else
  invalid).
Definition LedgerHeaderHistoryEntryExt_valid (u : unit) : bool :=
  match u with
  | tt => true
  end.

Record XdrLedgerHeaderHistoryEntry : Type := mkXdrLedgerHeaderHistoryEntry {
  LedgerHeaderHistoryEntry_Hash : vec byte 32;
  LedgerHeaderHistoryEntry_Header : XdrLedgerHeader
}.
Definition LedgerHeaderHistoryEntry_EncodeTo (s : XdrLedgerHeaderHistoryEntry) : option bytes :=
  let '(mkXdrLedgerHeaderHistoryEntry hash header) := s in
  write! Hash_EncodeTo hash in
  write! LedgerHeader_EncodeTo header in
  write! LedgerHeaderHistoryEntryExt_EncodeTo tt in
  written.
Definition LedgerHeaderHistoryEntry_DecodeFrom (maxDepth : nat) : decode XdrLedgerHeaderHistoryEntry := nested maxDepth (fun maxDepth =>
  read! hash := Hash_DecodeFrom maxDepth in
  read! header := LedgerHeader_DecodeFrom maxDepth in
  read! _ := LedgerHeaderHistoryEntryExt_DecodeFrom maxDepth in
  ret (mkXdrLedgerHeaderHistoryEntry hash header)).
Definition LedgerHeaderHistoryEntry_valid (s : XdrLedgerHeaderHistoryEntry) : bool :=
  let '(mkXdrLedgerHeaderHistoryEntry hash header) := s in
  Hash_valid hash && LedgerHeader_valid header.

Record XdrTransactionSet : Type := mkXdrTransactionSet {
  TransactionSet_PreviousLedgerHash : vec byte 32;
  TransactionSet_Txs : list XdrEnvelope
}.
Definition TransactionSet_EncodeTo (s : XdrTransactionSet) : option bytes :=
  let '(mkXdrTransactionSet previousLedgerHash txs) := s in
  write! Hash_EncodeTo previousLedgerHash in
  write! slice_EncodeTo TransactionEnvelope_EncodeTo txs in
  written.
Definition TransactionSet_DecodeFrom (maxDepth : nat) : decode XdrTransactionSet := nested maxDepth (fun maxDepth =>
  read! previousLedgerHash := Hash_DecodeFrom maxDepth in
  read! txs := slice_DecodeFrom "TransactionEnvelope" None (TransactionEnvelope_DecodeFrom maxDepth) in
  ret (mkXdrTransactionSet previousLedgerHash txs)).
Definition TransactionSet_valid (s : XdrTransactionSet) : bool :=
  let '(mkXdrTransactionSet previousLedgerHash txs) := s in
  Hash_valid previousLedgerHash && valid_slice None TransactionEnvelope_valid txs.

Definition transactionResultCodeMap : list Z := [1; 0; -1; -2; -3; -4; -5; -6; -7; -8; -9; -10; -11; -12; -13; -14; -15; -16; -17; -18].
Definition TransactionResultCode_EncodeTo (e : Z) : option bytes := enum_EncodeTo transactionResultCodeMap e.
Definition TransactionResultCode_DecodeFrom (maxDepth : nat) : decode Z := enum_DecodeFrom transactionResultCodeMap maxDepth.
Definition TransactionResultCode_valid (e : Z) : bool := valid_enum transactionResultCodeMap e.

Definition operationResultCodeMap : list Z := [0; -1; -2; -3; -4; -5; -6].
Definition OperationResultCode_EncodeTo (e : Z) : option bytes := enum_EncodeTo operationResultCodeMap e.
Definition OperationResultCode_DecodeFrom (maxDepth : nat) : decode Z := enum_DecodeFrom operationResultCodeMap maxDepth.
Definition OperationResultCode_valid (e : Z) : bool := valid_enum operationResultCodeMap e.

Definition createAccountResultCodeMap : list Z := [0; -1; -2; -3; -4].
Definition CreateAccountResultCode_EncodeTo (e : Z) : option bytes := enum_EncodeTo createAccountResultCodeMap e.
Definition CreateAccountResultCode_DecodeFrom (maxDepth : nat) : decode Z := enum_DecodeFrom createAccountResultCodeMap maxDepth.
Definition CreateAccountResultCode_valid (e : Z) : bool := valid_enum createAccountResultCodeMap e.

Inductive XdrCreateAccountResult : Type :=
| CreateAccountResult_CreateAccountSuccess
| CreateAccountResult_CreateAccountMalformed
| CreateAccountResult_CreateAccountUnderfunded
| CreateAccountResult_CreateAccountLowReserve
| CreateAccountResult_CreateAccountAlreadyExist.
Definition CreateAccountResult_EncodeTo (u : XdrCreateAccountResult) : option bytes :=
  match u with
  | CreateAccountResult_CreateAccountSuccess => write! CreateAccountResultCode_EncodeTo 0 in written
  | CreateAccountResult_CreateAccountMalformed => write! CreateAccountResultCode_EncodeTo (-1) in written
  | CreateAccountResult_CreateAccountUnderfunded => write! CreateAccountResultCode_EncodeTo (-2) in written
  | CreateAccountResult_CreateAccountLowReserve => write! CreateAccountResultCode_EncodeTo (-3) in written
  | CreateAccountResult_CreateAccountAlreadyExist => write! CreateAccountResultCode_EncodeTo (-4) in written
  end.
Definition CreateAccountResult_DecodeFrom (maxDepth : nat) : decode XdrCreateAccountResult := nested maxDepth (fun maxDepth =>
  read! code := CreateAccountResultCode_DecodeFrom maxDepth in
  if code =? 0 then ret CreateAccountResult_CreateAccountSuccess else
  if code =? (-1) then ret CreateAccountResult_CreateAccountMalformed else
  if code =? (-2) then ret CreateAccountResult_CreateAccountUnderfunded else
  if code =? (-3) then ret CreateAccountResult_CreateAccountLowReserve else
  if code =? (-4) then ret CreateAccountResult_CreateAccountAlreadyExist else
  invalid).
Definition CreateAccountResult_valid (u : XdrCreateAccountResult) : bool :=
  match u with
  | CreateAccountResult_CreateAccountSuccess => true
  | CreateAccountResult_CreateAccountMalformed => true
  | CreateAccountResult_CreateAccountUnderfunded => true
  | CreateAccountResult_CreateAccountLowReserve => true
  | CreateAccountResult_CreateAccountAlreadyExist => true
  end.

Definition paymentResultCodeMap : list Z := [0; -1; -2; -3; -4; -5; -6; -7; -8; -9].
Definition PaymentResultCode_EncodeTo (e : Z) : option bytes := enum_EncodeTo paymentResultCodeMap e.
Definition PaymentResultCode_DecodeFrom (maxDepth : nat) : decode Z := enum_DecodeFrom paymentResultCodeMap maxDepth.
Definition PaymentResultCode_valid (e : Z) : bool := valid_enum paymentResultCodeMap e.

Inductive XdrPaymentResult : Type :=
| PaymentResult_PaymentSuccess
| PaymentResult_PaymentMalformed
| PaymentResult_PaymentUnderfunded
| PaymentResult_PaymentSrcNoTrust
| PaymentResult_PaymentSrcNotAuthorized
| PaymentResult_PaymentNoDestination
| PaymentResult_PaymentNoTrust
| PaymentResult_PaymentNotAuthorized
| PaymentResult_PaymentLineFull
| PaymentResult_PaymentNoIssuer.
Definition PaymentResult_EncodeTo (u : XdrPaymentResult) : option bytes :=
  match u with
  | PaymentResult_PaymentSuccess => write! PaymentResultCode_EncodeTo 0 in written
  | PaymentResult_PaymentMalformed => write! PaymentResultCode_EncodeTo (-1) in written
  | PaymentResult_PaymentUnderfunded => write! PaymentResultCode_EncodeTo (-2) in written
  | PaymentResult_PaymentSrcNoTrust => write! PaymentResultCode_EncodeTo (-3) in written
  | PaymentResult_PaymentSrcNotAuthorized => write! PaymentResultCode_EncodeTo (-4) in written
  | PaymentResult_PaymentNoDestination => write! PaymentResultCode_EncodeTo (-5) in written
  | PaymentResult_PaymentNoTrust => write! PaymentResultCode_EncodeTo (-6) in written
  | PaymentResult_PaymentNotAuthorized => write! PaymentResultCode_EncodeTo (-7) in written
  | PaymentResult_PaymentLineFull => write! PaymentResultCode_EncodeTo (-8) in written
  | PaymentResult_PaymentNoIssuer => write! PaymentResultCode_EncodeTo (-9) in written
  end.
Definition PaymentResult_DecodeFrom (maxDepth : nat) : decode XdrPaymentResult := nested maxDepth (fun maxDepth =>
  read! code := PaymentResultCode_DecodeFrom maxDepth in
  if code =? 0 then ret PaymentResult_PaymentSuccess else
  if code =? (-1) then ret PaymentResult_PaymentMalformed else
  if code =? (-2) then ret PaymentResult_PaymentUnderfunded else
  if code =? (-3) then ret PaymentResult_PaymentSrcNoTrust else
  if code =? (-4) then ret PaymentResult_PaymentSrcNotAuthorized else
  if code =? (-5) then ret PaymentResult_PaymentNoDestination else
  if code =? (-6) then ret PaymentResult_PaymentNoTrust else
  if code =? (-7) then ret PaymentResult_PaymentNotAuthorized else
  if code =? (-8) then ret PaymentResult_PaymentLineFull else
  if code =? (-9) then ret PaymentResult_PaymentNoIssuer else
  invalid).
Definition PaymentResult_valid (u : XdrPaymentResult) : bool :=
  match u with
  | PaymentResult_PaymentSuccess => true
  | PaymentResult_PaymentMalformed => true
  | PaymentResult_PaymentUnderfunded => true
  | PaymentResult_PaymentSrcNoTrust => true
  | PaymentResult_PaymentSrcNotAuthorized => true
  | PaymentResult_PaymentNoDestination => true
  | PaymentResult_PaymentNoTrust => true
  | PaymentResult_PaymentNotAuthorized => true
  | PaymentResult_PaymentLineFull => true
  | PaymentResult_PaymentNoIssuer => true
  end.

Definition pathPaymentStrictReceiveResultCodeMap : list Z := [0; -1; -2; -3; -4; -5; -6; -7; -8; -9; -10; -11; -12].
Definition PathPaymentStrictReceiveResultCode_EncodeTo (e : Z) : option bytes := enum_EncodeTo pathPaymentStrictReceiveResultCodeMap e.
Definition PathPaymentStrictReceiveResultCode_DecodeFrom (maxDepth : nat) : decode Z := enum_DecodeFrom
    pathPaymentStrictReceiveResultCodeMap maxDepth.
Definition PathPaymentStrictReceiveResultCode_valid (e : Z) : bool := valid_enum pathPaymentStrictReceiveResultCodeMap e.

Definition claimAtomTypeMap : list Z := [0; 1; 2].
Definition ClaimAtomType_EncodeTo (e : Z) : option bytes := enum_EncodeTo claimAtomTypeMap e.
Definition ClaimAtomType_DecodeFrom (maxDepth : nat) : decode Z := enum_DecodeFrom claimAtomTypeMap maxDepth.
Definition ClaimAtomType_valid (e : Z) : bool := valid_enum claimAtomTypeMap e.

Record XdrClaimOfferAtomV0 : Type := mkXdrClaimOfferAtomV0 {
  ClaimOfferAtomV0_SellerEd25519 : vec byte 32;
  ClaimOfferAtomV0_OfferId : Z;
  ClaimOfferAtomV0_AssetSold : Asset;
  ClaimOfferAtomV0_AmountSold : Z;
  ClaimOfferAtomV0_AssetBought : Asset;
  ClaimOfferAtomV0_AmountBought : Z
}.
Definition ClaimOfferAtomV0_EncodeTo (s : XdrClaimOfferAtomV0) : option bytes :=
  let '(mkXdrClaimOfferAtomV0 sellerEd25519 offerId assetSold amountSold assetBought amountBought) := s in
  write! Uint256_EncodeTo sellerEd25519 in
  write! Int64_EncodeTo offerId in
  write! Asset_EncodeTo assetSold in
  write! Int64_EncodeTo amountSold in
  write! Asset_EncodeTo assetBought in
  write! Int64_EncodeTo amountBought in
  written.
Definition ClaimOfferAtomV0_DecodeFrom (maxDepth : nat) : decode XdrClaimOfferAtomV0 := nested maxDepth (fun maxDepth =>
  read! sellerEd25519 := Uint256_DecodeFrom maxDepth in
  read! offerId := Int64_DecodeFrom maxDepth in
  read! assetSold := Asset_DecodeFrom maxDepth in
  read! amountSold := Int64_DecodeFrom maxDepth in
  read! assetBought := Asset_DecodeFrom maxDepth in
  read! amountBought := Int64_DecodeFrom maxDepth in
  ret (mkXdrClaimOfferAtomV0 sellerEd25519 offerId assetSold amountSold assetBought amountBought)).
Definition ClaimOfferAtomV0_valid (s : XdrClaimOfferAtomV0) : bool :=
  let '(mkXdrClaimOfferAtomV0 sellerEd25519 offerId assetSold amountSold assetBought amountBought) := s in
  Uint256_valid sellerEd25519 && Int64_valid offerId && Asset_valid assetSold && Int64_valid amountSold && Asset_valid assetBought &&
      Int64_valid amountBought.

Record XdrClaimOfferAtom : Type := mkXdrClaimOfferAtom {
  ClaimOfferAtom_SellerId : AccountId;
  ClaimOfferAtom_OfferId : Z;
  ClaimOfferAtom_AssetSold : Asset;
  ClaimOfferAtom_AmountSold : Z;
  ClaimOfferAtom_AssetBought : Asset;
  ClaimOfferAtom_AmountBought : Z
}.
Definition ClaimOfferAtom_EncodeTo (s : XdrClaimOfferAtom) : option bytes :=
  let '(mkXdrClaimOfferAtom sellerId offerId assetSold amountSold assetBought amountBought) := s in
  write! AccountId_EncodeTo sellerId in
  write! Int64_EncodeTo offerId in
  write! Asset_EncodeTo assetSold in
  write! Int64_EncodeTo amountSold in
  write! Asset_EncodeTo assetBought in
  write! Int64_EncodeTo amountBought in
  written.
Definition ClaimOfferAtom_DecodeFrom (maxDepth : nat) : decode XdrClaimOfferAtom := nested maxDepth (fun maxDepth =>
  read! sellerId := AccountId_DecodeFrom maxDepth in
  read! offerId := Int64_DecodeFrom maxDepth in
  read! assetSold := Asset_DecodeFrom maxDepth in
  read! amountSold := Int64_DecodeFrom maxDepth in
  read! assetBought := Asset_DecodeFrom maxDepth in
  read! amountBought := Int64_DecodeFrom maxDepth in
  ret (mkXdrClaimOfferAtom sellerId offerId assetSold amountSold assetBought amountBought)).
Definition ClaimOfferAtom_valid (s : XdrClaimOfferAtom) : bool :=
  let '(mkXdrClaimOfferAtom sellerId offerId assetSold amountSold assetBought amountBought) := s in
  AccountId_valid sellerId && Int64_valid offerId && Asset_valid assetSold && Int64_valid amountSold && Asset_valid assetBought &&
      Int64_valid amountBought.

Record XdrClaimLiquidityAtom : Type := mkXdrClaimLiquidityAtom {
  ClaimLiquidityAtom_LiquidityPoolId : PoolId;
  ClaimLiquidityAtom_AssetSold : Asset;
  ClaimLiquidityAtom_AmountSold : Z;
  ClaimLiquidityAtom_AssetBought : Asset;
  ClaimLiquidityAtom_AmountBought : Z
}.
Definition ClaimLiquidityAtom_EncodeTo (s : XdrClaimLiquidityAtom) : option bytes :=
  let '(mkXdrClaimLiquidityAtom liquidityPoolId assetSold amountSold assetBought amountBought) := s in
  write! PoolId_EncodeTo liquidityPoolId in
  write! Asset_EncodeTo assetSold in
  write! Int64_EncodeTo amountSold in
  write! Asset_EncodeTo assetBought in
  write! Int64_EncodeTo amountBought in
  written.
Definition ClaimLiquidityAtom_DecodeFrom (maxDepth : nat) : decode XdrClaimLiquidityAtom := nested maxDepth (fun maxDepth =>
  read! liquidityPoolId := PoolId_DecodeFrom maxDepth in
  read! assetSold := Asset_DecodeFrom maxDepth in
  read! amountSold := Int64_DecodeFrom maxDepth in
  read! assetBought := Asset_DecodeFrom maxDepth in
  read! amountBought := Int64_DecodeFrom maxDepth in
  ret (mkXdrClaimLiquidityAtom liquidityPoolId assetSold amountSold assetBought amountBought)).
Definition ClaimLiquidityAtom_valid (s : XdrClaimLiquidityAtom) : bool :=
  let '(mkXdrClaimLiquidityAtom liquidityPoolId assetSold amountSold assetBought amountBought) := s in
  PoolId_valid liquidityPoolId && Asset_valid assetSold && Int64_valid amountSold && Asset_valid assetBought && Int64_valid amountBought.

Inductive XdrClaimAtom : Type :=
| ClaimAtom_ClaimAtomTypeV0 (v0 : XdrClaimOfferAtomV0)
| ClaimAtom_ClaimAtomTypeOrderBook (orderBook : XdrClaimOfferAtom)
| ClaimAtom_ClaimAtomTypeLiquidityPool (liquidityPool : XdrClaimLiquidityAtom).
Definition ClaimAtom_EncodeTo (u : XdrClaimAtom) : option bytes :=
  match u with
  | ClaimAtom_ClaimAtomTypeV0 v0 => write! ClaimAtomType_EncodeTo 0 in write! ClaimOfferAtomV0_EncodeTo v0 in written
  | ClaimAtom_ClaimAtomTypeOrderBook orderBook => write! ClaimAtomType_EncodeTo 1 in write! ClaimOfferAtom_EncodeTo orderBook in written
  | ClaimAtom_ClaimAtomTypeLiquidityPool liquidityPool => write! ClaimAtomType_EncodeTo 2 in write! ClaimLiquidityAtom_EncodeTo
      liquidityPool in written
  end.
Definition ClaimAtom_DecodeFrom (maxDepth : nat) : decode XdrClaimAtom := nested maxDepth (fun maxDepth =>
  read! type_ := ClaimAtomType_DecodeFrom maxDepth in
  if type_ =? 0 then tracked "ClaimOfferAtomV0" (read! v0 := ClaimOfferAtomV0_DecodeFrom maxDepth in ret (ClaimAtom_ClaimAtomTypeV0 v0))
      else
  if type_ =? 1 then tracked "ClaimOfferAtom" (read! orderBook := ClaimOfferAtom_DecodeFrom maxDepth in ret
      (ClaimAtom_ClaimAtomTypeOrderBook orderBook)) else
  if type_ =? 2 then tracked "ClaimLiquidityAtom" (read! liquidityPool := ClaimLiquidityAtom_DecodeFrom maxDepth in ret
      (ClaimAtom_ClaimAtomTypeLiquidityPool liquidityPool)) else
  invalid).
Definition ClaimAtom_valid (u : XdrClaimAtom) : bool :=
  match u with
  | ClaimAtom_ClaimAtomTypeV0 v0 => ClaimOfferAtomV0_valid v0
  | ClaimAtom_ClaimAtomTypeOrderBook orderBook => ClaimOfferAtom_valid orderBook
  | ClaimAtom_ClaimAtomTypeLiquidityPool liquidityPool => ClaimLiquidityAtom_valid liquidityPool
  end.

Record XdrSimplePaymentResult : Type := mkXdrSimplePaymentResult {
  SimplePaymentResult_Destination : AccountId;
  SimplePaymentResult_Asset : Asset;
  SimplePaymentResult_Amount : Z
}.
Definition SimplePaymentResult_EncodeTo (s : XdrSimplePaymentResult) : option bytes :=
  let '(mkXdrSimplePaymentResult destination asset amount) := s in
  write! AccountId_EncodeTo destination in
  write! Asset_EncodeTo asset in
  write! Int64_EncodeTo amount in
  written.
Definition SimplePaymentResult_DecodeFrom (maxDepth : nat) : decode XdrSimplePaymentResult := nested maxDepth (fun maxDepth =>
  read! destination := AccountId_DecodeFrom maxDepth in
  read! asset := Asset_DecodeFrom maxDepth in
  read! amount := Int64_DecodeFrom maxDepth in
  ret (mkXdrSimplePaymentResult destination asset amount)).
Definition SimplePaymentResult_valid (s : XdrSimplePaymentResult) : bool :=
  let '(mkXdrSimplePaymentResult destination asset amount) := s in
  AccountId_valid destination && Asset_valid asset && Int64_valid amount.

Record XdrPathPaymentStrictReceiveResultSuccess : Type := mkXdrPathPaymentStrictReceiveResultSuccess {
  PathPaymentStrictReceiveResultSuccess_Offers : list XdrClaimAtom;
  PathPaymentStrictReceiveResultSuccess_Last : XdrSimplePaymentResult
}.
Definition PathPaymentStrictReceiveResultSuccess_EncodeTo (s : XdrPathPaymentStrictReceiveResultSuccess) : option bytes :=
  let '(mkXdrPathPaymentStrictReceiveResultSuccess offers last) := s in
  write! slice_EncodeTo ClaimAtom_EncodeTo offers in
  write! SimplePaymentResult_EncodeTo last in
  written.
Definition PathPaymentStrictReceiveResultSuccess_DecodeFrom (maxDepth : nat) : decode XdrPathPaymentStrictReceiveResultSuccess := nested
    maxDepth (fun maxDepth =>
  read! offers := slice_DecodeFrom "ClaimAtom" None (ClaimAtom_DecodeFrom maxDepth) in
  read! last := SimplePaymentResult_DecodeFrom maxDepth in
  ret (mkXdrPathPaymentStrictReceiveResultSuccess offers last)).
Definition PathPaymentStrictReceiveResultSuccess_valid (s : XdrPathPaymentStrictReceiveResultSuccess) : bool :=
  let '(mkXdrPathPaymentStrictReceiveResultSuccess offers last) := s in
  valid_slice None ClaimAtom_valid offers && SimplePaymentResult_valid last.

Inductive XdrPathPaymentStrictReceiveResult : Type :=
| PathPaymentStrictReceiveResult_PathPaymentStrictReceiveSuccess (success : XdrPathPaymentStrictReceiveResultSuccess)
| PathPaymentStrictReceiveResult_PathPaymentStrictReceiveMalformed
| PathPaymentStrictReceiveResult_PathPaymentStrictReceiveUnderfunded
| PathPaymentStrictReceiveResult_PathPaymentStrictReceiveSrcNoTrust
| PathPaymentStrictReceiveResult_PathPaymentStrictReceiveSrcNotAuthorized
| PathPaymentStrictReceiveResult_PathPaymentStrictReceiveNoDestination
| PathPaymentStrictReceiveResult_PathPaymentStrictReceiveNoTrust
| PathPaymentStrictReceiveResult_PathPaymentStrictReceiveNotAuthorized
| PathPaymentStrictReceiveResult_PathPaymentStrictReceiveLineFull
| PathPaymentStrictReceiveResult_PathPaymentStrictReceiveNoIssuer (noIssuer : Asset)
| PathPaymentStrictReceiveResult_PathPaymentStrictReceiveTooFewOffers
| PathPaymentStrictReceiveResult_PathPaymentStrictReceiveOfferCrossSelf
| PathPaymentStrictReceiveResult_PathPaymentStrictReceiveOverSendmax.
Definition PathPaymentStrictReceiveResult_EncodeTo (u : XdrPathPaymentStrictReceiveResult) : option bytes :=
  match u with
  | PathPaymentStrictReceiveResult_PathPaymentStrictReceiveSuccess success => write! PathPaymentStrictReceiveResultCode_EncodeTo 0 in
      write! PathPaymentStrictReceiveResultSuccess_EncodeTo success in written
  | PathPaymentStrictReceiveResult_PathPaymentStrictReceiveMalformed => write! PathPaymentStrictReceiveResultCode_EncodeTo (-1) in written
  | PathPaymentStrictReceiveResult_PathPaymentStrictReceiveUnderfunded => write! PathPaymentStrictReceiveResultCode_EncodeTo (-2) in written
  | PathPaymentStrictReceiveResult_PathPaymentStrictReceiveSrcNoTrust => write! PathPaymentStrictReceiveResultCode_EncodeTo (-3) in written
  | PathPaymentStrictReceiveResult_PathPaymentStrictReceiveSrcNotAuthorized => write! PathPaymentStrictReceiveResultCode_EncodeTo (-4) in
      written
  | PathPaymentStrictReceiveResult_PathPaymentStrictReceiveNoDestination => write! PathPaymentStrictReceiveResultCode_EncodeTo (-5) in
      written
  | PathPaymentStrictReceiveResult_PathPaymentStrictReceiveNoTrust => write! PathPaymentStrictReceiveResultCode_EncodeTo (-6) in written
  | PathPaymentStrictReceiveResult_PathPaymentStrictReceiveNotAuthorized => write! PathPaymentStrictReceiveResultCode_EncodeTo (-7) in
      written
  | PathPaymentStrictReceiveResult_PathPaymentStrictReceiveLineFull => write! PathPaymentStrictReceiveResultCode_EncodeTo (-8) in written
  | PathPaymentStrictReceiveResult_PathPaymentStrictReceiveNoIssuer noIssuer => write! PathPaymentStrictReceiveResultCode_EncodeTo (-9) in
      write! Asset_EncodeTo noIssuer in written
  | PathPaymentStrictReceiveResult_PathPaymentStrictReceiveTooFewOffers => write! PathPaymentStrictReceiveResultCode_EncodeTo (-10) in
      written
  | PathPaymentStrictReceiveResult_PathPaymentStrictReceiveOfferCrossSelf => write! PathPaymentStrictReceiveResultCode_EncodeTo (-11) in
      written
  | PathPaymentStrictReceiveResult_PathPaymentStrictReceiveOverSendmax => write! PathPaymentStrictReceiveResultCode_EncodeTo (-12) in
      written
  end.
Definition PathPaymentStrictReceiveResult_DecodeFrom (maxDepth : nat) : decode XdrPathPaymentStrictReceiveResult := nested maxDepth (fun
    maxDepth =>
  read! code := PathPaymentStrictReceiveResultCode_DecodeFrom maxDepth in
  if code =? 0 then tracked "PathPaymentStrictReceiveResultSuccess" (read! success := PathPaymentStrictReceiveResultSuccess_DecodeFrom
      maxDepth in ret (PathPaymentStrictReceiveResult_PathPaymentStrictReceiveSuccess success)) else
  if code =? (-1) then ret PathPaymentStrictReceiveResult_PathPaymentStrictReceiveMalformed else
  if code =? (-2) then ret PathPaymentStrictReceiveResult_PathPaymentStrictReceiveUnderfunded else
  if code =? (-3) then ret PathPaymentStrictReceiveResult_PathPaymentStrictReceiveSrcNoTrust else
  if code =? (-4) then ret PathPaymentStrictReceiveResult_PathPaymentStrictReceiveSrcNotAuthorized else
  if code =? (-5) then ret PathPaymentStrictReceiveResult_PathPaymentStrictReceiveNoDestination else
  if code =? (-6) then ret PathPaymentStrictReceiveResult_PathPaymentStrictReceiveNoTrust else
  if code =? (-7) then ret PathPaymentStrictReceiveResult_PathPaymentStrictReceiveNotAuthorized else
  if code =? (-8) then ret PathPaymentStrictReceiveResult_PathPaymentStrictReceiveLineFull else
  if code =? (-9) then tracked "Asset" (read! noIssuer := Asset_DecodeFrom maxDepth in ret
      (PathPaymentStrictReceiveResult_PathPaymentStrictReceiveNoIssuer noIssuer)) else
  if code =? (-10) then ret PathPaymentStrictReceiveResult_PathPaymentStrictReceiveTooFewOffers else
  if code =? (-11) then ret PathPaymentStrictReceiveResult_PathPaymentStrictReceiveOfferCrossSelf else
  if code =? (-12) then ret PathPaymentStrictReceiveResult_PathPaymentStrictReceiveOverSendmax else
  invalid).
Definition PathPaymentStrictReceiveResult_valid (u : XdrPathPaymentStrictReceiveResult) : bool :=
  match u with
  | PathPaymentStrictReceiveResult_PathPaymentStrictReceiveSuccess success => PathPaymentStrictReceiveResultSuccess_valid success
  | PathPaymentStrictReceiveResult_PathPaymentStrictReceiveMalformed => true
  | PathPaymentStrictReceiveResult_PathPaymentStrictReceiveUnderfunded => true
  | PathPaymentStrictReceiveResult_PathPaymentStrictReceiveSrcNoTrust => true
  | PathPaymentStrictReceiveResult_PathPaymentStrictReceiveSrcNotAuthorized => true
  | PathPaymentStrictReceiveResult_PathPaymentStrictReceiveNoDestination => true
  | PathPaymentStrictReceiveResult_PathPaymentStrictReceiveNoTrust => true
  | PathPaymentStrictReceiveResult_PathPaymentStrictReceiveNotAuthorized => true
  | PathPaymentStrictReceiveResult_PathPaymentStrictReceiveLineFull => true
  | PathPaymentStrictReceiveResult_PathPaymentStrictReceiveNoIssuer noIssuer => Asset_valid noIssuer
  | PathPaymentStrictReceiveResult_PathPaymentStrictReceiveTooFewOffers => true
  | PathPaymentStrictReceiveResult_PathPaymentStrictReceiveOfferCrossSelf => true
  | PathPaymentStrictReceiveResult_PathPaymentStrictReceiveOverSendmax => true
  end.

Definition manageSellOfferResultCodeMap : list Z := [0; -1; -2; -3; -4; -5; -6; -7; -8; -9; -10; -11; -12].
Definition ManageSellOfferResultCode_EncodeTo (e : Z) : option bytes := enum_EncodeTo manageSellOfferResultCodeMap e.
Definition ManageSellOfferResultCode_DecodeFrom (maxDepth : nat) : decode Z := enum_DecodeFrom manageSellOfferResultCodeMap maxDepth.
Definition ManageSellOfferResultCode_valid (e : Z) : bool := valid_enum manageSellOfferResultCodeMap e.

Definition manageOfferEffectMap : list Z := [0; 1; 2].
Definition ManageOfferEffect_EncodeTo (e : Z) : option bytes := enum_EncodeTo manageOfferEffectMap e.
Definition ManageOfferEffect_DecodeFrom (maxDepth : nat) : decode Z := enum_DecodeFrom manageOfferEffectMap maxDepth.
Definition ManageOfferEffect_valid (e : Z) : bool := valid_enum manageOfferEffectMap e.

Definition OfferEntryExt_EncodeTo (u : unit) : option bytes :=
  match u with
  | tt => write! EncodeInt 0 in written
  end.
Definition OfferEntryExt_DecodeFrom (maxDepth : nat) : decode unit := nested maxDepth (fun maxDepth =>
  read! v := DecodeInt in
  if v =? 0 then ret tt else
  invalid).
Definition OfferEntryExt_valid (u : unit) : bool :=
  match u with
  | tt => true
  end.

Record XdrOfferEntry : Type := mkXdrOfferEntry {
  OfferEntry_SellerId : AccountId;
  OfferEntry_OfferId : Z;
  OfferEntry_Selling : Asset;
  OfferEntry_Buying : Asset;
  OfferEntry_Amount : Z;
  OfferEntry_Price : Price;
  OfferEntry_Flags : Z
}.
Definition OfferEntry_EncodeTo (s : XdrOfferEntry) : option bytes :=
  let '(mkXdrOfferEntry sellerId offerId selling buying amount price flags) := s in
  write! AccountId_EncodeTo sellerId in
  write! Int64_EncodeTo offerId in
  write! Asset_EncodeTo selling in
  write! Asset_EncodeTo buying in
  write! Int64_EncodeTo amount in
  write! Price_EncodeTo price in
  write! Uint32_EncodeTo flags in
  write! OfferEntryExt_EncodeTo tt in
  written.
Definition OfferEntry_DecodeFrom (maxDepth : nat) : decode XdrOfferEntry := nested maxDepth (fun maxDepth =>
  read! sellerId := AccountId_DecodeFrom maxDepth in
  read! offerId := Int64_DecodeFrom maxDepth in
  read! selling := Asset_DecodeFrom maxDepth in
  read! buying := Asset_DecodeFrom maxDepth in
  read! amount := Int64_DecodeFrom maxDepth in
  read! price := Price_DecodeFrom maxDepth in
  read! flags := Uint32_DecodeFrom maxDepth in
  read! _ := OfferEntryExt_DecodeFrom maxDepth in
  ret (mkXdrOfferEntry sellerId offerId selling buying amount price flags)).
Definition OfferEntry_valid (s : XdrOfferEntry) : bool :=
  let '(mkXdrOfferEntry sellerId offerId selling buying amount price flags) := s in
  AccountId_valid sellerId && Int64_valid offerId && Asset_valid selling && Asset_valid buying && Int64_valid amount && Price_valid price
      && Uint32_valid flags.

Inductive XdrManageOfferSuccessResultOffer : Type :=
| ManageOfferSuccessResultOffer_ManageOfferCreated (offer : XdrOfferEntry)
| ManageOfferSuccessResultOffer_ManageOfferUpdated (offer : XdrOfferEntry)
| ManageOfferSuccessResultOffer_ManageOfferDeleted.
Definition ManageOfferSuccessResultOffer_EncodeTo (u : XdrManageOfferSuccessResultOffer) : option bytes :=
  match u with
  | ManageOfferSuccessResultOffer_ManageOfferCreated offer => write! ManageOfferEffect_EncodeTo 0 in write! OfferEntry_EncodeTo offer in
      written
  | ManageOfferSuccessResultOffer_ManageOfferUpdated offer => write! ManageOfferEffect_EncodeTo 1 in write! OfferEntry_EncodeTo offer in
      written
  | ManageOfferSuccessResultOffer_ManageOfferDeleted => write! ManageOfferEffect_EncodeTo 2 in written
  end.
Definition ManageOfferSuccessResultOffer_DecodeFrom (maxDepth : nat) : decode XdrManageOfferSuccessResultOffer := nested maxDepth (fun
    maxDepth =>
  read! effect := ManageOfferEffect_DecodeFrom maxDepth in
  if effect =? 0 then tracked "OfferEntry" (read! offer := OfferEntry_DecodeFrom maxDepth in ret
      (ManageOfferSuccessResultOffer_ManageOfferCreated offer)) else
  if effect =? 1 then tracked "OfferEntry" (read! offer := OfferEntry_DecodeFrom maxDepth in ret
      (ManageOfferSuccessResultOffer_ManageOfferUpdated offer)) else
  if effect =? 2 then ret ManageOfferSuccessResultOffer_ManageOfferDeleted else
  invalid).
Definition ManageOfferSuccessResultOffer_valid (u : XdrManageOfferSuccessResultOffer) : bool :=
  match u with
  | ManageOfferSuccessResultOffer_ManageOfferCreated offer => OfferEntry_valid offer
  | ManageOfferSuccessResultOffer_ManageOfferUpdated offer => OfferEntry_valid offer
  | ManageOfferSuccessResultOffer_ManageOfferDeleted => true
  end.

Record XdrManageOfferSuccessResult : Type := mkXdrManageOfferSuccessResult {
  ManageOfferSuccessResult_OffersClaimed : list XdrClaimAtom;
  ManageOfferSuccessResult_Offer : XdrManageOfferSuccessResultOffer
}.
Definition ManageOfferSuccessResult_EncodeTo (s : XdrManageOfferSuccessResult) : option bytes :=
  let '(mkXdrManageOfferSuccessResult offersClaimed offer) := s in
  write! slice_EncodeTo ClaimAtom_EncodeTo offersClaimed in
  write! ManageOfferSuccessResultOffer_EncodeTo offer in
  written.
Definition ManageOfferSuccessResult_DecodeFrom (maxDepth : nat) : decode XdrManageOfferSuccessResult := nested maxDepth (fun maxDepth =>
  read! offersClaimed := slice_DecodeFrom "ClaimAtom" None (ClaimAtom_DecodeFrom maxDepth) in
  read! offer := ManageOfferSuccessResultOffer_DecodeFrom maxDepth in
  ret (mkXdrManageOfferSuccessResult offersClaimed offer)).
Definition ManageOfferSuccessResult_valid (s : XdrManageOfferSuccessResult) : bool :=
  let '(mkXdrManageOfferSuccessResult offersClaimed offer) := s in
  valid_slice None ClaimAtom_valid offersClaimed && ManageOfferSuccessResultOffer_valid offer.

Inductive XdrManageSellOfferResult : Type :=
| ManageSellOfferResult_ManageSellOfferSuccess (success : XdrManageOfferSuccessResult)
| ManageSellOfferResult_ManageSellOfferMalformed
| ManageSellOfferResult_ManageSellOfferSellNoTrust
| ManageSellOfferResult_ManageSellOfferBuyNoTrust
| ManageSellOfferResult_ManageSellOfferSellNotAuthorized
| ManageSellOfferResult_ManageSellOfferBuyNotAuthorized
| ManageSellOfferResult_ManageSellOfferLineFull
| ManageSellOfferResult_ManageSellOfferUnderfunded
| ManageSellOfferResult_ManageSellOfferCrossSelf
| ManageSellOfferResult_ManageSellOfferSellNoIssuer
| ManageSellOfferResult_ManageSellOfferBuyNoIssuer
| ManageSellOfferResult_ManageSellOfferNotFound
| ManageSellOfferResult_ManageSellOfferLowReserve.
Definition ManageSellOfferResult_EncodeTo (u : XdrManageSellOfferResult) : option bytes :=
  match u with
  | ManageSellOfferResult_ManageSellOfferSuccess success => write! ManageSellOfferResultCode_EncodeTo 0 in write!
      ManageOfferSuccessResult_EncodeTo success in written
  | ManageSellOfferResult_ManageSellOfferMalformed => write! ManageSellOfferResultCode_EncodeTo (-1) in written
  | ManageSellOfferResult_ManageSellOfferSellNoTrust => write! ManageSellOfferResultCode_EncodeTo (-2) in written
  | ManageSellOfferResult_ManageSellOfferBuyNoTrust => write! ManageSellOfferResultCode_EncodeTo (-3) in written
  | ManageSellOfferResult_ManageSellOfferSellNotAuthorized => write! ManageSellOfferResultCode_EncodeTo (-4) in written
  | ManageSellOfferResult_ManageSellOfferBuyNotAuthorized => write! ManageSellOfferResultCode_EncodeTo (-5) in written
  | ManageSellOfferResult_ManageSellOfferLineFull => write! ManageSellOfferResultCode_EncodeTo (-6) in written
  | ManageSellOfferResult_ManageSellOfferUnderfunded => write! ManageSellOfferResultCode_EncodeTo (-7) in written
  | ManageSellOfferResult_ManageSellOfferCrossSelf => write! ManageSellOfferResultCode_EncodeTo (-8) in written
  | ManageSellOfferResult_ManageSellOfferSellNoIssuer => write! ManageSellOfferResultCode_EncodeTo (-9) in written
  | ManageSellOfferResult_ManageSellOfferBuyNoIssuer => write! ManageSellOfferResultCode_EncodeTo (-10) in written
  | ManageSellOfferResult_ManageSellOfferNotFound => write! ManageSellOfferResultCode_EncodeTo (-11) in written
  | ManageSellOfferResult_ManageSellOfferLowReserve => write! ManageSellOfferResultCode_EncodeTo (-12) in written
  end.
Definition ManageSellOfferResult_DecodeFrom (maxDepth : nat) : decode XdrManageSellOfferResult := nested maxDepth (fun maxDepth =>
  read! code := ManageSellOfferResultCode_DecodeFrom maxDepth in
  if code =? 0 then tracked "ManageOfferSuccessResult" (read! success := ManageOfferSuccessResult_DecodeFrom maxDepth in ret
      (ManageSellOfferResult_ManageSellOfferSuccess success)) else
  if code =? (-1) then ret ManageSellOfferResult_ManageSellOfferMalformed else
  if code =? (-2) then ret ManageSellOfferResult_ManageSellOfferSellNoTrust else
  if code =? (-3) then ret ManageSellOfferResult_ManageSellOfferBuyNoTrust else
  if code =? (-4) then ret ManageSellOfferResult_ManageSellOfferSellNotAuthorized else
  if code =? (-5) then ret ManageSellOfferResult_ManageSellOfferBuyNotAuthorized else
  if code =? (-6) then ret ManageSellOfferResult_ManageSellOfferLineFull else
  if code =? (-7) then ret ManageSellOfferResult_ManageSellOfferUnderfunded else
  if code =? (-8) then ret ManageSellOfferResult_ManageSellOfferCrossSelf else
  if code =? (-9) then ret ManageSellOfferResult_ManageSellOfferSellNoIssuer else
  if code =? (-10) then ret ManageSellOfferResult_ManageSellOfferBuyNoIssuer else
  if code =? (-11) then ret ManageSellOfferResult_ManageSellOfferNotFound else
  if code =? (-12) then ret ManageSellOfferResult_ManageSellOfferLowReserve else
  invalid).
Definition ManageSellOfferResult_valid (u : XdrManageSellOfferResult) : bool :=
  match u with
  | ManageSellOfferResult_ManageSellOfferSuccess success => ManageOfferSuccessResult_valid success
  | ManageSellOfferResult_ManageSellOfferMalformed => true
  | ManageSellOfferResult_ManageSellOfferSellNoTrust => true
  | ManageSellOfferResult_ManageSellOfferBuyNoTrust => true
  | ManageSellOfferResult_ManageSellOfferSellNotAuthorized => true
  | ManageSellOfferResult_ManageSellOfferBuyNotAuthorized => true
  | ManageSellOfferResult_ManageSellOfferLineFull => true
  | ManageSellOfferResult_ManageSellOfferUnderfunded => true
  | ManageSellOfferResult_ManageSellOfferCrossSelf => true
  | ManageSellOfferResult_ManageSellOfferSellNoIssuer => true
  | ManageSellOfferResult_ManageSellOfferBuyNoIssuer => true
  | ManageSellOfferResult_ManageSellOfferNotFound => true
  | ManageSellOfferResult_ManageSellOfferLowReserve => true
  end.

Definition setOptionsResultCodeMap : list Z := [0; -1; -2; -3; -4; -5; -6; -7; -8; -9; -10].
Definition SetOptionsResultCode_EncodeTo (e : Z) : option bytes := enum_EncodeTo setOptionsResultCodeMap e.
Definition SetOptionsResultCode_DecodeFrom (maxDepth : nat) : decode Z := enum_DecodeFrom setOptionsResultCodeMap maxDepth.
Definition SetOptionsResultCode_valid (e : Z) : bool := valid_enum setOptionsResultCodeMap e.

Inductive XdrSetOptionsResult : Type :=
| SetOptionsResult_SetOptionsSuccess
| SetOptionsResult_SetOptionsLowReserve
| SetOptionsResult_SetOptionsTooManySigners
| SetOptionsResult_SetOptionsBadFlags
| SetOptionsResult_SetOptionsInvalidInflation
| SetOptionsResult_SetOptionsCantChange
| SetOptionsResult_SetOptionsUnknownFlag
| SetOptionsResult_SetOptionsThresholdOutOfRange
| SetOptionsResult_SetOptionsBadSigner
| SetOptionsResult_SetOptionsInvalidHomeDomain
| SetOptionsResult_SetOptionsAuthRevocableRequired.
Definition SetOptionsResult_EncodeTo (u : XdrSetOptionsResult) : option bytes :=
  match u with
  | SetOptionsResult_SetOptionsSuccess => write! SetOptionsResultCode_EncodeTo 0 in written
  | SetOptionsResult_SetOptionsLowReserve => write! SetOptionsResultCode_EncodeTo (-1) in written
  | SetOptionsResult_SetOptionsTooManySigners => write! SetOptionsResultCode_EncodeTo (-2) in written
  | SetOptionsResult_SetOptionsBadFlags => write! SetOptionsResultCode_EncodeTo (-3) in written
  | SetOptionsResult_SetOptionsInvalidInflation => write! SetOptionsResultCode_EncodeTo (-4) in written
  | SetOptionsResult_SetOptionsCantChange => write! SetOptionsResultCode_EncodeTo (-5) in written
  | SetOptionsResult_SetOptionsUnknownFlag => write! SetOptionsResultCode_EncodeTo (-6) in written
  | SetOptionsResult_SetOptionsThresholdOutOfRange => write! SetOptionsResultCode_EncodeTo (-7) in written
  | SetOptionsResult_SetOptionsBadSigner => write! SetOptionsResultCode_EncodeTo (-8) in written
  | SetOptionsResult_SetOptionsInvalidHomeDomain => write! SetOptionsResultCode_EncodeTo (-9) in written
  | SetOptionsResult_SetOptionsAuthRevocableRequired => write! SetOptionsResultCode_EncodeTo (-10) in written
  end.
Definition SetOptionsResult_DecodeFrom (maxDepth : nat) : decode XdrSetOptionsResult := nested maxDepth (fun maxDepth =>
  read! code := SetOptionsResultCode_DecodeFrom maxDepth in
  if code =? 0 then ret SetOptionsResult_SetOptionsSuccess else
  if code =? (-1) then ret SetOptionsResult_SetOptionsLowReserve else
  if code =? (-2) then ret SetOptionsResult_SetOptionsTooManySigners else
  if code =? (-3) then ret SetOptionsResult_SetOptionsBadFlags else
  if code =? (-4) then ret SetOptionsResult_SetOptionsInvalidInflation else
  if code =? (-5) then ret SetOptionsResult_SetOptionsCantChange else
  if code =? (-6) then ret SetOptionsResult_SetOptionsUnknownFlag else
  if code =? (-7) then ret SetOptionsResult_SetOptionsThresholdOutOfRange else
  if code =? (-8) then ret SetOptionsResult_SetOptionsBadSigner else
  if code =? (-9) then ret SetOptionsResult_SetOptionsInvalidHomeDomain else
  if code =? (-10) then ret SetOptionsResult_SetOptionsAuthRevocableRequired else
  invalid).
Definition SetOptionsResult_valid (u : XdrSetOptionsResult) : bool :=
  match u with
  | SetOptionsResult_SetOptionsSuccess => true
  | SetOptionsResult_SetOptionsLowReserve => true
  | SetOptionsResult_SetOptionsTooManySigners => true
  | SetOptionsResult_SetOptionsBadFlags => true
  | SetOptionsResult_SetOptionsInvalidInflation => true
  | SetOptionsResult_SetOptionsCantChange => true
  | SetOptionsResult_SetOptionsUnknownFlag => true
  | SetOptionsResult_SetOptionsThresholdOutOfRange => true
  | SetOptionsResult_SetOptionsBadSigner => true
  | SetOptionsResult_SetOptionsInvalidHomeDomain => true
  | SetOptionsResult_SetOptionsAuthRevocableRequired => true
  end.

Definition changeTrustResultCodeMap : list Z := [0; -1; -2; -3; -4; -5; -6; -7; -8].
Definition ChangeTrustResultCode_EncodeTo (e : Z) : option bytes := enum_EncodeTo changeTrustResultCodeMap e.
Definition ChangeTrustResultCode_DecodeFrom (maxDepth : nat) : decode Z := enum_DecodeFrom changeTrustResultCodeMap maxDepth.
Definition ChangeTrustResultCode_valid (e : Z) : bool := valid_enum changeTrustResultCodeMap e.

Inductive XdrChangeTrustResult : Type :=
| ChangeTrustResult_ChangeTrustSuccess
| ChangeTrustResult_ChangeTrustMalformed
| ChangeTrustResult_ChangeTrustNoIssuer
| ChangeTrustResult_ChangeTrustInvalidLimit
| ChangeTrustResult_ChangeTrustLowReserve
| ChangeTrustResult_ChangeTrustSelfNotAllowed
| ChangeTrustResult_ChangeTrustTrustLineMissing
| ChangeTrustResult_ChangeTrustCannotDelete
| ChangeTrustResult_ChangeTrustNotAuthMaintainLiabilities.
Definition ChangeTrustResult_EncodeTo (u : XdrChangeTrustResult) : option bytes :=
  match u with
  | ChangeTrustResult_ChangeTrustSuccess => write! ChangeTrustResultCode_EncodeTo 0 in written
  | ChangeTrustResult_ChangeTrustMalformed => write! ChangeTrustResultCode_EncodeTo (-1) in written
  | ChangeTrustResult_ChangeTrustNoIssuer => write! ChangeTrustResultCode_EncodeTo (-2) in written
  | ChangeTrustResult_ChangeTrustInvalidLimit => write! ChangeTrustResultCode_EncodeTo (-3) in written
  | ChangeTrustResult_ChangeTrustLowReserve => write! ChangeTrustResultCode_EncodeTo (-4) in written
  | ChangeTrustResult_ChangeTrustSelfNotAllowed => write! ChangeTrustResultCode_EncodeTo (-5) in written
  | ChangeTrustResult_ChangeTrustTrustLineMissing => write! ChangeTrustResultCode_EncodeTo (-6) in written
  | ChangeTrustResult_ChangeTrustCannotDelete => write! ChangeTrustResultCode_EncodeTo (-7) in written
  | ChangeTrustResult_ChangeTrustNotAuthMaintainLiabilities => write! ChangeTrustResultCode_EncodeTo (-8) in written
  end.
Definition ChangeTrustResult_DecodeFrom (maxDepth : nat) : decode XdrChangeTrustResult := nested maxDepth (fun maxDepth =>
  read! code := ChangeTrustResultCode_DecodeFrom maxDepth in
  if code =? 0 then ret ChangeTrustResult_ChangeTrustSuccess else
  if code =? (-1) then ret ChangeTrustResult_ChangeTrustMalformed else
  if code =? (-2) then ret ChangeTrustResult_ChangeTrustNoIssuer else
  if code =? (-3) then ret ChangeTrustResult_ChangeTrustInvalidLimit else
  if code =? (-4) then ret ChangeTrustResult_ChangeTrustLowReserve else
  if code =? (-5) then ret ChangeTrustResult_ChangeTrustSelfNotAllowed else
  if code =? (-6) then ret ChangeTrustResult_ChangeTrustTrustLineMissing else
  if code =? (-7) then ret ChangeTrustResult_ChangeTrustCannotDelete else
  if code =? (-8) then ret ChangeTrustResult_ChangeTrustNotAuthMaintainLiabilities else
  invalid).
Definition ChangeTrustResult_valid (u : XdrChangeTrustResult) : bool :=
  match u with
  | ChangeTrustResult_ChangeTrustSuccess => true
  | ChangeTrustResult_ChangeTrustMalformed => true
  | ChangeTrustResult_ChangeTrustNoIssuer => true
  | ChangeTrustResult_ChangeTrustInvalidLimit => true
  | ChangeTrustResult_ChangeTrustLowReserve => true
  | ChangeTrustResult_ChangeTrustSelfNotAllowed => true
  | ChangeTrustResult_ChangeTrustTrustLineMissing => true
  | ChangeTrustResult_ChangeTrustCannotDelete => true
  | ChangeTrustResult_ChangeTrustNotAuthMaintainLiabilities => true
  end.

Definition allowTrustResultCodeMap : list Z := [0; -1; -2; -3; -4; -5; -6].
Definition AllowTrustResultCode_EncodeTo (e : Z) : option bytes := enum_EncodeTo allowTrustResultCodeMap e.
Definition AllowTrustResultCode_DecodeFrom (maxDepth : nat) : decode Z := enum_DecodeFrom allowTrustResultCodeMap maxDepth.
Definition AllowTrustResultCode_valid (e : Z) : bool := valid_enum allowTrustResultCodeMap e.

Inductive XdrAllowTrustResult : Type :=
| AllowTrustResult_AllowTrustSuccess
| AllowTrustResult_AllowTrustMalformed
| AllowTrustResult_AllowTrustNoTrustLine
| AllowTrustResult_AllowTrustTrustNotRequired
| AllowTrustResult_AllowTrustCantRevoke
| AllowTrustResult_AllowTrustSelfNotAllowed
| AllowTrustResult_AllowTrustLowReserve.
Definition AllowTrustResult_EncodeTo (u : XdrAllowTrustResult) : option bytes :=
  match u with
  | AllowTrustResult_AllowTrustSuccess => write! AllowTrustResultCode_EncodeTo 0 in written
  | AllowTrustResult_AllowTrustMalformed => write! AllowTrustResultCode_EncodeTo (-1) in written
  | AllowTrustResult_AllowTrustNoTrustLine => write! AllowTrustResultCode_EncodeTo (-2) in written
  | AllowTrustResult_AllowTrustTrustNotRequired => write! AllowTrustResultCode_EncodeTo (-3) in written
  | AllowTrustResult_AllowTrustCantRevoke => write! AllowTrustResultCode_EncodeTo (-4) in written
  | AllowTrustResult_AllowTrustSelfNotAllowed => write! AllowTrustResultCode_EncodeTo (-5) in written
  | AllowTrustResult_AllowTrustLowReserve => write! AllowTrustResultCode_EncodeTo (-6) in written
  end.
Definition AllowTrustResult_DecodeFrom (maxDepth : nat) : decode XdrAllowTrustResult := nested maxDepth (fun maxDepth =>
  read! code := AllowTrustResultCode_DecodeFrom maxDepth in
  if code =? 0 then ret AllowTrustResult_AllowTrustSuccess else
  if code =? (-1) then ret AllowTrustResult_AllowTrustMalformed else
  if code =? (-2) then ret AllowTrustResult_AllowTrustNoTrustLine else
  if code =? (-3) then ret AllowTrustResult_AllowTrustTrustNotRequired else
  if code =? (-4) then ret AllowTrustResult_AllowTrustCantRevoke else
  if code =? (-5) then ret AllowTrustResult_AllowTrustSelfNotAllowed else
  if code =? (-6) then ret AllowTrustResult_AllowTrustLowReserve else
  invalid).
Definition AllowTrustResult_valid (u : XdrAllowTrustResult) : bool :=
  match u with
  | AllowTrustResult_AllowTrustSuccess => true
  | AllowTrustResult_AllowTrustMalformed => true
  | AllowTrustResult_AllowTrustNoTrustLine => true
  | AllowTrustResult_AllowTrustTrustNotRequired => true
  | AllowTrustResult_AllowTrustCantRevoke => true
  | AllowTrustResult_AllowTrustSelfNotAllowed => true
  | AllowTrustResult_AllowTrustLowReserve => true
  end.

Definition accountMergeResultCodeMap : list Z := [0; -1; -2; -3; -4; -5; -6; -7].
Definition AccountMergeResultCode_EncodeTo (e : Z) : option bytes := enum_EncodeTo accountMergeResultCodeMap e.
Definition AccountMergeResultCode_DecodeFrom (maxDepth : nat) : decode Z := enum_DecodeFrom accountMergeResultCodeMap maxDepth.
Definition AccountMergeResultCode_valid (e : Z) : bool := valid_enum accountMergeResultCodeMap e.

Inductive XdrAccountMergeResult : Type :=
| AccountMergeResult_AccountMergeSuccess (sourceAccountBalance : Z)
| AccountMergeResult_AccountMergeMalformed
| AccountMergeResult_AccountMergeNoAccount
| AccountMergeResult_AccountMergeImmutableSet
| AccountMergeResult_AccountMergeHasSubEntries
| AccountMergeResult_AccountMergeSeqnumTooFar
| AccountMergeResult_AccountMergeDestFull
| AccountMergeResult_AccountMergeIsSponsor.
Definition AccountMergeResult_EncodeTo (u : XdrAccountMergeResult) : option bytes :=
  match u with
  | AccountMergeResult_AccountMergeSuccess sourceAccountBalance => write! AccountMergeResultCode_EncodeTo 0 in write! Int64_EncodeTo
      sourceAccountBalance in written
  | AccountMergeResult_AccountMergeMalformed => write! AccountMergeResultCode_EncodeTo (-1) in written
  | AccountMergeResult_AccountMergeNoAccount => write! AccountMergeResultCode_EncodeTo (-2) in written
  | AccountMergeResult_AccountMergeImmutableSet => write! AccountMergeResultCode_EncodeTo (-3) in written
  | AccountMergeResult_AccountMergeHasSubEntries => write! AccountMergeResultCode_EncodeTo (-4) in written
  | AccountMergeResult_AccountMergeSeqnumTooFar => write! AccountMergeResultCode_EncodeTo (-5) in written
  | AccountMergeResult_AccountMergeDestFull => write! AccountMergeResultCode_EncodeTo (-6) in written
  | AccountMergeResult_AccountMergeIsSponsor => write! AccountMergeResultCode_EncodeTo (-7) in written
  end.
Definition AccountMergeResult_DecodeFrom (maxDepth : nat) : decode XdrAccountMergeResult := nested maxDepth (fun maxDepth =>
  read! code := AccountMergeResultCode_DecodeFrom maxDepth in
  if code =? 0 then tracked "Int64" (read! sourceAccountBalance := Int64_DecodeFrom maxDepth in ret (AccountMergeResult_AccountMergeSuccess
      sourceAccountBalance)) else
  if code =? (-1) then ret AccountMergeResult_AccountMergeMalformed else
  if code =? (-2) then ret AccountMergeResult_AccountMergeNoAccount else
  if code =? (-3) then ret AccountMergeResult_AccountMergeImmutableSet else
  if code =? (-4) then ret AccountMergeResult_AccountMergeHasSubEntries else
  if code =? (-5) then ret AccountMergeResult_AccountMergeSeqnumTooFar else
  if code =? (-6) then ret AccountMergeResult_AccountMergeDestFull else
  if code =? (-7) then ret AccountMergeResult_AccountMergeIsSponsor else
  invalid).
Definition AccountMergeResult_valid (u : XdrAccountMergeResult) : bool :=
  match u with
  | AccountMergeResult_AccountMergeSuccess sourceAccountBalance => Int64_valid sourceAccountBalance
  | AccountMergeResult_AccountMergeMalformed => true
  | AccountMergeResult_AccountMergeNoAccount => true
  | AccountMergeResult_AccountMergeImmutableSet => true
  | AccountMergeResult_AccountMergeHasSubEntries => true
  | AccountMergeResult_AccountMergeSeqnumTooFar => true
  | AccountMergeResult_AccountMergeDestFull => true
  | AccountMergeResult_AccountMergeIsSponsor => true
  end.

Definition inflationResultCodeMap : list Z := [0; -1].
Definition InflationResultCode_EncodeTo (e : Z) : option bytes := enum_EncodeTo inflationResultCodeMap e.
Definition InflationResultCode_DecodeFrom (maxDepth : nat) : decode Z := enum_DecodeFrom inflationResultCodeMap maxDepth.
Definition InflationResultCode_valid (e : Z) : bool := valid_enum inflationResultCodeMap e.

Record XdrInflationPayout : Type := mkXdrInflationPayout {
  InflationPayout_Destination : AccountId;
  InflationPayout_Amount : Z
}.
Definition InflationPayout_EncodeTo (s : XdrInflationPayout) : option bytes :=
  let '(mkXdrInflationPayout destination amount) := s in
  write! AccountId_EncodeTo destination in
  write! Int64_EncodeTo amount in
  written.
Definition InflationPayout_DecodeFrom (maxDepth : nat) : decode XdrInflationPayout := nested maxDepth (fun maxDepth =>
  read! destination := AccountId_DecodeFrom maxDepth in
  read! amount := Int64_DecodeFrom maxDepth in
  ret (mkXdrInflationPayout destination amount)).
Definition InflationPayout_valid (s : XdrInflationPayout) : bool :=
  let '(mkXdrInflationPayout destination amount) := s in
  AccountId_valid destination && Int64_valid amount.

Inductive XdrInflationResult : Type :=
| InflationResult_InflationSuccess (payouts : list XdrInflationPayout)
| InflationResult_InflationNotTime.
Definition InflationResult_EncodeTo (u : XdrInflationResult) : option bytes :=
  match u with
  | InflationResult_InflationSuccess payouts => write! InflationResultCode_EncodeTo 0 in write! slice_EncodeTo InflationPayout_EncodeTo
      payouts in written
  | InflationResult_InflationNotTime => write! InflationResultCode_EncodeTo (-1) in written
  end.
Definition InflationResult_DecodeFrom (maxDepth : nat) : decode XdrInflationResult := nested maxDepth (fun maxDepth =>
  read! code := InflationResultCode_DecodeFrom maxDepth in
  if code =? 0 then tracked "[]InflationPayout" (read! payouts := slice_DecodeFrom "InflationPayout" None (InflationPayout_DecodeFrom
      maxDepth) in ret (InflationResult_InflationSuccess payouts)) else
  if code =? (-1) then ret InflationResult_InflationNotTime else
  invalid).
Definition InflationResult_valid (u : XdrInflationResult) : bool :=
  match u with
  | InflationResult_InflationSuccess payouts => (valid_slice None InflationPayout_valid) payouts
  | InflationResult_InflationNotTime => true
  end.

Definition manageDataResultCodeMap : list Z := [0; -1; -2; -3; -4].
Definition ManageDataResultCode_EncodeTo (e : Z) : option bytes := enum_EncodeTo manageDataResultCodeMap e.
Definition ManageDataResultCode_DecodeFrom (maxDepth : nat) : decode Z := enum_DecodeFrom manageDataResultCodeMap maxDepth.
Definition ManageDataResultCode_valid (e : Z) : bool := valid_enum manageDataResultCodeMap e.

Inductive XdrManageDataResult : Type :=
| ManageDataResult_ManageDataSuccess
| ManageDataResult_ManageDataNotSupportedYet
| ManageDataResult_ManageDataNameNotFound
| ManageDataResult_ManageDataLowReserve
| ManageDataResult_ManageDataInvalidName.
Definition ManageDataResult_EncodeTo (u : XdrManageDataResult) : option bytes :=
  match u with
  | ManageDataResult_ManageDataSuccess => write! ManageDataResultCode_EncodeTo 0 in written
  | ManageDataResult_ManageDataNotSupportedYet => write! ManageDataResultCode_EncodeTo (-1) in written
  | ManageDataResult_ManageDataNameNotFound => write! ManageDataResultCode_EncodeTo (-2) in written
  | ManageDataResult_ManageDataLowReserve => write! ManageDataResultCode_EncodeTo (-3) in written
  | ManageDataResult_ManageDataInvalidName => write! ManageDataResultCode_EncodeTo (-4) in written
  end.
Definition ManageDataResult_DecodeFrom (maxDepth : nat) : decode XdrManageDataResult := nested maxDepth (fun maxDepth =>
  read! code := ManageDataResultCode_DecodeFrom maxDepth in
  if code =? 0 then ret ManageDataResult_ManageDataSuccess else
  if code =? (-1) then ret ManageDataResult_ManageDataNotSupportedYet else
  if code =? (-2) then ret ManageDataResult_ManageDataNameNotFound else
  if code =? (-3) then ret ManageDataResult_ManageDataLowReserve else
  if code =? (-4) then ret ManageDataResult_ManageDataInvalidName else
  invalid).
Definition ManageDataResult_valid (u : XdrManageDataResult) : bool :=
  match u with
  | ManageDataResult_ManageDataSuccess => true
  | ManageDataResult_ManageDataNotSupportedYet => true
  | ManageDataResult_ManageDataNameNotFound => true
  | ManageDataResult_ManageDataLowReserve => true
  | ManageDataResult_ManageDataInvalidName => true
  end.

Definition bumpSequenceResultCodeMap : list Z := [0; -1].
Definition BumpSequenceResultCode_EncodeTo (e : Z) : option bytes := enum_EncodeTo bumpSequenceResultCodeMap e.
Definition BumpSequenceResultCode_DecodeFrom (maxDepth : nat) : decode Z := enum_DecodeFrom bumpSequenceResultCodeMap maxDepth.
Definition BumpSequenceResultCode_valid (e : Z) : bool := valid_enum bumpSequenceResultCodeMap e.

Inductive XdrBumpSequenceResult : Type :=
| BumpSequenceResult_BumpSequenceSuccess
| BumpSequenceResult_BumpSequenceBadSeq.
Definition BumpSequenceResult_EncodeTo (u : XdrBumpSequenceResult) : option bytes :=
  match u with
  | BumpSequenceResult_BumpSequenceSuccess => write! BumpSequenceResultCode_EncodeTo 0 in written
  | BumpSequenceResult_BumpSequenceBadSeq => write! BumpSequenceResultCode_EncodeTo (-1) in written
  end.
Definition BumpSequenceResult_DecodeFrom (maxDepth : nat) : decode XdrBumpSequenceResult := nested maxDepth (fun maxDepth =>
  read! code := BumpSequenceResultCode_DecodeFrom maxDepth in
  if code =? 0 then ret BumpSequenceResult_BumpSequenceSuccess else
  if code =? (-1) then ret BumpSequenceResult_BumpSequenceBadSeq else
  invalid).
Definition BumpSequenceResult_valid (u : XdrBumpSequenceResult) : bool :=
  match u with
  | BumpSequenceResult_BumpSequenceSuccess => true
  | BumpSequenceResult_BumpSequenceBadSeq => true
  end.

Definition manageBuyOfferResultCodeMap : list Z := [0; -1; -2; -3; -4; -5; -6; -7; -8; -9; -10; -11; -12].
Definition ManageBuyOfferResultCode_EncodeTo (e : Z) : option bytes := enum_EncodeTo manageBuyOfferResultCodeMap e.
Definition ManageBuyOfferResultCode_DecodeFrom (maxDepth : nat) : decode Z := enum_DecodeFrom manageBuyOfferResultCodeMap maxDepth.
Definition ManageBuyOfferResultCode_valid (e : Z) : bool := valid_enum manageBuyOfferResultCodeMap e.

Inductive XdrManageBuyOfferResult : Type :=
| ManageBuyOfferResult_ManageBuyOfferSuccess (success : XdrManageOfferSuccessResult)
| ManageBuyOfferResult_ManageBuyOfferMalformed
| ManageBuyOfferResult_ManageBuyOfferSellNoTrust
| ManageBuyOfferResult_ManageBuyOfferBuyNoTrust
| ManageBuyOfferResult_ManageBuyOfferSellNotAuthorized
| ManageBuyOfferResult_ManageBuyOfferBuyNotAuthorized
| ManageBuyOfferResult_ManageBuyOfferLineFull
| ManageBuyOfferResult_ManageBuyOfferUnderfunded
| ManageBuyOfferResult_ManageBuyOfferCrossSelf
| ManageBuyOfferResult_ManageBuyOfferSellNoIssuer
| ManageBuyOfferResult_ManageBuyOfferBuyNoIssuer
| ManageBuyOfferResult_ManageBuyOfferNotFound
| ManageBuyOfferResult_ManageBuyOfferLowReserve.
Definition ManageBuyOfferResult_EncodeTo (u : XdrManageBuyOfferResult) : option bytes :=
  match u with
  | ManageBuyOfferResult_ManageBuyOfferSuccess success => write! ManageBuyOfferResultCode_EncodeTo 0 in write!
      ManageOfferSuccessResult_EncodeTo success in written
  | ManageBuyOfferResult_ManageBuyOfferMalformed => write! ManageBuyOfferResultCode_EncodeTo (-1) in written
  | ManageBuyOfferResult_ManageBuyOfferSellNoTrust => write! ManageBuyOfferResultCode_EncodeTo (-2) in written
  | ManageBuyOfferResult_ManageBuyOfferBuyNoTrust => write! ManageBuyOfferResultCode_EncodeTo (-3) in written
  | ManageBuyOfferResult_ManageBuyOfferSellNotAuthorized => write! ManageBuyOfferResultCode_EncodeTo (-4) in written
  | ManageBuyOfferResult_ManageBuyOfferBuyNotAuthorized => write! ManageBuyOfferResultCode_EncodeTo (-5) in written
  | ManageBuyOfferResult_ManageBuyOfferLineFull => write! ManageBuyOfferResultCode_EncodeTo (-6) in written
  | ManageBuyOfferResult_ManageBuyOfferUnderfunded => write! ManageBuyOfferResultCode_EncodeTo (-7) in written
  | ManageBuyOfferResult_ManageBuyOfferCrossSelf => write! ManageBuyOfferResultCode_EncodeTo (-8) in written
  | ManageBuyOfferResult_ManageBuyOfferSellNoIssuer => write! ManageBuyOfferResultCode_EncodeTo (-9) in written
  | ManageBuyOfferResult_ManageBuyOfferBuyNoIssuer => write! ManageBuyOfferResultCode_EncodeTo (-10) in written
  | ManageBuyOfferResult_ManageBuyOfferNotFound => write! ManageBuyOfferResultCode_EncodeTo (-11) in written
  | ManageBuyOfferResult_ManageBuyOfferLowReserve => write! ManageBuyOfferResultCode_EncodeTo (-12) in written
  end.
Definition ManageBuyOfferResult_DecodeFrom (maxDepth : nat) : decode XdrManageBuyOfferResult := nested maxDepth (fun maxDepth =>
  read! code := ManageBuyOfferResultCode_DecodeFrom maxDepth in
  if code =? 0 then tracked "ManageOfferSuccessResult" (read! success := ManageOfferSuccessResult_DecodeFrom maxDepth in ret
      (ManageBuyOfferResult_ManageBuyOfferSuccess success)) else
  if code =? (-1) then ret ManageBuyOfferResult_ManageBuyOfferMalformed else
  if code =? (-2) then ret ManageBuyOfferResult_ManageBuyOfferSellNoTrust else
  if code =? (-3) then ret ManageBuyOfferResult_ManageBuyOfferBuyNoTrust else
  if code =? (-4) then ret ManageBuyOfferResult_ManageBuyOfferSellNotAuthorized else
  if code =? (-5) then ret ManageBuyOfferResult_ManageBuyOfferBuyNotAuthorized else
  if code =? (-6) then ret ManageBuyOfferResult_ManageBuyOfferLineFull else
  if code =? (-7) then ret ManageBuyOfferResult_ManageBuyOfferUnderfunded else
  if code =? (-8) then ret ManageBuyOfferResult_ManageBuyOfferCrossSelf else
  if code =? (-9) then ret ManageBuyOfferResult_ManageBuyOfferSellNoIssuer else
  if code =? (-10) then ret ManageBuyOfferResult_ManageBuyOfferBuyNoIssuer else
  if code =? (-11) then ret ManageBuyOfferResult_ManageBuyOfferNotFound else
  if code =? (-12) then ret ManageBuyOfferResult_ManageBuyOfferLowReserve else
  invalid).
Definition ManageBuyOfferResult_valid (u : XdrManageBuyOfferResult) : bool :=
  match u with
  | ManageBuyOfferResult_ManageBuyOfferSuccess success => ManageOfferSuccessResult_valid success
  | ManageBuyOfferResult_ManageBuyOfferMalformed => true
  | ManageBuyOfferResult_ManageBuyOfferSellNoTrust => true
  | ManageBuyOfferResult_ManageBuyOfferBuyNoTrust => true
  | ManageBuyOfferResult_ManageBuyOfferSellNotAuthorized => true
  | ManageBuyOfferResult_ManageBuyOfferBuyNotAuthorized => true
  | ManageBuyOfferResult_ManageBuyOfferLineFull => true
  | ManageBuyOfferResult_ManageBuyOfferUnderfunded => true
  | ManageBuyOfferResult_ManageBuyOfferCrossSelf => true
  | ManageBuyOfferResult_ManageBuyOfferSellNoIssuer => true
  | ManageBuyOfferResult_ManageBuyOfferBuyNoIssuer => true
  | ManageBuyOfferResult_ManageBuyOfferNotFound => true
  | ManageBuyOfferResult_ManageBuyOfferLowReserve => true
  end.

Definition pathPaymentStrictSendResultCodeMap : list Z := [0; -1; -2; -3; -4; -5; -6; -7; -8; -9; -10; -11; -12].
Definition PathPaymentStrictSendResultCode_EncodeTo (e : Z) : option bytes := enum_EncodeTo pathPaymentStrictSendResultCodeMap e.
Definition PathPaymentStrictSendResultCode_DecodeFrom (maxDepth : nat) : decode Z := enum_DecodeFrom pathPaymentStrictSendResultCodeMap
    maxDepth.
Definition PathPaymentStrictSendResultCode_valid (e : Z) : bool := valid_enum pathPaymentStrictSendResultCodeMap e.

Record XdrPathPaymentStrictSendResultSuccess : Type := mkXdrPathPaymentStrictSendResultSuccess {
  PathPaymentStrictSendResultSuccess_Offers : list XdrClaimAtom;
  PathPaymentStrictSendResultSuccess_Last : XdrSimplePaymentResult
}.
Definition PathPaymentStrictSendResultSuccess_EncodeTo (s : XdrPathPaymentStrictSendResultSuccess) : option bytes :=
  let '(mkXdrPathPaymentStrictSendResultSuccess offers last) := s in
  write! slice_EncodeTo ClaimAtom_EncodeTo offers in
  write! SimplePaymentResult_EncodeTo last in
  written.
Definition PathPaymentStrictSendResultSuccess_DecodeFrom (maxDepth : nat) : decode XdrPathPaymentStrictSendResultSuccess := nested maxDepth
    (fun maxDepth =>
  read! offers := slice_DecodeFrom "ClaimAtom" None (ClaimAtom_DecodeFrom maxDepth) in
  read! last := SimplePaymentResult_DecodeFrom maxDepth in
  ret (mkXdrPathPaymentStrictSendResultSuccess offers last)).
Definition PathPaymentStrictSendResultSuccess_valid (s : XdrPathPaymentStrictSendResultSuccess) : bool :=
  let '(mkXdrPathPaymentStrictSendResultSuccess offers last) := s in
  valid_slice None ClaimAtom_valid offers && SimplePaymentResult_valid last.

Inductive XdrPathPaymentStrictSendResult : Type :=
| PathPaymentStrictSendResult_PathPaymentStrictSendSuccess (success : XdrPathPaymentStrictSendResultSuccess)
| PathPaymentStrictSendResult_PathPaymentStrictSendMalformed
| PathPaymentStrictSendResult_PathPaymentStrictSendUnderfunded
| PathPaymentStrictSendResult_PathPaymentStrictSendSrcNoTrust
| PathPaymentStrictSendResult_PathPaymentStrictSendSrcNotAuthorized
| PathPaymentStrictSendResult_PathPaymentStrictSendNoDestination
| PathPaymentStrictSendResult_PathPaymentStrictSendNoTrust
| PathPaymentStrictSendResult_PathPaymentStrictSendNotAuthorized
| PathPaymentStrictSendResult_PathPaymentStrictSendLineFull
| PathPaymentStrictSendResult_PathPaymentStrictSendNoIssuer (noIssuer : Asset)
| PathPaymentStrictSendResult_PathPaymentStrictSendTooFewOffers
| PathPaymentStrictSendResult_PathPaymentStrictSendOfferCrossSelf
| PathPaymentStrictSendResult_PathPaymentStrictSendUnderDestmin.
Definition PathPaymentStrictSendResult_EncodeTo (u : XdrPathPaymentStrictSendResult) : option bytes :=
  match u with
  | PathPaymentStrictSendResult_PathPaymentStrictSendSuccess success => write! PathPaymentStrictSendResultCode_EncodeTo 0 in write!
      PathPaymentStrictSendResultSuccess_EncodeTo success in written
  | PathPaymentStrictSendResult_PathPaymentStrictSendMalformed => write! PathPaymentStrictSendResultCode_EncodeTo (-1) in written
  | PathPaymentStrictSendResult_PathPaymentStrictSendUnderfunded => write! PathPaymentStrictSendResultCode_EncodeTo (-2) in written
  | PathPaymentStrictSendResult_PathPaymentStrictSendSrcNoTrust => write! PathPaymentStrictSendResultCode_EncodeTo (-3) in written
  | PathPaymentStrictSendResult_PathPaymentStrictSendSrcNotAuthorized => write! PathPaymentStrictSendResultCode_EncodeTo (-4) in written
  | PathPaymentStrictSendResult_PathPaymentStrictSendNoDestination => write! PathPaymentStrictSendResultCode_EncodeTo (-5) in written
  | PathPaymentStrictSendResult_PathPaymentStrictSendNoTrust => write! PathPaymentStrictSendResultCode_EncodeTo (-6) in written
  | PathPaymentStrictSendResult_PathPaymentStrictSendNotAuthorized => write! PathPaymentStrictSendResultCode_EncodeTo (-7) in written
  | PathPaymentStrictSendResult_PathPaymentStrictSendLineFull => write! PathPaymentStrictSendResultCode_EncodeTo (-8) in written
  | PathPaymentStrictSendResult_PathPaymentStrictSendNoIssuer noIssuer => write! PathPaymentStrictSendResultCode_EncodeTo (-9) in write!
      Asset_EncodeTo noIssuer in written
  | PathPaymentStrictSendResult_PathPaymentStrictSendTooFewOffers => write! PathPaymentStrictSendResultCode_EncodeTo (-10) in written
  | PathPaymentStrictSendResult_PathPaymentStrictSendOfferCrossSelf => write! PathPaymentStrictSendResultCode_EncodeTo (-11) in written
  | PathPaymentStrictSendResult_PathPaymentStrictSendUnderDestmin => write! PathPaymentStrictSendResultCode_EncodeTo (-12) in written
  end.
Definition PathPaymentStrictSendResult_DecodeFrom (maxDepth : nat) : decode XdrPathPaymentStrictSendResult := nested maxDepth (fun maxDepth
    =>
  read! code := PathPaymentStrictSendResultCode_DecodeFrom maxDepth in
  if code =? 0 then tracked "PathPaymentStrictSendResultSuccess" (read! success := PathPaymentStrictSendResultSuccess_DecodeFrom maxDepth
      in ret (PathPaymentStrictSendResult_PathPaymentStrictSendSuccess success)) else
  if code =? (-1) then ret PathPaymentStrictSendResult_PathPaymentStrictSendMalformed else
  if code =? (-2) then ret PathPaymentStrictSendResult_PathPaymentStrictSendUnderfunded else
  if code =? (-3) then ret PathPaymentStrictSendResult_PathPaymentStrictSendSrcNoTrust else
  if code =? (-4) then ret PathPaymentStrictSendResult_PathPaymentStrictSendSrcNotAuthorized else
  if code =? (-5) then ret PathPaymentStrictSendResult_PathPaymentStrictSendNoDestination else
  if code =? (-6) then ret PathPaymentStrictSendResult_PathPaymentStrictSendNoTrust else
  if code =? (-7) then ret PathPaymentStrictSendResult_PathPaymentStrictSendNotAuthorized else
  if code =? (-8) then ret PathPaymentStrictSendResult_PathPaymentStrictSendLineFull else
  if code =? (-9) then tracked "Asset" (read! noIssuer := Asset_DecodeFrom maxDepth in ret
      (PathPaymentStrictSendResult_PathPaymentStrictSendNoIssuer noIssuer)) else
  if code =? (-10) then ret PathPaymentStrictSendResult_PathPaymentStrictSendTooFewOffers else
  if code =? (-11) then ret PathPaymentStrictSendResult_PathPaymentStrictSendOfferCrossSelf else
  if code =? (-12) then ret PathPaymentStrictSendResult_PathPaymentStrictSendUnderDestmin else
  invalid).
Definition PathPaymentStrictSendResult_valid (u : XdrPathPaymentStrictSendResult) : bool :=
  match u with
  | PathPaymentStrictSendResult_PathPaymentStrictSendSuccess success => PathPaymentStrictSendResultSuccess_valid success
  | PathPaymentStrictSendResult_PathPaymentStrictSendMalformed => true
  | PathPaymentStrictSendResult_PathPaymentStrictSendUnderfunded => true
  | PathPaymentStrictSendResult_PathPaymentStrictSendSrcNoTrust => true
  | PathPaymentStrictSendResult_PathPaymentStrictSendSrcNotAuthorized => true
  | PathPaymentStrictSendResult_PathPaymentStrictSendNoDestination => true
  | PathPaymentStrictSendResult_PathPaymentStrictSendNoTrust => true
  | PathPaymentStrictSendResult_PathPaymentStrictSendNotAuthorized => true
  | PathPaymentStrictSendResult_PathPaymentStrictSendLineFull => true
  | PathPaymentStrictSendResult_PathPaymentStrictSendNoIssuer noIssuer => Asset_valid noIssuer
  | PathPaymentStrictSendResult_PathPaymentStrictSendTooFewOffers => true
  | PathPaymentStrictSendResult_PathPaymentStrictSendOfferCrossSelf => true
  | PathPaymentStrictSendResult_PathPaymentStrictSendUnderDestmin => true
  end.

Definition createClaimableBalanceResultCodeMap : list Z := [0; -1; -2; -3; -4; -5].
Definition CreateClaimableBalanceResultCode_EncodeTo (e : Z) : option bytes := enum_EncodeTo createClaimableBalanceResultCodeMap e.
Definition CreateClaimableBalanceResultCode_DecodeFrom (maxDepth : nat) : decode Z := enum_DecodeFrom createClaimableBalanceResultCodeMap
    maxDepth.
Definition CreateClaimableBalanceResultCode_valid (e : Z) : bool := valid_enum createClaimableBalanceResultCodeMap e.

Inductive XdrCreateClaimableBalanceResult : Type :=
| CreateClaimableBalanceResult_CreateClaimableBalanceSuccess (balanceId : ClaimableBalanceId)
| CreateClaimableBalanceResult_CreateClaimableBalanceMalformed
| CreateClaimableBalanceResult_CreateClaimableBalanceLowReserve
| CreateClaimableBalanceResult_CreateClaimableBalanceNoTrust
| CreateClaimableBalanceResult_CreateClaimableBalanceNotAuthorized
| CreateClaimableBalanceResult_CreateClaimableBalanceUnderfunded.
Definition CreateClaimableBalanceResult_EncodeTo (u : XdrCreateClaimableBalanceResult) : option bytes :=
  match u with
  | CreateClaimableBalanceResult_CreateClaimableBalanceSuccess balanceId => write! CreateClaimableBalanceResultCode_EncodeTo 0 in write!
      ClaimableBalanceId_EncodeTo balanceId in written
  | CreateClaimableBalanceResult_CreateClaimableBalanceMalformed => write! CreateClaimableBalanceResultCode_EncodeTo (-1) in written
  | CreateClaimableBalanceResult_CreateClaimableBalanceLowReserve => write! CreateClaimableBalanceResultCode_EncodeTo (-2) in written
  | CreateClaimableBalanceResult_CreateClaimableBalanceNoTrust => write! CreateClaimableBalanceResultCode_EncodeTo (-3) in written
  | CreateClaimableBalanceResult_CreateClaimableBalanceNotAuthorized => write! CreateClaimableBalanceResultCode_EncodeTo (-4) in written
  | CreateClaimableBalanceResult_CreateClaimableBalanceUnderfunded => write! CreateClaimableBalanceResultCode_EncodeTo (-5) in written
  end.
Definition CreateClaimableBalanceResult_DecodeFrom (maxDepth : nat) : decode XdrCreateClaimableBalanceResult := nested maxDepth (fun
    maxDepth =>
  read! code := CreateClaimableBalanceResultCode_DecodeFrom maxDepth in
  if code =? 0 then tracked "ClaimableBalanceId" (read! balanceId := ClaimableBalanceId_DecodeFrom maxDepth in ret
      (CreateClaimableBalanceResult_CreateClaimableBalanceSuccess balanceId)) else
  if code =? (-1) then ret CreateClaimableBalanceResult_CreateClaimableBalanceMalformed else
  if code =? (-2) then ret CreateClaimableBalanceResult_CreateClaimableBalanceLowReserve else
  if code =? (-3) then ret CreateClaimableBalanceResult_CreateClaimableBalanceNoTrust else
  if code =? (-4) then ret CreateClaimableBalanceResult_CreateClaimableBalanceNotAuthorized else
  if code =? (-5) then ret CreateClaimableBalanceResult_CreateClaimableBalanceUnderfunded else
  invalid).
Definition CreateClaimableBalanceResult_valid (u : XdrCreateClaimableBalanceResult) : bool :=
  match u with
  | CreateClaimableBalanceResult_CreateClaimableBalanceSuccess balanceId => ClaimableBalanceId_valid balanceId
  | CreateClaimableBalanceResult_CreateClaimableBalanceMalformed => true
  | CreateClaimableBalanceResult_CreateClaimableBalanceLowReserve => true
  | CreateClaimableBalanceResult_CreateClaimableBalanceNoTrust => true
  | CreateClaimableBalanceResult_CreateClaimableBalanceNotAuthorized => true
  | CreateClaimableBalanceResult_CreateClaimableBalanceUnderfunded => true
  end.

Definition claimClaimableBalanceResultCodeMap : list Z := [0; -1; -2; -3; -4; -5; -6].
Definition ClaimClaimableBalanceResultCode_EncodeTo (e : Z) : option bytes := enum_EncodeTo claimClaimableBalanceResultCodeMap e.
Definition ClaimClaimableBalanceResultCode_DecodeFrom (maxDepth : nat) : decode Z := enum_DecodeFrom claimClaimableBalanceResultCodeMap
    maxDepth.
Definition ClaimClaimableBalanceResultCode_valid (e : Z) : bool := valid_enum claimClaimableBalanceResultCodeMap e.

Inductive XdrClaimClaimableBalanceResult : Type :=
| ClaimClaimableBalanceResult_ClaimClaimableBalanceSuccess
| ClaimClaimableBalanceResult_ClaimClaimableBalanceDoesNotExist
| ClaimClaimableBalanceResult_ClaimClaimableBalanceCannotClaim
| ClaimClaimableBalanceResult_ClaimClaimableBalanceLineFull
| ClaimClaimableBalanceResult_ClaimClaimableBalanceNoTrust
| ClaimClaimableBalanceResult_ClaimClaimableBalanceNotAuthorized
| ClaimClaimableBalanceResult_ClaimClaimableBalanceTrustlineFrozen.
Definition ClaimClaimableBalanceResult_EncodeTo (u : XdrClaimClaimableBalanceResult) : option bytes :=
  match u with
  | ClaimClaimableBalanceResult_ClaimClaimableBalanceSuccess => write! ClaimClaimableBalanceResultCode_EncodeTo 0 in written
  | ClaimClaimableBalanceResult_ClaimClaimableBalanceDoesNotExist => write! ClaimClaimableBalanceResultCode_EncodeTo (-1) in written
  | ClaimClaimableBalanceResult_ClaimClaimableBalanceCannotClaim => write! ClaimClaimableBalanceResultCode_EncodeTo (-2) in written
  | ClaimClaimableBalanceResult_ClaimClaimableBalanceLineFull => write! ClaimClaimableBalanceResultCode_EncodeTo (-3) in written
  | ClaimClaimableBalanceResult_ClaimClaimableBalanceNoTrust => write! ClaimClaimableBalanceResultCode_EncodeTo (-4) in written
  | ClaimClaimableBalanceResult_ClaimClaimableBalanceNotAuthorized => write! ClaimClaimableBalanceResultCode_EncodeTo (-5) in written
  | ClaimClaimableBalanceResult_ClaimClaimableBalanceTrustlineFrozen => write! ClaimClaimableBalanceResultCode_EncodeTo (-6) in written
  end.
Definition ClaimClaimableBalanceResult_DecodeFrom (maxDepth : nat) : decode XdrClaimClaimableBalanceResult := nested maxDepth (fun maxDepth
    =>
  read! code := ClaimClaimableBalanceResultCode_DecodeFrom maxDepth in
  if code =? 0 then ret ClaimClaimableBalanceResult_ClaimClaimableBalanceSuccess else
  if code =? (-1) then ret ClaimClaimableBalanceResult_ClaimClaimableBalanceDoesNotExist else
  if code =? (-2) then ret ClaimClaimableBalanceResult_ClaimClaimableBalanceCannotClaim else
  if code =? (-3) then ret ClaimClaimableBalanceResult_ClaimClaimableBalanceLineFull else
  if code =? (-4) then ret ClaimClaimableBalanceResult_ClaimClaimableBalanceNoTrust else
  if code =? (-5) then ret ClaimClaimableBalanceResult_ClaimClaimableBalanceNotAuthorized else
  if code =? (-6) then ret ClaimClaimableBalanceResult_ClaimClaimableBalanceTrustlineFrozen else
  invalid).
Definition ClaimClaimableBalanceResult_valid (u : XdrClaimClaimableBalanceResult) : bool :=
  match u with
  | ClaimClaimableBalanceResult_ClaimClaimableBalanceSuccess => true
  | ClaimClaimableBalanceResult_ClaimClaimableBalanceDoesNotExist => true
  | ClaimClaimableBalanceResult_ClaimClaimableBalanceCannotClaim => true
  | ClaimClaimableBalanceResult_ClaimClaimableBalanceLineFull => true
  | ClaimClaimableBalanceResult_ClaimClaimableBalanceNoTrust => true
  | ClaimClaimableBalanceResult_ClaimClaimableBalanceNotAuthorized => true
  | ClaimClaimableBalanceResult_ClaimClaimableBalanceTrustlineFrozen => true
  end.

Definition beginSponsoringFutureReservesResultCodeMap : list Z := [0; -1; -2; -3].
Definition BeginSponsoringFutureReservesResultCode_EncodeTo (e : Z) : option bytes := enum_EncodeTo
    beginSponsoringFutureReservesResultCodeMap e.
Definition BeginSponsoringFutureReservesResultCode_DecodeFrom (maxDepth : nat) : decode Z := enum_DecodeFrom
    beginSponsoringFutureReservesResultCodeMap maxDepth.
Definition BeginSponsoringFutureReservesResultCode_valid (e : Z) : bool := valid_enum beginSponsoringFutureReservesResultCodeMap e.

Inductive XdrBeginSponsoringFutureReservesResult : Type :=
| BeginSponsoringFutureReservesResult_BeginSponsoringFutureReservesSuccess
| BeginSponsoringFutureReservesResult_BeginSponsoringFutureReservesMalformed
| BeginSponsoringFutureReservesResult_BeginSponsoringFutureReservesAlreadySponsored
| BeginSponsoringFutureReservesResult_BeginSponsoringFutureReservesRecursive.
Definition BeginSponsoringFutureReservesResult_EncodeTo (u : XdrBeginSponsoringFutureReservesResult) : option bytes :=
  match u with
  | BeginSponsoringFutureReservesResult_BeginSponsoringFutureReservesSuccess => write! BeginSponsoringFutureReservesResultCode_EncodeTo 0
      in written
  | BeginSponsoringFutureReservesResult_BeginSponsoringFutureReservesMalformed => write! BeginSponsoringFutureReservesResultCode_EncodeTo
      (-1) in written
  | BeginSponsoringFutureReservesResult_BeginSponsoringFutureReservesAlreadySponsored => write!
      BeginSponsoringFutureReservesResultCode_EncodeTo (-2) in written
  | BeginSponsoringFutureReservesResult_BeginSponsoringFutureReservesRecursive => write! BeginSponsoringFutureReservesResultCode_EncodeTo
      (-3) in written
  end.
Definition BeginSponsoringFutureReservesResult_DecodeFrom (maxDepth : nat) : decode XdrBeginSponsoringFutureReservesResult := nested
    maxDepth (fun maxDepth =>
  read! code := BeginSponsoringFutureReservesResultCode_DecodeFrom maxDepth in
  if code =? 0 then ret BeginSponsoringFutureReservesResult_BeginSponsoringFutureReservesSuccess else
  if code =? (-1) then ret BeginSponsoringFutureReservesResult_BeginSponsoringFutureReservesMalformed else
  if code =? (-2) then ret BeginSponsoringFutureReservesResult_BeginSponsoringFutureReservesAlreadySponsored else
  if code =? (-3) then ret BeginSponsoringFutureReservesResult_BeginSponsoringFutureReservesRecursive else
  invalid).
Definition BeginSponsoringFutureReservesResult_valid (u : XdrBeginSponsoringFutureReservesResult) : bool :=
  match u with
  | BeginSponsoringFutureReservesResult_BeginSponsoringFutureReservesSuccess => true
  | BeginSponsoringFutureReservesResult_BeginSponsoringFutureReservesMalformed => true
  | BeginSponsoringFutureReservesResult_BeginSponsoringFutureReservesAlreadySponsored => true
  | BeginSponsoringFutureReservesResult_BeginSponsoringFutureReservesRecursive => true
  end.

Definition endSponsoringFutureReservesResultCodeMap : list Z := [0; -1].
Definition EndSponsoringFutureReservesResultCode_EncodeTo (e : Z) : option bytes := enum_EncodeTo endSponsoringFutureReservesResultCodeMap
    e.
Definition EndSponsoringFutureReservesResultCode_DecodeFrom (maxDepth : nat) : decode Z := enum_DecodeFrom
    endSponsoringFutureReservesResultCodeMap maxDepth.
Definition EndSponsoringFutureReservesResultCode_valid (e : Z) : bool := valid_enum endSponsoringFutureReservesResultCodeMap e.

Inductive XdrEndSponsoringFutureReservesResult : Type :=
| EndSponsoringFutureReservesResult_EndSponsoringFutureReservesSuccess
| EndSponsoringFutureReservesResult_EndSponsoringFutureReservesNotSponsored.
Definition EndSponsoringFutureReservesResult_EncodeTo (u : XdrEndSponsoringFutureReservesResult) : option bytes :=
  match u with
  | EndSponsoringFutureReservesResult_EndSponsoringFutureReservesSuccess => write! EndSponsoringFutureReservesResultCode_EncodeTo 0 in
      written
  | EndSponsoringFutureReservesResult_EndSponsoringFutureReservesNotSponsored => write! EndSponsoringFutureReservesResultCode_EncodeTo (-1)
      in written
  end.
Definition EndSponsoringFutureReservesResult_DecodeFrom (maxDepth : nat) : decode XdrEndSponsoringFutureReservesResult := nested maxDepth
    (fun maxDepth =>
  read! code := EndSponsoringFutureReservesResultCode_DecodeFrom maxDepth in
  if code =? 0 then ret EndSponsoringFutureReservesResult_EndSponsoringFutureReservesSuccess else
  if code =? (-1) then ret EndSponsoringFutureReservesResult_EndSponsoringFutureReservesNotSponsored else
  invalid).
Definition EndSponsoringFutureReservesResult_valid (u : XdrEndSponsoringFutureReservesResult) : bool :=
  match u with
  | EndSponsoringFutureReservesResult_EndSponsoringFutureReservesSuccess => true
  | EndSponsoringFutureReservesResult_EndSponsoringFutureReservesNotSponsored => true
  end.

Definition revokeSponsorshipResultCodeMap : list Z := [0; -1; -2; -3; -4; -5].
Definition RevokeSponsorshipResultCode_EncodeTo (e : Z) : option bytes := enum_EncodeTo revokeSponsorshipResultCodeMap e.
Definition RevokeSponsorshipResultCode_DecodeFrom (maxDepth : nat) : decode Z := enum_DecodeFrom revokeSponsorshipResultCodeMap maxDepth.
Definition RevokeSponsorshipResultCode_valid (e : Z) : bool := valid_enum revokeSponsorshipResultCodeMap e.

Inductive XdrRevokeSponsorshipResult : Type :=
| RevokeSponsorshipResult_RevokeSponsorshipSuccess
| RevokeSponsorshipResult_RevokeSponsorshipDoesNotExist
| RevokeSponsorshipResult_RevokeSponsorshipNotSponsor
| RevokeSponsorshipResult_RevokeSponsorshipLowReserve
| RevokeSponsorshipResult_RevokeSponsorshipOnlyTransferable
| RevokeSponsorshipResult_RevokeSponsorshipMalformed.
Definition RevokeSponsorshipResult_EncodeTo (u : XdrRevokeSponsorshipResult) : option bytes :=
  match u with
  | RevokeSponsorshipResult_RevokeSponsorshipSuccess => write! RevokeSponsorshipResultCode_EncodeTo 0 in written
  | RevokeSponsorshipResult_RevokeSponsorshipDoesNotExist => write! RevokeSponsorshipResultCode_EncodeTo (-1) in written
  | RevokeSponsorshipResult_RevokeSponsorshipNotSponsor => write! RevokeSponsorshipResultCode_EncodeTo (-2) in written
  | RevokeSponsorshipResult_RevokeSponsorshipLowReserve => write! RevokeSponsorshipResultCode_EncodeTo (-3) in written
  | RevokeSponsorshipResult_RevokeSponsorshipOnlyTransferable => write! RevokeSponsorshipResultCode_EncodeTo (-4) in written
  | RevokeSponsorshipResult_RevokeSponsorshipMalformed => write! RevokeSponsorshipResultCode_EncodeTo (-5) in written
  end.
Definition RevokeSponsorshipResult_DecodeFrom (maxDepth : nat) : decode XdrRevokeSponsorshipResult := nested maxDepth (fun maxDepth =>
  read! code := RevokeSponsorshipResultCode_DecodeFrom maxDepth in
  if code =? 0 then ret RevokeSponsorshipResult_RevokeSponsorshipSuccess else
  if code =? (-1) then ret RevokeSponsorshipResult_RevokeSponsorshipDoesNotExist else
  if code =? (-2) then ret RevokeSponsorshipResult_RevokeSponsorshipNotSponsor else
  if code =? (-3) then ret RevokeSponsorshipResult_RevokeSponsorshipLowReserve else
  if code =? (-4) then ret RevokeSponsorshipResult_RevokeSponsorshipOnlyTransferable else
  if code =? (-5) then ret RevokeSponsorshipResult_RevokeSponsorshipMalformed else
  invalid).
Definition RevokeSponsorshipResult_valid (u : XdrRevokeSponsorshipResult) : bool :=
  match u with
  | RevokeSponsorshipResult_RevokeSponsorshipSuccess => true
  | RevokeSponsorshipResult_RevokeSponsorshipDoesNotExist => true
  | RevokeSponsorshipResult_RevokeSponsorshipNotSponsor => true
  | RevokeSponsorshipResult_RevokeSponsorshipLowReserve => true
  | RevokeSponsorshipResult_RevokeSponsorshipOnlyTransferable => true
  | RevokeSponsorshipResult_RevokeSponsorshipMalformed => true
  end.

Definition clawbackResultCodeMap : list Z := [0; -1; -2; -3; -4].
Definition ClawbackResultCode_EncodeTo (e : Z) : option bytes := enum_EncodeTo clawbackResultCodeMap e.
Definition ClawbackResultCode_DecodeFrom (maxDepth : nat) : decode Z := enum_DecodeFrom clawbackResultCodeMap maxDepth.
Definition ClawbackResultCode_valid (e : Z) : bool := valid_enum clawbackResultCodeMap e.

Inductive XdrClawbackResult : Type :=
| ClawbackResult_ClawbackSuccess
| ClawbackResult_ClawbackMalformed
| ClawbackResult_ClawbackNotClawbackEnabled
| ClawbackResult_ClawbackNoTrust
| ClawbackResult_ClawbackUnderfunded.
Definition ClawbackResult_EncodeTo (u : XdrClawbackResult) : option bytes :=
  match u with
  | ClawbackResult_ClawbackSuccess => write! ClawbackResultCode_EncodeTo 0 in written
  | ClawbackResult_ClawbackMalformed => write! ClawbackResultCode_EncodeTo (-1) in written
  | ClawbackResult_ClawbackNotClawbackEnabled => write! ClawbackResultCode_EncodeTo (-2) in written
  | ClawbackResult_ClawbackNoTrust => write! ClawbackResultCode_EncodeTo (-3) in written
  | ClawbackResult_ClawbackUnderfunded => write! ClawbackResultCode_EncodeTo (-4) in written
  end.
Definition ClawbackResult_DecodeFrom (maxDepth : nat) : decode XdrClawbackResult := nested maxDepth (fun maxDepth =>
  read! code := ClawbackResultCode_DecodeFrom maxDepth in
  if code =? 0 then ret ClawbackResult_ClawbackSuccess else
  if code =? (-1) then ret ClawbackResult_ClawbackMalformed else
  if code =? (-2) then ret ClawbackResult_ClawbackNotClawbackEnabled else
  if code =? (-3) then ret ClawbackResult_ClawbackNoTrust else
  if code =? (-4) then ret ClawbackResult_ClawbackUnderfunded else
  invalid).
Definition ClawbackResult_valid (u : XdrClawbackResult) : bool :=
  match u with
  | ClawbackResult_ClawbackSuccess => true
  | ClawbackResult_ClawbackMalformed => true
  | ClawbackResult_ClawbackNotClawbackEnabled => true
  | ClawbackResult_ClawbackNoTrust => true
  | ClawbackResult_ClawbackUnderfunded => true
  end.

Definition clawbackClaimableBalanceResultCodeMap : list Z := [0; -1; -2; -3].
Definition ClawbackClaimableBalanceResultCode_EncodeTo (e : Z) : option bytes := enum_EncodeTo clawbackClaimableBalanceResultCodeMap e.
Definition ClawbackClaimableBalanceResultCode_DecodeFrom (maxDepth : nat) : decode Z := enum_DecodeFrom
    clawbackClaimableBalanceResultCodeMap maxDepth.
Definition ClawbackClaimableBalanceResultCode_valid (e : Z) : bool := valid_enum clawbackClaimableBalanceResultCodeMap e.

Inductive XdrClawbackClaimableBalanceResult : Type :=
| ClawbackClaimableBalanceResult_ClawbackClaimableBalanceSuccess
| ClawbackClaimableBalanceResult_ClawbackClaimableBalanceDoesNotExist
| ClawbackClaimableBalanceResult_ClawbackClaimableBalanceNotIssuer
| ClawbackClaimableBalanceResult_ClawbackClaimableBalanceNotClawbackEnabled.
Definition ClawbackClaimableBalanceResult_EncodeTo (u : XdrClawbackClaimableBalanceResult) : option bytes :=
  match u with
  | ClawbackClaimableBalanceResult_ClawbackClaimableBalanceSuccess => write! ClawbackClaimableBalanceResultCode_EncodeTo 0 in written
  | ClawbackClaimableBalanceResult_ClawbackClaimableBalanceDoesNotExist => write! ClawbackClaimableBalanceResultCode_EncodeTo (-1) in
      written
  | ClawbackClaimableBalanceResult_ClawbackClaimableBalanceNotIssuer => write! ClawbackClaimableBalanceResultCode_EncodeTo (-2) in written
  | ClawbackClaimableBalanceResult_ClawbackClaimableBalanceNotClawbackEnabled => write! ClawbackClaimableBalanceResultCode_EncodeTo (-3) in
      written
  end.
Definition ClawbackClaimableBalanceResult_DecodeFrom (maxDepth : nat) : decode XdrClawbackClaimableBalanceResult := nested maxDepth (fun
    maxDepth =>
  read! code := ClawbackClaimableBalanceResultCode_DecodeFrom maxDepth in
  if code =? 0 then ret ClawbackClaimableBalanceResult_ClawbackClaimableBalanceSuccess else
  if code =? (-1) then ret ClawbackClaimableBalanceResult_ClawbackClaimableBalanceDoesNotExist else
  if code =? (-2) then ret ClawbackClaimableBalanceResult_ClawbackClaimableBalanceNotIssuer else
  if code =? (-3) then ret ClawbackClaimableBalanceResult_ClawbackClaimableBalanceNotClawbackEnabled else
  invalid).
Definition ClawbackClaimableBalanceResult_valid (u : XdrClawbackClaimableBalanceResult) : bool :=
  match u with
  | ClawbackClaimableBalanceResult_ClawbackClaimableBalanceSuccess => true
  | ClawbackClaimableBalanceResult_ClawbackClaimableBalanceDoesNotExist => true
  | ClawbackClaimableBalanceResult_ClawbackClaimableBalanceNotIssuer => true
  | ClawbackClaimableBalanceResult_ClawbackClaimableBalanceNotClawbackEnabled => true
  end.

Definition setTrustLineFlagsResultCodeMap : list Z := [0; -1; -2; -3; -4; -5].
Definition SetTrustLineFlagsResultCode_EncodeTo (e : Z) : option bytes := enum_EncodeTo setTrustLineFlagsResultCodeMap e.
Definition SetTrustLineFlagsResultCode_DecodeFrom (maxDepth : nat) : decode Z := enum_DecodeFrom setTrustLineFlagsResultCodeMap maxDepth.
Definition SetTrustLineFlagsResultCode_valid (e : Z) : bool := valid_enum setTrustLineFlagsResultCodeMap e.

Inductive XdrSetTrustLineFlagsResult : Type :=
| SetTrustLineFlagsResult_SetTrustLineFlagsSuccess
| SetTrustLineFlagsResult_SetTrustLineFlagsMalformed
| SetTrustLineFlagsResult_SetTrustLineFlagsNoTrustLine
| SetTrustLineFlagsResult_SetTrustLineFlagsCantRevoke
| SetTrustLineFlagsResult_SetTrustLineFlagsInvalidState
| SetTrustLineFlagsResult_SetTrustLineFlagsLowReserve.
Definition SetTrustLineFlagsResult_EncodeTo (u : XdrSetTrustLineFlagsResult) : option bytes :=
  match u with
  | SetTrustLineFlagsResult_SetTrustLineFlagsSuccess => write! SetTrustLineFlagsResultCode_EncodeTo 0 in written
  | SetTrustLineFlagsResult_SetTrustLineFlagsMalformed => write! SetTrustLineFlagsResultCode_EncodeTo (-1) in written
  | SetTrustLineFlagsResult_SetTrustLineFlagsNoTrustLine => write! SetTrustLineFlagsResultCode_EncodeTo (-2) in written
  | SetTrustLineFlagsResult_SetTrustLineFlagsCantRevoke => write! SetTrustLineFlagsResultCode_EncodeTo (-3) in written
  | SetTrustLineFlagsResult_SetTrustLineFlagsInvalidState => write! SetTrustLineFlagsResultCode_EncodeTo (-4) in written
  | SetTrustLineFlagsResult_SetTrustLineFlagsLowReserve => write! SetTrustLineFlagsResultCode_EncodeTo (-5) in written
  end.
Definition SetTrustLineFlagsResult_DecodeFrom (maxDepth : nat) : decode XdrSetTrustLineFlagsResult := nested maxDepth (fun maxDepth =>
  read! code := SetTrustLineFlagsResultCode_DecodeFrom maxDepth in
  if code =? 0 then ret SetTrustLineFlagsResult_SetTrustLineFlagsSuccess else
  if code =? (-1) then ret SetTrustLineFlagsResult_SetTrustLineFlagsMalformed else
  if code =? (-2) then ret SetTrustLineFlagsResult_SetTrustLineFlagsNoTrustLine else
  if code =? (-3) then ret SetTrustLineFlagsResult_SetTrustLineFlagsCantRevoke else
  if code =? (-4) then ret SetTrustLineFlagsResult_SetTrustLineFlagsInvalidState else
  if code =? (-5) then ret SetTrustLineFlagsResult_SetTrustLineFlagsLowReserve else
  invalid).
Definition SetTrustLineFlagsResult_valid (u : XdrSetTrustLineFlagsResult) : bool :=
  match u with
  | SetTrustLineFlagsResult_SetTrustLineFlagsSuccess => true
  | SetTrustLineFlagsResult_SetTrustLineFlagsMalformed => true
  | SetTrustLineFlagsResult_SetTrustLineFlagsNoTrustLine => true
  | SetTrustLineFlagsResult_SetTrustLineFlagsCantRevoke => true
  | SetTrustLineFlagsResult_SetTrustLineFlagsInvalidState => true
  | SetTrustLineFlagsResult_SetTrustLineFlagsLowReserve => true
  end.

Definition liquidityPoolDepositResultCodeMap : list Z := [0; -1; -2; -3; -4; -5; -6; -7; -8].
Definition LiquidityPoolDepositResultCode_EncodeTo (e : Z) : option bytes := enum_EncodeTo liquidityPoolDepositResultCodeMap e.
Definition LiquidityPoolDepositResultCode_DecodeFrom (maxDepth : nat) : decode Z := enum_DecodeFrom liquidityPoolDepositResultCodeMap
    maxDepth.
Definition LiquidityPoolDepositResultCode_valid (e : Z) : bool := valid_enum liquidityPoolDepositResultCodeMap e.

Inductive XdrLiquidityPoolDepositResult : Type :=
| LiquidityPoolDepositResult_LiquidityPoolDepositSuccess
| LiquidityPoolDepositResult_LiquidityPoolDepositMalformed
| LiquidityPoolDepositResult_LiquidityPoolDepositNoTrust
| LiquidityPoolDepositResult_LiquidityPoolDepositNotAuthorized
| LiquidityPoolDepositResult_LiquidityPoolDepositUnderfunded
| LiquidityPoolDepositResult_LiquidityPoolDepositLineFull
| LiquidityPoolDepositResult_LiquidityPoolDepositBadPrice
| LiquidityPoolDepositResult_LiquidityPoolDepositPoolFull
| LiquidityPoolDepositResult_LiquidityPoolDepositTrustlineFrozen.
Definition LiquidityPoolDepositResult_EncodeTo (u : XdrLiquidityPoolDepositResult) : option bytes :=
  match u with
  | LiquidityPoolDepositResult_LiquidityPoolDepositSuccess => write! LiquidityPoolDepositResultCode_EncodeTo 0 in written
  | LiquidityPoolDepositResult_LiquidityPoolDepositMalformed => write! LiquidityPoolDepositResultCode_EncodeTo (-1) in written
  | LiquidityPoolDepositResult_LiquidityPoolDepositNoTrust => write! LiquidityPoolDepositResultCode_EncodeTo (-2) in written
  | LiquidityPoolDepositResult_LiquidityPoolDepositNotAuthorized => write! LiquidityPoolDepositResultCode_EncodeTo (-3) in written
  | LiquidityPoolDepositResult_LiquidityPoolDepositUnderfunded => write! LiquidityPoolDepositResultCode_EncodeTo (-4) in written
  | LiquidityPoolDepositResult_LiquidityPoolDepositLineFull => write! LiquidityPoolDepositResultCode_EncodeTo (-5) in written
  | LiquidityPoolDepositResult_LiquidityPoolDepositBadPrice => write! LiquidityPoolDepositResultCode_EncodeTo (-6) in written
  | LiquidityPoolDepositResult_LiquidityPoolDepositPoolFull => write! LiquidityPoolDepositResultCode_EncodeTo (-7) in written
  | LiquidityPoolDepositResult_LiquidityPoolDepositTrustlineFrozen => write! LiquidityPoolDepositResultCode_EncodeTo (-8) in written
  end.
Definition LiquidityPoolDepositResult_DecodeFrom (maxDepth : nat) : decode XdrLiquidityPoolDepositResult := nested maxDepth (fun maxDepth =>
  read! code := LiquidityPoolDepositResultCode_DecodeFrom maxDepth in
  if code =? 0 then ret LiquidityPoolDepositResult_LiquidityPoolDepositSuccess else
  if code =? (-1) then ret LiquidityPoolDepositResult_LiquidityPoolDepositMalformed else
  if code =? (-2) then ret LiquidityPoolDepositResult_LiquidityPoolDepositNoTrust else
  if code =? (-3) then ret LiquidityPoolDepositResult_LiquidityPoolDepositNotAuthorized else
  if code =? (-4) then ret LiquidityPoolDepositResult_LiquidityPoolDepositUnderfunded else
  if code =? (-5) then ret LiquidityPoolDepositResult_LiquidityPoolDepositLineFull else
  if code =? (-6) then ret LiquidityPoolDepositResult_LiquidityPoolDepositBadPrice else
  if code =? (-7) then ret LiquidityPoolDepositResult_LiquidityPoolDepositPoolFull else
  if code =? (-8) then ret LiquidityPoolDepositResult_LiquidityPoolDepositTrustlineFrozen else
  invalid).
Definition LiquidityPoolDepositResult_valid (u : XdrLiquidityPoolDepositResult) : bool :=
  match u with
  | LiquidityPoolDepositResult_LiquidityPoolDepositSuccess => true
  | LiquidityPoolDepositResult_LiquidityPoolDepositMalformed => true
  | LiquidityPoolDepositResult_LiquidityPoolDepositNoTrust => true
  | LiquidityPoolDepositResult_LiquidityPoolDepositNotAuthorized => true
  | LiquidityPoolDepositResult_LiquidityPoolDepositUnderfunded => true
  | LiquidityPoolDepositResult_LiquidityPoolDepositLineFull => true
  | LiquidityPoolDepositResult_LiquidityPoolDepositBadPrice => true
  | LiquidityPoolDepositResult_LiquidityPoolDepositPoolFull => true
  | LiquidityPoolDepositResult_LiquidityPoolDepositTrustlineFrozen => true
  end.

Definition liquidityPoolWithdrawResultCodeMap : list Z := [0; -1; -2; -3; -4; -5; -6].
Definition LiquidityPoolWithdrawResultCode_EncodeTo (e : Z) : option bytes := enum_EncodeTo liquidityPoolWithdrawResultCodeMap e.
Definition LiquidityPoolWithdrawResultCode_DecodeFrom (maxDepth : nat) : decode Z := enum_DecodeFrom liquidityPoolWithdrawResultCodeMap
    maxDepth.
Definition LiquidityPoolWithdrawResultCode_valid (e : Z) : bool := valid_enum liquidityPoolWithdrawResultCodeMap e.

Inductive XdrLiquidityPoolWithdrawResult : Type :=
| LiquidityPoolWithdrawResult_LiquidityPoolWithdrawSuccess
| LiquidityPoolWithdrawResult_LiquidityPoolWithdrawMalformed
| LiquidityPoolWithdrawResult_LiquidityPoolWithdrawNoTrust
| LiquidityPoolWithdrawResult_LiquidityPoolWithdrawUnderfunded
| LiquidityPoolWithdrawResult_LiquidityPoolWithdrawLineFull
| LiquidityPoolWithdrawResult_LiquidityPoolWithdrawUnderMinimum
| LiquidityPoolWithdrawResult_LiquidityPoolWithdrawTrustlineFrozen.
Definition LiquidityPoolWithdrawResult_EncodeTo (u : XdrLiquidityPoolWithdrawResult) : option bytes :=
  match u with
  | LiquidityPoolWithdrawResult_LiquidityPoolWithdrawSuccess => write! LiquidityPoolWithdrawResultCode_EncodeTo 0 in written
  | LiquidityPoolWithdrawResult_LiquidityPoolWithdrawMalformed => write! LiquidityPoolWithdrawResultCode_EncodeTo (-1) in written
  | LiquidityPoolWithdrawResult_LiquidityPoolWithdrawNoTrust => write! LiquidityPoolWithdrawResultCode_EncodeTo (-2) in written
  | LiquidityPoolWithdrawResult_LiquidityPoolWithdrawUnderfunded => write! LiquidityPoolWithdrawResultCode_EncodeTo (-3) in written
  | LiquidityPoolWithdrawResult_LiquidityPoolWithdrawLineFull => write! LiquidityPoolWithdrawResultCode_EncodeTo (-4) in written
  | LiquidityPoolWithdrawResult_LiquidityPoolWithdrawUnderMinimum => write! LiquidityPoolWithdrawResultCode_EncodeTo (-5) in written
  | LiquidityPoolWithdrawResult_LiquidityPoolWithdrawTrustlineFrozen => write! LiquidityPoolWithdrawResultCode_EncodeTo (-6) in written
  end.
Definition LiquidityPoolWithdrawResult_DecodeFrom (maxDepth : nat) : decode XdrLiquidityPoolWithdrawResult := nested maxDepth (fun maxDepth
    =>
  read! code := LiquidityPoolWithdrawResultCode_DecodeFrom maxDepth in
  if code =? 0 then ret LiquidityPoolWithdrawResult_LiquidityPoolWithdrawSuccess else
  if code =? (-1) then ret LiquidityPoolWithdrawResult_LiquidityPoolWithdrawMalformed else
  if code =? (-2) then ret LiquidityPoolWithdrawResult_LiquidityPoolWithdrawNoTrust else
  if code =? (-3) then ret LiquidityPoolWithdrawResult_LiquidityPoolWithdrawUnderfunded else
  if code =? (-4) then ret LiquidityPoolWithdrawResult_LiquidityPoolWithdrawLineFull else
  if code =? (-5) then ret LiquidityPoolWithdrawResult_LiquidityPoolWithdrawUnderMinimum else
  if code =? (-6) then ret LiquidityPoolWithdrawResult_LiquidityPoolWithdrawTrustlineFrozen else
  invalid).
Definition LiquidityPoolWithdrawResult_valid (u : XdrLiquidityPoolWithdrawResult) : bool :=
  match u with
  | LiquidityPoolWithdrawResult_LiquidityPoolWithdrawSuccess => true
  | LiquidityPoolWithdrawResult_LiquidityPoolWithdrawMalformed => true
  | LiquidityPoolWithdrawResult_LiquidityPoolWithdrawNoTrust => true
  | LiquidityPoolWithdrawResult_LiquidityPoolWithdrawUnderfunded => true
  | LiquidityPoolWithdrawResult_LiquidityPoolWithdrawLineFull => true
  | LiquidityPoolWithdrawResult_LiquidityPoolWithdrawUnderMinimum => true
  | LiquidityPoolWithdrawResult_LiquidityPoolWithdrawTrustlineFrozen => true
  end.

Definition invokeHostFunctionResultCodeMap : list Z := [0; -1; -2; -3; -4; -5].
Definition InvokeHostFunctionResultCode_EncodeTo (e : Z) : option bytes := enum_EncodeTo invokeHostFunctionResultCodeMap e.
Definition InvokeHostFunctionResultCode_DecodeFrom (maxDepth : nat) : decode Z := enum_DecodeFrom invokeHostFunctionResultCodeMap maxDepth.
Definition InvokeHostFunctionResultCode_valid (e : Z) : bool := valid_enum invokeHostFunctionResultCodeMap e.

Inductive XdrInvokeHostFunctionResult : Type :=
| InvokeHostFunctionResult_InvokeHostFunctionSuccess (success : vec byte 32)
| InvokeHostFunctionResult_InvokeHostFunctionMalformed
| InvokeHostFunctionResult_InvokeHostFunctionTrapped
| InvokeHostFunctionResult_InvokeHostFunctionResourceLimitExceeded
| InvokeHostFunctionResult_InvokeHostFunctionEntryArchived
| InvokeHostFunctionResult_InvokeHostFunctionInsufficientRefundableFee.
Definition InvokeHostFunctionResult_EncodeTo (u : XdrInvokeHostFunctionResult) : option bytes :=
  match u with
  | InvokeHostFunctionResult_InvokeHostFunctionSuccess success => write! InvokeHostFunctionResultCode_EncodeTo 0 in write! Hash_EncodeTo
      success in written
  | InvokeHostFunctionResult_InvokeHostFunctionMalformed => write! InvokeHostFunctionResultCode_EncodeTo (-1) in written
  | InvokeHostFunctionResult_InvokeHostFunctionTrapped => write! InvokeHostFunctionResultCode_EncodeTo (-2) in written
  | InvokeHostFunctionResult_InvokeHostFunctionResourceLimitExceeded => write! InvokeHostFunctionResultCode_EncodeTo (-3) in written
  | InvokeHostFunctionResult_InvokeHostFunctionEntryArchived => write! InvokeHostFunctionResultCode_EncodeTo (-4) in written
  | InvokeHostFunctionResult_InvokeHostFunctionInsufficientRefundableFee => write! InvokeHostFunctionResultCode_EncodeTo (-5) in written
  end.
Definition InvokeHostFunctionResult_DecodeFrom (maxDepth : nat) : decode XdrInvokeHostFunctionResult := nested maxDepth (fun maxDepth =>
  read! code := InvokeHostFunctionResultCode_DecodeFrom maxDepth in
  if code =? 0 then tracked "Hash" (read! success := Hash_DecodeFrom maxDepth in ret (InvokeHostFunctionResult_InvokeHostFunctionSuccess
      success)) else
  if code =? (-1) then ret InvokeHostFunctionResult_InvokeHostFunctionMalformed else
  if code =? (-2) then ret InvokeHostFunctionResult_InvokeHostFunctionTrapped else
  if code =? (-3) then ret InvokeHostFunctionResult_InvokeHostFunctionResourceLimitExceeded else
  if code =? (-4) then ret InvokeHostFunctionResult_InvokeHostFunctionEntryArchived else
  if code =? (-5) then ret InvokeHostFunctionResult_InvokeHostFunctionInsufficientRefundableFee else
  invalid).
Definition InvokeHostFunctionResult_valid (u : XdrInvokeHostFunctionResult) : bool :=
  match u with
  | InvokeHostFunctionResult_InvokeHostFunctionSuccess success => Hash_valid success
  | InvokeHostFunctionResult_InvokeHostFunctionMalformed => true
  | InvokeHostFunctionResult_InvokeHostFunctionTrapped => true
  | InvokeHostFunctionResult_InvokeHostFunctionResourceLimitExceeded => true
  | InvokeHostFunctionResult_InvokeHostFunctionEntryArchived => true
  | InvokeHostFunctionResult_InvokeHostFunctionInsufficientRefundableFee => true
  end.

Definition extendFootprintTtlResultCodeMap : list Z := [0; -1; -2; -3].
Definition ExtendFootprintTtlResultCode_EncodeTo (e : Z) : option bytes := enum_EncodeTo extendFootprintTtlResultCodeMap e.
Definition ExtendFootprintTtlResultCode_DecodeFrom (maxDepth : nat) : decode Z := enum_DecodeFrom extendFootprintTtlResultCodeMap maxDepth.
Definition ExtendFootprintTtlResultCode_valid (e : Z) : bool := valid_enum extendFootprintTtlResultCodeMap e.

Inductive XdrExtendFootprintTtlResult : Type :=
| ExtendFootprintTtlResult_ExtendFootprintTtlSuccess
| ExtendFootprintTtlResult_ExtendFootprintTtlMalformed
| ExtendFootprintTtlResult_ExtendFootprintTtlResourceLimitExceeded
| ExtendFootprintTtlResult_ExtendFootprintTtlInsufficientRefundableFee.
Definition ExtendFootprintTtlResult_EncodeTo (u : XdrExtendFootprintTtlResult) : option bytes :=
  match u with
  | ExtendFootprintTtlResult_ExtendFootprintTtlSuccess => write! ExtendFootprintTtlResultCode_EncodeTo 0 in written
  | ExtendFootprintTtlResult_ExtendFootprintTtlMalformed => write! ExtendFootprintTtlResultCode_EncodeTo (-1) in written
  | ExtendFootprintTtlResult_ExtendFootprintTtlResourceLimitExceeded => write! ExtendFootprintTtlResultCode_EncodeTo (-2) in written
  | ExtendFootprintTtlResult_ExtendFootprintTtlInsufficientRefundableFee => write! ExtendFootprintTtlResultCode_EncodeTo (-3) in written
  end.
Definition ExtendFootprintTtlResult_DecodeFrom (maxDepth : nat) : decode XdrExtendFootprintTtlResult := nested maxDepth (fun maxDepth =>
  read! code := ExtendFootprintTtlResultCode_DecodeFrom maxDepth in
  if code =? 0 then ret ExtendFootprintTtlResult_ExtendFootprintTtlSuccess else
  if code =? (-1) then ret ExtendFootprintTtlResult_ExtendFootprintTtlMalformed else
  if code =? (-2) then ret ExtendFootprintTtlResult_ExtendFootprintTtlResourceLimitExceeded else
  if code =? (-3) then ret ExtendFootprintTtlResult_ExtendFootprintTtlInsufficientRefundableFee else
  invalid).
Definition ExtendFootprintTtlResult_valid (u : XdrExtendFootprintTtlResult) : bool :=
  match u with
  | ExtendFootprintTtlResult_ExtendFootprintTtlSuccess => true
  | ExtendFootprintTtlResult_ExtendFootprintTtlMalformed => true
  | ExtendFootprintTtlResult_ExtendFootprintTtlResourceLimitExceeded => true
  | ExtendFootprintTtlResult_ExtendFootprintTtlInsufficientRefundableFee => true
  end.

Definition restoreFootprintResultCodeMap : list Z := [0; -1; -2; -3].
Definition RestoreFootprintResultCode_EncodeTo (e : Z) : option bytes := enum_EncodeTo restoreFootprintResultCodeMap e.
Definition RestoreFootprintResultCode_DecodeFrom (maxDepth : nat) : decode Z := enum_DecodeFrom restoreFootprintResultCodeMap maxDepth.
Definition RestoreFootprintResultCode_valid (e : Z) : bool := valid_enum restoreFootprintResultCodeMap e.

Inductive XdrRestoreFootprintResult : Type :=
| RestoreFootprintResult_RestoreFootprintSuccess
| RestoreFootprintResult_RestoreFootprintMalformed
| RestoreFootprintResult_RestoreFootprintResourceLimitExceeded
| RestoreFootprintResult_RestoreFootprintInsufficientRefundableFee.
Definition RestoreFootprintResult_EncodeTo (u : XdrRestoreFootprintResult) : option bytes :=
  match u with
  | RestoreFootprintResult_RestoreFootprintSuccess => write! RestoreFootprintResultCode_EncodeTo 0 in written
  | RestoreFootprintResult_RestoreFootprintMalformed => write! RestoreFootprintResultCode_EncodeTo (-1) in written
  | RestoreFootprintResult_RestoreFootprintResourceLimitExceeded => write! RestoreFootprintResultCode_EncodeTo (-2) in written
  | RestoreFootprintResult_RestoreFootprintInsufficientRefundableFee => write! RestoreFootprintResultCode_EncodeTo (-3) in written
  end.
Definition RestoreFootprintResult_DecodeFrom (maxDepth : nat) : decode XdrRestoreFootprintResult := nested maxDepth (fun maxDepth =>
  read! code := RestoreFootprintResultCode_DecodeFrom maxDepth in
  if code =? 0 then ret RestoreFootprintResult_RestoreFootprintSuccess else
  if code =? (-1) then ret RestoreFootprintResult_RestoreFootprintMalformed else
  if code =? (-2) then ret RestoreFootprintResult_RestoreFootprintResourceLimitExceeded else
  if code =? (-3) then ret RestoreFootprintResult_RestoreFootprintInsufficientRefundableFee else
  invalid).
Definition RestoreFootprintResult_valid (u : XdrRestoreFootprintResult) : bool :=
  match u with
  | RestoreFootprintResult_RestoreFootprintSuccess => true
  | RestoreFootprintResult_RestoreFootprintMalformed => true
  | RestoreFootprintResult_RestoreFootprintResourceLimitExceeded => true
  | RestoreFootprintResult_RestoreFootprintInsufficientRefundableFee => true
  end.

Inductive XdrOperationResultTr : Type :=
| OperationResultTr_CreateAccount (createAccountResult : XdrCreateAccountResult)
| OperationResultTr_Payment (paymentResult : XdrPaymentResult)
| OperationResultTr_PathPaymentStrictReceive (pathPaymentStrictReceiveResult : XdrPathPaymentStrictReceiveResult)
| OperationResultTr_ManageSellOffer (manageSellOfferResult : XdrManageSellOfferResult)
| OperationResultTr_CreatePassiveSellOffer (createPassiveSellOfferResult : XdrManageSellOfferResult)
| OperationResultTr_SetOptions (setOptionsResult : XdrSetOptionsResult)
| OperationResultTr_ChangeTrust (changeTrustResult : XdrChangeTrustResult)
| OperationResultTr_AllowTrust (allowTrustResult : XdrAllowTrustResult)
| OperationResultTr_AccountMerge (accountMergeResult : XdrAccountMergeResult)
| OperationResultTr_Inflation (inflationResult : XdrInflationResult)
| OperationResultTr_ManageData (manageDataResult : XdrManageDataResult)
| OperationResultTr_BumpSequence (bumpSeqResult : XdrBumpSequenceResult)
| OperationResultTr_ManageBuyOffer (manageBuyOfferResult : XdrManageBuyOfferResult)
| OperationResultTr_PathPaymentStrictSend (pathPaymentStrictSendResult : XdrPathPaymentStrictSendResult)
| OperationResultTr_CreateClaimableBalance (createClaimableBalanceResult : XdrCreateClaimableBalanceResult)
| OperationResultTr_ClaimClaimableBalance (claimClaimableBalanceResult : XdrClaimClaimableBalanceResult)
| OperationResultTr_BeginSponsoringFutureReserves (beginSponsoringFutureReservesResult : XdrBeginSponsoringFutureReservesResult)
| OperationResultTr_EndSponsoringFutureReserves (endSponsoringFutureReservesResult : XdrEndSponsoringFutureReservesResult)
| OperationResultTr_RevokeSponsorship (revokeSponsorshipResult : XdrRevokeSponsorshipResult)
| OperationResultTr_Clawback (clawbackResult : XdrClawbackResult)
| OperationResultTr_ClawbackClaimableBalance (clawbackClaimableBalanceResult : XdrClawbackClaimableBalanceResult)
| OperationResultTr_SetTrustLineFlags (setTrustLineFlagsResult : XdrSetTrustLineFlagsResult)
| OperationResultTr_LiquidityPoolDeposit (liquidityPoolDepositResult : XdrLiquidityPoolDepositResult)
| OperationResultTr_LiquidityPoolWithdraw (liquidityPoolWithdrawResult : XdrLiquidityPoolWithdrawResult)
| OperationResultTr_InvokeHostFunction (invokeHostFunctionResult : XdrInvokeHostFunctionResult)
| OperationResultTr_ExtendFootprintTtl (extendFootprintTtlResult : XdrExtendFootprintTtlResult)
| OperationResultTr_RestoreFootprint (restoreFootprintResult : XdrRestoreFootprintResult).
Definition OperationResultTr_EncodeTo (u : XdrOperationResultTr) : option bytes :=
  match u with
  | OperationResultTr_CreateAccount createAccountResult => write! OperationType_EncodeTo 0 in write! CreateAccountResult_EncodeTo
      createAccountResult in written
  | OperationResultTr_Payment paymentResult => write! OperationType_EncodeTo 1 in write! PaymentResult_EncodeTo paymentResult in written
  | OperationResultTr_PathPaymentStrictReceive pathPaymentStrictReceiveResult => write! OperationType_EncodeTo 2 in write!
      PathPaymentStrictReceiveResult_EncodeTo pathPaymentStrictReceiveResult in written
  | OperationResultTr_ManageSellOffer manageSellOfferResult => write! OperationType_EncodeTo 3 in write! ManageSellOfferResult_EncodeTo
      manageSellOfferResult in written
  | OperationResultTr_CreatePassiveSellOffer createPassiveSellOfferResult => write! OperationType_EncodeTo 4 in write!
      ManageSellOfferResult_EncodeTo createPassiveSellOfferResult in written
  | OperationResultTr_SetOptions setOptionsResult => write! OperationType_EncodeTo 5 in write! SetOptionsResult_EncodeTo setOptionsResult
      in written
  | OperationResultTr_ChangeTrust changeTrustResult => write! OperationType_EncodeTo 6 in write! ChangeTrustResult_EncodeTo
      changeTrustResult in written
  | OperationResultTr_AllowTrust allowTrustResult => write! OperationType_EncodeTo 7 in write! AllowTrustResult_EncodeTo allowTrustResult
      in written
  | OperationResultTr_AccountMerge accountMergeResult => write! OperationType_EncodeTo 8 in write! AccountMergeResult_EncodeTo
      accountMergeResult in written
  | OperationResultTr_Inflation inflationResult => write! OperationType_EncodeTo 9 in write! InflationResult_EncodeTo inflationResult in
      written
  | OperationResultTr_ManageData manageDataResult => write! OperationType_EncodeTo 10 in write! ManageDataResult_EncodeTo manageDataResult
      in written
  | OperationResultTr_BumpSequence bumpSeqResult => write! OperationType_EncodeTo 11 in write! BumpSequenceResult_EncodeTo bumpSeqResult in
      written
  | OperationResultTr_ManageBuyOffer manageBuyOfferResult => write! OperationType_EncodeTo 12 in write! ManageBuyOfferResult_EncodeTo
      manageBuyOfferResult in written
  | OperationResultTr_PathPaymentStrictSend pathPaymentStrictSendResult => write! OperationType_EncodeTo 13 in write!
      PathPaymentStrictSendResult_EncodeTo pathPaymentStrictSendResult in written
  | OperationResultTr_CreateClaimableBalance createClaimableBalanceResult => write! OperationType_EncodeTo 14 in write!
      CreateClaimableBalanceResult_EncodeTo createClaimableBalanceResult in written
  | OperationResultTr_ClaimClaimableBalance claimClaimableBalanceResult => write! OperationType_EncodeTo 15 in write!
      ClaimClaimableBalanceResult_EncodeTo claimClaimableBalanceResult in written
  | OperationResultTr_BeginSponsoringFutureReserves beginSponsoringFutureReservesResult => write! OperationType_EncodeTo 16 in write!
      BeginSponsoringFutureReservesResult_EncodeTo beginSponsoringFutureReservesResult in written
  | OperationResultTr_EndSponsoringFutureReserves endSponsoringFutureReservesResult => write! OperationType_EncodeTo 17 in write!
      EndSponsoringFutureReservesResult_EncodeTo endSponsoringFutureReservesResult in written
  | OperationResultTr_RevokeSponsorship revokeSponsorshipResult => write! OperationType_EncodeTo 18 in write!
      RevokeSponsorshipResult_EncodeTo revokeSponsorshipResult in written
  | OperationResultTr_Clawback clawbackResult => write! OperationType_EncodeTo 19 in write! ClawbackResult_EncodeTo clawbackResult in
      written
  | OperationResultTr_ClawbackClaimableBalance clawbackClaimableBalanceResult => write! OperationType_EncodeTo 20 in write!
      ClawbackClaimableBalanceResult_EncodeTo clawbackClaimableBalanceResult in written
  | OperationResultTr_SetTrustLineFlags setTrustLineFlagsResult => write! OperationType_EncodeTo 21 in write!
      SetTrustLineFlagsResult_EncodeTo setTrustLineFlagsResult in written
  | OperationResultTr_LiquidityPoolDeposit liquidityPoolDepositResult => write! OperationType_EncodeTo 22 in write!
      LiquidityPoolDepositResult_EncodeTo liquidityPoolDepositResult in written
  | OperationResultTr_LiquidityPoolWithdraw liquidityPoolWithdrawResult => write! OperationType_EncodeTo 23 in write!
      LiquidityPoolWithdrawResult_EncodeTo liquidityPoolWithdrawResult in written
  | OperationResultTr_InvokeHostFunction invokeHostFunctionResult => write! OperationType_EncodeTo 24 in write!
      InvokeHostFunctionResult_EncodeTo invokeHostFunctionResult in written
  | OperationResultTr_ExtendFootprintTtl extendFootprintTtlResult => write! OperationType_EncodeTo 25 in write!
      ExtendFootprintTtlResult_EncodeTo extendFootprintTtlResult in written
  | OperationResultTr_RestoreFootprint restoreFootprintResult => write! OperationType_EncodeTo 26 in write! RestoreFootprintResult_EncodeTo
      restoreFootprintResult in written
  end.
Definition OperationResultTr_DecodeFrom (maxDepth : nat) : decode XdrOperationResultTr := nested maxDepth (fun maxDepth =>
  read! type_ := OperationType_DecodeFrom maxDepth in
  if type_ =? 0 then tracked "CreateAccountResult" (read! createAccountResult := CreateAccountResult_DecodeFrom maxDepth in ret
      (OperationResultTr_CreateAccount createAccountResult)) else
  if type_ =? 1 then tracked "PaymentResult" (read! paymentResult := PaymentResult_DecodeFrom maxDepth in ret (OperationResultTr_Payment
      paymentResult)) else
  if type_ =? 2 then tracked "PathPaymentStrictReceiveResult" (read! pathPaymentStrictReceiveResult :=
      PathPaymentStrictReceiveResult_DecodeFrom maxDepth in ret (OperationResultTr_PathPaymentStrictReceive
      pathPaymentStrictReceiveResult)) else
  if type_ =? 3 then tracked "ManageSellOfferResult" (read! manageSellOfferResult := ManageSellOfferResult_DecodeFrom maxDepth in ret
      (OperationResultTr_ManageSellOffer manageSellOfferResult)) else
  if type_ =? 4 then tracked "ManageSellOfferResult" (read! createPassiveSellOfferResult := ManageSellOfferResult_DecodeFrom maxDepth in
      ret (OperationResultTr_CreatePassiveSellOffer createPassiveSellOfferResult)) else
  if type_ =? 5 then tracked "SetOptionsResult" (read! setOptionsResult := SetOptionsResult_DecodeFrom maxDepth in ret
      (OperationResultTr_SetOptions setOptionsResult)) else
  if type_ =? 6 then tracked "ChangeTrustResult" (read! changeTrustResult := ChangeTrustResult_DecodeFrom maxDepth in ret
      (OperationResultTr_ChangeTrust changeTrustResult)) else
  if type_ =? 7 then tracked "AllowTrustResult" (read! allowTrustResult := AllowTrustResult_DecodeFrom maxDepth in ret
      (OperationResultTr_AllowTrust allowTrustResult)) else
  if type_ =? 8 then tracked "AccountMergeResult" (read! accountMergeResult := AccountMergeResult_DecodeFrom maxDepth in ret
      (OperationResultTr_AccountMerge accountMergeResult)) else
  if type_ =? 9 then tracked "InflationResult" (read! inflationResult := InflationResult_DecodeFrom maxDepth in ret
      (OperationResultTr_Inflation inflationResult)) else
  if type_ =? 10 then tracked "ManageDataResult" (read! manageDataResult := ManageDataResult_DecodeFrom maxDepth in ret
      (OperationResultTr_ManageData manageDataResult)) else
  if type_ =? 11 then tracked "BumpSequenceResult" (read! bumpSeqResult := BumpSequenceResult_DecodeFrom maxDepth in ret
      (OperationResultTr_BumpSequence bumpSeqResult)) else
  if type_ =? 12 then tracked "ManageBuyOfferResult" (read! manageBuyOfferResult := ManageBuyOfferResult_DecodeFrom maxDepth in ret
      (OperationResultTr_ManageBuyOffer manageBuyOfferResult)) else
  if type_ =? 13 then tracked "PathPaymentStrictSendResult" (read! pathPaymentStrictSendResult := PathPaymentStrictSendResult_DecodeFrom
      maxDepth in ret (OperationResultTr_PathPaymentStrictSend pathPaymentStrictSendResult)) else
  if type_ =? 14 then tracked "CreateClaimableBalanceResult" (read! createClaimableBalanceResult := CreateClaimableBalanceResult_DecodeFrom
      maxDepth in ret (OperationResultTr_CreateClaimableBalance createClaimableBalanceResult)) else
  if type_ =? 15 then tracked "ClaimClaimableBalanceResult" (read! claimClaimableBalanceResult := ClaimClaimableBalanceResult_DecodeFrom
      maxDepth in ret (OperationResultTr_ClaimClaimableBalance claimClaimableBalanceResult)) else
  if type_ =? 16 then tracked "BeginSponsoringFutureReservesResult" (read! beginSponsoringFutureReservesResult :=
      BeginSponsoringFutureReservesResult_DecodeFrom maxDepth in ret (OperationResultTr_BeginSponsoringFutureReserves
      beginSponsoringFutureReservesResult)) else
  if type_ =? 17 then tracked "EndSponsoringFutureReservesResult" (read! endSponsoringFutureReservesResult :=
      EndSponsoringFutureReservesResult_DecodeFrom maxDepth in ret (OperationResultTr_EndSponsoringFutureReserves
      endSponsoringFutureReservesResult)) else
  if type_ =? 18 then tracked "RevokeSponsorshipResult" (read! revokeSponsorshipResult := RevokeSponsorshipResult_DecodeFrom maxDepth in
      ret (OperationResultTr_RevokeSponsorship revokeSponsorshipResult)) else
  if type_ =? 19 then tracked "ClawbackResult" (read! clawbackResult := ClawbackResult_DecodeFrom maxDepth in ret
      (OperationResultTr_Clawback clawbackResult)) else
  if type_ =? 20 then tracked "ClawbackClaimableBalanceResult" (read! clawbackClaimableBalanceResult :=
      ClawbackClaimableBalanceResult_DecodeFrom maxDepth in ret (OperationResultTr_ClawbackClaimableBalance
      clawbackClaimableBalanceResult)) else
  if type_ =? 21 then tracked "SetTrustLineFlagsResult" (read! setTrustLineFlagsResult := SetTrustLineFlagsResult_DecodeFrom maxDepth in
      ret (OperationResultTr_SetTrustLineFlags setTrustLineFlagsResult)) else
  if type_ =? 22 then tracked "LiquidityPoolDepositResult" (read! liquidityPoolDepositResult := LiquidityPoolDepositResult_DecodeFrom
      maxDepth in ret (OperationResultTr_LiquidityPoolDeposit liquidityPoolDepositResult)) else
  if type_ =? 23 then tracked "LiquidityPoolWithdrawResult" (read! liquidityPoolWithdrawResult := LiquidityPoolWithdrawResult_DecodeFrom
      maxDepth in ret (OperationResultTr_LiquidityPoolWithdraw liquidityPoolWithdrawResult)) else
  if type_ =? 24 then tracked "InvokeHostFunctionResult" (read! invokeHostFunctionResult := InvokeHostFunctionResult_DecodeFrom maxDepth in
      ret (OperationResultTr_InvokeHostFunction invokeHostFunctionResult)) else
  if type_ =? 25 then tracked "ExtendFootprintTtlResult" (read! extendFootprintTtlResult := ExtendFootprintTtlResult_DecodeFrom maxDepth in
      ret (OperationResultTr_ExtendFootprintTtl extendFootprintTtlResult)) else
  if type_ =? 26 then tracked "RestoreFootprintResult" (read! restoreFootprintResult := RestoreFootprintResult_DecodeFrom maxDepth in ret
      (OperationResultTr_RestoreFootprint restoreFootprintResult)) else
  invalid).
Definition OperationResultTr_valid (u : XdrOperationResultTr) : bool :=
  match u with
  | OperationResultTr_CreateAccount createAccountResult => CreateAccountResult_valid createAccountResult
  | OperationResultTr_Payment paymentResult => PaymentResult_valid paymentResult
  | OperationResultTr_PathPaymentStrictReceive pathPaymentStrictReceiveResult => PathPaymentStrictReceiveResult_valid
      pathPaymentStrictReceiveResult
  | OperationResultTr_ManageSellOffer manageSellOfferResult => ManageSellOfferResult_valid manageSellOfferResult
  | OperationResultTr_CreatePassiveSellOffer createPassiveSellOfferResult => ManageSellOfferResult_valid createPassiveSellOfferResult
  | OperationResultTr_SetOptions setOptionsResult => SetOptionsResult_valid setOptionsResult
  | OperationResultTr_ChangeTrust changeTrustResult => ChangeTrustResult_valid changeTrustResult
  | OperationResultTr_AllowTrust allowTrustResult => AllowTrustResult_valid allowTrustResult
  | OperationResultTr_AccountMerge accountMergeResult => AccountMergeResult_valid accountMergeResult
  | OperationResultTr_Inflation inflationResult => InflationResult_valid inflationResult
  | OperationResultTr_ManageData manageDataResult => ManageDataResult_valid manageDataResult
  | OperationResultTr_BumpSequence bumpSeqResult => BumpSequenceResult_valid bumpSeqResult
  | OperationResultTr_ManageBuyOffer manageBuyOfferResult => ManageBuyOfferResult_valid manageBuyOfferResult
  | OperationResultTr_PathPaymentStrictSend pathPaymentStrictSendResult => PathPaymentStrictSendResult_valid pathPaymentStrictSendResult
  | OperationResultTr_CreateClaimableBalance createClaimableBalanceResult => CreateClaimableBalanceResult_valid createClaimableBalanceResult
  | OperationResultTr_ClaimClaimableBalance claimClaimableBalanceResult => ClaimClaimableBalanceResult_valid claimClaimableBalanceResult
  | OperationResultTr_BeginSponsoringFutureReserves beginSponsoringFutureReservesResult => BeginSponsoringFutureReservesResult_valid
      beginSponsoringFutureReservesResult
  | OperationResultTr_EndSponsoringFutureReserves endSponsoringFutureReservesResult => EndSponsoringFutureReservesResult_valid
      endSponsoringFutureReservesResult
  | OperationResultTr_RevokeSponsorship revokeSponsorshipResult => RevokeSponsorshipResult_valid revokeSponsorshipResult
  | OperationResultTr_Clawback clawbackResult => ClawbackResult_valid clawbackResult
  | OperationResultTr_ClawbackClaimableBalance clawbackClaimableBalanceResult => ClawbackClaimableBalanceResult_valid
      clawbackClaimableBalanceResult
  | OperationResultTr_SetTrustLineFlags setTrustLineFlagsResult => SetTrustLineFlagsResult_valid setTrustLineFlagsResult
  | OperationResultTr_LiquidityPoolDeposit liquidityPoolDepositResult => LiquidityPoolDepositResult_valid liquidityPoolDepositResult
  | OperationResultTr_LiquidityPoolWithdraw liquidityPoolWithdrawResult => LiquidityPoolWithdrawResult_valid liquidityPoolWithdrawResult
  | OperationResultTr_InvokeHostFunction invokeHostFunctionResult => InvokeHostFunctionResult_valid invokeHostFunctionResult
  | OperationResultTr_ExtendFootprintTtl extendFootprintTtlResult => ExtendFootprintTtlResult_valid extendFootprintTtlResult
  | OperationResultTr_RestoreFootprint restoreFootprintResult => RestoreFootprintResult_valid restoreFootprintResult
  end.

Inductive XdrOperationResult : Type :=
| OperationResult_OpInner (tr : XdrOperationResultTr)
| OperationResult_OpBadAuth
| OperationResult_OpNoAccount
| OperationResult_OpNotSupported
| OperationResult_OpTooManySubentries
| OperationResult_OpExceededWorkLimit
| OperationResult_OpTooManySponsoring.
Definition OperationResult_EncodeTo (u : XdrOperationResult) : option bytes :=
  match u with
  | OperationResult_OpInner tr => write! OperationResultCode_EncodeTo 0 in write! OperationResultTr_EncodeTo tr in written
  | OperationResult_OpBadAuth => write! OperationResultCode_EncodeTo (-1) in written
  | OperationResult_OpNoAccount => write! OperationResultCode_EncodeTo (-2) in written
  | OperationResult_OpNotSupported => write! OperationResultCode_EncodeTo (-3) in written
  | OperationResult_OpTooManySubentries => write! OperationResultCode_EncodeTo (-4) in written
  | OperationResult_OpExceededWorkLimit => write! OperationResultCode_EncodeTo (-5) in written
  | OperationResult_OpTooManySponsoring => write! OperationResultCode_EncodeTo (-6) in written
  end.
Definition OperationResult_DecodeFrom (maxDepth : nat) : decode XdrOperationResult := nested maxDepth (fun maxDepth =>
  read! code := OperationResultCode_DecodeFrom maxDepth in
  if code =? 0 then tracked "OperationResultTr" (read! tr := OperationResultTr_DecodeFrom maxDepth in ret (OperationResult_OpInner tr)) else
  if code =? (-1) then ret OperationResult_OpBadAuth else
  if code =? (-2) then ret OperationResult_OpNoAccount else
  if code =? (-3) then ret OperationResult_OpNotSupported else
  if code =? (-4) then ret OperationResult_OpTooManySubentries else
  if code =? (-5) then ret OperationResult_OpExceededWorkLimit else
  if code =? (-6) then ret OperationResult_OpTooManySponsoring else
  invalid).
Definition OperationResult_valid (u : XdrOperationResult) : bool :=
  match u with
  | OperationResult_OpInner tr => OperationResultTr_valid tr
  | OperationResult_OpBadAuth => true
  | OperationResult_OpNoAccount => true
  | OperationResult_OpNotSupported => true
  | OperationResult_OpTooManySubentries => true
  | OperationResult_OpExceededWorkLimit => true
  | OperationResult_OpTooManySponsoring => true
  end.

Inductive XdrInnerTransactionResultResult : Type :=
| InnerTransactionResultResult_TxSuccess (results : list XdrOperationResult)
| InnerTransactionResultResult_TxFailed (results : list XdrOperationResult)
| InnerTransactionResultResult_TxTooEarly
| InnerTransactionResultResult_TxTooLate
| InnerTransactionResultResult_TxMissingOperation
| InnerTransactionResultResult_TxBadSeq
| InnerTransactionResultResult_TxBadAuth
| InnerTransactionResultResult_TxInsufficientBalance
| InnerTransactionResultResult_TxNoAccount
| InnerTransactionResultResult_TxInsufficientFee
| InnerTransactionResultResult_TxBadAuthExtra
| InnerTransactionResultResult_TxInternalError
| InnerTransactionResultResult_TxNotSupported
| InnerTransactionResultResult_TxBadSponsorship
| InnerTransactionResultResult_TxBadMinSeqAgeOrGap
| InnerTransactionResultResult_TxMalformed
| InnerTransactionResultResult_TxSorobanInvalid
| InnerTransactionResultResult_TxFrozenKeyAccessed.
Definition InnerTransactionResultResult_EncodeTo (u : XdrInnerTransactionResultResult) : option bytes :=
  match u with
  | InnerTransactionResultResult_TxSuccess results => write! TransactionResultCode_EncodeTo 0 in write! slice_EncodeTo
      OperationResult_EncodeTo results in written
  | InnerTransactionResultResult_TxFailed results => write! TransactionResultCode_EncodeTo (-1) in write! slice_EncodeTo
      OperationResult_EncodeTo results in written
  | InnerTransactionResultResult_TxTooEarly => write! TransactionResultCode_EncodeTo (-2) in written
  | InnerTransactionResultResult_TxTooLate => write! TransactionResultCode_EncodeTo (-3) in written
  | InnerTransactionResultResult_TxMissingOperation => write! TransactionResultCode_EncodeTo (-4) in written
  | InnerTransactionResultResult_TxBadSeq => write! TransactionResultCode_EncodeTo (-5) in written
  | InnerTransactionResultResult_TxBadAuth => write! TransactionResultCode_EncodeTo (-6) in written
  | InnerTransactionResultResult_TxInsufficientBalance => write! TransactionResultCode_EncodeTo (-7) in written
  | InnerTransactionResultResult_TxNoAccount => write! TransactionResultCode_EncodeTo (-8) in written
  | InnerTransactionResultResult_TxInsufficientFee => write! TransactionResultCode_EncodeTo (-9) in written
  | InnerTransactionResultResult_TxBadAuthExtra => write! TransactionResultCode_EncodeTo (-10) in written
  | InnerTransactionResultResult_TxInternalError => write! TransactionResultCode_EncodeTo (-11) in written
  | InnerTransactionResultResult_TxNotSupported => write! TransactionResultCode_EncodeTo (-12) in written
  | InnerTransactionResultResult_TxBadSponsorship => write! TransactionResultCode_EncodeTo (-14) in written
  | InnerTransactionResultResult_TxBadMinSeqAgeOrGap => write! TransactionResultCode_EncodeTo (-15) in written
  | InnerTransactionResultResult_TxMalformed => write! TransactionResultCode_EncodeTo (-16) in written
  | InnerTransactionResultResult_TxSorobanInvalid => write! TransactionResultCode_EncodeTo (-17) in written
  | InnerTransactionResultResult_TxFrozenKeyAccessed => write! TransactionResultCode_EncodeTo (-18) in written
  end.
Definition InnerTransactionResultResult_DecodeFrom (maxDepth : nat) : decode XdrInnerTransactionResultResult := nested maxDepth (fun
    maxDepth =>
  read! code := TransactionResultCode_DecodeFrom maxDepth in
  if code =? 0 then tracked "[]OperationResult" (read! results := slice_DecodeFrom "OperationResult" None (OperationResult_DecodeFrom
      maxDepth) in ret (InnerTransactionResultResult_TxSuccess results)) else
  if code =? (-1) then tracked "[]OperationResult" (read! results := slice_DecodeFrom "OperationResult" None (OperationResult_DecodeFrom
      maxDepth) in ret (InnerTransactionResultResult_TxFailed results)) else
  if code =? (-2) then ret InnerTransactionResultResult_TxTooEarly else
  if code =? (-3) then ret InnerTransactionResultResult_TxTooLate else
  if code =? (-4) then ret InnerTransactionResultResult_TxMissingOperation else
  if code =? (-5) then ret InnerTransactionResultResult_TxBadSeq else
  if code =? (-6) then ret InnerTransactionResultResult_TxBadAuth else
  if code =? (-7) then ret InnerTransactionResultResult_TxInsufficientBalance else
  if code =? (-8) then ret InnerTransactionResultResult_TxNoAccount else
  if code =? (-9) then ret InnerTransactionResultResult_TxInsufficientFee else
  if code =? (-10) then ret InnerTransactionResultResult_TxBadAuthExtra else
  if code =? (-11) then ret InnerTransactionResultResult_TxInternalError else
  if code =? (-12) then ret InnerTransactionResultResult_TxNotSupported else
  if code =? (-14) then ret InnerTransactionResultResult_TxBadSponsorship else
  if code =? (-15) then ret InnerTransactionResultResult_TxBadMinSeqAgeOrGap else
  if code =? (-16) then ret InnerTransactionResultResult_TxMalformed else
  if code =? (-17) then ret InnerTransactionResultResult_TxSorobanInvalid else
  if code =? (-18) then ret InnerTransactionResultResult_TxFrozenKeyAccessed else
  invalid).
Definition InnerTransactionResultResult_valid (u : XdrInnerTransactionResultResult) : bool :=
  match u with
  | InnerTransactionResultResult_TxSuccess results => (valid_slice None OperationResult_valid) results
  | InnerTransactionResultResult_TxFailed results => (valid_slice None OperationResult_valid) results
  | InnerTransactionResultResult_TxTooEarly => true
  | InnerTransactionResultResult_TxTooLate => true
  | InnerTransactionResultResult_TxMissingOperation => true
  | InnerTransactionResultResult_TxBadSeq => true
  | InnerTransactionResultResult_TxBadAuth => true
  | InnerTransactionResultResult_TxInsufficientBalance => true
  | InnerTransactionResultResult_TxNoAccount => true
  | InnerTransactionResultResult_TxInsufficientFee => true
  | InnerTransactionResultResult_TxBadAuthExtra => true
  | InnerTransactionResultResult_TxInternalError => true
  | InnerTransactionResultResult_TxNotSupported => true
  | InnerTransactionResultResult_TxBadSponsorship => true
  | InnerTransactionResultResult_TxBadMinSeqAgeOrGap => true
  | InnerTransactionResultResult_TxMalformed => true
  | InnerTransactionResultResult_TxSorobanInvalid => true
  | InnerTransactionResultResult_TxFrozenKeyAccessed => true
  end.

Definition InnerTransactionResultExt_EncodeTo (u : unit) : option bytes :=
  match u with
  | tt => write! EncodeInt 0 in written
  end.
Definition InnerTransactionResultExt_DecodeFrom (maxDepth : nat) : decode unit := nested maxDepth (fun maxDepth =>
  read! v := DecodeInt in
  if v =? 0 then ret tt else
  invalid).
Definition InnerTransactionResultExt_valid (u : unit) : bool :=
  match u with
  | tt => true
  end.

Record XdrInnerTransactionResult : Type := mkXdrInnerTransactionResult {
  InnerTransactionResult_FeeCharged : Z;
  InnerTransactionResult_Result : XdrInnerTransactionResultResult
}.
Definition InnerTransactionResult_EncodeTo (s : XdrInnerTransactionResult) : option bytes :=
  let '(mkXdrInnerTransactionResult feeCharged result) := s in
  write! Int64_EncodeTo feeCharged in
  write! InnerTransactionResultResult_EncodeTo result in
  write! InnerTransactionResultExt_EncodeTo tt in
  written.
Definition InnerTransactionResult_DecodeFrom (maxDepth : nat) : decode XdrInnerTransactionResult := nested maxDepth (fun maxDepth =>
  read! feeCharged := Int64_DecodeFrom maxDepth in
  read! result := InnerTransactionResultResult_DecodeFrom maxDepth in
  read! _ := InnerTransactionResultExt_DecodeFrom maxDepth in
  ret (mkXdrInnerTransactionResult feeCharged result)).
Definition InnerTransactionResult_valid (s : XdrInnerTransactionResult) : bool :=
  let '(mkXdrInnerTransactionResult feeCharged result) := s in
  Int64_valid feeCharged && InnerTransactionResultResult_valid result.

Record XdrInnerTransactionResultPair : Type := mkXdrInnerTransactionResultPair {
  InnerTransactionResultPair_TransactionHash : vec byte 32;
  InnerTransactionResultPair_Result : XdrInnerTransactionResult
}.
Definition InnerTransactionResultPair_EncodeTo (s : XdrInnerTransactionResultPair) : option bytes :=
  let '(mkXdrInnerTransactionResultPair transactionHash result) := s in
  write! Hash_EncodeTo transactionHash in
  write! InnerTransactionResult_EncodeTo result in
  written.
Definition InnerTransactionResultPair_DecodeFrom (maxDepth : nat) : decode XdrInnerTransactionResultPair := nested maxDepth (fun maxDepth =>
  read! transactionHash := Hash_DecodeFrom maxDepth in
  read! result := InnerTransactionResult_DecodeFrom maxDepth in
  ret (mkXdrInnerTransactionResultPair transactionHash result)).
Definition InnerTransactionResultPair_valid (s : XdrInnerTransactionResultPair) : bool :=
  let '(mkXdrInnerTransactionResultPair transactionHash result) := s in
  Hash_valid transactionHash && InnerTransactionResult_valid result.

Inductive XdrTransactionResultResult : Type :=
| TransactionResultResult_TxFeeBumpInnerSuccess (innerResultPair : XdrInnerTransactionResultPair)
| TransactionResultResult_TxFeeBumpInnerFailed (innerResultPair : XdrInnerTransactionResultPair)
| TransactionResultResult_TxSuccess (results : list XdrOperationResult)
| TransactionResultResult_TxFailed (results : list XdrOperationResult)
| TransactionResultResult_TxTooEarly
| TransactionResultResult_TxTooLate
| TransactionResultResult_TxMissingOperation
| TransactionResultResult_TxBadSeq
| TransactionResultResult_TxBadAuth
| TransactionResultResult_TxInsufficientBalance
| TransactionResultResult_TxNoAccount
| TransactionResultResult_TxInsufficientFee
| TransactionResultResult_TxBadAuthExtra
| TransactionResultResult_TxInternalError
| TransactionResultResult_TxNotSupported
| TransactionResultResult_TxBadSponsorship
| TransactionResultResult_TxBadMinSeqAgeOrGap
| TransactionResultResult_TxMalformed
| TransactionResultResult_TxSorobanInvalid
| TransactionResultResult_TxFrozenKeyAccessed.
Definition TransactionResultResult_EncodeTo (u : XdrTransactionResultResult) : option bytes :=
  match u with
  | TransactionResultResult_TxFeeBumpInnerSuccess innerResultPair => write! TransactionResultCode_EncodeTo 1 in write!
      InnerTransactionResultPair_EncodeTo innerResultPair in written
  | TransactionResultResult_TxFeeBumpInnerFailed innerResultPair => write! TransactionResultCode_EncodeTo (-13) in write!
      InnerTransactionResultPair_EncodeTo innerResultPair in written
  | TransactionResultResult_TxSuccess results => write! TransactionResultCode_EncodeTo 0 in write! slice_EncodeTo OperationResult_EncodeTo
      results in written
  | TransactionResultResult_TxFailed results => write! TransactionResultCode_EncodeTo (-1) in write! slice_EncodeTo
      OperationResult_EncodeTo results in written
  | TransactionResultResult_TxTooEarly => write! TransactionResultCode_EncodeTo (-2) in written
  | TransactionResultResult_TxTooLate => write! TransactionResultCode_EncodeTo (-3) in written
  | TransactionResultResult_TxMissingOperation => write! TransactionResultCode_EncodeTo (-4) in written
  | TransactionResultResult_TxBadSeq => write! TransactionResultCode_EncodeTo (-5) in written
  | TransactionResultResult_TxBadAuth => write! TransactionResultCode_EncodeTo (-6) in written
  | TransactionResultResult_TxInsufficientBalance => write! TransactionResultCode_EncodeTo (-7) in written
  | TransactionResultResult_TxNoAccount => write! TransactionResultCode_EncodeTo (-8) in written
  | TransactionResultResult_TxInsufficientFee => write! TransactionResultCode_EncodeTo (-9) in written
  | TransactionResultResult_TxBadAuthExtra => write! TransactionResultCode_EncodeTo (-10) in written
  | TransactionResultResult_TxInternalError => write! TransactionResultCode_EncodeTo (-11) in written
  | TransactionResultResult_TxNotSupported => write! TransactionResultCode_EncodeTo (-12) in written
  | TransactionResultResult_TxBadSponsorship => write! TransactionResultCode_EncodeTo (-14) in written
  | TransactionResultResult_TxBadMinSeqAgeOrGap => write! TransactionResultCode_EncodeTo (-15) in written
  | TransactionResultResult_TxMalformed => write! TransactionResultCode_EncodeTo (-16) in written
  | TransactionResultResult_TxSorobanInvalid => write! TransactionResultCode_EncodeTo (-17) in written
  | TransactionResultResult_TxFrozenKeyAccessed => write! TransactionResultCode_EncodeTo (-18) in written
  end.
Definition TransactionResultResult_DecodeFrom (maxDepth : nat) : decode XdrTransactionResultResult := nested maxDepth (fun maxDepth =>
  read! code := TransactionResultCode_DecodeFrom maxDepth in
  if code =? 1 then tracked "InnerTransactionResultPair" (read! innerResultPair := InnerTransactionResultPair_DecodeFrom maxDepth in ret
      (TransactionResultResult_TxFeeBumpInnerSuccess innerResultPair)) else
  if code =? (-13) then tracked "InnerTransactionResultPair" (read! innerResultPair := InnerTransactionResultPair_DecodeFrom maxDepth in
      ret (TransactionResultResult_TxFeeBumpInnerFailed innerResultPair)) else
  if code =? 0 then tracked "[]OperationResult" (read! results := slice_DecodeFrom "OperationResult" None (OperationResult_DecodeFrom
      maxDepth) in ret (TransactionResultResult_TxSuccess results)) else
  if code =? (-1) then tracked "[]OperationResult" (read! results := slice_DecodeFrom "OperationResult" None (OperationResult_DecodeFrom
      maxDepth) in ret (TransactionResultResult_TxFailed results)) else
  if code =? (-2) then ret TransactionResultResult_TxTooEarly else
  if code =? (-3) then ret TransactionResultResult_TxTooLate else
  if code =? (-4) then ret TransactionResultResult_TxMissingOperation else
  if code =? (-5) then ret TransactionResultResult_TxBadSeq else
  if code =? (-6) then ret TransactionResultResult_TxBadAuth else
  if code =? (-7) then ret TransactionResultResult_TxInsufficientBalance else
  if code =? (-8) then ret TransactionResultResult_TxNoAccount else
  if code =? (-9) then ret TransactionResultResult_TxInsufficientFee else
  if code =? (-10) then ret TransactionResultResult_TxBadAuthExtra else
  if code =? (-11) then ret TransactionResultResult_TxInternalError else
  if code =? (-12) then ret TransactionResultResult_TxNotSupported else
  if code =? (-14) then ret TransactionResultResult_TxBadSponsorship else
  if code =? (-15) then ret TransactionResultResult_TxBadMinSeqAgeOrGap else
  if code =? (-16) then ret TransactionResultResult_TxMalformed else
  if code =? (-17) then ret TransactionResultResult_TxSorobanInvalid else
  if code =? (-18) then ret TransactionResultResult_TxFrozenKeyAccessed else
  invalid).
Definition TransactionResultResult_valid (u : XdrTransactionResultResult) : bool :=
  match u with
  | TransactionResultResult_TxFeeBumpInnerSuccess innerResultPair => InnerTransactionResultPair_valid innerResultPair
  | TransactionResultResult_TxFeeBumpInnerFailed innerResultPair => InnerTransactionResultPair_valid innerResultPair
  | TransactionResultResult_TxSuccess results => (valid_slice None OperationResult_valid) results
  | TransactionResultResult_TxFailed results => (valid_slice None OperationResult_valid) results
  | TransactionResultResult_TxTooEarly => true
  | TransactionResultResult_TxTooLate => true
  | TransactionResultResult_TxMissingOperation => true
  | TransactionResultResult_TxBadSeq => true
  | TransactionResultResult_TxBadAuth => true
  | TransactionResultResult_TxInsufficientBalance => true
  | TransactionResultResult_TxNoAccount => true
  | TransactionResultResult_TxInsufficientFee => true
  | TransactionResultResult_TxBadAuthExtra => true
  | TransactionResultResult_TxInternalError => true
  | TransactionResultResult_TxNotSupported => true
  | TransactionResultResult_TxBadSponsorship => true
  | TransactionResultResult_TxBadMinSeqAgeOrGap => true
  | TransactionResultResult_TxMalformed => true
  | TransactionResultResult_TxSorobanInvalid => true
  | TransactionResultResult_TxFrozenKeyAccessed => true
  end.

Definition TransactionResultExt_EncodeTo (u : unit) : option bytes :=
  match u with
  | tt => write! EncodeInt 0 in written
  end.
Definition TransactionResultExt_DecodeFrom (maxDepth : nat) : decode unit := nested maxDepth (fun maxDepth =>
  read! v := DecodeInt in
  if v =? 0 then ret tt else
  invalid).
Definition TransactionResultExt_valid (u : unit) : bool :=
  match u with
  | tt => true
  end.

Record XdrTransactionResult : Type := mkXdrTransactionResult {
  TransactionResult_FeeCharged : Z;
  TransactionResult_Result : XdrTransactionResultResult
}.
Definition TransactionResult_EncodeTo (s : XdrTransactionResult) : option bytes :=
  let '(mkXdrTransactionResult feeCharged result) := s in
  write! Int64_EncodeTo feeCharged in
  write! TransactionResultResult_EncodeTo result in
  write! TransactionResultExt_EncodeTo tt in
  written.
Definition TransactionResult_DecodeFrom (maxDepth : nat) : decode XdrTransactionResult := nested maxDepth (fun maxDepth =>
  read! feeCharged := Int64_DecodeFrom maxDepth in
  read! result := TransactionResultResult_DecodeFrom maxDepth in
  read! _ := TransactionResultExt_DecodeFrom maxDepth in
  ret (mkXdrTransactionResult feeCharged result)).
Definition TransactionResult_valid (s : XdrTransactionResult) : bool :=
  let '(mkXdrTransactionResult feeCharged result) := s in
  Int64_valid feeCharged && TransactionResultResult_valid result.

Record XdrTransactionResultPair : Type := mkXdrTransactionResultPair {
  TransactionResultPair_TransactionHash : vec byte 32;
  TransactionResultPair_Result : XdrTransactionResult
}.
Definition TransactionResultPair_EncodeTo (s : XdrTransactionResultPair) : option bytes :=
  let '(mkXdrTransactionResultPair transactionHash result) := s in
  write! Hash_EncodeTo transactionHash in
  write! TransactionResult_EncodeTo result in
  written.
Definition TransactionResultPair_DecodeFrom (maxDepth : nat) : decode XdrTransactionResultPair := nested maxDepth (fun maxDepth =>
  read! transactionHash := Hash_DecodeFrom maxDepth in
  read! result := TransactionResult_DecodeFrom maxDepth in
  ret (mkXdrTransactionResultPair transactionHash result)).
Definition TransactionResultPair_valid (s : XdrTransactionResultPair) : bool :=
  let '(mkXdrTransactionResultPair transactionHash result) := s in
  Hash_valid transactionHash && TransactionResult_valid result.

Definition ledgerEntryChangeTypeMap : list Z := [0; 1; 2; 3; 4].
Definition LedgerEntryChangeType_EncodeTo (e : Z) : option bytes := enum_EncodeTo ledgerEntryChangeTypeMap e.
Definition LedgerEntryChangeType_DecodeFrom (maxDepth : nat) : decode Z := enum_DecodeFrom ledgerEntryChangeTypeMap maxDepth.
Definition LedgerEntryChangeType_valid (e : Z) : bool := valid_enum ledgerEntryChangeTypeMap e.

Definition Thresholds_EncodeTo (s : vec byte 4) : option bytes := write! EncodeFixedOpaque (vec_to_list s) in written.
Definition Thresholds_DecodeFrom (maxDepth : nat) : decode (vec byte 4) := nested maxDepth (fun maxDepth =>
  read! s := DecodeFixedOpaqueInplace 4 in ret s).
Definition Thresholds_valid (s : vec byte 4) : bool := true.

Record XdrLiabilities : Type := mkXdrLiabilities {
  Liabilities_Buying : Z;
  Liabilities_Selling : Z
}.
Definition Liabilities_EncodeTo (s : XdrLiabilities) : option bytes :=
  let '(mkXdrLiabilities buying selling) := s in
  write! Int64_EncodeTo buying in
  write! Int64_EncodeTo selling in
  written.
Definition Liabilities_DecodeFrom (maxDepth : nat) : decode XdrLiabilities := nested maxDepth (fun maxDepth =>
  read! buying := Int64_DecodeFrom maxDepth in
  read! selling := Int64_DecodeFrom maxDepth in
  ret (mkXdrLiabilities buying selling)).
Definition Liabilities_valid (s : XdrLiabilities) : bool :=
  let '(mkXdrLiabilities buying selling) := s in
  Int64_valid buying && Int64_valid selling.

Record XdrAccountEntryExtensionV3 : Type := mkXdrAccountEntryExtensionV3 {
  AccountEntryExtensionV3_SeqLedger : Z;
  AccountEntryExtensionV3_SeqTime : Z
}.
Definition AccountEntryExtensionV3_EncodeTo (s : XdrAccountEntryExtensionV3) : option bytes :=
  let '(mkXdrAccountEntryExtensionV3 seqLedger seqTime) := s in
  write! ExtensionPoint_EncodeTo tt in
  write! Uint32_EncodeTo seqLedger in
  write! TimePoint_EncodeTo seqTime in
  written.
Definition AccountEntryExtensionV3_DecodeFrom (maxDepth : nat) : decode XdrAccountEntryExtensionV3 := nested maxDepth (fun maxDepth =>
  read! _ := ExtensionPoint_DecodeFrom maxDepth in
  read! seqLedger := Uint32_DecodeFrom maxDepth in
  read! seqTime := TimePoint_DecodeFrom maxDepth in
  ret (mkXdrAccountEntryExtensionV3 seqLedger seqTime)).
Definition AccountEntryExtensionV3_valid (s : XdrAccountEntryExtensionV3) : bool :=
  let '(mkXdrAccountEntryExtensionV3 seqLedger seqTime) := s in
  Uint32_valid seqLedger && TimePoint_valid seqTime.

Inductive XdrAccountEntryExtensionV2Ext : Type :=
| AccountEntryExtensionV2Ext_0
| AccountEntryExtensionV2Ext_3 (v3 : XdrAccountEntryExtensionV3).
Definition AccountEntryExtensionV2Ext_EncodeTo (u : XdrAccountEntryExtensionV2Ext) : option bytes :=
  match u with
  | AccountEntryExtensionV2Ext_0 => write! EncodeInt 0 in written
  | AccountEntryExtensionV2Ext_3 v3 => write! EncodeInt 3 in write! AccountEntryExtensionV3_EncodeTo v3 in written
  end.
Definition AccountEntryExtensionV2Ext_DecodeFrom (maxDepth : nat) : decode XdrAccountEntryExtensionV2Ext := nested maxDepth (fun maxDepth =>
  read! v := DecodeInt in
  if v =? 0 then ret AccountEntryExtensionV2Ext_0 else
  if v =? 3 then tracked "AccountEntryExtensionV3" (read! v3 := AccountEntryExtensionV3_DecodeFrom maxDepth in ret
      (AccountEntryExtensionV2Ext_3 v3)) else
  invalid).
Definition AccountEntryExtensionV2Ext_valid (u : XdrAccountEntryExtensionV2Ext) : bool :=
  match u with
  | AccountEntryExtensionV2Ext_0 => true
  | AccountEntryExtensionV2Ext_3 v3 => AccountEntryExtensionV3_valid v3
  end.

Record XdrAccountEntryExtensionV2 : Type := mkXdrAccountEntryExtensionV2 {
  AccountEntryExtensionV2_NumSponsored : Z;
  AccountEntryExtensionV2_NumSponsoring : Z;
  AccountEntryExtensionV2_SignerSponsoringIDs : list (option AccountId);
  AccountEntryExtensionV2_Ext : XdrAccountEntryExtensionV2Ext
}.
Definition AccountEntryExtensionV2_EncodeTo (s : XdrAccountEntryExtensionV2) : option bytes :=
  let '(mkXdrAccountEntryExtensionV2 numSponsored numSponsoring signerSponsoringIDs ext) := s in
  write! Uint32_EncodeTo numSponsored in
  write! Uint32_EncodeTo numSponsoring in
  write! slice_EncodeTo (pointer_EncodeTo AccountId_EncodeTo) signerSponsoringIDs in
  write! AccountEntryExtensionV2Ext_EncodeTo ext in
  written.
Definition AccountEntryExtensionV2_DecodeFrom (maxDepth : nat) : decode XdrAccountEntryExtensionV2 := nested maxDepth (fun maxDepth =>
  read! numSponsored := Uint32_DecodeFrom maxDepth in
  read! numSponsoring := Uint32_DecodeFrom maxDepth in
  read! signerSponsoringIDs := slice_DecodeFrom "SponsorshipDescriptor" (Some 20) (pointer_DecodeFrom "AccountId" (AccountId_DecodeFrom
      maxDepth)) in
  read! ext := AccountEntryExtensionV2Ext_DecodeFrom maxDepth in
  ret (mkXdrAccountEntryExtensionV2 numSponsored numSponsoring signerSponsoringIDs ext)).
Definition AccountEntryExtensionV2_valid (s : XdrAccountEntryExtensionV2) : bool :=
  let '(mkXdrAccountEntryExtensionV2 numSponsored numSponsoring signerSponsoringIDs ext) := s in
  Uint32_valid numSponsored && Uint32_valid numSponsoring && valid_slice (Some 20) (valid_pointer AccountId_valid) signerSponsoringIDs &&
      AccountEntryExtensionV2Ext_valid ext.

Inductive XdrAccountEntryExtensionV1Ext : Type :=
| AccountEntryExtensionV1Ext_0
| AccountEntryExtensionV1Ext_2 (v2 : XdrAccountEntryExtensionV2).
Definition AccountEntryExtensionV1Ext_EncodeTo (u : XdrAccountEntryExtensionV1Ext) : option bytes :=
  match u with
  | AccountEntryExtensionV1Ext_0 => write! EncodeInt 0 in written
  | AccountEntryExtensionV1Ext_2 v2 => write! EncodeInt 2 in write! AccountEntryExtensionV2_EncodeTo v2 in written
  end.
Definition AccountEntryExtensionV1Ext_DecodeFrom (maxDepth : nat) : decode XdrAccountEntryExtensionV1Ext := nested maxDepth (fun maxDepth =>
  read! v := DecodeInt in
  if v =? 0 then ret AccountEntryExtensionV1Ext_0 else
  if v =? 2 then tracked "AccountEntryExtensionV2" (read! v2 := AccountEntryExtensionV2_DecodeFrom maxDepth in ret
      (AccountEntryExtensionV1Ext_2 v2)) else
  invalid).
Definition AccountEntryExtensionV1Ext_valid (u : XdrAccountEntryExtensionV1Ext) : bool :=
  match u with
  | AccountEntryExtensionV1Ext_0 => true
  | AccountEntryExtensionV1Ext_2 v2 => AccountEntryExtensionV2_valid v2
  end.

Record XdrAccountEntryExtensionV1 : Type := mkXdrAccountEntryExtensionV1 {
  AccountEntryExtensionV1_Liabilities : XdrLiabilities;
  AccountEntryExtensionV1_Ext : XdrAccountEntryExtensionV1Ext
}.
Definition AccountEntryExtensionV1_EncodeTo (s : XdrAccountEntryExtensionV1) : option bytes :=
  let '(mkXdrAccountEntryExtensionV1 liabilities ext) := s in
  write! Liabilities_EncodeTo liabilities in
  write! AccountEntryExtensionV1Ext_EncodeTo ext in
  written.
Definition AccountEntryExtensionV1_DecodeFrom (maxDepth : nat) : decode XdrAccountEntryExtensionV1 := nested maxDepth (fun maxDepth =>
  read! liabilities := Liabilities_DecodeFrom maxDepth in
  read! ext := AccountEntryExtensionV1Ext_DecodeFrom maxDepth in
  ret (mkXdrAccountEntryExtensionV1 liabilities ext)).
Definition AccountEntryExtensionV1_valid (s : XdrAccountEntryExtensionV1) : bool :=
  let '(mkXdrAccountEntryExtensionV1 liabilities ext) := s in
  Liabilities_valid liabilities && AccountEntryExtensionV1Ext_valid ext.

Inductive XdrAccountEntryExt : Type :=
| AccountEntryExt_0
| AccountEntryExt_1 (v1 : XdrAccountEntryExtensionV1).
Definition AccountEntryExt_EncodeTo (u : XdrAccountEntryExt) : option bytes :=
  match u with
  | AccountEntryExt_0 => write! EncodeInt 0 in written
  | AccountEntryExt_1 v1 => write! EncodeInt 1 in write! AccountEntryExtensionV1_EncodeTo v1 in written
  end.
Definition AccountEntryExt_DecodeFrom (maxDepth : nat) : decode XdrAccountEntryExt := nested maxDepth (fun maxDepth =>
  read! v := DecodeInt in
  if v =? 0 then ret AccountEntryExt_0 else
  if v =? 1 then tracked "AccountEntryExtensionV1" (read! v1 := AccountEntryExtensionV1_DecodeFrom maxDepth in ret (AccountEntryExt_1 v1))
      else
  invalid).
Definition AccountEntryExt_valid (u : XdrAccountEntryExt) : bool :=
  match u with
  | AccountEntryExt_0 => true
  | AccountEntryExt_1 v1 => AccountEntryExtensionV1_valid v1
  end.

Record XdrAccountEntry : Type := mkXdrAccountEntry {
  AccountEntry_AccountId : AccountId;
  AccountEntry_Balance : Z;
  AccountEntry_SeqNum : Z;
  AccountEntry_NumSubEntries : Z;
  AccountEntry_InflationDest : option AccountId;
  AccountEntry_Flags : Z;
  AccountEntry_HomeDomain : bytes;
  AccountEntry_Thresholds : vec byte 4;
  AccountEntry_Signers : list XdrSigner;
  AccountEntry_Ext : XdrAccountEntryExt
}.
Definition AccountEntry_EncodeTo (s : XdrAccountEntry) : option bytes :=
  let '(mkXdrAccountEntry accountId balance seqNum numSubEntries inflationDest flags homeDomain thresholds signers ext) := s in
  write! AccountId_EncodeTo accountId in
  write! Int64_EncodeTo balance in
  write! SequenceNumber_EncodeTo seqNum in
  write! Uint32_EncodeTo numSubEntries in
  write! pointer_EncodeTo AccountId_EncodeTo inflationDest in
  write! Uint32_EncodeTo flags in
  write! String32_EncodeTo homeDomain in
  write! Thresholds_EncodeTo thresholds in
  write! slice_EncodeTo Signer_EncodeTo signers in
  write! AccountEntryExt_EncodeTo ext in
  written.
Definition AccountEntry_DecodeFrom (maxDepth : nat) : decode XdrAccountEntry := nested maxDepth (fun maxDepth =>
  read! accountId := AccountId_DecodeFrom maxDepth in
  read! balance := Int64_DecodeFrom maxDepth in
  read! seqNum := SequenceNumber_DecodeFrom maxDepth in
  read! numSubEntries := Uint32_DecodeFrom maxDepth in
  read! inflationDest := pointer_DecodeFrom "AccountId" (AccountId_DecodeFrom maxDepth) in
  read! flags := Uint32_DecodeFrom maxDepth in
  read! homeDomain := String32_DecodeFrom maxDepth in
  read! thresholds := Thresholds_DecodeFrom maxDepth in
  read! signers := slice_DecodeFrom "Signer" (Some 20) (Signer_DecodeFrom maxDepth) in
  read! ext := AccountEntryExt_DecodeFrom maxDepth in
  ret (mkXdrAccountEntry accountId balance seqNum numSubEntries inflationDest flags homeDomain thresholds signers ext)).
Definition AccountEntry_valid (s : XdrAccountEntry) : bool :=
  let '(mkXdrAccountEntry accountId balance seqNum numSubEntries inflationDest flags homeDomain thresholds signers ext) := s in
  AccountId_valid accountId && Int64_valid balance && SequenceNumber_valid seqNum && Uint32_valid numSubEntries && valid_pointer
      AccountId_valid inflationDest && Uint32_valid flags && String32_valid homeDomain && Thresholds_valid thresholds && valid_slice (Some
      20) Signer_valid signers && AccountEntryExt_valid ext.

Definition TrustLineEntryExtensionV2Ext_EncodeTo (u : unit) : option bytes :=
  match u with
  | tt => write! EncodeInt 0 in written
  end.
Definition TrustLineEntryExtensionV2Ext_DecodeFrom (maxDepth : nat) : decode unit := nested maxDepth (fun maxDepth =>
  read! v := DecodeInt in
  if v =? 0 then ret tt else
  invalid).
Definition TrustLineEntryExtensionV2Ext_valid (u : unit) : bool :=
  match u with
  | tt => true
  end.

Record XdrTrustLineEntryExtensionV2 : Type := mkXdrTrustLineEntryExtensionV2 {
  TrustLineEntryExtensionV2_LiquidityPoolUseCount : Z
}.
Definition TrustLineEntryExtensionV2_EncodeTo (s : XdrTrustLineEntryExtensionV2) : option bytes :=
  let '(mkXdrTrustLineEntryExtensionV2 liquidityPoolUseCount) := s in
  write! Int32_EncodeTo liquidityPoolUseCount in
  write! TrustLineEntryExtensionV2Ext_EncodeTo tt in
  written.
Definition TrustLineEntryExtensionV2_DecodeFrom (maxDepth : nat) : decode XdrTrustLineEntryExtensionV2 := nested maxDepth (fun maxDepth =>
  read! liquidityPoolUseCount := Int32_DecodeFrom maxDepth in
  read! _ := TrustLineEntryExtensionV2Ext_DecodeFrom maxDepth in
  ret (mkXdrTrustLineEntryExtensionV2 liquidityPoolUseCount)).
Definition TrustLineEntryExtensionV2_valid (s : XdrTrustLineEntryExtensionV2) : bool :=
  let '(mkXdrTrustLineEntryExtensionV2 liquidityPoolUseCount) := s in
  Int32_valid liquidityPoolUseCount.

Inductive XdrTrustLineEntryV1Ext : Type :=
| TrustLineEntryV1Ext_0
| TrustLineEntryV1Ext_2 (v2 : XdrTrustLineEntryExtensionV2).
Definition TrustLineEntryV1Ext_EncodeTo (u : XdrTrustLineEntryV1Ext) : option bytes :=
  match u with
  | TrustLineEntryV1Ext_0 => write! EncodeInt 0 in written
  | TrustLineEntryV1Ext_2 v2 => write! EncodeInt 2 in write! TrustLineEntryExtensionV2_EncodeTo v2 in written
  end.
Definition TrustLineEntryV1Ext_DecodeFrom (maxDepth : nat) : decode XdrTrustLineEntryV1Ext := nested maxDepth (fun maxDepth =>
  read! v := DecodeInt in
  if v =? 0 then ret TrustLineEntryV1Ext_0 else
  if v =? 2 then tracked "TrustLineEntryExtensionV2" (read! v2 := TrustLineEntryExtensionV2_DecodeFrom maxDepth in ret
      (TrustLineEntryV1Ext_2 v2)) else
  invalid).
Definition TrustLineEntryV1Ext_valid (u : XdrTrustLineEntryV1Ext) : bool :=
  match u with
  | TrustLineEntryV1Ext_0 => true
  | TrustLineEntryV1Ext_2 v2 => TrustLineEntryExtensionV2_valid v2
  end.

Record XdrTrustLineEntryV1 : Type := mkXdrTrustLineEntryV1 {
  TrustLineEntryV1_Liabilities : XdrLiabilities;
  TrustLineEntryV1_Ext : XdrTrustLineEntryV1Ext
}.
Definition TrustLineEntryV1_EncodeTo (s : XdrTrustLineEntryV1) : option bytes :=
  let '(mkXdrTrustLineEntryV1 liabilities ext) := s in
  write! Liabilities_EncodeTo liabilities in
  write! TrustLineEntryV1Ext_EncodeTo ext in
  written.
Definition TrustLineEntryV1_DecodeFrom (maxDepth : nat) : decode XdrTrustLineEntryV1 := nested maxDepth (fun maxDepth =>
  read! liabilities := Liabilities_DecodeFrom maxDepth in
  read! ext := TrustLineEntryV1Ext_DecodeFrom maxDepth in
  ret (mkXdrTrustLineEntryV1 liabilities ext)).
Definition TrustLineEntryV1_valid (s : XdrTrustLineEntryV1) : bool :=
  let '(mkXdrTrustLineEntryV1 liabilities ext) := s in
  Liabilities_valid liabilities && TrustLineEntryV1Ext_valid ext.

Inductive XdrTrustLineEntryExt : Type :=
| TrustLineEntryExt_0
| TrustLineEntryExt_1 (v1 : XdrTrustLineEntryV1).
Definition TrustLineEntryExt_EncodeTo (u : XdrTrustLineEntryExt) : option bytes :=
  match u with
  | TrustLineEntryExt_0 => write! EncodeInt 0 in written
  | TrustLineEntryExt_1 v1 => write! EncodeInt 1 in write! TrustLineEntryV1_EncodeTo v1 in written
  end.
Definition TrustLineEntryExt_DecodeFrom (maxDepth : nat) : decode XdrTrustLineEntryExt := nested maxDepth (fun maxDepth =>
  read! v := DecodeInt in
  if v =? 0 then ret TrustLineEntryExt_0 else
  if v =? 1 then tracked "TrustLineEntryV1" (read! v1 := TrustLineEntryV1_DecodeFrom maxDepth in ret (TrustLineEntryExt_1 v1)) else
  invalid).
Definition TrustLineEntryExt_valid (u : XdrTrustLineEntryExt) : bool :=
  match u with
  | TrustLineEntryExt_0 => true
  | TrustLineEntryExt_1 v1 => TrustLineEntryV1_valid v1
  end.

Record XdrTrustLineEntry : Type := mkXdrTrustLineEntry {
  TrustLineEntry_AccountId : AccountId;
  TrustLineEntry_Asset : TrustLineAsset;
  TrustLineEntry_Balance : Z;
  TrustLineEntry_Limit : Z;
  TrustLineEntry_Flags : Z;
  TrustLineEntry_Ext : XdrTrustLineEntryExt
}.
Definition TrustLineEntry_EncodeTo (s : XdrTrustLineEntry) : option bytes :=
  let '(mkXdrTrustLineEntry accountId asset balance limit flags ext) := s in
  write! AccountId_EncodeTo accountId in
  write! TrustLineAsset_EncodeTo asset in
  write! Int64_EncodeTo balance in
  write! Int64_EncodeTo limit in
  write! Uint32_EncodeTo flags in
  write! TrustLineEntryExt_EncodeTo ext in
  written.
Definition TrustLineEntry_DecodeFrom (maxDepth : nat) : decode XdrTrustLineEntry := nested maxDepth (fun maxDepth =>
  read! accountId := AccountId_DecodeFrom maxDepth in
  read! asset := TrustLineAsset_DecodeFrom maxDepth in
  read! balance := Int64_DecodeFrom maxDepth in
  read! limit := Int64_DecodeFrom maxDepth in
  read! flags := Uint32_DecodeFrom maxDepth in
  read! ext := TrustLineEntryExt_DecodeFrom maxDepth in
  ret (mkXdrTrustLineEntry accountId asset balance limit flags ext)).
Definition TrustLineEntry_valid (s : XdrTrustLineEntry) : bool :=
  let '(mkXdrTrustLineEntry accountId asset balance limit flags ext) := s in
  AccountId_valid accountId && TrustLineAsset_valid asset && Int64_valid balance && Int64_valid limit && Uint32_valid flags &&
      TrustLineEntryExt_valid ext.

Definition DataEntryExt_EncodeTo (u : unit) : option bytes :=
  match u with
  | tt => write! EncodeInt 0 in written
  end.
Definition DataEntryExt_DecodeFrom (maxDepth : nat) : decode unit := nested maxDepth (fun maxDepth =>
  read! v := DecodeInt in
  if v =? 0 then ret tt else
  invalid).
Definition DataEntryExt_valid (u : unit) : bool :=
  match u with
  | tt => true
  end.

Record XdrDataEntry : Type := mkXdrDataEntry {
  DataEntry_AccountId : AccountId;
  DataEntry_DataName : bytes;
  DataEntry_DataValue : (option bytes)
}.
Definition DataEntry_EncodeTo (s : XdrDataEntry) : option bytes :=
  let '(mkXdrDataEntry accountId dataName dataValue) := s in
  write! AccountId_EncodeTo accountId in
  write! String64_EncodeTo dataName in
  write! DataValue_EncodeTo dataValue in
  write! DataEntryExt_EncodeTo tt in
  written.
Definition DataEntry_DecodeFrom (maxDepth : nat) : decode XdrDataEntry := nested maxDepth (fun maxDepth =>
  read! accountId := AccountId_DecodeFrom maxDepth in
  read! dataName := String64_DecodeFrom maxDepth in
  read! dataValue := DataValue_DecodeFrom maxDepth in
  read! _ := DataEntryExt_DecodeFrom maxDepth in
  ret (mkXdrDataEntry accountId dataName dataValue)).
Definition DataEntry_valid (s : XdrDataEntry) : bool :=
  let '(mkXdrDataEntry accountId dataName dataValue) := s in
  AccountId_valid accountId && String64_valid dataName && DataValue_valid dataValue.

Definition ClaimableBalanceEntryExtensionV1Ext_EncodeTo (u : unit) : option bytes :=
  match u with
  | tt => write! EncodeInt 0 in written
  end.
Definition ClaimableBalanceEntryExtensionV1Ext_DecodeFrom (maxDepth : nat) : decode unit := nested maxDepth (fun maxDepth =>
  read! v := DecodeInt in
  if v =? 0 then ret tt else
  invalid).
Definition ClaimableBalanceEntryExtensionV1Ext_valid (u : unit) : bool :=
  match u with
  | tt => true
  end.

Record XdrClaimableBalanceEntryExtensionV1 : Type := mkXdrClaimableBalanceEntryExtensionV1 {
  ClaimableBalanceEntryExtensionV1_Flags : Z
}.
Definition ClaimableBalanceEntryExtensionV1_EncodeTo (s : XdrClaimableBalanceEntryExtensionV1) : option bytes :=
  let '(mkXdrClaimableBalanceEntryExtensionV1 flags) := s in
  write! ClaimableBalanceEntryExtensionV1Ext_EncodeTo tt in
  write! Uint32_EncodeTo flags in
  written.
Definition ClaimableBalanceEntryExtensionV1_DecodeFrom (maxDepth : nat) : decode XdrClaimableBalanceEntryExtensionV1 := nested maxDepth
    (fun maxDepth =>
  read! _ := ClaimableBalanceEntryExtensionV1Ext_DecodeFrom maxDepth in
  read! flags := Uint32_DecodeFrom maxDepth in
  ret (mkXdrClaimableBalanceEntryExtensionV1 flags)).
Definition ClaimableBalanceEntryExtensionV1_valid (s : XdrClaimableBalanceEntryExtensionV1) : bool :=
  let '(mkXdrClaimableBalanceEntryExtensionV1 flags) := s in
  Uint32_valid flags.

Inductive XdrClaimableBalanceEntryExt : Type :=
| ClaimableBalanceEntryExt_0
| ClaimableBalanceEntryExt_1 (v1 : XdrClaimableBalanceEntryExtensionV1).
Definition ClaimableBalanceEntryExt_EncodeTo (u : XdrClaimableBalanceEntryExt) : option bytes :=
  match u with
  | ClaimableBalanceEntryExt_0 => write! EncodeInt 0 in written
  | ClaimableBalanceEntryExt_1 v1 => write! EncodeInt 1 in write! ClaimableBalanceEntryExtensionV1_EncodeTo v1 in written
  end.
Definition ClaimableBalanceEntryExt_DecodeFrom (maxDepth : nat) : decode XdrClaimableBalanceEntryExt := nested maxDepth (fun maxDepth =>
  read! v := DecodeInt in
  if v =? 0 then ret ClaimableBalanceEntryExt_0 else
  if v =? 1 then tracked "ClaimableBalanceEntryExtensionV1" (read! v1 := ClaimableBalanceEntryExtensionV1_DecodeFrom maxDepth in ret
      (ClaimableBalanceEntryExt_1 v1)) else
  invalid).
Definition ClaimableBalanceEntryExt_valid (u : XdrClaimableBalanceEntryExt) : bool :=
  match u with
  | ClaimableBalanceEntryExt_0 => true
  | ClaimableBalanceEntryExt_1 v1 => ClaimableBalanceEntryExtensionV1_valid v1
  end.

Record XdrClaimableBalanceEntry : Type := mkXdrClaimableBalanceEntry {
  ClaimableBalanceEntry_BalanceId : ClaimableBalanceId;
  ClaimableBalanceEntry_Claimants : list XdrClaimant;
  ClaimableBalanceEntry_Asset : Asset;
  ClaimableBalanceEntry_Amount : Z;
  ClaimableBalanceEntry_Ext : XdrClaimableBalanceEntryExt
}.
Definition ClaimableBalanceEntry_EncodeTo (s : XdrClaimableBalanceEntry) : option bytes :=
  let '(mkXdrClaimableBalanceEntry balanceId claimants asset amount ext) := s in
  write! ClaimableBalanceId_EncodeTo balanceId in
  write! slice_EncodeTo Claimant_EncodeTo claimants in
  write! Asset_EncodeTo asset in
  write! Int64_EncodeTo amount in
  write! ClaimableBalanceEntryExt_EncodeTo ext in
  written.
Definition ClaimableBalanceEntry_DecodeFrom (maxDepth : nat) : decode XdrClaimableBalanceEntry := nested maxDepth (fun maxDepth =>
  read! balanceId := ClaimableBalanceId_DecodeFrom maxDepth in
  read! claimants := slice_DecodeFrom "Claimant" (Some 10) (Claimant_DecodeFrom maxDepth) in
  read! asset := Asset_DecodeFrom maxDepth in
  read! amount := Int64_DecodeFrom maxDepth in
  read! ext := ClaimableBalanceEntryExt_DecodeFrom maxDepth in
  ret (mkXdrClaimableBalanceEntry balanceId claimants asset amount ext)).
Definition ClaimableBalanceEntry_valid (s : XdrClaimableBalanceEntry) : bool :=
  let '(mkXdrClaimableBalanceEntry balanceId claimants asset amount ext) := s in
  ClaimableBalanceId_valid balanceId && valid_slice (Some 10) Claimant_valid claimants && Asset_valid asset && Int64_valid amount &&
      ClaimableBalanceEntryExt_valid ext.

Record XdrLiquidityPoolEntryConstantProduct : Type := mkXdrLiquidityPoolEntryConstantProduct {
  LiquidityPoolEntryConstantProduct_Params : PoolParameters;
  LiquidityPoolEntryConstantProduct_ReserveA : Z;
  LiquidityPoolEntryConstantProduct_ReserveB : Z;
  LiquidityPoolEntryConstantProduct_TotalPoolShares : Z;
  LiquidityPoolEntryConstantProduct_PoolSharesTrustLineCount : Z
}.
Definition LiquidityPoolEntryConstantProduct_EncodeTo (s : XdrLiquidityPoolEntryConstantProduct) : option bytes :=
  let '(mkXdrLiquidityPoolEntryConstantProduct params reserveA reserveB totalPoolShares poolSharesTrustLineCount) := s in
  write! LiquidityPoolConstantProductParameters_EncodeTo params in
  write! Int64_EncodeTo reserveA in
  write! Int64_EncodeTo reserveB in
  write! Int64_EncodeTo totalPoolShares in
  write! Int64_EncodeTo poolSharesTrustLineCount in
  written.
Definition LiquidityPoolEntryConstantProduct_DecodeFrom (maxDepth : nat) : decode XdrLiquidityPoolEntryConstantProduct := nested maxDepth
    (fun maxDepth =>
  read! params := LiquidityPoolConstantProductParameters_DecodeFrom maxDepth in
  read! reserveA := Int64_DecodeFrom maxDepth in
  read! reserveB := Int64_DecodeFrom maxDepth in
  read! totalPoolShares := Int64_DecodeFrom maxDepth in
  read! poolSharesTrustLineCount := Int64_DecodeFrom maxDepth in
  ret (mkXdrLiquidityPoolEntryConstantProduct params reserveA reserveB totalPoolShares poolSharesTrustLineCount)).
Definition LiquidityPoolEntryConstantProduct_valid (s : XdrLiquidityPoolEntryConstantProduct) : bool :=
  let '(mkXdrLiquidityPoolEntryConstantProduct params reserveA reserveB totalPoolShares poolSharesTrustLineCount) := s in
  LiquidityPoolConstantProductParameters_valid params && Int64_valid reserveA && Int64_valid reserveB && Int64_valid totalPoolShares &&
      Int64_valid poolSharesTrustLineCount.

Inductive XdrLiquidityPoolEntryBody : Type :=
| LiquidityPoolEntryBody_LiquidityPoolConstantProduct (constantProduct : XdrLiquidityPoolEntryConstantProduct).
Definition LiquidityPoolEntryBody_EncodeTo (u : XdrLiquidityPoolEntryBody) : option bytes :=
  match u with
  | LiquidityPoolEntryBody_LiquidityPoolConstantProduct constantProduct => write! LiquidityPoolType_EncodeTo 0 in write!
      LiquidityPoolEntryConstantProduct_EncodeTo constantProduct in written
  end.
Definition LiquidityPoolEntryBody_DecodeFrom (maxDepth : nat) : decode XdrLiquidityPoolEntryBody := nested maxDepth (fun maxDepth =>
  read! type_ := LiquidityPoolType_DecodeFrom maxDepth in
  if type_ =? 0 then tracked "LiquidityPoolEntryConstantProduct" (read! constantProduct := LiquidityPoolEntryConstantProduct_DecodeFrom
      maxDepth in ret (LiquidityPoolEntryBody_LiquidityPoolConstantProduct constantProduct)) else
  invalid).
Definition LiquidityPoolEntryBody_valid (u : XdrLiquidityPoolEntryBody) : bool :=
  match u with
  | LiquidityPoolEntryBody_LiquidityPoolConstantProduct constantProduct => LiquidityPoolEntryConstantProduct_valid constantProduct
  end.

Record XdrLiquidityPoolEntry : Type := mkXdrLiquidityPoolEntry {
  LiquidityPoolEntry_LiquidityPoolId : PoolId;
  LiquidityPoolEntry_Body : XdrLiquidityPoolEntryBody
}.
Definition LiquidityPoolEntry_EncodeTo (s : XdrLiquidityPoolEntry) : option bytes :=
  let '(mkXdrLiquidityPoolEntry liquidityPoolId body) := s in
  write! PoolId_EncodeTo liquidityPoolId in
  write! LiquidityPoolEntryBody_EncodeTo body in
  written.
Definition LiquidityPoolEntry_DecodeFrom (maxDepth : nat) : decode XdrLiquidityPoolEntry := nested maxDepth (fun maxDepth =>
  read! liquidityPoolId := PoolId_DecodeFrom maxDepth in
  read! body := LiquidityPoolEntryBody_DecodeFrom maxDepth in
  ret (mkXdrLiquidityPoolEntry liquidityPoolId body)).
Definition LiquidityPoolEntry_valid (s : XdrLiquidityPoolEntry) : bool :=
  let '(mkXdrLiquidityPoolEntry liquidityPoolId body) := s in
  PoolId_valid liquidityPoolId && LiquidityPoolEntryBody_valid body.

Record XdrContractDataEntry : Type := mkXdrContractDataEntry {
  ContractDataEntry_Contract : ScAddress_;
  ContractDataEntry_Key : XdrScVal;
  ContractDataEntry_Durability : Z;
  ContractDataEntry_Val : XdrScVal
}.
Definition ContractDataEntry_EncodeTo (s : XdrContractDataEntry) : option bytes :=
  let '(mkXdrContractDataEntry contract key_ durability val) := s in
  write! ExtensionPoint_EncodeTo tt in
  write! ScAddress_EncodeTo contract in
  write! ScVal_EncodeTo key_ in
  write! ContractDataDurability_EncodeTo durability in
  write! ScVal_EncodeTo val in
  written.
Definition ContractDataEntry_DecodeFrom (maxDepth : nat) : decode XdrContractDataEntry := nested maxDepth (fun maxDepth =>
  read! _ := ExtensionPoint_DecodeFrom maxDepth in
  read! contract := ScAddress_DecodeFrom maxDepth in
  read! key_ := ScVal_DecodeFrom maxDepth in
  read! durability := ContractDataDurability_DecodeFrom maxDepth in
  read! val := ScVal_DecodeFrom maxDepth in
  ret (mkXdrContractDataEntry contract key_ durability val)).
Definition ContractDataEntry_valid (s : XdrContractDataEntry) : bool :=
  let '(mkXdrContractDataEntry contract key_ durability val) := s in
  ScAddress_valid contract && ScVal_valid key_ && ContractDataDurability_valid durability && ScVal_valid val.

Record XdrContractCodeCostInputs : Type := mkXdrContractCodeCostInputs {
  ContractCodeCostInputs_NInstructions : Z;
  ContractCodeCostInputs_NFunctions : Z;
  ContractCodeCostInputs_NGlobals : Z;
  ContractCodeCostInputs_NTableEntries : Z;
  ContractCodeCostInputs_NTypes : Z;
  ContractCodeCostInputs_NDataSegments : Z;
  ContractCodeCostInputs_NElemSegments : Z;
  ContractCodeCostInputs_NImports : Z;
  ContractCodeCostInputs_NExports : Z;
  ContractCodeCostInputs_NDataSegmentBytes : Z
}.
Definition ContractCodeCostInputs_EncodeTo (s : XdrContractCodeCostInputs) : option bytes :=
  let '(mkXdrContractCodeCostInputs nInstructions nFunctions nGlobals nTableEntries nTypes nDataSegments nElemSegments nImports nExports
      nDataSegmentBytes) := s in
  write! ExtensionPoint_EncodeTo tt in
  write! Uint32_EncodeTo nInstructions in
  write! Uint32_EncodeTo nFunctions in
  write! Uint32_EncodeTo nGlobals in
  write! Uint32_EncodeTo nTableEntries in
  write! Uint32_EncodeTo nTypes in
  write! Uint32_EncodeTo nDataSegments in
  write! Uint32_EncodeTo nElemSegments in
  write! Uint32_EncodeTo nImports in
  write! Uint32_EncodeTo nExports in
  write! Uint32_EncodeTo nDataSegmentBytes in
  written.
Definition ContractCodeCostInputs_DecodeFrom (maxDepth : nat) : decode XdrContractCodeCostInputs := nested maxDepth (fun maxDepth =>
  read! _ := ExtensionPoint_DecodeFrom maxDepth in
  read! nInstructions := Uint32_DecodeFrom maxDepth in
  read! nFunctions := Uint32_DecodeFrom maxDepth in
  read! nGlobals := Uint32_DecodeFrom maxDepth in
  read! nTableEntries := Uint32_DecodeFrom maxDepth in
  read! nTypes := Uint32_DecodeFrom maxDepth in
  read! nDataSegments := Uint32_DecodeFrom maxDepth in
  read! nElemSegments := Uint32_DecodeFrom maxDepth in
  read! nImports := Uint32_DecodeFrom maxDepth in
  read! nExports := Uint32_DecodeFrom maxDepth in
  read! nDataSegmentBytes := Uint32_DecodeFrom maxDepth in
  ret (mkXdrContractCodeCostInputs nInstructions nFunctions nGlobals nTableEntries nTypes nDataSegments nElemSegments nImports nExports
      nDataSegmentBytes)).
Definition ContractCodeCostInputs_valid (s : XdrContractCodeCostInputs) : bool :=
  let '(mkXdrContractCodeCostInputs nInstructions nFunctions nGlobals nTableEntries nTypes nDataSegments nElemSegments nImports nExports
      nDataSegmentBytes) := s in
  Uint32_valid nInstructions && Uint32_valid nFunctions && Uint32_valid nGlobals && Uint32_valid nTableEntries && Uint32_valid nTypes &&
      Uint32_valid nDataSegments && Uint32_valid nElemSegments && Uint32_valid nImports && Uint32_valid nExports && Uint32_valid
      nDataSegmentBytes.

Record XdrContractCodeEntryV1 : Type := mkXdrContractCodeEntryV1 {
  ContractCodeEntryV1_CostInputs : XdrContractCodeCostInputs
}.
Definition ContractCodeEntryV1_EncodeTo (s : XdrContractCodeEntryV1) : option bytes :=
  let '(mkXdrContractCodeEntryV1 costInputs) := s in
  write! ExtensionPoint_EncodeTo tt in
  write! ContractCodeCostInputs_EncodeTo costInputs in
  written.
Definition ContractCodeEntryV1_DecodeFrom (maxDepth : nat) : decode XdrContractCodeEntryV1 := nested maxDepth (fun maxDepth =>
  read! _ := ExtensionPoint_DecodeFrom maxDepth in
  read! costInputs := ContractCodeCostInputs_DecodeFrom maxDepth in
  ret (mkXdrContractCodeEntryV1 costInputs)).
Definition ContractCodeEntryV1_valid (s : XdrContractCodeEntryV1) : bool :=
  let '(mkXdrContractCodeEntryV1 costInputs) := s in
  ContractCodeCostInputs_valid costInputs.

Inductive XdrContractCodeEntryExt : Type :=
| ContractCodeEntryExt_0
| ContractCodeEntryExt_1 (v1 : XdrContractCodeEntryV1).
Definition ContractCodeEntryExt_EncodeTo (u : XdrContractCodeEntryExt) : option bytes :=
  match u with
  | ContractCodeEntryExt_0 => write! EncodeInt 0 in written
  | ContractCodeEntryExt_1 v1 => write! EncodeInt 1 in write! ContractCodeEntryV1_EncodeTo v1 in written
  end.
Definition ContractCodeEntryExt_DecodeFrom (maxDepth : nat) : decode XdrContractCodeEntryExt := nested maxDepth (fun maxDepth =>
  read! v := DecodeInt in
  if v =? 0 then ret ContractCodeEntryExt_0 else
  if v =? 1 then tracked "ContractCodeEntryV1" (read! v1 := ContractCodeEntryV1_DecodeFrom maxDepth in ret (ContractCodeEntryExt_1 v1)) else
  invalid).
Definition ContractCodeEntryExt_valid (u : XdrContractCodeEntryExt) : bool :=
  match u with
  | ContractCodeEntryExt_0 => true
  | ContractCodeEntryExt_1 v1 => ContractCodeEntryV1_valid v1
  end.

Record XdrContractCodeEntry : Type := mkXdrContractCodeEntry {
  ContractCodeEntry_Ext : XdrContractCodeEntryExt;
  ContractCodeEntry_Hash : vec byte 32;
  ContractCodeEntry_Code : bytes
}.
Definition ContractCodeEntry_EncodeTo (s : XdrContractCodeEntry) : option bytes :=
  let '(mkXdrContractCodeEntry ext hash code) := s in
  write! ContractCodeEntryExt_EncodeTo ext in
  write! Hash_EncodeTo hash in
  write! EncodeOpaque code in
  written.
Definition ContractCodeEntry_DecodeFrom (maxDepth : nat) : decode XdrContractCodeEntry := nested maxDepth (fun maxDepth =>
  read! ext := ContractCodeEntryExt_DecodeFrom maxDepth in
  read! hash := Hash_DecodeFrom maxDepth in
  read! code := DecodeOpaque 0 in
  ret (mkXdrContractCodeEntry ext hash code)).
Definition ContractCodeEntry_valid (s : XdrContractCodeEntry) : bool :=
  let '(mkXdrContractCodeEntry ext hash code) := s in
  ContractCodeEntryExt_valid ext && Hash_valid hash && valid_size (size_limit 0) code.

Record XdrConfigSettingContractComputeV0 : Type := mkXdrConfigSettingContractComputeV0 {
  ConfigSettingContractComputeV0_LedgerMaxInstructions : Z;
  ConfigSettingContractComputeV0_TxMaxInstructions : Z;
  ConfigSettingContractComputeV0_FeeRatePerInstructionsIncrement : Z;
  ConfigSettingContractComputeV0_TxMemoryLimit : Z
}.
Definition ConfigSettingContractComputeV0_EncodeTo (s : XdrConfigSettingContractComputeV0) : option bytes :=
  let '(mkXdrConfigSettingContractComputeV0 ledgerMaxInstructions txMaxInstructions feeRatePerInstructionsIncrement txMemoryLimit) := s in
  write! Int64_EncodeTo ledgerMaxInstructions in
  write! Int64_EncodeTo txMaxInstructions in
  write! Int64_EncodeTo feeRatePerInstructionsIncrement in
  write! Uint32_EncodeTo txMemoryLimit in
  written.
Definition ConfigSettingContractComputeV0_DecodeFrom (maxDepth : nat) : decode XdrConfigSettingContractComputeV0 := nested maxDepth (fun
    maxDepth =>
  read! ledgerMaxInstructions := Int64_DecodeFrom maxDepth in
  read! txMaxInstructions := Int64_DecodeFrom maxDepth in
  read! feeRatePerInstructionsIncrement := Int64_DecodeFrom maxDepth in
  read! txMemoryLimit := Uint32_DecodeFrom maxDepth in
  ret (mkXdrConfigSettingContractComputeV0 ledgerMaxInstructions txMaxInstructions feeRatePerInstructionsIncrement txMemoryLimit)).
Definition ConfigSettingContractComputeV0_valid (s : XdrConfigSettingContractComputeV0) : bool :=
  let '(mkXdrConfigSettingContractComputeV0 ledgerMaxInstructions txMaxInstructions feeRatePerInstructionsIncrement txMemoryLimit) := s in
  Int64_valid ledgerMaxInstructions && Int64_valid txMaxInstructions && Int64_valid feeRatePerInstructionsIncrement && Uint32_valid
      txMemoryLimit.

Record XdrConfigSettingContractLedgerCostV0 : Type := mkXdrConfigSettingContractLedgerCostV0 {
  ConfigSettingContractLedgerCostV0_LedgerMaxDiskReadEntries : Z;
  ConfigSettingContractLedgerCostV0_LedgerMaxDiskReadBytes : Z;
  ConfigSettingContractLedgerCostV0_LedgerMaxWriteLedgerEntries : Z;
  ConfigSettingContractLedgerCostV0_LedgerMaxWriteBytes : Z;
  ConfigSettingContractLedgerCostV0_TxMaxDiskReadEntries : Z;
  ConfigSettingContractLedgerCostV0_TxMaxDiskReadBytes : Z;
  ConfigSettingContractLedgerCostV0_TxMaxWriteLedgerEntries : Z;
  ConfigSettingContractLedgerCostV0_TxMaxWriteBytes : Z;
  ConfigSettingContractLedgerCostV0_FeeDiskReadLedgerEntry : Z;
  ConfigSettingContractLedgerCostV0_FeeWriteLedgerEntry : Z;
  ConfigSettingContractLedgerCostV0_FeeDiskRead1Kb : Z;
  ConfigSettingContractLedgerCostV0_SorobanStateTargetSizeBytes : Z;
  ConfigSettingContractLedgerCostV0_RentFee1KbSorobanStateSizeLow : Z;
  ConfigSettingContractLedgerCostV0_RentFee1KbSorobanStateSizeHigh : Z;
  ConfigSettingContractLedgerCostV0_SorobanStateRentFeeGrowthFactor : Z
}.
Definition ConfigSettingContractLedgerCostV0_EncodeTo (s : XdrConfigSettingContractLedgerCostV0) : option bytes :=
  let '(mkXdrConfigSettingContractLedgerCostV0 ledgerMaxDiskReadEntries ledgerMaxDiskReadBytes ledgerMaxWriteLedgerEntries
      ledgerMaxWriteBytes txMaxDiskReadEntries txMaxDiskReadBytes txMaxWriteLedgerEntries txMaxWriteBytes feeDiskReadLedgerEntry
      feeWriteLedgerEntry feeDiskRead1Kb sorobanStateTargetSizeBytes rentFee1KbSorobanStateSizeLow rentFee1KbSorobanStateSizeHigh
      sorobanStateRentFeeGrowthFactor) := s in
  write! Uint32_EncodeTo ledgerMaxDiskReadEntries in
  write! Uint32_EncodeTo ledgerMaxDiskReadBytes in
  write! Uint32_EncodeTo ledgerMaxWriteLedgerEntries in
  write! Uint32_EncodeTo ledgerMaxWriteBytes in
  write! Uint32_EncodeTo txMaxDiskReadEntries in
  write! Uint32_EncodeTo txMaxDiskReadBytes in
  write! Uint32_EncodeTo txMaxWriteLedgerEntries in
  write! Uint32_EncodeTo txMaxWriteBytes in
  write! Int64_EncodeTo feeDiskReadLedgerEntry in
  write! Int64_EncodeTo feeWriteLedgerEntry in
  write! Int64_EncodeTo feeDiskRead1Kb in
  write! Int64_EncodeTo sorobanStateTargetSizeBytes in
  write! Int64_EncodeTo rentFee1KbSorobanStateSizeLow in
  write! Int64_EncodeTo rentFee1KbSorobanStateSizeHigh in
  write! Uint32_EncodeTo sorobanStateRentFeeGrowthFactor in
  written.
Definition ConfigSettingContractLedgerCostV0_DecodeFrom (maxDepth : nat) : decode XdrConfigSettingContractLedgerCostV0 := nested maxDepth
    (fun maxDepth =>
  read! ledgerMaxDiskReadEntries := Uint32_DecodeFrom maxDepth in
  read! ledgerMaxDiskReadBytes := Uint32_DecodeFrom maxDepth in
  read! ledgerMaxWriteLedgerEntries := Uint32_DecodeFrom maxDepth in
  read! ledgerMaxWriteBytes := Uint32_DecodeFrom maxDepth in
  read! txMaxDiskReadEntries := Uint32_DecodeFrom maxDepth in
  read! txMaxDiskReadBytes := Uint32_DecodeFrom maxDepth in
  read! txMaxWriteLedgerEntries := Uint32_DecodeFrom maxDepth in
  read! txMaxWriteBytes := Uint32_DecodeFrom maxDepth in
  read! feeDiskReadLedgerEntry := Int64_DecodeFrom maxDepth in
  read! feeWriteLedgerEntry := Int64_DecodeFrom maxDepth in
  read! feeDiskRead1Kb := Int64_DecodeFrom maxDepth in
  read! sorobanStateTargetSizeBytes := Int64_DecodeFrom maxDepth in
  read! rentFee1KbSorobanStateSizeLow := Int64_DecodeFrom maxDepth in
  read! rentFee1KbSorobanStateSizeHigh := Int64_DecodeFrom maxDepth in
  read! sorobanStateRentFeeGrowthFactor := Uint32_DecodeFrom maxDepth in
  ret (mkXdrConfigSettingContractLedgerCostV0 ledgerMaxDiskReadEntries ledgerMaxDiskReadBytes ledgerMaxWriteLedgerEntries
      ledgerMaxWriteBytes txMaxDiskReadEntries txMaxDiskReadBytes txMaxWriteLedgerEntries txMaxWriteBytes feeDiskReadLedgerEntry
      feeWriteLedgerEntry feeDiskRead1Kb sorobanStateTargetSizeBytes rentFee1KbSorobanStateSizeLow rentFee1KbSorobanStateSizeHigh
      sorobanStateRentFeeGrowthFactor)).
Definition ConfigSettingContractLedgerCostV0_valid (s : XdrConfigSettingContractLedgerCostV0) : bool :=
  let '(mkXdrConfigSettingContractLedgerCostV0 ledgerMaxDiskReadEntries ledgerMaxDiskReadBytes ledgerMaxWriteLedgerEntries
      ledgerMaxWriteBytes txMaxDiskReadEntries txMaxDiskReadBytes txMaxWriteLedgerEntries txMaxWriteBytes feeDiskReadLedgerEntry
      feeWriteLedgerEntry feeDiskRead1Kb sorobanStateTargetSizeBytes rentFee1KbSorobanStateSizeLow rentFee1KbSorobanStateSizeHigh
      sorobanStateRentFeeGrowthFactor) := s in
  Uint32_valid ledgerMaxDiskReadEntries && Uint32_valid ledgerMaxDiskReadBytes && Uint32_valid ledgerMaxWriteLedgerEntries && Uint32_valid
      ledgerMaxWriteBytes && Uint32_valid txMaxDiskReadEntries && Uint32_valid txMaxDiskReadBytes && Uint32_valid txMaxWriteLedgerEntries
      && Uint32_valid txMaxWriteBytes && Int64_valid feeDiskReadLedgerEntry && Int64_valid feeWriteLedgerEntry && Int64_valid
      feeDiskRead1Kb && Int64_valid sorobanStateTargetSizeBytes && Int64_valid rentFee1KbSorobanStateSizeLow && Int64_valid
      rentFee1KbSorobanStateSizeHigh && Uint32_valid sorobanStateRentFeeGrowthFactor.

Record XdrConfigSettingContractHistoricalDataV0 : Type := mkXdrConfigSettingContractHistoricalDataV0 {
  ConfigSettingContractHistoricalDataV0_FeeHistorical1Kb : Z
}.
Definition ConfigSettingContractHistoricalDataV0_EncodeTo (s : XdrConfigSettingContractHistoricalDataV0) : option bytes :=
  let '(mkXdrConfigSettingContractHistoricalDataV0 feeHistorical1Kb) := s in
  write! Int64_EncodeTo feeHistorical1Kb in
  written.
Definition ConfigSettingContractHistoricalDataV0_DecodeFrom (maxDepth : nat) : decode XdrConfigSettingContractHistoricalDataV0 := nested
    maxDepth (fun maxDepth =>
  read! feeHistorical1Kb := Int64_DecodeFrom maxDepth in
  ret (mkXdrConfigSettingContractHistoricalDataV0 feeHistorical1Kb)).
Definition ConfigSettingContractHistoricalDataV0_valid (s : XdrConfigSettingContractHistoricalDataV0) : bool :=
  let '(mkXdrConfigSettingContractHistoricalDataV0 feeHistorical1Kb) := s in
  Int64_valid feeHistorical1Kb.

Record XdrConfigSettingContractEventsV0 : Type := mkXdrConfigSettingContractEventsV0 {
  ConfigSettingContractEventsV0_TxMaxContractEventsSizeBytes : Z;
  ConfigSettingContractEventsV0_FeeContractEvents1Kb : Z
}.
Definition ConfigSettingContractEventsV0_EncodeTo (s : XdrConfigSettingContractEventsV0) : option bytes :=
  let '(mkXdrConfigSettingContractEventsV0 txMaxContractEventsSizeBytes feeContractEvents1Kb) := s in
  write! Uint32_EncodeTo txMaxContractEventsSizeBytes in
  write! Int64_EncodeTo feeContractEvents1Kb in
  written.
Definition ConfigSettingContractEventsV0_DecodeFrom (maxDepth : nat) : decode XdrConfigSettingContractEventsV0 := nested maxDepth (fun
    maxDepth =>
  read! txMaxContractEventsSizeBytes := Uint32_DecodeFrom maxDepth in
  read! feeContractEvents1Kb := Int64_DecodeFrom maxDepth in
  ret (mkXdrConfigSettingContractEventsV0 txMaxContractEventsSizeBytes feeContractEvents1Kb)).
Definition ConfigSettingContractEventsV0_valid (s : XdrConfigSettingContractEventsV0) : bool :=
  let '(mkXdrConfigSettingContractEventsV0 txMaxContractEventsSizeBytes feeContractEvents1Kb) := s in
  Uint32_valid txMaxContractEventsSizeBytes && Int64_valid feeContractEvents1Kb.

Record XdrConfigSettingContractBandwidthV0 : Type := mkXdrConfigSettingContractBandwidthV0 {
  ConfigSettingContractBandwidthV0_LedgerMaxTxsSizeBytes : Z;
  ConfigSettingContractBandwidthV0_TxMaxSizeBytes : Z;
  ConfigSettingContractBandwidthV0_FeeTxSize1Kb : Z
}.
Definition ConfigSettingContractBandwidthV0_EncodeTo (s : XdrConfigSettingContractBandwidthV0) : option bytes :=
  let '(mkXdrConfigSettingContractBandwidthV0 ledgerMaxTxsSizeBytes txMaxSizeBytes feeTxSize1Kb) := s in
  write! Uint32_EncodeTo ledgerMaxTxsSizeBytes in
  write! Uint32_EncodeTo txMaxSizeBytes in
  write! Int64_EncodeTo feeTxSize1Kb in
  written.
Definition ConfigSettingContractBandwidthV0_DecodeFrom (maxDepth : nat) : decode XdrConfigSettingContractBandwidthV0 := nested maxDepth
    (fun maxDepth =>
  read! ledgerMaxTxsSizeBytes := Uint32_DecodeFrom maxDepth in
  read! txMaxSizeBytes := Uint32_DecodeFrom maxDepth in
  read! feeTxSize1Kb := Int64_DecodeFrom maxDepth in
  ret (mkXdrConfigSettingContractBandwidthV0 ledgerMaxTxsSizeBytes txMaxSizeBytes feeTxSize1Kb)).
Definition ConfigSettingContractBandwidthV0_valid (s : XdrConfigSettingContractBandwidthV0) : bool :=
  let '(mkXdrConfigSettingContractBandwidthV0 ledgerMaxTxsSizeBytes txMaxSizeBytes feeTxSize1Kb) := s in
  Uint32_valid ledgerMaxTxsSizeBytes && Uint32_valid txMaxSizeBytes && Int64_valid feeTxSize1Kb.

Record XdrContractCostParamEntry : Type := mkXdrContractCostParamEntry {
  ContractCostParamEntry_ConstTerm : Z;
  ContractCostParamEntry_LinearTerm : Z
}.
Definition ContractCostParamEntry_EncodeTo (s : XdrContractCostParamEntry) : option bytes :=
  let '(mkXdrContractCostParamEntry constTerm linearTerm) := s in
  write! ExtensionPoint_EncodeTo tt in
  write! Int64_EncodeTo constTerm in
  write! Int64_EncodeTo linearTerm in
  written.
Definition ContractCostParamEntry_DecodeFrom (maxDepth : nat) : decode XdrContractCostParamEntry := nested maxDepth (fun maxDepth =>
  read! _ := ExtensionPoint_DecodeFrom maxDepth in
  read! constTerm := Int64_DecodeFrom maxDepth in
  read! linearTerm := Int64_DecodeFrom maxDepth in
  ret (mkXdrContractCostParamEntry constTerm linearTerm)).
Definition ContractCostParamEntry_valid (s : XdrContractCostParamEntry) : bool :=
  let '(mkXdrContractCostParamEntry constTerm linearTerm) := s in
  Int64_valid constTerm && Int64_valid linearTerm.

Definition ContractCostParams_EncodeTo (s : list XdrContractCostParamEntry) : option bytes := write! slice_EncodeTo
    ContractCostParamEntry_EncodeTo s in written.
Definition ContractCostParams_DecodeFrom (maxDepth : nat) : decode (list XdrContractCostParamEntry) := nested maxDepth (fun maxDepth =>
  read! s := slice_DecodeFrom "ContractCostParamEntry" (Some 1024) (ContractCostParamEntry_DecodeFrom maxDepth) in ret s).
Definition ContractCostParams_valid (s : list XdrContractCostParamEntry) : bool := valid_slice (Some 1024) ContractCostParamEntry_valid s.

Record XdrStateArchivalSettings : Type := mkXdrStateArchivalSettings {
  StateArchivalSettings_MaxEntryTtl : Z;
  StateArchivalSettings_MinTemporaryTtl : Z;
  StateArchivalSettings_MinPersistentTtl : Z;
  StateArchivalSettings_PersistentRentRateDenominator : Z;
  StateArchivalSettings_TempRentRateDenominator : Z;
  StateArchivalSettings_MaxEntriesToArchive : Z;
  StateArchivalSettings_LiveSorobanStateSizeWindowSampleSize : Z;
  StateArchivalSettings_LiveSorobanStateSizeWindowSamplePeriod : Z;
  StateArchivalSettings_EvictionScanSize : Z;
  StateArchivalSettings_StartingEvictionScanLevel : Z
}.
Definition StateArchivalSettings_EncodeTo (s : XdrStateArchivalSettings) : option bytes :=
  let '(mkXdrStateArchivalSettings maxEntryTtl minTemporaryTtl minPersistentTtl persistentRentRateDenominator tempRentRateDenominator
      maxEntriesToArchive liveSorobanStateSizeWindowSampleSize liveSorobanStateSizeWindowSamplePeriod evictionScanSize
      startingEvictionScanLevel) := s in
  write! Uint32_EncodeTo maxEntryTtl in
  write! Uint32_EncodeTo minTemporaryTtl in
  write! Uint32_EncodeTo minPersistentTtl in
  write! Int64_EncodeTo persistentRentRateDenominator in
  write! Int64_EncodeTo tempRentRateDenominator in
  write! Uint32_EncodeTo maxEntriesToArchive in
  write! Uint32_EncodeTo liveSorobanStateSizeWindowSampleSize in
  write! Uint32_EncodeTo liveSorobanStateSizeWindowSamplePeriod in
  write! Uint32_EncodeTo evictionScanSize in
  write! Uint32_EncodeTo startingEvictionScanLevel in
  written.
Definition StateArchivalSettings_DecodeFrom (maxDepth : nat) : decode XdrStateArchivalSettings := nested maxDepth (fun maxDepth =>
  read! maxEntryTtl := Uint32_DecodeFrom maxDepth in
  read! minTemporaryTtl := Uint32_DecodeFrom maxDepth in
  read! minPersistentTtl := Uint32_DecodeFrom maxDepth in
  read! persistentRentRateDenominator := Int64_DecodeFrom maxDepth in
  read! tempRentRateDenominator := Int64_DecodeFrom maxDepth in
  read! maxEntriesToArchive := Uint32_DecodeFrom maxDepth in
  read! liveSorobanStateSizeWindowSampleSize := Uint32_DecodeFrom maxDepth in
  read! liveSorobanStateSizeWindowSamplePeriod := Uint32_DecodeFrom maxDepth in
  read! evictionScanSize := Uint32_DecodeFrom maxDepth in
  read! startingEvictionScanLevel := Uint32_DecodeFrom maxDepth in
  ret (mkXdrStateArchivalSettings maxEntryTtl minTemporaryTtl minPersistentTtl persistentRentRateDenominator tempRentRateDenominator
      maxEntriesToArchive liveSorobanStateSizeWindowSampleSize liveSorobanStateSizeWindowSamplePeriod evictionScanSize
      startingEvictionScanLevel)).
Definition StateArchivalSettings_valid (s : XdrStateArchivalSettings) : bool :=
  let '(mkXdrStateArchivalSettings maxEntryTtl minTemporaryTtl minPersistentTtl persistentRentRateDenominator tempRentRateDenominator
      maxEntriesToArchive liveSorobanStateSizeWindowSampleSize liveSorobanStateSizeWindowSamplePeriod evictionScanSize
      startingEvictionScanLevel) := s in
  Uint32_valid maxEntryTtl && Uint32_valid minTemporaryTtl && Uint32_valid minPersistentTtl && Int64_valid persistentRentRateDenominator &&
      Int64_valid tempRentRateDenominator && Uint32_valid maxEntriesToArchive && Uint32_valid liveSorobanStateSizeWindowSampleSize &&
      Uint32_valid liveSorobanStateSizeWindowSamplePeriod && Uint32_valid evictionScanSize && Uint32_valid startingEvictionScanLevel.

Record XdrConfigSettingContractExecutionLanesV0 : Type := mkXdrConfigSettingContractExecutionLanesV0 {
  ConfigSettingContractExecutionLanesV0_LedgerMaxTxCount : Z
}.
Definition ConfigSettingContractExecutionLanesV0_EncodeTo (s : XdrConfigSettingContractExecutionLanesV0) : option bytes :=
  let '(mkXdrConfigSettingContractExecutionLanesV0 ledgerMaxTxCount) := s in
  write! Uint32_EncodeTo ledgerMaxTxCount in
  written.
Definition ConfigSettingContractExecutionLanesV0_DecodeFrom (maxDepth : nat) : decode XdrConfigSettingContractExecutionLanesV0 := nested
    maxDepth (fun maxDepth =>
  read! ledgerMaxTxCount := Uint32_DecodeFrom maxDepth in
  ret (mkXdrConfigSettingContractExecutionLanesV0 ledgerMaxTxCount)).
Definition ConfigSettingContractExecutionLanesV0_valid (s : XdrConfigSettingContractExecutionLanesV0) : bool :=
  let '(mkXdrConfigSettingContractExecutionLanesV0 ledgerMaxTxCount) := s in
  Uint32_valid ledgerMaxTxCount.

Record XdrEvictionIterator : Type := mkXdrEvictionIterator {
  EvictionIterator_BucketListLevel : Z;
  EvictionIterator_IsCurrBucket : bool;
  EvictionIterator_BucketFileOffset : Z
}.
Definition EvictionIterator_EncodeTo (s : XdrEvictionIterator) : option bytes :=
  let '(mkXdrEvictionIterator bucketListLevel isCurrBucket bucketFileOffset) := s in
  write! Uint32_EncodeTo bucketListLevel in
  write! EncodeBool isCurrBucket in
  write! Uint64_EncodeTo bucketFileOffset in
  written.
Definition EvictionIterator_DecodeFrom (maxDepth : nat) : decode XdrEvictionIterator := nested maxDepth (fun maxDepth =>
  read! bucketListLevel := Uint32_DecodeFrom maxDepth in
  read! isCurrBucket := DecodeBool in
  read! bucketFileOffset := Uint64_DecodeFrom maxDepth in
  ret (mkXdrEvictionIterator bucketListLevel isCurrBucket bucketFileOffset)).
Definition EvictionIterator_valid (s : XdrEvictionIterator) : bool :=
  let '(mkXdrEvictionIterator bucketListLevel isCurrBucket bucketFileOffset) := s in
  Uint32_valid bucketListLevel && Uint64_valid bucketFileOffset.

Record XdrConfigSettingContractParallelComputeV0 : Type := mkXdrConfigSettingContractParallelComputeV0 {
  ConfigSettingContractParallelComputeV0_LedgerMaxDependentTxClusters : Z
}.
Definition ConfigSettingContractParallelComputeV0_EncodeTo (s : XdrConfigSettingContractParallelComputeV0) : option bytes :=
  let '(mkXdrConfigSettingContractParallelComputeV0 ledgerMaxDependentTxClusters) := s in
  write! Uint32_EncodeTo ledgerMaxDependentTxClusters in
  written.
Definition ConfigSettingContractParallelComputeV0_DecodeFrom (maxDepth : nat) : decode XdrConfigSettingContractParallelComputeV0 := nested
    maxDepth (fun maxDepth =>
  read! ledgerMaxDependentTxClusters := Uint32_DecodeFrom maxDepth in
  ret (mkXdrConfigSettingContractParallelComputeV0 ledgerMaxDependentTxClusters)).
Definition ConfigSettingContractParallelComputeV0_valid (s : XdrConfigSettingContractParallelComputeV0) : bool :=
  let '(mkXdrConfigSettingContractParallelComputeV0 ledgerMaxDependentTxClusters) := s in
  Uint32_valid ledgerMaxDependentTxClusters.

Record XdrConfigSettingContractLedgerCostExtV0 : Type := mkXdrConfigSettingContractLedgerCostExtV0 {
  ConfigSettingContractLedgerCostExtV0_TxMaxFootprintEntries : Z;
  ConfigSettingContractLedgerCostExtV0_FeeWrite1Kb : Z
}.
Definition ConfigSettingContractLedgerCostExtV0_EncodeTo (s : XdrConfigSettingContractLedgerCostExtV0) : option bytes :=
  let '(mkXdrConfigSettingContractLedgerCostExtV0 txMaxFootprintEntries feeWrite1Kb) := s in
  write! Uint32_EncodeTo txMaxFootprintEntries in
  write! Int64_EncodeTo feeWrite1Kb in
  written.
Definition ConfigSettingContractLedgerCostExtV0_DecodeFrom (maxDepth : nat) : decode XdrConfigSettingContractLedgerCostExtV0 := nested
    maxDepth (fun maxDepth =>
  read! txMaxFootprintEntries := Uint32_DecodeFrom maxDepth in
  read! feeWrite1Kb := Int64_DecodeFrom maxDepth in
  ret (mkXdrConfigSettingContractLedgerCostExtV0 txMaxFootprintEntries feeWrite1Kb)).
Definition ConfigSettingContractLedgerCostExtV0_valid (s : XdrConfigSettingContractLedgerCostExtV0) : bool :=
  let '(mkXdrConfigSettingContractLedgerCostExtV0 txMaxFootprintEntries feeWrite1Kb) := s in
  Uint32_valid txMaxFootprintEntries && Int64_valid feeWrite1Kb.

Record XdrConfigSettingScpTiming : Type := mkXdrConfigSettingScpTiming {
  ConfigSettingScpTiming_LedgerTargetCloseTimeMilliseconds : Z;
  ConfigSettingScpTiming_NominationTimeoutInitialMilliseconds : Z;
  ConfigSettingScpTiming_NominationTimeoutIncrementMilliseconds : Z;
  ConfigSettingScpTiming_BallotTimeoutInitialMilliseconds : Z;
  ConfigSettingScpTiming_BallotTimeoutIncrementMilliseconds : Z
}.
Definition ConfigSettingScpTiming_EncodeTo (s : XdrConfigSettingScpTiming) : option bytes :=
  let '(mkXdrConfigSettingScpTiming ledgerTargetCloseTimeMilliseconds nominationTimeoutInitialMilliseconds
      nominationTimeoutIncrementMilliseconds ballotTimeoutInitialMilliseconds ballotTimeoutIncrementMilliseconds) := s in
  write! Uint32_EncodeTo ledgerTargetCloseTimeMilliseconds in
  write! Uint32_EncodeTo nominationTimeoutInitialMilliseconds in
  write! Uint32_EncodeTo nominationTimeoutIncrementMilliseconds in
  write! Uint32_EncodeTo ballotTimeoutInitialMilliseconds in
  write! Uint32_EncodeTo ballotTimeoutIncrementMilliseconds in
  written.
Definition ConfigSettingScpTiming_DecodeFrom (maxDepth : nat) : decode XdrConfigSettingScpTiming := nested maxDepth (fun maxDepth =>
  read! ledgerTargetCloseTimeMilliseconds := Uint32_DecodeFrom maxDepth in
  read! nominationTimeoutInitialMilliseconds := Uint32_DecodeFrom maxDepth in
  read! nominationTimeoutIncrementMilliseconds := Uint32_DecodeFrom maxDepth in
  read! ballotTimeoutInitialMilliseconds := Uint32_DecodeFrom maxDepth in
  read! ballotTimeoutIncrementMilliseconds := Uint32_DecodeFrom maxDepth in
  ret (mkXdrConfigSettingScpTiming ledgerTargetCloseTimeMilliseconds nominationTimeoutInitialMilliseconds
      nominationTimeoutIncrementMilliseconds ballotTimeoutInitialMilliseconds ballotTimeoutIncrementMilliseconds)).
Definition ConfigSettingScpTiming_valid (s : XdrConfigSettingScpTiming) : bool :=
  let '(mkXdrConfigSettingScpTiming ledgerTargetCloseTimeMilliseconds nominationTimeoutInitialMilliseconds
      nominationTimeoutIncrementMilliseconds ballotTimeoutInitialMilliseconds ballotTimeoutIncrementMilliseconds) := s in
  Uint32_valid ledgerTargetCloseTimeMilliseconds && Uint32_valid nominationTimeoutInitialMilliseconds && Uint32_valid
      nominationTimeoutIncrementMilliseconds && Uint32_valid ballotTimeoutInitialMilliseconds && Uint32_valid
      ballotTimeoutIncrementMilliseconds.

Definition EncodedLedgerKey_EncodeTo (s : bytes) : option bytes := write! EncodeOpaque s in written.
Definition EncodedLedgerKey_DecodeFrom (maxDepth : nat) : decode bytes := nested maxDepth (fun maxDepth =>
  read! s := DecodeOpaque 0 in ret s).
Definition EncodedLedgerKey_valid (s : bytes) : bool := valid_size (size_limit 0) s.

Record XdrFrozenLedgerKeys : Type := mkXdrFrozenLedgerKeys {
  FrozenLedgerKeys_Keys : list bytes
}.
Definition FrozenLedgerKeys_EncodeTo (s : XdrFrozenLedgerKeys) : option bytes :=
  let '(mkXdrFrozenLedgerKeys keys) := s in
  write! slice_EncodeTo EncodedLedgerKey_EncodeTo keys in
  written.
Definition FrozenLedgerKeys_DecodeFrom (maxDepth : nat) : decode XdrFrozenLedgerKeys := nested maxDepth (fun maxDepth =>
  read! keys := slice_DecodeFrom "EncodedLedgerKey" None (EncodedLedgerKey_DecodeFrom maxDepth) in
  ret (mkXdrFrozenLedgerKeys keys)).
Definition FrozenLedgerKeys_valid (s : XdrFrozenLedgerKeys) : bool :=
  let '(mkXdrFrozenLedgerKeys keys) := s in
  valid_slice None EncodedLedgerKey_valid keys.

Record XdrFrozenLedgerKeysDelta : Type := mkXdrFrozenLedgerKeysDelta {
  FrozenLedgerKeysDelta_KeysToFreeze : list bytes;
  FrozenLedgerKeysDelta_KeysToUnfreeze : list bytes
}.
Definition FrozenLedgerKeysDelta_EncodeTo (s : XdrFrozenLedgerKeysDelta) : option bytes :=
  let '(mkXdrFrozenLedgerKeysDelta keysToFreeze keysToUnfreeze) := s in
  write! slice_EncodeTo EncodedLedgerKey_EncodeTo keysToFreeze in
  write! slice_EncodeTo EncodedLedgerKey_EncodeTo keysToUnfreeze in
  written.
Definition FrozenLedgerKeysDelta_DecodeFrom (maxDepth : nat) : decode XdrFrozenLedgerKeysDelta := nested maxDepth (fun maxDepth =>
  read! keysToFreeze := slice_DecodeFrom "EncodedLedgerKey" None (EncodedLedgerKey_DecodeFrom maxDepth) in
  read! keysToUnfreeze := slice_DecodeFrom "EncodedLedgerKey" None (EncodedLedgerKey_DecodeFrom maxDepth) in
  ret (mkXdrFrozenLedgerKeysDelta keysToFreeze keysToUnfreeze)).
Definition FrozenLedgerKeysDelta_valid (s : XdrFrozenLedgerKeysDelta) : bool :=
  let '(mkXdrFrozenLedgerKeysDelta keysToFreeze keysToUnfreeze) := s in
  valid_slice None EncodedLedgerKey_valid keysToFreeze && valid_slice None EncodedLedgerKey_valid keysToUnfreeze.

Record XdrFreezeBypassTxs : Type := mkXdrFreezeBypassTxs {
  FreezeBypassTxs_TxHashes : list (vec byte 32)
}.
Definition FreezeBypassTxs_EncodeTo (s : XdrFreezeBypassTxs) : option bytes :=
  let '(mkXdrFreezeBypassTxs txHashes) := s in
  write! slice_EncodeTo Hash_EncodeTo txHashes in
  written.
Definition FreezeBypassTxs_DecodeFrom (maxDepth : nat) : decode XdrFreezeBypassTxs := nested maxDepth (fun maxDepth =>
  read! txHashes := slice_DecodeFrom "Hash" None (Hash_DecodeFrom maxDepth) in
  ret (mkXdrFreezeBypassTxs txHashes)).
Definition FreezeBypassTxs_valid (s : XdrFreezeBypassTxs) : bool :=
  let '(mkXdrFreezeBypassTxs txHashes) := s in
  valid_slice None Hash_valid txHashes.

Record XdrFreezeBypassTxsDelta : Type := mkXdrFreezeBypassTxsDelta {
  FreezeBypassTxsDelta_AddTxs : list (vec byte 32);
  FreezeBypassTxsDelta_RemoveTxs : list (vec byte 32)
}.
Definition FreezeBypassTxsDelta_EncodeTo (s : XdrFreezeBypassTxsDelta) : option bytes :=
  let '(mkXdrFreezeBypassTxsDelta addTxs removeTxs) := s in
  write! slice_EncodeTo Hash_EncodeTo addTxs in
  write! slice_EncodeTo Hash_EncodeTo removeTxs in
  written.
Definition FreezeBypassTxsDelta_DecodeFrom (maxDepth : nat) : decode XdrFreezeBypassTxsDelta := nested maxDepth (fun maxDepth =>
  read! addTxs := slice_DecodeFrom "Hash" None (Hash_DecodeFrom maxDepth) in
  read! removeTxs := slice_DecodeFrom "Hash" None (Hash_DecodeFrom maxDepth) in
  ret (mkXdrFreezeBypassTxsDelta addTxs removeTxs)).
Definition FreezeBypassTxsDelta_valid (s : XdrFreezeBypassTxsDelta) : bool :=
  let '(mkXdrFreezeBypassTxsDelta addTxs removeTxs) := s in
  valid_slice None Hash_valid addTxs && valid_slice None Hash_valid removeTxs.

Inductive XdrConfigSettingEntry : Type :=
| ConfigSettingEntry_ConfigSettingContractMaxSizeBytes (contractMaxSizeBytes : Z)
| ConfigSettingEntry_ConfigSettingContractComputeV0 (contractCompute : XdrConfigSettingContractComputeV0)
| ConfigSettingEntry_ConfigSettingContractLedgerCostV0 (contractLedgerCost : XdrConfigSettingContractLedgerCostV0)
| ConfigSettingEntry_ConfigSettingContractHistoricalDataV0 (contractHistoricalData : XdrConfigSettingContractHistoricalDataV0)
| ConfigSettingEntry_ConfigSettingContractEventsV0 (contractEvents : XdrConfigSettingContractEventsV0)
| ConfigSettingEntry_ConfigSettingContractBandwidthV0 (contractBandwidth : XdrConfigSettingContractBandwidthV0)
| ConfigSettingEntry_ConfigSettingContractCostParamsCpuInstructions (contractCostParamsCpuInsns : list XdrContractCostParamEntry)
| ConfigSettingEntry_ConfigSettingContractCostParamsMemoryBytes (contractCostParamsMemBytes : list XdrContractCostParamEntry)
| ConfigSettingEntry_ConfigSettingContractDataKeySizeBytes (contractDataKeySizeBytes : Z)
| ConfigSettingEntry_ConfigSettingContractDataEntrySizeBytes (contractDataEntrySizeBytes : Z)
| ConfigSettingEntry_ConfigSettingStateArchival (stateArchivalSettings : XdrStateArchivalSettings)
| ConfigSettingEntry_ConfigSettingContractExecutionLanes (contractExecutionLanes : XdrConfigSettingContractExecutionLanesV0)
| ConfigSettingEntry_ConfigSettingLiveSorobanStateSizeWindow (liveSorobanStateSizeWindow : list Z)
| ConfigSettingEntry_ConfigSettingEvictionIterator (evictionIterator : XdrEvictionIterator)
| ConfigSettingEntry_ConfigSettingContractParallelComputeV0 (contractParallelCompute : XdrConfigSettingContractParallelComputeV0)
| ConfigSettingEntry_ConfigSettingContractLedgerCostExtV0 (contractLedgerCostExt : XdrConfigSettingContractLedgerCostExtV0)
| ConfigSettingEntry_ConfigSettingScpTiming (contractScpTiming : XdrConfigSettingScpTiming)
| ConfigSettingEntry_ConfigSettingFrozenLedgerKeys (frozenLedgerKeys : XdrFrozenLedgerKeys)
| ConfigSettingEntry_ConfigSettingFrozenLedgerKeysDelta (frozenLedgerKeysDelta : XdrFrozenLedgerKeysDelta)
| ConfigSettingEntry_ConfigSettingFreezeBypassTxs (freezeBypassTxs : XdrFreezeBypassTxs)
| ConfigSettingEntry_ConfigSettingFreezeBypassTxsDelta (freezeBypassTxsDelta : XdrFreezeBypassTxsDelta).
Definition ConfigSettingEntry_EncodeTo (u : XdrConfigSettingEntry) : option bytes :=
  match u with
  | ConfigSettingEntry_ConfigSettingContractMaxSizeBytes contractMaxSizeBytes => write! ConfigSettingId_EncodeTo 0 in write!
      Uint32_EncodeTo contractMaxSizeBytes in written
  | ConfigSettingEntry_ConfigSettingContractComputeV0 contractCompute => write! ConfigSettingId_EncodeTo 1 in write!
      ConfigSettingContractComputeV0_EncodeTo contractCompute in written
  | ConfigSettingEntry_ConfigSettingContractLedgerCostV0 contractLedgerCost => write! ConfigSettingId_EncodeTo 2 in write!
      ConfigSettingContractLedgerCostV0_EncodeTo contractLedgerCost in written
  | ConfigSettingEntry_ConfigSettingContractHistoricalDataV0 contractHistoricalData => write! ConfigSettingId_EncodeTo 3 in write!
      ConfigSettingContractHistoricalDataV0_EncodeTo contractHistoricalData in written
  | ConfigSettingEntry_ConfigSettingContractEventsV0 contractEvents => write! ConfigSettingId_EncodeTo 4 in write!
      ConfigSettingContractEventsV0_EncodeTo contractEvents in written
  | ConfigSettingEntry_ConfigSettingContractBandwidthV0 contractBandwidth => write! ConfigSettingId_EncodeTo 5 in write!
      ConfigSettingContractBandwidthV0_EncodeTo contractBandwidth in written
  | ConfigSettingEntry_ConfigSettingContractCostParamsCpuInstructions contractCostParamsCpuInsns => write! ConfigSettingId_EncodeTo 6 in
      write! ContractCostParams_EncodeTo contractCostParamsCpuInsns in written
  | ConfigSettingEntry_ConfigSettingContractCostParamsMemoryBytes contractCostParamsMemBytes => write! ConfigSettingId_EncodeTo 7 in write!
      ContractCostParams_EncodeTo contractCostParamsMemBytes in written
  | ConfigSettingEntry_ConfigSettingContractDataKeySizeBytes contractDataKeySizeBytes => write! ConfigSettingId_EncodeTo 8 in write!
      Uint32_EncodeTo contractDataKeySizeBytes in written
  | ConfigSettingEntry_ConfigSettingContractDataEntrySizeBytes contractDataEntrySizeBytes => write! ConfigSettingId_EncodeTo 9 in write!
      Uint32_EncodeTo contractDataEntrySizeBytes in written
  | ConfigSettingEntry_ConfigSettingStateArchival stateArchivalSettings => write! ConfigSettingId_EncodeTo 10 in write!
      StateArchivalSettings_EncodeTo stateArchivalSettings in written
  | ConfigSettingEntry_ConfigSettingContractExecutionLanes contractExecutionLanes => write! ConfigSettingId_EncodeTo 11 in write!
      ConfigSettingContractExecutionLanesV0_EncodeTo contractExecutionLanes in written
  | ConfigSettingEntry_ConfigSettingLiveSorobanStateSizeWindow liveSorobanStateSizeWindow => write! ConfigSettingId_EncodeTo 12 in write!
      slice_EncodeTo Uint64_EncodeTo liveSorobanStateSizeWindow in written
  | ConfigSettingEntry_ConfigSettingEvictionIterator evictionIterator => write! ConfigSettingId_EncodeTo 13 in write!
      EvictionIterator_EncodeTo evictionIterator in written
  | ConfigSettingEntry_ConfigSettingContractParallelComputeV0 contractParallelCompute => write! ConfigSettingId_EncodeTo 14 in write!
      ConfigSettingContractParallelComputeV0_EncodeTo contractParallelCompute in written
  | ConfigSettingEntry_ConfigSettingContractLedgerCostExtV0 contractLedgerCostExt => write! ConfigSettingId_EncodeTo 15 in write!
      ConfigSettingContractLedgerCostExtV0_EncodeTo contractLedgerCostExt in written
  | ConfigSettingEntry_ConfigSettingScpTiming contractScpTiming => write! ConfigSettingId_EncodeTo 16 in write!
      ConfigSettingScpTiming_EncodeTo contractScpTiming in written
  | ConfigSettingEntry_ConfigSettingFrozenLedgerKeys frozenLedgerKeys => write! ConfigSettingId_EncodeTo 17 in write!
      FrozenLedgerKeys_EncodeTo frozenLedgerKeys in written
  | ConfigSettingEntry_ConfigSettingFrozenLedgerKeysDelta frozenLedgerKeysDelta => write! ConfigSettingId_EncodeTo 18 in write!
      FrozenLedgerKeysDelta_EncodeTo frozenLedgerKeysDelta in written
  | ConfigSettingEntry_ConfigSettingFreezeBypassTxs freezeBypassTxs => write! ConfigSettingId_EncodeTo 19 in write!
      FreezeBypassTxs_EncodeTo freezeBypassTxs in written
  | ConfigSettingEntry_ConfigSettingFreezeBypassTxsDelta freezeBypassTxsDelta => write! ConfigSettingId_EncodeTo 20 in write!
      FreezeBypassTxsDelta_EncodeTo freezeBypassTxsDelta in written
  end.
Definition ConfigSettingEntry_DecodeFrom (maxDepth : nat) : decode XdrConfigSettingEntry := nested maxDepth (fun maxDepth =>
  read! configSettingId := ConfigSettingId_DecodeFrom maxDepth in
  if configSettingId =? 0 then tracked "Uint32" (read! contractMaxSizeBytes := Uint32_DecodeFrom maxDepth in ret
      (ConfigSettingEntry_ConfigSettingContractMaxSizeBytes contractMaxSizeBytes)) else
  if configSettingId =? 1 then tracked "ConfigSettingContractComputeV0" (read! contractCompute := ConfigSettingContractComputeV0_DecodeFrom
      maxDepth in ret (ConfigSettingEntry_ConfigSettingContractComputeV0 contractCompute)) else
  if configSettingId =? 2 then tracked "ConfigSettingContractLedgerCostV0" (read! contractLedgerCost :=
      ConfigSettingContractLedgerCostV0_DecodeFrom maxDepth in ret (ConfigSettingEntry_ConfigSettingContractLedgerCostV0
      contractLedgerCost)) else
  if configSettingId =? 3 then tracked "ConfigSettingContractHistoricalDataV0" (read! contractHistoricalData :=
      ConfigSettingContractHistoricalDataV0_DecodeFrom maxDepth in ret (ConfigSettingEntry_ConfigSettingContractHistoricalDataV0
      contractHistoricalData)) else
  if configSettingId =? 4 then tracked "ConfigSettingContractEventsV0" (read! contractEvents := ConfigSettingContractEventsV0_DecodeFrom
      maxDepth in ret (ConfigSettingEntry_ConfigSettingContractEventsV0 contractEvents)) else
  if configSettingId =? 5 then tracked "ConfigSettingContractBandwidthV0" (read! contractBandwidth :=
      ConfigSettingContractBandwidthV0_DecodeFrom maxDepth in ret (ConfigSettingEntry_ConfigSettingContractBandwidthV0 contractBandwidth))
      else
  if configSettingId =? 6 then tracked "ContractCostParams" (read! contractCostParamsCpuInsns := ContractCostParams_DecodeFrom maxDepth in
      ret (ConfigSettingEntry_ConfigSettingContractCostParamsCpuInstructions contractCostParamsCpuInsns)) else
  if configSettingId =? 7 then tracked "ContractCostParams" (read! contractCostParamsMemBytes := ContractCostParams_DecodeFrom maxDepth in
      ret (ConfigSettingEntry_ConfigSettingContractCostParamsMemoryBytes contractCostParamsMemBytes)) else
  if configSettingId =? 8 then tracked "Uint32" (read! contractDataKeySizeBytes := Uint32_DecodeFrom maxDepth in ret
      (ConfigSettingEntry_ConfigSettingContractDataKeySizeBytes contractDataKeySizeBytes)) else
  if configSettingId =? 9 then tracked "Uint32" (read! contractDataEntrySizeBytes := Uint32_DecodeFrom maxDepth in ret
      (ConfigSettingEntry_ConfigSettingContractDataEntrySizeBytes contractDataEntrySizeBytes)) else
  if configSettingId =? 10 then tracked "StateArchivalSettings" (read! stateArchivalSettings := StateArchivalSettings_DecodeFrom maxDepth
      in ret (ConfigSettingEntry_ConfigSettingStateArchival stateArchivalSettings)) else
  if configSettingId =? 11 then tracked "ConfigSettingContractExecutionLanesV0" (read! contractExecutionLanes :=
      ConfigSettingContractExecutionLanesV0_DecodeFrom maxDepth in ret (ConfigSettingEntry_ConfigSettingContractExecutionLanes
      contractExecutionLanes)) else
  if configSettingId =? 12 then tracked "[]Uint64" (read! liveSorobanStateSizeWindow := slice_DecodeFrom "Uint64" None (Uint64_DecodeFrom
      maxDepth) in ret (ConfigSettingEntry_ConfigSettingLiveSorobanStateSizeWindow liveSorobanStateSizeWindow)) else
  if configSettingId =? 13 then tracked "EvictionIterator" (read! evictionIterator := EvictionIterator_DecodeFrom maxDepth in ret
      (ConfigSettingEntry_ConfigSettingEvictionIterator evictionIterator)) else
  if configSettingId =? 14 then tracked "ConfigSettingContractParallelComputeV0" (read! contractParallelCompute :=
      ConfigSettingContractParallelComputeV0_DecodeFrom maxDepth in ret (ConfigSettingEntry_ConfigSettingContractParallelComputeV0
      contractParallelCompute)) else
  if configSettingId =? 15 then tracked "ConfigSettingContractLedgerCostExtV0" (read! contractLedgerCostExt :=
      ConfigSettingContractLedgerCostExtV0_DecodeFrom maxDepth in ret (ConfigSettingEntry_ConfigSettingContractLedgerCostExtV0
      contractLedgerCostExt)) else
  if configSettingId =? 16 then tracked "ConfigSettingScpTiming" (read! contractScpTiming := ConfigSettingScpTiming_DecodeFrom maxDepth in
      ret (ConfigSettingEntry_ConfigSettingScpTiming contractScpTiming)) else
  if configSettingId =? 17 then tracked "FrozenLedgerKeys" (read! frozenLedgerKeys := FrozenLedgerKeys_DecodeFrom maxDepth in ret
      (ConfigSettingEntry_ConfigSettingFrozenLedgerKeys frozenLedgerKeys)) else
  if configSettingId =? 18 then tracked "FrozenLedgerKeysDelta" (read! frozenLedgerKeysDelta := FrozenLedgerKeysDelta_DecodeFrom maxDepth
      in ret (ConfigSettingEntry_ConfigSettingFrozenLedgerKeysDelta frozenLedgerKeysDelta)) else
  if configSettingId =? 19 then tracked "FreezeBypassTxs" (read! freezeBypassTxs := FreezeBypassTxs_DecodeFrom maxDepth in ret
      (ConfigSettingEntry_ConfigSettingFreezeBypassTxs freezeBypassTxs)) else
  if configSettingId =? 20 then tracked "FreezeBypassTxsDelta" (read! freezeBypassTxsDelta := FreezeBypassTxsDelta_DecodeFrom maxDepth in
      ret (ConfigSettingEntry_ConfigSettingFreezeBypassTxsDelta freezeBypassTxsDelta)) else
  invalid).
Definition ConfigSettingEntry_valid (u : XdrConfigSettingEntry) : bool :=
  match u with
  | ConfigSettingEntry_ConfigSettingContractMaxSizeBytes contractMaxSizeBytes => Uint32_valid contractMaxSizeBytes
  | ConfigSettingEntry_ConfigSettingContractComputeV0 contractCompute => ConfigSettingContractComputeV0_valid contractCompute
  | ConfigSettingEntry_ConfigSettingContractLedgerCostV0 contractLedgerCost => ConfigSettingContractLedgerCostV0_valid contractLedgerCost
  | ConfigSettingEntry_ConfigSettingContractHistoricalDataV0 contractHistoricalData => ConfigSettingContractHistoricalDataV0_valid
      contractHistoricalData
  | ConfigSettingEntry_ConfigSettingContractEventsV0 contractEvents => ConfigSettingContractEventsV0_valid contractEvents
  | ConfigSettingEntry_ConfigSettingContractBandwidthV0 contractBandwidth => ConfigSettingContractBandwidthV0_valid contractBandwidth
  | ConfigSettingEntry_ConfigSettingContractCostParamsCpuInstructions contractCostParamsCpuInsns => ContractCostParams_valid
      contractCostParamsCpuInsns
  | ConfigSettingEntry_ConfigSettingContractCostParamsMemoryBytes contractCostParamsMemBytes => ContractCostParams_valid
      contractCostParamsMemBytes
  | ConfigSettingEntry_ConfigSettingContractDataKeySizeBytes contractDataKeySizeBytes => Uint32_valid contractDataKeySizeBytes
  | ConfigSettingEntry_ConfigSettingContractDataEntrySizeBytes contractDataEntrySizeBytes => Uint32_valid contractDataEntrySizeBytes
  | ConfigSettingEntry_ConfigSettingStateArchival stateArchivalSettings => StateArchivalSettings_valid stateArchivalSettings
  | ConfigSettingEntry_ConfigSettingContractExecutionLanes contractExecutionLanes => ConfigSettingContractExecutionLanesV0_valid
      contractExecutionLanes
  | ConfigSettingEntry_ConfigSettingLiveSorobanStateSizeWindow liveSorobanStateSizeWindow => (valid_slice None Uint64_valid)
      liveSorobanStateSizeWindow
  | ConfigSettingEntry_ConfigSettingEvictionIterator evictionIterator => EvictionIterator_valid evictionIterator
  | ConfigSettingEntry_ConfigSettingContractParallelComputeV0 contractParallelCompute => ConfigSettingContractParallelComputeV0_valid
      contractParallelCompute
  | ConfigSettingEntry_ConfigSettingContractLedgerCostExtV0 contractLedgerCostExt => ConfigSettingContractLedgerCostExtV0_valid
      contractLedgerCostExt
  | ConfigSettingEntry_ConfigSettingScpTiming contractScpTiming => ConfigSettingScpTiming_valid contractScpTiming
  | ConfigSettingEntry_ConfigSettingFrozenLedgerKeys frozenLedgerKeys => FrozenLedgerKeys_valid frozenLedgerKeys
  | ConfigSettingEntry_ConfigSettingFrozenLedgerKeysDelta frozenLedgerKeysDelta => FrozenLedgerKeysDelta_valid frozenLedgerKeysDelta
  | ConfigSettingEntry_ConfigSettingFreezeBypassTxs freezeBypassTxs => FreezeBypassTxs_valid freezeBypassTxs
  | ConfigSettingEntry_ConfigSettingFreezeBypassTxsDelta freezeBypassTxsDelta => FreezeBypassTxsDelta_valid freezeBypassTxsDelta
  end.

Record XdrTtlEntry : Type := mkXdrTtlEntry {
  TtlEntry_KeyHash : vec byte 32;
  TtlEntry_LiveUntilLedgerSeq : Z
}.
Definition TtlEntry_EncodeTo (s : XdrTtlEntry) : option bytes :=
  let '(mkXdrTtlEntry keyHash liveUntilLedgerSeq) := s in
  write! Hash_EncodeTo keyHash in
  write! Uint32_EncodeTo liveUntilLedgerSeq in
  written.
Definition TtlEntry_DecodeFrom (maxDepth : nat) : decode XdrTtlEntry := nested maxDepth (fun maxDepth =>
  read! keyHash := Hash_DecodeFrom maxDepth in
  read! liveUntilLedgerSeq := Uint32_DecodeFrom maxDepth in
  ret (mkXdrTtlEntry keyHash liveUntilLedgerSeq)).
Definition TtlEntry_valid (s : XdrTtlEntry) : bool :=
  let '(mkXdrTtlEntry keyHash liveUntilLedgerSeq) := s in
  Hash_valid keyHash && Uint32_valid liveUntilLedgerSeq.

Inductive XdrLedgerEntryData : Type :=
| LedgerEntryData_Account (account : XdrAccountEntry)
| LedgerEntryData_Trustline (trustLine : XdrTrustLineEntry)
| LedgerEntryData_Offer (offer : XdrOfferEntry)
| LedgerEntryData_Data (data : XdrDataEntry)
| LedgerEntryData_ClaimableBalance (claimableBalance : XdrClaimableBalanceEntry)
| LedgerEntryData_LiquidityPool (liquidityPool : XdrLiquidityPoolEntry)
| LedgerEntryData_ContractData (contractData : XdrContractDataEntry)
| LedgerEntryData_ContractCode (contractCode : XdrContractCodeEntry)
| LedgerEntryData_ConfigSetting (configSetting : XdrConfigSettingEntry)
| LedgerEntryData_Ttl (ttl : XdrTtlEntry).
Definition LedgerEntryData_EncodeTo (u : XdrLedgerEntryData) : option bytes :=
  match u with
  | LedgerEntryData_Account account => write! LedgerEntryType_EncodeTo 0 in write! AccountEntry_EncodeTo account in written
  | LedgerEntryData_Trustline trustLine => write! LedgerEntryType_EncodeTo 1 in write! TrustLineEntry_EncodeTo trustLine in written
  | LedgerEntryData_Offer offer => write! LedgerEntryType_EncodeTo 2 in write! OfferEntry_EncodeTo offer in written
  | LedgerEntryData_Data data => write! LedgerEntryType_EncodeTo 3 in write! DataEntry_EncodeTo data in written
  | LedgerEntryData_ClaimableBalance claimableBalance => write! LedgerEntryType_EncodeTo 4 in write! ClaimableBalanceEntry_EncodeTo
      claimableBalance in written
  | LedgerEntryData_LiquidityPool liquidityPool => write! LedgerEntryType_EncodeTo 5 in write! LiquidityPoolEntry_EncodeTo liquidityPool in
      written
  | LedgerEntryData_ContractData contractData => write! LedgerEntryType_EncodeTo 6 in write! ContractDataEntry_EncodeTo contractData in
      written
  | LedgerEntryData_ContractCode contractCode => write! LedgerEntryType_EncodeTo 7 in write! ContractCodeEntry_EncodeTo contractCode in
      written
  | LedgerEntryData_ConfigSetting configSetting => write! LedgerEntryType_EncodeTo 8 in write! ConfigSettingEntry_EncodeTo configSetting in
      written
  | LedgerEntryData_Ttl ttl => write! LedgerEntryType_EncodeTo 9 in write! TtlEntry_EncodeTo ttl in written
  end.
Definition LedgerEntryData_DecodeFrom (maxDepth : nat) : decode XdrLedgerEntryData := nested maxDepth (fun maxDepth =>
  read! type_ := LedgerEntryType_DecodeFrom maxDepth in
  if type_ =? 0 then tracked "AccountEntry" (read! account := AccountEntry_DecodeFrom maxDepth in ret (LedgerEntryData_Account account))
      else
  if type_ =? 1 then tracked "TrustLineEntry" (read! trustLine := TrustLineEntry_DecodeFrom maxDepth in ret (LedgerEntryData_Trustline
      trustLine)) else
  if type_ =? 2 then tracked "OfferEntry" (read! offer := OfferEntry_DecodeFrom maxDepth in ret (LedgerEntryData_Offer offer)) else
  if type_ =? 3 then tracked "DataEntry" (read! data := DataEntry_DecodeFrom maxDepth in ret (LedgerEntryData_Data data)) else
  if type_ =? 4 then tracked "ClaimableBalanceEntry" (read! claimableBalance := ClaimableBalanceEntry_DecodeFrom maxDepth in ret
      (LedgerEntryData_ClaimableBalance claimableBalance)) else
  if type_ =? 5 then tracked "LiquidityPoolEntry" (read! liquidityPool := LiquidityPoolEntry_DecodeFrom maxDepth in ret
      (LedgerEntryData_LiquidityPool liquidityPool)) else
  if type_ =? 6 then tracked "ContractDataEntry" (read! contractData := ContractDataEntry_DecodeFrom maxDepth in ret
      (LedgerEntryData_ContractData contractData)) else
  if type_ =? 7 then tracked "ContractCodeEntry" (read! contractCode := ContractCodeEntry_DecodeFrom maxDepth in ret
      (LedgerEntryData_ContractCode contractCode)) else
  if type_ =? 8 then tracked "ConfigSettingEntry" (read! configSetting := ConfigSettingEntry_DecodeFrom maxDepth in ret
      (LedgerEntryData_ConfigSetting configSetting)) else
  if type_ =? 9 then tracked "TtlEntry" (read! ttl := TtlEntry_DecodeFrom maxDepth in ret (LedgerEntryData_Ttl ttl)) else
  invalid).
Definition LedgerEntryData_valid (u : XdrLedgerEntryData) : bool :=
  match u with
  | LedgerEntryData_Account account => AccountEntry_valid account
  | LedgerEntryData_Trustline trustLine => TrustLineEntry_valid trustLine
  | LedgerEntryData_Offer offer => OfferEntry_valid offer
  | LedgerEntryData_Data data => DataEntry_valid data
  | LedgerEntryData_ClaimableBalance claimableBalance => ClaimableBalanceEntry_valid claimableBalance
  | LedgerEntryData_LiquidityPool liquidityPool => LiquidityPoolEntry_valid liquidityPool
  | LedgerEntryData_ContractData contractData => ContractDataEntry_valid contractData
  | LedgerEntryData_ContractCode contractCode => ContractCodeEntry_valid contractCode
  | LedgerEntryData_ConfigSetting configSetting => ConfigSettingEntry_valid configSetting
  | LedgerEntryData_Ttl ttl => TtlEntry_valid ttl
  end.

Definition LedgerEntryExtensionV1Ext_EncodeTo (u : unit) : option bytes :=
  match u with
  | tt => write! EncodeInt 0 in written
  end.
Definition LedgerEntryExtensionV1Ext_DecodeFrom (maxDepth : nat) : decode unit := nested maxDepth (fun maxDepth =>
  read! v := DecodeInt in
  if v =? 0 then ret tt else
  invalid).
Definition LedgerEntryExtensionV1Ext_valid (u : unit) : bool :=
  match u with
  | tt => true
  end.

Record XdrLedgerEntryExtensionV1 : Type := mkXdrLedgerEntryExtensionV1 {
  LedgerEntryExtensionV1_SponsoringId : option AccountId
}.
Definition LedgerEntryExtensionV1_EncodeTo (s : XdrLedgerEntryExtensionV1) : option bytes :=
  let '(mkXdrLedgerEntryExtensionV1 sponsoringId) := s in
  write! pointer_EncodeTo AccountId_EncodeTo sponsoringId in
  write! LedgerEntryExtensionV1Ext_EncodeTo tt in
  written.
Definition LedgerEntryExtensionV1_DecodeFrom (maxDepth : nat) : decode XdrLedgerEntryExtensionV1 := nested maxDepth (fun maxDepth =>
  read! sponsoringId := pointer_DecodeFrom "AccountId" (AccountId_DecodeFrom maxDepth) in
  read! _ := LedgerEntryExtensionV1Ext_DecodeFrom maxDepth in
  ret (mkXdrLedgerEntryExtensionV1 sponsoringId)).
Definition LedgerEntryExtensionV1_valid (s : XdrLedgerEntryExtensionV1) : bool :=
  let '(mkXdrLedgerEntryExtensionV1 sponsoringId) := s in
  valid_pointer AccountId_valid sponsoringId.

Inductive XdrLedgerEntryExt : Type :=
| LedgerEntryExt_0
| LedgerEntryExt_1 (v1 : XdrLedgerEntryExtensionV1).
Definition LedgerEntryExt_EncodeTo (u : XdrLedgerEntryExt) : option bytes :=
  match u with
  | LedgerEntryExt_0 => write! EncodeInt 0 in written
  | LedgerEntryExt_1 v1 => write! EncodeInt 1 in write! LedgerEntryExtensionV1_EncodeTo v1 in written
  end.
Definition LedgerEntryExt_DecodeFrom (maxDepth : nat) : decode XdrLedgerEntryExt := nested maxDepth (fun maxDepth =>
  read! v := DecodeInt in
  if v =? 0 then ret LedgerEntryExt_0 else
  if v =? 1 then tracked "LedgerEntryExtensionV1" (read! v1 := LedgerEntryExtensionV1_DecodeFrom maxDepth in ret (LedgerEntryExt_1 v1)) else
  invalid).
Definition LedgerEntryExt_valid (u : XdrLedgerEntryExt) : bool :=
  match u with
  | LedgerEntryExt_0 => true
  | LedgerEntryExt_1 v1 => LedgerEntryExtensionV1_valid v1
  end.

Record XdrLedgerEntry : Type := mkXdrLedgerEntry {
  LedgerEntry_LastModifiedLedgerSeq : Z;
  LedgerEntry_Data : XdrLedgerEntryData;
  LedgerEntry_Ext : XdrLedgerEntryExt
}.
Definition LedgerEntry_EncodeTo (s : XdrLedgerEntry) : option bytes :=
  let '(mkXdrLedgerEntry lastModifiedLedgerSeq data ext) := s in
  write! Uint32_EncodeTo lastModifiedLedgerSeq in
  write! LedgerEntryData_EncodeTo data in
  write! LedgerEntryExt_EncodeTo ext in
  written.
Definition LedgerEntry_DecodeFrom (maxDepth : nat) : decode XdrLedgerEntry := nested maxDepth (fun maxDepth =>
  read! lastModifiedLedgerSeq := Uint32_DecodeFrom maxDepth in
  read! data := LedgerEntryData_DecodeFrom maxDepth in
  read! ext := LedgerEntryExt_DecodeFrom maxDepth in
  ret (mkXdrLedgerEntry lastModifiedLedgerSeq data ext)).
Definition LedgerEntry_valid (s : XdrLedgerEntry) : bool :=
  let '(mkXdrLedgerEntry lastModifiedLedgerSeq data ext) := s in
  Uint32_valid lastModifiedLedgerSeq && LedgerEntryData_valid data && LedgerEntryExt_valid ext.

Inductive XdrLedgerEntryChange : Type :=
| LedgerEntryChange_LedgerEntryCreated (created : XdrLedgerEntry)
| LedgerEntryChange_LedgerEntryUpdated (updated : XdrLedgerEntry)
| LedgerEntryChange_LedgerEntryRemoved (removed : LedgerKey)
| LedgerEntryChange_LedgerEntryState (state : XdrLedgerEntry)
| LedgerEntryChange_LedgerEntryRestored (restored : XdrLedgerEntry).
Definition LedgerEntryChange_EncodeTo (u : XdrLedgerEntryChange) : option bytes :=
  match u with
  | LedgerEntryChange_LedgerEntryCreated created => write! LedgerEntryChangeType_EncodeTo 0 in write! LedgerEntry_EncodeTo created in
      written
  | LedgerEntryChange_LedgerEntryUpdated updated => write! LedgerEntryChangeType_EncodeTo 1 in write! LedgerEntry_EncodeTo updated in
      written
  | LedgerEntryChange_LedgerEntryRemoved removed => write! LedgerEntryChangeType_EncodeTo 2 in write! LedgerKey_EncodeTo removed in written
  | LedgerEntryChange_LedgerEntryState state => write! LedgerEntryChangeType_EncodeTo 3 in write! LedgerEntry_EncodeTo state in written
  | LedgerEntryChange_LedgerEntryRestored restored => write! LedgerEntryChangeType_EncodeTo 4 in write! LedgerEntry_EncodeTo restored in
      written
  end.
Definition LedgerEntryChange_DecodeFrom (maxDepth : nat) : decode XdrLedgerEntryChange := nested maxDepth (fun maxDepth =>
  read! type_ := LedgerEntryChangeType_DecodeFrom maxDepth in
  if type_ =? 0 then tracked "LedgerEntry" (read! created := LedgerEntry_DecodeFrom maxDepth in ret (LedgerEntryChange_LedgerEntryCreated
      created)) else
  if type_ =? 1 then tracked "LedgerEntry" (read! updated := LedgerEntry_DecodeFrom maxDepth in ret (LedgerEntryChange_LedgerEntryUpdated
      updated)) else
  if type_ =? 2 then tracked "LedgerKey" (read! removed := LedgerKey_DecodeFrom maxDepth in ret (LedgerEntryChange_LedgerEntryRemoved
      removed)) else
  if type_ =? 3 then tracked "LedgerEntry" (read! state := LedgerEntry_DecodeFrom maxDepth in ret (LedgerEntryChange_LedgerEntryState
      state)) else
  if type_ =? 4 then tracked "LedgerEntry" (read! restored := LedgerEntry_DecodeFrom maxDepth in ret (LedgerEntryChange_LedgerEntryRestored
      restored)) else
  invalid).
Definition LedgerEntryChange_valid (u : XdrLedgerEntryChange) : bool :=
  match u with
  | LedgerEntryChange_LedgerEntryCreated created => LedgerEntry_valid created
  | LedgerEntryChange_LedgerEntryUpdated updated => LedgerEntry_valid updated
  | LedgerEntryChange_LedgerEntryRemoved removed => LedgerKey_valid removed
  | LedgerEntryChange_LedgerEntryState state => LedgerEntry_valid state
  | LedgerEntryChange_LedgerEntryRestored restored => LedgerEntry_valid restored
  end.

Definition LedgerEntryChanges_EncodeTo (s : list XdrLedgerEntryChange) : option bytes := write! slice_EncodeTo LedgerEntryChange_EncodeTo s
    in written.
Definition LedgerEntryChanges_DecodeFrom (maxDepth : nat) : decode (list XdrLedgerEntryChange) := nested maxDepth (fun maxDepth =>
  read! s := slice_DecodeFrom "LedgerEntryChange" None (LedgerEntryChange_DecodeFrom maxDepth) in ret s).
Definition LedgerEntryChanges_valid (s : list XdrLedgerEntryChange) : bool := valid_slice None LedgerEntryChange_valid s.

Record XdrOperationMeta : Type := mkXdrOperationMeta {
  OperationMeta_Changes : list XdrLedgerEntryChange
}.
Definition OperationMeta_EncodeTo (s : XdrOperationMeta) : option bytes :=
  let '(mkXdrOperationMeta changes) := s in
  write! LedgerEntryChanges_EncodeTo changes in
  written.
Definition OperationMeta_DecodeFrom (maxDepth : nat) : decode XdrOperationMeta := nested maxDepth (fun maxDepth =>
  read! changes := LedgerEntryChanges_DecodeFrom maxDepth in
  ret (mkXdrOperationMeta changes)).
Definition OperationMeta_valid (s : XdrOperationMeta) : bool :=
  let '(mkXdrOperationMeta changes) := s in
  LedgerEntryChanges_valid changes.

Record XdrTransactionMetaV1 : Type := mkXdrTransactionMetaV1 {
  TransactionMetaV1_TxChanges : list XdrLedgerEntryChange;
  TransactionMetaV1_Operations : list XdrOperationMeta
}.
Definition TransactionMetaV1_EncodeTo (s : XdrTransactionMetaV1) : option bytes :=
  let '(mkXdrTransactionMetaV1 txChanges operations) := s in
  write! LedgerEntryChanges_EncodeTo txChanges in
  write! slice_EncodeTo OperationMeta_EncodeTo operations in
  written.
Definition TransactionMetaV1_DecodeFrom (maxDepth : nat) : decode XdrTransactionMetaV1 := nested maxDepth (fun maxDepth =>
  read! txChanges := LedgerEntryChanges_DecodeFrom maxDepth in
  read! operations := slice_DecodeFrom "OperationMeta" None (OperationMeta_DecodeFrom maxDepth) in
  ret (mkXdrTransactionMetaV1 txChanges operations)).
Definition TransactionMetaV1_valid (s : XdrTransactionMetaV1) : bool :=
  let '(mkXdrTransactionMetaV1 txChanges operations) := s in
  LedgerEntryChanges_valid txChanges && valid_slice None OperationMeta_valid operations.

Record XdrTransactionMetaV2 : Type := mkXdrTransactionMetaV2 {
  TransactionMetaV2_TxChangesBefore : list XdrLedgerEntryChange;
  TransactionMetaV2_Operations : list XdrOperationMeta;
  TransactionMetaV2_TxChangesAfter : list XdrLedgerEntryChange
}.
Definition TransactionMetaV2_EncodeTo (s : XdrTransactionMetaV2) : option bytes :=
  let '(mkXdrTransactionMetaV2 txChangesBefore operations txChangesAfter) := s in
  write! LedgerEntryChanges_EncodeTo txChangesBefore in
  write! slice_EncodeTo OperationMeta_EncodeTo operations in
  write! LedgerEntryChanges_EncodeTo txChangesAfter in
  written.
Definition TransactionMetaV2_DecodeFrom (maxDepth : nat) : decode XdrTransactionMetaV2 := nested maxDepth (fun maxDepth =>
  read! txChangesBefore := LedgerEntryChanges_DecodeFrom maxDepth in
  read! operations := slice_DecodeFrom "OperationMeta" None (OperationMeta_DecodeFrom maxDepth) in
  read! txChangesAfter := LedgerEntryChanges_DecodeFrom maxDepth in
  ret (mkXdrTransactionMetaV2 txChangesBefore operations txChangesAfter)).
Definition TransactionMetaV2_valid (s : XdrTransactionMetaV2) : bool :=
  let '(mkXdrTransactionMetaV2 txChangesBefore operations txChangesAfter) := s in
  LedgerEntryChanges_valid txChangesBefore && valid_slice None OperationMeta_valid operations && LedgerEntryChanges_valid txChangesAfter.

Record XdrSorobanTransactionMetaExtV1 : Type := mkXdrSorobanTransactionMetaExtV1 {
  SorobanTransactionMetaExtV1_TotalNonRefundableResourceFeeCharged : Z;
  SorobanTransactionMetaExtV1_TotalRefundableResourceFeeCharged : Z;
  SorobanTransactionMetaExtV1_RentFeeCharged : Z
}.
Definition SorobanTransactionMetaExtV1_EncodeTo (s : XdrSorobanTransactionMetaExtV1) : option bytes :=
  let '(mkXdrSorobanTransactionMetaExtV1 totalNonRefundableResourceFeeCharged totalRefundableResourceFeeCharged rentFeeCharged) := s in
  write! ExtensionPoint_EncodeTo tt in
  write! Int64_EncodeTo totalNonRefundableResourceFeeCharged in
  write! Int64_EncodeTo totalRefundableResourceFeeCharged in
  write! Int64_EncodeTo rentFeeCharged in
  written.
Definition SorobanTransactionMetaExtV1_DecodeFrom (maxDepth : nat) : decode XdrSorobanTransactionMetaExtV1 := nested maxDepth (fun maxDepth
    =>
  read! _ := ExtensionPoint_DecodeFrom maxDepth in
  read! totalNonRefundableResourceFeeCharged := Int64_DecodeFrom maxDepth in
  read! totalRefundableResourceFeeCharged := Int64_DecodeFrom maxDepth in
  read! rentFeeCharged := Int64_DecodeFrom maxDepth in
  ret (mkXdrSorobanTransactionMetaExtV1 totalNonRefundableResourceFeeCharged totalRefundableResourceFeeCharged rentFeeCharged)).
Definition SorobanTransactionMetaExtV1_valid (s : XdrSorobanTransactionMetaExtV1) : bool :=
  let '(mkXdrSorobanTransactionMetaExtV1 totalNonRefundableResourceFeeCharged totalRefundableResourceFeeCharged rentFeeCharged) := s in
  Int64_valid totalNonRefundableResourceFeeCharged && Int64_valid totalRefundableResourceFeeCharged && Int64_valid rentFeeCharged.

Inductive XdrSorobanTransactionMetaExt : Type :=
| SorobanTransactionMetaExt_0
| SorobanTransactionMetaExt_1 (v1 : XdrSorobanTransactionMetaExtV1).
Definition SorobanTransactionMetaExt_EncodeTo (u : XdrSorobanTransactionMetaExt) : option bytes :=
  match u with
  | SorobanTransactionMetaExt_0 => write! EncodeInt 0 in written
  | SorobanTransactionMetaExt_1 v1 => write! EncodeInt 1 in write! SorobanTransactionMetaExtV1_EncodeTo v1 in written
  end.
Definition SorobanTransactionMetaExt_DecodeFrom (maxDepth : nat) : decode XdrSorobanTransactionMetaExt := nested maxDepth (fun maxDepth =>
  read! v := DecodeInt in
  if v =? 0 then ret SorobanTransactionMetaExt_0 else
  if v =? 1 then tracked "SorobanTransactionMetaExtV1" (read! v1 := SorobanTransactionMetaExtV1_DecodeFrom maxDepth in ret
      (SorobanTransactionMetaExt_1 v1)) else
  invalid).
Definition SorobanTransactionMetaExt_valid (u : XdrSorobanTransactionMetaExt) : bool :=
  match u with
  | SorobanTransactionMetaExt_0 => true
  | SorobanTransactionMetaExt_1 v1 => SorobanTransactionMetaExtV1_valid v1
  end.

Definition contractEventTypeMap : list Z := [0; 1; 2].
Definition ContractEventType_EncodeTo (e : Z) : option bytes := enum_EncodeTo contractEventTypeMap e.
Definition ContractEventType_DecodeFrom (maxDepth : nat) : decode Z := enum_DecodeFrom contractEventTypeMap maxDepth.
Definition ContractEventType_valid (e : Z) : bool := valid_enum contractEventTypeMap e.

Record XdrContractEventV0 : Type := mkXdrContractEventV0 {
  ContractEventV0_Topics : list XdrScVal;
  ContractEventV0_Data : XdrScVal
}.
Definition ContractEventV0_EncodeTo (s : XdrContractEventV0) : option bytes :=
  let '(mkXdrContractEventV0 topics data) := s in
  write! slice_EncodeTo ScVal_EncodeTo topics in
  write! ScVal_EncodeTo data in
  written.
Definition ContractEventV0_DecodeFrom (maxDepth : nat) : decode XdrContractEventV0 := nested maxDepth (fun maxDepth =>
  read! topics := slice_DecodeFrom "ScVal" None (ScVal_DecodeFrom maxDepth) in
  read! data := ScVal_DecodeFrom maxDepth in
  ret (mkXdrContractEventV0 topics data)).
Definition ContractEventV0_valid (s : XdrContractEventV0) : bool :=
  let '(mkXdrContractEventV0 topics data) := s in
  valid_slice None ScVal_valid topics && ScVal_valid data.

Inductive XdrContractEventBody : Type :=
| ContractEventBody_0 (v0 : XdrContractEventV0).
Definition ContractEventBody_EncodeTo (u : XdrContractEventBody) : option bytes :=
  match u with
  | ContractEventBody_0 v0 => write! EncodeInt 0 in write! ContractEventV0_EncodeTo v0 in written
  end.
Definition ContractEventBody_DecodeFrom (maxDepth : nat) : decode XdrContractEventBody := nested maxDepth (fun maxDepth =>
  read! v := DecodeInt in
  if v =? 0 then tracked "ContractEventV0" (read! v0 := ContractEventV0_DecodeFrom maxDepth in ret (ContractEventBody_0 v0)) else
  invalid).
Definition ContractEventBody_valid (u : XdrContractEventBody) : bool :=
  match u with
  | ContractEventBody_0 v0 => ContractEventV0_valid v0
  end.

Record XdrContractEvent : Type := mkXdrContractEvent {
  ContractEvent_ContractId : option (vec byte 32);
  ContractEvent_Type : Z;
  ContractEvent_Body : XdrContractEventBody
}.
Definition ContractEvent_EncodeTo (s : XdrContractEvent) : option bytes :=
  let '(mkXdrContractEvent contractId type_ body) := s in
  write! ExtensionPoint_EncodeTo tt in
  write! pointer_EncodeTo ContractId_EncodeTo contractId in
  write! ContractEventType_EncodeTo type_ in
  write! ContractEventBody_EncodeTo body in
  written.
Definition ContractEvent_DecodeFrom (maxDepth : nat) : decode XdrContractEvent := nested maxDepth (fun maxDepth =>
  read! _ := ExtensionPoint_DecodeFrom maxDepth in
  read! contractId := pointer_DecodeFrom "ContractId" (ContractId_DecodeFrom maxDepth) in
  read! type_ := ContractEventType_DecodeFrom maxDepth in
  read! body := ContractEventBody_DecodeFrom maxDepth in
  ret (mkXdrContractEvent contractId type_ body)).
Definition ContractEvent_valid (s : XdrContractEvent) : bool :=
  let '(mkXdrContractEvent contractId type_ body) := s in
  valid_pointer ContractId_valid contractId && ContractEventType_valid type_ && ContractEventBody_valid body.

Record XdrDiagnosticEvent : Type := mkXdrDiagnosticEvent {
  DiagnosticEvent_InSuccessfulContractCall : bool;
  DiagnosticEvent_Event : XdrContractEvent
}.
Definition DiagnosticEvent_EncodeTo (s : XdrDiagnosticEvent) : option bytes :=
  let '(mkXdrDiagnosticEvent inSuccessfulContractCall event) := s in
  write! EncodeBool inSuccessfulContractCall in
  write! ContractEvent_EncodeTo event in
  written.
Definition DiagnosticEvent_DecodeFrom (maxDepth : nat) : decode XdrDiagnosticEvent := nested maxDepth (fun maxDepth =>
  read! inSuccessfulContractCall := DecodeBool in
  read! event := ContractEvent_DecodeFrom maxDepth in
  ret (mkXdrDiagnosticEvent inSuccessfulContractCall event)).
Definition DiagnosticEvent_valid (s : XdrDiagnosticEvent) : bool :=
  let '(mkXdrDiagnosticEvent inSuccessfulContractCall event) := s in
  ContractEvent_valid event.

Record XdrSorobanTransactionMeta : Type := mkXdrSorobanTransactionMeta {
  SorobanTransactionMeta_Ext : XdrSorobanTransactionMetaExt;
  SorobanTransactionMeta_Events : list XdrContractEvent;
  SorobanTransactionMeta_ReturnValue : XdrScVal;
  SorobanTransactionMeta_DiagnosticEvents : list XdrDiagnosticEvent
}.
Definition SorobanTransactionMeta_EncodeTo (s : XdrSorobanTransactionMeta) : option bytes :=
  let '(mkXdrSorobanTransactionMeta ext events returnValue diagnosticEvents) := s in
  write! SorobanTransactionMetaExt_EncodeTo ext in
  write! slice_EncodeTo ContractEvent_EncodeTo events in
  write! ScVal_EncodeTo returnValue in
  write! slice_EncodeTo DiagnosticEvent_EncodeTo diagnosticEvents in
  written.
Definition SorobanTransactionMeta_DecodeFrom (maxDepth : nat) : decode XdrSorobanTransactionMeta := nested maxDepth (fun maxDepth =>
  read! ext := SorobanTransactionMetaExt_DecodeFrom maxDepth in
  read! events := slice_DecodeFrom "ContractEvent" None (ContractEvent_DecodeFrom maxDepth) in
  read! returnValue := ScVal_DecodeFrom maxDepth in
  read! diagnosticEvents := slice_DecodeFrom "DiagnosticEvent" None (DiagnosticEvent_DecodeFrom maxDepth) in
  ret (mkXdrSorobanTransactionMeta ext events returnValue diagnosticEvents)).
Definition SorobanTransactionMeta_valid (s : XdrSorobanTransactionMeta) : bool :=
  let '(mkXdrSorobanTransactionMeta ext events returnValue diagnosticEvents) := s in
  SorobanTransactionMetaExt_valid ext && valid_slice None ContractEvent_valid events && ScVal_valid returnValue && valid_slice None
      DiagnosticEvent_valid diagnosticEvents.

Record XdrTransactionMetaV3 : Type := mkXdrTransactionMetaV3 {
  TransactionMetaV3_TxChangesBefore : list XdrLedgerEntryChange;
  TransactionMetaV3_Operations : list XdrOperationMeta;
  TransactionMetaV3_TxChangesAfter : list XdrLedgerEntryChange;
  TransactionMetaV3_SorobanMeta : option XdrSorobanTransactionMeta
}.
Definition TransactionMetaV3_EncodeTo (s : XdrTransactionMetaV3) : option bytes :=
  let '(mkXdrTransactionMetaV3 txChangesBefore operations txChangesAfter sorobanMeta) := s in
  write! ExtensionPoint_EncodeTo tt in
  write! LedgerEntryChanges_EncodeTo txChangesBefore in
  write! slice_EncodeTo OperationMeta_EncodeTo operations in
  write! LedgerEntryChanges_EncodeTo txChangesAfter in
  write! pointer_EncodeTo SorobanTransactionMeta_EncodeTo sorobanMeta in
  written.
Definition TransactionMetaV3_DecodeFrom (maxDepth : nat) : decode XdrTransactionMetaV3 := nested maxDepth (fun maxDepth =>
  read! _ := ExtensionPoint_DecodeFrom maxDepth in
  read! txChangesBefore := LedgerEntryChanges_DecodeFrom maxDepth in
  read! operations := slice_DecodeFrom "OperationMeta" None (OperationMeta_DecodeFrom maxDepth) in
  read! txChangesAfter := LedgerEntryChanges_DecodeFrom maxDepth in
  read! sorobanMeta := pointer_DecodeFrom "SorobanTransactionMeta" (SorobanTransactionMeta_DecodeFrom maxDepth) in
  ret (mkXdrTransactionMetaV3 txChangesBefore operations txChangesAfter sorobanMeta)).
Definition TransactionMetaV3_valid (s : XdrTransactionMetaV3) : bool :=
  let '(mkXdrTransactionMetaV3 txChangesBefore operations txChangesAfter sorobanMeta) := s in
  LedgerEntryChanges_valid txChangesBefore && valid_slice None OperationMeta_valid operations && LedgerEntryChanges_valid txChangesAfter &&
      valid_pointer SorobanTransactionMeta_valid sorobanMeta.

Record XdrOperationMetaV2 : Type := mkXdrOperationMetaV2 {
  OperationMetaV2_Changes : list XdrLedgerEntryChange;
  OperationMetaV2_Events : list XdrContractEvent
}.
Definition OperationMetaV2_EncodeTo (s : XdrOperationMetaV2) : option bytes :=
  let '(mkXdrOperationMetaV2 changes events) := s in
  write! ExtensionPoint_EncodeTo tt in
  write! LedgerEntryChanges_EncodeTo changes in
  write! slice_EncodeTo ContractEvent_EncodeTo events in
  written.
Definition OperationMetaV2_DecodeFrom (maxDepth : nat) : decode XdrOperationMetaV2 := nested maxDepth (fun maxDepth =>
  read! _ := ExtensionPoint_DecodeFrom maxDepth in
  read! changes := LedgerEntryChanges_DecodeFrom maxDepth in
  read! events := slice_DecodeFrom "ContractEvent" None (ContractEvent_DecodeFrom maxDepth) in
  ret (mkXdrOperationMetaV2 changes events)).
Definition OperationMetaV2_valid (s : XdrOperationMetaV2) : bool :=
  let '(mkXdrOperationMetaV2 changes events) := s in
  LedgerEntryChanges_valid changes && valid_slice None ContractEvent_valid events.

Record XdrSorobanTransactionMetaV2 : Type := mkXdrSorobanTransactionMetaV2 {
  SorobanTransactionMetaV2_Ext : XdrSorobanTransactionMetaExt;
  SorobanTransactionMetaV2_ReturnValue : option XdrScVal
}.
Definition SorobanTransactionMetaV2_EncodeTo (s : XdrSorobanTransactionMetaV2) : option bytes :=
  let '(mkXdrSorobanTransactionMetaV2 ext returnValue) := s in
  write! SorobanTransactionMetaExt_EncodeTo ext in
  write! pointer_EncodeTo ScVal_EncodeTo returnValue in
  written.
Definition SorobanTransactionMetaV2_DecodeFrom (maxDepth : nat) : decode XdrSorobanTransactionMetaV2 := nested maxDepth (fun maxDepth =>
  read! ext := SorobanTransactionMetaExt_DecodeFrom maxDepth in
  read! returnValue := pointer_DecodeFrom "ScVal" (ScVal_DecodeFrom maxDepth) in
  ret (mkXdrSorobanTransactionMetaV2 ext returnValue)).
Definition SorobanTransactionMetaV2_valid (s : XdrSorobanTransactionMetaV2) : bool :=
  let '(mkXdrSorobanTransactionMetaV2 ext returnValue) := s in
  SorobanTransactionMetaExt_valid ext && valid_pointer ScVal_valid returnValue.

Definition transactionEventStageMap : list Z := [0; 1; 2].
Definition TransactionEventStage_EncodeTo (e : Z) : option bytes := enum_EncodeTo transactionEventStageMap e.
Definition TransactionEventStage_DecodeFrom (maxDepth : nat) : decode Z := enum_DecodeFrom transactionEventStageMap maxDepth.
Definition TransactionEventStage_valid (e : Z) : bool := valid_enum transactionEventStageMap e.

Record XdrTransactionEvent : Type := mkXdrTransactionEvent {
  TransactionEvent_Stage : Z;
  TransactionEvent_Event : XdrContractEvent
}.
Definition TransactionEvent_EncodeTo (s : XdrTransactionEvent) : option bytes :=
  let '(mkXdrTransactionEvent stage event) := s in
  write! TransactionEventStage_EncodeTo stage in
  write! ContractEvent_EncodeTo event in
  written.
Definition TransactionEvent_DecodeFrom (maxDepth : nat) : decode XdrTransactionEvent := nested maxDepth (fun maxDepth =>
  read! stage := TransactionEventStage_DecodeFrom maxDepth in
  read! event := ContractEvent_DecodeFrom maxDepth in
  ret (mkXdrTransactionEvent stage event)).
Definition TransactionEvent_valid (s : XdrTransactionEvent) : bool :=
  let '(mkXdrTransactionEvent stage event) := s in
  TransactionEventStage_valid stage && ContractEvent_valid event.

Record XdrTransactionMetaV4 : Type := mkXdrTransactionMetaV4 {
  TransactionMetaV4_TxChangesBefore : list XdrLedgerEntryChange;
  TransactionMetaV4_Operations : list XdrOperationMetaV2;
  TransactionMetaV4_TxChangesAfter : list XdrLedgerEntryChange;
  TransactionMetaV4_SorobanMeta : option XdrSorobanTransactionMetaV2;
  TransactionMetaV4_Events : list XdrTransactionEvent;
  TransactionMetaV4_DiagnosticEvents : list XdrDiagnosticEvent
}.
Definition TransactionMetaV4_EncodeTo (s : XdrTransactionMetaV4) : option bytes :=
  let '(mkXdrTransactionMetaV4 txChangesBefore operations txChangesAfter sorobanMeta events diagnosticEvents) := s in
  write! ExtensionPoint_EncodeTo tt in
  write! LedgerEntryChanges_EncodeTo txChangesBefore in
  write! slice_EncodeTo OperationMetaV2_EncodeTo operations in
  write! LedgerEntryChanges_EncodeTo txChangesAfter in
  write! pointer_EncodeTo SorobanTransactionMetaV2_EncodeTo sorobanMeta in
  write! slice_EncodeTo TransactionEvent_EncodeTo events in
  write! slice_EncodeTo DiagnosticEvent_EncodeTo diagnosticEvents in
  written.
Definition TransactionMetaV4_DecodeFrom (maxDepth : nat) : decode XdrTransactionMetaV4 := nested maxDepth (fun maxDepth =>
  read! _ := ExtensionPoint_DecodeFrom maxDepth in
  read! txChangesBefore := LedgerEntryChanges_DecodeFrom maxDepth in
  read! operations := slice_DecodeFrom "OperationMetaV2" None (OperationMetaV2_DecodeFrom maxDepth) in
  read! txChangesAfter := LedgerEntryChanges_DecodeFrom maxDepth in
  read! sorobanMeta := pointer_DecodeFrom "SorobanTransactionMetaV2" (SorobanTransactionMetaV2_DecodeFrom maxDepth) in
  read! events := slice_DecodeFrom "TransactionEvent" None (TransactionEvent_DecodeFrom maxDepth) in
  read! diagnosticEvents := slice_DecodeFrom "DiagnosticEvent" None (DiagnosticEvent_DecodeFrom maxDepth) in
  ret (mkXdrTransactionMetaV4 txChangesBefore operations txChangesAfter sorobanMeta events diagnosticEvents)).
Definition TransactionMetaV4_valid (s : XdrTransactionMetaV4) : bool :=
  let '(mkXdrTransactionMetaV4 txChangesBefore operations txChangesAfter sorobanMeta events diagnosticEvents) := s in
  LedgerEntryChanges_valid txChangesBefore && valid_slice None OperationMetaV2_valid operations && LedgerEntryChanges_valid txChangesAfter
      && valid_pointer SorobanTransactionMetaV2_valid sorobanMeta && valid_slice None TransactionEvent_valid events && valid_slice None
      DiagnosticEvent_valid diagnosticEvents.

Inductive XdrTransactionMeta : Type :=
| TransactionMeta_0 (operations : list XdrOperationMeta)
| TransactionMeta_1 (v1 : XdrTransactionMetaV1)
| TransactionMeta_2 (v2 : XdrTransactionMetaV2)
| TransactionMeta_3 (v3 : XdrTransactionMetaV3)
| TransactionMeta_4 (v4 : XdrTransactionMetaV4).
Definition TransactionMeta_EncodeTo (u : XdrTransactionMeta) : option bytes :=
  match u with
  | TransactionMeta_0 operations => write! EncodeInt 0 in write! slice_EncodeTo OperationMeta_EncodeTo operations in written
  | TransactionMeta_1 v1 => write! EncodeInt 1 in write! TransactionMetaV1_EncodeTo v1 in written
  | TransactionMeta_2 v2 => write! EncodeInt 2 in write! TransactionMetaV2_EncodeTo v2 in written
  | TransactionMeta_3 v3 => write! EncodeInt 3 in write! TransactionMetaV3_EncodeTo v3 in written
  | TransactionMeta_4 v4 => write! EncodeInt 4 in write! TransactionMetaV4_EncodeTo v4 in written
  end.
Definition TransactionMeta_DecodeFrom (maxDepth : nat) : decode XdrTransactionMeta := nested maxDepth (fun maxDepth =>
  read! v := DecodeInt in
  if v =? 0 then tracked "[]OperationMeta" (read! operations := slice_DecodeFrom "OperationMeta" None (OperationMeta_DecodeFrom maxDepth)
      in ret (TransactionMeta_0 operations)) else
  if v =? 1 then tracked "TransactionMetaV1" (read! v1 := TransactionMetaV1_DecodeFrom maxDepth in ret (TransactionMeta_1 v1)) else
  if v =? 2 then tracked "TransactionMetaV2" (read! v2 := TransactionMetaV2_DecodeFrom maxDepth in ret (TransactionMeta_2 v2)) else
  if v =? 3 then tracked "TransactionMetaV3" (read! v3 := TransactionMetaV3_DecodeFrom maxDepth in ret (TransactionMeta_3 v3)) else
  if v =? 4 then tracked "TransactionMetaV4" (read! v4 := TransactionMetaV4_DecodeFrom maxDepth in ret (TransactionMeta_4 v4)) else
  invalid).
Definition TransactionMeta_valid (u : XdrTransactionMeta) : bool :=
  match u with
  | TransactionMeta_0 operations => (valid_slice None OperationMeta_valid) operations
  | TransactionMeta_1 v1 => TransactionMetaV1_valid v1
  | TransactionMeta_2 v2 => TransactionMetaV2_valid v2
  | TransactionMeta_3 v3 => TransactionMetaV3_valid v3
  | TransactionMeta_4 v4 => TransactionMetaV4_valid v4
  end.

Record XdrTransactionResultMeta : Type := mkXdrTransactionResultMeta {
  TransactionResultMeta_Result : XdrTransactionResultPair;
  TransactionResultMeta_FeeProcessing : list XdrLedgerEntryChange;
  TransactionResultMeta_TxApplyProcessing : XdrTransactionMeta
}.
Definition TransactionResultMeta_EncodeTo (s : XdrTransactionResultMeta) : option bytes :=
  let '(mkXdrTransactionResultMeta result feeProcessing txApplyProcessing) := s in
  write! TransactionResultPair_EncodeTo result in
  write! LedgerEntryChanges_EncodeTo feeProcessing in
  write! TransactionMeta_EncodeTo txApplyProcessing in
  written.
Definition TransactionResultMeta_DecodeFrom (maxDepth : nat) : decode XdrTransactionResultMeta := nested maxDepth (fun maxDepth =>
  read! result := TransactionResultPair_DecodeFrom maxDepth in
  read! feeProcessing := LedgerEntryChanges_DecodeFrom maxDepth in
  read! txApplyProcessing := TransactionMeta_DecodeFrom maxDepth in
  ret (mkXdrTransactionResultMeta result feeProcessing txApplyProcessing)).
Definition TransactionResultMeta_valid (s : XdrTransactionResultMeta) : bool :=
  let '(mkXdrTransactionResultMeta result feeProcessing txApplyProcessing) := s in
  TransactionResultPair_valid result && LedgerEntryChanges_valid feeProcessing && TransactionMeta_valid txApplyProcessing.

Definition ledgerUpgradeTypeMap : list Z := [1; 2; 3; 4; 5; 6; 7].
Definition LedgerUpgradeType_EncodeTo (e : Z) : option bytes := enum_EncodeTo ledgerUpgradeTypeMap e.
Definition LedgerUpgradeType_DecodeFrom (maxDepth : nat) : decode Z := enum_DecodeFrom ledgerUpgradeTypeMap maxDepth.
Definition LedgerUpgradeType_valid (e : Z) : bool := valid_enum ledgerUpgradeTypeMap e.

Record XdrConfigUpgradeSetKey : Type := mkXdrConfigUpgradeSetKey {
  ConfigUpgradeSetKey_ContractId : vec byte 32;
  ConfigUpgradeSetKey_ContentHash : vec byte 32
}.
Definition ConfigUpgradeSetKey_EncodeTo (s : XdrConfigUpgradeSetKey) : option bytes :=
  let '(mkXdrConfigUpgradeSetKey contractId contentHash) := s in
  write! ContractId_EncodeTo contractId in
  write! Hash_EncodeTo contentHash in
  written.
Definition ConfigUpgradeSetKey_DecodeFrom (maxDepth : nat) : decode XdrConfigUpgradeSetKey := nested maxDepth (fun maxDepth =>
  read! contractId := ContractId_DecodeFrom maxDepth in
  read! contentHash := Hash_DecodeFrom maxDepth in
  ret (mkXdrConfigUpgradeSetKey contractId contentHash)).
Definition ConfigUpgradeSetKey_valid (s : XdrConfigUpgradeSetKey) : bool :=
  let '(mkXdrConfigUpgradeSetKey contractId contentHash) := s in
  ContractId_valid contractId && Hash_valid contentHash.

Inductive XdrLedgerUpgrade : Type :=
| LedgerUpgrade_LedgerUpgradeVersion (newLedgerVersion : Z)
| LedgerUpgrade_LedgerUpgradeBaseFee (newBaseFee : Z)
| LedgerUpgrade_LedgerUpgradeMaxTxSetSize (newMaxTxSetSize : Z)
| LedgerUpgrade_LedgerUpgradeBaseReserve (newBaseReserve : Z)
| LedgerUpgrade_LedgerUpgradeFlags (newFlags : Z)
| LedgerUpgrade_LedgerUpgradeConfig (newConfig : XdrConfigUpgradeSetKey)
| LedgerUpgrade_LedgerUpgradeMaxSorobanTxSetSize (newMaxSorobanTxSetSize : Z).
Definition LedgerUpgrade_EncodeTo (u : XdrLedgerUpgrade) : option bytes :=
  match u with
  | LedgerUpgrade_LedgerUpgradeVersion newLedgerVersion => write! LedgerUpgradeType_EncodeTo 1 in write! Uint32_EncodeTo newLedgerVersion
      in written
  | LedgerUpgrade_LedgerUpgradeBaseFee newBaseFee => write! LedgerUpgradeType_EncodeTo 2 in write! Uint32_EncodeTo newBaseFee in written
  | LedgerUpgrade_LedgerUpgradeMaxTxSetSize newMaxTxSetSize => write! LedgerUpgradeType_EncodeTo 3 in write! Uint32_EncodeTo
      newMaxTxSetSize in written
  | LedgerUpgrade_LedgerUpgradeBaseReserve newBaseReserve => write! LedgerUpgradeType_EncodeTo 4 in write! Uint32_EncodeTo newBaseReserve
      in written
  | LedgerUpgrade_LedgerUpgradeFlags newFlags => write! LedgerUpgradeType_EncodeTo 5 in write! Uint32_EncodeTo newFlags in written
  | LedgerUpgrade_LedgerUpgradeConfig newConfig => write! LedgerUpgradeType_EncodeTo 6 in write! ConfigUpgradeSetKey_EncodeTo newConfig in
      written
  | LedgerUpgrade_LedgerUpgradeMaxSorobanTxSetSize newMaxSorobanTxSetSize => write! LedgerUpgradeType_EncodeTo 7 in write! Uint32_EncodeTo
      newMaxSorobanTxSetSize in written
  end.
Definition LedgerUpgrade_DecodeFrom (maxDepth : nat) : decode XdrLedgerUpgrade := nested maxDepth (fun maxDepth =>
  read! type_ := LedgerUpgradeType_DecodeFrom maxDepth in
  if type_ =? 1 then tracked "Uint32" (read! newLedgerVersion := Uint32_DecodeFrom maxDepth in ret (LedgerUpgrade_LedgerUpgradeVersion
      newLedgerVersion)) else
  if type_ =? 2 then tracked "Uint32" (read! newBaseFee := Uint32_DecodeFrom maxDepth in ret (LedgerUpgrade_LedgerUpgradeBaseFee
      newBaseFee)) else
  if type_ =? 3 then tracked "Uint32" (read! newMaxTxSetSize := Uint32_DecodeFrom maxDepth in ret (LedgerUpgrade_LedgerUpgradeMaxTxSetSize
      newMaxTxSetSize)) else
  if type_ =? 4 then tracked "Uint32" (read! newBaseReserve := Uint32_DecodeFrom maxDepth in ret (LedgerUpgrade_LedgerUpgradeBaseReserve
      newBaseReserve)) else
  if type_ =? 5 then tracked "Uint32" (read! newFlags := Uint32_DecodeFrom maxDepth in ret (LedgerUpgrade_LedgerUpgradeFlags newFlags)) else
  if type_ =? 6 then tracked "ConfigUpgradeSetKey" (read! newConfig := ConfigUpgradeSetKey_DecodeFrom maxDepth in ret
      (LedgerUpgrade_LedgerUpgradeConfig newConfig)) else
  if type_ =? 7 then tracked "Uint32" (read! newMaxSorobanTxSetSize := Uint32_DecodeFrom maxDepth in ret
      (LedgerUpgrade_LedgerUpgradeMaxSorobanTxSetSize newMaxSorobanTxSetSize)) else
  invalid).
Definition LedgerUpgrade_valid (u : XdrLedgerUpgrade) : bool :=
  match u with
  | LedgerUpgrade_LedgerUpgradeVersion newLedgerVersion => Uint32_valid newLedgerVersion
  | LedgerUpgrade_LedgerUpgradeBaseFee newBaseFee => Uint32_valid newBaseFee
  | LedgerUpgrade_LedgerUpgradeMaxTxSetSize newMaxTxSetSize => Uint32_valid newMaxTxSetSize
  | LedgerUpgrade_LedgerUpgradeBaseReserve newBaseReserve => Uint32_valid newBaseReserve
  | LedgerUpgrade_LedgerUpgradeFlags newFlags => Uint32_valid newFlags
  | LedgerUpgrade_LedgerUpgradeConfig newConfig => ConfigUpgradeSetKey_valid newConfig
  | LedgerUpgrade_LedgerUpgradeMaxSorobanTxSetSize newMaxSorobanTxSetSize => Uint32_valid newMaxSorobanTxSetSize
  end.

Record XdrUpgradeEntryMeta : Type := mkXdrUpgradeEntryMeta {
  UpgradeEntryMeta_Upgrade : XdrLedgerUpgrade;
  UpgradeEntryMeta_Changes : list XdrLedgerEntryChange
}.
Definition UpgradeEntryMeta_EncodeTo (s : XdrUpgradeEntryMeta) : option bytes :=
  let '(mkXdrUpgradeEntryMeta upgrade changes) := s in
  write! LedgerUpgrade_EncodeTo upgrade in
  write! LedgerEntryChanges_EncodeTo changes in
  written.
Definition UpgradeEntryMeta_DecodeFrom (maxDepth : nat) : decode XdrUpgradeEntryMeta := nested maxDepth (fun maxDepth =>
  read! upgrade := LedgerUpgrade_DecodeFrom maxDepth in
  read! changes := LedgerEntryChanges_DecodeFrom maxDepth in
  ret (mkXdrUpgradeEntryMeta upgrade changes)).
Definition UpgradeEntryMeta_valid (s : XdrUpgradeEntryMeta) : bool :=
  let '(mkXdrUpgradeEntryMeta upgrade changes) := s in
  LedgerUpgrade_valid upgrade && LedgerEntryChanges_valid changes.

(** Quorum sets nest. *)
Inductive XdrScpQuorumSet : Type := mkXdrScpQuorumSet (Threshold : Z) (Validators : list AccountId) (InnerSets : list XdrScpQuorumSet).
Fixpoint ScpQuorumSet_EncodeTo (s : XdrScpQuorumSet) : option bytes :=
  match s with
  | mkXdrScpQuorumSet threshold validators innerSets =>
      write! Uint32_EncodeTo threshold in
      write! slice_EncodeTo NodeId_EncodeTo validators in
      write! slice_EncodeTo ScpQuorumSet_EncodeTo innerSets in
      written
  end.
Fixpoint ScpQuorumSet_DecodeFrom (maxDepth : nat) : decode XdrScpQuorumSet :=
  match maxDepth with
  | O => invalid
  | S maxDepth =>
      read! threshold := Uint32_DecodeFrom maxDepth in
      read! validators := slice_DecodeFrom "NodeId" None (NodeId_DecodeFrom maxDepth) in
      read! innerSets := slice_DecodeFrom "ScpQuorumSet" None (ScpQuorumSet_DecodeFrom maxDepth) in
      ret (mkXdrScpQuorumSet threshold validators innerSets)
  end.
Fixpoint ScpQuorumSet_valid_in (depth : nat) (s : XdrScpQuorumSet) : bool :=
  match depth with
  | O => false
  | S depth =>
      let '(mkXdrScpQuorumSet threshold validators innerSets) := s in
      Uint32_valid threshold && valid_slice None NodeId_valid validators && valid_slice None (ScpQuorumSet_valid_in depth) innerSets
  end.
Definition ScpQuorumSet_valid : XdrScpQuorumSet -> bool := ScpQuorumSet_valid_in nesting.

Definition scpStatementTypeMap : list Z := [0; 1; 2; 3].
Definition ScpStatementType_EncodeTo (e : Z) : option bytes := enum_EncodeTo scpStatementTypeMap e.
Definition ScpStatementType_DecodeFrom (maxDepth : nat) : decode Z := enum_DecodeFrom scpStatementTypeMap maxDepth.
Definition ScpStatementType_valid (e : Z) : bool := valid_enum scpStatementTypeMap e.

Definition Value_EncodeTo (s : bytes) : option bytes := write! EncodeOpaque s in written.
Definition Value_DecodeFrom (maxDepth : nat) : decode bytes := nested maxDepth (fun maxDepth =>
  read! s := DecodeOpaque 0 in ret s).
Definition Value_valid (s : bytes) : bool := valid_size (size_limit 0) s.

Record XdrScpBallot : Type := mkXdrScpBallot {
  ScpBallot_Counter : Z;
  ScpBallot_Value : bytes
}.
Definition ScpBallot_EncodeTo (s : XdrScpBallot) : option bytes :=
  let '(mkXdrScpBallot counter value) := s in
  write! Uint32_EncodeTo counter in
  write! Value_EncodeTo value in
  written.
Definition ScpBallot_DecodeFrom (maxDepth : nat) : decode XdrScpBallot := nested maxDepth (fun maxDepth =>
  read! counter := Uint32_DecodeFrom maxDepth in
  read! value := Value_DecodeFrom maxDepth in
  ret (mkXdrScpBallot counter value)).
Definition ScpBallot_valid (s : XdrScpBallot) : bool :=
  let '(mkXdrScpBallot counter value) := s in
  Uint32_valid counter && Value_valid value.

Record XdrScpStatementPrepare : Type := mkXdrScpStatementPrepare {
  ScpStatementPrepare_QuorumSetHash : vec byte 32;
  ScpStatementPrepare_Ballot : XdrScpBallot;
  ScpStatementPrepare_Prepared : option XdrScpBallot;
  ScpStatementPrepare_PreparedPrime : option XdrScpBallot;
  ScpStatementPrepare_NC : Z;
  ScpStatementPrepare_NH : Z
}.
Definition ScpStatementPrepare_EncodeTo (s : XdrScpStatementPrepare) : option bytes :=
  let '(mkXdrScpStatementPrepare quorumSetHash ballot prepared preparedPrime nc nh) := s in
  write! Hash_EncodeTo quorumSetHash in
  write! ScpBallot_EncodeTo ballot in
  write! pointer_EncodeTo ScpBallot_EncodeTo prepared in
  write! pointer_EncodeTo ScpBallot_EncodeTo preparedPrime in
  write! Uint32_EncodeTo nc in
  write! Uint32_EncodeTo nh in
  written.
Definition ScpStatementPrepare_DecodeFrom (maxDepth : nat) : decode XdrScpStatementPrepare := nested maxDepth (fun maxDepth =>
  read! quorumSetHash := Hash_DecodeFrom maxDepth in
  read! ballot := ScpBallot_DecodeFrom maxDepth in
  read! prepared := pointer_DecodeFrom "ScpBallot" (ScpBallot_DecodeFrom maxDepth) in
  read! preparedPrime := pointer_DecodeFrom "ScpBallot" (ScpBallot_DecodeFrom maxDepth) in
  read! nc := Uint32_DecodeFrom maxDepth in
  read! nh := Uint32_DecodeFrom maxDepth in
  ret (mkXdrScpStatementPrepare quorumSetHash ballot prepared preparedPrime nc nh)).
Definition ScpStatementPrepare_valid (s : XdrScpStatementPrepare) : bool :=
  let '(mkXdrScpStatementPrepare quorumSetHash ballot prepared preparedPrime nc nh) := s in
  Hash_valid quorumSetHash && ScpBallot_valid ballot && valid_pointer ScpBallot_valid prepared && valid_pointer ScpBallot_valid
      preparedPrime && Uint32_valid nc && Uint32_valid nh.

Record XdrScpStatementConfirm : Type := mkXdrScpStatementConfirm {
  ScpStatementConfirm_Ballot : XdrScpBallot;
  ScpStatementConfirm_NPrepared : Z;
  ScpStatementConfirm_NCommit : Z;
  ScpStatementConfirm_NH : Z;
  ScpStatementConfirm_QuorumSetHash : vec byte 32
}.
Definition ScpStatementConfirm_EncodeTo (s : XdrScpStatementConfirm) : option bytes :=
  let '(mkXdrScpStatementConfirm ballot nPrepared nCommit nh quorumSetHash) := s in
  write! ScpBallot_EncodeTo ballot in
  write! Uint32_EncodeTo nPrepared in
  write! Uint32_EncodeTo nCommit in
  write! Uint32_EncodeTo nh in
  write! Hash_EncodeTo quorumSetHash in
  written.
Definition ScpStatementConfirm_DecodeFrom (maxDepth : nat) : decode XdrScpStatementConfirm := nested maxDepth (fun maxDepth =>
  read! ballot := ScpBallot_DecodeFrom maxDepth in
  read! nPrepared := Uint32_DecodeFrom maxDepth in
  read! nCommit := Uint32_DecodeFrom maxDepth in
  read! nh := Uint32_DecodeFrom maxDepth in
  read! quorumSetHash := Hash_DecodeFrom maxDepth in
  ret (mkXdrScpStatementConfirm ballot nPrepared nCommit nh quorumSetHash)).
Definition ScpStatementConfirm_valid (s : XdrScpStatementConfirm) : bool :=
  let '(mkXdrScpStatementConfirm ballot nPrepared nCommit nh quorumSetHash) := s in
  ScpBallot_valid ballot && Uint32_valid nPrepared && Uint32_valid nCommit && Uint32_valid nh && Hash_valid quorumSetHash.

Record XdrScpStatementExternalize : Type := mkXdrScpStatementExternalize {
  ScpStatementExternalize_Commit : XdrScpBallot;
  ScpStatementExternalize_NH : Z;
  ScpStatementExternalize_CommitQuorumSetHash : vec byte 32
}.
Definition ScpStatementExternalize_EncodeTo (s : XdrScpStatementExternalize) : option bytes :=
  let '(mkXdrScpStatementExternalize commit nh commitQuorumSetHash) := s in
  write! ScpBallot_EncodeTo commit in
  write! Uint32_EncodeTo nh in
  write! Hash_EncodeTo commitQuorumSetHash in
  written.
Definition ScpStatementExternalize_DecodeFrom (maxDepth : nat) : decode XdrScpStatementExternalize := nested maxDepth (fun maxDepth =>
  read! commit := ScpBallot_DecodeFrom maxDepth in
  read! nh := Uint32_DecodeFrom maxDepth in
  read! commitQuorumSetHash := Hash_DecodeFrom maxDepth in
  ret (mkXdrScpStatementExternalize commit nh commitQuorumSetHash)).
Definition ScpStatementExternalize_valid (s : XdrScpStatementExternalize) : bool :=
  let '(mkXdrScpStatementExternalize commit nh commitQuorumSetHash) := s in
  ScpBallot_valid commit && Uint32_valid nh && Hash_valid commitQuorumSetHash.

Record XdrScpNomination : Type := mkXdrScpNomination {
  ScpNomination_QuorumSetHash : vec byte 32;
  ScpNomination_Votes : list bytes;
  ScpNomination_Accepted : list bytes
}.
Definition ScpNomination_EncodeTo (s : XdrScpNomination) : option bytes :=
  let '(mkXdrScpNomination quorumSetHash votes accepted) := s in
  write! Hash_EncodeTo quorumSetHash in
  write! slice_EncodeTo Value_EncodeTo votes in
  write! slice_EncodeTo Value_EncodeTo accepted in
  written.
Definition ScpNomination_DecodeFrom (maxDepth : nat) : decode XdrScpNomination := nested maxDepth (fun maxDepth =>
  read! quorumSetHash := Hash_DecodeFrom maxDepth in
  read! votes := slice_DecodeFrom "Value" None (Value_DecodeFrom maxDepth) in
  read! accepted := slice_DecodeFrom "Value" None (Value_DecodeFrom maxDepth) in
  ret (mkXdrScpNomination quorumSetHash votes accepted)).
Definition ScpNomination_valid (s : XdrScpNomination) : bool :=
  let '(mkXdrScpNomination quorumSetHash votes accepted) := s in
  Hash_valid quorumSetHash && valid_slice None Value_valid votes && valid_slice None Value_valid accepted.

Inductive XdrScpStatementPledges : Type :=
| ScpStatementPledges_ScpStPrepare (prepare : XdrScpStatementPrepare)
| ScpStatementPledges_ScpStConfirm (confirm : XdrScpStatementConfirm)
| ScpStatementPledges_ScpStExternalize (externalize : XdrScpStatementExternalize)
| ScpStatementPledges_ScpStNominate (nominate : XdrScpNomination).
Definition ScpStatementPledges_EncodeTo (u : XdrScpStatementPledges) : option bytes :=
  match u with
  | ScpStatementPledges_ScpStPrepare prepare => write! ScpStatementType_EncodeTo 0 in write! ScpStatementPrepare_EncodeTo prepare in written
  | ScpStatementPledges_ScpStConfirm confirm => write! ScpStatementType_EncodeTo 1 in write! ScpStatementConfirm_EncodeTo confirm in written
  | ScpStatementPledges_ScpStExternalize externalize => write! ScpStatementType_EncodeTo 2 in write! ScpStatementExternalize_EncodeTo
      externalize in written
  | ScpStatementPledges_ScpStNominate nominate => write! ScpStatementType_EncodeTo 3 in write! ScpNomination_EncodeTo nominate in written
  end.
Definition ScpStatementPledges_DecodeFrom (maxDepth : nat) : decode XdrScpStatementPledges := nested maxDepth (fun maxDepth =>
  read! type_ := ScpStatementType_DecodeFrom maxDepth in
  if type_ =? 0 then tracked "ScpStatementPrepare" (read! prepare := ScpStatementPrepare_DecodeFrom maxDepth in ret
      (ScpStatementPledges_ScpStPrepare prepare)) else
  if type_ =? 1 then tracked "ScpStatementConfirm" (read! confirm := ScpStatementConfirm_DecodeFrom maxDepth in ret
      (ScpStatementPledges_ScpStConfirm confirm)) else
  if type_ =? 2 then tracked "ScpStatementExternalize" (read! externalize := ScpStatementExternalize_DecodeFrom maxDepth in ret
      (ScpStatementPledges_ScpStExternalize externalize)) else
  if type_ =? 3 then tracked "ScpNomination" (read! nominate := ScpNomination_DecodeFrom maxDepth in ret (ScpStatementPledges_ScpStNominate
      nominate)) else
  invalid).
Definition ScpStatementPledges_valid (u : XdrScpStatementPledges) : bool :=
  match u with
  | ScpStatementPledges_ScpStPrepare prepare => ScpStatementPrepare_valid prepare
  | ScpStatementPledges_ScpStConfirm confirm => ScpStatementConfirm_valid confirm
  | ScpStatementPledges_ScpStExternalize externalize => ScpStatementExternalize_valid externalize
  | ScpStatementPledges_ScpStNominate nominate => ScpNomination_valid nominate
  end.

Record XdrScpStatement : Type := mkXdrScpStatement {
  ScpStatement_NodeId : AccountId;
  ScpStatement_SlotIndex : Z;
  ScpStatement_Pledges : XdrScpStatementPledges
}.
Definition ScpStatement_EncodeTo (s : XdrScpStatement) : option bytes :=
  let '(mkXdrScpStatement nodeId slotIndex pledges) := s in
  write! NodeId_EncodeTo nodeId in
  write! Uint64_EncodeTo slotIndex in
  write! ScpStatementPledges_EncodeTo pledges in
  written.
Definition ScpStatement_DecodeFrom (maxDepth : nat) : decode XdrScpStatement := nested maxDepth (fun maxDepth =>
  read! nodeId := NodeId_DecodeFrom maxDepth in
  read! slotIndex := Uint64_DecodeFrom maxDepth in
  read! pledges := ScpStatementPledges_DecodeFrom maxDepth in
  ret (mkXdrScpStatement nodeId slotIndex pledges)).
Definition ScpStatement_valid (s : XdrScpStatement) : bool :=
  let '(mkXdrScpStatement nodeId slotIndex pledges) := s in
  NodeId_valid nodeId && Uint64_valid slotIndex && ScpStatementPledges_valid pledges.

Record XdrScpEnvelope : Type := mkXdrScpEnvelope {
  ScpEnvelope_Statement : XdrScpStatement;
  ScpEnvelope_Signature : bytes
}.
Definition ScpEnvelope_EncodeTo (s : XdrScpEnvelope) : option bytes :=
  let '(mkXdrScpEnvelope statement signature) := s in
  write! ScpStatement_EncodeTo statement in
  write! Signature_EncodeTo signature in
  written.
Definition ScpEnvelope_DecodeFrom (maxDepth : nat) : decode XdrScpEnvelope := nested maxDepth (fun maxDepth =>
  read! statement := ScpStatement_DecodeFrom maxDepth in
  read! signature := Signature_DecodeFrom maxDepth in
  ret (mkXdrScpEnvelope statement signature)).
Definition ScpEnvelope_valid (s : XdrScpEnvelope) : bool :=
  let '(mkXdrScpEnvelope statement signature) := s in
  ScpStatement_valid statement && Signature_valid signature.

Record XdrLedgerScpMessages : Type := mkXdrLedgerScpMessages {
  LedgerScpMessages_LedgerSeq : Z;
  LedgerScpMessages_Messages : list XdrScpEnvelope
}.
Definition LedgerScpMessages_EncodeTo (s : XdrLedgerScpMessages) : option bytes :=
  let '(mkXdrLedgerScpMessages ledgerSeq messages) := s in
  write! Uint32_EncodeTo ledgerSeq in
  write! slice_EncodeTo ScpEnvelope_EncodeTo messages in
  written.
Definition LedgerScpMessages_DecodeFrom (maxDepth : nat) : decode XdrLedgerScpMessages := nested maxDepth (fun maxDepth =>
  read! ledgerSeq := Uint32_DecodeFrom maxDepth in
  read! messages := slice_DecodeFrom "ScpEnvelope" None (ScpEnvelope_DecodeFrom maxDepth) in
  ret (mkXdrLedgerScpMessages ledgerSeq messages)).
Definition LedgerScpMessages_valid (s : XdrLedgerScpMessages) : bool :=
  let '(mkXdrLedgerScpMessages ledgerSeq messages) := s in
  Uint32_valid ledgerSeq && valid_slice None ScpEnvelope_valid messages.

Record XdrScpHistoryEntryV0 : Type := mkXdrScpHistoryEntryV0 {
  ScpHistoryEntryV0_QuorumSets : list XdrScpQuorumSet;
  ScpHistoryEntryV0_LedgerMessages : XdrLedgerScpMessages
}.
Definition ScpHistoryEntryV0_EncodeTo (s : XdrScpHistoryEntryV0) : option bytes :=
  let '(mkXdrScpHistoryEntryV0 quorumSets ledgerMessages) := s in
  write! slice_EncodeTo ScpQuorumSet_EncodeTo quorumSets in
  write! LedgerScpMessages_EncodeTo ledgerMessages in
  written.
Definition ScpHistoryEntryV0_DecodeFrom (maxDepth : nat) : decode XdrScpHistoryEntryV0 := nested maxDepth (fun maxDepth =>
  read! quorumSets := slice_DecodeFrom "ScpQuorumSet" None (ScpQuorumSet_DecodeFrom maxDepth) in
  read! ledgerMessages := LedgerScpMessages_DecodeFrom maxDepth in
  ret (mkXdrScpHistoryEntryV0 quorumSets ledgerMessages)).
Definition ScpHistoryEntryV0_valid (s : XdrScpHistoryEntryV0) : bool :=
  let '(mkXdrScpHistoryEntryV0 quorumSets ledgerMessages) := s in
  valid_slice None ScpQuorumSet_valid quorumSets && LedgerScpMessages_valid ledgerMessages.

Inductive XdrScpHistoryEntry : Type :=
| ScpHistoryEntry_0 (v0 : XdrScpHistoryEntryV0).
Definition ScpHistoryEntry_EncodeTo (u : XdrScpHistoryEntry) : option bytes :=
  match u with
  | ScpHistoryEntry_0 v0 => write! EncodeInt 0 in write! ScpHistoryEntryV0_EncodeTo v0 in written
  end.
Definition ScpHistoryEntry_DecodeFrom (maxDepth : nat) : decode XdrScpHistoryEntry := nested maxDepth (fun maxDepth =>
  read! v := DecodeInt in
  if v =? 0 then tracked "ScpHistoryEntryV0" (read! v0 := ScpHistoryEntryV0_DecodeFrom maxDepth in ret (ScpHistoryEntry_0 v0)) else
  invalid).
Definition ScpHistoryEntry_valid (u : XdrScpHistoryEntry) : bool :=
  match u with
  | ScpHistoryEntry_0 v0 => ScpHistoryEntryV0_valid v0
  end.

Record XdrLedgerCloseMetaV0 : Type := mkXdrLedgerCloseMetaV0 {
  LedgerCloseMetaV0_LedgerHeader : XdrLedgerHeaderHistoryEntry;
  LedgerCloseMetaV0_TxSet : XdrTransactionSet;
  LedgerCloseMetaV0_TxProcessing : list XdrTransactionResultMeta;
  LedgerCloseMetaV0_UpgradesProcessing : list XdrUpgradeEntryMeta;
  LedgerCloseMetaV0_ScpInfo : list XdrScpHistoryEntry
}.
Definition LedgerCloseMetaV0_EncodeTo (s : XdrLedgerCloseMetaV0) : option bytes :=
  let '(mkXdrLedgerCloseMetaV0 ledgerHeader txSet txProcessing upgradesProcessing scpInfo) := s in
  write! LedgerHeaderHistoryEntry_EncodeTo ledgerHeader in
  write! TransactionSet_EncodeTo txSet in
  write! slice_EncodeTo TransactionResultMeta_EncodeTo txProcessing in
  write! slice_EncodeTo UpgradeEntryMeta_EncodeTo upgradesProcessing in
  write! slice_EncodeTo ScpHistoryEntry_EncodeTo scpInfo in
  written.
Definition LedgerCloseMetaV0_DecodeFrom (maxDepth : nat) : decode XdrLedgerCloseMetaV0 := nested maxDepth (fun maxDepth =>
  read! ledgerHeader := LedgerHeaderHistoryEntry_DecodeFrom maxDepth in
  read! txSet := TransactionSet_DecodeFrom maxDepth in
  read! txProcessing := slice_DecodeFrom "TransactionResultMeta" None (TransactionResultMeta_DecodeFrom maxDepth) in
  read! upgradesProcessing := slice_DecodeFrom "UpgradeEntryMeta" None (UpgradeEntryMeta_DecodeFrom maxDepth) in
  read! scpInfo := slice_DecodeFrom "ScpHistoryEntry" None (ScpHistoryEntry_DecodeFrom maxDepth) in
  ret (mkXdrLedgerCloseMetaV0 ledgerHeader txSet txProcessing upgradesProcessing scpInfo)).
Definition LedgerCloseMetaV0_valid (s : XdrLedgerCloseMetaV0) : bool :=
  let '(mkXdrLedgerCloseMetaV0 ledgerHeader txSet txProcessing upgradesProcessing scpInfo) := s in
  LedgerHeaderHistoryEntry_valid ledgerHeader && TransactionSet_valid txSet && valid_slice None TransactionResultMeta_valid txProcessing &&
      valid_slice None UpgradeEntryMeta_valid upgradesProcessing && valid_slice None ScpHistoryEntry_valid scpInfo.

Record XdrLedgerCloseMetaExtV1 : Type := mkXdrLedgerCloseMetaExtV1 {
  LedgerCloseMetaExtV1_SorobanFeeWrite1Kb : Z
}.
Definition LedgerCloseMetaExtV1_EncodeTo (s : XdrLedgerCloseMetaExtV1) : option bytes :=
  let '(mkXdrLedgerCloseMetaExtV1 sorobanFeeWrite1Kb) := s in
  write! ExtensionPoint_EncodeTo tt in
  write! Int64_EncodeTo sorobanFeeWrite1Kb in
  written.
Definition LedgerCloseMetaExtV1_DecodeFrom (maxDepth : nat) : decode XdrLedgerCloseMetaExtV1 := nested maxDepth (fun maxDepth =>
  read! _ := ExtensionPoint_DecodeFrom maxDepth in
  read! sorobanFeeWrite1Kb := Int64_DecodeFrom maxDepth in
  ret (mkXdrLedgerCloseMetaExtV1 sorobanFeeWrite1Kb)).
Definition LedgerCloseMetaExtV1_valid (s : XdrLedgerCloseMetaExtV1) : bool :=
  let '(mkXdrLedgerCloseMetaExtV1 sorobanFeeWrite1Kb) := s in
  Int64_valid sorobanFeeWrite1Kb.

Inductive XdrLedgerCloseMetaExt : Type :=
| LedgerCloseMetaExt_0
| LedgerCloseMetaExt_1 (v1 : XdrLedgerCloseMetaExtV1).
Definition LedgerCloseMetaExt_EncodeTo (u : XdrLedgerCloseMetaExt) : option bytes :=
  match u with
  | LedgerCloseMetaExt_0 => write! EncodeInt 0 in written
  | LedgerCloseMetaExt_1 v1 => write! EncodeInt 1 in write! LedgerCloseMetaExtV1_EncodeTo v1 in written
  end.
Definition LedgerCloseMetaExt_DecodeFrom (maxDepth : nat) : decode XdrLedgerCloseMetaExt := nested maxDepth (fun maxDepth =>
  read! v := DecodeInt in
  if v =? 0 then ret LedgerCloseMetaExt_0 else
  if v =? 1 then tracked "LedgerCloseMetaExtV1" (read! v1 := LedgerCloseMetaExtV1_DecodeFrom maxDepth in ret (LedgerCloseMetaExt_1 v1)) else
  invalid).
Definition LedgerCloseMetaExt_valid (u : XdrLedgerCloseMetaExt) : bool :=
  match u with
  | LedgerCloseMetaExt_0 => true
  | LedgerCloseMetaExt_1 v1 => LedgerCloseMetaExtV1_valid v1
  end.

Definition txSetComponentTypeMap : list Z := [0].
Definition TxSetComponentType_EncodeTo (e : Z) : option bytes := enum_EncodeTo txSetComponentTypeMap e.
Definition TxSetComponentType_DecodeFrom (maxDepth : nat) : decode Z := enum_DecodeFrom txSetComponentTypeMap maxDepth.
Definition TxSetComponentType_valid (e : Z) : bool := valid_enum txSetComponentTypeMap e.

Record XdrTxSetComponentTxsMaybeDiscountedFee : Type := mkXdrTxSetComponentTxsMaybeDiscountedFee {
  TxSetComponentTxsMaybeDiscountedFee_BaseFee : option Z;
  TxSetComponentTxsMaybeDiscountedFee_Txs : list XdrEnvelope
}.
Definition TxSetComponentTxsMaybeDiscountedFee_EncodeTo (s : XdrTxSetComponentTxsMaybeDiscountedFee) : option bytes :=
  let '(mkXdrTxSetComponentTxsMaybeDiscountedFee baseFee txs) := s in
  write! pointer_EncodeTo Int64_EncodeTo baseFee in
  write! slice_EncodeTo TransactionEnvelope_EncodeTo txs in
  written.
Definition TxSetComponentTxsMaybeDiscountedFee_DecodeFrom (maxDepth : nat) : decode XdrTxSetComponentTxsMaybeDiscountedFee := nested
    maxDepth (fun maxDepth =>
  read! baseFee := pointer_DecodeFrom "Int64" (Int64_DecodeFrom maxDepth) in
  read! txs := slice_DecodeFrom "TransactionEnvelope" None (TransactionEnvelope_DecodeFrom maxDepth) in
  ret (mkXdrTxSetComponentTxsMaybeDiscountedFee baseFee txs)).
Definition TxSetComponentTxsMaybeDiscountedFee_valid (s : XdrTxSetComponentTxsMaybeDiscountedFee) : bool :=
  let '(mkXdrTxSetComponentTxsMaybeDiscountedFee baseFee txs) := s in
  valid_pointer Int64_valid baseFee && valid_slice None TransactionEnvelope_valid txs.

Inductive XdrTxSetComponent : Type :=
| TxSetComponent_TxsetCompTxsMaybeDiscountedFee (txsMaybeDiscountedFee : XdrTxSetComponentTxsMaybeDiscountedFee).
Definition TxSetComponent_EncodeTo (u : XdrTxSetComponent) : option bytes :=
  match u with
  | TxSetComponent_TxsetCompTxsMaybeDiscountedFee txsMaybeDiscountedFee => write! TxSetComponentType_EncodeTo 0 in write!
      TxSetComponentTxsMaybeDiscountedFee_EncodeTo txsMaybeDiscountedFee in written
  end.
Definition TxSetComponent_DecodeFrom (maxDepth : nat) : decode XdrTxSetComponent := nested maxDepth (fun maxDepth =>
  read! type_ := TxSetComponentType_DecodeFrom maxDepth in
  if type_ =? 0 then tracked "TxSetComponentTxsMaybeDiscountedFee" (read! txsMaybeDiscountedFee :=
      TxSetComponentTxsMaybeDiscountedFee_DecodeFrom maxDepth in ret (TxSetComponent_TxsetCompTxsMaybeDiscountedFee txsMaybeDiscountedFee))
      else
  invalid).
Definition TxSetComponent_valid (u : XdrTxSetComponent) : bool :=
  match u with
  | TxSetComponent_TxsetCompTxsMaybeDiscountedFee txsMaybeDiscountedFee => TxSetComponentTxsMaybeDiscountedFee_valid txsMaybeDiscountedFee
  end.

Definition DependentTxCluster_EncodeTo (s : list XdrEnvelope) : option bytes := write! slice_EncodeTo TransactionEnvelope_EncodeTo s in
    written.
Definition DependentTxCluster_DecodeFrom (maxDepth : nat) : decode (list XdrEnvelope) := nested maxDepth (fun maxDepth =>
  read! s := slice_DecodeFrom "TransactionEnvelope" None (TransactionEnvelope_DecodeFrom maxDepth) in ret s).
Definition DependentTxCluster_valid (s : list XdrEnvelope) : bool := valid_slice None TransactionEnvelope_valid s.

Definition ParallelTxExecutionStage_EncodeTo (s : list (list XdrEnvelope)) : option bytes := write! slice_EncodeTo
    DependentTxCluster_EncodeTo s in written.
Definition ParallelTxExecutionStage_DecodeFrom (maxDepth : nat) : decode (list (list XdrEnvelope)) := nested maxDepth (fun maxDepth =>
  read! s := slice_DecodeFrom "DependentTxCluster" None (DependentTxCluster_DecodeFrom maxDepth) in ret s).
Definition ParallelTxExecutionStage_valid (s : list (list XdrEnvelope)) : bool := valid_slice None DependentTxCluster_valid s.

Record XdrParallelTxsComponent : Type := mkXdrParallelTxsComponent {
  ParallelTxsComponent_BaseFee : option Z;
  ParallelTxsComponent_ExecutionStages : list (list (list XdrEnvelope))
}.
Definition ParallelTxsComponent_EncodeTo (s : XdrParallelTxsComponent) : option bytes :=
  let '(mkXdrParallelTxsComponent baseFee executionStages) := s in
  write! pointer_EncodeTo Int64_EncodeTo baseFee in
  write! slice_EncodeTo ParallelTxExecutionStage_EncodeTo executionStages in
  written.
Definition ParallelTxsComponent_DecodeFrom (maxDepth : nat) : decode XdrParallelTxsComponent := nested maxDepth (fun maxDepth =>
  read! baseFee := pointer_DecodeFrom "Int64" (Int64_DecodeFrom maxDepth) in
  read! executionStages := slice_DecodeFrom "ParallelTxExecutionStage" None (ParallelTxExecutionStage_DecodeFrom maxDepth) in
  ret (mkXdrParallelTxsComponent baseFee executionStages)).
Definition ParallelTxsComponent_valid (s : XdrParallelTxsComponent) : bool :=
  let '(mkXdrParallelTxsComponent baseFee executionStages) := s in
  valid_pointer Int64_valid baseFee && valid_slice None ParallelTxExecutionStage_valid executionStages.

Inductive XdrTransactionPhase : Type :=
| TransactionPhase_0 (v0Components : list XdrTxSetComponent)
| TransactionPhase_1 (parallelTxsComponent : XdrParallelTxsComponent).
Definition TransactionPhase_EncodeTo (u : XdrTransactionPhase) : option bytes :=
  match u with
  | TransactionPhase_0 v0Components => write! EncodeInt 0 in write! slice_EncodeTo TxSetComponent_EncodeTo v0Components in written
  | TransactionPhase_1 parallelTxsComponent => write! EncodeInt 1 in write! ParallelTxsComponent_EncodeTo parallelTxsComponent in written
  end.
Definition TransactionPhase_DecodeFrom (maxDepth : nat) : decode XdrTransactionPhase := nested maxDepth (fun maxDepth =>
  read! v := DecodeInt in
  if v =? 0 then tracked "[]TxSetComponent" (read! v0Components := slice_DecodeFrom "TxSetComponent" None (TxSetComponent_DecodeFrom
      maxDepth) in ret (TransactionPhase_0 v0Components)) else
  if v =? 1 then tracked "ParallelTxsComponent" (read! parallelTxsComponent := ParallelTxsComponent_DecodeFrom maxDepth in ret
      (TransactionPhase_1 parallelTxsComponent)) else
  invalid).
Definition TransactionPhase_valid (u : XdrTransactionPhase) : bool :=
  match u with
  | TransactionPhase_0 v0Components => (valid_slice None TxSetComponent_valid) v0Components
  | TransactionPhase_1 parallelTxsComponent => ParallelTxsComponent_valid parallelTxsComponent
  end.

Record XdrTransactionSetV1 : Type := mkXdrTransactionSetV1 {
  TransactionSetV1_PreviousLedgerHash : vec byte 32;
  TransactionSetV1_Phases : list XdrTransactionPhase
}.
Definition TransactionSetV1_EncodeTo (s : XdrTransactionSetV1) : option bytes :=
  let '(mkXdrTransactionSetV1 previousLedgerHash phases) := s in
  write! Hash_EncodeTo previousLedgerHash in
  write! slice_EncodeTo TransactionPhase_EncodeTo phases in
  written.
Definition TransactionSetV1_DecodeFrom (maxDepth : nat) : decode XdrTransactionSetV1 := nested maxDepth (fun maxDepth =>
  read! previousLedgerHash := Hash_DecodeFrom maxDepth in
  read! phases := slice_DecodeFrom "TransactionPhase" None (TransactionPhase_DecodeFrom maxDepth) in
  ret (mkXdrTransactionSetV1 previousLedgerHash phases)).
Definition TransactionSetV1_valid (s : XdrTransactionSetV1) : bool :=
  let '(mkXdrTransactionSetV1 previousLedgerHash phases) := s in
  Hash_valid previousLedgerHash && valid_slice None TransactionPhase_valid phases.

Inductive XdrGeneralizedTransactionSet : Type :=
| GeneralizedTransactionSet_1 (v1TxSet : XdrTransactionSetV1).
Definition GeneralizedTransactionSet_EncodeTo (u : XdrGeneralizedTransactionSet) : option bytes :=
  match u with
  | GeneralizedTransactionSet_1 v1TxSet => write! EncodeInt 1 in write! TransactionSetV1_EncodeTo v1TxSet in written
  end.
Definition GeneralizedTransactionSet_DecodeFrom (maxDepth : nat) : decode XdrGeneralizedTransactionSet := nested maxDepth (fun maxDepth =>
  read! v := DecodeInt in
  if v =? 1 then tracked "TransactionSetV1" (read! v1TxSet := TransactionSetV1_DecodeFrom maxDepth in ret (GeneralizedTransactionSet_1
      v1TxSet)) else
  invalid).
Definition GeneralizedTransactionSet_valid (u : XdrGeneralizedTransactionSet) : bool :=
  match u with
  | GeneralizedTransactionSet_1 v1TxSet => TransactionSetV1_valid v1TxSet
  end.

Record XdrLedgerCloseMetaV1 : Type := mkXdrLedgerCloseMetaV1 {
  LedgerCloseMetaV1_Ext : XdrLedgerCloseMetaExt;
  LedgerCloseMetaV1_LedgerHeader : XdrLedgerHeaderHistoryEntry;
  LedgerCloseMetaV1_TxSet : XdrGeneralizedTransactionSet;
  LedgerCloseMetaV1_TxProcessing : list XdrTransactionResultMeta;
  LedgerCloseMetaV1_UpgradesProcessing : list XdrUpgradeEntryMeta;
  LedgerCloseMetaV1_ScpInfo : list XdrScpHistoryEntry;
  LedgerCloseMetaV1_TotalByteSizeOfLiveSorobanState : Z;
  LedgerCloseMetaV1_EvictedKeys : list LedgerKey;
  LedgerCloseMetaV1_Unused : list XdrLedgerEntry
}.
Definition LedgerCloseMetaV1_EncodeTo (s : XdrLedgerCloseMetaV1) : option bytes :=
  let '(mkXdrLedgerCloseMetaV1 ext ledgerHeader txSet txProcessing upgradesProcessing scpInfo totalByteSizeOfLiveSorobanState evictedKeys
      unused) := s in
  write! LedgerCloseMetaExt_EncodeTo ext in
  write! LedgerHeaderHistoryEntry_EncodeTo ledgerHeader in
  write! GeneralizedTransactionSet_EncodeTo txSet in
  write! slice_EncodeTo TransactionResultMeta_EncodeTo txProcessing in
  write! slice_EncodeTo UpgradeEntryMeta_EncodeTo upgradesProcessing in
  write! slice_EncodeTo ScpHistoryEntry_EncodeTo scpInfo in
  write! Uint64_EncodeTo totalByteSizeOfLiveSorobanState in
  write! slice_EncodeTo LedgerKey_EncodeTo evictedKeys in
  write! slice_EncodeTo LedgerEntry_EncodeTo unused in
  written.
Definition LedgerCloseMetaV1_DecodeFrom (maxDepth : nat) : decode XdrLedgerCloseMetaV1 := nested maxDepth (fun maxDepth =>
  read! ext := LedgerCloseMetaExt_DecodeFrom maxDepth in
  read! ledgerHeader := LedgerHeaderHistoryEntry_DecodeFrom maxDepth in
  read! txSet := GeneralizedTransactionSet_DecodeFrom maxDepth in
  read! txProcessing := slice_DecodeFrom "TransactionResultMeta" None (TransactionResultMeta_DecodeFrom maxDepth) in
  read! upgradesProcessing := slice_DecodeFrom "UpgradeEntryMeta" None (UpgradeEntryMeta_DecodeFrom maxDepth) in
  read! scpInfo := slice_DecodeFrom "ScpHistoryEntry" None (ScpHistoryEntry_DecodeFrom maxDepth) in
  read! totalByteSizeOfLiveSorobanState := Uint64_DecodeFrom maxDepth in
  read! evictedKeys := slice_DecodeFrom "LedgerKey" None (LedgerKey_DecodeFrom maxDepth) in
  read! unused := slice_DecodeFrom "LedgerEntry" None (LedgerEntry_DecodeFrom maxDepth) in
  ret (mkXdrLedgerCloseMetaV1 ext ledgerHeader txSet txProcessing upgradesProcessing scpInfo totalByteSizeOfLiveSorobanState evictedKeys
      unused)).
Definition LedgerCloseMetaV1_valid (s : XdrLedgerCloseMetaV1) : bool :=
  let '(mkXdrLedgerCloseMetaV1 ext ledgerHeader txSet txProcessing upgradesProcessing scpInfo totalByteSizeOfLiveSorobanState evictedKeys
      unused) := s in
  LedgerCloseMetaExt_valid ext && LedgerHeaderHistoryEntry_valid ledgerHeader && GeneralizedTransactionSet_valid txSet && valid_slice None
      TransactionResultMeta_valid txProcessing && valid_slice None UpgradeEntryMeta_valid upgradesProcessing && valid_slice None
      ScpHistoryEntry_valid scpInfo && Uint64_valid totalByteSizeOfLiveSorobanState && valid_slice None LedgerKey_valid evictedKeys &&
      valid_slice None LedgerEntry_valid unused.

Record XdrTransactionResultMetaV1 : Type := mkXdrTransactionResultMetaV1 {
  TransactionResultMetaV1_Result : XdrTransactionResultPair;
  TransactionResultMetaV1_FeeProcessing : list XdrLedgerEntryChange;
  TransactionResultMetaV1_TxApplyProcessing : XdrTransactionMeta;
  TransactionResultMetaV1_PostTxApplyFeeProcessing : list XdrLedgerEntryChange
}.
Definition TransactionResultMetaV1_EncodeTo (s : XdrTransactionResultMetaV1) : option bytes :=
  let '(mkXdrTransactionResultMetaV1 result feeProcessing txApplyProcessing postTxApplyFeeProcessing) := s in
  write! ExtensionPoint_EncodeTo tt in
  write! TransactionResultPair_EncodeTo result in
  write! LedgerEntryChanges_EncodeTo feeProcessing in
  write! TransactionMeta_EncodeTo txApplyProcessing in
  write! LedgerEntryChanges_EncodeTo postTxApplyFeeProcessing in
  written.
Definition TransactionResultMetaV1_DecodeFrom (maxDepth : nat) : decode XdrTransactionResultMetaV1 := nested maxDepth (fun maxDepth =>
  read! _ := ExtensionPoint_DecodeFrom maxDepth in
  read! result := TransactionResultPair_DecodeFrom maxDepth in
  read! feeProcessing := LedgerEntryChanges_DecodeFrom maxDepth in
  read! txApplyProcessing := TransactionMeta_DecodeFrom maxDepth in
  read! postTxApplyFeeProcessing := LedgerEntryChanges_DecodeFrom maxDepth in
  ret (mkXdrTransactionResultMetaV1 result feeProcessing txApplyProcessing postTxApplyFeeProcessing)).
Definition TransactionResultMetaV1_valid (s : XdrTransactionResultMetaV1) : bool :=
  let '(mkXdrTransactionResultMetaV1 result feeProcessing txApplyProcessing postTxApplyFeeProcessing) := s in
  TransactionResultPair_valid result && LedgerEntryChanges_valid feeProcessing && TransactionMeta_valid txApplyProcessing &&
      LedgerEntryChanges_valid postTxApplyFeeProcessing.

Record XdrLedgerCloseMetaV2 : Type := mkXdrLedgerCloseMetaV2 {
  LedgerCloseMetaV2_Ext : XdrLedgerCloseMetaExt;
  LedgerCloseMetaV2_LedgerHeader : XdrLedgerHeaderHistoryEntry;
  LedgerCloseMetaV2_TxSet : XdrGeneralizedTransactionSet;
  LedgerCloseMetaV2_TxProcessing : list XdrTransactionResultMetaV1;
  LedgerCloseMetaV2_UpgradesProcessing : list XdrUpgradeEntryMeta;
  LedgerCloseMetaV2_ScpInfo : list XdrScpHistoryEntry;
  LedgerCloseMetaV2_TotalByteSizeOfLiveSorobanState : Z;
  LedgerCloseMetaV2_EvictedKeys : list LedgerKey
}.
Definition LedgerCloseMetaV2_EncodeTo (s : XdrLedgerCloseMetaV2) : option bytes :=
  let '(mkXdrLedgerCloseMetaV2 ext ledgerHeader txSet txProcessing upgradesProcessing scpInfo totalByteSizeOfLiveSorobanState evictedKeys)
      := s in
  write! LedgerCloseMetaExt_EncodeTo ext in
  write! LedgerHeaderHistoryEntry_EncodeTo ledgerHeader in
  write! GeneralizedTransactionSet_EncodeTo txSet in
  write! slice_EncodeTo TransactionResultMetaV1_EncodeTo txProcessing in
  write! slice_EncodeTo UpgradeEntryMeta_EncodeTo upgradesProcessing in
  write! slice_EncodeTo ScpHistoryEntry_EncodeTo scpInfo in
  write! Uint64_EncodeTo totalByteSizeOfLiveSorobanState in
  write! slice_EncodeTo LedgerKey_EncodeTo evictedKeys in
  written.
Definition LedgerCloseMetaV2_DecodeFrom (maxDepth : nat) : decode XdrLedgerCloseMetaV2 := nested maxDepth (fun maxDepth =>
  read! ext := LedgerCloseMetaExt_DecodeFrom maxDepth in
  read! ledgerHeader := LedgerHeaderHistoryEntry_DecodeFrom maxDepth in
  read! txSet := GeneralizedTransactionSet_DecodeFrom maxDepth in
  read! txProcessing := slice_DecodeFrom "TransactionResultMetaV1" None (TransactionResultMetaV1_DecodeFrom maxDepth) in
  read! upgradesProcessing := slice_DecodeFrom "UpgradeEntryMeta" None (UpgradeEntryMeta_DecodeFrom maxDepth) in
  read! scpInfo := slice_DecodeFrom "ScpHistoryEntry" None (ScpHistoryEntry_DecodeFrom maxDepth) in
  read! totalByteSizeOfLiveSorobanState := Uint64_DecodeFrom maxDepth in
  read! evictedKeys := slice_DecodeFrom "LedgerKey" None (LedgerKey_DecodeFrom maxDepth) in
  ret (mkXdrLedgerCloseMetaV2 ext ledgerHeader txSet txProcessing upgradesProcessing scpInfo totalByteSizeOfLiveSorobanState evictedKeys)).
Definition LedgerCloseMetaV2_valid (s : XdrLedgerCloseMetaV2) : bool :=
  let '(mkXdrLedgerCloseMetaV2 ext ledgerHeader txSet txProcessing upgradesProcessing scpInfo totalByteSizeOfLiveSorobanState evictedKeys)
      := s in
  LedgerCloseMetaExt_valid ext && LedgerHeaderHistoryEntry_valid ledgerHeader && GeneralizedTransactionSet_valid txSet && valid_slice None
      TransactionResultMetaV1_valid txProcessing && valid_slice None UpgradeEntryMeta_valid upgradesProcessing && valid_slice None
      ScpHistoryEntry_valid scpInfo && Uint64_valid totalByteSizeOfLiveSorobanState && valid_slice None LedgerKey_valid evictedKeys.

Inductive XdrLedgerCloseMeta : Type :=
| LedgerCloseMeta_0 (v0 : XdrLedgerCloseMetaV0)
| LedgerCloseMeta_1 (v1 : XdrLedgerCloseMetaV1)
| LedgerCloseMeta_2 (v2 : XdrLedgerCloseMetaV2).
Definition LedgerCloseMeta_EncodeTo (u : XdrLedgerCloseMeta) : option bytes :=
  match u with
  | LedgerCloseMeta_0 v0 => write! EncodeInt 0 in write! LedgerCloseMetaV0_EncodeTo v0 in written
  | LedgerCloseMeta_1 v1 => write! EncodeInt 1 in write! LedgerCloseMetaV1_EncodeTo v1 in written
  | LedgerCloseMeta_2 v2 => write! EncodeInt 2 in write! LedgerCloseMetaV2_EncodeTo v2 in written
  end.
Definition LedgerCloseMeta_DecodeFrom (maxDepth : nat) : decode XdrLedgerCloseMeta := nested maxDepth (fun maxDepth =>
  read! v := DecodeInt in
  if v =? 0 then tracked "LedgerCloseMetaV0" (read! v0 := LedgerCloseMetaV0_DecodeFrom maxDepth in ret (LedgerCloseMeta_0 v0)) else
  if v =? 1 then tracked "LedgerCloseMetaV1" (read! v1 := LedgerCloseMetaV1_DecodeFrom maxDepth in ret (LedgerCloseMeta_1 v1)) else
  if v =? 2 then tracked "LedgerCloseMetaV2" (read! v2 := LedgerCloseMetaV2_DecodeFrom maxDepth in ret (LedgerCloseMeta_2 v2)) else
  invalid).
Definition LedgerCloseMeta_valid (u : XdrLedgerCloseMeta) : bool :=
  match u with
  | LedgerCloseMeta_0 v0 => LedgerCloseMetaV0_valid v0
  | LedgerCloseMeta_1 v1 => LedgerCloseMetaV1_valid v1
  | LedgerCloseMeta_2 v2 => LedgerCloseMetaV2_valid v2
  end.
End Types.

(** ** Each type is read back *)
Section Laws.
Context {X : GoXdrCoder} {XL : GoXdrCoderLaws X} {N : Nesting}.

Lemma UpgradeType_coded : coded 1 UpgradeType_valid UpgradeType_EncodeTo UpgradeType_DecodeFrom.
Proof. xdr_single UpgradeType_EncodeTo UpgradeType_DecodeFrom UpgradeType_valid. Qed.
#[local] Hint Resolve UpgradeType_coded : xdr.
Lemma StellarValueType_coded : coded 1 StellarValueType_valid StellarValueType_EncodeTo StellarValueType_DecodeFrom.
Proof. by apply (enum_coded stellarValueTypeMap). Qed.
#[local] Hint Resolve StellarValueType_coded : xdr.
Lemma NodeId_coded : coded 3 NodeId_valid NodeId_EncodeTo NodeId_DecodeFrom.
Proof. xdr_single NodeId_EncodeTo NodeId_DecodeFrom NodeId_valid. Qed.
#[local] Hint Resolve NodeId_coded : xdr.
Lemma LedgerCloseValueSignature_coded : coded 4 LedgerCloseValueSignature_valid LedgerCloseValueSignature_EncodeTo
    LedgerCloseValueSignature_DecodeFrom.
Proof. xdr_record LedgerCloseValueSignature_EncodeTo LedgerCloseValueSignature_DecodeFrom LedgerCloseValueSignature_valid. Qed.
#[local] Hint Resolve LedgerCloseValueSignature_coded : xdr.
Lemma StellarValueProposedValue_coded : coded 5 StellarValueProposedValue_valid StellarValueProposedValue_EncodeTo
    StellarValueProposedValue_DecodeFrom.
Proof. xdr_record StellarValueProposedValue_EncodeTo StellarValueProposedValue_DecodeFrom StellarValueProposedValue_valid. Qed.
#[local] Hint Resolve StellarValueProposedValue_coded : xdr.
Lemma TimePointMs_coded : coded 2 TimePointMs_valid TimePointMs_EncodeTo TimePointMs_DecodeFrom.
Proof. xdr_single TimePointMs_EncodeTo TimePointMs_DecodeFrom TimePointMs_valid. Qed.
#[local] Hint Resolve TimePointMs_coded : xdr.
Lemma StellarValueSignedMsValue_coded : coded 5 StellarValueSignedMsValue_valid StellarValueSignedMsValue_EncodeTo
    StellarValueSignedMsValue_DecodeFrom.
Proof. xdr_record StellarValueSignedMsValue_EncodeTo StellarValueSignedMsValue_DecodeFrom StellarValueSignedMsValue_valid. Qed.
#[local] Hint Resolve StellarValueSignedMsValue_coded : xdr.
Lemma StellarValueProposedMsValue_coded : coded 5 StellarValueProposedMsValue_valid StellarValueProposedMsValue_EncodeTo
    StellarValueProposedMsValue_DecodeFrom.
Proof. xdr_record StellarValueProposedMsValue_EncodeTo StellarValueProposedMsValue_DecodeFrom StellarValueProposedMsValue_valid. Qed.
#[local] Hint Resolve StellarValueProposedMsValue_coded : xdr.
Lemma StellarValueExt_coded : coded 6 StellarValueExt_valid StellarValueExt_EncodeTo StellarValueExt_DecodeFrom.
Proof. xdr_union StellarValueExt_EncodeTo StellarValueExt_DecodeFrom StellarValueExt_valid. Qed.
#[local] Hint Resolve StellarValueExt_coded : xdr.
Lemma StellarValue_coded : coded 7 StellarValue_valid StellarValue_EncodeTo StellarValue_DecodeFrom.
Proof. xdr_record StellarValue_EncodeTo StellarValue_DecodeFrom StellarValue_valid. Qed.
#[local] Hint Resolve StellarValue_coded : xdr.
Lemma LedgerHeaderExtensionV1Ext_coded : coded 1 LedgerHeaderExtensionV1Ext_valid LedgerHeaderExtensionV1Ext_EncodeTo
    LedgerHeaderExtensionV1Ext_DecodeFrom.
Proof. xdr_union LedgerHeaderExtensionV1Ext_EncodeTo LedgerHeaderExtensionV1Ext_DecodeFrom LedgerHeaderExtensionV1Ext_valid. Qed.
#[local] Hint Resolve LedgerHeaderExtensionV1Ext_coded : xdr.
Lemma LedgerHeaderExtensionV1_coded : coded 2 LedgerHeaderExtensionV1_valid LedgerHeaderExtensionV1_EncodeTo
    LedgerHeaderExtensionV1_DecodeFrom.
Proof. xdr_record LedgerHeaderExtensionV1_EncodeTo LedgerHeaderExtensionV1_DecodeFrom LedgerHeaderExtensionV1_valid. Qed.
#[local] Hint Resolve LedgerHeaderExtensionV1_coded : xdr.
Lemma LedgerHeaderExt_coded : coded 3 LedgerHeaderExt_valid LedgerHeaderExt_EncodeTo LedgerHeaderExt_DecodeFrom.
Proof. xdr_union LedgerHeaderExt_EncodeTo LedgerHeaderExt_DecodeFrom LedgerHeaderExt_valid. Qed.
#[local] Hint Resolve LedgerHeaderExt_coded : xdr.
Lemma LedgerHeader_coded : coded 8 LedgerHeader_valid LedgerHeader_EncodeTo LedgerHeader_DecodeFrom.
Proof. xdr_record LedgerHeader_EncodeTo LedgerHeader_DecodeFrom LedgerHeader_valid. Qed.
#[local] Hint Resolve LedgerHeader_coded : xdr.
Lemma LedgerHeaderHistoryEntryExt_coded : coded 1 LedgerHeaderHistoryEntryExt_valid LedgerHeaderHistoryEntryExt_EncodeTo
    LedgerHeaderHistoryEntryExt_DecodeFrom.
Proof. xdr_union LedgerHeaderHistoryEntryExt_EncodeTo LedgerHeaderHistoryEntryExt_DecodeFrom LedgerHeaderHistoryEntryExt_valid. Qed.
#[local] Hint Resolve LedgerHeaderHistoryEntryExt_coded : xdr.
Lemma LedgerHeaderHistoryEntry_coded : coded 9 LedgerHeaderHistoryEntry_valid LedgerHeaderHistoryEntry_EncodeTo
    LedgerHeaderHistoryEntry_DecodeFrom.
Proof. xdr_record LedgerHeaderHistoryEntry_EncodeTo LedgerHeaderHistoryEntry_DecodeFrom LedgerHeaderHistoryEntry_valid. Qed.
#[local] Hint Resolve LedgerHeaderHistoryEntry_coded : xdr.
Lemma TransactionSet_coded : coded (5 * nesting + 22) TransactionSet_valid TransactionSet_EncodeTo TransactionSet_DecodeFrom.
Proof. xdr_record TransactionSet_EncodeTo TransactionSet_DecodeFrom TransactionSet_valid. Qed.
#[local] Hint Resolve TransactionSet_coded : xdr.
Lemma TransactionResultCode_coded : coded 1 TransactionResultCode_valid TransactionResultCode_EncodeTo TransactionResultCode_DecodeFrom.
Proof. by apply (enum_coded transactionResultCodeMap). Qed.
#[local] Hint Resolve TransactionResultCode_coded : xdr.
Lemma OperationResultCode_coded : coded 1 OperationResultCode_valid OperationResultCode_EncodeTo OperationResultCode_DecodeFrom.
Proof. by apply (enum_coded operationResultCodeMap). Qed.
#[local] Hint Resolve OperationResultCode_coded : xdr.
Lemma CreateAccountResultCode_coded : coded 1 CreateAccountResultCode_valid CreateAccountResultCode_EncodeTo
    CreateAccountResultCode_DecodeFrom.
Proof. by apply (enum_coded createAccountResultCodeMap). Qed.
#[local] Hint Resolve CreateAccountResultCode_coded : xdr.
Lemma CreateAccountResult_coded : coded 2 CreateAccountResult_valid CreateAccountResult_EncodeTo CreateAccountResult_DecodeFrom.
Proof. xdr_union CreateAccountResult_EncodeTo CreateAccountResult_DecodeFrom CreateAccountResult_valid. Qed.
#[local] Hint Resolve CreateAccountResult_coded : xdr.
Lemma PaymentResultCode_coded : coded 1 PaymentResultCode_valid PaymentResultCode_EncodeTo PaymentResultCode_DecodeFrom.
Proof. by apply (enum_coded paymentResultCodeMap). Qed.
#[local] Hint Resolve PaymentResultCode_coded : xdr.
Lemma PaymentResult_coded : coded 2 PaymentResult_valid PaymentResult_EncodeTo PaymentResult_DecodeFrom.
Proof. xdr_union PaymentResult_EncodeTo PaymentResult_DecodeFrom PaymentResult_valid. Qed.
#[local] Hint Resolve PaymentResult_coded : xdr.
Lemma PathPaymentStrictReceiveResultCode_coded : coded 1 PathPaymentStrictReceiveResultCode_valid
    PathPaymentStrictReceiveResultCode_EncodeTo PathPaymentStrictReceiveResultCode_DecodeFrom.
Proof. by apply (enum_coded pathPaymentStrictReceiveResultCodeMap). Qed.
#[local] Hint Resolve PathPaymentStrictReceiveResultCode_coded : xdr.
Lemma ClaimAtomType_coded : coded 1 ClaimAtomType_valid ClaimAtomType_EncodeTo ClaimAtomType_DecodeFrom.
Proof. by apply (enum_coded claimAtomTypeMap). Qed.
#[local] Hint Resolve ClaimAtomType_coded : xdr.
Lemma ClaimOfferAtomV0_coded : coded 6 ClaimOfferAtomV0_valid ClaimOfferAtomV0_EncodeTo ClaimOfferAtomV0_DecodeFrom.
Proof. xdr_record ClaimOfferAtomV0_EncodeTo ClaimOfferAtomV0_DecodeFrom ClaimOfferAtomV0_valid. Qed.
#[local] Hint Resolve ClaimOfferAtomV0_coded : xdr.
Lemma ClaimOfferAtom_coded : coded 6 ClaimOfferAtom_valid ClaimOfferAtom_EncodeTo ClaimOfferAtom_DecodeFrom.
Proof. xdr_record ClaimOfferAtom_EncodeTo ClaimOfferAtom_DecodeFrom ClaimOfferAtom_valid. Qed.
#[local] Hint Resolve ClaimOfferAtom_coded : xdr.
Lemma ClaimLiquidityAtom_coded : coded 6 ClaimLiquidityAtom_valid ClaimLiquidityAtom_EncodeTo ClaimLiquidityAtom_DecodeFrom.
Proof. xdr_record ClaimLiquidityAtom_EncodeTo ClaimLiquidityAtom_DecodeFrom ClaimLiquidityAtom_valid. Qed.
#[local] Hint Resolve ClaimLiquidityAtom_coded : xdr.
Lemma ClaimAtom_coded : coded 7 ClaimAtom_valid ClaimAtom_EncodeTo ClaimAtom_DecodeFrom.
Proof. xdr_union ClaimAtom_EncodeTo ClaimAtom_DecodeFrom ClaimAtom_valid. Qed.
#[local] Hint Resolve ClaimAtom_coded : xdr.
Lemma SimplePaymentResult_coded : coded 6 SimplePaymentResult_valid SimplePaymentResult_EncodeTo SimplePaymentResult_DecodeFrom.
Proof. xdr_record SimplePaymentResult_EncodeTo SimplePaymentResult_DecodeFrom SimplePaymentResult_valid. Qed.
#[local] Hint Resolve SimplePaymentResult_coded : xdr.
Lemma PathPaymentStrictReceiveResultSuccess_coded : coded 8 PathPaymentStrictReceiveResultSuccess_valid
    PathPaymentStrictReceiveResultSuccess_EncodeTo PathPaymentStrictReceiveResultSuccess_DecodeFrom.
Proof. xdr_record PathPaymentStrictReceiveResultSuccess_EncodeTo PathPaymentStrictReceiveResultSuccess_DecodeFrom
    PathPaymentStrictReceiveResultSuccess_valid. Qed.
#[local] Hint Resolve PathPaymentStrictReceiveResultSuccess_coded : xdr.
Lemma PathPaymentStrictReceiveResult_coded : coded 9 PathPaymentStrictReceiveResult_valid PathPaymentStrictReceiveResult_EncodeTo
    PathPaymentStrictReceiveResult_DecodeFrom.
Proof. xdr_union PathPaymentStrictReceiveResult_EncodeTo PathPaymentStrictReceiveResult_DecodeFrom PathPaymentStrictReceiveResult_valid.
    Qed.
#[local] Hint Resolve PathPaymentStrictReceiveResult_coded : xdr.
Lemma ManageSellOfferResultCode_coded : coded 1 ManageSellOfferResultCode_valid ManageSellOfferResultCode_EncodeTo
    ManageSellOfferResultCode_DecodeFrom.
Proof. by apply (enum_coded manageSellOfferResultCodeMap). Qed.
#[local] Hint Resolve ManageSellOfferResultCode_coded : xdr.
Lemma ManageOfferEffect_coded : coded 1 ManageOfferEffect_valid ManageOfferEffect_EncodeTo ManageOfferEffect_DecodeFrom.
Proof. by apply (enum_coded manageOfferEffectMap). Qed.
#[local] Hint Resolve ManageOfferEffect_coded : xdr.
Lemma OfferEntryExt_coded : coded 1 OfferEntryExt_valid OfferEntryExt_EncodeTo OfferEntryExt_DecodeFrom.
Proof. xdr_union OfferEntryExt_EncodeTo OfferEntryExt_DecodeFrom OfferEntryExt_valid. Qed.
#[local] Hint Resolve OfferEntryExt_coded : xdr.
Lemma OfferEntry_coded : coded 6 OfferEntry_valid OfferEntry_EncodeTo OfferEntry_DecodeFrom.
Proof. xdr_record OfferEntry_EncodeTo OfferEntry_DecodeFrom OfferEntry_valid. Qed.
#[local] Hint Resolve OfferEntry_coded : xdr.
Lemma ManageOfferSuccessResultOffer_coded : coded 7 ManageOfferSuccessResultOffer_valid ManageOfferSuccessResultOffer_EncodeTo
    ManageOfferSuccessResultOffer_DecodeFrom.
Proof. xdr_union ManageOfferSuccessResultOffer_EncodeTo ManageOfferSuccessResultOffer_DecodeFrom ManageOfferSuccessResultOffer_valid. Qed.
#[local] Hint Resolve ManageOfferSuccessResultOffer_coded : xdr.
Lemma ManageOfferSuccessResult_coded : coded 8 ManageOfferSuccessResult_valid ManageOfferSuccessResult_EncodeTo
    ManageOfferSuccessResult_DecodeFrom.
Proof. xdr_record ManageOfferSuccessResult_EncodeTo ManageOfferSuccessResult_DecodeFrom ManageOfferSuccessResult_valid. Qed.
#[local] Hint Resolve ManageOfferSuccessResult_coded : xdr.
Lemma ManageSellOfferResult_coded : coded 9 ManageSellOfferResult_valid ManageSellOfferResult_EncodeTo ManageSellOfferResult_DecodeFrom.
Proof. xdr_union ManageSellOfferResult_EncodeTo ManageSellOfferResult_DecodeFrom ManageSellOfferResult_valid. Qed.
#[local] Hint Resolve ManageSellOfferResult_coded : xdr.
Lemma SetOptionsResultCode_coded : coded 1 SetOptionsResultCode_valid SetOptionsResultCode_EncodeTo SetOptionsResultCode_DecodeFrom.
Proof. by apply (enum_coded setOptionsResultCodeMap). Qed.
#[local] Hint Resolve SetOptionsResultCode_coded : xdr.
Lemma SetOptionsResult_coded : coded 2 SetOptionsResult_valid SetOptionsResult_EncodeTo SetOptionsResult_DecodeFrom.
Proof. xdr_union SetOptionsResult_EncodeTo SetOptionsResult_DecodeFrom SetOptionsResult_valid. Qed.
#[local] Hint Resolve SetOptionsResult_coded : xdr.
Lemma ChangeTrustResultCode_coded : coded 1 ChangeTrustResultCode_valid ChangeTrustResultCode_EncodeTo ChangeTrustResultCode_DecodeFrom.
Proof. by apply (enum_coded changeTrustResultCodeMap). Qed.
#[local] Hint Resolve ChangeTrustResultCode_coded : xdr.
Lemma ChangeTrustResult_coded : coded 2 ChangeTrustResult_valid ChangeTrustResult_EncodeTo ChangeTrustResult_DecodeFrom.
Proof. xdr_union ChangeTrustResult_EncodeTo ChangeTrustResult_DecodeFrom ChangeTrustResult_valid. Qed.
#[local] Hint Resolve ChangeTrustResult_coded : xdr.
Lemma AllowTrustResultCode_coded : coded 1 AllowTrustResultCode_valid AllowTrustResultCode_EncodeTo AllowTrustResultCode_DecodeFrom.
Proof. by apply (enum_coded allowTrustResultCodeMap). Qed.
#[local] Hint Resolve AllowTrustResultCode_coded : xdr.
Lemma AllowTrustResult_coded : coded 2 AllowTrustResult_valid AllowTrustResult_EncodeTo AllowTrustResult_DecodeFrom.
Proof. xdr_union AllowTrustResult_EncodeTo AllowTrustResult_DecodeFrom AllowTrustResult_valid. Qed.
#[local] Hint Resolve AllowTrustResult_coded : xdr.
Lemma AccountMergeResultCode_coded : coded 1 AccountMergeResultCode_valid AccountMergeResultCode_EncodeTo AccountMergeResultCode_DecodeFrom.
Proof. by apply (enum_coded accountMergeResultCodeMap). Qed.
#[local] Hint Resolve AccountMergeResultCode_coded : xdr.
Lemma AccountMergeResult_coded : coded 2 AccountMergeResult_valid AccountMergeResult_EncodeTo AccountMergeResult_DecodeFrom.
Proof. xdr_union AccountMergeResult_EncodeTo AccountMergeResult_DecodeFrom AccountMergeResult_valid. Qed.
#[local] Hint Resolve AccountMergeResult_coded : xdr.
Lemma InflationResultCode_coded : coded 1 InflationResultCode_valid InflationResultCode_EncodeTo InflationResultCode_DecodeFrom.
Proof. by apply (enum_coded inflationResultCodeMap). Qed.
#[local] Hint Resolve InflationResultCode_coded : xdr.
Lemma InflationPayout_coded : coded 4 InflationPayout_valid InflationPayout_EncodeTo InflationPayout_DecodeFrom.
Proof. xdr_record InflationPayout_EncodeTo InflationPayout_DecodeFrom InflationPayout_valid. Qed.
#[local] Hint Resolve InflationPayout_coded : xdr.
Lemma InflationResult_coded : coded 5 InflationResult_valid InflationResult_EncodeTo InflationResult_DecodeFrom.
Proof. xdr_union InflationResult_EncodeTo InflationResult_DecodeFrom InflationResult_valid. Qed.
#[local] Hint Resolve InflationResult_coded : xdr.
Lemma ManageDataResultCode_coded : coded 1 ManageDataResultCode_valid ManageDataResultCode_EncodeTo ManageDataResultCode_DecodeFrom.
Proof. by apply (enum_coded manageDataResultCodeMap). Qed.
#[local] Hint Resolve ManageDataResultCode_coded : xdr.
Lemma ManageDataResult_coded : coded 2 ManageDataResult_valid ManageDataResult_EncodeTo ManageDataResult_DecodeFrom.
Proof. xdr_union ManageDataResult_EncodeTo ManageDataResult_DecodeFrom ManageDataResult_valid. Qed.
#[local] Hint Resolve ManageDataResult_coded : xdr.
Lemma BumpSequenceResultCode_coded : coded 1 BumpSequenceResultCode_valid BumpSequenceResultCode_EncodeTo BumpSequenceResultCode_DecodeFrom.
Proof. by apply (enum_coded bumpSequenceResultCodeMap). Qed.
#[local] Hint Resolve BumpSequenceResultCode_coded : xdr.
Lemma BumpSequenceResult_coded : coded 2 BumpSequenceResult_valid BumpSequenceResult_EncodeTo BumpSequenceResult_DecodeFrom.
Proof. xdr_union BumpSequenceResult_EncodeTo BumpSequenceResult_DecodeFrom BumpSequenceResult_valid. Qed.
#[local] Hint Resolve BumpSequenceResult_coded : xdr.
Lemma ManageBuyOfferResultCode_coded : coded 1 ManageBuyOfferResultCode_valid ManageBuyOfferResultCode_EncodeTo
    ManageBuyOfferResultCode_DecodeFrom.
Proof. by apply (enum_coded manageBuyOfferResultCodeMap). Qed.
#[local] Hint Resolve ManageBuyOfferResultCode_coded : xdr.
Lemma ManageBuyOfferResult_coded : coded 9 ManageBuyOfferResult_valid ManageBuyOfferResult_EncodeTo ManageBuyOfferResult_DecodeFrom.
Proof. xdr_union ManageBuyOfferResult_EncodeTo ManageBuyOfferResult_DecodeFrom ManageBuyOfferResult_valid. Qed.
#[local] Hint Resolve ManageBuyOfferResult_coded : xdr.
Lemma PathPaymentStrictSendResultCode_coded : coded 1 PathPaymentStrictSendResultCode_valid PathPaymentStrictSendResultCode_EncodeTo
    PathPaymentStrictSendResultCode_DecodeFrom.
Proof. by apply (enum_coded pathPaymentStrictSendResultCodeMap). Qed.
#[local] Hint Resolve PathPaymentStrictSendResultCode_coded : xdr.
Lemma PathPaymentStrictSendResultSuccess_coded : coded 8 PathPaymentStrictSendResultSuccess_valid
    PathPaymentStrictSendResultSuccess_EncodeTo PathPaymentStrictSendResultSuccess_DecodeFrom.
Proof. xdr_record PathPaymentStrictSendResultSuccess_EncodeTo PathPaymentStrictSendResultSuccess_DecodeFrom
    PathPaymentStrictSendResultSuccess_valid. Qed.
#[local] Hint Resolve PathPaymentStrictSendResultSuccess_coded : xdr.
Lemma PathPaymentStrictSendResult_coded : coded 9 PathPaymentStrictSendResult_valid PathPaymentStrictSendResult_EncodeTo
    PathPaymentStrictSendResult_DecodeFrom.
Proof. xdr_union PathPaymentStrictSendResult_EncodeTo PathPaymentStrictSendResult_DecodeFrom PathPaymentStrictSendResult_valid. Qed.
#[local] Hint Resolve PathPaymentStrictSendResult_coded : xdr.
Lemma CreateClaimableBalanceResultCode_coded : coded 1 CreateClaimableBalanceResultCode_valid CreateClaimableBalanceResultCode_EncodeTo
    CreateClaimableBalanceResultCode_DecodeFrom.
Proof. by apply (enum_coded createClaimableBalanceResultCodeMap). Qed.
#[local] Hint Resolve CreateClaimableBalanceResultCode_coded : xdr.
Lemma CreateClaimableBalanceResult_coded : coded 3 CreateClaimableBalanceResult_valid CreateClaimableBalanceResult_EncodeTo
    CreateClaimableBalanceResult_DecodeFrom.
Proof. xdr_union CreateClaimableBalanceResult_EncodeTo CreateClaimableBalanceResult_DecodeFrom CreateClaimableBalanceResult_valid. Qed.
#[local] Hint Resolve CreateClaimableBalanceResult_coded : xdr.
Lemma ClaimClaimableBalanceResultCode_coded : coded 1 ClaimClaimableBalanceResultCode_valid ClaimClaimableBalanceResultCode_EncodeTo
    ClaimClaimableBalanceResultCode_DecodeFrom.
Proof. by apply (enum_coded claimClaimableBalanceResultCodeMap). Qed.
#[local] Hint Resolve ClaimClaimableBalanceResultCode_coded : xdr.
Lemma ClaimClaimableBalanceResult_coded : coded 2 ClaimClaimableBalanceResult_valid ClaimClaimableBalanceResult_EncodeTo
    ClaimClaimableBalanceResult_DecodeFrom.
Proof. xdr_union ClaimClaimableBalanceResult_EncodeTo ClaimClaimableBalanceResult_DecodeFrom ClaimClaimableBalanceResult_valid. Qed.
#[local] Hint Resolve ClaimClaimableBalanceResult_coded : xdr.
Lemma BeginSponsoringFutureReservesResultCode_coded : coded 1 BeginSponsoringFutureReservesResultCode_valid
    BeginSponsoringFutureReservesResultCode_EncodeTo BeginSponsoringFutureReservesResultCode_DecodeFrom.
Proof. by apply (enum_coded beginSponsoringFutureReservesResultCodeMap). Qed.
#[local] Hint Resolve BeginSponsoringFutureReservesResultCode_coded : xdr.
Lemma BeginSponsoringFutureReservesResult_coded : coded 2 BeginSponsoringFutureReservesResult_valid
    BeginSponsoringFutureReservesResult_EncodeTo BeginSponsoringFutureReservesResult_DecodeFrom.
Proof. xdr_union BeginSponsoringFutureReservesResult_EncodeTo BeginSponsoringFutureReservesResult_DecodeFrom
    BeginSponsoringFutureReservesResult_valid. Qed.
#[local] Hint Resolve BeginSponsoringFutureReservesResult_coded : xdr.
Lemma EndSponsoringFutureReservesResultCode_coded : coded 1 EndSponsoringFutureReservesResultCode_valid
    EndSponsoringFutureReservesResultCode_EncodeTo EndSponsoringFutureReservesResultCode_DecodeFrom.
Proof. by apply (enum_coded endSponsoringFutureReservesResultCodeMap). Qed.
#[local] Hint Resolve EndSponsoringFutureReservesResultCode_coded : xdr.
Lemma EndSponsoringFutureReservesResult_coded : coded 2 EndSponsoringFutureReservesResult_valid EndSponsoringFutureReservesResult_EncodeTo
    EndSponsoringFutureReservesResult_DecodeFrom.
Proof. xdr_union EndSponsoringFutureReservesResult_EncodeTo EndSponsoringFutureReservesResult_DecodeFrom
    EndSponsoringFutureReservesResult_valid. Qed.
#[local] Hint Resolve EndSponsoringFutureReservesResult_coded : xdr.
Lemma RevokeSponsorshipResultCode_coded : coded 1 RevokeSponsorshipResultCode_valid RevokeSponsorshipResultCode_EncodeTo
    RevokeSponsorshipResultCode_DecodeFrom.
Proof. by apply (enum_coded revokeSponsorshipResultCodeMap). Qed.
#[local] Hint Resolve RevokeSponsorshipResultCode_coded : xdr.
Lemma RevokeSponsorshipResult_coded : coded 2 RevokeSponsorshipResult_valid RevokeSponsorshipResult_EncodeTo
    RevokeSponsorshipResult_DecodeFrom.
Proof. xdr_union RevokeSponsorshipResult_EncodeTo RevokeSponsorshipResult_DecodeFrom RevokeSponsorshipResult_valid. Qed.
#[local] Hint Resolve RevokeSponsorshipResult_coded : xdr.
Lemma ClawbackResultCode_coded : coded 1 ClawbackResultCode_valid ClawbackResultCode_EncodeTo ClawbackResultCode_DecodeFrom.
Proof. by apply (enum_coded clawbackResultCodeMap). Qed.
#[local] Hint Resolve ClawbackResultCode_coded : xdr.
Lemma ClawbackResult_coded : coded 2 ClawbackResult_valid ClawbackResult_EncodeTo ClawbackResult_DecodeFrom.
Proof. xdr_union ClawbackResult_EncodeTo ClawbackResult_DecodeFrom ClawbackResult_valid. Qed.
#[local] Hint Resolve ClawbackResult_coded : xdr.
Lemma ClawbackClaimableBalanceResultCode_coded : coded 1 ClawbackClaimableBalanceResultCode_valid
    ClawbackClaimableBalanceResultCode_EncodeTo ClawbackClaimableBalanceResultCode_DecodeFrom.
Proof. by apply (enum_coded clawbackClaimableBalanceResultCodeMap). Qed.
#[local] Hint Resolve ClawbackClaimableBalanceResultCode_coded : xdr.
Lemma ClawbackClaimableBalanceResult_coded : coded 2 ClawbackClaimableBalanceResult_valid ClawbackClaimableBalanceResult_EncodeTo
    ClawbackClaimableBalanceResult_DecodeFrom.
Proof. xdr_union ClawbackClaimableBalanceResult_EncodeTo ClawbackClaimableBalanceResult_DecodeFrom ClawbackClaimableBalanceResult_valid.
    Qed.
#[local] Hint Resolve ClawbackClaimableBalanceResult_coded : xdr.
Lemma SetTrustLineFlagsResultCode_coded : coded 1 SetTrustLineFlagsResultCode_valid SetTrustLineFlagsResultCode_EncodeTo
    SetTrustLineFlagsResultCode_DecodeFrom.
Proof. by apply (enum_coded setTrustLineFlagsResultCodeMap). Qed.
#[local] Hint Resolve SetTrustLineFlagsResultCode_coded : xdr.
Lemma SetTrustLineFlagsResult_coded : coded 2 SetTrustLineFlagsResult_valid SetTrustLineFlagsResult_EncodeTo
    SetTrustLineFlagsResult_DecodeFrom.
Proof. xdr_union SetTrustLineFlagsResult_EncodeTo SetTrustLineFlagsResult_DecodeFrom SetTrustLineFlagsResult_valid. Qed.
#[local] Hint Resolve SetTrustLineFlagsResult_coded : xdr.
Lemma LiquidityPoolDepositResultCode_coded : coded 1 LiquidityPoolDepositResultCode_valid LiquidityPoolDepositResultCode_EncodeTo
    LiquidityPoolDepositResultCode_DecodeFrom.
Proof. by apply (enum_coded liquidityPoolDepositResultCodeMap). Qed.
#[local] Hint Resolve LiquidityPoolDepositResultCode_coded : xdr.
Lemma LiquidityPoolDepositResult_coded : coded 2 LiquidityPoolDepositResult_valid LiquidityPoolDepositResult_EncodeTo
    LiquidityPoolDepositResult_DecodeFrom.
Proof. xdr_union LiquidityPoolDepositResult_EncodeTo LiquidityPoolDepositResult_DecodeFrom LiquidityPoolDepositResult_valid. Qed.
#[local] Hint Resolve LiquidityPoolDepositResult_coded : xdr.
Lemma LiquidityPoolWithdrawResultCode_coded : coded 1 LiquidityPoolWithdrawResultCode_valid LiquidityPoolWithdrawResultCode_EncodeTo
    LiquidityPoolWithdrawResultCode_DecodeFrom.
Proof. by apply (enum_coded liquidityPoolWithdrawResultCodeMap). Qed.
#[local] Hint Resolve LiquidityPoolWithdrawResultCode_coded : xdr.
Lemma LiquidityPoolWithdrawResult_coded : coded 2 LiquidityPoolWithdrawResult_valid LiquidityPoolWithdrawResult_EncodeTo
    LiquidityPoolWithdrawResult_DecodeFrom.
Proof. xdr_union LiquidityPoolWithdrawResult_EncodeTo LiquidityPoolWithdrawResult_DecodeFrom LiquidityPoolWithdrawResult_valid. Qed.
#[local] Hint Resolve LiquidityPoolWithdrawResult_coded : xdr.
Lemma InvokeHostFunctionResultCode_coded : coded 1 InvokeHostFunctionResultCode_valid InvokeHostFunctionResultCode_EncodeTo
    InvokeHostFunctionResultCode_DecodeFrom.
Proof. by apply (enum_coded invokeHostFunctionResultCodeMap). Qed.
#[local] Hint Resolve InvokeHostFunctionResultCode_coded : xdr.
Lemma InvokeHostFunctionResult_coded : coded 2 InvokeHostFunctionResult_valid InvokeHostFunctionResult_EncodeTo
    InvokeHostFunctionResult_DecodeFrom.
Proof. xdr_union InvokeHostFunctionResult_EncodeTo InvokeHostFunctionResult_DecodeFrom InvokeHostFunctionResult_valid. Qed.
#[local] Hint Resolve InvokeHostFunctionResult_coded : xdr.
Lemma ExtendFootprintTtlResultCode_coded : coded 1 ExtendFootprintTtlResultCode_valid ExtendFootprintTtlResultCode_EncodeTo
    ExtendFootprintTtlResultCode_DecodeFrom.
Proof. by apply (enum_coded extendFootprintTtlResultCodeMap). Qed.
#[local] Hint Resolve ExtendFootprintTtlResultCode_coded : xdr.
Lemma ExtendFootprintTtlResult_coded : coded 2 ExtendFootprintTtlResult_valid ExtendFootprintTtlResult_EncodeTo
    ExtendFootprintTtlResult_DecodeFrom.
Proof. xdr_union ExtendFootprintTtlResult_EncodeTo ExtendFootprintTtlResult_DecodeFrom ExtendFootprintTtlResult_valid. Qed.
#[local] Hint Resolve ExtendFootprintTtlResult_coded : xdr.
Lemma RestoreFootprintResultCode_coded : coded 1 RestoreFootprintResultCode_valid RestoreFootprintResultCode_EncodeTo
    RestoreFootprintResultCode_DecodeFrom.
Proof. by apply (enum_coded restoreFootprintResultCodeMap). Qed.
#[local] Hint Resolve RestoreFootprintResultCode_coded : xdr.
Lemma RestoreFootprintResult_coded : coded 2 RestoreFootprintResult_valid RestoreFootprintResult_EncodeTo RestoreFootprintResult_DecodeFrom.
Proof. xdr_union RestoreFootprintResult_EncodeTo RestoreFootprintResult_DecodeFrom RestoreFootprintResult_valid. Qed.
#[local] Hint Resolve RestoreFootprintResult_coded : xdr.
Lemma OperationResultTr_coded : coded 10 OperationResultTr_valid OperationResultTr_EncodeTo OperationResultTr_DecodeFrom.
Proof. xdr_union OperationResultTr_EncodeTo OperationResultTr_DecodeFrom OperationResultTr_valid. Qed.
#[local] Hint Resolve OperationResultTr_coded : xdr.
Lemma OperationResult_coded : coded 11 OperationResult_valid OperationResult_EncodeTo OperationResult_DecodeFrom.
Proof. xdr_union OperationResult_EncodeTo OperationResult_DecodeFrom OperationResult_valid. Qed.
#[local] Hint Resolve OperationResult_coded : xdr.
Lemma InnerTransactionResultResult_coded : coded 12 InnerTransactionResultResult_valid InnerTransactionResultResult_EncodeTo
    InnerTransactionResultResult_DecodeFrom.
Proof. xdr_union InnerTransactionResultResult_EncodeTo InnerTransactionResultResult_DecodeFrom InnerTransactionResultResult_valid. Qed.
#[local] Hint Resolve InnerTransactionResultResult_coded : xdr.
Lemma InnerTransactionResultExt_coded : coded 1 InnerTransactionResultExt_valid InnerTransactionResultExt_EncodeTo
    InnerTransactionResultExt_DecodeFrom.
Proof. xdr_union InnerTransactionResultExt_EncodeTo InnerTransactionResultExt_DecodeFrom InnerTransactionResultExt_valid. Qed.
#[local] Hint Resolve InnerTransactionResultExt_coded : xdr.
Lemma InnerTransactionResult_coded : coded 13 InnerTransactionResult_valid InnerTransactionResult_EncodeTo
    InnerTransactionResult_DecodeFrom.
Proof. xdr_record InnerTransactionResult_EncodeTo InnerTransactionResult_DecodeFrom InnerTransactionResult_valid. Qed.
#[local] Hint Resolve InnerTransactionResult_coded : xdr.
Lemma InnerTransactionResultPair_coded : coded 14 InnerTransactionResultPair_valid InnerTransactionResultPair_EncodeTo
    InnerTransactionResultPair_DecodeFrom.
Proof. xdr_record InnerTransactionResultPair_EncodeTo InnerTransactionResultPair_DecodeFrom InnerTransactionResultPair_valid. Qed.
#[local] Hint Resolve InnerTransactionResultPair_coded : xdr.
Lemma TransactionResultResult_coded : coded 15 TransactionResultResult_valid TransactionResultResult_EncodeTo
    TransactionResultResult_DecodeFrom.
Proof. xdr_union TransactionResultResult_EncodeTo TransactionResultResult_DecodeFrom TransactionResultResult_valid. Qed.
#[local] Hint Resolve TransactionResultResult_coded : xdr.
Lemma TransactionResultExt_coded : coded 1 TransactionResultExt_valid TransactionResultExt_EncodeTo TransactionResultExt_DecodeFrom.
Proof. xdr_union TransactionResultExt_EncodeTo TransactionResultExt_DecodeFrom TransactionResultExt_valid. Qed.
#[local] Hint Resolve TransactionResultExt_coded : xdr.
Lemma TransactionResult_coded : coded 16 TransactionResult_valid TransactionResult_EncodeTo TransactionResult_DecodeFrom.
Proof. xdr_record TransactionResult_EncodeTo TransactionResult_DecodeFrom TransactionResult_valid. Qed.
#[local] Hint Resolve TransactionResult_coded : xdr.
Lemma TransactionResultPair_coded : coded 17 TransactionResultPair_valid TransactionResultPair_EncodeTo TransactionResultPair_DecodeFrom.
Proof. xdr_record TransactionResultPair_EncodeTo TransactionResultPair_DecodeFrom TransactionResultPair_valid. Qed.
#[local] Hint Resolve TransactionResultPair_coded : xdr.
Lemma LedgerEntryChangeType_coded : coded 1 LedgerEntryChangeType_valid LedgerEntryChangeType_EncodeTo LedgerEntryChangeType_DecodeFrom.
Proof. by apply (enum_coded ledgerEntryChangeTypeMap). Qed.
#[local] Hint Resolve LedgerEntryChangeType_coded : xdr.
Lemma Thresholds_coded : coded 1 Thresholds_valid Thresholds_EncodeTo Thresholds_DecodeFrom.
Proof. xdr_single Thresholds_EncodeTo Thresholds_DecodeFrom Thresholds_valid. Qed.
#[local] Hint Resolve Thresholds_coded : xdr.
Lemma Liabilities_coded : coded 2 Liabilities_valid Liabilities_EncodeTo Liabilities_DecodeFrom.
Proof. xdr_record Liabilities_EncodeTo Liabilities_DecodeFrom Liabilities_valid. Qed.
#[local] Hint Resolve Liabilities_coded : xdr.
Lemma AccountEntryExtensionV3_coded : coded 3 AccountEntryExtensionV3_valid AccountEntryExtensionV3_EncodeTo
    AccountEntryExtensionV3_DecodeFrom.
Proof. xdr_record AccountEntryExtensionV3_EncodeTo AccountEntryExtensionV3_DecodeFrom AccountEntryExtensionV3_valid. Qed.
#[local] Hint Resolve AccountEntryExtensionV3_coded : xdr.
Lemma AccountEntryExtensionV2Ext_coded : coded 4 AccountEntryExtensionV2Ext_valid AccountEntryExtensionV2Ext_EncodeTo
    AccountEntryExtensionV2Ext_DecodeFrom.
Proof. xdr_union AccountEntryExtensionV2Ext_EncodeTo AccountEntryExtensionV2Ext_DecodeFrom AccountEntryExtensionV2Ext_valid. Qed.
#[local] Hint Resolve AccountEntryExtensionV2Ext_coded : xdr.
Lemma AccountEntryExtensionV2_coded : coded 5 AccountEntryExtensionV2_valid AccountEntryExtensionV2_EncodeTo
    AccountEntryExtensionV2_DecodeFrom.
Proof. xdr_record AccountEntryExtensionV2_EncodeTo AccountEntryExtensionV2_DecodeFrom AccountEntryExtensionV2_valid. Qed.
#[local] Hint Resolve AccountEntryExtensionV2_coded : xdr.
Lemma AccountEntryExtensionV1Ext_coded : coded 6 AccountEntryExtensionV1Ext_valid AccountEntryExtensionV1Ext_EncodeTo
    AccountEntryExtensionV1Ext_DecodeFrom.
Proof. xdr_union AccountEntryExtensionV1Ext_EncodeTo AccountEntryExtensionV1Ext_DecodeFrom AccountEntryExtensionV1Ext_valid. Qed.
#[local] Hint Resolve AccountEntryExtensionV1Ext_coded : xdr.
Lemma AccountEntryExtensionV1_coded : coded 7 AccountEntryExtensionV1_valid AccountEntryExtensionV1_EncodeTo
    AccountEntryExtensionV1_DecodeFrom.
Proof. xdr_record AccountEntryExtensionV1_EncodeTo AccountEntryExtensionV1_DecodeFrom AccountEntryExtensionV1_valid. Qed.
#[local] Hint Resolve AccountEntryExtensionV1_coded : xdr.
Lemma AccountEntryExt_coded : coded 8 AccountEntryExt_valid AccountEntryExt_EncodeTo AccountEntryExt_DecodeFrom.
Proof. xdr_union AccountEntryExt_EncodeTo AccountEntryExt_DecodeFrom AccountEntryExt_valid. Qed.
#[local] Hint Resolve AccountEntryExt_coded : xdr.
Lemma AccountEntry_coded : coded 9 AccountEntry_valid AccountEntry_EncodeTo AccountEntry_DecodeFrom.
Proof. xdr_record AccountEntry_EncodeTo AccountEntry_DecodeFrom AccountEntry_valid. Qed.
#[local] Hint Resolve AccountEntry_coded : xdr.
Lemma TrustLineEntryExtensionV2Ext_coded : coded 1 TrustLineEntryExtensionV2Ext_valid TrustLineEntryExtensionV2Ext_EncodeTo
    TrustLineEntryExtensionV2Ext_DecodeFrom.
Proof. xdr_union TrustLineEntryExtensionV2Ext_EncodeTo TrustLineEntryExtensionV2Ext_DecodeFrom TrustLineEntryExtensionV2Ext_valid. Qed.
#[local] Hint Resolve TrustLineEntryExtensionV2Ext_coded : xdr.
Lemma TrustLineEntryExtensionV2_coded : coded 2 TrustLineEntryExtensionV2_valid TrustLineEntryExtensionV2_EncodeTo
    TrustLineEntryExtensionV2_DecodeFrom.
Proof. xdr_record TrustLineEntryExtensionV2_EncodeTo TrustLineEntryExtensionV2_DecodeFrom TrustLineEntryExtensionV2_valid. Qed.
#[local] Hint Resolve TrustLineEntryExtensionV2_coded : xdr.
Lemma TrustLineEntryV1Ext_coded : coded 3 TrustLineEntryV1Ext_valid TrustLineEntryV1Ext_EncodeTo TrustLineEntryV1Ext_DecodeFrom.
Proof. xdr_union TrustLineEntryV1Ext_EncodeTo TrustLineEntryV1Ext_DecodeFrom TrustLineEntryV1Ext_valid. Qed.
#[local] Hint Resolve TrustLineEntryV1Ext_coded : xdr.
Lemma TrustLineEntryV1_coded : coded 4 TrustLineEntryV1_valid TrustLineEntryV1_EncodeTo TrustLineEntryV1_DecodeFrom.
Proof. xdr_record TrustLineEntryV1_EncodeTo TrustLineEntryV1_DecodeFrom TrustLineEntryV1_valid. Qed.
#[local] Hint Resolve TrustLineEntryV1_coded : xdr.
Lemma TrustLineEntryExt_coded : coded 5 TrustLineEntryExt_valid TrustLineEntryExt_EncodeTo TrustLineEntryExt_DecodeFrom.
Proof. xdr_union TrustLineEntryExt_EncodeTo TrustLineEntryExt_DecodeFrom TrustLineEntryExt_valid. Qed.
#[local] Hint Resolve TrustLineEntryExt_coded : xdr.
Lemma TrustLineEntry_coded : coded 6 TrustLineEntry_valid TrustLineEntry_EncodeTo TrustLineEntry_DecodeFrom.
Proof. xdr_record TrustLineEntry_EncodeTo TrustLineEntry_DecodeFrom TrustLineEntry_valid. Qed.
#[local] Hint Resolve TrustLineEntry_coded : xdr.
Lemma DataEntryExt_coded : coded 1 DataEntryExt_valid DataEntryExt_EncodeTo DataEntryExt_DecodeFrom.
Proof. xdr_union DataEntryExt_EncodeTo DataEntryExt_DecodeFrom DataEntryExt_valid. Qed.
#[local] Hint Resolve DataEntryExt_coded : xdr.
Lemma DataEntry_coded : coded 4 DataEntry_valid DataEntry_EncodeTo DataEntry_DecodeFrom.
Proof. xdr_record DataEntry_EncodeTo DataEntry_DecodeFrom DataEntry_valid. Qed.
#[local] Hint Resolve DataEntry_coded : xdr.
Lemma ClaimableBalanceEntryExtensionV1Ext_coded : coded 1 ClaimableBalanceEntryExtensionV1Ext_valid
    ClaimableBalanceEntryExtensionV1Ext_EncodeTo ClaimableBalanceEntryExtensionV1Ext_DecodeFrom.
Proof. xdr_union ClaimableBalanceEntryExtensionV1Ext_EncodeTo ClaimableBalanceEntryExtensionV1Ext_DecodeFrom
    ClaimableBalanceEntryExtensionV1Ext_valid. Qed.
#[local] Hint Resolve ClaimableBalanceEntryExtensionV1Ext_coded : xdr.
Lemma ClaimableBalanceEntryExtensionV1_coded : coded 2 ClaimableBalanceEntryExtensionV1_valid ClaimableBalanceEntryExtensionV1_EncodeTo
    ClaimableBalanceEntryExtensionV1_DecodeFrom.
Proof. xdr_record ClaimableBalanceEntryExtensionV1_EncodeTo ClaimableBalanceEntryExtensionV1_DecodeFrom
    ClaimableBalanceEntryExtensionV1_valid. Qed.
#[local] Hint Resolve ClaimableBalanceEntryExtensionV1_coded : xdr.
Lemma ClaimableBalanceEntryExt_coded : coded 3 ClaimableBalanceEntryExt_valid ClaimableBalanceEntryExt_EncodeTo
    ClaimableBalanceEntryExt_DecodeFrom.
Proof. xdr_union ClaimableBalanceEntryExt_EncodeTo ClaimableBalanceEntryExt_DecodeFrom ClaimableBalanceEntryExt_valid. Qed.
#[local] Hint Resolve ClaimableBalanceEntryExt_coded : xdr.
Lemma ClaimableBalanceEntry_coded : coded (4 * nesting + 6) ClaimableBalanceEntry_valid ClaimableBalanceEntry_EncodeTo
    ClaimableBalanceEntry_DecodeFrom.
Proof. xdr_record ClaimableBalanceEntry_EncodeTo ClaimableBalanceEntry_DecodeFrom ClaimableBalanceEntry_valid. Qed.
#[local] Hint Resolve ClaimableBalanceEntry_coded : xdr.
Lemma LiquidityPoolEntryConstantProduct_coded : coded 7 LiquidityPoolEntryConstantProduct_valid LiquidityPoolEntryConstantProduct_EncodeTo
    LiquidityPoolEntryConstantProduct_DecodeFrom.
Proof. xdr_record LiquidityPoolEntryConstantProduct_EncodeTo LiquidityPoolEntryConstantProduct_DecodeFrom
    LiquidityPoolEntryConstantProduct_valid. Qed.
#[local] Hint Resolve LiquidityPoolEntryConstantProduct_coded : xdr.
Lemma LiquidityPoolEntryBody_coded : coded 8 LiquidityPoolEntryBody_valid LiquidityPoolEntryBody_EncodeTo LiquidityPoolEntryBody_DecodeFrom.
Proof. xdr_union LiquidityPoolEntryBody_EncodeTo LiquidityPoolEntryBody_DecodeFrom LiquidityPoolEntryBody_valid. Qed.
#[local] Hint Resolve LiquidityPoolEntryBody_coded : xdr.
Lemma LiquidityPoolEntry_coded : coded 9 LiquidityPoolEntry_valid LiquidityPoolEntry_EncodeTo LiquidityPoolEntry_DecodeFrom.
Proof. xdr_record LiquidityPoolEntry_EncodeTo LiquidityPoolEntry_DecodeFrom LiquidityPoolEntry_valid. Qed.
#[local] Hint Resolve LiquidityPoolEntry_coded : xdr.
Lemma ContractDataEntry_coded : coded (4 * nesting + 9) ContractDataEntry_valid ContractDataEntry_EncodeTo ContractDataEntry_DecodeFrom.
Proof. xdr_record ContractDataEntry_EncodeTo ContractDataEntry_DecodeFrom ContractDataEntry_valid. Qed.
#[local] Hint Resolve ContractDataEntry_coded : xdr.
Lemma ContractCodeCostInputs_coded : coded 2 ContractCodeCostInputs_valid ContractCodeCostInputs_EncodeTo ContractCodeCostInputs_DecodeFrom.
Proof. xdr_record ContractCodeCostInputs_EncodeTo ContractCodeCostInputs_DecodeFrom ContractCodeCostInputs_valid. Qed.
#[local] Hint Resolve ContractCodeCostInputs_coded : xdr.
Lemma ContractCodeEntryV1_coded : coded 3 ContractCodeEntryV1_valid ContractCodeEntryV1_EncodeTo ContractCodeEntryV1_DecodeFrom.
Proof. xdr_record ContractCodeEntryV1_EncodeTo ContractCodeEntryV1_DecodeFrom ContractCodeEntryV1_valid. Qed.
#[local] Hint Resolve ContractCodeEntryV1_coded : xdr.
Lemma ContractCodeEntryExt_coded : coded 4 ContractCodeEntryExt_valid ContractCodeEntryExt_EncodeTo ContractCodeEntryExt_DecodeFrom.
Proof. xdr_union ContractCodeEntryExt_EncodeTo ContractCodeEntryExt_DecodeFrom ContractCodeEntryExt_valid. Qed.
#[local] Hint Resolve ContractCodeEntryExt_coded : xdr.
Lemma ContractCodeEntry_coded : coded 5 ContractCodeEntry_valid ContractCodeEntry_EncodeTo ContractCodeEntry_DecodeFrom.
Proof. xdr_record ContractCodeEntry_EncodeTo ContractCodeEntry_DecodeFrom ContractCodeEntry_valid. Qed.
#[local] Hint Resolve ContractCodeEntry_coded : xdr.
Lemma ConfigSettingContractComputeV0_coded : coded 2 ConfigSettingContractComputeV0_valid ConfigSettingContractComputeV0_EncodeTo
    ConfigSettingContractComputeV0_DecodeFrom.
Proof. xdr_record ConfigSettingContractComputeV0_EncodeTo ConfigSettingContractComputeV0_DecodeFrom ConfigSettingContractComputeV0_valid.
    Qed.
#[local] Hint Resolve ConfigSettingContractComputeV0_coded : xdr.
Lemma ConfigSettingContractLedgerCostV0_coded : coded 2 ConfigSettingContractLedgerCostV0_valid ConfigSettingContractLedgerCostV0_EncodeTo
    ConfigSettingContractLedgerCostV0_DecodeFrom.
Proof. xdr_record ConfigSettingContractLedgerCostV0_EncodeTo ConfigSettingContractLedgerCostV0_DecodeFrom
    ConfigSettingContractLedgerCostV0_valid. Qed.
#[local] Hint Resolve ConfigSettingContractLedgerCostV0_coded : xdr.
Lemma ConfigSettingContractHistoricalDataV0_coded : coded 2 ConfigSettingContractHistoricalDataV0_valid
    ConfigSettingContractHistoricalDataV0_EncodeTo ConfigSettingContractHistoricalDataV0_DecodeFrom.
Proof. xdr_record ConfigSettingContractHistoricalDataV0_EncodeTo ConfigSettingContractHistoricalDataV0_DecodeFrom
    ConfigSettingContractHistoricalDataV0_valid. Qed.
#[local] Hint Resolve ConfigSettingContractHistoricalDataV0_coded : xdr.
Lemma ConfigSettingContractEventsV0_coded : coded 2 ConfigSettingContractEventsV0_valid ConfigSettingContractEventsV0_EncodeTo
    ConfigSettingContractEventsV0_DecodeFrom.
Proof. xdr_record ConfigSettingContractEventsV0_EncodeTo ConfigSettingContractEventsV0_DecodeFrom ConfigSettingContractEventsV0_valid. Qed.
#[local] Hint Resolve ConfigSettingContractEventsV0_coded : xdr.
Lemma ConfigSettingContractBandwidthV0_coded : coded 2 ConfigSettingContractBandwidthV0_valid ConfigSettingContractBandwidthV0_EncodeTo
    ConfigSettingContractBandwidthV0_DecodeFrom.
Proof. xdr_record ConfigSettingContractBandwidthV0_EncodeTo ConfigSettingContractBandwidthV0_DecodeFrom
    ConfigSettingContractBandwidthV0_valid. Qed.
#[local] Hint Resolve ConfigSettingContractBandwidthV0_coded : xdr.
Lemma ContractCostParamEntry_coded : coded 2 ContractCostParamEntry_valid ContractCostParamEntry_EncodeTo ContractCostParamEntry_DecodeFrom.
Proof. xdr_record ContractCostParamEntry_EncodeTo ContractCostParamEntry_DecodeFrom ContractCostParamEntry_valid. Qed.
#[local] Hint Resolve ContractCostParamEntry_coded : xdr.
Lemma ContractCostParams_coded : coded 3 ContractCostParams_valid ContractCostParams_EncodeTo ContractCostParams_DecodeFrom.
Proof. xdr_single ContractCostParams_EncodeTo ContractCostParams_DecodeFrom ContractCostParams_valid. Qed.
#[local] Hint Resolve ContractCostParams_coded : xdr.
Lemma StateArchivalSettings_coded : coded 2 StateArchivalSettings_valid StateArchivalSettings_EncodeTo StateArchivalSettings_DecodeFrom.
Proof. xdr_record StateArchivalSettings_EncodeTo StateArchivalSettings_DecodeFrom StateArchivalSettings_valid. Qed.
#[local] Hint Resolve StateArchivalSettings_coded : xdr.
Lemma ConfigSettingContractExecutionLanesV0_coded : coded 2 ConfigSettingContractExecutionLanesV0_valid
    ConfigSettingContractExecutionLanesV0_EncodeTo ConfigSettingContractExecutionLanesV0_DecodeFrom.
Proof. xdr_record ConfigSettingContractExecutionLanesV0_EncodeTo ConfigSettingContractExecutionLanesV0_DecodeFrom
    ConfigSettingContractExecutionLanesV0_valid. Qed.
#[local] Hint Resolve ConfigSettingContractExecutionLanesV0_coded : xdr.
Lemma EvictionIterator_coded : coded 2 EvictionIterator_valid EvictionIterator_EncodeTo EvictionIterator_DecodeFrom.
Proof. xdr_record EvictionIterator_EncodeTo EvictionIterator_DecodeFrom EvictionIterator_valid. Qed.
#[local] Hint Resolve EvictionIterator_coded : xdr.
Lemma ConfigSettingContractParallelComputeV0_coded : coded 2 ConfigSettingContractParallelComputeV0_valid
    ConfigSettingContractParallelComputeV0_EncodeTo ConfigSettingContractParallelComputeV0_DecodeFrom.
Proof. xdr_record ConfigSettingContractParallelComputeV0_EncodeTo ConfigSettingContractParallelComputeV0_DecodeFrom
    ConfigSettingContractParallelComputeV0_valid. Qed.
#[local] Hint Resolve ConfigSettingContractParallelComputeV0_coded : xdr.
Lemma ConfigSettingContractLedgerCostExtV0_coded : coded 2 ConfigSettingContractLedgerCostExtV0_valid
    ConfigSettingContractLedgerCostExtV0_EncodeTo ConfigSettingContractLedgerCostExtV0_DecodeFrom.
Proof. xdr_record ConfigSettingContractLedgerCostExtV0_EncodeTo ConfigSettingContractLedgerCostExtV0_DecodeFrom
    ConfigSettingContractLedgerCostExtV0_valid. Qed.
#[local] Hint Resolve ConfigSettingContractLedgerCostExtV0_coded : xdr.
Lemma ConfigSettingScpTiming_coded : coded 2 ConfigSettingScpTiming_valid ConfigSettingScpTiming_EncodeTo ConfigSettingScpTiming_DecodeFrom.
Proof. xdr_record ConfigSettingScpTiming_EncodeTo ConfigSettingScpTiming_DecodeFrom ConfigSettingScpTiming_valid. Qed.
#[local] Hint Resolve ConfigSettingScpTiming_coded : xdr.
Lemma EncodedLedgerKey_coded : coded 1 EncodedLedgerKey_valid EncodedLedgerKey_EncodeTo EncodedLedgerKey_DecodeFrom.
Proof. xdr_single EncodedLedgerKey_EncodeTo EncodedLedgerKey_DecodeFrom EncodedLedgerKey_valid. Qed.
#[local] Hint Resolve EncodedLedgerKey_coded : xdr.
Lemma FrozenLedgerKeys_coded : coded 2 FrozenLedgerKeys_valid FrozenLedgerKeys_EncodeTo FrozenLedgerKeys_DecodeFrom.
Proof. xdr_record FrozenLedgerKeys_EncodeTo FrozenLedgerKeys_DecodeFrom FrozenLedgerKeys_valid. Qed.
#[local] Hint Resolve FrozenLedgerKeys_coded : xdr.
Lemma FrozenLedgerKeysDelta_coded : coded 2 FrozenLedgerKeysDelta_valid FrozenLedgerKeysDelta_EncodeTo FrozenLedgerKeysDelta_DecodeFrom.
Proof. xdr_record FrozenLedgerKeysDelta_EncodeTo FrozenLedgerKeysDelta_DecodeFrom FrozenLedgerKeysDelta_valid. Qed.
#[local] Hint Resolve FrozenLedgerKeysDelta_coded : xdr.
Lemma FreezeBypassTxs_coded : coded 2 FreezeBypassTxs_valid FreezeBypassTxs_EncodeTo FreezeBypassTxs_DecodeFrom.
Proof. xdr_record FreezeBypassTxs_EncodeTo FreezeBypassTxs_DecodeFrom FreezeBypassTxs_valid. Qed.
#[local] Hint Resolve FreezeBypassTxs_coded : xdr.
Lemma FreezeBypassTxsDelta_coded : coded 2 FreezeBypassTxsDelta_valid FreezeBypassTxsDelta_EncodeTo FreezeBypassTxsDelta_DecodeFrom.
Proof. xdr_record FreezeBypassTxsDelta_EncodeTo FreezeBypassTxsDelta_DecodeFrom FreezeBypassTxsDelta_valid. Qed.
#[local] Hint Resolve FreezeBypassTxsDelta_coded : xdr.
Lemma ConfigSettingEntry_coded : coded 4 ConfigSettingEntry_valid ConfigSettingEntry_EncodeTo ConfigSettingEntry_DecodeFrom.
Proof. xdr_union ConfigSettingEntry_EncodeTo ConfigSettingEntry_DecodeFrom ConfigSettingEntry_valid. Qed.
#[local] Hint Resolve ConfigSettingEntry_coded : xdr.
Lemma TtlEntry_coded : coded 2 TtlEntry_valid TtlEntry_EncodeTo TtlEntry_DecodeFrom.
Proof. xdr_record TtlEntry_EncodeTo TtlEntry_DecodeFrom TtlEntry_valid. Qed.
#[local] Hint Resolve TtlEntry_coded : xdr.
Lemma LedgerEntryData_coded : coded (4 * nesting + 10) LedgerEntryData_valid LedgerEntryData_EncodeTo LedgerEntryData_DecodeFrom.
Proof. xdr_union LedgerEntryData_EncodeTo LedgerEntryData_DecodeFrom LedgerEntryData_valid. Qed.
#[local] Hint Resolve LedgerEntryData_coded : xdr.
Lemma LedgerEntryExtensionV1Ext_coded : coded 1 LedgerEntryExtensionV1Ext_valid LedgerEntryExtensionV1Ext_EncodeTo
    LedgerEntryExtensionV1Ext_DecodeFrom.
Proof. xdr_union LedgerEntryExtensionV1Ext_EncodeTo LedgerEntryExtensionV1Ext_DecodeFrom LedgerEntryExtensionV1Ext_valid. Qed.
#[local] Hint Resolve LedgerEntryExtensionV1Ext_coded : xdr.
Lemma LedgerEntryExtensionV1_coded : coded 4 LedgerEntryExtensionV1_valid LedgerEntryExtensionV1_EncodeTo LedgerEntryExtensionV1_DecodeFrom.
Proof. xdr_record LedgerEntryExtensionV1_EncodeTo LedgerEntryExtensionV1_DecodeFrom LedgerEntryExtensionV1_valid. Qed.
#[local] Hint Resolve LedgerEntryExtensionV1_coded : xdr.
Lemma LedgerEntryExt_coded : coded 5 LedgerEntryExt_valid LedgerEntryExt_EncodeTo LedgerEntryExt_DecodeFrom.
Proof. xdr_union LedgerEntryExt_EncodeTo LedgerEntryExt_DecodeFrom LedgerEntryExt_valid. Qed.
#[local] Hint Resolve LedgerEntryExt_coded : xdr.
Lemma LedgerEntry_coded : coded (4 * nesting + 11) LedgerEntry_valid LedgerEntry_EncodeTo LedgerEntry_DecodeFrom.
Proof. xdr_record LedgerEntry_EncodeTo LedgerEntry_DecodeFrom LedgerEntry_valid. Qed.
#[local] Hint Resolve LedgerEntry_coded : xdr.
Lemma LedgerEntryChange_coded : coded (4 * nesting + 12) LedgerEntryChange_valid LedgerEntryChange_EncodeTo LedgerEntryChange_DecodeFrom.
Proof. xdr_union LedgerEntryChange_EncodeTo LedgerEntryChange_DecodeFrom LedgerEntryChange_valid. Qed.
#[local] Hint Resolve LedgerEntryChange_coded : xdr.
Lemma LedgerEntryChanges_coded : coded (4 * nesting + 13) LedgerEntryChanges_valid LedgerEntryChanges_EncodeTo
    LedgerEntryChanges_DecodeFrom.
Proof. xdr_single LedgerEntryChanges_EncodeTo LedgerEntryChanges_DecodeFrom LedgerEntryChanges_valid. Qed.
#[local] Hint Resolve LedgerEntryChanges_coded : xdr.
Lemma OperationMeta_coded : coded (4 * nesting + 14) OperationMeta_valid OperationMeta_EncodeTo OperationMeta_DecodeFrom.
Proof. xdr_record OperationMeta_EncodeTo OperationMeta_DecodeFrom OperationMeta_valid. Qed.
#[local] Hint Resolve OperationMeta_coded : xdr.
Lemma TransactionMetaV1_coded : coded (4 * nesting + 15) TransactionMetaV1_valid TransactionMetaV1_EncodeTo TransactionMetaV1_DecodeFrom.
Proof. xdr_record TransactionMetaV1_EncodeTo TransactionMetaV1_DecodeFrom TransactionMetaV1_valid. Qed.
#[local] Hint Resolve TransactionMetaV1_coded : xdr.
Lemma TransactionMetaV2_coded : coded (4 * nesting + 15) TransactionMetaV2_valid TransactionMetaV2_EncodeTo TransactionMetaV2_DecodeFrom.
Proof. xdr_record TransactionMetaV2_EncodeTo TransactionMetaV2_DecodeFrom TransactionMetaV2_valid. Qed.
#[local] Hint Resolve TransactionMetaV2_coded : xdr.
Lemma SorobanTransactionMetaExtV1_coded : coded 2 SorobanTransactionMetaExtV1_valid SorobanTransactionMetaExtV1_EncodeTo
    SorobanTransactionMetaExtV1_DecodeFrom.
Proof. xdr_record SorobanTransactionMetaExtV1_EncodeTo SorobanTransactionMetaExtV1_DecodeFrom SorobanTransactionMetaExtV1_valid. Qed.
#[local] Hint Resolve SorobanTransactionMetaExtV1_coded : xdr.
Lemma SorobanTransactionMetaExt_coded : coded 3 SorobanTransactionMetaExt_valid SorobanTransactionMetaExt_EncodeTo
    SorobanTransactionMetaExt_DecodeFrom.
Proof. xdr_union SorobanTransactionMetaExt_EncodeTo SorobanTransactionMetaExt_DecodeFrom SorobanTransactionMetaExt_valid. Qed.
#[local] Hint Resolve SorobanTransactionMetaExt_coded : xdr.
Lemma ContractEventType_coded : coded 1 ContractEventType_valid ContractEventType_EncodeTo ContractEventType_DecodeFrom.
Proof. by apply (enum_coded contractEventTypeMap). Qed.
#[local] Hint Resolve ContractEventType_coded : xdr.
Lemma ContractEventV0_coded : coded (4 * nesting + 9) ContractEventV0_valid ContractEventV0_EncodeTo ContractEventV0_DecodeFrom.
Proof. xdr_record ContractEventV0_EncodeTo ContractEventV0_DecodeFrom ContractEventV0_valid. Qed.
#[local] Hint Resolve ContractEventV0_coded : xdr.
Lemma ContractEventBody_coded : coded (4 * nesting + 10) ContractEventBody_valid ContractEventBody_EncodeTo ContractEventBody_DecodeFrom.
Proof. xdr_union ContractEventBody_EncodeTo ContractEventBody_DecodeFrom ContractEventBody_valid. Qed.
#[local] Hint Resolve ContractEventBody_coded : xdr.
Lemma ContractEvent_coded : coded (4 * nesting + 11) ContractEvent_valid ContractEvent_EncodeTo ContractEvent_DecodeFrom.
Proof. xdr_record ContractEvent_EncodeTo ContractEvent_DecodeFrom ContractEvent_valid. Qed.
#[local] Hint Resolve ContractEvent_coded : xdr.
Lemma DiagnosticEvent_coded : coded (4 * nesting + 12) DiagnosticEvent_valid DiagnosticEvent_EncodeTo DiagnosticEvent_DecodeFrom.
Proof. xdr_record DiagnosticEvent_EncodeTo DiagnosticEvent_DecodeFrom DiagnosticEvent_valid. Qed.
#[local] Hint Resolve DiagnosticEvent_coded : xdr.
Lemma SorobanTransactionMeta_coded : coded (4 * nesting + 13) SorobanTransactionMeta_valid SorobanTransactionMeta_EncodeTo
    SorobanTransactionMeta_DecodeFrom.
Proof. xdr_record SorobanTransactionMeta_EncodeTo SorobanTransactionMeta_DecodeFrom SorobanTransactionMeta_valid. Qed.
#[local] Hint Resolve SorobanTransactionMeta_coded : xdr.
Lemma TransactionMetaV3_coded : coded (4 * nesting + 15) TransactionMetaV3_valid TransactionMetaV3_EncodeTo TransactionMetaV3_DecodeFrom.
Proof. xdr_record TransactionMetaV3_EncodeTo TransactionMetaV3_DecodeFrom TransactionMetaV3_valid. Qed.
#[local] Hint Resolve TransactionMetaV3_coded : xdr.
Lemma OperationMetaV2_coded : coded (4 * nesting + 14) OperationMetaV2_valid OperationMetaV2_EncodeTo OperationMetaV2_DecodeFrom.
Proof. xdr_record OperationMetaV2_EncodeTo OperationMetaV2_DecodeFrom OperationMetaV2_valid. Qed.
#[local] Hint Resolve OperationMetaV2_coded : xdr.
Lemma SorobanTransactionMetaV2_coded : coded (4 * nesting + 9) SorobanTransactionMetaV2_valid SorobanTransactionMetaV2_EncodeTo
    SorobanTransactionMetaV2_DecodeFrom.
Proof. xdr_record SorobanTransactionMetaV2_EncodeTo SorobanTransactionMetaV2_DecodeFrom SorobanTransactionMetaV2_valid. Qed.
#[local] Hint Resolve SorobanTransactionMetaV2_coded : xdr.
Lemma TransactionEventStage_coded : coded 1 TransactionEventStage_valid TransactionEventStage_EncodeTo TransactionEventStage_DecodeFrom.
Proof. by apply (enum_coded transactionEventStageMap). Qed.
#[local] Hint Resolve TransactionEventStage_coded : xdr.
Lemma TransactionEvent_coded : coded (4 * nesting + 12) TransactionEvent_valid TransactionEvent_EncodeTo TransactionEvent_DecodeFrom.
Proof. xdr_record TransactionEvent_EncodeTo TransactionEvent_DecodeFrom TransactionEvent_valid. Qed.
#[local] Hint Resolve TransactionEvent_coded : xdr.
Lemma TransactionMetaV4_coded : coded (4 * nesting + 15) TransactionMetaV4_valid TransactionMetaV4_EncodeTo TransactionMetaV4_DecodeFrom.
Proof. xdr_record TransactionMetaV4_EncodeTo TransactionMetaV4_DecodeFrom TransactionMetaV4_valid. Qed.
#[local] Hint Resolve TransactionMetaV4_coded : xdr.
Lemma TransactionMeta_coded : coded (4 * nesting + 16) TransactionMeta_valid TransactionMeta_EncodeTo TransactionMeta_DecodeFrom.
Proof. xdr_union TransactionMeta_EncodeTo TransactionMeta_DecodeFrom TransactionMeta_valid. Qed.
#[local] Hint Resolve TransactionMeta_coded : xdr.
Lemma TransactionResultMeta_coded : coded (4 * nesting + 18) TransactionResultMeta_valid TransactionResultMeta_EncodeTo
    TransactionResultMeta_DecodeFrom.
Proof. xdr_record TransactionResultMeta_EncodeTo TransactionResultMeta_DecodeFrom TransactionResultMeta_valid. Qed.
#[local] Hint Resolve TransactionResultMeta_coded : xdr.
Lemma LedgerUpgradeType_coded : coded 1 LedgerUpgradeType_valid LedgerUpgradeType_EncodeTo LedgerUpgradeType_DecodeFrom.
Proof. by apply (enum_coded ledgerUpgradeTypeMap). Qed.
#[local] Hint Resolve LedgerUpgradeType_coded : xdr.
Lemma ConfigUpgradeSetKey_coded : coded 3 ConfigUpgradeSetKey_valid ConfigUpgradeSetKey_EncodeTo ConfigUpgradeSetKey_DecodeFrom.
Proof. xdr_record ConfigUpgradeSetKey_EncodeTo ConfigUpgradeSetKey_DecodeFrom ConfigUpgradeSetKey_valid. Qed.
#[local] Hint Resolve ConfigUpgradeSetKey_coded : xdr.
Lemma LedgerUpgrade_coded : coded 4 LedgerUpgrade_valid LedgerUpgrade_EncodeTo LedgerUpgrade_DecodeFrom.
Proof. xdr_union LedgerUpgrade_EncodeTo LedgerUpgrade_DecodeFrom LedgerUpgrade_valid. Qed.
#[local] Hint Resolve LedgerUpgrade_coded : xdr.
Lemma UpgradeEntryMeta_coded : coded (4 * nesting + 14) UpgradeEntryMeta_valid UpgradeEntryMeta_EncodeTo UpgradeEntryMeta_DecodeFrom.
Proof. xdr_record UpgradeEntryMeta_EncodeTo UpgradeEntryMeta_DecodeFrom UpgradeEntryMeta_valid. Qed.
#[local] Hint Resolve UpgradeEntryMeta_coded : xdr.
Lemma ScpQuorumSet_coded_in depth : coded (depth + 4) (ScpQuorumSet_valid_in depth) ScpQuorumSet_EncodeTo ScpQuorumSet_DecodeFrom.
Proof.
  induction depth as [|depth IH]; intros v n Hv Hn; [done|]. destruct n as [|n]; [lia|]. destruct v. cbn [ScpQuorumSet_valid_in] in Hv.
  xdr_valid. cbn [ScpQuorumSet_EncodeTo ScpQuorumSet_DecodeFrom].
  eapply writes_bind; [xdr_value|]. eapply writes0_bind; [xdr_value0|]. eapply writes0_bind; [|apply writes_ret].
  apply writes_writes0. eapply slice_valid; [reflexivity| |eassumption]. intros x Hx. apply IH; [done|lia].
Qed.
Lemma ScpQuorumSet_coded : coded (4 * nesting + 4) ScpQuorumSet_valid ScpQuorumSet_EncodeTo ScpQuorumSet_DecodeFrom.
Proof. intros v n Hv Hn. apply (ScpQuorumSet_coded_in nesting); [done|lia]. Qed.
#[local] Hint Resolve ScpQuorumSet_coded : xdr.
Lemma ScpStatementType_coded : coded 1 ScpStatementType_valid ScpStatementType_EncodeTo ScpStatementType_DecodeFrom.
Proof. by apply (enum_coded scpStatementTypeMap). Qed.
#[local] Hint Resolve ScpStatementType_coded : xdr.
Lemma Value_coded : coded 1 Value_valid Value_EncodeTo Value_DecodeFrom.
Proof. xdr_single Value_EncodeTo Value_DecodeFrom Value_valid. Qed.
#[local] Hint Resolve Value_coded : xdr.
Lemma ScpBallot_coded : coded 2 ScpBallot_valid ScpBallot_EncodeTo ScpBallot_DecodeFrom.
Proof. xdr_record ScpBallot_EncodeTo ScpBallot_DecodeFrom ScpBallot_valid. Qed.
#[local] Hint Resolve ScpBallot_coded : xdr.
Lemma ScpStatementPrepare_coded : coded 3 ScpStatementPrepare_valid ScpStatementPrepare_EncodeTo ScpStatementPrepare_DecodeFrom.
Proof. xdr_record ScpStatementPrepare_EncodeTo ScpStatementPrepare_DecodeFrom ScpStatementPrepare_valid. Qed.
#[local] Hint Resolve ScpStatementPrepare_coded : xdr.
Lemma ScpStatementConfirm_coded : coded 3 ScpStatementConfirm_valid ScpStatementConfirm_EncodeTo ScpStatementConfirm_DecodeFrom.
Proof. xdr_record ScpStatementConfirm_EncodeTo ScpStatementConfirm_DecodeFrom ScpStatementConfirm_valid. Qed.
#[local] Hint Resolve ScpStatementConfirm_coded : xdr.
Lemma ScpStatementExternalize_coded : coded 3 ScpStatementExternalize_valid ScpStatementExternalize_EncodeTo
    ScpStatementExternalize_DecodeFrom.
Proof. xdr_record ScpStatementExternalize_EncodeTo ScpStatementExternalize_DecodeFrom ScpStatementExternalize_valid. Qed.
#[local] Hint Resolve ScpStatementExternalize_coded : xdr.
Lemma ScpNomination_coded : coded 2 ScpNomination_valid ScpNomination_EncodeTo ScpNomination_DecodeFrom.
Proof. xdr_record ScpNomination_EncodeTo ScpNomination_DecodeFrom ScpNomination_valid. Qed.
#[local] Hint Resolve ScpNomination_coded : xdr.
Lemma ScpStatementPledges_coded : coded 4 ScpStatementPledges_valid ScpStatementPledges_EncodeTo ScpStatementPledges_DecodeFrom.
Proof. xdr_union ScpStatementPledges_EncodeTo ScpStatementPledges_DecodeFrom ScpStatementPledges_valid. Qed.
#[local] Hint Resolve ScpStatementPledges_coded : xdr.
Lemma ScpStatement_coded : coded 5 ScpStatement_valid ScpStatement_EncodeTo ScpStatement_DecodeFrom.
Proof. xdr_record ScpStatement_EncodeTo ScpStatement_DecodeFrom ScpStatement_valid. Qed.
#[local] Hint Resolve ScpStatement_coded : xdr.
Lemma ScpEnvelope_coded : coded 6 ScpEnvelope_valid ScpEnvelope_EncodeTo ScpEnvelope_DecodeFrom.
Proof. xdr_record ScpEnvelope_EncodeTo ScpEnvelope_DecodeFrom ScpEnvelope_valid. Qed.
#[local] Hint Resolve ScpEnvelope_coded : xdr.
Lemma LedgerScpMessages_coded : coded 7 LedgerScpMessages_valid LedgerScpMessages_EncodeTo LedgerScpMessages_DecodeFrom.
Proof. xdr_record LedgerScpMessages_EncodeTo LedgerScpMessages_DecodeFrom LedgerScpMessages_valid. Qed.
#[local] Hint Resolve LedgerScpMessages_coded : xdr.
Lemma ScpHistoryEntryV0_coded : coded (4 * nesting + 8) ScpHistoryEntryV0_valid ScpHistoryEntryV0_EncodeTo ScpHistoryEntryV0_DecodeFrom.
Proof. xdr_record ScpHistoryEntryV0_EncodeTo ScpHistoryEntryV0_DecodeFrom ScpHistoryEntryV0_valid. Qed.
#[local] Hint Resolve ScpHistoryEntryV0_coded : xdr.
Lemma ScpHistoryEntry_coded : coded (4 * nesting + 9) ScpHistoryEntry_valid ScpHistoryEntry_EncodeTo ScpHistoryEntry_DecodeFrom.
Proof. xdr_union ScpHistoryEntry_EncodeTo ScpHistoryEntry_DecodeFrom ScpHistoryEntry_valid. Qed.
#[local] Hint Resolve ScpHistoryEntry_coded : xdr.
Lemma LedgerCloseMetaV0_coded : coded (5 * nesting + 23) LedgerCloseMetaV0_valid LedgerCloseMetaV0_EncodeTo LedgerCloseMetaV0_DecodeFrom.
Proof. xdr_record LedgerCloseMetaV0_EncodeTo LedgerCloseMetaV0_DecodeFrom LedgerCloseMetaV0_valid. Qed.
#[local] Hint Resolve LedgerCloseMetaV0_coded : xdr.
Lemma LedgerCloseMetaExtV1_coded : coded 2 LedgerCloseMetaExtV1_valid LedgerCloseMetaExtV1_EncodeTo LedgerCloseMetaExtV1_DecodeFrom.
Proof. xdr_record LedgerCloseMetaExtV1_EncodeTo LedgerCloseMetaExtV1_DecodeFrom LedgerCloseMetaExtV1_valid. Qed.
#[local] Hint Resolve LedgerCloseMetaExtV1_coded : xdr.
Lemma LedgerCloseMetaExt_coded : coded 3 LedgerCloseMetaExt_valid LedgerCloseMetaExt_EncodeTo LedgerCloseMetaExt_DecodeFrom.
Proof. xdr_union LedgerCloseMetaExt_EncodeTo LedgerCloseMetaExt_DecodeFrom LedgerCloseMetaExt_valid. Qed.
#[local] Hint Resolve LedgerCloseMetaExt_coded : xdr.
Lemma TxSetComponentType_coded : coded 1 TxSetComponentType_valid TxSetComponentType_EncodeTo TxSetComponentType_DecodeFrom.
Proof. by apply (enum_coded txSetComponentTypeMap). Qed.
#[local] Hint Resolve TxSetComponentType_coded : xdr.
Lemma TxSetComponentTxsMaybeDiscountedFee_coded : coded (5 * nesting + 22) TxSetComponentTxsMaybeDiscountedFee_valid
    TxSetComponentTxsMaybeDiscountedFee_EncodeTo TxSetComponentTxsMaybeDiscountedFee_DecodeFrom.
Proof. xdr_record TxSetComponentTxsMaybeDiscountedFee_EncodeTo TxSetComponentTxsMaybeDiscountedFee_DecodeFrom
    TxSetComponentTxsMaybeDiscountedFee_valid. Qed.
#[local] Hint Resolve TxSetComponentTxsMaybeDiscountedFee_coded : xdr.
Lemma TxSetComponent_coded : coded (5 * nesting + 23) TxSetComponent_valid TxSetComponent_EncodeTo TxSetComponent_DecodeFrom.
Proof. xdr_union TxSetComponent_EncodeTo TxSetComponent_DecodeFrom TxSetComponent_valid. Qed.
#[local] Hint Resolve TxSetComponent_coded : xdr.
Lemma DependentTxCluster_coded : coded (5 * nesting + 22) DependentTxCluster_valid DependentTxCluster_EncodeTo
    DependentTxCluster_DecodeFrom.
Proof. xdr_single DependentTxCluster_EncodeTo DependentTxCluster_DecodeFrom DependentTxCluster_valid. Qed.
#[local] Hint Resolve DependentTxCluster_coded : xdr.
Lemma ParallelTxExecutionStage_coded : coded (5 * nesting + 23) ParallelTxExecutionStage_valid ParallelTxExecutionStage_EncodeTo
    ParallelTxExecutionStage_DecodeFrom.
Proof. xdr_single ParallelTxExecutionStage_EncodeTo ParallelTxExecutionStage_DecodeFrom ParallelTxExecutionStage_valid. Qed.
#[local] Hint Resolve ParallelTxExecutionStage_coded : xdr.
Lemma ParallelTxsComponent_coded : coded (5 * nesting + 24) ParallelTxsComponent_valid ParallelTxsComponent_EncodeTo
    ParallelTxsComponent_DecodeFrom.
Proof. xdr_record ParallelTxsComponent_EncodeTo ParallelTxsComponent_DecodeFrom ParallelTxsComponent_valid. Qed.
#[local] Hint Resolve ParallelTxsComponent_coded : xdr.
Lemma TransactionPhase_coded : coded (5 * nesting + 25) TransactionPhase_valid TransactionPhase_EncodeTo TransactionPhase_DecodeFrom.
Proof. xdr_union TransactionPhase_EncodeTo TransactionPhase_DecodeFrom TransactionPhase_valid. Qed.
#[local] Hint Resolve TransactionPhase_coded : xdr.
Lemma TransactionSetV1_coded : coded (5 * nesting + 26) TransactionSetV1_valid TransactionSetV1_EncodeTo TransactionSetV1_DecodeFrom.
Proof. xdr_record TransactionSetV1_EncodeTo TransactionSetV1_DecodeFrom TransactionSetV1_valid. Qed.
#[local] Hint Resolve TransactionSetV1_coded : xdr.
Lemma GeneralizedTransactionSet_coded : coded (5 * nesting + 27) GeneralizedTransactionSet_valid GeneralizedTransactionSet_EncodeTo
    GeneralizedTransactionSet_DecodeFrom.
Proof. xdr_union GeneralizedTransactionSet_EncodeTo GeneralizedTransactionSet_DecodeFrom GeneralizedTransactionSet_valid. Qed.
#[local] Hint Resolve GeneralizedTransactionSet_coded : xdr.
Lemma LedgerCloseMetaV1_coded : coded (5 * nesting + 28) LedgerCloseMetaV1_valid LedgerCloseMetaV1_EncodeTo LedgerCloseMetaV1_DecodeFrom.
Proof. xdr_record LedgerCloseMetaV1_EncodeTo LedgerCloseMetaV1_DecodeFrom LedgerCloseMetaV1_valid. Qed.
#[local] Hint Resolve LedgerCloseMetaV1_coded : xdr.
Lemma TransactionResultMetaV1_coded : coded (4 * nesting + 18) TransactionResultMetaV1_valid TransactionResultMetaV1_EncodeTo
    TransactionResultMetaV1_DecodeFrom.
Proof. xdr_record TransactionResultMetaV1_EncodeTo TransactionResultMetaV1_DecodeFrom TransactionResultMetaV1_valid. Qed.
#[local] Hint Resolve TransactionResultMetaV1_coded : xdr.
Lemma LedgerCloseMetaV2_coded : coded (5 * nesting + 28) LedgerCloseMetaV2_valid LedgerCloseMetaV2_EncodeTo LedgerCloseMetaV2_DecodeFrom.
Proof. xdr_record LedgerCloseMetaV2_EncodeTo LedgerCloseMetaV2_DecodeFrom LedgerCloseMetaV2_valid. Qed.
#[local] Hint Resolve LedgerCloseMetaV2_coded : xdr.
Lemma LedgerCloseMeta_coded : coded (5 * nesting + 29) LedgerCloseMeta_valid LedgerCloseMeta_EncodeTo LedgerCloseMeta_DecodeFrom.
Proof. xdr_union LedgerCloseMeta_EncodeTo LedgerCloseMeta_DecodeFrom LedgerCloseMeta_valid. Qed.
#[local] Hint Resolve LedgerCloseMeta_coded : xdr.
End Laws.
#[export] Hint Resolve
  UpgradeType_coded StellarValueType_coded NodeId_coded LedgerCloseValueSignature_coded
  StellarValueProposedValue_coded TimePointMs_coded StellarValueSignedMsValue_coded StellarValueProposedMsValue_coded
  StellarValueExt_coded StellarValue_coded LedgerHeaderExtensionV1Ext_coded LedgerHeaderExtensionV1_coded
  LedgerHeaderExt_coded LedgerHeader_coded LedgerHeaderHistoryEntryExt_coded LedgerHeaderHistoryEntry_coded
  TransactionSet_coded TransactionResultCode_coded OperationResultCode_coded CreateAccountResultCode_coded
  CreateAccountResult_coded PaymentResultCode_coded PaymentResult_coded PathPaymentStrictReceiveResultCode_coded
  ClaimAtomType_coded ClaimOfferAtomV0_coded ClaimOfferAtom_coded ClaimLiquidityAtom_coded
  ClaimAtom_coded SimplePaymentResult_coded PathPaymentStrictReceiveResultSuccess_coded PathPaymentStrictReceiveResult_coded
  ManageSellOfferResultCode_coded ManageOfferEffect_coded OfferEntryExt_coded OfferEntry_coded
  ManageOfferSuccessResultOffer_coded ManageOfferSuccessResult_coded ManageSellOfferResult_coded SetOptionsResultCode_coded
  SetOptionsResult_coded ChangeTrustResultCode_coded ChangeTrustResult_coded AllowTrustResultCode_coded
  AllowTrustResult_coded AccountMergeResultCode_coded AccountMergeResult_coded InflationResultCode_coded
  InflationPayout_coded InflationResult_coded ManageDataResultCode_coded ManageDataResult_coded
  BumpSequenceResultCode_coded BumpSequenceResult_coded ManageBuyOfferResultCode_coded ManageBuyOfferResult_coded
  PathPaymentStrictSendResultCode_coded PathPaymentStrictSendResultSuccess_coded PathPaymentStrictSendResult_coded
      CreateClaimableBalanceResultCode_coded
  CreateClaimableBalanceResult_coded ClaimClaimableBalanceResultCode_coded ClaimClaimableBalanceResult_coded
      BeginSponsoringFutureReservesResultCode_coded
  BeginSponsoringFutureReservesResult_coded EndSponsoringFutureReservesResultCode_coded EndSponsoringFutureReservesResult_coded
      RevokeSponsorshipResultCode_coded
  RevokeSponsorshipResult_coded ClawbackResultCode_coded ClawbackResult_coded ClawbackClaimableBalanceResultCode_coded
  ClawbackClaimableBalanceResult_coded SetTrustLineFlagsResultCode_coded SetTrustLineFlagsResult_coded LiquidityPoolDepositResultCode_coded
  LiquidityPoolDepositResult_coded LiquidityPoolWithdrawResultCode_coded LiquidityPoolWithdrawResult_coded
      InvokeHostFunctionResultCode_coded
  InvokeHostFunctionResult_coded ExtendFootprintTtlResultCode_coded ExtendFootprintTtlResult_coded RestoreFootprintResultCode_coded
  RestoreFootprintResult_coded OperationResultTr_coded OperationResult_coded InnerTransactionResultResult_coded
  InnerTransactionResultExt_coded InnerTransactionResult_coded InnerTransactionResultPair_coded TransactionResultResult_coded
  TransactionResultExt_coded TransactionResult_coded TransactionResultPair_coded LedgerEntryChangeType_coded
  Thresholds_coded Liabilities_coded AccountEntryExtensionV3_coded AccountEntryExtensionV2Ext_coded
  AccountEntryExtensionV2_coded AccountEntryExtensionV1Ext_coded AccountEntryExtensionV1_coded AccountEntryExt_coded
  AccountEntry_coded TrustLineEntryExtensionV2Ext_coded TrustLineEntryExtensionV2_coded TrustLineEntryV1Ext_coded
  TrustLineEntryV1_coded TrustLineEntryExt_coded TrustLineEntry_coded DataEntryExt_coded
  DataEntry_coded ClaimableBalanceEntryExtensionV1Ext_coded ClaimableBalanceEntryExtensionV1_coded ClaimableBalanceEntryExt_coded
  ClaimableBalanceEntry_coded LiquidityPoolEntryConstantProduct_coded LiquidityPoolEntryBody_coded LiquidityPoolEntry_coded
  ContractDataEntry_coded ContractCodeCostInputs_coded ContractCodeEntryV1_coded ContractCodeEntryExt_coded
  ContractCodeEntry_coded ConfigSettingContractComputeV0_coded ConfigSettingContractLedgerCostV0_coded
      ConfigSettingContractHistoricalDataV0_coded
  ConfigSettingContractEventsV0_coded ConfigSettingContractBandwidthV0_coded ContractCostParamEntry_coded ContractCostParams_coded
  StateArchivalSettings_coded ConfigSettingContractExecutionLanesV0_coded EvictionIterator_coded
      ConfigSettingContractParallelComputeV0_coded
  ConfigSettingContractLedgerCostExtV0_coded ConfigSettingScpTiming_coded EncodedLedgerKey_coded FrozenLedgerKeys_coded
  FrozenLedgerKeysDelta_coded FreezeBypassTxs_coded FreezeBypassTxsDelta_coded ConfigSettingEntry_coded
  TtlEntry_coded LedgerEntryData_coded LedgerEntryExtensionV1Ext_coded LedgerEntryExtensionV1_coded
  LedgerEntryExt_coded LedgerEntry_coded LedgerEntryChange_coded LedgerEntryChanges_coded
  OperationMeta_coded TransactionMetaV1_coded TransactionMetaV2_coded SorobanTransactionMetaExtV1_coded
  SorobanTransactionMetaExt_coded ContractEventType_coded ContractEventV0_coded ContractEventBody_coded
  ContractEvent_coded DiagnosticEvent_coded SorobanTransactionMeta_coded TransactionMetaV3_coded
  OperationMetaV2_coded SorobanTransactionMetaV2_coded TransactionEventStage_coded TransactionEvent_coded
  TransactionMetaV4_coded TransactionMeta_coded TransactionResultMeta_coded LedgerUpgradeType_coded
  ConfigUpgradeSetKey_coded LedgerUpgrade_coded UpgradeEntryMeta_coded ScpQuorumSet_coded
  ScpStatementType_coded Value_coded ScpBallot_coded ScpStatementPrepare_coded
  ScpStatementConfirm_coded ScpStatementExternalize_coded ScpNomination_coded ScpStatementPledges_coded
  ScpStatement_coded ScpEnvelope_coded LedgerScpMessages_coded ScpHistoryEntryV0_coded
  ScpHistoryEntry_coded LedgerCloseMetaV0_coded LedgerCloseMetaExtV1_coded LedgerCloseMetaExt_coded
  TxSetComponentType_coded TxSetComponentTxsMaybeDiscountedFee_coded TxSetComponent_coded DependentTxCluster_coded
  ParallelTxExecutionStage_coded ParallelTxsComponent_coded TransactionPhase_coded TransactionSetV1_coded
  GeneralizedTransactionSet_coded LedgerCloseMetaV1_coded TransactionResultMetaV1_coded LedgerCloseMetaV2_coded
  LedgerCloseMeta_coded : xdr.
