(* ===== verification/XdrMessages.v ===== *)
(** * Other encoded types

    The rest of src/xdr/xdr_generated.go, in the way of [XdrTypes]: records of history
    files and buckets, messages between nodes, hashed identifiers, descriptions of
    contracts and batches of ledgers. *)
From Stdlib Require Import ZArith Lia.
From stdpp Require Import base list vector option.
From S2P Require Import Prelude GoStd GoExt Price Encodings Strkey Asset LedgerEntries CloseMeta Accounts Envelopes.
From S2P Require Import Keypair TxnXdr XdrCodec XdrTypes XdrTransactions XdrLedger.
#[local] Open Scope Z_scope.
#[local] Open Scope go_scope.
#[local] Open Scope string_scope.

#[local] Existing Instances xdr_entries xdr_soroban.

Section Types.
Context {X : GoXdrCoder} {N : Nesting}.

Definition thresholdIndexesMap : list Z := [0; 1; 2; 3].
Definition ThresholdIndexes_EncodeTo (e : Z) : option bytes := enum_EncodeTo thresholdIndexesMap e.
Definition ThresholdIndexes_DecodeFrom (maxDepth : nat) : decode Z := enum_DecodeFrom thresholdIndexesMap maxDepth.
Definition ThresholdIndexes_valid (e : Z) : bool := valid_enum thresholdIndexesMap e.

Definition accountFlagsMap : list Z := [1; 2; 4; 8].
Definition AccountFlags_EncodeTo (e : Z) : option bytes := enum_EncodeTo accountFlagsMap e.
Definition AccountFlags_DecodeFrom (maxDepth : nat) : decode Z := enum_DecodeFrom accountFlagsMap maxDepth.
Definition AccountFlags_valid (e : Z) : bool := valid_enum accountFlagsMap e.

Definition trustLineFlagsMap : list Z := [1; 2; 4].
Definition TrustLineFlags_EncodeTo (e : Z) : option bytes := enum_EncodeTo trustLineFlagsMap e.
Definition TrustLineFlags_DecodeFrom (maxDepth : nat) : decode Z := enum_DecodeFrom trustLineFlagsMap maxDepth.
Definition TrustLineFlags_valid (e : Z) : bool := valid_enum trustLineFlagsMap e.

Definition offerEntryFlagsMap : list Z := [1].
Definition OfferEntryFlags_EncodeTo (e : Z) : option bytes := enum_EncodeTo offerEntryFlagsMap e.
Definition OfferEntryFlags_DecodeFrom (maxDepth : nat) : decode Z := enum_DecodeFrom offerEntryFlagsMap maxDepth.
Definition OfferEntryFlags_valid (e : Z) : bool := valid_enum offerEntryFlagsMap e.

Definition claimableBalanceFlagsMap : list Z := [1].
Definition ClaimableBalanceFlags_EncodeTo (e : Z) : option bytes := enum_EncodeTo claimableBalanceFlagsMap e.
Definition ClaimableBalanceFlags_DecodeFrom (maxDepth : nat) : decode Z := enum_DecodeFrom claimableBalanceFlagsMap maxDepth.
Definition ClaimableBalanceFlags_valid (e : Z) : bool := valid_enum claimableBalanceFlagsMap e.

Definition bucketListTypeMap : list Z := [0; 1].
Definition BucketListType_EncodeTo (e : Z) : option bytes := enum_EncodeTo bucketListTypeMap e.
Definition BucketListType_DecodeFrom (maxDepth : nat) : decode Z := enum_DecodeFrom bucketListTypeMap maxDepth.
Definition BucketListType_valid (e : Z) : bool := valid_enum bucketListTypeMap e.

Definition bucketEntryTypeMap : list Z := [-1; 0; 1; 2].
Definition BucketEntryType_EncodeTo (e : Z) : option bytes := enum_EncodeTo bucketEntryTypeMap e.
Definition BucketEntryType_DecodeFrom (maxDepth : nat) : decode Z := enum_DecodeFrom bucketEntryTypeMap maxDepth.
Definition BucketEntryType_valid (e : Z) : bool := valid_enum bucketEntryTypeMap e.

Definition hotArchiveBucketEntryTypeMap : list Z := [-1; 0; 1].
Definition HotArchiveBucketEntryType_EncodeTo (e : Z) : option bytes := enum_EncodeTo hotArchiveBucketEntryTypeMap e.
Definition HotArchiveBucketEntryType_DecodeFrom (maxDepth : nat) : decode Z := enum_DecodeFrom hotArchiveBucketEntryTypeMap maxDepth.
Definition HotArchiveBucketEntryType_valid (e : Z) : bool := valid_enum hotArchiveBucketEntryTypeMap e.

Inductive XdrBucketMetadataExt : Type :=
| BucketMetadataExt_0
| BucketMetadataExt_1 (bucketListType : Z).
Definition BucketMetadataExt_EncodeTo (u : XdrBucketMetadataExt) : option bytes :=
  match u with
  | BucketMetadataExt_0 => write! EncodeInt 0 in written
  | BucketMetadataExt_1 bucketListType => write! EncodeInt 1 in write! BucketListType_EncodeTo bucketListType in written
  end.
Definition BucketMetadataExt_DecodeFrom (maxDepth : nat) : decode XdrBucketMetadataExt := nested maxDepth (fun maxDepth =>
  read! v := DecodeInt in
  if v =? 0 then ret BucketMetadataExt_0 else
  if v =? 1 then tracked "BucketListType" (read! bucketListType := BucketListType_DecodeFrom maxDepth in ret (BucketMetadataExt_1
      bucketListType)) else
  invalid).
Definition BucketMetadataExt_valid (u : XdrBucketMetadataExt) : bool :=
  match u with
  | BucketMetadataExt_0 => true
  | BucketMetadataExt_1 bucketListType => BucketListType_valid bucketListType
  end.

Record XdrBucketMetadata : Type := mkXdrBucketMetadata {
  BucketMetadata_LedgerVersion : Z;
  BucketMetadata_Ext : XdrBucketMetadataExt
}.
Definition BucketMetadata_EncodeTo (s : XdrBucketMetadata) : option bytes :=
  let '(mkXdrBucketMetadata ledgerVersion ext) := s in
  write! Uint32_EncodeTo ledgerVersion in
  write! BucketMetadataExt_EncodeTo ext in
  written.
Definition BucketMetadata_DecodeFrom (maxDepth : nat) : decode XdrBucketMetadata := nested maxDepth (fun maxDepth =>
  read! ledgerVersion := Uint32_DecodeFrom maxDepth in
  read! ext := BucketMetadataExt_DecodeFrom maxDepth in
  ret (mkXdrBucketMetadata ledgerVersion ext)).
Definition BucketMetadata_valid (s : XdrBucketMetadata) : bool :=
  let '(mkXdrBucketMetadata ledgerVersion ext) := s in
  Uint32_valid ledgerVersion && BucketMetadataExt_valid ext.

Inductive XdrBucketEntry : Type :=
| BucketEntry_Liveentry (liveEntry : XdrLedgerEntry)
| BucketEntry_Initentry (liveEntry : XdrLedgerEntry)
| BucketEntry_Deadentry (deadEntry : LedgerKey)
| BucketEntry_Metaentry (metaEntry : XdrBucketMetadata).
Definition BucketEntry_EncodeTo (u : XdrBucketEntry) : option bytes :=
  match u with
  | BucketEntry_Liveentry liveEntry => write! BucketEntryType_EncodeTo 0 in write! LedgerEntry_EncodeTo liveEntry in written
  | BucketEntry_Initentry liveEntry => write! BucketEntryType_EncodeTo 2 in write! LedgerEntry_EncodeTo liveEntry in written
  | BucketEntry_Deadentry deadEntry => write! BucketEntryType_EncodeTo 1 in write! LedgerKey_EncodeTo deadEntry in written
  | BucketEntry_Metaentry metaEntry => write! BucketEntryType_EncodeTo (-1) in write! BucketMetadata_EncodeTo metaEntry in written
  end.
Definition BucketEntry_DecodeFrom (maxDepth : nat) : decode XdrBucketEntry := nested maxDepth (fun maxDepth =>
  read! type_ := BucketEntryType_DecodeFrom maxDepth in
  if type_ =? 0 then tracked "LedgerEntry" (read! liveEntry := LedgerEntry_DecodeFrom maxDepth in ret (BucketEntry_Liveentry liveEntry))
      else
  if type_ =? 2 then tracked "LedgerEntry" (read! liveEntry := LedgerEntry_DecodeFrom maxDepth in ret (BucketEntry_Initentry liveEntry))
      else
  if type_ =? 1 then tracked "LedgerKey" (read! deadEntry := LedgerKey_DecodeFrom maxDepth in ret (BucketEntry_Deadentry deadEntry)) else
  if type_ =? (-1) then tracked "BucketMetadata" (read! metaEntry := BucketMetadata_DecodeFrom maxDepth in ret (BucketEntry_Metaentry
      metaEntry)) else
  invalid).
Definition BucketEntry_valid (u : XdrBucketEntry) : bool :=
  match u with
  | BucketEntry_Liveentry liveEntry => LedgerEntry_valid liveEntry
  | BucketEntry_Initentry liveEntry => LedgerEntry_valid liveEntry
  | BucketEntry_Deadentry deadEntry => LedgerKey_valid deadEntry
  | BucketEntry_Metaentry metaEntry => BucketMetadata_valid metaEntry
  end.

Inductive XdrHotArchiveBucketEntry : Type :=
| HotArchiveBucketEntry_HotArchiveArchived (archivedEntry : XdrLedgerEntry)
| HotArchiveBucketEntry_HotArchiveLive (key_ : LedgerKey)
| HotArchiveBucketEntry_HotArchiveMetaentry (metaEntry : XdrBucketMetadata).
Definition HotArchiveBucketEntry_EncodeTo (u : XdrHotArchiveBucketEntry) : option bytes :=
  match u with
  | HotArchiveBucketEntry_HotArchiveArchived archivedEntry => write! HotArchiveBucketEntryType_EncodeTo 0 in write! LedgerEntry_EncodeTo
      archivedEntry in written
  | HotArchiveBucketEntry_HotArchiveLive key_ => write! HotArchiveBucketEntryType_EncodeTo 1 in write! LedgerKey_EncodeTo key_ in written
  | HotArchiveBucketEntry_HotArchiveMetaentry metaEntry => write! HotArchiveBucketEntryType_EncodeTo (-1) in write! BucketMetadata_EncodeTo
      metaEntry in written
  end.
Definition HotArchiveBucketEntry_DecodeFrom (maxDepth : nat) : decode XdrHotArchiveBucketEntry := nested maxDepth (fun maxDepth =>
  read! type_ := HotArchiveBucketEntryType_DecodeFrom maxDepth in
  if type_ =? 0 then tracked "LedgerEntry" (read! archivedEntry := LedgerEntry_DecodeFrom maxDepth in ret
      (HotArchiveBucketEntry_HotArchiveArchived archivedEntry)) else
  if type_ =? 1 then tracked "LedgerKey" (read! key_ := LedgerKey_DecodeFrom maxDepth in ret (HotArchiveBucketEntry_HotArchiveLive key_))
      else
  if type_ =? (-1) then tracked "BucketMetadata" (read! metaEntry := BucketMetadata_DecodeFrom maxDepth in ret
      (HotArchiveBucketEntry_HotArchiveMetaentry metaEntry)) else
  invalid).
Definition HotArchiveBucketEntry_valid (u : XdrHotArchiveBucketEntry) : bool :=
  match u with
  | HotArchiveBucketEntry_HotArchiveArchived archivedEntry => LedgerEntry_valid archivedEntry
  | HotArchiveBucketEntry_HotArchiveLive key_ => LedgerKey_valid key_
  | HotArchiveBucketEntry_HotArchiveMetaentry metaEntry => BucketMetadata_valid metaEntry
  end.

Definition ledgerHeaderFlagsMap : list Z := [1; 2; 4].
Definition LedgerHeaderFlags_EncodeTo (e : Z) : option bytes := enum_EncodeTo ledgerHeaderFlagsMap e.
Definition LedgerHeaderFlags_DecodeFrom (maxDepth : nat) : decode Z := enum_DecodeFrom ledgerHeaderFlagsMap maxDepth.
Definition LedgerHeaderFlags_valid (e : Z) : bool := valid_enum ledgerHeaderFlagsMap e.

Record XdrConfigUpgradeSet : Type := mkXdrConfigUpgradeSet {
  ConfigUpgradeSet_UpdatedEntry : list XdrConfigSettingEntry
}.
Definition ConfigUpgradeSet_EncodeTo (s : XdrConfigUpgradeSet) : option bytes :=
  let '(mkXdrConfigUpgradeSet updatedEntry) := s in
  write! slice_EncodeTo ConfigSettingEntry_EncodeTo updatedEntry in
  written.
Definition ConfigUpgradeSet_DecodeFrom (maxDepth : nat) : decode XdrConfigUpgradeSet := nested maxDepth (fun maxDepth =>
  read! updatedEntry := slice_DecodeFrom "ConfigSettingEntry" None (ConfigSettingEntry_DecodeFrom maxDepth) in
  ret (mkXdrConfigUpgradeSet updatedEntry)).
Definition ConfigUpgradeSet_valid (s : XdrConfigUpgradeSet) : bool :=
  let '(mkXdrConfigUpgradeSet updatedEntry) := s in
  valid_slice None ConfigSettingEntry_valid updatedEntry.

Record XdrTransactionResultSet : Type := mkXdrTransactionResultSet {
  TransactionResultSet_Results : list XdrTransactionResultPair
}.
Definition TransactionResultSet_EncodeTo (s : XdrTransactionResultSet) : option bytes :=
  let '(mkXdrTransactionResultSet results) := s in
  write! slice_EncodeTo TransactionResultPair_EncodeTo results in
  written.
Definition TransactionResultSet_DecodeFrom (maxDepth : nat) : decode XdrTransactionResultSet := nested maxDepth (fun maxDepth =>
  read! results := slice_DecodeFrom "TransactionResultPair" None (TransactionResultPair_DecodeFrom maxDepth) in
  ret (mkXdrTransactionResultSet results)).
Definition TransactionResultSet_valid (s : XdrTransactionResultSet) : bool :=
  let '(mkXdrTransactionResultSet results) := s in
  valid_slice None TransactionResultPair_valid results.

Inductive XdrTransactionHistoryEntryExt : Type :=
| TransactionHistoryEntryExt_0
| TransactionHistoryEntryExt_1 (generalizedTxSet : XdrGeneralizedTransactionSet).
Definition TransactionHistoryEntryExt_EncodeTo (u : XdrTransactionHistoryEntryExt) : option bytes :=
  match u with
  | TransactionHistoryEntryExt_0 => write! EncodeInt 0 in written
  | TransactionHistoryEntryExt_1 generalizedTxSet => write! EncodeInt 1 in write! GeneralizedTransactionSet_EncodeTo generalizedTxSet in
      written
  end.
Definition TransactionHistoryEntryExt_DecodeFrom (maxDepth : nat) : decode XdrTransactionHistoryEntryExt := nested maxDepth (fun maxDepth =>
  read! v := DecodeInt in
  if v =? 0 then ret TransactionHistoryEntryExt_0 else
  if v =? 1 then tracked "GeneralizedTransactionSet" (read! generalizedTxSet := GeneralizedTransactionSet_DecodeFrom maxDepth in ret
      (TransactionHistoryEntryExt_1 generalizedTxSet)) else
  invalid).
Definition TransactionHistoryEntryExt_valid (u : XdrTransactionHistoryEntryExt) : bool :=
  match u with
  | TransactionHistoryEntryExt_0 => true
  | TransactionHistoryEntryExt_1 generalizedTxSet => GeneralizedTransactionSet_valid generalizedTxSet
  end.

Record XdrTransactionHistoryEntry : Type := mkXdrTransactionHistoryEntry {
  TransactionHistoryEntry_LedgerSeq : Z;
  TransactionHistoryEntry_TxSet : XdrTransactionSet;
  TransactionHistoryEntry_Ext : XdrTransactionHistoryEntryExt
}.
Definition TransactionHistoryEntry_EncodeTo (s : XdrTransactionHistoryEntry) : option bytes :=
  let '(mkXdrTransactionHistoryEntry ledgerSeq txSet ext) := s in
  write! Uint32_EncodeTo ledgerSeq in
  write! TransactionSet_EncodeTo txSet in
  write! TransactionHistoryEntryExt_EncodeTo ext in
  written.
Definition TransactionHistoryEntry_DecodeFrom (maxDepth : nat) : decode XdrTransactionHistoryEntry := nested maxDepth (fun maxDepth =>
  read! ledgerSeq := Uint32_DecodeFrom maxDepth in
  read! txSet := TransactionSet_DecodeFrom maxDepth in
  read! ext := TransactionHistoryEntryExt_DecodeFrom maxDepth in
  ret (mkXdrTransactionHistoryEntry ledgerSeq txSet ext)).
Definition TransactionHistoryEntry_valid (s : XdrTransactionHistoryEntry) : bool :=
  let '(mkXdrTransactionHistoryEntry ledgerSeq txSet ext) := s in
  Uint32_valid ledgerSeq && TransactionSet_valid txSet && TransactionHistoryEntryExt_valid ext.

Definition TransactionHistoryResultEntryExt_EncodeTo (u : unit) : option bytes :=
  match u with
  | tt => write! EncodeInt 0 in written
  end.
Definition TransactionHistoryResultEntryExt_DecodeFrom (maxDepth : nat) : decode unit := nested maxDepth (fun maxDepth =>
  read! v := DecodeInt in
  if v =? 0 then ret tt else
  invalid).
Definition TransactionHistoryResultEntryExt_valid (u : unit) : bool :=
  match u with
  | tt => true
  end.

Record XdrTransactionHistoryResultEntry : Type := mkXdrTransactionHistoryResultEntry {
  TransactionHistoryResultEntry_LedgerSeq : Z;
  TransactionHistoryResultEntry_TxResultSet : XdrTransactionResultSet
}.
Definition TransactionHistoryResultEntry_EncodeTo (s : XdrTransactionHistoryResultEntry) : option bytes :=
  let '(mkXdrTransactionHistoryResultEntry ledgerSeq txResultSet) := s in
  write! Uint32_EncodeTo ledgerSeq in
  write! TransactionResultSet_EncodeTo txResultSet in
  write! TransactionHistoryResultEntryExt_EncodeTo tt in
  written.
Definition TransactionHistoryResultEntry_DecodeFrom (maxDepth : nat) : decode XdrTransactionHistoryResultEntry := nested maxDepth (fun
    maxDepth =>
  read! ledgerSeq := Uint32_DecodeFrom maxDepth in
  read! txResultSet := TransactionResultSet_DecodeFrom maxDepth in
  read! _ := TransactionHistoryResultEntryExt_DecodeFrom maxDepth in
  ret (mkXdrTransactionHistoryResultEntry ledgerSeq txResultSet)).
Definition TransactionHistoryResultEntry_valid (s : XdrTransactionHistoryResultEntry) : bool :=
  let '(mkXdrTransactionHistoryResultEntry ledgerSeq txResultSet) := s in
  Uint32_valid ledgerSeq && TransactionResultSet_valid txResultSet.

Record XdrInvokeHostFunctionSuccessPreImage : Type := mkXdrInvokeHostFunctionSuccessPreImage {
  InvokeHostFunctionSuccessPreImage_ReturnValue : XdrScVal;
  InvokeHostFunctionSuccessPreImage_Events : list XdrContractEvent
}.
Definition InvokeHostFunctionSuccessPreImage_EncodeTo (s : XdrInvokeHostFunctionSuccessPreImage) : option bytes :=
  let '(mkXdrInvokeHostFunctionSuccessPreImage returnValue events) := s in
  write! ScVal_EncodeTo returnValue in
  write! slice_EncodeTo ContractEvent_EncodeTo events in
  written.
Definition InvokeHostFunctionSuccessPreImage_DecodeFrom (maxDepth : nat) : decode XdrInvokeHostFunctionSuccessPreImage := nested maxDepth
    (fun maxDepth =>
  read! returnValue := ScVal_DecodeFrom maxDepth in
  read! events := slice_DecodeFrom "ContractEvent" None (ContractEvent_DecodeFrom maxDepth) in
  ret (mkXdrInvokeHostFunctionSuccessPreImage returnValue events)).
Definition InvokeHostFunctionSuccessPreImage_valid (s : XdrInvokeHostFunctionSuccessPreImage) : bool :=
  let '(mkXdrInvokeHostFunctionSuccessPreImage returnValue events) := s in
  ScVal_valid returnValue && valid_slice None ContractEvent_valid events.

Definition errorCodeMap : list Z := [0; 1; 2; 3; 4].
Definition ErrorCode_EncodeTo (e : Z) : option bytes := enum_EncodeTo errorCodeMap e.
Definition ErrorCode_DecodeFrom (maxDepth : nat) : decode Z := enum_DecodeFrom errorCodeMap maxDepth.
Definition ErrorCode_valid (e : Z) : bool := valid_enum errorCodeMap e.

Record XdrError : Type := mkXdrError {
  Error_Code : Z;
  Error_Msg : bytes
}.
Definition Error_EncodeTo (s : XdrError) : option bytes :=
  let '(mkXdrError code msg) := s in
  write! ErrorCode_EncodeTo code in
  write! EncodeString msg in
  written.
Definition Error_DecodeFrom (maxDepth : nat) : decode XdrError := nested maxDepth (fun maxDepth =>
  read! code := ErrorCode_DecodeFrom maxDepth in
  read! msg := DecodeString 100 in
  ret (mkXdrError code msg)).
Definition Error_valid (s : XdrError) : bool :=
  let '(mkXdrError code msg) := s in
  ErrorCode_valid code && valid_size (size_limit 100) msg.

Record XdrSendMore : Type := mkXdrSendMore {
  SendMore_NumMessages : Z
}.
Definition SendMore_EncodeTo (s : XdrSendMore) : option bytes :=
  let '(mkXdrSendMore numMessages) := s in
  write! Uint32_EncodeTo numMessages in
  written.
Definition SendMore_DecodeFrom (maxDepth : nat) : decode XdrSendMore := nested maxDepth (fun maxDepth =>
  read! numMessages := Uint32_DecodeFrom maxDepth in
  ret (mkXdrSendMore numMessages)).
Definition SendMore_valid (s : XdrSendMore) : bool :=
  let '(mkXdrSendMore numMessages) := s in
  Uint32_valid numMessages.

Record XdrSendMoreExtended : Type := mkXdrSendMoreExtended {
  SendMoreExtended_NumMessages : Z;
  SendMoreExtended_NumBytes : Z
}.
Definition SendMoreExtended_EncodeTo (s : XdrSendMoreExtended) : option bytes :=
  let '(mkXdrSendMoreExtended numMessages numBytes) := s in
  write! Uint32_EncodeTo numMessages in
  write! Uint32_EncodeTo numBytes in
  written.
Definition SendMoreExtended_DecodeFrom (maxDepth : nat) : decode XdrSendMoreExtended := nested maxDepth (fun maxDepth =>
  read! numMessages := Uint32_DecodeFrom maxDepth in
  read! numBytes := Uint32_DecodeFrom maxDepth in
  ret (mkXdrSendMoreExtended numMessages numBytes)).
Definition SendMoreExtended_valid (s : XdrSendMoreExtended) : bool :=
  let '(mkXdrSendMoreExtended numMessages numBytes) := s in
  Uint32_valid numMessages && Uint32_valid numBytes.

Record XdrCurve25519Public : Type := mkXdrCurve25519Public {
  Curve25519Public_Key : vec byte 32
}.
Definition Curve25519Public_EncodeTo (s : XdrCurve25519Public) : option bytes :=
  let '(mkXdrCurve25519Public key_) := s in
  write! EncodeFixedOpaque (vec_to_list key_) in
  written.
Definition Curve25519Public_DecodeFrom (maxDepth : nat) : decode XdrCurve25519Public := nested maxDepth (fun maxDepth =>
  read! key_ := DecodeFixedOpaqueInplace 32 in
  ret (mkXdrCurve25519Public key_)).
Definition Curve25519Public_valid (s : XdrCurve25519Public) : bool :=
  let '(mkXdrCurve25519Public key_) := s in
  true.

Record XdrAuthCert : Type := mkXdrAuthCert {
  AuthCert_Pubkey : XdrCurve25519Public;
  AuthCert_Expiration : Z;
  AuthCert_Sig : bytes
}.
Definition AuthCert_EncodeTo (s : XdrAuthCert) : option bytes :=
  let '(mkXdrAuthCert pubkey expiration sig) := s in
  write! Curve25519Public_EncodeTo pubkey in
  write! Uint64_EncodeTo expiration in
  write! Signature_EncodeTo sig in
  written.
Definition AuthCert_DecodeFrom (maxDepth : nat) : decode XdrAuthCert := nested maxDepth (fun maxDepth =>
  read! pubkey := Curve25519Public_DecodeFrom maxDepth in
  read! expiration := Uint64_DecodeFrom maxDepth in
  read! sig := Signature_DecodeFrom maxDepth in
  ret (mkXdrAuthCert pubkey expiration sig)).
Definition AuthCert_valid (s : XdrAuthCert) : bool :=
  let '(mkXdrAuthCert pubkey expiration sig) := s in
  Curve25519Public_valid pubkey && Uint64_valid expiration && Signature_valid sig.

Record XdrHello : Type := mkXdrHello {
  Hello_LedgerVersion : Z;
  Hello_OverlayVersion : Z;
  Hello_OverlayMinVersion : Z;
  Hello_NetworkId : vec byte 32;
  Hello_VersionStr : bytes;
  Hello_ListeningPort : Z;
  Hello_PeerId : AccountId;
  Hello_Cert : XdrAuthCert;
  Hello_Nonce : vec byte 32
}.
Definition Hello_EncodeTo (s : XdrHello) : option bytes :=
  let '(mkXdrHello ledgerVersion overlayVersion overlayMinVersion networkId versionStr listeningPort peerId cert nonce) := s in
  write! Uint32_EncodeTo ledgerVersion in
  write! Uint32_EncodeTo overlayVersion in
  write! Uint32_EncodeTo overlayMinVersion in
  write! Hash_EncodeTo networkId in
  write! EncodeString versionStr in
  write! EncodeInt listeningPort in
  write! NodeId_EncodeTo peerId in
  write! AuthCert_EncodeTo cert in
  write! Uint256_EncodeTo nonce in
  written.
Definition Hello_DecodeFrom (maxDepth : nat) : decode XdrHello := nested maxDepth (fun maxDepth =>
  read! ledgerVersion := Uint32_DecodeFrom maxDepth in
  read! overlayVersion := Uint32_DecodeFrom maxDepth in
  read! overlayMinVersion := Uint32_DecodeFrom maxDepth in
  read! networkId := Hash_DecodeFrom maxDepth in
  read! versionStr := DecodeString 100 in
  read! listeningPort := DecodeInt in
  read! peerId := NodeId_DecodeFrom maxDepth in
  read! cert := AuthCert_DecodeFrom maxDepth in
  read! nonce := Uint256_DecodeFrom maxDepth in
  ret (mkXdrHello ledgerVersion overlayVersion overlayMinVersion networkId versionStr listeningPort peerId cert nonce)).
Definition Hello_valid (s : XdrHello) : bool :=
  let '(mkXdrHello ledgerVersion overlayVersion overlayMinVersion networkId versionStr listeningPort peerId cert nonce) := s in
  Uint32_valid ledgerVersion && Uint32_valid overlayVersion && Uint32_valid overlayMinVersion && Hash_valid networkId && valid_size
      (size_limit 100) versionStr && valid_i32 listeningPort && NodeId_valid peerId && AuthCert_valid cert && Uint256_valid nonce.

Record XdrAuth : Type := mkXdrAuth {
  Auth_Flags : Z
}.
Definition Auth_EncodeTo (s : XdrAuth) : option bytes :=
  let '(mkXdrAuth flags) := s in
  write! EncodeInt flags in
  written.
Definition Auth_DecodeFrom (maxDepth : nat) : decode XdrAuth := nested maxDepth (fun maxDepth =>
  read! flags := DecodeInt in
  ret (mkXdrAuth flags)).
Definition Auth_valid (s : XdrAuth) : bool :=
  let '(mkXdrAuth flags) := s in
  valid_i32 flags.

Definition ipAddrTypeMap : list Z := [0; 1].
Definition IpAddrType_EncodeTo (e : Z) : option bytes := enum_EncodeTo ipAddrTypeMap e.
Definition IpAddrType_DecodeFrom (maxDepth : nat) : decode Z := enum_DecodeFrom ipAddrTypeMap maxDepth.
Definition IpAddrType_valid (e : Z) : bool := valid_enum ipAddrTypeMap e.

Inductive XdrPeerAddressIp : Type :=
| PeerAddressIp_IPv4 (ipv4 : vec byte 4)
| PeerAddressIp_IPv6 (ipv6 : vec byte 16).
Definition PeerAddressIp_EncodeTo (u : XdrPeerAddressIp) : option bytes :=
  match u with
  | PeerAddressIp_IPv4 ipv4 => write! IpAddrType_EncodeTo 0 in write! EncodeFixedOpaque (vec_to_list ipv4) in written
  | PeerAddressIp_IPv6 ipv6 => write! IpAddrType_EncodeTo 1 in write! EncodeFixedOpaque (vec_to_list ipv6) in written
  end.
Definition PeerAddressIp_DecodeFrom (maxDepth : nat) : decode XdrPeerAddressIp := nested maxDepth (fun maxDepth =>
  read! type_ := IpAddrType_DecodeFrom maxDepth in
  if type_ =? 0 then tracked "[4]byte" (read! ipv4 := DecodeFixedOpaqueInplace 4 in ret (PeerAddressIp_IPv4 ipv4)) else
  if type_ =? 1 then tracked "[16]byte" (read! ipv6 := DecodeFixedOpaqueInplace 16 in ret (PeerAddressIp_IPv6 ipv6)) else
  invalid).
Definition PeerAddressIp_valid (u : XdrPeerAddressIp) : bool :=
  match u with
  | PeerAddressIp_IPv4 ipv4 => true
  | PeerAddressIp_IPv6 ipv6 => true
  end.

Record XdrPeerAddress : Type := mkXdrPeerAddress {
  PeerAddress_Ip : XdrPeerAddressIp;
  PeerAddress_Port : Z;
  PeerAddress_NumFailures : Z
}.
Definition PeerAddress_EncodeTo (s : XdrPeerAddress) : option bytes :=
  let '(mkXdrPeerAddress ip port numFailures) := s in
  write! PeerAddressIp_EncodeTo ip in
  write! Uint32_EncodeTo port in
  write! Uint32_EncodeTo numFailures in
  written.
Definition PeerAddress_DecodeFrom (maxDepth : nat) : decode XdrPeerAddress := nested maxDepth (fun maxDepth =>
  read! ip := PeerAddressIp_DecodeFrom maxDepth in
  read! port := Uint32_DecodeFrom maxDepth in
  read! numFailures := Uint32_DecodeFrom maxDepth in
  ret (mkXdrPeerAddress ip port numFailures)).
Definition PeerAddress_valid (s : XdrPeerAddress) : bool :=
  let '(mkXdrPeerAddress ip port numFailures) := s in
  PeerAddressIp_valid ip && Uint32_valid port && Uint32_valid numFailures.

Definition messageTypeMap : list Z := [0; 2; 3; 5; 6; 7; 17; 8; 9; 10; 11; 12; 13; 16; 20; 18; 19; 21; 22; 23; 24].
Definition MessageType_EncodeTo (e : Z) : option bytes := enum_EncodeTo messageTypeMap e.
Definition MessageType_DecodeFrom (maxDepth : nat) : decode Z := enum_DecodeFrom messageTypeMap maxDepth.
Definition MessageType_valid (e : Z) : bool := valid_enum messageTypeMap e.

Record XdrDontHave : Type := mkXdrDontHave {
  DontHave_Type : Z;
  DontHave_ReqHash : vec byte 32
}.
Definition DontHave_EncodeTo (s : XdrDontHave) : option bytes :=
  let '(mkXdrDontHave type_ reqHash) := s in
  write! MessageType_EncodeTo type_ in
  write! Uint256_EncodeTo reqHash in
  written.
Definition DontHave_DecodeFrom (maxDepth : nat) : decode XdrDontHave := nested maxDepth (fun maxDepth =>
  read! type_ := MessageType_DecodeFrom maxDepth in
  read! reqHash := Uint256_DecodeFrom maxDepth in
  ret (mkXdrDontHave type_ reqHash)).
Definition DontHave_valid (s : XdrDontHave) : bool :=
  let '(mkXdrDontHave type_ reqHash) := s in
  MessageType_valid type_ && Uint256_valid reqHash.

Definition surveyMessageCommandTypeMap : list Z := [1].
Definition SurveyMessageCommandType_EncodeTo (e : Z) : option bytes := enum_EncodeTo surveyMessageCommandTypeMap e.
Definition SurveyMessageCommandType_DecodeFrom (maxDepth : nat) : decode Z := enum_DecodeFrom surveyMessageCommandTypeMap maxDepth.
Definition SurveyMessageCommandType_valid (e : Z) : bool := valid_enum surveyMessageCommandTypeMap e.

Definition surveyMessageResponseTypeMap : list Z := [2].
Definition SurveyMessageResponseType_EncodeTo (e : Z) : option bytes := enum_EncodeTo surveyMessageResponseTypeMap e.
Definition SurveyMessageResponseType_DecodeFrom (maxDepth : nat) : decode Z := enum_DecodeFrom surveyMessageResponseTypeMap maxDepth.
Definition SurveyMessageResponseType_valid (e : Z) : bool := valid_enum surveyMessageResponseTypeMap e.

Record XdrTimeSlicedSurveyStartCollectingMessage : Type := mkXdrTimeSlicedSurveyStartCollectingMessage {
  TimeSlicedSurveyStartCollectingMessage_SurveyorId : AccountId;
  TimeSlicedSurveyStartCollectingMessage_Nonce : Z;
  TimeSlicedSurveyStartCollectingMessage_LedgerNum : Z
}.
Definition TimeSlicedSurveyStartCollectingMessage_EncodeTo (s : XdrTimeSlicedSurveyStartCollectingMessage) : option bytes :=
  let '(mkXdrTimeSlicedSurveyStartCollectingMessage surveyorId nonce ledgerNum) := s in
  write! NodeId_EncodeTo surveyorId in
  write! Uint32_EncodeTo nonce in
  write! Uint32_EncodeTo ledgerNum in
  written.
Definition TimeSlicedSurveyStartCollectingMessage_DecodeFrom (maxDepth : nat) : decode XdrTimeSlicedSurveyStartCollectingMessage := nested
    maxDepth (fun maxDepth =>
  read! surveyorId := NodeId_DecodeFrom maxDepth in
  read! nonce := Uint32_DecodeFrom maxDepth in
  read! ledgerNum := Uint32_DecodeFrom maxDepth in
  ret (mkXdrTimeSlicedSurveyStartCollectingMessage surveyorId nonce ledgerNum)).
Definition TimeSlicedSurveyStartCollectingMessage_valid (s : XdrTimeSlicedSurveyStartCollectingMessage) : bool :=
  let '(mkXdrTimeSlicedSurveyStartCollectingMessage surveyorId nonce ledgerNum) := s in
  NodeId_valid surveyorId && Uint32_valid nonce && Uint32_valid ledgerNum.

Record XdrSignedTimeSlicedSurveyStartCollectingMessage : Type := mkXdrSignedTimeSlicedSurveyStartCollectingMessage {
  SignedTimeSlicedSurveyStartCollectingMessage_Signature : bytes;
  SignedTimeSlicedSurveyStartCollectingMessage_StartCollecting : XdrTimeSlicedSurveyStartCollectingMessage
}.
Definition SignedTimeSlicedSurveyStartCollectingMessage_EncodeTo (s : XdrSignedTimeSlicedSurveyStartCollectingMessage) : option bytes :=
  let '(mkXdrSignedTimeSlicedSurveyStartCollectingMessage signature startCollecting) := s in
  write! Signature_EncodeTo signature in
  write! TimeSlicedSurveyStartCollectingMessage_EncodeTo startCollecting in
  written.
Definition SignedTimeSlicedSurveyStartCollectingMessage_DecodeFrom (maxDepth : nat) : decode
    XdrSignedTimeSlicedSurveyStartCollectingMessage := nested maxDepth (fun maxDepth =>
  read! signature := Signature_DecodeFrom maxDepth in
  read! startCollecting := TimeSlicedSurveyStartCollectingMessage_DecodeFrom maxDepth in
  ret (mkXdrSignedTimeSlicedSurveyStartCollectingMessage signature startCollecting)).
Definition SignedTimeSlicedSurveyStartCollectingMessage_valid (s : XdrSignedTimeSlicedSurveyStartCollectingMessage) : bool :=
  let '(mkXdrSignedTimeSlicedSurveyStartCollectingMessage signature startCollecting) := s in
  Signature_valid signature && TimeSlicedSurveyStartCollectingMessage_valid startCollecting.

Record XdrTimeSlicedSurveyStopCollectingMessage : Type := mkXdrTimeSlicedSurveyStopCollectingMessage {
  TimeSlicedSurveyStopCollectingMessage_SurveyorId : AccountId;
  TimeSlicedSurveyStopCollectingMessage_Nonce : Z;
  TimeSlicedSurveyStopCollectingMessage_LedgerNum : Z
}.
Definition TimeSlicedSurveyStopCollectingMessage_EncodeTo (s : XdrTimeSlicedSurveyStopCollectingMessage) : option bytes :=
  let '(mkXdrTimeSlicedSurveyStopCollectingMessage surveyorId nonce ledgerNum) := s in
  write! NodeId_EncodeTo surveyorId in
  write! Uint32_EncodeTo nonce in
  write! Uint32_EncodeTo ledgerNum in
  written.
Definition TimeSlicedSurveyStopCollectingMessage_DecodeFrom (maxDepth : nat) : decode XdrTimeSlicedSurveyStopCollectingMessage := nested
    maxDepth (fun maxDepth =>
  read! surveyorId := NodeId_DecodeFrom maxDepth in
  read! nonce := Uint32_DecodeFrom maxDepth in
  read! ledgerNum := Uint32_DecodeFrom maxDepth in
  ret (mkXdrTimeSlicedSurveyStopCollectingMessage surveyorId nonce ledgerNum)).
Definition TimeSlicedSurveyStopCollectingMessage_valid (s : XdrTimeSlicedSurveyStopCollectingMessage) : bool :=
  let '(mkXdrTimeSlicedSurveyStopCollectingMessage surveyorId nonce ledgerNum) := s in
  NodeId_valid surveyorId && Uint32_valid nonce && Uint32_valid ledgerNum.

Record XdrSignedTimeSlicedSurveyStopCollectingMessage : Type := mkXdrSignedTimeSlicedSurveyStopCollectingMessage {
  SignedTimeSlicedSurveyStopCollectingMessage_Signature : bytes;
  SignedTimeSlicedSurveyStopCollectingMessage_StopCollecting : XdrTimeSlicedSurveyStopCollectingMessage
}.
Definition SignedTimeSlicedSurveyStopCollectingMessage_EncodeTo (s : XdrSignedTimeSlicedSurveyStopCollectingMessage) : option bytes :=
  let '(mkXdrSignedTimeSlicedSurveyStopCollectingMessage signature stopCollecting) := s in
  write! Signature_EncodeTo signature in
  write! TimeSlicedSurveyStopCollectingMessage_EncodeTo stopCollecting in
  written.
Definition SignedTimeSlicedSurveyStopCollectingMessage_DecodeFrom (maxDepth : nat) : decode XdrSignedTimeSlicedSurveyStopCollectingMessage
    := nested maxDepth (fun maxDepth =>
  read! signature := Signature_DecodeFrom maxDepth in
  read! stopCollecting := TimeSlicedSurveyStopCollectingMessage_DecodeFrom maxDepth in
  ret (mkXdrSignedTimeSlicedSurveyStopCollectingMessage signature stopCollecting)).
Definition SignedTimeSlicedSurveyStopCollectingMessage_valid (s : XdrSignedTimeSlicedSurveyStopCollectingMessage) : bool :=
  let '(mkXdrSignedTimeSlicedSurveyStopCollectingMessage signature stopCollecting) := s in
  Signature_valid signature && TimeSlicedSurveyStopCollectingMessage_valid stopCollecting.

Record XdrSurveyRequestMessage : Type := mkXdrSurveyRequestMessage {
  SurveyRequestMessage_SurveyorPeerId : AccountId;
  SurveyRequestMessage_SurveyedPeerId : AccountId;
  SurveyRequestMessage_LedgerNum : Z;
  SurveyRequestMessage_EncryptionKey : XdrCurve25519Public;
  SurveyRequestMessage_CommandType : Z
}.
Definition SurveyRequestMessage_EncodeTo (s : XdrSurveyRequestMessage) : option bytes :=
  let '(mkXdrSurveyRequestMessage surveyorPeerId surveyedPeerId ledgerNum encryptionKey commandType) := s in
  write! NodeId_EncodeTo surveyorPeerId in
  write! NodeId_EncodeTo surveyedPeerId in
  write! Uint32_EncodeTo ledgerNum in
  write! Curve25519Public_EncodeTo encryptionKey in
  write! SurveyMessageCommandType_EncodeTo commandType in
  written.
Definition SurveyRequestMessage_DecodeFrom (maxDepth : nat) : decode XdrSurveyRequestMessage := nested maxDepth (fun maxDepth =>
  read! surveyorPeerId := NodeId_DecodeFrom maxDepth in
  read! surveyedPeerId := NodeId_DecodeFrom maxDepth in
  read! ledgerNum := Uint32_DecodeFrom maxDepth in
  read! encryptionKey := Curve25519Public_DecodeFrom maxDepth in
  read! commandType := SurveyMessageCommandType_DecodeFrom maxDepth in
  ret (mkXdrSurveyRequestMessage surveyorPeerId surveyedPeerId ledgerNum encryptionKey commandType)).
Definition SurveyRequestMessage_valid (s : XdrSurveyRequestMessage) : bool :=
  let '(mkXdrSurveyRequestMessage surveyorPeerId surveyedPeerId ledgerNum encryptionKey commandType) := s in
  NodeId_valid surveyorPeerId && NodeId_valid surveyedPeerId && Uint32_valid ledgerNum && Curve25519Public_valid encryptionKey &&
      SurveyMessageCommandType_valid commandType.

Record XdrTimeSlicedSurveyRequestMessage : Type := mkXdrTimeSlicedSurveyRequestMessage {
  TimeSlicedSurveyRequestMessage_Request : XdrSurveyRequestMessage;
  TimeSlicedSurveyRequestMessage_Nonce : Z;
  TimeSlicedSurveyRequestMessage_InboundPeersIndex : Z;
  TimeSlicedSurveyRequestMessage_OutboundPeersIndex : Z
}.
Definition TimeSlicedSurveyRequestMessage_EncodeTo (s : XdrTimeSlicedSurveyRequestMessage) : option bytes :=
  let '(mkXdrTimeSlicedSurveyRequestMessage request nonce inboundPeersIndex outboundPeersIndex) := s in
  write! SurveyRequestMessage_EncodeTo request in
  write! Uint32_EncodeTo nonce in
  write! Uint32_EncodeTo inboundPeersIndex in
  write! Uint32_EncodeTo outboundPeersIndex in
  written.
Definition TimeSlicedSurveyRequestMessage_DecodeFrom (maxDepth : nat) : decode XdrTimeSlicedSurveyRequestMessage := nested maxDepth (fun
    maxDepth =>
  read! request := SurveyRequestMessage_DecodeFrom maxDepth in
  read! nonce := Uint32_DecodeFrom maxDepth in
  read! inboundPeersIndex := Uint32_DecodeFrom maxDepth in
  read! outboundPeersIndex := Uint32_DecodeFrom maxDepth in
  ret (mkXdrTimeSlicedSurveyRequestMessage request nonce inboundPeersIndex outboundPeersIndex)).
Definition TimeSlicedSurveyRequestMessage_valid (s : XdrTimeSlicedSurveyRequestMessage) : bool :=
  let '(mkXdrTimeSlicedSurveyRequestMessage request nonce inboundPeersIndex outboundPeersIndex) := s in
  SurveyRequestMessage_valid request && Uint32_valid nonce && Uint32_valid inboundPeersIndex && Uint32_valid outboundPeersIndex.

Record XdrSignedTimeSlicedSurveyRequestMessage : Type := mkXdrSignedTimeSlicedSurveyRequestMessage {
  SignedTimeSlicedSurveyRequestMessage_RequestSignature : bytes;
  SignedTimeSlicedSurveyRequestMessage_Request : XdrTimeSlicedSurveyRequestMessage
}.
Definition SignedTimeSlicedSurveyRequestMessage_EncodeTo (s : XdrSignedTimeSlicedSurveyRequestMessage) : option bytes :=
  let '(mkXdrSignedTimeSlicedSurveyRequestMessage requestSignature request) := s in
  write! Signature_EncodeTo requestSignature in
  write! TimeSlicedSurveyRequestMessage_EncodeTo request in
  written.
Definition SignedTimeSlicedSurveyRequestMessage_DecodeFrom (maxDepth : nat) : decode XdrSignedTimeSlicedSurveyRequestMessage := nested
    maxDepth (fun maxDepth =>
  read! requestSignature := Signature_DecodeFrom maxDepth in
  read! request := TimeSlicedSurveyRequestMessage_DecodeFrom maxDepth in
  ret (mkXdrSignedTimeSlicedSurveyRequestMessage requestSignature request)).
Definition SignedTimeSlicedSurveyRequestMessage_valid (s : XdrSignedTimeSlicedSurveyRequestMessage) : bool :=
  let '(mkXdrSignedTimeSlicedSurveyRequestMessage requestSignature request) := s in
  Signature_valid requestSignature && TimeSlicedSurveyRequestMessage_valid request.

Definition EncryptedBody_EncodeTo (s : bytes) : option bytes := write! EncodeOpaque s in written.
Definition EncryptedBody_DecodeFrom (maxDepth : nat) : decode bytes := nested maxDepth (fun maxDepth =>
  read! s := DecodeOpaque 64000 in ret s).
Definition EncryptedBody_valid (s : bytes) : bool := valid_size (size_limit 64000) s.

Record XdrSurveyResponseMessage : Type := mkXdrSurveyResponseMessage {
  SurveyResponseMessage_SurveyorPeerId : AccountId;
  SurveyResponseMessage_SurveyedPeerId : AccountId;
  SurveyResponseMessage_LedgerNum : Z;
  SurveyResponseMessage_CommandType : Z;
  SurveyResponseMessage_EncryptedBody : bytes
}.
Definition SurveyResponseMessage_EncodeTo (s : XdrSurveyResponseMessage) : option bytes :=
  let '(mkXdrSurveyResponseMessage surveyorPeerId surveyedPeerId ledgerNum commandType encryptedBody) := s in
  write! NodeId_EncodeTo surveyorPeerId in
  write! NodeId_EncodeTo surveyedPeerId in
  write! Uint32_EncodeTo ledgerNum in
  write! SurveyMessageCommandType_EncodeTo commandType in
  write! EncryptedBody_EncodeTo encryptedBody in
  written.
Definition SurveyResponseMessage_DecodeFrom (maxDepth : nat) : decode XdrSurveyResponseMessage := nested maxDepth (fun maxDepth =>
  read! surveyorPeerId := NodeId_DecodeFrom maxDepth in
  read! surveyedPeerId := NodeId_DecodeFrom maxDepth in
  read! ledgerNum := Uint32_DecodeFrom maxDepth in
  read! commandType := SurveyMessageCommandType_DecodeFrom maxDepth in
  read! encryptedBody := EncryptedBody_DecodeFrom maxDepth in
  ret (mkXdrSurveyResponseMessage surveyorPeerId surveyedPeerId ledgerNum commandType encryptedBody)).
Definition SurveyResponseMessage_valid (s : XdrSurveyResponseMessage) : bool :=
  let '(mkXdrSurveyResponseMessage surveyorPeerId surveyedPeerId ledgerNum commandType encryptedBody) := s in
  NodeId_valid surveyorPeerId && NodeId_valid surveyedPeerId && Uint32_valid ledgerNum && SurveyMessageCommandType_valid commandType &&
      EncryptedBody_valid encryptedBody.

Record XdrTimeSlicedSurveyResponseMessage : Type := mkXdrTimeSlicedSurveyResponseMessage {
  TimeSlicedSurveyResponseMessage_Response : XdrSurveyResponseMessage;
  TimeSlicedSurveyResponseMessage_Nonce : Z
}.
Definition TimeSlicedSurveyResponseMessage_EncodeTo (s : XdrTimeSlicedSurveyResponseMessage) : option bytes :=
  let '(mkXdrTimeSlicedSurveyResponseMessage response nonce) := s in
  write! SurveyResponseMessage_EncodeTo response in
  write! Uint32_EncodeTo nonce in
  written.
Definition TimeSlicedSurveyResponseMessage_DecodeFrom (maxDepth : nat) : decode XdrTimeSlicedSurveyResponseMessage := nested maxDepth (fun
    maxDepth =>
  read! response := SurveyResponseMessage_DecodeFrom maxDepth in
  read! nonce := Uint32_DecodeFrom maxDepth in
  ret (mkXdrTimeSlicedSurveyResponseMessage response nonce)).
Definition TimeSlicedSurveyResponseMessage_valid (s : XdrTimeSlicedSurveyResponseMessage) : bool :=
  let '(mkXdrTimeSlicedSurveyResponseMessage response nonce) := s in
  SurveyResponseMessage_valid response && Uint32_valid nonce.

Record XdrSignedTimeSlicedSurveyResponseMessage : Type := mkXdrSignedTimeSlicedSurveyResponseMessage {
  SignedTimeSlicedSurveyResponseMessage_ResponseSignature : bytes;
  SignedTimeSlicedSurveyResponseMessage_Response : XdrTimeSlicedSurveyResponseMessage
}.
Definition SignedTimeSlicedSurveyResponseMessage_EncodeTo (s : XdrSignedTimeSlicedSurveyResponseMessage) : option bytes :=
  let '(mkXdrSignedTimeSlicedSurveyResponseMessage responseSignature response) := s in
  write! Signature_EncodeTo responseSignature in
  write! TimeSlicedSurveyResponseMessage_EncodeTo response in
  written.
Definition SignedTimeSlicedSurveyResponseMessage_DecodeFrom (maxDepth : nat) : decode XdrSignedTimeSlicedSurveyResponseMessage := nested
    maxDepth (fun maxDepth =>
  read! responseSignature := Signature_DecodeFrom maxDepth in
  read! response := TimeSlicedSurveyResponseMessage_DecodeFrom maxDepth in
  ret (mkXdrSignedTimeSlicedSurveyResponseMessage responseSignature response)).
Definition SignedTimeSlicedSurveyResponseMessage_valid (s : XdrSignedTimeSlicedSurveyResponseMessage) : bool :=
  let '(mkXdrSignedTimeSlicedSurveyResponseMessage responseSignature response) := s in
  Signature_valid responseSignature && TimeSlicedSurveyResponseMessage_valid response.

Record XdrPeerStats : Type := mkXdrPeerStats {
  PeerStats_Id : AccountId;
  PeerStats_VersionStr : bytes;
  PeerStats_MessagesRead : Z;
  PeerStats_MessagesWritten : Z;
  PeerStats_BytesRead : Z;
  PeerStats_BytesWritten : Z;
  PeerStats_SecondsConnected : Z;
  PeerStats_UniqueFloodBytesRecv : Z;
  PeerStats_DuplicateFloodBytesRecv : Z;
  PeerStats_UniqueFetchBytesRecv : Z;
  PeerStats_DuplicateFetchBytesRecv : Z;
  PeerStats_UniqueFloodMessageRecv : Z;
  PeerStats_DuplicateFloodMessageRecv : Z;
  PeerStats_UniqueFetchMessageRecv : Z;
  PeerStats_DuplicateFetchMessageRecv : Z
}.
Definition PeerStats_EncodeTo (s : XdrPeerStats) : option bytes :=
  let '(mkXdrPeerStats id_ versionStr messagesRead messagesWritten bytesRead bytesWritten secondsConnected uniqueFloodBytesRecv
      duplicateFloodBytesRecv uniqueFetchBytesRecv duplicateFetchBytesRecv uniqueFloodMessageRecv duplicateFloodMessageRecv
      uniqueFetchMessageRecv duplicateFetchMessageRecv) := s in
  write! NodeId_EncodeTo id_ in
  write! EncodeString versionStr in
  write! Uint64_EncodeTo messagesRead in
  write! Uint64_EncodeTo messagesWritten in
  write! Uint64_EncodeTo bytesRead in
  write! Uint64_EncodeTo bytesWritten in
  write! Uint64_EncodeTo secondsConnected in
  write! Uint64_EncodeTo uniqueFloodBytesRecv in
  write! Uint64_EncodeTo duplicateFloodBytesRecv in
  write! Uint64_EncodeTo uniqueFetchBytesRecv in
  write! Uint64_EncodeTo duplicateFetchBytesRecv in
  write! Uint64_EncodeTo uniqueFloodMessageRecv in
  write! Uint64_EncodeTo duplicateFloodMessageRecv in
  write! Uint64_EncodeTo uniqueFetchMessageRecv in
  write! Uint64_EncodeTo duplicateFetchMessageRecv in
  written.
Definition PeerStats_DecodeFrom (maxDepth : nat) : decode XdrPeerStats := nested maxDepth (fun maxDepth =>
  read! id_ := NodeId_DecodeFrom maxDepth in
  read! versionStr := DecodeString 100 in
  read! messagesRead := Uint64_DecodeFrom maxDepth in
  read! messagesWritten := Uint64_DecodeFrom maxDepth in
  read! bytesRead := Uint64_DecodeFrom maxDepth in
  read! bytesWritten := Uint64_DecodeFrom maxDepth in
  read! secondsConnected := Uint64_DecodeFrom maxDepth in
  read! uniqueFloodBytesRecv := Uint64_DecodeFrom maxDepth in
  read! duplicateFloodBytesRecv := Uint64_DecodeFrom maxDepth in
  read! uniqueFetchBytesRecv := Uint64_DecodeFrom maxDepth in
  read! duplicateFetchBytesRecv := Uint64_DecodeFrom maxDepth in
  read! uniqueFloodMessageRecv := Uint64_DecodeFrom maxDepth in
  read! duplicateFloodMessageRecv := Uint64_DecodeFrom maxDepth in
  read! uniqueFetchMessageRecv := Uint64_DecodeFrom maxDepth in
  read! duplicateFetchMessageRecv := Uint64_DecodeFrom maxDepth in
  ret (mkXdrPeerStats id_ versionStr messagesRead messagesWritten bytesRead bytesWritten secondsConnected uniqueFloodBytesRecv
      duplicateFloodBytesRecv uniqueFetchBytesRecv duplicateFetchBytesRecv uniqueFloodMessageRecv duplicateFloodMessageRecv
      uniqueFetchMessageRecv duplicateFetchMessageRecv)).
Definition PeerStats_valid (s : XdrPeerStats) : bool :=
  let '(mkXdrPeerStats id_ versionStr messagesRead messagesWritten bytesRead bytesWritten secondsConnected uniqueFloodBytesRecv
      duplicateFloodBytesRecv uniqueFetchBytesRecv duplicateFetchBytesRecv uniqueFloodMessageRecv duplicateFloodMessageRecv
      uniqueFetchMessageRecv duplicateFetchMessageRecv) := s in
  NodeId_valid id_ && valid_size (size_limit 100) versionStr && Uint64_valid messagesRead && Uint64_valid messagesWritten && Uint64_valid
      bytesRead && Uint64_valid bytesWritten && Uint64_valid secondsConnected && Uint64_valid uniqueFloodBytesRecv && Uint64_valid
      duplicateFloodBytesRecv && Uint64_valid uniqueFetchBytesRecv && Uint64_valid duplicateFetchBytesRecv && Uint64_valid
      uniqueFloodMessageRecv && Uint64_valid duplicateFloodMessageRecv && Uint64_valid uniqueFetchMessageRecv && Uint64_valid
      duplicateFetchMessageRecv.

Record XdrTimeSlicedNodeData : Type := mkXdrTimeSlicedNodeData {
  TimeSlicedNodeData_AddedAuthenticatedPeers : Z;
  TimeSlicedNodeData_DroppedAuthenticatedPeers : Z;
  TimeSlicedNodeData_TotalInboundPeerCount : Z;
  TimeSlicedNodeData_TotalOutboundPeerCount : Z;
  TimeSlicedNodeData_P75ScpFirstToSelfLatencyMs : Z;
  TimeSlicedNodeData_P75ScpSelfToOtherLatencyMs : Z;
  TimeSlicedNodeData_LostSyncCount : Z;
  TimeSlicedNodeData_IsValidator : bool;
  TimeSlicedNodeData_MaxInboundPeerCount : Z;
  TimeSlicedNodeData_MaxOutboundPeerCount : Z
}.
Definition TimeSlicedNodeData_EncodeTo (s : XdrTimeSlicedNodeData) : option bytes :=
  let '(mkXdrTimeSlicedNodeData addedAuthenticatedPeers droppedAuthenticatedPeers totalInboundPeerCount totalOutboundPeerCount
      p75ScpFirstToSelfLatencyMs p75ScpSelfToOtherLatencyMs lostSyncCount isValidator maxInboundPeerCount maxOutboundPeerCount) := s in
  write! Uint32_EncodeTo addedAuthenticatedPeers in
  write! Uint32_EncodeTo droppedAuthenticatedPeers in
  write! Uint32_EncodeTo totalInboundPeerCount in
  write! Uint32_EncodeTo totalOutboundPeerCount in
  write! Uint32_EncodeTo p75ScpFirstToSelfLatencyMs in
  write! Uint32_EncodeTo p75ScpSelfToOtherLatencyMs in
  write! Uint32_EncodeTo lostSyncCount in
  write! EncodeBool isValidator in
  write! Uint32_EncodeTo maxInboundPeerCount in
  write! Uint32_EncodeTo maxOutboundPeerCount in
  written.
Definition TimeSlicedNodeData_DecodeFrom (maxDepth : nat) : decode XdrTimeSlicedNodeData := nested maxDepth (fun maxDepth =>
  read! addedAuthenticatedPeers := Uint32_DecodeFrom maxDepth in
  read! droppedAuthenticatedPeers := Uint32_DecodeFrom maxDepth in
  read! totalInboundPeerCount := Uint32_DecodeFrom maxDepth in
  read! totalOutboundPeerCount := Uint32_DecodeFrom maxDepth in
  read! p75ScpFirstToSelfLatencyMs := Uint32_DecodeFrom maxDepth in
  read! p75ScpSelfToOtherLatencyMs := Uint32_DecodeFrom maxDepth in
  read! lostSyncCount := Uint32_DecodeFrom maxDepth in
  read! isValidator := DecodeBool in
  read! maxInboundPeerCount := Uint32_DecodeFrom maxDepth in
  read! maxOutboundPeerCount := Uint32_DecodeFrom maxDepth in
  ret (mkXdrTimeSlicedNodeData addedAuthenticatedPeers droppedAuthenticatedPeers totalInboundPeerCount totalOutboundPeerCount
      p75ScpFirstToSelfLatencyMs p75ScpSelfToOtherLatencyMs lostSyncCount isValidator maxInboundPeerCount maxOutboundPeerCount)).
Definition TimeSlicedNodeData_valid (s : XdrTimeSlicedNodeData) : bool :=
  let '(mkXdrTimeSlicedNodeData addedAuthenticatedPeers droppedAuthenticatedPeers totalInboundPeerCount totalOutboundPeerCount
      p75ScpFirstToSelfLatencyMs p75ScpSelfToOtherLatencyMs lostSyncCount isValidator maxInboundPeerCount maxOutboundPeerCount) := s in
  Uint32_valid addedAuthenticatedPeers && Uint32_valid droppedAuthenticatedPeers && Uint32_valid totalInboundPeerCount && Uint32_valid
      totalOutboundPeerCount && Uint32_valid p75ScpFirstToSelfLatencyMs && Uint32_valid p75ScpSelfToOtherLatencyMs && Uint32_valid
      lostSyncCount && Uint32_valid maxInboundPeerCount && Uint32_valid maxOutboundPeerCount.

Record XdrTimeSlicedPeerData : Type := mkXdrTimeSlicedPeerData {
  TimeSlicedPeerData_PeerStats : XdrPeerStats;
  TimeSlicedPeerData_AverageLatencyMs : Z
}.
Definition TimeSlicedPeerData_EncodeTo (s : XdrTimeSlicedPeerData) : option bytes :=
  let '(mkXdrTimeSlicedPeerData peerStats averageLatencyMs) := s in
  write! PeerStats_EncodeTo peerStats in
  write! Uint32_EncodeTo averageLatencyMs in
  written.
Definition TimeSlicedPeerData_DecodeFrom (maxDepth : nat) : decode XdrTimeSlicedPeerData := nested maxDepth (fun maxDepth =>
  read! peerStats := PeerStats_DecodeFrom maxDepth in
  read! averageLatencyMs := Uint32_DecodeFrom maxDepth in
  ret (mkXdrTimeSlicedPeerData peerStats averageLatencyMs)).
Definition TimeSlicedPeerData_valid (s : XdrTimeSlicedPeerData) : bool :=
  let '(mkXdrTimeSlicedPeerData peerStats averageLatencyMs) := s in
  PeerStats_valid peerStats && Uint32_valid averageLatencyMs.

Definition TimeSlicedPeerDataList_EncodeTo (s : list XdrTimeSlicedPeerData) : option bytes := write! slice_EncodeTo
    TimeSlicedPeerData_EncodeTo s in written.
Definition TimeSlicedPeerDataList_DecodeFrom (maxDepth : nat) : decode (list XdrTimeSlicedPeerData) := nested maxDepth (fun maxDepth =>
  read! s := slice_DecodeFrom "TimeSlicedPeerData" (Some 25) (TimeSlicedPeerData_DecodeFrom maxDepth) in ret s).
Definition TimeSlicedPeerDataList_valid (s : list XdrTimeSlicedPeerData) : bool := valid_slice (Some 25) TimeSlicedPeerData_valid s.

Record XdrTopologyResponseBodyV2 : Type := mkXdrTopologyResponseBodyV2 {
  TopologyResponseBodyV2_InboundPeers : list XdrTimeSlicedPeerData;
  TopologyResponseBodyV2_OutboundPeers : list XdrTimeSlicedPeerData;
  TopologyResponseBodyV2_NodeData : XdrTimeSlicedNodeData
}.
Definition TopologyResponseBodyV2_EncodeTo (s : XdrTopologyResponseBodyV2) : option bytes :=
  let '(mkXdrTopologyResponseBodyV2 inboundPeers outboundPeers nodeData) := s in
  write! TimeSlicedPeerDataList_EncodeTo inboundPeers in
  write! TimeSlicedPeerDataList_EncodeTo outboundPeers in
  write! TimeSlicedNodeData_EncodeTo nodeData in
  written.
Definition TopologyResponseBodyV2_DecodeFrom (maxDepth : nat) : decode XdrTopologyResponseBodyV2 := nested maxDepth (fun maxDepth =>
  read! inboundPeers := TimeSlicedPeerDataList_DecodeFrom maxDepth in
  read! outboundPeers := TimeSlicedPeerDataList_DecodeFrom maxDepth in
  read! nodeData := TimeSlicedNodeData_DecodeFrom maxDepth in
  ret (mkXdrTopologyResponseBodyV2 inboundPeers outboundPeers nodeData)).
Definition TopologyResponseBodyV2_valid (s : XdrTopologyResponseBodyV2) : bool :=
  let '(mkXdrTopologyResponseBodyV2 inboundPeers outboundPeers nodeData) := s in
  TimeSlicedPeerDataList_valid inboundPeers && TimeSlicedPeerDataList_valid outboundPeers && TimeSlicedNodeData_valid nodeData.

Inductive XdrSurveyResponseBody : Type :=
| SurveyResponseBody_SurveyTopologyResponseV2 (topologyResponseBodyV2 : XdrTopologyResponseBodyV2).
Definition SurveyResponseBody_EncodeTo (u : XdrSurveyResponseBody) : option bytes :=
  match u with
  | SurveyResponseBody_SurveyTopologyResponseV2 topologyResponseBodyV2 => write! SurveyMessageResponseType_EncodeTo 2 in write!
      TopologyResponseBodyV2_EncodeTo topologyResponseBodyV2 in written
  end.
Definition SurveyResponseBody_DecodeFrom (maxDepth : nat) : decode XdrSurveyResponseBody := nested maxDepth (fun maxDepth =>
  read! type_ := SurveyMessageResponseType_DecodeFrom maxDepth in
  if type_ =? 2 then tracked "TopologyResponseBodyV2" (read! topologyResponseBodyV2 := TopologyResponseBodyV2_DecodeFrom maxDepth in ret
      (SurveyResponseBody_SurveyTopologyResponseV2 topologyResponseBodyV2)) else
  invalid).
Definition SurveyResponseBody_valid (u : XdrSurveyResponseBody) : bool :=
  match u with
  | SurveyResponseBody_SurveyTopologyResponseV2 topologyResponseBodyV2 => TopologyResponseBodyV2_valid topologyResponseBodyV2
  end.

Definition TxAdvertVector_EncodeTo (s : list (vec byte 32)) : option bytes := write! slice_EncodeTo Hash_EncodeTo s in written.
Definition TxAdvertVector_DecodeFrom (maxDepth : nat) : decode (list (vec byte 32)) := nested maxDepth (fun maxDepth =>
  read! s := slice_DecodeFrom "Hash" (Some 1000) (Hash_DecodeFrom maxDepth) in ret s).
Definition TxAdvertVector_valid (s : list (vec byte 32)) : bool := valid_slice (Some 1000) Hash_valid s.

Record XdrFloodAdvert : Type := mkXdrFloodAdvert {
  FloodAdvert_TxHashes : list (vec byte 32)
}.
Definition FloodAdvert_EncodeTo (s : XdrFloodAdvert) : option bytes :=
  let '(mkXdrFloodAdvert txHashes) := s in
  write! TxAdvertVector_EncodeTo txHashes in
  written.
Definition FloodAdvert_DecodeFrom (maxDepth : nat) : decode XdrFloodAdvert := nested maxDepth (fun maxDepth =>
  read! txHashes := TxAdvertVector_DecodeFrom maxDepth in
  ret (mkXdrFloodAdvert txHashes)).
Definition FloodAdvert_valid (s : XdrFloodAdvert) : bool :=
  let '(mkXdrFloodAdvert txHashes) := s in
  TxAdvertVector_valid txHashes.

Definition TxDemandVector_EncodeTo (s : list (vec byte 32)) : option bytes := write! slice_EncodeTo Hash_EncodeTo s in written.
Definition TxDemandVector_DecodeFrom (maxDepth : nat) : decode (list (vec byte 32)) := nested maxDepth (fun maxDepth =>
  read! s := slice_DecodeFrom "Hash" (Some 1000) (Hash_DecodeFrom maxDepth) in ret s).
Definition TxDemandVector_valid (s : list (vec byte 32)) : bool := valid_slice (Some 1000) Hash_valid s.

Record XdrFloodDemand : Type := mkXdrFloodDemand {
  FloodDemand_TxHashes : list (vec byte 32)
}.
Definition FloodDemand_EncodeTo (s : XdrFloodDemand) : option bytes :=
  let '(mkXdrFloodDemand txHashes) := s in
  write! TxDemandVector_EncodeTo txHashes in
  written.
Definition FloodDemand_DecodeFrom (maxDepth : nat) : decode XdrFloodDemand := nested maxDepth (fun maxDepth =>
  read! txHashes := TxDemandVector_DecodeFrom maxDepth in
  ret (mkXdrFloodDemand txHashes)).
Definition FloodDemand_valid (s : XdrFloodDemand) : bool :=
  let '(mkXdrFloodDemand txHashes) := s in
  TxDemandVector_valid txHashes.

Inductive XdrStellarMessage : Type :=
| StellarMessage_ErrorMsg (error : XdrError)
| StellarMessage_Hello (hello : XdrHello)
| StellarMessage_Auth (auth : XdrAuth)
| StellarMessage_DontHave (dontHave : XdrDontHave)
| StellarMessage_Peers (peers : list XdrPeerAddress)
| StellarMessage_GetTxSet (txSetHash : vec byte 32)
| StellarMessage_TxSet (txSet : XdrTransactionSet)
| StellarMessage_GeneralizedTxSet (generalizedTxSet : XdrGeneralizedTransactionSet)
| StellarMessage_Transaction (transaction : XdrEnvelope)
| StellarMessage_TimeSlicedSurveyRequest (signedTimeSlicedSurveyRequestMessage : XdrSignedTimeSlicedSurveyRequestMessage)
| StellarMessage_TimeSlicedSurveyResponse (signedTimeSlicedSurveyResponseMessage : XdrSignedTimeSlicedSurveyResponseMessage)
| StellarMessage_TimeSlicedSurveyStartCollecting (signedTimeSlicedSurveyStartCollectingMessage :
    XdrSignedTimeSlicedSurveyStartCollectingMessage)
| StellarMessage_TimeSlicedSurveyStopCollecting (signedTimeSlicedSurveyStopCollectingMessage :
    XdrSignedTimeSlicedSurveyStopCollectingMessage)
| StellarMessage_GetScpQuorumset (qSetHash : vec byte 32)
| StellarMessage_ScpQuorumset (qSet : XdrScpQuorumSet)
| StellarMessage_ScpMessage (envelope : XdrScpEnvelope)
| StellarMessage_GetScpState (getScpLedgerSeq : Z)
| StellarMessage_SendMore (sendMoreMessage : XdrSendMore)
| StellarMessage_SendMoreExtended (sendMoreExtendedMessage : XdrSendMoreExtended)
| StellarMessage_FloodAdvert (floodAdvert : XdrFloodAdvert)
| StellarMessage_FloodDemand (floodDemand : XdrFloodDemand).
Definition StellarMessage_EncodeTo (u : XdrStellarMessage) : option bytes :=
  match u with
  | StellarMessage_ErrorMsg error => write! MessageType_EncodeTo 0 in write! Error_EncodeTo error in written
  | StellarMessage_Hello hello => write! MessageType_EncodeTo 13 in write! Hello_EncodeTo hello in written
  | StellarMessage_Auth auth => write! MessageType_EncodeTo 2 in write! Auth_EncodeTo auth in written
  | StellarMessage_DontHave dontHave => write! MessageType_EncodeTo 3 in write! DontHave_EncodeTo dontHave in written
  | StellarMessage_Peers peers => write! MessageType_EncodeTo 5 in write! slice_EncodeTo PeerAddress_EncodeTo peers in written
  | StellarMessage_GetTxSet txSetHash => write! MessageType_EncodeTo 6 in write! Uint256_EncodeTo txSetHash in written
  | StellarMessage_TxSet txSet => write! MessageType_EncodeTo 7 in write! TransactionSet_EncodeTo txSet in written
  | StellarMessage_GeneralizedTxSet generalizedTxSet => write! MessageType_EncodeTo 17 in write! GeneralizedTransactionSet_EncodeTo
      generalizedTxSet in written
  | StellarMessage_Transaction transaction => write! MessageType_EncodeTo 8 in write! TransactionEnvelope_EncodeTo transaction in written
  | StellarMessage_TimeSlicedSurveyRequest signedTimeSlicedSurveyRequestMessage => write! MessageType_EncodeTo 21 in write!
      SignedTimeSlicedSurveyRequestMessage_EncodeTo signedTimeSlicedSurveyRequestMessage in written
  | StellarMessage_TimeSlicedSurveyResponse signedTimeSlicedSurveyResponseMessage => write! MessageType_EncodeTo 22 in write!
      SignedTimeSlicedSurveyResponseMessage_EncodeTo signedTimeSlicedSurveyResponseMessage in written
  | StellarMessage_TimeSlicedSurveyStartCollecting signedTimeSlicedSurveyStartCollectingMessage => write! MessageType_EncodeTo 23 in write!
      SignedTimeSlicedSurveyStartCollectingMessage_EncodeTo signedTimeSlicedSurveyStartCollectingMessage in written
  | StellarMessage_TimeSlicedSurveyStopCollecting signedTimeSlicedSurveyStopCollectingMessage => write! MessageType_EncodeTo 24 in write!
      SignedTimeSlicedSurveyStopCollectingMessage_EncodeTo signedTimeSlicedSurveyStopCollectingMessage in written
  | StellarMessage_GetScpQuorumset qSetHash => write! MessageType_EncodeTo 9 in write! Uint256_EncodeTo qSetHash in written
  | StellarMessage_ScpQuorumset qSet => write! MessageType_EncodeTo 10 in write! ScpQuorumSet_EncodeTo qSet in written
  | StellarMessage_ScpMessage envelope => write! MessageType_EncodeTo 11 in write! ScpEnvelope_EncodeTo envelope in written
  | StellarMessage_GetScpState getScpLedgerSeq => write! MessageType_EncodeTo 12 in write! Uint32_EncodeTo getScpLedgerSeq in written
  | StellarMessage_SendMore sendMoreMessage => write! MessageType_EncodeTo 16 in write! SendMore_EncodeTo sendMoreMessage in written
  | StellarMessage_SendMoreExtended sendMoreExtendedMessage => write! MessageType_EncodeTo 20 in write! SendMoreExtended_EncodeTo
      sendMoreExtendedMessage in written
  | StellarMessage_FloodAdvert floodAdvert => write! MessageType_EncodeTo 18 in write! FloodAdvert_EncodeTo floodAdvert in written
  | StellarMessage_FloodDemand floodDemand => write! MessageType_EncodeTo 19 in write! FloodDemand_EncodeTo floodDemand in written
  end.
Definition StellarMessage_DecodeFrom (maxDepth : nat) : decode XdrStellarMessage := nested maxDepth (fun maxDepth =>
  read! type_ := MessageType_DecodeFrom maxDepth in
  if type_ =? 0 then tracked "Error" (read! error := Error_DecodeFrom maxDepth in ret (StellarMessage_ErrorMsg error)) else
  if type_ =? 13 then tracked "Hello" (read! hello := Hello_DecodeFrom maxDepth in ret (StellarMessage_Hello hello)) else
  if type_ =? 2 then tracked "Auth" (read! auth := Auth_DecodeFrom maxDepth in ret (StellarMessage_Auth auth)) else
  if type_ =? 3 then tracked "DontHave" (read! dontHave := DontHave_DecodeFrom maxDepth in ret (StellarMessage_DontHave dontHave)) else
  if type_ =? 5 then tracked "[]PeerAddress" (read! peers := slice_DecodeFrom "PeerAddress" (Some 100) (PeerAddress_DecodeFrom maxDepth) in
      ret (StellarMessage_Peers peers)) else
  if type_ =? 6 then tracked "Uint256" (read! txSetHash := Uint256_DecodeFrom maxDepth in ret (StellarMessage_GetTxSet txSetHash)) else
  if type_ =? 7 then tracked "TransactionSet" (read! txSet := TransactionSet_DecodeFrom maxDepth in ret (StellarMessage_TxSet txSet)) else
  if type_ =? 17 then tracked "GeneralizedTransactionSet" (read! generalizedTxSet := GeneralizedTransactionSet_DecodeFrom maxDepth in ret
      (StellarMessage_GeneralizedTxSet generalizedTxSet)) else
  if type_ =? 8 then tracked "TransactionEnvelope" (read! transaction := TransactionEnvelope_DecodeFrom maxDepth in ret
      (StellarMessage_Transaction transaction)) else
  if type_ =? 21 then tracked "SignedTimeSlicedSurveyRequestMessage" (read! signedTimeSlicedSurveyRequestMessage :=
      SignedTimeSlicedSurveyRequestMessage_DecodeFrom maxDepth in ret (StellarMessage_TimeSlicedSurveyRequest
      signedTimeSlicedSurveyRequestMessage)) else
  if type_ =? 22 then tracked "SignedTimeSlicedSurveyResponseMessage" (read! signedTimeSlicedSurveyResponseMessage :=
      SignedTimeSlicedSurveyResponseMessage_DecodeFrom maxDepth in ret (StellarMessage_TimeSlicedSurveyResponse
      signedTimeSlicedSurveyResponseMessage)) else
  if type_ =? 23 then tracked "SignedTimeSlicedSurveyStartCollectingMessage" (read! signedTimeSlicedSurveyStartCollectingMessage :=
      SignedTimeSlicedSurveyStartCollectingMessage_DecodeFrom maxDepth in ret (StellarMessage_TimeSlicedSurveyStartCollecting
      signedTimeSlicedSurveyStartCollectingMessage)) else
  if type_ =? 24 then tracked "SignedTimeSlicedSurveyStopCollectingMessage" (read! signedTimeSlicedSurveyStopCollectingMessage :=
      SignedTimeSlicedSurveyStopCollectingMessage_DecodeFrom maxDepth in ret (StellarMessage_TimeSlicedSurveyStopCollecting
      signedTimeSlicedSurveyStopCollectingMessage)) else
  if type_ =? 9 then tracked "Uint256" (read! qSetHash := Uint256_DecodeFrom maxDepth in ret (StellarMessage_GetScpQuorumset qSetHash)) else
  if type_ =? 10 then tracked "ScpQuorumSet" (read! qSet := ScpQuorumSet_DecodeFrom maxDepth in ret (StellarMessage_ScpQuorumset qSet)) else
  if type_ =? 11 then tracked "ScpEnvelope" (read! envelope := ScpEnvelope_DecodeFrom maxDepth in ret (StellarMessage_ScpMessage envelope))
      else
  if type_ =? 12 then tracked "Uint32" (read! getScpLedgerSeq := Uint32_DecodeFrom maxDepth in ret (StellarMessage_GetScpState
      getScpLedgerSeq)) else
  if type_ =? 16 then tracked "SendMore" (read! sendMoreMessage := SendMore_DecodeFrom maxDepth in ret (StellarMessage_SendMore
      sendMoreMessage)) else
  if type_ =? 20 then tracked "SendMoreExtended" (read! sendMoreExtendedMessage := SendMoreExtended_DecodeFrom maxDepth in ret
      (StellarMessage_SendMoreExtended sendMoreExtendedMessage)) else
  if type_ =? 18 then tracked "FloodAdvert" (read! floodAdvert := FloodAdvert_DecodeFrom maxDepth in ret (StellarMessage_FloodAdvert
      floodAdvert)) else
  if type_ =? 19 then tracked "FloodDemand" (read! floodDemand := FloodDemand_DecodeFrom maxDepth in ret (StellarMessage_FloodDemand
      floodDemand)) else
  invalid).
Definition StellarMessage_valid (u : XdrStellarMessage) : bool :=
  match u with
  | StellarMessage_ErrorMsg error => Error_valid error
  | StellarMessage_Hello hello => Hello_valid hello
  | StellarMessage_Auth auth => Auth_valid auth
  | StellarMessage_DontHave dontHave => DontHave_valid dontHave
  | StellarMessage_Peers peers => (valid_slice (Some 100) PeerAddress_valid) peers
  | StellarMessage_GetTxSet txSetHash => Uint256_valid txSetHash
  | StellarMessage_TxSet txSet => TransactionSet_valid txSet
  | StellarMessage_GeneralizedTxSet generalizedTxSet => GeneralizedTransactionSet_valid generalizedTxSet
  | StellarMessage_Transaction transaction => TransactionEnvelope_valid transaction
  | StellarMessage_TimeSlicedSurveyRequest signedTimeSlicedSurveyRequestMessage => SignedTimeSlicedSurveyRequestMessage_valid
      signedTimeSlicedSurveyRequestMessage
  | StellarMessage_TimeSlicedSurveyResponse signedTimeSlicedSurveyResponseMessage => SignedTimeSlicedSurveyResponseMessage_valid
      signedTimeSlicedSurveyResponseMessage
  | StellarMessage_TimeSlicedSurveyStartCollecting signedTimeSlicedSurveyStartCollectingMessage =>
      SignedTimeSlicedSurveyStartCollectingMessage_valid signedTimeSlicedSurveyStartCollectingMessage
  | StellarMessage_TimeSlicedSurveyStopCollecting signedTimeSlicedSurveyStopCollectingMessage =>
      SignedTimeSlicedSurveyStopCollectingMessage_valid signedTimeSlicedSurveyStopCollectingMessage
  | StellarMessage_GetScpQuorumset qSetHash => Uint256_valid qSetHash
  | StellarMessage_ScpQuorumset qSet => ScpQuorumSet_valid qSet
  | StellarMessage_ScpMessage envelope => ScpEnvelope_valid envelope
  | StellarMessage_GetScpState getScpLedgerSeq => Uint32_valid getScpLedgerSeq
  | StellarMessage_SendMore sendMoreMessage => SendMore_valid sendMoreMessage
  | StellarMessage_SendMoreExtended sendMoreExtendedMessage => SendMoreExtended_valid sendMoreExtendedMessage
  | StellarMessage_FloodAdvert floodAdvert => FloodAdvert_valid floodAdvert
  | StellarMessage_FloodDemand floodDemand => FloodDemand_valid floodDemand
  end.

Record XdrHmacSha256Mac : Type := mkXdrHmacSha256Mac {
  HmacSha256Mac_Mac : vec byte 32
}.
Definition HmacSha256Mac_EncodeTo (s : XdrHmacSha256Mac) : option bytes :=
  let '(mkXdrHmacSha256Mac mac) := s in
  write! EncodeFixedOpaque (vec_to_list mac) in
  written.
Definition HmacSha256Mac_DecodeFrom (maxDepth : nat) : decode XdrHmacSha256Mac := nested maxDepth (fun maxDepth =>
  read! mac := DecodeFixedOpaqueInplace 32 in
  ret (mkXdrHmacSha256Mac mac)).
Definition HmacSha256Mac_valid (s : XdrHmacSha256Mac) : bool :=
  let '(mkXdrHmacSha256Mac mac) := s in
  true.

Record XdrAuthenticatedMessageV0 : Type := mkXdrAuthenticatedMessageV0 {
  AuthenticatedMessageV0_Sequence : Z;
  AuthenticatedMessageV0_Message : XdrStellarMessage;
  AuthenticatedMessageV0_Mac : XdrHmacSha256Mac
}.
Definition AuthenticatedMessageV0_EncodeTo (s : XdrAuthenticatedMessageV0) : option bytes :=
  let '(mkXdrAuthenticatedMessageV0 sequence message mac) := s in
  write! Uint64_EncodeTo sequence in
  write! StellarMessage_EncodeTo message in
  write! HmacSha256Mac_EncodeTo mac in
  written.
Definition AuthenticatedMessageV0_DecodeFrom (maxDepth : nat) : decode XdrAuthenticatedMessageV0 := nested maxDepth (fun maxDepth =>
  read! sequence := Uint64_DecodeFrom maxDepth in
  read! message := StellarMessage_DecodeFrom maxDepth in
  read! mac := HmacSha256Mac_DecodeFrom maxDepth in
  ret (mkXdrAuthenticatedMessageV0 sequence message mac)).
Definition AuthenticatedMessageV0_valid (s : XdrAuthenticatedMessageV0) : bool :=
  let '(mkXdrAuthenticatedMessageV0 sequence message mac) := s in
  Uint64_valid sequence && StellarMessage_valid message && HmacSha256Mac_valid mac.

Inductive XdrAuthenticatedMessage : Type :=
| AuthenticatedMessage_0 (v0 : XdrAuthenticatedMessageV0).
Definition AuthenticatedMessage_EncodeTo (u : XdrAuthenticatedMessage) : option bytes :=
  match u with
  | AuthenticatedMessage_0 v0 => write! Uint32_EncodeTo 0 in write! AuthenticatedMessageV0_EncodeTo v0 in written
  end.
Definition AuthenticatedMessage_DecodeFrom (maxDepth : nat) : decode XdrAuthenticatedMessage := nested maxDepth (fun maxDepth =>
  read! v := Uint32_DecodeFrom maxDepth in
  if v =? 0 then tracked "AuthenticatedMessageV0" (read! v0 := AuthenticatedMessageV0_DecodeFrom maxDepth in ret (AuthenticatedMessage_0
      v0)) else
  invalid).
Definition AuthenticatedMessage_valid (u : XdrAuthenticatedMessage) : bool :=
  match u with
  | AuthenticatedMessage_0 v0 => AuthenticatedMessageV0_valid v0
  end.

Definition SorobanAuthorizationEntries_EncodeTo (s : list XdrSorobanAuthorizationEntry) : option bytes := write! slice_EncodeTo
    SorobanAuthorizationEntry_EncodeTo s in written.
Definition SorobanAuthorizationEntries_DecodeFrom (maxDepth : nat) : decode (list XdrSorobanAuthorizationEntry) := nested maxDepth (fun
    maxDepth =>
  read! s := slice_DecodeFrom "SorobanAuthorizationEntry" None (SorobanAuthorizationEntry_DecodeFrom maxDepth) in ret s).
Definition SorobanAuthorizationEntries_valid (s : list XdrSorobanAuthorizationEntry) : bool := valid_slice None
    SorobanAuthorizationEntry_valid s.

Record XdrHashIdPreimageOperationId : Type := mkXdrHashIdPreimageOperationId {
  HashIdPreimageOperationId_SourceAccount : AccountId;
  HashIdPreimageOperationId_SeqNum : Z;
  HashIdPreimageOperationId_OpNum : Z
}.
Definition HashIdPreimageOperationId_EncodeTo (s : XdrHashIdPreimageOperationId) : option bytes :=
  let '(mkXdrHashIdPreimageOperationId sourceAccount seqNum opNum) := s in
  write! AccountId_EncodeTo sourceAccount in
  write! SequenceNumber_EncodeTo seqNum in
  write! Uint32_EncodeTo opNum in
  written.
Definition HashIdPreimageOperationId_DecodeFrom (maxDepth : nat) : decode XdrHashIdPreimageOperationId := nested maxDepth (fun maxDepth =>
  read! sourceAccount := AccountId_DecodeFrom maxDepth in
  read! seqNum := SequenceNumber_DecodeFrom maxDepth in
  read! opNum := Uint32_DecodeFrom maxDepth in
  ret (mkXdrHashIdPreimageOperationId sourceAccount seqNum opNum)).
Definition HashIdPreimageOperationId_valid (s : XdrHashIdPreimageOperationId) : bool :=
  let '(mkXdrHashIdPreimageOperationId sourceAccount seqNum opNum) := s in
  AccountId_valid sourceAccount && SequenceNumber_valid seqNum && Uint32_valid opNum.

Record XdrHashIdPreimageRevokeId : Type := mkXdrHashIdPreimageRevokeId {
  HashIdPreimageRevokeId_SourceAccount : AccountId;
  HashIdPreimageRevokeId_SeqNum : Z;
  HashIdPreimageRevokeId_OpNum : Z;
  HashIdPreimageRevokeId_LiquidityPoolId : PoolId;
  HashIdPreimageRevokeId_Asset : Asset
}.
Definition HashIdPreimageRevokeId_EncodeTo (s : XdrHashIdPreimageRevokeId) : option bytes :=
  let '(mkXdrHashIdPreimageRevokeId sourceAccount seqNum opNum liquidityPoolId asset) := s in
  write! AccountId_EncodeTo sourceAccount in
  write! SequenceNumber_EncodeTo seqNum in
  write! Uint32_EncodeTo opNum in
  write! PoolId_EncodeTo liquidityPoolId in
  write! Asset_EncodeTo asset in
  written.
Definition HashIdPreimageRevokeId_DecodeFrom (maxDepth : nat) : decode XdrHashIdPreimageRevokeId := nested maxDepth (fun maxDepth =>
  read! sourceAccount := AccountId_DecodeFrom maxDepth in
  read! seqNum := SequenceNumber_DecodeFrom maxDepth in
  read! opNum := Uint32_DecodeFrom maxDepth in
  read! liquidityPoolId := PoolId_DecodeFrom maxDepth in
  read! asset := Asset_DecodeFrom maxDepth in
  ret (mkXdrHashIdPreimageRevokeId sourceAccount seqNum opNum liquidityPoolId asset)).
Definition HashIdPreimageRevokeId_valid (s : XdrHashIdPreimageRevokeId) : bool :=
  let '(mkXdrHashIdPreimageRevokeId sourceAccount seqNum opNum liquidityPoolId asset) := s in
  AccountId_valid sourceAccount && SequenceNumber_valid seqNum && Uint32_valid opNum && PoolId_valid liquidityPoolId && Asset_valid asset.

Record XdrHashIdPreimageContractId : Type := mkXdrHashIdPreimageContractId {
  HashIdPreimageContractId_NetworkId : vec byte 32;
  HashIdPreimageContractId_ContractIdPreimage : XdrContractIdPreimage
}.
Definition HashIdPreimageContractId_EncodeTo (s : XdrHashIdPreimageContractId) : option bytes :=
  let '(mkXdrHashIdPreimageContractId networkId contractIdPreimage) := s in
  write! Hash_EncodeTo networkId in
  write! ContractIdPreimage_EncodeTo contractIdPreimage in
  written.
Definition HashIdPreimageContractId_DecodeFrom (maxDepth : nat) : decode XdrHashIdPreimageContractId := nested maxDepth (fun maxDepth =>
  read! networkId := Hash_DecodeFrom maxDepth in
  read! contractIdPreimage := ContractIdPreimage_DecodeFrom maxDepth in
  ret (mkXdrHashIdPreimageContractId networkId contractIdPreimage)).
Definition HashIdPreimageContractId_valid (s : XdrHashIdPreimageContractId) : bool :=
  let '(mkXdrHashIdPreimageContractId networkId contractIdPreimage) := s in
  Hash_valid networkId && ContractIdPreimage_valid contractIdPreimage.

Record XdrHashIdPreimageSorobanAuthorization : Type := mkXdrHashIdPreimageSorobanAuthorization {
  HashIdPreimageSorobanAuthorization_NetworkId : vec byte 32;
  HashIdPreimageSorobanAuthorization_Nonce : Z;
  HashIdPreimageSorobanAuthorization_SignatureExpirationLedger : Z;
  HashIdPreimageSorobanAuthorization_Invocation : XdrSorobanAuthorizedInvocation
}.
Definition HashIdPreimageSorobanAuthorization_EncodeTo (s : XdrHashIdPreimageSorobanAuthorization) : option bytes :=
  let '(mkXdrHashIdPreimageSorobanAuthorization networkId nonce signatureExpirationLedger invocation) := s in
  write! Hash_EncodeTo networkId in
  write! Int64_EncodeTo nonce in
  write! Uint32_EncodeTo signatureExpirationLedger in
  write! SorobanAuthorizedInvocation_EncodeTo invocation in
  written.
Definition HashIdPreimageSorobanAuthorization_DecodeFrom (maxDepth : nat) : decode XdrHashIdPreimageSorobanAuthorization := nested maxDepth
    (fun maxDepth =>
  read! networkId := Hash_DecodeFrom maxDepth in
  read! nonce := Int64_DecodeFrom maxDepth in
  read! signatureExpirationLedger := Uint32_DecodeFrom maxDepth in
  read! invocation := SorobanAuthorizedInvocation_DecodeFrom maxDepth in
  ret (mkXdrHashIdPreimageSorobanAuthorization networkId nonce signatureExpirationLedger invocation)).
Definition HashIdPreimageSorobanAuthorization_valid (s : XdrHashIdPreimageSorobanAuthorization) : bool :=
  let '(mkXdrHashIdPreimageSorobanAuthorization networkId nonce signatureExpirationLedger invocation) := s in
  Hash_valid networkId && Int64_valid nonce && Uint32_valid signatureExpirationLedger && SorobanAuthorizedInvocation_valid invocation.

Record XdrHashIdPreimageSorobanAuthorizationWithAddress : Type := mkXdrHashIdPreimageSorobanAuthorizationWithAddress {
  HashIdPreimageSorobanAuthorizationWithAddress_NetworkId : vec byte 32;
  HashIdPreimageSorobanAuthorizationWithAddress_Nonce : Z;
  HashIdPreimageSorobanAuthorizationWithAddress_SignatureExpirationLedger : Z;
  HashIdPreimageSorobanAuthorizationWithAddress_Address : ScAddress_;
  HashIdPreimageSorobanAuthorizationWithAddress_Invocation : XdrSorobanAuthorizedInvocation
}.
Definition HashIdPreimageSorobanAuthorizationWithAddress_EncodeTo (s : XdrHashIdPreimageSorobanAuthorizationWithAddress) : option bytes :=
  let '(mkXdrHashIdPreimageSorobanAuthorizationWithAddress networkId nonce signatureExpirationLedger address invocation) := s in
  write! Hash_EncodeTo networkId in
  write! Int64_EncodeTo nonce in
  write! Uint32_EncodeTo signatureExpirationLedger in
  write! ScAddress_EncodeTo address in
  write! SorobanAuthorizedInvocation_EncodeTo invocation in
  written.
Definition HashIdPreimageSorobanAuthorizationWithAddress_DecodeFrom (maxDepth : nat) : decode
    XdrHashIdPreimageSorobanAuthorizationWithAddress := nested maxDepth (fun maxDepth =>
  read! networkId := Hash_DecodeFrom maxDepth in
  read! nonce := Int64_DecodeFrom maxDepth in
  read! signatureExpirationLedger := Uint32_DecodeFrom maxDepth in
  read! address := ScAddress_DecodeFrom maxDepth in
  read! invocation := SorobanAuthorizedInvocation_DecodeFrom maxDepth in
  ret (mkXdrHashIdPreimageSorobanAuthorizationWithAddress networkId nonce signatureExpirationLedger address invocation)).
Definition HashIdPreimageSorobanAuthorizationWithAddress_valid (s : XdrHashIdPreimageSorobanAuthorizationWithAddress) : bool :=
  let '(mkXdrHashIdPreimageSorobanAuthorizationWithAddress networkId nonce signatureExpirationLedger address invocation) := s in
  Hash_valid networkId && Int64_valid nonce && Uint32_valid signatureExpirationLedger && ScAddress_valid address &&
      SorobanAuthorizedInvocation_valid invocation.

Inductive XdrHashIdPreimage : Type :=
| HashIdPreimage_EnvelopeTypeOpId (operationId : XdrHashIdPreimageOperationId)
| HashIdPreimage_EnvelopeTypePoolRevokeOpId (revokeId : XdrHashIdPreimageRevokeId)
| HashIdPreimage_EnvelopeTypeContractId (contractId : XdrHashIdPreimageContractId)
| HashIdPreimage_EnvelopeTypeSorobanAuthorization (sorobanAuthorization : XdrHashIdPreimageSorobanAuthorization)
| HashIdPreimage_EnvelopeTypeSorobanAuthorizationWithAddress (sorobanAuthorizationWithAddress :
    XdrHashIdPreimageSorobanAuthorizationWithAddress).
Definition HashIdPreimage_EncodeTo (u : XdrHashIdPreimage) : option bytes :=
  match u with
  | HashIdPreimage_EnvelopeTypeOpId operationId => write! EnvelopeType_EncodeTo 6 in write! HashIdPreimageOperationId_EncodeTo operationId
      in written
  | HashIdPreimage_EnvelopeTypePoolRevokeOpId revokeId => write! EnvelopeType_EncodeTo 7 in write! HashIdPreimageRevokeId_EncodeTo revokeId
      in written
  | HashIdPreimage_EnvelopeTypeContractId contractId => write! EnvelopeType_EncodeTo 8 in write! HashIdPreimageContractId_EncodeTo
      contractId in written
  | HashIdPreimage_EnvelopeTypeSorobanAuthorization sorobanAuthorization => write! EnvelopeType_EncodeTo 9 in write!
      HashIdPreimageSorobanAuthorization_EncodeTo sorobanAuthorization in written
  | HashIdPreimage_EnvelopeTypeSorobanAuthorizationWithAddress sorobanAuthorizationWithAddress => write! EnvelopeType_EncodeTo 10 in write!
      HashIdPreimageSorobanAuthorizationWithAddress_EncodeTo sorobanAuthorizationWithAddress in written
  end.
Definition HashIdPreimage_DecodeFrom (maxDepth : nat) : decode XdrHashIdPreimage := nested maxDepth (fun maxDepth =>
  read! type_ := EnvelopeType_DecodeFrom maxDepth in
  if type_ =? 6 then tracked "HashIdPreimageOperationId" (read! operationId := HashIdPreimageOperationId_DecodeFrom maxDepth in ret
      (HashIdPreimage_EnvelopeTypeOpId operationId)) else
  if type_ =? 7 then tracked "HashIdPreimageRevokeId" (read! revokeId := HashIdPreimageRevokeId_DecodeFrom maxDepth in ret
      (HashIdPreimage_EnvelopeTypePoolRevokeOpId revokeId)) else
  if type_ =? 8 then tracked "HashIdPreimageContractId" (read! contractId := HashIdPreimageContractId_DecodeFrom maxDepth in ret
      (HashIdPreimage_EnvelopeTypeContractId contractId)) else
  if type_ =? 9 then tracked "HashIdPreimageSorobanAuthorization" (read! sorobanAuthorization :=
      HashIdPreimageSorobanAuthorization_DecodeFrom maxDepth in ret (HashIdPreimage_EnvelopeTypeSorobanAuthorization sorobanAuthorization))
      else
  if type_ =? 10 then tracked "HashIdPreimageSorobanAuthorizationWithAddress" (read! sorobanAuthorizationWithAddress :=
      HashIdPreimageSorobanAuthorizationWithAddress_DecodeFrom maxDepth in ret (HashIdPreimage_EnvelopeTypeSorobanAuthorizationWithAddress
      sorobanAuthorizationWithAddress)) else
  invalid).
Definition HashIdPreimage_valid (u : XdrHashIdPreimage) : bool :=
  match u with
  | HashIdPreimage_EnvelopeTypeOpId operationId => HashIdPreimageOperationId_valid operationId
  | HashIdPreimage_EnvelopeTypePoolRevokeOpId revokeId => HashIdPreimageRevokeId_valid revokeId
  | HashIdPreimage_EnvelopeTypeContractId contractId => HashIdPreimageContractId_valid contractId
  | HashIdPreimage_EnvelopeTypeSorobanAuthorization sorobanAuthorization => HashIdPreimageSorobanAuthorization_valid sorobanAuthorization
  | HashIdPreimage_EnvelopeTypeSorobanAuthorizationWithAddress sorobanAuthorizationWithAddress =>
      HashIdPreimageSorobanAuthorizationWithAddress_valid sorobanAuthorizationWithAddress
  end.

Inductive XdrTransactionSignaturePayloadTaggedTransaction : Type :=
| TransactionSignaturePayloadTaggedTransaction_EnvelopeTypeTx (tx : XdrTransaction)
| TransactionSignaturePayloadTaggedTransaction_EnvelopeTypeTxFeeBump (feeBump : (MuxedAccount_ * Z * option XdrTransactionV1Envelope)).
Definition TransactionSignaturePayloadTaggedTransaction_EncodeTo (u : XdrTransactionSignaturePayloadTaggedTransaction) : option bytes :=
  match u with
  | TransactionSignaturePayloadTaggedTransaction_EnvelopeTypeTx tx => write! EnvelopeType_EncodeTo 2 in write! Transaction_EncodeTo tx in
      written
  | TransactionSignaturePayloadTaggedTransaction_EnvelopeTypeTxFeeBump feeBump => write! EnvelopeType_EncodeTo 5 in write!
      FeeBumpTransaction_EncodeTo feeBump in written
  end.
Definition TransactionSignaturePayloadTaggedTransaction_DecodeFrom (maxDepth : nat) : decode
    XdrTransactionSignaturePayloadTaggedTransaction := nested maxDepth (fun maxDepth =>
  read! type_ := EnvelopeType_DecodeFrom maxDepth in
  if type_ =? 2 then tracked "Transaction" (read! tx := Transaction_DecodeFrom maxDepth in ret
      (TransactionSignaturePayloadTaggedTransaction_EnvelopeTypeTx tx)) else
  if type_ =? 5 then tracked "FeeBumpTransaction" (read! feeBump := FeeBumpTransaction_DecodeFrom maxDepth in ret
      (TransactionSignaturePayloadTaggedTransaction_EnvelopeTypeTxFeeBump feeBump)) else
  invalid).
Definition TransactionSignaturePayloadTaggedTransaction_valid (u : XdrTransactionSignaturePayloadTaggedTransaction) : bool :=
  match u with
  | TransactionSignaturePayloadTaggedTransaction_EnvelopeTypeTx tx => Transaction_valid tx
  | TransactionSignaturePayloadTaggedTransaction_EnvelopeTypeTxFeeBump feeBump => FeeBumpTransaction_valid feeBump
  end.

Record XdrTransactionSignaturePayload : Type := mkXdrTransactionSignaturePayload {
  TransactionSignaturePayload_NetworkId : vec byte 32;
  TransactionSignaturePayload_TaggedTransaction : XdrTransactionSignaturePayloadTaggedTransaction
}.
Definition TransactionSignaturePayload_EncodeTo (s : XdrTransactionSignaturePayload) : option bytes :=
  let '(mkXdrTransactionSignaturePayload networkId taggedTransaction) := s in
  write! Hash_EncodeTo networkId in
  write! TransactionSignaturePayloadTaggedTransaction_EncodeTo taggedTransaction in
  written.
Definition TransactionSignaturePayload_DecodeFrom (maxDepth : nat) : decode XdrTransactionSignaturePayload := nested maxDepth (fun maxDepth
    =>
  read! networkId := Hash_DecodeFrom maxDepth in
  read! taggedTransaction := TransactionSignaturePayloadTaggedTransaction_DecodeFrom maxDepth in
  ret (mkXdrTransactionSignaturePayload networkId taggedTransaction)).
Definition TransactionSignaturePayload_valid (s : XdrTransactionSignaturePayload) : bool :=
  let '(mkXdrTransactionSignaturePayload networkId taggedTransaction) := s in
  Hash_valid networkId && TransactionSignaturePayloadTaggedTransaction_valid taggedTransaction.

Record XdrCurve25519Secret : Type := mkXdrCurve25519Secret {
  Curve25519Secret_Key : vec byte 32
}.
Definition Curve25519Secret_EncodeTo (s : XdrCurve25519Secret) : option bytes :=
  let '(mkXdrCurve25519Secret key_) := s in
  write! EncodeFixedOpaque (vec_to_list key_) in
  written.
Definition Curve25519Secret_DecodeFrom (maxDepth : nat) : decode XdrCurve25519Secret := nested maxDepth (fun maxDepth =>
  read! key_ := DecodeFixedOpaqueInplace 32 in
  ret (mkXdrCurve25519Secret key_)).
Definition Curve25519Secret_valid (s : XdrCurve25519Secret) : bool :=
  let '(mkXdrCurve25519Secret key_) := s in
  true.

Record XdrHmacSha256Key : Type := mkXdrHmacSha256Key {
  HmacSha256Key_Key : vec byte 32
}.
Definition HmacSha256Key_EncodeTo (s : XdrHmacSha256Key) : option bytes :=
  let '(mkXdrHmacSha256Key key_) := s in
  write! EncodeFixedOpaque (vec_to_list key_) in
  written.
Definition HmacSha256Key_DecodeFrom (maxDepth : nat) : decode XdrHmacSha256Key := nested maxDepth (fun maxDepth =>
  read! key_ := DecodeFixedOpaqueInplace 32 in
  ret (mkXdrHmacSha256Key key_)).
Definition HmacSha256Key_valid (s : XdrHmacSha256Key) : bool :=
  let '(mkXdrHmacSha256Key key_) := s in
  true.

Record XdrShortHashSeed : Type := mkXdrShortHashSeed {
  ShortHashSeed_Seed : vec byte 16
}.
Definition ShortHashSeed_EncodeTo (s : XdrShortHashSeed) : option bytes :=
  let '(mkXdrShortHashSeed seed) := s in
  write! EncodeFixedOpaque (vec_to_list seed) in
  written.
Definition ShortHashSeed_DecodeFrom (maxDepth : nat) : decode XdrShortHashSeed := nested maxDepth (fun maxDepth =>
  read! seed := DecodeFixedOpaqueInplace 16 in
  ret (mkXdrShortHashSeed seed)).
Definition ShortHashSeed_valid (s : XdrShortHashSeed) : bool :=
  let '(mkXdrShortHashSeed seed) := s in
  true.

Definition binaryFuseFilterTypeMap : list Z := [0; 1; 2].
Definition BinaryFuseFilterType_EncodeTo (e : Z) : option bytes := enum_EncodeTo binaryFuseFilterTypeMap e.
Definition BinaryFuseFilterType_DecodeFrom (maxDepth : nat) : decode Z := enum_DecodeFrom binaryFuseFilterTypeMap maxDepth.
Definition BinaryFuseFilterType_valid (e : Z) : bool := valid_enum binaryFuseFilterTypeMap e.

Record XdrSerializedBinaryFuseFilter : Type := mkXdrSerializedBinaryFuseFilter {
  SerializedBinaryFuseFilter_Type : Z;
  SerializedBinaryFuseFilter_InputHashSeed : XdrShortHashSeed;
  SerializedBinaryFuseFilter_FilterSeed : XdrShortHashSeed;
  SerializedBinaryFuseFilter_SegmentLength : Z;
  SerializedBinaryFuseFilter_SegementLengthMask : Z;
  SerializedBinaryFuseFilter_SegmentCount : Z;
  SerializedBinaryFuseFilter_SegmentCountLength : Z;
  SerializedBinaryFuseFilter_FingerprintLength : Z;
  SerializedBinaryFuseFilter_Fingerprints : bytes
}.
Definition SerializedBinaryFuseFilter_EncodeTo (s : XdrSerializedBinaryFuseFilter) : option bytes :=
  let '(mkXdrSerializedBinaryFuseFilter type_ inputHashSeed filterSeed segmentLength segementLengthMask segmentCount segmentCountLength
      fingerprintLength fingerprints) := s in
  write! BinaryFuseFilterType_EncodeTo type_ in
  write! ShortHashSeed_EncodeTo inputHashSeed in
  write! ShortHashSeed_EncodeTo filterSeed in
  write! Uint32_EncodeTo segmentLength in
  write! Uint32_EncodeTo segementLengthMask in
  write! Uint32_EncodeTo segmentCount in
  write! Uint32_EncodeTo segmentCountLength in
  write! Uint32_EncodeTo fingerprintLength in
  write! EncodeOpaque fingerprints in
  written.
Definition SerializedBinaryFuseFilter_DecodeFrom (maxDepth : nat) : decode XdrSerializedBinaryFuseFilter := nested maxDepth (fun maxDepth =>
  read! type_ := BinaryFuseFilterType_DecodeFrom maxDepth in
  read! inputHashSeed := ShortHashSeed_DecodeFrom maxDepth in
  read! filterSeed := ShortHashSeed_DecodeFrom maxDepth in
  read! segmentLength := Uint32_DecodeFrom maxDepth in
  read! segementLengthMask := Uint32_DecodeFrom maxDepth in
  read! segmentCount := Uint32_DecodeFrom maxDepth in
  read! segmentCountLength := Uint32_DecodeFrom maxDepth in
  read! fingerprintLength := Uint32_DecodeFrom maxDepth in
  read! fingerprints := DecodeOpaque 0 in
  ret (mkXdrSerializedBinaryFuseFilter type_ inputHashSeed filterSeed segmentLength segementLengthMask segmentCount segmentCountLength
      fingerprintLength fingerprints)).
Definition SerializedBinaryFuseFilter_valid (s : XdrSerializedBinaryFuseFilter) : bool :=
  let '(mkXdrSerializedBinaryFuseFilter type_ inputHashSeed filterSeed segmentLength segementLengthMask segmentCount segmentCountLength
      fingerprintLength fingerprints) := s in
  BinaryFuseFilterType_valid type_ && ShortHashSeed_valid inputHashSeed && ShortHashSeed_valid filterSeed && Uint32_valid segmentLength &&
      Uint32_valid segementLengthMask && Uint32_valid segmentCount && Uint32_valid segmentCountLength && Uint32_valid fingerprintLength &&
      valid_size (size_limit 0) fingerprints.

Definition scEnvMetaKindMap : list Z := [0].
Definition ScEnvMetaKind_EncodeTo (e : Z) : option bytes := enum_EncodeTo scEnvMetaKindMap e.
Definition ScEnvMetaKind_DecodeFrom (maxDepth : nat) : decode Z := enum_DecodeFrom scEnvMetaKindMap maxDepth.
Definition ScEnvMetaKind_valid (e : Z) : bool := valid_enum scEnvMetaKindMap e.

Record XdrScEnvMetaEntryInterfaceVersion : Type := mkXdrScEnvMetaEntryInterfaceVersion {
  ScEnvMetaEntryInterfaceVersion_Protocol : Z;
  ScEnvMetaEntryInterfaceVersion_PreRelease : Z
}.
Definition ScEnvMetaEntryInterfaceVersion_EncodeTo (s : XdrScEnvMetaEntryInterfaceVersion) : option bytes :=
  let '(mkXdrScEnvMetaEntryInterfaceVersion protocol preRelease) := s in
  write! Uint32_EncodeTo protocol in
  write! Uint32_EncodeTo preRelease in
  written.
Definition ScEnvMetaEntryInterfaceVersion_DecodeFrom (maxDepth : nat) : decode XdrScEnvMetaEntryInterfaceVersion := nested maxDepth (fun
    maxDepth =>
  read! protocol := Uint32_DecodeFrom maxDepth in
  read! preRelease := Uint32_DecodeFrom maxDepth in
  ret (mkXdrScEnvMetaEntryInterfaceVersion protocol preRelease)).
Definition ScEnvMetaEntryInterfaceVersion_valid (s : XdrScEnvMetaEntryInterfaceVersion) : bool :=
  let '(mkXdrScEnvMetaEntryInterfaceVersion protocol preRelease) := s in
  Uint32_valid protocol && Uint32_valid preRelease.

Inductive XdrScEnvMetaEntry : Type :=
| ScEnvMetaEntry_ScEnvMetaKindInterfaceVersion (interfaceVersion : XdrScEnvMetaEntryInterfaceVersion).
Definition ScEnvMetaEntry_EncodeTo (u : XdrScEnvMetaEntry) : option bytes :=
  match u with
  | ScEnvMetaEntry_ScEnvMetaKindInterfaceVersion interfaceVersion => write! ScEnvMetaKind_EncodeTo 0 in write!
      ScEnvMetaEntryInterfaceVersion_EncodeTo interfaceVersion in written
  end.
Definition ScEnvMetaEntry_DecodeFrom (maxDepth : nat) : decode XdrScEnvMetaEntry := nested maxDepth (fun maxDepth =>
  read! kind := ScEnvMetaKind_DecodeFrom maxDepth in
  if kind =? 0 then tracked "ScEnvMetaEntryInterfaceVersion" (read! interfaceVersion := ScEnvMetaEntryInterfaceVersion_DecodeFrom maxDepth
      in ret (ScEnvMetaEntry_ScEnvMetaKindInterfaceVersion interfaceVersion)) else
  invalid).
Definition ScEnvMetaEntry_valid (u : XdrScEnvMetaEntry) : bool :=
  match u with
  | ScEnvMetaEntry_ScEnvMetaKindInterfaceVersion interfaceVersion => ScEnvMetaEntryInterfaceVersion_valid interfaceVersion
  end.

Record XdrScMetaV0 : Type := mkXdrScMetaV0 {
  ScMetaV0_Key : bytes;
  ScMetaV0_Val : bytes
}.
Definition ScMetaV0_EncodeTo (s : XdrScMetaV0) : option bytes :=
  let '(mkXdrScMetaV0 key_ val) := s in
  write! EncodeString key_ in
  write! EncodeString val in
  written.
Definition ScMetaV0_DecodeFrom (maxDepth : nat) : decode XdrScMetaV0 := nested maxDepth (fun maxDepth =>
  read! key_ := DecodeString 0 in
  read! val := DecodeString 0 in
  ret (mkXdrScMetaV0 key_ val)).
Definition ScMetaV0_valid (s : XdrScMetaV0) : bool :=
  let '(mkXdrScMetaV0 key_ val) := s in
  valid_size (size_limit 0) key_ && valid_size (size_limit 0) val.

Definition scMetaKindMap : list Z := [0].
Definition ScMetaKind_EncodeTo (e : Z) : option bytes := enum_EncodeTo scMetaKindMap e.
Definition ScMetaKind_DecodeFrom (maxDepth : nat) : decode Z := enum_DecodeFrom scMetaKindMap maxDepth.
Definition ScMetaKind_valid (e : Z) : bool := valid_enum scMetaKindMap e.

Inductive XdrScMetaEntry : Type :=
| ScMetaEntry_ScMetaV0 (v0 : XdrScMetaV0).
Definition ScMetaEntry_EncodeTo (u : XdrScMetaEntry) : option bytes :=
  match u with
  | ScMetaEntry_ScMetaV0 v0 => write! ScMetaKind_EncodeTo 0 in write! ScMetaV0_EncodeTo v0 in written
  end.
Definition ScMetaEntry_DecodeFrom (maxDepth : nat) : decode XdrScMetaEntry := nested maxDepth (fun maxDepth =>
  read! kind := ScMetaKind_DecodeFrom maxDepth in
  if kind =? 0 then tracked "ScMetaV0" (read! v0 := ScMetaV0_DecodeFrom maxDepth in ret (ScMetaEntry_ScMetaV0 v0)) else
  invalid).
Definition ScMetaEntry_valid (u : XdrScMetaEntry) : bool :=
  match u with
  | ScMetaEntry_ScMetaV0 v0 => ScMetaV0_valid v0
  end.

Definition scSpecTypeMap : list Z := [0; 1; 2; 3; 4; 5; 6; 7; 8; 9; 10; 11; 12; 13; 14; 16; 17; 19; 20; 1000; 1001; 1002; 1004; 1005; 1006;
    2000].
Definition ScSpecType_EncodeTo (e : Z) : option bytes := enum_EncodeTo scSpecTypeMap e.
Definition ScSpecType_DecodeFrom (maxDepth : nat) : decode Z := enum_DecodeFrom scSpecTypeMap maxDepth.
Definition ScSpecType_valid (e : Z) : bool := valid_enum scSpecTypeMap e.

Record XdrScSpecTypeBytesN : Type := mkXdrScSpecTypeBytesN {
  ScSpecTypeBytesN_N : Z
}.
Definition ScSpecTypeBytesN_EncodeTo (s : XdrScSpecTypeBytesN) : option bytes :=
  let '(mkXdrScSpecTypeBytesN n_) := s in
  write! Uint32_EncodeTo n_ in
  written.
Definition ScSpecTypeBytesN_DecodeFrom (maxDepth : nat) : decode XdrScSpecTypeBytesN := nested maxDepth (fun maxDepth =>
  read! n_ := Uint32_DecodeFrom maxDepth in
  ret (mkXdrScSpecTypeBytesN n_)).
Definition ScSpecTypeBytesN_valid (s : XdrScSpecTypeBytesN) : bool :=
  let '(mkXdrScSpecTypeBytesN n_) := s in
  Uint32_valid n_.

Record XdrScSpecTypeUdt : Type := mkXdrScSpecTypeUdt {
  ScSpecTypeUdt_Name : bytes
}.
Definition ScSpecTypeUdt_EncodeTo (s : XdrScSpecTypeUdt) : option bytes :=
  let '(mkXdrScSpecTypeUdt name) := s in
  write! EncodeString name in
  written.
Definition ScSpecTypeUdt_DecodeFrom (maxDepth : nat) : decode XdrScSpecTypeUdt := nested maxDepth (fun maxDepth =>
  read! name := DecodeString 1024 in
  ret (mkXdrScSpecTypeUdt name)).
Definition ScSpecTypeUdt_valid (s : XdrScSpecTypeUdt) : bool :=
  let '(mkXdrScSpecTypeUdt name) := s in
  valid_size (size_limit 1024) name.

(** Types of contract values contain others. *)
Inductive XdrScSpecTypeDef : Type :=
| ScSpecTypeDef_ScSpecTypeVal
| ScSpecTypeDef_ScSpecTypeBool
| ScSpecTypeDef_ScSpecTypeVoid
| ScSpecTypeDef_ScSpecTypeError
| ScSpecTypeDef_ScSpecTypeU32
| ScSpecTypeDef_ScSpecTypeI32
| ScSpecTypeDef_ScSpecTypeU64
| ScSpecTypeDef_ScSpecTypeI64
| ScSpecTypeDef_ScSpecTypeTimepoint
| ScSpecTypeDef_ScSpecTypeDuration
| ScSpecTypeDef_ScSpecTypeU128
| ScSpecTypeDef_ScSpecTypeI128
| ScSpecTypeDef_ScSpecTypeU256
| ScSpecTypeDef_ScSpecTypeI256
| ScSpecTypeDef_ScSpecTypeBytes
| ScSpecTypeDef_ScSpecTypeString
| ScSpecTypeDef_ScSpecTypeSymbol
| ScSpecTypeDef_ScSpecTypeAddress
| ScSpecTypeDef_ScSpecTypeMuxedAddress
| ScSpecTypeDef_ScSpecTypeOption (x : XdrScSpecTypeOption)
| ScSpecTypeDef_ScSpecTypeResult (x : XdrScSpecTypeResult)
| ScSpecTypeDef_ScSpecTypeVec (x : XdrScSpecTypeVec)
| ScSpecTypeDef_ScSpecTypeMap (x : XdrScSpecTypeMap)
| ScSpecTypeDef_ScSpecTypeTuple (x : XdrScSpecTypeTuple)
| ScSpecTypeDef_ScSpecTypeBytesN (x : XdrScSpecTypeBytesN)
| ScSpecTypeDef_ScSpecTypeUdt (x : XdrScSpecTypeUdt)
with XdrScSpecTypeOption : Type := mkXdrScSpecTypeOption (ValueType : XdrScSpecTypeDef)
with XdrScSpecTypeResult : Type := mkXdrScSpecTypeResult (OkType : XdrScSpecTypeDef) (ErrorType : XdrScSpecTypeDef)
with XdrScSpecTypeVec : Type := mkXdrScSpecTypeVec (ElementType : XdrScSpecTypeDef)
with XdrScSpecTypeMap : Type := mkXdrScSpecTypeMap (KeyType : XdrScSpecTypeDef) (ValueType : XdrScSpecTypeDef)
with XdrScSpecTypeTuple : Type := mkXdrScSpecTypeTuple (ValueTypes : list XdrScSpecTypeDef).

Fixpoint ScSpecTypeDef_EncodeTo (u : XdrScSpecTypeDef) : option bytes :=
  match u with
  | ScSpecTypeDef_ScSpecTypeVal => write! ScSpecType_EncodeTo 0 in written
  | ScSpecTypeDef_ScSpecTypeBool => write! ScSpecType_EncodeTo 1 in written
  | ScSpecTypeDef_ScSpecTypeVoid => write! ScSpecType_EncodeTo 2 in written
  | ScSpecTypeDef_ScSpecTypeError => write! ScSpecType_EncodeTo 3 in written
  | ScSpecTypeDef_ScSpecTypeU32 => write! ScSpecType_EncodeTo 4 in written
  | ScSpecTypeDef_ScSpecTypeI32 => write! ScSpecType_EncodeTo 5 in written
  | ScSpecTypeDef_ScSpecTypeU64 => write! ScSpecType_EncodeTo 6 in written
  | ScSpecTypeDef_ScSpecTypeI64 => write! ScSpecType_EncodeTo 7 in written
  | ScSpecTypeDef_ScSpecTypeTimepoint => write! ScSpecType_EncodeTo 8 in written
  | ScSpecTypeDef_ScSpecTypeDuration => write! ScSpecType_EncodeTo 9 in written
  | ScSpecTypeDef_ScSpecTypeU128 => write! ScSpecType_EncodeTo 10 in written
  | ScSpecTypeDef_ScSpecTypeI128 => write! ScSpecType_EncodeTo 11 in written
  | ScSpecTypeDef_ScSpecTypeU256 => write! ScSpecType_EncodeTo 12 in written
  | ScSpecTypeDef_ScSpecTypeI256 => write! ScSpecType_EncodeTo 13 in written
  | ScSpecTypeDef_ScSpecTypeBytes => write! ScSpecType_EncodeTo 14 in written
  | ScSpecTypeDef_ScSpecTypeString => write! ScSpecType_EncodeTo 16 in written
  | ScSpecTypeDef_ScSpecTypeSymbol => write! ScSpecType_EncodeTo 17 in written
  | ScSpecTypeDef_ScSpecTypeAddress => write! ScSpecType_EncodeTo 19 in written
  | ScSpecTypeDef_ScSpecTypeMuxedAddress => write! ScSpecType_EncodeTo 20 in written
  | ScSpecTypeDef_ScSpecTypeOption x => write! ScSpecType_EncodeTo 1000 in write! ScSpecTypeOption_EncodeTo x in written
  | ScSpecTypeDef_ScSpecTypeResult x => write! ScSpecType_EncodeTo 1001 in write! ScSpecTypeResult_EncodeTo x in written
  | ScSpecTypeDef_ScSpecTypeVec x => write! ScSpecType_EncodeTo 1002 in write! ScSpecTypeVec_EncodeTo x in written
  | ScSpecTypeDef_ScSpecTypeMap x => write! ScSpecType_EncodeTo 1004 in write! ScSpecTypeMap_EncodeTo x in written
  | ScSpecTypeDef_ScSpecTypeTuple x => write! ScSpecType_EncodeTo 1005 in write! ScSpecTypeTuple_EncodeTo x in written
  | ScSpecTypeDef_ScSpecTypeBytesN x => write! ScSpecType_EncodeTo 1006 in write! ScSpecTypeBytesN_EncodeTo x in written
  | ScSpecTypeDef_ScSpecTypeUdt x => write! ScSpecType_EncodeTo 2000 in write! ScSpecTypeUdt_EncodeTo x in written
  end
with ScSpecTypeOption_EncodeTo (s : XdrScSpecTypeOption) : option bytes :=
  match s with mkXdrScSpecTypeOption valueType => write! ScSpecTypeDef_EncodeTo valueType in written end
with ScSpecTypeResult_EncodeTo (s : XdrScSpecTypeResult) : option bytes :=
  match s with mkXdrScSpecTypeResult okType errorType => write! ScSpecTypeDef_EncodeTo okType in write! ScSpecTypeDef_EncodeTo errorType in
      written end
with ScSpecTypeVec_EncodeTo (s : XdrScSpecTypeVec) : option bytes :=
  match s with mkXdrScSpecTypeVec elementType => write! ScSpecTypeDef_EncodeTo elementType in written end
with ScSpecTypeMap_EncodeTo (s : XdrScSpecTypeMap) : option bytes :=
  match s with mkXdrScSpecTypeMap keyType valueType => write! ScSpecTypeDef_EncodeTo keyType in write! ScSpecTypeDef_EncodeTo valueType in
      written end
with ScSpecTypeTuple_EncodeTo (s : XdrScSpecTypeTuple) : option bytes :=
  match s with mkXdrScSpecTypeTuple valueTypes => write! slice_EncodeTo ScSpecTypeDef_EncodeTo valueTypes in written end.

Fixpoint ScSpecTypeDef_DecodeFrom (maxDepth : nat) : decode XdrScSpecTypeDef :=
  match maxDepth with
  | O => invalid
  | S maxDepth =>
      read! type_ := ScSpecType_DecodeFrom maxDepth in
      if type_ =? 0 then ret ScSpecTypeDef_ScSpecTypeVal else
      if type_ =? 1 then ret ScSpecTypeDef_ScSpecTypeBool else
      if type_ =? 2 then ret ScSpecTypeDef_ScSpecTypeVoid else
      if type_ =? 3 then ret ScSpecTypeDef_ScSpecTypeError else
      if type_ =? 4 then ret ScSpecTypeDef_ScSpecTypeU32 else
      if type_ =? 5 then ret ScSpecTypeDef_ScSpecTypeI32 else
      if type_ =? 6 then ret ScSpecTypeDef_ScSpecTypeU64 else
      if type_ =? 7 then ret ScSpecTypeDef_ScSpecTypeI64 else
      if type_ =? 8 then ret ScSpecTypeDef_ScSpecTypeTimepoint else
      if type_ =? 9 then ret ScSpecTypeDef_ScSpecTypeDuration else
      if type_ =? 10 then ret ScSpecTypeDef_ScSpecTypeU128 else
      if type_ =? 11 then ret ScSpecTypeDef_ScSpecTypeI128 else
      if type_ =? 12 then ret ScSpecTypeDef_ScSpecTypeU256 else
      if type_ =? 13 then ret ScSpecTypeDef_ScSpecTypeI256 else
      if type_ =? 14 then ret ScSpecTypeDef_ScSpecTypeBytes else
      if type_ =? 16 then ret ScSpecTypeDef_ScSpecTypeString else
      if type_ =? 17 then ret ScSpecTypeDef_ScSpecTypeSymbol else
      if type_ =? 19 then ret ScSpecTypeDef_ScSpecTypeAddress else
      if type_ =? 20 then ret ScSpecTypeDef_ScSpecTypeMuxedAddress else
      if type_ =? 1000 then tracked "ScSpecTypeOption" (read! x := ScSpecTypeOption_DecodeFrom maxDepth in ret
          (ScSpecTypeDef_ScSpecTypeOption x)) else
      if type_ =? 1001 then tracked "ScSpecTypeResult" (read! x := ScSpecTypeResult_DecodeFrom maxDepth in ret
          (ScSpecTypeDef_ScSpecTypeResult x)) else
      if type_ =? 1002 then tracked "ScSpecTypeVec" (read! x := ScSpecTypeVec_DecodeFrom maxDepth in ret (ScSpecTypeDef_ScSpecTypeVec x))
          else
      if type_ =? 1004 then tracked "ScSpecTypeMap" (read! x := ScSpecTypeMap_DecodeFrom maxDepth in ret (ScSpecTypeDef_ScSpecTypeMap x))
          else
      if type_ =? 1005 then tracked "ScSpecTypeTuple" (read! x := ScSpecTypeTuple_DecodeFrom maxDepth in ret (ScSpecTypeDef_ScSpecTypeTuple
          x)) else
      if type_ =? 1006 then tracked "ScSpecTypeBytesN" (read! x := ScSpecTypeBytesN_DecodeFrom maxDepth in ret
          (ScSpecTypeDef_ScSpecTypeBytesN x)) else
      if type_ =? 2000 then tracked "ScSpecTypeUdt" (read! x := ScSpecTypeUdt_DecodeFrom maxDepth in ret (ScSpecTypeDef_ScSpecTypeUdt x))
          else
      invalid
  end
with ScSpecTypeOption_DecodeFrom (maxDepth : nat) : decode XdrScSpecTypeOption :=
  match maxDepth with
  | O => invalid
  | S maxDepth => read! valueType := ScSpecTypeDef_DecodeFrom maxDepth in ret (mkXdrScSpecTypeOption valueType)
  end
with ScSpecTypeResult_DecodeFrom (maxDepth : nat) : decode XdrScSpecTypeResult :=
  match maxDepth with
  | O => invalid
  | S maxDepth => read! okType := ScSpecTypeDef_DecodeFrom maxDepth in read! errorType := ScSpecTypeDef_DecodeFrom maxDepth in ret
      (mkXdrScSpecTypeResult okType errorType)
  end
with ScSpecTypeVec_DecodeFrom (maxDepth : nat) : decode XdrScSpecTypeVec :=
  match maxDepth with
  | O => invalid
  | S maxDepth => read! elementType := ScSpecTypeDef_DecodeFrom maxDepth in ret (mkXdrScSpecTypeVec elementType)
  end
with ScSpecTypeMap_DecodeFrom (maxDepth : nat) : decode XdrScSpecTypeMap :=
  match maxDepth with
  | O => invalid
  | S maxDepth => read! keyType := ScSpecTypeDef_DecodeFrom maxDepth in read! valueType := ScSpecTypeDef_DecodeFrom maxDepth in ret
      (mkXdrScSpecTypeMap keyType valueType)
  end
with ScSpecTypeTuple_DecodeFrom (maxDepth : nat) : decode XdrScSpecTypeTuple :=
  match maxDepth with
  | O => invalid
  | S maxDepth => read! valueTypes := slice_DecodeFrom "ScSpecTypeDef" (Some 12) (ScSpecTypeDef_DecodeFrom maxDepth) in ret
      (mkXdrScSpecTypeTuple valueTypes)
  end.

Definition ScSpecTypeOption_valid_with (valid : XdrScSpecTypeDef -> bool) (s : XdrScSpecTypeOption) : bool :=
  let '(mkXdrScSpecTypeOption valueType) := s in valid valueType.
Definition ScSpecTypeResult_valid_with (valid : XdrScSpecTypeDef -> bool) (s : XdrScSpecTypeResult) : bool :=
  let '(mkXdrScSpecTypeResult okType errorType) := s in valid okType && valid errorType.
Definition ScSpecTypeVec_valid_with (valid : XdrScSpecTypeDef -> bool) (s : XdrScSpecTypeVec) : bool :=
  let '(mkXdrScSpecTypeVec elementType) := s in valid elementType.
Definition ScSpecTypeMap_valid_with (valid : XdrScSpecTypeDef -> bool) (s : XdrScSpecTypeMap) : bool :=
  let '(mkXdrScSpecTypeMap keyType valueType) := s in valid keyType && valid valueType.
Definition ScSpecTypeTuple_valid_with (valid : XdrScSpecTypeDef -> bool) (s : XdrScSpecTypeTuple) : bool :=
  let '(mkXdrScSpecTypeTuple valueTypes) := s in valid_slice (Some 12) valid valueTypes.
Fixpoint ScSpecTypeDef_valid_in (depth : nat) (u : XdrScSpecTypeDef) : bool :=
  match u, depth with
  | ScSpecTypeDef_ScSpecTypeOption x, S depth => ScSpecTypeOption_valid_with (ScSpecTypeDef_valid_in depth) x
  | ScSpecTypeDef_ScSpecTypeResult x, S depth => ScSpecTypeResult_valid_with (ScSpecTypeDef_valid_in depth) x
  | ScSpecTypeDef_ScSpecTypeVec x, S depth => ScSpecTypeVec_valid_with (ScSpecTypeDef_valid_in depth) x
  | ScSpecTypeDef_ScSpecTypeMap x, S depth => ScSpecTypeMap_valid_with (ScSpecTypeDef_valid_in depth) x
  | ScSpecTypeDef_ScSpecTypeTuple x, S depth => ScSpecTypeTuple_valid_with (ScSpecTypeDef_valid_in depth) x
  | ScSpecTypeDef_ScSpecTypeOption _, O => false
  | ScSpecTypeDef_ScSpecTypeResult _, O => false
  | ScSpecTypeDef_ScSpecTypeVec _, O => false
  | ScSpecTypeDef_ScSpecTypeMap _, O => false
  | ScSpecTypeDef_ScSpecTypeTuple _, O => false
  | ScSpecTypeDef_ScSpecTypeBytesN x, _ => ScSpecTypeBytesN_valid x
  | ScSpecTypeDef_ScSpecTypeUdt x, _ => ScSpecTypeUdt_valid x
  | _, _ => true
  end.
Definition ScSpecTypeDef_valid : XdrScSpecTypeDef -> bool := ScSpecTypeDef_valid_in nesting.

Record XdrScSpecUdtStructFieldV0 : Type := mkXdrScSpecUdtStructFieldV0 {
  ScSpecUdtStructFieldV0_Doc : bytes;
  ScSpecUdtStructFieldV0_Name : bytes;
  ScSpecUdtStructFieldV0_Type : XdrScSpecTypeDef
}.
Definition ScSpecUdtStructFieldV0_EncodeTo (s : XdrScSpecUdtStructFieldV0) : option bytes :=
  let '(mkXdrScSpecUdtStructFieldV0 doc name type_) := s in
  write! EncodeString doc in
  write! EncodeString name in
  write! ScSpecTypeDef_EncodeTo type_ in
  written.
Definition ScSpecUdtStructFieldV0_DecodeFrom (maxDepth : nat) : decode XdrScSpecUdtStructFieldV0 := nested maxDepth (fun maxDepth =>
  read! doc := DecodeString 1024 in
  read! name := DecodeString 30 in
  read! type_ := ScSpecTypeDef_DecodeFrom maxDepth in
  ret (mkXdrScSpecUdtStructFieldV0 doc name type_)).
Definition ScSpecUdtStructFieldV0_valid (s : XdrScSpecUdtStructFieldV0) : bool :=
  let '(mkXdrScSpecUdtStructFieldV0 doc name type_) := s in
  valid_size (size_limit 1024) doc && valid_size (size_limit 30) name && ScSpecTypeDef_valid type_.

Record XdrScSpecUdtStructV0 : Type := mkXdrScSpecUdtStructV0 {
  ScSpecUdtStructV0_Doc : bytes;
  ScSpecUdtStructV0_Lib : bytes;
  ScSpecUdtStructV0_Name : bytes;
  ScSpecUdtStructV0_Fields : list XdrScSpecUdtStructFieldV0
}.
Definition ScSpecUdtStructV0_EncodeTo (s : XdrScSpecUdtStructV0) : option bytes :=
  let '(mkXdrScSpecUdtStructV0 doc lib name fields) := s in
  write! EncodeString doc in
  write! EncodeString lib in
  write! EncodeString name in
  write! slice_EncodeTo ScSpecUdtStructFieldV0_EncodeTo fields in
  written.
Definition ScSpecUdtStructV0_DecodeFrom (maxDepth : nat) : decode XdrScSpecUdtStructV0 := nested maxDepth (fun maxDepth =>
  read! doc := DecodeString 1024 in
  read! lib := DecodeString 80 in
  read! name := DecodeString 1024 in
  read! fields := slice_DecodeFrom "ScSpecUdtStructFieldV0" None (ScSpecUdtStructFieldV0_DecodeFrom maxDepth) in
  ret (mkXdrScSpecUdtStructV0 doc lib name fields)).
Definition ScSpecUdtStructV0_valid (s : XdrScSpecUdtStructV0) : bool :=
  let '(mkXdrScSpecUdtStructV0 doc lib name fields) := s in
  valid_size (size_limit 1024) doc && valid_size (size_limit 80) lib && valid_size (size_limit 1024) name && valid_slice None
      ScSpecUdtStructFieldV0_valid fields.

Record XdrScSpecUdtUnionCaseVoidV0 : Type := mkXdrScSpecUdtUnionCaseVoidV0 {
  ScSpecUdtUnionCaseVoidV0_Doc : bytes;
  ScSpecUdtUnionCaseVoidV0_Name : bytes
}.
Definition ScSpecUdtUnionCaseVoidV0_EncodeTo (s : XdrScSpecUdtUnionCaseVoidV0) : option bytes :=
  let '(mkXdrScSpecUdtUnionCaseVoidV0 doc name) := s in
  write! EncodeString doc in
  write! EncodeString name in
  written.
Definition ScSpecUdtUnionCaseVoidV0_DecodeFrom (maxDepth : nat) : decode XdrScSpecUdtUnionCaseVoidV0 := nested maxDepth (fun maxDepth =>
  read! doc := DecodeString 1024 in
  read! name := DecodeString 60 in
  ret (mkXdrScSpecUdtUnionCaseVoidV0 doc name)).
Definition ScSpecUdtUnionCaseVoidV0_valid (s : XdrScSpecUdtUnionCaseVoidV0) : bool :=
  let '(mkXdrScSpecUdtUnionCaseVoidV0 doc name) := s in
  valid_size (size_limit 1024) doc && valid_size (size_limit 60) name.

Record XdrScSpecUdtUnionCaseTupleV0 : Type := mkXdrScSpecUdtUnionCaseTupleV0 {
  ScSpecUdtUnionCaseTupleV0_Doc : bytes;
  ScSpecUdtUnionCaseTupleV0_Name : bytes;
  ScSpecUdtUnionCaseTupleV0_Type : list XdrScSpecTypeDef
}.
Definition ScSpecUdtUnionCaseTupleV0_EncodeTo (s : XdrScSpecUdtUnionCaseTupleV0) : option bytes :=
  let '(mkXdrScSpecUdtUnionCaseTupleV0 doc name type_) := s in
  write! EncodeString doc in
  write! EncodeString name in
  write! slice_EncodeTo ScSpecTypeDef_EncodeTo type_ in
  written.
Definition ScSpecUdtUnionCaseTupleV0_DecodeFrom (maxDepth : nat) : decode XdrScSpecUdtUnionCaseTupleV0 := nested maxDepth (fun maxDepth =>
  read! doc := DecodeString 1024 in
  read! name := DecodeString 60 in
  read! type_ := slice_DecodeFrom "ScSpecTypeDef" None (ScSpecTypeDef_DecodeFrom maxDepth) in
  ret (mkXdrScSpecUdtUnionCaseTupleV0 doc name type_)).
Definition ScSpecUdtUnionCaseTupleV0_valid (s : XdrScSpecUdtUnionCaseTupleV0) : bool :=
  let '(mkXdrScSpecUdtUnionCaseTupleV0 doc name type_) := s in
  valid_size (size_limit 1024) doc && valid_size (size_limit 60) name && valid_slice None ScSpecTypeDef_valid type_.

Definition scSpecUdtUnionCaseV0KindMap : list Z := [0; 1].
Definition ScSpecUdtUnionCaseV0Kind_EncodeTo (e : Z) : option bytes := enum_EncodeTo scSpecUdtUnionCaseV0KindMap e.
Definition ScSpecUdtUnionCaseV0Kind_DecodeFrom (maxDepth : nat) : decode Z := enum_DecodeFrom scSpecUdtUnionCaseV0KindMap maxDepth.
Definition ScSpecUdtUnionCaseV0Kind_valid (e : Z) : bool := valid_enum scSpecUdtUnionCaseV0KindMap e.

Inductive XdrScSpecUdtUnionCaseV0 : Type :=
| ScSpecUdtUnionCaseV0_ScSpecUdtUnionCaseVoidV0 (voidCase : XdrScSpecUdtUnionCaseVoidV0)
| ScSpecUdtUnionCaseV0_ScSpecUdtUnionCaseTupleV0 (tupleCase : XdrScSpecUdtUnionCaseTupleV0).
Definition ScSpecUdtUnionCaseV0_EncodeTo (u : XdrScSpecUdtUnionCaseV0) : option bytes :=
  match u with
  | ScSpecUdtUnionCaseV0_ScSpecUdtUnionCaseVoidV0 voidCase => write! ScSpecUdtUnionCaseV0Kind_EncodeTo 0 in write!
      ScSpecUdtUnionCaseVoidV0_EncodeTo voidCase in written
  | ScSpecUdtUnionCaseV0_ScSpecUdtUnionCaseTupleV0 tupleCase => write! ScSpecUdtUnionCaseV0Kind_EncodeTo 1 in write!
      ScSpecUdtUnionCaseTupleV0_EncodeTo tupleCase in written
  end.
Definition ScSpecUdtUnionCaseV0_DecodeFrom (maxDepth : nat) : decode XdrScSpecUdtUnionCaseV0 := nested maxDepth (fun maxDepth =>
  read! kind := ScSpecUdtUnionCaseV0Kind_DecodeFrom maxDepth in
  if kind =? 0 then tracked "ScSpecUdtUnionCaseVoidV0" (read! voidCase := ScSpecUdtUnionCaseVoidV0_DecodeFrom maxDepth in ret
      (ScSpecUdtUnionCaseV0_ScSpecUdtUnionCaseVoidV0 voidCase)) else
  if kind =? 1 then tracked "ScSpecUdtUnionCaseTupleV0" (read! tupleCase := ScSpecUdtUnionCaseTupleV0_DecodeFrom maxDepth in ret
      (ScSpecUdtUnionCaseV0_ScSpecUdtUnionCaseTupleV0 tupleCase)) else
  invalid).
Definition ScSpecUdtUnionCaseV0_valid (u : XdrScSpecUdtUnionCaseV0) : bool :=
  match u with
  | ScSpecUdtUnionCaseV0_ScSpecUdtUnionCaseVoidV0 voidCase => ScSpecUdtUnionCaseVoidV0_valid voidCase
  | ScSpecUdtUnionCaseV0_ScSpecUdtUnionCaseTupleV0 tupleCase => ScSpecUdtUnionCaseTupleV0_valid tupleCase
  end.

Record XdrScSpecUdtUnionV0 : Type := mkXdrScSpecUdtUnionV0 {
  ScSpecUdtUnionV0_Doc : bytes;
  ScSpecUdtUnionV0_Lib : bytes;
  ScSpecUdtUnionV0_Name : bytes;
  ScSpecUdtUnionV0_Cases : list XdrScSpecUdtUnionCaseV0
}.
Definition ScSpecUdtUnionV0_EncodeTo (s : XdrScSpecUdtUnionV0) : option bytes :=
  let '(mkXdrScSpecUdtUnionV0 doc lib name cases) := s in
  write! EncodeString doc in
  write! EncodeString lib in
  write! EncodeString name in
  write! slice_EncodeTo ScSpecUdtUnionCaseV0_EncodeTo cases in
  written.
Definition ScSpecUdtUnionV0_DecodeFrom (maxDepth : nat) : decode XdrScSpecUdtUnionV0 := nested maxDepth (fun maxDepth =>
  read! doc := DecodeString 1024 in
  read! lib := DecodeString 80 in
  read! name := DecodeString 1024 in
  read! cases := slice_DecodeFrom "ScSpecUdtUnionCaseV0" None (ScSpecUdtUnionCaseV0_DecodeFrom maxDepth) in
  ret (mkXdrScSpecUdtUnionV0 doc lib name cases)).
Definition ScSpecUdtUnionV0_valid (s : XdrScSpecUdtUnionV0) : bool :=
  let '(mkXdrScSpecUdtUnionV0 doc lib name cases) := s in
  valid_size (size_limit 1024) doc && valid_size (size_limit 80) lib && valid_size (size_limit 1024) name && valid_slice None
      ScSpecUdtUnionCaseV0_valid cases.

Record XdrScSpecUdtEnumCaseV0 : Type := mkXdrScSpecUdtEnumCaseV0 {
  ScSpecUdtEnumCaseV0_Doc : bytes;
  ScSpecUdtEnumCaseV0_Name : bytes;
  ScSpecUdtEnumCaseV0_Value : Z
}.
Definition ScSpecUdtEnumCaseV0_EncodeTo (s : XdrScSpecUdtEnumCaseV0) : option bytes :=
  let '(mkXdrScSpecUdtEnumCaseV0 doc name value) := s in
  write! EncodeString doc in
  write! EncodeString name in
  write! Uint32_EncodeTo value in
  written.
Definition ScSpecUdtEnumCaseV0_DecodeFrom (maxDepth : nat) : decode XdrScSpecUdtEnumCaseV0 := nested maxDepth (fun maxDepth =>
  read! doc := DecodeString 1024 in
  read! name := DecodeString 60 in
  read! value := Uint32_DecodeFrom maxDepth in
  ret (mkXdrScSpecUdtEnumCaseV0 doc name value)).
Definition ScSpecUdtEnumCaseV0_valid (s : XdrScSpecUdtEnumCaseV0) : bool :=
  let '(mkXdrScSpecUdtEnumCaseV0 doc name value) := s in
  valid_size (size_limit 1024) doc && valid_size (size_limit 60) name && Uint32_valid value.

Record XdrScSpecUdtEnumV0 : Type := mkXdrScSpecUdtEnumV0 {
  ScSpecUdtEnumV0_Doc : bytes;
  ScSpecUdtEnumV0_Lib : bytes;
  ScSpecUdtEnumV0_Name : bytes;
  ScSpecUdtEnumV0_Cases : list XdrScSpecUdtEnumCaseV0
}.
Definition ScSpecUdtEnumV0_EncodeTo (s : XdrScSpecUdtEnumV0) : option bytes :=
  let '(mkXdrScSpecUdtEnumV0 doc lib name cases) := s in
  write! EncodeString doc in
  write! EncodeString lib in
  write! EncodeString name in
  write! slice_EncodeTo ScSpecUdtEnumCaseV0_EncodeTo cases in
  written.
Definition ScSpecUdtEnumV0_DecodeFrom (maxDepth : nat) : decode XdrScSpecUdtEnumV0 := nested maxDepth (fun maxDepth =>
  read! doc := DecodeString 1024 in
  read! lib := DecodeString 80 in
  read! name := DecodeString 1024 in
  read! cases := slice_DecodeFrom "ScSpecUdtEnumCaseV0" None (ScSpecUdtEnumCaseV0_DecodeFrom maxDepth) in
  ret (mkXdrScSpecUdtEnumV0 doc lib name cases)).
Definition ScSpecUdtEnumV0_valid (s : XdrScSpecUdtEnumV0) : bool :=
  let '(mkXdrScSpecUdtEnumV0 doc lib name cases) := s in
  valid_size (size_limit 1024) doc && valid_size (size_limit 80) lib && valid_size (size_limit 1024) name && valid_slice None
      ScSpecUdtEnumCaseV0_valid cases.

Record XdrScSpecUdtErrorEnumCaseV0 : Type := mkXdrScSpecUdtErrorEnumCaseV0 {
  ScSpecUdtErrorEnumCaseV0_Doc : bytes;
  ScSpecUdtErrorEnumCaseV0_Name : bytes;
  ScSpecUdtErrorEnumCaseV0_Value : Z
}.
Definition ScSpecUdtErrorEnumCaseV0_EncodeTo (s : XdrScSpecUdtErrorEnumCaseV0) : option bytes :=
  let '(mkXdrScSpecUdtErrorEnumCaseV0 doc name value) := s in
  write! EncodeString doc in
  write! EncodeString name in
  write! Uint32_EncodeTo value in
  written.
Definition ScSpecUdtErrorEnumCaseV0_DecodeFrom (maxDepth : nat) : decode XdrScSpecUdtErrorEnumCaseV0 := nested maxDepth (fun maxDepth =>
  read! doc := DecodeString 1024 in
  read! name := DecodeString 60 in
  read! value := Uint32_DecodeFrom maxDepth in
  ret (mkXdrScSpecUdtErrorEnumCaseV0 doc name value)).
Definition ScSpecUdtErrorEnumCaseV0_valid (s : XdrScSpecUdtErrorEnumCaseV0) : bool :=
  let '(mkXdrScSpecUdtErrorEnumCaseV0 doc name value) := s in
  valid_size (size_limit 1024) doc && valid_size (size_limit 60) name && Uint32_valid value.

Record XdrScSpecUdtErrorEnumV0 : Type := mkXdrScSpecUdtErrorEnumV0 {
  ScSpecUdtErrorEnumV0_Doc : bytes;
  ScSpecUdtErrorEnumV0_Lib : bytes;
  ScSpecUdtErrorEnumV0_Name : bytes;
  ScSpecUdtErrorEnumV0_Cases : list XdrScSpecUdtErrorEnumCaseV0
}.
Definition ScSpecUdtErrorEnumV0_EncodeTo (s : XdrScSpecUdtErrorEnumV0) : option bytes :=
  let '(mkXdrScSpecUdtErrorEnumV0 doc lib name cases) := s in
  write! EncodeString doc in
  write! EncodeString lib in
  write! EncodeString name in
  write! slice_EncodeTo ScSpecUdtErrorEnumCaseV0_EncodeTo cases in
  written.
Definition ScSpecUdtErrorEnumV0_DecodeFrom (maxDepth : nat) : decode XdrScSpecUdtErrorEnumV0 := nested maxDepth (fun maxDepth =>
  read! doc := DecodeString 1024 in
  read! lib := DecodeString 80 in
  read! name := DecodeString 1024 in
  read! cases := slice_DecodeFrom "ScSpecUdtErrorEnumCaseV0" None (ScSpecUdtErrorEnumCaseV0_DecodeFrom maxDepth) in
  ret (mkXdrScSpecUdtErrorEnumV0 doc lib name cases)).
Definition ScSpecUdtErrorEnumV0_valid (s : XdrScSpecUdtErrorEnumV0) : bool :=
  let '(mkXdrScSpecUdtErrorEnumV0 doc lib name cases) := s in
  valid_size (size_limit 1024) doc && valid_size (size_limit 80) lib && valid_size (size_limit 1024) name && valid_slice None
      ScSpecUdtErrorEnumCaseV0_valid cases.

Record XdrScSpecFunctionInputV0 : Type := mkXdrScSpecFunctionInputV0 {
  ScSpecFunctionInputV0_Doc : bytes;
  ScSpecFunctionInputV0_Name : bytes;
  ScSpecFunctionInputV0_Type : XdrScSpecTypeDef
}.
Definition ScSpecFunctionInputV0_EncodeTo (s : XdrScSpecFunctionInputV0) : option bytes :=
  let '(mkXdrScSpecFunctionInputV0 doc name type_) := s in
  write! EncodeString doc in
  write! EncodeString name in
  write! ScSpecTypeDef_EncodeTo type_ in
  written.
Definition ScSpecFunctionInputV0_DecodeFrom (maxDepth : nat) : decode XdrScSpecFunctionInputV0 := nested maxDepth (fun maxDepth =>
  read! doc := DecodeString 1024 in
  read! name := DecodeString 30 in
  read! type_ := ScSpecTypeDef_DecodeFrom maxDepth in
  ret (mkXdrScSpecFunctionInputV0 doc name type_)).
Definition ScSpecFunctionInputV0_valid (s : XdrScSpecFunctionInputV0) : bool :=
  let '(mkXdrScSpecFunctionInputV0 doc name type_) := s in
  valid_size (size_limit 1024) doc && valid_size (size_limit 30) name && ScSpecTypeDef_valid type_.

Record XdrScSpecFunctionV0 : Type := mkXdrScSpecFunctionV0 {
  ScSpecFunctionV0_Doc : bytes;
  ScSpecFunctionV0_Name : bytes;
  ScSpecFunctionV0_Inputs : list XdrScSpecFunctionInputV0;
  ScSpecFunctionV0_Outputs : list XdrScSpecTypeDef
}.
Definition ScSpecFunctionV0_EncodeTo (s : XdrScSpecFunctionV0) : option bytes :=
  let '(mkXdrScSpecFunctionV0 doc name inputs outputs) := s in
  write! EncodeString doc in
  write! ScSymbol_EncodeTo name in
  write! slice_EncodeTo ScSpecFunctionInputV0_EncodeTo inputs in
  write! slice_EncodeTo ScSpecTypeDef_EncodeTo outputs in
  written.
Definition ScSpecFunctionV0_DecodeFrom (maxDepth : nat) : decode XdrScSpecFunctionV0 := nested maxDepth (fun maxDepth =>
  read! doc := DecodeString 1024 in
  read! name := ScSymbol_DecodeFrom maxDepth in
  read! inputs := slice_DecodeFrom "ScSpecFunctionInputV0" None (ScSpecFunctionInputV0_DecodeFrom maxDepth) in
  read! outputs := slice_DecodeFrom "ScSpecTypeDef" (Some 1) (ScSpecTypeDef_DecodeFrom maxDepth) in
  ret (mkXdrScSpecFunctionV0 doc name inputs outputs)).
Definition ScSpecFunctionV0_valid (s : XdrScSpecFunctionV0) : bool :=
  let '(mkXdrScSpecFunctionV0 doc name inputs outputs) := s in
  valid_size (size_limit 1024) doc && ScSymbol_valid name && valid_slice None ScSpecFunctionInputV0_valid inputs && valid_slice (Some 1)
      ScSpecTypeDef_valid outputs.

Definition scSpecEventParamLocationV0Map : list Z := [0; 1].
Definition ScSpecEventParamLocationV0_EncodeTo (e : Z) : option bytes := enum_EncodeTo scSpecEventParamLocationV0Map e.
Definition ScSpecEventParamLocationV0_DecodeFrom (maxDepth : nat) : decode Z := enum_DecodeFrom scSpecEventParamLocationV0Map maxDepth.
Definition ScSpecEventParamLocationV0_valid (e : Z) : bool := valid_enum scSpecEventParamLocationV0Map e.

Record XdrScSpecEventParamV0 : Type := mkXdrScSpecEventParamV0 {
  ScSpecEventParamV0_Doc : bytes;
  ScSpecEventParamV0_Name : bytes;
  ScSpecEventParamV0_Type : XdrScSpecTypeDef;
  ScSpecEventParamV0_Location : Z
}.
Definition ScSpecEventParamV0_EncodeTo (s : XdrScSpecEventParamV0) : option bytes :=
  let '(mkXdrScSpecEventParamV0 doc name type_ location) := s in
  write! EncodeString doc in
  write! EncodeString name in
  write! ScSpecTypeDef_EncodeTo type_ in
  write! ScSpecEventParamLocationV0_EncodeTo location in
  written.
Definition ScSpecEventParamV0_DecodeFrom (maxDepth : nat) : decode XdrScSpecEventParamV0 := nested maxDepth (fun maxDepth =>
  read! doc := DecodeString 1024 in
  read! name := DecodeString 30 in
  read! type_ := ScSpecTypeDef_DecodeFrom maxDepth in
  read! location := ScSpecEventParamLocationV0_DecodeFrom maxDepth in
  ret (mkXdrScSpecEventParamV0 doc name type_ location)).
Definition ScSpecEventParamV0_valid (s : XdrScSpecEventParamV0) : bool :=
  let '(mkXdrScSpecEventParamV0 doc name type_ location) := s in
  valid_size (size_limit 1024) doc && valid_size (size_limit 30) name && ScSpecTypeDef_valid type_ && ScSpecEventParamLocationV0_valid
      location.

Definition scSpecEventDataFormatMap : list Z := [0; 1; 2].
Definition ScSpecEventDataFormat_EncodeTo (e : Z) : option bytes := enum_EncodeTo scSpecEventDataFormatMap e.
Definition ScSpecEventDataFormat_DecodeFrom (maxDepth : nat) : decode Z := enum_DecodeFrom scSpecEventDataFormatMap maxDepth.
Definition ScSpecEventDataFormat_valid (e : Z) : bool := valid_enum scSpecEventDataFormatMap e.

Record XdrScSpecEventV0 : Type := mkXdrScSpecEventV0 {
  ScSpecEventV0_Doc : bytes;
  ScSpecEventV0_Lib : bytes;
  ScSpecEventV0_Name : bytes;
  ScSpecEventV0_PrefixTopics : list bytes;
  ScSpecEventV0_Params : list XdrScSpecEventParamV0;
  ScSpecEventV0_DataFormat : Z
}.
Definition ScSpecEventV0_EncodeTo (s : XdrScSpecEventV0) : option bytes :=
  let '(mkXdrScSpecEventV0 doc lib name prefixTopics params dataFormat) := s in
  write! EncodeString doc in
  write! EncodeString lib in
  write! EncodeString name in
  write! slice_EncodeTo ScSymbol_EncodeTo prefixTopics in
  write! slice_EncodeTo ScSpecEventParamV0_EncodeTo params in
  write! ScSpecEventDataFormat_EncodeTo dataFormat in
  written.
Definition ScSpecEventV0_DecodeFrom (maxDepth : nat) : decode XdrScSpecEventV0 := nested maxDepth (fun maxDepth =>
  read! doc := DecodeString 1024 in
  read! lib := DecodeString 80 in
  read! name := DecodeString 1024 in
  read! prefixTopics := slice_DecodeFrom "ScSymbol" (Some 2) (ScSymbol_DecodeFrom maxDepth) in
  read! params := slice_DecodeFrom "ScSpecEventParamV0" None (ScSpecEventParamV0_DecodeFrom maxDepth) in
  read! dataFormat := ScSpecEventDataFormat_DecodeFrom maxDepth in
  ret (mkXdrScSpecEventV0 doc lib name prefixTopics params dataFormat)).
Definition ScSpecEventV0_valid (s : XdrScSpecEventV0) : bool :=
  let '(mkXdrScSpecEventV0 doc lib name prefixTopics params dataFormat) := s in
  valid_size (size_limit 1024) doc && valid_size (size_limit 80) lib && valid_size (size_limit 1024) name && valid_slice (Some 2)
      ScSymbol_valid prefixTopics && valid_slice None ScSpecEventParamV0_valid params && ScSpecEventDataFormat_valid dataFormat.

Definition scSpecEntryKindMap : list Z := [0; 1; 2; 3; 4; 5].
Definition ScSpecEntryKind_EncodeTo (e : Z) : option bytes := enum_EncodeTo scSpecEntryKindMap e.
Definition ScSpecEntryKind_DecodeFrom (maxDepth : nat) : decode Z := enum_DecodeFrom scSpecEntryKindMap maxDepth.
Definition ScSpecEntryKind_valid (e : Z) : bool := valid_enum scSpecEntryKindMap e.

Inductive XdrScSpecEntry : Type :=
| ScSpecEntry_ScSpecEntryFunctionV0 (functionV0 : XdrScSpecFunctionV0)
| ScSpecEntry_ScSpecEntryUdtStructV0 (udtStructV0 : XdrScSpecUdtStructV0)
| ScSpecEntry_ScSpecEntryUdtUnionV0 (udtUnionV0 : XdrScSpecUdtUnionV0)
| ScSpecEntry_ScSpecEntryUdtEnumV0 (udtEnumV0 : XdrScSpecUdtEnumV0)
| ScSpecEntry_ScSpecEntryUdtErrorEnumV0 (udtErrorEnumV0 : XdrScSpecUdtErrorEnumV0)
| ScSpecEntry_ScSpecEntryEventV0 (eventV0 : XdrScSpecEventV0).
Definition ScSpecEntry_EncodeTo (u : XdrScSpecEntry) : option bytes :=
  match u with
  | ScSpecEntry_ScSpecEntryFunctionV0 functionV0 => write! ScSpecEntryKind_EncodeTo 0 in write! ScSpecFunctionV0_EncodeTo functionV0 in
      written
  | ScSpecEntry_ScSpecEntryUdtStructV0 udtStructV0 => write! ScSpecEntryKind_EncodeTo 1 in write! ScSpecUdtStructV0_EncodeTo udtStructV0 in
      written
  | ScSpecEntry_ScSpecEntryUdtUnionV0 udtUnionV0 => write! ScSpecEntryKind_EncodeTo 2 in write! ScSpecUdtUnionV0_EncodeTo udtUnionV0 in
      written
  | ScSpecEntry_ScSpecEntryUdtEnumV0 udtEnumV0 => write! ScSpecEntryKind_EncodeTo 3 in write! ScSpecUdtEnumV0_EncodeTo udtEnumV0 in written
  | ScSpecEntry_ScSpecEntryUdtErrorEnumV0 udtErrorEnumV0 => write! ScSpecEntryKind_EncodeTo 4 in write! ScSpecUdtErrorEnumV0_EncodeTo
      udtErrorEnumV0 in written
  | ScSpecEntry_ScSpecEntryEventV0 eventV0 => write! ScSpecEntryKind_EncodeTo 5 in write! ScSpecEventV0_EncodeTo eventV0 in written
  end.
Definition ScSpecEntry_DecodeFrom (maxDepth : nat) : decode XdrScSpecEntry := nested maxDepth (fun maxDepth =>
  read! kind := ScSpecEntryKind_DecodeFrom maxDepth in
  if kind =? 0 then tracked "ScSpecFunctionV0" (read! functionV0 := ScSpecFunctionV0_DecodeFrom maxDepth in ret
      (ScSpecEntry_ScSpecEntryFunctionV0 functionV0)) else
  if kind =? 1 then tracked "ScSpecUdtStructV0" (read! udtStructV0 := ScSpecUdtStructV0_DecodeFrom maxDepth in ret
      (ScSpecEntry_ScSpecEntryUdtStructV0 udtStructV0)) else
  if kind =? 2 then tracked "ScSpecUdtUnionV0" (read! udtUnionV0 := ScSpecUdtUnionV0_DecodeFrom maxDepth in ret
      (ScSpecEntry_ScSpecEntryUdtUnionV0 udtUnionV0)) else
  if kind =? 3 then tracked "ScSpecUdtEnumV0" (read! udtEnumV0 := ScSpecUdtEnumV0_DecodeFrom maxDepth in ret
      (ScSpecEntry_ScSpecEntryUdtEnumV0 udtEnumV0)) else
  if kind =? 4 then tracked "ScSpecUdtErrorEnumV0" (read! udtErrorEnumV0 := ScSpecUdtErrorEnumV0_DecodeFrom maxDepth in ret
      (ScSpecEntry_ScSpecEntryUdtErrorEnumV0 udtErrorEnumV0)) else
  if kind =? 5 then tracked "ScSpecEventV0" (read! eventV0 := ScSpecEventV0_DecodeFrom maxDepth in ret (ScSpecEntry_ScSpecEntryEventV0
      eventV0)) else
  invalid).
Definition ScSpecEntry_valid (u : XdrScSpecEntry) : bool :=
  match u with
  | ScSpecEntry_ScSpecEntryFunctionV0 functionV0 => ScSpecFunctionV0_valid functionV0
  | ScSpecEntry_ScSpecEntryUdtStructV0 udtStructV0 => ScSpecUdtStructV0_valid udtStructV0
  | ScSpecEntry_ScSpecEntryUdtUnionV0 udtUnionV0 => ScSpecUdtUnionV0_valid udtUnionV0
  | ScSpecEntry_ScSpecEntryUdtEnumV0 udtEnumV0 => ScSpecUdtEnumV0_valid udtEnumV0
  | ScSpecEntry_ScSpecEntryUdtErrorEnumV0 udtErrorEnumV0 => ScSpecUdtErrorEnumV0_valid udtErrorEnumV0
  | ScSpecEntry_ScSpecEntryEventV0 eventV0 => ScSpecEventV0_valid eventV0
  end.

Inductive XdrStoredTransactionSet : Type :=
| StoredTransactionSet_0 (txSet : XdrTransactionSet)
| StoredTransactionSet_1 (generalizedTxSet : XdrGeneralizedTransactionSet).
Definition StoredTransactionSet_EncodeTo (u : XdrStoredTransactionSet) : option bytes :=
  match u with
  | StoredTransactionSet_0 txSet => write! EncodeInt 0 in write! TransactionSet_EncodeTo txSet in written
  | StoredTransactionSet_1 generalizedTxSet => write! EncodeInt 1 in write! GeneralizedTransactionSet_EncodeTo generalizedTxSet in written
  end.
Definition StoredTransactionSet_DecodeFrom (maxDepth : nat) : decode XdrStoredTransactionSet := nested maxDepth (fun maxDepth =>
  read! v := DecodeInt in
  if v =? 0 then tracked "TransactionSet" (read! txSet := TransactionSet_DecodeFrom maxDepth in ret (StoredTransactionSet_0 txSet)) else
  if v =? 1 then tracked "GeneralizedTransactionSet" (read! generalizedTxSet := GeneralizedTransactionSet_DecodeFrom maxDepth in ret
      (StoredTransactionSet_1 generalizedTxSet)) else
  invalid).
Definition StoredTransactionSet_valid (u : XdrStoredTransactionSet) : bool :=
  match u with
  | StoredTransactionSet_0 txSet => TransactionSet_valid txSet
  | StoredTransactionSet_1 generalizedTxSet => GeneralizedTransactionSet_valid generalizedTxSet
  end.

Record XdrStoredDebugTransactionSet : Type := mkXdrStoredDebugTransactionSet {
  StoredDebugTransactionSet_TxSet : XdrStoredTransactionSet;
  StoredDebugTransactionSet_LedgerSeq : Z;
  StoredDebugTransactionSet_ScpValue : XdrStellarValue
}.
Definition StoredDebugTransactionSet_EncodeTo (s : XdrStoredDebugTransactionSet) : option bytes :=
  let '(mkXdrStoredDebugTransactionSet txSet ledgerSeq scpValue) := s in
  write! StoredTransactionSet_EncodeTo txSet in
  write! Uint32_EncodeTo ledgerSeq in
  write! StellarValue_EncodeTo scpValue in
  written.
Definition StoredDebugTransactionSet_DecodeFrom (maxDepth : nat) : decode XdrStoredDebugTransactionSet := nested maxDepth (fun maxDepth =>
  read! txSet := StoredTransactionSet_DecodeFrom maxDepth in
  read! ledgerSeq := Uint32_DecodeFrom maxDepth in
  read! scpValue := StellarValue_DecodeFrom maxDepth in
  ret (mkXdrStoredDebugTransactionSet txSet ledgerSeq scpValue)).
Definition StoredDebugTransactionSet_valid (s : XdrStoredDebugTransactionSet) : bool :=
  let '(mkXdrStoredDebugTransactionSet txSet ledgerSeq scpValue) := s in
  StoredTransactionSet_valid txSet && Uint32_valid ledgerSeq && StellarValue_valid scpValue.

Record XdrPersistedScpStateV0 : Type := mkXdrPersistedScpStateV0 {
  PersistedScpStateV0_ScpEnvelopes : list XdrScpEnvelope;
  PersistedScpStateV0_QuorumSets : list XdrScpQuorumSet;
  PersistedScpStateV0_TxSets : list XdrStoredTransactionSet
}.
Definition PersistedScpStateV0_EncodeTo (s : XdrPersistedScpStateV0) : option bytes :=
  let '(mkXdrPersistedScpStateV0 scpEnvelopes quorumSets txSets) := s in
  write! slice_EncodeTo ScpEnvelope_EncodeTo scpEnvelopes in
  write! slice_EncodeTo ScpQuorumSet_EncodeTo quorumSets in
  write! slice_EncodeTo StoredTransactionSet_EncodeTo txSets in
  written.
Definition PersistedScpStateV0_DecodeFrom (maxDepth : nat) : decode XdrPersistedScpStateV0 := nested maxDepth (fun maxDepth =>
  read! scpEnvelopes := slice_DecodeFrom "ScpEnvelope" None (ScpEnvelope_DecodeFrom maxDepth) in
  read! quorumSets := slice_DecodeFrom "ScpQuorumSet" None (ScpQuorumSet_DecodeFrom maxDepth) in
  read! txSets := slice_DecodeFrom "StoredTransactionSet" None (StoredTransactionSet_DecodeFrom maxDepth) in
  ret (mkXdrPersistedScpStateV0 scpEnvelopes quorumSets txSets)).
Definition PersistedScpStateV0_valid (s : XdrPersistedScpStateV0) : bool :=
  let '(mkXdrPersistedScpStateV0 scpEnvelopes quorumSets txSets) := s in
  valid_slice None ScpEnvelope_valid scpEnvelopes && valid_slice None ScpQuorumSet_valid quorumSets && valid_slice None
      StoredTransactionSet_valid txSets.

Record XdrPersistedScpStateV1 : Type := mkXdrPersistedScpStateV1 {
  PersistedScpStateV1_ScpEnvelopes : list XdrScpEnvelope;
  PersistedScpStateV1_QuorumSets : list XdrScpQuorumSet
}.
Definition PersistedScpStateV1_EncodeTo (s : XdrPersistedScpStateV1) : option bytes :=
  let '(mkXdrPersistedScpStateV1 scpEnvelopes quorumSets) := s in
  write! slice_EncodeTo ScpEnvelope_EncodeTo scpEnvelopes in
  write! slice_EncodeTo ScpQuorumSet_EncodeTo quorumSets in
  written.
Definition PersistedScpStateV1_DecodeFrom (maxDepth : nat) : decode XdrPersistedScpStateV1 := nested maxDepth (fun maxDepth =>
  read! scpEnvelopes := slice_DecodeFrom "ScpEnvelope" None (ScpEnvelope_DecodeFrom maxDepth) in
  read! quorumSets := slice_DecodeFrom "ScpQuorumSet" None (ScpQuorumSet_DecodeFrom maxDepth) in
  ret (mkXdrPersistedScpStateV1 scpEnvelopes quorumSets)).
Definition PersistedScpStateV1_valid (s : XdrPersistedScpStateV1) : bool :=
  let '(mkXdrPersistedScpStateV1 scpEnvelopes quorumSets) := s in
  valid_slice None ScpEnvelope_valid scpEnvelopes && valid_slice None ScpQuorumSet_valid quorumSets.

Inductive XdrPersistedScpState : Type :=
| PersistedScpState_0 (v0 : XdrPersistedScpStateV0)
| PersistedScpState_1 (v1 : XdrPersistedScpStateV1).
Definition PersistedScpState_EncodeTo (u : XdrPersistedScpState) : option bytes :=
  match u with
  | PersistedScpState_0 v0 => write! EncodeInt 0 in write! PersistedScpStateV0_EncodeTo v0 in written
  | PersistedScpState_1 v1 => write! EncodeInt 1 in write! PersistedScpStateV1_EncodeTo v1 in written
  end.
Definition PersistedScpState_DecodeFrom (maxDepth : nat) : decode XdrPersistedScpState := nested maxDepth (fun maxDepth =>
  read! v := DecodeInt in
  if v =? 0 then tracked "PersistedScpStateV0" (read! v0 := PersistedScpStateV0_DecodeFrom maxDepth in ret (PersistedScpState_0 v0)) else
  if v =? 1 then tracked "PersistedScpStateV1" (read! v1 := PersistedScpStateV1_DecodeFrom maxDepth in ret (PersistedScpState_1 v1)) else
  invalid).
Definition PersistedScpState_valid (u : XdrPersistedScpState) : bool :=
  match u with
  | PersistedScpState_0 v0 => PersistedScpStateV0_valid v0
  | PersistedScpState_1 v1 => PersistedScpStateV1_valid v1
  end.

Definition contractCostTypeMap : list Z := [0; 1; 2; 3; 4; 5; 6; 7; 8; 9; 10; 11; 12; 13; 14; 15; 16; 17; 18; 19; 20; 21; 22; 23; 24; 25;
    26; 27; 28; 29; 30; 31; 32; 33; 34; 35; 36; 37; 38; 39; 40; 41; 42; 43; 44; 45; 46; 47; 48; 49; 50; 51; 52; 53; 54; 55; 56; 57; 58; 59;
    60; 61; 62; 63; 64; 65; 66; 67; 68; 69; 70; 71; 72; 73; 74; 75; 76; 77; 78; 79; 80; 81; 82; 83; 84; 85; 86; 87; 88; 89; 90; 91; 92; 93;
    94].
Definition ContractCostType_EncodeTo (e : Z) : option bytes := enum_EncodeTo contractCostTypeMap e.
Definition ContractCostType_DecodeFrom (maxDepth : nat) : decode Z := enum_DecodeFrom contractCostTypeMap maxDepth.
Definition ContractCostType_valid (e : Z) : bool := valid_enum contractCostTypeMap e.

Record XdrLedgerCloseMetaBatch : Type := mkXdrLedgerCloseMetaBatch {
  LedgerCloseMetaBatch_StartSequence : Z;
  LedgerCloseMetaBatch_EndSequence : Z;
  LedgerCloseMetaBatch_LedgerCloseMetas : list XdrLedgerCloseMeta
}.
Definition LedgerCloseMetaBatch_EncodeTo (s : XdrLedgerCloseMetaBatch) : option bytes :=
  let '(mkXdrLedgerCloseMetaBatch startSequence endSequence ledgerCloseMetas) := s in
  write! Uint32_EncodeTo startSequence in
  write! Uint32_EncodeTo endSequence in
  write! slice_EncodeTo LedgerCloseMeta_EncodeTo ledgerCloseMetas in
  written.
Definition LedgerCloseMetaBatch_DecodeFrom (maxDepth : nat) : decode XdrLedgerCloseMetaBatch := nested maxDepth (fun maxDepth =>
  read! startSequence := Uint32_DecodeFrom maxDepth in
  read! endSequence := Uint32_DecodeFrom maxDepth in
  read! ledgerCloseMetas := slice_DecodeFrom "LedgerCloseMeta" None (LedgerCloseMeta_DecodeFrom maxDepth) in
  ret (mkXdrLedgerCloseMetaBatch startSequence endSequence ledgerCloseMetas)).
Definition LedgerCloseMetaBatch_valid (s : XdrLedgerCloseMetaBatch) : bool :=
  let '(mkXdrLedgerCloseMetaBatch startSequence endSequence ledgerCloseMetas) := s in
  Uint32_valid startSequence && Uint32_valid endSequence && valid_slice None LedgerCloseMeta_valid ledgerCloseMetas.
End Types.

(** ** Each type is read back *)
Section Laws.
Context {X : GoXdrCoder} {XL : GoXdrCoderLaws X} {N : Nesting}.

Lemma ThresholdIndexes_coded : coded 1 ThresholdIndexes_valid ThresholdIndexes_EncodeTo ThresholdIndexes_DecodeFrom.
Proof. by apply (enum_coded thresholdIndexesMap). Qed.
#[local] Hint Resolve ThresholdIndexes_coded : xdr.
Lemma AccountFlags_coded : coded 1 AccountFlags_valid AccountFlags_EncodeTo AccountFlags_DecodeFrom.
Proof. by apply (enum_coded accountFlagsMap). Qed.
#[local] Hint Resolve AccountFlags_coded : xdr.
Lemma TrustLineFlags_coded : coded 1 TrustLineFlags_valid TrustLineFlags_EncodeTo TrustLineFlags_DecodeFrom.
Proof. by apply (enum_coded trustLineFlagsMap). Qed.
#[local] Hint Resolve TrustLineFlags_coded : xdr.
Lemma OfferEntryFlags_coded : coded 1 OfferEntryFlags_valid OfferEntryFlags_EncodeTo OfferEntryFlags_DecodeFrom.
Proof. by apply (enum_coded offerEntryFlagsMap). Qed.
#[local] Hint Resolve OfferEntryFlags_coded : xdr.
Lemma ClaimableBalanceFlags_coded : coded 1 ClaimableBalanceFlags_valid ClaimableBalanceFlags_EncodeTo ClaimableBalanceFlags_DecodeFrom.
Proof. by apply (enum_coded claimableBalanceFlagsMap). Qed.
#[local] Hint Resolve ClaimableBalanceFlags_coded : xdr.
Lemma BucketListType_coded : coded 1 BucketListType_valid BucketListType_EncodeTo BucketListType_DecodeFrom.
Proof. by apply (enum_coded bucketListTypeMap). Qed.
#[local] Hint Resolve BucketListType_coded : xdr.
Lemma BucketEntryType_coded : coded 1 BucketEntryType_valid BucketEntryType_EncodeTo BucketEntryType_DecodeFrom.
Proof. by apply (enum_coded bucketEntryTypeMap). Qed.
#[local] Hint Resolve BucketEntryType_coded : xdr.
Lemma HotArchiveBucketEntryType_coded : coded 1 HotArchiveBucketEntryType_valid HotArchiveBucketEntryType_EncodeTo
    HotArchiveBucketEntryType_DecodeFrom.
Proof. by apply (enum_coded hotArchiveBucketEntryTypeMap). Qed.
#[local] Hint Resolve HotArchiveBucketEntryType_coded : xdr.
Lemma BucketMetadataExt_coded : coded 2 BucketMetadataExt_valid BucketMetadataExt_EncodeTo BucketMetadataExt_DecodeFrom.
Proof. xdr_union BucketMetadataExt_EncodeTo BucketMetadataExt_DecodeFrom BucketMetadataExt_valid. Qed.
#[local] Hint Resolve BucketMetadataExt_coded : xdr.
Lemma BucketMetadata_coded : coded 3 BucketMetadata_valid BucketMetadata_EncodeTo BucketMetadata_DecodeFrom.
Proof. xdr_record BucketMetadata_EncodeTo BucketMetadata_DecodeFrom BucketMetadata_valid. Qed.
#[local] Hint Resolve BucketMetadata_coded : xdr.
Lemma BucketEntry_coded : coded (4 * nesting + 12) BucketEntry_valid BucketEntry_EncodeTo BucketEntry_DecodeFrom.
Proof. xdr_union BucketEntry_EncodeTo BucketEntry_DecodeFrom BucketEntry_valid. Qed.
#[local] Hint Resolve BucketEntry_coded : xdr.
Lemma HotArchiveBucketEntry_coded : coded (4 * nesting + 12) HotArchiveBucketEntry_valid HotArchiveBucketEntry_EncodeTo
    HotArchiveBucketEntry_DecodeFrom.
Proof. xdr_union HotArchiveBucketEntry_EncodeTo HotArchiveBucketEntry_DecodeFrom HotArchiveBucketEntry_valid. Qed.
#[local] Hint Resolve HotArchiveBucketEntry_coded : xdr.
Lemma LedgerHeaderFlags_coded : coded 1 LedgerHeaderFlags_valid LedgerHeaderFlags_EncodeTo LedgerHeaderFlags_DecodeFrom.
Proof. by apply (enum_coded ledgerHeaderFlagsMap). Qed.
#[local] Hint Resolve LedgerHeaderFlags_coded : xdr.
Lemma ConfigUpgradeSet_coded : coded 5 ConfigUpgradeSet_valid ConfigUpgradeSet_EncodeTo ConfigUpgradeSet_DecodeFrom.
Proof. xdr_record ConfigUpgradeSet_EncodeTo ConfigUpgradeSet_DecodeFrom ConfigUpgradeSet_valid. Qed.
#[local] Hint Resolve ConfigUpgradeSet_coded : xdr.
Lemma TransactionResultSet_coded : coded 18 TransactionResultSet_valid TransactionResultSet_EncodeTo TransactionResultSet_DecodeFrom.
Proof. xdr_record TransactionResultSet_EncodeTo TransactionResultSet_DecodeFrom TransactionResultSet_valid. Qed.
#[local] Hint Resolve TransactionResultSet_coded : xdr.
Lemma TransactionHistoryEntryExt_coded : coded (5 * nesting + 28) TransactionHistoryEntryExt_valid TransactionHistoryEntryExt_EncodeTo
    TransactionHistoryEntryExt_DecodeFrom.
Proof. xdr_union TransactionHistoryEntryExt_EncodeTo TransactionHistoryEntryExt_DecodeFrom TransactionHistoryEntryExt_valid. Qed.
#[local] Hint Resolve TransactionHistoryEntryExt_coded : xdr.
Lemma TransactionHistoryEntry_coded : coded (5 * nesting + 29) TransactionHistoryEntry_valid TransactionHistoryEntry_EncodeTo
    TransactionHistoryEntry_DecodeFrom.
Proof. xdr_record TransactionHistoryEntry_EncodeTo TransactionHistoryEntry_DecodeFrom TransactionHistoryEntry_valid. Qed.
#[local] Hint Resolve TransactionHistoryEntry_coded : xdr.
Lemma TransactionHistoryResultEntryExt_coded : coded 1 TransactionHistoryResultEntryExt_valid TransactionHistoryResultEntryExt_EncodeTo
    TransactionHistoryResultEntryExt_DecodeFrom.
Proof. xdr_union TransactionHistoryResultEntryExt_EncodeTo TransactionHistoryResultEntryExt_DecodeFrom
    TransactionHistoryResultEntryExt_valid. Qed.
#[local] Hint Resolve TransactionHistoryResultEntryExt_coded : xdr.
Lemma TransactionHistoryResultEntry_coded : coded 19 TransactionHistoryResultEntry_valid TransactionHistoryResultEntry_EncodeTo
    TransactionHistoryResultEntry_DecodeFrom.
Proof. xdr_record TransactionHistoryResultEntry_EncodeTo TransactionHistoryResultEntry_DecodeFrom TransactionHistoryResultEntry_valid. Qed.
#[local] Hint Resolve TransactionHistoryResultEntry_coded : xdr.
Lemma InvokeHostFunctionSuccessPreImage_coded : coded (4 * nesting + 12) InvokeHostFunctionSuccessPreImage_valid
    InvokeHostFunctionSuccessPreImage_EncodeTo InvokeHostFunctionSuccessPreImage_DecodeFrom.
Proof. xdr_record InvokeHostFunctionSuccessPreImage_EncodeTo InvokeHostFunctionSuccessPreImage_DecodeFrom
    InvokeHostFunctionSuccessPreImage_valid. Qed.
#[local] Hint Resolve InvokeHostFunctionSuccessPreImage_coded : xdr.
Lemma ErrorCode_coded : coded 1 ErrorCode_valid ErrorCode_EncodeTo ErrorCode_DecodeFrom.
Proof. by apply (enum_coded errorCodeMap). Qed.
#[local] Hint Resolve ErrorCode_coded : xdr.
Lemma Error_coded : coded 2 Error_valid Error_EncodeTo Error_DecodeFrom.
Proof. xdr_record Error_EncodeTo Error_DecodeFrom Error_valid. Qed.
#[local] Hint Resolve Error_coded : xdr.
Lemma SendMore_coded : coded 2 SendMore_valid SendMore_EncodeTo SendMore_DecodeFrom.
Proof. xdr_record SendMore_EncodeTo SendMore_DecodeFrom SendMore_valid. Qed.
#[local] Hint Resolve SendMore_coded : xdr.
Lemma SendMoreExtended_coded : coded 2 SendMoreExtended_valid SendMoreExtended_EncodeTo SendMoreExtended_DecodeFrom.
Proof. xdr_record SendMoreExtended_EncodeTo SendMoreExtended_DecodeFrom SendMoreExtended_valid. Qed.
#[local] Hint Resolve SendMoreExtended_coded : xdr.
Lemma Curve25519Public_coded : coded 1 Curve25519Public_valid Curve25519Public_EncodeTo Curve25519Public_DecodeFrom.
Proof. xdr_record Curve25519Public_EncodeTo Curve25519Public_DecodeFrom Curve25519Public_valid. Qed.
#[local] Hint Resolve Curve25519Public_coded : xdr.
Lemma AuthCert_coded : coded 2 AuthCert_valid AuthCert_EncodeTo AuthCert_DecodeFrom.
Proof. xdr_record AuthCert_EncodeTo AuthCert_DecodeFrom AuthCert_valid. Qed.
#[local] Hint Resolve AuthCert_coded : xdr.
Lemma Hello_coded : coded 4 Hello_valid Hello_EncodeTo Hello_DecodeFrom.
Proof. xdr_record Hello_EncodeTo Hello_DecodeFrom Hello_valid. Qed.
#[local] Hint Resolve Hello_coded : xdr.
Lemma Auth_coded : coded 1 Auth_valid Auth_EncodeTo Auth_DecodeFrom.
Proof. xdr_record Auth_EncodeTo Auth_DecodeFrom Auth_valid. Qed.
#[local] Hint Resolve Auth_coded : xdr.
Lemma IpAddrType_coded : coded 1 IpAddrType_valid IpAddrType_EncodeTo IpAddrType_DecodeFrom.
Proof. by apply (enum_coded ipAddrTypeMap). Qed.
#[local] Hint Resolve IpAddrType_coded : xdr.
Lemma PeerAddressIp_coded : coded 2 PeerAddressIp_valid PeerAddressIp_EncodeTo PeerAddressIp_DecodeFrom.
Proof. xdr_union PeerAddressIp_EncodeTo PeerAddressIp_DecodeFrom PeerAddressIp_valid. Qed.
#[local] Hint Resolve PeerAddressIp_coded : xdr.
Lemma PeerAddress_coded : coded 3 PeerAddress_valid PeerAddress_EncodeTo PeerAddress_DecodeFrom.
Proof. xdr_record PeerAddress_EncodeTo PeerAddress_DecodeFrom PeerAddress_valid. Qed.
#[local] Hint Resolve PeerAddress_coded : xdr.
Lemma MessageType_coded : coded 1 MessageType_valid MessageType_EncodeTo MessageType_DecodeFrom.
Proof. by apply (enum_coded messageTypeMap). Qed.
#[local] Hint Resolve MessageType_coded : xdr.
Lemma DontHave_coded : coded 2 DontHave_valid DontHave_EncodeTo DontHave_DecodeFrom.
Proof. xdr_record DontHave_EncodeTo DontHave_DecodeFrom DontHave_valid. Qed.
#[local] Hint Resolve DontHave_coded : xdr.
Lemma SurveyMessageCommandType_coded : coded 1 SurveyMessageCommandType_valid SurveyMessageCommandType_EncodeTo
    SurveyMessageCommandType_DecodeFrom.
Proof. by apply (enum_coded surveyMessageCommandTypeMap). Qed.
#[local] Hint Resolve SurveyMessageCommandType_coded : xdr.
Lemma SurveyMessageResponseType_coded : coded 1 SurveyMessageResponseType_valid SurveyMessageResponseType_EncodeTo
    SurveyMessageResponseType_DecodeFrom.
Proof. by apply (enum_coded surveyMessageResponseTypeMap). Qed.
#[local] Hint Resolve SurveyMessageResponseType_coded : xdr.
Lemma TimeSlicedSurveyStartCollectingMessage_coded : coded 4 TimeSlicedSurveyStartCollectingMessage_valid
    TimeSlicedSurveyStartCollectingMessage_EncodeTo TimeSlicedSurveyStartCollectingMessage_DecodeFrom.
Proof. xdr_record TimeSlicedSurveyStartCollectingMessage_EncodeTo TimeSlicedSurveyStartCollectingMessage_DecodeFrom
    TimeSlicedSurveyStartCollectingMessage_valid. Qed.
#[local] Hint Resolve TimeSlicedSurveyStartCollectingMessage_coded : xdr.
Lemma SignedTimeSlicedSurveyStartCollectingMessage_coded : coded 5 SignedTimeSlicedSurveyStartCollectingMessage_valid
    SignedTimeSlicedSurveyStartCollectingMessage_EncodeTo SignedTimeSlicedSurveyStartCollectingMessage_DecodeFrom.
Proof. xdr_record SignedTimeSlicedSurveyStartCollectingMessage_EncodeTo SignedTimeSlicedSurveyStartCollectingMessage_DecodeFrom
    SignedTimeSlicedSurveyStartCollectingMessage_valid. Qed.
#[local] Hint Resolve SignedTimeSlicedSurveyStartCollectingMessage_coded : xdr.
Lemma TimeSlicedSurveyStopCollectingMessage_coded : coded 4 TimeSlicedSurveyStopCollectingMessage_valid
    TimeSlicedSurveyStopCollectingMessage_EncodeTo TimeSlicedSurveyStopCollectingMessage_DecodeFrom.
Proof. xdr_record TimeSlicedSurveyStopCollectingMessage_EncodeTo TimeSlicedSurveyStopCollectingMessage_DecodeFrom
    TimeSlicedSurveyStopCollectingMessage_valid. Qed.
#[local] Hint Resolve TimeSlicedSurveyStopCollectingMessage_coded : xdr.
Lemma SignedTimeSlicedSurveyStopCollectingMessage_coded : coded 5 SignedTimeSlicedSurveyStopCollectingMessage_valid
    SignedTimeSlicedSurveyStopCollectingMessage_EncodeTo SignedTimeSlicedSurveyStopCollectingMessage_DecodeFrom.
Proof. xdr_record SignedTimeSlicedSurveyStopCollectingMessage_EncodeTo SignedTimeSlicedSurveyStopCollectingMessage_DecodeFrom
    SignedTimeSlicedSurveyStopCollectingMessage_valid. Qed.
#[local] Hint Resolve SignedTimeSlicedSurveyStopCollectingMessage_coded : xdr.
Lemma SurveyRequestMessage_coded : coded 4 SurveyRequestMessage_valid SurveyRequestMessage_EncodeTo SurveyRequestMessage_DecodeFrom.
Proof. xdr_record SurveyRequestMessage_EncodeTo SurveyRequestMessage_DecodeFrom SurveyRequestMessage_valid. Qed.
#[local] Hint Resolve SurveyRequestMessage_coded : xdr.
Lemma TimeSlicedSurveyRequestMessage_coded : coded 5 TimeSlicedSurveyRequestMessage_valid TimeSlicedSurveyRequestMessage_EncodeTo
    TimeSlicedSurveyRequestMessage_DecodeFrom.
Proof. xdr_record TimeSlicedSurveyRequestMessage_EncodeTo TimeSlicedSurveyRequestMessage_DecodeFrom TimeSlicedSurveyRequestMessage_valid.
    Qed.
#[local] Hint Resolve TimeSlicedSurveyRequestMessage_coded : xdr.
Lemma SignedTimeSlicedSurveyRequestMessage_coded : coded 6 SignedTimeSlicedSurveyRequestMessage_valid
    SignedTimeSlicedSurveyRequestMessage_EncodeTo SignedTimeSlicedSurveyRequestMessage_DecodeFrom.
Proof. xdr_record SignedTimeSlicedSurveyRequestMessage_EncodeTo SignedTimeSlicedSurveyRequestMessage_DecodeFrom
    SignedTimeSlicedSurveyRequestMessage_valid. Qed.
#[local] Hint Resolve SignedTimeSlicedSurveyRequestMessage_coded : xdr.
Lemma EncryptedBody_coded : coded 1 EncryptedBody_valid EncryptedBody_EncodeTo EncryptedBody_DecodeFrom.
Proof. xdr_single EncryptedBody_EncodeTo EncryptedBody_DecodeFrom EncryptedBody_valid. Qed.
#[local] Hint Resolve EncryptedBody_coded : xdr.
Lemma SurveyResponseMessage_coded : coded 4 SurveyResponseMessage_valid SurveyResponseMessage_EncodeTo SurveyResponseMessage_DecodeFrom.
Proof. xdr_record SurveyResponseMessage_EncodeTo SurveyResponseMessage_DecodeFrom SurveyResponseMessage_valid. Qed.
#[local] Hint Resolve SurveyResponseMessage_coded : xdr.
Lemma TimeSlicedSurveyResponseMessage_coded : coded 5 TimeSlicedSurveyResponseMessage_valid TimeSlicedSurveyResponseMessage_EncodeTo
    TimeSlicedSurveyResponseMessage_DecodeFrom.
Proof. xdr_record TimeSlicedSurveyResponseMessage_EncodeTo TimeSlicedSurveyResponseMessage_DecodeFrom
    TimeSlicedSurveyResponseMessage_valid. Qed.
#[local] Hint Resolve TimeSlicedSurveyResponseMessage_coded : xdr.
Lemma SignedTimeSlicedSurveyResponseMessage_coded : coded 6 SignedTimeSlicedSurveyResponseMessage_valid
    SignedTimeSlicedSurveyResponseMessage_EncodeTo SignedTimeSlicedSurveyResponseMessage_DecodeFrom.
Proof. xdr_record SignedTimeSlicedSurveyResponseMessage_EncodeTo SignedTimeSlicedSurveyResponseMessage_DecodeFrom
    SignedTimeSlicedSurveyResponseMessage_valid. Qed.
#[local] Hint Resolve SignedTimeSlicedSurveyResponseMessage_coded : xdr.
Lemma PeerStats_coded : coded 4 PeerStats_valid PeerStats_EncodeTo PeerStats_DecodeFrom.
Proof. xdr_record PeerStats_EncodeTo PeerStats_DecodeFrom PeerStats_valid. Qed.
#[local] Hint Resolve PeerStats_coded : xdr.
Lemma TimeSlicedNodeData_coded : coded 2 TimeSlicedNodeData_valid TimeSlicedNodeData_EncodeTo TimeSlicedNodeData_DecodeFrom.
Proof. xdr_record TimeSlicedNodeData_EncodeTo TimeSlicedNodeData_DecodeFrom TimeSlicedNodeData_valid. Qed.
#[local] Hint Resolve TimeSlicedNodeData_coded : xdr.
Lemma TimeSlicedPeerData_coded : coded 5 TimeSlicedPeerData_valid TimeSlicedPeerData_EncodeTo TimeSlicedPeerData_DecodeFrom.
Proof. xdr_record TimeSlicedPeerData_EncodeTo TimeSlicedPeerData_DecodeFrom TimeSlicedPeerData_valid. Qed.
#[local] Hint Resolve TimeSlicedPeerData_coded : xdr.
Lemma TimeSlicedPeerDataList_coded : coded 6 TimeSlicedPeerDataList_valid TimeSlicedPeerDataList_EncodeTo TimeSlicedPeerDataList_DecodeFrom.
Proof. xdr_single TimeSlicedPeerDataList_EncodeTo TimeSlicedPeerDataList_DecodeFrom TimeSlicedPeerDataList_valid. Qed.
#[local] Hint Resolve TimeSlicedPeerDataList_coded : xdr.
Lemma TopologyResponseBodyV2_coded : coded 7 TopologyResponseBodyV2_valid TopologyResponseBodyV2_EncodeTo TopologyResponseBodyV2_DecodeFrom.
Proof. xdr_record TopologyResponseBodyV2_EncodeTo TopologyResponseBodyV2_DecodeFrom TopologyResponseBodyV2_valid. Qed.
#[local] Hint Resolve TopologyResponseBodyV2_coded : xdr.
Lemma SurveyResponseBody_coded : coded 8 SurveyResponseBody_valid SurveyResponseBody_EncodeTo SurveyResponseBody_DecodeFrom.
Proof. xdr_union SurveyResponseBody_EncodeTo SurveyResponseBody_DecodeFrom SurveyResponseBody_valid. Qed.
#[local] Hint Resolve SurveyResponseBody_coded : xdr.
Lemma TxAdvertVector_coded : coded 2 TxAdvertVector_valid TxAdvertVector_EncodeTo TxAdvertVector_DecodeFrom.
Proof. xdr_single TxAdvertVector_EncodeTo TxAdvertVector_DecodeFrom TxAdvertVector_valid. Qed.
#[local] Hint Resolve TxAdvertVector_coded : xdr.
Lemma FloodAdvert_coded : coded 3 FloodAdvert_valid FloodAdvert_EncodeTo FloodAdvert_DecodeFrom.
Proof. xdr_record FloodAdvert_EncodeTo FloodAdvert_DecodeFrom FloodAdvert_valid. Qed.
#[local] Hint Resolve FloodAdvert_coded : xdr.
Lemma TxDemandVector_coded : coded 2 TxDemandVector_valid TxDemandVector_EncodeTo TxDemandVector_DecodeFrom.
Proof. xdr_single TxDemandVector_EncodeTo TxDemandVector_DecodeFrom TxDemandVector_valid. Qed.
#[local] Hint Resolve TxDemandVector_coded : xdr.
Lemma FloodDemand_coded : coded 3 FloodDemand_valid FloodDemand_EncodeTo FloodDemand_DecodeFrom.
Proof. xdr_record FloodDemand_EncodeTo FloodDemand_DecodeFrom FloodDemand_valid. Qed.
#[local] Hint Resolve FloodDemand_coded : xdr.
Lemma StellarMessage_coded : coded (5 * nesting + 28) StellarMessage_valid StellarMessage_EncodeTo StellarMessage_DecodeFrom.
Proof. xdr_union StellarMessage_EncodeTo StellarMessage_DecodeFrom StellarMessage_valid. Qed.
#[local] Hint Resolve StellarMessage_coded : xdr.
Lemma HmacSha256Mac_coded : coded 1 HmacSha256Mac_valid HmacSha256Mac_EncodeTo HmacSha256Mac_DecodeFrom.
Proof. xdr_record HmacSha256Mac_EncodeTo HmacSha256Mac_DecodeFrom HmacSha256Mac_valid. Qed.
#[local] Hint Resolve HmacSha256Mac_coded : xdr.
Lemma AuthenticatedMessageV0_coded : coded (5 * nesting + 29) AuthenticatedMessageV0_valid AuthenticatedMessageV0_EncodeTo
    AuthenticatedMessageV0_DecodeFrom.
Proof. xdr_record AuthenticatedMessageV0_EncodeTo AuthenticatedMessageV0_DecodeFrom AuthenticatedMessageV0_valid. Qed.
#[local] Hint Resolve AuthenticatedMessageV0_coded : xdr.
Lemma AuthenticatedMessage_coded : coded (5 * nesting + 30) AuthenticatedMessage_valid AuthenticatedMessage_EncodeTo
    AuthenticatedMessage_DecodeFrom.
Proof. xdr_union AuthenticatedMessage_EncodeTo AuthenticatedMessage_DecodeFrom AuthenticatedMessage_valid. Qed.
#[local] Hint Resolve AuthenticatedMessage_coded : xdr.
Lemma SorobanAuthorizationEntries_coded : coded (5 * nesting + 13) SorobanAuthorizationEntries_valid SorobanAuthorizationEntries_EncodeTo
    SorobanAuthorizationEntries_DecodeFrom.
Proof. xdr_single SorobanAuthorizationEntries_EncodeTo SorobanAuthorizationEntries_DecodeFrom SorobanAuthorizationEntries_valid. Qed.
#[local] Hint Resolve SorobanAuthorizationEntries_coded : xdr.
Lemma HashIdPreimageOperationId_coded : coded 4 HashIdPreimageOperationId_valid HashIdPreimageOperationId_EncodeTo
    HashIdPreimageOperationId_DecodeFrom.
Proof. xdr_record HashIdPreimageOperationId_EncodeTo HashIdPreimageOperationId_DecodeFrom HashIdPreimageOperationId_valid. Qed.
#[local] Hint Resolve HashIdPreimageOperationId_coded : xdr.
Lemma HashIdPreimageRevokeId_coded : coded 6 HashIdPreimageRevokeId_valid HashIdPreimageRevokeId_EncodeTo HashIdPreimageRevokeId_DecodeFrom.
Proof. xdr_record HashIdPreimageRevokeId_EncodeTo HashIdPreimageRevokeId_DecodeFrom HashIdPreimageRevokeId_valid. Qed.
#[local] Hint Resolve HashIdPreimageRevokeId_coded : xdr.
Lemma HashIdPreimageContractId_coded : coded 7 HashIdPreimageContractId_valid HashIdPreimageContractId_EncodeTo
    HashIdPreimageContractId_DecodeFrom.
Proof. xdr_record HashIdPreimageContractId_EncodeTo HashIdPreimageContractId_DecodeFrom HashIdPreimageContractId_valid. Qed.
#[local] Hint Resolve HashIdPreimageContractId_coded : xdr.
Lemma HashIdPreimageSorobanAuthorization_coded : coded (5 * nesting + 12) HashIdPreimageSorobanAuthorization_valid
    HashIdPreimageSorobanAuthorization_EncodeTo HashIdPreimageSorobanAuthorization_DecodeFrom.
Proof. xdr_record HashIdPreimageSorobanAuthorization_EncodeTo HashIdPreimageSorobanAuthorization_DecodeFrom
    HashIdPreimageSorobanAuthorization_valid. Qed.
#[local] Hint Resolve HashIdPreimageSorobanAuthorization_coded : xdr.
Lemma HashIdPreimageSorobanAuthorizationWithAddress_coded : coded (5 * nesting + 12) HashIdPreimageSorobanAuthorizationWithAddress_valid
    HashIdPreimageSorobanAuthorizationWithAddress_EncodeTo HashIdPreimageSorobanAuthorizationWithAddress_DecodeFrom.
Proof. xdr_record HashIdPreimageSorobanAuthorizationWithAddress_EncodeTo HashIdPreimageSorobanAuthorizationWithAddress_DecodeFrom
    HashIdPreimageSorobanAuthorizationWithAddress_valid. Qed.
#[local] Hint Resolve HashIdPreimageSorobanAuthorizationWithAddress_coded : xdr.
Lemma HashIdPreimage_coded : coded (5 * nesting + 13) HashIdPreimage_valid HashIdPreimage_EncodeTo HashIdPreimage_DecodeFrom.
Proof. xdr_union HashIdPreimage_EncodeTo HashIdPreimage_DecodeFrom HashIdPreimage_valid. Qed.
#[local] Hint Resolve HashIdPreimage_coded : xdr.
Lemma TransactionSignaturePayloadTaggedTransaction_coded : coded (5 * nesting + 20) TransactionSignaturePayloadTaggedTransaction_valid
    TransactionSignaturePayloadTaggedTransaction_EncodeTo TransactionSignaturePayloadTaggedTransaction_DecodeFrom.
Proof. xdr_union TransactionSignaturePayloadTaggedTransaction_EncodeTo TransactionSignaturePayloadTaggedTransaction_DecodeFrom
    TransactionSignaturePayloadTaggedTransaction_valid. Qed.
#[local] Hint Resolve TransactionSignaturePayloadTaggedTransaction_coded : xdr.
Lemma TransactionSignaturePayload_coded : coded (5 * nesting + 21) TransactionSignaturePayload_valid TransactionSignaturePayload_EncodeTo
    TransactionSignaturePayload_DecodeFrom.
Proof. xdr_record TransactionSignaturePayload_EncodeTo TransactionSignaturePayload_DecodeFrom TransactionSignaturePayload_valid. Qed.
#[local] Hint Resolve TransactionSignaturePayload_coded : xdr.
Lemma Curve25519Secret_coded : coded 1 Curve25519Secret_valid Curve25519Secret_EncodeTo Curve25519Secret_DecodeFrom.
Proof. xdr_record Curve25519Secret_EncodeTo Curve25519Secret_DecodeFrom Curve25519Secret_valid. Qed.
#[local] Hint Resolve Curve25519Secret_coded : xdr.
Lemma HmacSha256Key_coded : coded 1 HmacSha256Key_valid HmacSha256Key_EncodeTo HmacSha256Key_DecodeFrom.
Proof. xdr_record HmacSha256Key_EncodeTo HmacSha256Key_DecodeFrom HmacSha256Key_valid. Qed.
#[local] Hint Resolve HmacSha256Key_coded : xdr.
Lemma ShortHashSeed_coded : coded 1 ShortHashSeed_valid ShortHashSeed_EncodeTo ShortHashSeed_DecodeFrom.
Proof. xdr_record ShortHashSeed_EncodeTo ShortHashSeed_DecodeFrom ShortHashSeed_valid. Qed.
#[local] Hint Resolve ShortHashSeed_coded : xdr.
Lemma BinaryFuseFilterType_coded : coded 1 BinaryFuseFilterType_valid BinaryFuseFilterType_EncodeTo BinaryFuseFilterType_DecodeFrom.
Proof. by apply (enum_coded binaryFuseFilterTypeMap). Qed.
#[local] Hint Resolve BinaryFuseFilterType_coded : xdr.
Lemma SerializedBinaryFuseFilter_coded : coded 2 SerializedBinaryFuseFilter_valid SerializedBinaryFuseFilter_EncodeTo
    SerializedBinaryFuseFilter_DecodeFrom.
Proof. xdr_record SerializedBinaryFuseFilter_EncodeTo SerializedBinaryFuseFilter_DecodeFrom SerializedBinaryFuseFilter_valid. Qed.
#[local] Hint Resolve SerializedBinaryFuseFilter_coded : xdr.
Lemma ScEnvMetaKind_coded : coded 1 ScEnvMetaKind_valid ScEnvMetaKind_EncodeTo ScEnvMetaKind_DecodeFrom.
Proof. by apply (enum_coded scEnvMetaKindMap). Qed.
#[local] Hint Resolve ScEnvMetaKind_coded : xdr.
Lemma ScEnvMetaEntryInterfaceVersion_coded : coded 2 ScEnvMetaEntryInterfaceVersion_valid ScEnvMetaEntryInterfaceVersion_EncodeTo
    ScEnvMetaEntryInterfaceVersion_DecodeFrom.
Proof. xdr_record ScEnvMetaEntryInterfaceVersion_EncodeTo ScEnvMetaEntryInterfaceVersion_DecodeFrom ScEnvMetaEntryInterfaceVersion_valid.
    Qed.
#[local] Hint Resolve ScEnvMetaEntryInterfaceVersion_coded : xdr.
Lemma ScEnvMetaEntry_coded : coded 3 ScEnvMetaEntry_valid ScEnvMetaEntry_EncodeTo ScEnvMetaEntry_DecodeFrom.
Proof. xdr_union ScEnvMetaEntry_EncodeTo ScEnvMetaEntry_DecodeFrom ScEnvMetaEntry_valid. Qed.
#[local] Hint Resolve ScEnvMetaEntry_coded : xdr.
Lemma ScMetaV0_coded : coded 1 ScMetaV0_valid ScMetaV0_EncodeTo ScMetaV0_DecodeFrom.
Proof. xdr_record ScMetaV0_EncodeTo ScMetaV0_DecodeFrom ScMetaV0_valid. Qed.
#[local] Hint Resolve ScMetaV0_coded : xdr.
Lemma ScMetaKind_coded : coded 1 ScMetaKind_valid ScMetaKind_EncodeTo ScMetaKind_DecodeFrom.
Proof. by apply (enum_coded scMetaKindMap). Qed.
#[local] Hint Resolve ScMetaKind_coded : xdr.
Lemma ScMetaEntry_coded : coded 2 ScMetaEntry_valid ScMetaEntry_EncodeTo ScMetaEntry_DecodeFrom.
Proof. xdr_union ScMetaEntry_EncodeTo ScMetaEntry_DecodeFrom ScMetaEntry_valid. Qed.
#[local] Hint Resolve ScMetaEntry_coded : xdr.
Lemma ScSpecType_coded : coded 1 ScSpecType_valid ScSpecType_EncodeTo ScSpecType_DecodeFrom.
Proof. by apply (enum_coded scSpecTypeMap). Qed.
#[local] Hint Resolve ScSpecType_coded : xdr.
Lemma ScSpecTypeBytesN_coded : coded 2 ScSpecTypeBytesN_valid ScSpecTypeBytesN_EncodeTo ScSpecTypeBytesN_DecodeFrom.
Proof. xdr_record ScSpecTypeBytesN_EncodeTo ScSpecTypeBytesN_DecodeFrom ScSpecTypeBytesN_valid. Qed.
#[local] Hint Resolve ScSpecTypeBytesN_coded : xdr.
Lemma ScSpecTypeUdt_coded : coded 1 ScSpecTypeUdt_valid ScSpecTypeUdt_EncodeTo ScSpecTypeUdt_DecodeFrom.
Proof. xdr_record ScSpecTypeUdt_EncodeTo ScSpecTypeUdt_DecodeFrom ScSpecTypeUdt_valid. Qed.
#[local] Hint Resolve ScSpecTypeUdt_coded : xdr.
Lemma ScSpecTypeOption_coded_with depth valid : coded depth valid ScSpecTypeDef_EncodeTo ScSpecTypeDef_DecodeFrom ->
  coded (S depth) (ScSpecTypeOption_valid_with valid) ScSpecTypeOption_EncodeTo ScSpecTypeOption_DecodeFrom.
Proof.
  intros H v n Hv Hn. destruct n as [|n]; [lia|]. destruct v. cbn [ScSpecTypeOption_valid_with] in Hv. xdr_valid.
  cbn [ScSpecTypeOption_EncodeTo ScSpecTypeOption_DecodeFrom].
  eapply writes_bind; [apply H; [done|lia]|]. apply writes_ret.
Qed.
Lemma ScSpecTypeResult_coded_with depth valid : coded depth valid ScSpecTypeDef_EncodeTo ScSpecTypeDef_DecodeFrom ->
  coded (S depth) (ScSpecTypeResult_valid_with valid) ScSpecTypeResult_EncodeTo ScSpecTypeResult_DecodeFrom.
Proof.
  intros H v n Hv Hn. destruct n as [|n]; [lia|]. destruct v. cbn [ScSpecTypeResult_valid_with] in Hv. xdr_valid.
  cbn [ScSpecTypeResult_EncodeTo ScSpecTypeResult_DecodeFrom].
  eapply writes_bind; [apply H; [done|lia]|]. eapply writes0_bind; [apply writes_writes0, H; [done|lia]|]. apply writes_ret.
Qed.
Lemma ScSpecTypeVec_coded_with depth valid : coded depth valid ScSpecTypeDef_EncodeTo ScSpecTypeDef_DecodeFrom ->
  coded (S depth) (ScSpecTypeVec_valid_with valid) ScSpecTypeVec_EncodeTo ScSpecTypeVec_DecodeFrom.
Proof.
  intros H v n Hv Hn. destruct n as [|n]; [lia|]. destruct v. cbn [ScSpecTypeVec_valid_with] in Hv. xdr_valid.
  cbn [ScSpecTypeVec_EncodeTo ScSpecTypeVec_DecodeFrom].
  eapply writes_bind; [apply H; [done|lia]|]. apply writes_ret.
Qed.
Lemma ScSpecTypeMap_coded_with depth valid : coded depth valid ScSpecTypeDef_EncodeTo ScSpecTypeDef_DecodeFrom ->
  coded (S depth) (ScSpecTypeMap_valid_with valid) ScSpecTypeMap_EncodeTo ScSpecTypeMap_DecodeFrom.
Proof.
  intros H v n Hv Hn. destruct n as [|n]; [lia|]. destruct v. cbn [ScSpecTypeMap_valid_with] in Hv. xdr_valid.
  cbn [ScSpecTypeMap_EncodeTo ScSpecTypeMap_DecodeFrom].
  eapply writes_bind; [apply H; [done|lia]|]. eapply writes0_bind; [apply writes_writes0, H; [done|lia]|]. apply writes_ret.
Qed.
Lemma ScSpecTypeTuple_coded_with depth valid : coded depth valid ScSpecTypeDef_EncodeTo ScSpecTypeDef_DecodeFrom ->
  coded (S depth) (ScSpecTypeTuple_valid_with valid) ScSpecTypeTuple_EncodeTo ScSpecTypeTuple_DecodeFrom.
Proof.
  intros H v n Hv Hn. destruct n as [|n]; [lia|]. destruct v. cbn [ScSpecTypeTuple_valid_with] in Hv. xdr_valid.
  cbn [ScSpecTypeTuple_EncodeTo ScSpecTypeTuple_DecodeFrom].
  eapply writes_bind; [|apply writes_ret]. eapply slice_valid; [reflexivity| |eassumption]. intros x Hx. apply H; [done|lia].
Qed.
Lemma ScSpecTypeDef_coded_in depth : coded (2 * depth + 3) (ScSpecTypeDef_valid_in depth) ScSpecTypeDef_EncodeTo ScSpecTypeDef_DecodeFrom.
Proof.
  induction depth as [|depth IH]; intros v n Hv Hn; (destruct n as [|n]; [lia|]); cbn [ScSpecTypeDef_DecodeFrom];
    destruct v; cbn [ScSpecTypeDef_valid_in] in Hv; try discriminate Hv; cbn [ScSpecTypeDef_EncodeTo];
    try (solve [xdr_fields]);
    (eapply writes_bind; [xdr_value|]; cbn [Z.eqb Pos.eqb]; apply writes0_tracked;
     eapply writes0_bind; [|apply writes_ret]; apply writes_writes0).
  - eapply (ScSpecTypeOption_coded_with _ _ IH); [exact Hv|lia].
  - eapply (ScSpecTypeResult_coded_with _ _ IH); [exact Hv|lia].
  - eapply (ScSpecTypeVec_coded_with _ _ IH); [exact Hv|lia].
  - eapply (ScSpecTypeMap_coded_with _ _ IH); [exact Hv|lia].
  - eapply (ScSpecTypeTuple_coded_with _ _ IH); [exact Hv|lia].
Qed.
Lemma ScSpecTypeDef_coded : coded (4 * nesting + 3) ScSpecTypeDef_valid ScSpecTypeDef_EncodeTo ScSpecTypeDef_DecodeFrom.
Proof. intros v n Hv Hn. apply (ScSpecTypeDef_coded_in nesting); [done|lia]. Qed.
#[local] Hint Resolve ScSpecTypeDef_coded : xdr.
Lemma ScSpecUdtStructFieldV0_coded : coded (4 * nesting + 4) ScSpecUdtStructFieldV0_valid ScSpecUdtStructFieldV0_EncodeTo
    ScSpecUdtStructFieldV0_DecodeFrom.
Proof. xdr_record ScSpecUdtStructFieldV0_EncodeTo ScSpecUdtStructFieldV0_DecodeFrom ScSpecUdtStructFieldV0_valid. Qed.
#[local] Hint Resolve ScSpecUdtStructFieldV0_coded : xdr.
Lemma ScSpecUdtStructV0_coded : coded (4 * nesting + 5) ScSpecUdtStructV0_valid ScSpecUdtStructV0_EncodeTo ScSpecUdtStructV0_DecodeFrom.
Proof. xdr_record ScSpecUdtStructV0_EncodeTo ScSpecUdtStructV0_DecodeFrom ScSpecUdtStructV0_valid. Qed.
#[local] Hint Resolve ScSpecUdtStructV0_coded : xdr.
Lemma ScSpecUdtUnionCaseVoidV0_coded : coded 1 ScSpecUdtUnionCaseVoidV0_valid ScSpecUdtUnionCaseVoidV0_EncodeTo
    ScSpecUdtUnionCaseVoidV0_DecodeFrom.
Proof. xdr_record ScSpecUdtUnionCaseVoidV0_EncodeTo ScSpecUdtUnionCaseVoidV0_DecodeFrom ScSpecUdtUnionCaseVoidV0_valid. Qed.
#[local] Hint Resolve ScSpecUdtUnionCaseVoidV0_coded : xdr.
Lemma ScSpecUdtUnionCaseTupleV0_coded : coded (4 * nesting + 4) ScSpecUdtUnionCaseTupleV0_valid ScSpecUdtUnionCaseTupleV0_EncodeTo
    ScSpecUdtUnionCaseTupleV0_DecodeFrom.
Proof. xdr_record ScSpecUdtUnionCaseTupleV0_EncodeTo ScSpecUdtUnionCaseTupleV0_DecodeFrom ScSpecUdtUnionCaseTupleV0_valid. Qed.
#[local] Hint Resolve ScSpecUdtUnionCaseTupleV0_coded : xdr.
Lemma ScSpecUdtUnionCaseV0Kind_coded : coded 1 ScSpecUdtUnionCaseV0Kind_valid ScSpecUdtUnionCaseV0Kind_EncodeTo
    ScSpecUdtUnionCaseV0Kind_DecodeFrom.
Proof. by apply (enum_coded scSpecUdtUnionCaseV0KindMap). Qed.
#[local] Hint Resolve ScSpecUdtUnionCaseV0Kind_coded : xdr.
Lemma ScSpecUdtUnionCaseV0_coded : coded (4 * nesting + 5) ScSpecUdtUnionCaseV0_valid ScSpecUdtUnionCaseV0_EncodeTo
    ScSpecUdtUnionCaseV0_DecodeFrom.
Proof. xdr_union ScSpecUdtUnionCaseV0_EncodeTo ScSpecUdtUnionCaseV0_DecodeFrom ScSpecUdtUnionCaseV0_valid. Qed.
#[local] Hint Resolve ScSpecUdtUnionCaseV0_coded : xdr.
Lemma ScSpecUdtUnionV0_coded : coded (4 * nesting + 6) ScSpecUdtUnionV0_valid ScSpecUdtUnionV0_EncodeTo ScSpecUdtUnionV0_DecodeFrom.
Proof. xdr_record ScSpecUdtUnionV0_EncodeTo ScSpecUdtUnionV0_DecodeFrom ScSpecUdtUnionV0_valid. Qed.
#[local] Hint Resolve ScSpecUdtUnionV0_coded : xdr.
Lemma ScSpecUdtEnumCaseV0_coded : coded 2 ScSpecUdtEnumCaseV0_valid ScSpecUdtEnumCaseV0_EncodeTo ScSpecUdtEnumCaseV0_DecodeFrom.
Proof. xdr_record ScSpecUdtEnumCaseV0_EncodeTo ScSpecUdtEnumCaseV0_DecodeFrom ScSpecUdtEnumCaseV0_valid. Qed.
#[local] Hint Resolve ScSpecUdtEnumCaseV0_coded : xdr.
Lemma ScSpecUdtEnumV0_coded : coded 3 ScSpecUdtEnumV0_valid ScSpecUdtEnumV0_EncodeTo ScSpecUdtEnumV0_DecodeFrom.
Proof. xdr_record ScSpecUdtEnumV0_EncodeTo ScSpecUdtEnumV0_DecodeFrom ScSpecUdtEnumV0_valid. Qed.
#[local] Hint Resolve ScSpecUdtEnumV0_coded : xdr.
Lemma ScSpecUdtErrorEnumCaseV0_coded : coded 2 ScSpecUdtErrorEnumCaseV0_valid ScSpecUdtErrorEnumCaseV0_EncodeTo
    ScSpecUdtErrorEnumCaseV0_DecodeFrom.
Proof. xdr_record ScSpecUdtErrorEnumCaseV0_EncodeTo ScSpecUdtErrorEnumCaseV0_DecodeFrom ScSpecUdtErrorEnumCaseV0_valid. Qed.
#[local] Hint Resolve ScSpecUdtErrorEnumCaseV0_coded : xdr.
Lemma ScSpecUdtErrorEnumV0_coded : coded 3 ScSpecUdtErrorEnumV0_valid ScSpecUdtErrorEnumV0_EncodeTo ScSpecUdtErrorEnumV0_DecodeFrom.
Proof. xdr_record ScSpecUdtErrorEnumV0_EncodeTo ScSpecUdtErrorEnumV0_DecodeFrom ScSpecUdtErrorEnumV0_valid. Qed.
#[local] Hint Resolve ScSpecUdtErrorEnumV0_coded : xdr.
Lemma ScSpecFunctionInputV0_coded : coded (4 * nesting + 4) ScSpecFunctionInputV0_valid ScSpecFunctionInputV0_EncodeTo
    ScSpecFunctionInputV0_DecodeFrom.
Proof. xdr_record ScSpecFunctionInputV0_EncodeTo ScSpecFunctionInputV0_DecodeFrom ScSpecFunctionInputV0_valid. Qed.
#[local] Hint Resolve ScSpecFunctionInputV0_coded : xdr.
Lemma ScSpecFunctionV0_coded : coded (4 * nesting + 5) ScSpecFunctionV0_valid ScSpecFunctionV0_EncodeTo ScSpecFunctionV0_DecodeFrom.
Proof. xdr_record ScSpecFunctionV0_EncodeTo ScSpecFunctionV0_DecodeFrom ScSpecFunctionV0_valid. Qed.
#[local] Hint Resolve ScSpecFunctionV0_coded : xdr.
Lemma ScSpecEventParamLocationV0_coded : coded 1 ScSpecEventParamLocationV0_valid ScSpecEventParamLocationV0_EncodeTo
    ScSpecEventParamLocationV0_DecodeFrom.
Proof. by apply (enum_coded scSpecEventParamLocationV0Map). Qed.
#[local] Hint Resolve ScSpecEventParamLocationV0_coded : xdr.
Lemma ScSpecEventParamV0_coded : coded (4 * nesting + 4) ScSpecEventParamV0_valid ScSpecEventParamV0_EncodeTo ScSpecEventParamV0_DecodeFrom.
Proof. xdr_record ScSpecEventParamV0_EncodeTo ScSpecEventParamV0_DecodeFrom ScSpecEventParamV0_valid. Qed.
#[local] Hint Resolve ScSpecEventParamV0_coded : xdr.
Lemma ScSpecEventDataFormat_coded : coded 1 ScSpecEventDataFormat_valid ScSpecEventDataFormat_EncodeTo ScSpecEventDataFormat_DecodeFrom.
Proof. by apply (enum_coded scSpecEventDataFormatMap). Qed.
#[local] Hint Resolve ScSpecEventDataFormat_coded : xdr.
Lemma ScSpecEventV0_coded : coded (4 * nesting + 5) ScSpecEventV0_valid ScSpecEventV0_EncodeTo ScSpecEventV0_DecodeFrom.
Proof. xdr_record ScSpecEventV0_EncodeTo ScSpecEventV0_DecodeFrom ScSpecEventV0_valid. Qed.
#[local] Hint Resolve ScSpecEventV0_coded : xdr.
Lemma ScSpecEntryKind_coded : coded 1 ScSpecEntryKind_valid ScSpecEntryKind_EncodeTo ScSpecEntryKind_DecodeFrom.
Proof. by apply (enum_coded scSpecEntryKindMap). Qed.
#[local] Hint Resolve ScSpecEntryKind_coded : xdr.
Lemma ScSpecEntry_coded : coded (4 * nesting + 7) ScSpecEntry_valid ScSpecEntry_EncodeTo ScSpecEntry_DecodeFrom.
Proof. xdr_union ScSpecEntry_EncodeTo ScSpecEntry_DecodeFrom ScSpecEntry_valid. Qed.
#[local] Hint Resolve ScSpecEntry_coded : xdr.
Lemma StoredTransactionSet_coded : coded (5 * nesting + 28) StoredTransactionSet_valid StoredTransactionSet_EncodeTo
    StoredTransactionSet_DecodeFrom.
Proof. xdr_union StoredTransactionSet_EncodeTo StoredTransactionSet_DecodeFrom StoredTransactionSet_valid. Qed.
#[local] Hint Resolve StoredTransactionSet_coded : xdr.
Lemma StoredDebugTransactionSet_coded : coded (5 * nesting + 29) StoredDebugTransactionSet_valid StoredDebugTransactionSet_EncodeTo
    StoredDebugTransactionSet_DecodeFrom.
Proof. xdr_record StoredDebugTransactionSet_EncodeTo StoredDebugTransactionSet_DecodeFrom StoredDebugTransactionSet_valid. Qed.
#[local] Hint Resolve StoredDebugTransactionSet_coded : xdr.
Lemma PersistedScpStateV0_coded : coded (5 * nesting + 29) PersistedScpStateV0_valid PersistedScpStateV0_EncodeTo
    PersistedScpStateV0_DecodeFrom.
Proof. xdr_record PersistedScpStateV0_EncodeTo PersistedScpStateV0_DecodeFrom PersistedScpStateV0_valid. Qed.
#[local] Hint Resolve PersistedScpStateV0_coded : xdr.
Lemma PersistedScpStateV1_coded : coded (4 * nesting + 7) PersistedScpStateV1_valid PersistedScpStateV1_EncodeTo
    PersistedScpStateV1_DecodeFrom.
Proof. xdr_record PersistedScpStateV1_EncodeTo PersistedScpStateV1_DecodeFrom PersistedScpStateV1_valid. Qed.
#[local] Hint Resolve PersistedScpStateV1_coded : xdr.
Lemma PersistedScpState_coded : coded (5 * nesting + 30) PersistedScpState_valid PersistedScpState_EncodeTo PersistedScpState_DecodeFrom.
Proof. xdr_union PersistedScpState_EncodeTo PersistedScpState_DecodeFrom PersistedScpState_valid. Qed.
#[local] Hint Resolve PersistedScpState_coded : xdr.
Lemma ContractCostType_coded : coded 1 ContractCostType_valid ContractCostType_EncodeTo ContractCostType_DecodeFrom.
Proof. by apply (enum_coded contractCostTypeMap). Qed.
#[local] Hint Resolve ContractCostType_coded : xdr.
Lemma LedgerCloseMetaBatch_coded : coded (5 * nesting + 30) LedgerCloseMetaBatch_valid LedgerCloseMetaBatch_EncodeTo
    LedgerCloseMetaBatch_DecodeFrom.
Proof. xdr_record LedgerCloseMetaBatch_EncodeTo LedgerCloseMetaBatch_DecodeFrom LedgerCloseMetaBatch_valid. Qed.
#[local] Hint Resolve LedgerCloseMetaBatch_coded : xdr.
End Laws.
#[export] Hint Resolve
  ThresholdIndexes_coded AccountFlags_coded TrustLineFlags_coded OfferEntryFlags_coded
  ClaimableBalanceFlags_coded BucketListType_coded BucketEntryType_coded HotArchiveBucketEntryType_coded
  BucketMetadataExt_coded BucketMetadata_coded BucketEntry_coded HotArchiveBucketEntry_coded
  LedgerHeaderFlags_coded ConfigUpgradeSet_coded TransactionResultSet_coded TransactionHistoryEntryExt_coded
  TransactionHistoryEntry_coded TransactionHistoryResultEntryExt_coded TransactionHistoryResultEntry_coded
      InvokeHostFunctionSuccessPreImage_coded
  ErrorCode_coded Error_coded SendMore_coded SendMoreExtended_coded
  Curve25519Public_coded AuthCert_coded Hello_coded Auth_coded
  IpAddrType_coded PeerAddressIp_coded PeerAddress_coded MessageType_coded
  DontHave_coded SurveyMessageCommandType_coded SurveyMessageResponseType_coded TimeSlicedSurveyStartCollectingMessage_coded
  SignedTimeSlicedSurveyStartCollectingMessage_coded TimeSlicedSurveyStopCollectingMessage_coded
      SignedTimeSlicedSurveyStopCollectingMessage_coded SurveyRequestMessage_coded
  TimeSlicedSurveyRequestMessage_coded SignedTimeSlicedSurveyRequestMessage_coded EncryptedBody_coded SurveyResponseMessage_coded
  TimeSlicedSurveyResponseMessage_coded SignedTimeSlicedSurveyResponseMessage_coded PeerStats_coded TimeSlicedNodeData_coded
  TimeSlicedPeerData_coded TimeSlicedPeerDataList_coded TopologyResponseBodyV2_coded SurveyResponseBody_coded
  TxAdvertVector_coded FloodAdvert_coded TxDemandVector_coded FloodDemand_coded
  StellarMessage_coded HmacSha256Mac_coded AuthenticatedMessageV0_coded AuthenticatedMessage_coded
  SorobanAuthorizationEntries_coded HashIdPreimageOperationId_coded HashIdPreimageRevokeId_coded HashIdPreimageContractId_coded
  HashIdPreimageSorobanAuthorization_coded HashIdPreimageSorobanAuthorizationWithAddress_coded HashIdPreimage_coded
      TransactionSignaturePayloadTaggedTransaction_coded
  TransactionSignaturePayload_coded Curve25519Secret_coded HmacSha256Key_coded ShortHashSeed_coded
  BinaryFuseFilterType_coded SerializedBinaryFuseFilter_coded ScEnvMetaKind_coded ScEnvMetaEntryInterfaceVersion_coded
  ScEnvMetaEntry_coded ScMetaV0_coded ScMetaKind_coded ScMetaEntry_coded
  ScSpecType_coded ScSpecTypeBytesN_coded ScSpecTypeUdt_coded ScSpecTypeDef_coded
  ScSpecUdtStructFieldV0_coded ScSpecUdtStructV0_coded ScSpecUdtUnionCaseVoidV0_coded ScSpecUdtUnionCaseTupleV0_coded
  ScSpecUdtUnionCaseV0Kind_coded ScSpecUdtUnionCaseV0_coded ScSpecUdtUnionV0_coded ScSpecUdtEnumCaseV0_coded
  ScSpecUdtEnumV0_coded ScSpecUdtErrorEnumCaseV0_coded ScSpecUdtErrorEnumV0_coded ScSpecFunctionInputV0_coded
  ScSpecFunctionV0_coded ScSpecEventParamLocationV0_coded ScSpecEventParamV0_coded ScSpecEventDataFormat_coded
  ScSpecEventV0_coded ScSpecEntryKind_coded ScSpecEntry_coded StoredTransactionSet_coded
  StoredDebugTransactionSet_coded PersistedScpStateV0_coded PersistedScpStateV1_coded PersistedScpState_coded
  ContractCostType_coded LedgerCloseMetaBatch_coded : xdr.
