(* ===== verification/XdrSpec.v ===== *)
(** * What encodings of transactions keep

    Every envelope within the sizes of the protocol is read back from its encoding, in
    bytes and in base 64; the hash that is signed covers all of a transaction; and
    ledgers written one after the other in frames are read back in order. *)
From Stdlib Require Import ZArith Lia.
From stdpp Require Import base list vector option.
From S2P Require Import Prelude GoStd GoExt Price Encodings Strkey Sha256 XdrStream ArchiveState Asset LedgerEntries CloseMeta Accounts Envelopes.
From S2P Require Import TokenDeltas Keypair TxnXdr TxnAssets TxnOperations TxnTransaction XdrCodec XdrTypes XdrTransactions XdrLedger.
#[local] Open Scope Z_scope.
#[local] Open Scope go_scope.
#[local] Existing Instances xdr_entries xdr_soroban.

(** ** The encodings of package xdr *)
Section Codec.
Context {X : GoXdrCoder} {N : Nesting}.

Definition TransactionEnvelope_MarshalBinary (s : XdrEnvelope) : option bytes := TransactionEnvelope_EncodeTo s.
Definition TransactionEnvelope_UnmarshalBinary (inp : bytes) : option XdrEnvelope :=
  UnmarshalBinary_ TransactionEnvelope_DecodeFrom inp.
Definition MarshalBase64 (v : XdrEnvelope) : option bytes :=
  let! raw := TransactionEnvelope_MarshalBinary v in Some (StdEncoding_EncodeToString raw).

(** The decoder takes the text four characters at a time, of which it skips line breaks
    that come before a character it needs, and all of the text must have been taken.
    (Padding within a text, at which the code goes on when it ends a read, is refused
    here.) *)
Definition quanta (n : Z) : Z := (n + 2) / 3.
Definition ends_in_break (data : bytes) : bool := match list.last data with Some c => line_break c | None => false end.
Definition safe_unmarshal (data : bytes) : option XdrEnvelope :=
  if ends_in_break data then None
  else
    let! b := StdEncoding_DecodeString data in
    let! r := TransactionEnvelope_DecodeFrom DefaultMaxDepth (NewDecoderWithOptions b (go_len data / 4 * 3)) in
    if quanta r.1.2 =? quanta (go_len b) then Some r.1.1 else None.

Definition xdr_codec : TransactionCodec := {|
  Transaction_MarshalBinary := Transaction_EncodeTo;
  FeeBump_MarshalBinary feeSource fee inner := FeeBumpTransaction_EncodeTo (feeSource, fee, inner);
  Envelope_MarshalBinary := TransactionEnvelope_MarshalBinary;
  SafeUnmarshalBase64 := safe_unmarshal
|}.

(** A ledger in its frame, as [MarshalFramed] writes any value. *)
Definition MarshalFramed_LedgerCloseMeta (v : XdrLedgerCloseMeta) : option bytes :=
  let! payload := LedgerCloseMeta_EncodeTo v in
  match MarshalFramed (SE := unit) (D := unit) payload with Ok frame => Some frame | Err _ => None end.
Fixpoint write_ledgers (metas : list XdrLedgerCloseMeta) : option bytes :=
  match metas with
  | [] => Some []
  | v :: metas => let! frame := MarshalFramed_LedgerCloseMeta v in let! b := write_ledgers metas in Some (frame ++ b)
  end.
Definition LedgerCloseMeta_DecodeBytes : bytes -> result unit (XdrLedgerCloseMeta * Z) := DecodeBytes LedgerCloseMeta_DecodeFrom.

(** Of a size that [ReadOne] takes by default. *)
Definition ledger_fits (v : XdrLedgerCloseMeta) : bool :=
  match LedgerCloseMeta_EncodeTo v with Some payload => go_len payload <=? DefaultMaxXDRStreamRecordSize | None => false end.
End Codec.
#[local] Existing Instance xdr_codec.

(** ** Texts *)
Lemma EncodeToString_no_last_break s : ends_in_break (StdEncoding_EncodeToString s) = false.
Proof.
  unfold ends_in_break. destruct (list.last _) as [c|] eqn:E; [|done].
  apply list.last_Some in E as [l El]. pose proof (EncodeToString_no_breaks s) as H. rewrite El in H.
  apply list.Forall_app in H as [_ H]. inversion_clear H. done.
Qed.
Lemma DecodedLen_enough s : go_len s <= go_len (StdEncoding_EncodeToString s) / 4 * 3.
Proof.
  unfold go_len at 2. rewrite length_EncodeToString. rewrite (Z.mul_comm 4), Z.div_mul by lia.
  pose proof (Z.div_mod (go_len s + 2) 3). pose proof (Z.mod_pos_bound (go_len s + 2) 3). lia.
Qed.

(** ** Envelopes *)
Section Laws.
Context {X : GoXdrCoder} {XL : GoXdrCoderLaws X} {N : Nesting}.

(** What follows the value within the last group of characters is not noticed. *)
Lemma safe_unmarshal_text e b t : TransactionEnvelope_valid e = true -> (5 * nesting + 21 <= DefaultMaxDepth)%nat ->
  TransactionEnvelope_EncodeTo e = Some b -> quanta (go_len b) = quanta (go_len (b ++ t)) ->
  safe_unmarshal (StdEncoding_EncodeToString (b ++ t)) = Some e.
Proof.
  intros Hv Hd Eb Hq. unfold safe_unmarshal. rewrite EncodeToString_no_last_break, DecodeString_EncodeToString.
  destruct (TransactionEnvelope_coded e _ Hv Hd) as (b' & Eb' & _ & Db). rewrite Eb in Eb'. injection Eb' as <-.
  destruct (Db (NewDecoderWithOptions (b ++ t) (go_len (StdEncoding_EncodeToString (b ++ t)) / 4 * 3)) t) as (d & -> & _).
  { apply reads_new. right. apply DecodedLen_enough. }
  cbn [fst snd]. by rewrite Hq, Z.eqb_refl.
Qed.

(** C17: an envelope of valid values is encoded; it is read back from its bytes and from
    their text in base 64; and what [Base64] returns for a transaction with such an
    envelope is parsed as that envelope. *)
Theorem envelope_reads_back e : TransactionEnvelope_valid e = true -> (5 * nesting + 21 <= DefaultMaxDepth)%nat ->
  exists b, TransactionEnvelope_MarshalBinary e = Some b /\ TransactionEnvelope_UnmarshalBinary b = Some e /\
    safe_unmarshal (StdEncoding_EncodeToString b) = Some e /\
    forall t, envelope t = e -> exists text, Base64 t = Some (Ok text) /\ TransactionFromXDR text = transactionFromParsedXDR e.
Proof.
  intros Hv Hd. destruct (UnmarshalBinary_coded _ _ _ _ _ TransactionEnvelope_coded Hv Hd) as (b & Eb & Db).
  exists b. split; [exact Eb|]. split; [exact Db|].
  assert (Hs : safe_unmarshal (StdEncoding_EncodeToString b) = Some e).
  { rewrite <- (app_nil_r b). apply safe_unmarshal_text; try done. by rewrite app_nil_r. }
  split; [exact Hs|]. intros t <-. exists (StdEncoding_EncodeToString b).
  unfold Base64, marshallBase64, TransactionFromXDR. cbn [Envelope_MarshalBinary SafeUnmarshalBase64 xdr_codec].
  unfold TransactionEnvelope_MarshalBinary. rewrite Eb, Hs. done.
Qed.

(** A text can hold a byte more than an envelope and be read as the envelope. *)
Theorem trailing_byte_unnoticed e b x : TransactionEnvelope_valid e = true -> (5 * nesting + 21 <= DefaultMaxDepth)%nat ->
  TransactionEnvelope_EncodeTo e = Some b -> go_len b mod 3 = 1 ->
  safe_unmarshal (StdEncoding_EncodeToString (b ++ [x])) = Some e.
Proof.
  intros Hv Hd Eb Hm. apply safe_unmarshal_text; try done. unfold quanta, go_len in *. rewrite length_app. cbn [length].
  pose proof (Z.div_mod (Z.of_nat (length b)) 3 ltac:(lia)) as E. rewrite Hm in E. rewrite Nat2Z.inj_add, E.
  transitivity (Z.of_nat (length b) / 3 + 1); [symmetry; apply Z.div_unique with 0|apply Z.div_unique with 1]; lia.
Qed.

(** ** The signed content *)
Definition signed_content (e : XdrEnvelope) : XdrTransaction + MuxedAccount_ * Z * option XdrTransactionV1Envelope :=
  match e with
  | XdrEnvelopeTxV0 t _ => inl (tx_of_V0 t)
  | XdrEnvelopeTx v => inl (v1_Tx v)
  | XdrEnvelopeTxFeeBump feeSource fee inner _ => inr (feeSource, fee, inner)
  end.
Definition encoded_content (e : XdrEnvelope) : option bytes :=
  match signed_content e with
  | inl tx => Transaction_EncodeTo tx
  | inr f => FeeBumpTransaction_EncodeTo f
  end.
Definition content_type (e : XdrEnvelope) : Z :=
  match signed_content e with inl _ => EnvelopeTypeTx_ | inr _ => EnvelopeTypeTxFeeBump_ end.
(** The message that is hashed, and the passphrase in its hash. *)
Definition hashed_messages (e : XdrEnvelope) (passphrase : bytes) : list bytes :=
  match encoded_content e with
  | Some b => [passphrase; vec_to_list (network_ID passphrase) ++ be_put 4 (content_type e) ++ b]
  | None => []
  end.

Lemma envelope_hash e passphrase h : network_HashTransactionInEnvelope e passphrase = Ok h ->
  exists b, encoded_content e = Some b /\ vec_to_list h = Sum256 (vec_to_list (network_ID passphrase) ++ be_put 4 (content_type e) ++ b).
Proof.
  intros H. assert (hashTx (content_type e) (encoded_content e) passphrase = Ok h) as Hh.
  { destruct e; exact H. }
  unfold hashTx in Hh. destruct (validatePassphrase passphrase); [done|]. destruct (encoded_content e) as [b|]; [|done].
  injection Hh as <-. exists b. split; [done|]. apply Sum256_array_bytes.
Qed.

Definition content_valid (e : XdrEnvelope) : Prop :=
  match signed_content e with
  | inl tx => Transaction_valid tx = true
  | inr f => FeeBumpTransaction_valid f = true
  end.
Lemma valid_content e : TransactionEnvelope_valid e = true -> content_valid e.
Proof.
  destruct e as [t s|v|f n i s]; unfold content_valid; cbn.
  - unfold TransactionV0Envelope_valid. intros [H _]%andb_true_iff. destruct t as [k fee seq tb memo ops]. unfold TransactionV0_valid in H. xdr_valid.
    change (Transaction_valid (mkXdrTransaction (KeyTypeEd25519 k) fee seq (XdrPreconditionsWithTimeBounds tb) memo ops None) = true).
    unfold Transaction_valid. repeat (apply andb_true_iff; split; [|done]); try done. apply andb_true_iff; split; [|by destruct tb].
    by apply andb_true_iff.
  - unfold TransactionV1Envelope_valid. destruct v as [tx sigs]. by intros [H _]%andb_true_iff.
  - unfold FeeBumpTransactionEnvelope_valid. by intros [H _]%andb_true_iff.
Qed.

Lemma no_collision_pairs a b c d : no_collision [a; b; c; d] ->
  (Sum256 a = Sum256 c -> a = c) /\ (Sum256 b = Sum256 d -> b = d).
Proof.
  intros H. split; intros E; apply H; try done;
    repeat first [apply list_elem_of_here|apply list_elem_of_further].
Qed.

(** C18: two valid envelopes with the same hash to sign, on two networks, are on the same
    network and have the same content: each is a transaction of either version with the
    same fields or a fee bump of the same signed transaction, unless the messages
    collide under SHA-256. *)
Theorem hash_covers_content e e' passphrase passphrase' h :
  TransactionEnvelope_valid e = true -> TransactionEnvelope_valid e' = true ->
  network_HashTransactionInEnvelope e passphrase = Ok h -> network_HashTransactionInEnvelope e' passphrase' = Ok h ->
  no_collision (hashed_messages e passphrase ++ hashed_messages e' passphrase') ->
  passphrase = passphrase' /\ signed_content e = signed_content e'.
Proof.
  intros Hv Hv' H H' Hn. destruct (envelope_hash _ _ _ H) as (b & Eb & Hb). destruct (envelope_hash _ _ _ H') as (b' & Eb' & Hb').
  unfold hashed_messages in Hn. rewrite Eb, Eb' in Hn. rewrite Hb in Hb'.
  destruct (no_collision_pairs _ _ _ _ Hn) as [Hp Hm]. apply Hm in Hb'.
  apply app_inj_1 in Hb' as [Ep Em]; [|by rewrite !length_vec_to_list].
  apply app_inj_1 in Em as [Et Ec]; [|by rewrite !length_be_put]. subst b'. split.
  - apply Hp. unfold network_ID in Ep. by rewrite !Sum256_array_bytes in Ep.
  - apply valid_content in Hv, Hv'. unfold content_valid, encoded_content, content_type in *.
    destruct (signed_content e) as [tx|f], (signed_content e') as [tx'|f']; try discriminate Et; f_equal.
    + by eapply (coded_inj _ _ _ _ Transaction_coded).
    + by eapply (coded_inj _ _ _ _ FeeBumpTransaction_coded).
Qed.

(** ** Streams of ledgers *)
Lemma write_ledgers_framed {SE : Type} metas : (5 * nesting + 29 <= DecodeDefaultMaxDepth)%nat ->
  Forall (fun v => LedgerCloseMeta_valid v = true) metas -> Forall (fun v => ledger_fits v = true) metas ->
  exists frames, write_ledgers metas = Some (concat frames) /\
    Forall2 (framed (SE := SE) LedgerCloseMeta_DecodeBytes) metas frames /\
    Forall (fun f => go_len f <= DefaultMaxXDRStreamRecordSize + 4) frames.
Proof.
  intros Hd Hv. induction Hv as [|v metas Hv _ IH]; intros Hf; [by exists []|]. apply Forall_cons_1 in Hf as [Hf Hfs].
  destruct (IH Hfs) as (frames & E & Hfr & Hl).
  destruct (DecodeBytes_coded _ _ _ _ _ LedgerCloseMeta_coded Hv Hd) as (p & Ep & Hp & Dp).
  unfold ledger_fits in Hf. rewrite Ep in Hf. apply Z.leb_le in Hf. assert (0 < go_len p) as Hp0 by (destruct p; [done|unfold go_len; cbn; lia]).
  assert (forall SE' : Type, MarshalFramed (SE := SE') (D := unit) p = Ok (be_put 4 (Z.lor (go_len p) xdrFrameLastFragment) ++ p)) as Em.
  { intros SE'. unfold MarshalFramed. rewrite u32_id by (unfold is_u32; lia).
    by replace (xdrFrameLengthMask <? go_len p) with false by (symmetry; apply Z.ltb_ge; lia). }
  exists ((be_put 4 (Z.lor (go_len p) xdrFrameLastFragment) ++ p) :: frames). split_and!.
  - cbn [write_ledgers concat]. unfold MarshalFramed_LedgerCloseMeta. by rewrite Ep, Em, E.
  - constructor; [|done]. exists p. split; [apply Em|]. split; [lia|exact Dp].
  - constructor; [|done]. unfold go_len in *. rewrite length_app, length_be_put. lia.
Qed.

(** C19: valid ledgers of any kind, encoded and framed one after the other, are the
    ledgers that [ReadOne] gives, in order, and then end of file; all bytes have been
    read then, and the hash that [ValidateHash] accepts is that of the written bytes,
    no other. *)
Theorem ledgers_read_back {SE : Type} (read_after_close : bytes -> result SE bytes) metas closing :
  (5 * nesting + 29 <= DecodeDefaultMaxDepth)%nat ->
  Forall (fun v => LedgerCloseMeta_valid v = true) metas -> Forall (fun v => ledger_fits v = true) metas ->
  read_after_close [] = Ok [] ->
  exists b x x', write_ledgers metas = Some b /\
    XdrStream.reads LedgerCloseMeta_DecodeBytes (NewStream b None closing) metas x /\
    ReadOne LedgerCloseMeta_DecodeBytes x = (Err io_EOF, x') /\ BytesRead x' = go_len b /\
    forall expected, XdrStream_ValidateHash (D := unit) Sum256 read_after_close x' expected = None <-> expected = Sum256 b.
Proof.
  intros Hd Hv Hf Hrc. destruct (write_ledgers_framed (SE := SE) metas Hd Hv Hf) as (frames & E & Hfr & Hl).
  destruct (framed_stream_roundtrip LedgerCloseMeta_DecodeBytes Sum256 read_after_close metas frames closing Hfr Hl Hrc)
    as (x & x' & H). by exists (concat frames), x, x'.
Qed.

(** Streams of ledgers with the same bytes hold the same ledgers. *)
Lemma write_ledgers_inj metas metas' b : (5 * nesting + 29 <= DecodeDefaultMaxDepth)%nat ->
  Forall (fun v => LedgerCloseMeta_valid v = true) metas -> Forall (fun v => ledger_fits v = true) metas ->
  Forall (fun v => LedgerCloseMeta_valid v = true) metas' -> Forall (fun v => ledger_fits v = true) metas' ->
  write_ledgers metas = Some b -> write_ledgers metas' = Some b -> metas = metas'.
Proof.
  intros Hd Hv Hf Hv' Hf' E E'. destruct (write_ledgers_framed (SE := unit) metas Hd Hv Hf) as (fs & W & F & _).
  destruct (write_ledgers_framed (SE := unit) metas' Hd Hv' Hf') as (fs' & W' & F' & _).
  rewrite W in E. rewrite W' in E'. injection E as <-. injection E' as E'. clear -F F' E'.
  revert metas' fs' F' E'. induction F as [|v f metas fs Hf Hfs IH]; intros metas' fs' [|v' f' ? ? Hf' Hfs']; cbn; intros E'.
  - done.
  - pose proof (framed_len _ _ _ Hf'). by destruct f'.
  - pose proof (framed_len _ _ _ Hf). by destruct f.
  - destruct (framed_prefix _ _ _ _ _ _ _ Hf' Hf E') as (<- & _ & E). f_equal. by eapply IH.
Qed.
End Laws.

(** ** At concrete values *)
Module SampleEncodings.
#[local] Existing Instances Rfc4506.coder Rfc4506.coder_laws.
#[local] Instance shallow : Nesting := {| nesting := 5 |}.

Definition hash : vec byte 32 := copy_array (zero_array 32) (replicate 32 (byte_of_Z 9)).
Definition key : vec byte 32 := copy_array (zero_array 32) (replicate 32 (byte_of_Z 200)).
Definition usd : Asset := CreditAlphanum4 (copy_array (zero_array 4) (str "USD")) hash.
Definition claim : ClaimPredicate :=
  ClaimPredicateAnd [ClaimPredicateNot (Some (ClaimPredicateBeforeAbsoluteTime 1700000000)); ClaimPredicateUnconditional].
Definition operations : list XdrOperation := [
  mkXdrOperation (Some (KeyTypeMuxedEd25519 7 key))
    (OperationTypePathPaymentStrictReceive Native 12345678901 (KeyTypeEd25519 hash) usd 50000000 [usd; Native]);
  mkXdrOperation None (OperationTypeCreateClaimableBalance usd 1 [mkXdrClaimant key claim]);
  mkXdrOperation None (OperationTypeManageData (str "name") (Some (Some (str "value"))))].
Definition signature : DecoratedSignature := mkDecorated (str "hint") (str "signature").
Definition conditions : XdrPreconditions :=
  PrecondV2 (mkXdrPreconditionsV2 (Some (mkTimeBounds 0 100)) None (Some (-1)) 2 3 []).
Definition inner : XdrTransactionV1Envelope :=
  mkV1Envelope (mkXdrTransaction (KeyTypeEd25519 hash) 300 (2 ^ 40) conditions (MemoTypeMemoText (str "hello")) operations None) [signature].
Definition fee_bump : XdrEnvelope := XdrEnvelopeTxFeeBump (KeyTypeEd25519 key) 800 (Some inner) [signature].

Lemma envelope_reads_back_witness :
  exists b, TransactionEnvelope_MarshalBinary fee_bump = Some b /\ TransactionEnvelope_UnmarshalBinary b = Some fee_bump /\
    safe_unmarshal (StdEncoding_EncodeToString b) = Some fee_bump /\
    forall t, envelope t = fee_bump -> exists text, Base64 t = Some (Ok text) /\ TransactionFromXDR text = transactionFromParsedXDR fee_bump.
Proof. apply (envelope_reads_back fee_bump). - vm_compute. reflexivity. - cbn. lia. Defined.

(** The same transaction in both versions. *)
Definition times : option TimeBounds_ := Some (mkTimeBounds 5 10).
Definition version0 : XdrEnvelope := XdrEnvelopeTxV0 (mkXdrTransactionV0 key 100 42 times MemoTypeMemoNone operations) [signature].
Definition version1 : XdrEnvelope :=
  XdrEnvelopeTx (mkV1Envelope (mkXdrTransaction (KeyTypeEd25519 key) 100 42 (XdrPreconditionsWithTimeBounds times) MemoTypeMemoNone operations None) []).
Definition passphrase : bytes := str "Test".
Definition content_hash : vec byte 32 :=
  match network_HashTransactionInEnvelope version0 passphrase with Ok h => h | Err _ => hash end.

Lemma sample_messages_differ : no_collision (hashed_messages version0 passphrase ++ hashed_messages version1 passphrase).
Proof.
  assert (exists m, hashed_messages version0 passphrase ++ hashed_messages version1 passphrase = [passphrase; m; passphrase; m]
    /\ Sum256 passphrase <> Sum256 m) as (m & -> & Hne).
  { exists (nth 1 (hashed_messages version0 passphrase) []). split; [vm_compute; reflexivity|].
    apply (bool_decide_eq_true_1 (~ _)). vm_compute. reflexivity. }
  intros a b Ha Hb E. repeat rewrite elem_of_cons in Ha, Hb. rewrite elem_of_nil in Ha, Hb.
  destruct Ha as [-> |[-> |[-> |[-> |[]]]]], Hb as [-> |[-> |[-> |[-> |[]]]]]; congruence.
Qed.
Lemma hash_covers_content_witness : passphrase = passphrase /\ signed_content version0 = signed_content version1.
Proof.
  apply (hash_covers_content version0 version1 passphrase passphrase content_hash).
  - vm_compute. reflexivity.
  - vm_compute. reflexivity.
  - vm_compute. reflexivity.
  - vm_compute. reflexivity.
  - exact sample_messages_differ.
Defined.

(** Two ledgers; the second has a transaction and an upgrade. *)
Definition header (seq : Z) : XdrLedgerHeaderHistoryEntry :=
  mkXdrLedgerHeaderHistoryEntry hash
    (mkXdrLedgerHeader 22 key (mkXdrStellarValue hash 1700000000 [str "upgrade"] StellarValueExt_StellarValueBasic) hash key seq 10 20 0 1 100
       5000000 1000 [hash; hash; hash; hash] LedgerHeaderExt_0).
Definition first_ledger : XdrLedgerCloseMeta := LedgerCloseMeta_0 (mkXdrLedgerCloseMetaV0 (header 2) (mkXdrTransactionSet key []) [] [] []).
Definition second_ledger : XdrLedgerCloseMeta :=
  LedgerCloseMeta_0 (mkXdrLedgerCloseMetaV0 (header 3) (mkXdrTransactionSet hash [version0]) []
    [mkXdrUpgradeEntryMeta (LedgerUpgrade_LedgerUpgradeBaseFee 200) []] []).
Definition drained (b : bytes) : result unit bytes := Ok [].

Lemma ledgers_read_back_witness :
  exists b x x', write_ledgers [first_ledger; second_ledger] = Some b /\
    XdrStream.reads LedgerCloseMeta_DecodeBytes (NewStream b None None) [first_ledger; second_ledger] x /\
    ReadOne LedgerCloseMeta_DecodeBytes x = (Err io_EOF, x') /\ BytesRead x' = go_len b /\
    forall expected, XdrStream_ValidateHash (D := unit) Sum256 drained x' expected = None <-> expected = Sum256 b.
Proof.
  apply (ledgers_read_back drained [first_ledger; second_ledger] None).
  - cbn. lia.
  - repeat constructor; vm_compute; reflexivity.
  - repeat constructor; vm_compute; reflexivity.
  - reflexivity.
Defined.
End SampleEncodings.
